(* ===== verification/_CoqProject ===== *)
-Q . S2P
Prelude.v
Slices.v
Serialization.v
Crc.v
LinkFrame.v
LinkParser.v
Transport.v
LinkLayer.v
TransportStack.v
Channels.v
AppHeader.v
Objects.v
ObjectParser.v
HeaderWriter.v
HeaderRoundtrip.v
EventList.v
EventBuffer.v
EventSpec.v
EventProps.v
OutstationState.v
RequestHandlers.v
EventWriters.v
EventResponse.v
RequestSpecs.v
Outstation.v
OutstationSpecs.v
OutstationSession.v
OutstationEvents.v
OutstationSelect.v
OutstationProps.v
Database.v
DatabaseSpecs.v
DatabaseProps.v
TaskBehavior.v
CommandSet.v
CommandProps.v
MeasurementHandler.v
MeasurementProps.v
MasterState.v
MasterTask.v
MasterScheduler.v
Master.v
RequestBuilding.v
MasterSpecs.v
MasterMethods.v
MasterSession.v
SchedulerProps.v
MasterMachine.v
MasterEvents.v
MasterRequests.v
MasterProps.v
