(* ===== verification/Prelude.v ===== *)
(** * A model of OpenDNP3 and the theorems about it

    The program is OpenDNP3 2.x, the DNP3 protocol stack in C++ under
    src/app/src/main/cpp/libs (src/ and include/ below mean its subdirectories);
    the rest of the repository is an Android application around it, bindings, tests
    and vendored code.  A master and an outstation talk over a channel through a
    stack of layers: the channel's bytes are parsed into link frames, the link
    layer acknowledges and delivers their user data, the transport function joins
    segments into fragments, and the application layer parses the fragments; the
    outstation answers reads from its database and its event buffer.

    ** Files

    - [Prelude]: machine integers ([u8], [u16], [u32] wrap; [is_u8], ... are the
      ranges), byte arrays with checked accesses, the state monad [SM] whose [None]
      is undefined behaviour, its triples [wp], lemmas and tactics.
    - [Slices]: openpal/container RSlice and WSlice.
    - [Serialization]: openpal/serialization (little-endian integers, Parse,
      Format) and sequence numbers.
    - [Crc]: opendnp3/link/CRC.cpp.
    - [LinkFrame]: LinkFrame.cpp, LinkHeader.cpp, LinkFunction (FT3 frames).
    - [LinkParser]: ShiftableBuffer.cpp, LinkLayerParser.cpp, the read loop of
      asiodnp3/IOHandler.cpp and DecodeLPDU of dnp3decode.  [Scan] is the reference
      parser on a plain list of bytes.
    - [Transport]: TransportHeader, TransportTx.cpp, TransportRx.cpp.  The class
      [ITransportSegment] is the interface of the same name; [TransportTx] is its
      instance and the link layer its client.
    - [LinkLayer]: LinkContext.cpp, LinkLayer.cpp, PriLinkLayerStates.cpp,
      SecLinkLayerStates.cpp; Module [Layer] is the class LinkLayer and [Events] the
      events of its context.  One definition per method; calls out of the layer
      (router, upper layer, listener) are appended to a trace, timers are flags, and
      what the outside delivers is an event.
    - [TransportStack]: TransportLayer.cpp and TransportStack.cpp, on the link layer:
      the calls between the two layers and the queue of the executor; and two stations
      joined by the frames of one and the parser of the other.
    - [Channels]: asiodnp3/IOHandler.cpp with asiopal/IAsyncChannel.h: the sessions of a
      channel and their transmissions, which are views of the buffers of the sessions.
      The class [ILinkSession] is the interface of the same name and [LinkSessionOk] what
      the handler relies on; a transport stack is an instance.
    - [AppHeader]: control field, function codes, IIN, class field, header parser,
      APDUWrapper and its subclasses, the builders without objects.
    - [Objects]: the object groups and variations, qualifiers, the layouts of the
      classes of src/opendnp3/objects; an object is the list of its fields.
    - [ObjectParser]: app/parsing: APDUParser.cpp and the parsers of counts, ranges,
      prefixes and free formats, given a handler ([IAPDUHandler]).
    - [HeaderWriter]: HeaderWriter, its iterators with their destructors, and the
      builders of requests with objects.
    - [HeaderRoundtrip]: what every use of a writer wrote, given to the parser.
    - [EventList]: outstation/event/List.h, nodes in an array.
    - [EventBuffer]: outstation/event: EventLists, EventUpdate, EventSelection,
      EventWriting, EventCollection, EventTypeImpl, EventStorage, EventBuffer.  The
      class [IEventWriteHandler] stands for the writer of the response.
    - [EventSpec]: the queue a buffer represents, and that each operation refines
      its counterpart on the queue.
    - [EventProps]: sequences of calls and the properties of the buffer.
    - [OutstationState]: outstation/: ControlState, TimeSyncState, RequestHistory,
      DeferredRequest, TxBuffer and the sequence numbers of both kinds of responses.
    - [RequestHandlers]: outstation/: ReadHandler, WriteHandler, AssignClassHandler,
      ClassBasedRequestHandler, CommandResponseHandler, CommandActionAdapter and
      ConstantCommandAction.  The classes [IStaticDatabase] and [Environment] are
      the database and the world outside; calls with an effect are a trace.
    - [EventWriters]: outstation/event/EventWriters and ASDUEventWriteHandler, which
      write events into a response; [EventResponse] is what a response then holds.
    - [RequestSpecs]: what each handler does with the objects it is given.
    - [Outstation]: OutstationContext, OutstationStates, ResponseContext; the three
      states are Modules, the virtual calls on the state are [dispatch].
    - [OutstationSpecs]: what a function handler may change, and the loading of
      responses.
    - [OutstationSession]: the invariant of a session ([session_at]), what a part of an
      event may change ([moved]), and the methods of the context.
    - [OutstationEvents]: the events from outside ([SessionEvent], [handle]) and what
      each does.
    - [OutstationSelect]: a second pass for select before operate: everything but the
      handling of the request that an event takes up ([taken_up]) leaves the selection
      alone and operates nothing ([quiet]); [acts] is what that request does.
    - [OutstationProps]: runs from the constructor on, the properties of a session, and
      a small outstation for which they are evaluated.

    - [Database]: outstation/: Cell, IndexSearch, StaticWriters, SelectedRanges,
      StaticBuffers with DatabaseBuffers, and Database with the application's updates;
      one type [Cell] for all kinds of points ([Spec]).  The class
      [StaticMeasurement] is what the database does with a value.
    - [DatabaseSpecs]: what the writers of static values do to the cells, the range and
      the response.
    - [DatabaseProps]: the invariant of the buffers ([buffers_ok]), the operations, the
      instance of the session's interface, and the properties of the database.

    - [TaskBehavior]: MonotonicTimestamp, TimeDuration and opendnp3/master/TaskBehavior:
      when a task runs, and when it is tried again.
    - [CommandSet]: master/: CommandSet, TypedCommandHeader, CommandSetOps and
      CommandTaskResult; [CommandProps] is what a response makes of the commands.
    - [MeasurementHandler]: master/MeasurementHandler, the calls that the application gets
      for the objects of a response; [MeasurementProps] joins it with the events that an
      outstation writes.
    - [MasterState]: the state of the masters of a channel: the tasks (a store, in which a
      pointer is a position), the sessions (MasterContext, MasterTasks), the scheduler
      they share, and the queue of the executor.  The class [MasterEnvironment] is the
      world outside.
    - [MasterTask]: IMasterTask and its twelve classes, one definition per method; a
      virtual method is a match on the class.
    - [MasterScheduler]: MasterSchedulerBackend; [SchedulerProps] is the order by which it
      chooses.
    - [Master]: MasterTasks and MContext, and the events of a channel ([MasterEvent],
      [MasterChannel.handle]).
    - [RequestBuilding]: what the writers of requests leave in the buffer.
    - [MasterSpecs]: what the methods of a task may change ([quiet]); [MasterMethods] are
      the methods of a task in these terms ([heard] is what a task makes of an answer).
    - [MasterSession]: the invariant of a channel ([channel_ok], [machine_ok] for the state
      machine of one session, [awake]) and what a method transmits and queues ([acts]).
    - [MasterMachine]: the methods of MContext; while one runs, what the invariant says of
      its session is put aside, and [goes] restores it.
    - [MasterEvents]: the events of the lower layer and the scheduler, and [conserves],
      what an event transmits; [MasterRequests]: timers, the queue of the executor, new
      tasks and sessions, and [channel_handle_wp] for every event.
    - [MasterProps]: runs of a channel ([reachable]), their properties, and a run for
      which they are evaluated.

    A C++ method is a function of the state to [option]: [None] is what the
    language leaves undefined (an access outside an array, a null or foreign
    pointer, a failed assert) or a loop that ran out of fuel, so a theorem that says
    a run is [Some] says that neither happens.  A class is a Record, its methods
    live in the Module of its name.  Unsigned fields are [Z] with the wrap-around
    written out.  A reference or pointer to an element of a list is the position of
    the node.

    ** What the theorems show

    - Link parser: for any division of the input into reads the parser delivers
      exactly the frames the reference scan finds, everything it delivers is a frame
      with correct CRCs, and every frame the formatters write is found again.
    - Frames and CRC: the formatted frame byte by byte, the round trip of user data,
      the table-driven CRC equals the polynomial division, bursts are detected.
    - Transport: segmentation and reassembly are inverse for every fragment that
      fits, and the receiver only delivers chains of segments of one station in
      sequence.
    - Link layer: for any sequence of events the code stays defined and keeps its
      invariant; confirmed data is delivered once; a send ends in exactly one
      completion; a frame in transmission is not overwritten;
      frames of other stations change nothing.
    - The stack: the two layers agree, a transmission in progress will be reported, and
      a message is refused while another one is sent.
    - The channel: it goes on whatever happens; a session is online exactly when it is
      enabled and the channel is open; frames are written once, in order and as they were
      when they were queued, as long as no session is taken off the channel while one of
      its frames is queued; every session ends up as if it alone had been given the frames
      that arrive.  Any messages that a station without link confirms transmits reach the
      application of the session they are for, whole and in order, for any division of
      the bytes into reads, and no other session.
    - Application headers: round trip of response headers, the IIN bits are
      independent, a class field is a set.
    - Objects: a fragment is handled entirely or not at all, whatever its bytes;
      what the writer wrote is accepted and reported header by header; where the
      one-byte counters of two iterators overflow.
    - Event buffer: every sequence of calls refines the queue; the newest events are
      kept; nothing is lost before its confirmation and what a confirmation clears
      is what was sent; a response with room is complete; the
      objects of a response, parsed by the other side, are the events it carries,
      with their times.
    - Outstation: whatever reaches a session it never fails and stays in order; one
      fragment is transmitted at a time; events leave only with a confirmation of the
      fragment that carries them; an OPERATE follows its SELECT; a request is answered
      once with its sequence number, a repeated one is not executed, a deferred one is
      answered in the end; malformed objects have no effect.
    - Database: a read is a snapshot: the response and its continuations report the
      points of the range with the values they had when they were selected, whatever the
      application updates meanwhile, and parsing the fragments gives these points back;
      an update changes one point and creates its event.
      The database satisfies the interface the session was proved against.

    - Master: the response to a SELECT is a success exactly when it repeats the commands;
      retries come later and later up to a maximum; the task that runs is the first of
      the best ones; the events in a response of the outstation reach the application of
      the master with their times.  Whatever reaches a channel of masters, it never fails
      and goes on: one task runs and waits for something that will happen, or a check for
      tasks is due, and no recurring task is lost; confirmations are sent once and in
      order; what is operated was selected by an answer that the session accepted.

    ** Fuel

    Loops over a range of indices get one round for each index.  Loops over a list get one more round than its array has nodes; the invariant
    [holds] makes every walk shorter.  The parser's loop gets four rounds for each byte of
    the buffer and five more, since at most four steps lie between two bytes read.  Both are
    proved enough: the theorems conclude that the runs are [Some].

    ** Not modelled

    Logging, asio and threads (the program runs the handlers of a stack one at a
    time on a strand), the bindings, the conversion of fields to measurements, and secure
    authentication.  What a session of a channel does in answer to a call comes after the
    event that made the call, and the clock is read once for a read.  A write of a channel
    takes the bytes that the view at the head of the queue shows when it begins, after the
    call of the session in which it begins; a socket may read the buffer until the write
    ends, which makes no difference as long as the buffer is left alone
    ([frames_written_in_order]).  How a connection is opened is left to the outside.  A task of a master is never freed (the destructor of a task and
    OnDestroyed of its callback), and callbacks of the application do not call the
    session again.  The runs of a channel of masters leave to the application every
    function code but those of commands and confirmations (PerformFunction takes any), and
    its writers of headers have to be writers ([builds]).  The measurement
    values are a parameter: the buffers store them without looking, and what the writers
    and the detection of events do with them are the classes [Measurement] and
    [StaticMeasurement].  The view for the configuration of a database is left out:
    configurations are fields of the cells. *)

From stdpp Require Export base option list list_numbers numbers.
From Stdlib Require Export ZArith Lia.

(** ** Machine integers

    An unsigned w-bit integer is a [Z] in [0, 2^w).  A C++ conversion to a
    narrower unsigned type is one of the wrapping functions below. *)

Declare Scope dnp3_scope.
Delimit Scope dnp3_scope with dnp3.

Definition u8 (z : Z) : Z := (z mod 256)%Z.

Definition u16 (z : Z) : Z := (z mod 65536)%Z.

Definition u32 (z : Z) : Z := (z mod 4294967296)%Z.

Definition is_u8 (z : Z) : Prop := (0 <= z < 256)%Z.

Definition is_u16 (z : Z) : Prop := (0 <= z < 65536)%Z.

Definition is_u32 (z : Z) : Prop := (0 <= z < 4294967296)%Z.

Abbreviation bytes := (list Z).

Abbreviation bytes_ok := (Forall is_u8).

#[export] Instance is_u8_dec z : Decision (is_u8 z).
Proof. unfold is_u8. apply _. Defined.

#[export] Instance is_u16_dec z : Decision (is_u16 z).
Proof. unfold is_u16. apply _. Defined.

#[export] Instance is_u32_dec z : Decision (is_u32 z).
Proof. unfold is_u32. apply _. Defined.

(** ** Byte stores

    A C++ array reached through pointers is a list of bytes.  An access outside
    the array has no defined meaning, so [None] is the result. *)

Definition mem_read (m : bytes) (off n : nat) : option bytes :=
  if decide (off + n <= length m) then Some (take n (drop off m)) else None.

Definition mem_write (m : bytes) (off : nat) (data : bytes) : option bytes :=
  if decide (off + length data <= length m)
  then Some (take off m ++ data ++ drop (off + length data) m)
  else None.

(** [memmove (m + dst, m + src, n)] inside one array; the source is read before
    the destination is written, so overlapping ranges are allowed. *)
Definition mem_move (m : bytes) (dst src n : nat) : option bytes :=
  data ← mem_read m src n; mem_write m dst data.

(** A C [assert]: the computation has no result when the condition fails. *)
Definition c_assert (b : bool) : option unit := if b then Some () else None.

(** ** Automation *)

Ltac Zify.zify_post_hook ::= Z.to_euclidean_division_equations.

Create HintDb dnp3.

Create Rewrite HintDb dnp3.

Ltac case_bool :=
  repeat match goal with
  | |- context [ if decide ?P then _ else _ ] => destruct (decide P)
  | H : context [ if decide ?P then _ else _ ] |- _ => destruct (decide P)
  | |- context [ if ?b then _ else _ ] => destruct b eqn:?
  | H : context [ if ?b then _ else _ ] |- _ => destruct b eqn:?
  end.

(** Splits a successful monadic computation in a hypothesis into its steps. *)
Ltac inv_bind :=
  repeat match goal with
  | H : mbind _ ?e = Some _ |- _ =>
      let x := fresh "x" in let E := fresh "E" in
      destruct e as [x|] eqn:E; cbn in H; [|discriminate H]
  | H : Some _ = Some _ |- _ => injection H as H; subst
  | H : None = Some _ |- _ => discriminate H
  | H : (_, _) = (_, _) |- _ => injection H as; subst
  end.

Ltac len :=
  repeat (rewrite length_app in * || rewrite length_take in * ||
          rewrite length_drop in * || rewrite length_cons in * ||
          rewrite length_nil in * || rewrite length_replicate in * ||
          rewrite length_insert in *);
  lia.

(** ** Integers *)

Section Integers.

Lemma u8_range z : is_u8 (u8 z).
Proof. unfold is_u8, u8. apply Z.mod_pos_bound. lia. Qed.

Lemma u16_range z : is_u16 (u16 z).
Proof. unfold is_u16, u16. apply Z.mod_pos_bound. lia. Qed.

Lemma u32_range z : is_u32 (u32 z).
Proof. unfold is_u32, u32. apply Z.mod_pos_bound. lia. Qed.

Lemma u8_small z : is_u8 z -> u8 z = z.
Proof. apply Z.mod_small. Qed.

Lemma u16_small z : is_u16 z -> u16 z = z.
Proof. apply Z.mod_small. Qed.

Lemma u32_small z : is_u32 z -> u32 z = z.
Proof. apply Z.mod_small. Qed.

(** A statement about a byte checked on the 256 values. *)
Lemma forall_u8 (P : Z -> bool) :
  forallb P (seqZ 0 256) = true -> forall z, is_u8 z -> P z = true.
Proof.
  intros H z Hz. rewrite forallb_forall in H. apply H.
  apply list_elem_of_In, elem_of_seqZ. unfold is_u8 in Hz. lia.
Qed.

Lemma testbit_high z n : (0 <= z < 2 ^ n)%Z -> forall i, (n <= i)%Z -> Z.testbit z i = false.
Proof.
  intros Hz i Hi. destruct (Z.ltb_spec n 0).
  { rewrite Z.pow_neg_r in Hz by lia. lia. }
  rewrite <- (Z.mod_small z (2 ^ n)) by lia. apply Z.mod_pow2_bits_high. lia.
Qed.

Lemma bound_by_bits z n :
  (0 <= n)%Z -> (0 <= z)%Z -> (forall i, (n <= i)%Z -> Z.testbit z i = false) -> (z < 2 ^ n)%Z.
Proof.
  intros Hn Hz Hbits. rewrite <- (Z.mod_small z (2 ^ n)); [apply Z.mod_pos_bound; lia|].
  split; [lia|]. destruct (Z.lt_ge_cases z (2 ^ n)) as [|Hge]; [done|].
  exfalso. assert (Hpos : (0 < z)%Z) by (pose proof (Z.pow_pos_nonneg 2 n); lia).
  pose proof (Z.bit_log2 z Hpos) as Hb.
  rewrite Hbits in Hb; [done|]. apply Z.log2_le_pow2; lia.
Qed.

Lemma lxor_bound a b n :
  (0 <= n)%Z -> (0 <= a < 2 ^ n)%Z -> (0 <= b < 2 ^ n)%Z -> (0 <= Z.lxor a b < 2 ^ n)%Z.
Proof.
  intros Hn Ha Hb.
  assert (0 <= Z.lxor a b)%Z by (apply Z.lxor_nonneg; lia). split; [done|].
  apply bound_by_bits; [done..|]. intros i Hi.
  by rewrite Z.lxor_spec, (testbit_high a n), (testbit_high b n).
Qed.

Lemma lor_bound a b n :
  (0 <= n)%Z -> (0 <= a < 2 ^ n)%Z -> (0 <= b < 2 ^ n)%Z -> (0 <= Z.lor a b < 2 ^ n)%Z.
Proof.
  intros Hn Ha Hb.
  assert (0 <= Z.lor a b)%Z by (apply Z.lor_nonneg; lia). split; [done|].
  apply bound_by_bits; [done..|]. intros i Hi.
  by rewrite Z.lor_spec, (testbit_high a n), (testbit_high b n).
Qed.

End Integers.

#[export] Hint Resolve u8_range u16_range u32_range : dnp3.
#[export] Hint Rewrite u8_small u16_small u32_small using done : dnp3.

(** ** Byte stores *)

Section Stores.

Lemma take_min {A} n (l : list A) : take (min n (length l)) l = take n l.
Proof. rewrite <- take_take. by rewrite (take_ge l (length l)) by lia. Qed.

Lemma drop_min {A} n (l : list A) : drop (min n (length l)) l = drop n l.
Proof.
  destruct (Nat.le_ge_cases (length l) n).
  - rewrite Nat.min_r by done. rewrite (drop_ge l n), drop_ge by lia. done.
  - by rewrite Nat.min_l.
Qed.

Lemma mem_read_Some m off n :
  off + n <= length m -> mem_read m off n = Some (take n (drop off m)).
Proof. intros. unfold mem_read. by rewrite decide_True. Qed.

Lemma mem_read_inv m off n r :
  mem_read m off n = Some r -> off + n <= length m /\ r = take n (drop off m).
Proof. unfold mem_read. case_bool; [|done]. by intros [= <-]. Qed.

Lemma mem_write_Some m off d :
  off + length d <= length m ->
  mem_write m off d = Some (take off m ++ d ++ drop (off + length d) m).
Proof. intros. unfold mem_write. by rewrite decide_True. Qed.

Lemma mem_write_length m off d m' : mem_write m off d = Some m' -> length m' = length m.
Proof. unfold mem_write. case_bool; [|done]. intros [= <-]. len. Qed.

Lemma mem_read_length m off n r : mem_read m off n = Some r -> length r = n.
Proof. intros [? ->]%mem_read_inv. len. Qed.

(** Bytes past the written range keep their value. *)
Lemma mem_write_drop m off d m' k :
  mem_write m off d = Some m' -> off + length d <= k -> drop k m' = drop k m.
Proof.
  unfold mem_write. case_bool; [|done]. intros [= <-] Hk.
  rewrite app_assoc, drop_app_ge by len.
  rewrite drop_drop. f_equal. len.
Qed.

Lemma mem_write_take m off d m' :
  mem_write m off d = Some m' -> take (off + length d) m' = take off m ++ d.
Proof.
  unfold mem_write. case_bool; [|done]. intros [= <-].
  rewrite app_assoc, take_app_le by len. apply take_ge. len.
Qed.

Lemma mem_write_read m off d m' :
  mem_write m off d = Some m' -> mem_read m' off (length d) = Some d.
Proof.
  intros H. pose proof (mem_write_length _ _ _ _ H).
  unfold mem_write in H. case_bool; [|done]. injection H as <-.
  rewrite mem_read_Some by len. f_equal.
  rewrite drop_app_ge by len. replace (off - length (take off m)) with 0 by len.
  by rewrite drop_0, take_app_length.
Qed.

Lemma mem_write_ok m off d m' :
  mem_write m off d = Some m' -> bytes_ok m -> bytes_ok d -> bytes_ok m'.
Proof.
  unfold mem_write. case_bool; [|done]. intros [= <-] ??.
  by apply Forall_app_2, Forall_app_2; [apply Forall_take| |apply Forall_drop].
Qed.

(** Consecutive writes are one write of the concatenation. *)
Lemma mem_write_app m off d1 d2 m1 m2 :
  mem_write m off d1 = Some m1 -> mem_write m1 (off + length d1) d2 = Some m2 ->
  mem_write m off (d1 ++ d2) = Some m2.
Proof.
  intros H1 H2. pose proof (mem_write_length _ _ _ _ H1) as Hl.
  pose proof (mem_write_take _ _ _ _ H1) as Ht.
  pose proof (fun k => mem_write_drop _ _ _ _ k H1) as Hd.
  unfold mem_write in H2. case_bool; [|done]. injection H2 as <-.
  unfold mem_write. rewrite decide_True by len.
  rewrite Ht, (Hd (off + length d1 + length d2)) by lia.
  by rewrite <- !app_assoc, length_app, Nat.add_assoc.
Qed.

Lemma mem_write_nil m off : off <= length m -> mem_write m off [] = Some m.
Proof. intros. rewrite mem_write_Some by len. simpl. by rewrite Nat.add_0_r, take_drop. Qed.

(** Consecutive writes composed from left to right. *)
Lemma mem_write_app_bind m off d1 d2 :
  off + length d1 + length d2 <= length m ->
  (m1 ← mem_write m off d1; mem_write m1 (off + length d1) d2) = mem_write m off (d1 ++ d2).
Proof.
  intros Hl. rewrite (mem_write_Some m off d1) by lia. simpl.
  set (m1 := _ ++ _). assert (H1 : mem_write m off d1 = Some m1) by (apply mem_write_Some; lia).
  pose proof (mem_write_length _ _ _ _ H1).
  destruct (mem_write m1 _ d2) as [m2|] eqn:H2.
  - symmetry. by eapply mem_write_app.
  - exfalso. rewrite mem_write_Some in H2 by lia. done.
Qed.

(** Reading below or inside a write. *)
Lemma mem_read_bytes m off n r : mem_read m off n = Some r -> bytes_ok m -> bytes_ok r.
Proof. intros [_ ->]%mem_read_inv ?. by apply Forall_take, Forall_drop. Qed.

Lemma mem_write_drop_at m off d m' :
  mem_write m off d = Some m' -> drop off m' = d ++ drop (off + length d) m.
Proof.
  unfold mem_write. case_bool; [|done]. intros [= <-].
  rewrite drop_app_ge by len. replace (off - length (take off m)) with 0 by len. done.
Qed.

Lemma mem_write_take_lt m off d m' k :
  mem_write m off d = Some m' -> k <= off -> take k m' = take k m.
Proof.
  unfold mem_write. case_bool; [|done]. intros [= <-] Hk.
  rewrite take_app_le by len. rewrite take_take. f_equal. lia.
Qed.

Lemma mem_write_byte (m : bytes) i b : i < length m -> mem_write m i [b] = Some (<[i := b]> m).
Proof.
  intros Hi. rewrite mem_write_Some by (cbn; lia). cbn [length]. rewrite insert_take_drop by done. by rewrite Nat.add_1_r.
Qed.

End Stores.

#[export] Hint Resolve mem_write_length mem_read_length mem_write_ok : dnp3.

(** ** Stateful code

    A method of a C++ object is a function from the state of the object and of
    what it shares with others; [None] is a failed assertion, a null dereference
    or an access outside an array. *)

Definition SM (W A : Type) : Type := W -> option (W * A).

#[export] Instance SM_ret W : MRet (SM W) := fun A a w => Some (w, a).

#[export] Instance SM_bind W : MBind (SM W) := fun A B f m w =>
  match m w with
  | Some (w, a) => f a w
  | None => None
  end.

Definition get {W A} (f : W -> A) : SM W A := fun w => Some (w, f w).

Definition modify {W} (f : W -> W) : SM W unit := fun w => Some (f w, tt).

(** Undefined behaviour. *)
Definition undefined {W A} : SM W A := fun _ => None.

(** Runs a fallible computation on a value. *)
Definition lift {W A} (o : option A) : SM W A := fun w => a ← o; Some (w, a).

(** [m] runs from [w] without undefined behaviour and ends in a state and with a
    result that satisfy [Q]. *)
Definition wp {W A} (m : SM W A) (w : W) (Q : A -> W -> Prop) : Prop :=
  match m w with
  | Some (w, a) => Q a w
  | None => False
  end.

Section StatefulCode.
Context {W : Type}.

Lemma wp_bind {A B} (m : SM W A) (f : A -> SM W B) w Q :
  wp (mbind f m) w Q <-> wp m w (fun a w => wp (f a) w Q).
Proof. unfold wp, mbind, SM_bind. by destruct (m w) as [[]|]. Qed.

(** Two steps taken together. *)
Lemma wp_assoc {A B C} (m : SM W A) (f : A -> SM W B) (g : B -> SM W C) w Q :
  wp (a ← m; b ← f a; g b) w Q <-> wp (a ← m; f a) w (fun b w => wp (g b) w Q).
Proof.
  rewrite !wp_bind. unfold wp. destruct (m w) as [[w1 a]|]; [|done].
  unfold mbind, SM_bind. by destruct (f a w1) as [[]|].
Qed.

Lemma wp_ret {A} (a : A) (w : W) Q : wp (mret a) w Q <-> Q a w.
Proof. done. Qed.

Lemma wp_get {A} (f : W -> A) w Q : wp (get f) w Q <-> Q (f w) w.
Proof. done. Qed.

Lemma wp_modify (f : W -> W) w Q : wp (modify f) w Q <-> Q tt (f w).
Proof. done. Qed.

Lemma wp_mono {A} (m : SM W A) w (Q Q' : A -> W -> Prop) :
  wp m w Q -> (forall a w, Q a w -> Q' a w) -> wp m w Q'.
Proof. unfold wp. destruct (m w) as [[]|]; auto. Qed.

Lemma wp_run {A} (m : SM W A) w Q : wp m w Q -> exists w' a, m w = Some (w', a) /\ Q a w'.
Proof. unfold wp. destruct (m w) as [[]|]; [eauto|done]. Qed.

Lemma wp_and {A} (m : SM W A) w (P Q : A -> W -> Prop) :
  wp m w P -> wp m w Q -> wp m w (fun a w => P a w /\ Q a w).
Proof. unfold wp. destruct (m w) as [[]|]; auto. Qed.

Lemma wp_of_run {A} (m : SM W A) w w' a (Q : A -> W -> Prop) : m w = Some (w', a) -> wp m w Q -> Q a w'.
Proof. unfold wp. by intros ->. Qed.

End StatefulCode.

(** Runs the steps of a stateful computation that need no lemma. *)
Ltac wp_go :=
  repeat (first [ rewrite wp_bind | rewrite wp_ret | rewrite wp_get | rewrite wp_modify ]; cbv beta).
