(* ===== verification/Slices.v ===== *)
(** * Slices: read-only and writable views of a buffer (openpal/container)

    An [RSlice] is the list of bytes it views.  A [WSlice] keeps the array it
    points into, the position of its first byte and its size, so that writes
    through it change that array. *)

From S2P Require Import Prelude.

(** ** The code *)

Abbreviation RSlice := bytes.

Module RSlice.

Definition Empty : RSlice := [].

Definition Size (s : RSlice) : nat := length s.

Definition IsEmpty (s : RSlice) : bool := Size s =? 0.

Definition IsNotEmpty (s : RSlice) : bool := negb (IsEmpty s).

Definition Take (s : RSlice) (count : nat) : RSlice := take (min (Size s) count) s.

Definition Skip (s : RSlice) (count : nat) : RSlice :=
  let num := min (Size s) count in take (Size s - num) (drop num s).

Definition Advance (s : RSlice) (count : nat) : RSlice :=
  let num := min (Size s) count in take (Size s - num) (drop num s).

Definition Equals (s rhs : RSlice) : bool :=
  if Size s =? Size rhs then bool_decide (s = rhs) else false.

End RSlice.

Record WSlice := mkWSlice {
  ws_array : bytes;   (** the array [pBuffer] points into *)
  ws_pos : nat;       (** offset of [pBuffer] in that array *)
  ws_size : nat       (** [size] *)
}.

Module WSlice.

Definition Advance (w : WSlice) (count : nat) : WSlice * nat :=
  let num := min count (ws_size w) in
  (mkWSlice (ws_array w) (ws_pos w + num) (ws_size w - num), num).

Definition Skip (w : WSlice) (count : nat) : WSlice :=
  let num := min count (ws_size w) in
  mkWSlice (ws_array w) (ws_pos w + num) (ws_size w - num).

(** [pBuffer[0 .. length data) = data]: a store through the slice's pointer. *)
Definition store (w : WSlice) (data : bytes) : option WSlice :=
  a ← mem_write (ws_array w) (ws_pos w) data;
  Some (mkWSlice a (ws_pos w) (ws_size w)).

Definition ToRSlice (w : WSlice) : option RSlice :=
  mem_read (ws_array w) (ws_pos w) (ws_size w).

(** A slice that stays inside its array. *)
Definition wf (w : WSlice) : Prop := ws_pos w + ws_size w <= length (ws_array w).

End WSlice.

(** [RSlice::CopyTo(WSlice& dest)]: the destination after the call and the
    slice that is returned. *)
Definition CopyTo (s : RSlice) (dest : WSlice) : option (WSlice * RSlice) :=
  if ws_size dest <? RSlice.Size s then Some (dest, RSlice.Empty)
  else
    d ← WSlice.store dest s;
    copy ← WSlice.ToRSlice d;
    Some ((WSlice.Advance d (RSlice.Size s)).1, RSlice.Take copy (RSlice.Size s)).

(** ** Lemmas *)

Section Lemmas.

Lemma Take_take s n : RSlice.Take s n = take n s.
Proof.
  unfold RSlice.Take, RSlice.Size. destruct (Nat.le_ge_cases (length s) n).
  - rewrite Nat.min_l by done. by rewrite !take_ge by lia.
  - by rewrite Nat.min_r.
Qed.

Lemma Skip_drop s n : RSlice.Skip s n = drop n s.
Proof.
  unfold RSlice.Skip, RSlice.Size. rewrite take_ge by len.
  destruct (Nat.le_ge_cases (length s) n).
  - rewrite Nat.min_l by done. by rewrite !drop_ge by lia.
  - by rewrite Nat.min_r.
Qed.

Lemma Advance_drop s n : RSlice.Advance s n = drop n s.
Proof. apply Skip_drop. Qed.

Lemma IsNotEmpty_true s : RSlice.IsNotEmpty s = true <-> s <> [].
Proof.
  unfold RSlice.IsNotEmpty, RSlice.IsEmpty, RSlice.Size. by destruct s; split.
Qed.

Lemma Equals_eq s r : RSlice.Equals s r = true <-> s = r.
Proof.
  unfold RSlice.Equals, RSlice.Size. destruct (Nat.eqb_spec (length s) (length r)).
  - by rewrite bool_decide_eq_true.
  - split; [done|]. by intros ->.
Qed.

(** A copy writes exactly the source at the destination's position. *)
Lemma CopyTo_spec s dest :
  WSlice.wf dest -> length s <= ws_size dest ->
  exists a, mem_write (ws_array dest) (ws_pos dest) s = Some a /\
    CopyTo s dest =
      Some (mkWSlice a (ws_pos dest + length s) (ws_size dest - length s), s).
Proof.
  unfold WSlice.wf. intros Hwf Hs.
  assert (Hw : exists a, mem_write (ws_array dest) (ws_pos dest) s = Some a).
  { rewrite mem_write_Some by lia. eauto. }
  destruct Hw as [a Hw]. exists a. split; [done|].
  unfold CopyTo, RSlice.Size. destruct (Nat.ltb_spec (ws_size dest) (length s)); [lia|].
  unfold WSlice.store. rewrite Hw. simpl.
  pose proof (mem_write_length _ _ _ _ Hw) as Hl.
  unfold WSlice.ToRSlice, WSlice.Advance. simpl.
  rewrite mem_read_Some by lia. simpl. rewrite Nat.min_l by lia.
  do 2 f_equal. rewrite Take_take, take_take, Nat.min_l by lia.
  pose proof (mem_write_read _ _ _ _ Hw) as Hr.
  apply mem_read_inv in Hr as [_ Hr]. by symmetry.
Qed.

(** A copy that does not fit leaves the destination alone. *)
Lemma CopyTo_too_small s dest :
  ws_size dest < length s -> CopyTo s dest = Some (dest, RSlice.Empty).
Proof.
  intros. unfold CopyTo, RSlice.Size. by destruct (Nat.ltb_spec (ws_size dest) (length s)); [|lia].
Qed.

End Lemmas.

#[export] Hint Rewrite Take_take Skip_drop Advance_drop : dnp3.
