(* ===== verification/Serialization.v ===== *)
(** * Serialization: little-endian integers and sequence numbers (openpal) *)

From S2P Require Import Prelude Slices.

Local Open Scope Z_scope.

(** ** Integers of a fixed width

    A [Serializer] is what the templates [ParseType] and [WriteType] use of a
    serializer class: its size, its limits and the conversion between a value
    and the bytes at a pointer. *)

Record Serializer := mkSerializer {
  SIZE : nat;
  Min : Z;
  Max : Z;
  decode : bytes -> Z;
  encode : Z -> bytes
}.

Definition byte_of (v : Z) (shift : Z) : Z := u8 (Z.land (Z.shiftr v shift) 0xFF).

Definition s16 (z : Z) : Z := let w := u16 z in if w <? 32768 then w else w - 65536.

Definition s32 (z : Z) : Z := let w := u32 z in if w <? 2147483648 then w else w - 4294967296.

Definition UInt8 : Serializer := mkSerializer 1 0 255
  (fun data => data !!! 0%nat)
  (fun v => [u8 v]).

Definition decode16 (data : bytes) : Z :=
  Z.lor (Z.shiftl (data !!! 0%nat) 0) (Z.shiftl (data !!! 1%nat) 8).

Definition encode16 (v : Z) : bytes := [byte_of v 0; byte_of v 8].

Definition decode32 (data : bytes) : Z :=
  Z.lor (Z.lor (Z.lor (Z.shiftl (data !!! 0%nat) 0) (Z.shiftl (data !!! 1%nat) 8))
               (Z.shiftl (data !!! 2%nat) 16))
        (Z.shiftl (data !!! 3%nat) 24).

Definition encode32 (v : Z) : bytes := [byte_of v 0; byte_of v 8; byte_of v 16; byte_of v 24].

Definition UInt16 : Serializer := mkSerializer 2 0 65535 decode16 encode16.

Definition Int16 : Serializer :=
  mkSerializer 2 (-32768) 32767 (fun data => s16 (decode16 data)) encode16.

Definition UInt32 : Serializer := mkSerializer 4 0 4294967295 decode32 encode32.

Definition Int32 : Serializer :=
  mkSerializer 4 (-2147483648) 2147483647 (fun data => s32 (decode32 data)) encode32.

Definition UInt48_MAX : Z := 281474976710655.

Definition decode48 (data : bytes) : Z :=
  Z.lor (Z.lor (Z.lor (Z.lor (Z.lor
    (Z.shiftl (data !!! 0%nat) 0) (Z.shiftl (data !!! 1%nat) 8))
    (Z.shiftl (data !!! 2%nat) 16)) (Z.shiftl (data !!! 3%nat) 24))
    (Z.shiftl (data !!! 4%nat) 32)) (Z.shiftl (data !!! 5%nat) 40).

(** [UInt48LE::Write] saturates at [MAX] before it writes. *)
Definition encode48 (value : Z) : bytes :=
  let value := if UInt48_MAX <? value then UInt48_MAX else value in
  [byte_of value 0; byte_of value 8; byte_of value 16;
   byte_of value 24; byte_of value 32; byte_of value 40].

Definition UInt48 : Serializer := mkSerializer 6 0 UInt48_MAX decode48 encode48.

(** [Serializer::Read(data)] and [Serializer::Write(data, value)]
    at offset [off] of an array. *)
Definition Read (s : Serializer) (m : bytes) (off : nat) : option Z :=
  data ← mem_read m off (SIZE s); Some (decode s data).

Definition Write (s : Serializer) (m : bytes) (off : nat) (v : Z) : option bytes :=
  mem_write m off (encode s v).

(** [ParseType<Serializer>(input, output)]: the value and the advanced slice,
    [None] when the function returns false and leaves both alone. *)
Definition ParseType (s : Serializer) (input : RSlice) : option (Z * RSlice) :=
  if (RSlice.Size input <? SIZE s)%nat then None
  else Some (decode s (take (SIZE s) input), RSlice.Advance input (SIZE s)).

(** [Parse::Many]: reads one value per serializer, stopping at the first that
    does not fit. *)
Fixpoint ParseMany (ss : list Serializer) (input : RSlice) : option (list Z * RSlice) :=
  match ss with
  | [] => Some ([], input)
  | s :: ss =>
      '(v, input) ← ParseType s input;
      '(vs, input) ← ParseMany ss input;
      Some (v :: vs, input)
  end.

(** [WriteType<Serializer>(dest, value)]: [None] is an access outside the
    array, [Some (dest, false)] the refusal when the slice is too small. *)
Definition WriteType (s : Serializer) (dest : WSlice) (v : Z) : option (WSlice * bool) :=
  if (ws_size dest <? SIZE s)%nat then Some (dest, false)
  else
    d ← WSlice.store dest (encode s v);
    Some ((WSlice.Advance d (SIZE s)).1, true).

(** [Format::Many] *)
Fixpoint FormatMany (svs : list (Serializer * Z)) (dest : WSlice) : option (WSlice * bool) :=
  match svs with
  | [] => Some (dest, true)
  | (s, v) :: svs =>
      '(dest, ok) ← WriteType s dest v;
      if (ok : bool) then FormatMany svs dest else Some (dest, false)
  end.

(** ** Sequence numbers: [SequenceNum<uint8_t, Modulus>] *)

Definition SequenceNum_Next (Modulus seq : Z) : Z := u8 ((seq + 1) mod Modulus).

(** ** What a client may rely on *)

Class SerializerOk (s : Serializer) := {
  encode_length : forall v, length (encode s v) = SIZE s;
  encode_bytes : forall v, bytes_ok (encode s v);
  decode_encode : forall v, Min s <= v <= Max s -> decode s (encode s v) = v;
  decode_range : forall data, bytes_ok data -> length data = SIZE s ->
    Min s <= decode s data <= Max s;
  encode_decode : forall data, bytes_ok data -> length data = SIZE s ->
    encode s (decode s data) = data
}.

(** A reference for the byte order: digits in base 256, least significant first. *)
Fixpoint le_value (data : bytes) : Z :=
  match data with
  | [] => 0
  | d :: data => d + 256 * le_value data
  end.

Fixpoint le_digits (n : nat) (v : Z) : bytes :=
  match n with
  | O => []
  | S n => v mod 256 :: le_digits n (v / 256)
  end.

(** ** Lemmas *)

Section LittleEndian.

Lemma lor_shiftl_add a b n :
  0 <= n -> 0 <= a < 2 ^ n -> Z.lor a (Z.shiftl b n) = a + b * 2 ^ n.
Proof.
  intros Hn Ha. rewrite Z.shiftl_mul_pow2 by done.
  assert (Hd : Z.land a (b * 2 ^ n) = 0).
  { apply Z.bits_inj'. intros i Hi. rewrite Z.land_spec, Z.bits_0.
    destruct (Z.lt_ge_cases i n).
    - by rewrite Z.mul_pow2_bits_low, andb_false_r by lia.
    - by rewrite (testbit_high a n) by lia. }
  pose proof (Z.add_lor_land a (b * 2 ^ n)). lia.
Qed.

Lemma byte_of_div v k : 0 <= k -> byte_of v k = (v / 2 ^ k) mod 256.
Proof.
  intros. unfold byte_of, u8. rewrite Z.shiftr_div_pow2 by done.
  change 0xFF with (Z.ones 8). rewrite Z.land_ones by lia. by rewrite Z.mod_mod by lia.
Qed.

Lemma byte_of_range v k : is_u8 (byte_of v k).
Proof. apply u8_range. Qed.

Lemma le_value_range data : bytes_ok data -> 0 <= le_value data < 256 ^ Z.of_nat (length data).
Proof.
  induction 1 as [|d data Hd Hs IH]; simpl le_value; [simpl; lia|].
  rewrite length_cons, Nat2Z.inj_succ, Z.pow_succ_r by lia. unfold is_u8 in Hd. nia.
Qed.

Lemma le_digits_value data : bytes_ok data -> le_digits (length data) (le_value data) = data.
Proof.
  induction 1 as [|d data Hd Hs IH]; [done|]. simpl. unfold is_u8 in Hd.
  f_equal.
  - rewrite (Z.mul_comm 256), Z_mod_plus_full. by apply Z.mod_small.
  - rewrite (Z.mul_comm 256), Z_div_plus_full by lia. by rewrite (Z.div_small d) by lia.
Qed.

Lemma le_value_digits n v : le_value (le_digits n v) = v mod 256 ^ Z.of_nat n.
Proof.
  revert v. induction n as [|n IH]; intros v; [by rewrite Z.mod_1_r|].
  simpl le_digits. simpl le_value. rewrite IH, Nat2Z.inj_succ, Z.pow_succ_r by lia.
  by rewrite (Z.rem_mul_r v 256 (256 ^ Z.of_nat n)) by lia.
Qed.

Lemma le_digits_length n v : length (le_digits n v) = n.
Proof. revert v. induction n; intros; simpl; by f_equal. Qed.

Lemma le_digits_mod n v : le_digits n (v mod 256 ^ Z.of_nat n) = le_digits n v.
Proof.
  revert v. induction n as [|n IH]; intros v; [done|]. simpl.
  rewrite Nat2Z.inj_succ, Z.pow_succ_r by lia.
  assert (0 < 256 ^ Z.of_nat n) by (apply Z.pow_pos_nonneg; lia).
  rewrite Z.rem_mul_r by lia. f_equal.
  - rewrite Z.mul_comm, Z_mod_plus_full, Z.mod_mod by lia. done.
  - rewrite Z.mul_comm, Z_div_plus_full by lia.
    rewrite (Z.div_small (v mod 256)) by (apply Z.mod_pos_bound; lia). apply IH.
Qed.

End LittleEndian.

Section Serializers.

Ltac bytes_cases data :=
  repeat (destruct data as [|? data]; [cbn in *; lia|]);
  destruct data; [|cbn in *; lia];
  repeat match goal with
  | H : bytes_ok (_ :: _) |- _ => apply Forall_cons_1 in H as [? H]
  end;
  unfold is_u8 in *.

Ltac sum_bytes :=
  cbn -[Z.lor Z.shiftl Z.mul Z.add];
  rewrite ?Z.shiftl_0_r;
  repeat match goal with
  | |- context [ Z.lor ?a (Z.shiftl ?b ?n) ] => rewrite (lor_shiftl_add a b n) by (cbn; lia)
  end.

Lemma decode16_value data : bytes_ok data -> length data = 2%nat -> decode16 data = le_value data.
Proof. intros H Hl. bytes_cases data. unfold decode16. sum_bytes. lia. Qed.

Lemma decode32_value data : bytes_ok data -> length data = 4%nat -> decode32 data = le_value data.
Proof. intros H Hl. bytes_cases data. unfold decode32. sum_bytes. lia. Qed.

Lemma decode48_value data : bytes_ok data -> length data = 6%nat -> decode48 data = le_value data.
Proof. intros H Hl. bytes_cases data. unfold decode48. sum_bytes. lia. Qed.

Ltac digits :=
  cbn [le_digits]; rewrite ?byte_of_div by lia; rewrite ?Z.div_div by lia;
  rewrite Z.div_1_r; reflexivity.

Lemma encode16_digits v : encode16 v = le_digits 2 v.
Proof. unfold encode16. digits. Qed.

Lemma encode32_digits v : encode32 v = le_digits 4 v.
Proof. unfold encode32. digits. Qed.

Lemma encode48_digits v : encode48 v = le_digits 6 (Z.min v UInt48_MAX).
Proof.
  unfold encode48.
  replace (if UInt48_MAX <? v then UInt48_MAX else v) with (Z.min v UInt48_MAX)
    by (destruct (Z.ltb_spec UInt48_MAX v); lia).
  digits.
Qed.

Lemma le_digits_bytes n v : bytes_ok (le_digits n v).
Proof.
  revert v. induction n; intros v; simpl; constructor; [|done].
  apply (u8_range v).
Qed.

Ltac powers :=
  change (256 ^ Z.of_nat 2) with 65536; change (256 ^ Z.of_nat 4) with 4294967296;
  change (256 ^ Z.of_nat 6) with 281474976710656.

(** A serializer whose bytes are the digits of [norm v], where [norm] is the
    identity on the values in range. *)
Lemma digits_ok s norm (unwrap : Z -> Z) :
  (forall v, encode s v = le_digits (SIZE s) (norm v)) ->
  (forall data, bytes_ok data -> length data = SIZE s -> decode s data = unwrap (le_value data)) ->
  (forall v, Min s <= v <= Max s -> unwrap (norm v mod 256 ^ Z.of_nat (SIZE s)) = v) ->
  (forall w, 0 <= w < 256 ^ Z.of_nat (SIZE s) ->
    Min s <= unwrap w <= Max s /\ norm (unwrap w) mod 256 ^ Z.of_nat (SIZE s) = w) ->
  SerializerOk s.
Proof.
  intros He Hd Hr Hw. split.
  - intros. by rewrite He, le_digits_length.
  - intros. rewrite He. apply le_digits_bytes.
  - intros. rewrite Hd, He, le_value_digits by (rewrite He; auto using le_digits_bytes, le_digits_length).
    by apply Hr.
  - intros data Hb Hl. rewrite Hd by done. apply Hw. rewrite <- Hl. by apply le_value_range.
  - intros data Hb Hl. pose proof (le_value_range data Hb) as Hrange. rewrite Hl in Hrange.
    rewrite Hd, He by done. rewrite <- le_digits_mod.
    rewrite (proj2 (Hw _ Hrange)), <- Hl. by apply le_digits_value.
Qed.

#[export] Instance UInt8_ok : SerializerOk UInt8.
Proof.
  split; cbn.
  - done.
  - intros. repeat constructor; apply u8_range.
  - intros. apply u8_small. unfold is_u8. lia.
  - intros data H Hl. bytes_cases data. cbn. lia.
  - intros data H Hl. bytes_cases data. cbn. rewrite u8_small; [done|]. unfold is_u8. lia.
Qed.

#[export] Instance UInt16_ok : SerializerOk UInt16.
Proof.
  apply (digits_ok UInt16 id id); unfold id; cbn -[Z.modulo Z.pow]; powers.
  - apply encode16_digits.
  - apply decode16_value.
  - intros. apply Z.mod_small. lia.
  - intros. split; [lia|]. apply Z.mod_small. lia.
Qed.

#[export] Instance UInt32_ok : SerializerOk UInt32.
Proof.
  apply (digits_ok UInt32 id id); unfold id; cbn -[Z.modulo Z.pow]; powers.
  - apply encode32_digits.
  - apply decode32_value.
  - intros. apply Z.mod_small. lia.
  - intros. split; [lia|]. apply Z.mod_small. lia.
Qed.

#[export] Instance Int16_ok : SerializerOk Int16.
Proof.
  apply (digits_ok Int16 id s16); unfold id; cbn -[Z.modulo Z.pow]; powers.
  - apply encode16_digits.
  - intros. by rewrite decode16_value.
  - intros. unfold s16, u16. cbv zeta. destruct (Z.ltb_spec ((v mod 65536) mod 65536) 32768); lia.
  - intros w Hw. unfold s16, u16. cbv zeta. destruct (Z.ltb_spec (w mod 65536) 32768); lia.
Qed.

#[export] Instance Int32_ok : SerializerOk Int32.
Proof.
  apply (digits_ok Int32 id s32); unfold id; cbn -[Z.modulo Z.pow]; powers.
  - apply encode32_digits.
  - intros. by rewrite decode32_value.
  - intros. unfold s32, u32. cbv zeta. destruct (Z.ltb_spec ((v mod 4294967296) mod 4294967296) 2147483648); lia.
  - intros w Hw. unfold s32, u32. cbv zeta. destruct (Z.ltb_spec (w mod 4294967296) 2147483648); lia.
Qed.

#[export] Instance UInt48_ok : SerializerOk UInt48.
Proof.
  apply (digits_ok UInt48 (fun v => Z.min v UInt48_MAX) id); unfold id, UInt48_MAX; cbn -[Z.modulo Z.min Z.pow]; powers.
  - apply encode48_digits.
  - apply decode48_value.
  - unfold UInt48_MAX. intros. rewrite Z.min_l by lia. apply Z.mod_small. lia.
  - unfold UInt48_MAX. intros. split; [lia|]. rewrite Z.min_l by lia. apply Z.mod_small. lia.
Qed.

End Serializers.

Section Streams.
Context (s : Serializer) {Hs : SerializerOk s}.

Lemma ParseType_encode v rest :
  Min s <= v <= Max s -> ParseType s (encode s v ++ rest) = Some (v, rest).
Proof.
  intros Hv. unfold ParseType, RSlice.Size. rewrite length_app, encode_length.
  destruct (Nat.ltb_spec (SIZE s + length rest) (SIZE s)); [lia|].
  rewrite Advance_drop, <- (encode_length v), take_app_length, drop_app_length.
  by rewrite decode_encode.
Qed.

Lemma ParseType_short input : (length input < SIZE s)%nat -> ParseType s input = None.
Proof.
  intros. unfold ParseType, RSlice.Size. by destruct (Nat.ltb_spec (length input) (SIZE s)); [|lia].
Qed.

(** Whatever is parsed is a value in range whose encoding was consumed. *)
Lemma ParseType_inv input v rest :
  bytes_ok input -> ParseType s input = Some (v, rest) ->
  Min s <= v <= Max s /\ input = encode s v ++ rest.
Proof.
  intros Hb. unfold ParseType, RSlice.Size.
  destruct (Nat.ltb_spec (length input) (SIZE s)); [done|]. intros [= <- <-].
  rewrite Advance_drop.
  assert (length (take (SIZE s) input) = SIZE s) by len.
  split; [apply decode_range|rewrite encode_decode, take_drop]; auto using Forall_take.
Qed.

Lemma WriteType_spec dest v :
  WSlice.wf dest ->
  exists d' ok, WriteType s dest v = Some (d', ok) /\
    ok = (SIZE s <=? ws_size dest)%nat /\
    (ok = false -> d' = dest) /\
    (ok = true -> exists a, mem_write (ws_array dest) (ws_pos dest) (encode s v) = Some a /\
       d' = mkWSlice a (ws_pos dest + SIZE s) (ws_size dest - SIZE s)).
Proof.
  unfold WSlice.wf, WriteType. intros Hwf.
  destruct (Nat.ltb_spec (ws_size dest) (SIZE s)) as [Hlt|Hge].
  - eexists _, _. split; [done|]. split; [|done].
    symmetry. apply Nat.leb_gt. lia.
  - unfold WSlice.store. rewrite mem_write_Some by (rewrite encode_length; lia). simpl.
    eexists _, _. split; [done|]. split; [symmetry; apply Nat.leb_le; lia|].
    split; [done|]. intros _. eexists. split; [done|].
    unfold WSlice.Advance. simpl. by rewrite Nat.min_l.
Qed.

End Streams.

Lemma parse_many_encoded (svs : list (Serializer * Z)) (rest : bytes) :
  Forall (fun sv => SerializerOk sv.1) svs ->
  Forall (fun sv => Min sv.1 <= sv.2 <= Max sv.1) svs ->
  ParseMany (map fst svs) (concat (map (fun sv => encode sv.1 sv.2) svs) ++ rest) =
    Some (map snd svs, rest).
Proof.
  induction 1 as [|[s v] svs Hok Hoks IH]; intros Hv; [done|].
  apply Forall_cons_1 in Hv as [Hv Hvs]. cbn in *.
  rewrite <- app_assoc, (ParseType_encode s v) by done. cbn.
  by rewrite IH.
Qed.

Definition total_size (ss : list Serializer) : nat := list_sum (map SIZE ss).

Lemma encodings_length (svs : list (Serializer * Z)) :
  Forall (fun sv => SerializerOk sv.1) svs ->
  length (concat (map (fun sv => encode sv.1 sv.2) svs)) = total_size (map fst svs).
Proof.
  induction 1 as [|[s v] svs Hok Hoks IH]; [done|]. cbn in *.
  by rewrite length_app, IH, encode_length.
Qed.

Lemma format_many_spec (svs : list (Serializer * Z)) dest :
  Forall (fun sv => SerializerOk sv.1) svs -> WSlice.wf dest ->
  (total_size (map fst svs) <= ws_size dest)%nat ->
  exists a, mem_write (ws_array dest) (ws_pos dest)
              (concat (map (fun sv => encode sv.1 sv.2) svs)) = Some a /\
    FormatMany svs dest =
      Some (mkWSlice a (ws_pos dest + total_size (map fst svs))
              (ws_size dest - total_size (map fst svs)), true).
Proof.
  intros Hok. revert dest. induction Hok as [|[s v] svs Hs Hoks IH]; intros [arr pos size];
    unfold WSlice.wf; simpl; intros Hwf Hfit.
  - exists arr. rewrite mem_write_Some by (simpl; lia). simpl.
    unfold total_size. simpl. by rewrite !Nat.add_0_r, take_drop, Nat.sub_0_r.
  - simpl in Hs. unfold total_size in Hfit. simpl in Hfit. fold (total_size (map fst svs)) in Hfit.
    destruct (WriteType_spec s (mkWSlice arr pos size) v) as (d' & ok & -> & Hk & _ & Hw); [done|].
    simpl in *. assert (ok = true) as -> by (rewrite Hk; apply Nat.leb_le; lia).
    destruct (Hw eq_refl) as (a1 & Ha1 & ->). simpl.
    pose proof (mem_write_length _ _ _ _ Ha1) as Hl.
    destruct (IH (mkWSlice a1 (pos + SIZE s) (size - SIZE s))) as (a & Ha & ->);
      unfold WSlice.wf; simpl in *; [lia..|].
    exists a. split.
    + eapply mem_write_app; [done|]. by rewrite encode_length.
    + unfold total_size at 3 4. simpl. fold (total_size (map fst svs)).
      do 3 f_equal; lia.
Qed.

(** ** Properties *)

(** [Format::Many] followed by [Parse::Many] is the identity: when the
    values are in range and their encodings fit in the destination slice, the
    writer succeeds, changes no byte outside the space it consumes, and the
    reader started at the same place gets the same values and stops exactly
    where the writer stopped. *)
Theorem format_parse_roundtrip (svs : list (Serializer * Z)) (dest : WSlice) :
  Forall (fun sv => SerializerOk sv.1) svs ->
  Forall (fun sv => Min sv.1 <= sv.2 <= Max sv.1) svs ->
  WSlice.wf dest ->
  (total_size (map fst svs) <= ws_size dest)%nat ->
  exists a, let n := total_size (map fst svs) in
    FormatMany svs dest = Some (mkWSlice a (ws_pos dest + n) (ws_size dest - n), true) /\
    take (ws_pos dest) a = take (ws_pos dest) (ws_array dest) /\
    drop (ws_pos dest + n) a = drop (ws_pos dest + n) (ws_array dest) /\
    ParseMany (map fst svs) (drop (ws_pos dest) a) =
      Some (map snd svs, drop (ws_pos dest + n) a).
Proof.
  intros Hok Hv Hwf Hfit. unfold WSlice.wf in Hwf.
  destruct (format_many_spec svs dest Hok Hwf Hfit) as (a & Ha & Hf). exists a. simpl.
  pose proof (encodings_length svs Hok) as Hlen.
  split; [done|]. pose proof (mem_write_drop _ _ _ _ (ws_pos dest + total_size (map fst svs)) Ha) as Hd.
  unfold mem_write in Ha. case_bool; [|done]. injection Ha as Ha.
  split; [|split; [apply Hd; lia|]].
  - rewrite <- Ha. rewrite take_app_le by len. rewrite take_take. f_equal. len.
  - rewrite Hd by lia. rewrite <- Ha at 1.
    rewrite drop_app_ge by len. replace (_ - _)%nat with 0%nat by len.
    rewrite drop_0, Hlen. by apply parse_many_encoded.
Qed.

Lemma format_parse_roundtrip_witness :
  exists a,
    FormatMany [(UInt8, 7); (Int16, -2); (UInt48, 281474976710655)] (mkWSlice (replicate 12 0) 2 10) =
      Some (mkWSlice a 11 1, true) /\
    take 2 a = take 2 (replicate 12 0) /\
    drop 11 a = drop 11 (replicate 12 0) /\
    ParseMany [UInt8; Int16; UInt48] (drop 2 a) = Some ([7; -2; 281474976710655], drop 11 a).
Proof.
  apply (format_parse_roundtrip [(UInt8, 7); (Int16, -2); (UInt48, 281474976710655)]
           (mkWSlice (replicate 12 0) 2 10)).
  - repeat (apply Forall_cons_2; [cbn; apply _|]). apply Forall_nil_2.
  - repeat constructor; cbn; unfold UInt48_MAX; lia.
  - unfold WSlice.wf. cbn. lia.
  - cbn. lia.
Defined.
