(* ===== verification/Crc.v ===== *)
(** * Crc: the 16-bit CRC of the link layer (src/.../opendnp3/link/CRC.cpp) *)

From S2P Require Import Prelude Serialization.

Local Open Scope Z_scope.

(** ** The code *)

(** The 256-entry lookup table of CRC.cpp. *)
Definition crcTable : list Z :=
  [
   0x0000; 0x365E; 0x6CBC; 0x5AE2; 0xD978; 0xEF26; 0xB5C4; 0x839A;
   0xFF89; 0xC9D7; 0x9335; 0xA56B; 0x26F1; 0x10AF; 0x4A4D; 0x7C13;
   0xB26B; 0x8435; 0xDED7; 0xE889; 0x6B13; 0x5D4D; 0x07AF; 0x31F1;
   0x4DE2; 0x7BBC; 0x215E; 0x1700; 0x949A; 0xA2C4; 0xF826; 0xCE78;
   0x29AF; 0x1FF1; 0x4513; 0x734D; 0xF0D7; 0xC689; 0x9C6B; 0xAA35;
   0xD626; 0xE078; 0xBA9A; 0x8CC4; 0x0F5E; 0x3900; 0x63E2; 0x55BC;
   0x9BC4; 0xAD9A; 0xF778; 0xC126; 0x42BC; 0x74E2; 0x2E00; 0x185E;
   0x644D; 0x5213; 0x08F1; 0x3EAF; 0xBD35; 0x8B6B; 0xD189; 0xE7D7;
   0x535E; 0x6500; 0x3FE2; 0x09BC; 0x8A26; 0xBC78; 0xE69A; 0xD0C4;
   0xACD7; 0x9A89; 0xC06B; 0xF635; 0x75AF; 0x43F1; 0x1913; 0x2F4D;
   0xE135; 0xD76B; 0x8D89; 0xBBD7; 0x384D; 0x0E13; 0x54F1; 0x62AF;
   0x1EBC; 0x28E2; 0x7200; 0x445E; 0xC7C4; 0xF19A; 0xAB78; 0x9D26;
   0x7AF1; 0x4CAF; 0x164D; 0x2013; 0xA389; 0x95D7; 0xCF35; 0xF96B;
   0x8578; 0xB326; 0xE9C4; 0xDF9A; 0x5C00; 0x6A5E; 0x30BC; 0x06E2;
   0xC89A; 0xFEC4; 0xA426; 0x9278; 0x11E2; 0x27BC; 0x7D5E; 0x4B00;
   0x3713; 0x014D; 0x5BAF; 0x6DF1; 0xEE6B; 0xD835; 0x82D7; 0xB489;
   0xA6BC; 0x90E2; 0xCA00; 0xFC5E; 0x7FC4; 0x499A; 0x1378; 0x2526;
   0x5935; 0x6F6B; 0x3589; 0x03D7; 0x804D; 0xB613; 0xECF1; 0xDAAF;
   0x14D7; 0x2289; 0x786B; 0x4E35; 0xCDAF; 0xFBF1; 0xA113; 0x974D;
   0xEB5E; 0xDD00; 0x87E2; 0xB1BC; 0x3226; 0x0478; 0x5E9A; 0x68C4;
   0x8F13; 0xB94D; 0xE3AF; 0xD5F1; 0x566B; 0x6035; 0x3AD7; 0x0C89;
   0x709A; 0x46C4; 0x1C26; 0x2A78; 0xA9E2; 0x9FBC; 0xC55E; 0xF300;
   0x3D78; 0x0B26; 0x51C4; 0x679A; 0xE400; 0xD25E; 0x88BC; 0xBEE2;
   0xC2F1; 0xF4AF; 0xAE4D; 0x9813; 0x1B89; 0x2DD7; 0x7735; 0x416B;
   0xF5E2; 0xC3BC; 0x995E; 0xAF00; 0x2C9A; 0x1AC4; 0x4026; 0x7678;
   0x0A6B; 0x3C35; 0x66D7; 0x5089; 0xD313; 0xE54D; 0xBFAF; 0x89F1;
   0x4789; 0x71D7; 0x2B35; 0x1D6B; 0x9EF1; 0xA8AF; 0xF24D; 0xC413;
   0xB800; 0x8E5E; 0xD4BC; 0xE2E2; 0x6178; 0x5726; 0x0DC4; 0x3B9A;
   0xDC4D; 0xEA13; 0xB0F1; 0x86AF; 0x0535; 0x336B; 0x6989; 0x5FD7;
   0x23C4; 0x159A; 0x4F78; 0x7926; 0xFABC; 0xCCE2; 0x9600; 0xA05E;
   0x6E26; 0x5878; 0x029A; 0x34C4; 0xB75E; 0x8100; 0xDBE2; 0xEDBC;
   0x91AF; 0xA7F1; 0xFD13; 0xCB4D; 0x48D7; 0x7E89; 0x246B; 0x1235
  ].

(** One iteration of the loop in [CRC::CalcCrc]. *)
Definition crc_step (crc b : Z) : Z :=
  let index := u8 (Z.land (Z.lxor crc b) 0xFF) in
  u16 (Z.lxor (crcTable !!! Z.to_nat index) (Z.shiftr crc 8)).

(** [CRC::CalcCrc(input, length)] on the [length] bytes it reads; the
    complement is converted back to [uint16_t]. *)
Definition CalcCrc (input : bytes) : Z := u16 (Z.lnot (foldl crc_step 0 input)).

(** [CRC::AddCrc(input + off, length)]: the CRC goes right after the bytes. *)
Definition AddCrc (m : bytes) (off len : nat) : option bytes :=
  input ← mem_read m off len;
  Write UInt16 m (off + len) (CalcCrc input).

(** [CRC::IsCorrectCRC(input + off, length)] *)
Definition IsCorrectCRC (m : bytes) (off len : nat) : option bool :=
  input ← mem_read m off len;
  crc ← Read UInt16 m (off + len);
  Some (CalcCrc input =? crc).

(** ** Reference: the polynomial division, bit by bit

    0xA6BC is the bit-reversed generator
    x^16 + x^13 + x^12 + x^11 + x^10 + x^8 + x^6 + x^5 + x^2 + 1. *)

Definition crc_bit (c : Z) : Z :=
  if Z.testbit c 0 then Z.lxor (Z.shiftr c 1) 0xA6BC else Z.shiftr c 1.

Fixpoint crc_bits (n : nat) (c : Z) : Z :=
  match n with
  | O => c
  | S n => crc_bits n (crc_bit c)
  end.

(** Each byte enters the low end of the register, then eight shifts follow. *)
Definition crc_reference (input : bytes) : Z :=
  u16 (Z.lnot (foldl (fun c b => crc_bits 8 (Z.lxor c b)) 0 input)).

(** ** Lemmas *)

Section Linearity.

Lemma crc_bit_lxor a b : crc_bit (Z.lxor a b) = Z.lxor (crc_bit a) (crc_bit b).
Proof.
  unfold crc_bit. rewrite Z.lxor_spec, Z.shiftr_lxor.
  destruct (Z.testbit a 0), (Z.testbit b 0); simpl;
    apply Z.bits_inj'; intros i Hi; rewrite !Z.lxor_spec;
    repeat destruct (Z.testbit _ i); done.
Qed.

Lemma crc_bits_lxor n a b : crc_bits n (Z.lxor a b) = Z.lxor (crc_bits n a) (crc_bits n b).
Proof. revert a b. induction n; intros; simpl; [done|]. by rewrite crc_bit_lxor. Qed.

Lemma crc_bits_app n m c : crc_bits (n + m) c = crc_bits m (crc_bits n c).
Proof. revert c. induction n; intros; simpl; auto. Qed.

(** Bits above the low [n] only move down during [n] shifts. *)
Lemma crc_bits_shiftl n c : crc_bits n (Z.shiftl c (Z.of_nat n)) = c.
Proof.
  revert c. induction n as [|n IH]; intros c; [apply Z.shiftl_0_r|].
  cbn [crc_bits]. unfold crc_bit at 1.
  rewrite Z.shiftl_spec_low by lia. rewrite Z.shiftr_shiftl_l by lia.
  replace (Z.of_nat (S n) - 1) with (Z.of_nat n) by lia. apply IH.
Qed.

Lemma crc_bit_range c : is_u16 c -> is_u16 (crc_bit c).
Proof.
  unfold is_u16, crc_bit. intros Hc. rewrite Z.shiftr_div_pow2 by lia. change (2 ^ 1) with 2.
  destruct (Z.testbit c 0); [|lia]. change 65536 with (2 ^ 16).
  apply lxor_bound; [lia| |lia]. change (2 ^ 16) with 65536. lia.
Qed.

Lemma crc_bits_range n c : is_u16 c -> is_u16 (crc_bits n c).
Proof. revert c. induction n; intros; simpl; auto using crc_bit_range. Qed.

Lemma crc_bit_zero c : is_u16 c -> crc_bit c = 0 -> c = 0.
Proof.
  unfold is_u16, crc_bit. intros Hc. rewrite Z.shiftr_div_pow2 by lia. change (2 ^ 1) with 2.
  destruct (Z.testbit c 0) eqn:Hodd.
  - intros H. apply Z.lxor_eq in H. lia.
  - rewrite Z.bit0_odd in Hodd. rewrite (Z.div_mod c 2) at 2 by lia.
    rewrite Zmod_odd, Hodd. lia.
Qed.

Lemma lxor_u16 a b : is_u16 a -> is_u16 b -> is_u16 (Z.lxor a b).
Proof. intros. change 65536 with (2 ^ 16). by apply (lxor_bound a b 16). Qed.

Lemma crc_bits_inj n a b : is_u16 a -> is_u16 b -> crc_bits n a = crc_bits n b -> a = b.
Proof.
  revert a b. induction n as [|n IH]; intros a b Ha Hb H; [done|].
  apply IH in H; auto using crc_bit_range.
  apply Z.lxor_eq, crc_bit_zero; [by apply lxor_u16|].
  by rewrite crc_bit_lxor, H, Z.lxor_nilpotent.
Qed.

End Linearity.

Section Table.

(** Every table entry is eight reference shifts of its index. *)
Lemma crcTable_entry b : is_u8 b -> crcTable !!! Z.to_nat b = crc_bits 8 b.
Proof.
  intros Hb. apply Z.eqb_eq. revert b Hb.
  apply (forall_u8 (fun b => crcTable !!! Z.to_nat b =? crc_bits 8 b)). vm_compute. reflexivity.
Qed.

Lemma split_low_byte c : 0 <= c -> c = Z.lxor (Z.land c 255) (Z.shiftl (Z.shiftr c 8) 8).
Proof.
  intros Hc. change 255 with (Z.ones 8). apply Z.bits_inj'. intros i Hi.
  rewrite Z.lxor_spec, Z.land_spec, Z.shiftl_spec by done.
  destruct (Z.lt_ge_cases i 8).
  - rewrite Z.ones_spec_low, (Z.testbit_neg_r _ (i - 8)) by lia. by rewrite andb_true_r, xorb_false_r.
  - rewrite Z.ones_spec_high, Z.shiftr_spec, andb_false_r by lia. simpl. f_equal. lia.
Qed.

Lemma crc_step_bits c b : is_u16 c -> is_u8 b -> crc_step c b = crc_bits 8 (Z.lxor c b).
Proof.
  intros Hc Hb. unfold crc_step.
  assert (Hx : is_u16 (Z.lxor c b)) by (apply lxor_u16; unfold is_u8, is_u16 in *; lia).
  assert (Hhi : Z.shiftr (Z.lxor c b) 8 = Z.shiftr c 8).
  { rewrite Z.shiftr_lxor, (Z.shiftr_div_pow2 b) by lia. unfold is_u8 in Hb.
    rewrite (Z.div_small b) by lia. apply Z.lxor_0_r. }
  assert (Hlo : is_u8 (Z.land (Z.lxor c b) 255)).
  { change 255 with (Z.ones 8). rewrite Z.land_ones by lia. apply u8_range. }
  rewrite (split_low_byte (Z.lxor c b)) at 2 by (unfold is_u16 in Hx; lia).
  rewrite crc_bits_lxor, (crc_bits_shiftl 8), Hhi.
  rewrite (u8_small _ Hlo), crcTable_entry by done.
  apply u16_small. apply lxor_u16.
  - apply crc_bits_range. unfold is_u8, is_u16 in *. lia.
  - unfold is_u16 in *. rewrite Z.shiftr_div_pow2 by lia. lia.
Qed.

Lemma crc_step_range c b : is_u16 (crc_step c b).
Proof. apply u16_range. Qed.

Lemma crc_fold_range c l : is_u16 c -> is_u16 (foldl crc_step c l).
Proof. revert c. induction l; intros; simpl; auto using crc_step_range. Qed.

Lemma crc_step_inj c c' b : is_u16 c -> is_u16 c' -> is_u8 b -> crc_step c b = crc_step c' b -> c = c'.
Proof.
  intros Hc Hc' Hb H. rewrite !crc_step_bits in H by done.
  assert (is_u16 b) by (unfold is_u8, is_u16 in *; lia).
  apply crc_bits_inj in H; [|by apply lxor_u16..].
  rewrite <- (Z.lxor_0_r c), <- (Z.lxor_0_r c'), <- (Z.lxor_nilpotent b), <- !Z.lxor_assoc. by rewrite H.
Qed.

Lemma crc_fold_inj c c' l :
  is_u16 c -> is_u16 c' -> bytes_ok l -> foldl crc_step c l = foldl crc_step c' l -> c = c'.
Proof.
  intros Hc Hc' Hl. revert c c' Hc Hc'.
  induction Hl as [|b l Hb Hl IH]; intros c c' Hc Hc' H; [done|]. simpl in H.
  apply IH in H; auto using crc_step_range. by eapply crc_step_inj.
Qed.

Lemma CalcCrc_range l : is_u16 (CalcCrc l).
Proof. apply u16_range. Qed.

Lemma CalcCrc_fold_inj l l' :
  CalcCrc l = CalcCrc l' -> foldl crc_step 0 l = foldl crc_step 0 l'.
Proof.
  unfold CalcCrc, u16. unfold Z.lnot. intros H.
  assert (is_u16 0) by (unfold is_u16; lia).
  pose proof (crc_fold_range 0 l). pose proof (crc_fold_range 0 l').
  unfold is_u16 in *. lia.
Qed.

(** Two bytes entered one after the other are sixteen reference shifts. *)
Lemma crc_two_bytes c b1 b2 :
  is_u16 c -> is_u8 b1 -> is_u8 b2 ->
  crc_step (crc_step c b1) b2 = crc_bits 16 (Z.lxor c (Z.lxor b1 (Z.shiftl b2 8))).
Proof.
  intros Hc H1 H2. rewrite (crc_step_bits _ b2), (crc_step_bits c b1) by auto using crc_step_range.
  rewrite (crc_bits_app 8 8). f_equal.
  by rewrite <- Z.lxor_assoc, (crc_bits_lxor 8 (Z.lxor c b1)), (crc_bits_shiftl 8).
Qed.

End Table.

(** ** Properties *)

(** C40: The table-driven CRC is the bitwise polynomial division: for every
    input, [CRC::CalcCrc] gives the remainder the reference computes one bit at
    a time with the generator polynomial of the protocol. *)
Theorem CalcCrc_reference (input : bytes) :
  bytes_ok input -> CalcCrc input = crc_reference input.
Proof.
  intros Hin. unfold CalcCrc, crc_reference. do 2 f_equal.
  assert (H0 : is_u16 0) by (unfold is_u16; lia). revert H0. generalize 0 as c.
  induction Hin as [|b l Hb Hl IH]; intros c Hc; [done|]. cbn [foldl].
  rewrite crc_step_bits by done. apply IH. rewrite <- crc_step_bits by done.
  apply crc_step_range.
Qed.

Lemma CalcCrc_reference_witness :
  bytes_ok [0x05; 0x64; 0x05; 0xC0; 0x01; 0x00; 0x00; 0x04] /\
  CalcCrc [0x05; 0x64; 0x05; 0xC0; 0x01; 0x00; 0x00; 0x04] =
    crc_reference [0x05; 0x64; 0x05; 0xC0; 0x01; 0x00; 0x00; 0x04].
Proof.
  assert (H : bytes_ok [0x05; 0x64; 0x05; 0xC0; 0x01; 0x00; 0x00; 0x04])
    by (repeat constructor; cbn; lia).
  split; [exact H|]. exact (CalcCrc_reference _ H).
Defined.

(** C39: Error detection: two messages that differ only inside two adjacent
    bytes never have the same CRC, whatever surrounds those bytes. *)
Theorem CalcCrc_detects_burst (pre post d d' : bytes) :
  bytes_ok pre -> bytes_ok post -> bytes_ok d -> bytes_ok d' ->
  length d = 2%nat -> length d' = 2%nat -> d <> d' ->
  CalcCrc (pre ++ d ++ post) <> CalcCrc (pre ++ d' ++ post).
Proof.
  intros Hpre Hpost Hd Hd' Hl Hl' Hne H. apply Hne.
  apply CalcCrc_fold_inj in H. rewrite !foldl_app in H.
  assert (H0 : is_u16 0) by (unfold is_u16; lia).
  pose proof (crc_fold_range 0 pre H0) as Hc. set (c := foldl crc_step 0 pre) in *.
  apply crc_fold_inj in H; auto using crc_fold_range.
  destruct d as [|b1 [|b2 [|]]], d' as [|b1' [|b2' [|]]]; try done. simpl in H.
  apply Forall_cons_1 in Hd as [H1 Hd]. apply Forall_cons_1 in Hd as [H2 _].
  apply Forall_cons_1 in Hd' as [H1' Hd']. apply Forall_cons_1 in Hd' as [H2' _].
  rewrite !crc_two_bytes in H by done.
  assert (Hword : forall x y, is_u8 x -> is_u8 y -> is_u16 (Z.lxor x (Z.shiftl y 8))).
  { intros x y Hx Hy. rewrite Z.shiftl_mul_pow2 by lia.
    apply lxor_u16; unfold is_u8, is_u16 in *; lia. }
  apply crc_bits_inj in H; [|apply lxor_u16; auto..].
  assert (Hw : Z.lxor b1 (Z.shiftl b2 8) = Z.lxor b1' (Z.shiftl b2' 8)).
  { rewrite <- (Z.lxor_0_l (Z.lxor b1 _)), <- (Z.lxor_nilpotent c), Z.lxor_assoc, H.
    by rewrite <- Z.lxor_assoc, Z.lxor_nilpotent, Z.lxor_0_l. }
  assert (Hadd : forall x y, is_u8 x -> is_u8 y -> Z.lxor x (Z.shiftl y 8) = x + y * 256).
  { intros x y Hx Hy. change 256 with (2 ^ 8). rewrite <- (lor_shiftl_add x y 8) by (unfold is_u8 in *; lia).
    apply Z.bits_inj'. intros i Hi. rewrite Z.lxor_spec, Z.lor_spec.
    destruct (Z.lt_ge_cases i 8).
    - by rewrite Z.shiftl_spec_low, xorb_false_r, orb_false_r by lia.
    - by rewrite (testbit_high x 8) by (unfold is_u8 in *; lia). }
  rewrite !Hadd in Hw by done. unfold is_u8 in *.
  assert (b2 = b2') as -> by lia. assert (b1 = b1') as -> by lia. done.
Qed.

Lemma CalcCrc_detects_burst_witness :
  CalcCrc ([1; 2] ++ [3; 4] ++ [5]) <> CalcCrc ([1; 2] ++ [255; 0] ++ [5]).
Proof.
  apply (CalcCrc_detects_burst [1; 2] [5] [3; 4] [255; 0]);
    try (repeat constructor; cbn; lia); done.
Defined.
