(* ===== verification/LinkFrame.v ===== *)
(** * LinkFrame: FT3 frames (opendnp3/link: LinkHeader, LinkFrame, LinkFunction, Addresses) *)

From S2P Require Import Prelude Slices Serialization Crc.

(** ** Data *)

Inductive LinkFunction :=
  | PRI_RESET_LINK_STATES
  | PRI_TEST_LINK_STATES
  | PRI_CONFIRMED_USER_DATA
  | PRI_UNCONFIRMED_USER_DATA
  | PRI_REQUEST_LINK_STATUS
  | SEC_ACK
  | SEC_NACK
  | SEC_LINK_STATUS
  | SEC_NOT_SUPPORTED
  | LF_INVALID.

#[export] Instance LinkFunction_eq_dec : EqDecision LinkFunction.
Proof. solve_decision. Defined.

Definition LinkFunctionToType (arg : LinkFunction) : Z :=
  match arg with
  | PRI_RESET_LINK_STATES => 0x40
  | PRI_TEST_LINK_STATES => 0x42
  | PRI_CONFIRMED_USER_DATA => 0x43
  | PRI_UNCONFIRMED_USER_DATA => 0x44
  | PRI_REQUEST_LINK_STATUS => 0x49
  | SEC_ACK => 0x0
  | SEC_NACK => 0x1
  | SEC_LINK_STATUS => 0xB
  | SEC_NOT_SUPPORTED => 0xF
  | LF_INVALID => 0xFF
  end.

Definition LinkFunctionFromType (arg : Z) : LinkFunction :=
  match arg with
  | 0x40%Z => PRI_RESET_LINK_STATES
  | 0x42%Z => PRI_TEST_LINK_STATES
  | 0x43%Z => PRI_CONFIRMED_USER_DATA
  | 0x44%Z => PRI_UNCONFIRMED_USER_DATA
  | 0x49%Z => PRI_REQUEST_LINK_STATUS
  | 0x0%Z => SEC_ACK
  | 0x1%Z => SEC_NACK
  | 0xB%Z => SEC_LINK_STATUS
  | 0xF%Z => SEC_NOT_SUPPORTED
  | _ => LF_INVALID
  end.

Record Addresses := mkAddresses { source : Z; destination : Z }.

#[export] Instance Addresses_eq_dec : EqDecision Addresses.
Proof. solve_decision. Defined.

(** [Addresses::operator==] *)
Definition Addresses_eqb (a other : Addresses) : bool :=
  (source a =? source other)%Z && (destination a =? destination other)%Z.

Definition LPDU_MIN_LENGTH : Z := 5.

Definition LPDU_HEADER_SIZE : nat := 10.

Definition LPDU_DATA_BLOCK_SIZE : nat := 16.

Definition LPDU_CRC_SIZE : nat := 2.

Definition LPDU_DATA_PLUS_CRC_SIZE : nat := 18.

Definition LPDU_MAX_USER_DATA_SIZE : Z := 250.

Definition LPDU_MAX_FRAME_SIZE : nat := 292.

Definition LI_START_05 : nat := 0.

Definition LI_START_64 : nat := 1.

Definition LI_LENGTH : nat := 2.

Definition LI_CONTROL : nat := 3.

Definition LI_DESTINATION : nat := 4.

Definition LI_SOURCE : nat := 6.

Definition LI_CRC : nat := 8.

Definition MASK_DIR : Z := 0x80.

Definition MASK_PRM : Z := 0x40.

Definition MASK_FCB : Z := 0x20.

Definition MASK_FCV : Z := 0x10.

Definition MASK_FUNC : Z := 0x0F.

Definition MASK_FUNC_OR_PRM : Z := Z.lor MASK_PRM MASK_FUNC.

(** ** LinkHeader *)

Record LinkHeader := mkLinkHeader { hdr_length : Z; hdr_src : Z; hdr_dest : Z; hdr_ctrl : Z }.

(** The default constructor. *)
Definition LinkHeader_default : LinkHeader := mkLinkHeader 5 0 0 0.

Definition ControlByte (aIsMaster aFcb aFcvDfc : bool) (aFunc : LinkFunction) : Z :=
  let ret := LinkFunctionToType aFunc in
  let ret := if aIsMaster then Z.lor ret MASK_DIR else ret in
  let ret := if aFcb then Z.lor ret MASK_FCB else ret in
  if aFcvDfc then Z.lor ret MASK_FCV else ret.

(** [LinkHeader::Set], also the second constructor. *)
Definition LinkHeader_Set (aLen aSrc aDest : Z) (aFromMaster aFcvDfc aFcb : bool)
    (aCode : LinkFunction) : LinkHeader :=
  mkLinkHeader aLen aSrc aDest (ControlByte aFromMaster aFcb aFcvDfc aCode).

Definition ChangeFCB (h : LinkHeader) (aFCB : bool) : LinkHeader :=
  mkLinkHeader (hdr_length h) (hdr_src h) (hdr_dest h)
    (if aFCB then Z.lor (hdr_ctrl h) MASK_FCB
     else u8 (Z.land (hdr_ctrl h) (Z.lnot MASK_FCB))).

Definition IsFromMaster (h : LinkHeader) : bool := negb (Z.land (hdr_ctrl h) MASK_DIR =? 0)%Z.

Definition IsPriToSec (h : LinkHeader) : bool := negb (Z.land (hdr_ctrl h) MASK_PRM =? 0)%Z.

Definition IsFcbSet (h : LinkHeader) : bool := negb (Z.land (hdr_ctrl h) MASK_FCB =? 0)%Z.

Definition IsFcvDfcSet (h : LinkHeader) : bool := negb (Z.land (hdr_ctrl h) MASK_FCV =? 0)%Z.

Definition GetFuncEnum (h : LinkHeader) : LinkFunction :=
  LinkFunctionFromType (Z.land (hdr_ctrl h) MASK_FUNC_OR_PRM).

Definition ValidLength (h : LinkHeader) : bool := (4 <? hdr_length h)%Z.

(** [LinkHeader::Read(apBuff)], the buffer being [m] from offset [off]. *)
Definition LinkHeader_Read (m : bytes) (off : nat) : option LinkHeader :=
  length ← Read UInt8 m (off + LI_LENGTH);
  dest ← Read UInt16 m (off + LI_DESTINATION);
  src ← Read UInt16 m (off + LI_SOURCE);
  ctrl ← Read UInt8 m (off + LI_CONTROL);
  Some (mkLinkHeader length src dest ctrl).

(** [LinkHeader::Write(apBuff)] *)
Definition LinkHeader_Write (h : LinkHeader) (m : bytes) (off : nat) : option bytes :=
  m ← mem_write m (off + LI_START_05) [0x05%Z];
  m ← mem_write m (off + LI_START_64) [0x64%Z];
  m ← mem_write m (off + LI_LENGTH) [hdr_length h];
  m ← Write UInt16 m (off + LI_DESTINATION) (hdr_dest h);
  m ← Write UInt16 m (off + LI_SOURCE) (hdr_src h);
  m ← mem_write m (off + LI_CONTROL) [hdr_ctrl h];
  AddCrc m off LI_CRC.

Record LinkHeaderFields := mkLinkHeaderFields {
  func : LinkFunction;
  isFromMaster : bool;
  fcb : bool;
  fcvdfc : bool;
  dest : Z;
  src : Z
}.

Definition ToAddresses (h : LinkHeaderFields) : Addresses := mkAddresses (src h) (dest h).

(** ** LinkFrame *)

(** The [while (length > 0)] loop of [LinkFrame::ReadUserData]; the source and
    the destination are offsets in the same array, as at the only call site. *)
Fixpoint ReadUserData_loop (fuel : nat) (m : bytes) (pRead pWrite length : nat) : option bytes :=
  if length =? 0 then Some m
  else match fuel with
  | O => None
  | S fuel =>
      let num := if length <=? LPDU_DATA_BLOCK_SIZE then length else LPDU_DATA_BLOCK_SIZE in
      let num_with_crc := num + 2 in
      m ← mem_move m pWrite pRead num;
      ReadUserData_loop fuel m (pRead + num_with_crc) (pWrite + num) (length - num)
  end.

Definition ReadUserData (m : bytes) (pSrc pDest length : nat) : option bytes :=
  ReadUserData_loop length m pSrc pDest length.

Fixpoint ValidateBodyCRC_loop (fuel : nat) (m : bytes) (pBody length : nat) : option bool :=
  if length =? 0 then Some true
  else match fuel with
  | O => None
  | S fuel =>
      let num := if length <=? LPDU_DATA_BLOCK_SIZE then length else LPDU_DATA_BLOCK_SIZE in
      ok ← IsCorrectCRC m pBody num;
      if (ok : bool) then ValidateBodyCRC_loop fuel m (pBody + (num + 2)) (length - num)
      else Some false
  end.

Definition ValidateBodyCRC (m : bytes) (pBody length : nat) : option bool :=
  ValidateBodyCRC_loop length m pBody length.

Definition CalcUserDataSize (dataLength : nat) : nat :=
  if 0 <? dataLength then
    let mod16 := dataLength mod LPDU_DATA_BLOCK_SIZE in
    let size := dataLength / LPDU_DATA_BLOCK_SIZE * LPDU_DATA_PLUS_CRC_SIZE in
    if 0 <? mod16 then size + mod16 + LPDU_CRC_SIZE else size
  else 0.

Definition CalcFrameSize (dataLength : nat) : nat :=
  LPDU_HEADER_SIZE + CalcUserDataSize dataLength.

(** [LinkFrame::WriteUserData(pSrc, pDest, length)]: [src] is what [pSrc]
    points to, [pDest] an offset in the destination array. *)
Fixpoint WriteUserData_loop (fuel : nat) (src : bytes) (m : bytes) (pDest length : nat)
    : option bytes :=
  if length =? 0 then Some m
  else match fuel with
  | O => None
  | S fuel =>
      let num := if LPDU_DATA_BLOCK_SIZE <? length then LPDU_DATA_BLOCK_SIZE else length in
      block ← mem_read src 0 num;
      m ← mem_write m pDest block;
      m ← AddCrc m pDest num;
      WriteUserData_loop fuel (drop num src) m (pDest + (num + 2)) (length - num)
  end.

Definition WriteUserData (src : bytes) (m : bytes) (pDest length : nat) : option bytes :=
  WriteUserData_loop length src m pDest length.

(** An [RSlice] that views an array owned by the caller: its bytes are those of
    the array when they are used. *)
Record View := mkView { v_pos : nat; v_size : nat }.

Definition view_bytes (m : bytes) (v : View) : option bytes := mem_read m (v_pos v) (v_size v).

(** [buffer.ToRSlice().Take(count)] *)
Definition view_take (w : WSlice) (count : nat) : View :=
  mkView (ws_pos w) (min (ws_size w) count).

(** [LinkFrame::FormatHeader]; [aDataLength + LPDU_MIN_LENGTH] is narrowed to
    [uint8_t] when the header is built. *)
Definition FormatHeader (buffer : WSlice) (aDataLength : Z) (aIsMaster aFcb aFcvDfc : bool)
    (aFuncCode : LinkFunction) (aDest aSrc : Z) : option (WSlice * View) :=
  _ ← c_assert (LPDU_HEADER_SIZE <=? ws_size buffer);
  let header :=
    LinkHeader_Set (u8 (aDataLength + LPDU_MIN_LENGTH)) aSrc aDest aIsMaster aFcvDfc aFcb aFuncCode in
  m ← LinkHeader_Write header (ws_array buffer) (ws_pos buffer);
  let buffer := mkWSlice m (ws_pos buffer) (ws_size buffer) in
  let ret := view_take buffer 10 in
  Some ((WSlice.Advance buffer 10).1, ret).

Definition FormatAck buffer aIsMaster aIsRcvBuffFull aDest aSrc :=
  FormatHeader buffer 0 aIsMaster false aIsRcvBuffFull SEC_ACK aDest aSrc.

Definition FormatNack buffer aIsMaster aIsRcvBuffFull aDest aSrc :=
  FormatHeader buffer 0 aIsMaster false aIsRcvBuffFull SEC_NACK aDest aSrc.

Definition FormatLinkStatus buffer aIsMaster aIsRcvBuffFull aDest aSrc :=
  FormatHeader buffer 0 aIsMaster false aIsRcvBuffFull SEC_LINK_STATUS aDest aSrc.

Definition FormatNotSupported buffer aIsMaster aIsRcvBuffFull aDest aSrc :=
  FormatHeader buffer 0 aIsMaster false aIsRcvBuffFull SEC_NOT_SUPPORTED aDest aSrc.

Definition FormatResetLinkStates buffer aIsMaster aDest aSrc :=
  FormatHeader buffer 0 aIsMaster false false PRI_RESET_LINK_STATES aDest aSrc.

Definition FormatRequestLinkStatus buffer aIsMaster aDest aSrc :=
  FormatHeader buffer 0 aIsMaster false false PRI_REQUEST_LINK_STATUS aDest aSrc.

Definition FormatTestLinkStatus buffer aIsMaster aFcb aDest aSrc :=
  FormatHeader buffer 0 aIsMaster aFcb true PRI_TEST_LINK_STATES aDest aSrc.

(** The common body of [FormatConfirmedUserData] and [FormatUnconfirmedUserData]:
    the two functions differ in the FCB, FCV and function code they pass. *)
Definition FormatUserData (buffer : WSlice) (aIsMaster aFcb aFcvDfc : bool) (aCode : LinkFunction)
    (aDest aSrc : Z) (apData : bytes) (dataLength : Z) : option (WSlice * View) :=
  _ ← c_assert (0 <? dataLength)%Z;
  _ ← c_assert (dataLength <=? LPDU_MAX_USER_DATA_SIZE)%Z;
  let userDataSize := CalcUserDataSize (Z.to_nat dataLength) in
  let ret := view_take buffer (userDataSize + LPDU_HEADER_SIZE) in
  '(buffer, _) ← FormatHeader buffer dataLength aIsMaster aFcb aFcvDfc aCode aDest aSrc;
  m ← WriteUserData apData (ws_array buffer) (ws_pos buffer) (Z.to_nat dataLength);
  let buffer := mkWSlice m (ws_pos buffer) (ws_size buffer) in
  Some ((WSlice.Advance buffer userDataSize).1, ret).

Definition FormatConfirmedUserData buffer aIsMaster aFcb aDest aSrc apData dataLength :=
  FormatUserData buffer aIsMaster aFcb true PRI_CONFIRMED_USER_DATA aDest aSrc apData dataLength.

Definition FormatUnconfirmedUserData buffer aIsMaster aDest aSrc apData dataLength :=
  FormatUserData buffer aIsMaster false false PRI_UNCONFIRMED_USER_DATA aDest aSrc apData dataLength.

(** ** Reference: the bytes of a frame

    The wire format, written without arrays: every block of up to sixteen bytes
    is followed by its CRC. *)

Definition with_crc (d : bytes) : bytes := d ++ encode16 (CalcCrc d).

Fixpoint blocks_fuel (fuel : nat) (d : bytes) : bytes :=
  match fuel with
  | O => []
  | S fuel => if length d =? 0 then [] else with_crc (take 16 d) ++ blocks_fuel fuel (drop 16 d)
  end.

Definition blocks (d : bytes) : bytes := blocks_fuel (length d) d.

(** The [len] data bytes of a body, without its CRCs. *)
Fixpoint strip_fuel (fuel len : nat) (body : bytes) : bytes :=
  match fuel with
  | O => []
  | S fuel =>
      if len =? 0 then []
      else take (min len 16) body ++ strip_fuel fuel (len - min len 16) (drop (min len 16 + 2) body)
  end.

Definition strip (len : nat) (body : bytes) : bytes := strip_fuel len len body.

Definition header_bytes (h : LinkHeader) : bytes :=
  with_crc ([0x05; 0x64; hdr_length h; hdr_ctrl h]%Z ++ encode16 (hdr_dest h) ++ encode16 (hdr_src h)).

(** A whole frame: header and body. *)
Definition frame_bytes (isMaster fcb fcv : bool) (code : LinkFunction) (dest src : Z) (data : bytes)
    : bytes :=
  header_bytes (LinkHeader_Set (u8 (Z.of_nat (length data) + LPDU_MIN_LENGTH)) src dest isMaster fcv fcb code)
  ++ blocks data.

(** ** Lemmas: blocks *)

Section Blocks.

Lemma encode16_length v : length (encode16 v) = 2.
Proof. done. Qed.

Lemma with_crc_length d : length (with_crc d) = length d + 2.
Proof. unfold with_crc. by rewrite length_app, encode16_length. Qed.

Lemma blocks_fuel_enough n m d :
  length d <= n -> length d <= m -> blocks_fuel n d = blocks_fuel m d.
Proof.
  revert m d. induction n as [|n IH]; intros [|m] d Hn Hm; simpl.
  - done.
  - destruct d; [done|simpl in *; lia].
  - destruct d; [done|simpl in *; lia].
  - destruct (Nat.eqb_spec (length d) 0); [done|]. f_equal. apply IH; len.
Qed.

Lemma blocks_nil : blocks [] = [].
Proof. done. Qed.

Lemma blocks_step d : d <> [] -> blocks d = with_crc (take 16 d) ++ blocks (drop 16 d).
Proof.
  intros Hd. unfold blocks. destruct (length d) as [|n] eqn:Hl.
  - by apply nil_length_inv in Hl.
  - cbn [blocks_fuel]. rewrite Hl. cbn [Nat.eqb]. f_equal. apply blocks_fuel_enough; len.
Qed.

Lemma strip_fuel_enough n m len body :
  len <= n -> len <= m -> strip_fuel n len body = strip_fuel m len body.
Proof.
  revert m len body. induction n as [|n IH]; intros [|m] len body Hn Hm; cbn [strip_fuel].
  - done.
  - by destruct len; [|lia].
  - by destruct len; [|lia].
  - destruct (Nat.eqb_spec len 0); [done|]. f_equal. apply IH; lia.
Qed.

Lemma strip_0 body : strip 0 body = [].
Proof. done. Qed.

Lemma strip_step len body :
  0 < len ->
  strip len body = take (min len 16) body ++ strip (len - min len 16) (drop (min len 16 + 2) body).
Proof.
  intros Hl. unfold strip. destruct len as [|n]; [lia|]. cbn [strip_fuel].
  destruct (Nat.eqb_spec (S n) 0); [lia|]. f_equal. apply strip_fuel_enough; lia.
Qed.

Lemma CalcUserDataSize_step n :
  0 < n -> CalcUserDataSize n = min n 16 + 2 + CalcUserDataSize (n - min n 16).
Proof.
  intros Hn. unfold CalcUserDataSize, LPDU_DATA_BLOCK_SIZE, LPDU_DATA_PLUS_CRC_SIZE, LPDU_CRC_SIZE.
  destruct (Nat.ltb_spec 0 n); [|lia].
  destruct (Nat.le_gt_cases n 16).
  - replace (n - min n 16) with 0 by lia. change (0 <? 0) with false. cbv iota.
    destruct (decide (n = 16)) as [->|]; [done|].
    rewrite (Nat.mod_small n 16), (Nat.div_small n 16) by lia. destruct (Nat.ltb_spec 0 n); lia.
  - replace (min n 16) with 16 by lia. destruct (Nat.ltb_spec 0 (n - 16)); [|lia].
    assert (Hm : n mod 16 = (n - 16) mod 16).
    { replace n with (n - 16 + 1 * 16) at 1 by lia. by rewrite Nat.Div0.mod_add. }
    assert (Hd : n / 16 = (n - 16) / 16 + 1).
    { replace n with (n - 16 + 1 * 16) at 1 by lia. by rewrite (Nat.div_add (n - 16) 1 16) by done. }
    rewrite Hm, Hd. clear Hm Hd. destruct (0 <? (n - 16) mod 16); lia.
Qed.

(** Induction on the number of bytes left, one block at a time. *)
Lemma block_ind (P : nat -> Prop) :
  P 0 -> (forall n, 0 < n -> P (n - min n 16) -> P n) -> forall n, P n.
Proof.
  intros H0 Hs n. induction (lt_wf n) as [n _ IH].
  destruct n as [|n]; [done|]. apply Hs; [lia|]. apply IH. lia.
Qed.

Lemma blocks_length d : length (blocks d) = CalcUserDataSize (length d).
Proof.
  remember (length d) as n eqn:Hn. revert d Hn.
  induction n as [|n Hpos IH] using block_ind; intros d Hn.
  - by destruct d.
  - assert (d <> []) by (intros ->; simpl in *; lia). rewrite blocks_step, length_app, with_crc_length by done.
    rewrite CalcUserDataSize_step by done. rewrite (IH (drop 16 d)) by len. len.
Qed.

Lemma CalcUserDataSize_mono a b : a <= b -> CalcUserDataSize a <= CalcUserDataSize b.
Proof.
  revert b. induction a as [|a Ha IH] using block_ind; intros b Hb; [cbn; lia|].
  rewrite (CalcUserDataSize_step a), (CalcUserDataSize_step b) by lia.
  specialize (IH (b - min b 16)). lia.
Qed.

Lemma strip_length len body : CalcUserDataSize len <= length body -> length (strip len body) = len.
Proof.
  revert body. induction len as [|n Hpos IH] using block_ind; intros body Hb; [done|].
  rewrite CalcUserDataSize_step in Hb by done.
  rewrite strip_step by done. rewrite length_app, IH by len. len.
Qed.

Lemma strip_bytes len body : bytes_ok body -> bytes_ok (strip len body).
Proof.
  revert body. induction len as [|n Hpos IH] using block_ind; intros body Hb; [constructor|].
  rewrite strip_step by done. apply Forall_app_2; [by apply Forall_take|]. by apply IH, Forall_drop.
Qed.

Lemma encode16_bytes v : bytes_ok (encode16 v).
Proof. apply (encode_bytes (s := UInt16)). Qed.

Lemma with_crc_bytes d : bytes_ok d -> bytes_ok (with_crc d).
Proof. intros. apply Forall_app_2; [done|apply encode16_bytes]. Qed.

Lemma blocks_bytes d : bytes_ok d -> bytes_ok (blocks d).
Proof.
  unfold blocks. generalize (length d) as n. intros n. revert d. induction n as [|n IH]; intros d Hd; simpl; [constructor|].
  case_bool; [constructor|]. apply Forall_app_2; [by apply with_crc_bytes, Forall_take|]. by apply IH, Forall_drop.
Qed.

(** Stripping the CRCs gives the data back, whatever follows the body. *)
Lemma strip_blocks d rest : strip (length d) (blocks d ++ rest) = d.
Proof.
  remember (length d) as n eqn:Hn. revert d rest Hn.
  induction n as [|n Hpos IH] using block_ind; intros d rest Hn; [by destruct d|].
  assert (d <> []) by (intros ->; simpl in *; lia). rewrite strip_step, blocks_step by done.
  unfold with_crc. rewrite <- !app_assoc.
  assert (Hlen : length (take 16 d) = min n 16) by len.
  rewrite take_app_le, take_ge by lia.
  rewrite (drop_app_ge _ _ (min n 16 + 2)) by lia.
  replace (min n 16 + 2 - length (take 16 d)) with 2 by lia.
  change (drop 2 (encode16 (CalcCrc (take 16 d)) ++ blocks (drop 16 d) ++ rest))
    with (blocks (drop 16 d) ++ rest).
  rewrite IH by len. apply take_drop.
Qed.

End Blocks.

#[export] Hint Resolve strip_bytes blocks_bytes with_crc_bytes encode16_bytes : dnp3.

(** ** Lemmas: the operations against the reference *)

Section Operations.

Lemma CalcUserDataSize_ge n : n <= CalcUserDataSize n.
Proof.
  induction n as [|n Hpos IH] using block_ind; [lia|].
  rewrite CalcUserDataSize_step by done. lia.
Qed.

Lemma AddCrc_spec m off d m1 :
  mem_write m off d = Some m1 -> off + length d + 2 <= length m ->
  AddCrc m1 off (length d) = mem_write m off (with_crc d).
Proof.
  intros H1 Hl. unfold AddCrc. rewrite (mem_write_read _ _ _ _ H1). simpl.
  unfold Write. cbn [encode UInt16]. unfold with_crc.
  rewrite <- mem_write_app_bind by (rewrite encode16_length; lia). by rewrite H1.
Qed.

(** [IsCorrectCRC] compares the two bytes after the data with their CRC. *)
Lemma IsCorrectCRC_spec m off n :
  bytes_ok m -> off + n + 2 <= length m ->
  IsCorrectCRC m off n =
    Some (bool_decide (take (n + 2) (drop off m) = with_crc (take n (drop off m)))).
Proof.
  intros Hm Hl. unfold IsCorrectCRC, Read. rewrite !mem_read_Some by (cbn; lia). cbn [mbind option_bind SIZE UInt16].
  f_equal. set (d := take n (drop off m)).
  assert (Hsplit : take (n + 2) (drop off m) = d ++ take 2 (drop (off + n) m)).
  { rewrite <- take_take_drop. subst d. by rewrite drop_drop. }
  rewrite Hsplit. unfold with_crc. apply eq_bool_prop_intro.
  rewrite Is_true_true, Z.eqb_eq, bool_decide_spec.
  set (c := take 2 (drop (off + n) m)).
  assert (Hc : bytes_ok c) by (by apply Forall_take, Forall_drop).
  assert (Hcl : length c = 2) by (subst c; len).
  split.
  - intros ->. f_equal. symmetry. by apply (encode_decode (s := UInt16)).
  - intros ->%app_inv_head. symmetry. apply (decode_encode (s := UInt16)).
    pose proof (CalcCrc_range d). unfold is_u16 in *. cbn. lia.
Qed.

Lemma ValidateBodyCRC_loop_spec m :
  bytes_ok m -> forall len fuel off, len <= fuel -> off + CalcUserDataSize len <= length m ->
  ValidateBodyCRC_loop fuel m off len =
    Some (bool_decide (take (CalcUserDataSize len) (drop off m) = blocks (strip len (drop off m)))).
Proof.
  intros Hm len. induction len as [|n Hpos IH] using block_ind; intros fuel off Hf Hl.
  - by destruct fuel.
  - destruct fuel as [|fuel]; [lia|]. cbn [ValidateBodyCRC_loop].
    destruct (Nat.eqb_spec n 0); [lia|]. unfold LPDU_DATA_BLOCK_SIZE.
    replace (if n <=? 16 then n else 16) with (min n 16) by (destruct (Nat.leb_spec n 16); lia).
    rewrite CalcUserDataSize_step in Hl |- * by done.
    rewrite IsCorrectCRC_spec by (done || lia). cbn [mbind option_bind].
    rewrite strip_step by done. set (k := min n 16) in *.
    set (body := drop off m). assert (Hb : length body = length m - off) by (subst body; len).
    assert (Hk : length (take k body) = k) by len.
    assert (Hkr : length (strip (n - k) (drop (k + 2) body)) = n - k) by (rewrite strip_length; len).
    assert (Hblocks : blocks (take k body ++ strip (n - k) (drop (k + 2) body))
      = with_crc (take k body) ++ blocks (strip (n - k) (drop (k + 2) body))).
    { rewrite blocks_step by (intros Hnil%(f_equal length); len). f_equal; [f_equal|f_equal].
      - destruct (decide (n <= 16)).
        + rewrite take_ge by len. rewrite (nil_length_inv (strip _ _)) by lia. apply app_nil_r.
        + rewrite take_app_le by lia. by rewrite take_ge by lia.
      - destruct (decide (n <= 16)).
        + rewrite drop_ge by len. by rewrite (nil_length_inv (strip _ _)) by lia.
        + rewrite drop_app_ge by lia. by replace (16 - length (take k body)) with 0 by lia. }
    rewrite Hblocks, <- (take_take_drop _ (k + 2)).
    destruct (decide (take (k + 2) body = with_crc (take k body))) as [He|Hne].
    + rewrite bool_decide_true by done. subst body.
      rewrite IH by (done || lia). rewrite <- drop_drop. f_equal. apply bool_decide_ext.
      rewrite He. split; [by intros ->|]. apply app_inv_head.
    + rewrite bool_decide_false by done. f_equal. symmetry. apply bool_decide_eq_false.
      intros He. apply Hne. apply app_inj_1 in He as [He _]; [done|].
      rewrite with_crc_length. len.
Qed.

(** The check accepts exactly the bodies in which every block is followed by
    its CRC. *)
Lemma ValidateBodyCRC_spec m off len :
  bytes_ok m -> off + CalcUserDataSize len <= length m ->
  ValidateBodyCRC m off len =
    Some (bool_decide (take (CalcUserDataSize len) (drop off m) = blocks (strip len (drop off m)))).
Proof. intros. by apply ValidateBodyCRC_loop_spec. Qed.

Lemma ReadUserData_loop_spec len : forall m fuel pRead pWrite,
  len <= fuel -> pWrite <= pRead -> pRead + CalcUserDataSize len <= length m ->
  ReadUserData_loop fuel m pRead pWrite len = mem_write m pWrite (strip len (drop pRead m)).
Proof.
  induction len as [|n Hpos IH] using block_ind; intros m fuel pRead pWrite Hf Hle Hl.
  - destruct fuel; cbn [ReadUserData_loop Nat.eqb]; rewrite strip_0, mem_write_nil by lia; done.
  - destruct fuel as [|fuel]; [lia|]. cbn [ReadUserData_loop].
    destruct (Nat.eqb_spec n 0); [lia|]. unfold LPDU_DATA_BLOCK_SIZE.
    replace (if n <=? 16 then n else 16) with (min n 16) by (destruct (Nat.leb_spec n 16); lia).
    rewrite CalcUserDataSize_step in Hl by done. rewrite strip_step by done.
    set (k := min n 16) in *. unfold mem_move. rewrite mem_read_Some by lia. cbn [mbind option_bind].
    set (d := take k (drop pRead m)). assert (Hd : length d = k) by (subst d; len).
    pose proof (CalcUserDataSize_ge (n - k)).
    rewrite <- mem_write_app_bind by (rewrite strip_length by len; lia).
    destruct (mem_write m pWrite d) as [m1|] eqn:H1; [|done]. cbn [mbind option_bind].
    pose proof (mem_write_length _ _ _ _ H1).
    rewrite IH by lia. rewrite Hd. f_equal. f_equal.
    rewrite (mem_write_drop _ _ _ _ (pRead + (k + 2)) H1) by lia. by rewrite drop_drop.
Qed.

(** The deinterleaving is correct although it works inside one array: it writes
    the data bytes of the body at the destination and nothing else. *)
Lemma ReadUserData_spec m pSrc pDest len :
  pDest <= pSrc -> pSrc + CalcUserDataSize len <= length m ->
  ReadUserData m pSrc pDest len = mem_write m pDest (strip len (drop pSrc m)).
Proof. intros. by apply ReadUserData_loop_spec. Qed.

Lemma WriteUserData_loop_spec len : forall src m fuel pDest,
  len <= fuel -> len <= length src -> pDest + CalcUserDataSize len <= length m ->
  WriteUserData_loop fuel src m pDest len = mem_write m pDest (blocks (take len src)).
Proof.
  induction len as [|n Hpos IH] using block_ind; intros src m fuel pDest Hf Hs Hl.
  - destruct fuel; cbn [WriteUserData_loop Nat.eqb]; rewrite take_0, blocks_nil, mem_write_nil by lia; done.
  - destruct fuel as [|fuel]; [lia|]. cbn [WriteUserData_loop].
    destruct (Nat.eqb_spec n 0); [lia|]. unfold LPDU_DATA_BLOCK_SIZE.
    replace (if 16 <? n then 16 else n) with (min n 16) by (destruct (Nat.ltb_spec 16 n); lia).
    rewrite CalcUserDataSize_step in Hl by done.
    rewrite blocks_step by (intros Hnil%(f_equal length); len).
    rewrite take_take, (Nat.min_comm 16). set (k := min n 16) in *.
    rewrite mem_read_Some by lia. cbn [mbind option_bind]. rewrite drop_0.
    set (d := take k src). assert (Hd : length d = k) by (subst d; len).
    rewrite <- mem_write_app_bind
      by (rewrite with_crc_length, blocks_length, length_drop, length_take, Nat.min_l by lia; subst k;
          replace (n - 16) with (n - min n 16) by lia; lia).
    destruct (mem_write m pDest d) as [m1|] eqn:H1.
    2: { rewrite mem_write_Some in H1 by lia. done. }
    cbn [mbind option_bind]. pose proof (AddCrc_spec _ _ _ _ H1) as Hc. rewrite Hd in Hc.
    rewrite Hc by lia. rewrite with_crc_length, Hd.
    destruct (mem_write m pDest (with_crc d)) as [m2|] eqn:H2; [|done]. cbn [mbind option_bind].
    pose proof (mem_write_length _ _ _ _ H2).
    rewrite IH by len. do 2 f_equal. rewrite skipn_firstn_comm. subst k.
    destruct (Nat.le_gt_cases n 16).
    + by replace (n - min n 16) with 0 by lia; replace (n - 16) with 0 by lia.
    + by rewrite Nat.min_r by lia.
Qed.

End Operations.

(** ** Lemmas: headers *)

Section Headers.

Definition header_ok (h : LinkHeader) : Prop :=
  is_u8 (hdr_length h) /\ is_u16 (hdr_src h) /\ is_u16 (hdr_dest h) /\ is_u8 (hdr_ctrl h).

Lemma header_bytes_length h : length (header_bytes h) = LPDU_HEADER_SIZE.
Proof. done. Qed.

Lemma LinkFunctionToType_u8 f : is_u8 (LinkFunctionToType f).
Proof. destruct f; unfold is_u8; simpl; lia. Qed.

Lemma ControlByte_u8 m f v c : is_u8 (ControlByte m f v c).
Proof. destruct m, f, v, c; unfold is_u8; vm_compute; split; congruence. Qed.

Lemma header_bytes_ok h : header_ok h -> bytes_ok (header_bytes h).
Proof.
  intros (Hl & Hs & Hd & Hc). apply with_crc_bytes. apply Forall_app_2.
  - repeat (apply Forall_cons_2; [first [done|unfold is_u8; lia]|]). apply Forall_nil_2.
  - apply Forall_app_2; apply encode16_bytes.
Qed.

(** A write inside the middle part of an array. *)
Lemma mem_write_mid pre mid post i d :
  i + length d <= length mid ->
  mem_write (pre ++ mid ++ post) (length pre + i) d =
    m ← mem_write mid i d; Some (pre ++ m ++ post).
Proof.
  intros Hi. rewrite (mem_write_Some mid) by done. rewrite mem_write_Some by len. simpl. f_equal.
  rewrite take_app_add, <- !app_assoc. f_equal.
  rewrite take_app_le by lia. f_equal. f_equal.
  rewrite <- Nat.add_assoc, drop_app_add. by rewrite drop_app_le by lia.
Qed.

Lemma mem_read_mid pre mid post i n :
  i + n <= length mid ->
  mem_read (pre ++ mid ++ post) (length pre + i) n = mem_read mid i n.
Proof.
  intros Hi. rewrite !mem_read_Some by len. f_equal.
  rewrite drop_app_add, drop_app_le by lia. rewrite take_app_le; [done|]. len.
Qed.

(** Writing a header inside an array is writing it in the ten bytes it covers. *)
Ltac step_mid :=
  rewrite mem_write_mid by (rewrite ?encode16_length; cbn [length]; lia);
  lazymatch goal with
  | |- mbind _ (mbind _ (mem_write ?mid ?i ?d)) = _ =>
      change (mem_write mid (0 + i) d) with (mem_write mid i d);
      let H := fresh "H" in
      destruct (mem_write mid i d) eqn:H; [|done];
      apply mem_write_length in H; cbn [mbind option_bind]
  end.

Lemma LinkHeader_Write_mid h pre mid post :
  length mid = LPDU_HEADER_SIZE ->
  LinkHeader_Write h (pre ++ mid ++ post) (length pre) =
    m ← LinkHeader_Write h mid 0; Some (pre ++ m ++ post).
Proof.
  unfold LPDU_HEADER_SIZE. intros Hmid.
  unfold LinkHeader_Write, LI_START_05, LI_START_64, LI_LENGTH, LI_DESTINATION, LI_SOURCE,
    LI_CONTROL, LI_CRC, AddCrc, Write.
  cbn [encode UInt16].
  do 6 step_mid. cbn [Nat.add].
  rewrite <- (Nat.add_0_r (length pre)) at 1. rewrite mem_read_mid by (cbn; lia).
  destruct (mem_read _ 0 8); [|done]. cbn [mbind option_bind].
  by rewrite mem_write_mid by (rewrite encode16_length; lia).
Qed.

Lemma LinkHeader_Write_spec h m off :
  off + LPDU_HEADER_SIZE <= length m -> LinkHeader_Write h m off = mem_write m off (header_bytes h).
Proof.
  unfold LPDU_HEADER_SIZE. intros Hm.
  assert (Hsplit : m = take off m ++ take 10 (drop off m) ++ drop (off + 10) m).
  { rewrite <- drop_drop. by rewrite !take_drop. }
  assert (Hpre : length (take off m) = off) by len.
  assert (Hmid : length (take 10 (drop off m)) = 10) by len.
  revert Hsplit Hpre Hmid. generalize (take off m) as pre, (take 10 (drop off m)) as mid, (drop (off + 10) m) as post.
  intros pre mid post -> <- Hmid. rewrite LinkHeader_Write_mid by done.
  rewrite <- (Nat.add_0_r (length pre)) at 1.
  rewrite mem_write_mid by (rewrite header_bytes_length; unfold LPDU_HEADER_SIZE; lia).
  do 10 (destruct mid as [|? mid]; [discriminate Hmid|]). destruct mid; [|discriminate Hmid].
  reflexivity.
Qed.

(** The fields found in ten bytes. *)
Definition header_fields (b : bytes) : LinkHeader :=
  mkLinkHeader (b !!! 2) (decode16 (drop 6 b)) (decode16 (drop 4 b)) (b !!! 3).

Lemma LinkHeader_Read_spec m off :
  off + LPDU_HEADER_SIZE <= length m ->
  LinkHeader_Read m off = Some (header_fields (take LPDU_HEADER_SIZE (drop off m))).
Proof.
  unfold LPDU_HEADER_SIZE. intros Hm. unfold LinkHeader_Read, Read, LI_LENGTH, LI_CONTROL, LI_DESTINATION, LI_SOURCE.
  rewrite !mem_read_Some by (cbn; lia). cbn [mbind option_bind]. rewrite <- !drop_drop.
  assert (Hb : 10 <= length (drop off m)) by len. revert Hb. generalize (drop off m) as b. intros b Hb.
  do 10 (destruct b as [|? b]; [cbn in Hb; lia|]). reflexivity.
Qed.

Lemma header_fields_bytes h : header_ok h -> header_fields (header_bytes h) = h.
Proof.
  intros (Hl & Hs & Hd & Hc). destruct h as [l s d c]. cbn in *. unfold header_fields.
  unfold header_bytes, with_crc. f_equal.
  - change (decode16 (encode16 s) = s). apply (decode_encode (s := UInt16)). unfold is_u16 in *. cbn. lia.
  - change (decode16 (encode16 d) = d). apply (decode_encode (s := UInt16)). unfold is_u16 in *. cbn. lia.
Qed.

Lemma header_fields_ok b : bytes_ok b -> length b = LPDU_HEADER_SIZE -> header_ok (header_fields b).
Proof.
  unfold LPDU_HEADER_SIZE. intros Hb Hl.
  do 10 (destruct b as [|? b]; [cbn in Hl; lia|]). destruct b; [|cbn in Hl; lia].
  repeat match goal with H : bytes_ok (_ :: _) |- _ => apply Forall_cons_1 in H as [? H] end.
  assert (Hd : forall x y, is_u8 x -> is_u8 y -> forall r, is_u16 (decode16 (x :: y :: r))).
  { intros x y Hx Hy r. change (is_u16 (decode16 [x; y])).
    pose proof (decode_range (s := UInt16) [x; y]) as Hr. cbn in Hr. unfold is_u16.
    assert (bytes_ok [x; y]) as Hxy by (repeat constructor; apply Hx || apply Hy). specialize (Hr Hxy eq_refl). lia. }
  unfold header_ok, header_fields. cbn [hdr_length hdr_src hdr_dest hdr_ctrl drop].
  repeat split; try apply Hd; try done; match goal with H : is_u8 ?x |- _ => apply H end.
Qed.

Lemma Set_header_ok len src dest m v f c :
  is_u8 len -> is_u16 src -> is_u16 dest -> header_ok (LinkHeader_Set len src dest m v f c).
Proof. repeat split; try apply ControlByte_u8; unfold is_u8, is_u16 in *; cbn; lia. Qed.

End Headers.

(** ** Lemmas: frames *)

Section Frames.

Lemma CalcFrameSize_max n : n <= 250 -> CalcFrameSize n <= LPDU_MAX_FRAME_SIZE.
Proof.
  intros Hn. unfold CalcFrameSize. pose proof (CalcUserDataSize_mono _ _ Hn) as H.
  change (CalcUserDataSize 250) with 282 in H. unfold LPDU_HEADER_SIZE, LPDU_MAX_FRAME_SIZE. lia.
Qed.

Lemma frame_bytes_length m f v c d s data :
  length (frame_bytes m f v c d s data) = CalcFrameSize (length data).
Proof. unfold frame_bytes. by rewrite length_app, blocks_length. Qed.

Lemma frame_bytes_ok m f v c d s data :
  is_u16 d -> is_u16 s -> bytes_ok data -> bytes_ok (frame_bytes m f v c d s data).
Proof.
  intros. apply Forall_app_2; [|by apply blocks_bytes]. apply header_bytes_ok, Set_header_ok; auto with dnp3.
Qed.

Lemma FormatHeader_spec w n isMaster fcb fcv code dest src :
  WSlice.wf w -> LPDU_HEADER_SIZE <= ws_size w ->
  exists a,
    mem_write (ws_array w) (ws_pos w)
      (header_bytes (LinkHeader_Set (u8 (n + LPDU_MIN_LENGTH)) src dest isMaster fcv fcb code)) = Some a /\
    FormatHeader w n isMaster fcb fcv code dest src =
      Some (mkWSlice a (ws_pos w + LPDU_HEADER_SIZE) (ws_size w - LPDU_HEADER_SIZE),
            mkView (ws_pos w) LPDU_HEADER_SIZE).
Proof.
  unfold WSlice.wf. intros Hwf Hs.
  assert (Hfit : ws_pos w + LPDU_HEADER_SIZE <= length (ws_array w)) by lia.
  eexists. split; [apply mem_write_Some; by rewrite header_bytes_length|].
  unfold FormatHeader, c_assert. rewrite (proj2 (Nat.leb_le _ _) Hs). cbn [mbind option_bind].
  rewrite LinkHeader_Write_spec by done.
  rewrite mem_write_Some by (by rewrite header_bytes_length). cbn [mbind option_bind].
  unfold view_take, WSlice.Advance, LPDU_HEADER_SIZE in *. cbn [ws_array ws_pos ws_size fst].
  by rewrite (Nat.min_l 10), (Nat.min_r (ws_size w)) by lia.
Qed.

Lemma FormatUserData_spec w isMaster fcb fcv code dest src data :
  WSlice.wf w -> 0 < length data <= 250 -> CalcFrameSize (length data) <= ws_size w ->
  exists a,
    mem_write (ws_array w) (ws_pos w) (frame_bytes isMaster fcb fcv code dest src data) = Some a /\
    FormatUserData w isMaster fcb fcv code dest src data (Z.of_nat (length data)) =
      Some (mkWSlice a (ws_pos w + CalcFrameSize (length data)) (ws_size w - CalcFrameSize (length data)),
            mkView (ws_pos w) (CalcFrameSize (length data))).
Proof.
  unfold WSlice.wf, CalcFrameSize. intros Hwf Hd Hs. unfold FormatUserData, c_assert.
  destruct (Z.ltb_spec 0 (Z.of_nat (length data))); [|lia].
  destruct (Z.leb_spec (Z.of_nat (length data)) LPDU_MAX_USER_DATA_SIZE); [|unfold LPDU_MAX_USER_DATA_SIZE in *; lia].
  cbn [mbind option_bind]. rewrite Nat2Z.id.
  destruct (FormatHeader_spec w (Z.of_nat (length data)) isMaster fcb fcv code dest src) as (a & Ha & ->);
    [done|unfold LPDU_HEADER_SIZE in *; lia|].
  cbn [mbind option_bind ws_array ws_pos ws_size]. pose proof (mem_write_length _ _ _ _ Ha) as Hal.
  unfold WriteUserData. rewrite WriteUserData_loop_spec by (unfold LPDU_HEADER_SIZE in *; lia).
  rewrite take_ge by lia. unfold frame_bytes.
  rewrite <- mem_write_app_bind
    by (rewrite header_bytes_length, blocks_length; unfold LPDU_HEADER_SIZE in *; lia).
  rewrite Ha. cbn [mbind option_bind]. rewrite header_bytes_length.
  rewrite mem_write_Some by (rewrite blocks_length; unfold LPDU_HEADER_SIZE in *; lia).
  cbn [mbind option_bind]. eexists. split; [done|].
  unfold WSlice.Advance, view_take, LPDU_HEADER_SIZE in *. cbn [ws_array ws_pos ws_size fst].
  rewrite Nat.min_l, Nat.min_r by lia. f_equal. f_equal; f_equal; lia.
Qed.

Lemma view_after_write m off d a n :
  mem_write m off d = Some a -> n = length d -> view_bytes a (mkView off n) = Some d.
Proof. intros H ->. by apply (mem_write_read m). Qed.

Lemma frame_bytes_nodata m f v c d s : frame_bytes m f v c d s [] =
  header_bytes (LinkHeader_Set (u8 (0 + LPDU_MIN_LENGTH)) s d m v f c).
Proof. unfold frame_bytes. by rewrite blocks_nil, app_nil_r. Qed.

Lemma control_decodes isMaster fcb fcv code len src dest :
  code <> LF_INVALID ->
  let h := LinkHeader_Set len src dest isMaster fcv fcb code in
  GetFuncEnum h = code /\ IsFromMaster h = isMaster /\ IsFcbSet h = fcb /\ IsFcvDfcSet h = fcv.
Proof. intros Hc. destruct code; [..|done]; destruct isMaster, fcb, fcv; repeat split; reflexivity. Qed.

End Frames.

#[export] Hint Resolve CalcFrameSize_max control_decodes : dnp3.

(** ** Properties *)

(** Frames are written as the wire format says: for any data of 1 to 250
    bytes that fits in the destination, [FormatUserData] writes the header and
    the blocks with their CRCs, nothing outside the frame changes, the slice is
    advanced by the size of the frame, which is at most the 292 bytes of the
    link buffers, and the slice returned views exactly that frame. *)
Theorem format_user_data_frame w isMaster fcb fcv code dest src data :
  WSlice.wf w -> 0 < length data <= 250 -> CalcFrameSize (length data) <= ws_size w ->
  exists w' v,
    FormatUserData w isMaster fcb fcv code dest src data (Z.of_nat (length data)) = Some (w', v) /\
    view_bytes (ws_array w') v = Some (frame_bytes isMaster fcb fcv code dest src data) /\
    take (ws_pos w) (ws_array w') = take (ws_pos w) (ws_array w) /\
    drop (ws_pos w') (ws_array w') = drop (ws_pos w') (ws_array w) /\
    ws_pos w' = ws_pos w + CalcFrameSize (length data) /\
    ws_pos w' + ws_size w' = ws_pos w + ws_size w /\
    v_size v <= LPDU_MAX_FRAME_SIZE.
Proof.
  intros Hwf Hd Hs.
  destruct (FormatUserData_spec w isMaster fcb fcv code dest src data Hwf Hd Hs) as (a & Ha & ->).
  pose proof (frame_bytes_length isMaster fcb fcv code dest src data) as Hl.
  eexists _, _. split; [done|]. cbn [ws_array ws_pos ws_size v_size]. split_and!.
  - by eapply view_after_write.
  - by eapply mem_write_take_lt.
  - eapply mem_write_drop; [done|lia].
  - done.
  - lia.
  - apply CalcFrameSize_max. lia.
Qed.

Lemma format_user_data_frame_witness :
  exists w' v,
    FormatUserData (mkWSlice (replicate 292 0%Z) 0 292) true true true PRI_CONFIRMED_USER_DATA 1024 1
      [0xC0; 0x01]%Z 2 = Some (w', v) /\
    view_bytes (ws_array w') v = Some (frame_bytes true true true PRI_CONFIRMED_USER_DATA 1024 1 [0xC0; 0x01]%Z) /\
    take 0 (ws_array w') = take 0 (replicate 292 0%Z) /\
    drop (ws_pos w') (ws_array w') = drop (ws_pos w') (replicate 292 0%Z) /\
    ws_pos w' = 14 /\ ws_pos w' + ws_size w' = 292 /\ v_size v <= LPDU_MAX_FRAME_SIZE.
Proof.
  apply (format_user_data_frame (mkWSlice (replicate 292 0%Z) 0 292) true true true
    PRI_CONFIRMED_USER_DATA 1024 1 [0xC0; 0x01]%Z).
  - unfold WSlice.wf. cbn. lia.
  - cbn. lia.
  - vm_compute. lia.
Defined.

(** The body of a frame survives the trip through an array: writing the
    data of a frame at [p], checking it there and extracting it to any earlier
    offset [q] of the same array succeeds, the check accepts it, and the array
    ends up with the data at [q] while every byte before [q] and every byte
    from the end of the body on keeps its value. *)
Theorem user_data_roundtrip (m data : bytes) (p q : nat) :
  bytes_ok m -> bytes_ok data -> q <= p -> p + CalcUserDataSize (length data) <= length m ->
  exists m1 m2,
    WriteUserData data m p (length data) = Some m1 /\
    ValidateBodyCRC m1 p (length data) = Some true /\
    ReadUserData m1 p q (length data) = Some m2 /\
    mem_read m2 q (length data) = Some data /\
    take q m2 = take q m /\
    drop (p + CalcUserDataSize (length data)) m2 = drop (p + CalcUserDataSize (length data)) m.
Proof.
  intros Hm Hdata Hle Hl. pose proof (CalcUserDataSize_ge (length data)).
  unfold WriteUserData. rewrite WriteUserData_loop_spec by lia. rewrite take_ge by lia.
  destruct (mem_write m p (blocks data)) as [m1|] eqn:H1.
  2: { rewrite mem_write_Some in H1 by (rewrite blocks_length; lia). done. }
  pose proof (mem_write_length _ _ _ _ H1) as Hm1. pose proof (mem_write_drop_at _ _ _ _ H1) as Hd.
  assert (bytes_ok m1) by eauto with dnp3.
  exists m1. rewrite ValidateBodyCRC_spec, ReadUserData_spec by (done || lia).
  rewrite Hd, strip_blocks. rewrite take_app_le, take_ge by (rewrite blocks_length; lia).
  rewrite bool_decide_true by done.
  destruct (mem_write m1 q data) as [m2|] eqn:H2.
  2: { rewrite mem_write_Some in H2 by lia. done. }
  exists m2. split_and!; try done.
  - by apply (mem_write_read m1).
  - rewrite (mem_write_take_lt _ _ _ _ q H2) by lia. by apply (mem_write_take_lt _ p (blocks data)).
  - rewrite (mem_write_drop _ _ _ _ _ H2) by lia.
    apply (mem_write_drop _ _ _ _ _ H1). rewrite blocks_length. lia.
Qed.

Lemma user_data_roundtrip_witness :
  exists m1 m2,
    WriteUserData [1;2;3;4;5;6;7;8;9;10;11;12;13;14;15;16;17]%Z (replicate 40 0%Z) 10 17 = Some m1 /\
    ValidateBodyCRC m1 10 17 = Some true /\
    ReadUserData m1 10 2 17 = Some m2 /\
    mem_read m2 2 17 = Some [1;2;3;4;5;6;7;8;9;10;11;12;13;14;15;16;17]%Z /\
    take 2 m2 = take 2 (replicate 40 0%Z) /\
    drop 31 m2 = drop 31 (replicate 40 0%Z).
Proof.
  apply (user_data_roundtrip (replicate 40 0%Z) [1;2;3;4;5;6;7;8;9;10;11;12;13;14;15;16;17]%Z 10 2).
  - apply Forall_replicate. unfold is_u8. lia.
  - repeat constructor; cbn; lia.
  - lia.
  - vm_compute. lia.
Defined.
