(* ===== verification/LinkParser.v ===== *)
(** * LinkParser: receiving frames (opendnp3/link: ShiftableBuffer, LinkLayerParser)

    The receive buffer, the parser's state machine, and a reference that scans
    a list of bytes.  The parser is shown to compute the reference. *)

From S2P Require Import Prelude Slices Serialization Crc LinkFrame.

(** ** ShiftableBuffer *)

Record ShiftableBuffer := mkShiftableBuffer {
  pBuffer : bytes;
  writePos : nat;
  readPos : nat
}.

Module ShiftableBuffer.

(** [M_SIZE] is the size of the array the buffer is built on. *)
Definition M_SIZE (b : ShiftableBuffer) : nat := length (pBuffer b).

Definition NumBytesRead (b : ShiftableBuffer) : nat := writePos b - readPos b.

Definition NumWriteBytes (b : ShiftableBuffer) : nat := M_SIZE b - writePos b.

Definition ReadBuffer (b : ShiftableBuffer) : option RSlice :=
  mem_read (pBuffer b) (readPos b) (NumBytesRead b).

Definition Shift (b : ShiftableBuffer) : option ShiftableBuffer :=
  let numRead := NumBytesRead b in
  m ← mem_move (pBuffer b) 0 (readPos b) numRead;
  Some (mkShiftableBuffer m numRead 0).

Definition Reset (b : ShiftableBuffer) : ShiftableBuffer := mkShiftableBuffer (pBuffer b) 0 0.

Definition AdvanceRead (b : ShiftableBuffer) (numBytes : nat) : option ShiftableBuffer :=
  _ ← c_assert (numBytes <=? NumBytesRead b);
  Some (mkShiftableBuffer (pBuffer b) (writePos b) (readPos b + numBytes)).

Definition AdvanceWrite (b : ShiftableBuffer) (aNumBytes : nat) : option ShiftableBuffer :=
  _ ← c_assert (aNumBytes <=? NumWriteBytes b);
  Some (mkShiftableBuffer (pBuffer b) (writePos b + aNumBytes) (readPos b)).

Fixpoint Sync_loop (fuel : nat) (b : ShiftableBuffer) (skipCount : nat)
    : option (ShiftableBuffer * nat * bool) :=
  if 1 <? NumBytesRead b then
    match fuel with
    | O => None
    | S fuel =>
        b0 ← mem_read (pBuffer b) (readPos b + 0) 1;
        b1 ← mem_read (pBuffer b) (readPos b + 1) 1;
        if bool_decide (b0 = [0x05%Z]) && bool_decide (b1 = [0x64%Z])
        then Some (b, skipCount, true)
        else b ← AdvanceRead b 1; Sync_loop fuel b (skipCount + 1)
    end
  else Some (b, skipCount, false).

Definition Sync (b : ShiftableBuffer) (skipCount : nat) : option (ShiftableBuffer * nat * bool) :=
  Sync_loop (NumBytesRead b) b skipCount.

End ShiftableBuffer.

(** ** LinkLayerParser *)

Inductive PState := FindSync | ReadHeader_ | ReadBody | Complete.

#[export] Instance PState_eq_dec : EqDecision PState.
Proof. solve_decision. Defined.

(** [LinkStatistics::Parser] *)
Record ParserStats := mkParserStats {
  numHeaderCrcError : Z;
  numBodyCrcError : Z;
  numLinkFrameRx : Z;
  numBadLength : Z;
  numBadFunctionCode : Z;
  numBadFCV : Z;
  numBadFCB : Z
}.

Definition ParserStats_default : ParserStats := mkParserStats 0 0 0 0 0 0 0.

(** The counters that the parser increments. *)
Inductive Counter :=
  | HeaderCrcError | BodyCrcError | LinkFrameRx | BadLength | BadFunctionCode | BadFCV | BadFCB.

(** [++statistics.num...], on [uint32_t] *)
Definition bump (s : ParserStats) (c : Counter) : ParserStats :=
  let '(mkParserStats a b f l fc v cb) := s in
  match c with
  | HeaderCrcError => mkParserStats (u32 (a + 1)) b f l fc v cb
  | BodyCrcError => mkParserStats a (u32 (b + 1)) f l fc v cb
  | LinkFrameRx => mkParserStats a b (u32 (f + 1)) l fc v cb
  | BadLength => mkParserStats a b f (u32 (l + 1)) fc v cb
  | BadFunctionCode => mkParserStats a b f l (u32 (fc + 1)) v cb
  | BadFCV => mkParserStats a b f l fc (u32 (v + 1)) cb
  | BadFCB => mkParserStats a b f l fc v (u32 (cb + 1))
  end.

(** [rxBuffer] is the array of [buffer]; [userData] is a view of its first
    [userLen] bytes. *)
Record Parser := mkParser {
  statistics : ParserStats;
  header : LinkHeader;
  state : PState;
  frameSize : nat;
  userLen : nat;
  buffer : ShiftableBuffer
}.

Module LinkLayerParser.
Import ShiftableBuffer.

(** The constructor; the contents of [rxBuffer] are arbitrary. *)
Definition init (rxBuffer : bytes) : Parser :=
  mkParser ParserStats_default LinkHeader_default FindSync 0 0 (mkShiftableBuffer rxBuffer 0 0).

Definition set_state (p : Parser) (s : PState) : Parser :=
  mkParser (statistics p) (header p) s (frameSize p) (userLen p) (buffer p).

Definition set_buffer (p : Parser) (b : ShiftableBuffer) : Parser :=
  mkParser (statistics p) (header p) (state p) (frameSize p) (userLen p) b.

Definition set_frameSize (p : Parser) (n : nat) : Parser :=
  mkParser (statistics p) (header p) (state p) n (userLen p) (buffer p).

Definition count (p : Parser) (c : Counter) : Parser :=
  mkParser (bump (statistics p) c) (header p) (state p) (frameSize p) (userLen p) (buffer p).

Definition Reset (p : Parser) : Parser :=
  mkParser (statistics p) (header p) FindSync 0 (userLen p) (ShiftableBuffer.Reset (buffer p)).

Definition WriteBuff (p : Parser) : WSlice :=
  mkWSlice (pBuffer (buffer p)) (writePos (buffer p)) (NumWriteBytes (buffer p)).

(** The state to move to, with the parser after the step. *)
Definition ParseSync (p : Parser) : option (Parser * PState) :=
  if 10 <=? NumBytesRead (buffer p) then
    '(b, _, synced) ← Sync (buffer p) 0;
    Some (set_buffer p b, if (synced : bool) then ReadHeader_ else FindSync)
  else Some (p, FindSync).

(** The counter a bad function code, FCV or FCB increments, [None] when valid. *)
Definition ValidateFunctionCode (h : LinkHeader) : option Counter :=
  if IsPriToSec h then
    let check (fcv_set : bool) := if eqb fcv_set (IsFcvDfcSet h) then None else Some BadFCV in
    match GetFuncEnum h with
    | PRI_CONFIRMED_USER_DATA | PRI_TEST_LINK_STATES => check true
    | PRI_REQUEST_LINK_STATUS | PRI_RESET_LINK_STATES | PRI_UNCONFIRMED_USER_DATA => check false
    | _ => Some BadFunctionCode
    end
  else
    match GetFuncEnum h with
    | SEC_ACK | SEC_NACK | SEC_LINK_STATUS | SEC_NOT_SUPPORTED =>
        if IsFcbSet h then Some BadFCB else None
    | _ => Some BadFunctionCode
    end.

Definition ValidateHeaderParameters (p : Parser) : Parser * bool :=
  let header := header p in
  if negb (ValidLength header) then (count p BadLength, false)
  else match ValidateFunctionCode header with
  | Some c => (count p c, false)
  | None =>
      let user_data_length := u8 (hdr_length header - LPDU_MIN_LENGTH) in
      let frameSize := CalcFrameSize (Z.to_nat user_data_length) in
      let p := set_frameSize p frameSize in
      let func := GetFuncEnum header in
      let has_payload := (0 <? user_data_length)%Z in
      let should_have_payload :=
        bool_decide (func = PRI_CONFIRMED_USER_DATA) || bool_decide (func = PRI_UNCONFIRMED_USER_DATA) in
      if should_have_payload && negb has_payload then (count p BadLength, false)
      else if negb should_have_payload && has_payload then (count p BadLength, false)
      else (p, true)
  end.

Definition ReadHeader (p : Parser) : option (Parser * bool) :=
  h ← LinkHeader_Read (pBuffer (buffer p)) (readPos (buffer p));
  let p := mkParser (statistics p) h (state p) (frameSize p) (userLen p) (buffer p) in
  ok ← IsCorrectCRC (pBuffer (buffer p)) (readPos (buffer p)) LI_CRC;
  if (ok : bool) then Some (ValidateHeaderParameters p)
  else Some (count p HeaderCrcError, false).

(** [header.GetLength() - LPDU_MIN_LENGTH] as a [uint32_t] *)
Definition body_length (p : Parser) : nat := Z.to_nat (u32 (hdr_length (header p) - LPDU_MIN_LENGTH)).

Definition ValidateBody (p : Parser) : option (Parser * bool) :=
  ok ← ValidateBodyCRC (pBuffer (buffer p)) (readPos (buffer p) + LPDU_HEADER_SIZE) (body_length p);
  if (ok : bool) then Some (p, true) else Some (count p BodyCrcError, false).

Definition TransferUserData (p : Parser) : option Parser :=
  let len := body_length p in
  let b := buffer p in
  m ← ReadUserData (pBuffer b) (readPos b + LPDU_HEADER_SIZE) 0 len;
  Some (mkParser (statistics p) (header p) (state p) (frameSize p) len
          (mkShiftableBuffer m (writePos b) (readPos b))).

Definition FailFrame (p : Parser) : option Parser :=
  b ← AdvanceRead (buffer p) 1; Some (set_buffer p b).

Definition ParseHeader (p : Parser) : option (Parser * PState) :=
  if 10 <=? NumBytesRead (buffer p) then
    '(p, ok) ← ReadHeader p;
    if (ok : bool) then Some (p, ReadBody) else p ← FailFrame p; Some (p, FindSync)
  else Some (p, ReadHeader_).

Definition ParseBody (p : Parser) : option (Parser * PState) :=
  if NumBytesRead (buffer p) <? frameSize p then Some (p, ReadBody)
  else
    '(p, ok) ← ValidateBody p;
    if (ok : bool) then p ← TransferUserData p; Some (p, Complete)
    else p ← FailFrame p; Some (p, FindSync).

(** [this->state = ParseOneStep()] *)
Definition ParseOneStep (p : Parser) : option Parser :=
  '(p, s) ← match state p with
            | FindSync => ParseSync p
            | ReadHeader_ => ParseHeader p
            | ReadBody => ParseBody p
            | Complete => Some (p, Complete)
            end;
  Some (set_state p s).

Fixpoint ParseUntilComplete (fuel : nat) (p : Parser) : option Parser :=
  match fuel with
  | O => None
  | S fuel =>
      let lastState := state p in
      p ← ParseOneStep p;
      if decide (state p = lastState) then Some p else ParseUntilComplete fuel p
  end.

(** A frame handed to the sink. *)
Definition Frame : Type := LinkHeaderFields * bytes.

Definition frame_fields (header : LinkHeader) : LinkHeaderFields :=
  mkLinkHeaderFields (GetFuncEnum header) (IsFromMaster header) (IsFcbSet header)
    (IsFcvDfcSet header) (hdr_dest header) (hdr_src header).

Definition PushFrame (p : Parser) : option (Parser * Frame) :=
  userData ← mem_read (pBuffer (buffer p)) 0 (userLen p);
  b ← AdvanceRead (buffer p) (frameSize p);
  Some (set_buffer p b, (frame_fields (header p), userData)).

(** One step of the parser either consumes a byte or moves to a later state, so
    this fuel is enough for every call (see [step_fuel_enough] below). *)
Definition step_fuel (p : Parser) : nat := 4 * NumBytesRead (buffer p) + 5.

Fixpoint OnRead_loop (fuel : nat) (p : Parser) : option (Parser * list Frame) :=
  match fuel with
  | O => None
  | S fuel =>
      p ← ParseUntilComplete (step_fuel p) p;
      if decide (state p = Complete) then
        '(p, f) ← PushFrame (count p LinkFrameRx);
        '(p, fs) ← OnRead_loop fuel (set_state p FindSync);
        Some (p, f :: fs)
      else Some (p, [])
  end.

Definition OnRead (p : Parser) (numBytes : nat) : option (Parser * list Frame) :=
  b ← AdvanceWrite (buffer p) numBytes;
  let p := set_buffer p b in
  '(p, fs) ← OnRead_loop (S (NumBytesRead (buffer p))) p;
  b ← Shift (buffer p);
  Some (set_buffer p b, fs).

(** The channel reads a chunk into [WriteBuff()] and calls [OnRead]. *)
Definition Receive (p : Parser) (chunk : bytes) : option (Parser * list Frame) :=
  _ ← c_assert (length chunk <=? ws_size (WriteBuff p));
  w ← WSlice.store (WriteBuff p) chunk;
  let b := buffer p in
  OnRead (set_buffer p (mkShiftableBuffer (ws_array w) (writePos b) (readPos b))) (length chunk).

(** [IOHandler::BeginRead] and [OnReadComplete]: each read of the channel
    delivers at most the bytes that [WriteBuff()] has room for; [sizes] are the
    amounts the operating system has ready.  The last component is the input
    that was not read. *)
Fixpoint ReadChannel (sizes : list nat) (p : Parser) (input : bytes)
    : option (Parser * list Frame * bytes) :=
  match sizes with
  | [] => Some (p, [], input)
  | n :: sizes =>
      let num := min n (ws_size (WriteBuff p)) in
      '(p, fs) ← Receive p (take num input);
      '(p, fs', input) ← ReadChannel sizes p (drop num input);
      Some (p, fs ++ fs', input)
  end.

(** [DecoderImpl::DecodeLPDU]: the loop over the bytes to decode. *)
Fixpoint DecodeLPDU (fuel : nat) (p : Parser) (remaining : RSlice) : option (Parser * list Frame) :=
  if RSlice.IsNotEmpty remaining then
    match fuel with
    | O => None
    | S fuel =>
        let dest := WriteBuff p in
        let NUM := if ws_size dest <? RSlice.Size remaining then ws_size dest else RSlice.Size remaining in
        '(dest, _) ← CopyTo (RSlice.Take remaining NUM) dest;
        let b := buffer p in
        '(p, fs) ← OnRead (set_buffer p (mkShiftableBuffer (ws_array dest) (writePos b) (readPos b))) NUM;
        '(p, fs') ← DecodeLPDU fuel p (RSlice.Advance remaining NUM);
        Some (p, fs ++ fs')
    end
  else Some (p, []).

End LinkLayerParser.

(** ** Reference: scanning a list of bytes *)

Module Scan.
Import LinkLayerParser.

(** Drops bytes up to the first 0x05 0x64, or up to the last byte. *)
Fixpoint sync (u : bytes) : bytes :=
  match u with
  | a :: (b :: _) as t => if bool_decide (a = 0x05%Z) && bool_decide (b = 0x64%Z) then u else sync t
  | _ => u
  end.

(** Why the fields of a header are not acceptable. *)
Definition params_error (h : LinkHeader) : option Counter :=
  if (hdr_length h <? 5)%Z then Some BadLength
  else match ValidateFunctionCode h with
  | Some c => Some c
  | None =>
      if eqb (bool_decide (GetFuncEnum h ∈ [PRI_CONFIRMED_USER_DATA; PRI_UNCONFIRMED_USER_DATA]))
             (5 <? hdr_length h)%Z
      then None else Some BadLength
  end.

(** Why ten bytes are not an acceptable header, [None] when they are one. *)
Definition header_error (u : bytes) : option Counter :=
  if bool_decide (take 10 u = with_crc (take 8 u)) then params_error (header_fields (take 10 u))
  else Some HeaderCrcError.

Definition data_length (u : bytes) : nat := Z.to_nat (hdr_length (header_fields (take 10 u)) - 5).

Definition frame_size (u : bytes) : nat := CalcFrameSize (data_length u).

Definition frame_data (u : bytes) : bytes := strip (data_length u) (drop 10 u).

Inductive Event :=
  | Rejected (why : Counter)
  | Received (f : Frame).

(** What stands at the front of the input, with what is left after it; [None]
    when more bytes are needed. *)
Definition scan1 (u : bytes) : option (Event * bytes) :=
  let u := sync u in
  if length u <? 10 then None
  else match header_error u with
  | Some c => Some (Rejected c, drop 1 u)
  | None =>
      if length u <? frame_size u then None
      else if bool_decide (take (frame_size u) u = take 10 u ++ blocks (frame_data u))
      then Some (Received (frame_fields (header_fields (take 10 u)), frame_data u), drop (frame_size u) u)
      else Some (Rejected BodyCrcError, drop 1 u)
  end.

(** The bytes kept while waiting. *)
Definition settle (u : bytes) : bytes := if length u <? 10 then u else sync u.

Fixpoint scan_fuel (fuel : nat) (u : bytes) : list Event * bytes :=
  match fuel with
  | O => ([], settle u)
  | S fuel =>
      match scan1 u with
      | None => ([], settle u)
      | Some (e, u) => let '(es, r) := scan_fuel fuel u in (e :: es, r)
      end
  end.

(** Every event consumes a byte, so the length is enough fuel. *)
Definition scan (u : bytes) : list Event * bytes := scan_fuel (length u) u.

Definition frames (es : list Event) : list Frame :=
  omap (fun e => match e with Received f => Some f | Rejected _ => None end) es.

Definition counter_of (e : Event) : Counter :=
  match e with Rejected c => c | Received _ => LinkFrameRx end.

Definition stats_after (s : ParserStats) (es : list Event) : ParserStats :=
  foldl (fun s e => bump s (counter_of e)) s es.

End Scan.

(** ** Lemmas: the reference *)

Section Reference.
Import LinkLayerParser Scan.

Lemma sync_cons2 a b t :
  sync (a :: b :: t) =
    if bool_decide (a = 0x05%Z) && bool_decide (b = 0x64%Z) then a :: b :: t else sync (b :: t).
Proof. done. Qed.

Lemma sync_length u : length (sync u) <= length u.
Proof.
  induction u as [|a [|b t] IH]; simpl in *; [lia..|]. case_bool; simpl in *; lia.
Qed.

Lemma sync_idem u : sync (sync u) = sync u.
Proof.
  induction u as [|a [|b t] IH]; [done..|]. rewrite sync_cons2.
  destruct (bool_decide (a = 5%Z) && bool_decide (b = 100%Z)) eqn:H; [|done].
  by rewrite sync_cons2, H.
Qed.

Lemma sync_suffix u : exists n, sync u = drop n u.
Proof.
  induction u as [|a [|b t] [n IH]]; [by exists 0..|]. rewrite sync_cons2.
  destruct (_ && _); [by exists 0|]. exists (S n). by rewrite IH.
Qed.

Lemma sync_bytes u : bytes_ok u -> bytes_ok (sync u).
Proof. destruct (sync_suffix u) as [n ->]. apply Forall_drop. Qed.

(** A synchronised input begins with the start bytes. *)
Lemma sync_fix u : 2 <= length u -> sync u = u <-> take 2 u = [0x05; 0x64]%Z.
Proof.
  destruct u as [|a [|b t]]; intros Hu; [cbn in Hu; lia..|]. rewrite sync_cons2. cbn [take]. split.
  - destruct (bool_decide (a = 5%Z) && bool_decide (b = 100%Z)) eqn:Hab.
    + intros _. apply andb_prop in Hab as [->%bool_decide_eq_true ->%bool_decide_eq_true]. by destruct t.
    + intros Hs. exfalso. pose proof (sync_length (b :: t)) as Hl.
      rewrite Hs in Hl. cbn in Hl. lia.
  - intros [= -> ->]. done.
Qed.

(** Synchronising commutes with the arrival of more bytes. *)
Lemma sync_app u x : sync (sync u ++ x) = sync (u ++ x).
Proof.
  induction u as [|a [|b t] IH]; [done..|]. cbn [app] in *. rewrite !sync_cons2.
  destruct (bool_decide (a = 5%Z) && bool_decide (b = 100%Z)) eqn:H; [|done].
  cbn [app]. by rewrite sync_cons2, H.
Qed.

Lemma sync_app_long u x : 2 <= length (sync u) -> sync (u ++ x) = sync u ++ x.
Proof.
  intros Hl. rewrite <- sync_app.
  apply sync_fix; [len|]. rewrite take_app_le by lia. apply sync_fix; [lia|apply sync_idem].
Qed.

Lemma settle_sync u : sync (settle u) = sync u.
Proof. unfold settle. case_bool; [done|apply sync_idem]. Qed.

Lemma settle_app u x : sync (settle u ++ x) = sync (u ++ x).
Proof. unfold settle. case_bool; [done|apply sync_app]. Qed.

Lemma scan1_sync u v : sync u = sync v -> scan1 u = scan1 v.
Proof. unfold scan1. by intros ->. Qed.

Lemma frame_size_min u : 10 <= frame_size u.
Proof. unfold frame_size, CalcFrameSize, LPDU_HEADER_SIZE. lia. Qed.

Lemma scan1_shorter u e r : scan1 u = Some (e, r) -> length r < length u.
Proof.
  unfold scan1. pose proof (sync_length u). pose proof (frame_size_min (sync u)).
  destruct (Nat.ltb_spec (length (sync u)) 10); [done|].
  destruct (header_error _); [intros [= <- <-]; len|].
  case_bool; [done| |]; intros [= <- <-]; len.
Qed.

Lemma scan1_bytes u e r : bytes_ok u -> scan1 u = Some (e, r) -> bytes_ok r.
Proof.
  intros Hu%sync_bytes. unfold scan1.
  destruct (length (sync u) <? 10); [done|].
  destruct (header_error _); [intros [= <- <-]; by apply Forall_drop|].
  destruct (length (sync u) <? _); [done|].
  case_bool; intros [= <- <-]; by apply Forall_drop.
Qed.

Lemma scan1_suffix u e r : scan1 u = Some (e, r) -> exists k, r = drop k u.
Proof.
  destruct (sync_suffix u) as [k Hk]. unfold scan1. rewrite Hk.
  destruct (_ <? 10); [done|].
  destruct (header_error _); [intros [= <- <-]; rewrite drop_drop; eauto|].
  destruct (_ <? frame_size _); [done|].
  case_bool; intros [= <- <-]; rewrite drop_drop; eauto.
Qed.

Lemma scan_fuel_enough n m u :
  length u <= n -> length u <= m -> scan_fuel n u = scan_fuel m u.
Proof.
  revert m u. induction n as [|n IH]; intros m u Hn Hm.
  - destruct u; [|simpl in *; lia]. by destruct m.
  - destruct m as [|m]; [destruct u; [done|simpl in *; lia]|]. cbn [scan_fuel].
    destruct (scan1 u) as [[e r]|] eqn:H; [|done].
    apply scan1_shorter in H. by rewrite (IH m r) by lia.
Qed.

Lemma scan_eq u :
  scan u = match scan1 u with
           | None => ([], settle u)
           | Some (e, r) => (e :: (scan r).1, (scan r).2)
           end.
Proof.
  unfold scan at 1. destruct (length u) as [|n] eqn:Hl.
  - by destruct u.
  - cbn [scan_fuel]. destruct (scan1 u) as [[e r]|] eqn:H; [|done].
    apply scan1_shorter in H. rewrite (scan_fuel_enough n (length r)) by lia.
    unfold scan. by destruct (scan_fuel (length r) r).
Qed.

Lemma scan_waiting u : scan1 u = None -> scan u = ([], settle u).
Proof. intros H. by rewrite scan_eq, H. Qed.

Lemma scan_event u e r : scan1 u = Some (e, r) -> scan u = (e :: (scan r).1, (scan r).2).
Proof. intros H. by rewrite scan_eq, H. Qed.

(** What is kept yields nothing by itself. *)
Lemma scan_rest_waits u : scan1 (scan u).2 = None.
Proof.
  remember (length u) as n eqn:Hn. revert u Hn. induction (lt_wf n) as [n _ IH]. intros u ->.
  destruct (scan1 u) as [[e r]|] eqn:H.
  - rewrite (scan_event _ _ _ H). cbn. eapply IH; [by eapply scan1_shorter|done].
  - rewrite (scan_waiting _ H). cbn. rewrite <- H. apply scan1_sync, settle_sync.
Qed.

(** The header and the size of a frame are in its first ten bytes. *)
Lemma header_error_app u x : 10 <= length u -> header_error (u ++ x) = header_error u.
Proof. intros. unfold header_error. by rewrite !take_app_le by lia. Qed.

Lemma data_length_app u x : 10 <= length u -> data_length (u ++ x) = data_length u.
Proof. intros. unfold data_length. by rewrite !take_app_le by lia. Qed.

Lemma frame_size_app u x : 10 <= length u -> frame_size (u ++ x) = frame_size u.
Proof. intros. unfold frame_size. by rewrite data_length_app. Qed.

Lemma strip_app len body x :
  CalcUserDataSize len <= length body -> strip len (body ++ x) = strip len body.
Proof.
  revert body. induction len as [|n Hpos IH] using block_ind; intros body Hb; [done|].
  rewrite CalcUserDataSize_step in Hb by done. rewrite (strip_step n (body ++ x)), (strip_step n body) by done.
  rewrite take_app_le, drop_app_le by lia. by rewrite IH by len.
Qed.

Lemma frame_data_app u x :
  10 <= length u -> frame_size u <= length u -> frame_data (u ++ x) = frame_data u.
Proof.
  intros. unfold frame_data. rewrite data_length_app, drop_app_le by lia. apply strip_app.
  unfold frame_size, CalcFrameSize, LPDU_HEADER_SIZE in *. len.
Qed.

(** More input never changes what has been recognised. *)
Lemma scan1_app u x e r : scan1 u = Some (e, r) -> scan1 (u ++ x) = Some (e, r ++ x).
Proof.
  unfold scan1. destruct (Nat.ltb_spec (length (sync u)) 10) as [|Hl]; [done|].
  rewrite sync_app_long by lia. revert Hl. generalize (sync u) as v. intros v Hl.
  pose proof (frame_size_min v).
  destruct (Nat.ltb_spec (length (v ++ x)) 10); [len|].
  rewrite header_error_app, frame_size_app by lia.
  destruct (header_error v); [intros [= <- <-]; by rewrite drop_app_le by lia|].
  destruct (Nat.ltb_spec (length v) (frame_size v)); [done|].
  destruct (Nat.ltb_spec (length (v ++ x)) (frame_size v)); [len|].
  rewrite frame_data_app, !take_app_le, !drop_app_le by lia.
  case_bool; by intros [= <- <-].
Qed.

(** Scanning may be interrupted anywhere. *)
Lemma scan_app_frames u x :
  (scan (u ++ x)).1 = (scan u).1 ++ (scan ((scan u).2 ++ x)).1.
Proof.
  remember (length u) as n eqn:Hn. revert u Hn. induction (lt_wf n) as [n _ IH]. intros u ->.
  destruct (scan1 u) as [[e r]|] eqn:H.
  - rewrite (scan_event _ _ _ H), (scan_event _ _ _ (scan1_app _ x _ _ H)). simpl. f_equal.
    eapply IH; [|done]. by eapply scan1_shorter.
  - rewrite (scan_waiting _ H). simpl.
    rewrite (scan_eq (u ++ x)), (scan_eq (settle u ++ x)).
    rewrite (scan1_sync (settle u ++ x) (u ++ x)) by apply settle_app.
    by destruct (scan1 (u ++ x)) as [[]|].
Qed.

Lemma data_length_bound u : bytes_ok u -> 10 <= length u -> data_length u <= 250.
Proof.
  intros Hu Hl. unfold data_length.
  destruct (header_fields_ok (take 10 u)) as [Hh _]; [by apply Forall_take|unfold LPDU_HEADER_SIZE; len|].
  unfold is_u8 in Hh. lia.
Qed.

Lemma frame_size_bound u : bytes_ok u -> 10 <= length u -> frame_size u <= LPDU_MAX_FRAME_SIZE.
Proof. intros. apply CalcFrameSize_max. by apply data_length_bound. Qed.

(** What is kept is always smaller than a frame. *)
Lemma scan_rest_bound u : bytes_ok u -> length (scan u).2 < LPDU_MAX_FRAME_SIZE.
Proof.
  remember (length u) as n eqn:Hn. revert u Hn. induction (lt_wf n) as [n _ IH]. intros u -> Hu.
  pose proof (sync_bytes u Hu) as Hs. pose proof (sync_length u).
  destruct (scan1 u) as [[e r]|] eqn:H1.
  - rewrite (scan_event _ _ _ H1). simpl.
    eapply IH; [by eapply scan1_shorter|done|by apply (scan1_bytes u e)].
  - rewrite (scan_waiting _ H1). simpl. unfold settle. unfold LPDU_MAX_FRAME_SIZE.
    revert H1. unfold scan1.
    destruct (Nat.ltb_spec (length u) 10); [lia|].
    destruct (Nat.ltb_spec (length (sync u)) 10); [lia|].
    destruct (header_error _); [done|].
    pose proof (frame_size_bound (sync u) Hs) as Hb. unfold LPDU_MAX_FRAME_SIZE in Hb.
    destruct (Nat.ltb_spec (length (sync u)) (frame_size (sync u))); [lia|]. by case_bool.
Qed.

End Reference.

(** ** Lemmas: the buffer *)

Section Buffers.
Import ShiftableBuffer Scan.

Definition contents (b : ShiftableBuffer) : bytes := take (NumBytesRead b) (drop (readPos b) (pBuffer b)).

Definition buffer_ok (b : ShiftableBuffer) : Prop :=
  readPos b <= writePos b /\ writePos b <= length (pBuffer b) /\ bytes_ok (pBuffer b) /\
  length (pBuffer b) = LPDU_MAX_FRAME_SIZE.

Lemma contents_length b : buffer_ok b -> length (contents b) = NumBytesRead b.
Proof. unfold buffer_ok, contents, NumBytesRead. intros. len. Qed.

Lemma contents_bytes b : buffer_ok b -> bytes_ok (contents b).
Proof. intros (_ & _ & H & _). by apply Forall_take, Forall_drop. Qed.

Lemma contents_prefix b n :
  n <= NumBytesRead b -> take n (drop (readPos b) (pBuffer b)) = take n (contents b).
Proof. intros. unfold contents. rewrite take_take. f_equal. lia. Qed.

Lemma contents_read b i n :
  buffer_ok b -> i + n <= NumBytesRead b ->
  mem_read (pBuffer b) (readPos b + i) n = Some (take n (drop i (contents b))).
Proof.
  unfold buffer_ok, contents, NumBytesRead. intros Hb Hn. rewrite mem_read_Some by lia. f_equal.
  rewrite <- drop_drop, skipn_firstn_comm, take_take. f_equal. lia.
Qed.

Lemma contents_read0 b n :
  buffer_ok b -> n <= NumBytesRead b ->
  mem_read (pBuffer b) (readPos b) n = Some (take n (contents b)).
Proof. intros Hb Hn. pose proof (contents_read b 0 n Hb Hn) as H. by rewrite Nat.add_0_r, drop_0 in H. Qed.

Lemma AdvanceRead_spec b n :
  buffer_ok b -> n <= NumBytesRead b ->
  exists b', AdvanceRead b n = Some b' /\ buffer_ok b' /\ contents b' = drop n (contents b) /\
    pBuffer b' = pBuffer b /\ readPos b' = readPos b + n /\ NumBytesRead b' = NumBytesRead b - n.
Proof.
  unfold AdvanceRead, c_assert. intros Hb Hn. rewrite (proj2 (Nat.leb_le _ _) Hn).
  cbn [mbind option_bind]. eexists. split; [done|].
  unfold buffer_ok, contents, NumBytesRead in *. cbn [pBuffer writePos readPos].
  split_and!; try tauto; try lia.
  rewrite skipn_firstn_comm, drop_drop. f_equal. lia.
Qed.

Lemma AdvanceRead_eq b n :
  n <= NumBytesRead b ->
  AdvanceRead b n = Some (mkShiftableBuffer (pBuffer b) (writePos b) (readPos b + n)).
Proof. intros Hn. unfold AdvanceRead, c_assert. by rewrite (proj2 (Nat.leb_le _ _) Hn). Qed.

Lemma Sync_loop_spec fuel b k :
  buffer_ok b -> NumBytesRead b <= fuel ->
  exists b' k', Sync_loop fuel b k = Some (b', k', 2 <=? length (sync (contents b))) /\
    buffer_ok b' /\ contents b' = sync (contents b) /\ NumBytesRead b' <= NumBytesRead b.
Proof.
  revert b k. induction fuel as [|fuel IH]; intros b k Hb Hf; pose proof (contents_length b Hb) as Hl;
    cbn [Sync_loop]; destruct (Nat.ltb_spec 1 (NumBytesRead b)) as [H1|H1]; try lia.
  1,3: exists b, k; assert (Hs : sync (contents b) = contents b)
         by (destruct (contents b) as [|x [|y t]]; [done..|cbn in Hl; lia]);
       rewrite Hs, Hl; destruct (Nat.leb_spec 2 (NumBytesRead b)); [lia|done].
  rewrite !contents_read by (done || lia). cbn [mbind option_bind].
  destruct (contents b) as [|x [|y t]] eqn:Hc; [cbn in Hl; lia..|].
  cbn [drop take]. rewrite sync_cons2.
  rewrite (bool_decide_ext ([x] = [5%Z]) (x = 5%Z)) by (split; [by intros [= ->]|by intros ->]).
  rewrite (bool_decide_ext ([y] = [100%Z]) (y = 100%Z)) by (split; [by intros [= ->]|by intros ->]).
  destruct (bool_decide (x = 5%Z) && bool_decide (y = 100%Z)).
  - exists b, k. by rewrite Hc.
  - destruct (AdvanceRead_spec b 1 Hb) as (b1 & -> & Hb1 & Hc1 & _ & _ & Hn1); [lia|].
    cbn [mbind option_bind]. rewrite Hc in Hc1. cbn [drop] in Hc1.
    destruct (IH b1 (k + 1) Hb1) as (b' & k' & -> & Hb' & Hc' & Hn'); [lia|].
    rewrite Hc1 in *. exists b', k'. split_and!; try done. lia.
Qed.

Lemma Shift_spec b :
  buffer_ok b ->
  exists b', Shift b = Some b' /\ buffer_ok b' /\ contents b' = contents b /\ readPos b' = 0.
Proof.
  intros Hb. unfold Shift, mem_move.
  rewrite contents_read0 by (done || lia). cbn [mbind option_bind].
  pose proof (contents_length b Hb) as Hl. pose proof (contents_bytes b Hb) as Hbytes.
  rewrite take_ge by lia.
  destruct (mem_write (pBuffer b) 0 (contents b)) as [m|] eqn:Hw.
  2: { unfold buffer_ok, NumBytesRead in *. rewrite mem_write_Some in Hw by lia. done. }
  cbn [mbind option_bind]. eexists. split; [done|].
  pose proof (mem_write_length _ _ _ _ Hw). pose proof (mem_write_take _ _ _ _ Hw) as Ht.
  assert (bytes_ok m) by (eapply mem_write_ok; [done|apply Hb|done]).
  unfold buffer_ok in *. unfold contents at 1. cbn [pBuffer writePos readPos].
  split_and!; try done; try lia. { unfold NumBytesRead. lia. }
  rewrite drop_0. unfold NumBytesRead at 1. cbn [writePos readPos]. cbn in Ht. by rewrite Nat.sub_0_r, <- Hl.
Qed.

End Buffers.

(** ** Lemmas: one step of the parser *)

Section Steps.
Import ShiftableBuffer LinkLayerParser Scan.

(** The parser [p] has the bytes [u] in front of it. *)
Definition represents (p : Parser) (u : bytes) : Prop :=
  buffer_ok (buffer p) /\ length u = NumBytesRead (buffer p) /\ bytes_ok u /\
  match state p with
  | FindSync => contents (buffer p) = u
  | ReadHeader_ => contents (buffer p) = u /\ sync u = u /\ 2 <= length u
  | ReadBody => contents (buffer p) = u /\ sync u = u /\ 10 <= length u /\
      header_error u = None /\ header p = header_fields (take 10 u) /\ frameSize p = frame_size u
  | Complete =>
      exists data, mem_read (pBuffer (buffer p)) 0 (userLen p) = Some data /\
        scan1 u = Some (Received (frame_fields (header p), data), drop (frameSize p) u) /\
        frameSize p <= length u /\ drop (frameSize p) (contents (buffer p)) = drop (frameSize p) u
  end.

(** States only move forward while no byte is consumed. *)
Definition rank (s : PState) : nat :=
  match s with FindSync => 3 | ReadHeader_ => 2 | ReadBody => 1 | Complete => 0 end.

Definition measure (p : Parser) : nat := 4 * NumBytesRead (buffer p) + rank (state p).

(** What a step does to the input: it waits for more, moves on, or rejects. *)
Inductive step_result (p p' : Parser) (u : bytes) : Prop :=
  | step_waits :
      state p' = state p -> represents p' (settle u) -> scan1 u = None ->
      statistics p' = statistics p -> step_result p p' u
  | step_moves u' :
      state p' <> state p -> measure p' < measure p -> represents p' u' ->
      scan1 u' = scan1 u -> settle u' = settle u -> statistics p' = statistics p -> step_result p p' u
  | step_rejects c u' :
      state p' <> state p -> measure p' < measure p -> represents p' u' ->
      scan1 u = Some (Rejected c, u') -> statistics p' = bump (statistics p) c -> step_result p p' u.

Lemma ParseSync_spec p u :
  represents p u -> state p = FindSync -> exists p', ParseOneStep p = Some p' /\ step_result p p' u.
Proof.
  intros Hr Hs. unfold represents in Hr. rewrite Hs in Hr. destruct Hr as (Hb & Hl & Hu & Hc).
  unfold ParseOneStep, ParseSync. rewrite Hs, <- Hl.
  destruct (Nat.leb_spec 10 (length u)) as [H10|H10]; cbn [mbind option_bind].
  - destruct (Sync_loop_spec (NumBytesRead (buffer p)) (buffer p) 0 Hb) as (b & k & Hsync & Hb' & Hc' & Hn); [lia|].
    unfold Sync. rewrite Hsync. cbn [mbind option_bind]. rewrite Hc in *.
    eexists. split; [done|]. pose proof (contents_length b Hb') as Hbl. rewrite Hc' in Hbl.
    pose proof (sync_bytes u Hu) as Hsu.
    assert (Hset : settle u = sync u) by (unfold settle; by destruct (Nat.ltb_spec (length u) 10); [lia|]).
    destruct (Nat.leb_spec 2 (length (sync u))) as [H2|H2].
    + eapply (step_moves _ _ _ (sync u)); cbn; try done.
      * by rewrite Hs.
      * unfold measure. cbn. rewrite ?Hs. cbn. lia.
      * unfold represents. cbn. split_and!; try done. apply sync_idem.
      * apply scan1_sync, sync_idem.
      * rewrite Hset. unfold settle. rewrite sync_idem. by case_bool.
    + apply step_waits; cbn; try done.
      * unfold represents. cbn. by rewrite Hset.
      * unfold scan1. by destruct (Nat.ltb_spec (length (sync u)) 10); [|lia].
  - eexists. split; [done|]. assert (Hset : settle u = u) by (unfold settle; by destruct (Nat.ltb_spec (length u) 10); [|lia]).
    apply step_waits; cbn; try done.
    + unfold represents. cbn. by rewrite Hset.
    + unfold scan1. pose proof (sync_length u). by destruct (Nat.ltb_spec (length (sync u)) 10); [|lia].
Qed.

(** The checks on the fields of a header agree with the reference. *)
Lemma ValidateHeaderParameters_spec p :
  header_ok (header p) ->
  exists n,
    ValidateHeaderParameters p =
      match params_error (header p) with
      | Some c => (count (set_frameSize p n) c, false)
      | None => (set_frameSize p n, true)
      end /\
    (params_error (header p) = None -> n = CalcFrameSize (Z.to_nat (hdr_length (header p) - 5))).
Proof.
  intros (Hlen & _). unfold is_u8 in Hlen. unfold ValidateHeaderParameters, params_error, ValidLength.
  destruct (Z.ltb_spec 4 (hdr_length (header p))), (Z.ltb_spec (hdr_length (header p)) 5); try lia; cbn [negb].
  2: { exists (frameSize p). by destruct p. }
  destruct (ValidateFunctionCode (header p)) as [c|]. { exists (frameSize p). by destruct p. }
  unfold LPDU_MIN_LENGTH. rewrite u8_small by (unfold is_u8; lia).
  exists (CalcFrameSize (Z.to_nat (hdr_length (header p) - 5))).
  replace (0 <? hdr_length (header p) - 5)%Z with (5 <? hdr_length (header p))%Z
    by (destruct (Z.ltb_spec 5 (hdr_length (header p))), (Z.ltb_spec 0 (hdr_length (header p) - 5)); lia).
  destruct (GetFuncEnum (header p)), (5 <? hdr_length (header p))%Z; done.
Qed.

Lemma FailFrame_spec p :
  1 <= NumBytesRead (buffer p) ->
  FailFrame p = Some (set_buffer p (mkShiftableBuffer (pBuffer (buffer p)) (writePos (buffer p)) (readPos (buffer p) + 1))).
Proof. intros. unfold FailFrame. by rewrite AdvanceRead_eq. Qed.

(** After a failure the parser looks for a frame one byte further. *)
Lemma represents_fail p u st hd fs ul :
  buffer_ok (buffer p) -> contents (buffer p) = u -> 1 <= NumBytesRead (buffer p) -> bytes_ok u ->
  represents (mkParser st hd FindSync fs ul
    (mkShiftableBuffer (pBuffer (buffer p)) (writePos (buffer p)) (readPos (buffer p) + 1))) (drop 1 u).
Proof.
  intros Hb Hc Hn Hu.
  destruct (AdvanceRead_spec (buffer p) 1 Hb Hn) as (b' & He & Hb' & Hc' & _).
  rewrite AdvanceRead_eq in He by done. injection He as He. rewrite He.
  pose proof (contents_length _ Hb') as Hl'. rewrite Hc', Hc in Hl'. rewrite Hc in Hc'.
  unfold represents. cbn. split_and!; try done. by apply Forall_drop.
Qed.

(** A step that rejects and moves the parser one byte forward. *)
Lemma fail_rejects p p' u c :
  buffer_ok (buffer p) -> contents (buffer p) = u -> 1 <= NumBytesRead (buffer p) -> bytes_ok u ->
  state p <> FindSync -> scan1 u = Some (Rejected c, drop 1 u) ->
  statistics p' = bump (statistics p) c -> state p' = FindSync ->
  buffer p' = mkShiftableBuffer (pBuffer (buffer p)) (writePos (buffer p)) (readPos (buffer p) + 1) ->
  step_result p p' u.
Proof.
  intros Hb Hc Hn Hu Hs Hscan Hst Hs' Hb'. eapply step_rejects; [congruence| | |done|done].
  - unfold measure. rewrite Hs', Hb'. unfold NumBytesRead in *. cbn [writePos readPos rank]. lia.
  - destruct p'. cbn in *. subst. by apply represents_fail.
Qed.

Lemma ParseHeader_spec p u :
  represents p u -> state p = ReadHeader_ -> exists p', ParseOneStep p = Some p' /\ step_result p p' u.
Proof.
  intros Hr Hs. unfold represents in Hr. rewrite Hs in Hr. destruct Hr as (Hb & Hl & Hu & Hc & Hsy & H2).
  unfold ParseOneStep, ParseHeader. rewrite Hs, <- Hl.
  destruct (Nat.leb_spec 10 (length u)) as [H10|H10]; cbn [mbind option_bind].
  2: { eexists. split; [done|].
    assert (Hset : settle u = u) by (unfold settle; by destruct (Nat.ltb_spec (length u) 10); [|lia]).
    apply step_waits; cbn; try done.
    - unfold represents. cbn. by rewrite Hset.
    - unfold scan1. rewrite Hsy. by destruct (Nat.ltb_spec (length u) 10); [|lia]. }
  pose proof Hb as (Hb1 & Hb2 & Hb3 & Hb4). unfold ReadHeader. unfold NumBytesRead in Hl.
  rewrite LinkHeader_Read_spec by (unfold LPDU_HEADER_SIZE; lia). cbn [mbind option_bind buffer].
  rewrite IsCorrectCRC_spec by (done || (unfold LI_CRC; lia)). cbn [mbind option_bind].
  unfold LPDU_HEADER_SIZE, LI_CRC. cbn [Nat.add].
  rewrite !contents_prefix by (unfold NumBytesRead; lia). rewrite Hc.
  set (h := header_fields (take 10 u)).
  assert (Hh : header_ok h) by (apply header_fields_ok; [by apply Forall_take|unfold LPDU_HEADER_SIZE; len]).
  assert (Hscan : forall c, header_error u = Some c -> scan1 u = Some (Rejected c, drop 1 u)).
  { intros c Hcc. unfold scan1. rewrite Hsy, Hcc. by destruct (Nat.ltb_spec (length u) 10); [lia|]. }
  destruct (decide (take 10 u = with_crc (take 8 u))) as [Hcrc|Hcrc].
  - rewrite bool_decide_true by done. cbn [mbind option_bind].
    assert (Herr : header_error u = params_error h) by (unfold header_error; by rewrite bool_decide_true).
    match goal with |- context [ ValidateHeaderParameters ?q ] =>
      destruct (ValidateHeaderParameters_spec q Hh) as (n & -> & Hn) end.
    cbn [header] in *. destruct (params_error h) as [c|] eqn:Hp.
    + rewrite FailFrame_spec by (cbn; unfold NumBytesRead; lia). cbn. eexists. split; [done|].
      apply (fail_rejects p _ u c); try done; [unfold NumBytesRead; lia|by rewrite Hs|by apply Hscan].
    + cbn. eexists. split; [done|].
      eapply (step_moves _ _ _ u); cbn; rewrite ?Hs; try done.
      * unfold measure. cbn. rewrite ?Hs. cbn. lia.
      * unfold represents. cbn. split_and!; try done. by apply Hn.
  - rewrite bool_decide_false by done. cbn [mbind option_bind].
    rewrite FailFrame_spec by (cbn; unfold NumBytesRead; lia). cbn. eexists. split; [done|].
    apply (fail_rejects p _ u HeaderCrcError); try done; [unfold NumBytesRead; lia|by rewrite Hs|].
    apply Hscan. unfold header_error. by rewrite bool_decide_false.
Qed.

Lemma body_length_spec p u :
  bytes_ok u -> 10 <= length u -> header_error u = None -> header p = header_fields (take 10 u) ->
  body_length p = data_length u.
Proof.
  intros Hu H10 Herr Hhd. unfold body_length, data_length in *. rewrite Hhd.
  destruct (header_fields_ok (take 10 u)) as [Hh _]; [by apply Forall_take|unfold LPDU_HEADER_SIZE; len|].
  unfold header_error in Herr. destruct (bool_decide (take 10 u = _)); [|done]. unfold params_error in Herr.
  destruct (Z.ltb_spec (hdr_length (header_fields (take 10 u))) 5); [done|].
  unfold LPDU_MIN_LENGTH. rewrite u32_small; [done|]. unfold is_u32, is_u8 in *. lia.
Qed.

(** The body of a complete frame, read from the array instead of the input. *)
Lemma body_in_array b u :
  buffer_ok b -> contents b = u -> 10 <= length u -> frame_size u <= length u ->
  take (CalcUserDataSize (data_length u)) (drop (readPos b + 10) (pBuffer b)) =
    take (CalcUserDataSize (data_length u)) (drop 10 u) /\
  strip (data_length u) (drop (readPos b + 10) (pBuffer b)) = frame_data u.
Proof.
  intros Hb Hc H10 Hw. assert (Hsz : frame_size u = 10 + CalcUserDataSize (data_length u)) by done.
  pose proof (contents_length b Hb) as Hl. rewrite Hc in Hl. unfold buffer_ok, NumBytesRead in *.
  assert (Hdrop : take (CalcUserDataSize (data_length u)) (drop (readPos b + 10) (pBuffer b)) =
      take (CalcUserDataSize (data_length u)) (drop 10 u)).
  { rewrite <- drop_drop. rewrite <- Hc at 3. unfold contents. rewrite skipn_firstn_comm, take_take.
    f_equal. unfold NumBytesRead. lia. }
  split; [done|]. unfold frame_data.
  rewrite <- (take_drop (CalcUserDataSize (data_length u)) (drop (readPos _ + 10) _)).
  rewrite Hdrop, strip_app by len.
  rewrite <- (take_drop (CalcUserDataSize (data_length u)) (drop 10 u)) at 2. by rewrite strip_app by len.
Qed.

(** Moving the user data to the front of the array completes the frame; the
    bytes after the frame are still there. *)
Lemma TransferUserData_spec p u :
  represents p u -> state p = ReadBody -> frame_size u <= length u ->
  scan1 u = Some (Received (frame_fields (header p), frame_data u), drop (frame_size u) u) ->
  exists p', TransferUserData p = Some p' /\ represents (set_state p' Complete) u /\
    statistics p' = statistics p /\ NumBytesRead (buffer p') = NumBytesRead (buffer p).
Proof.
  intros Hr Hs Hw Hscan. unfold represents in Hr. rewrite Hs in Hr.
  destruct Hr as (Hb & Hl & Hu & Hc & Hsy & H10 & Herr & Hhd & Hfs).
  destruct (body_in_array _ _ Hb Hc H10 Hw) as [_ Hstrip].
  assert (Hsz : frame_size u = 10 + CalcUserDataSize (data_length u)) by done.
  pose proof (CalcUserDataSize_ge (data_length u)).
  pose proof Hb as (Hb1 & Hb2 & Hb3 & Hb4). unfold NumBytesRead in Hl.
  unfold TransferUserData, LPDU_HEADER_SIZE. rewrite (body_length_spec p u), ReadUserData_spec by (done || lia).
  rewrite Hstrip.
  assert (Hdl : length (frame_data u) = data_length u) by (apply strip_length; len).
  destruct (mem_write (pBuffer (buffer p)) 0 (frame_data u)) as [m|] eqn:Hm.
  2: { rewrite mem_write_Some in Hm by lia. done. }
  cbn [mbind option_bind]. pose proof (mem_write_length _ _ _ _ Hm) as Hml.
  eexists. split; [done|].
  assert (bytes_ok m) by (eapply mem_write_ok; [done|done|by apply strip_bytes, Forall_drop]).
  unfold represents, buffer_ok, NumBytesRead. cbn. split_and!; try done; try lia.
  exists (frame_data u). rewrite Hfs. split_and!; try done.
  - rewrite <- Hdl. by apply (mem_write_read (pBuffer (buffer p))).
  - transitivity (drop (frame_size u) (contents (buffer p))); [|by rewrite Hc].
    unfold contents, NumBytesRead. cbn [pBuffer writePos readPos].
    rewrite !skipn_firstn_comm, !drop_drop. by rewrite (mem_write_drop _ _ _ _ _ Hm) by lia.
Qed.

Lemma ParseBody_spec p u :
  represents p u -> state p = ReadBody -> exists p', ParseOneStep p = Some p' /\ step_result p p' u.
Proof.
  intros Hr Hs. pose proof Hr as Hr'. unfold represents in Hr. rewrite Hs in Hr.
  destruct Hr as (Hb & Hl & Hu & Hc & Hsy & H10 & Herr & Hhd & Hfs).
  pose proof (frame_size_min u) as Hfmin.
  unfold ParseOneStep, ParseBody. rewrite Hs, Hfs, <- Hl.
  assert (Hscan : scan1 u = if length u <? frame_size u then None
      else if bool_decide (take (frame_size u) u = take 10 u ++ blocks (frame_data u))
      then Some (Received (frame_fields (header_fields (take 10 u)), frame_data u), drop (frame_size u) u)
      else Some (Rejected BodyCrcError, drop 1 u)).
  { unfold scan1. rewrite Hsy, Herr. by destruct (Nat.ltb_spec (length u) 10); [lia|]. }
  destruct (Nat.ltb_spec (length u) (frame_size u)) as [Hw|Hw]; cbn [mbind option_bind].
  { eexists. split; [done|]. apply step_waits; cbn; try done.
    assert (Hset : settle u = u) by (unfold settle; rewrite Hsy; by case_bool).
    unfold represents. cbn. by rewrite Hset. }
  pose proof Hb as (Hb1 & Hb2 & Hb3 & Hb4).
  assert (Hsz : frame_size u = 10 + CalcUserDataSize (data_length u)) by done.
  destruct (body_in_array _ _ Hb Hc H10 Hw) as [Hbody Hstrip].
  unfold ValidateBody, LPDU_HEADER_SIZE. unfold NumBytesRead in Hl.
  rewrite (body_length_spec p u), ValidateBodyCRC_spec by (done || lia). cbn [mbind option_bind].
  rewrite Hstrip, Hbody.
  rewrite (bool_decide_ext _ (take (frame_size u) u = take 10 u ++ blocks (frame_data u)))
    by (rewrite Hsz, <- take_take_drop; split; [by intros ->|apply app_inv_head]).
  case_bool_decide as Hok; cbn [mbind option_bind].
  - rewrite <- Hhd in Hscan.
    destruct (TransferUserData_spec p u Hr' Hs Hw Hscan) as (p' & -> & Hp' & Hst & Hn).
    eexists. split; [done|]. eapply (step_moves _ _ _ u); cbn; rewrite ?Hs; try done.
    unfold measure. cbn. rewrite Hn, ?Hs. cbn. lia.
  - rewrite FailFrame_spec by (cbn; unfold NumBytesRead; lia). cbn [mbind option_bind].
    eexists. split; [done|].
    apply (fail_rejects p _ u BodyCrcError); try done; [unfold NumBytesRead; lia|by rewrite Hs].
Qed.

Lemma ParseOneStep_spec p u :
  represents p u -> state p <> Complete -> exists p', ParseOneStep p = Some p' /\ step_result p p' u.
Proof.
  intros Hr Hs. destruct (state p) eqn:He; [..|done];
    eauto using ParseSync_spec, ParseHeader_spec, ParseBody_spec.
Qed.

End Steps.

(** ** Lemmas: whole reads *)

Section Reads.
Import ShiftableBuffer LinkLayerParser Scan.

Lemma ParseUntilComplete_complete p fuel :
  state p = Complete -> 0 < fuel -> ParseUntilComplete fuel p = Some p.
Proof.
  intros Hs Hf. destruct fuel as [|fuel]; [lia|]. cbn [ParseUntilComplete]. unfold ParseOneStep.
  rewrite Hs. cbn. destruct p. cbn in *. by rewrite Hs.
Qed.

(** The loop stops at the next frame or when more bytes are needed. *)
Lemma ParseUntilComplete_spec fuel p u :
  represents p u -> state p <> Complete -> measure p < fuel ->
  exists p' u' cs,
    ParseUntilComplete fuel p = Some p' /\
    statistics p' = stats_after (statistics p) (map Rejected cs) /\
    scan u = (map Rejected cs ++ (scan u').1, (scan u').2) /\
    length u' <= length u /\
    ((state p' = Complete /\ represents p' u') \/
     (state p' <> Complete /\ scan1 u' = None /\ represents p' (settle u'))).
Proof.
  revert p u. induction fuel as [|fuel IH]; intros p u Hr Hs Hf; [lia|]. cbn [ParseUntilComplete].
  destruct (ParseOneStep_spec p u Hr Hs) as (p1 & -> & Hstep). cbn [mbind option_bind].
  destruct Hstep as [Hst Hr1 Hsc Hstat|u1 Hst Hm Hr1 Hsc Hset Hstat|c u1 Hst Hm Hr1 Hsc Hstat].
  - rewrite decide_True by done. exists p1, u, []. split_and!; try done.
    + by destruct (scan u).
    + right. by rewrite Hst.
  - rewrite decide_False by done.
    assert (Hu : scan u = scan u1) by (by rewrite (scan_eq u), (scan_eq u1), Hsc, Hset).
    assert (Hl : length u1 <= length u).
    { destruct Hr as (_ & Hl & _), Hr1 as (_ & Hl1 & _). unfold measure in Hm.
      destruct (Nat.le_gt_cases (length u1) (length u)); [done|]. destruct (state p), (state p1); cbn in *; lia. }
    destruct (decide (state p1 = Complete)) as [Hc|Hc].
    + rewrite ParseUntilComplete_complete by (done || lia).
      exists p1, u1, []. split_and!; try done; [|by left]. rewrite Hu. by destruct (scan u1).
    + destruct (IH p1 u1 Hr1 Hc) as (p' & u' & cs & He & Hst' & Hscan & Hl' & Hres); [lia|].
      exists p', u', cs. rewrite Hu, <- Hstat. split_and!; try done. lia.
  - rewrite decide_False by done. pose proof (scan1_shorter _ _ _ Hsc) as Hl.
    destruct (decide (state p1 = Complete)) as [Hc|Hc].
    + rewrite ParseUntilComplete_complete by (done || lia).
      exists p1, u1, [c]. split_and!; try done; [by apply scan_event|lia|by left].
    + destruct (IH p1 u1 Hr1 Hc) as (p' & u' & cs & He & Hst' & Hscan & Hl' & Hres); [lia|].
      exists p', u', (c :: cs). cbn. rewrite (scan_event _ _ _ Hsc), Hscan, <- Hstat.
      split_and!; try done. lia.
Qed.

Lemma PushFrame_spec p u :
  represents p u -> state p = Complete ->
  exists p' f r, scan1 u = Some (Received f, r) /\
    PushFrame (count p LinkFrameRx) = Some (p', f) /\
    statistics p' = bump (statistics p) LinkFrameRx /\ represents (set_state p' FindSync) r.
Proof.
  intros Hr Hs. unfold represents in Hr. rewrite Hs in Hr.
  destruct Hr as (Hb & Hl & Hu & data & Hdata & Hsc & Hfs & Hrest).
  unfold PushFrame. cbn [userLen buffer count frameSize header]. rewrite Hdata. cbn [mbind option_bind].
  destruct (AdvanceRead_spec (buffer p) (frameSize p) Hb) as (b & -> & Hb' & Hc' & _ & _ & Hn); [lia|].
  cbn [mbind option_bind]. do 3 eexists. split; [done|]. split; [done|]. split; [done|].
  unfold represents. cbn. rewrite Hn, Hc', Hrest. split_and!; [done|len|by apply Forall_drop|done].
Qed.

Lemma stats_after_app s es es' : stats_after s (es ++ es') = stats_after (stats_after s es) es'.
Proof. apply foldl_app. Qed.

Lemma frames_app es es' : frames (es ++ es') = frames es ++ frames es'.
Proof. apply omap_app. Qed.

Lemma frames_rejected cs : frames (map Rejected cs) = [].
Proof. by induction cs. Qed.

Lemma step_fuel_enough p : measure p < step_fuel p.
Proof. unfold measure, step_fuel. destruct (state p); cbn; lia. Qed.

Lemma OnRead_loop_spec fuel p u :
  represents p u -> state p <> Complete -> length u < fuel ->
  exists p', OnRead_loop fuel p = Some (p', frames (scan u).1) /\
    statistics p' = stats_after (statistics p) (scan u).1 /\
    state p' <> Complete /\ represents p' (scan u).2.
Proof.
  revert p u. induction fuel as [|fuel IH]; intros p u Hr Hs Hf; [lia|]. cbn [OnRead_loop].
  destruct (ParseUntilComplete_spec (step_fuel p) p u Hr Hs (step_fuel_enough p))
    as (p1 & u1 & cs & -> & Hst & Hscan & Hl & [[Hc Hr1]|(Hc & Hw & Hr1)]); cbn [mbind option_bind];
    rewrite Hscan; cbn [fst snd]; rewrite frames_app, frames_rejected, stats_after_app, <- Hst.
  - rewrite decide_True by done.
    destruct (PushFrame_spec p1 u1 Hr1 Hc) as (p2 & f & r & Hsc & -> & Hst2 & Hr2). cbn [mbind option_bind].
    pose proof (scan1_shorter _ _ _ Hsc).
    destruct (IH (set_state p2 FindSync) r Hr2) as (p' & -> & Hst' & Hs' & Hr'); [done|lia|].
    rewrite (scan_event _ _ _ Hsc). cbn. exists p'. split; [done|]. split; [|done].
    rewrite Hst'. cbn. by rewrite Hst2.
  - rewrite decide_False by done. rewrite (scan_waiting _ Hw). cbn. by exists p1.
Qed.

(** More bytes after the ones the parser has do not disturb its state. *)
Lemma represents_more p u c b :
  represents p u -> state p <> Complete -> buffer_ok b -> bytes_ok c ->
  contents b = u ++ c -> represents (set_buffer p b) (u ++ c).
Proof.
  intros (_ & _ & Hu & Hst) Hs Hb Hc Hcont. pose proof (contents_length b Hb) as Hl. rewrite Hcont in Hl.
  unfold represents. cbn [set_buffer buffer state header frameSize userLen].
  split_and!; [done|done|by apply Forall_app_2|].
  destruct (state p) eqn:Hsp; [done|..|done].
  - destruct Hst as (_ & Hsy & H2). split_and!; [done| |len]. rewrite sync_app_long by (rewrite Hsy; done). by rewrite Hsy.
  - destruct Hst as (_ & Hsy & H10 & Herr & Hh & Hfs).
    rewrite header_error_app, frame_size_app, take_app_le by lia.
    split_and!; try done; [|len]. rewrite sync_app_long by (rewrite Hsy; lia). by rewrite Hsy.
Qed.

(** Between two reads: [u] is unread, at the front of the array, and there is
    room for at least one more byte. *)
Definition idle (p : Parser) (u : bytes) : Prop :=
  represents p u /\ state p <> Complete /\ readPos (buffer p) = 0 /\ length u < LPDU_MAX_FRAME_SIZE /\
  scan1 u = None.

Lemma idle_space p u : idle p u -> ws_size (WriteBuff p) = LPDU_MAX_FRAME_SIZE - length u.
Proof.
  intros (((Hb1 & Hb2 & Hb3 & Hb4) & Hl & _) & _ & Hrd & _). unfold WriteBuff, NumWriteBytes, M_SIZE. cbn [ws_size].
  unfold NumBytesRead in *. lia.
Qed.

Lemma Receive_spec p u c :
  idle p u -> bytes_ok c -> length c <= ws_size (WriteBuff p) ->
  exists p', Receive p c = Some (p', frames (scan (u ++ c)).1) /\
    statistics p' = stats_after (statistics p) (scan (u ++ c)).1 /\ idle p' (scan (u ++ c)).2.
Proof.
  intros Hi Hcb Hc. pose proof (idle_space _ _ Hi) as Hsp. destruct Hi as (Hr & Hs & Hrd & Hul & _).
  pose proof Hr as (Hb & Hl & Hu & _). pose proof Hb as (Hb1 & Hb2 & Hb3 & Hb4).
  unfold Receive, c_assert. rewrite (proj2 (Nat.leb_le _ _) Hc). cbn [mbind option_bind].
  unfold WriteBuff, WSlice.store. cbn [ws_array ws_pos ws_size]. unfold NumBytesRead in Hl.
  destruct (mem_write (pBuffer (buffer p)) (writePos (buffer p)) c) as [m|] eqn:Hm.
  2: { rewrite mem_write_Some in Hm by lia. done. }
  cbn [mbind option_bind ws_array]. pose proof (mem_write_length _ _ _ _ Hm) as Hml.
  unfold OnRead, AdvanceWrite, NumWriteBytes, M_SIZE, c_assert. cbn [pBuffer writePos readPos buffer set_buffer].
  destruct (Nat.leb_spec (length c) (length m - writePos (buffer p))); [|lia]. cbn [mbind option_bind].
  set (b1 := mkShiftableBuffer m (writePos (buffer p) + length c) (readPos (buffer p))).
  assert (Hb1ok : buffer_ok b1).
  { unfold b1, buffer_ok. cbn. split_and!; try lia. by eapply mem_write_ok. }
  assert (Hcont : contents b1 = u ++ c).
  { pose proof (mem_write_take _ _ _ _ Hm) as Ht. unfold contents, NumBytesRead, b1. cbn [pBuffer writePos readPos].
    rewrite Hrd, drop_0, Nat.sub_0_r, Ht. f_equal.
    assert (contents (buffer p) = u) as <- by (destruct Hr as (_ & _ & _ & Hst); by destruct (state p); try destruct Hst).
    unfold contents, NumBytesRead. by rewrite Hrd, drop_0, Nat.sub_0_r. }
  pose proof (represents_more p u c b1 Hr Hs Hb1ok Hcb Hcont) as Hr1.
  pose proof (contents_length b1 Hb1ok) as Hl1. rewrite Hcont in Hl1.
  destruct (OnRead_loop_spec (S (NumBytesRead b1)) (set_buffer p b1) (u ++ c) Hr1) as (p2 & He & Hst2 & Hs2 & Hr2); [done|lia|].
  unfold set_buffer in *. cbn [statistics header state frameSize userLen buffer] in *.
  rewrite He. cbn [mbind option_bind].
  destruct (Shift_spec (buffer p2)) as (b3 & -> & Hb3ok & Hc3 & Hrd3); [by destruct Hr2|]. cbn [mbind option_bind].
  eexists. split; [done|]. split; [done|]. unfold idle. cbn [state buffer].
  split_and!; [|done|done|apply scan_rest_bound; by apply Forall_app_2|apply scan_rest_waits].
  destruct Hr2 as (Hb2ok & Hl2 & Hu2 & Hst). unfold represents. cbn.
  pose proof (contents_length _ Hb3ok) as Hl3. rewrite Hc3, (contents_length _ Hb2ok) in Hl3.
  rewrite Hc3, <- Hl3. destruct (state p2); done.
Qed.

End Reads.

(** ** Lemmas: streams *)

Section Streams.
Import ShiftableBuffer LinkLayerParser Scan.

Lemma init_idle rx : bytes_ok rx -> length rx = LPDU_MAX_FRAME_SIZE -> idle (init rx) [].
Proof.
  intros Hb Hl. unfold idle, represents, buffer_ok, init, contents, NumBytesRead, LPDU_MAX_FRAME_SIZE in *.
  cbn. split_and!; try done; lia.
Qed.

(** The parser has been given the bytes [w] and has reported the events [es]:
    on any further input it goes on like a scan of the whole stream. *)
Definition follows (p : Parser) (w : bytes) (es : list Event) : Prop :=
  exists v, idle p v /\ forall x, (scan (w ++ x)).1 = es ++ (scan (v ++ x)).1.

Lemma follows_start p u : idle p u -> follows p u [].
Proof. intros Hi. by exists u. Qed.

Lemma follows_all p w es : follows p w es -> (scan w).1 = es.
Proof.
  intros (v & (_ & _ & _ & _ & Hv) & H). specialize (H []). rewrite !app_nil_r in H.
  rewrite H, (scan_waiting v) by done. cbn. apply app_nil_r.
Qed.

Lemma follows_receive p w es c :
  follows p w es -> bytes_ok c -> length c <= ws_size (WriteBuff p) ->
  exists p' es', Receive p c = Some (p', frames es') /\
    statistics p' = stats_after (statistics p) es' /\ follows p' (w ++ c) (es ++ es').
Proof.
  intros (v & Hi & Hv) Hc Hl. destruct (Receive_spec p v c Hi Hc Hl) as (p' & He & Hst & Hi').
  exists p', (scan (v ++ c)).1. split_and!; [done..|]. eexists. split; [done|]. intros x.
  by rewrite <- app_assoc, Hv, app_assoc, scan_app_frames, app_assoc.
Qed.

Lemma follows_space p w es : follows p w es -> 0 < ws_size (WriteBuff p).
Proof. intros (v & Hi & _). rewrite (idle_space _ _ Hi). destruct Hi as (_ & _ & _ & Hl & _). lia. Qed.

Lemma ReadChannel_follows sizes p w es input :
  follows p w es -> bytes_ok input ->
  exists p' es' n, ReadChannel sizes p input = Some (p', frames es', drop n input) /\
    statistics p' = stats_after (statistics p) es' /\ follows p' (w ++ take n input) (es ++ es') /\
    (Forall (fun k => 0 < k) sizes -> length input <= length sizes -> length input <= n).
Proof.
  revert p w es input. induction sizes as [|k sizes IH]; intros p w es input Hf Hin; cbn [ReadChannel].
  - exists p, [], 0. rewrite take_0, !app_nil_r, drop_0. split_and!; try done; cbn; lia.
  - set (num := min k (ws_size (WriteBuff p))).
    destruct (follows_receive p w es (take num input) Hf) as (p1 & es1 & -> & Hst1 & Hf1);
      [by apply Forall_take|len|]. cbn [mbind option_bind].
    destruct (IH p1 _ _ (drop num input) Hf1) as (p2 & es2 & n & -> & Hst2 & Hf2 & Hall); [by apply Forall_drop|].
    cbn [mbind option_bind]. exists p2, (es1 ++ es2), (num + n).
    rewrite drop_drop, frames_app, stats_after_app, <- Hst1. split_and!; try done.
    + by rewrite <- take_take_drop, !app_assoc.
    + intros Hpos Hlen. apply Forall_cons_1 in Hpos as [Hk Hpos]. specialize (Hall Hpos).
      pose proof (follows_space _ _ _ Hf). cbn in Hlen. rewrite length_drop in Hall. unfold num in *. lia.
Qed.

(** One round of the decoder's loop is one read of the channel. *)
Lemma decode_round p w es c :
  follows p w es -> length c <= ws_size (WriteBuff p) -> bytes_ok c ->
  (c' ← CopyTo c (WriteBuff p);
   OnRead (set_buffer p (mkShiftableBuffer (ws_array c'.1) (writePos (buffer p)) (readPos (buffer p)))) (length c))
  = Receive p c.
Proof.
  intros (v & Hi & _) Hl Hc. destruct Hi as (((Hb1 & Hb2 & Hb3 & Hb4) & _) & _).
  destruct (CopyTo_spec c (WriteBuff p)) as (a & Ha & ->); [|done|].
  { unfold WSlice.wf, WriteBuff, NumWriteBytes, M_SIZE. cbn [ws_pos ws_size ws_array]. lia. }
  unfold Receive, c_assert, WSlice.store. rewrite (proj2 (Nat.leb_le _ _) Hl), Ha. done.
Qed.

Lemma DecodeLPDU_follows fuel p w es data :
  follows p w es -> bytes_ok data -> length data <= fuel ->
  exists p' es', DecodeLPDU fuel p data = Some (p', frames es') /\
    statistics p' = stats_after (statistics p) es' /\ follows p' (w ++ data) (es ++ es').
Proof.
  revert p w es data. induction fuel as [|fuel IH]; intros p w es data Hf Hd Hl; cbn [DecodeLPDU].
  - destruct data; [|cbn in Hl; lia]. exists p, []. by rewrite !app_nil_r.
  - destruct (RSlice.IsNotEmpty data) eqn:Hne.
    2: { exists p, []. destruct data; [by rewrite !app_nil_r|done]. }
    apply IsNotEmpty_true in Hne. pose proof (follows_space _ _ _ Hf) as Hsp. unfold RSlice.Size.
    set (NUM := if ws_size (WriteBuff p) <? length data then _ else _).
    assert (HN : NUM = min (length data) (ws_size (WriteBuff p)))
      by (unfold NUM; destruct (Nat.ltb_spec (ws_size (WriteBuff p)) (length data)); lia).
    assert (Hpos : 0 < length data) by (destruct data; [done|cbn; lia]).
    assert (HlN : length (take NUM data) = NUM) by len.
    assert (Hb : bytes_ok (take NUM data)) by (by apply Forall_take).
    rewrite Take_take, Advance_drop.
    pose proof (decode_round p w es (take NUM data) Hf) as Hround. rewrite HlN in Hround.
    specialize (Hround ltac:(lia) Hb).
    destruct (follows_receive p w es (take NUM data) Hf Hb) as (p1 & es1 & Hrec & Hst1 & Hf1); [lia|].
    rewrite Hrec in Hround. destruct (CopyTo (take NUM data) (WriteBuff p)) as [[d r]|]; [|done].
    cbn [mbind option_bind fst] in *. rewrite Hround. cbn [mbind option_bind].
    destruct (IH p1 _ _ (drop NUM data) Hf1) as (p2 & es2 & -> & Hst2 & Hf2); [by apply Forall_drop|len|].
    cbn [mbind option_bind]. exists p2, (es1 ++ es2).
    rewrite frames_app, stats_after_app, <- Hst1. split_and!; try done.
    by rewrite <- !app_assoc, take_drop in Hf2.
Qed.

End Streams.

(** ** Reference: the frames a station sends *)

Record Outgoing := mkOutgoing {
  o_master : bool;
  o_fcb : bool;
  o_fcv : bool;
  o_code : LinkFunction;
  o_dest : Z;
  o_src : Z;
  o_data : bytes
}.

Definition encode_frame (o : Outgoing) : bytes :=
  frame_bytes (o_master o) (o_fcb o) (o_fcv o) (o_code o) (o_dest o) (o_src o) (o_data o).

Definition frame_of (o : Outgoing) : LinkLayerParser.Frame :=
  (mkLinkHeaderFields (o_code o) (o_master o) (o_fcb o) (o_fcv o) (o_dest o) (o_src o), o_data o).

(** The flags and the payload each function code is sent with. *)
Definition code_allows (code : LinkFunction) (fcb fcv has_data : bool) : bool :=
  match code with
  | PRI_CONFIRMED_USER_DATA => fcv && has_data
  | PRI_UNCONFIRMED_USER_DATA => negb fcv && has_data
  | PRI_TEST_LINK_STATES => fcv && negb has_data
  | PRI_RESET_LINK_STATES | PRI_REQUEST_LINK_STATUS => negb fcv && negb has_data
  | SEC_ACK | SEC_NACK | SEC_LINK_STATUS | SEC_NOT_SUPPORTED => negb fcb && negb has_data
  | LF_INVALID => false
  end.

Definition sendable (o : Outgoing) : Prop :=
  is_u16 (o_dest o) /\ is_u16 (o_src o) /\ bytes_ok (o_data o) /\ length (o_data o) <= 250 /\
  code_allows (o_code o) (o_fcb o) (o_fcv o) (0 <? length (o_data o)) = true.

(** What a station sends: every Format function that takes no FCB writes the
    bit clear. *)
Definition sent_by_station (o : Outgoing) : Prop := sendable o /\ (o_fcb o = true -> o_fcv o = true).

(** The sending side: the Format function the link layer calls for each
    function code. *)
Definition format_frame (buffer : WSlice) (o : Outgoing) : option (WSlice * View) :=
  let '(mkOutgoing isMaster fcb fcvDfc code dest src data) := o in
  match code with
  | PRI_RESET_LINK_STATES => FormatResetLinkStates buffer isMaster dest src
  | PRI_TEST_LINK_STATES => FormatTestLinkStatus buffer isMaster fcb dest src
  | PRI_CONFIRMED_USER_DATA =>
      FormatConfirmedUserData buffer isMaster fcb dest src data (Z.of_nat (length data))
  | PRI_UNCONFIRMED_USER_DATA =>
      FormatUnconfirmedUserData buffer isMaster dest src data (Z.of_nat (length data))
  | PRI_REQUEST_LINK_STATUS => FormatRequestLinkStatus buffer isMaster dest src
  | SEC_ACK => FormatAck buffer isMaster fcvDfc dest src
  | SEC_NACK => FormatNack buffer isMaster fcvDfc dest src
  | SEC_LINK_STATUS => FormatLinkStatus buffer isMaster fcvDfc dest src
  | SEC_NOT_SUPPORTED => FormatNotSupported buffer isMaster fcvDfc dest src
  | LF_INVALID => None
  end.

(** Frames formatted one after the other into the same buffer, each written to
    the channel before the next is formatted. *)
Fixpoint format_all (buffer : WSlice) (os : list Outgoing) : option bytes :=
  match os with
  | [] => Some []
  | o :: os =>
      '(b, v) ← format_frame buffer o;
      f ← view_bytes (ws_array b) v;
      rest ← format_all (mkWSlice (ws_array b) (ws_pos buffer) (ws_size buffer)) os;
      Some (f ++ rest)
  end.

Section Frames.
Import LinkLayerParser Scan.

(** A statement about a control byte is checked on the 256 values. *)
Definition ctrl_only (c : Z) : LinkHeader := mkLinkHeader 0 0 0 c.

Definition checks_agree (payload : bool) (c : Z) : bool :=
  let h := ctrl_only c in
  eqb match ValidateFunctionCode h with
      | None => eqb (bool_decide (GetFuncEnum h ∈ [PRI_CONFIRMED_USER_DATA; PRI_UNCONFIRMED_USER_DATA])) payload
      | Some _ => false
      end
      (code_allows (GetFuncEnum h) (IsFcbSet h) (IsFcvDfcSet h) payload).

Lemma checks_agree_all payload c : is_u8 c -> checks_agree payload c = true.
Proof. destruct payload; apply forall_u8; vm_compute; reflexivity. Qed.

(** The header checks of the parser are exactly [code_allows] and the length. *)
Lemma params_error_allows h :
  header_ok h ->
  params_error h = None <->
  (5 <= hdr_length h)%Z /\ code_allows (GetFuncEnum h) (IsFcbSet h) (IsFcvDfcSet h) (5 <? hdr_length h)%Z = true.
Proof.
  intros (Hl & _ & _ & Hc). unfold params_error.
  destruct (Z.ltb_spec (hdr_length h) 5); [split; [done|lia]|].
  pose proof (checks_agree_all (5 <? hdr_length h)%Z _ Hc) as Ha. unfold checks_agree in Ha. cbv zeta in Ha.
  change (ValidateFunctionCode (ctrl_only (hdr_ctrl h))) with (ValidateFunctionCode h) in Ha.
  change (GetFuncEnum (ctrl_only (hdr_ctrl h))) with (GetFuncEnum h) in Ha.
  change (IsFcbSet (ctrl_only (hdr_ctrl h))) with (IsFcbSet h) in Ha.
  change (IsFcvDfcSet (ctrl_only (hdr_ctrl h))) with (IsFcvDfcSet h) in Ha.
  apply eqb_prop in Ha. rewrite <- Ha.
  destruct (ValidateFunctionCode h); [by split; [|intros [_ ?]]|].
  destruct (eqb _ _); (split; [by intros ?; split|by intros [_ ?]]).
Qed.

(** A known control byte is the one its fields encode to. *)
Lemma ctrl_reencode h :
  is_u8 (hdr_ctrl h) -> GetFuncEnum h <> LF_INVALID ->
  ControlByte (IsFromMaster h) (IsFcbSet h) (IsFcvDfcSet h) (GetFuncEnum h) = hdr_ctrl h.
Proof.
  intros Hc Hf. set (P := fun c => bool_decide (GetFuncEnum (ctrl_only c) = LF_INVALID) ||
    (ControlByte (IsFromMaster (ctrl_only c)) (IsFcbSet (ctrl_only c)) (IsFcvDfcSet (ctrl_only c))
      (GetFuncEnum (ctrl_only c)) =? c)%Z).
  assert (HP : P (hdr_ctrl h) = true) by (revert Hc; apply forall_u8; vm_compute; reflexivity).
  apply orb_prop in HP as [HP|HP]; [by apply bool_decide_eq_true in HP|]. by apply Z.eqb_eq in HP.
Qed.

Lemma code_allows_valid code fcb fcv d : code_allows code fcb fcv d = true -> code <> LF_INVALID.
Proof. by intros H ->. Qed.

(** The front of an encoded frame is recognised as that frame. *)
Lemma scan1_frame o x :
  sendable o -> scan1 (encode_frame o ++ x) = Some (Received (frame_of o), x).
Proof.
  intros (Hd & Hs & Hb & Hl & Hcode). unfold encode_frame, frame_bytes.
  set (n := length (o_data o)) in *.
  set (h := LinkHeader_Set (u8 (Z.of_nat n + LPDU_MIN_LENGTH)) (o_src o) (o_dest o) (o_master o) (o_fcv o)
              (o_fcb o) (o_code o)).
  assert (Hlen : hdr_length h = (Z.of_nat n + 5)%Z) by (cbn; rewrite u8_small; [done|unfold is_u8, LPDU_MIN_LENGTH; lia]).
  assert (Hh : header_ok h) by (apply Set_header_ok; auto with dnp3).
  destruct (control_decodes (o_master o) (o_fcb o) (o_fcv o) (o_code o)
    (u8 (Z.of_nat n + LPDU_MIN_LENGTH)) (o_src o) (o_dest o)) as (Hcf & Hcm & Hcb & Hcv);
    [by eapply code_allows_valid|]. fold h in Hcf, Hcm, Hcb, Hcv.
  rewrite <- app_assoc. set (u := header_bytes h ++ blocks (o_data o) ++ x).
  assert (Htake : take 10 u = header_bytes h) by done.
  assert (Hfields : header_fields (take 10 u) = h) by (rewrite Htake; by apply header_fields_bytes).
  assert (Hblen : length (blocks (o_data o)) = CalcUserDataSize n) by apply blocks_length.
  assert (Hul : length u = 10 + CalcUserDataSize n + length x)
    by (unfold u; rewrite !length_app, header_bytes_length, Hblen; unfold LPDU_HEADER_SIZE; lia).
  assert (Hsync : sync u = u) by (apply sync_fix; [lia|done]).
  assert (Hdl : data_length u = n) by (unfold data_length; rewrite Hfields, Hlen; lia).
  assert (Hfs : frame_size u = 10 + CalcUserDataSize n) by (unfold frame_size; by rewrite Hdl).
  assert (Hdata : frame_data u = o_data o) by (unfold frame_data; rewrite Hdl; apply strip_blocks).
  assert (Herr : header_error u = None).
  { unfold header_error. rewrite Htake, bool_decide_true by done. rewrite <- Htake, Hfields.
    apply params_error_allows; [done|]. split; [lia|]. rewrite Hcf, Hcb, Hcv, Hlen.
    replace (5 <? Z.of_nat n + 5)%Z with (0 <? n); [done|].
    destruct (Nat.ltb_spec 0 n), (Z.ltb_spec 5 (Z.of_nat n + 5)); lia. }
  unfold scan1. rewrite Hsync, Herr. destruct (Nat.ltb_spec (length u) 10); [lia|].
  destruct (Nat.ltb_spec (length u) (frame_size u)); [lia|].
  rewrite Hdata, Hfields, Hfs. rewrite bool_decide_true.
  - unfold frame_fields. rewrite Hcf, Hcm, Hcb, Hcv. do 3 f_equal.
    change (drop (CalcUserDataSize n) (blocks (o_data o) ++ x) = x). by rewrite <- Hblen, drop_app_length.
  - rewrite Htake. change (header_bytes h ++ take (CalcUserDataSize n) (blocks (o_data o) ++ x) = header_bytes h ++ blocks (o_data o)).
    by rewrite <- Hblen, take_app_length.
Qed.

Lemma scan_frames os x :
  Forall sendable os ->
  scan (concat (map encode_frame os) ++ x) = (map Received (map frame_of os) ++ (scan x).1, (scan x).2).
Proof.
  induction 1 as [|o os Ho Hos IH]; cbn [map concat app]; [by destruct (scan x)|].
  rewrite <- app_assoc, (scan_event _ _ _ (scan1_frame o _ Ho)), IH. done.
Qed.

Lemma frames_received fs : frames (map Received fs) = fs.
Proof. induction fs; [done|]. cbn. by f_equal. Qed.

(** Ten bytes that begin with the start bytes and carry a correct CRC are the
    header made of their own fields. *)
Lemma header_bytes_take v :
  bytes_ok v -> 10 <= length v -> sync v = v -> take 10 v = with_crc (take 8 v) ->
  let h := header_fields (take 10 v) in
  header_bytes (mkLinkHeader (hdr_length h) (hdr_src h) (hdr_dest h) (hdr_ctrl h)) = take 10 v.
Proof.
  intros Hv Hl Hsy Hcrc h. rewrite sync_fix in Hsy by lia. rewrite Hcrc. unfold header_bytes. f_equal.
  subst h. clear Hcrc.
  do 8 (destruct v as [|? v]; [cbn in Hl; lia|]). injection Hsy as Hz Hz0. rewrite Hz, Hz0.
  repeat match goal with H : bytes_ok (_ :: _) |- _ => apply Forall_cons_1 in H as [? H] end.
  cbn [take hdr_length hdr_src hdr_dest hdr_ctrl header_fields app drop].
  assert (Hre : forall x y w, is_u8 x -> is_u8 y -> encode16 (decode16 (x :: y :: w)) = [x; y]).
  { intros x y w Hx Hy. change (encode16 (decode16 [x; y]) = [x; y]).
    apply (encode_decode (s := UInt16)); [|done]. by repeat apply Forall_cons_2. }
  by rewrite !Hre by done.
Qed.

(** What is recognised is the encoding of a frame that a station may send. *)
Lemma scan1_received u f r :
  bytes_ok u -> scan1 u = Some (Received f, r) ->
  exists o pre, sendable o /\ f = frame_of o /\ u = pre ++ encode_frame o ++ r.
Proof.
  intros Hu. destruct (sync_suffix u) as [k Hk]. unfold scan1. rewrite Hk.
  assert (Hv : bytes_ok (drop k u)) by (by apply Forall_drop).
  assert (Hsy : sync (drop k u) = drop k u) by (rewrite <- Hk; apply sync_idem).
  assert (Hu2 : u = take k u ++ drop k u) by (by rewrite take_drop).
  revert Hv Hsy Hu2. generalize (drop k u) as v, (take k u) as pre. intros v pre Hv Hsy ->. clear Hk Hu.
  destruct (Nat.ltb_spec (length v) 10) as [|H10]; [done|].
  destruct (header_error v) eqn:Herr; [done|].
  destruct (Nat.ltb_spec (length v) (frame_size v)) as [|Hfs]; [done|].
  case_bool_decide as Hbody; [|done]. intros [= <- <-].
  set (h := header_fields (take 10 v)).
  assert (Hh : header_ok h) by (apply header_fields_ok; [by apply Forall_take|unfold LPDU_HEADER_SIZE; len]).
  unfold header_error in Herr. case_bool_decide as Hcrc; [|done]. fold h in Herr.
  apply (params_error_allows h Hh) in Herr as [Hl5 Hallow].
  assert (Hdl : length (frame_data v) = data_length v).
  { apply strip_length. unfold frame_size, CalcFrameSize, LPDU_HEADER_SIZE in Hfs. len. }
  assert (Hlen : Z.of_nat (length (frame_data v)) = (hdr_length h - 5)%Z).
  { rewrite Hdl. unfold data_length. fold h. lia. }
  exists (mkOutgoing (IsFromMaster h) (IsFcbSet h) (IsFcvDfcSet h) (GetFuncEnum h) (hdr_dest h) (hdr_src h) (frame_data v)), pre.
  pose proof (data_length_bound v Hv H10). split_and!.
  - destruct Hh as (_ & Hsrc & Hdst & _). unfold sendable. cbn [o_dest o_src o_data o_code o_fcb o_fcv].
    split_and!; [done|done|by apply strip_bytes, Forall_drop|lia|].
    replace (0 <? length (frame_data v)) with (5 <? hdr_length h)%Z; [done|].
    destruct (Nat.ltb_spec 0 (length (frame_data v))), (Z.ltb_spec 5 (hdr_length h)); lia.
  - done.
  - f_equal. rewrite <- (take_drop (frame_size v) v) at 1. f_equal. rewrite Hbody. unfold encode_frame, frame_bytes.
    cbn [o_master o_fcb o_fcv o_code o_dest o_src o_data]. f_equal. rewrite Hlen.
    unfold LPDU_MIN_LENGTH. replace (hdr_length h - 5 + 5)%Z with (hdr_length h) by lia.
    destruct Hh as (Hhl & Hhs & Hhd & Hhc).
    rewrite u8_small by done. unfold LinkHeader_Set.
    rewrite ctrl_reencode by (done || by eapply code_allows_valid).
    symmetry. by apply header_bytes_take.
Qed.

End Frames.

(** ** Properties *)

Section Properties.
Import ShiftableBuffer LinkLayerParser Scan.

Lemma events_sound w es :
  bytes_ok w -> (scan w).1 = es -> forall f, f ∈ frames es ->
  exists o pre post, sendable o /\ f = frame_of o /\ w = pre ++ encode_frame o ++ post.
Proof.
  intros Hw <-. remember (length w) as n eqn:Hn. revert w Hn Hw.
  induction (lt_wf n) as [n _ IH]. intros w -> Hw f.
  destruct (scan1 w) as [[e r]|] eqn:H.
  2: { rewrite (scan_waiting _ H). cbn. intros Hf. by apply not_elem_of_nil in Hf. }
  rewrite (scan_event _ _ _ H). pose proof (scan1_shorter _ _ _ H) as Hl.
  pose proof (scan1_bytes _ _ _ Hw H) as Hr.
  destruct (scan1_suffix _ _ _ H) as [k ->].
  assert (Hrec : f ∈ frames (scan (drop k w)).1 -> exists o pre post, sendable o /\ f = frame_of o /\ w = pre ++ encode_frame o ++ post).
  { intros Hf. destruct (IH _ Hl _ eq_refl Hr f Hf) as (o & pre & post & Ho & He & Hd).
    exists o, (take k w ++ pre), post. split_and!; [done..|]. by rewrite <- app_assoc, <- Hd, take_drop. }
  destruct e as [c|g]; cbn [fst frames omap list_omap]; [exact Hrec|].
  intros [->|Hf]%elem_of_cons; [|by apply Hrec].
  destruct (scan1_received w g _ Hw H) as (o & pre & Ho & He & Hd). by exists o, pre, (drop k w).
Qed.

(** C15: One read of the channel: whatever chunk of bytes, within the space the
    parser offered, arrives while [u] is unread, [OnRead] terminates, stays
    inside the receive buffer, hands the sink exactly the frames that a scan of
    [u] followed by the chunk finds, counts exactly the events of that scan, and
    ends with what the scan keeps at the front of the buffer and with space for
    at least one more byte. *)
Theorem receive_refines_scan p u chunk :
  idle p u -> bytes_ok chunk -> length chunk <= ws_size (WriteBuff p) ->
  exists p', Receive p chunk = Some (p', frames (scan (u ++ chunk)).1) /\
    statistics p' = stats_after (statistics p) (scan (u ++ chunk)).1 /\
    idle p' (scan (u ++ chunk)).2 /\ 0 < ws_size (WriteBuff p').
Proof.
  intros Hi Hb Hl. destruct (Receive_spec p u chunk Hi Hb Hl) as (p' & He & Hst & Hi').
  exists p'. split_and!; [done..|]. by eapply follows_space, follows_start.
Qed.

(** Framing does not depend on how the stream is cut: for every stream and
    every sequence of read sizes, the reads all succeed, and the frames and the
    statistics are those of one scan of the bytes read so far; reads that
    deliver at least a byte each get through the whole stream. *)
Theorem channel_reads_are_one_scan rx sizes input :
  bytes_ok rx -> length rx = LPDU_MAX_FRAME_SIZE -> bytes_ok input ->
  exists p n, ReadChannel sizes (init rx) input = Some (p, frames (scan (take n input)).1, drop n input) /\
    statistics p = stats_after ParserStats_default (scan (take n input)).1 /\
    (Forall (fun k => 0 < k) sizes -> length input <= length sizes -> length input <= n).
Proof.
  intros Hrx Hl Hin. pose proof (follows_start _ _ (init_idle rx Hrx Hl)) as Hf.
  destruct (ReadChannel_follows sizes _ _ _ input Hf Hin) as (p & es & n & He & Hst & Hfo & Hall).
  pose proof (follows_all _ _ _ Hfo) as Hes. cbn [app] in Hes. exists p, n. by rewrite Hes.
Qed.

Lemma channel_hears rx sizes os :
  bytes_ok rx -> length rx = LPDU_MAX_FRAME_SIZE -> Forall sendable os ->
  Forall (fun k => 0 < k) sizes -> length (concat (map encode_frame os)) <= length sizes ->
  exists p, ReadChannel sizes (init rx) (concat (map encode_frame os)) = Some (p, map frame_of os, []) /\
    statistics p = stats_after ParserStats_default (map Received (map frame_of os)).
Proof.
  intros Hrx Hl Hos Hpos Hlen. set (input := concat (map encode_frame os)) in *.
  assert (Hin : bytes_ok input).
  { unfold input. clear - Hos. induction Hos as [|o os (? & ? & ? & ?) Hos IH]; [constructor|].
    cbn [map concat]. apply Forall_app_2; [|done]. by apply frame_bytes_ok. }
  pose proof (follows_start _ _ (init_idle rx Hrx Hl)) as Hf.
  destruct (ReadChannel_follows sizes _ _ _ input Hf Hin) as (p & es & n & He & Hst & Hfo & Hall).
  specialize (Hall Hpos Hlen). pose proof (follows_all _ _ _ Hfo) as Hes. cbn [app] in Hes.
  rewrite take_ge in Hes by done. unfold input in Hes. rewrite <- (app_nil_r (concat _)) in Hes.
  rewrite scan_frames in Hes by done. cbn in Hes. rewrite app_nil_r in Hes. subst es.
  exists p. rewrite He, drop_ge, frames_received by done. done.
Qed.

(** Every sender of the link layer writes what the frame encodes to, into the
    first bytes of its buffer. *)
Lemma format_frame_spec w o :
  WSlice.wf w -> LPDU_MAX_FRAME_SIZE <= ws_size w -> sent_by_station o ->
  exists w' v, format_frame w o = Some (w', v) /\
    view_bytes (ws_array w') v = Some (encode_frame o) /\ length (ws_array w') = length (ws_array w).
Proof.
  intros Hwf Hs ((_ & _ & _ & Hl & Hallow) & Hfcb). unfold LPDU_MAX_FRAME_SIZE in Hs. destruct o as [m fcb fcv code d s data].
  unfold format_frame, encode_frame. cbn [o_master o_fcb o_fcv o_code o_dest o_src o_data] in *.
  assert (Hheader : forall fcb fcv, data = [] ->
    exists w' v, FormatHeader w 0 m fcb fcv code d s = Some (w', v) /\
      view_bytes (ws_array w') v = Some (frame_bytes m fcb fcv code d s data) /\ length (ws_array w') = length (ws_array w)).
  { intros ? ? ->. edestruct (FormatHeader_spec w 0) as (a & Ha & ->); [done|unfold LPDU_HEADER_SIZE; lia|].
    eexists _, _. split; [done|]. cbn [ws_array]. rewrite frame_bytes_nodata.
    split; [by eapply view_after_write|]. by eapply mem_write_length. }
  assert (Hdata : forall fcb fcv, 0 < length data ->
    exists w' v, FormatUserData w m fcb fcv code d s data (Z.of_nat (length data)) = Some (w', v) /\
      view_bytes (ws_array w') v = Some (frame_bytes m fcb fcv code d s data) /\ length (ws_array w') = length (ws_array w)).
  { intros ? ? Hpos. edestruct (FormatUserData_spec w m) as (a & Ha & ->); [done|by split|
      transitivity LPDU_MAX_FRAME_SIZE; [by apply CalcFrameSize_max|unfold LPDU_MAX_FRAME_SIZE; lia]|].
    eexists _, _. split; [done|]. cbn [ws_array].
    split; [eapply view_after_write; [done|by rewrite frame_bytes_length]|]. by eapply mem_write_length. }
  destruct code, fcb, fcv; try discriminate Hallow; try discriminate (Hfcb eq_refl);
    destruct data as [|z data]; try discriminate Hallow; first [by apply Hheader|by apply Hdata; cbn; lia].
Qed.

Lemma format_all_spec os : forall w,
  WSlice.wf w -> LPDU_MAX_FRAME_SIZE <= ws_size w -> Forall sent_by_station os ->
  format_all w os = Some (concat (map encode_frame os)).
Proof.
  induction os as [|o os IH]; intros w Hwf Hs Hos; [done|]. apply Forall_cons_1 in Hos as [Ho Hos].
  destruct (format_frame_spec w o Hwf Hs Ho) as (w' & v & He & Hv & Hl).
  cbn [format_all map concat]. rewrite He. cbn [mbind option_bind fst snd]. rewrite Hv. cbn [mbind option_bind].
  rewrite IH; [done| |done..]. unfold WSlice.wf in *. cbn. lia.
Qed.

(** C32: Nothing is lost and nothing is invented on a clean channel: a station
    that formats any frames (known function, FCV as the function requires, FCB only
    with FCV, 1 to 250 bytes of user data exactly for the two user data
    functions) one after the other into one buffer of at least 292 bytes,
    each with the Format function of its function code, never fails, and the
    bytes it puts on the wire, read with any positive read sizes that get
    through them, are heard exactly frame by frame: same function, flags,
    addresses and user data, in order, no byte left over and nothing counted
    but received frames. *)
Theorem sent_frames_are_received w rx sizes os :
  WSlice.wf w -> LPDU_MAX_FRAME_SIZE <= ws_size w ->
  bytes_ok rx -> length rx = LPDU_MAX_FRAME_SIZE -> Forall sent_by_station os ->
  exists input, format_all w os = Some input /\
    (Forall (fun k => 0 < k) sizes -> length input <= length sizes ->
     exists p, ReadChannel sizes (init rx) input = Some (p, map frame_of os, []) /\
       statistics p = stats_after ParserStats_default (map Received (map frame_of os))).
Proof.
  intros Hwf Hs Hrx Hl Hos. eexists. split; [by apply format_all_spec|].
  intros Hpos Hlen. apply channel_hears; [done..| |done|done]. revert Hos. apply Forall_impl. by intros ? [? _].
Qed.

(** C35: Every frame handed to the sink was on the wire: whatever bytes arrive,
    valid or not, read from the channel in chunks of any sizes, the reads
    succeed, and each delivered frame is one a station may send (known
    function, FCV and FCB as the function requires, payload present exactly for
    user data, at most 250 bytes) and its encoding, start bytes, header, CRCs and
    all, is a contiguous part of the bytes read so far. The same holds for the
    dnp3decode tool, which feeds a whole buffer to the parser. *)
Theorem delivered_frames_are_genuine rx sizes input :
  bytes_ok rx -> length rx = LPDU_MAX_FRAME_SIZE -> bytes_ok input ->
  (exists p fs n, ReadChannel sizes (init rx) input = Some (p, fs, drop n input) /\
    forall f, f ∈ fs ->
      exists o pre post, sendable o /\ f = frame_of o /\ take n input = pre ++ encode_frame o ++ post) /\
  (exists p fs, DecodeLPDU (length input) (init rx) input = Some (p, fs) /\
    forall f, f ∈ fs ->
      exists o pre post, sendable o /\ f = frame_of o /\ input = pre ++ encode_frame o ++ post).
Proof.
  intros Hrx Hl Hd. pose proof (follows_start _ _ (init_idle rx Hrx Hl)) as Hf. split.
  - destruct (ReadChannel_follows sizes _ _ _ input Hf Hd) as (p & es & n & He & _ & Hfo & _).
    exists p, (frames es), n. split; [done|].
    apply events_sound; [by apply Forall_take|]. exact (follows_all _ _ _ Hfo).
  - destruct (DecodeLPDU_follows (length input) _ _ _ input Hf Hd) as (p & es & He & _ & Hfo); [done|].
    exists p, (frames es). split; [done|].
    apply events_sound; [done|]. exact (follows_all _ _ _ Hfo).
Qed.

End Properties.

(** ** Examples and witnesses *)

Section Witnesses.
Import LinkLayerParser Scan.

Definition rx0 : bytes := replicate 292 0%Z.

Lemma rx0_ok : bytes_ok rx0.
Proof. apply Forall_replicate. unfold is_u8. lia. Qed.

Lemma rx0_length : length rx0 = LPDU_MAX_FRAME_SIZE.
Proof. done. Qed.

(** A RESET LINK STATES frame from station 1024 to station 1. *)
Definition reset_frame : bytes := [0x05; 0x64; 0x05; 0xC0; 0x01; 0x00; 0x00; 0x04; 0xE9; 0x21]%Z.

Definition reset_sent : Outgoing := mkOutgoing true false false PRI_RESET_LINK_STATES 1 1024 [].

Definition data_sent : Outgoing :=
  mkOutgoing false true true PRI_CONFIRMED_USER_DATA 1024 1
    [1;2;3;4;5;6;7;8;9;10;11;12;13;14;15;16;17]%Z.

Example reset_frame_encoded : encode_frame reset_sent = reset_frame.
Proof. vm_compute. reflexivity. Qed.

Example reset_frame_parsed :
  exists p, Receive (init rx0) ([0x05; 0x05; 0x64] ++ reset_frame)%Z = Some (p, [frame_of reset_sent]).
Proof. eexists. vm_compute. reflexivity. Qed.

Lemma reset_frame_ok : bytes_ok reset_frame.
Proof. repeat (apply Forall_cons_2; [unfold is_u8; lia|]). apply Forall_nil_2. Qed.

Lemma sent_ok : Forall sendable [reset_sent; data_sent].
Proof.
  assert (Hd : bytes_ok (o_data data_sent)).
  { unfold data_sent. cbn [o_data]. repeat (apply Forall_cons_2; [unfold is_u8; lia|]). apply Forall_nil_2. }
  repeat (apply Forall_cons_2 || apply Forall_nil_2); (split_and!; [unfold is_u16; cbn; lia..| | |reflexivity]).
  - constructor.
  - cbn. lia.
  - exact Hd.
  - cbn. lia.
Qed.

Lemma receive_refines_scan_witness :
  exists p', Receive (init rx0) reset_frame = Some (p', frames (scan ([] ++ reset_frame)).1) /\
    statistics p' = stats_after (statistics (init rx0)) (scan ([] ++ reset_frame)).1 /\
    idle p' (scan ([] ++ reset_frame)).2 /\ 0 < ws_size (WriteBuff p').
Proof.
  apply (receive_refines_scan (init rx0) [] reset_frame).
  - exact (init_idle _ rx0_ok rx0_length).
  - exact reset_frame_ok.
  - vm_compute. lia.
Defined.

Lemma channel_reads_are_one_scan_witness :
  exists p n, ReadChannel [3; 1; 4] (init rx0) reset_frame =
      Some (p, frames (scan (take n reset_frame)).1, drop n reset_frame) /\
    statistics p = stats_after ParserStats_default (scan (take n reset_frame)).1 /\
    (Forall (fun k => 0 < k) [3; 1; 4] -> length reset_frame <= length [3; 1; 4] -> length reset_frame <= n).
Proof. exact (channel_reads_are_one_scan rx0 [3; 1; 4] reset_frame rx0_ok rx0_length reset_frame_ok). Defined.

Lemma sent_by_station_ok : Forall sent_by_station [reset_sent; data_sent].
Proof.
  pose proof sent_ok as [H1 [H2 _]%Forall_cons_1]%Forall_cons_1.
  repeat (apply Forall_cons_2 || apply Forall_nil_2); done.
Qed.

Lemma sent_frames_are_received_witness :
  exists input, format_all (mkWSlice rx0 0 292) [reset_sent; data_sent] = Some input /\
    exists p, ReadChannel (replicate 41 7) (init rx0) input =
        Some (p, [frame_of reset_sent; frame_of data_sent], []) /\
      statistics p = stats_after ParserStats_default (map Received (map frame_of [reset_sent; data_sent])).
Proof.
  destruct (sent_frames_are_received (mkWSlice rx0 0 292) rx0 (replicate 41 7) [reset_sent; data_sent])
    as (input & Hsent & Hread).
  - unfold WSlice.wf. cbn. lia.
  - unfold LPDU_MAX_FRAME_SIZE. cbn. lia.
  - exact rx0_ok.
  - exact rx0_length.
  - exact sent_by_station_ok.
  - exists input. split; [exact Hsent|]. apply Hread.
    + apply Forall_replicate. lia.
    + vm_compute in Hsent. injection Hsent as <-. vm_compute. lia.
Defined.

Lemma delivered_frames_are_genuine_witness :
  (exists p fs n, ReadChannel [4; 4; 2] (init rx0) reset_frame = Some (p, fs, drop n reset_frame) /\
    forall f, f ∈ fs ->
      exists o pre post, sendable o /\ f = frame_of o /\ take n reset_frame = pre ++ encode_frame o ++ post) /\
  (exists p fs, DecodeLPDU (length reset_frame) (init rx0) reset_frame = Some (p, fs) /\
    forall f, f ∈ fs ->
      exists o pre post, sendable o /\ f = frame_of o /\ reset_frame = pre ++ encode_frame o ++ post).
Proof. exact (delivered_frames_are_genuine rx0 [4; 4; 2] reset_frame rx0_ok rx0_length reset_frame_ok). Defined.

End Witnesses.
