(* ===== verification/Transport.v ===== *)
(** * Transport: segmentation and reassembly (opendnp3/transport)

    [TransportHeader], the transmitter [TransportTx], the receiver
    [TransportRx] and the interface [ITransportSegment] through which the link
    layer reads the transmitter. *)

From S2P Require Import Prelude Slices Serialization LinkFrame.

(** ** Data *)

Record Message := mkMessage { addresses : Addresses; payload : RSlice }.

Definition Message_default : Message := mkMessage (mkAddresses 0 0) RSlice.Empty.

Definition MAX_TPDU_LENGTH : nat := 250.

Definition MAX_TPDU_PAYLOAD : nat := 249.

(** ** TransportHeader *)

Record TransportHeader := mkTransportHeader { fir : bool; fin : bool; seq : Z }.

Module TransportHeader.

Definition FIN_MASK : Z := 0x80.

Definition FIR_MASK : Z := 0x40.

Definition SEQ_MASK : Z := 0x3F.

(** The constructor from a byte. *)
Definition of_byte (byte : Z) : TransportHeader :=
  mkTransportHeader (negb (Z.land byte FIR_MASK =? 0)%Z) (negb (Z.land byte FIN_MASK =? 0)%Z)
    (Z.land byte SEQ_MASK).

Definition ToByte (fir fin : bool) (seq : Z) : Z :=
  let hdr := 0%Z in
  let hdr := if fir then Z.lor hdr FIR_MASK else hdr in
  let hdr := if fin then Z.lor hdr FIN_MASK else hdr in
  Z.lor hdr (Z.land SEQ_MASK seq).

End TransportHeader.

(** [TransportSeqNum] is [SequenceNum<uint8_t, 64>]. *)
Definition TransportSeqNum_Next (seq : Z) : Z := SequenceNum_Next 64 seq.

(** ** The interface to the link layer *)

Class ITransportSegment (S : Type) := {
  GetAddresses : S -> Addresses;
  HasValue : S -> bool;
  GetSegment : S -> option (S * RSlice);
  Advance : S -> S * bool
}.

(** What the link layer relies on: a segment fits in a frame and is not empty,
    reading it again gives the same bytes, and advancing to a next segment makes
    progress. *)
Class TransportSegmentOk (S : Type) `{ITransportSegment S} := {
  segment_ok : S -> Prop;
  segments_left : S -> nat;
  segment_has_value s : segment_ok s -> HasValue s = true;
  segment_get s : segment_ok s ->
    exists s' d, GetSegment s = Some (s', d) /\ segment_ok s' /\ 0 < length d <= 250 /\
      (bytes_ok d) /\ GetSegment s' = Some (s', d) /\ segments_left s' = segments_left s /\
      GetAddresses s' = GetAddresses s;
  segment_advance s : segment_ok s -> forall s' more, Advance s = (s', more) ->
    GetAddresses s' = GetAddresses s /\
    (more = true -> segment_ok s' /\ segments_left s' < segments_left s)
}.

(** ** TransportTx *)

(** [message.payload] is the application's buffer, which does not change while it
    is sent; [txSegment] is the size of the view of [tpduBuffer], when set. *)
Record TransportTx := mkTransportTx {
  message : Message;
  txSegment : option nat;
  tpduBuffer : bytes;
  numTransportTx : Z;
  sequence : Z;
  tpduCount : Z
}.

Module TransportTx.

(** The constructor; the contents of [tpduBuffer] are arbitrary. *)
Definition init (tpduBuffer : bytes) : TransportTx :=
  mkTransportTx Message_default None tpduBuffer 0 0 0.

Definition Configure (t : TransportTx) (message : Message) : option TransportTx :=
  _ ← c_assert (RSlice.IsNotEmpty (payload message));
  Some (mkTransportTx message None (tpduBuffer t) (numTransportTx t) (sequence t) 0).

Definition HasValue (t : TransportTx) : bool := 0 <? RSlice.Size (payload (message t)).

Definition GetSegment (t : TransportTx) : option (TransportTx * RSlice) :=
  match txSegment t with
  | Some size => segment ← mem_read (tpduBuffer t) 0 size; Some (t, segment)
  | None =>
      let payload := payload (message t) in
      let numToSend :=
        if RSlice.Size payload <? MAX_TPDU_PAYLOAD then RSlice.Size payload else MAX_TPDU_PAYLOAD in
      let dest := WSlice.Skip (mkWSlice (tpduBuffer t) 0 MAX_TPDU_LENGTH) 1 in
      '(dest, _) ← CopyTo (RSlice.Take payload numToSend) dest;
      let fir := (tpduCount t =? 0)%Z in
      let fin := numToSend =? RSlice.Size payload in
      m ← mem_write (ws_array dest) 0 [TransportHeader.ToByte fir fin (sequence t)];
      segment ← mem_read m 0 (numToSend + 1);
      Some (mkTransportTx (message t) (Some (numToSend + 1)) m (u32 (numTransportTx t + 1))
              (sequence t) (tpduCount t), segment)
  end.

Definition Advance (t : TransportTx) : TransportTx * bool :=
  let p := payload (message t) in
  let numToSend := if RSlice.Size p <? MAX_TPDU_PAYLOAD then RSlice.Size p else MAX_TPDU_PAYLOAD in
  let p := RSlice.Advance p numToSend in
  (mkTransportTx (mkMessage (addresses (message t)) p) None (tpduBuffer t) (numTransportTx t)
     (TransportSeqNum_Next (sequence t)) (u32 (tpduCount t + 1)),
   RSlice.IsNotEmpty p).

End TransportTx.

#[export] Instance TransportTx_ITransportSegment : ITransportSegment TransportTx := {
  GetAddresses t := addresses (message t);
  HasValue := TransportTx.HasValue;
  GetSegment := TransportTx.GetSegment;
  Advance := TransportTx.Advance
}.

(** ** TransportRx *)

Record RxStats := mkRxStats {
  numTransportRx : Z;
  numTransportErrorRx : Z;
  numTransportBufferOverflow : Z;
  numTransportDiscard : Z;
  numTransportIgnore : Z
}.

Record TransportRx := mkTransportRx {
  rx_statistics : RxStats;
  rxBuffer : bytes;
  numBytesRead : nat;
  lastAddresses : Addresses;
  expectedSeq : Z
}.

Module TransportRx.

Definition init (rxBuffer : bytes) : TransportRx :=
  mkTransportRx (mkRxStats 0 0 0 0 0) rxBuffer 0 (mkAddresses 0 0) 0.

Definition set_read (r : TransportRx) (n : nat) : TransportRx :=
  mkTransportRx (rx_statistics r) (rxBuffer r) n (lastAddresses r) (expectedSeq r).

Definition Reset (r : TransportRx) : TransportRx := set_read r 0.

Definition set_stats (r : TransportRx) (s : RxStats) : TransportRx :=
  mkTransportRx s (rxBuffer r) (numBytesRead r) (lastAddresses r) (expectedSeq r).

Definition count_rx (r : TransportRx) : TransportRx :=
  let s := rx_statistics r in
  set_stats r (mkRxStats (u32 (numTransportRx s + 1)) (numTransportErrorRx s) (numTransportBufferOverflow s)
    (numTransportDiscard s) (numTransportIgnore s)).

Definition count_error (r : TransportRx) : TransportRx :=
  let s := rx_statistics r in
  set_stats r (mkRxStats (numTransportRx s) (u32 (numTransportErrorRx s + 1)) (numTransportBufferOverflow s)
    (numTransportDiscard s) (numTransportIgnore s)).

Definition count_overflow (r : TransportRx) : TransportRx :=
  let s := rx_statistics r in
  set_stats r (mkRxStats (numTransportRx s) (numTransportErrorRx s) (u32 (numTransportBufferOverflow s + 1))
    (numTransportDiscard s) (numTransportIgnore s)).

Definition count_discard (r : TransportRx) : TransportRx :=
  let s := rx_statistics r in
  set_stats r (mkRxStats (numTransportRx s) (numTransportErrorRx s) (numTransportBufferOverflow s)
    (u32 (numTransportDiscard s + 1)) (numTransportIgnore s)).

Definition count_ignore (r : TransportRx) : TransportRx :=
  let s := rx_statistics r in
  set_stats r (mkRxStats (numTransportRx s) (numTransportErrorRx s) (numTransportBufferOverflow s)
    (numTransportDiscard s) (u32 (numTransportIgnore s + 1))).

Definition GetAvailable (r : TransportRx) : WSlice :=
  WSlice.Skip (mkWSlice (rxBuffer r) 0 (length (rxBuffer r))) (numBytesRead r).

(** The checks on a segment that does not start a message. *)
Definition continues (r : TransportRx) (header : TransportHeader) (addr : Addresses) : bool :=
  negb (numBytesRead r =? 0) && (seq header =? expectedSeq r)%Z && Addresses_eqb addr (lastAddresses r).

Definition ProcessReceive (r : TransportRx) (segment : Message) : option (TransportRx * Message) :=
  let r := count_rx r in
  match payload segment with
  | [] => Some (count_error r, Message_default)
  | byte :: _ =>
      let header := TransportHeader.of_byte byte in
      let payload := RSlice.Skip (payload segment) 1 in
      let r := if fir header && (0 <? numBytesRead r) then set_read (count_discard r) 0 else r in
      if negb (fir header) && negb (continues r header (addresses segment))
      then Some (count_ignore r, Message_default)
      else
        let available := GetAvailable r in
        if ws_size available <? RSlice.Size payload
        then Some (set_read (count_overflow r) 0, Message_default)
        else
          '(available, _) ← CopyTo payload available;
          let r := mkTransportRx (rx_statistics r) (ws_array available)
                     (numBytesRead r + RSlice.Size payload) (addresses segment)
                     (TransportSeqNum_Next (seq header)) in
          if fin header then
            let ret := RSlice.Take (rxBuffer r) (numBytesRead r) in
            Some (set_read r 0, mkMessage (addresses segment) ret)
          else Some (r, Message_default)
  end.

(** The receiver over a sequence of segments: the messages it returns. *)
Fixpoint ProcessAll (r : TransportRx) (segments : list Message) : option (TransportRx * list Message) :=
  match segments with
  | [] => Some (r, [])
  | s :: segments =>
      '(r, m) ← ProcessReceive r s;
      '(r, ms) ← ProcessAll r segments;
      Some (r, m :: ms)
  end.

End TransportRx.

(** The link layer's use of a transmitter: read a segment, advance, until
    [Advance] says that nothing is left. *)
Fixpoint drain (fuel : nat) (t : TransportTx) : option (TransportTx * list RSlice) :=
  match fuel with
  | O => None
  | S fuel =>
      '(t, s) ← TransportTx.GetSegment t;
      let '(t, more) := TransportTx.Advance t in
      if (more : bool) then '(t, ss) ← drain fuel t; Some (t, s :: ss) else Some (t, [s])
  end.

(** ** Lemmas: the transmitter *)

Section Transmitter.

Lemma header_roundtrip f n s :
  is_u8 s -> TransportHeader.of_byte (TransportHeader.ToByte f n s) = mkTransportHeader f n (s mod 64).
Proof.
  intros Hs.
  set (P := fun s => let h := TransportHeader.of_byte (TransportHeader.ToByte f n s) in
    eqb (fir h) f && eqb (fin h) n && (seq h =? s mod 64)%Z).
  assert (HP : P s = true).
  { revert s Hs. apply forall_u8. unfold P. destruct f, n; vm_compute; reflexivity. }
  unfold P in HP. apply andb_prop in HP as [HP H3]. apply andb_prop in HP as [H1 H2].
  apply eqb_prop in H1, H2. apply Z.eqb_eq in H3.
  destruct (TransportHeader.of_byte _) as [f' n' s']. cbn in *. by subst.
Qed.

Lemma ToByte_u8 f n s : is_u8 (TransportHeader.ToByte f n s).
Proof.
  unfold TransportHeader.ToByte, TransportHeader.FIR_MASK, TransportHeader.FIN_MASK, TransportHeader.SEQ_MASK.
  assert (Hl : (0 <= Z.land 63 s < 64)%Z).
  { rewrite Z.land_comm. change 63%Z with (Z.ones 6). rewrite Z.land_ones by lia. apply Z.mod_pos_bound. lia. }
  unfold is_u8. change 256%Z with (2 ^ 8)%Z.
  destruct f, n; (apply lor_bound; [lia|vm_compute; split; congruence|lia]).
Qed.

Lemma TransportSeqNum_Next_mod s : (0 <= s)%Z -> TransportSeqNum_Next s = ((s + 1) mod 64)%Z.
Proof. intros. unfold TransportSeqNum_Next, SequenceNum_Next. apply u8_small. unfold is_u8. lia. Qed.

(** The bytes of the segment that comes next. *)
Definition segment_bytes (first : bool) (seq : Z) (p : bytes) : bytes :=
  TransportHeader.ToByte first (length p <=? 249) seq :: take 249 p.

Definition tx_segment (t : TransportTx) : bytes :=
  segment_bytes (tpduCount t =? 0)%Z (sequence t) (payload (message t)).

Definition tx_ok (t : TransportTx) : Prop :=
  length (tpduBuffer t) = MAX_TPDU_LENGTH /\ bytes_ok (tpduBuffer t) /\
  payload (message t) <> [] /\ bytes_ok (payload (message t)) /\
  match txSegment t with
  | None => True
  | Some n => n <= MAX_TPDU_LENGTH /\ take n (tpduBuffer t) = tx_segment t
  end.

Lemma segment_bytes_ok first s p : bytes_ok p -> bytes_ok (segment_bytes first s p).
Proof. intros. apply Forall_cons_2; [apply ToByte_u8|by apply Forall_take]. Qed.

Lemma segment_bytes_length first s p : length (segment_bytes first s p) = S (min 249 (length p)).
Proof. unfold segment_bytes. len. Qed.

Lemma numToSend_min (p : RSlice) :
  (if RSlice.Size p <? MAX_TPDU_PAYLOAD then RSlice.Size p else MAX_TPDU_PAYLOAD) = min 249 (length p).
Proof. unfold RSlice.Size, MAX_TPDU_PAYLOAD. destruct (Nat.ltb_spec (length p) 249); lia. Qed.

Lemma GetSegment_spec t :
  tx_ok t ->
  exists t', TransportTx.GetSegment t = Some (t', tx_segment t) /\ tx_ok t' /\ txSegment t' <> None /\
    message t' = message t /\ sequence t' = sequence t /\ tpduCount t' = tpduCount t.
Proof.
  intros (Hl & Hb & Hne & Hp & Hs). unfold TransportTx.GetSegment. destruct (txSegment t) as [n|] eqn:Ht.
  - destruct Hs as [Hn Hs]. rewrite mem_read_Some by lia. rewrite drop_0, Hs. cbn [mbind option_bind].
    exists t. split_and!; try done; [|by rewrite Ht]. unfold tx_ok. rewrite Ht. done.
  - rewrite numToSend_min, Take_take. set (p := payload (message t)) in *. set (n := min 249 (length p)).
    set (dest := WSlice.Skip _ _). unfold MAX_TPDU_LENGTH in *.
    assert (Hd : dest = mkWSlice (tpduBuffer t) 1 249) by reflexivity.
    assert (Hn : length (take n p) = n) by len.
    destruct (CopyTo_spec (take n p) dest) as (a & Ha & ->).
    { rewrite Hd. unfold WSlice.wf. cbn. lia. }
    { rewrite Hd. cbn [ws_size]. lia. }
    rewrite Hd in *. cbn [mbind option_bind ws_array ws_pos] in *.
    pose proof (mem_write_length _ _ _ _ Ha) as Hal. pose proof (mem_write_drop_at _ _ _ _ Ha) as Had.
    assert (Hcmp : (n =? RSlice.Size p) = (length p <=? 249)).
    { unfold RSlice.Size. destruct (Nat.eqb_spec n (length p)), (Nat.leb_spec (length p) 249); lia. }
    rewrite Hcmp. set (hdr := TransportHeader.ToByte _ _ _).
    rewrite mem_write_Some by (cbn; lia). rewrite take_0. cbn [mbind option_bind length app Nat.add].
    assert (Hseg : forall r, take (n + 1) (hdr :: take n p ++ r) = tx_segment t).
    { intros r. rewrite Nat.add_1_r. cbn [take]. rewrite take_app_le, take_ge by lia.
      unfold tx_segment, segment_bytes. f_equal. apply take_min. }
    assert (Hr : mem_read (hdr :: drop 1 a) 0 (n + 1) = Some (tx_segment t)).
    { rewrite Had, mem_read_Some by len. by rewrite drop_0, Hseg. }
    rewrite Hr. cbn [mbind option_bind]. rewrite Had.
    eexists. split; [done|]. unfold tx_ok. cbn [txSegment tpduBuffer message sequence tpduCount]. fold p.
    split_and!; try done.
    + unfold MAX_TPDU_LENGTH. len.
    + apply Forall_cons_2; [apply ToByte_u8|]. apply Forall_app_2; [by apply Forall_take|by apply Forall_drop].
    + unfold MAX_TPDU_LENGTH. lia.
Qed.

Lemma Advance_spec t :
  tx_ok t ->
  exists t', TransportTx.Advance t = (t', negb (length (payload (message t)) <=? 249)) /\
    message t' = mkMessage (addresses (message t)) (drop 249 (payload (message t))) /\
    txSegment t' = None /\ tpduBuffer t' = tpduBuffer t /\
    sequence t' = TransportSeqNum_Next (sequence t) /\ tpduCount t' = u32 (tpduCount t + 1).
Proof.
  intros (Hl & Hb & Hne & Hp & Hs). unfold TransportTx.Advance. rewrite numToSend_min, Advance_drop.
  set (p := payload (message t)) in *.
  rewrite drop_min. eexists. split; [f_equal|done].
  unfold RSlice.IsNotEmpty, RSlice.IsEmpty, RSlice.Size. f_equal. rewrite length_drop.
  destruct (Nat.eqb_spec (length p - 249) 0), (Nat.leb_spec (length p) 249); lia.
Qed.

Lemma Advance_ok t t' :
  tx_ok t -> TransportTx.Advance t = (t', true) -> tx_ok t'.
Proof.
  intros Hok Ha. destruct (Advance_spec t Hok) as (t1 & Ha1 & Hm & Hseg & Hbuf & _).
  rewrite Ha in Ha1. injection Ha1 as <- Hmore. destruct Hok as (Hl & Hb & Hne & Hp & Hs).
  unfold tx_ok. rewrite Hm, Hseg, Hbuf. cbn [payload]. split_and!; try done; [|by apply Forall_drop].
  intros Hnil%(f_equal length). rewrite length_drop in Hnil. cbn in Hnil.
  destruct (Nat.leb_spec (length (payload (message t))) 249); [done|lia].
Qed.

Lemma Configure_ok t m :
  length (tpduBuffer t) = MAX_TPDU_LENGTH -> bytes_ok (tpduBuffer t) -> payload m <> [] -> bytes_ok (payload m) ->
  exists t', TransportTx.Configure t m = Some t' /\ tx_ok t' /\ message t' = m /\ tpduCount t' = 0%Z /\
    sequence t' = sequence t.
Proof.
  intros Hl Hb Hne Hp. unfold TransportTx.Configure, c_assert.
  rewrite (proj2 (IsNotEmpty_true _) Hne). cbn. eexists. split; [done|]. done.
Qed.

#[export] Instance TransportTx_SegmentOk : TransportSegmentOk TransportTx.
Proof.
  refine {| segment_ok := tx_ok; segments_left := fun t => length (payload (message t)) |}.
  - intros t (_ & _ & Hne & _). cbn. unfold TransportTx.HasValue, RSlice.Size.
    by destruct (payload (message t)).
  - intros t Hok. destruct (GetSegment_spec t Hok) as (t' & He & Hok' & Hs & Hm & Hseq & Hc).
    destruct (GetSegment_spec t' Hok') as (t'' & He' & _).
    exists t', (tx_segment t). cbn. rewrite Hm. split_and!; try done.
    + lia.
    + len.
    + apply segment_bytes_ok. apply Hok.
    + rewrite He'. unfold tx_segment. rewrite Hm, Hseq, Hc. f_equal. f_equal.
      unfold TransportTx.GetSegment in He'. destruct (txSegment t'); [|done]. inv_bind. done.
  - intros t Hok t' more Ha. cbn in *. destruct (Advance_spec t Hok) as (t1 & Ha1 & Hm & _).
    rewrite Ha in Ha1. injection Ha1 as <- Hmore. split; [by rewrite Hm|]. intros ->.
    split; [by eapply Advance_ok|]. rewrite Hm. cbn. rewrite length_drop.
    destruct (Nat.leb_spec (length (payload (message t))) 249); [done|lia].
Defined.

(** All the segments of a message. *)
Fixpoint split_message (fuel : nat) (first : bool) (seq : Z) (p : bytes) : list bytes :=
  match fuel with
  | O => []
  | S fuel =>
      segment_bytes first seq p ::
        if length p <=? 249 then [] else split_message fuel false (TransportSeqNum_Next seq) (drop 249 p)
  end.

Lemma drain_spec fuel t :
  tx_ok t -> length (payload (message t)) <= fuel -> (0 <= tpduCount t)%Z ->
  (tpduCount t + Z.of_nat (length (payload (message t))) < 4294967296)%Z ->
  exists t', drain fuel t =
    Some (t', split_message fuel (tpduCount t =? 0)%Z (sequence t) (payload (message t))).
Proof.
  revert t. induction fuel as [|fuel IH]; intros t Hok Hl Hc Hc2.
  - destruct Hok as (_ & _ & Hne & _). destruct (payload (message t)); [done|cbn in Hl; lia].
  - cbn [drain split_message].
    destruct (GetSegment_spec t Hok) as (t1 & -> & Hok1 & _ & Hm1 & Hs1 & Hc1). cbn [mbind option_bind].
    destruct (Advance_spec t1 Hok1) as (t2 & Ha & Hm2 & _ & _ & Hs2 & Hc2'). rewrite Ha.
    pose proof (Advance_ok t1 t2 Hok1) as Hok2. rewrite Ha in Hok2. rewrite Hm1 in *.
    assert (Hp2 : payload (message t2) = drop 249 (payload (message t))) by (by rewrite Hm2).
    destruct (Nat.leb_spec (length (payload (message t))) 249) as [Hle|Hgt]; cbn [negb] in *.
    + eexists. by unfold tx_segment.
    + rewrite Hc1, u32_small in Hc2' by (unfold is_u32; lia).
      destruct (IH t2) as (t' & He); rewrite ?Hp2, ?Hc2'; [by apply Hok2|len|lia|len|].
      rewrite He. cbn [mbind option_bind]. exists t'. rewrite Hp2, Hs2, Hs1, Hc2'.
      replace (tpduCount t + 1 =? 0)%Z with false by (symmetry; apply Z.eqb_neq; lia). done.
Qed.

End Transmitter.

(** ** Lemmas: the receiver *)

Section Receiver.
Import TransportRx.

Definition rx_ok (r : TransportRx) : Prop := numBytesRead r <= length (rxBuffer r).

(** The bytes of the message being assembled. *)
Definition partial (r : TransportRx) : bytes := take (numBytesRead r) (rxBuffer r).

Definition hdr (s : Message) : TransportHeader := TransportHeader.of_byte (payload s !!! 0).

Definition body (s : Message) : bytes := drop 1 (payload s).

(** [s] can be appended to what [r] holds. *)
Definition acceptable (r : TransportRx) (s : Message) : Prop :=
  payload s <> [] /\
  (fir (hdr s) = true \/
   numBytesRead r <> 0 /\ seq (hdr s) = expectedSeq r /\ addresses s = lastAddresses r).

(** What is kept when [s] is appended. *)
Definition kept (r : TransportRx) (s : Message) : bytes := if fir (hdr s) then [] else partial r.

Lemma continues_true r h a :
  continues r h a = true <-> numBytesRead r <> 0 /\ seq h = expectedSeq r /\ a = lastAddresses r.
Proof.
  unfold continues, Addresses_eqb. rewrite !andb_true_iff, negb_true_iff, Nat.eqb_neq, !Z.eqb_eq.
  destruct a as [s d], (lastAddresses r) as [s' d']. cbn. split.
  - intros [[? ?] [-> ->]]. done.
  - intros (? & ? & [= -> ->]). done.
Qed.

Lemma partial_length r : rx_ok r -> length (partial r) = numBytesRead r.
Proof. unfold rx_ok, partial. intros. len. Qed.

(** An accepted segment is appended; the last one gives the message. *)
Lemma process_accepts r s :
  rx_ok r -> acceptable r s -> length (kept r s) + length (body s) <= length (rxBuffer r) ->
  exists r', ProcessReceive r s =
      Some (r', if fin (hdr s) then mkMessage (addresses s) (kept r s ++ body s) else Message_default) /\
    rx_ok r' /\ length (rxBuffer r') = length (rxBuffer r) /\
    (if fin (hdr s) then numBytesRead r' = 0
     else partial r' = kept r s ++ body s /\ lastAddresses r' = addresses s /\
          expectedSeq r' = TransportSeqNum_Next (seq (hdr s))).
Proof.
  unfold acceptable, kept, hdr, body. intros Hok [Hne Hacc] Hfit. unfold ProcessReceive.
  destruct (payload s) as [|b d] eqn:Hp; [done|]. change (drop 1 (b :: d)) with d in *. cbn [lookup_total list_lookup_total] in *.
  set (h := TransportHeader.of_byte b) in *. rewrite Skip_drop. change (drop 1 (b :: d)) with d in *.
  set (r1 := if fir h && (0 <? numBytesRead (count_rx r)) then _ else _).
  set (k := if fir h then 0 else numBytesRead r).
  assert (Hr1 : rxBuffer r1 = rxBuffer r /\ numBytesRead r1 = k /\ lastAddresses r1 = lastAddresses r /\
      expectedSeq r1 = expectedSeq r).
  { unfold r1, k. destruct (fir h); cbn [andb]; [|done].
    cbn [count_rx set_stats numBytesRead]. destruct (Nat.ltb_spec 0 (numBytesRead r)); cbn; [done|].
    split_and!; try done. lia. }
  destruct Hr1 as (Hbuf & Hnum & Hlast & Hexp).
  assert (Hcont : negb (fir h) && negb (continues r1 h (addresses s)) = false).
  { destruct Hacc as [->|Hc]; [done|]. destruct (fir h) eqn:Hf; [done|]. cbn [negb andb].
    apply negb_false_iff, continues_true. rewrite Hnum, Hlast, Hexp. done. }
  rewrite Hcont. clear Hcont.
  assert (Hkeep : length (if fir h then [] else partial r) = k)
    by (unfold k; destruct (fir h); [done|by apply partial_length]).
  rewrite Hkeep in Hfit. unfold GetAvailable, WSlice.Skip. cbn [ws_array ws_pos ws_size].
  rewrite Hbuf, Hnum, Nat.min_l by lia. unfold RSlice.Size.
  destruct (Nat.ltb_spec (length (rxBuffer r) - k) (length d)); [lia|].
  destruct (CopyTo_spec d (mkWSlice (rxBuffer r) (0 + k) (length (rxBuffer r) - k))) as (a & Ha & ->);
    [unfold WSlice.wf; cbn; lia|done|].
  cbn [mbind option_bind ws_array ws_pos] in *. cbn [numBytesRead rxBuffer]. change (0 + k) with k in Ha.
  pose proof (mem_write_length _ _ _ _ Ha) as Hal.
  assert (Htake : take (k + length d) a = (if fir h then [] else partial r) ++ d).
  { rewrite (mem_write_take _ _ _ _ Ha). unfold k. by destruct (fir h). }
  destruct (fin h); eexists; (split; [rewrite ?Take_take, ?Htake; done|]);
    unfold rx_ok, partial; cbn; rewrite ?Hal; (split_and!; [lia|done|try done..]).
Qed.

(** Any other segment leaves the message being assembled alone, or drops it. *)
Lemma process_rejects r s :
  rx_ok r -> ~ (acceptable r s /\ length (kept r s) + length (body s) <= length (rxBuffer r)) ->
  exists r', ProcessReceive r s = Some (r', Message_default) /\ rxBuffer r' = rxBuffer r /\
    (numBytesRead r' = 0 \/
     numBytesRead r' = numBytesRead r /\ lastAddresses r' = lastAddresses r /\ expectedSeq r' = expectedSeq r).
Proof.
  unfold acceptable, kept, hdr, body. intros Hok Hrej. unfold ProcessReceive.
  destruct (payload s) as [|b d] eqn:Hp; [eexists; split; [done|]; split; [done|right; done]|].
  change (drop 1 (b :: d)) with d in *. cbn [lookup_total list_lookup_total] in *. rewrite Skip_drop. change (drop 1 (b :: d)) with d in *.
  set (h := TransportHeader.of_byte b) in *. destruct (fir h) eqn:Hf; cbn [andb negb].
  - set (r1 := if 0 <? numBytesRead (count_rx r) then _ else _).
    assert (Hr1 : rxBuffer r1 = rxBuffer r /\ numBytesRead r1 = 0).
    { unfold r1. cbn [count_rx set_stats numBytesRead].
      destruct (Nat.ltb_spec 0 (numBytesRead r)); cbn; [done|]. split; [done|lia]. }
    destruct Hr1 as [Hbuf Hnum]. unfold GetAvailable, WSlice.Skip. cbn [ws_array ws_pos ws_size].
    rewrite Hbuf, Hnum, Nat.min_0_l, Nat.sub_0_r. unfold RSlice.Size.
    destruct (Nat.ltb_spec (length (rxBuffer r)) (length d)) as [|Hd].
    + eexists. split; [done|]. cbn. split; [done|by left].
    + exfalso. apply Hrej. split; [split; [done|by left]|]. cbn [length]. lia.
  - destruct (continues (count_rx r) h (addresses s)) eqn:Hc; cbn [negb].
    + apply continues_true in Hc. unfold GetAvailable, WSlice.Skip. cbn [ws_array ws_pos ws_size].
      change (numBytesRead (count_rx r)) with (numBytesRead r). change (rxBuffer (count_rx r)) with (rxBuffer r).
      unfold rx_ok in Hok. rewrite Nat.min_l by done. unfold RSlice.Size.
      destruct (Nat.ltb_spec (length (rxBuffer r) - numBytesRead r) (length d)) as [|Hd].
      * eexists. split; [done|]. cbn. split; [done|by left].
      * exfalso. apply Hrej. split; [split; [done|by right]|]. rewrite partial_length by done. lia.
    + eexists. split; [done|]. cbn. split; [done|by right].
Qed.

End Receiver.

(** ** Lemmas: reassembly *)

Section Reassembly.
Import TransportRx.

Definition is_seq (s : Z) : Prop := (0 <= s < 64)%Z.

Lemma is_seq_next s : is_seq s -> is_seq (TransportSeqNum_Next s).
Proof. unfold is_seq. intros. rewrite TransportSeqNum_Next_mod by lia. lia. Qed.

Lemma segment_hdr a first s p :
  is_seq s -> hdr (mkMessage a (segment_bytes first s p)) = mkTransportHeader first (length p <=? 249) s.
Proof.
  unfold is_seq. intros Hs. unfold hdr, segment_bytes. cbn [payload lookup_total list_lookup_total].
  rewrite header_roundtrip by (unfold is_u8; lia). by rewrite Z.mod_small by lia.
Qed.

Lemma split_message_received fuel a first s p r :
  is_seq s -> p <> [] -> length p <= fuel -> rx_ok r ->
  (first = false -> numBytesRead r <> 0 /\ expectedSeq r = s /\ lastAddresses r = a) ->
  length (if first then [] else partial r) + length p <= length (rxBuffer r) ->
  exists r' k, ProcessAll r (map (mkMessage a) (split_message fuel first s p)) =
      Some (r', replicate k Message_default ++ [mkMessage a ((if first then [] else partial r) ++ p)]) /\
    numBytesRead r' = 0.
Proof.
  revert first s p r. induction fuel as [|fuel IH]; intros first s p r Hs Hp Hl Hok Hcont Hfit.
  { destruct p; [done|cbn in Hl; lia]. }
  cbn [split_message map ProcessAll]. set (m := mkMessage a (segment_bytes first s p)).
  pose proof (segment_hdr a first s p Hs) as Hh. fold m in Hh.
  assert (Hb : body m = take 249 p) by done.
  assert (Hkept : kept r m = if first then [] else partial r) by (unfold kept; by rewrite Hh).
  assert (Hacc : acceptable r m).
  { split; [done|]. rewrite Hh. cbn [fir seq]. destruct first; [by left|]. right.
    destruct (Hcont eq_refl) as (? & ? & ?). done. }
  destruct (process_accepts r m Hok Hacc) as (r1 & -> & Hok1 & Hbuf1 & Hst1); [rewrite Hkept, Hb; len|].
  cbn [mbind option_bind]. rewrite Hh, Hkept, Hb in *. cbn [fin seq] in *.
  destruct (Nat.leb_spec (length p) 249) as [Hle|Hgt].
  - exists r1, 0. cbn. by rewrite take_ge by lia.
  - destruct Hst1 as (Hpart & Hlast & Hexp).
    assert (Hn1 : length (partial r1) = length (if first then [] else partial r) + 249) by (rewrite Hpart; len).
    rewrite partial_length in Hn1 by done.
    destruct (IH false (TransportSeqNum_Next s) (drop 249 p) r1) as (r' & k & -> & Hz).
    + by apply is_seq_next.
    + intros Hnil%(f_equal length). rewrite length_drop in Hnil. cbn in Hnil. lia.
    + len.
    + done.
    + intros _. split_and!; [lia|done|done].
    + rewrite partial_length, Hbuf1 by done. len.
    + exists r', (S k). split; [|done]. cbn. do 4 f_equal. by rewrite Hpart, <- app_assoc, take_drop.
Qed.

Lemma split_message_sizes fuel first s p :
  Forall (fun x => 0 < length x <= 250) (split_message fuel first s p).
Proof.
  revert first s p. induction fuel as [|fuel IH]; intros first s p; cbn [split_message]; [constructor|].
  constructor; [rewrite segment_bytes_length; lia|]. case_bool; [constructor|apply IH].
Qed.

(** A chain of segments: it begins with a FIR segment, the sequence numbers
    follow each other, the addresses agree and only the last may be FIN.  The
    indices are whether it is complete, its addresses, the next sequence number
    and the bytes it carries. *)
Inductive chain : bool -> list Message -> Addresses -> Z -> bytes -> Prop :=
  | chain_first s :
      payload s <> [] -> fir (hdr s) = true ->
      chain (fin (hdr s)) [s] (addresses s) (TransportSeqNum_Next (seq (hdr s))) (body s)
  | chain_next c a n q s :
      chain false c a n q -> payload s <> [] -> fir (hdr s) = false -> seq (hdr s) = n -> addresses s = a ->
      chain (fin (hdr s)) (c ++ [s]) a (TransportSeqNum_Next n) (q ++ body s).

(** What the receiver holds is an incomplete chain of segments of [past]. *)
Definition holds_chain (r : TransportRx) (past : list Message) : Prop :=
  numBytesRead r <> 0 ->
  exists c, chain false c (lastAddresses r) (expectedSeq r) (partial r) /\ c `sublist_of` past.

Lemma holds_chain_more r past s : holds_chain r past -> holds_chain r (past ++ [s]).
Proof.
  intros H Hn. destruct (H Hn) as (c & Hc & Hs). exists c. split; [done|]. by apply sublist_inserts_r.
Qed.

(** Appending an accepted segment extends the chain. *)
Lemma chain_extends r past s :
  holds_chain r past -> acceptable r s ->
  exists c, chain (fin (hdr s)) c (addresses s) (TransportSeqNum_Next (seq (hdr s))) (kept r s ++ body s) /\
    c `sublist_of` (past ++ [s]).
Proof.
  intros Hch [Hne Hacc]. unfold kept. destruct (fir (hdr s)) eqn:Hf.
  - exists [s]. split; [by apply chain_first|]. by apply sublist_inserts_l.
  - destruct Hacc as [|(Hn & Hseq & Ha)]; [done|]. destruct (Hch Hn) as (c & Hc & Hsub).
    exists (c ++ [s]). rewrite Hseq, Ha. split; [by apply chain_next|]. by apply sublist_app.
Qed.

Lemma process_chain r past s :
  rx_ok r -> holds_chain r past ->
  exists r' m, ProcessReceive r s = Some (r', m) /\ rx_ok r' /\ holds_chain r' (past ++ [s]) /\
    (payload m <> [] -> exists c n, chain true c (addresses m) n (payload m) /\ c `sublist_of` (past ++ [s])).
Proof.
  intros Hok Hch.
  assert (Hdec : {acceptable r s /\ length (kept r s) + length (body s) <= length (rxBuffer r)} +
                 {~ (acceptable r s /\ length (kept r s) + length (body s) <= length (rxBuffer r))})
    by (unfold acceptable; apply decide; apply _).
  destruct Hdec as [[Hacc Hfit]|Hrej].
  - destruct (process_accepts r s Hok Hacc Hfit) as (r' & -> & Hok' & _ & Hst).
    destruct (chain_extends r past s Hch Hacc) as (c & Hc & Hsub).
    eexists _, _. split; [done|]. split; [done|]. destruct (fin (hdr s)).
    + split; [by unfold holds_chain; rewrite Hst|]. intros _. eauto.
    + destruct Hst as (Hp & Hl & He). split; [|done]. intros _. exists c. by rewrite Hp, Hl, He.
  - destruct (process_rejects r s Hok Hrej) as (r' & -> & Hbuf & Hst).
    eexists _, _. split; [done|]. unfold rx_ok in *. destruct Hst as [Hz|(Hn & Hl & He)].
    + split; [rewrite Hz; lia|]. split; [|done]. intros Hn. by rewrite Hz in Hn.
    + split; [by rewrite Hn, Hbuf|]. split; [|done]. apply holds_chain_more. unfold holds_chain, partial.
      by rewrite Hn, Hbuf, Hl, He.
Qed.

Lemma process_all_chain segments r past :
  rx_ok r -> holds_chain r past ->
  exists r' ms, ProcessAll r segments = Some (r', ms) /\ rx_ok r' /\
    forall m, m ∈ ms -> payload m <> [] ->
      exists c n, chain true c (addresses m) n (payload m) /\ c `sublist_of` (past ++ segments).
Proof.
  revert r past. induction segments as [|s segments IH]; intros r past Hok Hch; cbn [ProcessAll].
  - exists r, []. split_and!; try done. intros m Hm. by apply not_elem_of_nil in Hm.
  - destruct (process_chain r past s Hok Hch) as (r1 & m1 & -> & Hok1 & Hch1 & Hm1). cbn [mbind option_bind].
    destruct (IH r1 (past ++ [s]) Hok1 Hch1) as (r' & ms & -> & Hok' & Hms). cbn [mbind option_bind].
    exists r', (m1 :: ms). split_and!; try done. intros m [->|Hm]%elem_of_cons Hne.
    + destruct (Hm1 Hne) as (c & n & Hc & Hsub). exists c, n. split; [done|].
      rewrite (cons_middle s past segments). rewrite app_assoc. by apply sublist_inserts_r.
    + destruct (Hms m Hm Hne) as (c & n & Hc & Hsub). exists c, n. split; [done|].
      by rewrite <- app_assoc in Hsub.
Qed.

End Reassembly.

(** ** Properties *)

Section Properties.
Import TransportRx.

(** C29: Segmentation and reassembly are inverse: any non-empty message that
    fits in the receiver's buffer, cut up by any transmitter, whatever its
    sequence number, arrives whole and is delivered exactly once, with its last
    segment, by a receiver in any state, even in the middle of another message;
    no segment is empty or longer than 250 bytes. *)
Theorem segmentation_roundtrip (t : TransportTx) (m : Message) (r : TransportRx) :
  length (tpduBuffer t) = MAX_TPDU_LENGTH -> bytes_ok (tpduBuffer t) -> is_seq (sequence t) ->
  payload m <> [] -> bytes_ok (payload m) -> (Z.of_nat (length (payload m)) < 4294967296)%Z ->
  rx_ok r -> length (payload m) <= length (rxBuffer r) ->
  exists t1 t2 segments r' k,
    TransportTx.Configure t m = Some t1 /\
    drain (length (payload m)) t1 = Some (t2, segments) /\
    Forall (fun s => 0 < length s <= 250) segments /\
    ProcessAll r (map (mkMessage (addresses m)) segments) =
      Some (r', replicate k Message_default ++ [m]) /\
    numBytesRead r' = 0.
Proof.
  intros Hl Hb Hs Hne Hp H32 Hr Hfit.
  destruct (Configure_ok t m Hl Hb Hne Hp) as (t1 & Hc & Hok1 & Hm1 & Hz & Hs1).
  destruct (drain_spec (length (payload m)) t1 Hok1) as (t2 & Hd); rewrite ?Hm1, ?Hz; [lia..|].
  rewrite Hm1, Hz, Hs1 in Hd. cbn [Z.eqb] in Hd.
  destruct (split_message_received (length (payload m)) (addresses m) true (sequence t) (payload m) r)
    as (r' & k & Hall & Hn); [done..|]. cbn [app] in Hall.
  exists t1, t2. eexists _, r', k. split_and!; [done|exact Hd| |by destruct m|done].
  apply split_message_sizes.
Qed.

(** C36: The receiver never makes a message up: for every sequence of segments,
    well formed or not, from any sources, it stays inside its buffer and
    terminates, and each message it delivers is the concatenation of the payloads
    of a chain of received segments, in order, that starts with FIR, ends with
    FIN, has consecutive sequence numbers and one source and destination, which
    are those of the message. *)
Theorem delivered_messages_are_chains (buffer : bytes) (segments : list Message) :
  exists r ms, ProcessAll (init buffer) segments = Some (r, ms) /\ rx_ok r /\
    forall m, m ∈ ms -> payload m <> [] ->
      exists c n, chain true c (addresses m) n (payload m) /\ c `sublist_of` segments.
Proof. apply (process_all_chain segments (init buffer) []); [unfold rx_ok; cbn; lia|by intros []]. Qed.

Lemma segmentation_roundtrip_witness :
  exists t1 t2 segments r' k,
    TransportTx.Configure (TransportTx.init (replicate 250 0%Z))
      (mkMessage (mkAddresses 1 1024) (replicate 300 7%Z)) = Some t1 /\
    drain 300 t1 = Some (t2, segments) /\
    Forall (fun s => 0 < length s <= 250) segments /\
    ProcessAll (init (replicate 2048 0%Z)) (map (mkMessage (mkAddresses 1 1024)) segments) =
      Some (r', replicate k Message_default ++ [mkMessage (mkAddresses 1 1024) (replicate 300 7%Z)]) /\
    numBytesRead r' = 0.
Proof.
  apply (segmentation_roundtrip (TransportTx.init (replicate 250 0%Z))
    (mkMessage (mkAddresses 1 1024) (replicate 300 7%Z)) (init (replicate 2048 0%Z))).
  - reflexivity.
  - apply Forall_replicate. unfold is_u8. lia.
  - unfold is_seq. cbn. lia.
  - done.
  - apply Forall_replicate. unfold is_u8. lia.
  - vm_compute. reflexivity.
  - unfold rx_ok. cbn. lia.
  - cbn [payload rxBuffer init]. rewrite !length_replicate. lia.
Defined.

End Properties.
