(* ===== verification/LinkLayer.v ===== *)
(** * LinkLayer: the data link layer (opendnp3/link: LinkContext, LinkLayer and the
    primary and secondary station states)

    The state of the layer, one function per method, and the events that other
    parts of the program deliver to it.  The primary station reads the transport
    layer through [ITransportSegment]. *)

From S2P Require Import Prelude Slices Serialization Crc LinkFrame Transport.

(** ** Data *)

Record LinkLayerConfig := mkLinkLayerConfig {
  IsMaster : bool;
  UseConfirms : bool;
  NumRetry : Z;
  LocalAddr : Z;
  RemoteAddr : Z;
  Timeout : Z;
  KeepAliveTimeout : Z;
  respondToAnySource : bool
}.

Inductive LinkTransmitMode := Tx_Idle | Tx_Primary | Tx_Secondary.

#[export] Instance LinkTransmitMode_eq_dec : EqDecision LinkTransmitMode.
Proof. solve_decision. Defined.

(** [StackStatistics::Link] *)
Record LinkStats := mkLinkStats {
  numUnexpectedFrame : Z;
  numBadMasterBit : Z;
  numUnknownDestination : Z;
  numUnknownSource : Z
}.

(** The subclasses of [PriStateBase]; each has a single instance. *)
Inductive PriState :=
  | PLLS_Idle
  | PLLS_SendUnconfirmedTransmitWait
  | PLLS_LinkResetTransmitWait
  | PLLS_ConfUserDataTransmitWait
  | PLLS_RequestLinkStatusTransmitWait
  | PLLS_ResetLinkWait
  | PLLS_ConfDataWait
  | PLLS_RequestLinkStatusWait.

(** The subclasses of [SecStateBase]. *)
Inductive SecState :=
  | SLLS_NotReset
  | SLLS_Reset
  | SLLS_TransmitWaitReset
  | SLLS_TransmitWaitNotReset.

#[export] Instance PriState_eq_dec : EqDecision PriState.
Proof. solve_decision. Defined.

#[export] Instance SecState_eq_dec : EqDecision SecState.
Proof. solve_decision. Defined.

(** What the layer does to others: [linktx->BeginTransmit], with the buffer, the view
    and what the view shows at the time; calls of the upper layer and of the listener, and the upper layer's [OnTxReady], posted to the
    executor. *)
Inductive Output :=
  | BeginTransmit (primary : bool) (view : View) (frame : bytes)
  | UpperOnReceive (message : Message)
  | UpperOnLowerLayerUp
  | UpperOnLowerLayerDown
  | PostUpperOnTxReady
  | OnStateChange (is_reset : bool)
  | OnKeepAliveInitiated
  | OnKeepAliveFailure
  | OnKeepAliveSuccess
  | OnUnknownDestinationAddress (address : Z)
  | OnUnknownSourceAddress (address : Z).

(** [LinkContext], with the object that [pSegments] points to when it is not null
    ([pSegments] is whether it is), and the calls made so far.  A timer is whether
    it is running. *)
Record LinkContext (S : Type) := mkLinkContext {
  priTxBuffer : bytes;
  secTxBuffer : bytes;
  pendingPriTx : option View;
  pendingSecTx : option View;
  pSegments : bool;
  txMode : LinkTransmitMode;
  numRetryRemaining : Z;
  rspTimeoutTimer : bool;
  keepAliveTimer : bool;
  nextReadFCB : bool;
  nextWriteFCB : bool;
  isOnline : bool;
  isRemoteReset : bool;
  keepAliveTimeout : bool;
  lastMessageTimestamp : Z;
  statistics : LinkStats;
  pPriState : PriState;
  pSecState : SecState;
  segments : S;
  trace : list Output
}.

Arguments mkLinkContext {S}.

Arguments priTxBuffer {S}.

Arguments secTxBuffer {S}.

Arguments pendingPriTx {S}.

Arguments pendingSecTx {S}.

Arguments pSegments {S}.

Arguments txMode {S}.

Arguments numRetryRemaining {S}.

Arguments rspTimeoutTimer {S}.

Arguments keepAliveTimer {S}.

Arguments nextReadFCB {S}.

Arguments nextWriteFCB {S}.

Arguments isOnline {S}.

Arguments isRemoteReset {S}.

Arguments keepAliveTimeout {S}.

Arguments lastMessageTimestamp {S}.

Arguments statistics {S}.

Arguments pPriState {S}.

Arguments pSecState {S}.

Arguments segments {S}.

Arguments trace {S}.

Section Setters.
Context {S : Type}.

Definition set_priTxBuffer (v : bytes) (c : LinkContext S) : LinkContext S :=
  mkLinkContext
    v (secTxBuffer c) (pendingPriTx c) (pendingSecTx c) (pSegments c) (txMode c)
    (numRetryRemaining c) (rspTimeoutTimer c) (keepAliveTimer c) (nextReadFCB c)
    (nextWriteFCB c) (isOnline c) (isRemoteReset c) (keepAliveTimeout c)
    (lastMessageTimestamp c) (statistics c) (pPriState c) (pSecState c) (segments c) (trace
    c).

Definition set_secTxBuffer (v : bytes) (c : LinkContext S) : LinkContext S :=
  mkLinkContext
    (priTxBuffer c) v (pendingPriTx c) (pendingSecTx c) (pSegments c) (txMode c)
    (numRetryRemaining c) (rspTimeoutTimer c) (keepAliveTimer c) (nextReadFCB c)
    (nextWriteFCB c) (isOnline c) (isRemoteReset c) (keepAliveTimeout c)
    (lastMessageTimestamp c) (statistics c) (pPriState c) (pSecState c) (segments c) (trace
    c).

Definition set_pendingPriTx (v : option View) (c : LinkContext S) : LinkContext S :=
  mkLinkContext
    (priTxBuffer c) (secTxBuffer c) v (pendingSecTx c) (pSegments c) (txMode c)
    (numRetryRemaining c) (rspTimeoutTimer c) (keepAliveTimer c) (nextReadFCB c)
    (nextWriteFCB c) (isOnline c) (isRemoteReset c) (keepAliveTimeout c)
    (lastMessageTimestamp c) (statistics c) (pPriState c) (pSecState c) (segments c) (trace
    c).

Definition set_pendingSecTx (v : option View) (c : LinkContext S) : LinkContext S :=
  mkLinkContext
    (priTxBuffer c) (secTxBuffer c) (pendingPriTx c) v (pSegments c) (txMode c)
    (numRetryRemaining c) (rspTimeoutTimer c) (keepAliveTimer c) (nextReadFCB c)
    (nextWriteFCB c) (isOnline c) (isRemoteReset c) (keepAliveTimeout c)
    (lastMessageTimestamp c) (statistics c) (pPriState c) (pSecState c) (segments c) (trace
    c).

Definition set_pSegments (v : bool) (c : LinkContext S) : LinkContext S :=
  mkLinkContext
    (priTxBuffer c) (secTxBuffer c) (pendingPriTx c) (pendingSecTx c) v (txMode c)
    (numRetryRemaining c) (rspTimeoutTimer c) (keepAliveTimer c) (nextReadFCB c)
    (nextWriteFCB c) (isOnline c) (isRemoteReset c) (keepAliveTimeout c)
    (lastMessageTimestamp c) (statistics c) (pPriState c) (pSecState c) (segments c) (trace
    c).

Definition set_txMode (v : LinkTransmitMode) (c : LinkContext S) : LinkContext S :=
  mkLinkContext
    (priTxBuffer c) (secTxBuffer c) (pendingPriTx c) (pendingSecTx c) (pSegments c) v
    (numRetryRemaining c) (rspTimeoutTimer c) (keepAliveTimer c) (nextReadFCB c)
    (nextWriteFCB c) (isOnline c) (isRemoteReset c) (keepAliveTimeout c)
    (lastMessageTimestamp c) (statistics c) (pPriState c) (pSecState c) (segments c) (trace
    c).

Definition set_numRetryRemaining (v : Z) (c : LinkContext S) : LinkContext S :=
  mkLinkContext
    (priTxBuffer c) (secTxBuffer c) (pendingPriTx c) (pendingSecTx c) (pSegments c) (txMode
    c) v (rspTimeoutTimer c) (keepAliveTimer c) (nextReadFCB c) (nextWriteFCB c) (isOnline
    c) (isRemoteReset c) (keepAliveTimeout c) (lastMessageTimestamp c) (statistics c)
    (pPriState c) (pSecState c) (segments c) (trace c).

Definition set_rspTimeoutTimer (v : bool) (c : LinkContext S) : LinkContext S :=
  mkLinkContext
    (priTxBuffer c) (secTxBuffer c) (pendingPriTx c) (pendingSecTx c) (pSegments c) (txMode
    c) (numRetryRemaining c) v (keepAliveTimer c) (nextReadFCB c) (nextWriteFCB c) (isOnline
    c) (isRemoteReset c) (keepAliveTimeout c) (lastMessageTimestamp c) (statistics c)
    (pPriState c) (pSecState c) (segments c) (trace c).

Definition set_keepAliveTimer (v : bool) (c : LinkContext S) : LinkContext S :=
  mkLinkContext
    (priTxBuffer c) (secTxBuffer c) (pendingPriTx c) (pendingSecTx c) (pSegments c) (txMode
    c) (numRetryRemaining c) (rspTimeoutTimer c) v (nextReadFCB c) (nextWriteFCB c)
    (isOnline c) (isRemoteReset c) (keepAliveTimeout c) (lastMessageTimestamp c) (statistics
    c) (pPriState c) (pSecState c) (segments c) (trace c).

Definition set_nextReadFCB (v : bool) (c : LinkContext S) : LinkContext S :=
  mkLinkContext
    (priTxBuffer c) (secTxBuffer c) (pendingPriTx c) (pendingSecTx c) (pSegments c) (txMode
    c) (numRetryRemaining c) (rspTimeoutTimer c) (keepAliveTimer c) v (nextWriteFCB c)
    (isOnline c) (isRemoteReset c) (keepAliveTimeout c) (lastMessageTimestamp c) (statistics
    c) (pPriState c) (pSecState c) (segments c) (trace c).

Definition set_nextWriteFCB (v : bool) (c : LinkContext S) : LinkContext S :=
  mkLinkContext
    (priTxBuffer c) (secTxBuffer c) (pendingPriTx c) (pendingSecTx c) (pSegments c) (txMode
    c) (numRetryRemaining c) (rspTimeoutTimer c) (keepAliveTimer c) (nextReadFCB c) v
    (isOnline c) (isRemoteReset c) (keepAliveTimeout c) (lastMessageTimestamp c) (statistics
    c) (pPriState c) (pSecState c) (segments c) (trace c).

Definition set_isOnline (v : bool) (c : LinkContext S) : LinkContext S :=
  mkLinkContext
    (priTxBuffer c) (secTxBuffer c) (pendingPriTx c) (pendingSecTx c) (pSegments c) (txMode
    c) (numRetryRemaining c) (rspTimeoutTimer c) (keepAliveTimer c) (nextReadFCB c)
    (nextWriteFCB c) v (isRemoteReset c) (keepAliveTimeout c) (lastMessageTimestamp c)
    (statistics c) (pPriState c) (pSecState c) (segments c) (trace c).

Definition set_isRemoteReset (v : bool) (c : LinkContext S) : LinkContext S :=
  mkLinkContext
    (priTxBuffer c) (secTxBuffer c) (pendingPriTx c) (pendingSecTx c) (pSegments c) (txMode
    c) (numRetryRemaining c) (rspTimeoutTimer c) (keepAliveTimer c) (nextReadFCB c)
    (nextWriteFCB c) (isOnline c) v (keepAliveTimeout c) (lastMessageTimestamp c)
    (statistics c) (pPriState c) (pSecState c) (segments c) (trace c).

Definition set_keepAliveTimeout (v : bool) (c : LinkContext S) : LinkContext S :=
  mkLinkContext
    (priTxBuffer c) (secTxBuffer c) (pendingPriTx c) (pendingSecTx c) (pSegments c) (txMode
    c) (numRetryRemaining c) (rspTimeoutTimer c) (keepAliveTimer c) (nextReadFCB c)
    (nextWriteFCB c) (isOnline c) (isRemoteReset c) v (lastMessageTimestamp c) (statistics
    c) (pPriState c) (pSecState c) (segments c) (trace c).

Definition set_lastMessageTimestamp (v : Z) (c : LinkContext S) : LinkContext S :=
  mkLinkContext
    (priTxBuffer c) (secTxBuffer c) (pendingPriTx c) (pendingSecTx c) (pSegments c) (txMode
    c) (numRetryRemaining c) (rspTimeoutTimer c) (keepAliveTimer c) (nextReadFCB c)
    (nextWriteFCB c) (isOnline c) (isRemoteReset c) (keepAliveTimeout c) v (statistics c)
    (pPriState c) (pSecState c) (segments c) (trace c).

Definition set_statistics (v : LinkStats) (c : LinkContext S) : LinkContext S :=
  mkLinkContext
    (priTxBuffer c) (secTxBuffer c) (pendingPriTx c) (pendingSecTx c) (pSegments c) (txMode
    c) (numRetryRemaining c) (rspTimeoutTimer c) (keepAliveTimer c) (nextReadFCB c)
    (nextWriteFCB c) (isOnline c) (isRemoteReset c) (keepAliveTimeout c)
    (lastMessageTimestamp c) v (pPriState c) (pSecState c) (segments c) (trace c).

Definition set_pPriState (v : PriState) (c : LinkContext S) : LinkContext S :=
  mkLinkContext
    (priTxBuffer c) (secTxBuffer c) (pendingPriTx c) (pendingSecTx c) (pSegments c) (txMode
    c) (numRetryRemaining c) (rspTimeoutTimer c) (keepAliveTimer c) (nextReadFCB c)
    (nextWriteFCB c) (isOnline c) (isRemoteReset c) (keepAliveTimeout c)
    (lastMessageTimestamp c) (statistics c) v (pSecState c) (segments c) (trace c).

Definition set_pSecState (v : SecState) (c : LinkContext S) : LinkContext S :=
  mkLinkContext
    (priTxBuffer c) (secTxBuffer c) (pendingPriTx c) (pendingSecTx c) (pSegments c) (txMode
    c) (numRetryRemaining c) (rspTimeoutTimer c) (keepAliveTimer c) (nextReadFCB c)
    (nextWriteFCB c) (isOnline c) (isRemoteReset c) (keepAliveTimeout c)
    (lastMessageTimestamp c) (statistics c) (pPriState c) v (segments c) (trace c).

Definition set_segments (v : S) (c : LinkContext S) : LinkContext S :=
  mkLinkContext
    (priTxBuffer c) (secTxBuffer c) (pendingPriTx c) (pendingSecTx c) (pSegments c) (txMode
    c) (numRetryRemaining c) (rspTimeoutTimer c) (keepAliveTimer c) (nextReadFCB c)
    (nextWriteFCB c) (isOnline c) (isRemoteReset c) (keepAliveTimeout c)
    (lastMessageTimestamp c) (statistics c) (pPriState c) (pSecState c) v (trace c).

Definition set_trace (v : list Output) (c : LinkContext S) : LinkContext S :=
  mkLinkContext
    (priTxBuffer c) (secTxBuffer c) (pendingPriTx c) (pendingSecTx c) (pSegments c) (txMode
    c) (numRetryRemaining c) (rspTimeoutTimer c) (keepAliveTimer c) (nextReadFCB c)
    (nextWriteFCB c) (isOnline c) (isRemoteReset c) (keepAliveTimeout c)
    (lastMessageTimestamp c) (statistics c) (pPriState c) (pSecState c) (segments c) v.

End Setters.

(** ** LinkContext *)

Module LinkContext.
Section Context.
Context {S : Type} `{ITransportSegment S} (config : LinkLayerConfig).
Abbreviation M := (SM (LinkContext S)).

Definition call (o : Output) : M unit := modify (fun c => set_trace (trace c ++ [o]) c).

(** The constructor; the contents of the buffers are arbitrary. *)
Definition init (pri sec : bytes) (now : Z) (s : S) : LinkContext S :=
  mkLinkContext pri sec None None false Tx_Idle 0 false false false false false false false now
    (mkLinkStats 0 0 0 0) PLLS_Idle SLLS_NotReset s [].

Definition ResetReadFCB : M unit := modify (set_nextReadFCB true).

Definition ResetWriteFCB : M unit := modify (set_nextWriteFCB true).

Definition ToggleReadFCB : M unit := modify (fun c => set_nextReadFCB (negb (nextReadFCB c)) c).

Definition ToggleWriteFCB : M unit := modify (fun c => set_nextWriteFCB (negb (nextWriteFCB c)) c).

Definition count_unexpected : M unit := modify (fun c =>
  let s := statistics c in
  set_statistics (mkLinkStats (u32 (numUnexpectedFrame s + 1)) (numBadMasterBit s)
    (numUnknownDestination s) (numUnknownSource s)) c).

Definition count_bad_master : M unit := modify (fun c =>
  let s := statistics c in
  set_statistics (mkLinkStats (numUnexpectedFrame s) (u32 (numBadMasterBit s + 1))
    (numUnknownDestination s) (numUnknownSource s)) c).

Definition count_unknown_dest : M unit := modify (fun c =>
  let s := statistics c in
  set_statistics (mkLinkStats (numUnexpectedFrame s) (numBadMasterBit s)
    (u32 (numUnknownDestination s + 1)) (numUnknownSource s)) c).

Definition count_unknown_src : M unit := modify (fun c =>
  let s := statistics c in
  set_statistics (mkLinkStats (numUnexpectedFrame s) (numBadMasterBit s)
    (numUnknownDestination s) (u32 (numUnknownSource s + 1))) c).

(** [TimerRef::Start] does nothing when the timer runs; [Cancel] stops it. *)
Definition StartResponseTimer : M unit := modify (set_rspTimeoutTimer true).

Definition StartKeepAliveTimer : M unit := modify (set_keepAliveTimer true).

Definition CancelTimer : M unit := modify (set_rspTimeoutTimer false).

(** [pSegments->...]: undefined when the pointer is null. *)
Definition with_segments {A} (f : S -> option (S * A)) : M A := fun c =>
  if pSegments c then '(s, a) ← f (segments c); Some (set_segments s c, a) else None.

Definition Segments_GetSegment : M RSlice := with_segments GetSegment.

Definition Segments_Advance : M bool := with_segments (fun s => Some (Advance s)).

Definition Segments_GetAddresses : M Addresses := with_segments (fun s => Some (s, GetAddresses s)).

(** Formats into [priTxBuffer] through the slice that views all of it. *)
Definition format_pri (f : WSlice -> option (WSlice * View)) : M View := fun c =>
  '(w, v) ← f (mkWSlice (priTxBuffer c) 0 LPDU_MAX_FRAME_SIZE);
  Some (set_priTxBuffer (ws_array w) c, v).

Definition format_sec (f : WSlice -> option (WSlice * View)) : M View := fun c =>
  '(w, v) ← f (mkWSlice (secTxBuffer c) 0 LPDU_HEADER_SIZE);
  Some (set_secTxBuffer (ws_array w) c, v).

(** [tpdu.Size()] is narrowed to [uint8_t] by the call. *)
Definition FormatPrimaryBufferWithConfirmed (addr : Addresses) (tpdu : RSlice) (FCB : bool) : M View :=
  format_pri (fun w => FormatConfirmedUserData w (IsMaster config) FCB (destination addr) (source addr)
    tpdu (u8 (Z.of_nat (RSlice.Size tpdu)))).

Definition FormatPrimaryBufferWithUnconfirmed (addr : Addresses) (tpdu : RSlice) : M View :=
  format_pri (fun w => FormatUnconfirmedUserData w (IsMaster config) (destination addr) (source addr)
    tpdu (u8 (Z.of_nat (RSlice.Size tpdu)))).

Definition buffer_of (primary : bool) (c : LinkContext S) : bytes :=
  if primary then priTxBuffer c else secTxBuffer c.

(** [linktx->BeginTransmit(buffer, ...)] *)
Definition LinkTx_BeginTransmit (v : View) (primary : bool) : M unit :=
  b ← get (buffer_of primary);
  frame ← lift (view_bytes b v);
  call (BeginTransmit primary v frame).

Definition QueueTransmit (buffer : View) (primary : bool) : M unit :=
  mode ← get txMode;
  match mode with
  | Tx_Idle =>
      _ ← modify (set_txMode (if primary then Tx_Primary else Tx_Secondary));
      LinkTx_BeginTransmit buffer primary
  | _ =>
      if primary then modify (set_pendingPriTx (Some buffer)) else modify (set_pendingSecTx (Some buffer))
  end.

Definition QueueAck (destination : Z) : M unit :=
  v ← format_sec (fun w => FormatAck w (IsMaster config) false destination (LocalAddr config));
  QueueTransmit v false.

Definition QueueLinkStatus (destination : Z) : M unit :=
  v ← format_sec (fun w => FormatLinkStatus w (IsMaster config) false destination (LocalAddr config));
  QueueTransmit v false.

Definition QueueResetLinks (destination : Z) : M unit :=
  v ← format_pri (fun w => FormatResetLinkStates w (IsMaster config) destination (LocalAddr config));
  QueueTransmit v true.

Definition QueueRequestLinkStatus (destination : Z) : M unit :=
  v ← format_pri (fun w => FormatRequestLinkStatus w (IsMaster config) destination (LocalAddr config));
  QueueTransmit v true.

Definition ResetRetry : M unit := modify (set_numRetryRemaining (NumRetry config)).

Definition Retry : M bool :=
  n ← get numRetryRemaining;
  if (0 <? n)%Z then _ ← modify (set_numRetryRemaining (n - 1)); mret true else mret false.

Definition PushDataUp (message : Message) : M unit := call (UpperOnReceive message).

Definition CompleteSendOperation : M unit :=
  _ ← modify (set_pSegments false);
  call PostUpperOnTxReady.

Definition FailKeepAlive (timeout : bool) : M unit :=
  if timeout then call OnKeepAliveFailure else mret tt.

Definition CompleteKeepAlive : M unit := call OnKeepAliveSuccess.

End Context.
End LinkContext.

(** ** The primary station states (PriLinkLayerStates)

    A virtual method is a match on the state that receives the call; the states
    that do not override it share the default of [PriStateBase].  The result is
    the next state. *)

Module Pri.
Import LinkContext.
Section Context.
Context {S : Type} `{ITransportSegment S} (config : LinkLayerConfig).
Abbreviation M := (SM (LinkContext S)).

Definition unexpected (self : PriState) : M PriState := _ ← count_unexpected; mret self.

(** [FormatPrimaryBufferWithConfirmed(pSegments->GetAddresses(),
    pSegments->GetSegment(), nextWriteFCB)] and [QueueTransmit]. *)
Definition send_confirmed_segment : M PriState :=
  addr ← Segments_GetAddresses;
  tpdu ← Segments_GetSegment;
  fcb ← get nextWriteFCB;
  buffer ← FormatPrimaryBufferWithConfirmed config addr tpdu fcb;
  _ ← QueueTransmit buffer true;
  mret PLLS_ConfUserDataTransmitWait.

Definition send_unconfirmed_segment : M PriState :=
  addr ← Segments_GetAddresses;
  tpdu ← Segments_GetSegment;
  buffer ← FormatPrimaryBufferWithUnconfirmed config addr tpdu;
  _ ← QueueTransmit buffer true;
  mret PLLS_SendUnconfirmedTransmitWait.

(** [Failure] of [PLLS_ResetLinkWait] and of [PLLS_ConfDataWait]. *)
Definition Failure : M PriState :=
  _ ← CancelTimer;
  _ ← CompleteSendOperation;
  mret PLLS_Idle.

Definition PLLS_ResetLinkWait_OnAck : M PriState :=
  _ ← modify (set_isRemoteReset true);
  _ ← ResetWriteFCB;
  _ ← CancelTimer;
  next ← send_confirmed_segment;
  _ ← call (OnStateChange true);
  mret next.

Definition PLLS_ConfDataWait_OnAck : M PriState :=
  _ ← ToggleWriteFCB;
  _ ← CancelTimer;
  more ← Segments_Advance;
  if (more : bool) then send_confirmed_segment
  else _ ← CompleteSendOperation; mret PLLS_Idle.

Definition OnAck (self : PriState) (rxBuffFull : bool) : M PriState :=
  match self with
  | PLLS_ResetLinkWait => PLLS_ResetLinkWait_OnAck
  | PLLS_ConfDataWait => PLLS_ConfDataWait_OnAck
  | _ => unexpected self
  end.

Definition PLLS_ConfDataWait_OnNack (rxBuffFull : bool) : M PriState :=
  _ ← call (OnStateChange false);
  if rxBuffFull then Failure
  else
    _ ← ResetRetry config;
    _ ← CancelTimer;
    addr ← Segments_GetAddresses;
    _ ← QueueResetLinks config (destination addr);
    mret PLLS_LinkResetTransmitWait.

Definition PLLS_RequestLinkStatusWait_OnNack : M PriState :=
  _ ← CancelTimer;
  _ ← FailKeepAlive false;
  mret PLLS_Idle.

Definition OnNack (self : PriState) (rxBuffFull : bool) : M PriState :=
  match self with
  | PLLS_ResetLinkWait => Failure
  | PLLS_ConfDataWait => PLLS_ConfDataWait_OnNack rxBuffFull
  | PLLS_RequestLinkStatusWait => PLLS_RequestLinkStatusWait_OnNack
  | _ => unexpected self
  end.

Definition PLLS_RequestLinkStatusWait_OnLinkStatus : M PriState :=
  _ ← CancelTimer;
  _ ← CompleteKeepAlive;
  mret PLLS_Idle.

Definition OnLinkStatus (self : PriState) (rxBuffFull : bool) : M PriState :=
  match self with
  | PLLS_ResetLinkWait | PLLS_ConfDataWait => Failure
  | PLLS_RequestLinkStatusWait => PLLS_RequestLinkStatusWait_OnLinkStatus
  | _ => unexpected self
  end.

Definition PLLS_RequestLinkStatusWait_OnNotSupported : M PriState :=
  _ ← CancelTimer;
  _ ← FailKeepAlive false;
  mret PLLS_Idle.

Definition OnNotSupported (self : PriState) (rxBuffFull : bool) : M PriState :=
  match self with
  | PLLS_ResetLinkWait | PLLS_ConfDataWait => Failure
  | PLLS_RequestLinkStatusWait => PLLS_RequestLinkStatusWait_OnNotSupported
  | _ => unexpected self
  end.

Definition PLLS_SendUnconfirmedTransmitWait_OnTxReady : M PriState :=
  more ← Segments_Advance;
  if (more : bool) then send_unconfirmed_segment
  else _ ← CompleteSendOperation; mret PLLS_Idle.

(** [OnTxReady] of the three states that transmit a frame the peer answers. *)
Definition await_response (next : PriState) : M PriState :=
  _ ← StartResponseTimer;
  mret next.

Definition OnTxReady (self : PriState) : M PriState :=
  match self with
  | PLLS_SendUnconfirmedTransmitWait => PLLS_SendUnconfirmedTransmitWait_OnTxReady
  | PLLS_LinkResetTransmitWait => await_response PLLS_ResetLinkWait
  | PLLS_ConfUserDataTransmitWait => await_response PLLS_ConfDataWait
  | PLLS_RequestLinkStatusTransmitWait => await_response PLLS_RequestLinkStatusWait
  | _ => mret self
  end.

Definition PLLS_ResetLinkWait_OnTimeout : M PriState :=
  again ← Retry;
  if (again : bool) then _ ← QueueResetLinks config (RemoteAddr config); mret PLLS_LinkResetTransmitWait
  else _ ← CompleteSendOperation; mret PLLS_Idle.

Definition PLLS_ConfDataWait_OnTimeout : M PriState :=
  again ← Retry;
  if (again : bool) then send_confirmed_segment
  else
    _ ← call (OnStateChange false);
    _ ← CompleteSendOperation;
    mret PLLS_Idle.

Definition PLLS_RequestLinkStatusWait_OnTimeout : M PriState :=
  _ ← FailKeepAlive true;
  mret PLLS_Idle.

Definition OnTimeout (self : PriState) : M PriState :=
  match self with
  | PLLS_ResetLinkWait => PLLS_ResetLinkWait_OnTimeout
  | PLLS_ConfDataWait => PLLS_ConfDataWait_OnTimeout
  | PLLS_RequestLinkStatusWait => PLLS_RequestLinkStatusWait_OnTimeout
  | _ => mret self
  end.

Definition TrySendUnconfirmed (self : PriState) : M PriState :=
  match self with
  | PLLS_Idle => send_unconfirmed_segment
  | _ => mret self
  end.

Definition PLLS_Idle_TrySendConfirmed : M PriState :=
  remote ← get isRemoteReset;
  if (remote : bool) then _ ← ResetRetry config; send_confirmed_segment
  else
    _ ← ResetRetry config;
    addr ← Segments_GetAddresses;
    _ ← QueueResetLinks config (destination addr);
    mret PLLS_LinkResetTransmitWait.

Definition TrySendConfirmed (self : PriState) : M PriState :=
  match self with
  | PLLS_Idle => PLLS_Idle_TrySendConfirmed
  | _ => mret self
  end.

Definition PLLS_Idle_TrySendRequestLinkStatus : M PriState :=
  _ ← modify (set_keepAliveTimeout false);
  _ ← QueueRequestLinkStatus config (RemoteAddr config);
  _ ← call OnKeepAliveInitiated;
  mret PLLS_RequestLinkStatusTransmitWait.

Definition TrySendRequestLinkStatus (self : PriState) : M PriState :=
  match self with
  | PLLS_Idle => PLLS_Idle_TrySendRequestLinkStatus
  | _ => mret self
  end.

End Context.
End Pri.

(** ** The secondary station states (SecLinkLayerStates) *)

Module Sec.
Import LinkContext.
Section Context.
Context {S : Type} `{ITransportSegment S} (config : LinkLayerConfig).
Abbreviation M := (SM (LinkContext S)).

(** [OnResetLinkStates] of [SLLS_NotReset] and of [SLLS_Reset]. *)
Definition accept_reset (source : Z) : M SecState :=
  _ ← QueueAck config source;
  _ ← ResetReadFCB;
  mret SLLS_TransmitWaitReset.

Definition OnResetLinkStates (self : SecState) (source : Z) : M SecState :=
  match self with
  | SLLS_NotReset | SLLS_Reset => accept_reset source
  | _ => mret self
  end.

Definition report_status (source : Z) (next : SecState) : M SecState :=
  _ ← QueueLinkStatus config source;
  mret next.

Definition OnRequestLinkStatus (self : SecState) (source : Z) : M SecState :=
  match self with
  | SLLS_NotReset => report_status source SLLS_TransmitWaitNotReset
  | SLLS_Reset => report_status source SLLS_TransmitWaitReset
  | _ => mret self
  end.

(** [OnTestLinkStatus] and [OnConfirmedUserData] of [SLLS_NotReset]. *)
Definition not_reset (self : SecState) : M SecState :=
  _ ← count_unexpected;
  mret self.

Definition SLLS_Reset_OnTestLinkStatus (self : SecState) (source : Z) (fcb : bool) : M SecState :=
  expected ← get nextReadFCB;
  if eqb expected fcb then
    _ ← QueueAck config source;
    _ ← ToggleReadFCB;
    mret SLLS_TransmitWaitReset
  else mret self.

Definition OnTestLinkStatus (self : SecState) (source : Z) (fcb : bool) : M SecState :=
  match self with
  | SLLS_NotReset => not_reset self
  | SLLS_Reset => SLLS_Reset_OnTestLinkStatus self source fcb
  | _ => mret self
  end.

Definition SLLS_Reset_OnConfirmedUserData (source : Z) (fcb : bool) (message : Message) : M SecState :=
  _ ← QueueAck config source;
  expected ← get nextReadFCB;
  _ ← (if eqb expected fcb then _ ← ToggleReadFCB; PushDataUp message else mret tt);
  mret SLLS_TransmitWaitReset.

Definition OnConfirmedUserData (self : SecState) (source : Z) (fcb : bool) (message : Message) : M SecState :=
  match self with
  | SLLS_NotReset => not_reset self
  | SLLS_Reset => SLLS_Reset_OnConfirmedUserData source fcb message
  | _ => mret self
  end.

Definition OnTxReady (self : SecState) : M SecState :=
  match self with
  | SLLS_TransmitWaitReset => mret SLLS_Reset
  | SLLS_TransmitWaitNotReset => mret SLLS_NotReset
  | _ => mret self
  end.

End Context.
End Sec.

(** ** Events of the context *)

Module Events.
Import LinkContext.
Section Context.
Context {S : Type} `{ITransportSegment S} (config : LinkLayerConfig).
Abbreviation M := (SM (LinkContext S)).

(** [pPriState = &pPriState->method(...)] *)
Definition pri_step (method : PriState -> M PriState) : M unit :=
  s ← get pPriState; s ← method s; modify (set_pPriState s).

Definition sec_step (method : SecState -> M SecState) : M unit :=
  s ← get pSecState; s ← method s; modify (set_pSecState s).

Definition OnLowerLayerUp (now : Z) : M bool :=
  online ← get isOnline;
  if (online : bool) then mret false
  else
    _ ← modify (set_isOnline true);
    _ ← modify (set_lastMessageTimestamp now);
    _ ← StartKeepAliveTimer;
    _ ← call (OnStateChange false);
    _ ← call UpperOnLowerLayerUp;
    mret true.

Definition OnLowerLayerDown : M bool :=
  online ← get isOnline;
  if negb online then mret false
  else
    _ ← modify (set_isOnline false);
    _ ← modify (set_keepAliveTimeout false);
    _ ← modify (set_isRemoteReset false);
    _ ← modify (set_pSegments false);
    _ ← modify (set_txMode Tx_Idle);
    _ ← modify (set_pendingPriTx None);
    _ ← modify (set_pendingSecTx None);
    _ ← CancelTimer;
    _ ← modify (set_keepAliveTimer false);
    _ ← modify (set_pPriState PLLS_Idle);
    _ ← modify (set_pSecState SLLS_NotReset);
    _ ← call (OnStateChange false);
    _ ← call UpperOnLowerLayerDown;
    mret true.

(** [pSegments] is set to the address of an object that is now [s]. *)
Definition SetTxSegment (s : S) : M bool :=
  online ← get isOnline;
  if negb online then mret false
  else
    busy ← get pSegments;
    if (busy : bool) then mret false
    else _ ← modify (set_segments s); _ ← modify (set_pSegments true); mret true.

(** [TryPendingTx]; its result is not used. *)
Definition TryPendingTx (primary : bool) : M unit :=
  mode ← get txMode;
  pending ← get (if primary then pendingPriTx else pendingSecTx);
  match mode, pending with
  | Tx_Idle, Some v =>
      _ ← LinkTx_BeginTransmit v primary;
      _ ← modify (if primary then set_pendingPriTx None else set_pendingSecTx None);
      modify (set_txMode (if primary then Tx_Primary else Tx_Secondary))
  | _, _ => mret tt
  end.

Definition OnTxReady : M bool :=
  mode ← get txMode;
  match mode with
  | Tx_Idle => mret false
  | _ =>
      _ ← modify (set_txMode Tx_Idle);
      _ ← TryPendingTx false;
      _ ← TryPendingTx true;
      _ ← (if decide (mode = Tx_Primary) then pri_step (Pri.OnTxReady config) else sec_step Sec.OnTxReady);
      mret true
  end.

Definition TryStartTransmission : M unit :=
  keepalive ← get keepAliveTimeout;
  _ ← (if (keepalive : bool) then pri_step (Pri.TrySendRequestLinkStatus config) else mret tt);
  segments ← get pSegments;
  if (segments : bool) then
    if UseConfirms config then pri_step (Pri.TrySendConfirmed config)
    else pri_step (Pri.TrySendUnconfirmed config)
  else mret tt.

(** The timer's callback first marks the timer as stopped (see [TimerRef]). *)
Definition OnKeepAliveTimeout (now : Z) : M unit :=
  _ ← modify (set_keepAliveTimer false);
  last ← get lastMessageTimestamp;
  _ ← (if (KeepAliveTimeout config <=? now - last)%Z
       then _ ← modify (set_lastMessageTimestamp now); modify (set_keepAliveTimeout true)
       else mret tt);
  _ ← StartKeepAliveTimer;
  TryStartTransmission.

Definition OnResponseTimeout : M unit :=
  _ ← modify (set_rspTimeoutTimer false);
  _ ← pri_step (Pri.OnTimeout config);
  TryStartTransmission.

Definition OnFrame (now : Z) (header : LinkHeaderFields) (userdata : RSlice) : M bool :=
  online ← get isOnline;
  if negb online then mret false
  else if eqb (isFromMaster header) (IsMaster config) then _ ← count_bad_master; mret false
  else if negb (dest header =? LocalAddr config)%Z then
    _ ← count_unknown_dest; _ ← call (OnUnknownDestinationAddress (dest header)); mret false
  else if negb (src header =? RemoteAddr config)%Z && negb (respondToAnySource config) then
    _ ← count_unknown_src; _ ← call (OnUnknownSourceAddress (src header)); mret false
  else
    _ ← modify (set_lastMessageTimestamp now);
    _ ← match func header with
        | SEC_ACK => pri_step (fun s => Pri.OnAck config s (fcvdfc header))
        | SEC_NACK => pri_step (fun s => Pri.OnNack config s (fcvdfc header))
        | SEC_LINK_STATUS => pri_step (fun s => Pri.OnLinkStatus s (fcvdfc header))
        | SEC_NOT_SUPPORTED => pri_step (fun s => Pri.OnNotSupported s (fcvdfc header))
        | PRI_TEST_LINK_STATES => sec_step (fun s => Sec.OnTestLinkStatus config s (src header) (fcb header))
        | PRI_RESET_LINK_STATES => sec_step (fun s => Sec.OnResetLinkStates config s (src header))
        | PRI_REQUEST_LINK_STATUS => sec_step (fun s => Sec.OnRequestLinkStatus config s (src header))
        | PRI_CONFIRMED_USER_DATA =>
            sec_step (fun s => Sec.OnConfirmedUserData config s (src header) (fcb header)
                                 (mkMessage (ToAddresses header) userdata))
        | PRI_UNCONFIRMED_USER_DATA => PushDataUp (mkMessage (ToAddresses header) userdata)
        | LF_INVALID => mret tt
        end;
    mret true.

End Context.
End Events.

(** ** The class LinkLayer *)

Module Layer.
Section Context.
Context {S : Type} `{ITransportSegment S} (config : LinkLayerConfig).
Abbreviation M := (SM (LinkContext S)).

Definition Send (s : S) : M bool :=
  online ← get isOnline;
  if negb online then mret false
  else
    ok ← Events.SetTxSegment s;
    _ ← (if (ok : bool) then Events.TryStartTransmission config else mret tt);
    mret true.

Definition OnLowerLayerUp (now : Z) : M bool := Events.OnLowerLayerUp now.

Definition OnLowerLayerDown : M bool := Events.OnLowerLayerDown.

Definition OnTxReady : M bool :=
  ret ← Events.OnTxReady config;
  _ ← (if (ret : bool) then Events.TryStartTransmission config else mret tt);
  mret true.

Definition OnFrame (now : Z) (header : LinkHeaderFields) (userdata : RSlice) : M bool :=
  ret ← Events.OnFrame config now header userdata;
  _ ← (if (ret : bool) then Events.TryStartTransmission config else mret tt);
  mret ret.

End Context.

(** What can happen to a link layer.  Calls that the upper layer makes from
    inside a callback come after the event that made the callback: the layer
    makes its callbacks when nothing it does later in the event can be told
    apart from having been done before the call. *)
Inductive Event (S : Type) :=
  | EvSend (s : S)
  | EvLowerLayerUp (now : Z)
  | EvLowerLayerDown
  | EvTxReady
  | EvFrame (now : Z) (header : LinkHeaderFields) (userdata : RSlice)
  | EvResponseTimeout
  | EvKeepAliveTimeout (now : Z).

Arguments EvSend {S}.

Arguments EvLowerLayerUp {S}.

Arguments EvLowerLayerDown {S}.

Arguments EvTxReady {S}.

Arguments EvFrame {S}.

Arguments EvResponseTimeout {S}.

Arguments EvKeepAliveTimeout {S}.

Definition handle {S} `{ITransportSegment S} (config : LinkLayerConfig) (e : Event S)
    : SM (LinkContext S) unit :=
  match e with
  | EvSend s => _ ← Send config s; mret tt
  | EvLowerLayerUp now => _ ← OnLowerLayerUp now; mret tt
  | EvLowerLayerDown => _ ← OnLowerLayerDown; mret tt
  | EvTxReady => _ ← OnTxReady config; mret tt
  | EvFrame now h d => _ ← OnFrame config now h d; mret tt
  | EvResponseTimeout => Events.OnResponseTimeout config
  | EvKeepAliveTimeout now => Events.OnKeepAliveTimeout config now
  end.

(** A timer event needs a running timer, and what is sent can be segmented;
    everything else can happen at any time. *)
Definition allowed {S} `{TransportSegmentOk S} (c : LinkContext S) (e : Event S) : Prop :=
  match e with
  | EvSend s => segment_ok s
  | EvResponseTimeout => rspTimeoutTimer c = true
  | EvKeepAliveTimeout _ => keepAliveTimer c = true
  | _ => True
  end.

(** The states reached from a new layer. *)
Inductive reachable {S} `{TransportSegmentOk S} (config : LinkLayerConfig) : LinkContext S -> Prop :=
  | reachable_init pri sec now s :
      length pri = LPDU_MAX_FRAME_SIZE -> length sec = LPDU_HEADER_SIZE ->
      reachable config (LinkContext.init pri sec now s)
  | reachable_step c e c' u :
      reachable config c -> allowed c e -> handle config e c = Some (c', u) -> reachable config c'.

End Layer.

(** ** The invariant *)

Section Invariant.
Context {S : Type} `{HS : TransportSegmentOk S} (config : LinkLayerConfig).

Definition pri_transmitting (p : PriState) : bool :=
  match p with
  | PLLS_SendUnconfirmedTransmitWait | PLLS_LinkResetTransmitWait
  | PLLS_ConfUserDataTransmitWait | PLLS_RequestLinkStatusTransmitWait => true
  | _ => false
  end.

Definition pri_awaiting (p : PriState) : bool :=
  match p with
  | PLLS_ResetLinkWait | PLLS_ConfDataWait | PLLS_RequestLinkStatusWait => true
  | _ => false
  end.

(** The states in which the code dereferences [pSegments]. *)
Definition needs_segments (p : PriState) : bool :=
  match p with
  | PLLS_SendUnconfirmedTransmitWait | PLLS_LinkResetTransmitWait | PLLS_ConfUserDataTransmitWait
  | PLLS_ResetLinkWait | PLLS_ConfDataWait => true
  | _ => false
  end.

Definition sec_transmitting (s : SecState) : bool :=
  match s with SLLS_TransmitWaitReset | SLLS_TransmitWaitNotReset => true | _ => false end.

Definition is_some {A} (o : option A) : bool := match o with Some _ => true | None => false end.

Definition view_ok (m : bytes) (v : option View) : Prop :=
  match v with Some v => is_Some (view_bytes m v) | None => True end.

(** A frame from the beginning of a buffer, and its transmission. *)
Definition whole (f : bytes) : View := mkView 0 (length f).

Definition transmits (primary : bool) (f : bytes) : Output := BeginTransmit primary (whole f) f.

(** The transmissions in a trace. *)
Definition begun (o : list Output) : list (bool * View * bytes) :=
  omap (fun x => match x with BeginTransmit p v f => Some (p, v, f) | _ => None end) o.

(** While the line is taken, the buffer of the last transmission shows its frame. *)
Definition line_shows (c : LinkContext S) : Prop :=
  txMode c <> Tx_Idle -> exists v f,
    list.last (begun (trace c)) = Some (bool_decide (txMode c = Tx_Primary), v, f) /\
    view_bytes (LinkContext.buffer_of (bool_decide (txMode c = Tx_Primary)) c) v = Some f.

(** The invariant, with the states of the two stations apart from the record:
    during an event they are assigned last. *)
Definition inv_at (p : PriState) (s : SecState) (c : LinkContext S) : Prop :=
  length (priTxBuffer c) = LPDU_MAX_FRAME_SIZE /\ length (secTxBuffer c) = LPDU_HEADER_SIZE /\
  view_ok (priTxBuffer c) (pendingPriTx c) /\ view_ok (secTxBuffer c) (pendingSecTx c) /\
  match txMode c with
  | Tx_Idle => pendingPriTx c = None /\ pendingSecTx c = None
  | Tx_Primary => pendingPriTx c = None
  | Tx_Secondary => pendingSecTx c = None
  end /\
  pri_transmitting p = bool_decide (txMode c = Tx_Primary) || is_some (pendingPriTx c) /\
  sec_transmitting s = bool_decide (txMode c = Tx_Secondary) || is_some (pendingSecTx c) /\
  rspTimeoutTimer c = pri_awaiting p /\
  (needs_segments p = true -> pSegments c = true) /\
  (pSegments c = true -> segment_ok (segments c)) /\
  (isOnline c = false ->
     p = PLLS_Idle /\ s = SLLS_NotReset /\ pSegments c = false /\ keepAliveTimeout c = false) /\
  keepAliveTimer c = isOnline c /\
  line_shows c.

Definition link_inv (c : LinkContext S) : Prop := inv_at (pPriState c) (pSecState c) c.

(** How many [OnTxReady] the upper layer was or will be given. *)
Definition posted (t : list Output) : nat :=
  list_sum (map (fun o => match o with PostUpperOnTxReady => 1 | _ => 0 end) t).

Definition owed (c : LinkContext S) : nat := posted (trace c) + (if pSegments c then 1 else 0).

(** What no step of either station changes. *)
Definition frame_rule (c c' : LinkContext S) : Prop :=
  pPriState c' = pPriState c /\ pSecState c' = pSecState c /\ isOnline c' = isOnline c /\
  owed c' = owed c /\ trace c `prefix_of` trace c'.

(** A frame queued by a station, as the code leaves the context. *)
Definition queued (primary : bool) (v : View) (f : bytes) (c : LinkContext S) : LinkContext S :=
  match txMode c with
  | Tx_Idle =>
      set_trace (trace c ++ [BeginTransmit primary v f])
        (set_txMode (if primary then Tx_Primary else Tx_Secondary) c)
  | _ => if primary then set_pendingPriTx (Some v) c else set_pendingSecTx (Some v) c
  end.

End Invariant.

Arguments posted : simpl never.

(** ** Lemmas: sending *)

Section Sending.
Import LinkContext.
Context {S : Type} `{HS : TransportSegmentOk S} (config : LinkLayerConfig).

Lemma posted_app t t' : posted (t ++ t') = posted t + posted t'.
Proof. unfold posted. by rewrite map_app, list_sum_app. Qed.

Lemma wp_format_pri (f : WSlice -> option (WSlice * View)) (c : LinkContext S) Q :
  length (priTxBuffer c) = LPDU_MAX_FRAME_SIZE ->
  (exists a v size, f (mkWSlice (priTxBuffer c) 0 LPDU_MAX_FRAME_SIZE) = Some (mkWSlice a size (292 - size), v) /\
     Q v (set_priTxBuffer a c)) ->
  wp (format_pri f) c Q.
Proof. intros Hl (a & v & n & Hf & HQ). unfold wp, format_pri. by rewrite Hf. Qed.

(** Queueing succeeds when the view is inside its buffer. *)
Lemma wp_QueueTransmit v primary f (c : LinkContext S) Q :
  view_bytes (buffer_of primary c) v = Some f -> Q tt (queued primary v f c) ->
  wp (QueueTransmit v primary) c Q.
Proof.
  intros Hv HQ. unfold QueueTransmit, queued, LinkTx_BeginTransmit, call in *.
  wp_go. destruct (txMode c).
  - wp_go. unfold wp, lift.
    destruct primary; cbn [buffer_of set_txMode priTxBuffer secTxBuffer] in *; rewrite Hv; exact HQ.
  - destruct primary; rewrite wp_modify; exact HQ.
  - destruct primary; rewrite wp_modify; exact HQ.
Qed.

(** A header-only frame formatted in a link buffer. *)
Lemma format_header_buffer m n isMaster fcb fcv code dest src :
  length m = n -> LPDU_HEADER_SIZE <= n ->
  exists a, FormatHeader (mkWSlice m 0 n) 0 isMaster fcb fcv code dest src =
      Some (mkWSlice a LPDU_HEADER_SIZE (n - LPDU_HEADER_SIZE), whole (frame_bytes isMaster fcb fcv code dest src [])) /\
    length a = n /\
    view_bytes a (whole (frame_bytes isMaster fcb fcv code dest src [])) = Some (frame_bytes isMaster fcb fcv code dest src []).
Proof.
  intros Hl Hn. destruct (FormatHeader_spec (mkWSlice m 0 n) 0 isMaster fcb fcv code dest src) as (a & Ha & He).
  { unfold WSlice.wf. cbn. lia. }
  { done. }
  exists a. cbn [ws_array ws_pos ws_size] in *. split; [done|]. split; [by rewrite <- Hl; eapply mem_write_length|].
  rewrite frame_bytes_nodata. by eapply view_after_write.
Qed.

Lemma format_data_buffer m isMaster fcb fcv code dest src data :
  length m = LPDU_MAX_FRAME_SIZE -> 0 < length data <= 250 ->
  exists w, FormatUserData (mkWSlice m 0 LPDU_MAX_FRAME_SIZE) isMaster fcb fcv code dest src data
      (u8 (Z.of_nat (RSlice.Size data))) = Some (w, whole (frame_bytes isMaster fcb fcv code dest src data)) /\
    length (ws_array w) = LPDU_MAX_FRAME_SIZE /\
    view_bytes (ws_array w) (whole (frame_bytes isMaster fcb fcv code dest src data)) =
      Some (frame_bytes isMaster fcb fcv code dest src data).
Proof.
  intros Hl Hd. pose proof (CalcFrameSize_max (length data)) as Hmax.
  destruct (FormatUserData_spec (mkWSlice m 0 LPDU_MAX_FRAME_SIZE) isMaster fcb fcv code dest src data) as (a & Ha & He).
  { unfold WSlice.wf. cbn. lia. }
  { done. }
  { cbn [ws_size]. lia. }
  assert (whole (frame_bytes isMaster fcb fcv code dest src data) = mkView 0 (CalcFrameSize (length data))) as ->
    by (unfold whole; by rewrite frame_bytes_length).
  unfold RSlice.Size. rewrite u8_small by (unfold is_u8; lia). eexists. split; [done|].
  cbn [ws_array ws_pos] in *. split; [by rewrite <- Hl; eapply mem_write_length|].
  eapply view_after_write; [done|]. by rewrite frame_bytes_length.
Qed.

(** The context after a frame [f] has been formatted in the buffer of a station
    and queued. *)
Definition sent (primary : bool) (f : bytes) (c c' : LinkContext S) : Prop :=
  exists a, view_bytes a (whole f) = Some f /\
    (if primary then length a = LPDU_MAX_FRAME_SIZE else length a = LPDU_HEADER_SIZE) /\
    c' = queued primary (whole f) f (if primary then set_priTxBuffer a c else set_secTxBuffer a c).

Lemma wp_send_pri_header (code : LinkFunction) dest (c : LinkContext S) Q :
  length (priTxBuffer c) = LPDU_MAX_FRAME_SIZE ->
  (forall c', sent true (frame_bytes (IsMaster config) false false code dest (LocalAddr config) []) c c' -> Q tt c') ->
  wp (v ← format_pri (fun w => FormatHeader w 0 (IsMaster config) false false code dest (LocalAddr config));
      QueueTransmit v true) c Q.
Proof.
  intros Hl HQ. rewrite wp_bind.
  destruct (format_header_buffer (priTxBuffer c) LPDU_MAX_FRAME_SIZE (IsMaster config) false false code dest
    (LocalAddr config) Hl) as (a & He & Ha & Hv); [unfold LPDU_HEADER_SIZE, LPDU_MAX_FRAME_SIZE; lia|].
  unfold wp at 1, format_pri. rewrite He. cbn [mbind option_bind ws_array].
  eapply wp_QueueTransmit; [exact Hv|]. apply HQ. by exists a.
Qed.

Lemma wp_send_sec_header (code : LinkFunction) dest (c : LinkContext S) Q :
  length (secTxBuffer c) = LPDU_HEADER_SIZE ->
  (forall c', sent false (frame_bytes (IsMaster config) false false code dest (LocalAddr config) []) c c' -> Q tt c') ->
  wp (v ← format_sec (fun w => FormatHeader w 0 (IsMaster config) false false code dest (LocalAddr config));
      QueueTransmit v false) c Q.
Proof.
  intros Hl HQ. rewrite wp_bind.
  destruct (format_header_buffer (secTxBuffer c) LPDU_HEADER_SIZE (IsMaster config) false false code dest
    (LocalAddr config) Hl) as (a & He & Ha & Hv); [done|].
  unfold wp at 1, format_sec. rewrite He. cbn [mbind option_bind ws_array].
  eapply wp_QueueTransmit; [exact Hv|]. apply HQ. by exists a.
Qed.

Lemma wp_send_data fcb fcv code addr data (c : LinkContext S) Q :
  length (priTxBuffer c) = LPDU_MAX_FRAME_SIZE -> 0 < length data <= 250 ->
  (forall c', sent true (frame_bytes (IsMaster config) fcb fcv code (destination addr) (source addr) data) c c' -> Q c') ->
  wp (v ← format_pri (fun w => FormatUserData w (IsMaster config) fcb fcv code (destination addr) (source addr) data
        (u8 (Z.of_nat (RSlice.Size data))));
      QueueTransmit v true) c (fun _ => Q).
Proof.
  intros Hl Hd HQ. rewrite wp_bind.
  destruct (format_data_buffer (priTxBuffer c) (IsMaster config) fcb fcv code (destination addr) (source addr) data
    Hl Hd) as (w & He & Ha & Hv).
  unfold wp at 1, format_pri. rewrite He. cbn [mbind option_bind].
  eapply wp_QueueTransmit; [exact Hv|]. apply HQ. by exists (ws_array w).
Qed.

End Sending.

(** ** Lemmas: the invariant through the steps *)

Section Steps.
Import LinkContext.
Context {S : Type} `{HS : TransportSegmentOk S} (config : LinkLayerConfig).

Lemma frame_rule_refl (c : LinkContext S) : frame_rule c c.
Proof. unfold frame_rule. split_and!; done. Qed.

Lemma frame_rule_trans (c1 c2 c3 : LinkContext S) : frame_rule c1 c2 -> frame_rule c2 c3 -> frame_rule c1 c3.
Proof.
  intros (H1 & H2 & H3 & H4 & H5) (H1' & H2' & H3' & H4' & H5'). unfold frame_rule.
  split_and!; try congruence. by transitivity (trace c2).
Qed.

(** A call that is not the upper layer's [OnTxReady]. *)
Lemma frame_rule_call (c : LinkContext S) o :
  o <> PostUpperOnTxReady -> frame_rule c (set_trace (trace c ++ [o]) c).
Proof.
  intros Ho. unfold frame_rule, owed. cbn. split_and!; try done; [|by apply prefix_app_r].
  rewrite posted_app. assert (posted [o] = 0) by (by destruct o). lia.
Qed.

(** Completing a send turns what is owed into a call. *)
Lemma frame_rule_complete (c : LinkContext S) :
  pSegments c = true ->
  frame_rule c (set_trace (trace c ++ [PostUpperOnTxReady]) (set_pSegments false c)).
Proof.
  intros Hp. unfold frame_rule, owed. cbn. split_and!; try done; [|by apply prefix_app_r].
  rewrite posted_app, Hp. change (posted [PostUpperOnTxReady]) with 1. lia.
Qed.

Lemma sent_trace primary f (c c' : LinkContext S) :
  sent primary f c c' -> frame_rule c c'.
Proof.
  intros (a & _ & _ & ->). unfold frame_rule, owed, queued.
  destruct primary; cbn [set_priTxBuffer set_secTxBuffer txMode]; destruct (txMode c); cbn; split_and!; try done;
    try by apply prefix_app_r.
  all: rewrite posted_app; change (posted [BeginTransmit _ _ f]) with 0; lia.
Qed.

(** The line shows its frame as long as its buffer is left alone and nothing is transmitted. *)
Lemma shows_same o (c c' : LinkContext S) :
  line_shows c -> begun o = [] -> trace c' = trace c ++ o -> txMode c' = txMode c ->
  (txMode c = Tx_Primary -> priTxBuffer c' = priTxBuffer c) -> (txMode c = Tx_Secondary -> secTxBuffer c' = secTxBuffer c) -> line_shows c'.
Proof.
  unfold line_shows, buffer_of. intros Hs Ho Ht Hm Hp Hb Hne. rewrite Hm in *. destruct (Hs Hne) as (v & f & Hl & Hv). exists v, f.
  unfold begun in *. rewrite Ht, omap_app, Ho, app_nil_r. split; [done|]. destruct (txMode c); [done|by rewrite Hp|by rewrite Hb].
Qed.

Lemma shows_begun (primary : bool) v f (c : LinkContext S) : view_bytes (buffer_of primary c) v = Some f ->
  line_shows (set_trace (trace c ++ [BeginTransmit primary v f]) (set_txMode (if primary then Tx_Primary else Tx_Secondary) c)).
Proof.
  intros Hv _. exists v, f. unfold begun. cbn [trace set_trace txMode set_txMode]. rewrite omap_app. cbn [omap list_omap]. rewrite list.last_snoc. by destruct primary.
Qed.

Lemma sent_pri_inv p s f (c c' : LinkContext S) :
  inv_at PLLS_Idle s c -> isOnline c = true -> pri_transmitting p = true ->
  (needs_segments p = true -> pSegments c = true) -> sent true f c c' ->
  inv_at p s c' /\ secTxBuffer c' = secTxBuffer c.
Proof.
  intros (Hp & Hs & Hvp & Hvs & Hm & Htp & Hts & Hr & Hn & Hok & Hoff & Hk & Hsh) Hon Ht Hneeds (a & Hv & Ha & ->).
  unfold inv_at, queued. cbn [set_priTxBuffer txMode] in *.
  assert (Hr' : pri_awaiting p = false) by (by destruct p).
  destruct (txMode c) eqn:Hmode; cbn in *.
  - destruct Hm as [Hm1 Hm2]. rewrite Hm1, Hm2 in *. cbn in *.
    split; [|done]. split_and!; try done; try congruence; try (by rewrite Ht).
    by apply (shows_begun true _ _ (set_priTxBuffer a c)).
  - destruct (pendingPriTx c); done.
  - assert (line_shows (set_pendingPriTx (Some (whole f)) (set_priTxBuffer a c))) by (apply (shows_same [] c); by rewrite ?Hmode, ?app_nil_r).
    rewrite Hmode. split; [|done]. split_and!; try done; try congruence; by rewrite ?Hv, ?Ht, ?orb_true_r.
Qed.

Lemma sent_sec_inv p s f (c c' : LinkContext S) :
  inv_at p SLLS_NotReset c -> isOnline c = true -> sec_transmitting s = true -> sent false f c c' ->
  inv_at p s c' /\ priTxBuffer c' = priTxBuffer c.
Proof.
  intros (Hp & Hs & Hvp & Hvs & Hm & Htp & Hts & Hr & Hn & Hok & Hoff & Hk & Hsh) Hon Ht (a & Hv & Ha & ->).
  unfold inv_at, queued. cbn [set_secTxBuffer txMode] in *.
  destruct (txMode c) eqn:Hmode; cbn in *.
  - destruct Hm as [Hm1 Hm2]. rewrite Hm1, Hm2 in *. cbn in *.
    split; [|done]. split_and!; try done; try congruence; try (by rewrite Ht).
    by apply (shows_begun false _ _ (set_secTxBuffer a c)).
  - assert (line_shows (set_pendingSecTx (Some (whole f)) (set_secTxBuffer a c))) by (apply (shows_same [] c); by rewrite ?Hmode, ?app_nil_r).
    rewrite Hmode. split; [|done]. split_and!; try done; try congruence; by rewrite ?Hv, ?Ht, ?orb_true_r.
  - destruct (pendingSecTx c); done.
Qed.

(** What a method of the primary station in state [self] leaves behind. *)
Definition pri_post (self : PriState) (s : SecState) (c : LinkContext S) (p : PriState) (c' : LinkContext S) : Prop :=
  inv_at p s c' /\ frame_rule c c' /\ secTxBuffer c' = secTxBuffer c /\
  (pri_transmitting self = true -> priTxBuffer c' = priTxBuffer c /\ p = self).

Definition sec_post (self : SecState) (p : PriState) (c : LinkContext S) (s : SecState) (c' : LinkContext S) : Prop :=
  inv_at p s c' /\ frame_rule c c' /\ priTxBuffer c' = priTxBuffer c /\
  (sec_transmitting self = true -> secTxBuffer c' = secTxBuffer c /\ s = self).

(** A station that is neither transmitting nor waiting may as well be idle. *)
Lemma inv_idle p s (c : LinkContext S) :
  inv_at p s c -> pri_transmitting p = false ->
  inv_at PLLS_Idle s (set_rspTimeoutTimer false c).
Proof.
  intros (Hp & Hs & Hvp & Hvs & Hm & Htp & Hts & Hr & Hn & Hok & Hoff & Hk & Hsh) Ht.
  unfold inv_at. cbn. rewrite Ht in Htp. split_and!; try done. intros Hf. by destruct (Hoff Hf) as (-> & ? & ? & ?).
Qed.

Lemma inv_complete s (c : LinkContext S) :
  inv_at PLLS_Idle s c -> inv_at PLLS_Idle s (set_trace (trace c ++ [PostUpperOnTxReady]) (set_pSegments false c)).
Proof.
  intros (Hp & Hs & Hvp & Hvs & Hm & Htp & Hts & Hr & Hn & Hok & Hoff & Hk & Hsh).
  unfold inv_at. cbn. split_and!; try done; [intros Hf; by destruct (Hoff Hf) as (? & ? & ? & ?)|].
  by apply (shows_same [PostUpperOnTxReady] c).
Qed.

(** A call that transmits nothing. *)
Lemma inv_call o p s (c : LinkContext S) : begun [o] = [] -> inv_at p s c -> inv_at p s (set_trace (trace c ++ [o]) c).
Proof.
  intros Ho (Hp & Hs & Hvp & Hvs & Hm & Htp & Hts & Hr & Hn & Hok & Hoff & Hk & Hsh). unfold inv_at. cbn. split_and!; try done. by apply (shows_same [o] c).
Qed.

Lemma inv_online p s (c : LinkContext S) : inv_at p s c -> p <> PLLS_Idle -> isOnline c = true.
Proof.
  intros (_ & _ & _ & _ & _ & _ & _ & _ & _ & _ & Hoff & _) Hp.
  destruct (isOnline c); [done|]. by destruct (Hoff eq_refl) as (-> & _).
Qed.

Lemma inv_segments p s (c : LinkContext S) :
  inv_at p s c -> needs_segments p = true -> pSegments c = true /\ segment_ok (segments c).
Proof. intros (_ & _ & _ & _ & _ & _ & _ & _ & Hn & Hok & _) Hp. auto. Qed.

Lemma wp_GetSegment (c : LinkContext S) Q :
  pSegments c = true -> segment_ok (segments c) ->
  (forall s d, GetSegment (segments c) = Some (s, d) -> segment_ok s -> 0 < length d <= 250 ->
    Q d (set_segments s c)) ->
  wp Segments_GetSegment c Q.
Proof.
  intros Hp Hok HQ. destruct (segment_get _ Hok) as (s & d & He & Hs & Hd & _).
  unfold wp, Segments_GetSegment, with_segments. rewrite Hp, He. cbn. auto.
Qed.

Lemma wp_GetAddresses (c : LinkContext S) Q :
  pSegments c = true -> Q (GetAddresses (segments c)) c -> wp Segments_GetAddresses c Q.
Proof.
  intros Hp HQ. unfold wp, Segments_GetAddresses, with_segments. rewrite Hp. cbn. by destruct c.
Qed.

Lemma wp_Advance (c : LinkContext S) s more Q :
  pSegments c = true -> Advance (segments c) = (s, more) -> Q more (set_segments s c) ->
  wp Segments_Advance c Q.
Proof.
  intros Hp Ha HQ. unfold wp, Segments_Advance, with_segments. by rewrite Hp, Ha.
Qed.

(** The segment that [pSegments] shows has been sent as user data. *)
Definition sent_segment (fcb fcv : bool) (code : LinkFunction) (c c' : LinkContext S) : Prop :=
  exists s d, GetSegment (segments c) = Some (s, d) /\ segment_ok s /\
    sent true (frame_bytes (IsMaster config) fcb fcv code (destination (GetAddresses (segments c)))
      (source (GetAddresses (segments c))) d) (set_segments s c) c'.

Lemma wp_send_confirmed_segment (c : LinkContext S) (Q : PriState -> LinkContext S -> Prop) :
  length (priTxBuffer c) = LPDU_MAX_FRAME_SIZE -> pSegments c = true -> segment_ok (segments c) ->
  (forall c', sent_segment (nextWriteFCB c) true PRI_CONFIRMED_USER_DATA c c' -> Q PLLS_ConfUserDataTransmitWait c') ->
  wp (Pri.send_confirmed_segment config) c Q.
Proof.
  intros Hl Hp Hok HQ. unfold Pri.send_confirmed_segment. rewrite wp_bind.
  apply wp_GetAddresses; [done|]. rewrite wp_bind. apply wp_GetSegment; [done..|]. intros s d He Hs Hd.
  rewrite wp_bind, wp_get, wp_assoc.
  eapply wp_mono; [apply wp_send_data; [exact Hl|exact Hd|]|intros a w Hw; wp_go; exact Hw].
  intros c' Hsent. apply HQ. by exists s, d.
Qed.

Lemma wp_send_unconfirmed_segment (c : LinkContext S) (Q : PriState -> LinkContext S -> Prop) :
  length (priTxBuffer c) = LPDU_MAX_FRAME_SIZE -> pSegments c = true -> segment_ok (segments c) ->
  (forall c', sent_segment false false PRI_UNCONFIRMED_USER_DATA c c' -> Q PLLS_SendUnconfirmedTransmitWait c') ->
  wp (Pri.send_unconfirmed_segment config) c Q.
Proof.
  intros Hl Hp Hok HQ. unfold Pri.send_unconfirmed_segment. rewrite wp_bind.
  apply wp_GetAddresses; [done|]. rewrite wp_bind. apply wp_GetSegment; [done..|]. intros s d He Hs Hd.
  rewrite wp_assoc.
  eapply wp_mono; [apply wp_send_data; [exact Hl|exact Hd|]|intros a w Hw; wp_go; exact Hw].
  intros c' Hsent. apply HQ. by exists s, d.
Qed.

Lemma sent_segment_post p s fcb fcv code (c c' : LinkContext S) :
  inv_at PLLS_Idle s c -> isOnline c = true -> pri_transmitting p = true -> pSegments c = true ->
  sent_segment fcb fcv code c c' ->
  inv_at p s c' /\ frame_rule c c' /\ secTxBuffer c' = secTxBuffer c.
Proof.
  intros Hi Hon Ht Hp (s' & d & He & Hs & Hsent).
  assert (Hi' : inv_at PLLS_Idle s (set_segments s' c)).
  { destruct Hi as (H1 & H2 & H3 & H4 & H5 & H6 & H7 & H8 & H9 & H10 & H11). unfold inv_at. cbn. done. }
  destruct (sent_pri_inv p s _ _ c' Hi' Hon Ht (fun _ => Hp) Hsent) as [Hi'' Hb].
  split_and!; [done| |done]. pose proof (sent_trace _ _ _ _ Hsent) as Hf. exact Hf.
Qed.

End Steps.

(** ** Lemmas: the methods of the primary station *)

Section Primary.
Import LinkContext.
Context {S : Type} `{HS : TransportSegmentOk S} (config : LinkLayerConfig).

(** The specification of a method: from the invariant to the invariant. *)
Definition pri_method (m : SM (LinkContext S) PriState) (self : PriState) : Prop :=
  forall s c, inv_at self s c -> isOnline c = true -> wp m c (pri_post self s c).

Lemma inv_lengths p s (c : LinkContext S) : inv_at p s c -> length (priTxBuffer c) = LPDU_MAX_FRAME_SIZE.
Proof. by intros []. Qed.

(** Nothing but flags, counters and calls other than [OnTxReady] changed. *)
Lemma pri_post_same self s (c c' : LinkContext S) :
  inv_at self s c -> inv_at self s c' -> frame_rule c c' -> secTxBuffer c' = secTxBuffer c ->
  priTxBuffer c' = priTxBuffer c -> pri_post self s c self c'.
Proof. unfold pri_post. intros. split_and!; done. Qed.

(** A station that was not transmitting. *)
Lemma pri_post_moved self p s (c c' : LinkContext S) :
  pri_transmitting self = false -> inv_at p s c' -> frame_rule c c' -> secTxBuffer c' = secTxBuffer c ->
  pri_post self s c p c'.
Proof. unfold pri_post. intros Ht ???. split_and!; try done. by rewrite Ht. Qed.

Lemma unexpected_ok self : pri_method (Pri.unexpected self) self.
Proof.
  intros s c Hi Hon. unfold Pri.unexpected. wp_go.
  apply pri_post_same; [exact Hi|exact Hi|exact (frame_rule_refl c)|done|done].
Qed.

(** Failing a send from a state that waits for a response. *)
Lemma Failure_ok self :
  pri_awaiting self = true -> needs_segments self = true -> pri_method Pri.Failure self.
Proof.
  intros Ha Hn s c Hi Hon. unfold Pri.Failure, CancelTimer, CompleteSendOperation, call. wp_go.
  destruct (inv_segments _ _ _ Hi Hn) as [Hp _].
  assert (Ht : pri_transmitting self = false) by (by destruct self).
  pose proof (inv_complete _ _ (inv_idle _ _ _ Hi Ht)) as Hi'.
  apply pri_post_moved; [done|exact Hi'|exact (frame_rule_complete c Hp)|done].
Qed.

(** Sending a confirmed segment from a state that waits for a response, after
    flags and the timer changed. *)
Lemma resend_confirmed_ok self s (c c1 : LinkContext S) (Q : PriState -> LinkContext S -> Prop) :
  inv_at PLLS_Idle s c1 -> isOnline c1 = true -> pSegments c1 = true -> segment_ok (segments c1) ->
  pri_transmitting self = false -> frame_rule c c1 -> secTxBuffer c1 = secTxBuffer c ->
  (forall c', pri_post self s c PLLS_ConfUserDataTransmitWait c' -> Q PLLS_ConfUserDataTransmitWait c') ->
  wp (Pri.send_confirmed_segment config) c1 Q.
Proof.
  intros Hi Hon Hp Hok Ht Hf Hsec HQ.
  apply wp_send_confirmed_segment; [by eapply inv_lengths|done|done|]. intros c' Hsent.
  destruct (sent_segment_post _ PLLS_ConfUserDataTransmitWait s _ _ _ c1 c' Hi Hon eq_refl Hp Hsent) as (Hi' & Hf' & Hs').
  apply HQ. apply pri_post_moved; [done|done|by eapply frame_rule_trans|congruence].
Qed.

Lemma resend_reset_ok self s dest (c c1 : LinkContext S) Q :
  inv_at PLLS_Idle s c1 -> isOnline c1 = true -> pSegments c1 = true ->
  pri_transmitting self = false -> frame_rule c c1 -> secTxBuffer c1 = secTxBuffer c ->
  (forall c', pri_post self s c PLLS_LinkResetTransmitWait c' -> Q tt c') ->
  wp (QueueResetLinks config dest) c1 Q.
Proof.
  intros Hi Hon Hp Ht Hf Hsec HQ.
  apply wp_send_pri_header; [by eapply inv_lengths|]. intros c' Hsent.
  destruct (sent_pri_inv PLLS_LinkResetTransmitWait s _ c1 c' Hi Hon eq_refl (fun _ => Hp) Hsent) as [Hi' Hs'].
  apply HQ. apply pri_post_moved; [done|done| |congruence].
  eapply frame_rule_trans; [done|]. by eapply sent_trace.
Qed.

Lemma OnAck_ok self full : pri_method (Pri.OnAck config self full) self.
Proof.
  destruct self; try apply unexpected_ok; intros s c Hi Hon;
    destruct (inv_segments _ _ _ Hi eq_refl) as [Hp Hok];
    unfold Pri.OnAck, Pri.PLLS_ResetLinkWait_OnAck, Pri.PLLS_ConfDataWait_OnAck, ResetWriteFCB, ToggleWriteFCB, CancelTimer; wp_go.
  - eapply (resend_confirmed_ok PLLS_ResetLinkWait s c);
      [exact (inv_idle _ _ _ Hi eq_refl)|done..|exact (frame_rule_refl c)|done|].
    intros c' (Hi' & Hf' & Hs' & _). unfold call. wp_go.
    apply pri_post_moved; [done|by apply inv_call| |done].
    eapply frame_rule_trans; [done|]. by apply frame_rule_call.
  - destruct (Advance (segments c)) as [s' more] eqn:Ha. apply (wp_Advance _ s' more); [done|exact Ha|].
    destruct (segment_advance _ Hok _ _ Ha) as [_ Hmore].
    pose proof (inv_idle _ _ _ Hi eq_refl) as Hidle. destruct more.
    + destruct (Hmore eq_refl) as [Hok' _].
      eapply (resend_confirmed_ok PLLS_ConfDataWait s c); try done.
      destruct Hidle as (H1 & H2 & H3 & H4 & H5 & H6 & H7 & H8 & H9 & H10 & H11). unfold inv_at. cbn. done.
    + unfold CompleteSendOperation, call. wp_go.
      apply pri_post_moved; [done| |exact (frame_rule_complete c Hp)|done].
      destruct Hidle as (H1 & H2 & H3 & H4 & H5 & H6 & H7 & H8 & H9 & H10 & H11 & H12 & H13). unfold inv_at. cbn.
      split_and!; try done; [intros Hf; by rewrite Hon in Hf|]. by apply (shows_same [PostUpperOnTxReady] c).
Qed.

Lemma OnNack_ok self full : pri_method (Pri.OnNack config self full) self.
Proof.
  destruct self; try apply unexpected_ok; [by apply Failure_ok| |]; intros s c Hi Hon;
    unfold Pri.OnNack, Pri.PLLS_ConfDataWait_OnNack, Pri.PLLS_RequestLinkStatusWait_OnNack, call; wp_go.
  - destruct (inv_segments _ _ _ Hi eq_refl) as [Hp Hok]. destruct full.
    + pose proof (Failure_ok PLLS_ConfDataWait eq_refl eq_refl s (set_trace (trace c ++ [OnStateChange false]) c) (inv_call (OnStateChange false) _ _ _ eq_refl Hi) Hon) as HF.
      eapply wp_mono; [exact HF|]. intros p c' (Hi' & Hf' & Hs' & _).
      apply pri_post_moved; [done|done| |done]. eapply frame_rule_trans; [|exact Hf']. by apply frame_rule_call.
    + unfold ResetRetry, CancelTimer. wp_go. apply wp_GetAddresses; [done|]. wp_go.
      eapply (resend_reset_ok PLLS_ConfDataWait s _ c); try done;
        try exact (inv_call (OnStateChange false) _ _ _ eq_refl (inv_idle _ _ _ Hi eq_refl)); try (by apply (frame_rule_call c)).
  - unfold CancelTimer, FailKeepAlive. wp_go.
    apply pri_post_moved; [done|exact (inv_idle _ _ _ Hi eq_refl)|exact (frame_rule_refl c)|done].
Qed.

Lemma OnLinkStatus_ok self full : pri_method (Pri.OnLinkStatus self full) self.
Proof.
  destruct self; try apply unexpected_ok; try (by apply Failure_ok). intros s c Hi Hon.
  unfold Pri.OnLinkStatus, Pri.PLLS_RequestLinkStatusWait_OnLinkStatus, CancelTimer, CompleteKeepAlive, call. wp_go.
  apply pri_post_moved; [done|exact (inv_call OnKeepAliveSuccess _ _ _ eq_refl (inv_idle _ _ _ Hi eq_refl))|by apply (frame_rule_call c)|done].
Qed.

Lemma OnNotSupported_ok self full : pri_method (Pri.OnNotSupported self full) self.
Proof.
  destruct self; try apply unexpected_ok; try (by apply Failure_ok). intros s c Hi Hon.
  unfold Pri.OnNotSupported, Pri.PLLS_RequestLinkStatusWait_OnNotSupported, CancelTimer, FailKeepAlive. wp_go.
  apply pri_post_moved; [done|exact (inv_idle _ _ _ Hi eq_refl)|exact (frame_rule_refl c)|done].
Qed.

(** A response timeout: the timer has just stopped. *)
Lemma OnTimeout_ok self s (c : LinkContext S) :
  inv_at self s c -> isOnline c = true -> pri_awaiting self = true ->
  wp (Pri.OnTimeout config self) (set_rspTimeoutTimer false c) (pri_post self s c).
Proof.
  intros Hi Hon Ha. assert (Ht : pri_transmitting self = false) by (by destruct self).
  pose proof (inv_idle _ _ _ Hi Ht) as Hidle.
  destruct self; try done; unfold Pri.OnTimeout, Pri.PLLS_ResetLinkWait_OnTimeout, Pri.PLLS_ConfDataWait_OnTimeout,
    Pri.PLLS_RequestLinkStatusWait_OnTimeout, Retry; wp_go.
  - destruct (inv_segments _ _ _ Hi eq_refl) as [Hp Hok]. destruct (0 <? _)%Z; wp_go.
    + eapply (resend_reset_ok PLLS_ResetLinkWait s _ c); try done; try exact (frame_rule_refl c).
    + unfold CompleteSendOperation, call. wp_go.
      apply pri_post_moved; [done|exact (inv_complete _ _ Hidle)|exact (frame_rule_complete c Hp)|done].
  - destruct (inv_segments _ _ _ Hi eq_refl) as [Hp Hok]. destruct (0 <? _)%Z; wp_go.
    + eapply (resend_confirmed_ok PLLS_ConfDataWait s c); try done; exact (frame_rule_refl c).
    + unfold CompleteSendOperation, call. wp_go.
      apply pri_post_moved; [done|exact (inv_complete _ _ (inv_call (OnStateChange false) _ _ _ eq_refl Hidle))| |done].
      eapply frame_rule_trans; [by apply (frame_rule_call c (OnStateChange false))|].
      exact (frame_rule_complete (set_trace (trace c ++ [OnStateChange false]) c) Hp).
  - unfold FailKeepAlive, call. wp_go.
    apply pri_post_moved; [done|exact (inv_call OnKeepAliveFailure _ _ _ eq_refl Hidle)|by apply (frame_rule_call c)|done].
Qed.

(** The frame of a transmitting station is out: the station is as good as idle. *)
Lemma OnTxReady_ok self s (c : LinkContext S) :
  inv_at PLLS_Idle s c -> isOnline c = true -> pri_transmitting self = true ->
  (needs_segments self = true -> pSegments c = true) ->
  wp (Pri.OnTxReady config self) c (pri_post PLLS_Idle s c).
Proof.
  intros Hi Hon Ht Hn.
  assert (Hwait : forall p, pri_awaiting p = true -> (needs_segments p = true -> pSegments c = true) ->
    inv_at p s (set_rspTimeoutTimer true c)).
  { intros p Ha Hnp. assert (pri_transmitting p = false) by (by destruct p).
    destruct Hi as (H1 & H2 & H3 & H4 & H5 & H6 & H7 & H8 & H9 & H10 & H11 & H12 & H13). unfold inv_at. cbn.
    split_and!; try done; [by rewrite <- H6|intros Hf; congruence]. }
  destruct self; try done; unfold Pri.OnTxReady, Pri.PLLS_SendUnconfirmedTransmitWait_OnTxReady, Pri.await_response, StartResponseTimer; wp_go.
  2,3,4: apply pri_post_moved; [done|by apply Hwait|exact (frame_rule_refl c)|done].
  specialize (Hn eq_refl). destruct Hi as (H1 & H2 & H3 & H4 & H5 & H6 & H7 & H8 & H9 & H10 & H11 & H12 & H13).
  pose proof (H10 Hn) as Hok.
  destruct (Advance (segments c)) as [s' more] eqn:Ha. apply (wp_Advance _ s' more); [done|exact Ha|].
  destruct (segment_advance _ Hok _ _ Ha) as [_ Hmore]. destruct more.
  - destruct (Hmore eq_refl) as [Hok' _].
    apply wp_send_unconfirmed_segment; [done..|]. intros c' Hsent.
    assert (Hi1 : inv_at PLLS_Idle s (set_segments s' c)) by (unfold inv_at; cbn; done).
    destruct (sent_segment_post _ PLLS_SendUnconfirmedTransmitWait s _ _ _ _ c' Hi1 Hon eq_refl Hn Hsent)
      as (Hi' & Hf' & Hs').
    apply pri_post_moved; [done|done|exact Hf'|done].
  - unfold CompleteSendOperation, call. wp_go.
    apply pri_post_moved; [done| |exact (frame_rule_complete c Hn)|done].
    unfold inv_at. cbn. split_and!; try done; [intros Hf; congruence|]. by apply (shows_same [PostUpperOnTxReady] c).
Qed.

Lemma TrySendConfirmed_ok self s (c : LinkContext S) :
  inv_at self s c -> isOnline c = true -> pSegments c = true ->
  wp (Pri.TrySendConfirmed config self) c (pri_post self s c).
Proof.
  intros Hi Hon Hp. destruct self; try (unfold Pri.TrySendConfirmed, Pri.PLLS_Idle_TrySendConfirmed; wp_go; apply pri_post_same; done || exact (frame_rule_refl c)).
  pose proof Hi as (_ & _ & _ & _ & _ & _ & _ & _ & _ & Hok & _). specialize (Hok Hp).
  unfold Pri.TrySendConfirmed, Pri.PLLS_Idle_TrySendConfirmed, ResetRetry. wp_go. destruct (isRemoteReset c); wp_go.
  - eapply (resend_confirmed_ok PLLS_Idle s c); try done; exact (frame_rule_refl c).
  - apply wp_GetAddresses; [done|]. wp_go.
    eapply (resend_reset_ok PLLS_Idle s _ c); try done; try exact (frame_rule_refl c).
Qed.

Lemma TrySendUnconfirmed_ok self s (c : LinkContext S) :
  inv_at self s c -> isOnline c = true -> pSegments c = true ->
  wp (Pri.TrySendUnconfirmed config self) c (pri_post self s c).
Proof.
  intros Hi Hon Hp. destruct self; try (unfold Pri.TrySendUnconfirmed; wp_go; apply pri_post_same; done || exact (frame_rule_refl c)).
  pose proof Hi as (_ & _ & _ & _ & _ & _ & _ & _ & _ & Hok & _). specialize (Hok Hp).
  apply wp_send_unconfirmed_segment; [by eapply inv_lengths|done|done|]. intros c' Hsent.
  destruct (sent_segment_post _ PLLS_SendUnconfirmedTransmitWait s _ _ _ c c' Hi Hon eq_refl Hp Hsent) as (Hi' & Hf' & Hs').
  by apply pri_post_moved.
Qed.

Lemma TrySendRequestLinkStatus_ok self s (c : LinkContext S) :
  inv_at self s c -> isOnline c = true ->
  wp (Pri.TrySendRequestLinkStatus config self) c (pri_post self s c).
Proof.
  intros Hi Hon. destruct self; try (unfold Pri.TrySendRequestLinkStatus, Pri.PLLS_Idle_TrySendRequestLinkStatus; wp_go; apply pri_post_same; done || exact (frame_rule_refl c)).
  unfold Pri.TrySendRequestLinkStatus, Pri.PLLS_Idle_TrySendRequestLinkStatus, QueueRequestLinkStatus, FormatRequestLinkStatus. wp_go.
  assert (Hi1 : inv_at PLLS_Idle s (set_keepAliveTimeout false c)).
  { destruct Hi as (H1 & H2 & H3 & H4 & H5 & H6 & H7 & H8 & H9 & H10 & H11 & H12 & H13). unfold inv_at. cbn.
    split_and!; try done. intros Hf. congruence. }
  rewrite <- wp_bind. apply wp_send_pri_header; [by eapply inv_lengths|]. intros c' Hsent.
  assert (Hn : needs_segments PLLS_RequestLinkStatusTransmitWait = true -> pSegments c = true) by done.
  destruct (sent_pri_inv PLLS_RequestLinkStatusTransmitWait s _ _ c' Hi1 Hon eq_refl Hn Hsent) as [Hi' Hs'].
  unfold call. wp_go. apply pri_post_moved; [done|by apply inv_call| |done].
  eapply frame_rule_trans; [exact (sent_trace _ _ _ _ Hsent)|]. by apply frame_rule_call.
Qed.

End Primary.

(** ** Lemmas: the methods of the secondary station *)

Section Secondary.
Import LinkContext.
Context {S : Type} `{HS : TransportSegmentOk S} (config : LinkLayerConfig).

Definition sec_method (m : SM (LinkContext S) SecState) (self : SecState) : Prop :=
  forall p c, inv_at p self c -> isOnline c = true -> wp m c (sec_post self p c).

Lemma sec_post_same self p (c c' : LinkContext S) :
  inv_at p self c' -> frame_rule c c' -> priTxBuffer c' = priTxBuffer c -> secTxBuffer c' = secTxBuffer c ->
  sec_post self p c self c'.
Proof. unfold sec_post. intros. split_and!; done. Qed.

(** A response queued by a station that was not transmitting. *)
Lemma respond_ok self s p code dest (c : LinkContext S) Q :
  inv_at p self c -> isOnline c = true -> sec_transmitting self = false -> sec_transmitting s = true ->
  (forall c', sec_post self p c s c' -> Q tt c') ->
  wp (v ← format_sec (fun w => FormatHeader w 0 (IsMaster config) false false code dest (LocalAddr config));
      QueueTransmit v false) c Q.
Proof.
  intros Hi Hon Ht Hs HQ. pose proof Hi as (H1 & H2 & H3 & H4 & H5 & H6 & H7 & H8 & H9 & H10 & H11 & H12 & H13).
  apply wp_send_sec_header; [done|]. intros c' Hsent. apply HQ.
  assert (Hi' : inv_at p SLLS_NotReset c).
  { unfold inv_at. rewrite Ht in H7. split_and!; try done. intros Hf. congruence. }
  destruct (sent_sec_inv p s _ c c' Hi' Hon Hs Hsent) as [Hi'' Hb].
  unfold sec_post. split_and!; try done; [by eapply sent_trace|]. by rewrite Ht.
Qed.

(** The waiting states ignore everything. *)
Lemma ignore_ok self : sec_method (mret self) self.
Proof. intros p c Hi Hon. wp_go. apply sec_post_same; [done|exact (frame_rule_refl c)|done|done]. Qed.

Lemma sec_unexpected_ok self : sec_method (_ ← count_unexpected; mret self) self.
Proof. intros p c Hi Hon. wp_go. apply sec_post_same; [exact Hi|exact (frame_rule_refl c)|done|done]. Qed.

Lemma OnResetLinkStates_ok self src : sec_method (Sec.OnResetLinkStates config self src) self.
Proof.
  destruct self; try apply ignore_ok; intros p c Hi Hon; unfold Sec.OnResetLinkStates, Sec.accept_reset, ResetReadFCB; rewrite wp_bind;
    (eapply respond_ok; [exact Hi|done|done| |intros c' Hpost; wp_go; exact Hpost]); done.
Qed.

Lemma OnRequestLinkStatus_ok self src : sec_method (Sec.OnRequestLinkStatus config self src) self.
Proof.
  destruct self; try apply ignore_ok; intros p c Hi Hon; unfold Sec.OnRequestLinkStatus, Sec.report_status; rewrite wp_bind;
    (eapply respond_ok; [exact Hi|done|done| |intros c' Hpost; wp_go; exact Hpost]); done.
Qed.

Lemma OnTestLinkStatus_ok self src fcb : sec_method (Sec.OnTestLinkStatus config self src fcb) self.
Proof.
  destruct self; [apply sec_unexpected_ok| |apply ignore_ok..].
  intros p c Hi Hon; unfold Sec.OnTestLinkStatus, Sec.not_reset, Sec.SLLS_Reset_OnTestLinkStatus, ToggleReadFCB. wp_go. destruct (eqb _ _); [|by apply ignore_ok].
  rewrite wp_bind. eapply respond_ok; [exact Hi|done|done| |intros c' Hpost; wp_go; exact Hpost]. done.
Qed.

Lemma OnConfirmedUserData_ok self src fcb m : sec_method (Sec.OnConfirmedUserData config self src fcb m) self.
Proof.
  destruct self; [apply sec_unexpected_ok| |apply ignore_ok..].
  intros p c Hi Hon; unfold Sec.OnConfirmedUserData, Sec.not_reset, Sec.SLLS_Reset_OnConfirmedUserData, ToggleReadFCB, PushDataUp, call. rewrite wp_bind.
  eapply (respond_ok SLLS_Reset SLLS_TransmitWaitReset); [exact Hi|done|done|done|].
  intros c' (Hi' & Hf & Hb & _). wp_go. destruct (eqb _ _); wp_go.
  - split_and!; [exact (inv_call (UpperOnReceive m) _ _ _ eq_refl Hi')| |exact Hb|done].
    eapply frame_rule_trans; [exact Hf|]. by apply (frame_rule_call c').
  - split_and!; done.
Qed.

(** The frame of a transmitting station is out. *)
Lemma sec_OnTxReady_ok self p (c : LinkContext S) :
  inv_at p SLLS_NotReset c -> isOnline c = true -> sec_transmitting self = true ->
  wp (Sec.OnTxReady self) c (sec_post SLLS_NotReset p c).
Proof.
  intros Hi Hon Ht. destruct self; try done; unfold Sec.OnTxReady; wp_go.
  destruct Hi as (H1 & H2 & H3 & H4 & H5 & H6 & H7 & H8 & H9 & H10 & H11 & H12 & H13).
  unfold sec_post, inv_at. split_and!; try done; try apply frame_rule_refl. intros Hf. congruence.
Qed.

End Secondary.

(** ** Lemmas: the events *)

Section EventLemmas.
Import LinkContext Events.
Context {S : Type} `{HS : TransportSegmentOk S} (config : LinkLayerConfig).

(** What every part of an event leaves behind, except the completion of a
    transmission and the loss of the lower layer. *)
Definition step_post (c c' : LinkContext S) : Prop :=
  link_inv c' /\ isOnline c' = isOnline c /\ owed c' = owed c /\ trace c `prefix_of` trace c' /\
  (pri_transmitting (pPriState c) = true -> priTxBuffer c' = priTxBuffer c /\ pPriState c' = pPriState c) /\
  (sec_transmitting (pSecState c) = true -> secTxBuffer c' = secTxBuffer c /\ pSecState c' = pSecState c).

Lemma step_post_refl (c : LinkContext S) : link_inv c -> step_post c c.
Proof. intros Hi. unfold step_post. split_and!; done. Qed.

Lemma step_post_trans (c1 c2 c3 : LinkContext S) : step_post c1 c2 -> step_post c2 c3 -> step_post c1 c3.
Proof.
  intros (Hi & Ho & Hw & Ht & Hp & Hs) (Hi' & Ho' & Hw' & Ht' & Hp' & Hs'). unfold step_post. split_and!.
  - done.
  - congruence.
  - congruence.
  - by transitivity (trace c2).
  - intros Hpt. destruct (Hp Hpt) as [Hb He]. rewrite <- He in Hpt. destruct (Hp' Hpt). split; congruence.
  - intros Hst. destruct (Hs Hst) as [Hb He]. rewrite <- He in Hst. destruct (Hs' Hst). split; congruence.
Qed.

Lemma pri_step_ok (m : PriState -> SM (LinkContext S) PriState) (c : LinkContext S) :
  wp (m (pPriState c)) c (pri_post (pPriState c) (pSecState c) c) ->
  wp (pri_step m) c (fun _ => step_post c).
Proof.
  intros Hm. unfold pri_step. wp_go. eapply wp_mono; [exact Hm|].
  intros p c' (Hi & (Hp & Hs & Ho & Hw & Ht) & Hb & Hbusy). wp_go. unfold step_post, link_inv. cbn.
  split_and!; try done. by rewrite Hs.
Qed.

Lemma sec_step_ok (m : SecState -> SM (LinkContext S) SecState) (c : LinkContext S) :
  wp (m (pSecState c)) c (sec_post (pSecState c) (pPriState c) c) ->
  wp (sec_step m) c (fun _ => step_post c).
Proof.
  intros Hm. unfold sec_step. wp_go. eapply wp_mono; [exact Hm|].
  intros p c' (Hi & (Hp & Hs & Ho & Hw & Ht) & Hb & Hbusy). wp_go. unfold step_post, link_inv. cbn.
  split_and!; try done. by rewrite Hp.
Qed.

Lemma TryStartTransmission_ok (c : LinkContext S) :
  link_inv c -> isOnline c = true -> wp (TryStartTransmission config) c (fun _ => step_post c).
Proof.
  intros Hi Hon. unfold TryStartTransmission. wp_go.
  assert (Hrest : forall c1, step_post c c1 ->
    wp (segments ← get (W := LinkContext S) pSegments;
        if (segments : bool) then
          if UseConfirms config then pri_step (Pri.TrySendConfirmed config)
          else pri_step (Pri.TrySendUnconfirmed config)
        else mret tt) c1 (fun _ => step_post c)).
  { intros c1 Hc1. pose proof Hc1 as (Hi1 & Ho1 & _). wp_go. destruct (pSegments c1) eqn:Hp; [|done].
    eapply wp_mono; [|intros a c2 Hc2; eapply step_post_trans; [exact Hc1|exact Hc2]].
    rewrite Ho1 in Hon || rewrite <- Ho1 in Hon.
    destruct (UseConfirms config); apply pri_step_ok; [by apply TrySendConfirmed_ok|by apply TrySendUnconfirmed_ok]. }
  destruct (keepAliveTimeout c).
  - eapply wp_mono; [apply pri_step_ok; by apply TrySendRequestLinkStatus_ok|]. intros a c1. apply Hrest.
  - wp_go. apply Hrest. by apply step_post_refl.
Qed.

End EventLemmas.

(** ** Lemmas: transmission callbacks and whole events *)

Section WholeEvents.
Import LinkContext Events.
Context {S : Type} `{HS : TransportSegmentOk S} (config : LinkLayerConfig).

(** What the two attempts to send a pending frame leave behind. *)
Definition same_buffers (c c' : LinkContext S) : Prop :=
  priTxBuffer c' = priTxBuffer c /\ secTxBuffer c' = secTxBuffer c /\ pSegments c' = pSegments c.

Lemma pending_after_primary (c : LinkContext S) (Q : unit -> LinkContext S -> Prop) :
  link_inv c -> txMode c = Tx_Primary ->
  (forall c', inv_at PLLS_Idle (pSecState c) c' -> frame_rule c c' -> same_buffers c c' -> Q tt c') ->
  wp (_ ← TryPendingTx false; TryPendingTx true) (set_txMode Tx_Idle c) Q.
Proof.
  intros (H1 & H2 & H3 & H4 & H5 & H6 & H7 & H8 & H9 & H10 & H11 & H12 & H13) Hm HQ.
  rewrite Hm in *. assert (Ht : pri_transmitting (pPriState c) = true) by done.
  assert (Haw : pri_awaiting (pPriState c) = false) by (by destruct (pPriState c)).
  assert (Hon : isOnline c = true).
  { destruct (isOnline c); [done|]. destruct (H11 eq_refl) as [He _]. by rewrite He in Ht. }
  unfold TryPendingTx, LinkTx_BeginTransmit, call, buffer_of. wp_go. cbn [txMode set_txMode pendingSecTx].
  destruct (pendingSecTx c) as [v|] eqn:Hpend; wp_go.
  - destruct H4 as [f Hf]. unfold wp at 1, lift. cbn [secTxBuffer set_txMode]. rewrite Hf. cbn [mbind option_bind].
    wp_go. cbn. apply HQ.
    + unfold inv_at. cbn. rewrite H5. split_and!; try done; try congruence.
      apply (shows_same [] _ _ (shows_begun false v f c Hf)); by rewrite ?app_nil_r.
    + unfold frame_rule, owed. cbn. split_and!; try done; [|by apply prefix_app_r].
      rewrite posted_app. change (posted [BeginTransmit false v f]) with 0. lia.
    + done.
  - cbn. rewrite H5. wp_go. apply HQ; [|exact (frame_rule_refl c)|done].
    unfold inv_at. cbn. rewrite H5, Hpend in *. split_and!; try done; try congruence. by intros [].
Qed.

Lemma pending_after_secondary (c : LinkContext S) (Q : unit -> LinkContext S -> Prop) :
  link_inv c -> txMode c = Tx_Secondary ->
  (forall c', inv_at (pPriState c) SLLS_NotReset c' -> frame_rule c c' -> same_buffers c c' -> Q tt c') ->
  wp (_ ← TryPendingTx false; TryPendingTx true) (set_txMode Tx_Idle c) Q.
Proof.
  intros (H1 & H2 & H3 & H4 & H5 & H6 & H7 & H8 & H9 & H10 & H11 & H12 & H13) Hm HQ.
  rewrite Hm in *. assert (Ht : sec_transmitting (pSecState c) = true) by done.
  assert (Hon : isOnline c = true).
  { destruct (isOnline c); [done|]. destruct (H11 eq_refl) as (_ & He & _). by rewrite He in Ht. }
  unfold TryPendingTx, LinkTx_BeginTransmit, call, buffer_of. wp_go. cbn [txMode set_txMode pendingSecTx].
  rewrite H5. wp_go. cbn [txMode set_txMode pendingPriTx].
  destruct (pendingPriTx c) as [v|] eqn:Hpend; wp_go.
  - destruct H3 as [f Hf]. unfold wp at 1, lift. cbn [priTxBuffer set_txMode]. rewrite Hf. cbn [mbind option_bind].
    wp_go. cbn. apply HQ.
    + unfold inv_at. cbn. rewrite H5. split_and!; try done; try congruence.
      apply (shows_same [] _ _ (shows_begun true v f c Hf)); by rewrite ?app_nil_r.
    + unfold frame_rule, owed. cbn. split_and!; try done; [|by apply prefix_app_r].
      rewrite posted_app. change (posted [BeginTransmit true v f]) with 0. lia.
    + done.
  - apply HQ; [|exact (frame_rule_refl c)|done].
    unfold inv_at. cbn. rewrite H5, Hpend in *. split_and!; try done; try congruence. by intros [].
Qed.

(** What a transmission callback leaves behind. *)
Definition tx_post (c c' : LinkContext S) : Prop :=
  link_inv c' /\ isOnline c' = isOnline c /\ owed c' = owed c /\ trace c `prefix_of` trace c' /\
  (pri_transmitting (pPriState c) = true -> txMode c <> Tx_Primary ->
     priTxBuffer c' = priTxBuffer c /\ pPriState c' = pPriState c) /\
  (sec_transmitting (pSecState c) = true -> txMode c <> Tx_Secondary ->
     secTxBuffer c' = secTxBuffer c /\ pSecState c' = pSecState c).

Lemma step_tx_post (c c' : LinkContext S) : step_post c c' -> tx_post c c'.
Proof. intros (Hi & Ho & Hw & Ht & Hp & Hs). unfold tx_post. split_and!; auto. Qed.

Lemma tx_step_post (c c1 c2 : LinkContext S) : tx_post c c1 -> step_post c1 c2 -> tx_post c c2.
Proof.
  intros (Hi & Ho & Hw & Ht & Hp & Hs) (Hi' & Ho' & Hw' & Ht' & Hp' & Hs'). unfold tx_post. split_and!.
  - done.
  - congruence.
  - congruence.
  - by transitivity (trace c1).
  - intros Hpt Hm. destruct (Hp Hpt Hm) as [Hb He]. rewrite <- He in Hpt. destruct (Hp' Hpt). split; congruence.
  - intros Hst Hm. destruct (Hs Hst Hm) as [Hb He]. rewrite <- He in Hst. destruct (Hs' Hst). split; congruence.
Qed.

Lemma OnTxReady_primary (c : LinkContext S) :
  link_inv c -> txMode c = Tx_Primary ->
  wp (Events.OnTxReady config) c (fun r c' => tx_post c c' /\ r = true /\ isOnline c = true).
Proof.
  intros Hi Hm. pose proof Hi as (H1 & H2 & H3 & H4 & H5 & H6 & H7 & H8 & H9 & H10 & H11 & H12 & H13).
  rewrite Hm in *. assert (Ht : pri_transmitting (pPriState c) = true) by done.
  assert (Hon : isOnline c = true).
  { destruct (isOnline c); [done|]. destruct (H11 eq_refl) as [He _]. by rewrite He in Ht. }
  unfold Events.OnTxReady. rewrite wp_bind, wp_get, Hm, wp_bind, wp_modify, wp_assoc.
  apply pending_after_primary; [done|done|]. intros c2 Hi2 Hf2 (Hb1 & Hb2 & Hb3).
  pose proof Hf2 as (Hp2 & Hs2 & Ho2 & Hw2 & Htr2).
  rewrite decide_True by done. unfold pri_step. wp_go. rewrite Hp2.
  eapply wp_mono; [apply (OnTxReady_ok config (pPriState c) (pSecState c) c2 Hi2)|]; [congruence|done|by rewrite Hb3|].
  intros p c3 (Hi3 & Hf3 & Hb & _). wp_go.
  destruct (frame_rule_trans _ _ _ Hf2 Hf3) as (Hp3 & Hs3 & Ho3 & Hw3 & Htr3).
  split; [|done]. unfold tx_post, link_inv. cbn. rewrite Hs3. split_and!; try done. intros _ _. split; congruence.
Qed.

Lemma OnTxReady_secondary (c : LinkContext S) :
  link_inv c -> txMode c = Tx_Secondary ->
  wp (Events.OnTxReady config) c (fun r c' => tx_post c c' /\ r = true /\ isOnline c = true).
Proof.
  intros Hi Hm. pose proof Hi as (H1 & H2 & H3 & H4 & H5 & H6 & H7 & H8 & H9 & H10 & H11 & H12 & H13).
  rewrite Hm in *. assert (Ht : sec_transmitting (pSecState c) = true) by done.
  assert (Hon : isOnline c = true).
  { destruct (isOnline c); [done|]. destruct (H11 eq_refl) as (_ & He & _). by rewrite He in Ht. }
  unfold Events.OnTxReady. rewrite wp_bind, wp_get, Hm, wp_bind, wp_modify, wp_assoc.
  apply pending_after_secondary; [done|done|]. intros c2 Hi2 Hf2 (Hb1 & Hb2 & Hb3).
  pose proof Hf2 as (Hp2 & Hs2 & Ho2 & Hw2 & Htr2).
  rewrite decide_False by done. unfold sec_step. wp_go. rewrite Hs2.
  eapply wp_mono; [apply (sec_OnTxReady_ok (pSecState c) (pPriState c) c2 Hi2)|]; [congruence|done|].
  intros s c3 (Hi3 & Hf3 & Hb & _). wp_go.
  destruct (frame_rule_trans _ _ _ Hf2 Hf3) as (Hp3 & Hs3 & Ho3 & Hw3 & Htr3).
  split; [|done]. unfold tx_post, link_inv. cbn. rewrite Hp3. split_and!; try done. intros _ _. split; congruence.
Qed.

Lemma LinkLayer_OnTxReady_ok (c : LinkContext S) :
  link_inv c -> wp (Layer.OnTxReady config) c (fun _ => tx_post c).
Proof.
  intros Hi. unfold Layer.OnTxReady. rewrite wp_bind.
  assert (Hgo : wp (Events.OnTxReady config) c (fun r c' => tx_post c c' /\ r = true /\ isOnline c = true) ->
    wp (Events.OnTxReady config) c (fun r c1 => wp
      (_ ← (if r then TryStartTransmission config else mret tt); mret true) c1 (fun _ => tx_post c))).
  { intros Hw. eapply wp_mono; [exact Hw|]. intros r c1 (Htx & -> & Hon). rewrite wp_bind.
    pose proof Htx as (Hi1 & Ho1 & _). rewrite <- Ho1 in Hon.
    eapply wp_mono; [by apply TryStartTransmission_ok|]. intros [] c2 Hs. wp_go. by eapply tx_step_post. }
  destruct (txMode c) eqn:Hm.
  - unfold Events.OnTxReady. wp_go. rewrite Hm. wp_go. by apply step_tx_post, step_post_refl.
  - by apply Hgo, OnTxReady_primary.
  - by apply Hgo, OnTxReady_secondary.
Qed.

End WholeEvents.

(** ** Lemmas: frames, sends and the lower layer *)

Section Handlers.
Import LinkContext Events Layer.
Context {S : Type} `{HS : TransportSegmentOk S} (config : LinkLayerConfig).

(** Counting and telling the listener change nothing else. *)
Lemma step_post_call (c : LinkContext S) o :
  link_inv c -> o <> PostUpperOnTxReady -> begun [o] = [] -> step_post c (set_trace (trace c ++ [o]) c).
Proof.
  intros Hi Ho Hb. destruct (frame_rule_call c o Ho) as (Hp & Hs & Hon & Hw & Ht).
  unfold step_post. split_and!; try done. by apply inv_call.
Qed.

Lemma OnFrame_ok now h d (c : LinkContext S) :
  link_inv c ->
  wp (Events.OnFrame config now h d) c (fun r c' => step_post c c' /\ (r = true -> isOnline c = true)).
Proof.
  intros Hi. unfold Events.OnFrame. wp_go. destruct (isOnline c) eqn:Hon; cbn [negb]; wp_go.
  2: { split; [by apply step_post_refl|done]. }
  destruct (eqb _ _); wp_go; [by split; [exact (step_post_refl c Hi)|]|].
  destruct (negb (dest h =? LocalAddr config)%Z).
  { unfold call. wp_go. split; [|done]. by apply (step_post_call c). }
  destruct (negb (src h =? RemoteAddr config)%Z && negb (respondToAnySource config)).
  { unfold call. wp_go. split; [|done]. by apply (step_post_call c). }
  wp_go.
  assert (Hgo : forall m : SM (LinkContext S) unit,
    wp m (set_lastMessageTimestamp now c) (fun _ => step_post (set_lastMessageTimestamp now c)) ->
    wp m (set_lastMessageTimestamp now c) (fun _ c' =>
      wp (mret true) c' (fun r c' => step_post c c' /\ (r = true -> true = true)))).
  { intros m Hm. eapply wp_mono; [exact Hm|]. intros a c' Hc. wp_go. by split. }
  destruct (func h); apply Hgo.
  - apply sec_step_ok, OnResetLinkStates_ok; done.
  - apply sec_step_ok, OnTestLinkStatus_ok; done.
  - apply sec_step_ok, OnConfirmedUserData_ok; done.
  - unfold PushDataUp, call. wp_go. by apply (step_post_call (set_lastMessageTimestamp now c)).
  - apply sec_step_ok, OnRequestLinkStatus_ok; done.
  - apply pri_step_ok, (OnAck_ok config); done.
  - apply pri_step_ok, (OnNack_ok config); done.
  - apply pri_step_ok, OnLinkStatus_ok; done.
  - apply pri_step_ok, OnNotSupported_ok; done.
  - wp_go. exact (step_post_refl c Hi).
Qed.

Lemma LinkLayer_OnFrame_ok now h d (c : LinkContext S) :
  link_inv c -> wp (Layer.OnFrame config now h d) c (fun _ => step_post c).
Proof.
  intros Hi. unfold Layer.OnFrame. rewrite wp_bind. eapply wp_mono; [by apply OnFrame_ok|].
  intros r c1 (Hs & Hr). destruct r; wp_go; [|done].
  pose proof Hs as (Hi1 & Ho1 & _). specialize (Hr eq_refl). rewrite <- Ho1 in Hr.
  eapply wp_mono; [by apply TryStartTransmission_ok|]. intros [] c2 Hs2. wp_go. eapply step_post_trans; [exact Hs|exact Hs2].
Qed.

(** The response timer runs only in the states that wait for a response. *)
Lemma OnResponseTimeout_ok (c : LinkContext S) :
  link_inv c -> rspTimeoutTimer c = true -> wp (Events.OnResponseTimeout config) c (fun _ => step_post c).
Proof.
  intros Hi Hr. pose proof Hi as (H1 & H2 & H3 & H4 & H5 & H6 & H7 & H8 & _). rewrite Hr in H8.
  assert (Hon : isOnline c = true) by (eapply inv_online; [exact Hi|]; by destruct (pPriState c)).
  unfold Events.OnResponseTimeout. rewrite wp_bind, wp_modify, wp_bind.
  assert (Hstep : wp (pri_step (Pri.OnTimeout config)) (set_rspTimeoutTimer false c) (fun _ => step_post c)).
  { unfold pri_step. wp_go. eapply wp_mono; [by apply OnTimeout_ok|].
    intros p c' (Hi' & (Hp & Hs & Ho & Hw & Ht) & Hb & Hbusy). wp_go. unfold step_post, link_inv. cbn.
    split_and!; try done. by rewrite Hs. }
  eapply wp_mono; [exact Hstep|]. intros a1 c1 Hs1. pose proof Hs1 as (Hi1 & Ho1 & _). rewrite <- Ho1 in Hon.
  eapply wp_mono; [by apply TryStartTransmission_ok|]. intros a2 c2 Hs2. eapply step_post_trans; [exact Hs1|exact Hs2].
Qed.

Lemma OnKeepAliveTimeout_ok now (c : LinkContext S) :
  link_inv c -> keepAliveTimer c = true -> wp (Events.OnKeepAliveTimeout config now) c (fun _ => step_post c).
Proof.
  intros Hi Hk. pose proof Hi as (H1 & H2 & H3 & H4 & H5 & H6 & H7 & H8 & H9 & H10 & H11 & H12 & H13).
  assert (Hon : isOnline c = true) by congruence.
  assert (Hgo : forall c1, isOnline c1 = true -> link_inv (set_keepAliveTimer true c1) ->
    step_post c (set_keepAliveTimer true c1) ->
    wp (_ ← StartKeepAliveTimer; TryStartTransmission config) c1 (fun _ => step_post c)).
  { intros c1 Hon1 Hi1 Hs1. unfold StartKeepAliveTimer. rewrite wp_bind, wp_modify.
    eapply wp_mono; [by apply TryStartTransmission_ok|]. intros a2 c2 Hs2. eapply step_post_trans; [exact Hs1|exact Hs2]. }
  unfold Events.OnKeepAliveTimeout. wp_go. destruct (_ <=? _)%Z; wp_go; apply Hgo; try done.
  all: unfold step_post, link_inv, inv_at; cbn; split_and!; try done; intros Hf; congruence.
Qed.

(** Whether a send is accepted. *)
Definition accepts (c : LinkContext S) : bool := isOnline c && negb (pSegments c).

Lemma Send_ok s (c : LinkContext S) :
  link_inv c -> segment_ok s ->
  wp (Layer.Send config s) c (fun r c' => r = isOnline c /\
    (accepts c = false -> c' = c) /\
    (accepts c = true -> step_post (set_pSegments true (set_segments s c)) c')).
Proof.
  intros Hi Hok. unfold Layer.Send, SetTxSegment, accepts. wp_go.
  destruct (isOnline c) eqn:Hon; cbn [negb andb]; wp_go; [|done].
  rewrite Hon. cbn [negb]. wp_go. destruct (pSegments c) eqn:Hp; wp_go; [done|].
  assert (Hi1 : link_inv (set_pSegments true (set_segments s c))).
  { destruct Hi as (H1 & H2 & H3 & H4 & H5 & H6 & H7 & H8 & H9 & H10 & H11 & H12 & H13).
    unfold link_inv, inv_at. cbn. split_and!; try done. intros Hf. congruence. }
  eapply wp_mono; [by apply TryStartTransmission_ok|]. intros [] c2 Hs2. wp_go. split_and!; done.
Qed.

Lemma OnLowerLayerUp_ok now (c : LinkContext S) :
  link_inv c -> wp (Layer.OnLowerLayerUp now) c (fun r c' => r = negb (isOnline c) /\
    isOnline c' = true /\ link_inv c' /\ owed c' = owed c /\ trace c `prefix_of` trace c' /\
    priTxBuffer c' = priTxBuffer c /\ secTxBuffer c' = secTxBuffer c).
Proof.
  intros Hi. unfold Layer.OnLowerLayerUp, Events.OnLowerLayerUp. wp_go. destruct (isOnline c) eqn:Hon; wp_go; [done|].
  unfold StartKeepAliveTimer, call. wp_go. unfold owed. cbn.
  destruct Hi as (H1 & H2 & H3 & H4 & H5 & H6 & H7 & H8 & H9 & H10 & H11 & H12 & H13).
  split_and!; try done.
  - apply (inv_call UpperOnLowerLayerUp _ _ (set_trace (trace c ++ [OnStateChange false]) (set_keepAliveTimer true (set_lastMessageTimestamp now (set_isOnline true c))))); [done|].
    apply (inv_call (OnStateChange false) _ _ (set_keepAliveTimer true (set_lastMessageTimestamp now (set_isOnline true c)))); [done|].
    unfold inv_at. cbn. by split_and!.
  - rewrite !posted_app. change (posted [OnStateChange false]) with 0. change (posted [UpperOnLowerLayerUp]) with 0. lia.
  - rewrite <- app_assoc. by apply prefix_app_r.
Qed.

Lemma OnLowerLayerDown_ok (c : LinkContext S) :
  link_inv c -> wp Layer.OnLowerLayerDown c (fun r c' => r = isOnline c /\
    isOnline c' = false /\ link_inv c' /\ posted (trace c') = posted (trace c) /\ pSegments c' = false /\
    trace c `prefix_of` trace c' /\ priTxBuffer c' = priTxBuffer c /\ secTxBuffer c' = secTxBuffer c).
Proof.
  intros Hi. pose proof Hi as (H1 & H2 & H3 & H4 & H5 & H6 & H7 & H8 & H9 & H10 & H11 & H12 & H13).
  unfold Layer.OnLowerLayerDown, Events.OnLowerLayerDown. wp_go.
  destruct (isOnline c) eqn:Hon; cbn [negb]; wp_go.
  - unfold CancelTimer, call. wp_go. cbn. split_and!; try done.
    + unfold link_inv, inv_at. cbn. split_and!; try done. by intros [].
    + rewrite !posted_app. change (posted [OnStateChange false]) with 0.
      change (posted [UpperOnLowerLayerDown]) with 0. lia.
    + rewrite <- app_assoc. by apply prefix_app_r.
  - destruct (H11 eq_refl) as (_ & _ & Hp & _). done.
Qed.

End Handlers.

(** ** Properties *)

Section Properties.
Import LinkContext Layer.
Context {S : Type} `{HS : TransportSegmentOk S} (config : LinkLayerConfig).

(** Whether a send is accepted, and whether one is abandoned. *)
Definition accepted (c : LinkContext S) (e : Event S) : nat :=
  match e with EvSend _ => if accepts c then 1 else 0 | _ => 0 end.

Definition abandoned (c : LinkContext S) (e : Event S) : nat :=
  match e with EvLowerLayerDown => if pSegments c then 1 else 0 | _ => 0 end.

(** A frame of the primary (secondary) station is on its way or waits for the line. *)
Definition pri_frame_out (c : LinkContext S) : Prop := txMode c = Tx_Primary \/ pendingPriTx c <> None.

Definition sec_frame_out (c : LinkContext S) : Prop := txMode c = Tx_Secondary \/ pendingSecTx c <> None.

Definition completes (e : Event S) : bool := match e with EvTxReady => true | _ => false end.

(** Everything the properties below need of one event. *)
Definition event_post (c : LinkContext S) (e : Event S) (c' : LinkContext S) : Prop :=
  link_inv c' /\ trace c `prefix_of` trace c' /\
  owed c' + abandoned c e = owed c + accepted c e /\
  (pri_frame_out c -> ~ (completes e = true /\ txMode c = Tx_Primary) -> priTxBuffer c' = priTxBuffer c) /\
  (sec_frame_out c -> ~ (completes e = true /\ txMode c = Tx_Secondary) -> secTxBuffer c' = secTxBuffer c).

Lemma frame_out_transmitting (c : LinkContext S) :
  link_inv c ->
  (pri_frame_out c -> pri_transmitting (pPriState c) = true) /\
  (sec_frame_out c -> sec_transmitting (pSecState c) = true).
Proof.
  intros (H1 & H2 & H3 & H4 & H5 & H6 & H7 & _). rewrite H6, H7. split; intros [->|Hp]; try done.
  - destruct (pendingPriTx c); [apply orb_true_r|done].
  - destruct (pendingSecTx c); [apply orb_true_r|done].
Qed.

Lemma step_event_post (c c' : LinkContext S) e :
  link_inv c -> step_post c c' -> accepted c e = 0 -> abandoned c e = 0 -> event_post c e c'.
Proof.
  intros Hi (Hi' & Ho & Hw & Ht & Hp & Hs) Ha Hb. destruct (frame_out_transmitting c Hi) as [Hfp Hfs].
  unfold event_post. rewrite Ha, Hb. split_and!; [done|done|lia| |].
  - intros Hf _. by apply Hp, Hfp.
  - intros Hf _. by apply Hs, Hfs.
Qed.

Lemma handle_ok (c : LinkContext S) e :
  link_inv c -> allowed c e -> wp (handle config e) c (fun _ => event_post c e).
Proof.
  intros Hi Ha. destruct (frame_out_transmitting c Hi) as [Hfp Hfs].
  destruct e; unfold handle; try rewrite wp_bind.
  - eapply wp_mono; [by apply Send_ok|]. intros r c' (_ & Hno & Hyes). wp_go. destruct (accepts c) eqn:Hacc.
    + specialize (Hyes eq_refl). destruct Hyes as (Hi' & Ho & Hw & Ht & Hp & Hs).
      unfold event_post, accepted, abandoned. rewrite Hacc. split_and!; [done|done| | |].
      * apply andb_prop in Hacc as [_ Hacc]. apply negb_true_iff in Hacc.
        rewrite Hw. unfold owed. cbn. rewrite Hacc. lia.
      * intros Hf _. by apply Hp, Hfp.
      * intros Hf _. by apply Hs, Hfs.
    + rewrite Hno by done. unfold event_post, accepted, abandoned. rewrite Hacc. split_and!; done.
  - eapply wp_mono; [by apply OnLowerLayerUp_ok|]. intros r c' (_ & _ & Hi' & Hw & Ht & Hb1 & Hb2). wp_go.
    unfold event_post. cbn [accepted abandoned]. split_and!; [done|done|lia|done|done].
  - eapply wp_mono; [by apply OnLowerLayerDown_ok|]. intros r c' (_ & _ & Hi' & Hw & Hp & Ht & Hb1 & Hb2). wp_go.
    unfold event_post, owed. cbn [accepted abandoned]. rewrite Hw, Hp. split_and!; [done|done|lia|done|done].
  - eapply wp_mono; [by apply LinkLayer_OnTxReady_ok|]. intros r c' (Hi' & Ho & Hw & Ht & Hp & Hs). wp_go.
    unfold event_post. cbn [accepted abandoned completes]. split_and!; [done|done|lia| |].
    + intros Hf Hm. apply Hp; [by apply Hfp|]. intros He. by apply Hm.
    + intros Hf Hm. apply Hs; [by apply Hfs|]. intros He. by apply Hm.
  - eapply wp_mono; [by apply LinkLayer_OnFrame_ok|]. intros r c' Hs. wp_go. by apply step_event_post.
  - eapply wp_mono; [by apply OnResponseTimeout_ok|]. intros r c' Hs. by apply step_event_post.
  - eapply wp_mono; [by apply OnKeepAliveTimeout_ok|]. intros r c' Hs. by apply step_event_post.
Qed.

Lemma init_inv pri sec now (s : S) :
  length pri = LPDU_MAX_FRAME_SIZE -> length sec = LPDU_HEADER_SIZE -> link_inv (init pri sec now s).
Proof. intros. unfold link_inv, inv_at. cbn. split_and!; try done. by intros []. Qed.

Lemma reachable_inv (c : LinkContext S) : reachable config c -> link_inv c.
Proof.
  induction 1 as [pri sec now s Hp Hs|c e c' u Hr IH Ha He]; [by apply init_inv|].
  by destruct (wp_of_run _ _ _ _ _ He (handle_ok c e IH Ha)).
Qed.

(** C23: No sequence of events breaks the link layer: in every reachable state
    every event that can happen is handled without a null dereference of
    [pSegments], a failed assertion or an access outside a buffer, and the
    invariant holds again: a station is in a transmit-wait state exactly when its
    frame is on the line or queued, the response timer runs exactly in the states
    that wait for a response, nothing is queued while the line is free, the buffer
    of a frame on the line shows that frame, and an offline layer is idle. *)
Theorem link_layer_safe (c : LinkContext S) (e : Event S) :
  reachable config c -> allowed c e ->
  exists c', handle config e c = Some (c', tt) /\ reachable config c' /\ link_inv c'.
Proof.
  intros Hr Ha. destruct (wp_run _ _ _ (handle_ok c e (reachable_inv c Hr) Ha)) as (c' & [] & He & Hpost).
  exists c'. split_and!; [done|by eapply reachable_step|apply Hpost].
Qed.

(** A frame is never overwritten before it is sent: while a frame of the
    primary (secondary) station is being transmitted or waits for the line, no
    event but the end of its own transmission changes the buffer it is in. *)
Theorem frames_not_overwritten (c c' : LinkContext S) (e : Event S) u :
  reachable config c -> allowed c e -> handle config e c = Some (c', u) ->
  (pri_frame_out c -> ~ (completes e = true /\ txMode c = Tx_Primary) -> priTxBuffer c' = priTxBuffer c) /\
  (sec_frame_out c -> ~ (completes e = true /\ txMode c = Tx_Secondary) -> secTxBuffer c' = secTxBuffer c).
Proof.
  intros Hr Ha He. destruct (wp_of_run _ _ _ _ _ He (handle_ok c e (reachable_inv c Hr) Ha)) as (_ & _ & _ & Hb).
  exact Hb.
Qed.

(** Runs events one after the other; the counts of accepted and abandoned sends
    are kept along. *)
Inductive runs : LinkContext S -> list (Event S) -> nat -> nat -> LinkContext S -> Prop :=
  | runs_nil c : runs c [] 0 0 c
  | runs_cons c e c1 u es a b c' :
      allowed c e -> handle config e c = Some (c1, u) -> runs c1 es a b c' ->
      runs c (e :: es) (accepted c e + a) (abandoned c e + b) c'.

(** C34: Every message that is accepted for sending is completed exactly once:
    over any run from a new layer, the number of [OnTxReady] posted to the upper
    layer is the number of sends accepted, less those abandoned because the
    lower layer went down, less the one still in progress, if any. *)
Theorem sends_complete_once pri sec now (s : S) es a b (c : LinkContext S) :
  length pri = LPDU_MAX_FRAME_SIZE -> length sec = LPDU_HEADER_SIZE ->
  runs (init pri sec now s) es a b c ->
  posted (trace c) + b + (if pSegments c then 1 else 0) = a.
Proof.
  intros Hp Hs Hr.
  assert (Hgen : forall c0, runs c0 es a b c -> link_inv c0 -> owed c + b = owed c0 + a).
  { clear. intros c0. induction 1 as [c0|c0 e c1 u es a b c' Ha He Hr IH]; intros Hi; [lia|].
    destruct (wp_of_run _ _ _ _ _ He (handle_ok c0 e Hi Ha)) as (Hi1 & _ & Hw & _). specialize (IH Hi1). lia. }
  pose proof (Hgen _ Hr (init_inv pri sec now s Hp Hs)) as Hw. unfold owed in Hw. cbn in Hw.
  change (posted []) with 0 in Hw. lia.
Qed.

End Properties.

Section Behaviour.
Import LinkContext Layer.
Context {S : Type} `{HS : TransportSegmentOk S} (config : LinkLayerConfig).

(** A frame that [OnFrame] lets through. *)
Definition addressed (h : LinkHeaderFields) : bool :=
  negb (eqb (isFromMaster h) (IsMaster config)) && (dest h =? LocalAddr config)%Z &&
  ((src h =? RemoteAddr config)%Z || respondToAnySource config).

(** The messages passed up. *)
Definition received (t : list Output) : list Message :=
  omap (fun o => match o with UpperOnReceive m => Some m | _ => None end) t.

Arguments received : simpl never.

Lemma received_app t t' : received (t ++ t') = received t ++ received t'.
Proof. apply omap_app. Qed.

(** Frames for others are not acted upon: when the layer is offline, or the
    master bit, the destination or the source of a frame is not the configured
    one, the only thing that changes is a counter, and the only calls made are
    those that tell the listener about the unknown address. *)
Theorem foreign_frames_ignored (c : LinkContext S) now h d :
  isOnline c = false \/ addressed h = false ->
  exists st o,
    handle config (EvFrame now h d) c = Some (set_trace (trace c ++ o) (set_statistics st c), tt) /\
    Forall (fun x => x = OnUnknownDestinationAddress (dest h) \/ x = OnUnknownSourceAddress (src h)) o /\
    length o <= 1.
Proof.
  intros Hno.
  cut (wp (handle config (EvFrame now h d)) c (fun _ c' => exists st o,
    c' = set_trace (trace c ++ o) (set_statistics st c) /\
    Forall (fun x => x = OnUnknownDestinationAddress (dest h) \/ x = OnUnknownSourceAddress (src h)) o /\
    length o <= 1)).
  { intros Hw. destruct (wp_run _ _ _ Hw) as (c' & [] & He & st & o & -> & Hrest). by exists st, o. }
  unfold handle, Layer.OnFrame, Events.OnFrame. wp_go.
  destruct (isOnline c) eqn:Hon; cbn [negb]; wp_go.
  2: { exists (statistics c), []. rewrite app_nil_r. split; [by destruct c|]. split; [constructor|cbn; lia]. }
  destruct Hno as [|Ha]; [done|]. unfold addressed in Ha.
  destruct (eqb (isFromMaster h) (IsMaster config)); cbn [negb andb] in *; wp_go.
  { exists (let s := statistics c in mkLinkStats (numUnexpectedFrame s) (u32 (numBadMasterBit s + 1))
              (numUnknownDestination s) (numUnknownSource s)), [].
    rewrite app_nil_r. split; [by destruct c|]. split; [constructor|cbn; lia]. }
  destruct (dest h =? LocalAddr config)%Z; cbn [negb andb] in *; unfold call; wp_go.
  2: { eexists _, [OnUnknownDestinationAddress (dest h)]. split; [reflexivity|].
       split; [|cbn; lia]. apply Forall_cons_2; [by left|constructor]. }
  destruct (src h =? RemoteAddr config)%Z, (respondToAnySource config); try done. cbn [negb andb]. wp_go.
  eexists _, [OnUnknownSourceAddress (src h)]. split; [reflexivity|].
  split; [|cbn; lia]. apply Forall_cons_2; [by right|constructor].
Qed.

(** C31: Confirmed user data is delivered once however often it is repeated: in
    the reset state the frame is acknowledged each time, but its message is passed
    up only when its frame count bit is the expected one, and afterwards the
    expected bit is the other one, so that a repetition of the frame is not passed
    up again.  A secondary station that has not been reset, or whose response is
    still on its way, neither acknowledges nor delivers. *)
Theorem confirmed_data_delivered_once (c : LinkContext S) now h d :
  link_inv c -> isOnline c = true -> addressed h = true -> func h = PRI_CONFIRMED_USER_DATA ->
  exists c', Events.OnFrame config now h d c = Some (c', true) /\
    match pSecState c with
    | SLLS_Reset =>
        (exists c1, sent false (frame_bytes (IsMaster config) false false SEC_ACK (src h) (LocalAddr config) [])
                      (set_lastMessageTimestamp now c) c1 /\
           trace c1 `prefix_of` trace c' /\ pendingSecTx c' = pendingSecTx c1 /\ txMode c' = txMode c1) /\
        received (trace c') = received (trace c) ++
          (if eqb (nextReadFCB c) (fcb h) then [mkMessage (ToAddresses h) d] else []) /\
        nextReadFCB c' = negb (fcb h) /\ pSecState c' = SLLS_TransmitWaitReset
    | _ =>
        trace c' = trace c /\ nextReadFCB c' = nextReadFCB c /\ pSecState c' = pSecState c /\
        txMode c' = txMode c /\ pendingSecTx c' = pendingSecTx c
    end.
Proof.
  intros Hi Hon Ha Hf. pose proof Hi as (_ & H2 & _).
  cut (wp (Events.OnFrame config now h d) c (fun r c' => r = true /\
    match pSecState c with
    | SLLS_Reset =>
        (exists c1, sent false (frame_bytes (IsMaster config) false false SEC_ACK (src h) (LocalAddr config) [])
                      (set_lastMessageTimestamp now c) c1 /\
           trace c1 `prefix_of` trace c' /\ pendingSecTx c' = pendingSecTx c1 /\ txMode c' = txMode c1) /\
        received (trace c') = received (trace c) ++
          (if eqb (nextReadFCB c) (fcb h) then [mkMessage (ToAddresses h) d] else []) /\
        nextReadFCB c' = negb (fcb h) /\ pSecState c' = SLLS_TransmitWaitReset
    | _ =>
        trace c' = trace c /\ nextReadFCB c' = nextReadFCB c /\ pSecState c' = pSecState c /\
        txMode c' = txMode c /\ pendingSecTx c' = pendingSecTx c
    end)).
  { intros Hw. destruct (wp_run _ _ _ Hw) as (c' & r & He & -> & Hp). by exists c'. }
  unfold addressed in Ha. apply andb_prop in Ha as [Ha Hsrc]. apply andb_prop in Ha as [Hm Hd].
  apply negb_true_iff in Hm. unfold Events.OnFrame. wp_go. rewrite Hon, Hm, Hd. cbn [negb].
  assert (Hs : negb (src h =? RemoteAddr config)%Z && negb (respondToAnySource config) = false).
  { by destruct (src h =? RemoteAddr config)%Z, (respondToAnySource config). }
  rewrite Hs, Hf. wp_go. unfold Events.sec_step. wp_go. cbn [pSecState set_lastMessageTimestamp].
  destruct (pSecState c) eqn:Hsec; unfold Sec.OnConfirmedUserData, Sec.not_reset, Sec.SLLS_Reset_OnConfirmedUserData; wp_go; try done.
  apply wp_send_sec_header; [exact H2|]. intros c1 Hsent. wp_go.
  destruct (sent_trace _ _ _ _ Hsent) as (_ & _ & _ & _ & Htr).
  assert (Hrec : received (trace c1) = received (trace c) /\ nextReadFCB c1 = nextReadFCB c).
  { destruct Hsent as (a & _ & _ & ->). unfold queued. cbn. destruct (txMode c); cbn; [|done..].
    by rewrite received_app, app_nil_r. }
  destruct Hrec as [Hrec Hfcb]. rewrite Hfcb.
  destruct (eqb (nextReadFCB c) (fcb h)) eqn:He; unfold ToggleReadFCB, PushDataUp, call; wp_go; cbn.
  - apply eqb_prop in He. split; [done|]. split_and!.
    + exists c1. split_and!; try done. by apply prefix_app_r.
    + by rewrite received_app, Hrec.
    + by rewrite Hfcb, He.
    + done.
  - apply eqb_false_iff in He. split; [done|]. split_and!.
    + by exists c1.
    + by rewrite Hrec, app_nil_r.
    + rewrite Hfcb. by destruct (nextReadFCB c), (fcb h).
    + done.
Qed.

End Behaviour.

Section Retries.
Import LinkContext Layer.
Context {S : Type} `{HS : TransportSegmentOk S} (config : LinkLayerConfig).

Fixpoint handle_all (es : list (Event S)) : SM (LinkContext S) unit :=
  match es with
  | [] => mret tt
  | e :: es => _ ← handle config e; handle_all es
  end.

(** The primary station waits for the acknowledgement of the segment [d]; the
    line is free and no keep-alive is due. *)
Definition waiting_ack (c : LinkContext S) (n : nat) (addr : Addresses) (d : bytes) : Prop :=
  link_inv c /\ pPriState c = PLLS_ConfDataWait /\ txMode c = Tx_Idle /\ keepAliveTimeout c = false /\
  numRetryRemaining c = Z.of_nat n /\ GetAddresses (segments c) = addr /\
  exists s, GetSegment (segments c) = Some (s, d).

Definition data_frame (fcb : bool) (addr : Addresses) (d : bytes) : bytes :=
  frame_bytes (IsMaster config) fcb true PRI_CONFIRMED_USER_DATA (destination addr) (source addr) d.

(** A station that has something to do does not start anything else. *)
Lemma TryStart_busy (c : LinkContext S) Q :
  keepAliveTimeout c = false -> pPriState c <> PLLS_Idle -> Q tt c -> wp (Events.TryStartTransmission config) c Q.
Proof.
  intros Hk Hp HQ. assert (Hc : set_pPriState (pPriState c) c = c) by (by destruct c).
  unfold Events.TryStartTransmission. wp_go. rewrite Hk. wp_go. destruct (pSegments c); [|exact HQ].
  unfold Events.pri_step, Pri.TrySendConfirmed, Pri.TrySendUnconfirmed.
  destruct (UseConfirms config); wp_go; destruct (pPriState c); try done; wp_go; by rewrite Hc.
Qed.

Lemma retry_once (c : LinkContext S) n addr d :
  waiting_ack c (Datatypes.S n) addr d ->
  wp (handle_all [EvResponseTimeout; EvTxReady]) c (fun _ c' =>
    waiting_ack c' n addr d /\ nextWriteFCB c' = nextWriteFCB c /\ isRemoteReset c' = isRemoteReset c /\
    trace c' = trace c ++ [transmits true (data_frame (nextWriteFCB c) addr d)]).
Proof.
  intros (Hi & Hp & Hm & Hk & Hn & Ha & s & Hs). cbn [handle_all]. rewrite wp_bind.
  pose proof Hi as (H1 & H2 & H3 & H4 & H5 & H6 & H7 & H8 & H9 & H10 & H11 & H12 & H13).
  rewrite Hm in H5. destruct H5 as [Hp1 Hp2]. rewrite Hp in *.
  specialize (H9 eq_refl). specialize (H10 H9).
  (* the invariant after each event comes from [handle_ok] *)
  eapply wp_mono; [apply wp_and; [apply (handle_ok config c EvResponseTimeout Hi); exact H8|]|].
  { unfold handle, Events.OnResponseTimeout. rewrite wp_bind, wp_modify, wp_bind. unfold Events.pri_step. wp_go.
    cbn [pPriState set_rspTimeoutTimer]. rewrite Hp. unfold Pri.OnTimeout, Pri.PLLS_ResetLinkWait_OnTimeout, Pri.PLLS_ConfDataWait_OnTimeout,
    Pri.PLLS_RequestLinkStatusWait_OnTimeout, Retry. wp_go.
    cbn [numRetryRemaining set_rspTimeoutTimer]. rewrite Hn.
    destruct (Z.ltb_spec 0 (Z.of_nat (Datatypes.S n))) as [_|]; [|lia]. wp_go.
    apply wp_send_confirmed_segment; [exact H1|exact H9|exact H10|].
    intros c1 (s1 & d1 & Hs1 & Hok1 & a & _ & _ & ->).
    change (segments _) with (segments c) in Hs1. rewrite Hs in Hs1. injection Hs1 as <- <-.
    wp_go. apply TryStart_busy; [unfold queued; cbn; by rewrite Hm|done|].
    instantiate (1 := fun _ c1 => pPriState c1 = PLLS_ConfUserDataTransmitWait /\ txMode c1 = Tx_Primary /\
      pendingPriTx c1 = None /\ pendingSecTx c1 = None /\ keepAliveTimeout c1 = false /\
      numRetryRemaining c1 = Z.of_nat n /\ segments c1 = s /\ nextWriteFCB c1 = nextWriteFCB c /\
      isRemoteReset c1 = isRemoteReset c /\
      trace c1 = trace c ++ [transmits true (data_frame (nextWriteFCB c) addr d)]).
    unfold queued. cbn. rewrite Hm. cbn. rewrite Ha. split_and!; try done. lia. }
  intros [] c1 [(Hi1 & _) (Hp1' & Hm1 & Hq1 & Hq2 & Hk1 & Hn1 & Hs1 & Hf1 & Hr1 & Ht1)].
  rewrite wp_bind.
  eapply wp_mono; [apply wp_and; [by apply (handle_ok config c1 EvTxReady Hi1)|]|].
  { unfold handle, Layer.OnTxReady, Events.OnTxReady. wp_go. rewrite Hm1. wp_go.
    unfold Events.TryPendingTx. wp_go. cbn [txMode set_txMode pendingSecTx]. rewrite Hq2. wp_go.
    cbn [txMode set_txMode pendingPriTx]. rewrite Hq1. wp_go. rewrite decide_True by done.
    unfold Events.pri_step. wp_go. cbn [pPriState set_txMode]. rewrite Hp1'.
    unfold Pri.OnTxReady, Pri.PLLS_SendUnconfirmedTransmitWait_OnTxReady, Pri.await_response, StartResponseTimer. wp_go. apply TryStart_busy; [exact Hk1|done|]. wp_go.
    instantiate (1 := fun _ c2 => pPriState c2 = PLLS_ConfDataWait /\ txMode c2 = Tx_Idle /\ keepAliveTimeout c2 = false /\
      numRetryRemaining c2 = Z.of_nat n /\ segments c2 = s /\ nextWriteFCB c2 = nextWriteFCB c /\
      isRemoteReset c2 = isRemoteReset c /\ trace c2 = trace c1).
    cbn. split_and!; done. }
  intros [] c2 [(Hi2 & _) (Hp2' & Hm2 & Hk2 & Hn2 & Hs2 & Hf2 & Hr2 & Ht2)]. wp_go.
  destruct (segment_get _ H10) as (s' & d' & Hg & Hok' & _ & _ & Hagain & _ & Hadd). rewrite Hs in Hg. injection Hg as <- <-.
  unfold waiting_ack. rewrite Hs2, Hadd. split_and!; try done; [by exists s|congruence].
Qed.

Lemma last_timeout (c : LinkContext S) addr d :
  waiting_ack c 0 addr d ->
  wp (handle_all [EvResponseTimeout]) c (fun _ c' =>
    pPriState c' = PLLS_Idle /\ pSegments c' = false /\ isRemoteReset c' = isRemoteReset c /\
    trace c' = trace c ++ [OnStateChange false; PostUpperOnTxReady]).
Proof.
  intros (Hi & Hp & Hm & Hk & Hn & _). cbn [handle_all]. unfold handle, Events.OnResponseTimeout. wp_go.
  unfold Events.pri_step. wp_go. cbn [pPriState set_rspTimeoutTimer]. rewrite Hp. unfold Pri.OnTimeout, Pri.PLLS_ResetLinkWait_OnTimeout, Pri.PLLS_ConfDataWait_OnTimeout,
    Pri.PLLS_RequestLinkStatusWait_OnTimeout, Retry. wp_go.
  cbn [numRetryRemaining set_rspTimeoutTimer]. rewrite Hn. change (0 <? Z.of_nat 0)%Z with false. cbv iota. wp_go.
  unfold CompleteSendOperation, call. wp_go. unfold Events.TryStartTransmission. wp_go.
  match goal with |- context [ keepAliveTimeout ?x ] => change (keepAliveTimeout x) with (keepAliveTimeout c) end.
  rewrite Hk. wp_go. match goal with |- context [ pSegments ?x ] => change (pSegments x) with false end. wp_go.
  cbn. split_and!; try done. by rewrite <- app_assoc.
Qed.

(** Retries are bounded and repeat the same frame: a station that waits for
    an acknowledgement with [n] retries left and gets none sends the identical
    frame, same frame count bit included, exactly [n] more times, then gives up:
    it tells the listener, posts one [OnTxReady] and is idle.  What it believes of
    the remote station ([isRemoteReset]) is not changed by that. *)
Theorem retries_are_bounded (c : LinkContext S) n addr d :
  waiting_ack c n addr d ->
  exists c', handle_all (concat (replicate n [EvResponseTimeout; EvTxReady]) ++ [EvResponseTimeout]) c = Some (c', tt) /\
    pPriState c' = PLLS_Idle /\ pSegments c' = false /\ isRemoteReset c' = isRemoteReset c /\
    trace c' = trace c ++ replicate n (transmits true (data_frame (nextWriteFCB c) addr d)) ++
      [OnStateChange false; PostUpperOnTxReady].
Proof.
  assert (Hall : forall n c, waiting_ack c n addr d ->
    wp (handle_all (concat (replicate n [EvResponseTimeout; EvTxReady]) ++ [EvResponseTimeout])) c (fun _ c' =>
      pPriState c' = PLLS_Idle /\ pSegments c' = false /\ isRemoteReset c' = isRemoteReset c /\
      trace c' = trace c ++ replicate n (transmits true (data_frame (nextWriteFCB c) addr d)) ++
        [OnStateChange false; PostUpperOnTxReady])).
  { clear. induction n as [|n IH]; intros c Hw; [by eapply last_timeout|].
    cbn [replicate concat app]. pose proof (retry_once c n addr d Hw) as H1.
    cbn [handle_all] in *. rewrite wp_bind in *. eapply wp_mono; [exact H1|]. intros a c1 H2.
    rewrite wp_bind in *. eapply wp_mono; [exact H2|]. intros a2 c2 (Hw2 & Hf2 & Hr2 & Ht2).
    eapply wp_mono; [exact (IH c2 Hw2)|]. intros a3 c3 (Hp3 & Hs3 & Hr3 & Ht3).
    split_and!; [done|done|congruence|]. by rewrite Ht3, Ht2, Hf2, <- app_assoc. }
  intros Hw. destruct (wp_run _ _ _ (Hall n c Hw)) as (c' & [] & He & Hp). by exists c'.
Qed.

End Retries.

(** ** Examples and witnesses *)

Section Witnesses.
Import LinkContext Layer.

(** A master at address 1 that talks to the outstation at 1024, with two retries. *)
Definition config0 : LinkLayerConfig := mkLinkLayerConfig true true 2 1 1024 1000 60000 false.

Definition message0 : Message := mkMessage (mkAddresses 1 1024) [0xC0; 0x01; 0x3C; 0x02; 0x06]%Z.

Definition tx0 : TransportTx := mkTransportTx message0 None (replicate 250 0%Z) 0 0 0.

Definition layer0 : LinkContext TransportTx := init (replicate 292 0%Z) (replicate 10 0%Z) 0 tx0.

Definition step_to (c : LinkContext TransportTx) (e : Event TransportTx) : LinkContext TransportTx :=
  match handle config0 e c with Some (c, _) => c | None => c end.

Definition from_outstation (f : LinkFunction) (fcb fcv : bool) : LinkHeaderFields :=
  mkLinkHeaderFields f false fcb fcv 1 1024.

(** Online; the message given to the layer; the reset sent; acknowledged; the
    data sent. *)
Definition layer_up := step_to layer0 (EvLowerLayerUp 0).

Definition layer_reset_out := step_to layer_up (EvSend tx0).

Definition layer_reset_wait := step_to layer_reset_out EvTxReady.

Definition layer_data_out := step_to layer_reset_wait (EvFrame 5 (from_outstation SEC_ACK false false) []).

Definition layer_data_wait := step_to layer_data_out EvTxReady.

(** The remote station resets the link, and the acknowledgement goes out. *)
Definition layer_sec_ack :=
  step_to layer_up (EvFrame 5 (from_outstation PRI_RESET_LINK_STATES false false) []).

Definition layer_sec_reset := step_to layer_sec_ack EvTxReady.

Lemma tx0_ok : tx_ok tx0.
Proof.
  unfold tx_ok. cbn [tpduBuffer tx0 message message0 payload txSegment]. split_and!; try done.
  - apply Forall_replicate. unfold is_u8. lia.
  - repeat (apply Forall_cons_2; [unfold is_u8; lia|]). apply Forall_nil_2.
Qed.

Lemma layer0_reachable : reachable config0 layer0.
Proof. by apply reachable_init. Qed.

Lemma step_reachable c e :
  reachable config0 c -> allowed c e -> reachable config0 (step_to c e).
Proof.
  intros Hr Ha. destruct (wp_run _ _ _ (handle_ok config0 c e (reachable_inv config0 c Hr) Ha)) as (c' & u & He & _).
  unfold step_to. rewrite He. by eapply reachable_step.
Qed.

Lemma layer_up_reachable : reachable config0 layer_up.
Proof. by apply step_reachable; [apply layer0_reachable|]. Qed.

Lemma layer_reset_out_reachable : reachable config0 layer_reset_out.
Proof. apply step_reachable; [apply layer_up_reachable|exact tx0_ok]. Qed.

Lemma layer_data_wait_reachable : reachable config0 layer_data_wait.
Proof.
  apply (step_reachable layer_data_out EvTxReady); [|exact I].
  apply (step_reachable layer_reset_wait (EvFrame 5 (from_outstation SEC_ACK false false) [])); [|exact I].
  apply (step_reachable layer_reset_out EvTxReady); [|exact I]. exact layer_reset_out_reachable.
Qed.

Lemma layer_sec_reset_reachable : reachable config0 layer_sec_reset.
Proof.
  apply (step_reachable layer_sec_ack EvTxReady); [|exact I].
  apply (step_reachable layer_up (EvFrame 5 (from_outstation PRI_RESET_LINK_STATES false false) [])); [|exact I].
  exact layer_up_reachable.
Qed.

(** What the master sends: a reset, then the data with the frame count bit set. *)
Example sends_reset_then_data :
  trace layer_data_wait =
    [OnStateChange false; UpperOnLowerLayerUp;
     transmits true (frame_bytes true false false PRI_RESET_LINK_STATES 1024 1 []);
     transmits true (frame_bytes true true true PRI_CONFIRMED_USER_DATA 1024 1
       [0xC0; 0xC0; 0x01; 0x3C; 0x02; 0x06]%Z);
     OnStateChange true].
Proof. vm_compute. reflexivity. Qed.

Lemma link_layer_safe_witness :
  exists c', handle config0 (EvSend tx0) layer_up = Some (c', tt) /\ reachable config0 c' /\ link_inv c'.
Proof. exact (link_layer_safe config0 layer_up (EvSend tx0) layer_up_reachable tx0_ok). Defined.

(** While the reset frame is on the line, the remote station resets the link. *)
Lemma frames_not_overwritten_witness :
  let e := EvFrame 5 (from_outstation PRI_RESET_LINK_STATES false false) [] in
  (pri_frame_out layer_reset_out -> ~ (completes (S := TransportTx) e = true /\ txMode layer_reset_out = Tx_Primary) ->
     priTxBuffer (step_to layer_reset_out e) = priTxBuffer layer_reset_out) /\
  (sec_frame_out layer_reset_out -> ~ (completes (S := TransportTx) e = true /\ txMode layer_reset_out = Tx_Secondary) ->
     secTxBuffer (step_to layer_reset_out e) = secTxBuffer layer_reset_out).
Proof.
  apply (frames_not_overwritten config0 layer_reset_out
    (step_to layer_reset_out (EvFrame 5 (from_outstation PRI_RESET_LINK_STATES false false) []))
    (EvFrame 5 (from_outstation PRI_RESET_LINK_STATES false false) []) tt).
  - exact layer_reset_out_reachable.
  - exact I.
  - vm_compute. reflexivity.
Defined.

Lemma sends_complete_once_witness :
  posted (trace layer_reset_out) + 0 + (if pSegments layer_reset_out then 1 else 0) = 1.
Proof.
  apply (sends_complete_once config0 (replicate 292 0%Z) (replicate 10 0%Z) 0 tx0
    [EvLowerLayerUp 0; EvSend tx0] 1 0 layer_reset_out).
  - reflexivity.
  - reflexivity.
  - apply (runs_cons config0 layer0 (EvLowerLayerUp 0) layer_up tt [EvSend tx0] 1 0 layer_reset_out);
      [exact I|vm_compute; reflexivity|].
    apply (runs_cons config0 layer_up (EvSend tx0) layer_reset_out tt [] 0 0 layer_reset_out);
      [exact tx0_ok|vm_compute; reflexivity|apply runs_nil].
Defined.

Lemma foreign_frames_ignored_witness :
  let h := mkLinkHeaderFields PRI_CONFIRMED_USER_DATA false true true 7 1024 in
  exists st o,
    handle config0 (EvFrame 5 h [1%Z]) layer_up = Some (set_trace (trace layer_up ++ o) (set_statistics st layer_up), tt) /\
    Forall (fun x => x = OnUnknownDestinationAddress 7 \/ x = OnUnknownSourceAddress 1024) o /\
    length o <= 1.
Proof.
  apply (foreign_frames_ignored config0 layer_up 5
    (mkLinkHeaderFields PRI_CONFIRMED_USER_DATA false true true 7 1024) [1%Z]).
  right. reflexivity.
Defined.

Lemma confirmed_data_delivered_once_witness :
  let h := from_outstation PRI_CONFIRMED_USER_DATA true true in
  exists c', Events.OnFrame config0 6 h [0xC0; 1]%Z layer_sec_reset = Some (c', true) /\
    match pSecState layer_sec_reset with
    | SLLS_Reset =>
        (exists c1, sent false (frame_bytes true false false SEC_ACK 1024 1 [])
                      (set_lastMessageTimestamp 6 layer_sec_reset) c1 /\
           trace c1 `prefix_of` trace c' /\ pendingSecTx c' = pendingSecTx c1 /\ txMode c' = txMode c1) /\
        received (trace c') = received (trace layer_sec_reset) ++
          (if eqb (nextReadFCB layer_sec_reset) true then [mkMessage (ToAddresses h) [0xC0; 1]%Z] else []) /\
        nextReadFCB c' = false /\ pSecState c' = SLLS_TransmitWaitReset
    | _ =>
        trace c' = trace layer_sec_reset /\ nextReadFCB c' = nextReadFCB layer_sec_reset /\
        pSecState c' = pSecState layer_sec_reset /\
        txMode c' = txMode layer_sec_reset /\ pendingSecTx c' = pendingSecTx layer_sec_reset
    end.
Proof.
  apply (confirmed_data_delivered_once config0 layer_sec_reset 6
    (from_outstation PRI_CONFIRMED_USER_DATA true true) [0xC0; 1]%Z).
  - exact (reachable_inv config0 layer_sec_reset layer_sec_reset_reachable).
  - reflexivity.
  - reflexivity.
  - reflexivity.
Defined.

Lemma layer_data_wait_waits :
  waiting_ack layer_data_wait 2 (mkAddresses 1 1024) [0xC0; 0xC0; 0x01; 0x3C; 0x02; 0x06]%Z.
Proof.
  split; [exact (reachable_inv config0 layer_data_wait layer_data_wait_reachable)|].
  repeat (split; [vm_compute; reflexivity|]). eexists. vm_compute. reflexivity.
Qed.

Lemma retries_are_bounded_witness :
  exists c', handle_all config0 (concat (replicate 2 [EvResponseTimeout; EvTxReady]) ++ [EvResponseTimeout]) layer_data_wait
      = Some (c', tt) /\
    pPriState c' = PLLS_Idle /\ pSegments c' = false /\ isRemoteReset c' = isRemoteReset layer_data_wait /\
    trace c' = trace layer_data_wait ++
      replicate 2 (transmits true (data_frame config0 (nextWriteFCB layer_data_wait) (mkAddresses 1 1024)
        [0xC0; 0xC0; 0x01; 0x3C; 0x02; 0x06]%Z)) ++
      [OnStateChange false; PostUpperOnTxReady].
Proof. exact (retries_are_bounded config0 layer_data_wait 2 _ _ layer_data_wait_waits). Defined.

End Witnesses.
