(* ===== verification/TransportStack.v ===== *)
(** * TransportStack: the transport layer on its link layer (opendnp3/transport:
    TransportLayer, TransportStack)

    A [TransportStack] owns both layers.  The link layer's pointer to what it sends is a
    pointer to the transmitter inside the transport layer, so there is one transmitter
    in the state: [segments] of the link. *)

From S2P Require Import Prelude Slices Serialization Crc LinkFrame LinkParser Transport LinkLayer.

(** ** Data *)

(** [TransportLayer]; both neighbours are attached when the stack is made, and the
    transmitter is in the link. *)
Record TransportLayer := mkTransportLayer { tl_isOnline : bool; tl_isSending : bool; receiver : TransportRx }.

(** The calls of the application layer. *)
Inductive AppCall :=
  | AppOnReceive (asdu : Message)
  | AppOnTxReady
  | AppOnLowerLayerUp
  | AppOnLowerLayerDown.

(** The stack, the number of callbacks in the queue of the executor ([OnTxReady] of the
    transport layer), and the calls made to the application layer. *)
Record TransportStack := mkTransportStack {
  transport : TransportLayer;
  link : LinkContext TransportTx;
  posted_ready : nat;
  app_calls : list AppCall
}.

Definition set_transport (t : TransportLayer) (k : TransportStack) : TransportStack :=
  mkTransportStack t (link k) (posted_ready k) (app_calls k).

Definition set_link (c : LinkContext TransportTx) (k : TransportStack) : TransportStack :=
  mkTransportStack (transport k) c (posted_ready k) (app_calls k).

Definition set_posted_ready (n : nat) (k : TransportStack) : TransportStack :=
  mkTransportStack (transport k) (link k) n (app_calls k).

Definition set_app_calls (l : list AppCall) (k : TransportStack) : TransportStack :=
  mkTransportStack (transport k) (link k) (posted_ready k) l.

Definition set_tl_isOnline (b : bool) (k : TransportStack) : TransportStack :=
  let t := transport k in set_transport (mkTransportLayer b (tl_isSending t) (receiver t)) k.

Definition set_tl_isSending (b : bool) (k : TransportStack) : TransportStack :=
  let t := transport k in set_transport (mkTransportLayer (tl_isOnline t) b (receiver t)) k.

Definition set_receiver (r : TransportRx) (k : TransportStack) : TransportStack :=
  let t := transport k in set_transport (mkTransportLayer (tl_isOnline t) (tl_isSending t) r) k.

Definition set_transmitter (t : TransportTx) (k : TransportStack) : TransportStack := set_link (set_segments t (link k)) k.

(** ** TransportLayer *)

Module TransportLayer.
Section Methods.
Context (config : LinkLayerConfig).

#[local] Abbreviation M := (SM TransportStack).

Definition app (c : AppCall) : M unit := modify (fun k => set_app_calls (app_calls k ++ [c]) k).

(** A method of the link layer. *)
Definition lower {A} (f : SM (LinkContext TransportTx) A) : M A := fun k =>
  '(c, a) ← f (link k); Some (set_link c k, a).

Definition BeginTransmit (message : Message) : M bool :=
  t ← get transport;
  if negb (tl_isOnline t) then mret false
  else if negb (RSlice.IsNotEmpty (payload message)) then mret false
  else if tl_isSending t then mret false
  else
    _ ← modify (set_tl_isSending true);
    transmitter ← get (fun k => segments (link k));
    transmitter ← lift (TransportTx.Configure transmitter message);
    _ ← modify (set_transmitter transmitter);
    _ ← lower (Layer.Send config transmitter);
    mret true.

Definition OnReceive (message : Message) : M bool :=
  t ← get transport;
  if tl_isOnline t then
    '(r, asdu) ← lift (TransportRx.ProcessReceive (receiver t) message);
    _ ← modify (set_receiver r);
    _ ← (if RSlice.IsNotEmpty (payload asdu) then app (AppOnReceive asdu) else mret tt);
    mret true
  else mret false.

Definition OnTxReady : M bool :=
  t ← get transport;
  if negb (tl_isOnline t) then mret false
  else if negb (tl_isSending t) then mret false
  else
    _ ← modify (set_tl_isSending false);
    _ ← app AppOnTxReady;
    mret true.

Definition OnLowerLayerUp : M bool :=
  t ← get transport;
  if tl_isOnline t then mret false
  else
    _ ← modify (set_tl_isOnline true);
    _ ← app AppOnLowerLayerUp;
    mret true.

Definition OnLowerLayerDown : M bool :=
  t ← get transport;
  if negb (tl_isOnline t) then mret false
  else
    _ ← modify (set_tl_isOnline false);
    _ ← modify (set_tl_isSending false);
    _ ← modify (fun k => set_receiver (TransportRx.Reset (receiver (transport k))) k);
    _ ← app AppOnLowerLayerDown;
    mret true.

End Methods.
End TransportLayer.

(** ** The stack *)

(** What reaches a stack: a message of the application layer, an event of the link layer,
    and the next callback in the queue of the executor. *)
Inductive StackEvent :=
  | Transmit (message : Message)
  | FromBelow (e : Layer.Event TransportTx)
  | RunReady.

Module Stack.
Section Events.
Context (config : LinkLayerConfig).

#[local] Abbreviation M := (SM TransportStack).

(** The constructor. *)
Definition init (pri sec tpdu rx : bytes) (now : Z) : TransportStack :=
  mkTransportStack (mkTransportLayer false false (TransportRx.init rx)) (LinkContext.init pri sec now (TransportTx.init tpdu)) 0 [].

(** A call that the link layer makes to its upper layer. *)
Definition upcall (o : Output) : M unit :=
  match o with
  | UpperOnReceive message => _ ← TransportLayer.OnReceive message; mret tt
  | UpperOnLowerLayerUp => _ ← TransportLayer.OnLowerLayerUp; mret tt
  | UpperOnLowerLayerDown => _ ← TransportLayer.OnLowerLayerDown; mret tt
  | PostUpperOnTxReady => modify (fun k => set_posted_ready (S (posted_ready k)) k)
  | _ => mret tt
  end.

Fixpoint upcalls (outputs : list Output) : M unit :=
  match outputs with
  | [] => mret tt
  | o :: outputs => _ ← upcall o; upcalls outputs
  end.

(** An event, then the calls that the link layer made, in their order: what the link layer
    does after a call in the same event does not depend on the transport layer.  What the
    application does in answer to a call is an event of its own. *)
Definition with_upcalls (m : M unit) : M unit :=
  before ← get (fun k => length (trace (link k)));
  _ ← m;
  outputs ← get (fun k => drop before (trace (link k)));
  upcalls outputs.

Definition handle (e : StackEvent) : M unit :=
  match e with
  | Transmit message => with_upcalls (_ ← TransportLayer.BeginTransmit config message; mret tt)
  | FromBelow e => with_upcalls (TransportLayer.lower (Layer.handle config e))
  | RunReady =>
      n ← get posted_ready;
      match n with
      | S n => _ ← modify (set_posted_ready n); _ ← TransportLayer.OnTxReady; mret tt
      | O => mret tt
      end
  end.

Fixpoint run (es : list StackEvent) : M unit :=
  match es with
  | [] => mret tt
  | e :: es => _ ← handle e; run es
  end.

End Events.
End Stack.

(** ** Lemmas: what an event of the link layer leaves alone *)

(** The frames that are handed to the channel. *)
Definition wire (o : list Output) : list bytes := omap (fun x => match x with BeginTransmit _ _ f => Some f | _ => None end) o.

Lemma wire_app o o' : wire (o ++ o') = wire o ++ wire o'.
Proof. apply omap_app. Qed.

(** Whether the line is taken. *)
Definition busy {S} (c : LinkContext S) : nat := match txMode c with Tx_Idle => 0 | _ => 1 end.

Section Steps.
Import LinkContext.
Context {S : Type} `{ITransportSegment S} (config : LinkLayerConfig).
(** A property of what is sent that reading and advancing keep, and the outputs that a
    step may make. *)
Context (P : S -> Prop) (HP : forall s s' d, P s -> GetSegment s = Some (s', d) -> P s') (HA : forall s, P s -> P (Advance s).1).
Context (out : Output -> bool).

Definition reaches (c c' : LinkContext S) : Prop :=
  (P (segments c) -> P (segments c')) /\ isOnline c' = isOnline c /\
  exists o, trace c' = trace c ++ o /\ Forall (fun x => out x = true) o /\ busy c' = busy c + length (wire o).

Definition link_step {A} (m : SM (LinkContext S) A) : Prop := forall c c' a, m c = Some (c', a) -> reaches c c'.

Lemma reaches_same (c c' : LinkContext S) :
  segments c' = segments c -> isOnline c' = isOnline c -> trace c' = trace c -> txMode c' = txMode c -> reaches c c'.
Proof.
  intros Hs Ho Ht Hm. split; [by rewrite Hs|]. split; [done|]. exists []. rewrite Ht, app_nil_r. split_and!; [done|done|]. unfold busy. rewrite Hm. cbn. lia.
Qed.

Lemma reaches_trans (c1 c2 c3 : LinkContext S) : reaches c1 c2 -> reaches c2 c3 -> reaches c1 c3.
Proof.
  intros (S1 & O1 & o1 & T1 & F1 & B1) (S2 & O2 & o2 & T2 & F2 & B2). split; [auto|]. split; [congruence|].
  exists (o1 ++ o2). rewrite T2, T1, app_assoc. split; [done|]. split; [by apply Forall_app_2|]. rewrite wire_app, length_app. lia.
Qed.

Lemma step_ret {A} (a : A) : link_step (mret a).
Proof. intros c c' b [= <- <-]. by apply reaches_same. Qed.

Lemma step_bind {A B} (m : SM (LinkContext S) A) (f : A -> SM (LinkContext S) B) : link_step m -> (forall a, link_step (f a)) -> link_step (a ← m; f a).
Proof.
  intros Hm Hf c c' b. unfold mbind, SM_bind. destruct (m c) as [[c1 a]|] eqn:He; [|done]. intros Hb.
  eapply reaches_trans; [by eapply Hm|by eapply Hf].
Qed.

Lemma step_get {A} (f : LinkContext S -> A) : link_step (get f).
Proof. intros c c' b [= <- <-]. by apply reaches_same. Qed.

Lemma step_modify (f : LinkContext S -> LinkContext S) :
  (forall c, segments (f c) = segments c /\ isOnline (f c) = isOnline c /\ trace (f c) = trace c /\ txMode (f c) = txMode c) -> link_step (modify f).
Proof. intros Hf c c' b [= <- <-]. destruct (Hf c) as (? & ? & ? & ?). by apply reaches_same. Qed.

Lemma step_lift {A} (o : option A) : link_step (lift o).
Proof. intros c c' b. unfold lift. destruct o; [|done]. cbn. intros [= <- <-]. by apply reaches_same. Qed.

Lemma step_call o : out o = true -> wire [o] = [] -> link_step (call o).
Proof.
  intros Ho Hw c c' b [= <- <-]. split; [done|]. split; [done|]. exists [o]. split; [done|]. split; [by constructor|]. rewrite Hw. unfold busy. cbn. lia.
Qed.

Lemma step_segments {A} (f : S -> option (S * A)) : (forall s s' a, P s -> f s = Some (s', a) -> P s') -> link_step (with_segments f).
Proof.
  intros Hf c c' b. unfold with_segments. destruct (pSegments c); [|done]. destruct (f (segments c)) as [[s a]|] eqn:He; [|done]. cbn.
  intros [= <- <-]. split; [intros Hs; by eapply Hf|]. split; [done|]. exists []. rewrite app_nil_r. split_and!; [done|done|]. unfold busy. cbn. lia.
Qed.

Lemma step_format_pri f : link_step (format_pri f).
Proof. intros c c' b. unfold format_pri. destruct (f _) as [[w v]|]; [|done]. cbn. intros [= <- <-]. by apply reaches_same. Qed.

Lemma step_format_sec f : link_step (format_sec f).
Proof. intros c c' b. unfold format_sec. destruct (f _) as [[w v]|]; [|done]. cbn. intros [= <- <-]. by apply reaches_same. Qed.

End Steps.

(** Splits a method of the link layer into its steps. *)
Ltac link_steps :=
  repeat match goal with
  | |- link_step _ _ (mret _) => apply step_ret
  | |- link_step _ _ (get _) => apply step_get
  | |- link_step _ _ (lift _) => apply step_lift
  | |- link_step _ _ (mbind _ _) => apply step_bind; [|intros ?]
  | |- link_step _ _ (LinkContext.format_pri _) => apply step_format_pri
  | |- link_step _ _ (LinkContext.format_sec _) => apply step_format_sec
  | |- link_step _ _ (modify _) => apply step_modify; by intros ?
  | |- link_step _ _ (LinkContext.call _) => apply step_call; [done || auto|reflexivity]
  | |- link_step _ _ (if ?b then _ else _) => destruct b
  | |- link_step _ _ (match ?x with _ => _ end) => destruct x
  | |- forall _, _ => intros ?
  end.

Section Methods.
Import LinkContext Layer.
Context {S : Type} `{ITransportSegment S} (config : LinkLayerConfig).
Context (P : S -> Prop) (HP : forall s s' d, P s -> GetSegment s = Some (s', d) -> P s') (HA : forall s, P s -> P (Advance s).1).

Lemma step_GetSegment out : link_step P out Segments_GetSegment.
Proof. apply step_segments. exact HP. Qed.

Lemma step_GetAddresses out : link_step P out Segments_GetAddresses.
Proof. apply step_segments. by intros s s' a Hs [= <- <-]. Qed.

Lemma step_Advance out : link_step P out Segments_Advance.
Proof. apply step_segments. intros s s' a Hs [= Ha]. pose proof (HA s Hs) as H'. by rewrite Ha in H'. Qed.

(** Only transmissions of the primary station start. *)
Definition starts (o : Output) : bool := match o with BeginTransmit _ _ _ | OnKeepAliveInitiated => true | _ => false end.

(** No news about the lower layer. *)
Definition steady (o : Output) : bool := match o with UpperOnLowerLayerUp | UpperOnLowerLayerDown => false | _ => true end.

Lemma step_QueueTransmit out v primary : (forall p v f, out (BeginTransmit p v f) = true) -> link_step P out (QueueTransmit v primary).
Proof.
  intros Ho c c' a. unfold QueueTransmit, LinkTx_BeginTransmit, call, lift, mbind, SM_bind, get, modify, mret, SM_ret.
  destruct (txMode c) eqn:Hm; [|destruct primary; intros [= <- <-]; by apply reaches_same..].
  destruct (view_bytes _ v) as [f|]; [|done]. intros [= <- <-]. split; [done|]. split; [done|]. exists [BeginTransmit primary v f].
  split; [done|]. split; [by constructor|]. unfold busy. rewrite Hm. by destruct primary.
Qed.

Lemma step_TryPendingTx out primary : (forall p v f, out (BeginTransmit p v f) = true) -> link_step P out (Events.TryPendingTx primary).
Proof.
  intros Ho c c' a. unfold Events.TryPendingTx, LinkTx_BeginTransmit, call, lift, mbind, SM_bind, get, modify, mret, SM_ret.
  destruct (txMode c) eqn:Hm; [|intros [= <- <-]; by apply reaches_same..]. destruct ((if primary then pendingPriTx else pendingSecTx) c) as [v|]; [|intros [= <- <-]; by apply reaches_same].
  destruct (view_bytes _ v) as [f|]; [|done]. intros [= <- <-].
  cut (reaches P out c (set_trace (trace c ++ [BeginTransmit primary v f]) (set_txMode (if primary then Tx_Primary else Tx_Secondary) c))); [by destruct primary|].
  split; [done|]. split; [done|]. exists [BeginTransmit primary v f]. split; [done|]. split; [by constructor|]. unfold busy. rewrite Hm. by destruct primary.
Qed.

Lemma step_send_segment out (confirmed : bool) : (forall p v f, out (BeginTransmit p v f) = true) ->
  link_step P out (if confirmed then Pri.send_confirmed_segment config else Pri.send_unconfirmed_segment config).
Proof.
  intros Ho. destruct confirmed; unfold Pri.send_confirmed_segment, Pri.send_unconfirmed_segment, FormatPrimaryBufferWithConfirmed, FormatPrimaryBufferWithUnconfirmed;
    link_steps; first [apply step_GetAddresses|apply step_GetSegment|by apply step_QueueTransmit].
Qed.

Lemma step_pri_step out (f : PriState -> SM (LinkContext S) PriState) : (forall s, link_step P out (f s)) -> link_step P out (Events.pri_step f).
Proof. intros Hf. unfold Events.pri_step. link_steps. apply Hf. Qed.

Lemma step_sec_step out (f : SecState -> SM (LinkContext S) SecState) : (forall s, link_step P out (f s)) -> link_step P out (Events.sec_step f).
Proof. intros Hf. unfold Events.sec_step. link_steps. apply Hf. Qed.

Lemma step_TryStartTransmission out : (forall o, starts o = true -> out o = true) -> link_step P out (Events.TryStartTransmission config).
Proof.
  intros Ho. assert (Hb : forall p v f, out (BeginTransmit p v f) = true) by (intros; by apply Ho).
  unfold Events.TryStartTransmission. link_steps; apply step_pri_step; intros s;
    unfold Pri.TrySendRequestLinkStatus, Pri.TrySendConfirmed, Pri.TrySendUnconfirmed, Pri.PLLS_Idle_TrySendConfirmed, Pri.PLLS_Idle_TrySendRequestLinkStatus,
      ResetRetry, QueueResetLinks, QueueRequestLinkStatus; link_steps;
    first [by apply step_QueueTransmit|apply step_GetAddresses|by apply (step_send_segment out true)|by apply (step_send_segment out false)|by apply Ho].
Qed.


Lemma starts_steady o : starts o = true -> steady o = true.
Proof. by destruct o. Qed.

Lemma step_pri_OnTxReady s : link_step P steady (Pri.OnTxReady config s).
Proof.
  unfold Pri.OnTxReady, Pri.PLLS_SendUnconfirmedTransmitWait_OnTxReady, Pri.await_response, StartResponseTimer, CompleteSendOperation.
  link_steps; [apply step_Advance|by apply (step_send_segment steady false)].
Qed.

Lemma step_sec_OnTxReady s : link_step P steady (Sec.OnTxReady s).
Proof. unfold Sec.OnTxReady. link_steps. Qed.

Lemma step_after_tx primary : link_step P steady
  (_ ← Events.TryPendingTx false; _ ← Events.TryPendingTx true;
   _ ← (if (primary : bool) then Events.pri_step (Pri.OnTxReady config) else Events.sec_step Sec.OnTxReady); mret true).
Proof.
  link_steps; first [by apply step_TryPendingTx|apply step_pri_step, step_pri_OnTxReady|apply step_sec_step, step_sec_OnTxReady].
Qed.

(** The end of a transmission frees the line first. *)
Lemma step_OnTxReady c c' a : Layer.OnTxReady config c = Some (c', a) -> reaches P steady (set_txMode Tx_Idle c) c'.
Proof.
  unfold Layer.OnTxReady. unfold mbind at 1, SM_bind at 1. destruct (Events.OnTxReady config c) as [[c1 ret]|] eqn:H1; [|done]. intros H2.
  apply (reaches_trans _ _ _ c1).
  - revert H1. unfold Events.OnTxReady. unfold mbind at 1, SM_bind at 1, get at 1. destruct (txMode c) eqn:Hm; [intros [= <- <-]; by apply reaches_same| |].
    + exact (step_after_tx true (set_txMode Tx_Idle c) c1 ret).
    + exact (step_after_tx false (set_txMode Tx_Idle c) c1 ret).
  - revert H2. assert (Hs : link_step P steady (_ ← (if ret then Events.TryStartTransmission config else mret tt); mret true)); [|exact (Hs c1 c' a)].
    link_steps; apply step_TryStartTransmission, starts_steady.
Qed.

Lemma step_pri_frame (f : LinkFunction) (b : bool) s :
  link_step P steady match f with
  | SEC_ACK => Pri.OnAck config s b | SEC_NACK => Pri.OnNack config s b
  | SEC_LINK_STATUS => Pri.OnLinkStatus s b | _ => Pri.OnNotSupported s b end.
Proof.
  destruct f; unfold Pri.OnAck, Pri.OnNack, Pri.OnLinkStatus, Pri.OnNotSupported, Pri.PLLS_ResetLinkWait_OnAck, Pri.PLLS_ConfDataWait_OnAck,
    Pri.PLLS_ConfDataWait_OnNack, Pri.PLLS_RequestLinkStatusWait_OnNack, Pri.PLLS_RequestLinkStatusWait_OnLinkStatus,
    Pri.PLLS_RequestLinkStatusWait_OnNotSupported, Pri.Failure, Pri.unexpected, FailKeepAlive, CompleteKeepAlive, CompleteSendOperation,
    QueueResetLinks, ResetRetry, ResetWriteFCB, ToggleWriteFCB, CancelTimer, count_unexpected; link_steps;
    first [apply step_Advance|apply step_GetAddresses|by apply step_QueueTransmit|by apply (step_send_segment steady true)].
Qed.

Lemma step_OnFrame now h d : link_step P steady (Layer.OnFrame config now h d).
Proof.
  unfold Layer.OnFrame, Events.OnFrame, count_bad_master, count_unknown_dest, count_unknown_src, PushDataUp. link_steps;
    try (apply step_TryStartTransmission, starts_steady); (apply step_pri_step || apply step_sec_step); intros s.
  all: try (by apply (step_pri_frame SEC_ACK)); try (by apply (step_pri_frame SEC_NACK)); try (by apply (step_pri_frame SEC_LINK_STATUS));
    try (by apply (step_pri_frame SEC_NOT_SUPPORTED)).
  all: unfold Sec.OnResetLinkStates, Sec.OnTestLinkStatus, Sec.OnConfirmedUserData, Sec.OnRequestLinkStatus, Sec.accept_reset, Sec.report_status,
    Sec.not_reset, Sec.SLLS_Reset_OnTestLinkStatus, Sec.SLLS_Reset_OnConfirmedUserData, QueueAck, QueueLinkStatus, ResetReadFCB, ToggleReadFCB, PushDataUp,
    count_unexpected; link_steps; by apply step_QueueTransmit.
Qed.

Lemma step_OnResponseTimeout : link_step P steady (Events.OnResponseTimeout config).
Proof.
  unfold Events.OnResponseTimeout. link_steps; [|apply step_TryStartTransmission, starts_steady]. apply step_pri_step. intros s.
  unfold Pri.OnTimeout, Pri.PLLS_ResetLinkWait_OnTimeout, Pri.PLLS_ConfDataWait_OnTimeout, Pri.PLLS_RequestLinkStatusWait_OnTimeout, Pri.unexpected, Pri.Failure,
    Retry, FailKeepAlive, CompleteSendOperation, QueueResetLinks, CancelTimer, count_unexpected.
  link_steps; first [apply step_GetAddresses|apply step_GetSegment|by apply step_QueueTransmit|by apply (step_send_segment steady true)].
Qed.

Lemma step_OnKeepAliveTimeout now : link_step P steady (Events.OnKeepAliveTimeout config now).
Proof. unfold Events.OnKeepAliveTimeout, StartKeepAliveTimer. link_steps; apply step_TryStartTransmission, starts_steady. Qed.

(** The events that neither send nor bring news about the lower layer. *)
Definition steady_event (e : Layer.Event S) : bool :=
  match e with Layer.EvSend _ | Layer.EvLowerLayerUp _ | Layer.EvLowerLayerDown => false | _ => true end.

(** The layer with the line as it is when an event starts to send. *)
Definition line_at (e : Layer.Event S) (c : LinkContext S) : LinkContext S := match e with Layer.EvTxReady => set_txMode Tx_Idle c | _ => c end.

Lemma line_at_same e c : segments (line_at e c) = segments c /\ isOnline (line_at e c) = isOnline c /\ trace (line_at e c) = trace c.
Proof. by destruct e. Qed.

Lemma step_handle e c c' a : steady_event e = true -> Layer.handle config e c = Some (c', a) -> reaches P steady (line_at e c) c'.
Proof.
  destruct e as [| | | | | |]; try done; intros _; cbn [Layer.handle line_at].
  - unfold mbind, SM_bind. destruct (Layer.OnTxReady config c) as [[c1 ret]|] eqn:H1; [|done]. intros [= <- <-]. by eapply step_OnTxReady.
  - assert (Hs : link_step P steady (_ ← Layer.OnFrame config now header userdata; mret tt)); [|exact (Hs c c' a)].
    apply step_bind; [apply step_OnFrame|intros; apply step_ret].
  - exact (step_OnResponseTimeout c c' a).
  - exact (step_OnKeepAliveTimeout now c c' a).
Qed.

Lemma step_Send s (c c' : LinkContext S) a : P s -> Layer.Send config s c = Some (c', a) ->
  reaches P steady c c'.
Proof.
  intros Hs. change (Layer.Send config s c = Some (c', a) -> reaches P steady c c').
  unfold Layer.Send, Events.SetTxSegment, mbind, SM_bind, get, modify, mret, SM_ret.
  destruct (isOnline c) eqn:Hon; cbn [negb]; [|intros [= <- <-]; by apply reaches_same]. rewrite Hon. cbn [negb].
  destruct (pSegments c); [intros [= <- <-]; by apply reaches_same|].
  destruct (Events.TryStartTransmission config _) as [[c1 u]|] eqn:Ht; [|done]. intros [= <- <-].
  apply (step_TryStartTransmission steady starts_steady) in Ht as (H1 & H2 & H3). split; [intros _; by apply H1|]. split; [by rewrite H2|exact H3].
Qed.

End Methods.

(** ** The transmitter and the receiver *)

Section Transport.

(** What holds of a transmitter at all times, whatever it sends. *)
Definition tx_class (t : TransportTx) : Prop :=
  length (tpduBuffer t) = MAX_TPDU_LENGTH /\ bytes_ok (tpduBuffer t) /\ bytes_ok (payload (message t)) /\ is_seq (sequence t).

Lemma tx_class_GetSegment (t t' : TransportTx) d : tx_class t -> GetSegment t = Some (t', d) -> tx_class t'.
Proof.
  cbn [GetSegment TransportTx_ITransportSegment]. intros (Hl & Hb & Hp & Hs). unfold TransportTx.GetSegment. destruct (txSegment t) as [n|].
  { destruct (mem_read _ _ _) as [x|]; [|done]. cbn. by intros [= <- <-]. }
  rewrite numToSend_min, Take_take. set (n := min 249 _). set (dest := WSlice.Skip _ _).
  assert (Hd : dest = mkWSlice (tpduBuffer t) 1 249) by reflexivity.
  destruct (CopyTo_spec (take n (payload (message t))) dest) as (a & Ha & ->).
  { rewrite Hd. unfold WSlice.wf. cbn. unfold MAX_TPDU_LENGTH in Hl. lia. }
  { rewrite Hd. cbn [ws_size]. len. }
  rewrite Hd in *. cbn [mbind option_bind ws_array ws_pos] in *.
  destruct (mem_write a _ _) as [m|] eqn:Hw; [|done]. cbn [mbind option_bind]. destruct (mem_read m _ _) as [x|]; [|done]. cbn [mbind option_bind].
  intros [= <- <-]. split_and!; cbn; [by rewrite (mem_write_length _ _ _ _ Hw), (mem_write_length _ _ _ _ Ha)| |done|done].
  eapply mem_write_ok; [exact Hw| |by constructor; [apply ToByte_u8|]]. eapply mem_write_ok; [exact Ha|done|by apply Forall_take].
Qed.

Lemma tx_class_Advance (t : TransportTx) : tx_class t -> tx_class (Advance t).1.
Proof.
  intros (Hl & Hb & Hp & Hs). split_and!; cbn; [done|done| |by apply is_seq_next]. rewrite Advance_drop. by apply Forall_drop.
Qed.

Lemma tx_class_init tpdu : length tpdu = MAX_TPDU_LENGTH -> bytes_ok tpdu -> tx_class (TransportTx.init tpdu).
Proof. intros Hl Hb. split_and!; [done|done|constructor|]. unfold is_seq. cbn. lia. Qed.

Lemma tx_class_Configure t m : tx_class t -> payload m <> [] -> bytes_ok (payload m) ->
  exists t', TransportTx.Configure t m = Some t' /\ tx_class t' /\ tx_ok t' /\ message t' = m /\ tpduCount t' = 0%Z /\ sequence t' = sequence t.
Proof.
  intros (Hl & Hb & _ & Hs) Hne Hp. destruct (Configure_ok t m Hl Hb Hne Hp) as (t' & He & Hok & Hm & Hc & Hq).
  exists t'. split; [done|]. split; [|done]. destruct Hok as (Hl' & Hb' & _ & Hp' & _). split_and!; [done|done|done|by rewrite Hq].
Qed.

(** A receiver takes any segment. *)
Lemma ProcessReceive_total r s : rx_ok r -> exists r' m, TransportRx.ProcessReceive r s = Some (r', m) /\ rx_ok r' /\ length (rxBuffer r') = length (rxBuffer r).
Proof.
  intros Hok.
  assert (Hdec : {acceptable r s /\ length (kept r s) + length (body s) <= length (rxBuffer r)} +
                 {~ (acceptable r s /\ length (kept r s) + length (body s) <= length (rxBuffer r))})
    by (unfold acceptable; apply decide; apply _).
  destruct Hdec as [[Hacc Hfit]|Hrej].
  - destruct (process_accepts r s Hok Hacc Hfit) as (r' & -> & Hok' & Hl & _). by eexists _, _.
  - destruct (process_rejects r s Hok Hrej) as (r' & -> & Hbuf & Hst). eexists _, _. split; [done|]. unfold rx_ok in *. rewrite Hbuf.
    split; [|done]. destruct Hst as [->|(-> & _)]; [lia|done].
Qed.

Lemma ProcessReceive_buffer r s r' m : rx_ok r -> TransportRx.ProcessReceive r s = Some (r', m) -> rx_ok r' /\ length (rxBuffer r') = length (rxBuffer r).
Proof. intros Hok He. destruct (ProcessReceive_total r s Hok) as (r1 & m1 & He1 & H1 & H2). rewrite He1 in He. by injection He as <- <-. Qed.

Lemma ProcessAll_buffer ss : forall r r' ms, rx_ok r -> TransportRx.ProcessAll r ss = Some (r', ms) -> length (rxBuffer r') = length (rxBuffer r).
Proof.
  induction ss as [|s ss IH]; intros r r' ms Hok He; [by injection He as <- _|]. cbn [TransportRx.ProcessAll] in He.
  destruct (TransportRx.ProcessReceive r s) as [[r1 m]|] eqn:H1; [|done]. cbn [mbind option_bind] in He. destruct (ProcessReceive_buffer _ _ _ _ Hok H1) as [Hok1 <-].
  destruct (TransportRx.ProcessAll r1 ss) as [[r2 ms2]|] eqn:H2; [|done]. injection He as <- _. by eapply IH.
Qed.

End Transport.

(** ** The invariant of a stack *)

Section Invariant.
Import LinkContext Layer.
Context (config : LinkLayerConfig).
Implicit Types (k : TransportStack) (c : LinkContext TransportTx).

(** [timely]: no callback of an earlier connection is left in the queue. *)
Record stack_ok (timely : bool) k : Prop := mkStackOk {
  st_link : link_inv (link k);
  st_tx : tx_class (segments (link k));
  st_rx : rx_ok (receiver (transport k));
  st_online : tl_isOnline (transport k) = isOnline (link k);
  st_offline : tl_isOnline (transport k) = false -> tl_isSending (transport k) = false;
  st_sending : tl_isSending (transport k) = true -> pSegments (link k) = true \/ 0 < posted_ready k;
  st_timely : timely = true -> posted_ready k + Nat.b2n (pSegments (link k)) = Nat.b2n (tl_isSending (transport k))
}.

(** Calls of the upper layer that bring no news about the lower layer. *)
Lemma upcalls_ok os : forall k, rx_ok (receiver (transport k)) -> Forall (fun o => steady o = true) os ->
  wp (Stack.upcalls os) k (fun _ k' => link k' = link k /\ rx_ok (receiver (transport k')) /\
    tl_isOnline (transport k') = tl_isOnline (transport k) /\ tl_isSending (transport k') = tl_isSending (transport k) /\
    posted_ready k' = posted_ready k + posted os).
Proof.
  induction os as [|o os IH]; intros k Hr Hf; cbn [Stack.upcalls]; [rewrite wp_ret; split_and!; try done; unfold posted; cbn; lia|].
  apply Forall_cons_1 in Hf as [Ho Hf]. rewrite wp_bind.
  assert (Hone : wp (Stack.upcall o) k (fun _ k' => link k' = link k /\ rx_ok (receiver (transport k')) /\
    tl_isOnline (transport k') = tl_isOnline (transport k) /\ tl_isSending (transport k') = tl_isSending (transport k) /\
    posted_ready k' = posted_ready k + posted [o])).
  { destruct o; try done; cbn [Stack.upcall]; try (rewrite wp_ret; split_and!; try done; unfold posted; cbn; lia).
    - unfold TransportLayer.OnReceive. wp_go. destruct (tl_isOnline (transport k)) eqn:Hon; wp_go; [|split_and!; (done || unfold posted; cbn; lia)].
      destruct (ProcessReceive_total (receiver (transport k)) message Hr) as (r & m & He & Hok & _). unfold lift. rewrite He. unfold wp at 1. cbn [mbind option_bind].
      wp_go. destruct (RSlice.IsNotEmpty (payload m)); unfold TransportLayer.app; wp_go; (split_and!; try done; unfold posted; cbn; lia).
    - rewrite wp_modify. split_and!; [done|done|done|done|]. unfold posted. cbn. lia. }
  eapply wp_mono; [exact Hone|]. cbv beta. intros _ k1 (L1 & R1 & O1 & S1 & P1). eapply wp_mono; [by apply IH|]. cbv beta.
  intros _ k2 (L2 & R2 & O2 & S2 & P2). split_and!; [congruence|done|congruence|congruence|]. rewrite P2, P1. change (o :: os) with ([o] ++ os). rewrite posted_app. lia.
Qed.


(** Callbacks of the executor come before the loss of the lower layer, when the stack is timely. *)
Definition stack_allowed (timely : bool) k (e : StackEvent) : Prop :=
  match e with
  | Transmit m => bytes_ok (payload m)
  | FromBelow (EvSend _) => False
  | FromBelow EvLowerLayerDown => timely = true -> posted_ready k = 0
  | FromBelow e => allowed (link k) e
  | RunReady => True
  end.

(** What an event of the link layer leaves, as seen from the stack. *)
Definition link_moved (freed : nat) (c c' : LinkContext TransportTx) (o : list Output) : Prop :=
  link_inv c' /\ tx_class (segments c') /\ trace c' = trace c ++ o /\ posted o + Nat.b2n (pSegments c') + freed = Nat.b2n (pSegments c).

Lemma b2n_if (b : bool) : (if b then 1 else 0) = Nat.b2n b.
Proof. by destruct b. Qed.

Lemma steady_moves e c : link_inv c -> tx_class (segments c) -> allowed c e -> steady_event e = true ->
  wp (Layer.handle config e) c (fun _ c' => exists o, link_moved 0 c c' o /\ isOnline c' = isOnline c /\ Forall (fun x => steady x = true) o).
Proof.
  intros Hi Ht Ha Hs. destruct (wp_run _ _ _ (handle_ok config c e Hi Ha)) as (c' & [] & He & Hi' & _ & Ho & _). unfold wp. rewrite He.
  destruct (step_handle config tx_class tx_class_GetSegment tx_class_Advance e _ _ _ Hs He) as (Ht' & Hon & o & Htr & Hf & _).
  destruct (line_at_same e c) as (Hl1 & Hl2 & Hl3). rewrite Hl1 in Ht'. rewrite Hl2 in Hon. rewrite Hl3 in Htr. exists o. split; [|done]. split; [done|]. split; [by apply Ht'|]. split; [done|]. unfold owed in Ho. rewrite Htr, posted_app, !b2n_if in Ho.
  destruct e; try done; cbn [accepted abandoned] in Ho; lia.
Qed.

Lemma wp_with_upcalls (m : SM TransportStack unit) k (Q : unit -> TransportStack -> Prop) :
  wp m k (fun _ k1 => wp (Stack.upcalls (drop (length (trace (link k))) (trace (link k1)))) k1 Q) -> wp (Stack.with_upcalls m) k Q.
Proof. intros Hm. unfold Stack.with_upcalls. wp_go. eapply wp_mono; [exact Hm|]. cbv beta. intros a k1 H1. wp_go. exact H1. Qed.

Lemma wp_lower {A} (f : SM (LinkContext TransportTx) A) k (Q : A -> TransportStack -> Prop) :
  wp f (link k) (fun a c => Q a (set_link c k)) -> wp (TransportLayer.lower f) k Q.
Proof. unfold wp, TransportLayer.lower. by destruct (f (link k)) as [[c a]|]. Qed.

Lemma drop_trace (t o : list Output) : drop (length t) (t ++ o) = o.
Proof. apply drop_app_length. Qed.

Lemma drop_trace_twice (t o o' : list Output) : drop (length t) ((t ++ o) ++ o') = o ++ o'.
Proof. by rewrite <- app_assoc, drop_trace. Qed.

Lemma steady_handle timely e k : stack_ok timely k -> allowed (link k) e -> steady_event e = true ->
  wp (Stack.handle config (FromBelow e)) k (fun _ => stack_ok timely).
Proof.
  intros [Hi Ht Hr Hon Hoff Hs Htm] Ha He. cbn [Stack.handle]. apply wp_with_upcalls, wp_lower.
  eapply wp_mono; [by apply steady_moves|]. cbv beta. intros _ c' (o & (Hi' & Ht' & Htr & Ho) & Hon' & Hf). cbn [link set_link]. rewrite Htr, drop_trace.
  eapply wp_mono; [by apply upcalls_ok|]. cbv beta. intros _ k' (L & R & O & S & P). cbn [link set_link transport posted_ready] in *.
  split; rewrite ?L, ?O, ?S, ?P; [done|done|done|by rewrite Hon'|done| |].
  - intros Hsend. destruct (pSegments c'); [by left|]. destruct (Hs Hsend) as [Hp|Hp]; [rewrite Hp in Ho; cbn in Ho|]; right; lia.
  - intros Htime. rewrite <- (Htm Htime). lia.
Qed.

Lemma up_handle timely now k : stack_ok timely k -> wp (Stack.handle config (FromBelow (EvLowerLayerUp now))) k (fun _ => stack_ok timely).
Proof.
  intros [Hi Ht Hr Hon Hoff Hs Htm]. cbn [Stack.handle]. apply wp_with_upcalls, wp_lower.
  pose proof (OnLowerLayerUp_ok now (link k) Hi) as Hup. cbn [Layer.handle]. unfold Layer.OnLowerLayerUp, Events.OnLowerLayerUp, StartKeepAliveTimer, call in *.
  revert Hup. wp_go. destruct (isOnline (link k)) eqn:Hl; wp_go.
  - intros _. cbn [link set_link]. rewrite drop_ge by lia. cbn [Stack.upcalls]. wp_go. split; cbn; rewrite ?Hl; done.
  - intros (_ & _ & Hi' & _). cbn [link set_link trace set_trace set_keepAliveTimer set_lastMessageTimestamp set_isOnline].
    rewrite drop_trace_twice. cbn [app Stack.upcalls Stack.upcall]. wp_go. unfold TransportLayer.OnLowerLayerUp, TransportLayer.app. wp_go.
    cbn [transport set_link]. rewrite Hon. wp_go. split; cbn; try done.
Qed.

Lemma down_handle timely k : stack_ok timely k -> (timely = true -> posted_ready k = 0) ->
  wp (Stack.handle config (FromBelow EvLowerLayerDown)) k (fun _ => stack_ok timely).
Proof.
  intros [Hi Ht Hr Hon Hoff Hs Htm] Hp. cbn [Stack.handle]. apply wp_with_upcalls, wp_lower.
  pose proof (OnLowerLayerDown_ok (link k) Hi) as Hdown. cbn [Layer.handle]. unfold Layer.OnLowerLayerDown, Events.OnLowerLayerDown, CancelTimer, call in *.
  revert Hdown. wp_go. destruct (isOnline (link k)) eqn:Hl; cbn [negb]; wp_go.
  - intros (_ & _ & Hi' & _). cbn [link set_link trace set_trace].
    rewrite drop_trace_twice. cbn [app Stack.upcalls Stack.upcall]. wp_go. unfold TransportLayer.OnLowerLayerDown, TransportLayer.app. wp_go.
    cbn [transport set_link]. rewrite Hon. cbn [negb]. wp_go. split; cbn; try done; [unfold rx_ok; cbn; lia|]. intros Htime. by rewrite Hp.
  - intros _. cbn [link set_link]. rewrite drop_ge by lia. cbn [Stack.upcalls]. wp_go. split; cbn; rewrite ?Hl; done.
Qed.

Lemma ready_handle timely k : stack_ok timely k -> wp (Stack.handle config RunReady) k (fun _ => stack_ok timely).
Proof.
  intros [Hi Ht Hr Hon Hoff Hs Htm]. cbn [Stack.handle]. wp_go. destruct (posted_ready k) as [|n] eqn:Hn; wp_go; [split; rewrite ?Hn; done|].
  unfold TransportLayer.OnTxReady, TransportLayer.app. wp_go. cbn [transport set_posted_ready].
  destruct (tl_isOnline (transport k)) eqn:Hto; cbn [negb]; wp_go.
  - destruct (tl_isSending (transport k)) eqn:Hts; cbn [negb]; wp_go; split; cbn; rewrite ?Hto, ?Hts; try done; intros Htime; specialize (Htm Htime); cbn in Htm; lia.
  - split; cbn; rewrite ?Hto; try done; rewrite Hoff by done; [done|]. intros Htime. specialize (Htm Htime). rewrite Hoff in Htm by done. cbn in Htm. lia.
Qed.


Lemma link_inv_segments c t : link_inv c -> tx_ok t -> link_inv (set_segments t c).
Proof. intros (H1 & H2 & H3 & H4 & H5 & H6 & H7 & H8 & H9 & H10 & H11 & H12 & H13) Ht. unfold link_inv, inv_at. cbn. split_and!; done. Qed.

Lemma transmit_handle timely m k : stack_ok timely k -> bytes_ok (payload m) -> wp (Stack.handle config (Transmit m)) k (fun _ => stack_ok timely).
Proof.
  intros Hok Hb. pose proof Hok as [Hi Ht Hr Hon Hoff Hs Htm]. cbn [Stack.handle]. apply wp_with_upcalls. rewrite wp_bind.
  assert (Hnone : forall b : bool, wp (mret b) k (fun _ k0 => wp (mret tt) k0 (fun _ k1 => wp (Stack.upcalls (drop (length (trace (link k))) (trace (link k1)))) k1 (fun _ => stack_ok timely)))).
  { intros b. wp_go. rewrite drop_ge by lia. by cbn [Stack.upcalls]. }
  unfold TransportLayer.BeginTransmit. rewrite wp_bind, wp_get. destruct (tl_isOnline (transport k)) eqn:Hto; cbn [negb]; [|apply Hnone].
  destruct (RSlice.IsNotEmpty (payload m)) eqn:Hne; cbn [negb]; [|apply Hnone]. apply IsNotEmpty_true in Hne.
  destruct (tl_isSending (transport k)) eqn:Hts; [apply Hnone|]. wp_go. cbn [link set_tl_isSending set_transport].
  destruct (tx_class_Configure (segments (link k)) m Ht Hne Hb) as (t & He & Hcl & Htx & _). unfold lift. rewrite He. unfold wp at 1. cbn [mbind option_bind]. wp_go.
  apply wp_lower. cbn [link set_transmitter set_link set_tl_isSending set_transport]. set (c := set_segments t (link k)).
  assert (Hi1 : link_inv c) by (by apply link_inv_segments).
  destruct (wp_run _ _ _ (Send_ok config t c Hi1 Htx)) as (c' & r & Hsend & _ & Hno & Hyes). unfold wp at 1. rewrite Hsend. wp_go.
  destruct (step_Send config tx_class tx_class_GetSegment t c c' r Hcl Hsend) as (Hcl' & Hon' & o & Htr & Hf & _).
  cbn [link set_link]. rewrite Htr. change (trace c) with (trace (link k)). rewrite drop_trace.
  eapply wp_mono; [by apply upcalls_ok|]. cbv beta. intros _ k' (L & R & O & S & P). cbn in L, O, S, P.
  assert (Hw : link_inv c' /\ posted o + Nat.b2n (pSegments c') = 1 /\ (posted_ready k + Nat.b2n (pSegments (link k)) = 0 -> posted_ready k' + Nat.b2n (pSegments c') = 1)).
  { destruct (accepts c) eqn:Hacc.
    - destruct (Hyes eq_refl) as (Hi2 & _ & Hw & _). split; [done|]. unfold owed in Hw. rewrite Htr, posted_app, !b2n_if in Hw. cbn in Hw. change (trace c) with (trace (link k)) in Hw.
      split; [lia|]. rewrite P. lia.
    - rewrite (Hno eq_refl) in *. assert (posted o = 0) as Ho0.
      { assert (o = []) as ->; [|done]. apply (app_inv_head (trace c)). by rewrite app_nil_r. }
      split; [done|]. unfold accepts in Hacc. change (isOnline c) with (isOnline (link k)) in Hacc. rewrite <- Hon in Hacc. apply negb_false_iff in Hacc.
      split; [by rewrite Hacc, Ho0|]. change (pSegments c) with (pSegments (link k)) in Hacc. rewrite Hacc. cbn. lia. }
  destruct Hw as (Hi' & Hw & Htime). split; rewrite ?L, ?O, ?S; [done|by apply Hcl'|done|by rewrite Hto, Hon'|by rewrite Hto| |].
  - intros _. destruct (pSegments c'); [by left|]. right. cbn in Hw. rewrite P. lia.
  - intros Htt. apply Htime. rewrite (Htm Htt). done.
Qed.

Lemma stack_handle_ok timely k e : stack_ok timely k -> stack_allowed timely k e -> wp (Stack.handle config e) k (fun _ => stack_ok timely).
Proof.
  intros Hok Ha. destruct e as [m|e|]; [by apply transmit_handle| |by apply ready_handle].
  destruct e; try (by apply steady_handle); [by apply up_handle|by apply down_handle].
Qed.

Lemma quiet_upcalls o k (Q : unit -> TransportStack -> Prop) : Forall (fun x => starts x = true) o -> Q tt k -> wp (Stack.upcalls o) k Q.
Proof.
  intros Ho HQ. induction Ho as [|x o Hx Ho IH]; cbn [Stack.upcalls]; [by rewrite wp_ret|]. destruct x; try done; cbn [Stack.upcall]; by rewrite wp_bind, wp_ret.
Qed.

(** Events that can happen at any time. *)
Definition calm (e : StackEvent) : Prop := forall timely k, stack_allowed timely k e.

Lemma run_ok timely es : forall k, stack_ok timely k -> Forall calm es -> wp (Stack.run config es) k (fun _ => stack_ok timely).
Proof.
  induction es as [|e es IH]; intros k Hok Hes; cbn [Stack.run]; [by rewrite wp_ret|]. apply Forall_cons_1 in Hes as [He Hes]. rewrite wp_bind.
  eapply wp_mono; [by apply stack_handle_ok|]. cbv beta. intros _ k1 Hok1. by apply IH.
Qed.

Lemma wp_run_app es es' k (Q : unit -> TransportStack -> Prop) :
  wp (Stack.run config (es ++ es')) k Q <-> wp (Stack.run config es) k (fun _ k1 => wp (Stack.run config es') k1 Q).
Proof.
  revert k. induction es as [|e es IH]; intros k; cbn [app Stack.run]; [by rewrite wp_ret|]. rewrite !wp_bind.
  unfold wp at 1 3. destruct (Stack.handle config e k) as [[k1 []]|]; [apply IH|done].
Qed.

Inductive stack_reachable (timely : bool) : TransportStack -> Prop :=
  | stack_init pri sec tpdu rx now :
      length pri = LPDU_MAX_FRAME_SIZE -> length sec = LPDU_HEADER_SIZE -> length tpdu = MAX_TPDU_LENGTH -> bytes_ok tpdu ->
      stack_reachable timely (Stack.init pri sec tpdu rx now)
  | stack_step k e k' :
      stack_reachable timely k -> stack_allowed timely k e -> Stack.handle config e k = Some (k', tt) -> stack_reachable timely k'.

Lemma stack_reachable_ok timely k : stack_reachable timely k -> stack_ok timely k.
Proof.
  induction 1 as [pri sec tpdu rx now H1 H2 H3 H4|k e k' _ IH Ha He].
  - split; [by apply init_inv|by apply tx_class_init|unfold rx_ok; cbn; lia|done|done|done|done].
  - exact (wp_of_run _ _ _ _ _ He (stack_handle_ok timely k e IH Ha)).
Qed.

Lemma busy_refuses m k : tl_isSending (transport k) = true -> Stack.handle config (Transmit m) k = Some (k, tt).
Proof.
  intros Hs. cbn [Stack.handle]. unfold Stack.with_upcalls, TransportLayer.BeginTransmit, mbind, SM_bind, get, mret, SM_ret. rewrite Hs.
  destruct (negb (tl_isOnline (transport k))), (negb (RSlice.IsNotEmpty (payload m))); by rewrite drop_all.
Qed.

(** C19: The layers of a stack work together: whatever happens to it, the stack does not
    fail, its two layers agree on whether they are online, and a transmission that is in
    progress will be reported: the link layer still has the message, or the callback is
    in the queue.  When no callback of an earlier connection is in the queue there is
    exactly one of them, and a new message never replaces one that the link layer is
    sending: it is refused and nothing changes. *)
Theorem stack_safe timely k e :
  stack_reachable timely k -> stack_allowed timely k e -> exists k', Stack.handle config e k = Some (k', tt) /\
    tl_isOnline (transport k') = isOnline (link k') /\
    (tl_isSending (transport k') = true -> pSegments (link k') = true \/ 0 < posted_ready k') /\
    (timely = true -> posted_ready k' + Nat.b2n (pSegments (link k')) = Nat.b2n (tl_isSending (transport k'))) /\
    (timely = true -> pSegments (link k) = true -> forall m, e = Transmit m -> k' = k).
Proof.
  intros Hr%stack_reachable_ok Ha. destruct (wp_run _ _ _ (stack_handle_ok timely k e Hr Ha)) as (k' & [] & He & Hok).
  exists k'. split; [done|]. split; [apply (st_online _ _ Hok)|]. split; [apply (st_sending _ _ Hok)|]. split; [apply (st_timely _ _ Hok)|].
  intros Ht Hp m ->. pose proof (st_timely _ _ Hr Ht) as Hone. rewrite Hp in Hone. destruct (tl_isSending (transport k)) eqn:Hs; cbn in Hone; [|lia].
  rewrite busy_refuses in He by done. by injection He.
Qed.

End Invariant.

(** ** What a stack gives to the channel *)

Section Line.
Import LinkContext Layer.
Context (config : LinkLayerConfig).

(** A method that leaves the link layer alone. *)
Definition above {A} (m : SM TransportStack A) : Prop := forall k k' a, m k = Some (k', a) -> link k' = link k.

Lemma above_ret {A} (a : A) : above (mret a).
Proof. by intros k k' b [= <- <-]. Qed.

Lemma above_get {A} (f : TransportStack -> A) : above (get f).
Proof. by intros k k' b [= <- <-]. Qed.

Lemma above_lift {A} (o : option A) : above (lift o).
Proof. intros k k' b. unfold lift. destruct o; [|done]. by intros [= <- <-]. Qed.

Lemma above_modify f : (forall k, link (f k) = link k) -> above (modify f).
Proof. intros Hf k k' b [= <- <-]. apply Hf. Qed.

Lemma above_bind {A B} (m : SM TransportStack A) (f : A -> SM TransportStack B) : above m -> (forall a, above (f a)) -> above (a ← m; f a).
Proof.
  intros Hm Hf k k' b. unfold mbind, SM_bind. destruct (m k) as [[k1 a]|] eqn:He; [|done]. intros Hb. by rewrite (Hf _ _ _ _ Hb), (Hm _ _ _ He).
Qed.

Lemma above_upcalls os : above (Stack.upcalls os).
Proof.
  induction os as [|o os IH]; cbn [Stack.upcalls]; [apply above_ret|]. apply above_bind; [|done].
  destruct o; cbn [Stack.upcall]; unfold TransportLayer.OnReceive, TransportLayer.OnLowerLayerUp, TransportLayer.OnLowerLayerDown, TransportLayer.app;
    repeat match goal with
    | |- above (mret _) => apply above_ret
    | |- above (get _) => apply above_get
    | |- above (lift _) => apply above_lift
    | |- above (modify _) => apply above_modify; by intros ?
    | |- above (mbind _ _) => apply above_bind; [|intros ?]
    | |- above (if ?b then _ else _) => destruct b
    | |- above (let '(_, _) := ?x in _) => destruct x
    end.
Qed.

Lemma with_upcalls_link m k k' u : Stack.with_upcalls m k = Some (k', u) -> exists k1, m k = Some (k1, tt) /\ link k' = link k1.
Proof.
  unfold Stack.with_upcalls, mbind, SM_bind, get. destruct (m k) as [[k1 []]|]; [|done]. intros He. exists k1. split; [done|]. exact (above_upcalls _ _ _ _ He).
Qed.

Lemma lower_link {A} (f : SM (LinkContext TransportTx) A) k k' a : TransportLayer.lower f k = Some (k', a) -> f (link k) = Some (link k', a).
Proof. unfold TransportLayer.lower. destruct (f (link k)) as [[c b]|]; [|done]. by intros [= <- <-]. Qed.

Lemma below_link e k k' u : Stack.handle config (FromBelow e) k = Some (k', u) -> Layer.handle config e (link k) = Some (link k', tt).
Proof. cbn [Stack.handle]. intros (k1 & Hm%lower_link & ->)%with_upcalls_link. exact Hm. Qed.

(** The line after an event of the stack. *)
Definition stack_line (e : StackEvent) (c : LinkContext TransportTx) : LinkContext TransportTx :=
  match e with FromBelow e => line_at e c | _ => c end.

Definition steady_stack_event (e : StackEvent) : bool := match e with FromBelow e => steady_event e | _ => true end.

Lemma stack_reaches e k k' u : steady_stack_event e = true -> Stack.handle config e k = Some (k', u) ->
  reaches (fun _ => True) steady (stack_line e (link k)) (link k').
Proof.
  destruct e as [m|e|]; intros Hs He.
  - cbn [Stack.handle] in He. apply with_upcalls_link in He as (k1 & He & ->). cbn [stack_line]. revert He.
    unfold TransportLayer.BeginTransmit, mbind, SM_bind, get, modify, lift, mret, SM_ret.
    destruct (negb (tl_isOnline _)); [intros [= <-]; by apply reaches_same|]. destruct (negb (RSlice.IsNotEmpty _)); [intros [= <-]; by apply reaches_same|].
    destruct (tl_isSending (transport k)); [intros [= <-]; by apply reaches_same|]. cbn [link set_tl_isSending set_transport].
    destruct (TransportTx.Configure _ m) as [t|]; [|done]. cbn [mbind option_bind].
    destruct (TransportLayer.lower _ _) as [[k2 b]|] eqn:Hl; [|done]. intros [= <-]. apply lower_link in Hl.
    apply (reaches_trans _ _ _ (set_segments t (link k))); [by split; [done|split; [done|exists []; rewrite app_nil_r; split; [done|split; [done|cbn; unfold busy; cbn; lia]]]]|].
    by eapply step_Send; [| |exact Hl].
  - apply below_link in He. by eapply step_handle; [| |exact Hs|exact He].
  - cbn [Stack.handle stack_line] in *. assert (Ha : link k' = link k); [|rewrite Ha; by apply reaches_same].
    revert He. unfold mbind, SM_bind, get, modify, mret, SM_ret. destruct (posted_ready k) as [|n]; [by intros [= <-]|].
    unfold TransportLayer.OnTxReady, TransportLayer.app, mbind, SM_bind, get, modify, mret, SM_ret. cbn [transport set_posted_ready].
    destruct (negb (tl_isOnline _)); [by intros [= <-]|]. destruct (negb (tl_isSending _)); by intros [= <-].
Qed.

(** What an event did, by what it handed to the channel. *)
Lemma stack_line_moves e k k' u : steady_stack_event e = true -> Stack.handle config e k = Some (k', u) ->
  isOnline (link k') = isOnline (link k) /\ exists o, trace (link k') = trace (link k) ++ o /\ busy (link k') = busy (stack_line e (link k)) + length (wire o).
Proof.
  intros Hs He. destruct (stack_reaches e k k' u Hs He) as (_ & Hon & o & Htr & _ & Hb).
  assert (Hsame : isOnline (stack_line e (link k)) = isOnline (link k) /\ trace (stack_line e (link k)) = trace (link k)) by (destruct e as [|e'|]; [done| |done]; by destruct e').
  destruct Hsame as [H1 H2]. rewrite H1 in Hon. rewrite H2 in Htr. split; [done|]. by exists o.
Qed.

(** A frame on the line stays as it is. *)
Definition frame_kept (c c' : LinkContext TransportTx) : Prop :=
  (txMode c = Tx_Primary -> priTxBuffer c' = priTxBuffer c) /\ (txMode c = Tx_Secondary -> secTxBuffer c' = secTxBuffer c).

Lemma event_keeps c e c' u : link_inv c -> allowed c e -> completes e = false -> handle config e c = Some (c', u) -> frame_kept c c'.
Proof.
  intros Hi Ha Hc He. destruct (wp_of_run _ _ _ _ _ He (handle_ok config c e Hi Ha)) as (_ & _ & _ & Hp & Hs).
  split; intros Hm; [apply Hp|apply Hs]; try (by left); rewrite Hc; by intros [].
Qed.

Lemma send_keeps c t c' r : link_inv c -> tx_ok t -> Layer.Send config t c = Some (c', r) -> frame_kept c c'.
Proof.
  intros Hi Ht He. destruct (wp_of_run _ _ _ _ _ He (Send_ok config t c Hi Ht)) as (_ & Hno & Hyes). destruct (frame_out_transmitting c Hi) as [Hp Hs].
  destruct (accepts c); [|by rewrite (Hno eq_refl)]. destruct (Hyes eq_refl) as (_ & _ & _ & _ & Hp' & Hs').
  split; intros Hm; [apply Hp', Hp|apply Hs', Hs]; by left.
Qed.

Lemma stack_keeps_frame timely e k k' u : stack_ok timely k -> stack_allowed timely k e -> e <> FromBelow EvTxReady ->
  Stack.handle config e k = Some (k', u) -> frame_kept (link k) (link k').
Proof.
  intros [Hi Ht _ _ _ _ _] Ha Hne He. destruct e as [m|e|].
  - cbn [Stack.handle] in He. apply with_upcalls_link in He as (k1 & He & ->). revert He.
    unfold TransportLayer.BeginTransmit, mbind, SM_bind, get, modify, lift, mret, SM_ret.
    destruct (negb (tl_isOnline _)); [by intros [= <-]|]. destruct (RSlice.IsNotEmpty (payload m)) eqn:Hm; cbn [negb]; [|by intros [= <-]].
    destruct (tl_isSending (transport k)); [by intros [= <-]|]. cbn [link set_tl_isSending set_transport]. apply IsNotEmpty_true in Hm.
    destruct (tx_class_Configure (segments (link k)) m Ht Hm Ha) as (t & -> & _ & Htx & _). cbn [mbind option_bind].
    destruct (TransportLayer.lower _ _) as [[k2 b]|] eqn:Hl; [|done]. intros [= <-]. apply lower_link in Hl.
    eapply (send_keeps (set_segments t (link k))); [by apply link_inv_segments|done|exact Hl].
  - apply below_link in He. apply (event_keeps _ e _ tt); [done|by destruct e|by destruct e|done].
  - revert He. cbn [Stack.handle]. unfold mbind, SM_bind, get, modify, mret, SM_ret. destruct (posted_ready k) as [|n]; [by intros [= <-]|].
    destruct (TransportLayer.OnTxReady _) as [[k1 b]|] eqn:Hr; [|done]. intros [= <-]. revert Hr.
    unfold TransportLayer.OnTxReady, TransportLayer.app, mbind, SM_bind, get, modify, mret, SM_ret. cbn [transport set_posted_ready].
    destruct (negb (tl_isOnline (transport k))); [by intros [= <- _]|]. destruct (negb (tl_isSending (transport k))); by intros [= <- _].
Qed.

End Line.

(** ** A message through the link layer *)

Section Unconfirmed.
Import LinkContext Layer.
Context (config : LinkLayerConfig) (Hconf : UseConfirms config = false).
Implicit Types (c : LinkContext TransportTx) (t : TransportTx).

(** The frame of a segment. *)
Definition data_frame (a : Addresses) (segment : bytes) : bytes :=
  frame_bytes (IsMaster config) false false PRI_UNCONFIRMED_USER_DATA (destination a) (source a) segment.

(** An online layer that has nothing to do. *)
Record idle_link c : Prop := mkIdleLink {
  il_online : isOnline c = true;
  il_state : pPriState c = PLLS_Idle;
  il_mode : txMode c = Tx_Idle;
  il_segments : pSegments c = false;
  il_keepalive : keepAliveTimeout c = false
}.

(** A layer that transmits a segment of [t]. *)
Record sending_link c t : Prop := mkSendingLink {
  sl_buffer : length (priTxBuffer c) = LPDU_MAX_FRAME_SIZE;
  sl_online : isOnline c = true;
  sl_state : pPriState c = PLLS_SendUnconfirmedTransmitWait;
  sl_mode : txMode c = Tx_Primary;
  sl_segments : pSegments c = true;
  sl_keepalive : keepAliveTimeout c = false;
  sl_primary : pendingPriTx c = None;
  sl_secondary : pendingSecTx c = None;
  sl_tx : segments c = t;
  sl_ok : tx_ok t
}.

(** The same message at the same place. *)
Definition same_place t t' : Prop := message t' = message t /\ sequence t' = sequence t /\ tpduCount t' = tpduCount t.

Lemma send_segment_wp c t (Q : PriState -> LinkContext TransportTx -> Prop) :
  length (priTxBuffer c) = LPDU_MAX_FRAME_SIZE -> isOnline c = true -> pSegments c = true -> keepAliveTimeout c = false -> txMode c = Tx_Idle ->
  pendingPriTx c = None -> pendingSecTx c = None -> segments c = t -> tx_ok t ->
  (forall c' t', sending_link (set_pPriState PLLS_SendUnconfirmedTransmitWait c') t' -> same_place t t' ->
    trace c' = trace c ++ [transmits true (data_frame (addresses (message t)) (tx_segment t))] -> Q PLLS_SendUnconfirmedTransmitWait c') ->
  wp (Pri.send_unconfirmed_segment config) c Q.
Proof.
  intros Hb Hon Hp Hk Hm Hpp Hps Hs Ht HQ. apply wp_send_unconfirmed_segment; [done|done|by rewrite Hs|]. intros c' (t' & d & Hget & Htx & a & Hv & Ha & ->).
  rewrite Hs in Hget. destruct (GetSegment_spec t Ht) as (t1 & Hget1 & _ & _ & Hmsg & Hseq & Hcnt). cbn in Hget. rewrite Hget1 in Hget. injection Hget as <- <-.
  apply (HQ _ t1); [|done|].
  - unfold queued. cbn [txMode set_priTxBuffer set_segments]. rewrite Hm. by split.
  - unfold queued. cbn [txMode set_priTxBuffer set_segments]. rewrite Hm. cbn. by rewrite Hs.
Qed.

Lemma send_start c t : link_inv c -> idle_link c -> segments c = t -> tx_ok t ->
  wp (Layer.Send config t) c (fun _ c' => exists t', sending_link c' t' /\ same_place t t' /\
    trace c' = trace c ++ [transmits true (data_frame (addresses (message t)) (tx_segment t))]).
Proof.
  intros (H1 & _ & _ & _ & H5 & _) [Hon Hst Hm Hp Hk] Hs Ht. unfold Layer.Send, Events.SetTxSegment, Events.TryStartTransmission, Events.pri_step.
  rewrite Hm in H5. destruct H5 as [Hpp Hps]. wp_go. rewrite Hon. cbn [negb]. wp_go. rewrite Hon. cbn [negb]. wp_go. rewrite Hp. wp_go.
  cbn [keepAliveTimeout set_pSegments set_segments]. rewrite Hk. wp_go. cbn [pSegments set_pSegments]. rewrite Hconf. wp_go.
  cbn [pPriState set_pSegments set_segments]. rewrite Hst. cbn [Pri.TrySendUnconfirmed].
  eapply (send_segment_wp _ t); [done..|]. intros c' t' Hsend Hsame Htr. wp_go. by exists t'.
Qed.

Lemma send_more c t : sending_link c t -> wp (Layer.handle config EvTxReady) c (fun _ c' =>
  let t1 := (TransportTx.Advance t).1 in
  if negb (length (payload (message t)) <=? 249) then exists t', sending_link c' t' /\ same_place t1 t' /\
    trace c' = trace c ++ [transmits true (data_frame (addresses (message t)) (tx_segment t1))]
  else idle_link c' /\ trace c' = trace c ++ [PostUpperOnTxReady]).
Proof.
  intros [Hb Hon Hst Hm Hp Hk Hpp Hps Hs Ht]. destruct (Advance_spec t Ht) as (t1 & Ha & Hmsg & _). rewrite Ha. cbv zeta. cbn [fst].
  cbn [Layer.handle]. unfold Layer.OnTxReady, Events.OnTxReady, Events.TryPendingTx, Events.TryStartTransmission, Events.pri_step.
  wp_go. rewrite Hm. wp_go. cbn [txMode set_txMode pendingSecTx pendingPriTx]. rewrite Hps. wp_go. cbn [txMode set_txMode pendingSecTx pendingPriTx]. rewrite Hpp. wp_go.
  rewrite decide_True by done. wp_go. cbn [pPriState set_txMode]. rewrite Hst. cbn [Pri.OnTxReady]. unfold Pri.PLLS_SendUnconfirmedTransmitWait_OnTxReady. wp_go.
  unfold Segments_Advance, with_segments. unfold wp at 1. cbn [pSegments set_txMode segments]. rewrite Hp, Hs. cbn [mbind option_bind Advance TransportTx_ITransportSegment].
  rewrite Ha. cbn [mbind option_bind]. destruct (length (payload (message t)) <=? 249) eqn:Hlen; cbn [negb] in *.
  - unfold CompleteSendOperation, call. wp_go. cbn. rewrite Hk. wp_go. cbn. wp_go. by split.
  - eapply (send_segment_wp _ t1); [done..| |].
    + by eapply Advance_ok.
    + intros c' t' Hsend Hsame Htr. wp_go. rewrite (sl_keepalive _ _ Hsend). wp_go. rewrite (sl_segments _ _ Hsend), Hconf. wp_go.
      cbn [Pri.TrySendUnconfirmed pPriState set_pPriState]. wp_go. exists t'.
      split; [by destruct Hsend as [? ? ? ? ? ? ? ? ? ?]; split|]. split; [done|]. cbn in Htr |- *. rewrite Htr. by rewrite Hmsg.
Qed.


(** A stack that is ready for a message. *)
Record ready_stack (k : TransportStack) : Prop := mkReadyStack {
  rs_ok : stack_ok true k;
  rs_idle : idle_link (link k);
  rs_online : tl_isOnline (transport k) = true;
  rs_sending : tl_isSending (transport k) = false
}.

(** The events of a message: it is transmitted, the channel writes the frames, and the
    executor runs the callback. *)
Definition segments_of (m : Message) : nat := (length (payload m) + 248) / 249.

Definition send_events (m : Message) : list StackEvent :=
  Transmit m :: replicate (segments_of m) (FromBelow EvTxReady) ++ [RunReady].

Definition segment_frame (a : Addresses) (s : bytes) : Output := transmits true (data_frame a s).

Lemma split_message_length fuel first s p : p <> [] -> length p <= fuel -> length (split_message fuel first s p) = (length p + 248) / 249.
Proof.
  revert first s p. induction fuel as [|fuel IH]; intros first s p Hp Hl; [by destruct p; [|cbn in Hl; lia]|]. cbn [split_message length].
  destruct (Nat.leb_spec (length p) 249) as [Hle|Hgt].
  - destruct p as [|x p]; [done|]. cbn [length] in *. apply (Nat.div_unique _ _ _ (length p)); lia.
  - rewrite IH; [|intros Hnil%(f_equal length); rewrite length_drop in Hnil; cbn in Hnil; lia|len].
    rewrite length_drop. replace (length p + 248) with (1 * 249 + (length p - 249 + 248)) by lia. by rewrite Nat.div_add_l.
Qed.

Lemma with_quiet_upcalls (m : SM TransportStack unit) k (Q : unit -> TransportStack -> Prop) o :
  Forall (fun x => starts x = true) o -> wp m k (fun _ k1 => trace (link k1) = trace (link k) ++ o /\ Q tt k1) -> wp (Stack.with_upcalls m) k Q.
Proof.
  intros Ho Hm. apply wp_with_upcalls. eapply wp_mono; [exact Hm|]. cbv beta. intros [] k1 [Ht HQ]. rewrite Ht, drop_trace. by apply quiet_upcalls.
Qed.

Lemma transmit_starts k m : ready_stack k -> payload m <> [] -> bytes_ok (payload m) ->
  wp (Stack.handle config (Transmit m)) k (fun _ k' => exists t, sending_link (link k') t /\ message t = m /\ tpduCount t = 0%Z /\ sequence t = sequence (segments (link k)) /\
    trace (link k') = trace (link k) ++ [segment_frame (addresses m) (tx_segment t)] /\
    tl_isOnline (transport k') = true /\ tl_isSending (transport k') = true /\ app_calls k' = app_calls k /\ posted_ready k' = posted_ready k).
Proof.
  intros [[Hi Ht _ _ _ _ _] Hidle Hto Hts] Hne Hb. cbn [Stack.handle].
  destruct (tx_class_Configure (segments (link k)) m Ht Hne Hb) as (t & He & Hcl & Htx & Hm & Hc & Hq).
  eapply (with_quiet_upcalls _ _ _ [segment_frame (addresses m) (tx_segment t)]); [by repeat constructor|].
  unfold TransportLayer.BeginTransmit. wp_go. rewrite Hto. cbn [negb]. rewrite (proj2 (IsNotEmpty_true _) Hne). cbn [negb]. rewrite Hts. wp_go.
  cbn [link set_tl_isSending set_transport]. unfold lift. rewrite He. unfold wp at 1. cbn [mbind option_bind]. wp_go.
  apply wp_lower. cbn [link set_transmitter set_link set_tl_isSending set_transport]. eapply wp_mono.
  - apply (send_start (set_segments t (link k)) t); [by apply link_inv_segments|by destruct Hidle; split|done|done].
  - cbv beta. intros _ c (t' & Hsend & (Hm' & Hq' & Hc') & Htr). wp_go. cbn [link set_link]. rewrite Htr, Hm. split; [done|]. exists t'.
    rewrite Hm', Hc', Hm, Hc, Hq', Hq. assert (tx_segment t' = tx_segment t) as -> by (unfold tx_segment; by rewrite Hm', Hq', Hc'). done.
Qed.

Lemma frames_follow fuel : forall k t, sending_link (link k) t -> length (payload (message t)) <= fuel -> (0 <= tpduCount t)%Z ->
  (tpduCount t + Z.of_nat (length (payload (message t))) < 4294967296)%Z ->
  let segs := split_message fuel (tpduCount t =? 0)%Z (sequence t) (payload (message t)) in
  wp (Stack.run config (replicate (length segs) (FromBelow EvTxReady))) k (fun _ k' => idle_link (link k') /\
    trace (link k') = trace (link k) ++ map (segment_frame (addresses (message t))) (tail segs) ++ [PostUpperOnTxReady] /\
    transport k' = transport k /\ app_calls k' = app_calls k /\ posted_ready k' = S (posted_ready k)).
Proof.
  induction fuel as [|fuel IH]; intros k t Hsend Hl Hc Hc2; pose proof (sl_ok _ _ Hsend) as Hok.
  { destruct Hok as (_ & _ & Hne & _). destruct (payload (message t)); [done|cbn in Hl; lia]. }
  cbn [split_message length replicate tail Stack.run]. rewrite wp_bind.
  destruct (Advance_spec t Hok) as (t1 & Ha & Hm1 & _ & _ & Hs1 & Hc1). pose proof (send_more _ _ Hsend) as Hmore. rewrite Ha in Hmore. cbn [fst] in Hmore.
  assert (Hp1 : payload (message t1) = drop 249 (payload (message t))) by (by rewrite Hm1).
  destruct (Nat.leb_spec (length (payload (message t))) 249) as [Hle|Hgt]; cbn [negb length replicate Stack.run map app] in *.
  - cbn [Stack.handle]. apply wp_with_upcalls, wp_lower. eapply wp_mono; [exact Hmore|]. cbv beta zeta. intros _ c (Hidle & Htr).
    cbn [link set_link]. rewrite Htr, drop_trace. cbn [Stack.upcalls Stack.upcall]. wp_go. by split_and!.
  - rewrite u32_small in Hc1 by (unfold is_u32; lia). cbn [Stack.handle]. 
    set (segs := split_message fuel false _ _).
    eapply (with_quiet_upcalls _ _ _ [segment_frame (addresses (message t)) (tx_segment t1)]); [by repeat constructor|]. apply wp_lower.
    eapply wp_mono; [exact Hmore|]. cbv beta zeta. intros _ c (t' & Hsend' & (Hm' & Hs' & Hc') & Htr). cbn [link set_link]. split; [exact Htr|].
    assert (Hsegs : segs = split_message fuel (tpduCount t' =? 0)%Z (sequence t') (payload (message t'))).
    { unfold segs. rewrite Hc', Hs', Hm', Hp1, Hs1, Hc1. by replace (tpduCount t + 1 =? 0)%Z with false by (symmetry; apply Z.eqb_neq; lia). }
    assert (Hlen : length (drop 249 (payload (message t))) <= fuel) by len.
    rewrite Hsegs. eapply wp_mono.
    + apply (IH (set_link c k) t'); [done|by rewrite Hm', Hp1|lia|rewrite Hm', Hp1, Hc', Hc1; len].
    + cbv beta. intros _ k' (Hidle & Htr' & Hrest). split; [done|]. split; [|done]. rewrite Htr'. cbn [link set_link]. rewrite Htr, <- app_assoc. cbn [app].
      rewrite Hm', Hm1. cbn [addresses]. f_equal. rewrite app_comm_cons. f_equal.
      assert (Hseg : tx_segment t1 = tx_segment t') by (unfold tx_segment; by rewrite Hm', Hs', Hc'). rewrite Hseg.
      destruct fuel; [rewrite length_drop in Hlen; lia|]. unfold tx_segment. by rewrite Hm', Hm1.
Qed.

(** The message is out. *)
Lemma message_out k m : ready_stack k -> payload m <> [] -> bytes_ok (payload m) -> (Z.of_nat (length (payload m)) < 4294967296)%Z ->
  wp (Stack.run config (send_events m)) k (fun _ k' => ready_stack k' /\
    trace (link k') = trace (link k) ++
      map (segment_frame (addresses m)) (split_message (length (payload m)) true (sequence (segments (link k))) (payload m)) ++ [PostUpperOnTxReady] /\
    app_calls k' = app_calls k ++ [AppOnTxReady]).
Proof.
  intros Hready Hne Hb H32. pose proof (rs_ok _ Hready) as Hok. pose proof (st_timely _ _ Hok eq_refl) as Htime. rewrite (il_segments _ (rs_idle _ Hready)), (rs_sending _ Hready) in Htime. cbn in Htime.
  assert (Hcalm : Forall calm (send_events m)).
  { constructor; [by intros ? ?|]. apply Forall_app_2; [by apply Forall_replicate; intros ? ?|by repeat constructor]. }
  enough (Hrun : wp (Stack.run config (send_events m)) k (fun _ k' => idle_link (link k') /\ tl_isOnline (transport k') = true /\ tl_isSending (transport k') = false /\
    trace (link k') = trace (link k) ++
      map (segment_frame (addresses m)) (split_message (length (payload m)) true (sequence (segments (link k))) (payload m)) ++ [PostUpperOnTxReady] /\
    app_calls k' = app_calls k ++ [AppOnTxReady])).
  { eapply wp_mono; [apply wp_and; [by apply (run_ok config true _ k)|exact Hrun]|]. cbv beta. intros _ k' (Hok' & Hi & Ho & Hs & Hrest). split; [by split|exact Hrest]. }
  unfold send_events. cbn [Stack.run]. rewrite wp_bind. eapply wp_mono; [by apply transmit_starts|]. cbv beta.
  intros _ k1 (t & Hsend & Hm & Hc & Hq & Htr & Hon & Hs & Happ & Hpost). rewrite wp_run_app.
  pose proof (frames_follow (length (payload m)) k1 t Hsend) as Hfollow. rewrite Hm, Hc, Hq in Hfollow. cbn [Z.eqb] in Hfollow.
  unfold segments_of. erewrite <- split_message_length; [|done|reflexivity]. eapply wp_mono; [apply Hfollow; [done|lia|lia]|]. cbv beta.
  intros _ k2 (Hidle & Htr2 & Ht2 & Happ2 & Hpost2). cbn [Stack.run Stack.handle]. wp_go. rewrite Hpost2, Hpost.
  replace (posted_ready k) with 0 by lia. wp_go. unfold TransportLayer.OnTxReady, TransportLayer.app. wp_go. cbn [transport set_posted_ready]. rewrite Ht2, Hon, Hs. cbn [negb]. wp_go.
  cbn [link transport app_calls set_app_calls set_tl_isSending set_transport set_posted_ready tl_isOnline tl_isSending]. rewrite Ht2, Htr2, Htr, Happ2, Happ.
  split_and!; [done|done|done| |done]. rewrite <- app_assoc. f_equal. rewrite app_assoc. f_equal.
  assert (Hseg : tx_segment t = segment_bytes true (sequence (segments (link k))) (payload m)) by (unfold tx_segment; by rewrite Hm, Hc, Hq).
  rewrite Hseg. destruct (payload m); [done|reflexivity].
Qed.

End Unconfirmed.

Section Receiver.
Import LinkContext Layer.
Context (config : LinkLayerConfig).

Lemma frame_to_transport c now h d : link_inv c -> isOnline c = true -> addressed config h = true -> func h = PRI_UNCONFIRMED_USER_DATA ->
  wp (Layer.handle config (EvFrame now h d)) c (fun _ c' => exists o, trace c' = trace c ++ UpperOnReceive (mkMessage (ToAddresses h) d) :: o /\ Forall (fun x => starts x = true) o).
Proof.
  intros Hi Hon Ha Hf. destruct (wp_run _ _ _ (handle_ok config c (EvFrame now h d) Hi I)) as (c' & [] & He & _). unfold wp. rewrite He.
  cbn [Layer.handle] in He. unfold Layer.OnFrame in He.
  assert (Hev : Events.OnFrame config now h d c = Some (set_trace (trace c ++ [UpperOnReceive (mkMessage (ToAddresses h) d)]) (set_lastMessageTimestamp now c), true)).
  { unfold addressed in Ha. apply andb_prop in Ha as [[Hm%negb_true_iff Hd]%andb_prop Hs]. unfold Events.OnFrame, PushDataUp, call, mbind, SM_bind, get, modify, mret, SM_ret.
    rewrite Hon, Hm, Hd. cbn [negb]. destruct (src h =? RemoteAddr config)%Z; cbn [negb andb orb] in *; rewrite ?Hs; cbn [negb]; rewrite Hf; done. }
  unfold mbind, SM_bind in He. rewrite Hev in He.
  destruct (Events.TryStartTransmission config _) as [[c1 u]|] eqn:Ht; [|done]. injection He as <-.
  apply (step_TryStartTransmission config (fun _ => True)) with (out := starts) in Ht as (_ & _ & o & Htr & Hall & _); [|done..].
  exists o. cbn [trace set_trace] in Htr. rewrite Htr, <- app_assoc. done.
Qed.

(** A frame that carries a segment, at the time it arrives. *)
Definition arrive (f : Z * LinkLayerParser.Frame) : StackEvent := FromBelow (EvFrame f.1 f.2.1 f.2.2).

Definition carries (a : Addresses) (f : LinkLayerParser.Frame) (s : bytes) : Prop :=
  addressed config f.1 = true /\ func f.1 = PRI_UNCONFIRMED_USER_DATA /\ ToAddresses f.1 = a /\ f.2 = s.

(** The messages that the transport layer passes on. *)
Definition passed_on (ms : list Message) : list AppCall := map AppOnReceive (List.filter (fun m => RSlice.IsNotEmpty (payload m)) ms).

Lemma frame_arrives timely k now f a s r m : stack_ok timely k -> tl_isOnline (transport k) = true -> carries a f s ->
  TransportRx.ProcessReceive (receiver (transport k)) (mkMessage a s) = Some (r, m) ->
  wp (Stack.handle config (arrive (now, f))) k (fun _ k' => receiver (transport k') = r /\ tl_isOnline (transport k') = true /\ app_calls k' = app_calls k ++ passed_on [m]).
Proof.
  intros Hok Hon (Ha & Hf & Hto & Hs) Hp. unfold arrive. cbn [Stack.handle fst snd]. apply wp_with_upcalls, wp_lower.
  eapply wp_mono; [apply frame_to_transport; [apply (st_link _ _ Hok)|by rewrite <- (st_online _ _ Hok)|done|done]|]. cbv beta.
  intros _ c (o & Htr & Ho). cbn [link set_link]. rewrite Htr, drop_trace, Hto, Hs. cbn [Stack.upcalls Stack.upcall]. unfold TransportLayer.OnReceive, TransportLayer.app.
  wp_go. cbn [transport set_link]. rewrite Hon. wp_go. unfold lift. rewrite Hp. unfold wp at 1. cbn [mbind option_bind]. wp_go. unfold passed_on. cbn [List.filter].
  destruct (RSlice.IsNotEmpty (payload m)); wp_go; apply quiet_upcalls; try done. split_and!; [done|done|]. cbn. by rewrite app_nil_r.
Qed.

Lemma frames_arrive timely a fs : forall k segs r ms, stack_ok timely k -> tl_isOnline (transport k) = true -> Forall2 (carries a) (fs.*2) segs ->
  TransportRx.ProcessAll (receiver (transport k)) (map (mkMessage a) segs) = Some (r, ms) ->
  wp (Stack.run config (map arrive fs)) k (fun _ k' => stack_ok timely k' /\ receiver (transport k') = r /\ tl_isOnline (transport k') = true /\ app_calls k' = app_calls k ++ passed_on ms).
Proof.
  induction fs as [|[now f] fs IH]; intros k segs r ms Hok Hon Hc Hp.
  - apply Forall2_nil_inv_l in Hc as ->. injection Hp as <- <-. cbn [map Stack.run]. rewrite wp_ret. cbn. by rewrite app_nil_r.
  - apply Forall2_cons_inv_l in Hc as (s & segs' & Hf & Hc & ->). cbn [map TransportRx.ProcessAll] in Hp.
    destruct (TransportRx.ProcessReceive _ _) as [[r1 m]|] eqn:H1; [|done]. cbn [mbind option_bind] in Hp.
    destruct (TransportRx.ProcessAll r1 _) as [[r2 ms2]|] eqn:H2; [|done]. injection Hp as <- <-. cbn [map Stack.run]. rewrite wp_bind.
    eapply wp_mono; [apply wp_and; [apply (stack_handle_ok config timely k (arrive (now, f)) Hok I)|by eapply frame_arrives]|]. cbv beta.
    intros _ k1 (Hok1 & Hr1 & Hon1 & Ha1). eapply wp_mono; [apply (IH k1 segs' r2 ms2); [done|done|done|by rewrite Hr1]|]. cbv beta.
    intros _ k2 (Hok2 & Hr2 & Hon2 & Ha2). split_and!; [done..|]. rewrite Ha2, Ha1, <- app_assoc. f_equal. unfold passed_on. cbn [List.filter]. by destruct (RSlice.IsNotEmpty (payload m)).
Qed.

Lemma passed_on_last n m : payload m <> [] -> passed_on (replicate n Message_default ++ [m]) = [AppOnReceive m].
Proof.
  intros Hm. unfold passed_on. induction n as [|n IH]; [|exact IH]. cbn [replicate app List.filter]. by rewrite (proj2 (IsNotEmpty_true _) Hm).
Qed.

Lemma message_received timely k fs m s : stack_ok timely k -> tl_isOnline (transport k) = true -> is_seq s -> payload m <> [] ->
  length (payload m) <= length (rxBuffer (receiver (transport k))) ->
  Forall2 (carries (addresses m)) (fs.*2) (split_message (length (payload m)) true s (payload m)) ->
  wp (Stack.run config (map arrive fs)) k (fun _ k' => stack_ok timely k' /\ tl_isOnline (transport k') = true /\
    length (rxBuffer (receiver (transport k'))) = length (rxBuffer (receiver (transport k))) /\ app_calls k' = app_calls k ++ [AppOnReceive m]).
Proof.
  intros Hok Hon Hs Hne Hfit Hc.
  destruct (split_message_received (length (payload m)) (addresses m) true s (payload m) _ Hs Hne (le_n _) (st_rx _ _ Hok)) as (r & n & Hp & _); [done|cbn; lia|].
  eapply wp_mono; [by eapply frames_arrive|]. cbv beta. intros _ k' (Hok' & Hr & Hon' & Ha). split_and!; [done|done| |].
  - rewrite Hr. eapply ProcessAll_buffer; [apply (st_rx _ _ Hok)|exact Hp].
  - rewrite Ha. cbn [app]. replace (mkMessage (addresses m) (payload m)) with m by (by destruct m). by rewrite passed_on_last.
Qed.

End Receiver.

(** ** Messages over a channel *)

Section Crossing.
Import LinkContext Layer.
Context (tx rx : LinkLayerConfig).

Definition outgoing (a : Addresses) (s : bytes) : Outgoing :=
  mkOutgoing (IsMaster tx) false false PRI_UNCONFIRMED_USER_DATA (destination a) (source a) s.

Definition message_frames (seq : Z) (m : Message) : list Outgoing :=
  map (outgoing (addresses m)) (split_message (length (payload m)) true seq (payload m)).

(** A message for the other station that fits in its buffer of [n] bytes. *)
Definition for_station (n : nat) (m : Message) : Prop :=
  payload m <> [] /\ bytes_ok (payload m) /\ length (payload m) <= n /\ (Z.of_nat (length (payload m)) < 4294967296)%Z /\
  is_u16 (destination (addresses m)) /\ is_u16 (source (addresses m)) /\
  destination (addresses m) = LocalAddr rx /\ (source (addresses m) = RemoteAddr rx \/ respondToAnySource rx = true).

Lemma wire_frames a ss : wire (map (segment_frame tx a) ss) = map encode_frame (map (outgoing a) ss).
Proof. induction ss as [|s ss IH]; [done|]. cbn [map]. by rewrite <- IH. Qed.

Lemma messages_sent n ms : UseConfirms tx = false -> Forall (for_station n) ms -> forall k, ready_stack k ->
  wp (Stack.run tx (concat (map send_events ms))) k (fun _ k' => ready_stack k' /\ app_calls k' = app_calls k ++ map (fun _ => AppOnTxReady) ms /\
    exists o seqs, trace (link k') = trace (link k) ++ o /\ length seqs = length ms /\ Forall is_seq seqs /\
      wire o = map encode_frame (concat (zip_with message_frames seqs ms))).
Proof.
  intros Hconf. induction 1 as [|m ms (Hne & Hb & _ & H32 & _) Hms IH]; intros k Hk; cbn [map concat].
  - cbn [Stack.run]. rewrite wp_ret. split; [done|]. rewrite app_nil_r. split; [done|]. exists [], []. by rewrite app_nil_r.
  - rewrite wp_run_app. eapply wp_mono; [by apply message_out|]. cbv beta. intros _ k1 (Hk1 & Htr1 & Ha1).
    eapply wp_mono; [by apply IH|]. cbv beta. intros _ k2 (Hk2 & Ha2 & o & seqs & Htr2 & Hlen & Hseqs & Hw). split; [done|].
    split; [by rewrite Ha2, Ha1, <- app_assoc|]. eexists _, (sequence (segments (link k)) :: seqs). rewrite Htr2, Htr1, <- app_assoc. split; [reflexivity|].
    split; [cbn; lia|]. split; [constructor; [apply (st_tx _ _ (rs_ok _ Hk))|done]|]. rewrite !wire_app, wire_frames, Hw. cbn. by rewrite app_nil_r, map_app.
Qed.

Lemma frames_carried m ss : eqb (IsMaster tx) (IsMaster rx) = false -> destination (addresses m) = LocalAddr rx ->
  (source (addresses m) = RemoteAddr rx \/ respondToAnySource rx = true) ->
  Forall2 (carries rx (addresses m)) (map frame_of (map (outgoing (addresses m)) ss)) ss.
Proof.
  intros Hm Hd Hs. induction ss as [|s ss IH]; cbn [map]; constructor; [|done]. split_and!; try done; [|by cbn; destruct (addresses m)].
  unfold addressed. cbn. rewrite Hm, Hd, Z.eqb_refl. cbn. destruct Hs as [-> | ->]; [by rewrite Z.eqb_refl|by rewrite orb_true_r].
Qed.

Lemma messages_received n ms : eqb (IsMaster tx) (IsMaster rx) = false -> Forall (for_station n) ms -> forall timely k seqs fs,
  stack_ok timely k -> tl_isOnline (transport k) = true -> length (rxBuffer (receiver (transport k))) = n -> length seqs = length ms -> Forall is_seq seqs ->
  fs.*2 = map frame_of (concat (zip_with message_frames seqs ms)) ->
  wp (Stack.run rx (map arrive fs)) k (fun _ k' => app_calls k' = app_calls k ++ map AppOnReceive ms).
Proof.
  intros Hm. induction 1 as [|m ms (Hne & Hb & Hfit & _ & _ & _ & Hd & Hs) Hms IH]; intros timely k seqs fs Hok Hon Hn Hlen Hseqs Hfs.
  - destruct seqs; [|done]. destruct fs; [|done]. cbn [map Stack.run]. rewrite wp_ret. by rewrite app_nil_r.
  - destruct seqs as [|s seqs]; [done|]. apply Forall_cons_1 in Hseqs as [Hs0 Hseqs]. cbn [zip_with concat] in Hfs. rewrite map_app in Hfs.
    apply fmap_app_inv in Hfs as (f1 & f2 & Hf1 & Hf2 & ->). rewrite map_app, wp_run_app.
    eapply wp_mono; [eapply (message_received rx timely k f1 m s); [done|done|done|done|lia|]|].
    + change (map snd f1) with (f1.*2). rewrite <- Hf1. by apply frames_carried.
    + cbv beta. intros _ k1 (Hok1 & Hon1 & Hn1 & Ha1). eapply wp_mono; [apply (IH timely k1 seqs f2); [done|done|lia|by injection Hlen|done|done]|].
      cbv beta. intros _ k2 Ha2. rewrite Ha2, Ha1, <- app_assoc. done.
Qed.

Lemma split_message_bytes fuel first s p : bytes_ok p -> Forall bytes_ok (split_message fuel first s p).
Proof.
  revert first s p. induction fuel as [|fuel IH]; intros first s p Hp; cbn [split_message]; [constructor|].
  constructor; [by apply segment_bytes_ok|]. case_bool; [constructor|]. by apply IH, Forall_drop.
Qed.

Lemma message_frames_sendable n s m : for_station n m -> Forall sendable (message_frames s m).
Proof.
  intros (_ & Hb & _ & _ & Hd & Hs & _). apply Forall_fmap, Forall_forall. intros x Hx.
  pose proof (proj1 (Forall_forall _ _) (split_message_sizes (length (payload m)) true s (payload m)) x Hx) as Hlen.
  pose proof (proj1 (Forall_forall _ _) (split_message_bytes (length (payload m)) true s (payload m) Hb) x Hx) as Hbytes.
  cbv beta in Hlen. split_and!; [done|done|done|cbn; lia|]. cbn. by destruct x; [cbn in Hlen; lia|].
Qed.

Lemma all_sendable n ms seqs : Forall (for_station n) ms -> Forall sendable (concat (zip_with message_frames seqs ms)).
Proof.
  intros Hms. revert seqs. induction Hms as [|m ms Hm Hms IH]; intros [|s seqs]; cbn; try constructor. apply Forall_app_2; [by eapply message_frames_sendable|apply IH].
Qed.

(** Messages cross the channel.  An idle station transmits any messages, one after
    another, through its transport and link layers; the other station reads the frames
    from the channel, cut up in any way, and passes them to its own layers, at any times.
    Each message is reported as sent once, and its application receives exactly the same
    messages, with the same addresses, in the same order. *)
Theorem messages_cross_the_channel timely ks kr ms :
  stack_reachable tx true ks -> idle_link (link ks) -> tl_isSending (transport ks) = false -> UseConfirms tx = false ->
  stack_reachable rx timely kr -> isOnline (link kr) = true -> eqb (IsMaster tx) (IsMaster rx) = false ->
  Forall (for_station (length (rxBuffer (receiver (transport kr))))) ms ->
  exists ks' o, Stack.run tx (concat (map send_events ms)) ks = Some (ks', tt) /\ trace (link ks') = trace (link ks) ++ o /\
    app_calls ks' = app_calls ks ++ map (fun _ => AppOnTxReady) ms /\
    forall buffer sizes, bytes_ok buffer -> length buffer = LPDU_MAX_FRAME_SIZE ->
      Forall (fun n => 0 < n) sizes -> length (concat (wire o)) <= length sizes ->
      exists p frames, LinkLayerParser.ReadChannel sizes (LinkLayerParser.init buffer) (concat (wire o)) = Some (p, frames, []) /\
        forall arrivals, arrivals.*2 = frames ->
          exists kr', Stack.run rx (map arrive arrivals) kr = Some (kr', tt) /\ app_calls kr' = app_calls kr ++ map AppOnReceive ms.
Proof.
  intros Hks Hidle Hsend Hconf Hkr Hon Hm Hms. apply stack_reachable_ok in Hks, Hkr.
  assert (Hready : ready_stack ks) by (split; [done|done|by rewrite (st_online _ _ Hks), (il_online _ Hidle)|done]).
  destruct (wp_run _ _ _ (messages_sent _ ms Hconf Hms ks Hready)) as (ks' & [] & Hrun & _ & Ha & o & seqs & Htr & Hlen & Hseqs & Hw).
  exists ks', o. split_and!; [done..|]. intros buffer sizes Hbuf Hlb Hpos Hsizes. rewrite Hw in *.
  destruct (channel_hears buffer sizes _ Hbuf Hlb (all_sendable _ ms seqs Hms) Hpos Hsizes) as (p & Hread & _).
  eexists p, _. split; [exact Hread|]. intros arrivals Harr.
  destruct (wp_run _ _ _ (messages_received _ ms Hm Hms timely kr seqs arrivals Hkr ltac:(by rewrite (st_online _ _ Hkr)) eq_refl Hlen Hseqs Harr)) as (kr' & [] & Hr & Har).
  by exists kr'.
Qed.

End Crossing.

(** ** Examples *)

Section Examples.
Import LinkContext Layer.

Definition tx_config : LinkLayerConfig := mkLinkLayerConfig true false 2 1 1024 1000 60000 false.

Definition rx_config : LinkLayerConfig := mkLinkLayerConfig false false 2 1024 1 1000 60000 false.

Definition new_stack : TransportStack :=
  Stack.init (replicate LPDU_MAX_FRAME_SIZE 0%Z) (replicate LPDU_HEADER_SIZE 0%Z) (replicate MAX_TPDU_LENGTH 0%Z) (replicate 2048 0%Z) 0.

(** The stack after some events. *)
Definition after (config : LinkLayerConfig) (es : list StackEvent) : TransportStack :=
  match Stack.run config es new_stack with Some (k, _) => k | None => new_stack end.

Definition online (config : LinkLayerConfig) : TransportStack := after config [FromBelow (EvLowerLayerUp 0)].

Definition message_of (n : nat) (x : Z) : Message := mkMessage (mkAddresses 1 1024) (replicate n x).

Lemma new_stack_reachable config timely : stack_reachable config timely new_stack.
Proof. apply stack_init; [by rewrite length_replicate..|]. apply Forall_replicate. unfold is_u8. lia. Qed.

Lemma online_reachable timely : stack_reachable tx_config timely (online tx_config) /\ stack_reachable rx_config timely (online rx_config).
Proof. split; (eapply (stack_step _ _ new_stack (FromBelow (EvLowerLayerUp 0))); [apply new_stack_reachable|done|vm_compute; reflexivity]). Qed.

Lemma message_of_ok n x : 0 < n <= 2048 -> is_u8 x -> for_station rx_config 2048 (message_of n x).
Proof.
  intros Hn Hx. unfold for_station, message_of. cbn [payload addresses destination source]. rewrite length_replicate.
  split_and!; [by destruct n; [lia|]|by apply Forall_replicate|lia|lia|unfold is_u16; lia|unfold is_u16; lia|done|by left].
Qed.

(** A callback of an earlier connection.  A message is sent, its callback is still in the
    queue when the connection is lost and a new one is made, and the application starts
    another message; the callback then makes the transport layer accept a third message
    while the link layer sends the second, and the other station receives a message that
    nobody sent. *)
Definition stale_events : list StackEvent :=
  [FromBelow (EvLowerLayerUp 0); Transmit (message_of 10 1); FromBelow EvTxReady; FromBelow EvLowerLayerDown; FromBelow (EvLowerLayerUp 0);
   Transmit (message_of 300 2); RunReady; Transmit (message_of 300 3); FromBelow EvTxReady].

Definition heard (config : LinkLayerConfig) (k : TransportStack) : list AppCall :=
  let input := concat (wire (trace (link k))) in
  match LinkLayerParser.ReadChannel (replicate (length input) 292) (LinkLayerParser.init (replicate LPDU_MAX_FRAME_SIZE 0%Z)) input with
  | Some (_, frames, _) => app_calls (after config (FromBelow (EvLowerLayerUp 0) :: map (fun f => arrive (0%Z, f)) frames))
  | None => []
  end.

Lemma stale_callback_splices_messages :
  heard rx_config (after tx_config stale_events) =
    [AppOnLowerLayerUp; AppOnReceive (message_of 10 1); AppOnReceive (mkMessage (mkAddresses 1 1024) (replicate 249 2%Z ++ replicate 51 3%Z))].
Proof. vm_compute. reflexivity. Qed.

Lemma stack_safe_witness :
  exists k', Stack.handle tx_config (Transmit (message_of 300 2)) (online tx_config) = Some (k', tt) /\
    tl_isOnline (transport k') = isOnline (link k') /\
    (tl_isSending (transport k') = true -> pSegments (link k') = true \/ 0 < posted_ready k') /\
    (true = true -> posted_ready k' + Nat.b2n (pSegments (link k')) = Nat.b2n (tl_isSending (transport k'))) /\
    (true = true -> pSegments (link (online tx_config)) = true -> forall m, Transmit (message_of 300 2) = Transmit m -> k' = online tx_config).
Proof. apply (stack_safe tx_config true); [apply online_reachable|]. apply Forall_replicate. unfold is_u8. lia. Defined.

Lemma messages_cross_the_channel_witness :
  exists ks' o, Stack.run tx_config (concat (map send_events [message_of 300 2; message_of 10 1])) (online tx_config) = Some (ks', tt) /\
    trace (link ks') = trace (link (online tx_config)) ++ o /\
    app_calls ks' = app_calls (online tx_config) ++ [AppOnTxReady; AppOnTxReady] /\
    forall buffer sizes, bytes_ok buffer -> length buffer = LPDU_MAX_FRAME_SIZE ->
      Forall (fun n => 0 < n) sizes -> length (concat (wire o)) <= length sizes ->
      exists p frames, LinkLayerParser.ReadChannel sizes (LinkLayerParser.init buffer) (concat (wire o)) = Some (p, frames, []) /\
        forall arrivals, arrivals.*2 = frames ->
          exists kr', Stack.run rx_config (map arrive arrivals) (online rx_config) = Some (kr', tt) /\
            app_calls kr' = app_calls (online rx_config) ++ [AppOnReceive (message_of 300 2); AppOnReceive (message_of 10 1)].
Proof.
  apply (messages_cross_the_channel tx_config rx_config true (online tx_config) (online rx_config) [message_of 300 2; message_of 10 1]).
  - apply online_reachable.
  - split; vm_compute; reflexivity.
  - vm_compute. reflexivity.
  - reflexivity.
  - apply online_reachable.
  - vm_compute. reflexivity.
  - reflexivity.
  - assert (length (rxBuffer (receiver (transport (online rx_config)))) = 2048) as -> by (vm_compute; reflexivity).
    apply Forall_cons_2; [|apply Forall_cons_2; [|constructor]]; apply message_of_ok; unfold is_u8; lia.
Defined.

End Examples.
