(* ===== verification/Channels.v ===== *)
(** * Channels: the sessions of a channel (asiodnp3/IOHandler, asiopal/IAsyncChannel)

    An [IOHandler] shares a channel between link sessions.  A pointer to a session is its
    position in the list of the sessions that exist.  What the handler promises is proved
    for any session with the interface [LinkSessionOk]; a transport stack is one. *)

From S2P Require Import Prelude Slices Serialization Crc LinkFrame LinkParser Transport LinkLayer TransportStack.

(** ** Data *)

Record Route := mkRoute { route_destination : Z; route_source : Z }.

Definition Route_Equals (a b : Route) : bool := (route_destination a =? route_destination b)%Z && (route_source a =? route_source b)%Z.

Inductive ChannelState := CLOSED | OPENING | OPEN | SHUTDOWN.

(** The calls of a session by the handler. *)
Inductive SessionCall :=
  | CallOnFrame (now : Z) (header : LinkHeaderFields) (userdata : RSlice)
  | CallOnTxReady
  | CallOnLowerLayerUp (now : Z)
  | CallOnLowerLayerDown.

(** An [RSlice] into the transmit buffer of a session's primary or secondary station. *)
Record FrameView := mkFrameView { fv_primary : bool; fv_view : View }.

(** A session: what a call does, and what its own timers and its application do; both give
    the transmissions that the session begins, each with the bytes that the view shows
    then.  What a view shows later is what the buffer holds later. *)
Class ILinkSession (S : Type) := {
  SessionEvent : Type;
  session_call : SessionCall -> S -> option (S * list (FrameView * bytes));
  session_event : SessionEvent -> S -> option (S * list (FrameView * bytes));
  show : S -> FrameView -> option bytes
}.

(** [LinkStatistics::Channel] *)
Record ChannelStats := mkChannelStats {
  numOpen : Z;
  numOpenFail : Z;
  numClose : Z;
  numBytesRx : Z;
  numBytesTx : Z;
  numLinkFrameTx : Z
}.

(** [IAsyncChannel], without the executor. *)
Record IAsyncChannel := mkIAsyncChannel { callbacks : bool; is_shutting_down : bool; reading : bool; writing : bool }.

(** [IOHandler::Session] *)
Record Session := mkSession { enabled : bool; route : Route; online : bool; session : nat }.

(** [IOHandler::Transmission]: [txdata] is a view of a buffer of the session. *)
Record Transmission := mkTransmission { txdata : FrameView; tx_session : nat }.

(** What the handler does to others, and the transmissions that sessions begin, with the
    bytes to be sent. *)
Inductive IOCall :=
  | UpdateListener (s : ChannelState)
  | BeginChannelAccept
  | SuspendChannelAccept
  | ShutdownImpl
  | OnChannelShutdown
  | BeginReadImpl (size : nat)
  | BeginWriteImpl (data : bytes)
  | ChannelShutdown
  | RefuseChannel
  | SessionTransmits (id : nat) (data : bytes).

(** [IOHandler], with the sessions that exist and the calls made so far. *)
Record IOHandler (S : Type) := mkIOHandler {
  close_existing : bool;
  isShutdown : bool;
  statistics : ChannelStats;
  sessions : list Session;
  txQueue : list Transmission;
  parser : Parser;
  channel : option IAsyncChannel;
  links : list S;
  io_calls : list IOCall
}.

Arguments mkIOHandler {S}.

Arguments close_existing {S}.

Arguments isShutdown {S}.

Arguments statistics {S}.

Arguments sessions {S}.

Arguments txQueue {S}.

Arguments parser {S}.

Arguments channel {S}.

Arguments links {S}.

Arguments io_calls {S}.

Section Setters.
Context {S : Type}.
Implicit Types h : IOHandler S.

Definition set_isShutdown (v : bool) h : IOHandler S :=
  mkIOHandler (close_existing h) v (statistics h) (sessions h) (txQueue h) (parser h) (channel h) (links h) (io_calls h).

Definition set_statistics (v : ChannelStats) h : IOHandler S :=
  mkIOHandler (close_existing h) (isShutdown h) v (sessions h) (txQueue h) (parser h) (channel h) (links h) (io_calls h).

Definition set_sessions (v : list Session) h : IOHandler S :=
  mkIOHandler (close_existing h) (isShutdown h) (statistics h) v (txQueue h) (parser h) (channel h) (links h) (io_calls h).

Definition set_txQueue (v : list Transmission) h : IOHandler S :=
  mkIOHandler (close_existing h) (isShutdown h) (statistics h) (sessions h) v (parser h) (channel h) (links h) (io_calls h).

Definition set_parser (v : Parser) h : IOHandler S :=
  mkIOHandler (close_existing h) (isShutdown h) (statistics h) (sessions h) (txQueue h) v (channel h) (links h) (io_calls h).

Definition set_channel (v : option IAsyncChannel) h : IOHandler S :=
  mkIOHandler (close_existing h) (isShutdown h) (statistics h) (sessions h) (txQueue h) (parser h) v (links h) (io_calls h).

Definition set_links (v : list S) h : IOHandler S :=
  mkIOHandler (close_existing h) (isShutdown h) (statistics h) (sessions h) (txQueue h) (parser h) (channel h) v (io_calls h).

Definition set_io_calls (v : list IOCall) h : IOHandler S :=
  mkIOHandler (close_existing h) (isShutdown h) (statistics h) (sessions h) (txQueue h) (parser h) (channel h) (links h) v.

End Setters.

(** ** IAsyncChannel *)

Module IAsyncChannel.

Definition CanRead (c : IAsyncChannel) : bool := callbacks c && negb (is_shutting_down c) && negb (reading c).

Definition CanWrite (c : IAsyncChannel) : bool := callbacks c && negb (is_shutting_down c) && negb (writing c).

Definition set_reading (b : bool) (c : IAsyncChannel) : IAsyncChannel := mkIAsyncChannel (callbacks c) (is_shutting_down c) b (writing c).

Definition set_writing (b : bool) (c : IAsyncChannel) : IAsyncChannel := mkIAsyncChannel (callbacks c) (is_shutting_down c) (reading c) b.

(** A new channel. *)
Definition init : IAsyncChannel := mkIAsyncChannel false false false false.

Definition SetCallbacks (c : IAsyncChannel) : IAsyncChannel := mkIAsyncChannel true (is_shutting_down c) (reading c) (writing c).

(** The methods that begin an operation return what they ask of the socket. *)
Definition BeginRead (c : IAsyncChannel) (size : nat) : option (IAsyncChannel * list IOCall) :=
  _ ← c_assert (callbacks c);
  if CanRead c then Some (set_reading true c, [BeginReadImpl size]) else Some (c, []).

Definition BeginWrite (c : IAsyncChannel) (data : bytes) : option (IAsyncChannel * list IOCall) :=
  _ ← c_assert (callbacks c);
  if CanWrite c then Some (set_writing true c, [BeginWriteImpl data]) else Some (c, []).

End IAsyncChannel.

(** ** IOHandler *)

Module IOHandler.
Section Methods.
Context {L : Type} `{ILinkSession L}.

#[local] Abbreviation M := (SM (IOHandler L)).

(** The constructor; [rx] is what the buffer of the parser holds. *)
Definition init (close_existing : bool) (rx : bytes) (links : list L) : IOHandler L :=
  mkIOHandler close_existing false (mkChannelStats 0 0 0 0 0 0) [] [] (LinkLayerParser.init rx) None links [].

Definition emit (c : list IOCall) : M unit := modify (fun h => set_io_calls (io_calls h ++ c) h).

Definition stats (f : ChannelStats -> ChannelStats) : M unit := modify (fun h => set_statistics (f (statistics h)) h).

Definition count_open (s : ChannelStats) : ChannelStats :=
  mkChannelStats (u32 (numOpen s + 1)) (numOpenFail s) (numClose s) (numBytesRx s) (numBytesTx s) (numLinkFrameTx s).

Definition count_close (s : ChannelStats) : ChannelStats :=
  mkChannelStats (numOpen s) (numOpenFail s) (u32 (numClose s + 1)) (numBytesRx s) (numBytesTx s) (numLinkFrameTx s).

Definition count_rx (n : Z) (s : ChannelStats) : ChannelStats :=
  mkChannelStats (numOpen s) (numOpenFail s) (numClose s) (u32 (numBytesRx s + u32 n)) (numBytesTx s) (numLinkFrameTx s).

Definition count_tx (n : Z) (s : ChannelStats) : ChannelStats :=
  mkChannelStats (numOpen s) (numOpenFail s) (numClose s) (numBytesRx s) (u32 (numBytesTx s + u32 n)) (numLinkFrameTx s).

Definition count_frame (s : ChannelStats) : ChannelStats :=
  mkChannelStats (numOpen s) (numOpenFail s) (numClose s) (numBytesRx s) (numBytesTx s) (u32 (numLinkFrameTx s + 1)).

(** What the view of a transmission shows now. *)
Definition tx_bytes (t : Transmission) : M bytes :=
  l ← get links;
  s ← lift (l !! tx_session t);
  lift (show s (txdata t)).

(** The socket is given the view; a write takes what it shows when it begins. *)
Definition CheckForSend : M unit :=
  queue ← get txQueue;
  ch ← get channel;
  match queue, ch with
  | t :: _, Some ch =>
      if IAsyncChannel.CanWrite ch then
        _ ← stats count_frame;
        data ← tx_bytes t;
        '(ch, o) ← lift (IAsyncChannel.BeginWrite ch data);
        _ ← modify (set_channel (Some ch));
        emit o
      else mret tt
  | _, _ => mret tt
  end.

(** A view, with the bytes that it shows. *)
Definition BeginTransmit (session : nat) (f : FrameView * bytes) : M unit :=
  _ ← emit [SessionTransmits session f.2];
  ch ← get channel;
  match ch with
  | Some _ =>
      _ ← modify (fun h => set_txQueue (txQueue h ++ [mkTransmission f.1 session]) h);
      CheckForSend
  | None => mret tt
  end.

Fixpoint transmit_all (session : nat) (frames : list (FrameView * bytes)) : M unit :=
  match frames with
  | [] => mret tt
  | f :: frames => _ ← BeginTransmit session f; transmit_all session frames
  end.

(** Runs a session, then the transmissions that it began, in their order. *)
Definition with_session (f : L -> option (L * list (FrameView * bytes))) (id : nat) : M unit :=
  l ← get links;
  s ← lift (l !! id);
  '(s, frames) ← lift (f s);
  _ ← modify (fun h => set_links (<[id := s]> (links h)) h);
  transmit_all id frames.

Definition Session_OnFrame (r : Session) (now : Z) (header : LinkHeaderFields) (userdata : RSlice) : M unit :=
  with_session (session_call (CallOnFrame now header userdata)) (session r).

(** The record at a position of [sessions]. *)
Definition modify_session (i : nat) (f : Session -> Session) : M unit := modify (fun h => set_sessions (alter f i (sessions h)) h).

Definition set_online (b : bool) (r : Session) : Session := mkSession (enabled r) (route r) b (session r).

Definition set_enabled (b : bool) (r : Session) : Session := mkSession b (route r) (online r) (session r).

Definition LowerLayerUp (now : Z) (i : nat) : M unit :=
  l ← get sessions;
  r ← lift (l !! i);
  if negb (online r) then
    _ ← modify_session i (set_online true);
    with_session (session_call (CallOnLowerLayerUp now)) (session r)
  else mret tt.

Definition LowerLayerDown (i : nat) : M unit :=
  l ← get sessions;
  r ← lift (l !! i);
  if online r then
    _ ← modify_session i (set_online false);
    with_session (session_call CallOnLowerLayerDown) (session r)
  else mret tt.

(** [for (auto& item : sessions)]: the list keeps its length meanwhile. *)
Fixpoint for_each (n : nat) (f : nat -> M unit) : M unit :=
  match n with O => mret tt | S n => _ ← for_each n f; f n end.

Definition for_sessions (f : nat -> M unit) : M unit := l ← get sessions; for_each (length l) f.

Definition Reset : M unit :=
  ch ← get channel;
  _ ← (match ch with
       | Some _ =>
           _ ← emit [ChannelShutdown];
           _ ← modify (set_channel None);
           _ ← stats count_close;
           _ ← emit [UpdateListener CLOSED];
           for_sessions LowerLayerDown
       | None => mret tt
       end);
  _ ← modify (fun h => set_parser (LinkLayerParser.Reset (parser h)) h);
  modify (set_txQueue []).

Definition Shutdown : M unit :=
  s ← get isShutdown;
  if (s : bool) then mret tt
  else
    _ ← modify (set_isShutdown true);
    _ ← Reset;
    emit [ShutdownImpl; UpdateListener SHUTDOWN].

Definition BeginRead : M unit :=
  ch ← get channel;
  ch ← lift ch;
  p ← get parser;
  '(ch, o) ← lift (IAsyncChannel.BeginRead ch (ws_size (LinkLayerParser.WriteBuff p)));
  _ ← modify (set_channel (Some ch));
  emit o.

(** The route is only used for the log. *)
Definition SendToSession (now : Z) (header : LinkHeaderFields) (userdata : RSlice) : M unit :=
  for_sessions (fun i =>
    l ← get sessions;
    r ← lift (l !! i);
    if enabled r then Session_OnFrame r now header userdata else mret tt).

Definition OnFrame (now : Z) (f : LinkLayerParser.Frame) : M unit := SendToSession now f.1 f.2.

Fixpoint frames_to_sessions (now : Z) (fs : list LinkLayerParser.Frame) : M unit :=
  match fs with
  | [] => mret tt
  | f :: fs => _ ← OnFrame now f; frames_to_sessions now fs
  end.

(** An error, or the bytes that the read put into the buffer.  The parser comes first here,
    since a session does not touch it. *)
Definition OnReadComplete (now : Z) (result : option bytes) : M unit :=
  match result with
  | None => _ ← Reset; emit [UpdateListener OPENING; OnChannelShutdown]
  | Some chunk =>
      _ ← stats (count_rx (Z.of_nat (length chunk)));
      p ← get parser;
      '(p, frames) ← lift (LinkLayerParser.Receive p chunk);
      _ ← modify (set_parser p);
      _ ← frames_to_sessions now frames;
      BeginRead
  end.

Definition OnWriteComplete (result : option Z) : M unit :=
  match result with
  | None => _ ← Reset; emit [UpdateListener OPENING; OnChannelShutdown]
  | Some num =>
      _ ← stats (count_tx num);
      queue ← get txQueue;
      _ ← (match queue with
           | t :: queue =>
               _ ← modify (set_txQueue queue);
               with_session (session_call CallOnTxReady) (tx_session t)
           | [] => mret tt
           end);
      CheckForSend
  end.

Definition Matches_session (id : nat) (r : Session) : bool := session r =? id.

Definition Matches_route (x : Route) (r : Session) : bool := Route_Equals (route r) x.

Definition IsRouteInUse (x : Route) (h : IOHandler L) : bool := existsb (Matches_route x) (sessions h).

Definition IsSessionInUse (id : nat) (h : IOHandler L) : bool := existsb (Matches_session id) (sessions h).

Definition IsAnySessionEnabled (h : IOHandler L) : bool := existsb enabled (sessions h).

Definition AddContext (id : nat) (x : Route) : M bool :=
  in_use ← get (IsRouteInUse x);
  if (in_use : bool) then mret false
  else
    in_use ← get (IsSessionInUse id);
    if (in_use : bool) then mret false
    else
      _ ← modify (fun h => set_sessions (sessions h ++ [mkSession false x false id]) h);
      mret true.

(** [std::find_if] *)
Definition find_session (id : nat) : M (option (nat * Session)) := get (fun h => list_find (fun r => session r = id) (sessions h)).

Definition Enable (now : Z) (id : nat) : M bool :=
  found ← find_session id;
  match found with
  | None => mret false
  | Some (i, r) =>
      if enabled r then mret true
      else
        _ ← modify_session i (set_enabled true);
        ch ← get channel;
        _ ← (match ch with
             | Some _ => LowerLayerUp now i
             | None => emit [UpdateListener OPENING; BeginChannelAccept]
             end);
        mret true
  end.

Definition Disable (id : nat) : M bool :=
  found ← find_session id;
  match found with
  | None => mret false
  | Some (i, r) =>
      if negb (enabled r) then mret true
      else
        _ ← modify_session i (set_enabled false);
        ch ← get channel;
        _ ← (match ch with Some _ => LowerLayerDown i | None => mret tt end);
        any ← get IsAnySessionEnabled;
        _ ← (if negb any then _ ← Reset; emit [SuspendChannelAccept] else mret tt);
        mret true
  end.

Definition Remove (id : nat) : M bool :=
  found ← find_session id;
  match found with
  | None => mret false
  | Some (i, r) =>
      ch ← get channel;
      _ ← (match ch with Some _ => LowerLayerDown i | None => mret tt end);
      _ ← modify (fun h => set_sessions (delete i (sessions h)) h);
      any ← get IsAnySessionEnabled;
      _ ← (if negb any then emit [SuspendChannelAccept] else mret tt);
      mret true
  end.

Definition OnNewChannel (now : Z) : M unit :=
  ch ← get channel;
  close ← get close_existing;
  match ch, close with
  | Some _, false => emit [RefuseChannel]
  | _, _ =>
      _ ← stats count_open;
      _ ← Reset;
      _ ← modify (set_channel (Some (IAsyncChannel.SetCallbacks IAsyncChannel.init)));
      _ ← emit [UpdateListener OPEN];
      _ ← BeginRead;
      for_sessions (fun i =>
        l ← get sessions;
        r ← lift (l !! i);
        if enabled r then LowerLayerUp now i else mret tt)
  end.

(** [IAsyncChannel::OnReadCallback] and [OnWriteCallback] of the channel in use; those of a
    channel that was shut down do nothing. *)
Definition OnReadCallback (now : Z) (result : option bytes) : M unit :=
  ch ← get channel;
  match ch with
  | None => mret tt
  | Some c =>
      _ ← modify (set_channel (Some (IAsyncChannel.set_reading false c)));
      if callbacks c && negb (is_shutting_down c) then OnReadComplete now result else mret tt
  end.

Definition OnWriteCallback (result : option Z) : M unit :=
  ch ← get channel;
  match ch with
  | None => mret tt
  | Some c =>
      _ ← modify (set_channel (Some (IAsyncChannel.set_writing false c)));
      if callbacks c && negb (is_shutting_down c) then OnWriteComplete result else mret tt
  end.

End Methods.
End IOHandler.

(** What happens to a handler. *)
Inductive ChannelEvent (E : Type) :=
  | EvAddContext (id : nat) (x : Route)
  | EvEnable (now : Z) (id : nat)
  | EvDisable (id : nat)
  | EvRemove (id : nat)
  | EvNewChannel (now : Z)
  | EvRead (now : Z) (result : option bytes)
  | EvWritten (result : option Z)
  | EvSession (id : nat) (e : E)
  | EvShutdown.

Arguments EvAddContext {E}.

Arguments EvEnable {E}.

Arguments EvDisable {E}.

Arguments EvRemove {E}.

Arguments EvNewChannel {E}.

Arguments EvRead {E}.

Arguments EvWritten {E}.

Arguments EvSession {E}.

Arguments EvShutdown {E}.

Module Channel.
Section Events.
Context {L : Type} `{ILinkSession L}.

Definition handle (e : ChannelEvent SessionEvent) : SM (IOHandler L) unit :=
  match e with
  | EvAddContext id x => _ ← IOHandler.AddContext id x; mret tt
  | EvEnable now id => _ ← IOHandler.Enable now id; mret tt
  | EvDisable id => _ ← IOHandler.Disable id; mret tt
  | EvRemove id => _ ← IOHandler.Remove id; mret tt
  | EvNewChannel now => IOHandler.OnNewChannel now
  | EvRead now result => IOHandler.OnReadCallback now result
  | EvWritten result => IOHandler.OnWriteCallback result
  | EvSession id e => IOHandler.with_session (session_event e) id
  | EvShutdown => IOHandler.Shutdown
  end.


End Events.
End Channel.

(** ** What the handler relies on *)

(** A call leaves the frames [flight] of a session on their way, whose views go on showing
    the same bytes, and begins to transmit [fs]: these views show their bytes now, and will
    always show some. *)
Definition begins {L} `{ILinkSession L} (ok : bool -> L -> Prop) (flight flight' : list FrameView) (l l' : L) (fs : list (FrameView * bytes)) : Prop :=
  flight' = flight ++ map fst fs /\ Forall (fun v => show l' v = show l v) flight /\ Forall (fun f => show l' f.1 = Some f.2) fs /\
  Forall (fun f => forall on l1, ok on l1 -> is_Some (show l1 f.1)) fs.

(** The promise of a session: calls do not fail; [in_flight] are the frames that it has
    begun to transmit and that have not been reported as sent, in their order; it leaves
    them alone, and has none while it is offline; going up or down transmits nothing. *)
Class LinkSessionOk (L : Type) `{ILinkSession L} := {
  session_ok : bool -> L -> Prop;
  in_flight : L -> list FrameView;
  event_allowed : SessionEvent -> L -> Prop;
  offline_quiet l : session_ok false l -> in_flight l = [];
  frame_ok on l now h d : session_ok on l ->
    exists l' fs, session_call (CallOnFrame now h d) l = Some (l', fs) /\ session_ok on l' /\ begins session_ok (in_flight l) (in_flight l') l l' fs;
  ready_ok on l : session_ok on l ->
    exists l' fs, session_call CallOnTxReady l = Some (l', fs) /\ session_ok on l' /\ begins session_ok (tail (in_flight l)) (in_flight l') l l' fs;
  up_ok now l : session_ok false l -> exists l', session_call (CallOnLowerLayerUp now) l = Some (l', []) /\ session_ok true l' /\ in_flight l' = [];
  down_ok l : session_ok true l -> exists l', session_call CallOnLowerLayerDown l = Some (l', []) /\ session_ok false l';
  event_ok on l e : session_ok on l -> event_allowed e l ->
    exists l' fs, session_event e l = Some (l', fs) /\ session_ok on l' /\ begins session_ok (in_flight l) (in_flight l') l l' fs
}.

(** How many frames of a session are on their way. *)
Definition frames_out {L} `{LinkSessionOk L} (l : L) : nat := length (in_flight l).

(** ** Lemmas: transmissions *)

Ltac io_cbn := cbn [close_existing isShutdown statistics sessions txQueue parser channel links io_calls set_isShutdown set_statistics set_sessions
  set_txQueue set_parser set_channel set_links set_io_calls].

(** The calls that bear on the order of the frames. *)
Definition requests (o : list IOCall) : list bytes := omap (fun c => match c with SessionTransmits _ d => Some d | _ => None end) o.

Definition writes (o : list IOCall) : list bytes := omap (fun c => match c with BeginWriteImpl d => Some d | _ => None end) o.

Definition filled {A} (l : list A) : bool := match l with [] => false | _ => true end.

(** The transmissions of a session in the queue. *)
Definition queued_for (id : nat) (q : list Transmission) : nat := length (List.filter (fun t => tx_session t =? id) q).

(** The views of a session in the queue. *)
Definition views_for (id : nat) (q : list Transmission) : list FrameView := map txdata (List.filter (fun t => tx_session t =? id) q).

Lemma views_for_length id q : length (views_for id q) = queued_for id q.
Proof. apply length_map. Qed.

Lemma views_for_app id q q' : views_for id (q ++ q') = views_for id q ++ views_for id q'.
Proof. unfold views_for. by rewrite List.filter_app, map_app. Qed.

Lemma views_for_own id vs : views_for id (map (fun v => mkTransmission v id) vs) = vs.
Proof. unfold views_for. induction vs as [|v vs IH]; [done|]. cbn. rewrite Nat.eqb_refl. cbn. by rewrite IH. Qed.

Lemma views_for_other id id' vs : id <> id' -> views_for id (map (fun v => mkTransmission v id') vs) = [].
Proof. intros Hne. unfold views_for. induction vs as [|v vs IH]; [done|]. cbn. by rewrite (proj2 (Nat.eqb_neq id' id)) by done. Qed.

Lemma views_for_elem t q : t ∈ q -> txdata t ∈ views_for (tx_session t) q.
Proof. intros Ht. apply list_elem_of_fmap. exists t. split; [done|]. apply list_elem_of_In, filter_In. rewrite Nat.eqb_refl. split; [by apply list_elem_of_In|done]. Qed.

Lemma queued_for_app id q q' : queued_for id (q ++ q') = queued_for id q + queued_for id q'.
Proof. by rewrite <- !views_for_length, views_for_app, length_app. Qed.

Lemma requests_app o o' : requests (o ++ o') = requests o ++ requests o'.
Proof. apply omap_app. Qed.

Lemma writes_app o o' : writes (o ++ o') = writes o ++ writes o'.
Proof. apply omap_app. Qed.

Section Transmitting.
Context {L : Type} `{ILinkSession L}.
Implicit Types (h : IOHandler L) (c : IAsyncChannel).

(** What the view of a transmission shows. *)
Definition shown h (t : Transmission) : option bytes := l ← links h !! tx_session t; show l (txdata t).

(** The transmissions that have not begun, as they are now. *)
Definition waiting h : list (option bytes) :=
  map (shown h) (match channel h with Some c => drop (if writing c then 1 else 0) (txQueue h) | None => txQueue h end).

(** The frame that is being written is still what the last write was given. *)
Definition wrote h : Prop := forall c t q, channel h = Some c -> writing c = true -> txQueue h = t :: q -> list.last (writes (io_calls h)) = shown h t.

(** The frames that wait and those that are requested are written in this order, unless the
    connection ends. *)
Definition in_order (timely : bool) h h' : Prop := exists o, io_calls h' = io_calls h ++ o /\ (timely = true -> (wrote h -> wrote h') /\
  (is_Some (channel h) -> ChannelShutdown ∉ o -> is_Some (channel h') /\ waiting h ++ map Some (requests o) = map Some (writes o) ++ waiting h')).

(** The views in the queue show what they showed. *)
Definition same_frames h h' : Prop := forall t, t ∈ txQueue h -> shown h' t = shown h t.

Lemma waiting_same (f g : Transmission -> option bytes) q n : (forall t, t ∈ q -> f t = g t) -> map f (drop n q) = map g (drop n q).
Proof. intros Hs. apply map_ext_in. intros t Ht%list_elem_of_In. apply Hs. by apply (subseteq_drop n). Qed.

Lemma in_order_kept timely h h' : io_calls h' = io_calls h -> channel h' = channel h -> txQueue h' = txQueue h -> (timely = true -> same_frames h h') -> in_order timely h h'.
Proof.
  intros Hi Hc Hq Hs. exists []. rewrite app_nil_r. split; [done|]. intros Ht. specialize (Hs Ht). split.
  - unfold wrote. rewrite Hi, Hc, Hq. intros Hw c t q H1 H2 H3. rewrite Hs by (rewrite H3; by left). by eapply Hw.
  - intros Hch _. unfold waiting. rewrite Hc, Hq. split; [done|]. cbn. rewrite app_nil_r. destruct (channel h); [|by destruct Hch]. apply waiting_same. intros t Htq. symmetry. by apply Hs.
Qed.

Lemma in_order_refl timely h h' : io_calls h' = io_calls h -> channel h' = channel h -> txQueue h' = txQueue h -> links h' = links h -> in_order timely h h'.
Proof. intros Hi Hc Hq Hl. apply in_order_kept; [done..|]. intros _ t _. unfold shown. by rewrite Hl. Qed.

Lemma in_order_trans timely h1 h2 h3 : in_order timely h1 h2 -> in_order timely h2 h3 -> in_order timely h1 h3.
Proof.
  intros (o1 & E1 & H1) (o2 & E2 & H2). exists (o1 ++ o2). split; [by rewrite E2, E1, app_assoc|]. intros Ht. destruct (H1 Ht) as [W1 O1], (H2 Ht) as [W2 O2].
  split; [auto|]. intros Hs Hn. rewrite elem_of_app in Hn. destruct (O1 Hs) as [Hs2 X1]; [tauto|]. destruct (O2 Hs2) as [Hs3 X2]; [tauto|]. split; [done|].
  by rewrite requests_app, writes_app, !map_app, app_assoc, X1, <- app_assoc, X2, app_assoc.
Qed.

(** A channel that can be used; what is being written is the head of the queue. *)
Definition usable h : Prop := Forall (fun t => is_Some (shown h t)) (txQueue h) /\
  match channel h with
  | Some c => callbacks c = true /\ is_shutting_down c = false /\ (writing c = true -> txQueue h <> [])
  | None => True
  end.

(** The state after a session has transmitted some frames. *)
Record transmitted (timely : bool) (id : nat) (fs : list (FrameView * bytes)) h h' : Prop := mkTransmitted {
  tr_sessions : sessions h' = sessions h;
  tr_parser : parser h' = parser h;
  tr_links : links h' = links h;
  tr_queue : txQueue h' = txQueue h ++ match channel h with Some _ => map (fun v => mkTransmission v id) (map fst fs) | None => [] end;
  tr_channel : channel h' = option_map (fun c => IAsyncChannel.set_writing (writing c || filled fs) c) (channel h);
  tr_order : in_order timely h h'
}.

Lemma transmitted_nil timely id h : transmitted timely id [] h h.
Proof.
  split; [done|done|done| | |by apply in_order_refl].
  - destruct (channel h); by rewrite app_nil_r.
  - destruct (channel h) as [[c1 c2 c3 c4]|]; [|done]. cbn. by rewrite orb_false_r.
Qed.

Lemma transmitted_app timely id fs fs' h h1 h2 : transmitted timely id fs h h1 -> transmitted timely id fs' h1 h2 -> transmitted timely id (fs ++ fs') h h2.
Proof.
  intros [S1 P1 L1 Q1 C1 O1] [S2 P2 L2 Q2 C2 O2]. split; [congruence|congruence|congruence| | |by eapply in_order_trans].
  - rewrite Q2, Q1, C1. destruct (channel h); cbn; [by rewrite !map_app, app_assoc|by rewrite !app_nil_r].
  - rewrite C2, C1. destruct (channel h) as [[c1 c2 c3 c4]|]; [|done]. by destruct c4, fs, fs'.
Qed.

(** The frames of a session, as they are shown. *)
Definition shows_frames (id : nat) h (fs : list (FrameView * bytes)) : Prop := Forall (fun f => shown h (mkTransmission f.1 id) = Some f.2) fs.

Lemma shown_same h h' t : links h' = links h -> shown h' t = shown h t.
Proof. intros Hl. unfold shown. by rewrite Hl. Qed.

Lemma transmitted_usable timely id fs h h' : usable h -> shows_frames id h fs -> transmitted timely id fs h h' -> usable h'.
Proof.
  intros [Hf Hu] Hs [_ _ Hl Hq Hc _]. assert (Hsame : forall t, shown h' t = shown h t) by (intros; by apply shown_same). unfold usable. rewrite Hc, Hq. split.
  - apply Forall_app_2; [eapply Forall_impl; [|exact Hf]; intros t; cbv beta; by rewrite Hsame|]. destruct (channel h); [|constructor].
    apply Forall_fmap, Forall_fmap. eapply Forall_impl; [|exact Hs]. cbv beta. intros f Hfr. cbn. rewrite Hsame, Hfr. by eexists.
  - destruct (channel h) as [c|]; [|done]. cbn. destruct Hu as (H1 & H2 & H3).
    split_and!; [done|done|]. intros [Hw|Hw]%orb_prop; [intros Hn; apply app_nil in Hn as [Hn _]; by apply H3|]. by destruct fs; [|destruct (txQueue h)].
Qed.

(** The state after a check of the queue. *)
Record checked (timely : bool) h h' : Prop := mkChecked {
  ch_sessions : sessions h' = sessions h;
  ch_parser : parser h' = parser h;
  ch_links : links h' = links h;
  ch_queue : txQueue h' = txQueue h;
  ch_channel : channel h' = option_map (fun c => IAsyncChannel.set_writing (writing c || filled (txQueue h)) c) (channel h);
  ch_order : in_order timely h h'
}.

Lemma tx_bytes_wp t d h (Q : bytes -> IOHandler L -> Prop) : shown h t = Some d -> Q d h -> wp (IOHandler.tx_bytes t) h Q.
Proof.
  unfold shown, IOHandler.tx_bytes. intros Hs HQ. wp_go. unfold lift. destruct (links h !! tx_session t) as [l|]; [|done]. cbn in Hs. unfold wp at 1. cbn [mbind option_bind].
  unfold wp. rewrite Hs. exact HQ.
Qed.

Lemma check_wp timely h : usable h -> wp IOHandler.CheckForSend h (fun _ h' => checked timely h h').
Proof.
  intros [Hf Hu]. unfold IOHandler.CheckForSend, IOHandler.emit, IOHandler.stats. wp_go.
  assert (Hskip : channel h = option_map (fun c => IAsyncChannel.set_writing (writing c || filled (txQueue h)) c) (channel h) -> checked timely h h)
    by (intros Hc; split; (done || by apply in_order_refl)).
  destruct (channel h) as [[c1 c2 c3 c4]|] eqn:Hc; [|destruct (txQueue h); wp_go; by apply Hskip].
  cbn in Hu. destruct Hu as (-> & -> & Hw). destruct (txQueue h) as [|t q] eqn:Hq; wp_go; [apply Hskip; by destruct c4; [destruct Hw|]|].
  unfold IAsyncChannel.CanWrite. cbn. destruct c4; cbn; wp_go; [by apply Hskip|]. apply Forall_cons_1 in Hf as [[d Hd] _]. eapply tx_bytes_wp; [exact Hd|].
  wp_go. split; io_cbn; rewrite ?Hq, ?Hc; try done.
  eexists. split; [reflexivity|]. intros _. split.
  - intros _ c t' q'. io_cbn. rewrite Hq. intros _ _ [= <- <-]. rewrite writes_app. cbn. rewrite list.last_snoc. symmetry. exact Hd.
  - intros _ _. unfold waiting. io_cbn. rewrite Hc, Hq. split; [done|]. cbn. by rewrite app_nil_r, drop_0, Hd.
Qed.

Lemma begin_wp timely id f h : usable h -> shown h (mkTransmission f.1 id) = Some f.2 -> wp (IOHandler.BeginTransmit id f) h (fun _ h' => transmitted timely id [f] h h').
Proof.
  intros [Hf Hu] Hs. unfold IOHandler.BeginTransmit, IOHandler.emit. wp_go. io_cbn. destruct (channel h) as [c|] eqn:Hc; wp_go.
  2: { split; io_cbn; [done|done|done|by rewrite Hc, app_nil_r|by rewrite Hc|]. eexists. split; [reflexivity|]. intros _. split; [|rewrite Hc; by intros []].
       intros _ c t q. io_cbn. by rewrite Hc. }
  io_cbn. set (h1 := set_txQueue _ _). assert (Ho : in_order timely h h1).
  { eexists. split; [reflexivity|]. intros _. split.
    - intros Hw c' t q. unfold h1. io_cbn. intros Hc' Hwr Hq. rewrite writes_app. cbn. rewrite app_nil_r. destruct (txQueue h) as [|t0 q0] eqn:Hq0.
      + rewrite Hc in Hc'. injection Hc' as <-. destruct Hu as (_ & _ & Hu). by destruct Hu.
      + injection Hq as <- _. by eapply Hw.
    - intros _ _. unfold waiting, h1. io_cbn. rewrite Hc. split; [done|]. cbn. change (map (shown (set_txQueue _ _))) with (map (shown h)).
      destruct Hu as (_ & _ & Hw). destruct (writing c); [|by rewrite !drop_0, map_app; cbn; rewrite Hs].
      destruct (txQueue h) as [|t q]; [by destruct Hw|]. cbn. by rewrite !drop_0, map_app; cbn; rewrite Hs. }
  eapply wp_mono; [apply (check_wp timely)|].
  - unfold usable in *. unfold h1. io_cbn. rewrite Hc in *. destruct Hu as (? & ? & ?). split; [apply Forall_app_2; [done|]; constructor; [by eexists|constructor]|].
    split_and!; [done|done|]. intros _ Hn. by apply app_nil in Hn as [_ Hn].
  - cbv beta. intros _ h' [S P Lk Q C O]. unfold h1 in *. io_cbn. cbn in S, P, Lk, Q, C. split; [done|done|done| | |by eapply in_order_trans].
    + rewrite Q, Hc. done.
    + rewrite C, Hc. cbn. do 3 f_equal. by destruct (txQueue h).
Qed.

Lemma transmit_wp timely id fs : forall h, usable h -> shows_frames id h fs -> wp (IOHandler.transmit_all id fs) h (fun _ h' => transmitted timely id fs h h').
Proof.
  induction fs as [|f fs IH]; intros h Hu Hs; cbn [IOHandler.transmit_all]; [rewrite wp_ret; by apply transmitted_nil|]. rewrite wp_bind.
  apply Forall_cons_1 in Hs as [Hf Hs]. eapply wp_mono; [by apply (begin_wp timely)|]. cbv beta. intros _ h1 H1.
  eapply wp_mono; [apply IH; [eapply transmitted_usable; [done| |done]; by constructor|]|].
  - eapply Forall_impl; [|exact Hs]. cbv beta. intros f'. by rewrite (shown_same h h1) by (apply (tr_links _ _ _ _ _ H1)).
  - cbv beta. intros _ h2 H2. by apply (transmitted_app timely id [f] fs h h1 h2).
Qed.

Lemma session_wp timely id f l l' fs h (Q : unit -> IOHandler L -> Prop) : usable (set_links (<[id := l']> (links h)) h) ->
  links h !! id = Some l -> f l = Some (l', fs) -> Forall (fun f => show l' f.1 = Some f.2) fs ->
  (forall h', transmitted timely id fs (set_links (<[id := l']> (links h)) h) h' -> Q tt h') -> wp (IOHandler.with_session f id) h Q.
Proof.
  intros Hu Hl Hf Hs HQ. unfold IOHandler.with_session. wp_go. unfold lift. rewrite Hl. unfold wp at 1. cbn [mbind option_bind]. wp_go. rewrite Hf.
  unfold wp at 1. cbn [mbind option_bind]. wp_go. eapply wp_mono; [apply (transmit_wp timely); [exact Hu|]|].
  - eapply Forall_impl; [|exact Hs]. cbv beta. intros x Hx. unfold shown. io_cbn. cbn [tx_session txdata]. rewrite list_lookup_insert_eq by (by eapply lookup_lt_Some). exact Hx.
  - cbv beta. intros [] h'. apply HQ.
Qed.

End Transmitting.

(** ** The invariant of a handler *)

Section Invariant.
Context {L : Type} `{LinkSessionOk L}.
Implicit Types (h : IOHandler L) (r : Session) (l : L).

(** A view that shows some bytes, whatever the state of the session. *)
Definition always (v : FrameView) : Prop := forall on l, session_ok on l -> is_Some (show l v).

(** The parser is between two reads; every session is in the state that its record says,
    and offline when it has none. *)
Record base h : Prop := mkBase {
  b_unique : NoDup (map session (sessions h));
  b_member r : r ∈ sessions h -> exists l, links h !! session r = Some l /\ session_ok (online r) l;
  b_others i l : links h !! i = Some l -> i ∉ map session (sessions h) -> session_ok false l;
  b_queue : Forall (fun t => tx_session t < length (links h) /\ always (txdata t)) (txQueue h);
  b_parser : exists u, idle (parser h) u
}.

(** The queue has as many frames of a session as are out; when [timely], exactly these. *)
Definition accounted (timely : bool) h : Prop := forall i l, links h !! i = Some l ->
  frames_out l <= queued_for i (txQueue h) /\ (timely = true -> in_flight l = views_for i (txQueue h)).

(** A write is in progress exactly when the queue has a frame. *)
Definition lined h : Prop :=
  match channel h with
  | Some c => callbacks c = true /\ is_shutting_down c = false /\ writing c = filled (txQueue h)
  | None => txQueue h = [] /\ forall r, r ∈ sessions h -> online r = false
  end.

Record inv (timely : bool) h : Prop := mkInv { i_base : base h; i_accounted : accounted timely h; i_lined : lined h }.

(** A session that a call leaves as it should. *)
Definition session_law (f : L -> option (L * list (FrameView * bytes))) l : Prop := forall on, session_ok on l ->
  exists l' fs, f l = Some (l', fs) /\ session_ok on l' /\ begins session_ok (in_flight l) (in_flight l') l l' fs.

(** What a session leaves alone. *)
Record kept (timely : bool) h h' : Prop := mkKept {
  k_sessions : sessions h' = sessions h;
  k_parser : parser h' = parser h;
  k_reading : option_map reading (channel h') = option_map reading (channel h);
  k_order : in_order timely h h'
}.

Lemma session_keeps timely h : kept timely h h.
Proof. split; (done || by apply in_order_refl). Qed.

Lemma session_keeps_trans timely h1 h2 h3 : kept timely h1 h2 -> kept timely h2 h3 -> kept timely h1 h3.
Proof. intros [? ? ? ?] [? ? ? ?]. split; [congruence|congruence|congruence|by eapply in_order_trans]. Qed.

Lemma base_status h i l : base h -> links h !! i = Some l ->
  exists on, session_ok on l /\ ((forall r, r ∈ sessions h -> online r = false) -> on = false).
Proof.
  intros Hb Hl. destruct (decide (i ∈ map session (sessions h))) as [Hi|Hi]; [|exists false; split; [by eapply b_others|done]].
  apply list_elem_of_fmap in Hi as (r & -> & Hr). destruct (b_member h Hb r Hr) as (l1 & Hl1 & Hok). rewrite Hl in Hl1. injection Hl1 as <-.
  exists (online r). split; [done|auto].
Qed.

Lemma base_shown h : base h -> Forall (fun t => is_Some (shown h t)) (txQueue h).
Proof.
  intros Hb. eapply Forall_impl; [|exact (b_queue _ Hb)]. cbv beta. intros t [Ht Ha]. destruct (lookup_lt_is_Some_2 _ _ Ht) as [l Hl].
  destruct (base_status h _ l Hb Hl) as (on & Hon & _). unfold shown. rewrite Hl. by apply (Ha on).
Qed.

Lemma lined_usable h : base h -> lined h -> usable h.
Proof.
  intros Hb Hl. split; [by apply base_shown|]. unfold lined in Hl. destruct (channel h) as [c|]; [|done]. destruct Hl as (? & ? & Hw). split_and!; [done|done|].
  rewrite Hw. by destruct (txQueue h).
Qed.

Lemma lookup_set {A} (xs : list A) i j x : i < length xs -> <[i := x]> xs !! j = if decide (i = j) then Some x else xs !! j.
Proof. intros Hi. destruct (decide (i = j)) as [<-|Hne]; [by apply list_lookup_insert_eq|by apply list_lookup_insert_ne]. Qed.

(** A session takes a call. *)
Lemma base_call h h' i l l' : base h -> links h !! i = Some l -> (forall on, session_ok on l -> session_ok on l') ->
  sessions h' = sessions h -> parser h' = parser h -> links h' = <[i := l']> (links h) -> Forall (fun t => tx_session t < length (links h) /\ always (txdata t)) (txQueue h') -> base h'.
Proof.
  intros [B1 B2 B3 B4 B5] Hl Hok Hs Hp Hlk Hqu. pose proof (lookup_lt_Some _ _ _ Hl) as Hlt. split; rewrite ?Hs, ?Hp, ?Hlk; [done| | | |done].
  - intros r Hr. destruct (B2 r Hr) as (l1 & Hl1 & Hon). rewrite lookup_set by done. destruct (decide (i = session r)) as [->|Hne]; [|eauto].
    exists l'. simplify_eq. auto.
  - intros j lj. rewrite lookup_set by done. destruct (decide (i = j)) as [<-|Hne]; [|eauto].
    intros [= <-] Hnot. by eapply Hok, B3.
  - by rewrite length_insert.
Qed.

(** The views that are in the queue show what they showed, when the session leaves them alone. *)
Lemma relinked_frames h id l l' : links h !! id = Some l -> Forall (fun v => show l' v = show l v) (views_for id (txQueue h)) ->
  same_frames h (set_links (<[id := l']> (links h)) h).
Proof.
  intros Hl Hv t Ht. unfold shown. io_cbn. rewrite lookup_set by (by eapply lookup_lt_Some). destruct (decide (id = tx_session t)) as [->|Hne]; [|done].
  rewrite Hl. cbn. rewrite Forall_forall in Hv. by apply Hv, list_elem_of_In, views_for_elem.
Qed.

(** The queue takes the frames that a session begins. *)
Lemma queue_ok (fs : list (FrameView * bytes)) id h : Forall (fun f => forall on l1, session_ok on l1 -> is_Some (show l1 f.1)) fs -> id < length (links h) ->
  Forall (fun t => tx_session t < length (links h) /\ always (txdata t)) (map (fun v => mkTransmission v id) (map fst fs)).
Proof. intros Hf Hid. apply Forall_fmap, Forall_fmap. eapply Forall_impl; [|exact Hf]. cbv beta. intros f Ha. by split. Qed.

Lemma session_inv timely id f h l : inv timely h -> links h !! id = Some l -> session_law f l ->
  wp (IOHandler.with_session f id) h (fun _ h' => inv timely h' /\ kept timely h h' /\ exists l' fs, f l = Some (l', fs) /\ links h' = <[id := l']> (links h)).
Proof.
  intros [Hb Ha Hl] Hid Hlaw. destruct (base_status h id l Hb Hid) as (on & Hon & Hoff). destruct (Hlaw on Hon) as (l' & fs & Hf & Hon' & Hfl & Hsame & Hshow & Halw).
  pose proof (lookup_lt_Some _ _ _ Hid) as Hlt. set (h1 := set_links (<[id := l']> (links h)) h).
  assert (Hok : forall on2, session_ok on2 l -> session_ok on2 l') by (intros on2 Hon2; destruct (Hlaw on2 Hon2) as (l2 & fs2 & Hf2 & Hok2 & _); by simplify_eq).
  assert (Hb1 : base h1) by (eapply base_call; [done|exact Hid|done|done|done|done|apply (b_queue _ Hb)]).
  apply (session_wp timely id f l l' fs h); [by apply lined_usable|done|done|done|]. intros h' [S P K Q C O]. cbn in S, P, K, Q, C.
  assert (Hfs : channel h = None -> fs = []).
  { intros Hn. unfold lined in Hl. rewrite Hn in Hl. rewrite (Hoff (proj2 Hl)) in *. apply offline_quiet in Hon, Hon'. rewrite Hon, Hon' in Hfl. cbn in Hfl. by destruct fs. }
  split; [split|split].
  - eapply (base_call h); [done|exact Hid|done|done|done|done|].
    rewrite Q. apply Forall_app_2; [apply (b_queue _ Hb)|]. destruct (channel h); [by apply queue_ok|constructor].
  - intros i li. rewrite K, lookup_set, Q, queued_for_app, views_for_app by done. unfold frames_out. destruct (decide (id = i)) as [<-|Hne].
    + intros [= <-]. destruct (Ha id l Hid) as [H1 H2]. unfold frames_out in H1. rewrite Hfl, length_app, length_map.
      destruct (channel h); [rewrite <- (views_for_length _ (map _ _)), views_for_own, length_map|rewrite Hfs by done]; (split; [cbn; lia|intros Ht; by rewrite (H2 Ht)]).
    + intros Hi. destruct (Ha i li Hi) as [H1 H2]. unfold frames_out in H1. destruct (channel h); [rewrite views_for_other by done|]; (split; [lia|intros Ht; by rewrite (H2 Ht), app_nil_r]).
  - unfold lined in *. rewrite C, Q, S. destruct (channel h) as [c|] eqn:Hc; cbn.
    + destruct Hl as (-> & -> & ->). split_and!; [done|done|]. by destruct (txQueue h), fs.
    + destruct Hl as [-> Hd]. done.
  - split; [done|done|rewrite C; by destruct (channel h)|]. eapply in_order_trans; [|exact O]. apply in_order_kept; [done..|].
    intros Ht. apply (relinked_frames h id l l'); [done|]. destruct (Ha id l Hid) as [_ H2]. by rewrite <- (H2 Ht).
  - by exists l', fs.
Qed.

(** A call that transmits nothing. *)
Lemma quiet_session_wp id f l l' h (Q : unit -> IOHandler L -> Prop) : links h !! id = Some l -> f l = Some (l', []) ->
  Q tt (set_links (<[id := l']> (links h)) h) -> wp (IOHandler.with_session f id) h Q.
Proof.
  intros Hl Hf HQ. unfold IOHandler.with_session. wp_go. unfold lift. rewrite Hl. unfold wp at 1. cbn [mbind option_bind]. wp_go. rewrite Hf.
  unfold wp at 1. cbn [mbind option_bind]. wp_go. exact HQ.
Qed.

Lemma alter_member (f : Session -> Session) i (s : list Session) r : r ∈ alter f i s -> exists j r0, s !! j = Some r0 /\ (j = i /\ r = f r0 \/ j <> i /\ r = r0).
Proof.
  intros (j & Hj)%list_elem_of_lookup. destruct (decide (j = i)) as [->|Hne].
  - rewrite list_lookup_alter_eq in Hj. destruct (s !! i) as [r0|] eqn:Hr; [|done]. injection Hj as <-. exists i, r0. auto.
  - rewrite list_lookup_alter_ne in Hj by done. exists j, r. auto.
Qed.

Lemma map_alter (f : Session -> Session) i (s : list Session) : (forall r, session (f r) = session r) -> map session (alter f i s) = map session s.
Proof.
  intros Hf. revert i. induction s as [|r s IH]; intros [|i]; cbn; [done|done|by rewrite Hf|]. f_equal. apply IH.
Qed.

Lemma same_session h i j r r' : base h -> sessions h !! i = Some r -> sessions h !! j = Some r' -> session r = session r' -> i = j.
Proof.
  intros Hb Hi Hj He. eapply (NoDup_lookup (map session (sessions h))); [apply b_unique, Hb|..]; change (map session) with (fmap (M := list) session);
    rewrite list_lookup_fmap; [by rewrite Hi|by rewrite Hj; cbn; rewrite He].
Qed.

(** A record is marked, and its session follows. *)
Definition flipped (b : bool) (i : nat) r l' h : IOHandler L :=
  set_links (<[session r := l']> (links h)) (set_sessions (alter (IOHandler.set_online b) i (sessions h)) h).

Lemma base_flip h i r b l' : base h -> sessions h !! i = Some r -> session_ok b l' -> base (flipped b i r l' h).
Proof.
  intros Hb Hi Hok. pose proof Hb as [B1 B2 B3 B4 B5]. destruct (B2 r) as (l & Hl & _); [by eapply list_elem_of_lookup_2|].
  pose proof (lookup_lt_Some _ _ _ Hl) as Hlt. unfold flipped. split; io_cbn; rewrite ?map_alter by done; [done| | | |done].
  - intros r' (j & r0 & Hj & [[-> ->] | [Hne ->]])%alter_member; rewrite lookup_set by done.
    + rewrite Hi in Hj. injection Hj as <-. cbn. rewrite decide_True by done. eauto.
    + destruct (decide (session r = session r0)) as [He|_]; [by destruct Hne; symmetry; eapply same_session|]. apply B2. by eapply list_elem_of_lookup_2.
  - intros j lj. rewrite lookup_set by done. destruct (decide (session r = j)) as [<-|Hne]; [|by apply B3]. intros _ []. change (map session) with (fmap (M := list) session).
    apply list_elem_of_fmap. exists r. split; [done|]. by eapply list_elem_of_lookup_2.
  - by rewrite length_insert.
Qed.

Lemma base_enable h i b : base h -> base (set_sessions (alter (IOHandler.set_enabled b) i (sessions h)) h).
Proof.
  intros [B1 B2 B3 B4 B5]. split; io_cbn; rewrite ?map_alter by done; [done| |done|done|done].
  intros r' (j & r0 & Hj & Hr)%alter_member. assert (session r' = session r0 /\ online r' = online r0) as [-> ->] by (by destruct Hr as [[_ ->] | [_ ->]]).
  apply B2. by eapply list_elem_of_lookup_2.
Qed.

Lemma alter_same (f : Session -> Session) i (s : list Session) r : s !! i = Some r -> f r = r -> alter f i s = s.
Proof. intros Hi Hf. apply list_eq. intros j. destruct (decide (j = i)) as [->|]; [rewrite list_lookup_alter_eq, Hi; cbn; by rewrite Hf|by rewrite list_lookup_alter_ne]. Qed.

Lemma up_wp now i r h (Q : unit -> IOHandler L -> Prop) : base h -> sessions h !! i = Some r ->
  (online r = true -> Q tt h) -> (online r = false -> forall l', session_ok true l' -> in_flight l' = [] -> Q tt (flipped true i r l' h)) -> wp (IOHandler.LowerLayerUp now i) h Q.
Proof.
  intros Hb Hi Hq1 Hq2. unfold IOHandler.LowerLayerUp, IOHandler.modify_session. wp_go. unfold lift. rewrite Hi. unfold wp at 1. cbn [mbind option_bind].
  destruct (online r) eqn:Hon; cbn [negb]; wp_go; [by apply Hq1|]. destruct (b_member h Hb r) as (l & Hl & Hok); [by eapply list_elem_of_lookup_2|].
  rewrite Hon in Hok. destruct (up_ok now l Hok) as (l' & Hc & Hok' & Hf). eapply quiet_session_wp; [exact Hl|exact Hc|]. by apply Hq2.
Qed.

Lemma down_wp i r h (Q : unit -> IOHandler L -> Prop) : base h -> sessions h !! i = Some r ->
  (online r = false -> Q tt h) -> (online r = true -> forall l', session_ok false l' -> Q tt (flipped false i r l' h)) -> wp (IOHandler.LowerLayerDown i) h Q.
Proof.
  intros Hb Hi Hq1 Hq2. unfold IOHandler.LowerLayerDown, IOHandler.modify_session. wp_go. unfold lift. rewrite Hi. unfold wp at 1. cbn [mbind option_bind].
  destruct (online r) eqn:Hon; wp_go; [|by apply Hq1]. destruct (b_member h Hb r) as (l & Hl & Hok); [by eapply list_elem_of_lookup_2|].
  rewrite Hon in Hok. destruct (down_ok l Hok) as (l' & Hc & Hok'). eapply quiet_session_wp; [exact Hl|exact Hc|]. by apply Hq2.
Qed.

Lemma for_each_wp (I : nat -> IOHandler L -> Prop) n f h : I 0 h -> (forall k h1, k < n -> I k h1 -> wp (f k) h1 (fun _ h' => I (S k) h')) ->
  wp (IOHandler.for_each n f) h (fun _ h' => I n h').
Proof.
  intros Hbegin Hf. induction n as [|n IH]; cbn [IOHandler.for_each]; [by rewrite wp_ret|]. rewrite wp_bind. eapply wp_mono; [apply IH; intros; apply Hf; [lia|done]|].
  cbv beta. intros _ h1 H1. apply Hf; [lia|done].
Qed.

(** The first [k] records have been changed. *)
Definition changed_to (f : Session -> Session) (k : nat) (s : list Session) : list Session := map f (take k s) ++ drop k s.

Lemma changed_next f k s r : s !! k = Some r -> alter f k (changed_to f k s) = changed_to f (S k) s /\ changed_to f k s !! k = Some r.
Proof.
  intros Hk. unfold changed_to. pose proof (lookup_lt_Some _ _ _ Hk) as Hlt. assert (Hl : length (map f (take k s)) = k) by (rewrite length_map; len).
  rewrite (drop_S _ _ _ Hk), (take_S_r _ _ _ Hk), map_app. split.
  - rewrite alter_app_r_alt by lia. by rewrite Hl, Nat.sub_diag, <- app_assoc.
  - rewrite lookup_app_r by lia. by rewrite Hl, Nat.sub_diag.
Qed.

Lemma changed_length f k s : length (changed_to f k s) = length s.
Proof. unfold changed_to. rewrite length_app, length_map, <- length_app. by rewrite take_drop. Qed.

Lemma changed_start f s : changed_to f 0 s = s.
Proof. done. Qed.

Lemma changed_all f s : changed_to f (length s) s = map f s.
Proof. unfold changed_to. by rewrite take_ge, drop_ge, app_nil_r by lia. Qed.

Lemma map_session_online b (s : list Session) : map session (map (IOHandler.set_online b) s) = map session s.
Proof. induction s as [|r s IH]; [done|]. cbn. by rewrite IH. Qed.

Lemma down_same (s : list Session) : (forall r, r ∈ s -> online r = false) -> map (IOHandler.set_online false) s = s.
Proof.
  intros Hs. induction s as [|r s IH]; [done|]. cbn [map]. rewrite IH by (intros; apply Hs; by right). f_equal.
  specialize (Hs r ltac:(by left)). destruct r. cbn in *. by rewrite Hs.
Qed.

Lemma all_down_wp h : base h -> wp (IOHandler.for_sessions IOHandler.LowerLayerDown) h (fun _ h' => base h' /\
  sessions h' = map (IOHandler.set_online false) (sessions h) /\ parser h' = parser h /\ txQueue h' = txQueue h /\ channel h' = channel h /\ io_calls h' = io_calls h).
Proof.
  intros Hb. unfold IOHandler.for_sessions. wp_go. rewrite <- changed_all.
  apply (for_each_wp (fun k h' => base h' /\ sessions h' = changed_to (IOHandler.set_online false) k (sessions h) /\ parser h' = parser h /\ txQueue h' = txQueue h /\
    channel h' = channel h /\ io_calls h' = io_calls h)); [done|].
  intros k h1 Hk (Hb1 & Hs1 & Hp1 & Hq1 & Hc1 & Hi1). destruct (lookup_lt_is_Some_2 _ _ Hk) as [r Hr].
  destruct (changed_next (IOHandler.set_online false) k (sessions h) r Hr) as [Ha Hl]. rewrite <- Hs1 in Ha, Hl.
  eapply down_wp; [done|exact Hl| |].
  - intros Hoff. split_and!; [done| |done..]. rewrite <- Ha. symmetry. eapply alter_same; [exact Hl|]. destruct r. cbn in *. by rewrite Hoff.
  - intros _ l' Hok. split; [by apply base_flip|]. unfold flipped. io_cbn. done.
Qed.

Lemma reset_idle p u : idle p u -> idle (LinkLayerParser.Reset p) [].
Proof.
  intros (((Hb1 & Hb2 & Hb3 & Hb4) & _) & _). unfold idle, represents, buffer_ok, LinkLayerParser.Reset, contents, ShiftableBuffer.NumBytesRead, LPDU_MAX_FRAME_SIZE in *.
  cbn in *. split_and!; try done; lia.
Qed.

(** The handler has no channel. *)
Record closed h : Prop := mkClosed {
  cl_base : base h;
  cl_accounted : accounted true h;
  cl_channel : channel h = None;
  cl_queue : txQueue h = [];
  cl_sessions r : r ∈ sessions h -> online r = false
}.

Lemma closed_frames h i l : base h -> (forall r, r ∈ sessions h -> online r = false) -> links h !! i = Some l -> in_flight l = [].
Proof. intros Hb Hoff Hl. destruct (base_status h i l Hb Hl) as (on & Hon & He). rewrite (He Hoff) in Hon. by apply offline_quiet. Qed.

Lemma reset_wp h : base h -> (channel h = None -> forall r, r ∈ sessions h -> online r = false) ->
  wp IOHandler.Reset h (fun _ h' => closed h' /\ sessions h' = map (IOHandler.set_online false) (sessions h) /\
    io_calls h' = io_calls h ++ (match channel h with Some _ => [ChannelShutdown; UpdateListener CLOSED] | None => [] end)).
Proof.
  intros Hb Hnone.
  assert (Hend : forall h1, base h1 -> channel h1 = None -> sessions h1 = map (IOHandler.set_online false) (sessions h) ->
    closed (set_txQueue [] (set_parser (LinkLayerParser.Reset (parser h1)) h1))).
  { intros h1 [B1 B2 B3 B4 [u B5]] Hc Hs. assert (Hb1 : base (set_txQueue [] (set_parser (LinkLayerParser.Reset (parser h1)) h1))).
    { split; io_cbn; [done|done|done|constructor|]. exists []. by eapply reset_idle. }
    assert (Hoff : forall r, r ∈ sessions h1 -> online r = false) by (rewrite Hs; by intros r (r0 & -> & _)%list_elem_of_fmap).
    split; [done| |done|done|done]. intros i l Hl. unfold frames_out. rewrite (closed_frames _ i l Hb1 Hoff Hl). done. }
  unfold IOHandler.Reset, IOHandler.emit, IOHandler.stats. wp_go. destruct (channel h) as [c|] eqn:Hc; wp_go.
  - eapply wp_mono; [apply all_down_wp|].
    + destruct Hb. by split.
    + cbv beta. io_cbn. intros _ h1 (Hb1 & Hs1 & _ & _ & Hc1 & Hi1). wp_go. split; [by apply Hend|]. io_cbn. by rewrite Hs1, Hi1, <- app_assoc.
  - rewrite down_same by auto. split; [apply Hend; [done|done|by rewrite down_same by auto]|]. io_cbn. by rewrite app_nil_r.
Qed.

Lemma in_order_quiet timely o h h' : io_calls h' = io_calls h ++ o -> requests o = [] -> writes o = [] -> option_map writing (channel h') = option_map writing (channel h) ->
  txQueue h' = txQueue h -> links h' = links h -> in_order timely h h'.
Proof.
  intros Hi Hr Hw Hc Hq Hl. assert (Hs : forall t, shown h' t = shown h t) by (intros; by apply shown_same). exists o. split; [done|]. intros _. split.
  - intros Hh c t q Hch Hwr Hqu. rewrite Hi, writes_app, Hw, app_nil_r, Hs. rewrite Hch in Hc. destruct (channel h) as [c0|] eqn:Hc0; [|done].
    cbn in Hc. injection Hc as Hc. eapply (Hh c0); [done|by rewrite <- Hc|by rewrite <- Hq].
  - intros [c Hch] _. unfold waiting. rewrite Hr, Hw, Hq. rewrite Hch in Hc |- *. destruct (channel h') as [c'|]; [|done]. cbn in Hc. injection Hc as ->. split; [done|].
    cbn. rewrite app_nil_r. apply map_ext. intros t. by rewrite Hs.
Qed.

Definition has_channel h : bool := match channel h with Some _ => true | None => false end.

(** Between two events, a session is online exactly when it is enabled and there is a
    channel, and a read is always in progress. *)
Record io_ok (timely : bool) h : Prop := mkIoOk {
  ok_inv : inv timely h;
  ok_flags r : r ∈ sessions h -> online r = enabled r && has_channel h;
  ok_reading c : channel h = Some c -> reading c = true
}.

Definition after_event (timely : bool) h h' : Prop := io_ok timely h' /\ in_order timely h h'.

Lemma closed_ok timely h : closed h -> io_ok timely h.
Proof.
  intros [Hb Ha Hc Hq Hs]. split; [split; [done| |]| |].
  - intros i l Hl. destruct (Ha i l Hl) as [H1 H2]. split; [done|]. intros _. by apply H2.
  - unfold lined. by rewrite Hc.
  - intros r Hr. unfold has_channel. rewrite Hc, andb_false_r. auto.
  - intros c Hc'. by rewrite Hc in Hc'.
Qed.

Lemma emit_ok timely h c : io_ok timely h -> io_ok timely (set_io_calls c h).
Proof. intros [[[? ? ? ? ?] ? ?] ? ?]. by split; [split; [split|..]|..]. Qed.

Lemma offline_without_channel timely h : io_ok timely h -> channel h = None -> forall r, r ∈ sessions h -> online r = false.
Proof. intros Hok Hc r Hr. rewrite (ok_flags _ _ Hok r Hr). unfold has_channel. by rewrite Hc, andb_false_r. Qed.

Lemma reset_then_emit timely o h : base h -> (channel h = None -> forall r, r ∈ sessions h -> online r = false) ->
  wp (_ ← IOHandler.Reset; IOHandler.emit o) h (fun _ h' => after_event timely h h').
Proof.
  intros Hb Hnone. rewrite wp_bind. eapply wp_mono; [by apply reset_wp|]. cbv beta. intros _ h1 (Hcl & _ & Hi). unfold IOHandler.emit. wp_go.
  split; [by apply emit_ok, closed_ok|]. eexists. io_cbn. rewrite Hi, <- app_assoc. split; [reflexivity|]. intros _. split.
  - intros _ c t q. io_cbn. by rewrite (cl_channel _ Hcl).
  - intros [c Hc] Hn. rewrite Hc in Hn. destruct Hn. apply elem_of_app. left. by left.
Qed.

Lemma add_ok timely id x h : io_ok timely h -> id < length (links h) -> wp (IOHandler.AddContext id x) h (fun _ h' => after_event timely h h').
Proof.
  intros Hok Hid. unfold IOHandler.AddContext. wp_go. destruct (IOHandler.IsRouteInUse x h); wp_go; [split; [done|by apply in_order_refl]|].
  destruct (IOHandler.IsSessionInUse id h) eqn:Huse; wp_go; [split; [done|by apply in_order_refl]|]. split; [|by apply in_order_refl].
  assert (Hnew : id ∉ map session (sessions h)).
  { intros (r & -> & Hr)%list_elem_of_fmap. assert (IOHandler.IsSessionInUse (session r) h = true); [|congruence].
    apply existsb_exists. exists r. split; [by apply list_elem_of_In|]. apply Nat.eqb_refl. }
  destruct Hok as [[[B1 B2 B3 B4 B5] Ha Hl] Hfl Hr]. destruct (lookup_lt_is_Some_2 _ _ Hid) as [l0 Hl0]. split; [split; [split|..]|..]; io_cbn; try done.
  - change (map session) with (fmap (M := list) session). rewrite fmap_app. apply list.NoDup_app. split; [done|]. split; [|by apply NoDup_singleton].
    intros y Hy Hy'. cbn in Hy'. apply list_elem_of_singleton in Hy' as ->. done.
  - intros r [Hr'| ->%list_elem_of_singleton]%elem_of_app; [by apply B2|]. exists l0. split; [done|]. by eapply B3.
  - intros i l Hi Hn. apply (B3 i l Hi). intros Hi'. apply Hn. change (map session) with (fmap (M := list) session). rewrite fmap_app. apply elem_of_app. by left.
  - unfold lined in *. io_cbn. destruct (channel h); [done|]. destruct Hl as [Hq Hoff]. split; [done|]. intros r [Hr'| ->%list_elem_of_singleton]%elem_of_app; [by apply Hoff|done].
  - intros r [Hr'| ->%list_elem_of_singleton]%elem_of_app; [by apply Hfl|]. done.
Qed.

Lemma find_ok id h i r : list_find (fun r => session r = id) (sessions h) = Some (i, r) -> sessions h !! i = Some r /\ session r = id /\ r ∈ sessions h.
Proof. intros (Hi & Hid & _)%list_find_Some. split_and!; [done|done|]. by eapply list_elem_of_lookup_2. Qed.

Lemma accounted_flip timely b i r l' h : base h -> accounted timely h -> sessions h !! i = Some r -> in_flight l' = [] ->
  (timely = true -> queued_for (session r) (txQueue h) = 0) -> accounted timely (flipped b i r l' h).
Proof.
  intros Hb Ha Hi Hf Hq j lj. unfold flipped. io_cbn. destruct (b_member h Hb r) as (l & Hl & _); [by eapply list_elem_of_lookup_2|].
  rewrite lookup_set by (by eapply lookup_lt_Some). destruct (decide (session r = j)) as [<-|Hne]; [|apply Ha]. intros [= <-]. unfold frames_out. rewrite Hf. split; [cbn; lia|].
  intros Ht. symmetry. apply nil_length_inv. rewrite views_for_length. auto.
Qed.

Lemma flipped_order timely b i r l' h : base h -> sessions h !! i = Some r -> (timely = true -> queued_for (session r) (txQueue h) = 0) ->
  in_order timely h (flipped b i r l' h).
Proof.
  intros Hb Hi Hq. destruct (b_member h Hb r) as (l & Hl & _); [by eapply list_elem_of_lookup_2|]. apply in_order_kept; [done..|]. intros Ht.
  apply (relinked_frames h (session r) l l' Hl). assert (views_for (session r) (txQueue h) = []) as ->; [|constructor].
  apply nil_length_inv. rewrite views_for_length. auto.
Qed.

Lemma accounted_offline timely h r : base h -> accounted timely h -> r ∈ sessions h -> online r = false -> timely = true -> queued_for (session r) (txQueue h) = 0.
Proof.
  intros Hb Ha Hr Hoff Ht. destruct (b_member h Hb r Hr) as (l & Hl & Hok). rewrite Hoff in Hok. apply offline_quiet in Hok. destruct (Ha _ _ Hl) as [_ H2].
  by rewrite <- views_for_length, <- (H2 Ht), Hok.
Qed.

Lemma alter_offline i (s : list Session) : (forall r, r ∈ s -> online r = false) -> forall r, r ∈ alter (IOHandler.set_online false) i s -> online r = false.
Proof. intros Hs r (j & r0 & Hj & [[_ ->] | [_ ->]])%alter_member; [done|]. apply Hs. by eapply list_elem_of_lookup_2. Qed.

Lemma down_inv timely i r h : inv timely h -> sessions h !! i = Some r -> (timely = true -> queued_for (session r) (txQueue h) = 0) ->
  wp (match channel h with Some _ => IOHandler.LowerLayerDown i | None => mret tt end) h (fun _ h1 => inv timely h1 /\ in_order timely h h1 /\
    sessions h1 = alter (IOHandler.set_online false) i (sessions h) /\ channel h1 = channel h).
Proof.
  intros [Hb Ha Hl] Hi Hq. assert (Hr : r ∈ sessions h) by (by eapply list_elem_of_lookup_2).
  assert (Hkeep : online r = false -> sessions h = alter (IOHandler.set_online false) i (sessions h)).
  { intros Hoff. symmetry. eapply alter_same; [exact Hi|]. destruct r. cbn in *. by rewrite Hoff. }
  destruct (channel h) as [c|] eqn:Hc.
  - eapply down_wp; [done|exact Hi| |].
    + intros Hoff. split_and!; [done|by apply in_order_refl|by apply Hkeep|done].
    + intros Hon l' Hok. split; [split; [by apply base_flip| |]|split_and!; [by apply flipped_order|done|done]].
      * apply accounted_flip; [done|done|done|by apply offline_quiet|done].
      * unfold lined, flipped in *. io_cbn. by rewrite Hc in Hl |- *.
  - wp_go. unfold lined in Hl. rewrite Hc in Hl. destruct Hl as [Hqu Hoff]. split_and!; [|by apply in_order_refl|apply Hkeep; auto|done].
    split; [done|done|]. unfold lined. by rewrite Hc.
Qed.

Lemma enable_ok timely now id h : io_ok timely h -> wp (IOHandler.Enable now id) h (fun _ h' => after_event timely h h').
Proof.
  intros Hok. pose proof Hok as [[Hb Ha Hl] Hfl Hrd]. unfold IOHandler.Enable, IOHandler.find_session, IOHandler.modify_session, IOHandler.emit. wp_go.
  destruct (list_find _ _) as [[i r]|] eqn:Hfind; wp_go; [|split; [done|by apply in_order_refl]]. apply find_ok in Hfind as (Hi & _ & Hr).
  destruct (enabled r) eqn:Hen; wp_go; [split; [done|by apply in_order_refl]|]. io_cbn. pose proof (Hfl r Hr) as Hoff. rewrite Hen in Hoff. cbn in Hoff.
  set (h1 := set_sessions _ h). assert (Hb1 : base h1) by (by apply base_enable).
  assert (Hi1 : sessions h1 !! i = Some (IOHandler.set_enabled true r)) by (unfold h1; io_cbn; by rewrite list_lookup_alter_eq, Hi).
  assert (Hq1 : timely = true -> queued_for (session r) (txQueue h) = 0) by (by apply accounted_offline).
  destruct (channel h) as [c|] eqn:Hc; wp_go.
  - eapply up_wp; [exact Hb1|exact Hi1|by cbn; rewrite Hoff|]. intros _ l' Hok' Hf. wp_go.
    split; [|eapply in_order_trans; [by apply (in_order_refl timely h h1)|by eapply (flipped_order timely _ i (IOHandler.set_enabled true r))]]. split; [split|..].
    + by apply base_flip.
    + by apply accounted_flip.
    + unfold lined, flipped, h1 in *. io_cbn. by rewrite Hc in Hl |- *.
    + unfold flipped, has_channel, h1. io_cbn. rewrite Hc. intros r' (j & r0 & Hj & Hr')%alter_member. destruct (decide (j = i)) as [->|Hne].
      * rewrite list_lookup_alter_eq, Hi in Hj. injection Hj as <-. by destruct Hr' as [[_ ->] | [? _]].
      * rewrite list_lookup_alter_ne in Hj by done. destruct Hr' as [[? _] | [_ ->]]; [done|]. rewrite (Hfl r0) by (by eapply list_elem_of_lookup_2).
        unfold has_channel. by rewrite Hc.
    + intros c' Hc'. unfold flipped, h1 in Hc'. cbn in Hc'. apply Hrd. by rewrite <- Hc'.
  - split; [|by apply (in_order_quiet timely [UpdateListener OPENING; BeginChannelAccept])]. apply emit_ok. unfold lined in Hl. rewrite Hc in Hl.
    assert (Hall : forall r', r' ∈ sessions h1 -> online r' = false).
    { unfold h1. io_cbn. intros r' (j & r0 & Hj & [[_ ->] | [_ ->]])%alter_member; cbn; apply Hl; by eapply list_elem_of_lookup_2. }
    split; [split; [done|done|]|..].
    + unfold lined, h1. io_cbn. rewrite Hc. split; [apply Hl|exact Hall].
    + intros r' Hr'. rewrite (Hall r' Hr'). unfold has_channel, h1. io_cbn. by rewrite Hc, andb_false_r.
    + unfold h1. io_cbn. by rewrite Hc.
Qed.

(** A channel whose last session was disabled is closed. *)
Lemma close_if_unused timely h : io_ok timely h -> wp (any ← get IOHandler.IsAnySessionEnabled;
    _ ← (if negb any then _ ← IOHandler.Reset; IOHandler.emit [SuspendChannelAccept] else mret tt); mret true) h (fun _ h' => after_event timely h h').
Proof.
  intros Hok. rewrite wp_bind, wp_get. apply wp_bind. destruct (negb (IOHandler.IsAnySessionEnabled h)).
  - eapply wp_mono; [apply (reset_then_emit timely); [apply (i_base _ _ (ok_inv _ _ Hok))|by eapply offline_without_channel]|]. cbv beta. intros _ h' Hpost. by rewrite wp_ret.
  - rewrite !wp_ret. split; [done|by apply in_order_refl].
Qed.

Lemma disable_ok timely id h : io_ok timely h -> (timely = true -> queued_for id (txQueue h) = 0) -> wp (IOHandler.Disable id) h (fun _ h' => after_event timely h h').
Proof.
  intros Hok Hq. pose proof Hok as [[Hb Ha Hl] Hfl Hrd]. unfold IOHandler.Disable, IOHandler.find_session, IOHandler.modify_session. wp_go.
  destruct (list_find _ _) as [[i r]|] eqn:Hfind; wp_go; [|split; [done|by apply in_order_refl]]. apply find_ok in Hfind as (Hi & Hid & Hr).
  destruct (enabled r) eqn:Hen; cbn [negb]; wp_go; [|split; [done|by apply in_order_refl]].
  set (h1 := set_sessions _ h). assert (Hi1 : sessions h1 !! i = Some (IOHandler.set_enabled false r)) by (unfold h1; io_cbn; by rewrite list_lookup_alter_eq, Hi).
  assert (Hinv1 : inv timely h1).
  { split; [by apply base_enable|done|]. unfold lined, h1 in *. io_cbn. destruct (channel h); [done|]. destruct Hl as [Hqu Hoff]. split; [done|].
    intros r' (j & r0 & Hj & [[_ ->] | [_ ->]])%alter_member; cbn; apply Hoff; by eapply list_elem_of_lookup_2. }
  eapply wp_mono; [eapply (down_inv timely i); [done|exact Hi1|cbn; by rewrite Hid]|]. cbv beta. intros _ h2 (Hinv2 & Ho2 & Hs2 & Hc2).
  assert (Hok2 : io_ok timely h2).
  { split; [done| |rewrite Hc2; exact Hrd]. rewrite Hs2. unfold has_channel. rewrite Hc2. intros r' (j & r0 & Hj & Hr')%alter_member. unfold h1 in Hj. cbn in Hj.
    destruct (decide (j = i)) as [->|Hne].
    - rewrite list_lookup_alter_eq, Hi in Hj. injection Hj as <-. by destruct Hr' as [[_ ->] | [? _]].
    - rewrite list_lookup_alter_ne in Hj by done. destruct Hr' as [[? _] | [_ ->]]; [done|]. apply Hfl. by eapply list_elem_of_lookup_2. }
  eapply wp_mono; [by apply close_if_unused|]. cbv beta. intros _ h3 [Hok3 Ho3]. split; [done|]. eapply in_order_trans; [|eapply in_order_trans; [exact Ho2|exact Ho3]]. by apply in_order_refl.
Qed.

Lemma remove_ok timely id h : io_ok timely h -> (timely = true -> queued_for id (txQueue h) = 0) -> wp (IOHandler.Remove id) h (fun _ h' => after_event timely h h').
Proof.
  intros Hok Hq. pose proof Hok as [Hinv Hfl Hrd]. unfold IOHandler.Remove, IOHandler.find_session. wp_go.
  destruct (list_find _ _) as [[i r]|] eqn:Hfind; wp_go; [|split; [done|by apply in_order_refl]]. apply find_ok in Hfind as (Hi & Hid & Hr).
  eapply wp_mono; [eapply (down_inv timely i); [done|exact Hi|by rewrite Hid]|]. cbv beta. intros _ h2 ([[B1 B2 B3 B4 B5] Ha2 Hl2] & Ho2 & Hs2 & Hc2). wp_go.
  set (h3 := set_sessions _ h2).
  assert (Hdel : forall r', r' ∈ delete i (sessions h2) -> exists j, j <> i /\ sessions h2 !! j = Some r' /\ sessions h !! j = Some r').
  { intros r' (j & Hj)%list_elem_of_lookup. rewrite list_lookup_delete in Hj. exists (if decide (j < i) then j else S j).
    assert (Hne : (if decide (j < i) then j else S j) <> i) by (case_decide; lia). split; [done|].
    assert (Hj2 : sessions h2 !! (if decide (j < i) then j else S j) = Some r') by (by case_decide). split; [done|]. by rewrite Hs2, list_lookup_alter_ne in Hj2 by done. }
  assert (Hi2 : sessions h2 !! i = Some (IOHandler.set_online false r)) by (by rewrite Hs2, list_lookup_alter_eq, Hi).
  assert (Hok3 : io_ok timely h3).
  { unfold h3. split; [split; [split|..]|..]; io_cbn; try done.
    - change (map session) with (fmap (M := list) session) in *. rewrite list_fmap_delete. eapply sublist_NoDup; [exact B1|apply sublist_delete].
    - intros r' (j & _ & Hj & _)%Hdel. apply B2. by eapply list_elem_of_lookup_2.
    - intros k l Hk Hnot. destruct (decide (k = session r)) as [->|Hne].
      + destruct (B2 _ (list_elem_of_lookup_2 _ _ _ Hi2)) as (l2 & Hl & Hoff). cbn in Hl, Hoff. by simplify_eq.
      + apply (B3 k l Hk). intros (r' & -> & (j & Hj)%list_elem_of_lookup)%list_elem_of_fmap. apply Hnot. change (map session) with (fmap (M := list) session).
        apply list_elem_of_fmap. exists r'. split; [done|]. assert (Hji : j <> i) by (intros ->; rewrite Hi2 in Hj; by simplify_eq).
        apply list_elem_of_lookup. exists (if decide (j < i) then j else j - 1). rewrite list_lookup_delete. repeat case_decide; try done; try lia. replace (S (j - 1)) with j by lia. done.
    - unfold lined in *. io_cbn. destruct (channel h2); [done|]. destruct Hl2 as [Hqu Hoff]. split; [done|]. intros r' (j & _ & Hj & _)%Hdel. apply Hoff. by eapply list_elem_of_lookup_2.
    - intros r' (j & _ & _ & Hj)%Hdel. unfold has_channel. io_cbn. rewrite Hc2. apply Hfl. by eapply list_elem_of_lookup_2.
    - rewrite Hc2. exact Hrd. }
  assert (Ho3 : in_order timely h h3) by (eapply in_order_trans; [exact Ho2|by apply in_order_refl]).
  destruct (negb _); unfold IOHandler.emit; wp_go; [|done]. split; [by apply emit_ok|]. eapply in_order_trans; [exact Ho3|].
  by apply (in_order_quiet timely [SuspendChannelAccept]).
Qed.

(** ** Frames are for the sessions that are enabled *)

Definition hears (s : list Session) (i : nat) : bool := existsb (fun r => (session r =? i) && enabled r) s.

(** A session that gets some frames on its own, each at its time. *)
Fixpoint hear_all (fs : list (Z * LinkLayerParser.Frame)) l : option L :=
  match fs with
  | [] => Some l
  | f :: fs => '(l, _) ← session_call (CallOnFrame f.1 f.2.1 f.2.2) l; hear_all fs l
  end.


Lemma hears_next s k r i : s !! k = Some r -> hears (take (S k) s) i = hears (take k s) i || ((session r =? i) && enabled r).
Proof. intros Hk. unfold hears. rewrite (take_S_r _ _ _ Hk), existsb_app. cbn. by rewrite orb_false_r. Qed.

Lemma hears_once h k r : base h -> sessions h !! k = Some r -> hears (take k (sessions h)) (session r) = false.
Proof.
  intros Hb Hk. unfold hears. apply not_true_iff_false. intros (r' & Hr' & [He%Nat.eqb_eq _]%andb_prop)%existsb_exists.
  apply list_elem_of_In, list_elem_of_lookup in Hr' as (j & [Hj Hjk]%lookup_take_Some). pose proof (same_session h j k r' r Hb Hj Hk He). lia.
Qed.

Lemma send_wp timely now hd d h : inv timely h -> wp (IOHandler.SendToSession now hd d) h (fun _ h' => inv timely h' /\ kept timely h h' /\
  forall i l, links h !! i = Some l -> exists l', links h' !! i = Some l' /\
    if hears (sessions h) i then exists fs, session_call (CallOnFrame now hd d) l = Some (l', fs) else l' = l).
Proof.
  intros Hinv. unfold IOHandler.SendToSession, IOHandler.for_sessions. wp_go.
  replace (hears (sessions h)) with (hears (take (length (sessions h)) (sessions h))) by (by rewrite firstn_all).
  apply (for_each_wp (fun k h' => inv timely h' /\ kept timely h h' /\ forall i l, links h !! i = Some l -> exists l', links h' !! i = Some l' /\
    if hears (take k (sessions h)) i then exists fs, session_call (CallOnFrame now hd d) l = Some (l', fs) else l' = l)).
  { split; [done|]. split; [apply session_keeps|]. intros i l Hl. by exists l. }
  intros k h1 Hk (Hinv1 & Hk1 & Hh1). destruct (lookup_lt_is_Some_2 _ _ Hk) as [r Hr]. wp_go. rewrite (k_sessions _ _ _ Hk1). unfold lift. rewrite Hr.
  unfold wp at 1. cbn [mbind option_bind]. destruct (enabled r) eqn:Hen.
  - pose proof (i_base _ _ Hinv1) as Hb1. destruct (b_member h1 Hb1 r) as (l0 & Hl0 & _); [rewrite (k_sessions _ _ _ Hk1); by eapply list_elem_of_lookup_2|].
    unfold IOHandler.Session_OnFrame. eapply wp_mono; [apply (session_inv timely _ _ _ l0); [done|done|intros on; apply frame_ok]|]. cbv beta.
    intros _ h2 (Hinv2 & Hk2 & l' & fs & Hcall & Hlk). split; [done|]. split; [by eapply session_keeps_trans|]. intros i l Hl. rewrite Hlk, (hears_next _ _ _ _ Hr), Hen, andb_true_r.
    rewrite lookup_set by (by eapply lookup_lt_Some). destruct (Hh1 i l Hl) as (l1 & Hl1 & Hcase). destruct (decide (session r = i)) as [<-|Hne].
    + rewrite (hears_once h k r) in Hcase by (apply Hinv || done). rewrite Nat.eqb_refl, orb_true_r. simplify_eq. eauto.
    + rewrite (proj2 (Nat.eqb_neq _ _) Hne), orb_false_r. eauto.
  - wp_go. split; [done|]. split; [done|]. intros i l Hl. rewrite (hears_next _ _ _ _ Hr), Hen, andb_false_r, orb_false_r. by apply Hh1.
Qed.

Lemma frames_wp timely now fs : forall h, inv timely h -> wp (IOHandler.frames_to_sessions now fs) h (fun _ h' => inv timely h' /\ kept timely h h' /\
  forall i l, links h !! i = Some l -> exists l', links h' !! i = Some l' /\ if hears (sessions h) i then hear_all (map (pair now) fs) l = Some l' else l' = l).
Proof.
  induction fs as [|[hd d] fs IH]; intros h Hinv; cbn [IOHandler.frames_to_sessions map hear_all fst snd].
  - rewrite wp_ret. split; [done|]. split; [apply session_keeps|]. intros i l Hl. exists l. split; [done|]. by destruct (hears _ i).
  - rewrite wp_bind. unfold IOHandler.OnFrame. cbn [fst snd]. eapply wp_mono; [by apply send_wp|]. cbv beta. intros _ h1 (Hinv1 & Hk1 & Hh1).
    eapply wp_mono; [by apply IH|]. cbv beta. intros _ h2 (Hinv2 & Hk2 & Hh2). split; [done|]. split; [by eapply session_keeps_trans|].
    intros i l Hl. destruct (Hh1 i l Hl) as (l1 & Hl1 & Hc1). destruct (Hh2 i l1 Hl1) as (l2 & Hl2 & Hc2). exists l2. split; [done|].
    rewrite (k_sessions _ _ _ Hk1) in Hc2. destruct (hears (sessions h) i); [|congruence]. destruct Hc1 as [o Hc1]. by rewrite Hc1.
Qed.

(** ** The other events *)

Lemma begin_read_wp h c (Q : unit -> IOHandler L -> Prop) : channel h = Some c -> callbacks c = true -> is_shutting_down c = false -> reading c = false ->
  (forall o, requests o = [] -> writes o = [] -> Q tt (set_io_calls (io_calls h ++ o) (set_channel (Some (IAsyncChannel.set_reading true c)) h))) ->
  wp IOHandler.BeginRead h Q.
Proof.
  intros Hc Hcb Hsh Hrd HQ. unfold IOHandler.BeginRead, IOHandler.emit. wp_go. rewrite Hc. unfold lift. unfold wp at 1. cbn [mbind option_bind]. wp_go.
  unfold IAsyncChannel.BeginRead, IAsyncChannel.CanRead, c_assert. rewrite Hcb, Hsh, Hrd. cbn. unfold wp at 1. cbn. wp_go. io_cbn. by apply HQ.
Qed.

Definition heard_by_sessions (now : Z) (fs : list LinkLayerParser.Frame) h h' : Prop :=
  forall i l, links h !! i = Some l -> exists l', links h' !! i = Some l' /\ if hears (sessions h) i then hear_all (map (pair now) fs) l = Some l' else l' = l.

Lemma read_wp timely now chunk c h : io_ok timely h -> channel h = Some c -> bytes_ok chunk -> length chunk <= ws_size (LinkLayerParser.WriteBuff (parser h)) ->
  wp (IOHandler.OnReadCallback now (Some chunk)) h (fun _ h' => after_event timely h h' /\
    exists p fs, LinkLayerParser.Receive (parser h) chunk = Some (p, fs) /\ parser h' = p /\ sessions h' = sessions h /\ is_Some (channel h') /\
      heard_by_sessions now fs h h').
Proof.
  intros [[Hb Ha Hl] Hfl Hrd] Hc Hbytes Hlen. unfold IOHandler.OnReadCallback, IOHandler.OnReadComplete, IOHandler.stats. wp_go. rewrite Hc. wp_go.
  unfold lined in Hl. rewrite Hc in Hl. destruct Hl as (Hcb & Hsh & Hwr). rewrite Hcb, Hsh. cbn [andb negb]. wp_go. io_cbn.
  destruct (b_parser _ Hb) as [u Hu]. destruct (Receive_spec (parser h) u chunk Hu Hbytes Hlen) as (p & Hp & _ & Hidle). unfold lift. rewrite Hp.
  unfold wp at 1. cbn [mbind option_bind]. wp_go.
  set (fs := Scan.frames _). set (h1 := set_parser p _). assert (Hinv1 : inv timely h1).
  { destruct Hb as [B1 B2 B3 B4 B5]. split; [split; [done|done|done|done|by eexists]|done|]. unfold lined, h1. io_cbn. done. }
  eapply wp_mono; [by apply frames_wp|]. cbv beta. intros _ h2 ([Hb2 Ha2 Hl2] & [Ks Kp Kr Ko] & Hheard). cbn in Ks, Kp, Kr.
  unfold lined in Hl2. destruct (channel h2) as [c2|] eqn:Hc2; [|done]. cbn in Kr. injection Kr as Kr. destruct Hl2 as (Hcb2 & Hsh2 & Hwr2).
  eapply begin_read_wp; [done|done|done|done|]. intros o Hreq Hwri. split.
  - split; [split; [split|..]|..]; io_cbn.
    + by destruct Hb2.
    + done.
    + unfold lined. io_cbn. done.
    + rewrite Ks. intros r Hr. rewrite (Hfl r Hr). unfold has_channel. io_cbn. by rewrite Hc.
    + by intros c' [= <-].
    + eapply in_order_trans; [|eapply in_order_trans; [exact Ko|]].
      * apply (in_order_quiet timely []); [unfold h1; io_cbn; by rewrite app_nil_r|done|done|unfold h1; io_cbn; by rewrite Hc|done|done].
      * apply (in_order_quiet timely o); [done|done|done|io_cbn; by rewrite Hc2|done|done].
  - exists p, fs. io_cbn. rewrite Ks, Kp. split_and!; [done..|by eexists|done].
Qed.

Lemma fail_wp timely c o h : io_ok timely h -> channel h = Some c -> forall c1, wp (_ ← IOHandler.Reset; IOHandler.emit o) (set_channel (Some c1) h) (fun _ h' => after_event timely h h').
Proof.
  intros [[[B1 B2 B3 B4 B5] Ha Hl] Hfl Hrd] Hc c1. rewrite wp_bind. eapply wp_mono; [apply reset_wp; [by split|done]|]. cbv beta. intros _ h1 (Hcl & _ & Hi). unfold IOHandler.emit. wp_go.
  split; [by apply emit_ok, closed_ok|]. eexists. io_cbn. rewrite Hi. io_cbn. rewrite <- app_assoc. split; [reflexivity|]. intros _. split.
  - intros _ c' t q. io_cbn. by rewrite (cl_channel _ Hcl).
  - intros _ Hn. destruct Hn. by left.
Qed.

Lemma read_ok timely now result h : io_ok timely h -> (forall chunk, result = Some chunk -> bytes_ok chunk /\ length chunk <= ws_size (LinkLayerParser.WriteBuff (parser h))) ->
  wp (IOHandler.OnReadCallback now result) h (fun _ h' => after_event timely h h').
Proof.
  intros Hok Hchunk. destruct (channel h) as [c|] eqn:Hc.
  2: { unfold IOHandler.OnReadCallback. wp_go. rewrite Hc. wp_go. split; [done|by apply in_order_refl]. }
  destruct result as [chunk|].
  - destruct (Hchunk chunk eq_refl) as [H1 H2]. eapply wp_mono; [by eapply read_wp|]. cbv beta. by intros _ h' [Hpost _].
  - pose proof (i_lined _ _ (ok_inv _ _ Hok)) as Hl. unfold lined in Hl. rewrite Hc in Hl. destruct Hl as (Hcb & Hsh & _).
    unfold IOHandler.OnReadCallback. rewrite wp_bind, wp_get, Hc, wp_bind, wp_modify, Hcb, Hsh. cbn [andb negb IOHandler.OnReadComplete]. by eapply fail_wp.
Qed.

(** The frames of the sessions when the first of the queue has been written. *)
Lemma written_accounted timely t q (fs : list (FrameView * bytes)) l l' h h' : accounted timely h -> txQueue h = t :: q -> links h !! tx_session t = Some l ->
  in_flight l' = tail (in_flight l) ++ map fst fs -> links h' = <[tx_session t := l']> (links h) ->
  txQueue h' = q ++ map (fun v => mkTransmission v (tx_session t)) (map fst fs) -> accounted timely h'.
Proof.
  intros Ha Hq Hlk Hfl Hk Hq' i li. rewrite Hk, lookup_set, Hq', queued_for_app, views_for_app by (by eapply lookup_lt_Some). unfold frames_out.
  destruct (decide (tx_session t = i)) as [<-|Hne].
  - intros [= <-]. destruct (Ha _ l Hlk) as [H1 H2]. unfold frames_out in H1. rewrite Hq in H1, H2. unfold queued_for in H1. unfold views_for in H2 at 1. cbn in H1, H2.
    rewrite Nat.eqb_refl in H1, H2. cbn in H1, H2. rewrite Hfl, length_app, length_map, <- (views_for_length _ (map _ _)), views_for_own, length_map, length_tl.
    split; [unfold queued_for; lia|]. intros Ht. by rewrite (H2 Ht).
  - intros Hi. destruct (Ha i li Hi) as [H1 H2]. unfold frames_out in H1. rewrite Hq in H1, H2. unfold queued_for in H1. unfold views_for in H2 at 1. cbn in H1, H2.
    rewrite (proj2 (Nat.eqb_neq _ _) Hne) in H1, H2. rewrite views_for_other by done. split; [unfold queued_for; lia|]. intros Ht. by rewrite (H2 Ht), app_nil_r.
Qed.

Lemma written_ok timely result h : io_ok timely h -> (forall c, channel h = Some c -> writing c = true) ->
  wp (IOHandler.OnWriteCallback result) h (fun _ h' => after_event timely h h').
Proof.
  intros Hok Hw. destruct (channel h) as [c|] eqn:Hc.
  2: { unfold IOHandler.OnWriteCallback. wp_go. rewrite Hc. wp_go. split; [done|by apply in_order_refl]. }
  specialize (Hw c eq_refl). pose proof Hok as [[Hb Ha Hl] Hfl Hrd]. unfold lined in Hl. rewrite Hc in Hl. destruct Hl as (Hcb & Hsh & Hwr).
  destruct result as [num|].
  2: { unfold IOHandler.OnWriteCallback. rewrite wp_bind, wp_get, Hc, wp_bind, wp_modify, Hcb, Hsh. cbn [andb negb IOHandler.OnWriteComplete]. by eapply fail_wp. }
  unfold IOHandler.OnWriteCallback, IOHandler.OnWriteComplete, IOHandler.stats. wp_go. rewrite Hc. wp_go. rewrite Hcb, Hsh. cbn [andb negb]. wp_go. io_cbn.
  destruct (txQueue h) as [|t q] eqn:Hq; [by rewrite Hw in Hwr|]. wp_go. pose proof (b_queue _ Hb) as Hids. rewrite Hq in Hids. apply Forall_cons_1 in Hids as [Hid Hids].
  destruct (lookup_lt_is_Some_2 _ _ (proj1 Hid)) as [l Hlk]. destruct (base_status h _ l Hb Hlk) as (on & Hon & _). destruct (ready_ok on l Hon) as (l' & fs & Hcall & _ & Hfl' & Hsame & Hshow & Halw).
  match goal with |- wp _ ?x _ => set (h0 := x) end. set (h1 := set_links (<[tx_session t := l']> (links h0)) h0).
  assert (Hok' : forall on2, session_ok on2 l -> session_ok on2 l') by (intros on2 Hon2; destruct (ready_ok on2 l Hon2) as (l2 & fs2 & Hc2 & Hok2 & _); by simplify_eq).
  assert (Hb1 : base h1) by (apply (base_call h h1 (tx_session t) l l'); [done|exact Hlk|done|done|done|done|exact Hids]).
  eapply (session_wp timely _ _ l l' fs h0); [|exact Hlk|exact Hcall|exact Hshow|].
  - split; [by apply base_shown|]. cbn. done.
  - intros h2 H2. pose proof H2 as [S2 P2 K2 Q2 C2 O2]. cbn in S2, P2, K2, Q2, C2. eapply wp_mono; [apply (check_wp timely)|].
    + eapply transmitted_usable; [split; [by apply base_shown|by cbn]| |exact H2]. eapply Forall_impl; [|exact Hshow]. cbv beta. intros x Hx. unfold shown. cbn [links h1 set_links tx_session txdata].
      rewrite list_lookup_insert_eq by exact (proj1 Hid). exact Hx.
    + cbv beta. intros _ h3 [S3 P3 K3 Q3 C3 O3]. rewrite C2 in C3. cbn in C3. split; [split; [split|..]|].
      * apply (base_call h h3 (tx_session t) l l'); [done|exact Hlk|done|by rewrite S3|by rewrite P3|by rewrite K3|].
        rewrite Q3, Q2. apply Forall_app_2; [done|apply queue_ok; [done|exact (proj1 Hid)]].
      * exact (written_accounted timely t q fs l l' h h3 Ha Hq Hlk Hfl' ltac:(by rewrite K3) ltac:(by rewrite Q3)).
      * unfold lined. rewrite C3, Q3. cbn. split_and!; [done|done|]. rewrite Q2. by destruct q, fs.
      * rewrite S3, S2. intros r Hr. rewrite (Hfl r Hr). unfold has_channel. by rewrite C3, Hc.
      * rewrite C3. intros c' [= <-]. cbn. by apply Hrd.
      * eapply in_order_trans; [|eapply in_order_trans; [exact O2|exact O3]]. exists []. rewrite app_nil_r. split; [done|]. intros Ht. split; [by intros _ c' t' q' [= <-]|].
        intros _ _. split; [done|]. unfold waiting. cbn [channel h1 h0 set_links set_txQueue set_statistics set_channel writing IAsyncChannel.set_writing txQueue]. rewrite Hc, Hw, Hq. cbn. rewrite app_nil_r, !drop_0.
        apply map_ext_in. intros t' Ht'%list_elem_of_In. symmetry. apply (relinked_frames h0 (tx_session t) l l' Hlk); [|done].
        destruct (Ha _ l Hlk) as [_ H3]. rewrite (H3 Ht), Hq in Hsame. unfold views_for in Hsame. cbn in Hsame. rewrite Nat.eqb_refl in Hsame. exact Hsame.
Qed.

Lemma new_channel_ok timely now h : io_ok timely h -> wp (IOHandler.OnNewChannel now) h (fun _ h' => after_event timely h h').
Proof.
  intros Hok. pose proof (ok_inv _ _ Hok) as [Hb _ _].
  assert (Hopen : wp (_ ← IOHandler.stats IOHandler.count_open; _ ← IOHandler.Reset;
      _ ← modify (set_channel (Some (IAsyncChannel.SetCallbacks IAsyncChannel.init))); _ ← IOHandler.emit [UpdateListener OPEN]; _ ← IOHandler.BeginRead;
      IOHandler.for_sessions (fun i => l ← get sessions; r ← lift (l !! i); if enabled r then IOHandler.LowerLayerUp now i else mret tt)) h
    (fun _ h' => after_event timely h h')).
  { unfold IOHandler.stats, IOHandler.emit. wp_go. eapply wp_mono; [apply reset_wp; [by destruct Hb|exact (offline_without_channel timely h Hok)]|]. cbv beta. io_cbn.
    intros _ h1 ([Hb1 Ha1 Hc1 Hq1 Hs1] & Hse1 & Hi1). wp_go. eapply begin_read_wp; [io_cbn; reflexivity|done|done|done|]. intros o Hreq Hwri. io_cbn.
    unfold IOHandler.for_sessions. wp_go. io_cbn. set (h2 := set_io_calls _ _). set (mark := fun r => if enabled r then IOHandler.set_online true r else r).
    assert (Hloop : wp (IOHandler.for_each (length (sessions h1)) (fun i => l ← get sessions; r ← lift (l !! i); if enabled r then IOHandler.LowerLayerUp now i else mret tt)) h2
      (fun _ h' => base h' /\ accounted timely h' /\ channel h' = channel h2 /\ txQueue h' = [] /\ io_calls h' = io_calls h2 /\
        sessions h' = changed_to mark (length (sessions h1)) (sessions h1))).
    { apply (for_each_wp (fun k h' => base h' /\ accounted timely h' /\ channel h' = channel h2 /\ txQueue h' = [] /\ io_calls h' = io_calls h2 /\
        sessions h' = changed_to mark k (sessions h1))).
      - split; [by destruct Hb1|]. split; [|by split_and!]. intros i l Hl. destruct (Ha1 i l Hl) as [H1 H2]. split; [done|]. intros _. by apply H2.
      - intros k h3 Hk (Hb3 & Ha3 & Hc3 & Hq3 & Hi3 & Hs3). destruct (lookup_lt_is_Some_2 _ _ Hk) as [r Hr].
        destruct (changed_next mark k (sessions h1) r Hr) as [Halt Hlk]. rewrite <- Hs3 in Halt, Hlk. wp_go. unfold lift. rewrite Hlk. unfold wp at 1. cbn [mbind option_bind].
        assert (Hoff : online r = false) by (apply Hs1; by eapply list_elem_of_lookup_2).
        destruct (enabled r) eqn:Hen.
        + eapply up_wp; [done|exact Hlk|by rewrite Hoff|]. intros _ l' Hok' Hf. split; [by apply base_flip|]. split; [apply accounted_flip; [done|done|done|done|by rewrite Hq3]|].
          split_and!; [done|done|done|]. unfold flipped. io_cbn. rewrite <- Halt. apply list_alter_ext; [|done]. intros x Hx. rewrite Hlk in Hx. injection Hx as <-. unfold mark. by rewrite Hen.
        + wp_go. split_and!; [done..|]. rewrite <- Halt. symmetry. eapply alter_same; [exact Hlk|]. unfold mark. by rewrite Hen. }
    eapply wp_mono; [exact Hloop|]. cbv beta. intros _ h3 (Hb3 & Ha3 & Hc3 & Hq3 & Hi3 & Hs3). rewrite changed_all in Hs3. split; [split; [split; [done|done|]|..]|].
    - unfold lined. rewrite Hc3, Hq3. done.
    - rewrite Hs3. intros r' (r & -> & Hr)%list_elem_of_fmap. unfold has_channel, mark. rewrite Hc3. cbn. destruct (enabled r) eqn:Hen; cbn; [by rewrite Hen|]. rewrite Hen. by apply Hs1.
    - rewrite Hc3. by intros c [= <-].
    - eexists. rewrite Hi3. unfold h2. io_cbn. rewrite Hi1, <- !app_assoc. split; [reflexivity|]. intros _.
      split; [intros _ c t q; by rewrite Hq3|]. intros [c Hc] Hn. rewrite Hc in Hn. destruct Hn. by left. }
  unfold IOHandler.OnNewChannel. rewrite wp_bind, wp_get, wp_bind, wp_get. destruct (channel h) as [c|] eqn:Hc; [|exact Hopen].
  destruct (close_existing h); [exact Hopen|]. unfold IOHandler.emit. wp_go. split; [by apply emit_ok|]. by apply (in_order_quiet timely [RefuseChannel]).
Qed.

Lemma shutdown_ok timely h : io_ok timely h -> wp IOHandler.Shutdown h (fun _ h' => after_event timely h h').
Proof.
  intros Hok. unfold IOHandler.Shutdown. rewrite wp_bind, wp_get. destruct (isShutdown h); [rewrite wp_ret; split; [done|by apply in_order_refl]|].
  rewrite wp_bind, wp_modify. eapply wp_mono; [apply (reset_then_emit timely); [|exact (offline_without_channel timely h Hok)]|].
  - by destruct (i_base _ _ (ok_inv _ _ Hok)).
  - cbv beta. intros _ h' [Hok' Ho]. split; [done|]. eapply in_order_trans; [by apply in_order_refl|exact Ho].
Qed.

Lemma session_event_ok timely id e l h : io_ok timely h -> links h !! id = Some l -> event_allowed e l ->
  wp (IOHandler.with_session (session_event e) id) h (fun _ h' => after_event timely h h').
Proof.
  intros [Hinv Hfl Hrd] Hl He. eapply wp_mono; [apply (session_inv timely _ _ _ l); [done|done|by intros on Hon; apply event_ok]|]. cbv beta.
  intros _ h' (Hinv' & [Ks _ Kr Ko] & _). split; [split; [done| |]|done].
  - rewrite Ks. intros r Hr. rewrite (Hfl r Hr). unfold has_channel. by destruct (channel h), (channel h').
  - intros c' Hc'. rewrite Hc' in Kr. destruct (channel h) as [c|] eqn:Hc; [|done]. cbn in Kr. injection Kr as ->. by apply Hrd.
Qed.

End Invariant.

(** ** Runs of a handler *)

Section Runs.
Context {L : Type} `{LinkSessionOk L}.
Implicit Types (h : IOHandler L).

(** What the outside keeps to: a session exists, a read delivers bytes that fit, a write
    ends after it began; and when [timely], a session is not taken off the channel while one
    of its frames is in the queue. *)
Definition io_allowed (timely : bool) h (e : ChannelEvent SessionEvent) : Prop :=
  match e with
  | EvAddContext id _ => id < length (links h)
  | EvDisable id | EvRemove id => timely = true -> queued_for id (txQueue h) = 0
  | EvRead _ (Some chunk) => bytes_ok chunk /\ length chunk <= ws_size (LinkLayerParser.WriteBuff (parser h))
  | EvWritten _ => forall c, channel h = Some c -> writing c = true
  | EvSession id e => exists l, links h !! id = Some l /\ event_allowed e l
  | _ => True
  end.

Lemma io_handle_ok timely h e : io_ok timely h -> io_allowed timely h e -> wp (Channel.handle e) h (fun _ h' => after_event timely h h').
Proof.
  intros Hok Ha. destruct e as [id x|now id|id|id|now|now result|result|id e|]; cbn [Channel.handle io_allowed] in *.
  - rewrite wp_bind. eapply wp_mono; [by apply add_ok|]. cbv beta. intros _ h' Hp. by rewrite wp_ret.
  - rewrite wp_bind. eapply wp_mono; [by apply enable_ok|]. cbv beta. intros _ h' Hp. by rewrite wp_ret.
  - rewrite wp_bind. eapply wp_mono; [by apply disable_ok|]. cbv beta. intros _ h' Hp. by rewrite wp_ret.
  - rewrite wp_bind. eapply wp_mono; [by apply remove_ok|]. cbv beta. intros _ h' Hp. by rewrite wp_ret.
  - by apply new_channel_ok.
  - apply read_ok; [done|]. by intros chunk ->.
  - by apply written_ok.
  - destruct Ha as (l & Hl & He). by eapply session_event_ok.
  - by apply shutdown_ok.
Qed.

Inductive io_runs (timely : bool) : IOHandler L -> list (ChannelEvent SessionEvent) -> IOHandler L -> Prop :=
  | io_runs_nil h : io_runs timely h [] h
  | io_runs_cons h e h1 es h' : io_allowed timely h e -> Channel.handle e h = Some (h1, tt) -> io_runs timely h1 es h' -> io_runs timely h (e :: es) h'.

(** A new handler, with sessions that are all offline. *)
Definition new_handler (rx : bytes) (ls : list L) : Prop := bytes_ok rx /\ length rx = LPDU_MAX_FRAME_SIZE /\ Forall (session_ok false) ls.

Lemma new_handler_ok timely close rx ls : new_handler rx ls -> io_ok timely (IOHandler.init close rx ls).
Proof.
  intros (Hrx & Hl & Hls). apply closed_ok. split; [split|..]; cbn; try done.
  - constructor.
  - by intros r Hr%elem_of_nil.
  - intros i l Hi _. by eapply Forall_lookup_1 in Hls.
  - exists []. by apply init_idle.
  - intros i l Hi. apply (Forall_lookup_1 _ _ _ _ Hls), offline_quiet in Hi. unfold frames_out. by rewrite Hi.
  - by intros r Hr%elem_of_nil.
Qed.

Lemma io_runs_ok timely h es h' : io_runs timely h es h' -> io_ok timely h -> after_event timely h h'.
Proof.
  induction 1 as [h|h e h1 es h' Ha He _ IH]; intros Hok; [split; [done|by apply in_order_refl]|].
  destruct (wp_of_run _ _ _ _ _ He (io_handle_ok timely h e Hok Ha)) as [Hok1 Ho1]. destruct (IH Hok1) as [Hok2 Ho2]. split; [done|by eapply in_order_trans].
Qed.

(** C20: A channel with any sessions goes on, whatever happens to it: nothing fails; a
    session is online exactly when it is enabled and the channel is open, and its layers
    know it; while the channel is open a read with room for a byte is in progress, and a
    write exactly when a frame waits; and a session that waits for the end of a
    transmission has its frame in the queue, so that it will be told. *)
Theorem handler_safe timely close rx ls es h e :
  new_handler rx ls -> io_runs timely (IOHandler.init close rx ls) es h -> io_allowed timely h e ->
  exists h', Channel.handle e h = Some (h', tt) /\
    (forall r, r ∈ sessions h' -> online r = enabled r && has_channel h' /\ exists l, links h' !! session r = Some l /\ session_ok (online r) l) /\
    (forall c, channel h' = Some c -> reading c = true /\ writing c = filled (txQueue h') /\ 0 < ws_size (LinkLayerParser.WriteBuff (parser h'))) /\
    (channel h' = None -> txQueue h' = []) /\
    (forall i l, links h' !! i = Some l -> frames_out l <= queued_for i (txQueue h') /\ (timely = true -> frames_out l = queued_for i (txQueue h'))).
Proof.
  intros Hnew Hruns Ha. destruct (io_runs_ok _ _ _ _ Hruns (new_handler_ok timely close rx ls Hnew)) as [Hok _].
  destruct (wp_run _ _ _ (io_handle_ok timely h e Hok Ha)) as (h' & [] & He & [[Hb Hacc Hl] Hfl Hrd] & _). exists h'. split; [done|].
  unfold lined in Hl. destruct (b_parser _ Hb) as [u Hu]. split_and!.
  - intros r Hr. split; [by apply Hfl|]. by apply (b_member _ Hb).
  - intros c Hc. rewrite Hc in Hl. split; [by apply Hrd|]. split; [apply Hl|]. rewrite (idle_space _ _ Hu). destruct Hu as (_ & _ & _ & Hlen & _). unfold LPDU_MAX_FRAME_SIZE in *. lia.
  - intros Hc. rewrite Hc in Hl. apply Hl.
  - intros i l Hi. destruct (Hacc i l Hi) as [H1 H2]. split; [done|]. intros Ht. unfold frames_out. by rewrite (H2 Ht), views_for_length.
Qed.

(** C21: Frames are written in the order in which the sessions began to transmit them, each
    once and as it was then: the queue holds views of the sessions' buffers, and the
    buffers are left alone until their frames are written.  Over any run in which the
    connection stays up, the frames that waited before and those that sessions began to
    transmit are those given to the socket and those that wait afterwards, byte for byte;
    and the frame that is being written is still what the write was given.  This needs that
    no session is taken off the channel while one of its frames is in the queue (runs that
    are [timely]); without that a frame can be lost ([disabling_loses_a_frame]). *)
Theorem frames_written_in_order close rx ls es h es' h' :
  new_handler rx ls -> io_runs true (IOHandler.init close rx ls) es h -> is_Some (channel h) -> io_runs true h es' h' ->
  exists o, io_calls h' = io_calls h ++ o /\
    (ChannelShutdown ∉ o -> is_Some (channel h') /\ waiting h ++ map Some (requests o) = map Some (writes o) ++ waiting h') /\
    (forall c t q, channel h' = Some c -> writing c = true -> txQueue h' = t :: q -> list.last (writes (io_calls h')) = shown h' t).
Proof.
  intros Hnew Hruns Hs Hruns'. destruct (io_runs_ok _ _ _ _ Hruns (new_handler_ok true close rx ls Hnew)) as [Hok (o1 & _ & H1)].
  destruct (io_runs_ok _ _ _ _ Hruns' Hok) as [_ (o & Hi & H2)]. exists o. split; [done|]. destruct (H1 eq_refl) as [W1 _], (H2 eq_refl) as [W2 O2].
  split; [by apply O2|]. by apply W2, W1.
Qed.

(** C22: Sessions do not disturb each other: when bytes arrive, every enabled session ends up
    as if it alone had been given the frames that the parser finds, in order, and every
    other session stays as it is. *)
Theorem frames_reach_every_session timely close rx ls es h c now chunk :
  new_handler rx ls -> io_runs timely (IOHandler.init close rx ls) es h -> channel h = Some c ->
  bytes_ok chunk -> length chunk <= ws_size (LinkLayerParser.WriteBuff (parser h)) ->
  exists h' p fs, Channel.handle (EvRead now (Some chunk)) h = Some (h', tt) /\
    LinkLayerParser.Receive (parser h) chunk = Some (p, fs) /\ parser h' = p /\ sessions h' = sessions h /\
    forall i l, links h !! i = Some l -> exists l', links h' !! i = Some l' /\ if hears (sessions h) i then hear_all (map (pair now) fs) l = Some l' else l' = l.
Proof.
  intros Hnew Hruns Hc Hb Hlen. destruct (io_runs_ok _ _ _ _ Hruns (new_handler_ok timely close rx ls Hnew)) as [Hok _].
  destruct (wp_run _ _ _ (read_wp timely now chunk c h Hok Hc Hb Hlen)) as (h' & [] & He & _ & p & fs & Hp & Hpar & Hs & _ & Hh). by exists h', p, fs.
Qed.

End Runs.

(** ** A transport stack is a session *)

Definition StackSession : Type := LinkLayerConfig * TransportStack.

(** The transmissions in a trace. *)
Definition frames_of (o : list Output) : list (FrameView * bytes) := map (fun x => (mkFrameView x.1.1 x.1.2, x.2)) (begun o).

(** The frames that an event of a stack hands to the channel. *)
Definition stack_event (e : StackEvent) (s : StackSession) : option (StackSession * list (FrameView * bytes)) :=
  '(k, _) ← Stack.handle s.1 e s.2; Some ((s.1, k), frames_of (drop (length (trace (link s.2))) (trace (link k)))).

(** The buffers are those of the link layer. *)
Definition stack_show (s : StackSession) (v : FrameView) : option bytes := view_bytes (LinkContext.buffer_of (fv_primary v) (link s.2)) (fv_view v).

Definition event_of_call (c : SessionCall) : Layer.Event TransportTx :=
  match c with
  | CallOnFrame now h d => Layer.EvFrame now h d
  | CallOnTxReady => Layer.EvTxReady
  | CallOnLowerLayerUp now => Layer.EvLowerLayerUp now
  | CallOnLowerLayerDown => Layer.EvLowerLayerDown
  end.

#[export] Instance StackSession_ILinkSession : ILinkSession StackSession :=
  {| SessionEvent := StackEvent; session_call c := stack_event (FromBelow (event_of_call c)); session_event := stack_event; show := stack_show |}.

Section Stacks.
Implicit Types (c : LinkContext TransportTx).

Definition stack_session_ok (on : bool) (s : StackSession) : Prop := stack_ok false s.2 /\ isOnline (link s.2) = on.

(** The frame on the line, if any. *)
Definition line_flight c : list FrameView :=
  match txMode c with Tx_Idle => [] | _ => match list.last (frames_of (trace c)) with Some f => [f.1] | None => [] end end.

(** The application, the timers of the link layer and the executor. *)
Definition own_event (e : StackEvent) : bool :=
  match e with
  | Transmit _ | RunReady => true
  | FromBelow e => match e with Layer.EvResponseTimeout | Layer.EvKeepAliveTimeout _ => true | _ => false end
  end.

Lemma frames_of_app o o' : frames_of (o ++ o') = frames_of o ++ frames_of o'.
Proof. unfold frames_of, begun. by rewrite omap_app, map_app. Qed.

Lemma frames_of_wire o : length (frames_of o) = length (wire o).
Proof. unfold frames_of, begun, wire. rewrite length_map. induction o as [|x o IH]; [done|]. destruct x; cbn; try done. by rewrite IH. Qed.

Lemma offline_line on s : stack_session_ok on s -> on = false -> txMode (link s.2) = Tx_Idle.
Proof.
  intros [[Hi _ _ _ _ _ _] Hon] ->. destruct Hi as (_ & _ & _ & _ & _ & Hp & Hs & _ & _ & _ & Hoff & _). destruct (Hoff Hon) as (Hp0 & Hs0 & _).
  rewrite Hp0 in Hp. rewrite Hs0 in Hs. cbn in Hp, Hs. by destruct (txMode (link s.2)).
Qed.

(** The line takes the frame that an event hands to the channel. *)
Lemma flight_moves c c' o : trace c' = trace c ++ o -> busy c' = busy c + length (wire o) -> line_flight c' = line_flight c ++ map fst (frames_of o).
Proof.
  intros Ht Hb. rewrite <- frames_of_wire in Hb. unfold line_flight, busy in *. rewrite Ht, frames_of_app.
  destruct (frames_of o) as [|f [|g fs]]; cbn in Hb.
  - rewrite app_nil_r. cbn. rewrite app_nil_r. destruct (txMode c), (txMode c'); try done; cbn in Hb; lia.
  - rewrite list.last_snoc. destruct (txMode c), (txMode c'); try done; cbn in Hb; lia.
  - destruct (txMode c), (txMode c'); cbn in Hb; lia.
Qed.

(** The frame on the line, and that it is shown. *)
Lemma line_flight_shown c : link_inv c -> Forall (fun v => fv_primary v = bool_decide (txMode c = Tx_Primary) /\ txMode c <> Tx_Idle) (line_flight c) /\
  (txMode c <> Tx_Idle -> exists f, list.last (frames_of (trace c)) = Some f /\ view_bytes (LinkContext.buffer_of (fv_primary f.1) c) (fv_view f.1) = Some f.2).
Proof.
  intros (_ & _ & _ & _ & _ & _ & _ & _ & _ & _ & _ & _ & Hsh). unfold line_shows in Hsh.
  assert (Hlast : forall v f p, list.last (begun (trace c)) = Some (p, v, f) -> list.last (frames_of (trace c)) = Some (mkFrameView p v, f)).
  { intros v f p Hl. unfold frames_of. change (map ?g ?l) with (g <$> l). rewrite list.fmap_last, Hl. done. }
  unfold line_flight. split.
  - destruct (txMode c) eqn:Hm; [constructor| |]; destruct (Hsh ltac:(done)) as (v & f & Hl & _); rewrite (Hlast _ _ _ Hl); by constructor.
  - intros Hne. destruct (Hsh Hne) as (v & f & Hl & Hv). eexists. split; [by apply Hlast|]. exact Hv.
Qed.

Lemma flight_kept c c' : link_inv c -> frame_kept c c' ->
  Forall (fun v => view_bytes (LinkContext.buffer_of (fv_primary v) c') (fv_view v) = view_bytes (LinkContext.buffer_of (fv_primary v) c) (fv_view v)) (line_flight c).
Proof.
  intros Hi [Hp Hs]. destruct (line_flight_shown c Hi) as [Hf _]. eapply Forall_impl; [|exact Hf]. cbv beta. intros v [-> Hne].
  unfold LinkContext.buffer_of. destruct (txMode c); [done|by rewrite Hp|by rewrite Hs].
Qed.

(** The frames that an event hands to the channel are in a buffer, which has its size. *)
Lemma flight_new c c' o : link_inv c' -> trace c' = trace c ++ o -> busy c' = busy c + length (wire o) ->
  Forall (fun f => view_bytes (LinkContext.buffer_of (fv_primary f.1) c') (fv_view f.1) = Some f.2 /\
    v_pos (fv_view f.1) + v_size (fv_view f.1) <= (if fv_primary f.1 then LPDU_MAX_FRAME_SIZE else LPDU_HEADER_SIZE)) (frames_of o).
Proof.
  intros Hi Ht Hb. destruct (line_flight_shown c' Hi) as [_ Hl]. rewrite <- frames_of_wire in Hb. unfold busy in Hb. rewrite Ht, frames_of_app in Hl.
  destruct (frames_of o) as [|f [|g fs]]; [constructor| |destruct (txMode c), (txMode c'); cbn in Hb; lia].
  destruct Hl as (f' & Hf & Hv); [destruct (txMode c); cbn in Hb; by destruct (txMode c')|]. rewrite list.last_snoc in Hf. injection Hf as <-.
  constructor; [|constructor]. split; [done|]. apply mem_read_inv in Hv as [Hlen _]. destruct Hi as (H1 & H2 & _). unfold LinkContext.buffer_of in Hlen.
  destruct (fv_primary f.1); lia.
Qed.

Lemma view_in_buffer on s v : stack_session_ok on s -> v_pos (fv_view v) + v_size (fv_view v) <= (if fv_primary v then LPDU_MAX_FRAME_SIZE else LPDU_HEADER_SIZE) ->
  is_Some (stack_show s v).
Proof.
  intros [[(H1 & H2 & _) _ _ _ _ _ _] _] Hv. unfold stack_show, view_bytes. eexists. apply mem_read_Some. unfold LinkContext.buffer_of. destruct (fv_primary v); lia.
Qed.

(** An event that neither raises nor lowers the line; it leaves a frame there alone. *)
Lemma steady_session on e s : stack_session_ok on s -> stack_allowed false s.2 e -> steady_stack_event e = true ->
  exists s' fs, stack_event e s = Some (s', fs) /\ stack_session_ok on s' /\
    begins stack_session_ok (line_flight (stack_line e (link s.2))) (line_flight (link s'.2)) s s' fs.
Proof.
  intros [Hok Hon] Ha Hs. destruct (wp_run _ _ _ (stack_handle_ok s.1 false s.2 e Hok Ha)) as (k & [] & He & Hok').
  destruct (stack_line_moves s.1 e s.2 k tt Hs He) as (Hon' & o & Htr & Hb). unfold stack_event. rewrite He. cbn [mbind option_bind]. eexists _, _.
  split; [reflexivity|]. unfold stack_session_ok at 1. cbn [fst snd]. split; [split; [done|by rewrite Hon']|]. rewrite Htr, drop_trace.
  pose proof (st_link _ _ Hok) as Hi. pose proof (st_link _ _ Hok') as Hi'.
  assert (Hline : trace (stack_line e (link s.2)) = trace (link s.2)) by (by destruct e as [|[]|]). rewrite <- Hline in Htr.
  pose proof (flight_new _ _ _ Hi' Htr Hb) as Hnew. split; [by apply flight_moves|]. split_and!.
  - assert (Hcase : e = FromBelow Layer.EvTxReady \/ e <> FromBelow Layer.EvTxReady) by (destruct e as [|[]|]; (by left) || (by right)).
    destruct Hcase as [->|Hne]; [constructor|]. assert (stack_line e (link s.2) = link s.2) as -> by (by destruct e as [|[]|]).
    apply flight_kept; [done|]. by eapply stack_keeps_frame.
  - eapply Forall_impl; [|exact Hnew]. by intros f [Hf _].
  - eapply Forall_impl; [|exact Hnew]. cbv beta. intros f [_ Hf] on1 l1 Hl1. by apply (view_in_buffer on1).
Qed.

Lemma up_session now s : stack_session_ok false s ->
  exists s', stack_event (FromBelow (Layer.EvLowerLayerUp now)) s = Some (s', []) /\ stack_session_ok true s' /\ line_flight (link s'.2) = [].
Proof.
  intros Hs. pose proof (offline_line _ _ Hs eq_refl) as Hidle. destruct Hs as [Hok Hon].
  destruct (wp_run _ _ _ (stack_handle_ok s.1 false s.2 (FromBelow (Layer.EvLowerLayerUp now)) Hok I)) as (k & [] & He & Hok').
  pose proof (below_link _ _ _ _ _ He) as Hl. unfold stack_event. rewrite He. cbn [mbind option_bind]. exists (s.1, k). revert Hl.
  cbn [Layer.handle]. unfold Layer.OnLowerLayerUp, Events.OnLowerLayerUp, LinkContext.StartKeepAliveTimer, LinkContext.call, mbind, SM_bind, get, modify, mret, SM_ret. rewrite Hon.
  intros [= Hl]. unfold stack_session_ok, line_flight. cbn [fst snd]. rewrite <- Hl. cbn [trace LinkLayer.set_trace]. rewrite drop_trace_twice. split; [done|]. split; [by split|].
  assert (txMode (LinkLayer.set_trace ((trace (link s.2) ++ [OnStateChange false]) ++ [UpperOnLowerLayerUp])
    (LinkLayer.set_trace (trace (link s.2) ++ [OnStateChange false]) (set_keepAliveTimer true (set_lastMessageTimestamp now (set_isOnline true (link s.2)))))) = Tx_Idle) as -> by exact Hidle.
  done.
Qed.

Lemma down_session s : stack_session_ok true s -> exists s', stack_event (FromBelow Layer.EvLowerLayerDown) s = Some (s', []) /\ stack_session_ok false s'.
Proof.
  intros [Hok Hon]. destruct (wp_run _ _ _ (stack_handle_ok s.1 false s.2 (FromBelow Layer.EvLowerLayerDown) Hok ltac:(done))) as (k & [] & He & Hok').
  pose proof (below_link _ _ _ _ _ He) as Hl. unfold stack_event. rewrite He. cbn [mbind option_bind]. exists (s.1, k). revert Hl.
  cbn [Layer.handle]. unfold Layer.OnLowerLayerDown, Events.OnLowerLayerDown, LinkContext.CancelTimer, LinkContext.call, mbind, SM_bind, get, modify, mret, SM_ret. rewrite Hon. cbn [negb].
  intros [= Hl]. unfold stack_session_ok. cbn [fst snd]. rewrite <- Hl. cbn [trace LinkLayer.set_trace]. rewrite drop_trace_twice. split; [done|]. by split.
Qed.

End Stacks.

#[export] Instance StackSession_LinkSessionOk : LinkSessionOk StackSession.
Proof.
  refine {| session_ok := stack_session_ok; in_flight s := line_flight (link s.2); event_allowed e s := own_event e = true /\ stack_allowed false s.2 e |}.
  - intros s Hs. unfold line_flight. by rewrite (offline_line _ _ Hs eq_refl).
  - intros on s now h d Hs. exact (steady_session on (FromBelow (Layer.EvFrame now h d)) s Hs I eq_refl).
  - intros on s Hs. assert (tail (line_flight (link s.2)) = []) as ->; [|exact (steady_session on (FromBelow Layer.EvTxReady) s Hs I eq_refl)].
    unfold line_flight. destruct (txMode (link s.2)); [done| |]; by destruct (list.last _).
  - intros now s Hs. by apply up_session.
  - intros s Hs. by apply down_session.
  - intros on s e Hs [Hown Ha]. assert (He : steady_stack_event e = true /\ stack_line e (link s.2) = link s.2) by (by destruct e as [|[]|]).
    destruct He as [He Hline]. rewrite <- Hline. by apply steady_session.
Defined.

(** ** Messages through a channel that sessions share *)

Section Reads.
Context {L : Type} `{LinkSessionOk L}.
Implicit Types (h : IOHandler L).






End Reads.


Section Messages.
Context (tx : LinkLayerConfig).
Implicit Types (h : IOHandler StackSession).





End Messages.

(** ** Examples *)

Section Examples.
Implicit Types (h : IOHandler StackSession).

(** The state after some events. *)
Definition step (e : ChannelEvent StackEvent) h : IOHandler StackSession := match Channel.handle e h with Some (h', _) => h' | None => h end.

Fixpoint steps (es : list (ChannelEvent StackEvent)) h : IOHandler StackSession := match es with [] => h | e :: es => steps es (step e h) end.

Fixpoint all_allowed (timely : bool) (es : list (ChannelEvent StackEvent)) h : Prop :=
  match es with [] => True | e :: es => io_allowed timely h e /\ all_allowed timely es (step e h) end.

Lemma steps_runs timely es : forall h, io_ok timely h -> all_allowed timely es h -> io_runs timely h es (steps es h).
Proof.
  induction es as [|e es IH]; intros h Hok Ha; cbn [steps]; [exact (@io_runs_nil StackSession StackSession_ILinkSession StackSession_LinkSessionOk timely h)|]. destruct Ha as [Ha Hrest].
  destruct (wp_run _ _ _ (@io_handle_ok StackSession StackSession_ILinkSession StackSession_LinkSessionOk timely h e Hok Ha)) as (h1 & [] & He & Hok1 & _). assert (Hstep : step e h = h1) by (unfold step; by rewrite He).
  rewrite Hstep in *. exact (@io_runs_cons StackSession StackSession_ILinkSession StackSession_LinkSessionOk timely h e h1 es _ Ha He (IH h1 Hok1 Hrest)).
Qed.

Definition other_config : LinkLayerConfig := mkLinkLayerConfig false false 2 1025 1 1000 60000 false.

Definition buffer0 : bytes := replicate LPDU_MAX_FRAME_SIZE 0%Z.

Definition two_stacks : list StackSession := [(rx_config, new_stack); (other_config, new_stack)].

Definition opening : list (ChannelEvent StackEvent) :=
  [EvAddContext 0 (mkRoute 1 1024); EvAddContext 1 (mkRoute 1 1025); EvEnable 0 0; EvEnable 0 1; EvNewChannel 0].

(** A channel with two sessions that are online. *)
Definition open_channel : IOHandler StackSession := steps opening (IOHandler.init true buffer0 two_stacks).

Lemma buffer0_ok : bytes_ok buffer0 /\ length buffer0 = LPDU_MAX_FRAME_SIZE.
Proof. split; [|apply length_replicate]. apply Forall_replicate. unfold is_u8. lia. Qed.

Lemma new_stack_ok : stack_ok false new_stack.
Proof. eapply (stack_reachable_ok rx_config), new_stack_reachable. Qed.

Lemma two_stacks_new : new_handler buffer0 two_stacks.
Proof.
  destruct buffer0_ok as [H1 H2]. split; [done|]. split; [done|]. repeat apply Forall_cons_2; [| |constructor]; (split; [exact new_stack_ok|reflexivity]).
Qed.

Lemma opening_runs timely : io_runs timely (IOHandler.init true buffer0 two_stacks) opening open_channel.
Proof. apply steps_runs; [by apply new_handler_ok, two_stacks_new|]. split_and!; try done; vm_compute; lia. Qed.

Definition transmit (id : nat) (m : Message) : ChannelEvent StackEvent := EvSession id (Transmit m).

Lemma transmit_allowed timely h id m : is_Some (links h !! id) -> bytes_ok (payload m) -> io_allowed timely h (transmit id m).
Proof. intros [l Hl] Hm. exists l. by split_and!. Qed.

Definition reply (n : nat) (x : Z) : Message := mkMessage (mkAddresses 1024 1) (replicate n x).

Lemma reply_bytes n x : is_u8 x -> bytes_ok (payload (reply n x)).
Proof. intros Hx. by apply Forall_replicate. Qed.

(** A session that is taken off the channel and put back while its frame is written takes
    the end of that write for the end of the next one: it goes on with the second segment
    of the new message, in the same buffer, while the first is still in the queue. *)
Definition taken_off : list (ChannelEvent StackEvent) :=
  [transmit 0 (reply 10 1); EvDisable 0; EvEnable 0 0; transmit 0 (reply 300 2); EvWritten (Some 27%Z)].

Lemma disabling_leaves_a_frame :
  let h := steps taken_off open_channel in
  queued_for 0 (txQueue h) = 2 /\ match links h with s :: _ => frames_out s = 1 /\ length (wire (trace (link s.2))) = 3 | [] => False end.
Proof. vm_compute. done. Qed.

(** So the first segment is lost: the view of it in the queue now shows the second one,
    which the socket is given in its place. *)
Lemma disabling_loses_a_frame : exists reply1 segment1 segment2 written,
  let h := steps taken_off open_channel in
  requests (io_calls h) = [reply1; segment1; segment2] /\ writes (io_calls h) = [reply1; written] /\
    length written = length segment1 /\ take (length segment2) written = segment2 /\ take (length segment2) segment1 <> segment2.
Proof. do 4 eexists. vm_compute. split_and!; (reflexivity || done). Qed.

Lemma handler_safe_witness :
  let e := transmit 0 (reply 300 2) in
  exists h', Channel.handle e open_channel = Some (h', tt) /\
    (forall r, r ∈ sessions h' -> online r = enabled r && has_channel h' /\ exists l, links h' !! session r = Some l /\ session_ok (online r) l) /\
    (forall c, channel h' = Some c -> reading c = true /\ writing c = filled (txQueue h') /\ 0 < ws_size (LinkLayerParser.WriteBuff (parser h'))) /\
    (channel h' = None -> txQueue h' = []) /\
    (forall i l, links h' !! i = Some l -> frames_out l <= queued_for i (txQueue h') /\ (true = true -> frames_out l = queued_for i (txQueue h'))).
Proof.
  apply (@handler_safe StackSession StackSession_ILinkSession StackSession_LinkSessionOk true true buffer0 two_stacks opening open_channel); [exact two_stacks_new|apply opening_runs|].
  apply transmit_allowed; [vm_compute; by eexists|]. apply reply_bytes. unfold is_u8. lia.
Defined.

Definition traffic : list (ChannelEvent StackEvent) := [transmit 0 (reply 10 1); transmit 1 (reply 20 2); EvWritten (Some 27%Z)].

Lemma traffic_runs timely : io_runs timely open_channel traffic (steps traffic open_channel).
Proof.
  apply steps_runs; [exact (proj1 (io_runs_ok timely _ _ _ (opening_runs timely) (new_handler_ok timely true buffer0 two_stacks two_stacks_new)))|].
  unfold traffic. cbn [all_allowed]. split_and!; [| | |done].
  - apply transmit_allowed; [vm_compute; by eexists|]. apply reply_bytes. unfold is_u8. lia.
  - apply transmit_allowed; [vm_compute; by eexists|]. apply reply_bytes. unfold is_u8. lia.
  - intros c. vm_compute. by intros [= <-].
Qed.

Lemma frames_written_in_order_witness :
  exists o, io_calls (steps traffic open_channel) = io_calls open_channel ++ o /\
    (ChannelShutdown ∉ o -> is_Some (channel (steps traffic open_channel)) /\
      waiting open_channel ++ map Some (requests o) = map Some (writes o) ++ waiting (steps traffic open_channel)) /\
    (forall c t q, channel (steps traffic open_channel) = Some c -> writing c = true -> txQueue (steps traffic open_channel) = t :: q ->
      list.last (writes (io_calls (steps traffic open_channel))) = shown (steps traffic open_channel) t).
Proof.
  apply (@frames_written_in_order StackSession StackSession_ILinkSession StackSession_LinkSessionOk true buffer0 two_stacks opening open_channel traffic); [exact two_stacks_new|apply opening_runs|vm_compute; by eexists|apply traffic_runs].
Defined.

Definition status_request : bytes := frame_bytes true false false PRI_REQUEST_LINK_STATUS 1024 1 [].

Lemma frames_reach_every_session_witness :
  exists h' p fs, Channel.handle (EvRead 5 (Some status_request)) open_channel = Some (h', tt) /\
    LinkLayerParser.Receive (parser open_channel) status_request = Some (p, fs) /\ parser h' = p /\ sessions h' = sessions open_channel /\
    forall i l, links open_channel !! i = Some l -> exists l', links h' !! i = Some l' /\
      if hears (sessions open_channel) i then hear_all (map (pair 5%Z) fs) l = Some l' else l' = l.
Proof.
  apply (@frames_reach_every_session StackSession StackSession_ILinkSession StackSession_LinkSessionOk true true buffer0 two_stacks opening open_channel (mkIAsyncChannel true false true false));
    [exact two_stacks_new|apply opening_runs|vm_compute; reflexivity| |vm_compute; lia].
  apply frame_bytes_ok; [unfold is_u16; lia|unfold is_u16; lia|constructor].
Defined.


End Examples.
