(* ===== verification/AppHeader.v ===== *)
(** * AppHeader: the fixed part of application fragments (opendnp3/app)

    [FunctionCode], [AppControlField], [IINField], [ClassField], the request and
    response headers with their parser [APDUHeaderParser], and the fragments
    under construction [APDUWrapper], [APDURequest] and [APDUResponse]. *)

From S2P Require Import Prelude Slices Serialization LinkFrame.

Open Scope Z_scope.

(** ** Function codes *)

Inductive FunctionCode :=
  | CONFIRM
  | READ
  | WRITE
  | SELECT
  | OPERATE
  | DIRECT_OPERATE
  | DIRECT_OPERATE_NR
  | IMMED_FREEZE
  | IMMED_FREEZE_NR
  | FREEZE_CLEAR
  | FREEZE_CLEAR_NR
  | FREEZE_AT_TIME
  | FREEZE_AT_TIME_NR
  | COLD_RESTART
  | WARM_RESTART
  | INITIALIZE_DATA
  | INITIALIZE_APPLICATION
  | START_APPLICATION
  | STOP_APPLICATION
  | SAVE_CONFIGURATION
  | ENABLE_UNSOLICITED
  | DISABLE_UNSOLICITED
  | ASSIGN_CLASS
  | DELAY_MEASURE
  | RECORD_CURRENT_TIME
  | OPEN_FILE
  | CLOSE_FILE
  | DELETE_FILE
  | GET_FILE_INFO
  | AUTHENTICATE_FILE
  | ABORT_FILE
  | AUTH_REQUEST
  | AUTH_REQUEST_NO_ACK
  | RESPONSE
  | UNSOLICITED_RESPONSE
  | AUTH_RESPONSE
  | UNKNOWN.

#[export] Instance FunctionCode_eq_dec : EqDecision FunctionCode.
Proof. solve_decision. Defined.

Definition FunctionCodeToType (arg : FunctionCode) : Z :=
  match arg with
  | CONFIRM => 0x0
  | READ => 0x1
  | WRITE => 0x2
  | SELECT => 0x3
  | OPERATE => 0x4
  | DIRECT_OPERATE => 0x5
  | DIRECT_OPERATE_NR => 0x6
  | IMMED_FREEZE => 0x7
  | IMMED_FREEZE_NR => 0x8
  | FREEZE_CLEAR => 0x9
  | FREEZE_CLEAR_NR => 0xA
  | FREEZE_AT_TIME => 0xB
  | FREEZE_AT_TIME_NR => 0xC
  | COLD_RESTART => 0xD
  | WARM_RESTART => 0xE
  | INITIALIZE_DATA => 0xF
  | INITIALIZE_APPLICATION => 0x10
  | START_APPLICATION => 0x11
  | STOP_APPLICATION => 0x12
  | SAVE_CONFIGURATION => 0x13
  | ENABLE_UNSOLICITED => 0x14
  | DISABLE_UNSOLICITED => 0x15
  | ASSIGN_CLASS => 0x16
  | DELAY_MEASURE => 0x17
  | RECORD_CURRENT_TIME => 0x18
  | OPEN_FILE => 0x19
  | CLOSE_FILE => 0x1A
  | DELETE_FILE => 0x1B
  | GET_FILE_INFO => 0x1C
  | AUTHENTICATE_FILE => 0x1D
  | ABORT_FILE => 0x1E
  | AUTH_REQUEST => 0x20
  | AUTH_REQUEST_NO_ACK => 0x21
  | RESPONSE => 0x81
  | UNSOLICITED_RESPONSE => 0x82
  | AUTH_RESPONSE => 0x83
  | UNKNOWN => 0xFF
  end.

Definition FunctionCodeFromType (arg : Z) : FunctionCode :=
  match arg with
  | 0x0 => CONFIRM
  | 0x1 => READ
  | 0x2 => WRITE
  | 0x3 => SELECT
  | 0x4 => OPERATE
  | 0x5 => DIRECT_OPERATE
  | 0x6 => DIRECT_OPERATE_NR
  | 0x7 => IMMED_FREEZE
  | 0x8 => IMMED_FREEZE_NR
  | 0x9 => FREEZE_CLEAR
  | 0xA => FREEZE_CLEAR_NR
  | 0xB => FREEZE_AT_TIME
  | 0xC => FREEZE_AT_TIME_NR
  | 0xD => COLD_RESTART
  | 0xE => WARM_RESTART
  | 0xF => INITIALIZE_DATA
  | 0x10 => INITIALIZE_APPLICATION
  | 0x11 => START_APPLICATION
  | 0x12 => STOP_APPLICATION
  | 0x13 => SAVE_CONFIGURATION
  | 0x14 => ENABLE_UNSOLICITED
  | 0x15 => DISABLE_UNSOLICITED
  | 0x16 => ASSIGN_CLASS
  | 0x17 => DELAY_MEASURE
  | 0x18 => RECORD_CURRENT_TIME
  | 0x19 => OPEN_FILE
  | 0x1A => CLOSE_FILE
  | 0x1B => DELETE_FILE
  | 0x1C => GET_FILE_INFO
  | 0x1D => AUTHENTICATE_FILE
  | 0x1E => ABORT_FILE
  | 0x20 => AUTH_REQUEST
  | 0x21 => AUTH_REQUEST_NO_ACK
  | 0x81 => RESPONSE
  | 0x82 => UNSOLICITED_RESPONSE
  | 0x83 => AUTH_RESPONSE
  | _ => UNKNOWN
  end.

(** [Functions::IsNoAckFuncCode] *)
Definition IsNoAckFuncCode (code : FunctionCode) : bool :=
  match code with
  | DIRECT_OPERATE_NR | IMMED_FREEZE_NR | FREEZE_AT_TIME_NR | FREEZE_CLEAR_NR => true
  | _ => false
  end.

(** ** The control octet *)

Record AppControlField := mkAppControlField { FIR : bool; FIN : bool; CON : bool; UNS : bool; SEQ : Z }.

Module AppControlField.

Definition FIR_MASK : Z := 0x80.

Definition FIN_MASK : Z := 0x40.

Definition CON_MASK : Z := 0x20.

Definition UNS_MASK : Z := 0x10.

Definition SEQ_MASK : Z := 0x0F.

Definition DEFAULT : AppControlField := mkAppControlField true true false false 0.

(** The constructor from a byte. *)
Definition of_byte (byte : Z) : AppControlField :=
  mkAppControlField (negb (Z.land byte FIR_MASK =? 0)) (negb (Z.land byte FIN_MASK =? 0))
    (negb (Z.land byte CON_MASK =? 0)) (negb (Z.land byte UNS_MASK =? 0)) (Z.land byte SEQ_MASK).

Definition Request (seq : Z) : AppControlField := mkAppControlField true true false false seq.

Definition ToByte (f : AppControlField) : Z :=
  let ret := 0 in
  let ret := if FIR f then Z.lor ret FIR_MASK else ret in
  let ret := if FIN f then Z.lor ret FIN_MASK else ret in
  let ret := if CON f then Z.lor ret CON_MASK else ret in
  let ret := if UNS f then Z.lor ret UNS_MASK else ret in
  let seq := SEQ f mod 16 in
  Z.lor ret seq.

Definition IsFirAndFin (f : AppControlField) : bool := FIR f && FIN f.

End AppControlField.

(** [AppSeqNum] is [SequenceNum<uint8_t, 16>]. *)
Definition AppSeqNum_Next (seq : Z) : Z := SequenceNum_Next 16 seq.

(** ** Internal indications *)

Inductive IINBit :=
  | ALL_STATIONS
  | CLASS1_EVENTS
  | CLASS2_EVENTS
  | CLASS3_EVENTS
  | NEED_TIME
  | LOCAL_CONTROL
  | DEVICE_TROUBLE
  | DEVICE_RESTART
  | FUNC_NOT_SUPPORTED
  | OBJECT_UNKNOWN
  | PARAM_ERROR
  | EVENT_BUFFER_OVERFLOW
  | ALREADY_EXECUTING
  | CONFIG_CORRUPT
  | RESERVED1
  | RESERVED2.

#[export] Instance IINBit_eq_dec : EqDecision IINBit.
Proof. solve_decision. Defined.

Record IINField := mkIINField { LSB : Z; MSB : Z }.

#[export] Instance IINField_eq_dec : EqDecision IINField.
Proof. solve_decision. Defined.

Module IINField.

(** A value of [LSBMask] or of [MSBMask]. *)
Inductive Mask := LSBMask (bit : Z) | MSBMask (bit : Z).

(** The [switch] that [IsSet], [SetBit] and [ClearBit] share. *)
Definition mask_of (bit : IINBit) : Mask :=
  match bit with
  | ALL_STATIONS => LSBMask 0x01
  | CLASS1_EVENTS => LSBMask 0x02
  | CLASS2_EVENTS => LSBMask 0x04
  | CLASS3_EVENTS => LSBMask 0x08
  | NEED_TIME => LSBMask 0x10
  | LOCAL_CONTROL => LSBMask 0x20
  | DEVICE_TROUBLE => LSBMask 0x40
  | DEVICE_RESTART => LSBMask 0x80
  | FUNC_NOT_SUPPORTED => MSBMask 0x01
  | OBJECT_UNKNOWN => MSBMask 0x02
  | PARAM_ERROR => MSBMask 0x04
  | EVENT_BUFFER_OVERFLOW => MSBMask 0x08
  | ALREADY_EXECUTING => MSBMask 0x10
  | CONFIG_CORRUPT => MSBMask 0x20
  | RESERVED1 => MSBMask 0x40
  | RESERVED2 => MSBMask 0x80
  end.

(** [FUNC_NOT_SUPPORTED | OBJECT_UNKNOWN | PARAM_ERROR] *)
Definition REQUEST_ERROR_MASK : Mask := MSBMask (Z.lor 0x01 (Z.lor 0x02 0x04)).

Definition Get (f : IINField) (m : Mask) : bool :=
  match m with
  | LSBMask bit => negb (Z.land (LSB f) bit =? 0)
  | MSBMask bit => negb (Z.land (MSB f) bit =? 0)
  end.

Definition Set_ (f : IINField) (m : Mask) : IINField :=
  match m with
  | LSBMask bit => mkIINField (Z.lor (LSB f) bit) (MSB f)
  | MSBMask bit => mkIINField (LSB f) (Z.lor (MSB f) bit)
  end.

Definition Clear_ (f : IINField) (m : Mask) : IINField :=
  match m with
  | LSBMask bit => mkIINField (u8 (Z.land (LSB f) (Z.lnot bit))) (MSB f)
  | MSBMask bit => mkIINField (LSB f) (u8 (Z.land (MSB f) (Z.lnot bit)))
  end.

Definition Empty : IINField := mkIINField 0 0.

Definition IsSet (f : IINField) (bit : IINBit) : bool := Get f (mask_of bit).

Definition IsClear (f : IINField) (bit : IINBit) : bool := negb (IsSet f bit).

Definition SetBit (f : IINField) (bit : IINBit) : IINField := Set_ f (mask_of bit).

Definition ClearBit (f : IINField) (bit : IINBit) : IINField := Clear_ f (mask_of bit).

Definition SetBitToValue (f : IINField) (bit : IINBit) (value : bool) : IINField :=
  if value then SetBit f bit else ClearBit f bit.

(** The constructor from a bit. *)
Definition of_bit (bit : IINBit) : IINField := SetBit Empty bit.

Definition Equals (f rhs : IINField) : bool := (LSB f =? LSB rhs) && (MSB f =? MSB rhs).

Definition Any (f : IINField) : bool := negb (Z.lor (LSB f) (MSB f) =? 0).

Definition HasRequestError (f : IINField) : bool := Get f REQUEST_ERROR_MASK.

(** [operator|], [operator&] and [operator~] *)
Definition or (f g : IINField) : IINField := mkIINField (Z.lor (LSB f) (LSB g)) (Z.lor (MSB f) (MSB g)).

Definition and (f g : IINField) : IINField := mkIINField (Z.land (LSB f) (LSB g)) (Z.land (MSB f) (MSB g)).

Definition not (f : IINField) : IINField := mkIINField (u8 (Z.lnot (LSB f))) (u8 (Z.lnot (MSB f))).

End IINField.

(** ** Classes *)

Inductive PointClass := Class0 | Class1 | Class2 | Class3.

#[export] Instance PointClass_eq_dec : EqDecision PointClass.
Proof. solve_decision. Defined.

Definition PointClassToType (pc : PointClass) : Z :=
  match pc with Class0 => 0x1 | Class1 => 0x2 | Class2 => 0x4 | Class3 => 0x8 end.

Inductive EventClass := EC1 | EC2 | EC3.

#[export] Instance EventClass_eq_dec : EqDecision EventClass.
Proof. solve_decision. Defined.

Record ClassField := mkClassField { bitfield : Z }.

Module ClassField.

Definition CLASS_0 : Z := PointClassToType Class0.

Definition CLASS_1 : Z := PointClassToType Class1.

Definition CLASS_2 : Z := PointClassToType Class2.

Definition CLASS_3 : Z := PointClassToType Class3.

Definition EVENT_CLASSES : Z := Z.lor (Z.lor CLASS_1 CLASS_2) CLASS_3.

Definition ALL_CLASSES : Z := Z.lor EVENT_CLASSES CLASS_0.

(** The constructors. *)
Definition default : ClassField := mkClassField 0.

Definition of_mask (mask : Z) : ClassField := mkClassField (Z.land mask ALL_CLASSES).

Definition of_point_class (pc : PointClass) : ClassField := mkClassField (PointClassToType pc).

Definition of_classes (class0 class1 class2 class3 : bool) : ClassField :=
  let bitfield := if class0 then CLASS_0 else 0 in
  let bitfield := Z.lor bitfield (if class1 then CLASS_1 else 0) in
  let bitfield := Z.lor bitfield (if class2 then CLASS_2 else 0) in
  let bitfield := Z.lor bitfield (if class3 then CLASS_3 else 0) in
  mkClassField bitfield.

Definition of_event_class (ec : EventClass) : ClassField :=
  of_classes false (bool_decide (ec = EC1)) (bool_decide (ec = EC2)) (bool_decide (ec = EC3)).

Definition None : ClassField := default.

Definition AllClasses : ClassField := of_mask ALL_CLASSES.

Definition AllEventClasses : ClassField := of_mask EVENT_CLASSES.

Definition IsEmpty (c : ClassField) : bool := bitfield c =? 0.

Definition Intersects (c other : ClassField) : bool := 0 <? Z.land (bitfield c) (bitfield other).

Definition OnlyEventClasses (c : ClassField) : ClassField := of_mask (Z.land (bitfield c) EVENT_CLASSES).

Definition Set_ (c field : ClassField) : ClassField := mkClassField (Z.lor (bitfield c) (bitfield field)).

Definition Set_class (c : ClassField) (pc : PointClass) : ClassField :=
  mkClassField (Z.lor (bitfield c) (PointClassToType pc)).

Definition Clear (c field : ClassField) : ClassField :=
  mkClassField (u8 (Z.land (bitfield c) (Z.lnot (bitfield field)))).

Definition HasClass0 (c : ClassField) : bool := negb (Z.land (bitfield c) CLASS_0 =? 0).

Definition HasClass1 (c : ClassField) : bool := negb (Z.land (bitfield c) CLASS_1 =? 0).

Definition HasClass2 (c : ClassField) : bool := negb (Z.land (bitfield c) CLASS_2 =? 0).

Definition HasClass3 (c : ClassField) : bool := negb (Z.land (bitfield c) CLASS_3 =? 0).

Definition HasEventType (c : ClassField) (ec : EventClass) : bool :=
  match ec with
  | EC1 => HasClass1 c
  | EC2 => HasClass2 c
  | EC3 => HasClass3 c
  end.

Definition HasEventClass (c : ClassField) : bool := negb (Z.land (bitfield c) EVENT_CLASSES =? 0).

Definition HasAnyClass (c : ClassField) : bool := negb (bitfield c =? 0).

End ClassField.

(** ** Headers *)

Definition REQUEST_SIZE : nat := 2.

Definition RESPONSE_SIZE : nat := 4.

Record APDUHeader := mkAPDUHeader { control : AppControlField; function : FunctionCode }.

Record APDUResponseHeader := mkAPDUResponseHeader { response_header : APDUHeader; IIN : IINField }.

Module APDUHeader.

Definition Confirm (seq : Z) (unsolicited : bool) : APDUHeader :=
  mkAPDUHeader (mkAppControlField true true false unsolicited seq) CONFIRM.

Definition SolicitedConfirm (seq : Z) : APDUHeader := Confirm seq false.

Definition UnsolicitedConfirm (seq : Z) : APDUHeader := Confirm seq true.

Definition Equals (h header : APDUHeader) : bool :=
  bool_decide (function header = function h) &&
  (AppControlField.ToByte (control header) =? AppControlField.ToByte (control h)).

End APDUHeader.

(** [APDUHeaderParser]: a header and the object data after it, or an error. *)
Definition ParseRequest (apdu : RSlice) : option (APDUHeader * RSlice) :=
  if (RSlice.Size apdu <? REQUEST_SIZE)%nat then None
  else
    Some (mkAPDUHeader (AppControlField.of_byte (apdu !!! 0%nat)) (FunctionCodeFromType (apdu !!! 1%nat)),
          RSlice.Skip apdu REQUEST_SIZE).

Definition ParseResponse (apdu : RSlice) : option (APDUResponseHeader * RSlice) :=
  if (RSlice.Size apdu <? RESPONSE_SIZE)%nat then None
  else
    Some (mkAPDUResponseHeader
            (mkAPDUHeader (AppControlField.of_byte (apdu !!! 0%nat)) (FunctionCodeFromType (apdu !!! 1%nat)))
            (mkIINField (apdu !!! 2%nat) (apdu !!! 3%nat)),
          RSlice.Skip apdu RESPONSE_SIZE).

(** ** Fragments under construction

    [buffer] and [remaining] are two windows of one array. *)

Record APDUWrapper := mkAPDUWrapper {
  valid : bool;
  apdu_array : bytes;
  buffer : View;
  remaining : View
}.

Module APDUWrapper.

(** [WSlice::Advance] on a window of the array. *)
Definition advance (v : View) (count : nat) : View :=
  let num := if (v_size v <? count)%nat then v_size v else count in
  mkView (v_pos v + num) (v_size v - num).

(** [buffer[i] = b]; there is no check against the size of the window. *)
Definition store (w : APDUWrapper) (i : nat) (b : Z) : option APDUWrapper :=
  m ← mem_write (apdu_array w) (v_pos (buffer w) + i) [b];
  Some (mkAPDUWrapper (valid w) m (buffer w) (remaining w)).

(** [buffer[i]] *)
Definition fetch (w : APDUWrapper) (i : nat) : option Z :=
  m ← mem_read (apdu_array w) (v_pos (buffer w) + i) 1; Some (m !!! 0%nat).

(** The constructor from a buffer. *)
Definition init (buffer_ : WSlice) : option APDUWrapper :=
  let v := mkView (ws_pos buffer_) (ws_size buffer_) in
  _ ← c_assert (2 <=? v_size v)%nat;
  Some (mkAPDUWrapper true (ws_array buffer_) v (advance v 2)).

Definition Remaining (w : APDUWrapper) : nat := v_size (remaining w).

Definition SetFunction (w : APDUWrapper) (code : FunctionCode) : option APDUWrapper :=
  _ ← c_assert (0 <? v_size (buffer w))%nat;
  store w 1 (FunctionCodeToType code).

Definition GetFunction (w : APDUWrapper) : option FunctionCode :=
  _ ← c_assert (0 <? v_size (buffer w))%nat;
  b ← fetch w 1; Some (FunctionCodeFromType b).

Definition GetControl (w : APDUWrapper) : option AppControlField :=
  _ ← c_assert (0 <? v_size (buffer w))%nat;
  b ← fetch w 0; Some (AppControlField.of_byte b).

Definition SetControl (w : APDUWrapper) (control : AppControlField) : option APDUWrapper :=
  store w 0 (AppControlField.ToByte control).

Definition Size (w : APDUWrapper) : nat := v_size (buffer w) - v_size (remaining w).

Definition ToRSlice (w : APDUWrapper) : option RSlice :=
  m ← mem_read (apdu_array w) (v_pos (buffer w)) (v_size (buffer w)); Some (RSlice.Take m (Size w)).

End APDUWrapper.

Module APDURequest.
Import APDUWrapper.

Definition init (buffer : WSlice) : option APDUWrapper := APDUWrapper.init buffer.

Definition ConfigureHeader (w : APDUWrapper) (code : FunctionCode) (seq : Z) : option APDUWrapper :=
  w ← SetFunction w AUTH_REQUEST;
  SetControl w (AppControlField.Request seq).

End APDURequest.

Module APDUResponse.
Import APDUWrapper.

Definition init (buffer_ : WSlice) : option APDUWrapper :=
  w ← APDUWrapper.init buffer_;
  _ ← c_assert (4 <=? ws_size buffer_)%nat;
  Some (mkAPDUWrapper (valid w) (apdu_array w) (buffer w) (advance (remaining w) 2)).

Definition SetIIN (w : APDUWrapper) (indications : IINField) : option APDUWrapper :=
  w ← store w 2 (LSB indications);
  store w 3 (MSB indications).

Definition GetIIN (w : APDUWrapper) : option IINField :=
  lsb ← fetch w 2; msb ← fetch w 3; Some (mkIINField lsb msb).

End APDUResponse.

(** [build::NullUnsolicited], [build::MeasureDelay] and [build::RecordCurrentTime]: the
    fragments that have a header only. *)
Definition NullUnsolicited (response : APDUWrapper) (seq : Z) (iin : IINField) : option APDUWrapper :=
  w ← APDUWrapper.SetControl response (mkAppControlField true true true true seq);
  w ← APDUWrapper.SetFunction w UNSOLICITED_RESPONSE;
  APDUResponse.SetIIN w iin.

Definition MeasureDelay (request : APDUWrapper) (seq : Z) : option APDUWrapper :=
  w ← APDUWrapper.SetFunction request DELAY_MEASURE;
  APDUWrapper.SetControl w (AppControlField.Request seq).

Definition RecordCurrentTime (request : APDUWrapper) (seq : Z) : option APDUWrapper :=
  w ← APDUWrapper.SetFunction request RECORD_CURRENT_TIME;
  APDUWrapper.SetControl w (AppControlField.Request seq).

(** ** Bits *)

Section Bits.

Lemma single_bit x k : 0 <= k -> negb (Z.land x (2 ^ k) =? 0) = Z.testbit x k.
Proof.
  intros Hk. destruct (Z.testbit x k) eqn:Hb; destruct (Z.eqb_spec (Z.land x (2 ^ k)) 0) as [H|H]; try done.
  - assert (Ht : Z.testbit (Z.land x (2 ^ k)) k = true) by (by rewrite Z.land_spec, Hb, Z.pow2_bits_true).
    by rewrite H, Z.bits_0 in Ht.
  - destruct H. apply Z.bits_inj'. intros n Hn. rewrite Z.land_spec, Z.bits_0, Z.pow2_bits_eqb by done.
    destruct (Z.eqb_spec k n) as [->|]; [by rewrite Hb|apply andb_false_r].
Qed.

Lemma testbit_clear x m k : 0 <= k < 8 -> Z.testbit (u8 (Z.land x (Z.lnot m))) k = Z.testbit x k && negb (Z.testbit m k).
Proof.
  intros Hk. unfold u8. change 256 with (2 ^ 8). rewrite Z.mod_pow2_bits_low by lia.
  by rewrite Z.land_spec, Z.lnot_spec by lia.
Qed.

Ltac one_bit :=
  match goal with |- _ = Z.testbit _ ?k => let k' := eval cbv in k in exact (single_bit _ k' ltac:(done)) end.

(** The position of the bit of a mask. *)
Definition bit_index (bit : IINBit) : Z :=
  match bit with
  | ALL_STATIONS | FUNC_NOT_SUPPORTED => 0
  | CLASS1_EVENTS | OBJECT_UNKNOWN => 1
  | CLASS2_EVENTS | PARAM_ERROR => 2
  | CLASS3_EVENTS | EVENT_BUFFER_OVERFLOW => 3
  | NEED_TIME | ALREADY_EXECUTING => 4
  | LOCAL_CONTROL | CONFIG_CORRUPT => 5
  | DEVICE_TROUBLE | RESERVED1 => 6
  | DEVICE_RESTART | RESERVED2 => 7
  end.

Definition octet_of (bit : IINBit) (f : IINField) : Z :=
  match IINField.mask_of bit with IINField.LSBMask _ => LSB f | IINField.MSBMask _ => MSB f end.

Lemma IsSet_testbit f bit : IINField.IsSet f bit = Z.testbit (octet_of bit f) (bit_index bit).
Proof. unfold IINField.IsSet, octet_of. destruct bit; one_bit. Qed.

Lemma IsSet_SetBit f b b' : IINField.IsSet (IINField.SetBit f b) b' = bool_decide (b = b') || IINField.IsSet f b'.
Proof.
  rewrite !IsSet_testbit. unfold octet_of, IINField.SetBit.
  destruct b; (destruct b'; cbn [IINField.mask_of IINField.Set_ bit_index LSB MSB]; try (by rewrite bool_decide_false by done);
    rewrite Z.lor_spec; first [rewrite bool_decide_true by done | rewrite bool_decide_false by done];
    (apply orb_true_r || (cbn; by rewrite orb_false_r))).
Qed.

Lemma IsSet_ClearBit f b b' : IINField.IsSet (IINField.ClearBit f b) b' = negb (bool_decide (b = b')) && IINField.IsSet f b'.
Proof.
  rewrite !IsSet_testbit. unfold octet_of, IINField.ClearBit.
  destruct b; (destruct b'; cbn [IINField.mask_of IINField.Clear_ bit_index LSB MSB]; try (by rewrite bool_decide_false by done);
    rewrite testbit_clear by lia; first [rewrite bool_decide_true by done | rewrite bool_decide_false by done];
    (apply andb_false_r || (cbn; by rewrite andb_true_r))).
Qed.

Definition class_index (pc : PointClass) : Z :=
  match pc with Class0 => 0 | Class1 => 1 | Class2 => 2 | Class3 => 3 end.

(** Membership of a class in a field. *)
Definition has_class (c : ClassField) (pc : PointClass) : bool :=
  match pc with
  | Class0 => ClassField.HasClass0 c
  | Class1 => ClassField.HasClass1 c
  | Class2 => ClassField.HasClass2 c
  | Class3 => ClassField.HasClass3 c
  end.

Lemma has_class_testbit c pc : has_class c pc = Z.testbit (bitfield c) (class_index pc).
Proof. destruct pc; one_bit. Qed.

Lemma class_bit pc pc' : Z.testbit (PointClassToType pc) (class_index pc') = bool_decide (pc = pc').
Proof. by destruct pc, pc'. Qed.

End Bits.

(** ** Header octets *)

Section Octets.

Lemma function_roundtrip f : FunctionCodeFromType (FunctionCodeToType f) = f.
Proof. by destruct f. Qed.

Lemma control_roundtrip c :
  0 <= SEQ c < 16 -> AppControlField.of_byte (AppControlField.ToByte c) = c.
Proof.
  destruct c as [f n k u s]. cbn [SEQ]. intros Hs.
  set (P := fun s => implb (s <? 16) (let c := AppControlField.of_byte (AppControlField.ToByte (mkAppControlField f n k u s)) in
    eqb (FIR c) f && eqb (FIN c) n && eqb (CON c) k && eqb (UNS c) u && (SEQ c =? s))).
  assert (HP : P s = true).
  { assert (Hs8 : is_u8 s) by (unfold is_u8; lia). revert s Hs8 Hs. intros s Hs8 _. revert s Hs8.
    apply (forall_u8 P). unfold P. destruct f, n, k, u; vm_compute; reflexivity. }
  unfold P in HP. rewrite (proj2 (Z.ltb_lt s 16)) in HP by lia. cbn [implb] in HP.
  repeat (apply andb_prop in HP as [HP ?]). rewrite eqb_true_iff, ?eqb_true_iff in *.
  destruct (AppControlField.of_byte _) as [f' n' k' u' s']. cbn in *.
  repeat match goal with H : eqb _ _ = true |- _ => apply eqb_prop in H | H : (_ =? _) = true |- _ => apply Z.eqb_eq in H end.
  by subst.
Qed.

End Octets.

(** ** Properties *)

Section Fragments.

(** The octets of a response header. *)
Definition response_octets (h : APDUResponseHeader) : bytes :=
  [AppControlField.ToByte (control (response_header h)); FunctionCodeToType (function (response_header h));
   LSB (IIN h); MSB (IIN h)].

Lemma store_spec w i b :
  (v_pos (buffer w) + i < length (apdu_array w))%nat ->
  exists m, APDUWrapper.store w i b = Some (mkAPDUWrapper (valid w) m (buffer w) (remaining w)) /\
    mem_write (apdu_array w) (v_pos (buffer w) + i) [b] = Some m /\ length m = length (apdu_array w).
Proof.
  intros Hi. unfold APDUWrapper.store. destruct (mem_write (apdu_array w) (v_pos (buffer w) + i) [b]) as [m|] eqn:Hm; [|by rewrite mem_write_Some in Hm by (cbn; lia)].
  exists m. split; [done|]. split; [done|]. by eapply mem_write_length.
Qed.

(** The four header octets, stored one by one. *)
Lemma header_stores w h :
  (0 < v_size (buffer w))%nat -> (v_pos (buffer w) + 4 <= length (apdu_array w))%nat ->
  exists m,
    (w1 ← APDUWrapper.SetControl w (control (response_header h));
     w2 ← APDUWrapper.SetFunction w1 (function (response_header h));
     APDUResponse.SetIIN w2 (IIN h)) = Some (mkAPDUWrapper (valid w) m (buffer w) (remaining w)) /\
    mem_write (apdu_array w) (v_pos (buffer w)) (response_octets h) = Some m.
Proof.
  intros Hs Hl. unfold APDUWrapper.SetControl, APDUWrapper.SetFunction, APDUResponse.SetIIN, response_octets.
  destruct (store_spec w 0 (AppControlField.ToByte (control (response_header h))) ltac:(lia)) as (m0 & -> & H0 & L0).
  rewrite Nat.add_0_r in H0. cbn [mbind option_bind buffer].
  rewrite (proj2 (Nat.ltb_lt _ _)) by done. cbn [c_assert mbind option_bind].
  destruct (store_spec (mkAPDUWrapper (valid w) m0 (buffer w) (remaining w)) 1
    (FunctionCodeToType (function (response_header h))) ltac:(cbn; lia)) as (m1 & -> & H1 & L1).
  cbn [mbind option_bind apdu_array buffer valid remaining] in *. pose proof (mem_write_app _ _ _ _ _ _ H0 H1) as H01.
  destruct (store_spec (mkAPDUWrapper (valid w) m1 (buffer w) (remaining w)) 2 (LSB (IIN h)) ltac:(cbn; lia))
    as (m2 & -> & H2 & L2).
  cbn [mbind option_bind apdu_array buffer valid remaining] in *. pose proof (mem_write_app _ _ _ _ _ _ H01 H2) as H02.
  destruct (store_spec (mkAPDUWrapper (valid w) m2 (buffer w) (remaining w)) 3 (MSB (IIN h)) ltac:(cbn; lia))
    as (m3 & -> & H3 & L3).
  cbn [apdu_array buffer valid remaining] in *. pose proof (mem_write_app _ _ _ _ _ _ H02 H3) as H03. by exists m3.
Qed.

Lemma parse_response_octets h objects :
  0 <= SEQ (control (response_header h)) < 16 -> ParseResponse (response_octets h ++ objects) = Some (h, objects).
Proof.
  intros Hs. unfold ParseResponse, response_octets, RSlice.Size, RESPONSE_SIZE. rewrite Skip_drop. cbn.
  rewrite control_roundtrip, function_roundtrip by done. by destruct h as [[] []].
Qed.

End Fragments.

Section Properties.

(** C27: The bits of the internal indications are independent: after
    [SetBitToValue f b v] the bit [b] reads as [v] and every other bit of the two
    octets reads as before. *)
Theorem iin_bits_independent (f : IINField) (b b' : IINBit) (v : bool) :
  IINField.IsSet (IINField.SetBitToValue f b v) b' = (if decide (b = b') then v else IINField.IsSet f b').
Proof.
  unfold IINField.SetBitToValue. destruct v.
  - rewrite IsSet_SetBit. by case_decide; [rewrite bool_decide_true|rewrite bool_decide_false].
  - rewrite IsSet_ClearBit. by case_decide; [rewrite bool_decide_true|rewrite bool_decide_false].
Qed.

(** C28: A [ClassField] is a set of classes: [Set] is union, [Clear] difference,
    [OnlyEventClasses] drops class 0 and keeps the others, the constructor from
    four flags contains exactly the flagged classes, and [HasEventType] of the
    field of one event class holds for that class alone. *)
Theorem class_field_is_a_set (c d : ClassField) (pc : PointClass) (c0 c1 c2 c3 : bool) (ec ec' : EventClass) :
  has_class (ClassField.Set_ c d) pc = has_class c pc || has_class d pc /\
  has_class (ClassField.Clear c d) pc = has_class c pc && negb (has_class d pc) /\
  has_class (ClassField.OnlyEventClasses c) pc = has_class c pc && negb (bool_decide (pc = Class0)) /\
  has_class (ClassField.of_classes c0 c1 c2 c3) pc =
    (match pc with Class0 => c0 | Class1 => c1 | Class2 => c2 | Class3 => c3 end) /\
  ClassField.HasEventType (ClassField.of_event_class ec) ec' = bool_decide (ec = ec').
Proof.
  rewrite !has_class_testbit. unfold ClassField.Set_, ClassField.Clear, ClassField.OnlyEventClasses, ClassField.of_mask.
  cbn [bitfield]. rewrite Z.lor_spec, testbit_clear by (by destruct pc). rewrite !Z.land_spec.
  repeat split.
  - rewrite <- andb_assoc. f_equal. by destruct pc.
  - by destruct pc, c0, c1, c2, c3.
  - by destruct ec, ec'.
Qed.

(** A response header survives the trip through the wire: in any writable
    window of at least four bytes an [APDUResponse] can be set up, storing a
    control octet with a four-bit sequence number, a function code and the
    indications succeeds, and [ParseResponse] on the bytes of the fragment,
    whatever object data follows them, gives back exactly the three fields and
    that object data. *)
Theorem response_header_roundtrip (ws : WSlice) (h : APDUResponseHeader) (objects : bytes) :
  WSlice.wf ws -> (4 <= ws_size ws)%nat -> 0 <= SEQ (control (response_header h)) < 16 ->
  exists w w' apdu,
    APDUResponse.init ws = Some w /\
    (w1 ← APDUWrapper.SetControl w (control (response_header h));
     w2 ← APDUWrapper.SetFunction w1 (function (response_header h));
     APDUResponse.SetIIN w2 (IIN h)) = Some w' /\
    APDUWrapper.ToRSlice w' = Some apdu /\
    ParseResponse (apdu ++ objects) = Some (h, objects).
Proof.
  unfold WSlice.wf. intros Hwf H4 Hseq.
  set (v := mkView (ws_pos ws) (ws_size ws)).
  set (w := mkAPDUWrapper true (ws_array ws) v (APDUWrapper.advance (APDUWrapper.advance v 2) 2)).
  destruct (header_stores w h ltac:(cbn; lia) ltac:(cbn; lia)) as (m & Hst & Hm).
  change (buffer w) with v in Hm. change (apdu_array w) with (ws_array ws) in Hm. change (v_pos v) with (ws_pos ws) in Hm.
  exists w, (mkAPDUWrapper true m v (remaining w)), (response_octets h). split; [|split; [exact Hst|split]].
  - unfold APDUResponse.init, APDUWrapper.init. cbn [v_size].
    rewrite (proj2 (Nat.leb_le 2 _)), (proj2 (Nat.leb_le 4 _)) by lia. done.
  - pose proof (mem_write_length _ _ _ _ Hm) as Hl. pose proof (mem_write_read _ _ _ _ Hm) as Hr. cbn in Hl.
    assert (Hsz : APDUWrapper.Size (mkAPDUWrapper true m v (remaining w)) = 4%nat).
    { unfold APDUWrapper.Size, APDUWrapper.advance, w, v. cbn [buffer remaining v_pos v_size].
      unfold APDUWrapper.advance. cbn [v_pos v_size]. rewrite (proj2 (Nat.ltb_ge (ws_size ws) 2)) by lia.
      cbn [v_size v_pos]. rewrite (proj2 (Nat.ltb_ge (ws_size ws - 2) 2)) by lia. cbn [v_size]. lia. }
    unfold APDUWrapper.ToRSlice. rewrite Hsz. cbn [buffer v apdu_array v_pos v_size].
    rewrite mem_read_Some by lia. cbn [mbind option_bind]. rewrite Take_take.
    apply mem_read_inv in Hr as [_ Hr]. by rewrite Hr, take_take, Nat.min_l by lia.
  - by apply parse_response_octets.
Qed.

(** The function code given to [ConfigureHeader] is not the one stored. *)
Theorem ConfigureHeader_ignores_code w code code' seq :
  APDURequest.ConfigureHeader w code seq = APDURequest.ConfigureHeader w code' seq.
Proof. done. Qed.

End Properties.

Section Witnesses.

Lemma response_header_roundtrip_witness :
  let h := mkAPDUResponseHeader (mkAPDUHeader (mkAppControlField true true true true 5) UNSOLICITED_RESPONSE)
    (mkIINField 0x80 0) in
  exists w w' apdu,
    APDUResponse.init (mkWSlice (replicate 10 0) 1 8) = Some w /\
    (w1 ← APDUWrapper.SetControl w (control (response_header h));
     w2 ← APDUWrapper.SetFunction w1 (function (response_header h));
     APDUResponse.SetIIN w2 (IIN h)) = Some w' /\
    APDUWrapper.ToRSlice w' = Some apdu /\
    ParseResponse (apdu ++ [1; 2]) = Some (h, [1; 2]).
Proof.
  intros h. apply (response_header_roundtrip (mkWSlice (replicate 10 0) 1 8) h [1; 2]).
  - unfold WSlice.wf. cbn. lia.
  - cbn. lia.
  - cbn. lia.
Defined.

End Witnesses.
