(* ===== verification/Objects.v ===== *)
(** * Objects: groups, variations and the layout of their objects
    (opendnp3/gen/GroupVariation, QualifierCode; opendnp3/app/GroupVariationRecord;
    opendnp3/objects)

    Every fixed-size object is a sequence of fields read by [Parse::Many] and
    written by [Format::Many]; [fields] lists their serializers and [Size] is the
    constant the object's class declares.  The objects of group 120 that arrive in
    free format have fixed fields, length-prefixed fields and a remainder. *)

From S2P Require Import Prelude Slices Serialization.

Open Scope Z_scope.

(** ** Enumerations *)

Module GroupVariation.

Inductive t :=
  | Group1Var0 | Group1Var1 | Group1Var2 | Group2Var0 | Group2Var1 | Group2Var2 | Group2Var3 | Group3Var0
    | Group3Var1 | Group3Var2 | Group4Var0 | Group4Var1 | Group4Var2 | Group4Var3 | Group10Var0 | Group10Var1
    | Group10Var2 | Group11Var0 | Group11Var1 | Group11Var2 | Group12Var0 | Group12Var1 | Group13Var1
    | Group13Var2 | Group20Var0 | Group20Var1 | Group20Var2 | Group20Var5 | Group20Var6 | Group21Var0
    | Group21Var1 | Group21Var2 | Group21Var5 | Group21Var6 | Group21Var9 | Group21Var10 | Group22Var0
    | Group22Var1 | Group22Var2 | Group22Var5 | Group22Var6 | Group23Var0 | Group23Var1 | Group23Var2
    | Group23Var5 | Group23Var6 | Group30Var0 | Group30Var1 | Group30Var2 | Group30Var3 | Group30Var4
    | Group30Var5 | Group30Var6 | Group32Var0 | Group32Var1 | Group32Var2 | Group32Var3 | Group32Var4
    | Group32Var5 | Group32Var6 | Group32Var7 | Group32Var8 | Group40Var0 | Group40Var1 | Group40Var2
    | Group40Var3 | Group40Var4 | Group41Var0 | Group41Var1 | Group41Var2 | Group41Var3 | Group41Var4
    | Group42Var0 | Group42Var1 | Group42Var2 | Group42Var3 | Group42Var4 | Group42Var5 | Group42Var6
    | Group42Var7 | Group42Var8 | Group43Var1 | Group43Var2 | Group43Var3 | Group43Var4 | Group43Var5
    | Group43Var6 | Group43Var7 | Group43Var8 | Group50Var1 | Group50Var3 | Group50Var4 | Group51Var1
    | Group51Var2 | Group52Var1 | Group52Var2 | Group60Var1 | Group60Var2 | Group60Var3 | Group60Var4
    | Group70Var1 | Group70Var2 | Group70Var3 | Group70Var4 | Group70Var5 | Group70Var6 | Group70Var7
    | Group70Var8 | Group80Var1 | Group110Var0 | Group111Var0 | Group112Var0 | Group113Var0 | Group120Var1
    | Group120Var2 | Group120Var3 | Group120Var4 | Group120Var5 | Group120Var6 | Group120Var7 | Group120Var8
    | Group120Var9 | Group120Var10 | Group120Var11 | Group120Var12 | Group120Var13 | Group120Var14
    | Group120Var15 | Group121Var0 | Group121Var1 | Group122Var0 | Group122Var1 | Group122Var2 | UNKNOWN.

Definition ToType (gv : t) : Z :=
  match gv with
  | Group1Var0 => 0x100
  | Group1Var1 => 0x101
  | Group1Var2 => 0x102
  | Group2Var0 => 0x200
  | Group2Var1 => 0x201
  | Group2Var2 => 0x202
  | Group2Var3 => 0x203
  | Group3Var0 => 0x300
  | Group3Var1 => 0x301
  | Group3Var2 => 0x302
  | Group4Var0 => 0x400
  | Group4Var1 => 0x401
  | Group4Var2 => 0x402
  | Group4Var3 => 0x403
  | Group10Var0 => 0xA00
  | Group10Var1 => 0xA01
  | Group10Var2 => 0xA02
  | Group11Var0 => 0xB00
  | Group11Var1 => 0xB01
  | Group11Var2 => 0xB02
  | Group12Var0 => 0xC00
  | Group12Var1 => 0xC01
  | Group13Var1 => 0xD01
  | Group13Var2 => 0xD02
  | Group20Var0 => 0x1400
  | Group20Var1 => 0x1401
  | Group20Var2 => 0x1402
  | Group20Var5 => 0x1405
  | Group20Var6 => 0x1406
  | Group21Var0 => 0x1500
  | Group21Var1 => 0x1501
  | Group21Var2 => 0x1502
  | Group21Var5 => 0x1505
  | Group21Var6 => 0x1506
  | Group21Var9 => 0x1509
  | Group21Var10 => 0x150A
  | Group22Var0 => 0x1600
  | Group22Var1 => 0x1601
  | Group22Var2 => 0x1602
  | Group22Var5 => 0x1605
  | Group22Var6 => 0x1606
  | Group23Var0 => 0x1700
  | Group23Var1 => 0x1701
  | Group23Var2 => 0x1702
  | Group23Var5 => 0x1705
  | Group23Var6 => 0x1706
  | Group30Var0 => 0x1E00
  | Group30Var1 => 0x1E01
  | Group30Var2 => 0x1E02
  | Group30Var3 => 0x1E03
  | Group30Var4 => 0x1E04
  | Group30Var5 => 0x1E05
  | Group30Var6 => 0x1E06
  | Group32Var0 => 0x2000
  | Group32Var1 => 0x2001
  | Group32Var2 => 0x2002
  | Group32Var3 => 0x2003
  | Group32Var4 => 0x2004
  | Group32Var5 => 0x2005
  | Group32Var6 => 0x2006
  | Group32Var7 => 0x2007
  | Group32Var8 => 0x2008
  | Group40Var0 => 0x2800
  | Group40Var1 => 0x2801
  | Group40Var2 => 0x2802
  | Group40Var3 => 0x2803
  | Group40Var4 => 0x2804
  | Group41Var0 => 0x2900
  | Group41Var1 => 0x2901
  | Group41Var2 => 0x2902
  | Group41Var3 => 0x2903
  | Group41Var4 => 0x2904
  | Group42Var0 => 0x2A00
  | Group42Var1 => 0x2A01
  | Group42Var2 => 0x2A02
  | Group42Var3 => 0x2A03
  | Group42Var4 => 0x2A04
  | Group42Var5 => 0x2A05
  | Group42Var6 => 0x2A06
  | Group42Var7 => 0x2A07
  | Group42Var8 => 0x2A08
  | Group43Var1 => 0x2B01
  | Group43Var2 => 0x2B02
  | Group43Var3 => 0x2B03
  | Group43Var4 => 0x2B04
  | Group43Var5 => 0x2B05
  | Group43Var6 => 0x2B06
  | Group43Var7 => 0x2B07
  | Group43Var8 => 0x2B08
  | Group50Var1 => 0x3201
  | Group50Var3 => 0x3203
  | Group50Var4 => 0x3204
  | Group51Var1 => 0x3301
  | Group51Var2 => 0x3302
  | Group52Var1 => 0x3401
  | Group52Var2 => 0x3402
  | Group60Var1 => 0x3C01
  | Group60Var2 => 0x3C02
  | Group60Var3 => 0x3C03
  | Group60Var4 => 0x3C04
  | Group70Var1 => 0x4601
  | Group70Var2 => 0x4602
  | Group70Var3 => 0x4603
  | Group70Var4 => 0x4604
  | Group70Var5 => 0x4605
  | Group70Var6 => 0x4606
  | Group70Var7 => 0x4607
  | Group70Var8 => 0x4608
  | Group80Var1 => 0x5001
  | Group110Var0 => 0x6E00
  | Group111Var0 => 0x6F00
  | Group112Var0 => 0x7000
  | Group113Var0 => 0x7100
  | Group120Var1 => 0x7801
  | Group120Var2 => 0x7802
  | Group120Var3 => 0x7803
  | Group120Var4 => 0x7804
  | Group120Var5 => 0x7805
  | Group120Var6 => 0x7806
  | Group120Var7 => 0x7807
  | Group120Var8 => 0x7808
  | Group120Var9 => 0x7809
  | Group120Var10 => 0x780A
  | Group120Var11 => 0x780B
  | Group120Var12 => 0x780C
  | Group120Var13 => 0x780D
  | Group120Var14 => 0x780E
  | Group120Var15 => 0x780F
  | Group121Var0 => 0x7900
  | Group121Var1 => 0x7901
  | Group122Var0 => 0x7A00
  | Group122Var1 => 0x7A01
  | Group122Var2 => 0x7A02
  | UNKNOWN => 0xFFFF
  end.

Definition FromType (arg : Z) : t :=
  match arg with
  | 0x100 => Group1Var0
  | 0x101 => Group1Var1
  | 0x102 => Group1Var2
  | 0x200 => Group2Var0
  | 0x201 => Group2Var1
  | 0x202 => Group2Var2
  | 0x203 => Group2Var3
  | 0x300 => Group3Var0
  | 0x301 => Group3Var1
  | 0x302 => Group3Var2
  | 0x400 => Group4Var0
  | 0x401 => Group4Var1
  | 0x402 => Group4Var2
  | 0x403 => Group4Var3
  | 0xA00 => Group10Var0
  | 0xA01 => Group10Var1
  | 0xA02 => Group10Var2
  | 0xB00 => Group11Var0
  | 0xB01 => Group11Var1
  | 0xB02 => Group11Var2
  | 0xC00 => Group12Var0
  | 0xC01 => Group12Var1
  | 0xD01 => Group13Var1
  | 0xD02 => Group13Var2
  | 0x1400 => Group20Var0
  | 0x1401 => Group20Var1
  | 0x1402 => Group20Var2
  | 0x1405 => Group20Var5
  | 0x1406 => Group20Var6
  | 0x1500 => Group21Var0
  | 0x1501 => Group21Var1
  | 0x1502 => Group21Var2
  | 0x1505 => Group21Var5
  | 0x1506 => Group21Var6
  | 0x1509 => Group21Var9
  | 0x150A => Group21Var10
  | 0x1600 => Group22Var0
  | 0x1601 => Group22Var1
  | 0x1602 => Group22Var2
  | 0x1605 => Group22Var5
  | 0x1606 => Group22Var6
  | 0x1700 => Group23Var0
  | 0x1701 => Group23Var1
  | 0x1702 => Group23Var2
  | 0x1705 => Group23Var5
  | 0x1706 => Group23Var6
  | 0x1E00 => Group30Var0
  | 0x1E01 => Group30Var1
  | 0x1E02 => Group30Var2
  | 0x1E03 => Group30Var3
  | 0x1E04 => Group30Var4
  | 0x1E05 => Group30Var5
  | 0x1E06 => Group30Var6
  | 0x2000 => Group32Var0
  | 0x2001 => Group32Var1
  | 0x2002 => Group32Var2
  | 0x2003 => Group32Var3
  | 0x2004 => Group32Var4
  | 0x2005 => Group32Var5
  | 0x2006 => Group32Var6
  | 0x2007 => Group32Var7
  | 0x2008 => Group32Var8
  | 0x2800 => Group40Var0
  | 0x2801 => Group40Var1
  | 0x2802 => Group40Var2
  | 0x2803 => Group40Var3
  | 0x2804 => Group40Var4
  | 0x2900 => Group41Var0
  | 0x2901 => Group41Var1
  | 0x2902 => Group41Var2
  | 0x2903 => Group41Var3
  | 0x2904 => Group41Var4
  | 0x2A00 => Group42Var0
  | 0x2A01 => Group42Var1
  | 0x2A02 => Group42Var2
  | 0x2A03 => Group42Var3
  | 0x2A04 => Group42Var4
  | 0x2A05 => Group42Var5
  | 0x2A06 => Group42Var6
  | 0x2A07 => Group42Var7
  | 0x2A08 => Group42Var8
  | 0x2B01 => Group43Var1
  | 0x2B02 => Group43Var2
  | 0x2B03 => Group43Var3
  | 0x2B04 => Group43Var4
  | 0x2B05 => Group43Var5
  | 0x2B06 => Group43Var6
  | 0x2B07 => Group43Var7
  | 0x2B08 => Group43Var8
  | 0x3201 => Group50Var1
  | 0x3203 => Group50Var3
  | 0x3204 => Group50Var4
  | 0x3301 => Group51Var1
  | 0x3302 => Group51Var2
  | 0x3401 => Group52Var1
  | 0x3402 => Group52Var2
  | 0x3C01 => Group60Var1
  | 0x3C02 => Group60Var2
  | 0x3C03 => Group60Var3
  | 0x3C04 => Group60Var4
  | 0x4601 => Group70Var1
  | 0x4602 => Group70Var2
  | 0x4603 => Group70Var3
  | 0x4604 => Group70Var4
  | 0x4605 => Group70Var5
  | 0x4606 => Group70Var6
  | 0x4607 => Group70Var7
  | 0x4608 => Group70Var8
  | 0x5001 => Group80Var1
  | 0x6E00 => Group110Var0
  | 0x6F00 => Group111Var0
  | 0x7000 => Group112Var0
  | 0x7100 => Group113Var0
  | 0x7801 => Group120Var1
  | 0x7802 => Group120Var2
  | 0x7803 => Group120Var3
  | 0x7804 => Group120Var4
  | 0x7805 => Group120Var5
  | 0x7806 => Group120Var6
  | 0x7807 => Group120Var7
  | 0x7808 => Group120Var8
  | 0x7809 => Group120Var9
  | 0x780A => Group120Var10
  | 0x780B => Group120Var11
  | 0x780C => Group120Var12
  | 0x780D => Group120Var13
  | 0x780E => Group120Var14
  | 0x780F => Group120Var15
  | 0x7900 => Group121Var0
  | 0x7901 => Group121Var1
  | 0x7A00 => Group122Var0
  | 0x7A01 => Group122Var1
  | 0x7A02 => Group122Var2
  | _ => UNKNOWN
  end.

End GroupVariation.

Inductive QualifierCode :=
  | UINT8_START_STOP
  | UINT16_START_STOP
  | ALL_OBJECTS
  | UINT8_CNT
  | UINT16_CNT
  | UINT8_CNT_UINT8_INDEX
  | UINT16_CNT_UINT16_INDEX
  | UINT16_FREE_FORMAT
  | UNDEFINED.

Definition QualifierCodeToType (arg : QualifierCode) : Z :=
  match arg with
  | UINT8_START_STOP => 0x0
  | UINT16_START_STOP => 0x1
  | ALL_OBJECTS => 0x6
  | UINT8_CNT => 0x7
  | UINT16_CNT => 0x8
  | UINT8_CNT_UINT8_INDEX => 0x17
  | UINT16_CNT_UINT16_INDEX => 0x28
  | UINT16_FREE_FORMAT => 0x5B
  | UNDEFINED => 0xFF
  end.

Definition QualifierCodeFromType (arg : Z) : QualifierCode :=
  match arg with
  | 0x0 => UINT8_START_STOP
  | 0x1 => UINT16_START_STOP
  | 0x6 => ALL_OBJECTS
  | 0x7 => UINT8_CNT
  | 0x8 => UINT16_CNT
  | 0x17 => UINT8_CNT_UINT8_INDEX
  | 0x28 => UINT16_CNT_UINT16_INDEX
  | 0x5B => UINT16_FREE_FORMAT
  | _ => UNDEFINED
  end.

Lemma GroupVariation_roundtrip gv : GroupVariation.FromType (GroupVariation.ToType gv) = gv.
Proof. by destruct gv. Qed.

#[export] Instance GroupVariation_eq_dec : EqDecision GroupVariation.t.
Proof.
  intros a b. destruct (Z.eq_dec (GroupVariation.ToType a) (GroupVariation.ToType b)) as [H|H].
  - left. by rewrite <- (GroupVariation_roundtrip a), H, GroupVariation_roundtrip.
  - right. by intros ->.
Defined.

#[export] Instance QualifierCode_eq_dec : EqDecision QualifierCode.
Proof. solve_decision. Defined.

Lemma QualifierCode_roundtrip qc : QualifierCodeFromType (QualifierCodeToType qc) = qc.
Proof. by destruct qc. Qed.

(** ** GroupVariationRecord *)

Inductive GroupVariationType := STATIC | EVENT | OTHER.

#[export] Instance GroupVariationType_eq_dec : EqDecision GroupVariationType.
Proof. solve_decision. Defined.

Record GroupVariationRecord := mkGroupVariationRecord {
  enumeration : GroupVariation.t;
  gvtype : GroupVariationType;
  group : Z;
  variation : Z
}.

Definition GetGroupVar (group variation : Z) : Z := u16 (Z.lor (Z.shiftl group 8) variation).

Definition GetType (group variation : Z) : GroupVariationType :=
  match group with
  | 1 => STATIC
  | 2 => EVENT
  | 3 => STATIC
  | 4 => EVENT
  | 10 => STATIC
  | 11 => EVENT
  | 13 => EVENT
  | 20 => STATIC
  | 21 => STATIC
  | 22 => EVENT
  | 23 => EVENT
  | 30 => STATIC
  | 32 => EVENT
  | 40 => STATIC
  | 41 => EVENT
  | 42 => EVENT
  | 43 => EVENT
  | 50 => match variation with 4 => STATIC | _ => OTHER end
  | 60 => match variation with 1 => STATIC | _ => EVENT end
  | 110 => STATIC
  | 111 => EVENT
  | 121 => STATIC
  | 122 => EVENT
  | _ => OTHER
  end.

Definition GetEnum (group variation : Z) : GroupVariation.t :=
  let e := GroupVariation.FromType (GetGroupVar group variation) in
  if decide (e = GroupVariation.UNKNOWN) then
    match group with
    | 110 => GroupVariation.Group110Var0
    | 111 => GroupVariation.Group111Var0
    | 112 => GroupVariation.Group112Var0
    | 113 => GroupVariation.Group113Var0
    | _ => e
    end
  else e.

Definition GetRecord (group variation : Z) : GroupVariationRecord :=
  mkGroupVariationRecord (GetEnum group variation) (GetType group variation) group variation.

(** ** Floating point fields

    The value of such a field is its IEEE bit pattern; the serializers move its
    bytes to and from the wire, least significant first. *)

Definition SingleFloat : Serializer := mkSerializer 4 0 4294967295 decode32 encode32.

Definition decode64 (data : bytes) : Z := Z.lor (decode32 (take 4 data)) (Z.shiftl (decode32 (drop 4 data)) 32).

Definition encode64 (v : Z) : bytes := encode32 v ++ encode32 (Z.shiftr v 32).

Definition DoubleFloat : Serializer := mkSerializer 8 0 18446744073709551615 decode64 encode64.

(** ** Fixed-size objects *)

(** An object class: the constant [Size()], and the serializers of its fields in
    the order of [Read] and [Write]. *)
Record Layout := mkLayout { l_size : nat; l_fields : list Serializer }.

Definition Group1 (gv : GroupVariation.t) : option Layout :=
  match gv with
  | GroupVariation.Group1Var2 => Some (mkLayout 1 [UInt8])
  | _ => None
  end.

Definition Group2 (gv : GroupVariation.t) : option Layout :=
  match gv with
  | GroupVariation.Group2Var1 => Some (mkLayout 1 [UInt8])
  | GroupVariation.Group2Var2 => Some (mkLayout 7 [UInt8; UInt48])
  | GroupVariation.Group2Var3 => Some (mkLayout 3 [UInt8; UInt16])
  | _ => None
  end.

Definition Group3 (gv : GroupVariation.t) : option Layout :=
  match gv with
  | GroupVariation.Group3Var2 => Some (mkLayout 1 [UInt8])
  | _ => None
  end.

Definition Group4 (gv : GroupVariation.t) : option Layout :=
  match gv with
  | GroupVariation.Group4Var1 => Some (mkLayout 1 [UInt8])
  | GroupVariation.Group4Var2 => Some (mkLayout 7 [UInt8; UInt48])
  | GroupVariation.Group4Var3 => Some (mkLayout 3 [UInt8; UInt16])
  | _ => None
  end.

Definition Group10 (gv : GroupVariation.t) : option Layout :=
  match gv with
  | GroupVariation.Group10Var2 => Some (mkLayout 1 [UInt8])
  | _ => None
  end.

Definition Group11 (gv : GroupVariation.t) : option Layout :=
  match gv with
  | GroupVariation.Group11Var1 => Some (mkLayout 1 [UInt8])
  | GroupVariation.Group11Var2 => Some (mkLayout 7 [UInt8; UInt48])
  | _ => None
  end.

Definition Group12 (gv : GroupVariation.t) : option Layout :=
  match gv with
  | GroupVariation.Group12Var1 => Some (mkLayout 11 [UInt8; UInt8; UInt32; UInt32; UInt8])
  | _ => None
  end.

Definition Group13 (gv : GroupVariation.t) : option Layout :=
  match gv with
  | GroupVariation.Group13Var1 => Some (mkLayout 1 [UInt8])
  | GroupVariation.Group13Var2 => Some (mkLayout 7 [UInt8; UInt48])
  | _ => None
  end.

Definition Group20 (gv : GroupVariation.t) : option Layout :=
  match gv with
  | GroupVariation.Group20Var1 => Some (mkLayout 5 [UInt8; UInt32])
  | GroupVariation.Group20Var2 => Some (mkLayout 3 [UInt8; UInt16])
  | GroupVariation.Group20Var5 => Some (mkLayout 4 [UInt32])
  | GroupVariation.Group20Var6 => Some (mkLayout 2 [UInt16])
  | _ => None
  end.

Definition Group21 (gv : GroupVariation.t) : option Layout :=
  match gv with
  | GroupVariation.Group21Var1 => Some (mkLayout 5 [UInt8; UInt32])
  | GroupVariation.Group21Var2 => Some (mkLayout 3 [UInt8; UInt16])
  | GroupVariation.Group21Var5 => Some (mkLayout 11 [UInt8; UInt32; UInt48])
  | GroupVariation.Group21Var6 => Some (mkLayout 9 [UInt8; UInt16; UInt48])
  | GroupVariation.Group21Var9 => Some (mkLayout 4 [UInt32])
  | GroupVariation.Group21Var10 => Some (mkLayout 2 [UInt16])
  | _ => None
  end.

Definition Group22 (gv : GroupVariation.t) : option Layout :=
  match gv with
  | GroupVariation.Group22Var1 => Some (mkLayout 5 [UInt8; UInt32])
  | GroupVariation.Group22Var2 => Some (mkLayout 3 [UInt8; UInt16])
  | GroupVariation.Group22Var5 => Some (mkLayout 11 [UInt8; UInt32; UInt48])
  | GroupVariation.Group22Var6 => Some (mkLayout 9 [UInt8; UInt16; UInt48])
  | _ => None
  end.

Definition Group23 (gv : GroupVariation.t) : option Layout :=
  match gv with
  | GroupVariation.Group23Var1 => Some (mkLayout 5 [UInt8; UInt32])
  | GroupVariation.Group23Var2 => Some (mkLayout 3 [UInt8; UInt16])
  | GroupVariation.Group23Var5 => Some (mkLayout 11 [UInt8; UInt32; UInt48])
  | GroupVariation.Group23Var6 => Some (mkLayout 9 [UInt8; UInt16; UInt48])
  | _ => None
  end.

Definition Group30 (gv : GroupVariation.t) : option Layout :=
  match gv with
  | GroupVariation.Group30Var1 => Some (mkLayout 5 [UInt8; Int32])
  | GroupVariation.Group30Var2 => Some (mkLayout 3 [UInt8; Int16])
  | GroupVariation.Group30Var3 => Some (mkLayout 4 [Int32])
  | GroupVariation.Group30Var4 => Some (mkLayout 2 [Int16])
  | GroupVariation.Group30Var5 => Some (mkLayout 5 [UInt8; SingleFloat])
  | GroupVariation.Group30Var6 => Some (mkLayout 9 [UInt8; DoubleFloat])
  | _ => None
  end.

Definition Group32 (gv : GroupVariation.t) : option Layout :=
  match gv with
  | GroupVariation.Group32Var1 => Some (mkLayout 5 [UInt8; Int32])
  | GroupVariation.Group32Var2 => Some (mkLayout 3 [UInt8; Int16])
  | GroupVariation.Group32Var3 => Some (mkLayout 11 [UInt8; Int32; UInt48])
  | GroupVariation.Group32Var4 => Some (mkLayout 9 [UInt8; Int16; UInt48])
  | GroupVariation.Group32Var5 => Some (mkLayout 5 [UInt8; SingleFloat])
  | GroupVariation.Group32Var6 => Some (mkLayout 9 [UInt8; DoubleFloat])
  | GroupVariation.Group32Var7 => Some (mkLayout 11 [UInt8; SingleFloat; UInt48])
  | GroupVariation.Group32Var8 => Some (mkLayout 15 [UInt8; DoubleFloat; UInt48])
  | _ => None
  end.

Definition Group40 (gv : GroupVariation.t) : option Layout :=
  match gv with
  | GroupVariation.Group40Var1 => Some (mkLayout 5 [UInt8; Int32])
  | GroupVariation.Group40Var2 => Some (mkLayout 3 [UInt8; Int16])
  | GroupVariation.Group40Var3 => Some (mkLayout 5 [UInt8; SingleFloat])
  | GroupVariation.Group40Var4 => Some (mkLayout 9 [UInt8; DoubleFloat])
  | _ => None
  end.

Definition Group41 (gv : GroupVariation.t) : option Layout :=
  match gv with
  | GroupVariation.Group41Var1 => Some (mkLayout 5 [Int32; UInt8])
  | GroupVariation.Group41Var2 => Some (mkLayout 3 [Int16; UInt8])
  | GroupVariation.Group41Var3 => Some (mkLayout 5 [SingleFloat; UInt8])
  | GroupVariation.Group41Var4 => Some (mkLayout 9 [DoubleFloat; UInt8])
  | _ => None
  end.

Definition Group42 (gv : GroupVariation.t) : option Layout :=
  match gv with
  | GroupVariation.Group42Var1 => Some (mkLayout 5 [UInt8; Int32])
  | GroupVariation.Group42Var2 => Some (mkLayout 3 [UInt8; Int16])
  | GroupVariation.Group42Var3 => Some (mkLayout 11 [UInt8; Int32; UInt48])
  | GroupVariation.Group42Var4 => Some (mkLayout 9 [UInt8; Int16; UInt48])
  | GroupVariation.Group42Var5 => Some (mkLayout 5 [UInt8; SingleFloat])
  | GroupVariation.Group42Var6 => Some (mkLayout 9 [UInt8; DoubleFloat])
  | GroupVariation.Group42Var7 => Some (mkLayout 11 [UInt8; SingleFloat; UInt48])
  | GroupVariation.Group42Var8 => Some (mkLayout 15 [UInt8; DoubleFloat; UInt48])
  | _ => None
  end.

Definition Group43 (gv : GroupVariation.t) : option Layout :=
  match gv with
  | GroupVariation.Group43Var1 => Some (mkLayout 5 [UInt8; Int32])
  | GroupVariation.Group43Var2 => Some (mkLayout 3 [UInt8; Int16])
  | GroupVariation.Group43Var3 => Some (mkLayout 11 [UInt8; Int32; UInt48])
  | GroupVariation.Group43Var4 => Some (mkLayout 9 [UInt8; Int16; UInt48])
  | GroupVariation.Group43Var5 => Some (mkLayout 5 [UInt8; SingleFloat])
  | GroupVariation.Group43Var6 => Some (mkLayout 9 [UInt8; DoubleFloat])
  | GroupVariation.Group43Var7 => Some (mkLayout 11 [UInt8; SingleFloat; UInt48])
  | GroupVariation.Group43Var8 => Some (mkLayout 15 [UInt8; DoubleFloat; UInt48])
  | _ => None
  end.

Definition Group50 (gv : GroupVariation.t) : option Layout :=
  match gv with
  | GroupVariation.Group50Var1 => Some (mkLayout 6 [UInt48])
  | GroupVariation.Group50Var3 => Some (mkLayout 6 [UInt48])
  | GroupVariation.Group50Var4 => Some (mkLayout 11 [UInt48; UInt32; UInt8])
  | _ => None
  end.

Definition Group51 (gv : GroupVariation.t) : option Layout :=
  match gv with
  | GroupVariation.Group51Var1 => Some (mkLayout 6 [UInt48])
  | GroupVariation.Group51Var2 => Some (mkLayout 6 [UInt48])
  | _ => None
  end.

Definition Group52 (gv : GroupVariation.t) : option Layout :=
  match gv with
  | GroupVariation.Group52Var1 => Some (mkLayout 2 [UInt16])
  | GroupVariation.Group52Var2 => Some (mkLayout 2 [UInt16])
  | _ => None
  end.

Definition Group120 (gv : GroupVariation.t) : option Layout :=
  match gv with
  | GroupVariation.Group120Var3 => Some (mkLayout 6 [UInt32; UInt16])
  | GroupVariation.Group120Var4 => Some (mkLayout 2 [UInt16])
  | _ => None
  end.

Definition Group121 (gv : GroupVariation.t) : option Layout :=
  match gv with
  | GroupVariation.Group121Var1 => Some (mkLayout 7 [UInt8; UInt16; UInt32])
  | _ => None
  end.

Definition Group122 (gv : GroupVariation.t) : option Layout :=
  match gv with
  | GroupVariation.Group122Var1 => Some (mkLayout 7 [UInt8; UInt16; UInt32])
  | GroupVariation.Group122Var2 => Some (mkLayout 13 [UInt8; UInt16; UInt32; UInt48])
  | _ => None
  end.

Definition classes : list (GroupVariation.t -> option Layout) :=
  [Group1; Group2; Group3; Group4; Group10; Group11; Group12; Group13; Group20; Group21; Group22; Group23
   ; Group30; Group32; Group40; Group41; Group42; Group43; Group50; Group51; Group52; Group120; Group121
   ; Group122].

(** The class of a variation. *)
Definition layout (gv : GroupVariation.t) : option Layout :=
  foldr (fun c r => match c gv with Some l => Some l | None => r end) None classes.

Definition Size (gv : GroupVariation.t) : nat := match layout gv with Some l => l_size l | None => 0 end.

Definition fields (gv : GroupVariation.t) : list Serializer := match layout gv with Some l => l_fields l | None => [] end.

(** ** Free-format objects *)

Record FreeLayout := mkFreeLayout {
  MIN_SIZE : nat;
  fixed_fields : list Serializer;
  prefixed_fields : nat;
  has_remainder : bool
}.

Definition free_layout (gv : GroupVariation.t) : option FreeLayout :=
  match gv with
  | GroupVariation.Group120Var1 => Some (mkFreeLayout 8 [UInt32; UInt16; UInt8; UInt8] 0 true)
  | GroupVariation.Group120Var2 => Some (mkFreeLayout 6 [UInt32; UInt16] 0 true)
  | GroupVariation.Group120Var5 => Some (mkFreeLayout 11 [UInt32; UInt16; UInt8; UInt8; UInt8] 1 true)
  | GroupVariation.Group120Var6 => Some (mkFreeLayout 6 [UInt32; UInt16] 0 true)
  | GroupVariation.Group120Var7 => Some (mkFreeLayout 15 [UInt32; UInt16; UInt16; UInt8; UInt48] 0 true)
  | GroupVariation.Group120Var8 => Some (mkFreeLayout 2 [UInt8; UInt8] 0 true)
  | GroupVariation.Group120Var9 => Some (mkFreeLayout 0 [] 0 true)
  | GroupVariation.Group120Var10 => Some (mkFreeLayout 16 [UInt8; UInt8; UInt32; UInt16; UInt16] 3 false)
  | GroupVariation.Group120Var11 => Some (mkFreeLayout 5 [UInt8] 2 false)
  | GroupVariation.Group120Var12 => Some (mkFreeLayout 8 [UInt32; UInt16] 1 false)
  | GroupVariation.Group120Var13 => Some (mkFreeLayout 8 [UInt32; UInt16] 1 false)
  | GroupVariation.Group120Var14 => Some (mkFreeLayout 0 [] 0 true)
  | GroupVariation.Group120Var15 => Some (mkFreeLayout 0 [] 0 true)
  | _ => None
  end.

(** [Serializer::ReadBuffer]: reads without looking at the size of the slice. *)
Definition ReadBuffer (s : Serializer) (input : RSlice) : option (Z * RSlice) :=
  v ← Read s input 0; Some (v, RSlice.Advance input (SIZE s)).

Fixpoint ReadBuffers (ss : list Serializer) (input : RSlice) : option (list Z * RSlice) :=
  match ss with
  | [] => Some ([], input)
  | s :: ss =>
      '(v, input) ← ReadBuffer s input;
      '(vs, input) ← ReadBuffers ss input;
      Some (v :: vs, input)
  end.

Module PrefixFields.

Fixpoint ReadFields (lengths : list Z) (input : RSlice) : list RSlice * RSlice :=
  match lengths with
  | [] => ([], input)
  | n :: lengths =>
      let output := RSlice.Take input (Z.to_nat n) in
      let '(outputs, input) := ReadFields lengths (RSlice.Advance input (Z.to_nat n)) in
      (output :: outputs, input)
  end.

(** [Read(input, fields...)] for [num] fields; [Some None] is the result false. *)
Definition Read (num : nat) (input : RSlice) : option (option (list RSlice * RSlice)) :=
  if (RSlice.Size input <? num * SIZE UInt16)%nat then Some None
  else
    '(lengths, input) ← ReadBuffers (replicate num UInt16) input;
    let sum := foldl (fun sum n => u32 (sum + n)) 0 lengths in
    if Z.of_nat (RSlice.Size input) <? sum then Some None
    else Some (Some (ReadFields lengths input)).

End PrefixFields.

(** A free-format value: its fixed fields, its prefixed fields and its remainder. *)
Record FreeValue := mkFreeValue { fv_fixed : list Z; fv_prefixed : list RSlice; fv_rest : RSlice }.

(** [Read(const RSlice&)] of the group 120 classes. *)
Definition ReadFree (l : FreeLayout) (buffer : RSlice) : option (option FreeValue) :=
  if (RSlice.Size buffer <? MIN_SIZE l)%nat then Some None
  else
    '(vs, copy) ← ReadBuffers (fixed_fields l) buffer;
    r ← (if (prefixed_fields l =? 0)%nat then Some (Some ([], copy)) else PrefixFields.Read (prefixed_fields l) copy);
    match r with
    | None => Some None
    | Some (ps, copy) =>
        if has_remainder l then Some (Some (mkFreeValue vs ps copy))
        else if RSlice.IsNotEmpty copy then Some None
        else Some (Some (mkFreeValue vs ps RSlice.Empty))
    end.

(** ** Lemmas *)

#[export] Instance SingleFloat_ok : SerializerOk SingleFloat.
Proof. apply UInt32_ok. Qed.

Lemma le_digits_app n m v : le_digits (n + m) v = le_digits n v ++ le_digits m (v / 256 ^ Z.of_nat n).
Proof.
  revert v. induction n as [|n IH]; intros v; [cbn; by rewrite Z.div_1_r|].
  cbn [Nat.add le_digits app]. rewrite IH, Z.div_div by lia. do 3 f_equal.
  rewrite Nat2Z.inj_succ, Z.pow_succ_r by lia. done.
Qed.

Lemma le_value_app a b : le_value (a ++ b) = le_value a + 256 ^ Z.of_nat (length a) * le_value b.
Proof.
  induction a as [|x a IH]; [cbn; lia|]. cbn [app le_value length]. rewrite IH, Nat2Z.inj_succ, Z.pow_succ_r by lia. lia.
Qed.

#[export] Instance DoubleFloat_ok : SerializerOk DoubleFloat.
Proof.
  apply (digits_ok DoubleFloat id id); unfold id; cbn [SIZE decode encode Min Max DoubleFloat];
    change (256 ^ Z.of_nat 8) with 18446744073709551616.
  - intros v. unfold encode64. change 8%nat with (4 + 4)%nat. by rewrite !encode32_digits, (le_digits_app 4 4 v), Z.shiftr_div_pow2 by lia.
  - intros data Hb Hl. unfold decode64.
    rewrite !decode32_value by (apply Forall_take, Hb || apply Forall_drop, Hb || len).
    pose proof (le_value_range (take 4 data) (Forall_take _ _ _ Hb)) as Hr.
    replace (length (take 4 data)) with 4%nat in Hr by len. change (256 ^ Z.of_nat 4) with 4294967296 in Hr.
    rewrite (lor_shiftl_add _ _ 32) by (cbn; lia).
    rewrite <- (take_drop 4 data) at 3. rewrite le_value_app. replace (length (take 4 data)) with 4%nat by len.
    cbn -[Z.mul]. lia.
  - intros. apply Z.mod_small. lia.
  - intros. split; [lia|]. apply Z.mod_small. lia.
Qed.

(** The declared size of an object is the size of its fields. *)
Lemma Size_fields gv : Size gv = total_size (fields gv).
Proof. by destruct gv. Qed.

Lemma fields_ok gv : Forall SerializerOk (fields gv).
Proof. destruct gv; cbn [fields]; repeat (apply Forall_cons_2; [apply _|]); apply Forall_nil_2. Qed.

Lemma GetGroupVar_spec g v : is_u8 g -> is_u8 v -> GetGroupVar g v = 256 * g + v.
Proof.
  unfold is_u8, GetGroupVar. intros Hg Hv. rewrite Z.lor_comm, lor_shiftl_add by (cbn; lia). rewrite u16_small; unfold is_u16; cbn; lia.
Qed.

Lemma total_size_cons s ss : total_size (s :: ss) = (SIZE s + total_size ss)%nat.
Proof. done. Qed.

(** Reading succeeds when there are enough bytes, and consumes exactly those. *)
Lemma ParseMany_total ss input :
  (total_size ss <= length input)%nat ->
  exists vs, ParseMany ss input = Some (vs, drop (total_size ss) input) /\ length vs = length ss.
Proof.
  revert input. induction ss as [|s ss IH]; intros input Hl; [by exists []|]. rewrite total_size_cons in *.
  cbn [ParseMany]. unfold ParseType, RSlice.Size. destruct (Nat.ltb_spec (length input) (SIZE s)); [lia|].
  cbn [mbind option_bind]. rewrite Advance_drop. destruct (IH (drop (SIZE s) input)) as (vs & -> & Hlen); [len|].
  cbn [mbind option_bind]. exists (decode s (take (SIZE s) input) :: vs). rewrite drop_drop. split; [done|]. cbn. by rewrite Hlen.
Qed.

Lemma ReadBuffer_spec s input :
  (SIZE s <= length input)%nat -> ReadBuffer s input = Some (decode s (take (SIZE s) input), drop (SIZE s) input).
Proof.
  intros Hl. unfold ReadBuffer, Read. rewrite mem_read_Some by lia. cbn [mbind option_bind]. by rewrite drop_0, Advance_drop.
Qed.

Lemma ReadBuffers_spec ss input :
  (total_size ss <= length input)%nat -> ReadBuffers ss input = ParseMany ss input.
Proof.
  revert input. induction ss as [|s ss IH]; intros input Hl; [done|]. rewrite total_size_cons in Hl.
  cbn [ReadBuffers ParseMany]. rewrite ReadBuffer_spec by lia. unfold ParseType, RSlice.Size.
  destruct (Nat.ltb_spec (length input) (SIZE s)); [lia|]. cbn [mbind option_bind]. rewrite Advance_drop.
  by rewrite IH by len.
Qed.

Lemma total_size_replicate n s : total_size (replicate n s) = (n * SIZE s)%nat.
Proof. induction n as [|n IH]; [done|]. cbn [replicate]. rewrite total_size_cons, IH. lia. Qed.

Lemma ReadBuffers_total ss input :
  (total_size ss <= length input)%nat ->
  exists vs, ReadBuffers ss input = Some (vs, drop (total_size ss) input).
Proof.
  intros Hl. rewrite ReadBuffers_spec by done. destruct (ParseMany_total ss input Hl) as (vs & H & _). by exists vs.
Qed.

Lemma PrefixFields_total num input : exists r, PrefixFields.Read num input = Some r.
Proof.
  unfold PrefixFields.Read, RSlice.Size. destruct (Nat.ltb_spec (length input) (num * SIZE UInt16)); [by exists None|].
  destruct (ReadBuffers_total (replicate num UInt16) input) as (vs & ->); [by rewrite total_size_replicate|].
  cbn [mbind option_bind]. destruct (_ <? _); eauto.
Qed.

(** The fields of a free-format object are never read outside of it. *)
Lemma ReadFree_total gv l buffer : free_layout gv = Some l -> exists r, ReadFree l buffer = Some r.
Proof.
  intros Hl. unfold ReadFree, RSlice.Size. destruct (Nat.ltb_spec (length buffer) (MIN_SIZE l)) as [|Hb]; [by exists None|].
  assert (Hm : (total_size (fixed_fields l) <= MIN_SIZE l)%nat).
  { destruct gv; try discriminate Hl; injection Hl as <-; cbn; lia. }
  destruct (ReadBuffers_total (fixed_fields l) buffer) as (vs & ->); [lia|]. cbn [mbind option_bind].
  assert (Hp : exists r, (if (prefixed_fields l =? 0)%nat then Some (Some ([], drop (total_size (fixed_fields l)) buffer))
      else PrefixFields.Read (prefixed_fields l) (drop (total_size (fixed_fields l)) buffer)) = Some r).
  { destruct (_ =? _)%nat; [eauto|apply PrefixFields_total]. }
  destruct Hp as ([[ps copy]|] & ->); cbn [mbind option_bind]; [|eauto].
  destruct (has_remainder l); [eauto|]. destruct (RSlice.IsNotEmpty copy); eauto.
Qed.
