(* ===== verification/ObjectParser.v ===== *)
(** * ObjectParser: the object headers of a fragment (opendnp3/app/parsing)

    [NumParser], [ObjectHeaderParser], [CountParser], [RangeParser],
    [CountIndexParser], [FreeFormatParser] and [APDUParser].  The parser reports
    every header with its objects to a handler; an object is the list of the
    values of its fields.  The collection of a header is read when the handler is
    given it, while the code reads it when the handler iterates over it.  [None] is a
    read outside the fragment or an object that cannot be read from a collection. *)

From S2P Require Import Prelude Slices Serialization Objects.

Open Scope Z_scope.

(** ** Results and settings *)

Inductive ParseResult :=
  | OK
  | NOT_ON_WHITELIST
  | NOT_ENOUGH_DATA_FOR_HEADER
  | NOT_ENOUGH_DATA_FOR_RANGE
  | NOT_ENOUGH_DATA_FOR_OBJECTS
  | UNREASONABLE_OBJECT_COUNT
  | UNKNOWN_OBJECT
  | UNKNOWN_QUALIFIER
  | INVALID_OBJECT_QUALIFIER
  | INVALID_OBJECT
  | BAD_START_STOP
  | COUNT_OF_ZERO.

#[export] Instance ParseResult_eq_dec : EqDecision ParseResult.
Proof. solve_decision. Defined.

Record ParserSettings := mkParserSettings { expectContents : bool }.

Module ParserSettings.

Definition NoContents : ParserSettings := mkParserSettings false.

Definition Default : ParserSettings := mkParserSettings true.

End ParserSettings.

(** ** Ranges *)

Record Range := mkRange { start : Z; stop : Z }.

#[export] Instance Range_eq_dec : EqDecision Range.
Proof. solve_decision. Defined.

Module Range.

Definition From (start stop : Z) : Range := mkRange start stop.

Definition Invalid : Range := mkRange 1 0.

Definition IsValid (r : Range) : bool := start r <=? stop r.

Definition Count (r : Range) : Z := if IsValid r then u32 (stop r - start r + 1) else 0.

Definition Advance (r : Range) : Range * bool :=
  if IsValid r then
    if start r <? stop r then (mkRange (u16 (start r + 1)) (stop r), true) else (mkRange 1 0, true)
  else (r, false).

Definition Intersection (r other : Range) : Range :=
  mkRange (Z.max (start r) (start other)) (Z.min (stop r) (stop other)).

Definition Union (r other : Range) : Range :=
  mkRange (Z.min (start r) (start other)) (Z.max (stop r) (stop other)).

Definition Equals (r other : Range) : bool := (start other =? start r) && (stop other =? stop r).

Definition IsOneByte (r : Range) : bool := IsValid r && (start r <=? 255) && (stop r <=? 255).

End Range.

(** ** What a handler is given *)

Record HeaderRecord := mkHeaderRecord { gv_record : GroupVariationRecord; qualifier : Z; headerIndex : Z }.

Definition GetQualifierCode (r : HeaderRecord) : QualifierCode := QualifierCodeFromType (qualifier r).

Definition enum_of (r : HeaderRecord) : GroupVariation.t := enumeration (gv_record r).

Inductive DoubleBit := INTERMEDIATE | DETERMINED_OFF | DETERMINED_ON | INDETERMINATE.

Definition DoubleBitFromType (arg : Z) : DoubleBit :=
  match arg with
  | 0x0 => INTERMEDIATE
  | 0x1 => DETERMINED_OFF
  | 0x2 => DETERMINED_ON
  | _ => INDETERMINATE
  end.

(** An object: the values of its fields, one or two bits, or the bytes of an
    octet string. *)
Inductive Value :=
  | Fields (vs : list Z)
  | Bit (b : bool)
  | DBit (d : DoubleBit)
  | Octets (data : bytes).

(** The overloads of [IAPDUHandler::OnHeader]: without objects, and with them. *)
Inductive Header :=
  | AllObjectsHeader (record : HeaderRecord)
  | CountHeader (record : HeaderRecord) (count : Z)
  | RangeHeader (record : HeaderRecord) (range : Range)
  | CountOf (record : HeaderRecord) (count : Z) (values : list Value)
  | RangeOf (record : HeaderRecord) (range : Range) (values : list (Z * Value))
  | PrefixOf (record : HeaderRecord) (count : Z) (values : list (Z * Value))
  | FreeFormatOf (record : HeaderRecord) (count : Z) (value : FreeValue) (object : RSlice).

(** [BufferedCollection::Foreach] *)
Fixpoint Foreach_loop {T} (readFunc : RSlice -> Z -> option (T * RSlice)) (count : nat) (pos : Z) (copy : RSlice)
    : option (list T) :=
  match count with
  | O => Some []
  | S count =>
      '(v, copy) ← readFunc copy pos;
      vs ← Foreach_loop readFunc count (pos + 1) copy;
      Some (v :: vs)
  end.

Definition Foreach {T} (readFunc : RSlice -> Z -> option (T * RSlice)) (count : Z) (buffer : RSlice) : option (list T) :=
  Foreach_loop readFunc (Z.to_nat count) 0 buffer.

(** ** BitReader *)

Definition NumBytesInBits (numBits : Z) : Z :=
  let numBytes := numBits / 8 in if numBits mod 8 =? 0 then numBytes else u32 (numBytes + 1).

Definition GetBit (buffer : RSlice) (position : Z) : option bool :=
  b ← buffer !! Z.to_nat (position / 8);
  Some (negb (Z.land b (Z.shiftl 1 (position mod 8)) =? 0)).

Definition NumBytesInDoubleBits (numBits : Z) : Z :=
  let numBytes := numBits / 4 in if numBits mod 4 =? 0 then numBytes else u32 (numBytes + 1).

Definition GetDoubleBit (buffer : RSlice) (index : Z) : option DoubleBit :=
  b ← buffer !! Z.to_nat (index / 4);
  Some (DoubleBitFromType (Z.land (Z.shiftr b (2 * (index mod 4))) 0x03)).

(** ** NumParser

    The parser of one-byte or two-byte numbers: the serializer it reads with. *)

Module NumParser.

Definition OneByte : Serializer := UInt8.

Definition TwoByte : Serializer := UInt16.

Definition NumBytes (np : Serializer) : Z := Z.of_nat (SIZE np).

Definition ReadNum (np : Serializer) (buffer : RSlice) : option (Z * RSlice) := ReadBuffer np buffer.

(** [Some None] is the result false. *)
Definition Read (np : Serializer) (buffer : RSlice) : option (option (Z * RSlice)) :=
  if (RSlice.Size buffer <? SIZE np)%nat then Some None
  else r ← ReadNum np buffer; Some (Some r).

Definition ParseCount (np : Serializer) (buffer : RSlice) : option (ParseResult + Z * RSlice) :=
  r ← Read np buffer;
  match r with
  | Some (count, buffer) => Some (if count =? 0 then inl COUNT_OF_ZERO else inr (count, buffer))
  | None => Some (inl NOT_ENOUGH_DATA_FOR_RANGE)
  end.

Definition ParseRange (np : Serializer) (buffer : RSlice) : option (ParseResult + Range * RSlice) :=
  if (RSlice.Size buffer <? 2 * SIZE np)%nat then Some (inl NOT_ENOUGH_DATA_FOR_RANGE)
  else
    '(start, buffer) ← ReadNum np buffer;
    '(stop, buffer) ← ReadNum np buffer;
    let range := mkRange start stop in
    Some (if Range.IsValid range then inr (range, buffer) else inl BAD_START_STOP).

End NumParser.

Module ObjectHeaderParser.

Record ObjectHeader := mkObjectHeader { oh_group : Z; oh_variation : Z; oh_qualifier : Z }.

Definition ParseObjectHeader (buffer : RSlice) : option (ParseResult + ObjectHeader * RSlice) :=
  if (RSlice.Size buffer <? 3)%nat then Some (inl NOT_ENOUGH_DATA_FOR_HEADER)
  else
    '(group, buffer) ← ReadBuffer UInt8 buffer;
    '(variation, buffer) ← ReadBuffer UInt8 buffer;
    '(qualifier, buffer) ← ReadBuffer UInt8 buffer;
    Some (inr (mkObjectHeader group variation qualifier, buffer)).

(** [None] is the result false. *)
Definition ReadFirstGroupVariation (objects : RSlice) : option (option GroupVariation.t) :=
  r ← ParseObjectHeader objects;
  match r with
  | inr (h, _) => Some (Some (GetEnum (oh_group h) (oh_variation h)))
  | inl _ => Some None
  end.

End ObjectHeaderParser.

(** ** The state of a parse

    A computation returns the state of the handler with a failure or a value. *)

Definition PM (S A : Type) : Type := S -> option (S * (ParseResult + A)).

#[export] Instance PM_ret {S} : MRet (PM S) := fun A a s => Some (s, inr a).

#[export] Instance PM_bind {S} : MBind (PM S) := fun A B k m s =>
  match m s with
  | Some (s, inr a) => k a s
  | Some (s, inl e) => Some (s, inl e)
  | None => None
  end.

Definition pfail {S A} (r : ParseResult) : PM S A := fun s => Some (s, inl r).

(** A computation that does not touch the handler. *)
Definition plift {S A} (r : option (ParseResult + A)) : PM S A := fun s => r ← r; Some (s, r).

(** A handler with its state, and its white list. *)
Record IAPDUHandler (S : Type) := mkIAPDUHandler {
  OnHeader : Header -> S -> option S;
  IsAllowed : Z -> GroupVariation.t -> QualifierCode -> bool
}.

Arguments mkIAPDUHandler {S}.

Arguments OnHeader {S}.

Arguments IsAllowed {S}.

Section Parsers.
Context {S : Type} (settings : ParserSettings) (pHandler : option (IAPDUHandler S)).

(** [if (pHandler) pHandler->OnHeader(...)]: the header is built only then. *)
Definition notify (header : option Header) : PM S unit := fun s =>
  match pHandler with
  | Some h => header ← header; s ← OnHeader h header s; Some (s, inr tt)
  | None => Some (s, inr tt)
  end.

(** [Process] of the three parsers: the objects of [requiredSize] bytes that
    [make] finds in the buffer. *)
Definition Process (requiredSize : Z) (make : RSlice -> option Header) (buffer : RSlice) : PM S RSlice :=
  if Z.of_nat (RSlice.Size buffer) <? requiredSize then pfail NOT_ENOUGH_DATA_FOR_OBJECTS
  else
    _ ← notify (make buffer);
    mret (RSlice.Advance buffer (Z.to_nat requiredSize)).

(** [Descriptor::Read] *)
Definition ReadObject (gv : GroupVariation.t) (buffer : RSlice) : option (Value * RSlice) :=
  '(vs, buffer) ← ParseMany (fields gv) buffer; Some (Fields vs, buffer).

(** *** Counts of objects *)

Definition InvokeCountOf (record : HeaderRecord) (count : Z) (buffer : RSlice) : option Header :=
  values ← Foreach (fun buffer _ => ReadObject (enum_of record) buffer) count buffer;
  Some (CountOf record count values).

Definition CountParser_ParseCountOfObjects (record : HeaderRecord) (count : Z) (buffer : RSlice) : PM S RSlice :=
  match enum_of record with
      | GroupVariation.Group50Var1 | GroupVariation.Group50Var3 | GroupVariation.Group51Var1
      | GroupVariation.Group51Var2 | GroupVariation.Group52Var1 | GroupVariation.Group52Var2
      | GroupVariation.Group120Var3 | GroupVariation.Group120Var4 =>
      Process (u32 (count * Z.of_nat (Size (enum_of record)))) (InvokeCountOf record count) buffer
  | _ => pfail INVALID_OBJECT_QUALIFIER
  end.

Definition CountParser_ParseHeader (np : Serializer) (record : HeaderRecord) (buffer : RSlice) : PM S RSlice :=
  '(count, buffer) ← plift (NumParser.ParseCount np buffer);
  if expectContents settings then CountParser_ParseCountOfObjects record count buffer
  else _ ← notify (Some (CountHeader record count)); mret buffer.

(** *** Ranges of objects *)

Definition InvokeRangeOf (record : HeaderRecord) (range : Range) (buffer : RSlice) : option Header :=
  values ← Foreach (fun buffer pos =>
      '(v, buffer) ← ReadObject (enum_of record) buffer; Some (u16 (start range + pos), v, buffer))
    (Range.Count range) buffer;
  Some (RangeOf record range values).

Definition InvokeRangeBitfieldType (record : HeaderRecord) (range : Range) (buffer : RSlice) : option Header :=
  values ← Foreach (fun buffer pos => b ← GetBit buffer pos; Some (u16 (start range + pos), Bit b, buffer))
    (Range.Count range) buffer;
  Some (RangeOf record range values).

Definition InvokeRangeDoubleBitfieldType (record : HeaderRecord) (range : Range) (buffer : RSlice) : option Header :=
  values ← Foreach (fun buffer pos => d ← GetDoubleBit buffer pos; Some (u16 (start range + pos), DBit d, buffer))
    (Range.Count range) buffer;
  Some (RangeOf record range values).

(** [OctetString(buffer.Take(n))] followed by [buffer.Advance(n)]; an octet string
    holds at most 255 bytes. *)
Definition ReadOctets (n : Z) (buffer : RSlice) : Value * RSlice :=
  (Octets (take 255 (RSlice.Take buffer (Z.to_nat n))), RSlice.Advance buffer (Z.to_nat n)).

Definition InvokeRangeOfOctetData (record : HeaderRecord) (range : Range) (buffer : RSlice) : option Header :=
  values ← Foreach (fun buffer pos =>
      let '(v, buffer) := ReadOctets (variation (gv_record record)) buffer in Some (u16 (start range + pos), v, buffer))
    (Range.Count range) buffer;
  Some (RangeOf record range values).

Definition ParseRangeOfOctetData (record : HeaderRecord) (range : Range) (buffer : RSlice) : PM S RSlice :=
  if 0 <? variation (gv_record record) then
    Process (u32 (variation (gv_record record) * Range.Count range)) (InvokeRangeOfOctetData record range) buffer
  else pfail INVALID_OBJECT.

Definition ParseRangeOfObjects (record : HeaderRecord) (range : Range) (buffer : RSlice) : PM S RSlice :=
  match enum_of record with
  | GroupVariation.Group1Var1 | GroupVariation.Group10Var1 | GroupVariation.Group80Var1 =>
      Process (NumBytesInBits (Range.Count range)) (InvokeRangeBitfieldType record range) buffer
  | GroupVariation.Group3Var1 =>
      Process (NumBytesInDoubleBits (Range.Count range)) (InvokeRangeDoubleBitfieldType record range) buffer
      | GroupVariation.Group1Var2 | GroupVariation.Group3Var2 | GroupVariation.Group10Var2
      | GroupVariation.Group20Var1 | GroupVariation.Group20Var2 | GroupVariation.Group20Var5
      | GroupVariation.Group20Var6 | GroupVariation.Group21Var1 | GroupVariation.Group21Var2
      | GroupVariation.Group21Var5 | GroupVariation.Group21Var6 | GroupVariation.Group21Var9
      | GroupVariation.Group21Var10 | GroupVariation.Group30Var1 | GroupVariation.Group30Var2
      | GroupVariation.Group30Var3 | GroupVariation.Group30Var4 | GroupVariation.Group30Var5
      | GroupVariation.Group30Var6 | GroupVariation.Group40Var1 | GroupVariation.Group40Var2
      | GroupVariation.Group40Var3 | GroupVariation.Group40Var4 | GroupVariation.Group50Var4
      | GroupVariation.Group121Var1 =>
      Process (u32 (Range.Count range * Z.of_nat (Size (enum_of record)))) (InvokeRangeOf record range) buffer
  | GroupVariation.Group110Var0 => ParseRangeOfOctetData record range buffer
  | _ => pfail INVALID_OBJECT_QUALIFIER
  end.

Definition RangeParser_ParseHeader (np : Serializer) (record : HeaderRecord) (buffer : RSlice) : PM S RSlice :=
  '(range, buffer) ← plift (NumParser.ParseRange np buffer);
  if expectContents settings then ParseRangeOfObjects record range buffer
  else _ ← notify (Some (RangeHeader record range)); mret buffer.

(** *** Objects with an index prefix *)

Definition InvokePrefixOf (np : Serializer) (record : HeaderRecord) (count : Z) (buffer : RSlice) : option Header :=
  values ← Foreach (fun buffer _ =>
      '(index, buffer) ← NumParser.ReadNum np buffer;
      '(v, buffer) ← ReadObject (enum_of record) buffer; Some (index, v, buffer))
    count buffer;
  Some (PrefixOf record count values).

Definition InvokePrefixOfOctetData (np : Serializer) (record : HeaderRecord) (count : Z) (buffer : RSlice) : option Header :=
  values ← Foreach (fun buffer _ =>
      '(index, buffer) ← NumParser.ReadNum np buffer;
      let '(v, buffer) := ReadOctets (variation (gv_record record)) buffer in Some (index, v, buffer))
    count buffer;
  Some (PrefixOf record count values).

Definition ParseIndexPrefixedOctetData (np : Serializer) (record : HeaderRecord) (count : Z) (buffer : RSlice) : PM S RSlice :=
  if variation (gv_record record) =? 0 then pfail INVALID_OBJECT
  else
    Process (u32 (count * (NumParser.NumBytes np + variation (gv_record record)))) (InvokePrefixOfOctetData np record count) buffer.

Definition CountIndexParser_ParseCountOfObjects (np : Serializer) (record : HeaderRecord) (count : Z) (buffer : RSlice)
    : PM S RSlice :=
  match enum_of record with
      | GroupVariation.Group2Var1 | GroupVariation.Group2Var2 | GroupVariation.Group2Var3
      | GroupVariation.Group4Var1 | GroupVariation.Group4Var2 | GroupVariation.Group4Var3
      | GroupVariation.Group11Var1 | GroupVariation.Group11Var2 | GroupVariation.Group12Var1
      | GroupVariation.Group13Var1 | GroupVariation.Group13Var2 | GroupVariation.Group22Var1
      | GroupVariation.Group22Var2 | GroupVariation.Group22Var5 | GroupVariation.Group22Var6
      | GroupVariation.Group23Var1 | GroupVariation.Group23Var2 | GroupVariation.Group23Var5
      | GroupVariation.Group23Var6 | GroupVariation.Group32Var1 | GroupVariation.Group32Var2
      | GroupVariation.Group32Var3 | GroupVariation.Group32Var4 | GroupVariation.Group32Var5
      | GroupVariation.Group32Var6 | GroupVariation.Group32Var7 | GroupVariation.Group32Var8
      | GroupVariation.Group41Var1 | GroupVariation.Group41Var2 | GroupVariation.Group41Var3
      | GroupVariation.Group41Var4 | GroupVariation.Group42Var1 | GroupVariation.Group42Var2
      | GroupVariation.Group42Var3 | GroupVariation.Group42Var4 | GroupVariation.Group42Var5
      | GroupVariation.Group42Var6 | GroupVariation.Group42Var7 | GroupVariation.Group42Var8
      | GroupVariation.Group43Var1 | GroupVariation.Group43Var2 | GroupVariation.Group43Var3
      | GroupVariation.Group43Var4 | GroupVariation.Group43Var5 | GroupVariation.Group43Var6
      | GroupVariation.Group43Var7 | GroupVariation.Group43Var8 | GroupVariation.Group50Var4
      | GroupVariation.Group122Var1 | GroupVariation.Group122Var2 =>
      Process (u32 (count * (Z.of_nat (Size (enum_of record)) + NumParser.NumBytes np))) (InvokePrefixOf np record count) buffer
  | GroupVariation.Group111Var0 => ParseIndexPrefixedOctetData np record count buffer
  | _ => pfail INVALID_OBJECT_QUALIFIER
  end.

Definition CountIndexParser_ParseHeader (np : Serializer) (record : HeaderRecord) (buffer : RSlice) : PM S RSlice :=
  '(count, buffer) ← plift (NumParser.ParseCount np buffer);
  CountIndexParser_ParseCountOfObjects np record count buffer.

(** *** Free format *)

Definition FreeFormatParser_ParseHeader (record : HeaderRecord) (buffer : RSlice) : PM S RSlice :=
  if (RSlice.Size buffer <? 3)%nat then pfail NOT_ENOUGH_DATA_FOR_HEADER
  else
    '(count, buffer) ← plift (option_map inr (ReadBuffer UInt8 buffer));
    '(size, buffer) ← plift (option_map inr (ReadBuffer UInt16 buffer));
    if negb (count =? 1) then pfail UNREASONABLE_OBJECT_COUNT
    else if Z.of_nat (RSlice.Size buffer) <? size then pfail NOT_ENOUGH_DATA_FOR_OBJECTS
    else
      let copy := RSlice.Take buffer (Z.to_nat size) in
      let buffer := RSlice.Advance buffer (Z.to_nat size) in
      match free_layout (enum_of record) with
      | Some l =>
          value ← plift (option_map inr (ReadFree l copy));
          match value with
          | Some value => _ ← notify (Some (FreeFormatOf record count value copy)); mret buffer
          | None => pfail NOT_ENOUGH_DATA_FOR_OBJECTS
          end
      | None => pfail INVALID_OBJECT_QUALIFIER
      end.

(** *** Headers *)

Definition ParseQualifier (record : HeaderRecord) (buffer : RSlice) : PM S RSlice :=
  match GetQualifierCode record with
  | ALL_OBJECTS => _ ← notify (Some (AllObjectsHeader record)); mret buffer
  | UINT8_CNT => CountParser_ParseHeader NumParser.OneByte record buffer
  | UINT16_CNT => CountParser_ParseHeader NumParser.TwoByte record buffer
  | UINT8_START_STOP => RangeParser_ParseHeader NumParser.OneByte record buffer
  | UINT16_START_STOP => RangeParser_ParseHeader NumParser.TwoByte record buffer
  | UINT8_CNT_UINT8_INDEX => CountIndexParser_ParseHeader NumParser.OneByte record buffer
  | UINT16_CNT_UINT16_INDEX => CountIndexParser_ParseHeader NumParser.TwoByte record buffer
  | UINT16_FREE_FORMAT => FreeFormatParser_ParseHeader record buffer
  | UNDEFINED => pfail UNKNOWN_QUALIFIER
  end.

Definition ParseHeader (pWhiteList : option (IAPDUHandler S)) (count : Z) (buffer : RSlice) : PM S RSlice :=
  '(header, buffer) ← plift (ObjectHeaderParser.ParseObjectHeader buffer);
  let GV := GetRecord (ObjectHeaderParser.oh_group header) (ObjectHeaderParser.oh_variation header) in
  if decide (enumeration GV = GroupVariation.UNKNOWN) then pfail UNKNOWN_OBJECT
  else
    let qualifier := ObjectHeaderParser.oh_qualifier header in
    match pWhiteList with
    | Some w =>
        if negb (IsAllowed w count (enumeration GV) (QualifierCodeFromType qualifier)) then pfail NOT_ON_WHITELIST
        else ParseQualifier (mkHeaderRecord GV qualifier count) buffer
    | None => ParseQualifier (mkHeaderRecord GV qualifier count) buffer
    end.

Fixpoint ParseSinglePass_loop (fuel : nat) (pWhiteList : option (IAPDUHandler S)) (count : Z) (copy : RSlice) : PM S unit :=
  if (0 <? RSlice.Size copy)%nat then
    match fuel with
    | O => fun _ => None
    | Datatypes.S fuel =>
        copy ← ParseHeader pWhiteList count copy;
        ParseSinglePass_loop fuel pWhiteList (u32 (count + 1)) copy
    end
  else mret tt.

End Parsers.

Module APDUParser.

(** Every header takes at least three bytes. *)
Definition ParseSinglePass {S} (settings : ParserSettings) (pHandler pWhiteList : option (IAPDUHandler S)) (buffer : RSlice)
    (s : S) : option (S * ParseResult) :=
  '(s, r) ← ParseSinglePass_loop settings pHandler (RSlice.Size buffer) pWhiteList 0 buffer s;
  Some (s, match r with inl e => e | inr _ => OK end).

(** The first pass checks, the second one handles. *)
Definition Parse {S} (settings : ParserSettings) (handler : IAPDUHandler S) (buffer : RSlice) (s : S)
    : option (S * ParseResult) :=
  '(s, result) ← ParseSinglePass settings None (Some handler) buffer s;
  if decide (result = OK) then ParseSinglePass settings (Some handler) None buffer s else Some (s, result).

Definition ParseAndLogAll {S} (settings : ParserSettings) (buffer : RSlice) (s : S) : option (S * ParseResult) :=
  ParseSinglePass settings None None buffer s.

End APDUParser.

(** ** Well-formed headers *)

Definition record_of (h : Header) : HeaderRecord :=
  match h with
  | AllObjectsHeader r | CountHeader r _ | RangeHeader r _ | CountOf r _ _ | RangeOf r _ _ | PrefixOf r _ _
  | FreeFormatOf r _ _ _ => r
  end.

(** What the values of an object class are made of. *)
Inductive Shape := OfFields | OfBit | OfDBit | OfOctets.

Definition shape_of (gv : GroupVariation.t) : Shape :=
  match gv with
  | GroupVariation.Group1Var1 | GroupVariation.Group10Var1 | GroupVariation.Group80Var1 => OfBit
  | GroupVariation.Group3Var1 => OfDBit
  | GroupVariation.Group110Var0 | GroupVariation.Group111Var0 => OfOctets
  | _ => OfFields
  end.

(** The values of an object are in the range of its fields, and an octet string
    has the length that the variation says. *)
Definition value_ok (r : HeaderRecord) (v : Value) : Prop :=
  match shape_of (enum_of r), v with
  | OfFields, Fields vs => Forall2 (fun s v => Min s <= v <= Max s) (fields (enum_of r)) vs
  | OfBit, Bit _ | OfDBit, DBit _ => True
  | OfOctets, Octets data => Z.of_nat (length data) = variation (gv_record r) /\ bytes_ok data
  | _, _ => False
  end.

Definition range_ok (range : Range) : Prop := 0 <= start range <= stop range /\ stop range < 65536.

(** The largest count and index of a header with index prefixes. *)
Definition prefix_max (r : HeaderRecord) : Z :=
  match GetQualifierCode r with UINT8_CNT_UINT8_INDEX => 255 | _ => 65535 end.

(** There are as many objects as the header announces; those of a range have
    consecutive indexes from its start. *)
Definition header_ok (h : Header) : Prop :=
  match h with
  | AllObjectsHeader _ => True
  | CountHeader _ count => 0 < count < 65536
  | RangeHeader _ range => range_ok range
  | CountOf r count vs =>
      0 < count < 65536 /\ Z.of_nat (length vs) = count /\
      forall i v, vs !! i = Some v -> value_ok r v
  | RangeOf r range vs =>
      range_ok range /\ Z.of_nat (length vs) = stop range - start range + 1 /\
      forall i iv, vs !! i = Some iv -> iv.1 = start range + Z.of_nat i /\ value_ok r iv.2
  | PrefixOf r count vs =>
      0 < count <= prefix_max r /\ Z.of_nat (length vs) = count /\
      forall i iv, vs !! i = Some iv -> 0 <= iv.1 <= prefix_max r /\ value_ok r iv.2
  | FreeFormatOf r count _ object => count = 1 /\ bytes_ok object
  end.

(** A handler that is given a list of headers. *)
Fixpoint deliver {S} (h : IAPDUHandler S) (hs : list Header) (s : S) : option S :=
  match hs with
  | [] => Some s
  | hd :: hs => s ← OnHeader h hd s; deliver h hs s
  end.

Lemma deliver_app {S} (h : IAPDUHandler S) hs hs' s :
  deliver h (hs ++ hs') s = s ← deliver h hs s; deliver h hs' s.
Proof.
  revert s. induction hs as [|hd hs IH]; intros s; [done|]. cbn [app deliver].
  destruct (OnHeader h hd s); cbn [mbind option_bind]; [apply IH|done].
Qed.

(** *** What a parser does for every handler *)

Section Emits.
Context {A B : Type}.

(** The computation delivers [hs] and returns [r], whatever the handler. *)
Definition emits (m : forall S, option (IAPDUHandler S) -> PM S A) (hs : list Header) (r : ParseResult + A) : Prop :=
  forall S (pH : option (IAPDUHandler S)) (s : S),
    m S pH s = match pH with Some h => s ← deliver h hs s; Some (s, r) | None => Some (s, r) end.

End Emits.

Lemma emits_ret {A} (a : A) : emits (fun S pH => mret a) [] (inr a).
Proof. by intros S []. Qed.

Lemma emits_fail {A} e : emits (A := A) (fun S pH => pfail e) [] (inl e).
Proof. by intros S []. Qed.

Lemma emits_lift {A} (r : ParseResult + A) o : o = Some r -> emits (fun S pH => plift o) [] r.
Proof. by intros -> S []. Qed.

Lemma emits_notify h o : o = Some h -> emits (fun S pH => notify pH o) [h] (inr tt).
Proof. intros -> S [hd|] s; [|done]. cbn. by destruct (OnHeader hd h s). Qed.

Lemma emits_bind {A B} m (k : forall S, option (IAPDUHandler S) -> A -> PM S B) hs hs' a r :
  emits m hs (inr a) -> emits (fun S pH => k S pH a) hs' r ->
  emits (fun S pH => m S pH ≫= k S pH) (hs ++ hs') r.
Proof.
  intros Hm Hk S pH s. unfold mbind, PM_bind. rewrite Hm. destruct pH as [h|].
  - rewrite deliver_app. destruct (deliver h hs s) as [s1|]; cbn [mbind option_bind]; [|done]. by rewrite Hk.
  - by rewrite Hk.
Qed.

Lemma emits_bind_fail {A B} m (k : forall S, option (IAPDUHandler S) -> A -> PM S B) hs e :
  emits m hs (inl e) -> emits (fun S pH => m S pH ≫= k S pH) hs (inl e).
Proof.
  intros Hm S pH s. unfold mbind, PM_bind. rewrite Hm. destruct pH as [h|]; [|done].
  by destruct (deliver h hs s).
Qed.

(** *** Collections *)

Lemma Foreach_spec {T} (f : RSlice -> Z -> option (T * RSlice)) (R : Z -> RSlice -> Prop) (Q : Z -> T -> Prop) count buffer :
  0 <= count -> R 0 buffer ->
  (forall pos buf, 0 <= pos < count -> R pos buf ->
     exists v buf', f buf pos = Some (v, buf') /\ R (pos + 1) buf' /\ Q pos v) ->
  exists vs, Foreach f count buffer = Some vs /\ Z.of_nat (length vs) = count /\
    forall i v, vs !! i = Some v -> Q (Z.of_nat i) v.
Proof.
  intros Hc HR Hf. unfold Foreach.
  assert (Hl : forall n pos buf, 0 <= pos -> pos + Z.of_nat n = count -> R pos buf ->
    exists vs, Foreach_loop f n pos buf = Some vs /\ length vs = n /\
      forall i v, vs !! i = Some v -> Q (pos + Z.of_nat i) v).
  { induction n as [|n IH]; intros pos buf Hp Hn HRp; [by exists []|]. cbn [Foreach_loop].
    destruct (Hf pos buf ltac:(lia) HRp) as (v & buf' & -> & HR' & HQ). cbn [mbind option_bind].
    destruct (IH (pos + 1) buf' ltac:(lia) ltac:(lia) HR') as (vs & -> & Hlen & HQs). cbn [mbind option_bind].
    exists (v :: vs). split; [done|]. split; [cbn; lia|]. intros [|i] v' Hv; cbn in Hv.
    - injection Hv as <-. by rewrite Z.add_0_r.
    - specialize (HQs i v' Hv). by replace (pos + Z.of_nat (Datatypes.S i)) with (pos + 1 + Z.of_nat i) by lia. }
  destruct (Hl (Z.to_nat count) 0 buffer ltac:(lia) ltac:(lia) HR) as (vs & H1 & H2 & H3).
  exists vs. split; [done|]. split; [lia|]. exact H3.
Qed.

Lemma ParseMany_range ss input vs rest :
  Forall SerializerOk ss -> bytes_ok input -> ParseMany ss input = Some (vs, rest) ->
  Forall2 (fun s v => Min s <= v <= Max s) ss vs.
Proof.
  intros Hok. revert input vs rest. induction Hok as [|s ss Hs _ IH]; intros input vs rest Hb; cbn [ParseMany].
  - by intros [= <- <-].
  - destruct (ParseType s input) as [[v input']|] eqn:Hp; cbn [mbind option_bind]; [|done].
    destruct (ParseMany ss input') as [[vs' rest']|] eqn:Hm; cbn [mbind option_bind]; [|done]. intros [= <- <-].
    apply ParseType_inv in Hp as [Hv ->]; [|done|done]. constructor; [done|].
    apply (IH input' vs' rest'); [|done]. by apply Forall_app in Hb as [_ Hb].
Qed.

Lemma ReadObject_spec r buffer :
  shape_of (enum_of r) = OfFields -> bytes_ok buffer -> (Size (enum_of r) <= length buffer)%nat ->
  exists v, ReadObject (enum_of r) buffer = Some (v, drop (Size (enum_of r)) buffer) /\ value_ok r v.
Proof.
  intros Hsh Hb Hl. unfold ReadObject. rewrite Size_fields in *.
  destruct (ParseMany_total (fields (enum_of r)) buffer Hl) as (vs & Hp & _). rewrite Hp. cbn [mbind option_bind].
  exists (Fields vs). split; [done|]. unfold value_ok; rewrite Hsh; cbv iota. eapply ParseMany_range; [apply fields_ok|done|done].
Qed.

Lemma ReadNum_spec np buffer :
  SerializerOk np -> bytes_ok buffer -> (SIZE np <= length buffer)%nat ->
  exists n, NumParser.ReadNum np buffer = Some (n, drop (SIZE np) buffer) /\ Min np <= n <= Max np.
Proof.
  intros Hok Hb Hl. unfold NumParser.ReadNum. rewrite ReadBuffer_spec by done. eexists. split; [done|].
  apply decode_range; [by apply Forall_take|len].
Qed.

(** The space that is left in a buffer of [n] objects of [size] bytes. *)
Definition space (size n : Z) (pos : Z) (buffer : RSlice) : Prop :=
  bytes_ok buffer /\ (n - pos) * size <= Z.of_nat (length buffer).

Lemma space_step size n pos buffer :
  space size n pos buffer -> 0 <= size -> pos < n ->
  size <= Z.of_nat (length buffer) /\ space size n (pos + 1) (drop (Z.to_nat size) buffer).
Proof.
  intros [Hb Hl] Hs Hp. split; [nia|]. split; [by apply Forall_drop|]. rewrite length_drop. nia.
Qed.

(** *** Every parser reports at most one header, with the record it was given *)

Definition parses (record : HeaderRecord) (m : forall S, option (IAPDUHandler S) -> PM S RSlice) (buffer : RSlice) : Prop :=
  (exists h rest, emits m [h] (inr rest) /\ record_of h = record /\ header_ok h /\ bytes_ok rest /\
     (length rest <= length buffer)%nat) \/
  (exists e, e <> OK /\ emits m [] (inl e)).

Lemma parses_fail record e buffer : e <> OK -> parses record (fun S _ => pfail e) buffer.
Proof. intros He. right. exists e. split; [done|]. apply emits_fail. Qed.

Lemma parses_notify record h (buffer buffer0 : RSlice) :
  record_of h = record -> header_ok h -> bytes_ok buffer -> (length buffer <= length buffer0)%nat ->
  parses record (fun S pH => _ ← notify pH (Some h); mret buffer) buffer0.
Proof.
  intros Hr Hh Hb Hl. left. exists h, buffer. split; [|done].
  apply (emits_bind (fun S pH => notify pH (Some h)) (fun S pH _ => mret buffer) [h] [] tt); [by apply emits_notify|apply emits_ret].
Qed.

(** A lift that succeeds does not change what is reported. *)
Lemma parses_lift {A} record (o : option (ParseResult + A * RSlice)) k (buffer : RSlice) r :
  o = Some r ->
  match r with
  | inl e => e <> OK
  | inr (a, rest) => (length rest <= length buffer)%nat /\ parses record (fun S pH => k S pH a rest) rest
  end ->
  parses record (fun S pH => '(a, rest) ← plift o; k S pH a rest) buffer.
Proof.
  intros -> Hr. destruct r as [e|[a rest]].
  - right. exists e. split; [done|]. by intros S [].
  - destruct Hr as [Hl [(h & rest' & He & Hrec & Hok & Hb & Hlen)|(e & He & Hem)]].
    + left. exists h, rest'. split_and!; [|done..|lia]. exact He.
    + right. exists e. split; [done|exact Hem].
Qed.

Lemma Process_parses record size make buffer :
  bytes_ok buffer -> 0 <= size ->
  (size <= Z.of_nat (length buffer) -> exists h, make buffer = Some h /\ record_of h = record /\ header_ok h) ->
  parses record (fun S pH => Process pH size make buffer) buffer.
Proof.
  intros Hb Hs Hm. unfold Process, RSlice.Size. destruct (Z.ltb_spec (Z.of_nat (length buffer)) size) as [|Hle].
  - by apply parses_fail.
  - destruct (Hm Hle) as (h & -> & Hr & Hok). apply parses_notify; [done..| |]; rewrite Advance_drop; [by apply Forall_drop|len].
Qed.

(** *** NumParser *)

Class NumOk (np : Serializer) := {
  num_ser :: SerializerOk np; num_min : Min np = 0; num_max : Max np <= 65535; num_size : (SIZE np <= 2)%nat
}.

#[export] Instance OneByte_ok : NumOk NumParser.OneByte.
Proof. split; [apply _|done|done|cbn; lia]. Qed.

#[export] Instance TwoByte_ok : NumOk NumParser.TwoByte.
Proof. split; [apply _|done|done|cbn; lia]. Qed.

Lemma ReadNum_u16 np buffer :
  NumOk np -> bytes_ok buffer -> (SIZE np <= length buffer)%nat ->
  exists n, NumParser.ReadNum np buffer = Some (n, drop (SIZE np) buffer) /\ is_u16 n /\ 0 <= n <= Max np.
Proof.
  intros Hnp Hb Hl. destruct (ReadNum_spec np buffer num_ser Hb Hl) as (n & H & Hn). exists n. split; [done|].
  rewrite num_min in Hn. pose proof num_max. unfold is_u16. lia.
Qed.

Lemma ParseCount_spec np buffer :
  NumOk np -> bytes_ok buffer ->
  exists r, NumParser.ParseCount np buffer = Some r /\
    match r with
    | inl e => e <> OK
    | inr (count, rest) => 0 < count < 65536 /\ count <= Max np /\ rest = drop (SIZE np) buffer
    end.
Proof.
  intros Hnp Hb. unfold NumParser.ParseCount, NumParser.Read, RSlice.Size.
  destruct (Nat.ltb_spec (length buffer) (SIZE np)) as [|Hl]; [by eexists|].
  destruct (ReadNum_u16 np buffer Hnp Hb Hl) as (n & -> & Hn & Hm). cbn [mbind option_bind].
  destruct (Z.eqb_spec n 0); eexists; (split; [done|]); [done|]. unfold is_u16 in Hn. split_and!; [lia|lia|lia|done].
Qed.

Lemma ParseRange_spec np buffer :
  NumOk np -> bytes_ok buffer ->
  exists r, NumParser.ParseRange np buffer = Some r /\
    match r with
    | inl e => e <> OK
    | inr (range, rest) => range_ok range /\ rest = drop (2 * SIZE np) buffer
    end.
Proof.
  intros Hnp Hb. unfold NumParser.ParseRange, RSlice.Size.
  destruct (Nat.ltb_spec (length buffer) (2 * SIZE np)) as [|Hl]; [by eexists|].
  destruct (ReadNum_u16 np buffer Hnp Hb ltac:(lia)) as (n & -> & Hn & _). cbn [mbind option_bind].
  destruct (ReadNum_u16 np (drop (SIZE np) buffer) Hnp ltac:(by apply Forall_drop) ltac:(len)) as (m & -> & Hm & _).
  cbn [mbind option_bind]. unfold Range.IsValid. cbn [start stop].
  destruct (Z.leb_spec n m); eexists; (split; [done|]); [|done]. unfold range_ok. cbn [start stop]. unfold is_u16 in *.
  split; [lia|]. rewrite drop_drop. f_equal. lia.
Qed.

Lemma Count_spec range : range_ok range -> Range.Count range = stop range - start range + 1.
Proof.
  unfold range_ok. intros Hr. unfold Range.Count, Range.IsValid. destruct (Z.leb_spec (start range) (stop range)); [|lia].
  apply u32_small. unfold is_u32. lia.
Qed.

(** *** The collections of each kind *)

Lemma RangeOf_make record range f buffer R :
  range_ok range -> R 0 buffer ->
  (forall pos buf, 0 <= pos < Range.Count range -> R pos buf ->
     exists v buf', f buf pos = Some (u16 (start range + pos), v, buf') /\ R (pos + 1) buf' /\ value_ok record v) ->
  exists h, (values ← Foreach f (Range.Count range) buffer; Some (RangeOf record range values)) = Some h /\
    record_of h = record /\ header_ok h.
Proof.
  intros Hr HR Hf. pose proof (Count_spec range Hr) as Hc. pose proof Hr as [Hr1 Hr2].
  destruct (Foreach_spec f R (fun pos iv => iv.1 = start range + pos /\ value_ok record iv.2) (Range.Count range) buffer)
    as (vs & -> & Hlen & Hq); [lia|done| |].
  - intros pos buf Hp HRp. destruct (Hf pos buf Hp HRp) as (v & buf' & -> & HR' & Hv).
    exists (u16 (start range + pos), v), buf'. split_and!; [done|done| |done]. cbn [fst]. apply u16_small. unfold is_u16. lia.
  - cbn [mbind option_bind]. eexists. split_and!; [done|done|]. cbn [header_ok]. split; [done|]. split; [lia|]. exact Hq.
Qed.

Lemma InvokeRangeOf_ok record range buffer :
  shape_of (enum_of record) = OfFields -> range_ok range -> bytes_ok buffer -> Range.Count range * Z.of_nat (Size (enum_of record)) <= Z.of_nat (length buffer) ->
  exists h, InvokeRangeOf record range buffer = Some h /\ record_of h = record /\ header_ok h.
Proof.
  intros Hsh Hr Hb Hl. apply (RangeOf_make record range _ buffer (space (Z.of_nat (Size (enum_of record))) (Range.Count range))); [done|split; [done|lia]|].
  intros pos buf Hp Hs. destruct (space_step _ _ _ _ Hs ltac:(lia) ltac:(lia)) as [Hl' Hs']. destruct Hs as [Hb' _].
  destruct (ReadObject_spec record buf Hsh Hb' ltac:(lia)) as (v & -> & Hv). cbn [mbind option_bind]. rewrite Nat2Z.id in Hs'. eauto.
Qed.

Lemma NumBytes_enough n k pos : 0 < k -> 0 <= n < 65537 -> 0 <= pos < n ->
  pos / k < (if n mod k =? 0 then n / k else u32 (n / k + 1)).
Proof.
  intros Hk Hn Hp. assert (0 <= n / k <= n) by (split; [apply Z.div_pos; lia|apply Z.div_le_upper_bound; nia]).
  rewrite u32_small by (unfold is_u32; lia).
  pose proof (Z.div_mod n k ltac:(lia)). pose proof (Z.mod_pos_bound n k Hk).
  destruct (Z.eqb_spec (n mod k) 0); apply Z.div_lt_upper_bound; nia.
Qed.

Lemma InvokeRangeBitfieldType_ok record range buffer :
  shape_of (enum_of record) = OfBit -> range_ok range -> NumBytesInBits (Range.Count range) <= Z.of_nat (length buffer) ->
  exists h, InvokeRangeBitfieldType record range buffer = Some h /\ record_of h = record /\ header_ok h.
Proof.
  intros Hsh Hr Hl. pose proof (Count_spec range Hr) as Hc. pose proof Hr as [Hr1 Hr2].
  apply (RangeOf_make record range _ buffer (fun _ buf => buf = buffer)); [done|done|]. intros pos buf Hp ->.
  pose proof (NumBytes_enough (Range.Count range) 8 pos ltac:(lia) ltac:(lia) Hp). unfold NumBytesInBits in Hl. unfold GetBit.
  assert (0 <= pos / 8) by (apply Z.div_pos; lia).
  destruct (lookup_lt_is_Some_2 buffer (Z.to_nat (pos / 8))) as [b ->]; [lia|]. cbn [mbind option_bind].
  eexists _, _. split_and!; [done|done|]. unfold value_ok. by rewrite Hsh.
Qed.

Lemma InvokeRangeDoubleBitfieldType_ok record range buffer :
  shape_of (enum_of record) = OfDBit -> range_ok range -> NumBytesInDoubleBits (Range.Count range) <= Z.of_nat (length buffer) ->
  exists h, InvokeRangeDoubleBitfieldType record range buffer = Some h /\ record_of h = record /\ header_ok h.
Proof.
  intros Hsh Hr Hl. pose proof (Count_spec range Hr) as Hc. pose proof Hr as [Hr1 Hr2].
  apply (RangeOf_make record range _ buffer (fun _ buf => buf = buffer)); [done|done|]. intros pos buf Hp ->.
  pose proof (NumBytes_enough (Range.Count range) 4 pos ltac:(lia) ltac:(lia) Hp). unfold NumBytesInDoubleBits in Hl. unfold GetDoubleBit.
  assert (0 <= pos / 4) by (apply Z.div_pos; lia).
  destruct (lookup_lt_is_Some_2 buffer (Z.to_nat (pos / 4))) as [b ->]; [lia|]. cbn [mbind option_bind].
  eexists _, _. split_and!; [done|done|]. unfold value_ok. by rewrite Hsh.
Qed.

Lemma ReadOctets_spec record buffer :
  shape_of (enum_of record) = OfOctets -> bytes_ok buffer -> is_u8 (variation (gv_record record)) -> variation (gv_record record) <= Z.of_nat (length buffer) ->
  exists v, ReadOctets (variation (gv_record record)) buffer = (v, drop (Z.to_nat (variation (gv_record record))) buffer) /\
    value_ok record v.
Proof.
  unfold is_u8. intros Hsh Hb Hv Hl. unfold ReadOctets. rewrite Advance_drop. eexists. split; [done|]. unfold value_ok; rewrite Hsh; cbv iota.
  rewrite Take_take. split; [len|by apply Forall_take, Forall_take].
Qed.

Lemma InvokeRangeOfOctetData_ok record range buffer :
  shape_of (enum_of record) = OfOctets -> range_ok range -> bytes_ok buffer -> is_u8 (variation (gv_record record)) ->
  Range.Count range * variation (gv_record record) <= Z.of_nat (length buffer) ->
  exists h, InvokeRangeOfOctetData record range buffer = Some h /\ record_of h = record /\ header_ok h.
Proof.
  intros Hsh Hr Hb Hv Hl. apply (RangeOf_make record range _ buffer (space (variation (gv_record record)) (Range.Count range))); [done|split; [done|lia]|].
  intros pos buf Hp Hs. unfold is_u8 in Hv. destruct (space_step _ _ _ _ Hs ltac:(lia) ltac:(lia)) as [Hl' Hs'].
  destruct (ReadOctets_spec record buf Hsh (proj1 Hs) Hv Hl') as (v & -> & Hok). eauto.
Qed.

Lemma PrefixOf_make record count f buffer R :
  0 < count <= prefix_max record -> R 0 buffer ->
  (forall pos buf, 0 <= pos < count -> R pos buf ->
     exists i v buf', f buf pos = Some (i, v, buf') /\ R (pos + 1) buf' /\ 0 <= i <= prefix_max record /\ value_ok record v) ->
  exists h, (values ← Foreach f count buffer; Some (PrefixOf record count values)) = Some h /\
    record_of h = record /\ header_ok h.
Proof.
  intros Hc HR Hf.
  destruct (Foreach_spec f R (fun _ iv => 0 <= iv.1 <= prefix_max record /\ value_ok record iv.2) count buffer) as (vs & -> & Hlen & Hq); [lia|done| |].
  - intros pos buf Hp HRp. destruct (Hf pos buf Hp HRp) as (i & v & buf' & -> & HR' & Hi & Hv). by exists (i, v), buf'.
  - cbn [mbind option_bind]. eexists. split_and!; [done|done|]. cbn [header_ok]. split; [done|]. split; [lia|].
    intros i iv Hi. apply (Hq i iv Hi).
Qed.

Lemma InvokePrefixOf_ok np record count buffer :
  shape_of (enum_of record) = OfFields -> NumOk np -> Max np <= prefix_max record -> 0 < count <= Max np -> bytes_ok buffer ->
  count * (Z.of_nat (Size (enum_of record)) + NumParser.NumBytes np) <= Z.of_nat (length buffer) ->
  exists h, InvokePrefixOf np record count buffer = Some h /\ record_of h = record /\ header_ok h.
Proof.
  intros Hsh Hnp Hmx Hc Hb Hl. unfold NumParser.NumBytes in Hl.
  apply (PrefixOf_make record count _ buffer (space (Z.of_nat (Size (enum_of record)) + Z.of_nat (SIZE np)) count)); [lia|split; [done|lia]|].
  intros pos buf Hp Hs. destruct (space_step _ _ _ _ Hs ltac:(lia) ltac:(lia)) as [Hl' Hs']. destruct Hs as [Hb' _].
  destruct (ReadNum_u16 np buf Hnp Hb' ltac:(lia)) as (n & -> & _ & Hn). cbn [mbind option_bind].
  destruct (ReadObject_spec record (drop (SIZE np) buf) Hsh ltac:(by apply Forall_drop) ltac:(len)) as (v & -> & Hv). cbn [mbind option_bind].
  rewrite drop_drop. eexists _, _, _. split_and!; [done| |lia|lia|done].
  by replace (SIZE np + Size (enum_of record))%nat with (Z.to_nat (Z.of_nat (Size (enum_of record)) + Z.of_nat (SIZE np))) by lia.
Qed.

Lemma InvokePrefixOfOctetData_ok np record count buffer :
  shape_of (enum_of record) = OfOctets -> NumOk np -> Max np <= prefix_max record -> 0 < count <= Max np -> bytes_ok buffer -> is_u8 (variation (gv_record record)) ->
  count * (NumParser.NumBytes np + variation (gv_record record)) <= Z.of_nat (length buffer) ->
  exists h, InvokePrefixOfOctetData np record count buffer = Some h /\ record_of h = record /\ header_ok h.
Proof.
  intros Hsh Hnp Hmx Hc Hb Hv Hl. unfold NumParser.NumBytes in Hl.
  apply (PrefixOf_make record count _ buffer (space (Z.of_nat (SIZE np) + variation (gv_record record)) count)); [lia|split; [done|lia]|].
  intros pos buf Hp Hs. unfold is_u8 in Hv. destruct (space_step _ _ _ _ Hs ltac:(lia) ltac:(lia)) as [Hl' Hs']. destruct Hs as [Hb' _].
  destruct (ReadNum_u16 np buf Hnp Hb' ltac:(lia)) as (n & -> & _ & Hn). cbn [mbind option_bind].
  destruct (ReadOctets_spec record (drop (SIZE np) buf) Hsh ltac:(by apply Forall_drop) Hv ltac:(len)) as (v & -> & Hok).
  rewrite drop_drop. eexists _, _, _. split_and!; [done| |lia|lia|done].
  by replace (SIZE np + Z.to_nat (variation (gv_record record)))%nat with (Z.to_nat (Z.of_nat (SIZE np) + variation (gv_record record))) by lia.
Qed.

Lemma InvokeCountOf_ok record count buffer :
  shape_of (enum_of record) = OfFields -> 0 < count < 65536 -> bytes_ok buffer -> count * Z.of_nat (Size (enum_of record)) <= Z.of_nat (length buffer) ->
  exists h, InvokeCountOf record count buffer = Some h /\ record_of h = record /\ header_ok h.
Proof.
  intros Hsh Hc Hb Hl. unfold InvokeCountOf.
  destruct (Foreach_spec (fun buffer _ => ReadObject (enum_of record) buffer) (space (Z.of_nat (Size (enum_of record))) count)
    (fun _ v => value_ok record v) count buffer) as (vs & -> & Hlen & Hq); [lia|split; [done|lia]| |].
  - intros pos buf Hp Hs. destruct (space_step _ _ _ _ Hs ltac:(lia) ltac:(lia)) as [Hl' Hs']. destruct Hs as [Hb' _].
    destruct (ReadObject_spec record buf Hsh Hb' ltac:(lia)) as (v & -> & Hv). rewrite Nat2Z.id in Hs'. eauto.
  - cbn [mbind option_bind]. eexists. split_and!; [done|done|]. cbn [header_ok]. split; [done|]. split; [lia|]. exact Hq.
Qed.

(** *** The parsers of one header *)

(** The records the parser builds: the variation is a byte, and the known objects
    are not larger than a byte can say. *)
Definition record_ok (record : HeaderRecord) : Prop := is_u8 (variation (gv_record record)).

Lemma Size_small gv : (Size gv <= 255)%nat.
Proof. destruct gv; cbn; lia. Qed.

Section HeaderParsers.
Context (settings : ParserSettings) (record : HeaderRecord) (buffer : RSlice).
Context (Hrec : record_ok record) (Hb : bytes_ok buffer).

Lemma CountOfObjects_parses count :
  0 < count < 65536 -> parses record (fun S pH => CountParser_ParseCountOfObjects pH record count buffer) buffer.
Proof.
  intros Hc. pose proof (Size_small (enum_of record)). unfold CountParser_ParseCountOfObjects.
  destruct (enum_of record) eqn:He; try (by apply parses_fail); pose proof (f_equal shape_of He) as Hsh; cbn [shape_of] in Hsh; rewrite <- He in *;
    (rewrite u32_small by (unfold is_u32; nia)); (apply Process_parses; [done|nia|]); intros; apply InvokeCountOf_ok; [exact Hsh|done..].
Qed.

Lemma RangeOfOctetData_parses range :
  shape_of (enum_of record) = OfOctets -> range_ok range -> parses record (fun S pH => ParseRangeOfOctetData pH record range buffer) buffer.
Proof.
  intros Hsh Hr. pose proof (Count_spec range Hr). pose proof Hr as [Hr1 Hr2]. pose proof Hrec as Hv. unfold record_ok, is_u8 in Hv.
  unfold ParseRangeOfOctetData. destruct (Z.ltb_spec 0 (variation (gv_record record))); [|by apply parses_fail].
  rewrite u32_small by (unfold is_u32; nia). apply Process_parses; [done|nia|]. intros.
  apply InvokeRangeOfOctetData_ok; [done|done|done|done|lia].
Qed.

Lemma NumBytes_nonneg n k : 0 < k -> 0 <= n -> 0 <= (if n mod k =? 0 then n / k else u32 (n / k + 1)).
Proof. intros Hk Hn. destruct (_ =? 0); [by apply Z.div_pos|]. pose proof (u32_range (n / k + 1)) as Hu. unfold is_u32 in Hu. lia. Qed.

Lemma RangeOfObjects_parses range :
  range_ok range -> parses record (fun S pH => ParseRangeOfObjects pH record range buffer) buffer.
Proof.
  intros Hr. pose proof (Count_spec range Hr). pose proof Hr as [Hr1 Hr2]. pose proof (Size_small (enum_of record)).
  unfold ParseRangeOfObjects.
  destruct (enum_of record) eqn:He; try (by apply parses_fail); pose proof (f_equal shape_of He) as Hsh; cbn [shape_of] in Hsh; rewrite <- He in *;
    try (apply RangeOfOctetData_parses; [exact Hsh|done]);
    try (apply Process_parses; [done|apply NumBytes_nonneg; lia|intros]; 
      ((apply InvokeRangeBitfieldType_ok; [exact Hsh|done..]) || (apply InvokeRangeDoubleBitfieldType_ok; [exact Hsh|done..])));
    (rewrite u32_small by (unfold is_u32; nia)); (apply Process_parses; [done|nia|]); intros; apply InvokeRangeOf_ok; [exact Hsh|done..].
Qed.

Lemma IndexPrefixed_parses np count :
  NumOk np -> Max np <= prefix_max record -> 0 < count <= Max np ->
  parses record (fun S pH => CountIndexParser_ParseCountOfObjects pH np record count buffer) buffer.
Proof.
  intros Hnp Hmx Hc. pose proof num_max. pose proof (Size_small (enum_of record)). pose proof Hrec as Hv. unfold record_ok, is_u8 in Hv.
  assert (Hn : 0 <= NumParser.NumBytes np <= 255).
  { unfold NumParser.NumBytes. pose proof num_size. lia. }
  unfold CountIndexParser_ParseCountOfObjects.
  destruct (enum_of record) eqn:He; try (by apply parses_fail); pose proof (f_equal shape_of He) as Hsh; cbn [shape_of] in Hsh; rewrite <- He in *;
    try (unfold ParseIndexPrefixedOctetData; destruct (Z.eqb_spec (variation (gv_record record)) 0); [by apply parses_fail|]);
    (rewrite u32_small by (unfold is_u32; nia)); (apply Process_parses; [done|nia|]); intros;
    (apply InvokePrefixOf_ok; [exact Hsh|done..]) || (apply InvokePrefixOfOctetData_ok; [exact Hsh|done..]).
Qed.

End HeaderParsers.

Lemma parses_weaken record m (b b' : RSlice) : parses record m b -> (length b <= length b')%nat -> parses record m b'.
Proof.
  intros [(h & rest & H1 & H2 & H3 & H4 & H5)|H] Hl; [left|by right]. exists h, rest. split_and!; [done..|lia].
Qed.

Lemma FreeFormat_parses record buffer :
  bytes_ok buffer -> parses record (fun S pH => FreeFormatParser_ParseHeader pH record buffer) buffer.
Proof.
  intros Hb. unfold FreeFormatParser_ParseHeader, RSlice.Size.
  destruct (Nat.ltb_spec (length buffer) 3) as [|Hl]; [by apply parses_fail|].
  rewrite ReadBuffer_spec by (cbn; lia). cbn [option_map].
  eapply parses_lift; [done|]. split; [len|]. rewrite ReadBuffer_spec by (cbn; len). cbn [option_map].
  eapply parses_lift; [done|]. split; [len|]. rewrite drop_drop. set (rest := drop (SIZE UInt8 + SIZE UInt16) buffer).
  set (count := decode UInt8 _). set (size := decode UInt16 _).
  assert (Hr : bytes_ok rest) by by apply Forall_drop.
  destruct (Z.eqb_spec count 1) as [Hc|]; cbn [negb]; [|by apply parses_fail].
  destruct (_ <? _); [by apply parses_fail|]. destruct (free_layout (enum_of record)) as [l|] eqn:Hf; [|by apply parses_fail].
  destruct (ReadFree_total (enum_of record) l (RSlice.Take rest (Z.to_nat size)) Hf) as [[v|] Hv]; rewrite Hv; cbn [option_map].
  - apply (parses_notify record (FreeFormatOf record count v (RSlice.Take rest (Z.to_nat size)))
      (RSlice.Advance rest (Z.to_nat size)) rest); [done| | |].
    + split; [done|]. rewrite Take_take. by apply Forall_take.
    + rewrite Advance_drop. by apply Forall_drop.
    + rewrite Advance_drop. len.
  - by apply (parses_fail record NOT_ENOUGH_DATA_FOR_OBJECTS rest).
Qed.

Section Qualifiers.
Context (settings : ParserSettings) (record : HeaderRecord) (buffer : RSlice).
Context (Hrec : record_ok record) (Hb : bytes_ok buffer).

Lemma CountParser_parses np : NumOk np -> parses record (fun S pH => CountParser_ParseHeader settings pH np record buffer) buffer.
Proof.
  intros Hnp. destruct (ParseCount_spec np buffer Hnp Hb) as (r & Hr & Hok).
  eapply parses_lift; [exact Hr|]. destruct r as [e|[count rest]]; [done|]. destruct Hok as (Hc & _ & ->). split; [len|].
  destruct (expectContents settings).
  - apply CountOfObjects_parses; [by apply Forall_drop|done].
  - apply parses_notify; [done|done|by apply Forall_drop|len].
Qed.

Lemma RangeParser_parses np : NumOk np -> parses record (fun S pH => RangeParser_ParseHeader settings pH np record buffer) buffer.
Proof.
  intros Hnp. destruct (ParseRange_spec np buffer Hnp Hb) as (r & Hr & Hok).
  eapply parses_lift; [exact Hr|]. destruct r as [e|[range rest]]; [done|]. destruct Hok as [Hc ->]. split; [len|].
  destruct (expectContents settings).
  - apply RangeOfObjects_parses; [done|by apply Forall_drop|done].
  - apply parses_notify; [done|done|by apply Forall_drop|len].
Qed.

Lemma CountIndexParser_parses np : NumOk np -> Max np <= prefix_max record -> parses record (fun S pH => CountIndexParser_ParseHeader pH np record buffer) buffer.
Proof.
  intros Hnp Hmx. destruct (ParseCount_spec np buffer Hnp Hb) as (r & Hr & Hok).
  eapply parses_lift; [exact Hr|]. destruct r as [e|[count rest]]; [done|]. destruct Hok as (Hc & Hc2 & ->). split; [len|].
  apply IndexPrefixed_parses; [done|by apply Forall_drop|done|done|lia].
Qed.

Lemma ParseQualifier_parses : parses record (fun S pH => ParseQualifier settings pH record buffer) buffer.
Proof.
  unfold ParseQualifier. destruct (GetQualifierCode record) eqn:Hq;
    first [by apply parses_fail | apply parses_notify; [done|done|done|lia] | apply CountParser_parses | apply RangeParser_parses
      | apply CountIndexParser_parses | by apply FreeFormat_parses];
    first [apply _ | unfold prefix_max; rewrite Hq; done].
Qed.

End Qualifiers.

(** The white list looks at the position, the object and the qualifier of a header. *)
Definition allowed {S} (w : IAPDUHandler S) (h : Header) : bool :=
  IsAllowed w (headerIndex (record_of h)) (enum_of (record_of h)) (GetQualifierCode (record_of h)).

Lemma ParseObjectHeader_spec buffer :
  bytes_ok buffer ->
  exists r, ObjectHeaderParser.ParseObjectHeader buffer = Some r /\
    match r with
    | inl e => e <> OK
    | inr (h, rest) => is_u8 (ObjectHeaderParser.oh_variation h) /\ rest = drop 3 buffer /\ (3 <= length buffer)%nat
    end.
Proof.
  intros Hb. unfold ObjectHeaderParser.ParseObjectHeader, RSlice.Size.
  destruct (Nat.ltb_spec (length buffer) 3) as [|Hl]; [by eexists|].
  rewrite !ReadBuffer_spec by (cbn; len). cbn [mbind option_bind]. rewrite !ReadBuffer_spec by (cbn; len). cbn [mbind option_bind].
  rewrite !ReadBuffer_spec by (cbn; len). cbn [mbind option_bind]. eexists. split; [done|]. rewrite !drop_drop. split_and!; [|done|done].
  cbn [ObjectHeaderParser.oh_variation]. pose proof (decode_range (s := UInt8) (take (SIZE UInt8) (drop (SIZE UInt8) buffer))) as Hr.
  unfold is_u8. cbn [Min Max UInt8] in Hr. lapply Hr; [|by apply Forall_take, Forall_drop]. intros Hr'. lapply Hr'; [lia|]. cbn. len.
Qed.

(** A header: what it is does not depend on the white list, which can only refuse it. *)
Lemma ParseHeader_emits settings count buffer :
  bytes_ok buffer ->
  (exists h rest, emits (fun S pH => ParseHeader settings pH None count buffer) [h] (inr rest) /\
     header_ok h /\ headerIndex (record_of h) = count /\ bytes_ok rest /\ (length rest + 3 <= length buffer)%nat /\
     forall S (w : IAPDUHandler S) s, ParseHeader settings None (Some w) count buffer s =
       Some (s, if allowed w h then inr rest else inl NOT_ON_WHITELIST)) \/
  (exists e, e <> OK /\ emits (fun S pH => ParseHeader settings pH None count buffer) [] (inl e) /\
     forall S (w : IAPDUHandler S) s, exists e', e' <> OK /\ ParseHeader settings None (Some w) count buffer s = Some (s, inl e')).
Proof.
  intros Hb. destruct (ParseObjectHeader_spec buffer Hb) as ([e|[hd rest]] & Hpo & Hr).
  { right. exists e. split; [done|]. split; [intros S pH s|intros S w s; exists e; split; [done|]]; unfold ParseHeader; rewrite Hpo; [by destruct pH|done]. }
  destruct Hr as (Hv & -> & Hl).
  set (GV := GetRecord (ObjectHeaderParser.oh_group hd) (ObjectHeaderParser.oh_variation hd)).
  set (record := mkHeaderRecord GV (ObjectHeaderParser.oh_qualifier hd) count).
  assert (HP : forall S (pH wl : option (IAPDUHandler S)) s, ParseHeader settings pH wl count buffer s =
    (if decide (enumeration GV = GroupVariation.UNKNOWN) then pfail UNKNOWN_OBJECT
     else match wl with
       | Some w => if negb (IsAllowed w count (enumeration GV) (GetQualifierCode record)) then pfail NOT_ON_WHITELIST
                   else ParseQualifier settings pH record (drop 3 buffer)
       | None => ParseQualifier settings pH record (drop 3 buffer)
       end) s).
  { intros. unfold ParseHeader. by rewrite Hpo. }
  destruct (decide (enumeration GV = GroupVariation.UNKNOWN)) as [|Hk].
  { right. exists UNKNOWN_OBJECT. split; [done|]. split; [intros S pH s; rewrite HP; by destruct pH|].
    intros S w s. exists UNKNOWN_OBJECT. split; [done|]. by rewrite HP. }
  destruct (ParseQualifier_parses settings record (drop 3 buffer) Hv ltac:(by apply Forall_drop))
    as [(h & rest & He & Hrec & Hok & Hb' & Hlen)|(e & He & Hem)].
  - left. exists h, rest. split_and!; [|done|by rewrite Hrec|done|len|].
    + intros S pH s. rewrite HP. apply He.
    + intros S w s. rewrite HP. unfold allowed. rewrite Hrec. cbn [headerIndex enum_of gv_record record].
      destruct (IsAllowed _ _ _ _); cbn [negb]; [|done]. apply (He S None).
  - right. exists e. split; [done|]. split; [intros S pH s; rewrite HP; apply Hem|].
    intros S w s. rewrite HP. destruct (IsAllowed _ _ _ _); cbn [negb]; [|by exists NOT_ON_WHITELIST].
    exists e. split; [done|]. apply (Hem S None).
Qed.

(** *** Passes *)

(** The header at position [i] of a fragment has the index [count + i]. *)
Fixpoint numbered (count : Z) (hs : list Header) : Prop :=
  match hs with
  | [] => True
  | h :: hs => headerIndex (record_of h) = count /\ numbered (u32 (count + 1)) hs
  end.

Lemma ParseSinglePass_loop_spec settings fuel count buffer :
  bytes_ok buffer -> (length buffer <= fuel)%nat ->
  exists hs r, emits (fun S pH => ParseSinglePass_loop settings pH fuel None count buffer) hs r /\
    r <> inl OK /\ Forall header_ok hs /\ numbered count hs /\
    forall S (w : IAPDUHandler S) s, exists r', ParseSinglePass_loop settings None fuel (Some w) count buffer s = Some (s, r') /\
      r' <> inl OK /\ (r' = inr tt <-> r = inr tt /\ forallb (allowed w) hs = true).
Proof.
  revert count buffer. induction fuel as [|fuel IH]; intros count buffer Hb Hl.
  { destruct buffer; [|cbn in Hl; lia]. exists [], (inr tt). split_and!; [apply (emits_ret tt)|done..|].
    intros S w s. exists (inr tt). done. }
  destruct (Nat.eq_dec (length buffer) 0) as [H0|H0].
  { destruct buffer; [|done]. exists [], (inr tt). split_and!; [apply (emits_ret tt)|done..|].
    intros S w s. exists (inr tt). done. }
  cbn [ParseSinglePass_loop]. unfold RSlice.Size. destruct (Nat.ltb_spec 0 (length buffer)); [|lia].
  destruct (ParseHeader_emits settings count buffer Hb)
    as [(h & rest & He & Hok & Hi & Hb' & Hlen & Hw)|(e & He & Hem & Hw)].
  - destruct (IH (u32 (count + 1)) rest Hb' ltac:(lia)) as (hs & r & Hem & Hr & Hoks & Hn & HW).
    exists (h :: hs), r. split_and!; [|done|by constructor|done|].
    + apply (emits_bind (fun S pH => ParseHeader settings pH None count buffer)
        (fun S pH copy => ParseSinglePass_loop settings pH fuel None (u32 (count + 1)) copy) [h] hs rest r); done.
    + intros S w s. unfold mbind, PM_bind. rewrite Hw. cbn [forallb]. destruct (allowed w h); cbn [andb].
      * apply HW.
      * exists (inl NOT_ON_WHITELIST). split_and!; [done|done|]. split; [done|by intros [_ ?]].
  - exists [], (inl e). split_and!; [|congruence|done|done|].
    + apply (emits_bind_fail (fun S pH => ParseHeader settings pH None count buffer)); done.
    + intros S w s. destruct (Hw S w s) as (e' & He' & Hw'). exists (inl e'). unfold mbind, PM_bind. rewrite Hw'.
      split_and!; [done|congruence|]. split; [done|by intros [? _]].
Qed.

(** A fragment has at most as many headers as bytes. *)
Lemma ParseSinglePass_loop_count settings fuel count buffer :
  bytes_ok buffer -> (length buffer <= fuel)%nat ->
  exists hs r, emits (fun S pH => ParseSinglePass_loop settings pH fuel None count buffer) hs r /\ (length hs <= fuel)%nat.
Proof.
  revert count buffer. induction fuel as [|fuel IH]; intros count buffer Hb Hf; cbn [ParseSinglePass_loop]; unfold RSlice.Size;
    (destruct (Nat.ltb_spec 0 (length buffer)); [try lia|exists [], (inr tt); split; [apply (emits_ret tt)|cbn; lia]]).
  destruct (ParseHeader_emits settings count buffer Hb) as [(h & rest & He & _ & _ & Hb' & Hlen & _)|(e & He & Hem & _)].
  - destruct (IH (u32 (count + 1)) rest Hb' ltac:(lia)) as (hs & r & Hem & Hl). exists (h :: hs), r. split; [|cbn; lia].
    apply (emits_bind (fun S pH => ParseHeader settings pH None count buffer)
      (fun S pH copy => ParseSinglePass_loop settings pH fuel None (u32 (count + 1)) copy) [h] hs rest r); done.
  - exists [], (inl e). split; [|cbn; lia]. apply (emits_bind_fail (fun S pH => ParseHeader settings pH None count buffer)); done.
Qed.

Lemma numbered_lookup count hs i h : is_u32 count -> numbered count hs -> hs !! i = Some h -> headerIndex (record_of h) = u32 (count + Z.of_nat i).
Proof.
  revert count i. induction hs as [|h' hs IH]; intros count i Hc Hn Hi; [done|]. destruct Hn as [Hh Hn]. destruct i as [|i]; cbn in Hi.
  - injection Hi as <-. rewrite Hh, Z.add_0_r. symmetry. by apply u32_small.
  - rewrite (IH (u32 (count + 1)) i) by (apply u32_range || done). unfold u32. rewrite Zplus_mod_idemp_l. f_equal. lia.
Qed.

(** ** All or nothing *)

(** What is in a fragment: its headers up to the first error, and the result. *)
Definition recorder : IAPDUHandler (list Header) :=
  mkIAPDUHandler (fun h hs => Some (hs ++ [h])) (fun _ _ _ => true).

Definition decoded (settings : ParserSettings) (buffer : RSlice) : option (list Header * ParseResult) :=
  APDUParser.ParseSinglePass settings (Some recorder) None buffer [].

Lemma deliver_recorder hs hs0 : deliver recorder hs hs0 = Some (hs0 ++ hs).
Proof.
  revert hs0. induction hs as [|h hs IH]; intros hs0; cbn [deliver]; [by rewrite app_nil_r|].
  cbn [OnHeader recorder mbind option_bind]. by rewrite IH, <- app_assoc.
Qed.

Lemma decoded_count settings buffer hs r : bytes_ok buffer -> decoded settings buffer = Some (hs, r) -> (length hs <= length buffer)%nat.
Proof.
  intros Hb. destruct (ParseSinglePass_loop_count settings (RSlice.Size buffer) 0 buffer Hb (le_n _)) as (hs' & r' & He & Hl).
  unfold decoded, APDUParser.ParseSinglePass. rewrite (He _ (Some recorder)), deliver_recorder. cbn [mbind option_bind]. by intros [= <- _].
Qed.

(** The two passes, by what the fragment decodes to. *)
Lemma Parse_spec {S} settings (handler : IAPDUHandler S) buffer (s : S) :
  bytes_ok buffer ->
  exists hs result, decoded settings buffer = Some (hs, result) /\ Forall header_ok hs /\ numbered 0 hs /\
    (result = OK /\ forallb (allowed handler) hs = true ->
      APDUParser.Parse settings handler buffer s = s' ← deliver handler hs s; Some (s', OK)) /\
    (~ (result = OK /\ forallb (allowed handler) hs = true) ->
      exists e, e <> OK /\ APDUParser.Parse settings handler buffer s = Some (s, e)).
Proof.
  intros Hb. destruct (ParseSinglePass_loop_spec settings (RSlice.Size buffer) 0 buffer Hb (le_n _)) as (hs & r & He & Hr & Hok & Hn & Hw).
  exists hs, (match r with inl e => e | inr _ => OK end).
  assert (Hiff : match r with inl e => e | inr _ => OK end = OK <-> r = inr tt) by (destruct r as [e|[]]; naive_solver).
  split; [|split; [exact Hok|split; [exact Hn|]]].
  - unfold decoded, APDUParser.ParseSinglePass. rewrite (He _ (Some recorder)), deliver_recorder. done.
  - assert (H2 : APDUParser.ParseSinglePass settings (Some handler) None buffer s =
      s' ← deliver handler hs s; Some (s', match r with inl e => e | inr _ => OK end)).
    { unfold APDUParser.ParseSinglePass. rewrite (He _ (Some handler)). by destruct (deliver handler hs s). }
    destruct (Hw S handler s) as (r' & HW & Hr' & Hw'). unfold APDUParser.Parse.
    assert (H1 : APDUParser.ParseSinglePass settings None (Some handler) buffer s =
      Some (s, match r' with inl e => e | inr _ => OK end)) by (unfold APDUParser.ParseSinglePass; by rewrite HW).
    rewrite H1. cbn [mbind option_bind]. rewrite H2, Hiff, <- Hw'. split.
    + intros ->. assert (r = inr tt) as -> by (by apply Hw'). done.
    + intros Hne. destruct r' as [e|[]]; [|done]. exists e. split; [congruence|].
      destruct (decide (e = OK)); [congruence|done].
Qed.

(** C24: A fragment is handled entirely or not at all, and never read outside its
    bounds.  Every fragment decodes, for a number of passes bounded by its length,
    to a list of well-formed headers (numbered in order, with as many objects as
    they announce, every value in the range of its field) and a result.  When the
    result is OK and the handler's white list accepts every header, [Parse] gives
    the handler exactly these headers in their order and returns OK; otherwise it
    returns an error and the handler's state has not changed. *)
Theorem parse_all_or_nothing {S} settings (handler : IAPDUHandler S) buffer (s : S) :
  bytes_ok buffer ->
  exists hs result, decoded settings buffer = Some (hs, result) /\
    (forall i h, hs !! i = Some h -> header_ok h /\ headerIndex (record_of h) = u32 (Z.of_nat i)) /\
    (result = OK /\ forallb (allowed handler) hs = true ->
      APDUParser.Parse settings handler buffer s = s' ← deliver handler hs s; Some (s', OK)) /\
    (~ (result = OK /\ forallb (allowed handler) hs = true) ->
      exists e, e <> OK /\ APDUParser.Parse settings handler buffer s = Some (s, e)).
Proof.
  intros Hb. destruct (Parse_spec settings handler buffer s Hb) as (hs & result & Hd & Hok & Hn & H1 & H2).
  exists hs, result. split_and!; [done| |done|done]. intros i h Hi. split; [by eapply (Forall_lookup_1 _ _ _ _ Hok)|].
  by apply (numbered_lookup 0 hs).
Qed.

(** A read of class 1 followed by the write of the restart bit, given to a handler
    that counts headers and takes reads of class 1 only. *)
Lemma parse_all_or_nothing_witness :
  let count := mkIAPDUHandler (fun _ n => Some (n + 1)%nat) (fun _ gv _ => bool_decide (gv = GroupVariation.Group60Var2)) in
  decoded ParserSettings.NoContents [60; 2; 6; 80; 1; 0; 7; 7] =
    Some ([AllObjectsHeader (mkHeaderRecord (GetRecord 60 2) 6 0); RangeHeader (mkHeaderRecord (GetRecord 80 1) 0 1) (mkRange 7 7)], OK) /\
  exists e, e <> OK /\ APDUParser.Parse ParserSettings.NoContents count [60; 2; 6; 80; 1; 0; 7; 7] 0%nat = Some (0%nat, e).
Proof.
  intros count. split; [vm_compute; reflexivity|].
  destruct (parse_all_or_nothing ParserSettings.NoContents count [60; 2; 6; 80; 1; 0; 7; 7] 0%nat) as (hs & result & H1 & _ & _ & H3).
  - repeat constructor; unfold is_u8; lia.
  - apply H3. vm_compute in H1. injection H1 as <- <-. intros [_ H]. vm_compute in H. discriminate H.
Defined.
