(* ===== verification/HeaderWriter.v ===== *)
(** * HeaderWriter: writing object headers into a fragment
    (opendnp3/app/HeaderWriter, RangeWriteIterator, CountWriteIterator,
    PrefixedWriteIterator, BitfieldRangeWriteIterator, APDUBuilders)

    A [HeaderWriter] has a pointer to the window of a fragment that is not written
    yet; an iterator keeps a copy of the window at the place where the count or
    the range goes and fills it in when it is destroyed.  All windows lie in one
    array, so the state of a writer is that array and its windows. *)

From S2P Require Import Prelude Slices Serialization LinkFrame AppHeader Objects ObjectParser.

Open Scope Z_scope.

Record Writer := mkWriter { wr_array : bytes; position : View; mark : option View }.

Abbreviation WM := (SM Writer).

Definition set_position (v : View) (w : Writer) : Writer := mkWriter (wr_array w) v (mark w).

(** [WSlice::Advance] of the window. *)
Definition Advance (count : nat) : WM unit := modify (fun w => set_position (APDUWrapper.advance (position w) count) w).

(** A store through the pointer of a window; nothing compares it with the size. *)
Definition store_at (pos : nat) (data : bytes) : WM unit := fun w =>
  m ← mem_write (wr_array w) pos data; Some (mkWriter m (position w) (mark w), tt).

(** [Serializer::WriteBuffer(position, v)] *)
Definition WriteBuffer (s : Serializer) (v : Z) : WM unit :=
  p ← get position;
  _ ← store_at (v_pos p) (encode s v);
  Advance (SIZE s).

(** ** Serializers of objects *)

Record GroupVariationID := mkGroupVariationID { id_group : Z; id_variation : Z }.

(** [ID()] of an object class. *)
Definition ID (gv : GroupVariation.t) : GroupVariationID :=
  mkGroupVariationID (Z.shiftr (GroupVariation.ToType gv) 8) (Z.land (GroupVariation.ToType gv) 0xFF).

Record DNP3Serializer := mkDNP3Serializer {
  id : GroupVariationID;
  ds_size : nat;
  pWriteFunc : Value -> WSlice -> option (WSlice * bool)
}.

(** [Inst()] of an object class: its fields are written with [Format::Many]. *)
Definition Inst (gv : GroupVariation.t) : DNP3Serializer :=
  mkDNP3Serializer (ID gv) (Size gv) (fun value dest =>
    match value with
    | Fields vs => FormatMany (combine (fields gv) vs) dest
    | _ => None
    end).

Module OctetStringSerializer.

Definition Write (value : Value) (dest : WSlice) : option (WSlice * bool) :=
  match value with
  | Octets data =>
      if (ws_size dest <? length data)%nat then Some (dest, false)
      else '(dest, _) ← CopyTo data dest; Some (dest, true)
  | _ => None
  end.

Definition init (isEvent : bool) (size : Z) : DNP3Serializer :=
  mkDNP3Serializer (mkGroupVariationID (if isEvent then 111 else 110) size) (Z.to_nat size) Write.

End OctetStringSerializer.

(** [serializer.Write(value, *pPosition)] *)
Definition SerializerWrite (serializer : DNP3Serializer) (value : Value) : WM bool := fun w =>
  '(d, ok) ← pWriteFunc serializer value (mkWSlice (wr_array w) (v_pos (position w)) (v_size (position w)));
  Some (mkWriter (ws_array d) (mkView (ws_pos d) (ws_size d)) (mark w), ok).

(** ** The iterators

    [wrap] is the increment of a counter that has the type of the index. *)

Definition wrap (s : Serializer) (v : Z) : Z := v mod (Max s + 1).

Module PrefixedWriteIterator.

Record t := mk {
  serializer : DNP3Serializer;
  sizeOfTypePlusIndex : nat;
  count : Z;
  isValid : bool;
  countPosition : View
}.

Definition Null : t := mk (mkDNP3Serializer (mkGroupVariationID 0xFF 0xFF) 0 (fun _ _ => None)) 0 0 false (mkView 0 0).

Definition init (PrefixType : Serializer) (serializer : DNP3Serializer) : WM t :=
  p ← get position;
  let isValid := (SIZE PrefixType <=? v_size p)%nat in
  _ ← (if isValid then Advance (SIZE PrefixType) else mret tt);
  mret (mk serializer (ds_size serializer + SIZE PrefixType) 0 isValid p).

Definition Write (PrefixType : Serializer) (it : t) (value : Value) (index : Z) : WM (t * bool) :=
  p ← get position;
  if isValid it && (sizeOfTypePlusIndex it <=? v_size p)%nat then
    _ ← WriteBuffer PrefixType index;
    _ ← SerializerWrite (serializer it) value;
    mret (mk (serializer it) (sizeOfTypePlusIndex it) (wrap PrefixType (count it + 1)) true (countPosition it), true)
  else mret (it, false).

(** The destructor. *)
Definition destroy (PrefixType : Serializer) (it : t) : WM unit :=
  if isValid it then store_at (v_pos (countPosition it)) (encode PrefixType (count it)) else mret tt.

End PrefixedWriteIterator.

Module CountWriteIterator.

Record t := mk { count : Z; serializer : DNP3Serializer; isValid : bool; countPosition : View }.

Definition Null : t := mk 0 (mkDNP3Serializer (mkGroupVariationID 0xFF 0xFF) 0 (fun _ _ => None)) false (mkView 0 0).

Definition init (CountType : Serializer) (serializer : DNP3Serializer) : WM t :=
  p ← get position;
  let isValid := (SIZE CountType <=? v_size p)%nat in
  _ ← (if isValid then Advance (SIZE CountType) else mret tt);
  mret (mk 0 serializer isValid p).

Definition Write (CountType : Serializer) (it : t) (value : Value) : WM (t * bool) :=
  p ← get position;
  if isValid it && (ds_size (serializer it) <=? v_size p)%nat && (count it <? Max CountType) then
    _ ← SerializerWrite (serializer it) value;
    mret (mk (wrap CountType (count it + 1)) (serializer it) true (countPosition it), true)
  else mret (it, false).

(** The destructor; [Format::Write] looks at the size of the window. *)
Definition destroy (CountType : Serializer) (it : t) : WM unit :=
  if isValid it && (SIZE CountType <=? v_size (countPosition it))%nat
  then store_at (v_pos (countPosition it)) (encode CountType (count it)) else mret tt.

End CountWriteIterator.

Module RangeWriteIterator.

(** [range] is the window after the start was written. *)
Record t := mk { start : Z; serializer : DNP3Serializer; count : Z; isValid : bool; range : View }.

Definition Null : t := mk 0 (mkDNP3Serializer (mkGroupVariationID 0xFF 0xFF) 0 (fun _ _ => None)) 0 false (mkView 0 0).

Definition init (IndexType : Serializer) (start_ : Z) (serializer : DNP3Serializer) : WM t :=
  p ← get position;
  let isValid := (2 * SIZE IndexType <=? v_size p)%nat in
  if isValid then
    _ ← store_at (v_pos p) (encode IndexType start_);
    _ ← Advance (2 * SIZE IndexType);
    mret (mk start_ serializer 0 true (APDUWrapper.advance p (SIZE IndexType)))
  else mret (mk start_ serializer 0 false p).

Definition Write (IndexType : Serializer) (it : t) (value : Value) : WM (t * bool) :=
  p ← get position;
  if isValid it && (ds_size (serializer it) <=? v_size p)%nat && (count it <=? Max IndexType) then
    _ ← SerializerWrite (serializer it) value;
    mret (mk (start it) (serializer it) (u32 (count it + 1)) true (range it), true)
  else mret (it, false).

(** The destructor. *)
Definition destroy (IndexType : Serializer) (it : t) : WM unit :=
  if isValid it && (0 <? count it) then
    let stop := u32 (start it + count it - 1) in
    store_at (v_pos (range it)) (encode IndexType (wrap IndexType stop))
  else mret tt.

End RangeWriteIterator.

Module BitfieldRangeWriteIterator.

(** [count] has the type of the index. *)
Record t := mk { start : Z; count : Z; maxCount : Z; isValid : bool; range : View }.

Definition Null : t := mk 0 0 0 false (mkView 0 0).

Definition init (IndexType : Serializer) (start_ : Z) : WM t :=
  p ← get position;
  let isValid := (2 * SIZE IndexType <=? v_size p)%nat in
  if isValid then
    _ ← store_at (v_pos p) (encode IndexType start_);
    _ ← Advance (2 * SIZE IndexType);
    p' ← get position;
    mret (mk start_ 0 (u32 (Z.of_nat (v_size p') * 8)) true (APDUWrapper.advance p (SIZE IndexType)))
  else mret (mk start_ 0 0 false p).

(** A load through the pointer of the window. *)
Definition fetch (byte : nat) : WM Z := fun w =>
  d ← mem_read (wr_array w) (v_pos (position w) + byte) 1; Some (w, d !!! 0%nat).

Definition Write (IndexType : Serializer) (it : t) (value : bool) : WM (t * bool) :=
  if isValid it && (count it <? maxCount it) then
    p ← get position;
    let byte := Z.to_nat (count it / 8) in
    let bit := count it mod 8 in
    _ ← (if bit =? 0 then store_at (v_pos p + byte) [0] else mret tt);
    _ ← (if value then b ← fetch byte; store_at (v_pos p + byte) [u8 (Z.lor b (Z.shiftl 1 bit))] else mret tt);
    mret (mk (start it) (wrap IndexType (count it + 1)) (maxCount it) true (range it), true)
  else mret (it, false).

(** The destructor. *)
Definition destroy (IndexType : Serializer) (it : t) : WM unit :=
  if isValid it && (0 <? count it) then
    let stop := wrap IndexType (start it + count it - 1) in
    _ ← (if (SIZE IndexType <=? v_size (range it))%nat
         then store_at (v_pos (range it)) (encode IndexType stop) else mret tt);
    let num := count it / 8 in
    let num := if 0 <? count it mod 8 then num + 1 else num in
    Advance (Z.to_nat num)
  else mret tt.

End BitfieldRangeWriteIterator.

(** ** HeaderWriter *)

Module HeaderWriter.

Definition Remaining : WM nat := get (fun w => v_size (position w)).

Definition Mark : WM unit := modify (fun w => mkWriter (wr_array w) (position w) (Some (position w))).

Definition Rollback : WM bool := fun w =>
  match mark w with
  | Some m => Some (mkWriter (wr_array w) m None, true)
  | None => Some (w, false)
  end.

Definition WriteHeader (id : GroupVariationID) (qc : QualifierCode) : WM bool :=
  p ← get position;
  if (v_size p <? 3)%nat then mret false
  else
    _ ← WriteBuffer UInt8 (id_group id);
    _ ← WriteBuffer UInt8 (id_variation id);
    _ ← WriteBuffer UInt8 (QualifierCodeToType qc);
    mret true.

Definition WriteHeaderWithReserve (id : GroupVariationID) (qc : QualifierCode) (reserve : nat) : WM bool :=
  p ← get position;
  if (v_size p <? 3 + reserve)%nat then mret false else WriteHeader id qc.

Definition WriteRangeHeader (IndexType : Serializer) (qc : QualifierCode) (gvId : GroupVariationID) (start stop : Z) : WM bool :=
  ok ← WriteHeaderWithReserve gvId qc (2 * SIZE IndexType);
  if (ok : bool) then
    _ ← WriteBuffer IndexType start;
    _ ← WriteBuffer IndexType stop;
    mret true
  else mret false.

Definition WriteCountHeader (IndexType : Serializer) (qc : QualifierCode) (gvId : GroupVariationID) (count : Z) : WM bool :=
  ok ← WriteHeaderWithReserve gvId qc (SIZE IndexType);
  if (ok : bool) then
    _ ← WriteBuffer IndexType count;
    mret true
  else mret false.

(** [WriteSingleValue] for an object class. *)
Definition WriteSingleValue (CountType : Serializer) (qc : QualifierCode) (gv : GroupVariation.t) (value : Value) : WM bool :=
  ok ← WriteHeaderWithReserve (ID gv) qc (SIZE CountType + Size gv);
  if (ok : bool) then
    _ ← WriteBuffer CountType 1;
    _ ← SerializerWrite (Inst gv) value;
    mret true
  else mret false.

Definition WriteSingleIndexedValue (CountType : Serializer) (qc : QualifierCode) (serializer : DNP3Serializer) (value : Value)
    (index : Z) : WM bool :=
  ok ← WriteHeaderWithReserve (id serializer) qc (2 * SIZE CountType + ds_size serializer);
  if (ok : bool) then
    _ ← WriteBuffer CountType 1;
    _ ← WriteBuffer CountType index;
    _ ← SerializerWrite serializer value;
    mret true
  else mret false.

Definition IterateOverRange (IndexType : Serializer) (qc : QualifierCode) (serializer : DNP3Serializer) (start : Z)
    : WM RangeWriteIterator.t :=
  ok ← WriteHeaderWithReserve (id serializer) qc (2 * SIZE IndexType + ds_size serializer);
  if (ok : bool) then RangeWriteIterator.init IndexType start serializer else mret RangeWriteIterator.Null.

Definition IterateOverCount (CountType : Serializer) (qc : QualifierCode) (serializer : DNP3Serializer) : WM CountWriteIterator.t :=
  ok ← WriteHeaderWithReserve (id serializer) qc (SIZE CountType + ds_size serializer);
  if (ok : bool) then CountWriteIterator.init CountType serializer else mret CountWriteIterator.Null.

Definition IterateOverSingleBitfield (IndexType : Serializer) (id : GroupVariationID) (qc : QualifierCode) (start : Z)
    : WM BitfieldRangeWriteIterator.t :=
  ok ← WriteHeaderWithReserve id qc (2 * SIZE IndexType + 1);
  if (ok : bool) then BitfieldRangeWriteIterator.init IndexType start else mret BitfieldRangeWriteIterator.Null.

Definition IterateOverCountWithPrefix (PrefixType : Serializer) (qc : QualifierCode) (serializer : DNP3Serializer)
    : WM PrefixedWriteIterator.t :=
  ok ← WriteHeaderWithReserve (id serializer) qc (2 * SIZE PrefixType + ds_size serializer);
  if (ok : bool) then PrefixedWriteIterator.init PrefixType serializer else mret PrefixedWriteIterator.Null.

Definition IterateOverCountWithPrefixAndCTO (PrefixType : Serializer) (qc : QualifierCode) (serializer : DNP3Serializer)
    (cto_gv : GroupVariation.t) (cto : Value) : WM PrefixedWriteIterator.t :=
  _ ← Mark;
  ok ← WriteSingleValue UInt8 UINT8_CNT cto_gv cto;
  if (ok : bool) then
    iter ← IterateOverCountWithPrefix PrefixType qc serializer;
    _ ← (if negb (PrefixedWriteIterator.isValid iter) then Rollback else mret false);
    mret iter
  else mret PrefixedWriteIterator.Null.

End HeaderWriter.

(** [APDUWrapper::GetWriter]: what is done with the writer of a fragment. *)
Definition with_writer {A} (apdu : APDUWrapper) (m : WM A) : option (APDUWrapper * A) :=
  '(w, a) ← m (mkWriter (apdu_array apdu) (remaining apdu) None);
  Some (mkAPDUWrapper (valid apdu) (wr_array w) (buffer apdu) (position w), a).

(** ** APDUBuilders *)

Module build.

Definition WriteClassHeaders (classes : ClassField) : WM bool :=
  ok ← (if ClassField.HasClass1 classes then HeaderWriter.WriteHeader (ID GroupVariation.Group60Var2) ALL_OBJECTS else mret true);
  if negb ok then mret false else
  ok ← (if ClassField.HasClass2 classes then HeaderWriter.WriteHeader (ID GroupVariation.Group60Var3) ALL_OBJECTS else mret true);
  if negb ok then mret false else
  ok ← (if ClassField.HasClass3 classes then HeaderWriter.WriteHeader (ID GroupVariation.Group60Var4) ALL_OBJECTS else mret true);
  if negb ok then mret false else
  ok ← (if ClassField.HasClass0 classes then HeaderWriter.WriteHeader (ID GroupVariation.Group60Var1) ALL_OBJECTS else mret true);
  if negb ok then mret false else
  mret true.

Definition ClassRequest (request : APDUWrapper) (fc : FunctionCode) (classes : ClassField) (seq : Z) : option APDUWrapper :=
  request ← APDUWrapper.SetControl request (mkAppControlField true true false false seq);
  request ← APDUWrapper.SetFunction request fc;
  '(request, _) ← with_writer request (WriteClassHeaders classes);
  Some request.

Definition ReadIntegrity (request : APDUWrapper) (classes : ClassField) (seq : Z) : option APDUWrapper :=
  ClassRequest request READ classes seq.

Definition ReadAllObjects (request : APDUWrapper) (gvId : GroupVariationID) (seq : Z) : option APDUWrapper :=
  request ← APDUWrapper.SetControl request (mkAppControlField true true false false seq);
  request ← APDUWrapper.SetFunction request READ;
  '(request, _) ← with_writer request (HeaderWriter.WriteHeader gvId ALL_OBJECTS);
  Some request.

Definition DisableUnsolicited (request : APDUWrapper) (seq : Z) : option APDUWrapper :=
  ClassRequest request DISABLE_UNSOLICITED ClassField.AllEventClasses seq.

Definition EnableUnsolicited (request : APDUWrapper) (classes : ClassField) (seq : Z) : option APDUWrapper :=
  ClassRequest request ENABLE_UNSOLICITED classes seq.

(** [IINBit::DEVICE_RESTART] is 7. *)
Definition ClearRestartIIN (request : APDUWrapper) (seq : Z) : option APDUWrapper :=
  request ← APDUWrapper.SetFunction request WRITE;
  request ← APDUWrapper.SetControl request (mkAppControlField true true false false seq);
  '(request, _) ← with_writer request (
    iter ← HeaderWriter.IterateOverSingleBitfield UInt8 (mkGroupVariationID 80 1) UINT8_START_STOP 7;
    '(iter, _) ← BitfieldRangeWriteIterator.Write UInt8 iter false;
    BitfieldRangeWriteIterator.destroy UInt8 iter);
  Some request.

End build.
