(* ===== verification/HeaderRoundtrip.v ===== *)
(** * HeaderRoundtrip: what the HeaderWriter writes, the parser reads

    [wrote w w' data]: between two states of a writer exactly [data] was written
    at its position, which moved past it.  Every operation is specified by what it
    wrote; the encodings are then given to the parser of [ObjectParser]. *)

From S2P Require Import Prelude Slices Serialization LinkFrame AppHeader Objects ObjectParser HeaderWriter.
From Stdlib Require Import ZifyNat.

Open Scope Z_scope.

(** ** What was written *)

Section Wrote.
Implicit Types w : Writer.
Implicit Types data d : bytes.

(** The window lies in the array, which is not so long that its bits cannot be
    counted with 32 bits. *)
Definition wwf w : Prop :=
  (v_pos (position w) + v_size (position w) <= length (wr_array w))%nat /\ Z.of_nat (length (wr_array w)) < 536870912.

Definition wrote w w' data : Prop :=
  (length data <= v_size (position w))%nat /\
  mem_write (wr_array w) (v_pos (position w)) data = Some (wr_array w') /\
  position w' = mkView (v_pos (position w) + length data) (v_size (position w) - length data).

Lemma wrote_wf w w' data : wwf w -> wrote w w' data -> wwf w'.
Proof.
  unfold wwf. intros Hw (Hl & Hm & ->). cbn. pose proof (mem_write_length _ _ _ _ Hm). lia.
Qed.

Lemma wrote_nil w w' : wwf w -> wr_array w' = wr_array w -> position w' = position w -> wrote w w' [].
Proof.
  unfold wwf. intros Hw Ha Hp. split; [cbn; lia|]. split; [rewrite Ha; apply mem_write_nil; lia|].
  rewrite Hp. cbn. destruct (position w). cbn. f_equal; lia.
Qed.

Lemma wrote_trans w w1 w2 d1 d2 : wrote w w1 d1 -> wrote w1 w2 d2 -> wrote w w2 (d1 ++ d2).
Proof.
  intros (Hl1 & Hm1 & Hp1) (Hl2 & Hm2 & Hp2). rewrite Hp1 in *. cbn in *. split; [len|]. split.
  - by eapply mem_write_app.
  - rewrite Hp2. f_equal; len.
Qed.

Lemma wrote_size w w' data : wrote w w' data -> v_size (position w') = (v_size (position w) - length data)%nat.
Proof. by intros (_ & _ & ->). Qed.

Lemma advance_le v n : (n <= v_size v)%nat -> APDUWrapper.advance v n = mkView (v_pos v + n) (v_size v - n).
Proof. intros H. unfold APDUWrapper.advance. by destruct (Nat.ltb_spec (v_size v) n); [lia|]. Qed.

Lemma mem_write_self (m : bytes) off n : (off + n <= length m)%nat -> mem_write m off (take n (drop off m)) = Some m.
Proof.
  intros Hl. assert (Hn : length (take n (drop off m)) = n) by len.
  rewrite mem_write_Some by lia. by rewrite Hn, <- drop_drop, !take_drop.
Qed.

(** What is in the window already counts as written when the position moves past it. *)
Lemma Advance_wp w n :
  wwf w -> (n <= v_size (position w))%nat ->
  wp (Advance n) w (fun _ w' => exists old, length old = n /\ wrote w w' old).
Proof.
  unfold wwf. intros Hw Hn. unfold Advance. rewrite wp_modify.
  assert (Hl : length (take n (drop (v_pos (position w)) (wr_array w))) = n) by len.
  eexists. split; [exact Hl|]. split; [lia|]. rewrite Hl. cbn. split; [apply mem_write_self; lia|by apply advance_le].
Qed.

Lemma store_at_wp w pos data :
  (pos + length data <= length (wr_array w))%nat ->
  wp (store_at pos data) w (fun _ w' => mem_write (wr_array w) pos data = Some (wr_array w') /\ position w' = position w).
Proof.
  intros Hl. unfold wp, store_at. destruct (mem_write (wr_array w) pos data) as [m|] eqn:Hm; [done|].
  by rewrite mem_write_Some in Hm by done.
Qed.

(** The start of a range is stored before the position moves past the whole range. *)
Lemma store_Advance_wp w data n :
  wwf w -> (length data <= n <= v_size (position w))%nat ->
  wp (_ ← store_at (v_pos (position w)) data; Advance n) w
    (fun _ w' => exists rest, length (data ++ rest) = n /\ wrote w w' (data ++ rest)).
Proof.
  unfold wwf. intros Hw Hn. rewrite wp_bind. eapply wp_mono; [apply store_at_wp; lia|]. intros [] w1 [Hm Hp].
  pose proof (mem_write_length _ _ _ _ Hm) as Hlen. unfold Advance. rewrite wp_modify.
  set (rest := take (n - length data) (drop (v_pos (position w) + length data) (wr_array w1))).
  assert (Hl : length rest = (n - length data)%nat) by (unfold rest; len).
  exists rest. assert (Hln : length (data ++ rest) = n) by len. split; [done|]. split; [lia|]. cbn. split.
  - eapply mem_write_app; [exact Hm|]. apply mem_write_self. lia.
  - rewrite Hp, Hln. apply advance_le. lia.
Qed.

(** Bytes that were written can be changed afterwards. *)
Lemma mem_write_patch m m1 m2 pos a b b' c :
  mem_write m pos (a ++ b ++ c) = Some m1 -> length b' = length b ->
  mem_write m1 (pos + length a) b' = Some m2 -> mem_write m pos (a ++ b' ++ c) = Some m2.
Proof.
  intros H1 Hb H2. unfold mem_write in *. case_bool; try done; [|exfalso; len].
  injection H1 as <-. injection H2 as <-. f_equal.
  rewrite !length_app in *. rewrite <- !app_assoc.
  rewrite (take_app_ge (take pos m)) by len. rewrite (drop_app_ge (take pos m)) by len.
  replace (pos + length a - length (take pos m))%nat with (length a) by len.
  replace (pos + length a + length b' - length (take pos m))%nat with (length (a ++ b)) by len.
  rewrite take_app_length, (app_assoc a b), drop_app_length, <- !app_assoc. by rewrite Hb.
Qed.

Lemma wrote_patch w w1 w2 a b b' c :
  wrote w w1 (a ++ b ++ c) -> length b' = length b ->
  mem_write (wr_array w1) (v_pos (position w) + length a) b' = Some (wr_array w2) -> position w2 = position w1 ->
  wrote w w2 (a ++ b' ++ c).
Proof.
  intros (Hl & Hm & Hp) Hb H2 Hp2. split; [len|]. split; [by eapply mem_write_patch|].
  rewrite Hp2, Hp. f_equal; len.
Qed.

Lemma WriteBuffer_wp s v w :
  SerializerOk s -> wwf w -> (SIZE s <= v_size (position w))%nat ->
  wp (WriteBuffer s v) w (fun _ w' => wrote w w' (encode s v)).
Proof.
  intros Hs Hw Hl. pose proof (encode_length v) as He. unfold wwf in Hw. unfold WriteBuffer. wp_go.
  eapply wp_mono; [apply store_at_wp; lia|]. intros _ w1 [Hm Hp]. unfold Advance. rewrite wp_modify.
  split; [lia|]. cbn. split; [done|]. rewrite Hp, He. apply advance_le. lia.
Qed.

End Wrote.

(** ** Objects

    A kind of object is an object class or the octet strings of one length. *)

Inductive Kind := Class (gv : GroupVariation.t) | OctetStatic (n : Z) | OctetEvent (n : Z).

Definition serializer_of (k : Kind) : DNP3Serializer :=
  match k with
  | Class gv => Inst gv
  | OctetStatic n => OctetStringSerializer.init false n
  | OctetEvent n => OctetStringSerializer.init true n
  end.

Definition kind_size (k : Kind) : nat := ds_size (serializer_of k).

(** The values a kind can hold. *)
Definition value_fits (k : Kind) (v : Value) : Prop :=
  match k, v with
  | Class gv, Fields vs => Forall2 (fun s v => Min s <= v <= Max s) (fields gv) vs
  | OctetStatic n, Octets data | OctetEvent n, Octets data => 0 <= n < 256 /\ Z.of_nat (length data) = n /\ bytes_ok data
  | _, _ => False
  end.

Definition encode_value (k : Kind) (v : Value) : bytes :=
  match k, v with
  | Class gv, Fields vs => concat (map (fun sv => encode sv.1 sv.2) (combine (fields gv) vs))
  | _, Octets data => data
  | _, _ => []
  end.

Section Objects.

Lemma combine_fields gv vs :
  Forall2 (fun s v => Min s <= v <= Max s) (fields gv) vs ->
  Forall (fun sv => SerializerOk sv.1) (combine (fields gv) vs) /\
  Forall (fun sv => Min sv.1 <= sv.2 <= Max sv.1) (combine (fields gv) vs) /\
  map fst (combine (fields gv) vs) = fields gv /\ map snd (combine (fields gv) vs) = vs.
Proof.
  pose proof (fields_ok gv) as Hok. revert Hok. generalize (fields gv). intros ss Hok H. revert Hok.
  induction H as [|s v ss vs Hv _ IH]; intros Hok; [done|]. apply Forall_cons_1 in Hok as [Hs Hok].
  destruct (IH Hok) as (H1 & H2 & H3 & H4). cbn. split_and!; [by constructor..| |]; by f_equal.
Qed.

Lemma encode_value_length k v : value_fits k v -> length (encode_value k v) = kind_size k.
Proof.
  destruct k as [gv|n|n], v as [vs| | |data]; cbn; try done; [|lia|lia].
  intros Hv. destruct (combine_fields gv vs Hv) as (H1 & _ & H3 & _).
  by rewrite encodings_length, H3, Size_fields.
Qed.

Lemma encode_value_bytes k v : value_fits k v -> bytes_ok (encode_value k v).
Proof.
  destruct k as [gv|n|n], v as [vs| | |data]; cbn; try done; [|by intros (? & ? & ?)|by intros (? & ? & ?)].
  intros Hv. destruct (combine_fields gv vs Hv) as (H1 & _ & _ & _). apply Forall_concat, Forall_map.
  eapply Forall_impl; [|exact H1]. intros [s v] Hs. cbn. apply encode_bytes.
Qed.

Lemma SerializerWrite_wp k v w :
  value_fits k v -> wwf w -> (kind_size k <= v_size (position w))%nat ->
  wp (SerializerWrite (serializer_of k) v) w (fun _ w' => wrote w w' (encode_value k v)).
Proof.
  intros Hv Hw Hl. pose proof (encode_value_length k v Hv) as Hlen. unfold wwf in Hw.
  assert (Hp : exists a, mem_write (wr_array w) (v_pos (position w)) (encode_value k v) = Some a /\
    pWriteFunc (serializer_of k) v (mkWSlice (wr_array w) (v_pos (position w)) (v_size (position w))) =
      Some (mkWSlice a (v_pos (position w) + kind_size k) (v_size (position w) - kind_size k), true)).
  { assert (Hoct : forall data, length data = kind_size k -> encode_value k v = data ->
      pWriteFunc (serializer_of k) v = OctetStringSerializer.Write (Octets data) -> exists a,
      mem_write (wr_array w) (v_pos (position w)) (encode_value k v) = Some a /\
      pWriteFunc (serializer_of k) v (mkWSlice (wr_array w) (v_pos (position w)) (v_size (position w))) =
      Some (mkWSlice a (v_pos (position w) + kind_size k) (v_size (position w) - kind_size k), true)).
    { intros data Hd He Hwr. rewrite He, Hwr. cbn [OctetStringSerializer.Write ws_size].
      destruct (Nat.ltb_spec (v_size (position w)) (length data)); [lia|].
      destruct (CopyTo_spec data (mkWSlice (wr_array w) (v_pos (position w)) (v_size (position w))) (proj1 Hw) ltac:(cbn; lia))
        as (a & Ha & ->). exists a. cbn in *. by rewrite Hd. }
    destruct k as [gv|n|n], v as [vs| | |data]; try done;
      [|apply (Hoct data); [apply Hlen|done|done]|apply (Hoct data); [apply Hlen|done|done]].
    destruct (combine_fields gv vs Hv) as (H1 & _ & H3 & _). unfold kind_size in *. cbn [serializer_of Inst pWriteFunc ds_size encode_value] in *.
    rewrite Size_fields in *.
    destruct (format_many_spec (combine (fields gv) vs) (mkWSlice (wr_array w) (v_pos (position w)) (v_size (position w))) H1 (proj1 Hw))
      as (a & Ha & Hf); [cbn [ws_size]; by rewrite H3|].
    exists a. split; [exact Ha|]. rewrite Hf. cbn [ws_pos ws_size]. by rewrite H3. }
  destruct Hp as (a & Ha & Hf). unfold wp, SerializerWrite. rewrite Hf. cbn [mbind option_bind].
  split; [lia|]. cbn. by rewrite Hlen.
Qed.

End Objects.

(** ** Object headers *)

Definition encode_header (id : GroupVariationID) (qc : QualifierCode) : bytes :=
  [u8 (id_group id); u8 (id_variation id); u8 (QualifierCodeToType qc)].

Section Headers.

Lemma WriteHeader_wp id qc w :
  wwf w -> (3 <= v_size (position w))%nat ->
  wp (HeaderWriter.WriteHeader id qc) w (fun ok w' => ok = true /\ wrote w w' (encode_header id qc)).
Proof.
  intros Hw Hl. unfold HeaderWriter.WriteHeader. wp_go. destruct (Nat.ltb_spec (v_size (position w)) 3); [lia|]. wp_go.
  eapply wp_mono; [apply (WriteBuffer_wp UInt8); [apply _|done|cbn; lia]|]. intros [] w1 H1.
  pose proof (wrote_wf _ _ _ Hw H1) as Hw1. pose proof (wrote_size _ _ _ H1) as Hs1. cbn in Hs1. wp_go.
  eapply wp_mono; [apply (WriteBuffer_wp UInt8); [apply _|done|cbn; lia]|]. intros [] w2 H2.
  pose proof (wrote_wf _ _ _ Hw1 H2) as Hw2. pose proof (wrote_size _ _ _ H2) as Hs2. cbn in Hs2. wp_go.
  eapply wp_mono; [apply (WriteBuffer_wp UInt8); [apply _|done|cbn; lia]|]. intros [] w3 H3. wp_go.
  split; [done|]. exact (wrote_trans _ _ _ _ _ H1 (wrote_trans _ _ _ _ _ H2 H3)).
Qed.

(** With a reservation the header is written exactly when there is room for all of it. *)
Lemma WithReserve_wp id qc reserve w Q :
  wwf w ->
  ((v_size (position w) < 3 + reserve)%nat -> Q false w) ->
  ((3 + reserve <= v_size (position w))%nat ->
     forall w', wrote w w' (encode_header id qc) -> wwf w' -> (reserve <= v_size (position w'))%nat -> Q true w') ->
  wp (HeaderWriter.WriteHeaderWithReserve id qc reserve) w Q.
Proof.
  intros Hw Hf Ht. unfold HeaderWriter.WriteHeaderWithReserve. wp_go.
  destruct (Nat.ltb_spec (v_size (position w)) (3 + reserve)) as [Hlt|Hge]; [by apply Hf|].
  eapply wp_mono; [apply WriteHeader_wp; [done|lia]|]. intros ok w' [-> H]. apply Ht; [done..| |].
  - by eapply wrote_wf.
  - rewrite (wrote_size _ _ _ H). cbn. lia.
Qed.

End Headers.

(** ** Requests to a writer *)

Inductive Width := W8 | W16.

Definition index_type (i : Width) : Serializer := match i with W8 => UInt8 | W16 => UInt16 end.

Definition count_qualifier (i : Width) : QualifierCode := match i with W8 => UINT8_CNT | W16 => UINT16_CNT end.

Definition range_qualifier (i : Width) : QualifierCode := match i with W8 => UINT8_START_STOP | W16 => UINT16_START_STOP end.

Definition prefix_qualifier (i : Width) : QualifierCode :=
  match i with W8 => UINT8_CNT_UINT8_INDEX | W16 => UINT16_CNT_UINT16_INDEX end.

(** One use of a writer, as its clients use it: an iterator is written to until it
    refuses or there are no more objects, and destroyed. *)
Inductive Request :=
  | WAll (gv : GroupVariation.t)
  | WCount (i : Width) (gv : GroupVariation.t) (count : Z)
  | WRange (i : Width) (gv : GroupVariation.t) (start stop : Z)
  | WSingle (gv : GroupVariation.t) (v : Value)
  | WIndexed (i : Width) (k : Kind) (index : Z) (v : Value)
  | WCounted (i : Width) (gv : GroupVariation.t) (vs : list Value)
  | WValues (i : Width) (k : Kind) (start : Z) (vs : list Value)
  | WBits (i : Width) (gv : GroupVariation.t) (start : Z) (bits : list bool)
  | WPrefixed (i : Width) (k : Kind) (ivs : list (Z * Value)).

Fixpoint put_all {It X} (step : It -> X -> WM (It * bool)) (it : It) (xs : list X) : WM (It * nat) :=
  match xs with
  | [] => mret (it, 0%nat)
  | x :: xs =>
      '(it, ok) ← step it x;
      if (ok : bool) then '(it, n) ← put_all step it xs; mret (it, S n) else mret (it, 0%nat)
  end.

Definition one (ok : bool) : nat := if ok then 1 else 0.

(** The number of objects that were written; a header without objects counts as
    one. *)
Definition perform (req : Request) : WM nat :=
  match req with
  | WAll gv => ok ← HeaderWriter.WriteHeader (ID gv) ALL_OBJECTS; mret (one ok)
  | WCount i gv count => ok ← HeaderWriter.WriteCountHeader (index_type i) (count_qualifier i) (ID gv) count; mret (one ok)
  | WRange i gv start stop =>
      ok ← HeaderWriter.WriteRangeHeader (index_type i) (range_qualifier i) (ID gv) start stop; mret (one ok)
  | WSingle gv v => ok ← HeaderWriter.WriteSingleValue UInt8 UINT8_CNT gv v; mret (one ok)
  | WIndexed i k index v =>
      ok ← HeaderWriter.WriteSingleIndexedValue (index_type i) (prefix_qualifier i) (serializer_of k) v index; mret (one ok)
  | WCounted i gv vs =>
      it ← HeaderWriter.IterateOverCount (index_type i) (count_qualifier i) (Inst gv);
      '(it, n) ← put_all (CountWriteIterator.Write (index_type i)) it vs;
      _ ← CountWriteIterator.destroy (index_type i) it; mret n
  | WValues i k start vs =>
      it ← HeaderWriter.IterateOverRange (index_type i) (range_qualifier i) (serializer_of k) start;
      '(it, n) ← put_all (RangeWriteIterator.Write (index_type i)) it vs;
      _ ← RangeWriteIterator.destroy (index_type i) it; mret n
  | WBits i gv start bits =>
      it ← HeaderWriter.IterateOverSingleBitfield (index_type i) (ID gv) (range_qualifier i) start;
      '(it, n) ← put_all (BitfieldRangeWriteIterator.Write (index_type i)) it bits;
      _ ← BitfieldRangeWriteIterator.destroy (index_type i) it; mret n
  | WPrefixed i k ivs =>
      it ← HeaderWriter.IterateOverCountWithPrefix (index_type i) (prefix_qualifier i) (serializer_of k);
      '(it, n) ← put_all (fun it iv => PrefixedWriteIterator.Write (index_type i) it iv.2 iv.1) it ivs;
      _ ← PrefixedWriteIterator.destroy (index_type i) it; mret n
  end.

Definition objects (req : Request) : nat :=
  match req with
  | WAll _ | WCount _ _ _ | WRange _ _ _ _ | WSingle _ _ | WIndexed _ _ _ _ => 1
  | WCounted _ _ vs | WValues _ _ _ vs => length vs
  | WBits _ _ _ bits => length bits
  | WPrefixed _ _ ivs => length ivs
  end.

Fixpoint byte_of_bits (bits : list bool) : Z :=
  match bits with
  | [] => 0
  | b :: bits => Z.b2z b + 2 * byte_of_bits bits
  end.

Definition pack (bits : list bool) : bytes :=
  map (fun i => byte_of_bits (take 8 (drop (8 * i) bits))) (seq 0 ((length bits + 7) / 8)).

(** The bytes of a request with its first [n] objects. *)
Definition encode_request (req : Request) (n : nat) : bytes :=
  let range i start := encode (index_type i) start ++ encode (index_type i) (start + Z.of_nat n - 1) in
  match req with
  | WAll gv => encode_header (ID gv) ALL_OBJECTS
  | WCount i gv count => encode_header (ID gv) (count_qualifier i) ++ encode (index_type i) count
  | WRange i gv start stop =>
      encode_header (ID gv) (range_qualifier i) ++ encode (index_type i) start ++ encode (index_type i) stop
  | WSingle gv v => encode_header (ID gv) UINT8_CNT ++ encode UInt8 1 ++ encode_value (Class gv) v
  | WIndexed i k index v =>
      encode_header (id (serializer_of k)) (prefix_qualifier i) ++ encode (index_type i) 1 ++ encode (index_type i) index ++
      encode_value k v
  | WCounted i gv vs =>
      encode_header (ID gv) (count_qualifier i) ++ encode (index_type i) (Z.of_nat n) ++
      concat (map (encode_value (Class gv)) (take n vs))
  | WValues i k start vs =>
      encode_header (id (serializer_of k)) (range_qualifier i) ++ range i start ++ concat (map (encode_value k) (take n vs))
  | WBits i gv start bits => encode_header (ID gv) (range_qualifier i) ++ range i start ++ pack (take n bits)
  | WPrefixed i k ivs =>
      encode_header (id (serializer_of k)) (prefix_qualifier i) ++ encode (index_type i) (Z.of_nat n) ++
      concat (map (fun iv => encode (index_type i) iv.1 ++ encode_value k iv.2) (take n ivs))
  end.

(** The objects fit their fields, and as many of them as the index type can count. *)
Definition request_ok (req : Request) : Prop :=
  match req with
  | WAll _ => True
  | WCount i _ count => 0 < count <= Max (index_type i)
  | WRange i _ start stop => 0 <= start <= stop /\ stop <= Max (index_type i)
  | WSingle gv v => value_fits (Class gv) v
  | WIndexed i k index v => 0 <= index <= Max (index_type i) /\ value_fits k v
  | WCounted i gv vs => vs <> [] /\ Z.of_nat (length vs) <= Max (index_type i) /\ Forall (value_fits (Class gv)) vs
  | WValues i k start vs =>
      vs <> [] /\ 0 <= start /\ start + Z.of_nat (length vs) - 1 <= Max (index_type i) /\ Forall (value_fits k) vs
  | WBits i _ start bits =>
      bits <> [] /\ 0 <= start /\ start + Z.of_nat (length bits) - 1 <= Max (index_type i) /\
      Z.of_nat (length bits) <= Max (index_type i)
  | WPrefixed i k ivs =>
      ivs <> [] /\ Z.of_nat (length ivs) <= Max (index_type i) /\
      Forall (fun iv => 0 <= iv.1 <= Max (index_type i) /\ value_fits k iv.2) ivs
  end.

(** ** Loops over an iterator *)

Section Loops.
Context {It X : Type} (step : It -> X -> WM (It * bool)).
(** The iterator and the writer after some objects, and when one more does not fit. *)
Context (Inv : list X -> It -> Writer -> Prop) (full : nat -> Prop) (ok : X -> Prop) (bound : nat).
Context (Hstep : forall done it w x, Inv done it w -> ok x -> (length done < bound)%nat ->
  wp (step it x) w (fun r w' => if (r.2 : bool) then Inv (done ++ [x]) r.1 w' else Inv done r.1 w' /\ full (length done))).

Lemma put_all_wp xs done it w :
  Inv done it w -> Forall ok xs -> (length done + length xs <= bound)%nat ->
  wp (put_all step it xs) w (fun r w' => (r.2 <= length xs)%nat /\ Inv (done ++ take r.2 xs) r.1 w' /\
    ((r.2 < length xs)%nat -> full (length done + r.2))).
Proof.
  revert done it w. induction xs as [|x xs IH]; intros done it w Hi Hok Hb.
  - cbn [put_all]. wp_go. cbn. rewrite app_nil_r. split_and!; [done|done|lia].
  - apply Forall_cons_1 in Hok as [Hx Hok]. cbn [put_all length] in *. rewrite wp_bind.
    eapply wp_mono; [apply (Hstep done it w x Hi Hx); lia|]. intros [it1 b] w1. cbn [fst snd]. destruct b.
    + intros Hi1. rewrite wp_bind. eapply wp_mono; [apply (IH (done ++ [x]) it1 w1 Hi1 Hok); len|].
      intros [it2 n] w2 (Hn & Hi2 & Hf). cbn [fst snd] in *. wp_go. cbn [fst snd take].
      rewrite <- app_assoc in Hi2. split_and!; [lia|exact Hi2|]. intros Hlt. specialize (Hf ltac:(lia)).
      rewrite length_app in Hf. cbn in Hf. by replace (length done + S n)%nat with (length done + 1 + n)%nat by lia.
    + intros [Hi1 Hf]. wp_go. cbn [fst snd take]. rewrite app_nil_r. split_and!; [lia|done|]. intros _. by rewrite Nat.add_0_r.
Qed.

End Loops.

(** What every request is specified by. *)
Definition performed (req : Request) (w : Writer) (n : nat) (w' : Writer) : Prop :=
  (n <= objects req)%nat /\
  ((n < objects req)%nat -> (v_size (position w) < length (encode_request req (S n)))%nat) /\
  wrote w w' (if decide (n = 0%nat) then [] else encode_request req n).

(** ** Every request writes its encoding *)

Section Requests.

#[export] Instance index_num i : NumOk (index_type i).
Proof. destruct i; [apply OneByte_ok|apply TwoByte_ok]. Qed.

Lemma index_length i v : length (encode (index_type i) v) = SIZE (index_type i).
Proof. apply encode_length. Qed.

Lemma index_size i : (1 <= SIZE (index_type i) <= 2)%nat.
Proof. destruct i; cbn; lia. Qed.

Lemma index_max i : 255 <= Max (index_type i) <= 65535.
Proof. destruct i; cbn; lia. Qed.

Lemma wrap_small i v : 0 <= v <= Max (index_type i) -> wrap (index_type i) v = v.
Proof. intros Hv. apply Z.mod_small. lia. Qed.

Lemma concat_map_snoc {A} (f : A -> bytes) xs x : concat (map f (xs ++ [x])) = concat (map f xs) ++ f x.
Proof. rewrite map_app, concat_app. cbn. by rewrite app_nil_r. Qed.

(** A sequence of writes after a header. *)
Ltac write_buffer H :=
  wp_go; eapply wp_mono; [apply WriteBuffer_wp; [apply _|done|]|];
  [|let w := fresh "w" in intros [] w H;
    lazymatch type of H with wrote ?a ?b _ =>
      assert (wwf b) by (eapply wrote_wf; eassumption); pose proof (wrote_size _ _ _ H) end].

Ltac write_value H :=
  wp_go; eapply wp_mono; [apply SerializerWrite_wp; [done|done|]|];
  [|let a := fresh in let w := fresh "w" in intros a w H; cbv beta in H;
    lazymatch type of H with wrote ?a ?b _ =>
      assert (wwf b) by (eapply wrote_wf; eassumption); pose proof (wrote_size _ _ _ H) end].

Lemma refused req w :
  wwf w -> (0 < objects req)%nat -> (v_size (position w) < length (encode_request req 1))%nat -> performed req w 0 w.
Proof. intros Hw Ho Hl. split; [lia|]. split; [done|]. by apply wrote_nil. Qed.

Lemma granted req w w' : objects req = 1%nat -> wrote w w' (encode_request req 1) -> performed req w 1 w'.
Proof. intros Ho Hw. split; [lia|]. split; [lia|]. done. Qed.

Lemma WAll_performed gv w : wwf w -> wp (perform (WAll gv)) w (performed (WAll gv) w).
Proof.
  intros Hw. cbn [perform]. rewrite wp_bind. destruct (decide (3 <= v_size (position w))%nat).
  - eapply wp_mono; [by apply WriteHeader_wp|]. intros ok w' [-> H]. wp_go. by apply granted.
  - unfold HeaderWriter.WriteHeader. wp_go. destruct (Nat.ltb_spec (v_size (position w)) 3); [|lia]. wp_go.
    apply refused; cbn; [done|lia|lia].
Qed.

Lemma WCount_performed i gv count w : wwf w -> wp (perform (WCount i gv count)) w (performed (WCount i gv count) w).
Proof.
  intros Hw. cbn [perform]. unfold HeaderWriter.WriteCountHeader. rewrite !wp_bind. apply WithReserve_wp; [done| |].
  - intros Hl. wp_go. apply refused; [done|cbn; lia|]. cbn [encode_request]. rewrite length_app, index_length. cbn. lia.
  - intros Hl w1 W1 Hw1 Hs. write_buffer W2; [done|]. wp_go. apply granted; [done|]. exact (wrote_trans _ _ _ _ _ W1 W2).
Qed.

Lemma WRange_performed i gv start stop w : wwf w -> wp (perform (WRange i gv start stop)) w (performed (WRange i gv start stop) w).
Proof.
  intros Hw. cbn [perform]. unfold HeaderWriter.WriteRangeHeader. rewrite !wp_bind. apply WithReserve_wp; [done| |].
  - intros Hl. wp_go. apply refused; [done|cbn; lia|]. cbn [encode_request]. rewrite !length_app, !index_length. cbn. lia.
  - intros Hl w1 W1 Hw1 Hs. write_buffer W2; [lia|]. rewrite index_length in *. write_buffer W3; [lia|]. wp_go. apply granted; [done|].
    exact (wrote_trans _ _ _ _ _ W1 (wrote_trans _ _ _ _ _ W2 W3)).
Qed.

Lemma WSingle_performed gv v w :
  wwf w -> value_fits (Class gv) v -> wp (perform (WSingle gv v)) w (performed (WSingle gv v) w).
Proof.
  intros Hw Hv. pose proof (encode_value_length _ _ Hv) as Hlen. change (kind_size (Class gv)) with (Size gv) in Hlen.
  cbn [perform]. unfold HeaderWriter.WriteSingleValue. rewrite !wp_bind. apply WithReserve_wp; [done| |].
  - intros Hl. wp_go. apply refused; [done|cbn; lia|]. cbn [encode_request]. rewrite !length_app, Hlen. cbn [length encode UInt8 encode_header SIZE] in *. lia.
  - intros Hl w1 W1 Hw1 Hs. write_buffer W2; [cbn [SIZE UInt8] in *; lia|]. change (Inst gv) with (serializer_of (Class gv)).
    write_value W3; [change (kind_size (Class gv)) with (Size gv); cbn [length encode UInt8 SIZE] in *; lia|]. wp_go. apply granted; [done|].
    exact (wrote_trans _ _ _ _ _ W1 (wrote_trans _ _ _ _ _ W2 W3)).
Qed.

Lemma WIndexed_performed i k index v w :
  wwf w -> value_fits k v -> wp (perform (WIndexed i k index v)) w (performed (WIndexed i k index v) w).
Proof.
  intros Hw Hv. pose proof (encode_value_length _ _ Hv) as Hlen. unfold kind_size in Hlen.
  cbn [perform]. unfold HeaderWriter.WriteSingleIndexedValue. rewrite !wp_bind. apply WithReserve_wp; [done| |].
  - intros Hl. wp_go. apply refused; [done|cbn; lia|]. cbn [encode_request]. rewrite !length_app, !index_length, Hlen. cbn in *. lia.
  - intros Hl w1 W1 Hw1 Hs. write_buffer W2; [lia|]. rewrite index_length in *. write_buffer W3; [lia|]. rewrite index_length in *.
    write_value W4; [unfold kind_size; lia|]. wp_go. apply granted; [done|].
    exact (wrote_trans _ _ _ _ _ W1 (wrote_trans _ _ _ _ _ W2 (wrote_trans _ _ _ _ _ W3 W4))).
Qed.

Lemma length_concat_map {A} (f : A -> bytes) c xs :
  Forall (fun x => length (f x) = c) xs -> length (concat (map f xs)) = (length xs * c)%nat.
Proof. induction 1 as [|x xs Hx _ IH]; [done|]. cbn. by rewrite length_app, Hx, IH. Qed.

(** A count or a range is filled in after the objects. *)
Lemma wrote_fill w0 w h old body new pos :
  wrote w0 w (h ++ old ++ body) -> wwf w0 -> length new = length old -> pos = (v_pos (position w0) + length h)%nat ->
  wp (store_at pos new) w (fun _ w' => wrote w0 w' (h ++ new ++ body)).
Proof.
  intros Hw Hwf Hl ->. pose proof Hw as (Hs & Hm & _). pose proof (mem_write_length _ _ _ _ Hm). unfold wwf in Hwf.
  eapply wp_mono; [apply store_at_wp; len|]. intros [] w' [Hm' Hp]. by eapply wrote_patch.
Qed.

(** *** Iterators over objects of one size

    [mkit n] is the iterator after [n] objects; it writes the bytes [enc x] of an
    object when [c] bytes are left, and its destruction replaces the [g] bytes after
    the header by [fill n]. *)

Section Counted.
Context {It X : Type} (step : It -> X -> WM (It * bool)) (destroy : It -> WM unit).
Context (w0 : Writer) (h : bytes) (g c : nat) (enc : X -> bytes) (mkit : nat -> It) (head : bytes -> Prop).
Context (fill : nat -> bytes) (ok : X -> Prop) (xs : list X).
Context (Hw0 : wwf w0) (Henc : forall x, ok x -> length (enc x) = c).
Context (Hstep : forall n w x, wwf w -> ok x -> (n < length xs)%nat ->
  wp (step (mkit n) x) w (fun r w' =>
    if (c <=? v_size (position w))%nat then r = (mkit (S n), true) /\ wrote w w' (enc x) else r = (mkit n, false) /\ w' = w)).
Context (Hdestroy : forall n w old body, (0 < n)%nat -> (n <= length xs)%nat -> length old = g -> head old ->
  wrote w0 w (h ++ old ++ body) -> wp (destroy (mkit n)) w (fun _ w' => wrote w0 w' (h ++ fill n ++ body))).

Definition counted (done : list X) (it : It) (w : Writer) : Prop :=
  it = mkit (length done) /\ exists old, length old = g /\ head old /\ Forall ok done /\
    wrote w0 w (h ++ old ++ concat (map enc done)).

Definition counted_full (n : nat) : Prop := (v_size (position w0) < length h + g + S n * c)%nat.

Lemma body_length done : Forall ok done -> length (concat (map enc done)) = (length done * c)%nat.
Proof. intros H. apply length_concat_map. by eapply Forall_impl; [|exact H]. Qed.

Lemma counted_step done it w x :
  counted done it w -> ok x -> (length done < length xs)%nat ->
  wp (step it x) w (fun r w' =>
    if (r.2 : bool) then counted (done ++ [x]) r.1 w' else counted done r.1 w' /\ counted_full (length done)).
Proof.
  intros (-> & old & Hold & Hhd & Hok & Hw) Hx Hn. pose proof (wrote_wf _ _ _ Hw0 Hw) as Hwf.
  pose proof (wrote_size _ _ _ Hw) as Hsz. pose proof Hw as (Hle & _ & _). rewrite !length_app, Hold, (body_length done Hok) in Hsz, Hle.
  eapply wp_mono; [by apply Hstep|]. intros r w'.
  destruct (Nat.leb_spec c (v_size (position w))); intros [-> Hw']; cbn [fst snd].
  - split; [by rewrite length_app, Nat.add_1_r|]. exists old. split_and!; [done|done|by apply Forall_app_2; [|constructor]|].
    rewrite concat_map_snoc. pose proof (wrote_trans _ _ _ _ _ Hw Hw') as Ht. by rewrite <- !app_assoc in Ht.
  - subst w'. split; [|unfold counted_full; lia]. split; [done|]. by exists old.
Qed.

Lemma counted_performed w Q :
  counted [] (mkit 0) w -> Forall ok xs -> xs <> [] -> (length h + g + c <= v_size (position w0))%nat ->
  (forall n w', (0 < n <= length xs)%nat -> ((n < length xs)%nat -> counted_full n) ->
     wrote w0 w' (h ++ fill n ++ concat (map enc (take n xs))) -> Q n w') ->
  wp ('(it, n) ← put_all step (mkit 0) xs; _ ← destroy it; mret n) w Q.
Proof.
  intros Hi Hok Hne Hfit HQ. rewrite wp_bind.
  eapply wp_mono; [apply (put_all_wp step counted counted_full ok (length xs) counted_step xs [] _ _ Hi Hok); done|].
  intros [it n] w' HH. cbn [fst snd length Nat.add] in HH. rewrite app_nil_l in HH.
  destruct HH as (Hn & (-> & old & Hold & Hhd & _ & Hw) & Hf). rewrite length_take_le by done.
  assert (Hn0 : (0 < n)%nat).
  { destruct n; [|lia]. exfalso. destruct xs; [done|]. specialize (Hf ltac:(cbn; lia)). unfold counted_full in Hf. lia. }
  rewrite wp_bind. eapply wp_mono; [by eapply Hdestroy|]. intros [] w2 W. rewrite wp_ret. by apply HQ.
Qed.

(** The same in the form of the specification of a request. *)
Lemma counted_request req w :
  counted [] (mkit 0) w -> Forall ok xs -> xs <> [] -> (length h + g + c <= v_size (position w0))%nat ->
  objects req = length xs -> (forall n, length (fill n) = g) ->
  (forall n, (n <= length xs)%nat -> encode_request req n = h ++ fill n ++ concat (map enc (take n xs))) ->
  wp ('(it, n) ← put_all step (mkit 0) xs; _ ← destroy it; mret n) w (performed req w0).
Proof.
  intros Hi Hok Hne Hfit Ho Hg He. apply counted_performed; [done..|]. intros n w' Hn Hf Hw. split; [lia|]. split.
  - intros Hlt. rewrite Ho in Hlt. specialize (Hf Hlt). unfold counted_full in Hf. rewrite He by lia.
    rewrite !length_app, Hg, body_length, length_take_le by (lia || by apply Forall_take). lia.
  - rewrite decide_False by lia. by rewrite He by lia.
Qed.

Lemma counted_nothing req w (it : It) :
  objects req = length xs -> xs <> [] -> (forall n, length (fill n) = g) -> Forall ok xs -> wwf w ->
  (forall n, (n <= length xs)%nat -> encode_request req n = h ++ fill n ++ concat (map enc (take n xs))) ->
  (v_size (position w) < length h + g + c)%nat ->
  (forall x, step it x w = Some (w, (it, false))) -> destroy it w = Some (w, tt) ->
  wp ('(it, n) ← put_all step it xs; _ ← destroy it; mret n) w (performed req w).
Proof.
  clear Hstep Hdestroy Hw0 mkit head w0. intros Ho Hne Hg Hok Hw He Hl Hst Hd.
  assert (Hr : performed req w 0 w).
  { apply refused; [done|rewrite Ho; destruct xs; [done|cbn; lia]|]. destruct xs as [|x xs']; [done|].
    rewrite He by (cbn; lia). rewrite !length_app, Hg, body_length by (by apply Forall_take). cbn [take length]. rewrite ?take_0. cbn. lia. }
  unfold wp, mbind, SM_bind. destruct xs as [|x xs']; [done|]. cbn [put_all]. unfold mbind, SM_bind. rewrite Hst. cbn. by rewrite Hd.
Qed.

End Counted.

(** *** Objects with an index prefix *)

Section Prefixed.
Context (i : Width) (k : Kind).

Definition encode_prefixed (iv : Z * Value) : bytes := encode (index_type i) iv.1 ++ encode_value k iv.2.

Definition prefixed_ok (iv : Z * Value) : Prop := 0 <= iv.1 <= Max (index_type i) /\ value_fits k iv.2.

Lemma encode_prefixed_length iv : prefixed_ok iv -> length (encode_prefixed iv) = (kind_size k + SIZE (index_type i))%nat.
Proof. intros [_ Hv]. unfold encode_prefixed. rewrite length_app, index_length, encode_value_length by done. lia. Qed.

Definition prefixed_at (cp : View) (n : nat) : PrefixedWriteIterator.t :=
  PrefixedWriteIterator.mk (serializer_of k) (kind_size k + SIZE (index_type i)) (wrap (index_type i) (Z.of_nat n)) true cp.

Lemma prefixed_step cp n w iv :
  wwf w -> prefixed_ok iv ->
  wp (PrefixedWriteIterator.Write (index_type i) (prefixed_at cp n) iv.2 iv.1) w (fun r w' =>
    if (kind_size k + SIZE (index_type i) <=? v_size (position w))%nat
    then r = (prefixed_at cp (S n), true) /\ wrote w w' (encode_prefixed iv) else r = (prefixed_at cp n, false) /\ w' = w).
Proof.
  intros Hwf [Hi Hv]. unfold PrefixedWriteIterator.Write, prefixed_at.
  cbn [PrefixedWriteIterator.isValid PrefixedWriteIterator.sizeOfTypePlusIndex PrefixedWriteIterator.serializer
    PrefixedWriteIterator.count PrefixedWriteIterator.countPosition andb]. wp_go.
  destruct (Nat.leb_spec (kind_size k + SIZE (index_type i)) (v_size (position w))) as [Hfit|Hno]; [|by wp_go].
  write_buffer W1; [lia|]. rewrite index_length in *. write_value W2; [lia|]. wp_go. split.
  - unfold wrap. rewrite Zplus_mod_idemp_l. do 4 f_equal. lia.
  - by eapply wrote_trans.
Qed.

Lemma prefixed_begin w :
  wwf w -> (3 + (2 * SIZE (index_type i) + kind_size k) <= v_size (position w))%nat ->
  let h := encode_header (id (serializer_of k)) (prefix_qualifier i) in
  wp (HeaderWriter.IterateOverCountWithPrefix (index_type i) (prefix_qualifier i) (serializer_of k)) w (fun it w' => exists cp,
    it = prefixed_at cp 0 /\ v_pos cp = (v_pos (position w) + length h)%nat /\
    counted w h (SIZE (index_type i)) encode_prefixed (prefixed_at cp) (fun _ => True) prefixed_ok [] it w').
Proof.
  intros Hw Hfit h. pose proof (index_max i). unfold HeaderWriter.IterateOverCountWithPrefix. rewrite !wp_bind.
  apply WithReserve_wp; [done|fold (kind_size k); lia|].
  intros Hl w1 W1 Hw1 Hs. unfold PrefixedWriteIterator.init. wp_go. pose proof (index_size i).
  destruct (Nat.leb_spec (SIZE (index_type i)) (v_size (position w1))); [|lia].
  eapply wp_mono; [apply Advance_wp; [done|lia]|]. intros [] w2 (old & Hold & W2). rewrite wp_ret.
  pose proof W1 as (_ & _ & Hp1).
  assert (Hit : PrefixedWriteIterator.mk (serializer_of k) (ds_size (serializer_of k) + SIZE (index_type i)) 0 true (position w1) =
    prefixed_at (position w1) 0) by (unfold prefixed_at; by rewrite wrap_small by lia).
  exists (position w1). split; [done|]. split; [by rewrite Hp1|]. split; [done|]. exists old. split_and!; [done|done|done|].
  cbn [map concat]. rewrite app_nil_r. exact (wrote_trans _ _ _ _ _ W1 W2).
Qed.

(** The destructor stores the count. *)
Lemma prefixed_destroy w0 w cp h old body n :
  wwf w0 -> v_pos cp = (v_pos (position w0) + length h)%nat -> length old = SIZE (index_type i) -> wrote w0 w (h ++ old ++ body) ->
  wp (PrefixedWriteIterator.destroy (index_type i) (prefixed_at cp n)) w
    (fun _ w' => wrote w0 w' (h ++ encode (index_type i) (wrap (index_type i) (Z.of_nat n)) ++ body)).
Proof.
  intros Hw Hcp Hold W. unfold PrefixedWriteIterator.destroy.
  cbn [prefixed_at PrefixedWriteIterator.isValid PrefixedWriteIterator.count PrefixedWriteIterator.countPosition].
  apply (wrote_fill w0 w h old body); [done|done|by rewrite index_length|done].
Qed.

Lemma WPrefixed_performed ivs w :
  wwf w -> request_ok (WPrefixed i k ivs) -> wp (perform (WPrefixed i k ivs)) w (performed (WPrefixed i k ivs) w).
Proof.
  intros Hw (Hne & Hmax & Hok).
  set (h := encode_header (id (serializer_of k)) (prefix_qualifier i)).
  assert (He : forall n, (n <= length ivs)%nat -> encode_request (WPrefixed i k ivs) n =
    h ++ encode (index_type i) (Z.of_nat n) ++ concat (map encode_prefixed (take n ivs))) by done.
  cbn [perform]. destruct (decide (3 + (2 * SIZE (index_type i) + kind_size k) <= v_size (position w))%nat) as [Hfit|Hno].
  - rewrite wp_bind. eapply wp_mono; [apply prefixed_begin; [done|lia]|]. intros it w2 (cp & -> & Hcp & Hc).
    eapply (counted_request _ _ w h (SIZE (index_type i)) (kind_size k + SIZE (index_type i)) encode_prefixed (prefixed_at cp)
      (fun _ => True) (fun n => encode (index_type i) (Z.of_nat n)) prefixed_ok ivs Hw encode_prefixed_length); [..|exact He].
    + intros n w3 iv Hw3 Hiv Hn. apply prefixed_step; done.
    + intros n w3 old' body Hn Hn' Hold' _ W3. pose proof (prefixed_destroy w w3 cp h old' body n Hw Hcp Hold' W3) as Hd.
      by rewrite wrap_small in Hd by lia.
    + exact Hc.
    + done.
    + done.
    + cbn [length h encode_header]. lia.
    + done.
    + intros. apply index_length.
  - unfold HeaderWriter.IterateOverCountWithPrefix. rewrite !wp_bind. apply WithReserve_wp; [done| |intros; fold (kind_size k) in *; lia].
    intros Hl. rewrite wp_ret. cbv beta. eapply (counted_nothing _ _ h (SIZE (index_type i)) (kind_size k + SIZE (index_type i)) encode_prefixed
      (fun n => encode (index_type i) (Z.of_nat n)) prefixed_ok ivs encode_prefixed_length); [..|exact He| | |]; try done.
    + intros. apply index_length.
    + cbn [length h encode_header]. lia.
Qed.

End Prefixed.

(** *** Counted objects *)

Section CountedObjects.
Context (i : Width) (gv : GroupVariation.t).

#[local] Abbreviation k := (Class gv).

Definition counted_at (cp : View) (n : nat) : CountWriteIterator.t := CountWriteIterator.mk (Z.of_nat n) (Inst gv) true cp.

Lemma count_step cp n w v :
  wwf w -> value_fits k v -> Z.of_nat n < Max (index_type i) ->
  wp (CountWriteIterator.Write (index_type i) (counted_at cp n) v) w (fun r w' =>
    if (kind_size k <=? v_size (position w))%nat
    then r = (counted_at cp (S n), true) /\ wrote w w' (encode_value k v) else r = (counted_at cp n, false) /\ w' = w).
Proof.
  intros Hwf Hv Hn. unfold CountWriteIterator.Write, counted_at.
  cbn [CountWriteIterator.isValid CountWriteIterator.serializer CountWriteIterator.count CountWriteIterator.countPosition andb]. wp_go.
  change (ds_size (Inst gv)) with (kind_size k).
  destruct (Nat.leb_spec (kind_size k) (v_size (position w))) as [Hfit|Hno]; cbn [andb]; [|by wp_go].
  destruct (Z.ltb_spec (Z.of_nat n) (Max (index_type i))); [|lia]. change (Inst gv) with (serializer_of k).
  write_value W2; [lia|]. wp_go. split; [|done]. rewrite wrap_small by lia. do 3 f_equal. lia.
Qed.

Lemma WCounted_performed vs w :
  wwf w -> request_ok (WCounted i gv vs) -> wp (perform (WCounted i gv vs)) w (performed (WCounted i gv vs) w).
Proof.
  intros Hw (Hne & Hmax & Hok). pose proof (index_size i).
  set (h := encode_header (ID gv) (count_qualifier i)).
  assert (He : forall n, (n <= length vs)%nat -> encode_request (WCounted i gv vs) n =
    h ++ encode (index_type i) (Z.of_nat n) ++ concat (map (encode_value k) (take n vs))) by done.
  cbn [perform]. unfold HeaderWriter.IterateOverCount. rewrite !wp_bind. apply WithReserve_wp; [done| |];
    change (ds_size (Inst gv)) with (kind_size k); change (id (Inst gv)) with (ID gv).
  - intros Hl. rewrite wp_ret. cbv beta. eapply (counted_nothing _ _ h (SIZE (index_type i)) (kind_size k) (encode_value k)
      (fun n => encode (index_type i) (Z.of_nat n)) (value_fits k) vs (encode_value_length k)); [..|exact He| | |]; try done.
    intros. apply index_length.
  - intros Hl w1 W1 Hw1 Hs. unfold CountWriteIterator.init. wp_go.
    destruct (Nat.leb_spec (SIZE (index_type i)) (v_size (position w1))) as [Hle|]; [|lia].
    eapply wp_mono; [apply Advance_wp; [done|lia]|]. intros [] w2 (old & Hold & W2). rewrite wp_ret. cbv beta.
    pose proof W1 as (_ & _ & Hp1).
    eapply (counted_request _ _ w h (SIZE (index_type i)) (kind_size k) (encode_value k) (counted_at (position w1))
      (fun _ => True) (fun n => encode (index_type i) (Z.of_nat n)) (value_fits k) vs Hw (encode_value_length k)); [..|exact He].
    + intros n w3 v Hw3 Hv Hn. apply count_step; [done..|lia].
    + intros n w3 old' body Hn Hn' Hold' _ W3. unfold CountWriteIterator.destroy. cbn [CountWriteIterator.isValid counted_at CountWriteIterator.countPosition andb].
      rewrite (proj2 (Nat.leb_le _ _) Hle). cbn [CountWriteIterator.count].
      apply (wrote_fill w w3 h old' body); [done|done|by rewrite index_length|]. by rewrite Hp1.
    + split; [done|]. exists old. split_and!; [done|done|done|]. cbn [map concat]. rewrite app_nil_r. exact (wrote_trans _ _ _ _ _ W1 W2).
    + done.
    + done.
    + cbn [length h encode_header]. lia.
    + done.
    + intros. apply index_length.
Qed.

End CountedObjects.

(** *** Ranges of objects *)

Section Ranges.
Context (i : Width) (k : Kind) (start : Z).

Definition range_at (rng : View) (n : nat) : RangeWriteIterator.t :=
  RangeWriteIterator.mk start (serializer_of k) (Z.of_nat n) true rng.

Lemma range_step rng n w v :
  wwf w -> value_fits k v -> Z.of_nat n <= Max (index_type i) ->
  wp (RangeWriteIterator.Write (index_type i) (range_at rng n) v) w (fun r w' =>
    if (kind_size k <=? v_size (position w))%nat
    then r = (range_at rng (S n), true) /\ wrote w w' (encode_value k v) else r = (range_at rng n, false) /\ w' = w).
Proof.
  intros Hwf Hv Hn. pose proof (index_max i). unfold RangeWriteIterator.Write, range_at.
  cbn [RangeWriteIterator.isValid RangeWriteIterator.serializer RangeWriteIterator.count RangeWriteIterator.range RangeWriteIterator.start andb].
  wp_go. fold (kind_size k).
  destruct (Nat.leb_spec (kind_size k) (v_size (position w))) as [Hfit|Hno]; cbn [andb]; [|by wp_go].
  destruct (Z.leb_spec (Z.of_nat n) (Max (index_type i))); [|lia].
  write_value W2; [lia|]. wp_go. split; [|done]. rewrite u32_small by (unfold is_u32; lia). do 3 f_equal. lia.
Qed.

Definition fill_range (n : nat) : bytes := encode (index_type i) start ++ encode (index_type i) (start + Z.of_nat n - 1).

(** The place of a range starts with its start. *)
Definition range_head (old : bytes) : Prop := exists rest, old = encode (index_type i) start ++ rest.

Lemma fill_range_length n : length (fill_range n) = (2 * SIZE (index_type i))%nat.
Proof. unfold fill_range. rewrite length_app, !index_length. lia. Qed.

(** The stop is stored after the start. *)
Lemma stop_fill w0 w h old body n pos :
  wrote w0 w (h ++ old ++ body) -> wwf w0 -> length old = (2 * SIZE (index_type i))%nat -> range_head old ->
  pos = (v_pos (position w0) + length h + SIZE (index_type i))%nat ->
  wp (store_at pos (encode (index_type i) (start + Z.of_nat n - 1))) w (fun _ w' => wrote w0 w' (h ++ fill_range n ++ body)).
Proof.
  intros Hw Hwf Hl [rest ->] ->. rewrite length_app, index_length in Hl. rewrite <- app_assoc, app_assoc in Hw.
  unfold fill_range. rewrite <- app_assoc, app_assoc.
  eapply wrote_fill; [exact Hw|done|rewrite index_length; lia|]. rewrite length_app, index_length. lia.
Qed.

Lemma WValues_performed vs w :
  wwf w -> request_ok (WValues i k start vs) -> wp (perform (WValues i k start vs)) w (performed (WValues i k start vs) w).
Proof.
  intros Hw (Hne & Hst & Hmax & Hok). pose proof (index_size i). pose proof (index_max i).
  set (h := encode_header (id (serializer_of k)) (range_qualifier i)).
  assert (He : forall n, (n <= length vs)%nat -> encode_request (WValues i k start vs) n =
    h ++ fill_range n ++ concat (map (encode_value k) (take n vs))) by done.
  cbn [perform]. unfold HeaderWriter.IterateOverRange. rewrite !wp_bind. apply WithReserve_wp; [done| |].
  - intros Hl. rewrite wp_ret. cbv beta.
    eapply (counted_nothing _ _ h (2 * SIZE (index_type i)) (kind_size k) (encode_value k) fill_range
      (value_fits k) vs (encode_value_length k)); [..|exact He| | |]; try done; try apply fill_range_length;
      (fold (kind_size k) in Hl; cbn [length h encode_header]; lia).
  - intros Hl w1 W1 Hw1 Hs. fold (kind_size k) in Hl, Hs. unfold RangeWriteIterator.init. wp_go.
    destruct (Nat.leb_spec (2 * SIZE (index_type i)) (v_size (position w1))) as [Hle|]; [|lia]. apply wp_assoc.
    eapply wp_mono; [apply store_Advance_wp; [done|rewrite index_length; lia]|]. intros [] w2 (old & Hold & W2).
    rewrite wp_ret. cbv beta. pose proof W1 as (_ & _ & Hp1). rewrite advance_le by lia.
    eapply (counted_request _ _ w h (2 * SIZE (index_type i)) (kind_size k) (encode_value k)
      (range_at (mkView (v_pos (position w1) + SIZE (index_type i)) (v_size (position w1) - SIZE (index_type i))))
      range_head fill_range (value_fits k) vs Hw (encode_value_length k)); [..|exact He].
    + intros n w3 v Hw3 Hv Hn. apply range_step; [done..|lia].
    + intros n w3 old' body Hn Hn' Hold' Hhd W3. unfold RangeWriteIterator.destroy, range_at.
      cbn [RangeWriteIterator.isValid RangeWriteIterator.count RangeWriteIterator.range RangeWriteIterator.start andb v_pos].
      destruct (Z.ltb_spec 0 (Z.of_nat n)); [|lia]. rewrite u32_small by (unfold is_u32; lia). rewrite wrap_small by lia.
      eapply stop_fill; [done..|]. by rewrite Hp1.
    + split; [done|]. exists (encode (index_type i) start ++ old). split_and!; [done|by exists old|done|].
      cbn [map concat]. rewrite app_nil_r. exact (wrote_trans _ _ _ _ _ W1 W2).
    + done.
    + done.
    + cbn [length h encode_header]. lia.
    + done.
    + apply fill_range_length.
Qed.

End Ranges.

(** *** Packed bits *)

Lemma byte_of_bits_snoc bits b : byte_of_bits (bits ++ [b]) = byte_of_bits bits + Z.b2z b * 2 ^ Z.of_nat (length bits).
Proof.
  induction bits as [|b0 bits IH]; [cbn; lia|]. cbn [app byte_of_bits length]. rewrite IH, Nat2Z.inj_succ, Z.pow_succ_r by lia. lia.
Qed.

Lemma byte_of_bits_range bits : 0 <= byte_of_bits bits < 2 ^ Z.of_nat (length bits).
Proof.
  induction bits as [|b bits IH]; [cbn; lia|]. cbn [byte_of_bits length]. rewrite Nat2Z.inj_succ, Z.pow_succ_r by lia.
  destruct b; cbn [Z.b2z]; lia.
Qed.

Lemma byte_of_bits_u8 bits : (length bits <= 8)%nat -> is_u8 (byte_of_bits bits).
Proof.
  intros Hl. pose proof (byte_of_bits_range bits) as Hr.
  pose proof (Z.pow_le_mono_r 2 (Z.of_nat (length bits)) 8 ltac:(lia) ltac:(lia)). unfold is_u8. lia.
Qed.

Lemma byte_of_bits_testbit bits j : Z.testbit (byte_of_bits bits) (Z.of_nat j) = default false (bits !! j).
Proof.
  revert j. induction bits as [|b bits IH]; intros j; [apply Z.bits_0|]. cbn [byte_of_bits]. rewrite Z.add_comm.
  destruct j as [|j]; [apply Z.testbit_0_r|]. rewrite Nat2Z.inj_succ, Z.testbit_succ_r by lia. apply IH.
Qed.

Lemma pack_app a b : (length a mod 8 = 0)%nat -> pack (a ++ b) = pack a ++ pack b.
Proof.
  intros Ha. unfold pack. rewrite length_app. set (q := (length a / 8)%nat).
  assert (Hq : length a = (8 * q)%nat) by (unfold q; lia).
  replace ((length a + length b + 7) / 8)%nat with (q + (length b + 7) / 8)%nat by lia.
  replace ((length a + 7) / 8)%nat with q by lia. rewrite seq_app, map_app. f_equal.
  - apply map_ext_in. intros j [_ Hj]%in_seq. f_equal. rewrite drop_app_le by lia. apply take_app_le. len.
  - rewrite Nat.add_0_l. set (n := ((length b + 7) / 8)%nat).
    assert (Hs : seq q n = map (Nat.add q) (seq 0 n)) by (pose proof (fmap_add_seq q 0 n) as Hs; by rewrite Nat.add_0_r in Hs).
    rewrite Hs, map_map. apply map_ext. intros j. do 2 f_equal. rewrite drop_app_ge by lia. f_equal. lia.
Qed.

Lemma pack_one bits : (0 < length bits <= 8)%nat -> pack bits = [byte_of_bits bits].
Proof.
  intros Hl. unfold pack. replace ((length bits + 7) / 8)%nat with 1%nat by lia. cbn [seq map].
  by rewrite drop_0, take_ge by lia.
Qed.

Lemma pack_length bits : length (pack bits) = ((length bits + 7) / 8)%nat.
Proof. unfold pack. by rewrite length_map, length_seq. Qed.

Lemma pack_bytes bits : bytes_ok (pack bits).
Proof. unfold pack. apply Forall_map, Forall_true. intros j. apply byte_of_bits_u8. len. Qed.

(** A bit is added to the last byte, or starts a new one. *)
Lemma pack_snoc bits b :
  exists full part, bits = full ++ part /\ length (pack full) = (length bits / 8)%nat /\ length part = (length bits mod 8)%nat /\
    pack bits = pack full ++ (if decide (part = []) then [] else [byte_of_bits part]) /\
    pack (bits ++ [b]) = pack full ++ [byte_of_bits (part ++ [b])].
Proof.
  set (q := (length bits / 8)%nat). exists (take (8 * q) bits), (drop (8 * q) bits).
  assert (Hf : length (take (8 * q) bits) = (8 * q)%nat) by (unfold q; len).
  assert (Hp : length (drop (8 * q) bits) = (length bits mod 8)%nat) by (unfold q; len).
  split; [by rewrite take_drop|]. split; [rewrite pack_length, Hf; lia|]. split; [done|]. split.
  - rewrite <- (take_drop (8 * q) bits) at 1. rewrite pack_app by (rewrite Hf; lia). f_equal.
    case_decide as Hd; [by rewrite Hd|]. apply pack_one. destruct (drop (8 * q) bits); [done|]. cbn [length] in *. lia.
  - rewrite <- (take_drop (8 * q) bits) at 1. rewrite <- app_assoc, pack_app by (rewrite Hf; lia). f_equal.
    apply pack_one. len.
Qed.

(** *** Ranges of bits *)

Section OneBit.
Context (m : bytes) (p0 : nat) (pre : bytes) (part : list bool).

(** A byte is cleared before its first bit. *)
Lemma start_byte w :
  mem_write m p0 (pre ++ (if decide (part = []) then [] else [byte_of_bits part])) = Some (wr_array w) ->
  (p0 + length pre + 1 <= length m)%nat ->
  wp (if Z.of_nat (length part) =? 0 then store_at (p0 + length pre) [0] else mret ()) w
    (fun _ w' => mem_write m p0 (pre ++ [byte_of_bits part]) = Some (wr_array w') /\ position w' = position w).
Proof.
  intros Hm Hl. pose proof (mem_write_length _ _ _ _ Hm). destruct (Z.eqb_spec (Z.of_nat (length part)) 0) as [Hz|Hz].
  - assert (Hp : part = []) by (destruct part; [done|cbn in Hz; lia]). rewrite decide_True, app_nil_r in Hm by done. rewrite Hp.
    eapply wp_mono; [apply store_at_wp; cbn; lia|]. intros [] w1 [Hm1 Hp1]. split; [|done]. by eapply mem_write_app.
  - rewrite wp_ret. split; [|done]. by rewrite decide_False in Hm by (by intros ->).
Qed.

(** The bit is set in it. *)
Lemma set_bit b byte w :
  mem_write m p0 (pre ++ [byte_of_bits part]) = Some (wr_array w) -> (v_pos (position w) + byte = p0 + length pre)%nat ->
  (length part < 8)%nat ->
  wp (if (b : bool) then b ← BitfieldRangeWriteIterator.fetch byte;
      store_at (p0 + length pre) [u8 (Z.lor b (Z.shiftl 1 (Z.of_nat (length part))))] else mret ()) w
    (fun _ w' => mem_write m p0 (pre ++ [byte_of_bits (part ++ [b])]) = Some (wr_array w') /\ position w' = position w).
Proof.
  intros Hm Hpos Hl. pose proof (byte_of_bits_u8 (part ++ [b]) ltac:(len)) as Hu8.
  rewrite byte_of_bits_snoc in Hu8 |- *. destruct b; cbn [Z.b2z] in *; [|rewrite wp_ret; by rewrite Z.add_0_r].
  pose proof (mem_write_read _ _ _ _ Hm) as Hrd. apply mem_read_inv in Hrd as [Hl' Hrd]. rewrite length_app in Hrd, Hl'. cbn [length] in Hrd, Hl'.
  rewrite wp_bind. unfold wp at 1, BitfieldRangeWriteIterator.fetch. rewrite Hpos, mem_read_Some by lia. cbn [mbind option_bind].
  rewrite <- drop_drop, take_drop_commute, <- Hrd, drop_app_length. cbn [lookup_total list_lookup_total].
  rewrite lor_shiftl_add by (lia || apply byte_of_bits_range). rewrite u8_small by done.
  eapply wp_mono; [apply store_at_wp; cbn; lia|]. intros [] w1 [Hm1 Hp1]. split; [|done].
  rewrite <- (app_nil_r [_]) in Hm. rewrite <- (app_nil_r [_]). eapply mem_write_patch; [exact Hm| |exact Hm1]; done.
Qed.

End OneBit.

Section Bitfields.
Context (i : Width) (start : Z) (w0 : Writer) (h : bytes) (Hw0 : wwf w0).
Context (Hroom : (length h + 2 * SIZE (index_type i) <= v_size (position w0))%nat).

(** The window after the header and the range. *)
Definition bits_window : View :=
  mkView (v_pos (position w0) + length h + 2 * SIZE (index_type i)) (v_size (position w0) - length h - 2 * SIZE (index_type i)).

Definition bits_at (rng : View) (n : nat) : BitfieldRangeWriteIterator.t :=
  BitfieldRangeWriteIterator.mk start (wrap (index_type i) (Z.of_nat n)) (Z.of_nat (v_size bits_window) * 8) true rng.

(** The bytes of the bits lie after the position, which does not move. *)
Definition bits_inv (rng : View) (done : list bool) (it : BitfieldRangeWriteIterator.t) (w : Writer) : Prop :=
  it = bits_at rng (length done) /\ position w = bits_window /\ (length (pack done) <= v_size bits_window)%nat /\
  exists old, length old = (2 * SIZE (index_type i))%nat /\ range_head i start old /\
    mem_write (wr_array w0) (v_pos (position w0)) (h ++ old ++ pack done) = Some (wr_array w).

Definition bits_full (n : nat) : Prop := (v_size bits_window * 8 <= n)%nat.

Lemma bits_step rng done it w b :
  bits_inv rng done it w -> True -> (length done < Z.to_nat (Max (index_type i) + 1))%nat ->
  wp (BitfieldRangeWriteIterator.Write (index_type i) it b) w (fun r w' =>
    if (r.2 : bool) then bits_inv rng (done ++ [b]) r.1 w' else bits_inv rng done r.1 w' /\ bits_full (length done)).
Proof.
  intros (-> & Hpos & Hfit & old & Hold & Hhd & Hm) _ Hn. pose proof Hw0 as [Hw1 _].
  unfold BitfieldRangeWriteIterator.Write, bits_at. cbn [BitfieldRangeWriteIterator.isValid BitfieldRangeWriteIterator.count
    BitfieldRangeWriteIterator.maxCount BitfieldRangeWriteIterator.start BitfieldRangeWriteIterator.range andb].
  pose proof (index_max i). rewrite (wrap_small i (Z.of_nat (length done))) by lia.
  destruct (Z.ltb_spec (Z.of_nat (length done)) (Z.of_nat (v_size bits_window) * 8)) as [Hlt|Hge].
  2: { wp_go. cbn [fst snd]. split; [|unfold bits_full; lia]. split; [unfold bits_at; by rewrite wrap_small by lia|]. split; [done|]. split; [done|]. by exists old. }
  destruct (pack_snoc done b) as (full & part & _ & Hlf & Hlp & Hpk & Hpk').
  set (p0 := v_pos (position w0)) in *. set (pre := h ++ old ++ pack full).
  replace (Z.to_nat (Z.of_nat (length done) / 8)) with (length done / 8)%nat by lia.
  replace (Z.of_nat (length done) mod 8) with (Z.of_nat (length part)) by lia.
  assert (Hpre : (v_pos bits_window + length done / 8 = p0 + length pre)%nat).
  { unfold pre, bits_window. cbn [v_pos]. fold p0. rewrite !length_app. lia. }
  wp_go. rewrite Hpos, Hpre. eapply wp_mono; [apply (start_byte (wr_array w0) p0 pre part)|].
  { unfold pre. by rewrite <- !app_assoc, <- Hpk. }
  { rewrite <- Hpre. unfold bits_window in *. cbn [v_pos v_size] in *. fold p0. lia. }
  intros [] w1 [Hm1 Hp1]. cbv beta. rewrite wp_bind.
  eapply wp_mono; [apply (set_bit (wr_array w0) p0 pre part b); [done|by rewrite Hp1, Hpos|lia]|].
  intros [] w2 [Hm2 Hp2]. wp_go. cbn [fst snd]. split; [|split; [by rewrite Hp2, Hp1|split]].
  - unfold bits_at. rewrite length_app. cbn [length]. do 2 f_equal. lia.
  - rewrite Hpk', length_app, Hlf. cbn [length]. lia.
  - exists old. split_and!; [done|done|]. rewrite Hpk'. unfold pre in Hm2. by rewrite <- !app_assoc in Hm2.
Qed.

(** The destructor stores the stop and moves the position past the bits. *)
Lemma bits_destroy rng done w :
  bits_inv rng done (bits_at rng (length done)) w -> (0 < length done)%nat ->
  0 <= start -> start + Z.of_nat (length done) - 1 <= Max (index_type i) -> Z.of_nat (length done) <= Max (index_type i) ->
  v_pos rng = (v_pos (position w0) + length h + SIZE (index_type i))%nat -> (SIZE (index_type i) <= v_size rng)%nat ->
  wp (BitfieldRangeWriteIterator.destroy (index_type i) (bits_at rng (length done))) w
    (fun _ w' => wrote w0 w' (h ++ fill_range i start (length done) ++ pack done)).
Proof.
  intros (_ & Hpos & Hfit & old & Hold & Hhd & Hm) Hn Hst Hmax Hcnt Hrng Hrs. unfold BitfieldRangeWriteIterator.destroy, bits_at.
  cbn [BitfieldRangeWriteIterator.isValid BitfieldRangeWriteIterator.count BitfieldRangeWriteIterator.start BitfieldRangeWriteIterator.range andb].
  rewrite (wrap_small i (Z.of_nat (length done))) by lia. destruct (Z.ltb_spec 0 (Z.of_nat (length done))); [|lia]. rewrite wrap_small by lia. rewrite (proj2 (Nat.leb_le _ _) Hrs).
  rewrite wp_bind. pose proof (pack_length done) as Hpl.
  (* the bytes of the bits count as written in a writer that has moved past them *)
  set (past := mkView (v_pos (position w0) + length (h ++ old ++ pack done)) (v_size (position w0) - length (h ++ old ++ pack done))).
  assert (Hw : wrote w0 (mkWriter (wr_array w) past (mark w)) (h ++ old ++ pack done)).
  { split; [rewrite !length_app, Hold; unfold bits_window in Hfit; cbn [v_size] in Hfit; lia|]. by split. }
  pose proof (stop_fill i start _ _ h old (pack done) (length done) (v_pos rng) Hw Hw0 Hold Hhd Hrng) as Hs.
  unfold wp in Hs. unfold wp at 1. unfold store_at in Hs |- *. cbn [wr_array] in Hs.
  destruct (mem_write (wr_array w) (v_pos rng) _) as [m|]; cbn [mbind option_bind] in *; [|done].
  set (num := if 0 <? Z.of_nat (length done) mod 8 then Z.of_nat (length done) / 8 + 1 else Z.of_nat (length done) / 8).
  assert (Hnum : Z.to_nat num = length (pack done)) by (rewrite Hpl; unfold num; destruct (Z.ltb_spec 0 (Z.of_nat (length done) mod 8)); lia).
  rewrite Hnum. unfold Advance. rewrite wp_modify. destruct Hs as (H1 & H2 & H3). split; [done|]. split; [done|].
  cbn [set_position position] in *. rewrite Hpos, advance_le by done. rewrite <- H3. unfold past, bits_window. cbn [v_pos v_size].
  rewrite !length_app, Hold. f_equal; lia.
Qed.

(** A count that wraps to 0 leaves the position before the bits. *)
Definition bits_lost (bits : list bool) (w : Writer) : Prop :=
  Z.of_nat (length bits) = Max (index_type i) + 1 /\ position w = bits_window /\
  (length h + 2 * SIZE (index_type i) + length (pack bits) <= v_size (position w0))%nat /\ exists old,
    length old = (2 * SIZE (index_type i))%nat /\ mem_write (wr_array w0) (v_pos (position w0)) (h ++ old ++ pack bits) = Some (wr_array w).

Lemma bits_performed rng bits w Q :
  bits_inv rng [] (bits_at rng 0) w -> bits <> [] -> 0 <= start -> start + Z.of_nat (length bits) - 1 <= Max (index_type i) ->
  (length h + 2 * SIZE (index_type i) + 1 <= v_size (position w0))%nat ->
  v_pos rng = (v_pos (position w0) + length h + SIZE (index_type i))%nat -> (SIZE (index_type i) <= v_size rng)%nat ->
  (forall n w', (0 < n <= length bits)%nat -> ((n < length bits)%nat -> bits_full n) ->
     Z.of_nat n <= Max (index_type i) /\ wrote w0 w' (h ++ fill_range i start n ++ pack (take n bits)) \/ n = length bits /\ bits_lost bits w' ->
     Q n w') ->
  wp ('(it, n) ← put_all (BitfieldRangeWriteIterator.Write (index_type i)) (bits_at rng 0) bits;
      _ ← BitfieldRangeWriteIterator.destroy (index_type i) it; mret n) w Q.
Proof.
  intros Hi Hne Hst Hmax Hone Hrng Hrs HQ. rewrite wp_bind.
  eapply wp_mono; [apply (put_all_wp _ (bits_inv rng) bits_full (fun _ => True) (Z.to_nat (Max (index_type i) + 1))
    (bits_step rng) bits [] _ _ Hi)|]; [by apply Forall_true|cbn [length]; lia|].
  intros [it n] w3 HH. cbn [fst snd length Nat.add] in HH. rewrite app_nil_l in HH. destruct HH as (Hn & Hi3 & Hf).
  pose proof Hi3 as (-> & Hpos & Hfit & old & Hold & _ & Hm). rewrite length_take_le in * by done.
  assert (Hn0 : (0 < n)%nat).
  { destruct n; [|lia]. exfalso. destruct bits; [done|]. specialize (Hf ltac:(cbn; lia)). unfold bits_full, bits_window in Hf. cbn [v_size] in Hf. lia. }
  destruct (Z.leb_spec (Z.of_nat n) (Max (index_type i))) as [Hc|Hc].
  - pose proof (bits_destroy rng (take n bits) w3) as Hd. rewrite length_take_le in Hd by done.
    rewrite wp_bind. eapply wp_mono; [apply Hd; [done|done|done|lia|lia|done|done]|].
    intros [] w4 W4. rewrite wp_ret. apply HQ; [done|done|by left].
  - assert (n = length bits) as -> by lia. rewrite take_ge in Hm, Hfit by done. rewrite wp_bind. unfold BitfieldRangeWriteIterator.destroy, bits_at.
    cbn [BitfieldRangeWriteIterator.isValid BitfieldRangeWriteIterator.count andb]. replace (Z.of_nat (length bits)) with (Max (index_type i) + 1) by lia.
    unfold wrap. rewrite Z_mod_same_full. cbn [Z.ltb Z.compare]. rewrite !wp_ret. apply HQ; [done|done|]. right. split; [done|]. split; [lia|]. split; [done|]. split; [|by exists old].
    unfold bits_window in Hfit. cbn [v_size] in Hfit. lia.
Qed.

End Bitfields.

(** With room for one byte the iterator is ready to write. *)
Lemma bits_begin i gv start w :
  wwf w -> (3 + 2 * SIZE (index_type i) + 1 <= v_size (position w))%nat ->
  let h := encode_header (ID gv) (range_qualifier i) in
  wp (HeaderWriter.IterateOverSingleBitfield (index_type i) (ID gv) (range_qualifier i) start) w (fun it w' => exists rng,
    it = bits_at i start w h rng 0 /\ bits_inv i start w h rng [] it w' /\
    v_pos rng = (v_pos (position w) + length h + SIZE (index_type i))%nat /\ (SIZE (index_type i) <= v_size rng)%nat).
Proof.
  intros Hw Hfit h. pose proof (index_size i). pose proof (index_max i).
  unfold HeaderWriter.IterateOverSingleBitfield. rewrite !wp_bind. apply WithReserve_wp; [done|lia|].
  intros Hl w1 W1 Hw1 Hs. unfold BitfieldRangeWriteIterator.init. wp_go.
  destruct (Nat.leb_spec (2 * SIZE (index_type i)) (v_size (position w1))) as [Hle|]; [|lia]. apply wp_assoc.
  eapply wp_mono; [apply store_Advance_wp; [done|rewrite index_length; lia]|]. intros [] w2 (old & Hold & W2).
  rewrite wp_bind, wp_get, wp_ret. pose proof W1 as (_ & _ & Hp1). pose proof W2 as (_ & _ & Hp2). rewrite Hp1 in Hp2. rewrite Hold in Hp2.
  cbn [v_pos v_size] in Hp2. pose proof (wrote_trans _ _ _ _ _ W1 W2) as W.
  assert (Hwin : position w2 = bits_window i w h) by exact Hp2. rewrite Hwin.
  rewrite u32_small by (unfold is_u32, bits_window; cbn [v_size]; destruct Hw; lia). rewrite advance_le by lia. eexists.
  split; [unfold bits_at; by rewrite wrap_small by lia|]. split; [|split; [by rewrite Hp1|cbn [v_size]; lia]].
  split; [unfold bits_at; cbn [length]; by rewrite wrap_small by lia|]. split; [done|]. split; [cbn; lia|].
  exists (encode (index_type i) start ++ old).
  split_and!; [done|by exists old|]. destruct W as (_ & Hm & _). cbn [pack length]. by rewrite app_nil_r.
Qed.

(** Bits in a range that the index type has: they are written, or the count wraps. *)
Lemma WBits_wide i gv start bits w :
  wwf w -> bits <> [] -> 0 <= start -> start + Z.of_nat (length bits) - 1 <= Max (index_type i) ->
  wp (perform (WBits i gv start bits)) w (fun n w' =>
    Z.of_nat n <= Max (index_type i) /\ performed (WBits i gv start bits) w n w' \/
    n = length bits /\ bits_lost i w (encode_header (ID gv) (range_qualifier i)) bits w').
Proof.
  intros Hw Hne Hst Hmax. pose proof (index_size i). pose proof (index_max i).
  assert (Hlen : forall n, (n <= length bits)%nat -> length (encode_request (WBits i gv start bits) n) =
    (3 + 2 * SIZE (index_type i) + (n + 7) / 8)%nat).
  { intros n Hn. cbn [encode_request]. rewrite !length_app, !index_length, pack_length, length_take_le by done. cbn [length encode_header]. lia. }
  cbn [perform]. destruct (decide (3 + 2 * SIZE (index_type i) + 1 <= v_size (position w))%nat) as [Hfit|Hno].
  - rewrite wp_bind. eapply wp_mono; [by apply bits_begin|]. intros it w2 (rng & -> & Hinv & Hr1 & Hr2).
    apply (bits_performed i start w _ Hw) with (rng := rng); [cbn [length encode_header]; lia|done..|cbn [length encode_header]; lia|done|done|].
    intros n w4 Hn Hf [[Hc W4]|[-> Hlost]]; [left|by right]. split; [done|]. split; [by destruct Hn|]. split.
    + intros Hlt. cbn [objects] in Hlt. rewrite Hlen by lia. specialize (Hf Hlt). unfold bits_full, bits_window in Hf. cbn [v_size] in Hf.
      cbn [length encode_header] in Hf. lia.
    + by rewrite decide_False by lia.
  - unfold HeaderWriter.IterateOverSingleBitfield. rewrite !wp_bind. apply WithReserve_wp; [done| |lia].
    intros Hl. rewrite wp_ret. cbv beta. destruct bits as [|b bits']; [done|].
    assert (Hr : performed (WBits i gv start (b :: bits')) w 0 w).
    + apply refused; [done|cbn; lia|]. rewrite Hlen by (cbn; lia). change ((1 + 7) / 8)%nat with 1%nat. lia.
    + unfold wp. cbn [put_all]. left. split; [lia|exact Hr].
Qed.

Lemma WBits_performed i gv start bits w :
  wwf w -> request_ok (WBits i gv start bits) -> wp (perform (WBits i gv start bits)) w (performed (WBits i gv start bits) w).
Proof.
  intros Hw (Hne & Hst & Hmax & Hcnt). eapply wp_mono; [by apply WBits_wide|]. cbv beta. intros n w' [[_ HP]|(_ & Hl & _)]; [done|lia].
Qed.

(** Every request writes the encoding of the objects that fit, or nothing when there
    is no room for one. *)
Lemma perform_performed req w : wwf w -> request_ok req -> wp (perform req) w (performed req w).
Proof.
  intros Hw Hok. destruct req.
  - by apply WAll_performed.
  - by apply WCount_performed.
  - by apply WRange_performed.
  - by apply WSingle_performed.
  - destruct Hok. by apply WIndexed_performed.
  - by apply WCounted_performed.
  - by apply WValues_performed.
  - by apply WBits_performed.
  - by apply WPrefixed_performed.
Qed.

End Requests.

(** ** Reading back *)

(** The object classes the parser takes in each kind of header. *)
Definition count_object (gv : GroupVariation.t) : bool :=
  match gv with
  | GroupVariation.Group50Var1 | GroupVariation.Group50Var3 | GroupVariation.Group51Var1
  | GroupVariation.Group51Var2 | GroupVariation.Group52Var1 | GroupVariation.Group52Var2
  | GroupVariation.Group120Var3 | GroupVariation.Group120Var4 => true
  | _ => false
  end.

Definition range_object (gv : GroupVariation.t) : bool :=
  match gv with
  | GroupVariation.Group1Var2 | GroupVariation.Group3Var2 | GroupVariation.Group10Var2
  | GroupVariation.Group20Var1 | GroupVariation.Group20Var2 | GroupVariation.Group20Var5
  | GroupVariation.Group20Var6 | GroupVariation.Group21Var1 | GroupVariation.Group21Var2
  | GroupVariation.Group21Var5 | GroupVariation.Group21Var6 | GroupVariation.Group21Var9
  | GroupVariation.Group21Var10 | GroupVariation.Group30Var1 | GroupVariation.Group30Var2
  | GroupVariation.Group30Var3 | GroupVariation.Group30Var4 | GroupVariation.Group30Var5
  | GroupVariation.Group30Var6 | GroupVariation.Group40Var1 | GroupVariation.Group40Var2
  | GroupVariation.Group40Var3 | GroupVariation.Group40Var4 | GroupVariation.Group50Var4
  | GroupVariation.Group121Var1 => true
  | _ => false
  end.

Definition prefix_object (gv : GroupVariation.t) : bool :=
  match gv with
  | GroupVariation.Group2Var1 | GroupVariation.Group2Var2 | GroupVariation.Group2Var3
  | GroupVariation.Group4Var1 | GroupVariation.Group4Var2 | GroupVariation.Group4Var3
  | GroupVariation.Group11Var1 | GroupVariation.Group11Var2 | GroupVariation.Group12Var1
  | GroupVariation.Group13Var1 | GroupVariation.Group13Var2 | GroupVariation.Group22Var1
  | GroupVariation.Group22Var2 | GroupVariation.Group22Var5 | GroupVariation.Group22Var6
  | GroupVariation.Group23Var1 | GroupVariation.Group23Var2 | GroupVariation.Group23Var5
  | GroupVariation.Group23Var6 | GroupVariation.Group32Var1 | GroupVariation.Group32Var2
  | GroupVariation.Group32Var3 | GroupVariation.Group32Var4 | GroupVariation.Group32Var5
  | GroupVariation.Group32Var6 | GroupVariation.Group32Var7 | GroupVariation.Group32Var8
  | GroupVariation.Group41Var1 | GroupVariation.Group41Var2 | GroupVariation.Group41Var3
  | GroupVariation.Group41Var4 | GroupVariation.Group42Var1 | GroupVariation.Group42Var2
  | GroupVariation.Group42Var3 | GroupVariation.Group42Var4 | GroupVariation.Group42Var5
  | GroupVariation.Group42Var6 | GroupVariation.Group42Var7 | GroupVariation.Group42Var8
  | GroupVariation.Group43Var1 | GroupVariation.Group43Var2 | GroupVariation.Group43Var3
  | GroupVariation.Group43Var4 | GroupVariation.Group43Var5 | GroupVariation.Group43Var6
  | GroupVariation.Group43Var7 | GroupVariation.Group43Var8 | GroupVariation.Group50Var4
  | GroupVariation.Group122Var1 | GroupVariation.Group122Var2 => true
  | _ => false
  end.

Definition bit_object (gv : GroupVariation.t) : bool :=
  match gv with
  | GroupVariation.Group1Var1 | GroupVariation.Group10Var1 | GroupVariation.Group80Var1 => true
  | _ => false
  end.

(** The requests that a parser with the given settings accepts. *)
Definition readable (settings : ParserSettings) (req : Request) : Prop :=
  match req with
  | WAll gv => gv <> GroupVariation.UNKNOWN
  | WCount _ gv _ | WRange _ gv _ _ => gv <> GroupVariation.UNKNOWN /\ expectContents settings = false
  | WSingle gv _ | WCounted _ gv _ => count_object gv = true /\ expectContents settings = true
  | WValues _ k _ _ =>
      match k with Class gv => range_object gv = true | OctetStatic n => 0 < n < 256 | OctetEvent _ => False end /\
      expectContents settings = true
  | WBits _ gv _ _ => bit_object gv = true /\ expectContents settings = true
  | WIndexed _ k _ _ | WPrefixed _ k _ =>
      match k with Class gv => prefix_object gv = true | OctetStatic _ => False | OctetEvent n => 0 < n < 256 end
  end.

(** The header the parser reports for a request of which [n] objects were written. *)
Definition header_of (index : Z) (req : Request) (n : nat) : Header :=
  let record id qc := mkHeaderRecord (GetRecord (id_group id) (id_variation id)) (QualifierCodeToType qc) index in
  let indexed {X} start (f : X -> Value) xs := imap (fun j x => (start + Z.of_nat j, f x)) xs in
  match req with
  | WAll gv => AllObjectsHeader (record (ID gv) ALL_OBJECTS)
  | WCount i gv count => CountHeader (record (ID gv) (count_qualifier i)) count
  | WRange i gv start stop => RangeHeader (record (ID gv) (range_qualifier i)) (mkRange start stop)
  | WSingle gv v => CountOf (record (ID gv) UINT8_CNT) 1 [v]
  | WIndexed i k index v => PrefixOf (record (id (serializer_of k)) (prefix_qualifier i)) 1 [(index, v)]
  | WCounted i gv vs => CountOf (record (ID gv) (count_qualifier i)) (Z.of_nat n) (take n vs)
  | WValues i k start vs =>
      RangeOf (record (id (serializer_of k)) (range_qualifier i)) (mkRange start (start + Z.of_nat n - 1))
        (indexed start (fun v => v) (take n vs))
  | WBits i gv start bits =>
      RangeOf (record (ID gv) (range_qualifier i)) (mkRange start (start + Z.of_nat n - 1)) (indexed start Bit (take n bits))
  | WPrefixed i k ivs => PrefixOf (record (id (serializer_of k)) (prefix_qualifier i)) (Z.of_nat n) (take n ivs)
  end.

Section Reading.

(** A collection whose objects were written one after the other. *)
Lemma Foreach_concat {X T} (f : RSlice -> Z -> option (T * RSlice)) (enc : X -> bytes) (g : nat -> X -> T) xs rest :
  (forall j x r, xs !! j = Some x -> f (enc x ++ r) (Z.of_nat j) = Some (g j x, r)) ->
  Foreach f (Z.of_nat (length xs)) (concat (map enc xs) ++ rest) = Some (imap g xs).
Proof.
  unfold Foreach. rewrite Nat2Z.id. change 0 with (Z.of_nat 0).
  assert (H : forall xs k, (forall j x r, xs !! j = Some x -> f (enc x ++ r) (Z.of_nat (k + j)) = Some (g (k + j)%nat x, r)) ->
    Foreach_loop f (length xs) (Z.of_nat k) (concat (map enc xs) ++ rest) = Some (imap (fun j => g (k + j)%nat) xs)).
  { clear xs. induction xs as [|x xs IH]; intros k Hf; [done|]. cbn [length Foreach_loop map concat imap]. rewrite <- app_assoc.
    pose proof (Hf 0%nat x (concat (map enc xs) ++ rest) eq_refl) as H0. rewrite Nat.add_0_r in H0. rewrite H0. cbn [mbind option_bind].
    replace (Z.of_nat k + 1) with (Z.of_nat (S k)) by lia. rewrite IH.
    - cbn [mbind option_bind]. do 2 f_equal; [by rewrite Nat.add_0_r|]. apply imap_ext. intros j y _. unfold compose. f_equal. lia.
    - intros j y r Hj. specialize (Hf (S j) y r Hj). by replace (S k + j)%nat with (k + S j)%nat by lia. }
  intros Hf. apply (H xs 0%nat). exact Hf.
Qed.

Lemma ReadObject_encoded gv v r :
  value_fits (Class gv) v -> ReadObject gv (encode_value (Class gv) v ++ r) = Some (v, r).
Proof.
  destruct v as [vs| | |]; cbn [value_fits]; try done. intros Hv. destruct (combine_fields gv vs Hv) as (H1 & H2 & H3 & H4).
  unfold ReadObject. cbn [encode_value]. rewrite <- H3 at 1. rewrite parse_many_encoded by done. cbn [mbind option_bind]. by rewrite H4.
Qed.

Lemma ReadOctets_encoded n data r :
  0 <= n < 256 -> Z.of_nat (length data) = n -> ReadOctets n (data ++ r) = (Octets data, r).
Proof.
  intros Hn Hl. unfold ReadOctets. rewrite Take_take, Advance_drop.
  replace (Z.to_nat n) with (length data) by lia. rewrite take_app_length, drop_app_length. by rewrite take_ge by lia.
Qed.

Lemma ReadNum_encoded i v r : 0 <= v <= Max (index_type i) -> NumParser.ReadNum (index_type i) (encode (index_type i) v ++ r) = Some (v, r).
Proof.
  intros Hv. unfold NumParser.ReadNum. rewrite ReadBuffer_spec by (rewrite length_app, index_length; lia).
  rewrite <- (index_length i v), take_app_length, drop_app_length. rewrite decode_encode; [done|]. rewrite num_min. lia.
Qed.

Lemma Process_encoded size make body rest h :
  Z.of_nat (length body) = size -> make (body ++ rest) = Some h ->
  emits (fun S pH => Process pH size make (body ++ rest)) [h] (inr rest).
Proof.
  intros Hs Hm. unfold Process, RSlice.Size. destruct (Z.ltb_spec (Z.of_nat (length (body ++ rest))) size); [len|]. rewrite Hm.
  rewrite Advance_drop, <- Hs, Nat2Z.id, drop_app_length.
  apply (emits_bind (fun S pH => notify pH (Some h)) (fun S pH _ => mret rest) [h] [] tt); [by apply emits_notify|apply emits_ret].
Qed.

End Reading.

(** *** Records of headers *)

Definition kind_enum (k : Kind) : GroupVariation.t :=
  match k with
  | Class gv => gv
  | OctetStatic _ => GroupVariation.Group110Var0
  | OctetEvent _ => GroupVariation.Group111Var0
  end.

Definition kind_ok (k : Kind) : Prop :=
  match k with Class gv => gv <> GroupVariation.UNKNOWN | OctetStatic n | OctetEvent n => 0 < n < 256 end.

Section Records.

Lemma ID_enum gv : GetEnum (id_group (ID gv)) (id_variation (ID gv)) = gv.
Proof. by destruct gv. Qed.

Lemma ID_octets gv : is_u8 (id_group (ID gv)) /\ is_u8 (id_variation (ID gv)).
Proof. destruct gv; vm_compute; (split; (split; [discriminate|reflexivity])). Qed.

Lemma octet_enum n : 0 < n < 256 -> GetEnum 110 n = GroupVariation.Group110Var0 /\ GetEnum 111 n = GroupVariation.Group111Var0.
Proof.
  intros Hn. set (P := fun n => bool_decide (GetEnum 110 n = GroupVariation.Group110Var0) && bool_decide (GetEnum 111 n = GroupVariation.Group111Var0)).
  assert (HP : P n = true).
  { apply forall_u8; [vm_compute; reflexivity|unfold is_u8; lia]. }
  apply andb_prop in HP as [H1 H2]. by rewrite bool_decide_eq_true in H1, H2.
Qed.

Lemma kind_octets k : kind_ok k -> is_u8 (id_group (id (serializer_of k))) /\ is_u8 (id_variation (id (serializer_of k))).
Proof. destruct k as [gv|n|n]; intros Hk; [apply ID_octets|cbn in Hk |- *; unfold is_u8; lia|cbn in Hk |- *; unfold is_u8; lia]. Qed.

Lemma kind_record k : kind_ok k ->
  enumeration (GetRecord (id_group (id (serializer_of k))) (id_variation (id (serializer_of k)))) = kind_enum k.
Proof.
  destruct k as [gv|n|n]; intros Hk; cbn [serializer_of Inst id GetRecord enumeration OctetStringSerializer.init id_group id_variation kind_enum];
    [apply ID_enum|by apply octet_enum|by apply octet_enum].
Qed.

Lemma kind_known k : kind_ok k -> kind_enum k <> GroupVariation.UNKNOWN.
Proof. by destruct k. Qed.

(** The first three octets of a header lead to the parser of its qualifier. *)
Lemma ParseHeader_encoded settings index id qc hs r (res : ParseResult + RSlice) :
  is_u8 (id_group id) -> is_u8 (id_variation id) -> GetEnum (id_group id) (id_variation id) <> GroupVariation.UNKNOWN ->
  emits (fun S pH => ParseQualifier settings pH (mkHeaderRecord (GetRecord (id_group id) (id_variation id)) (QualifierCodeToType qc) index) r)
    hs res ->
  emits (fun S pH => ParseHeader settings pH None index (encode_header id qc ++ r)) hs res.
Proof.
  intros Hg Hv Hk He S pH s. unfold ParseHeader.
  assert (Hp : ObjectHeaderParser.ParseObjectHeader (encode_header id qc ++ r) =
    Some (inr (ObjectHeaderParser.mkObjectHeader (id_group id) (id_variation id) (QualifierCodeToType qc), r))).
  { unfold ObjectHeaderParser.ParseObjectHeader, encode_header, RSlice.Size. cbn [app length Nat.ltb Nat.leb].
    rewrite (u8_small _ Hg), (u8_small _ Hv). rewrite u8_small by (destruct qc; cbn; unfold is_u8; lia).
    rewrite !ReadBuffer_spec by (cbn; lia). cbn [mbind option_bind SIZE UInt8 drop take].
    rewrite !ReadBuffer_spec by (cbn; lia). cbn [mbind option_bind SIZE UInt8 drop take].
    rewrite !ReadBuffer_spec by (cbn; lia). done. }
  rewrite Hp. unfold mbind at 1, PM_bind at 1, plift at 1. cbn [mbind option_bind ObjectHeaderParser.oh_group ObjectHeaderParser.oh_variation ObjectHeaderParser.oh_qualifier].
  unfold GetRecord at 1. cbn [enumeration]. rewrite decide_False by done. apply He.
Qed.

Lemma ParseCount_encoded i count r :
  0 < count <= Max (index_type i) -> NumParser.ParseCount (index_type i) (encode (index_type i) count ++ r) = Some (inr (count, r)).
Proof.
  intros Hc. unfold NumParser.ParseCount, NumParser.Read, RSlice.Size. rewrite length_app, index_length.
  destruct (Nat.ltb_spec (SIZE (index_type i) + length r) (SIZE (index_type i))); [lia|].
  rewrite ReadNum_encoded by lia. cbn [mbind option_bind]. by destruct (Z.eqb_spec count 0); [lia|].
Qed.

Lemma ParseRange_encoded i a b r :
  0 <= a <= b -> b <= Max (index_type i) ->
  NumParser.ParseRange (index_type i) (encode (index_type i) a ++ encode (index_type i) b ++ r) = Some (inr (mkRange a b, r)).
Proof.
  intros Ha Hb. unfold NumParser.ParseRange, RSlice.Size. rewrite !length_app, !index_length.
  destruct (Nat.ltb_spec (SIZE (index_type i) + (SIZE (index_type i) + length r)) (2 * SIZE (index_type i))); [lia|].
  rewrite ReadNum_encoded by lia. cbn [mbind option_bind]. rewrite ReadNum_encoded by lia. cbn [mbind option_bind].
  unfold Range.IsValid. cbn [start stop]. by destruct (Z.leb_spec a b); [|lia].
Qed.

End Records.

(** *** The parser of every kind of header on what was written *)

Section Parsing.
Context (settings : ParserSettings).

Lemma count_dispatch {S} (pH : option (IAPDUHandler S)) record count buffer :
  count_object (enum_of record) = true ->
  CountParser_ParseCountOfObjects pH record count buffer =
    Process pH (u32 (count * Z.of_nat (Size (enum_of record)))) (InvokeCountOf record count) buffer.
Proof. unfold CountParser_ParseCountOfObjects. by destruct (enum_of record). Qed.

Lemma range_dispatch {S} (pH : option (IAPDUHandler S)) record range buffer :
  range_object (enum_of record) = true ->
  ParseRangeOfObjects pH record range buffer =
    Process pH (u32 (Range.Count range * Z.of_nat (Size (enum_of record)))) (InvokeRangeOf record range) buffer.
Proof. unfold ParseRangeOfObjects. by destruct (enum_of record). Qed.

Lemma bits_dispatch {S} (pH : option (IAPDUHandler S)) record range buffer :
  bit_object (enum_of record) = true ->
  ParseRangeOfObjects pH record range buffer =
    Process pH (NumBytesInBits (Range.Count range)) (InvokeRangeBitfieldType record range) buffer.
Proof. unfold ParseRangeOfObjects. by destruct (enum_of record). Qed.

Lemma prefix_dispatch {S} (pH : option (IAPDUHandler S)) np record count buffer :
  prefix_object (enum_of record) = true ->
  CountIndexParser_ParseCountOfObjects pH np record count buffer =
    Process pH (u32 (count * (Z.of_nat (Size (enum_of record)) + NumParser.NumBytes np))) (InvokePrefixOf np record count) buffer.
Proof. unfold CountIndexParser_ParseCountOfObjects. by destruct (enum_of record). Qed.

End Parsing.

(** *** Collections of what was written *)

Section Collections.

Lemma imap_value {A} (l : list A) : imap (fun _ x => x) l = l.
Proof. induction l as [|x l IH]; [done|]. cbn. by f_equal. Qed.

Lemma InvokeCountOf_encoded record gv vs rest :
  enum_of record = gv -> Forall (value_fits (Class gv)) vs ->
  InvokeCountOf record (Z.of_nat (length vs)) (concat (map (encode_value (Class gv)) vs) ++ rest) =
    Some (CountOf record (Z.of_nat (length vs)) vs).
Proof.
  intros He Hok. unfold InvokeCountOf. rewrite He, (Foreach_concat _ _ (fun _ v => v)).
  - cbn [mbind option_bind]. by rewrite imap_value.
  - intros j v r Hj. apply ReadObject_encoded. by eapply Forall_lookup_1.
Qed.

Lemma indexes_u16 i a n j : 0 <= a -> a + Z.of_nat n - 1 <= Max (index_type i) -> (j < n)%nat -> u16 (a + Z.of_nat j) = a + Z.of_nat j.
Proof. intros. pose proof (index_max i). apply u16_small. unfold is_u16. lia. Qed.

Section Range.
Context (i : Width) (a : Z) (n : nat) (Ha : 0 <= a) (Hn : (0 < n)%nat) (Hm : a + Z.of_nat n - 1 <= Max (index_type i)).

Lemma range_count : Range.Count (mkRange a (a + Z.of_nat n - 1)) = Z.of_nat n.
Proof. rewrite Count_spec; cbn [start stop]; [lia|]. unfold range_ok. cbn [start stop]. pose proof (index_max i). lia. Qed.

Lemma InvokeRangeOf_encoded record gv vs rest :
  enum_of record = gv -> length vs = n -> Forall (value_fits (Class gv)) vs ->
  InvokeRangeOf record (mkRange a (a + Z.of_nat n - 1)) (concat (map (encode_value (Class gv)) vs) ++ rest) =
    Some (RangeOf record (mkRange a (a + Z.of_nat n - 1)) (imap (fun j v => (a + Z.of_nat j, v)) vs)).
Proof.
  intros He Hl Hok. unfold InvokeRangeOf. pose proof range_count as Hc. rewrite <- Hl in Hc at 2. rewrite Hc, He. cbn [start].
  rewrite (Foreach_concat _ _ (fun j v => (a + Z.of_nat j, v))); [done|].
  intros j v r Hj. rewrite ReadObject_encoded by (by eapply Forall_lookup_1). cbn [mbind option_bind].
  apply lookup_lt_Some in Hj. by rewrite (indexes_u16 i a n) by lia.
Qed.

Lemma InvokeRangeOfOctetData_encoded record m vs rest :
  variation (gv_record record) = m -> length vs = n -> Forall (value_fits (OctetStatic m)) vs ->
  InvokeRangeOfOctetData record (mkRange a (a + Z.of_nat n - 1)) (concat (map (encode_value (OctetStatic m)) vs) ++ rest) =
    Some (RangeOf record (mkRange a (a + Z.of_nat n - 1)) (imap (fun j v => (a + Z.of_nat j, v)) vs)).
Proof.
  intros He Hl Hok. unfold InvokeRangeOfOctetData. pose proof range_count as Hc. rewrite <- Hl in Hc at 2. rewrite Hc, He. cbn [start].
  rewrite (Foreach_concat _ _ (fun j v => (a + Z.of_nat j, v))); [done|].
  intros j v r Hj. pose proof (Forall_lookup_1 _ _ _ _ Hok Hj) as Hv. destruct v as [| | |data]; cbn in Hv; try done.
  cbn [encode_value]. rewrite ReadOctets_encoded by (lia || by destruct Hv as (_ & ? & _)).
  apply lookup_lt_Some in Hj. by rewrite (indexes_u16 i a n) by lia.
Qed.

Lemma GetBit_pack bits rest j b : bits !! j = Some b -> GetBit (pack bits ++ rest) (Z.of_nat j) = Some b.
Proof.
  intros Hj. pose proof (lookup_lt_Some _ _ _ Hj) as Hlt. unfold GetBit.
  replace (Z.to_nat (Z.of_nat j / 8)) with (j / 8)%nat by lia. rewrite lookup_app_l by (rewrite pack_length; lia).
  unfold pack. rewrite list_lookup_fmap, lookup_seq_lt by lia. cbn [fmap option_fmap option_map mbind option_bind].
  f_equal. rewrite Z.shiftl_1_l, single_bit by (apply Z.mod_pos_bound; lia).
  replace (Z.of_nat j mod 8) with (Z.of_nat (j mod 8)) by lia. rewrite byte_of_bits_testbit.
  rewrite lookup_take_lt by (apply Nat.mod_upper_bound; lia). rewrite lookup_drop, Nat.add_0_l.
  replace (8 * (j / 8) + j mod 8)%nat with j by lia. by rewrite Hj.
Qed.

Lemma InvokeRangeBitfieldType_encoded record bits rest :
  length bits = n ->
  InvokeRangeBitfieldType record (mkRange a (a + Z.of_nat n - 1)) (pack bits ++ rest) =
    Some (RangeOf record (mkRange a (a + Z.of_nat n - 1)) (imap (fun j b => (a + Z.of_nat j, Bit b)) bits)).
Proof.
  intros Hl. unfold InvokeRangeBitfieldType, Foreach. rewrite range_count, Nat2Z.id. cbn [start].
  assert (H : forall bs k, (forall j b, bs !! j = Some b -> bits !! (k + j)%nat = Some b) ->
    Foreach_loop (fun buffer pos => b ← GetBit buffer pos; Some (u16 (a + pos), Bit b, buffer)) (length bs) (Z.of_nat k) (pack bits ++ rest) =
    Some (imap (fun j b => (a + Z.of_nat (k + j), Bit b)) bs)).
  { induction bs as [|b bs IH]; intros k Hk; [done|]. cbn [length Foreach_loop imap].
    pose proof (Hk 0%nat b eq_refl) as H0. rewrite Nat.add_0_r in H0. rewrite (GetBit_pack bits rest k b H0). cbn [mbind option_bind].
    pose proof (lookup_lt_Some _ _ _ H0). rewrite (indexes_u16 i a n) by lia.
    replace (Z.of_nat k + 1) with (Z.of_nat (S k)) by lia. rewrite IH.
    - cbn [mbind option_bind]. do 2 f_equal; [by rewrite Nat.add_0_r|]. apply imap_ext. intros j y _. unfold compose. do 2 f_equal. lia.
    - intros j y Hj. by replace (S k + j)%nat with (k + S j)%nat by lia; apply (Hk (S j)). }
  pose proof (H bits 0%nat ltac:(done)) as H0. rewrite Hl in H0. change (Z.of_nat 0) with 0 in H0. by rewrite H0.
Qed.

End Range.

Lemma InvokePrefixOf_encoded i record gv ivs rest :
  enum_of record = gv -> Forall (prefixed_ok i (Class gv)) ivs ->
  InvokePrefixOf (index_type i) record (Z.of_nat (length ivs)) (concat (map (encode_prefixed i (Class gv)) ivs) ++ rest) =
    Some (PrefixOf record (Z.of_nat (length ivs)) ivs).
Proof.
  intros He Hok. unfold InvokePrefixOf. rewrite He, (Foreach_concat _ _ (fun _ iv => iv)).
  - cbn [mbind option_bind]. by rewrite imap_value.
  - intros j [idx v] r Hj. pose proof (Forall_lookup_1 _ _ _ _ Hok Hj) as [Hi Hv]. cbn in Hi, Hv. unfold encode_prefixed. cbn [fst snd].
    rewrite <- app_assoc, ReadNum_encoded by done. cbn [mbind option_bind]. by rewrite ReadObject_encoded.
Qed.

Lemma InvokePrefixOfOctetData_encoded i record m ivs rest :
  variation (gv_record record) = m -> Forall (prefixed_ok i (OctetEvent m)) ivs ->
  InvokePrefixOfOctetData (index_type i) record (Z.of_nat (length ivs)) (concat (map (encode_prefixed i (OctetEvent m)) ivs) ++ rest) =
    Some (PrefixOf record (Z.of_nat (length ivs)) ivs).
Proof.
  intros He Hok. unfold InvokePrefixOfOctetData. rewrite He, (Foreach_concat _ _ (fun _ iv => iv)).
  - cbn [mbind option_bind]. by rewrite imap_value.
  - intros j [idx v] r Hj. pose proof (Forall_lookup_1 _ _ _ _ Hok Hj) as [Hi Hv]. cbn in Hi, Hv. unfold encode_prefixed. cbn [fst snd].
    rewrite <- app_assoc, ReadNum_encoded by done. cbn [mbind option_bind].
    destruct v as [| | |data]; try done. cbn [encode_value]. by rewrite ReadOctets_encoded by (lia || by destruct Hv as (_ & ? & _)).
Qed.

End Collections.

(** *** Every request *)

Section Requested.
Context (settings : ParserSettings) (index : Z).

Abbreviation record_for id qc := (mkHeaderRecord (GetRecord (id_group id) (id_variation id)) (QualifierCodeToType qc) index).

Lemma record_qualifier id qc : GetQualifierCode (record_for id qc) = qc.
Proof. apply QualifierCode_roundtrip. Qed.

Lemma enum_Class gv qc : enum_of (record_for (ID gv) qc) = gv.
Proof. apply ID_enum. Qed.

(** After its three octets a header of a known object is read by the parser of its
    qualifier. *)
Lemma known_header k qc hs r (res : ParseResult + RSlice) :
  kind_ok k ->
  emits (fun S pH => ParseQualifier settings pH (record_for (id (serializer_of k)) qc) r) hs res ->
  emits (fun S pH => ParseHeader settings pH None index (encode_header (id (serializer_of k)) qc ++ r)) hs res.
Proof.
  intros Hk. destruct (kind_octets k Hk). apply ParseHeader_encoded; [done..|].
  pose proof (kind_record k Hk) as He. cbn in He. rewrite He. by apply kind_known.
Qed.

Lemma notified h (rest : RSlice) : emits (fun S pH => _ ← notify pH (Some h); mret rest) [h] (inr rest).
Proof. apply (emits_bind (fun S pH => notify pH (Some h)) (fun S pH _ => mret rest) [h] [] tt); [by apply emits_notify|apply emits_ret]. Qed.

Lemma not_unknown (f : GroupVariation.t -> bool) gv : f GroupVariation.UNKNOWN = false -> f gv = true -> gv <> GroupVariation.UNKNOWN.
Proof. intros Hf Hg ->. by rewrite Hf in Hg. Qed.

(** A header with a count. *)
Lemma count_header i gv count body hs rest :
  gv <> GroupVariation.UNKNOWN -> 0 < count <= Max (index_type i) ->
  emits (fun S pH => if expectContents settings then CountParser_ParseCountOfObjects pH (record_for (ID gv) (count_qualifier i)) count (body ++ rest)
                     else _ ← notify pH (Some (CountHeader (record_for (ID gv) (count_qualifier i)) count)); mret (body ++ rest)) hs (inr rest) ->
  emits (fun S pH => ParseHeader settings pH None index
    (encode_header (ID gv) (count_qualifier i) ++ encode (index_type i) count ++ body ++ rest)) hs (inr rest).
Proof.
  intros Hg Hc He. apply (known_header (Class gv)); [done|]. cbn [serializer_of Inst id].
  intros S pH s. rewrite <- He. unfold ParseQualifier. rewrite record_qualifier.
  destruct i; cbn [count_qualifier]; unfold CountParser_ParseHeader;
    [change NumParser.OneByte with (index_type W8)|change NumParser.TwoByte with (index_type W16)]; by rewrite ParseCount_encoded.
Qed.

(** A header with a range. *)
Lemma range_header i k a b body hs rest :
  kind_ok k -> 0 <= a <= b -> b <= Max (index_type i) ->
  emits (fun S pH => if expectContents settings then ParseRangeOfObjects pH (record_for (id (serializer_of k)) (range_qualifier i)) (mkRange a b) (body ++ rest)
                     else _ ← notify pH (Some (RangeHeader (record_for (id (serializer_of k)) (range_qualifier i)) (mkRange a b))); mret (body ++ rest)) hs (inr rest) ->
  emits (fun S pH => ParseHeader settings pH None index
    (encode_header (id (serializer_of k)) (range_qualifier i) ++ encode (index_type i) a ++ encode (index_type i) b ++ body ++ rest)) hs (inr rest).
Proof.
  intros Hk Ha Hb He. apply known_header; [done|].
  intros S pH s. rewrite <- He. unfold ParseQualifier. rewrite record_qualifier.
  destruct i; cbn [range_qualifier]; unfold RangeParser_ParseHeader;
    [change NumParser.OneByte with (index_type W8)|change NumParser.TwoByte with (index_type W16)]; by rewrite ParseRange_encoded.
Qed.

(** A header with a count and objects with an index. *)
Lemma prefix_header i k count body hs rest :
  kind_ok k -> 0 < count <= Max (index_type i) ->
  emits (fun S pH => CountIndexParser_ParseCountOfObjects pH (index_type i) (record_for (id (serializer_of k)) (prefix_qualifier i)) count (body ++ rest)) hs (inr rest) ->
  emits (fun S pH => ParseHeader settings pH None index
    (encode_header (id (serializer_of k)) (prefix_qualifier i) ++ encode (index_type i) count ++ body ++ rest)) hs (inr rest).
Proof.
  intros Hk Hc He. apply known_header; [done|].
  intros S pH s. rewrite <- He. unfold ParseQualifier. rewrite record_qualifier.
  destruct i; cbn [prefix_qualifier]; unfold CountIndexParser_ParseHeader;
    [change NumParser.OneByte with (index_type W8)|change NumParser.TwoByte with (index_type W16)]; by rewrite ParseCount_encoded.
Qed.

Lemma counted_objects i gv vs rest :
  count_object gv = true -> expectContents settings = true -> vs <> [] -> Z.of_nat (length vs) <= Max (index_type i) ->
  Forall (value_fits (Class gv)) vs ->
  emits (fun S pH => ParseHeader settings pH None index
    (encode_header (ID gv) (count_qualifier i) ++ encode (index_type i) (Z.of_nat (length vs)) ++ concat (map (encode_value (Class gv)) vs) ++ rest))
    [CountOf (record_for (ID gv) (count_qualifier i)) (Z.of_nat (length vs)) vs] (inr rest).
Proof.
  intros Hg Hc Hne Hl Hok. pose proof (index_max i). pose proof (enum_Class gv (count_qualifier i)) as He.
  apply count_header; [by eapply (not_unknown count_object)|destruct vs; [done|cbn [length] in *; lia]|]. rewrite Hc.
  intros S pH s. rewrite count_dispatch by (by rewrite He). rewrite He. pose proof (Size_small gv).
  rewrite u32_small by (unfold is_u32; nia).
  apply (Process_encoded _ _ _ _ (CountOf (record_for (ID gv) (count_qualifier i)) (Z.of_nat (length vs)) vs)).
  - rewrite (length_concat_map _ (Size gv)); [lia|]. eapply Forall_impl; [|exact Hok]. intros v Hv. by apply encode_value_length.
  - by apply InvokeCountOf_encoded.
Qed.

Lemma ranged_objects i k a vs rest :
  match k with Class gv => range_object gv = true | OctetStatic n => 0 < n < 256 | OctetEvent _ => False end ->
  expectContents settings = true -> vs <> [] -> 0 <= a -> a + Z.of_nat (length vs) - 1 <= Max (index_type i) ->
  Forall (value_fits k) vs ->
  emits (fun S pH => ParseHeader settings pH None index
    (encode_header (id (serializer_of k)) (range_qualifier i) ++ encode (index_type i) a ++
     encode (index_type i) (a + Z.of_nat (length vs) - 1) ++ concat (map (encode_value k) vs) ++ rest))
    [RangeOf (record_for (id (serializer_of k)) (range_qualifier i)) (mkRange a (a + Z.of_nat (length vs) - 1))
       (imap (fun j v => (a + Z.of_nat j, v)) vs)] (inr rest).
Proof.
  intros Hg Hc Hne Ha Hm Hok. pose proof (index_max i). assert (Hn : (0 < length vs)%nat) by (destruct vs; [done|cbn; lia]).
  assert (Hk : kind_ok k).
  { destruct k as [gv|n|n]; [by eapply (not_unknown range_object)|done|done]. }
  assert (Hlen : length (concat (map (encode_value k) vs)) = (length vs * kind_size k)%nat).
  { apply length_concat_map. eapply Forall_impl; [|exact Hok]. intros v Hv. by apply encode_value_length. }
  apply range_header; [done|lia|done|]. rewrite Hc. intros S pH s. destruct k as [gv|n|n]; [| |done].
  - pose proof (enum_Class gv (range_qualifier i)) as He. cbn [serializer_of Inst id]. rewrite range_dispatch by (by rewrite He).
    rewrite He, (range_count i) by done. pose proof (Size_small gv). rewrite u32_small by (unfold is_u32; nia).
    apply (Process_encoded _ _ _ _ (RangeOf (record_for (ID gv) (range_qualifier i)) (mkRange a (a + Z.of_nat (length vs) - 1)) _)).
    + change (kind_size (Class gv)) with (Size gv) in Hlen. lia.
    + by apply (InvokeRangeOf_encoded i).
  - pose proof (kind_record (OctetStatic n) Hk) as He. cbn [serializer_of OctetStringSerializer.init id id_group id_variation] in He |- *.
    unfold ParseRangeOfObjects, enum_of at 1. cbn [gv_record]. rewrite He. cbn [kind_enum]. unfold ParseRangeOfOctetData. cbn [gv_record variation GetRecord].
    cbn in Hk. destruct (Z.ltb_spec 0 n); [|lia]. rewrite (range_count i) by done. rewrite u32_small by (unfold is_u32; nia).
    apply (Process_encoded _ _ _ _ (RangeOf (record_for (mkGroupVariationID 110 n) (range_qualifier i)) (mkRange a (a + Z.of_nat (length vs) - 1)) _)).
    + change (kind_size (OctetStatic n)) with (Z.to_nat n) in Hlen. nia.
    + by apply (InvokeRangeOfOctetData_encoded i).
Qed.

Lemma ranged_bits i gv a bits rest :
  bit_object gv = true -> expectContents settings = true -> bits <> [] -> 0 <= a ->
  a + Z.of_nat (length bits) - 1 <= Max (index_type i) ->
  emits (fun S pH => ParseHeader settings pH None index
    (encode_header (ID gv) (range_qualifier i) ++ encode (index_type i) a ++
     encode (index_type i) (a + Z.of_nat (length bits) - 1) ++ pack bits ++ rest))
    [RangeOf (record_for (ID gv) (range_qualifier i)) (mkRange a (a + Z.of_nat (length bits) - 1))
       (imap (fun j b => (a + Z.of_nat j, Bit b)) bits)] (inr rest).
Proof.
  intros Hg Hc Hne Ha Hm. pose proof (index_max i). assert (Hn : (0 < length bits)%nat) by (destruct bits; [done|cbn; lia]).
  apply (range_header i (Class gv)); [by eapply (not_unknown bit_object)|lia|done|]. rewrite Hc. cbn [serializer_of Inst id]. intros S pH s.
  pose proof (enum_Class gv (range_qualifier i)) as He. rewrite bits_dispatch by (by rewrite He). rewrite (range_count i) by done.
  apply (Process_encoded _ _ _ _ (RangeOf (record_for (ID gv) (range_qualifier i)) (mkRange a (a + Z.of_nat (length bits) - 1)) _)).
  - rewrite pack_length. unfold NumBytesInBits. destruct (Z.eqb_spec (Z.of_nat (length bits) mod 8) 0); [lia|].
    rewrite u32_small by (unfold is_u32; lia). lia.
  - by apply (InvokeRangeBitfieldType_encoded i).
Qed.

Lemma prefixed_objects i k ivs rest :
  match k with Class gv => prefix_object gv = true | OctetStatic _ => False | OctetEvent n => 0 < n < 256 end ->
  ivs <> [] -> Z.of_nat (length ivs) <= Max (index_type i) -> Forall (prefixed_ok i k) ivs ->
  emits (fun S pH => ParseHeader settings pH None index
    (encode_header (id (serializer_of k)) (prefix_qualifier i) ++ encode (index_type i) (Z.of_nat (length ivs)) ++
     concat (map (encode_prefixed i k) ivs) ++ rest))
    [PrefixOf (record_for (id (serializer_of k)) (prefix_qualifier i)) (Z.of_nat (length ivs)) ivs] (inr rest).
Proof.
  intros Hg Hne Hm Hok. pose proof (index_max i). pose proof (index_size i). assert (Hn : (0 < length ivs)%nat) by (destruct ivs; [done|cbn; lia]).
  assert (Hk : kind_ok k).
  { destruct k as [gv|n|n]; [by eapply (not_unknown prefix_object)|done|done]. }
  assert (Hlen : length (concat (map (encode_prefixed i k) ivs)) = (length ivs * (kind_size k + SIZE (index_type i)))%nat).
  { apply length_concat_map. eapply Forall_impl; [|exact Hok]. intros iv Hiv. by apply encode_prefixed_length. }
  apply prefix_header; [done|lia|]. intros S pH s. destruct k as [gv|n|n]; [|done|].
  - pose proof (enum_Class gv (prefix_qualifier i)) as He. cbn [serializer_of Inst id]. rewrite prefix_dispatch by (by rewrite He).
    rewrite He. unfold NumParser.NumBytes. pose proof (Size_small gv). rewrite u32_small by (unfold is_u32; nia).
    apply (Process_encoded _ _ _ _ (PrefixOf (record_for (ID gv) (prefix_qualifier i)) (Z.of_nat (length ivs)) ivs)).
    + change (kind_size (Class gv)) with (Size gv) in Hlen. lia.
    + by apply InvokePrefixOf_encoded.
  - pose proof (kind_record (OctetEvent n) Hk) as He. cbn [serializer_of OctetStringSerializer.init id id_group id_variation] in He |- *.
    unfold CountIndexParser_ParseCountOfObjects, enum_of at 1. cbn [gv_record]. rewrite He. cbn [kind_enum].
    unfold ParseIndexPrefixedOctetData, NumParser.NumBytes. cbn [gv_record variation GetRecord].
    cbn in Hk. destruct (Z.eqb_spec n 0); [lia|]. rewrite u32_small by (unfold is_u32; nia).
    apply (Process_encoded _ _ _ _ (PrefixOf (record_for (mkGroupVariationID 111 n) (prefix_qualifier i)) (Z.of_nat (length ivs)) ivs)).
    + change (kind_size (OctetEvent n)) with (Z.to_nat n) in Hlen. nia.
    + by apply InvokePrefixOfOctetData_encoded.
Qed.

(** The parser reports the header of every request from the bytes that were written. *)
Lemma parse_request req n rest :
  request_ok req -> readable settings req -> (0 < n <= objects req)%nat ->
  emits (fun S pH => ParseHeader settings pH None index (encode_request req n ++ rest)) [header_of index req n] (inr rest).
Proof.
  intros Hok Hr Hn. destruct req as [gv|i gv c|i gv a b|gv v|i k idx v|i gv vs|i k a vs|i gv a bits|i k ivs];
    cbn [request_ok readable objects encode_request header_of] in *; rewrite <- ?app_assoc.
  - apply (known_header (Class gv)); [done|]. unfold ParseQualifier. rewrite record_qualifier. apply notified.
  - destruct Hr as [Hg Hc]. apply (count_header i gv c []); [done|lia|]. rewrite Hc. apply notified.
  - destruct Hr as [Hg Hc]. apply (range_header i (Class gv) a b []); [done|lia|lia|]. rewrite Hc. apply notified.
  - destruct Hr as [Hg Hc]. pose proof (counted_objects W8 gv [v] rest Hg Hc ltac:(done) ltac:(cbn; lia) ltac:(by constructor)) as He.
    cbn [map concat] in He. by rewrite app_nil_r in He.
  - destruct Hok as [Hi Hv]. pose proof (index_max i).
    pose proof (prefixed_objects i k [(idx, v)] rest Hr ltac:(done) ltac:(cbn; lia) ltac:(by constructor)) as He.
    unfold encode_prefixed in He. cbn [map concat fst snd] in He. rewrite app_nil_r, <- !app_assoc in He. exact He.
  - destruct Hr as [Hg Hc], Hok as (Hne & Hm & Hok).
    pose proof (counted_objects i gv (take n vs) rest Hg Hc) as He. rewrite length_take_le in He by lia.
    apply He; [destruct vs, n; (done || lia)|lia|by apply Forall_take].
  - destruct Hr as [Hg Hc], Hok as (Hne & Ha & Hm & Hok).
    pose proof (ranged_objects i k a (take n vs) rest Hg Hc) as He. rewrite length_take_le in He by lia.
    apply He; [destruct vs, n; (done || lia)|lia|lia|by apply Forall_take].
  - destruct Hr as [Hg Hc], Hok as (Hne & Ha & Hm & Hcnt).
    pose proof (ranged_bits i gv a (take n bits) rest Hg Hc) as He. rewrite length_take_le in He by lia.
    apply He; [destruct bits, n; (done || lia)|lia|lia].
  - destruct Hok as (Hne & Hm & Hok).
    pose proof (prefixed_objects i k (take n ivs) rest Hr) as He. rewrite length_take_le in He by lia.
    apply He; [destruct ivs, n; (done || lia)|lia|by apply Forall_take].
Qed.

End Requested.

(** ** Many requests *)

Fixpoint perform_all (reqs : list Request) : WM (list nat) :=
  match reqs with
  | [] => mret []
  | req :: reqs => n ← perform req; ns ← perform_all reqs; mret (n :: ns)
  end.

(** The headers that are reported for the requests that wrote something. *)
Fixpoint headers_of (index : Z) (reqs : list Request) (ns : list nat) : list Header :=
  match reqs, ns with
  | req :: reqs, n :: ns =>
      if decide (n = 0%nat) then headers_of index reqs ns else header_of index req n :: headers_of (u32 (index + 1)) reqs ns
  | _, _ => []
  end.

Fixpoint encode_requests (reqs : list Request) (ns : list nat) : bytes :=
  match reqs, ns with
  | req :: reqs, n :: ns => (if decide (n = 0%nat) then [] else encode_request req n) ++ encode_requests reqs ns
  | _, _ => []
  end.

Section Many.

Lemma encode_request_length req n : (3 <= length (encode_request req n))%nat.
Proof. destruct req; cbn [encode_request]; rewrite ?length_app; cbn [length encode_header]; lia. Qed.

Lemma body_mono {A} (f : A -> bytes) n m xs :
  (n <= m)%nat -> (length (concat (map f (take n xs))) <= length (concat (map f (take m xs))))%nat.
Proof.
  intros Hn. rewrite <- (take_drop n (take m xs)), take_take, Nat.min_l by done. rewrite map_app, concat_app, length_app. lia.
Qed.

Lemma encode_request_mono req n m : (n <= m)%nat -> (length (encode_request req n) <= length (encode_request req m))%nat.
Proof.
  intros Hn. destruct req; cbn [encode_request]; rewrite ?length_app, ?index_length; try lia;
    rewrite ?pack_length, ?length_take; try (pose proof (body_mono (encode_value (Class gv)) n m vs Hn); lia).
  - pose proof (body_mono (encode_value k) n m vs Hn). lia.
  - assert ((min n (length bits) + 7) / 8 <= (min m (length bits) + 7) / 8)%nat by (apply Nat.Div0.div_le_mono; lia). lia.
  - pose proof (body_mono (encode_prefixed i k) n m ivs Hn). fold (encode_prefixed i k). unfold encode_prefixed in *. lia.
Qed.

Lemma perform_all_wp reqs w :
  wwf w -> Forall request_ok reqs ->
  wp (perform_all reqs) w (fun ns w' => Forall2 (fun req n => (n <= objects req)%nat) reqs ns /\ wrote w w' (encode_requests reqs ns) /\
    ((length (encode_requests reqs (map objects reqs)) <= v_size (position w))%nat -> ns = map objects reqs)).
Proof.
  intros Hw Hok. revert w Hw. induction Hok as [|req reqs Hreq Hreqs IH]; intros w Hw; cbn [perform_all].
  - rewrite wp_ret. split; [constructor|]. split; [by apply wrote_nil|done].
  - rewrite wp_bind. eapply wp_mono; [by apply perform_performed|]. intros n w1 (Hn & Hfull & W1). rewrite wp_bind.
    pose proof (wrote_wf _ _ _ Hw W1) as Hw1. eapply wp_mono; [by apply IH|]. intros ns w2 (Hns & W2 & Hall). rewrite wp_ret.
    split; [by constructor|]. split; [exact (wrote_trans _ _ _ _ _ W1 W2)|].
    cbn [encode_requests map]. intros Hl. rewrite length_app in Hl. destruct (decide (n = objects req)) as [->|Hne].
    + f_equal. apply Hall. rewrite (wrote_size _ _ _ W1). lia.
    + exfalso. specialize (Hfull ltac:(lia)). rewrite decide_False in Hl by lia.
      assert (Hmono : (length (encode_request req (S n)) <= length (encode_request req (objects req)))%nat); [|lia].
      apply encode_request_mono. lia.
Qed.

End Many.

(** ** Properties *)

Section Properties.

Lemma loop_requests settings reqs ns : forall fuel index,
  Forall request_ok reqs -> Forall (readable settings) reqs -> Forall2 (fun req n => (n <= objects req)%nat) reqs ns ->
  (length (encode_requests reqs ns) <= fuel)%nat ->
  emits (fun S pH => ParseSinglePass_loop settings pH fuel None index (encode_requests reqs ns)) (headers_of index reqs ns) (inr tt).
Proof.
  intros fuel index Hok Hr Hn. revert fuel index. induction Hn as [|req n reqs ns Hreq Hns IH]; intros fuel index Hf.
  { destruct fuel; apply (emits_ret tt). }
  apply Forall_cons_1 in Hok as [Ho Hok]. apply Forall_cons_1 in Hr as [Hr1 Hr]. cbn [encode_requests headers_of] in *.
  destruct (decide (n = 0%nat)) as [|Hn0]; [by apply IH|]. pose proof (encode_request_length req n). rewrite length_app in Hf.
  destruct fuel as [|fuel]; [lia|]. cbn [ParseSinglePass_loop]. unfold RSlice.Size. rewrite length_app.
  destruct (Nat.ltb_spec 0 (length (encode_request req n) + length (encode_requests reqs ns))); [|lia].
  apply (emits_bind (fun S pH => ParseHeader settings pH None index (encode_request req n ++ encode_requests reqs ns))
    (fun S pH copy => ParseSinglePass_loop settings pH fuel None (u32 (index + 1)) copy) [header_of index req n] (headers_of (u32 (index + 1)) reqs ns)
    (encode_requests reqs ns)).
  - apply parse_request; [done|done|lia].
  - apply IH; [done|done|lia].
Qed.

(** C27: What the writer writes, the parser reads.  Any sequence of uses of the
    [HeaderWriter] and its iterators on a window of a fragment (with values that fit
    their fields, and at least one and no more objects than the index type counts) runs
    without an access outside the buffer and changes nothing but the bytes the position
    moves over.  When the objects are of kinds that the parser takes in such a header
    ([readable]), a parser with matching settings accepts these bytes entirely and reports
    exactly the headers that found room, in their order, with the objects that were
    written; when everything fits, everything is written. *)
Theorem written_headers_are_parsed (settings : ParserSettings) (reqs : list Request) (w : Writer) :
  wwf w -> Forall request_ok reqs -> Forall (readable settings) reqs ->
  exists w' ns data, perform_all reqs w = Some (w', ns) /\ wrote w w' data /\
    Forall2 (fun req n => (n <= objects req)%nat) reqs ns /\
    ((length (encode_requests reqs (map objects reqs)) <= v_size (position w))%nat -> ns = map objects reqs) /\
    decoded settings data = Some (headers_of 0 reqs ns, OK).
Proof.
  intros Hw Hok Hr. destruct (wp_run _ _ _ (perform_all_wp reqs w Hw Hok)) as (w' & ns & Hp & Hn & W & Hall).
  exists w', ns, (encode_requests reqs ns). split_and!; [done..|]. unfold decoded, APDUParser.ParseSinglePass.
  pose proof (loop_requests settings reqs ns _ 0 Hok Hr Hn (le_n _)) as He.
  rewrite (He _ (Some recorder)), deliver_recorder. done.
Qed.

(** A window of [n] bytes after the header of a request. *)
Definition empty_writer (n : nat) : Writer := mkWriter (replicate (n + 4) 0) (mkView 4 n) None.

(** Two counters in one header, a packed range of bits and an analog value that
    finds no room. *)
Lemma written_headers_are_parsed_witness :
  let reqs := [WPrefixed W8 (Class GroupVariation.Group22Var2) [(3, Fields [1; 7]); (9, Fields [1; 8])];
               WBits W8 GroupVariation.Group1Var1 2 [true; false; true];
               WValues W16 (Class GroupVariation.Group30Var2) 300 [Fields [1; -5]]] in
  (exists w' ns data, perform_all reqs (empty_writer 20) = Some (w', ns) /\ wrote (empty_writer 20) w' data /\
    Forall2 (fun req n => (n <= objects req)%nat) reqs ns /\
    ((length (encode_requests reqs (map objects reqs)) <= 20)%nat -> ns = map objects reqs) /\
    decoded ParserSettings.Default data = Some (headers_of 0 reqs ns, OK)) /\
  headers_of 0 reqs [2; 3; 0]%nat =
    [PrefixOf (mkHeaderRecord (GetRecord 22 2) 0x17 0) 2 [(3, Fields [1; 7]); (9, Fields [1; 8])];
     RangeOf (mkHeaderRecord (GetRecord 1 1) 0 1) (mkRange 2 4) [(2, Bit true); (3, Bit false); (4, Bit true)]].
Proof.
  intros reqs. split; [|vm_compute; reflexivity].
  apply (written_headers_are_parsed ParserSettings.Default reqs (empty_writer 20)).
  - unfold wwf. cbn. lia.
  - repeat apply Forall_cons_2; [..|by apply Forall_nil_2]; repeat split; try done; cbn [fst snd]; try (cbn; lia);
      repeat constructor; try (cbn; lia); vm_compute; split; discriminate.
  - repeat constructor.
Defined.

(** The count 0 is refused by the parser. *)
Lemma prefix_header_of_zero settings i k body :
  kind_ok k ->
  decoded settings (encode_header (id (serializer_of k)) (prefix_qualifier i) ++ encode (index_type i) 0 ++ body) = Some ([], COUNT_OF_ZERO).
Proof.
  intros Hk. pose proof (index_max i).
  assert (Hz : NumParser.ParseCount (index_type i) (encode (index_type i) 0 ++ body) = Some (inl COUNT_OF_ZERO)).
  { unfold NumParser.ParseCount, NumParser.Read, RSlice.Size. rewrite length_app, index_length.
    destruct (Nat.ltb_spec (SIZE (index_type i) + length body) (SIZE (index_type i))); [lia|]. by rewrite ReadNum_encoded by lia. }
  assert (He : emits (fun S pH => ParseHeader settings pH None 0 (encode_header (id (serializer_of k)) (prefix_qualifier i) ++ encode (index_type i) 0 ++ body))
    [] (inl COUNT_OF_ZERO)).
  { apply known_header; [done|]. intros S pH s. unfold ParseQualifier. rewrite record_qualifier.
    destruct i; cbn [prefix_qualifier]; unfold CountIndexParser_ParseHeader;
    [change NumParser.OneByte with (index_type W8)|change NumParser.TwoByte with (index_type W16)];
    rewrite Hz; by destruct pH. }
  unfold decoded, APDUParser.ParseSinglePass. set (buffer := encode_header (id (serializer_of k)) (prefix_qualifier i) ++ _) in *.
  assert (Hl : (0 < RSlice.Size buffer)%nat) by (unfold RSlice.Size, buffer; rewrite length_app; cbn; lia).
  destruct (RSlice.Size buffer) as [|fuel] eqn:Hs; [lia|]. cbn [ParseSinglePass_loop]. rewrite Hs, (proj2 (Nat.ltb_lt 0 _)) by lia.
  by rewrite (emits_bind_fail _ (fun S pH copy => ParseSinglePass_loop settings pH fuel None (u32 (0 + 1)) copy) _ _ He _ (Some recorder)).
Qed.

(** 256 bits from index 0 are all accepted, the count of the iterator is 0 and its
    destructor does nothing. *)
Lemma bits_wrap gv bits w :
  wwf w -> length bits = 256%nat -> (37 <= v_size (position w))%nat ->
  wp (perform (WBits W8 gv 0 bits)) w (fun n w' => n = 256%nat /\ position w' = mkView (v_pos (position w) + 5) (v_size (position w) - 5)).
Proof.
  intros Hw Hb Hroom. eapply wp_mono; [apply WBits_wide; [done|by destruct bits|done|rewrite Hb; cbn; lia]|]. cbv beta.
  intros n w' [[Hc (Hn & Hf & _)]|(-> & _ & -> & _)].
  - exfalso. cbn in Hc. cbn [objects] in *. specialize (Hf ltac:(lia)). cbn [encode_request] in Hf.
    rewrite !length_app, !index_length, pack_length, length_take in Hf. cbn [length encode_header SIZE index_type UInt8] in Hf. lia.
  - split; [done|]. unfold bits_window. cbn [length encode_header SIZE index_type UInt8]. f_equal; lia.
Qed.

(** 256 prefixed objects are all written, with the count 0. *)
Lemma prefixed_wrap k ivs w :
  wwf w -> length ivs = 256%nat -> Forall (prefixed_ok W8 k) ivs -> (4 + 256 * (kind_size k + 1) <= v_size (position w))%nat ->
  wp (perform (WPrefixed W8 k ivs)) w (fun n w' => n = 256%nat /\
    wrote w w' (encode_header (id (serializer_of k)) UINT8_CNT_UINT8_INDEX ++ encode (index_type W8) 0 ++
                concat (map (encode_prefixed W8 k) ivs))).
Proof.
  intros Hw Hl Hok Hroom. cbn [perform]. rewrite wp_bind.
  eapply wp_mono; [apply (prefixed_begin W8 k w Hw); cbn; lia|]. intros it w2 (cp & -> & Hcp & Hc).
  set (h := encode_header (id (serializer_of k)) (prefix_qualifier W8)) in *.
  apply (counted_performed (fun it iv => PrefixedWriteIterator.Write (index_type W8) it iv.2 iv.1)
    (PrefixedWriteIterator.destroy (index_type W8)) w h 1 (kind_size k + 1) (encode_prefixed W8 k) (prefixed_at W8 k cp)
    (fun _ => True) (fun n => encode (index_type W8) (wrap (index_type W8) (Z.of_nat n))) (prefixed_ok W8 k) ivs Hw (encode_prefixed_length W8 k)).
  - intros n w3 iv Hw3 Hiv Hn. apply (prefixed_step W8); done.
  - intros n w3 old body Hn Hn' Hold _ W3. by apply (prefixed_destroy W8 k w w3 cp h old).
  - exact Hc.
  - done.
  - by intros ->.
  - cbn [length h encode_header]. lia.
  - intros n w3 Hn Hf W3. assert (n = 256)%nat as ->.
    { destruct (Nat.lt_ge_cases n (length ivs)) as [Hlt|]; [|lia]. specialize (Hf Hlt). unfold counted_full in Hf.
      cbn [length h encode_header] in Hf. nia. }
    split; [done|]. by rewrite take_ge in W3 by lia.
Qed.

(** C38: The one-byte counters of two iterators wrap.  256 bits written through a
    bitfield iterator with one-byte indexes, starting at index 0, are all accepted,
    but the iterator then leaves without a stop and without moving the position past
    them: the fragment has the five bytes of the header alone.  256 objects written
    with one-byte prefixes are all written, but their count is the byte 0 and the
    parser rejects the header with [COUNT_OF_ZERO]. *)
Theorem one_byte_counters_wrap (settings : ParserSettings) (w : Writer) (gv : GroupVariation.t) (bits : list bool) (k : Kind)
    (ivs : list (Z * Value)) :
  wwf w -> length bits = 256%nat -> (37 <= v_size (position w))%nat ->
  length ivs = 256%nat -> Forall (prefixed_ok W8 k) ivs -> kind_ok k ->
  (4 + 256 * (kind_size k + 1) <= v_size (position w))%nat ->
  (exists w', perform (WBits W8 gv 0 bits) w = Some (w', 256%nat) /\
     position w' = mkView (v_pos (position w) + 5) (v_size (position w) - 5)) /\
  (exists w' data, perform (WPrefixed W8 k ivs) w = Some (w', 256%nat) /\ wrote w w' data /\
     decoded settings data = Some ([], COUNT_OF_ZERO)).
Proof.
  intros Hw Hb Hr Hl Hok Hk Hroom. split.
  - destruct (wp_run _ _ _ (bits_wrap gv bits w Hw Hb Hr)) as (w' & n & Hp & -> & Hpos). by exists w'.
  - destruct (wp_run _ _ _ (prefixed_wrap k ivs w Hw Hl Hok Hroom)) as (w' & n & Hp & -> & W). eexists w', _.
    split_and!; [done|exact W|]. by apply (prefix_header_of_zero settings W8).
Qed.

(** 256 binary inputs, and 256 analog outputs of the kind of a command header. *)
Lemma one_byte_counters_wrap_witness :
  let w := empty_writer 2000 in
  let ivs := map (fun i => (Z.of_nat i, Fields [7; 0])) (seq 0 256) in
  (exists w', perform (WBits W8 GroupVariation.Group1Var1 0 (replicate 256 true)) w = Some (w', 256%nat) /\ position w' = mkView 9 1995) /\
  (exists w' data, perform (WPrefixed W8 (Class GroupVariation.Group41Var2) ivs) w = Some (w', 256%nat) /\ wrote w w' data /\
     decoded ParserSettings.Default data = Some ([], COUNT_OF_ZERO)).
Proof.
  intros w ivs. apply (one_byte_counters_wrap ParserSettings.Default w GroupVariation.Group1Var1 (replicate 256 true)
    (Class GroupVariation.Group41Var2) ivs).
  - unfold wwf. vm_compute. split; [lia|done].
  - done.
  - vm_compute. lia.
  - done.
  - apply Forall_map, Forall_seq. intros j Hj. split; [cbn; lia|].
    repeat constructor; vm_compute; discriminate.
  - discriminate.
  - vm_compute. lia.
Defined.

End Properties.
