(* ===== verification/EventList.v ===== *)
(** * EventList: the intrusive linked list of the event buffer
    (opendnp3/outstation/event/List.h)

    A doubly linked list whose nodes live in one array, with a free list of the
    unused nodes.  A pointer to a node is the node's position in the array, and
    [None] is the null pointer; using a null or foreign pointer has no result.

    [holds l items] says that the list [l] is well formed and contains exactly
    [items], each value with the position of its node. *)

From S2P Require Import Prelude.
From stdpp Require Import list.

(** ** Data *)

Record Node (T : Type) := mkNode { value : T; prev : option nat; next : option nat }.

Arguments mkNode {T}.

Arguments value {T}.

Arguments prev {T}.

Arguments next {T}.

Record Lst (T : Type) := mkLst {
  underlying : list (Node T);
  head : option nat;
  tail : option nat;
  free : option nat;
  size : Z
}.

Arguments mkLst {T}.

Arguments underlying {T}.

Arguments head {T}.

Arguments tail {T}.

Arguments free {T}.

Arguments size {T}.

(** ** Operations *)

Module Lst.
Section Operations.
Context {T : Type}.

Definition Capacity (l : Lst T) : nat := length (underlying l).

Definition IsFull (l : Lst T) : bool := match free l with None => true | Some _ => false end.

(** [p->next = q] *)
Definition set_next (p : nat) (q : option nat) (nodes : list (Node T)) : option (list (Node T)) :=
  n ← nodes !! p; Some (<[p := mkNode (value n) (prev n) q]> nodes).

(** [p->prev = q] *)
Definition set_prev (p : nat) (q : option nat) (nodes : list (Node T)) : option (list (Node T)) :=
  n ← nodes !! p; Some (<[p := mkNode (value n) q (next n)]> nodes).

Definition Link (first second : option nat) (nodes : list (Node T)) : option (list (Node T)) :=
  nodes ← match first with Some p => set_next p second nodes | None => Some nodes end;
  match second with Some p => set_prev p first nodes | None => Some nodes end.

(** The loop of [Initialize] from index [i] on, for [count] more nodes. *)
Fixpoint Initialize_loop (count i : nat) (nodes : list (Node T)) : option (list (Node T)) :=
  match count with
  | O => Some nodes
  | S count => nodes ← Link (Some (i - 1)) (Some i) nodes; Initialize_loop count (S i) nodes
  end.

(** The constructor: [dflt] is the value-initialised element. *)
Definition init (dflt : T) (maxSize : nat) : option (Lst T) :=
  let nodes := replicate maxSize (mkNode dflt None None) in
  if maxSize =? 0 then Some (mkLst nodes None None None 0)
  else
    nodes ← Initialize_loop (maxSize - 1) 1 nodes;
    Some (mkLst nodes None None (Some 0) 0).

Definition Insert (v : T) (left right : option nat) (l : Lst T) : option (Lst T * option nat) :=
  match free l with
  | None => Some (l, None)
  | Some new_node =>
      n ← underlying l !! new_node;
      let nodes := <[new_node := mkNode v (prev n) (next n)]> (underlying l) in
      let size := u32 (size l + 1) in
      nodes ← Link left (Some new_node) nodes;
      nodes ← Link (Some new_node) right nodes;
      let head := match left with None => Some new_node | Some _ => head l end in
      let tail := match right with None => Some new_node | Some _ => tail l end in
      Some (mkLst nodes head tail (next n) size, Some new_node)
  end.

Definition Add (v : T) (l : Lst T) : option (Lst T * option nat) := Insert v (tail l) None l.

Definition Remove (node : nat) (l : Lst T) : option (Lst T) :=
  n ← underlying l !! node;
  let head := if decide (Some node = head l) then next n else head l in
  let tail := if decide (Some node = tail l) then prev n else tail l in
  nodes ← Link (prev n) (next n) (underlying l);
  nodes ← set_prev node None nodes;
  nodes ← Link (Some node) (free l) nodes;
  Some (mkLst nodes head tail (Some node) (u32 (size l - 1))).

(** [node->value] and the assignment to it. *)
Definition get_value (node : nat) (l : Lst T) : option T := n ← underlying l !! node; Some (value n).

Definition set_value (node : nat) (v : T) (l : Lst T) : option (Lst T) :=
  n ← underlying l !! node;
  Some (mkLst (<[node := mkNode v (prev n) (next n)]> (underlying l)) (head l) (tail l) (free l) (size l)).

(** [Iterator::Next]: the node returned and the iterator after it. *)
Definition Next (l : Lst T) (current : option nat) : option (option nat * option nat) :=
  match current with
  | None => Some (None, None)
  | Some p => n ← underlying l !! p; Some (Some p, next n)
  end.

(** No loop over a list makes more rounds than the array has nodes. *)
Definition fuel_for (l : Lst T) : nat := S (length (underlying l)).

(** [Iterator::Find]: the iterator stops at the element found. *)
Fixpoint Find_loop (fuel : nat) (matches : T -> bool) (l : Lst T) (current : option nat)
    : option (option nat) :=
  match current with
  | None => Some None
  | Some p =>
      match fuel with
      | O => None
      | S fuel =>
          n ← underlying l !! p;
          if matches (value n) then Some (Some p) else Find_loop fuel matches l (next n)
      end
  end.

Definition Find (matches : T -> bool) (l : Lst T) (current : option nat) : option (option nat) :=
  Find_loop (fuel_for l) matches l current.

(** [ForeachWhile]: the callback may change the element it is given and the
    state [W] it captures. *)
Fixpoint ForeachWhile_loop {W} (fuel : nat) (select : T -> SM W (T * bool)) (iter : option nat) (l : Lst T)
    : SM W (Lst T) :=
  match iter with
  | None => mret l
  | Some p =>
      match fuel with
      | O => undefined
      | S fuel =>
          n ← lift (underlying l !! p);
          '(v, result) ← select (value n);
          l ← lift (set_value p v l);
          if (result : bool) then ForeachWhile_loop fuel select (next n) l else mret l
      end
  end.

Definition ForeachWhile {W} (select : T -> SM W (T * bool)) (l : Lst T) : SM W (Lst T) :=
  ForeachWhile_loop (fuel_for l) select (head l) l.

Definition Foreach {W} (action : T -> SM W T) (l : Lst T) : SM W (Lst T) :=
  ForeachWhile_loop (fuel_for l) (fun v => v ← action v; mret (v, true)) (head l) l.

(** [RemoveAll]: the iterator has moved past a node before it is removed. *)
Fixpoint RemoveAll_loop {W} (fuel : nat) (matches : T -> SM W bool) (current iter : option nat)
    (l : Lst T) (count : Z) : SM W (Lst T * Z) :=
  match current with
  | None => mret (l, count)
  | Some p =>
      match fuel with
      | O => undefined
      | S fuel =>
          v ← lift (get_value p l);
          m ← matches v;
          if (m : bool) then
            '(current, iter) ← lift (Next l iter);
            l ← lift (Remove p l);
            RemoveAll_loop fuel matches current iter l (u32 (count + 1))
          else
            '(current, iter) ← lift (Next l iter);
            RemoveAll_loop fuel matches current iter l count
      end
  end.

Definition RemoveAll {W} (matches : T -> SM W bool) (l : Lst T) : SM W (Lst T * Z) :=
  '(current, iter) ← lift (Next l (head l));
  RemoveAll_loop (fuel_for l) matches current iter l 0.

End Operations.
End Lst.

(** ** Well-formed lists *)

Section Chains.
Context {T : Type}.
Implicit Types (nodes : list (Node T)) (items : list (nat * T)).

Definition first_id items (q : option nat) : option nat :=
  match items with [] => q | (i, _) :: _ => Some i end.

Fixpoint last_id (p : option nat) items : option nat :=
  match items with [] => p | (i, _) :: items => last_id (Some i) items end.

(** The nodes of [items] are chained in both directions, between [p] and [q]. *)
Fixpoint seg nodes (p : option nat) items (q : option nat) : Prop :=
  match items with
  | [] => True
  | (i, v) :: items => nodes !! i = Some (mkNode v p (first_id items q)) /\ seg nodes (Some i) items q
  end.

(** The nodes [ids] are chained forwards. *)
Fixpoint free_seg nodes (ids : list nat) : Prop :=
  match ids with
  | [] => True
  | i :: ids => (exists n, nodes !! i = Some n /\ next n = hd_error ids) /\ free_seg nodes ids
  end.

Lemma first_id_app a b q : first_id (a ++ b) q = first_id a (first_id b q).
Proof. by destruct a as [|[]]. Qed.

Lemma last_id_app a b p : last_id p (a ++ b) = last_id (last_id p a) b.
Proof. revert p. induction a as [|[i v] a IH]; intros p; cbn; [done|apply IH]. Qed.

Lemma last_id_elem p items : last_id p items = p \/ exists i, last_id p items = Some i /\ i ∈ items.*1.
Proof.
  revert p. induction items as [|[i v] items IH]; intros p; cbn; [by left|right].
  destruct (IH (Some i)) as [->|(j & -> & Hj)]; eexists; (split; [done|]); [left|by right].
Qed.

Lemma seg_app nodes p a b q :
  seg nodes p (a ++ b) q <-> seg nodes p a (first_id b q) /\ seg nodes (last_id p a) b q.
Proof.
  revert p. induction a as [|[i v] a IH]; intros p; cbn; [tauto|].
  rewrite first_id_app, IH. tauto.
Qed.

Lemma seg_frame nodes nodes' p items q :
  (forall i, i ∈ items.*1 -> nodes' !! i = nodes !! i) -> seg nodes p items q -> seg nodes' p items q.
Proof.
  revert p. induction items as [|[i v] items IH]; intros p Hf; cbn; [done|intros [Hi Hs]].
  split; [rewrite Hf by left; done|]. apply IH; [|done]. intros j Hj. apply Hf. by right.
Qed.

Lemma free_frame nodes nodes' ids :
  (forall i, i ∈ ids -> next <$> nodes' !! i = next <$> nodes !! i) -> free_seg nodes ids -> free_seg nodes' ids.
Proof.
  induction ids as [|i ids IH]; intros Hf; cbn; [done|intros [(n & Hn & Hx) Hs]].
  split; [|apply IH; [intros; apply Hf; by right|done]].
  specialize (Hf i ltac:(left)). rewrite Hn in Hf. destruct (nodes' !! i) as [n'|] eqn:Hn'; [|done].
  injection Hf as Hf. exists n'. by rewrite Hf.
Qed.

(** Re-targeting one pointer of a node leaves every other node alone. *)
Lemma set_next_spec nodes i n q :
  nodes !! i = Some n -> Lst.set_next i q nodes = Some (<[i := mkNode (value n) (prev n) q]> nodes).
Proof. unfold Lst.set_next. by intros ->. Qed.

Lemma set_prev_spec nodes i n q :
  nodes !! i = Some n -> Lst.set_prev i q nodes = Some (<[i := mkNode (value n) q (next n)]> nodes).
Proof. unfold Lst.set_prev. by intros ->. Qed.

Lemma lookup_same {A} (l : list A) i x y : l !! i = Some x -> <[i := y]> l !! i = Some y.
Proof. intros H. apply list_lookup_insert_eq. by apply lookup_lt_Some in H. Qed.

(** Setting the [next] of the last node of a chain. *)
Lemma seg_set_next nodes p a i v q q' :
  NoDup (a.*1 ++ [i]) -> seg nodes p (a ++ [(i, v)]) q ->
  exists nodes', Lst.set_next i q' nodes = Some nodes' /\ seg nodes' p (a ++ [(i, v)]) q' /\
    length nodes' = length nodes /\ forall j, j <> i -> nodes' !! j = nodes !! j.
Proof.
  intros Hnd [Ha [Hi _]]%seg_app. cbn in Hi. rewrite (set_next_spec _ _ _ _ Hi). cbn.
  eexists. split; [done|]. split; [|split; [by rewrite length_insert|]].
  - apply seg_app. cbn. split; [|by rewrite (lookup_same _ _ _ _ Hi)].
    eapply seg_frame, Ha. intros j Hj. apply list_lookup_insert_ne.
    intros ->. apply NoDup_app in Hnd as (_ & Hd & _). eapply Hd; [done|]. left.
  - intros j Hj. by apply list_lookup_insert_ne.
Qed.

(** Setting the [prev] of the first node of a chain. *)
Lemma seg_set_prev nodes p p' i v b q :
  i ∉ b.*1 -> seg nodes p ((i, v) :: b) q ->
  exists nodes', Lst.set_prev i p' nodes = Some nodes' /\ seg nodes' p' ((i, v) :: b) q /\
    length nodes' = length nodes /\ (forall j, j <> i -> nodes' !! j = nodes !! j) /\
    forall j, next <$> nodes' !! j = next <$> nodes !! j.
Proof.
  intros Hnd [Hi Hb]. rewrite (set_prev_spec _ _ _ _ Hi). cbn.
  eexists. split; [done|]. split; [|split; [by rewrite length_insert|split]].
  - rewrite (lookup_same _ _ _ _ Hi). split; [done|].
    eapply seg_frame, Hb. intros j Hj. apply list_lookup_insert_ne. by intros ->.
  - intros j Hj. by apply list_lookup_insert_ne.
  - intros j. destruct (decide (j = i)) as [->|Hj]; [by rewrite (lookup_same _ _ _ _ Hi), Hi|].
    by rewrite list_lookup_insert_ne.
Qed.

(** [Link] joins two chains. *)
Lemma Link_spec nodes a b qa pb qb :
  NoDup (a.*1 ++ b.*1) -> seg nodes None a qa -> seg nodes pb b qb ->
  exists nodes', Lst.Link (last_id None a) (first_id b None) nodes = Some nodes' /\
    seg nodes' None a (first_id b None) /\ seg nodes' (last_id None a) b qb /\
    length nodes' = length nodes /\ forall j, j ∉ a.*1 ++ b.*1 -> nodes' !! j = nodes !! j.
Proof.
  intros Hnd Ha Hb. unfold Lst.Link. apply NoDup_app in Hnd as (Ha1 & Hdis & Hb1).
  assert (exists n1, match last_id None a with Some p => Lst.set_next p (first_id b None) nodes
                     | None => Some nodes end = Some n1 /\
    seg n1 None a (first_id b None) /\ length n1 = length nodes /\
    forall j, j ∉ a.*1 -> n1 !! j = nodes !! j) as (n1 & -> & Ha' & Hl1 & Hf1).
  { destruct a as [|[i v] a _] using rev_ind; [by exists nodes|].
    rewrite fmap_app in Ha1. cbn in Ha1.
    destruct (seg_set_next _ _ _ _ _ _ (first_id b None) Ha1 Ha) as (n1 & Hs & Hseg & Hl & Hf).
    exists n1. rewrite last_id_app. cbn. split; [done|]. split; [done|]. split; [done|].
    intros j Hj. apply Hf. intros ->. apply Hj. rewrite fmap_app, elem_of_app. right. left. }
  cbn. assert (Hb' : seg n1 pb b qb).
  { eapply seg_frame, Hb. intros i Hi. apply Hf1. intros Hi'. by eapply Hdis. }
  destruct b as [|[i v] b]; cbn.
  { exists n1. repeat split; try done. intros j Hj. apply Hf1. intros H. apply Hj, elem_of_app. by left. }
  cbn in Hb1. apply NoDup_cons in Hb1 as [Hib Hb1].
  destruct (seg_set_prev _ _ (last_id None a) _ _ _ _ Hib Hb') as (n2 & -> & Hb2 & Hl2 & Hf2 & _).
  exists n2. split; [done|]. split; [|split; [done|split; [congruence|]]].
  - eapply seg_frame, Ha'. intros j Hj. apply Hf2. intros ->. eapply Hdis; [done|left].
  - intros j Hj. rewrite Hf2, Hf1; [done| |].
    + intros H. apply Hj, elem_of_app. by left.
    + intros ->. apply Hj, elem_of_app. right. left.
Qed.

(** Changing the value of a node. *)
Lemma seg_set_value nodes p a i v v' b q :
  NoDup ((a ++ (i, v) :: b).*1) -> seg nodes p (a ++ (i, v) :: b) q ->
  exists n, nodes !! i = Some n /\ value n = v /\
    seg (<[i := mkNode v' (prev n) (next n)]> nodes) p (a ++ (i, v') :: b) q.
Proof.
  rewrite fmap_app. cbn. intros (_ & Hdis & Hib)%NoDup_app [Ha [Hi Hb]]%seg_app. cbn in Ha.
  apply NoDup_cons in Hib as [Hib _].
  exists (mkNode v (last_id p a) (first_id b q)). split; [done|]. split; [done|]. cbn.
  apply seg_app. cbn. rewrite (lookup_same _ _ _ _ Hi). split; [|split; [done|]].
  - eapply seg_frame, Ha. intros j Hj. apply list_lookup_insert_ne. intros ->. eapply Hdis; [done|left].
  - eapply seg_frame, Hb. intros j Hj. apply list_lookup_insert_ne. by intros ->.
Qed.

End Chains.

(** ** What a list holds *)

Section Lists.
Context {T : Type}.
Implicit Types (l : Lst T) (items : list (nat * T)).

Definition holds l items : Prop :=
  exists frees,
    items.*1 ++ frees ≡ₚ seq 0 (length (underlying l)) /\
    seg (underlying l) None items None /\ free_seg (underlying l) frees /\
    head l = first_id items None /\ tail l = last_id None items /\ free l = hd_error frees /\
    size l = Z.of_nat (length items) /\ (Z.of_nat (length (underlying l)) < 4294967296)%Z.

Lemma holds_nodup l items : holds l items -> NoDup items.*1.
Proof.
  intros (frees & Hp & _). assert (H : NoDup (items.*1 ++ frees)) by (rewrite Hp; apply NoDup_seq).
  by apply NoDup_app in H as (H & _).
Qed.

Lemma holds_length l items : holds l items -> length items <= Lst.Capacity l.
Proof.
  intros (frees & Hp & _). apply Permutation_length in Hp. rewrite length_app, length_fmap, length_seq in Hp.
  unfold Lst.Capacity. lia.
Qed.

Lemma holds_size l items : holds l items -> size l = Z.of_nat (length items).
Proof. by intros (? & _ & _ & _ & _ & _ & _ & ? & _). Qed.

Lemma holds_head l items : holds l items -> head l = first_id items None.
Proof. by intros (? & _ & _ & _ & ? & _). Qed.

Lemma holds_full l items : holds l items -> Lst.IsFull l = bool_decide (length items = Lst.Capacity l).
Proof.
  intros (frees & Hp & _ & _ & _ & _ & Hf & _). unfold Lst.IsFull, Lst.Capacity. rewrite Hf.
  apply Permutation_length in Hp. rewrite length_app, length_fmap, length_seq in Hp.
  destruct frees; cbn in *; [rewrite bool_decide_true by lia|rewrite bool_decide_false by lia]; done.
Qed.

Lemma holds_lookup l items i v :
  holds l items -> (i, v) ∈ items -> exists n, underlying l !! i = Some n /\ value n = v.
Proof.
  intros (frees & _ & Hs & _) Hin. apply list_elem_of_split in Hin as (a & b & ->).
  apply seg_app in Hs as [_ [Hi _]]. eexists. by rewrite Hi.
Qed.

Lemma holds_next l a i v b :
  holds l (a ++ (i, v) :: b) -> exists n, underlying l !! i = Some n /\ value n = v /\ next n = first_id b None.
Proof. intros (frees & _ & Hs & _). apply seg_app in Hs as [_ [Hi _]]. eexists. by rewrite Hi. Qed.

Lemma holds_get l items i v : holds l items -> (i, v) ∈ items -> Lst.get_value i l = Some v.
Proof.
  intros Hl Hin. destruct (holds_lookup _ _ _ _ Hl Hin) as (n & Hn & <-).
  unfold Lst.get_value. by rewrite Hn.
Qed.

(** A pointer to the node of an item determines the item. *)
Lemma holds_fun l items i v w : holds l items -> (i, v) ∈ items -> (i, w) ∈ items -> v = w.
Proof. intros Hl H1 H2. pose proof (holds_get _ _ _ _ Hl H1). pose proof (holds_get _ _ _ _ Hl H2). congruence. Qed.

Lemma holds_set l a i v v' b :
  holds l (a ++ (i, v) :: b) ->
  exists l', Lst.set_value i v' l = Some l' /\ holds l' (a ++ (i, v') :: b) /\ Lst.Capacity l' = Lst.Capacity l.
Proof.
  intros Hl. pose proof (holds_nodup _ _ Hl) as Hnd.
  destruct Hl as (frees & Hp & Hs & Hf & Hh & Ht & Hfr & Hsz & Hb).
  destruct (seg_set_value _ _ _ _ _ v' _ _ Hnd Hs) as (n & Hn & Hv & Hs').
  unfold Lst.set_value, Lst.Capacity. rewrite Hn. cbn. eexists. split; [done|]. cbn [underlying].
  split; [|by rewrite length_insert]. exists frees. cbn [underlying head tail free size]. rewrite length_insert.
  assert (Hids : (a ++ (i, v') :: b).*1 = (a ++ (i, v) :: b).*1) by (by rewrite !fmap_app).
  rewrite Hids. split; [done|]. split; [done|]. split.
  - eapply free_frame, Hf. intros j Hj. destruct (decide (i = j)) as [->|Hne].
    + by rewrite (lookup_same _ _ _ _ Hn), Hn.
    + by rewrite list_lookup_insert_ne.
  - rewrite Hh, Ht, Hfr, Hsz, !first_id_app, !last_id_app, !length_app. done.
Qed.

(** [Add] appends to the list; it fails exactly when the list is full. *)
Lemma Add_full l items v :
  holds l items -> Lst.IsFull l = true -> Lst.Add v l = Some (l, None).
Proof. intros _ Hf. unfold Lst.Add, Lst.Insert. unfold Lst.IsFull in Hf. by destruct (free l). Qed.

Lemma Add_spec l items v :
  holds l items -> Lst.IsFull l = false ->
  exists l' i, Lst.Add v l = Some (l', Some i) /\ holds l' (items ++ [(i, v)]) /\ (i ∉ items.*1) /\
    Lst.Capacity l' = Lst.Capacity l.
Proof.
  intros (frees & Hp & Hs & Hf & Hh & Ht & Hfr & Hsz & Hb) Hfull.
  unfold Lst.IsFull in Hfull. destruct frees as [|i frees]; cbn in Hfr; rewrite Hfr in Hfull; [done|].
  destruct Hf as [(n & Hn & Hx) Hf].
  assert (Hnd : NoDup (items.*1 ++ i :: frees)) by (rewrite Hp; apply NoDup_seq).
  apply NoDup_app in Hnd as (Hni & Hdis & [Hif Hnf]%NoDup_cons).
  assert (Hi : i ∉ items.*1) by (intros H; by eapply Hdis; [|left]).
  unfold Lst.Add, Lst.Insert. rewrite Hfr, Hn. cbn -[u32]. rewrite Ht.
  set (nodes := <[i := mkNode v (prev n) (next n)]> (underlying l)).
  assert (Hs1 : seg nodes None items None).
  { eapply seg_frame, Hs. intros j Hj. apply list_lookup_insert_ne. by intros ->. }
  assert (Hi1 : seg nodes (prev n) [(i, v)] (next n)).
  { unfold nodes. cbn. by rewrite (lookup_same _ _ _ _ Hn). }
  assert (Hnd : NoDup (items.*1 ++ [(i, v)].*1)).
  { apply NoDup_app. split; [done|]. split; [|apply NoDup_singleton].
    intros j Hj ->%list_elem_of_singleton. done. }
  destruct (Link_spec _ _ _ _ _ _ Hnd Hs1 Hi1) as (n2 & HL & Hs2 & Hi2 & Hl2 & Hf2).
  cbn [first_id] in HL. rewrite HL. cbn -[u32].
  assert (Hs3 : seg n2 None (items ++ [(i, v)]) (next n)) by (by apply seg_app).
  destruct (seg_set_next n2 None items i v (next n) None Hnd Hs3) as (n3 & -> & Hs4 & Hl3 & Hf3). cbn -[u32].
  exists (mkLst n3 (match last_id None items with None => Some i | Some _ => head l end) (Some i) (next n)
            (u32 (size l + 1))), i.
  split; [done|].
  assert (Hlen : length n3 = length (underlying l)) by (rewrite Hl3, Hl2; unfold nodes; by rewrite length_insert).
  split; [|split; [done|]]; [|unfold Lst.Capacity; cbn; lia].
  exists frees. cbn. rewrite Hlen, fmap_app, <- app_assoc. split; [done|]. split; [done|]. split.
  { eapply free_frame, Hf. intros j Hj. rewrite Hf3 by (by intros ->). rewrite Hf2.
    - unfold nodes. by rewrite list_lookup_insert_ne by (by intros ->).
    - rewrite elem_of_app. cbn. intros [H|H%list_elem_of_singleton]; [|by subst].
      eapply Hdis; [done|by right]. }
  split; [|split; [by rewrite last_id_app|split; [done|split; [|done]]]].
  - rewrite first_id_app, Hh. destruct items as [|[j w] items]; [done|]. cbn.
    destruct (last_id_elem (Some j) items) as [->|(k & -> & _)]; done.
  - apply Permutation_length in Hp. rewrite length_app, length_fmap, length_seq in Hp. cbn in Hp.
    rewrite length_app, Hsz. cbn. rewrite u32_small; unfold is_u32; lia.
Qed.

(** [Remove] takes exactly the given node out, wherever it is. *)
Lemma Remove_spec l a i v b :
  holds l (a ++ (i, v) :: b) ->
  exists l', Lst.Remove i l = Some l' /\ holds l' (a ++ b) /\ Lst.Capacity l' = Lst.Capacity l.
Proof.
  intros (frees & Hp & Hs & Hf & Hh & Ht & Hfr & Hsz & Hb).
  assert (Hnd : NoDup ((a ++ (i, v) :: b).*1 ++ frees)) by (rewrite Hp; apply NoDup_seq).
  apply NoDup_app in Hnd as (Hab & Hdis & Hnf). pose proof Hab as Hab'.
  rewrite fmap_app in Hab'. cbn in Hab'.
  apply NoDup_app in Hab' as (Ha & Hd & [Hib Hb1]%NoDup_cons).
  assert (Hia : i ∉ a.*1) by (intros H; eapply Hd; [done|left]).
  assert (Hif : i ∉ frees).
  { intros H. eapply Hdis, H. rewrite fmap_app, elem_of_app. right. left. }
  apply seg_app in Hs as [Hsa [Hi Hsb]]. cbn in Hsa, Hi.
  unfold Lst.Remove. rewrite Hi. cbn [mbind option_bind value prev next].
  assert (Hnd2 : NoDup (a.*1 ++ b.*1)).
  { apply NoDup_app. split; [done|]. split; [|done]. intros j Hj Hj'. eapply Hd; [done|by right]. }
  destruct (Link_spec _ _ _ _ _ _ Hnd2 Hsa Hsb) as (n1 & -> & Hsa1 & Hsb1 & Hl1 & Hf1). cbn [mbind option_bind].
  assert (Hin : i ∉ a.*1 ++ b.*1) by (rewrite elem_of_app; tauto).
  assert (Hi1 := Hf1 i Hin). rewrite Hi in Hi1.
  rewrite (set_prev_spec _ _ _ _ Hi1). cbn -[u32].
  unfold Lst.Link. rewrite (set_next_spec _ _ _ (free l) (lookup_same _ _ _ _ Hi1)). cbn -[u32].
  rewrite list_insert_insert_eq.
  set (n2 := <[i := mkNode v None (free l)]> n1).
  assert (H2 : forall j, j <> i -> n2 !! j = n1 !! j) by (intros; by apply list_lookup_insert_ne).
  assert (Hi2 : n2 !! i = Some (mkNode v None (free l))) by (unfold n2; by rewrite (lookup_same _ _ _ _ Hi1)).
  assert (Hf2 : free_seg n2 frees).
  { eapply free_frame, Hf. intros j Hj. rewrite H2 by (by intros ->). rewrite Hf1; [done|].
    intros [H|H]%elem_of_app; (eapply Hdis, Hj); rewrite fmap_app, elem_of_app; [by left|right; by right]. }
  assert (exists n3, match free l with Some p => Lst.set_prev p (Some i) n2 | None => Some n2 end = Some n3 /\
    (forall j, j ∉ frees -> n3 !! j = n2 !! j) /\
    (forall j, next <$> n3 !! j = next <$> n2 !! j) /\ length n3 = length n2) as (n3 & -> & H3 & H3n & Hl3).
  { rewrite Hfr. destruct frees as [|k frees]; [by exists n2|]. destruct Hf2 as [(n & Hn & _) _]. cbn.
    rewrite (set_prev_spec _ _ _ _ Hn). eexists. split; [done|]. split; [|split; [|by rewrite length_insert]].
    - intros j Hj. apply list_lookup_insert_ne. intros ->. apply Hj. left.
    - intros j. destruct (decide (k = j)) as [->|]; [by rewrite (lookup_same _ _ _ _ Hn), Hn|].
      by rewrite list_lookup_insert_ne. }
  cbn -[u32]. eexists. split; [done|].
  assert (Hlen : length n3 = length (underlying l)) by (rewrite Hl3; unfold n2; rewrite length_insert; lia).
  split; [|unfold Lst.Capacity; cbn; lia].
  assert (Hfr3 : forall j, j ∈ a.*1 ++ b.*1 -> n3 !! j = n1 !! j).
  { intros j Hj. rewrite H3, H2; [done|by intros ->|].
    intros Hjf. eapply Hdis, Hjf. rewrite fmap_app. cbn. rewrite !elem_of_app in *. destruct Hj; [by left|right; by right]. }
  exists (i :: frees). cbn. rewrite Hlen, fmap_app. split; [|split; [|split]].
  - rewrite <- Hp, fmap_app. cbn. rewrite <- !app_assoc. apply Permutation_app_head. cbn. symmetry.
    apply Permutation_middle.
  - apply seg_app. split; (eapply seg_frame; [|eassumption]); intros j Hj; apply Hfr3, elem_of_app; tauto.
  - split; [exists (mkNode v None (free l)); by rewrite H3, Hi2 by done|].
    eapply free_frame, Hf2. intros j _. apply H3n.
  - rewrite Hh, Ht, !first_id_app, !last_id_app, Hsz. cbn.
    split; [|split; [|split; [done|split; [|done]]]].
    + destruct a as [|[j w] a]; cbn; [by rewrite decide_True|].
      rewrite decide_False; [done|]. intros [= ->]. apply Hia. left.
    + destruct b as [|[j w] b] using rev_ind; cbn; [by rewrite decide_True|].
      rewrite last_id_app. cbn. rewrite last_id_app. cbn. rewrite decide_False; [done|].
      intros [= ->]. apply Hib. rewrite fmap_app, elem_of_app. right. left.
    + rewrite !length_app. cbn. apply Permutation_length in Hp.
      rewrite length_app, length_fmap, length_app, length_seq in Hp. cbn in Hp.
      rewrite u32_small; unfold is_u32; lia.
Qed.

End Lists.

(** ** Construction *)

Section Construction.
Context {T : Type}.
Implicit Types (nodes : list (Node T)).

(** The nodes up to [i] are chained, the later ones are not. *)
Definition chained_to (i : nat) nodes : Prop :=
  forall j, j < length nodes -> next <$> nodes !! j = Some (if j + 1 <? i then Some (j + 1) else None).

Lemma Link_next nodes i :
  0 < i < length nodes -> chained_to i nodes ->
  exists nodes', Lst.Link (Some (i - 1)) (Some i) nodes = Some nodes' /\ length nodes' = length nodes /\
    chained_to (S i) nodes'.
Proof.
  intros Hi Hc. destruct (lookup_lt_is_Some_2 nodes (i - 1) ltac:(lia)) as [n Hn].
  destruct (lookup_lt_is_Some_2 nodes i ltac:(lia)) as [m Hm].
  unfold Lst.Link. rewrite (set_next_spec _ _ _ _ Hn). cbn [mbind option_bind].
  set (nodes1 := <[i - 1 := mkNode (value n) (prev n) (Some i)]> nodes).
  assert (Hm1 : nodes1 !! i = Some m) by (unfold nodes1; by rewrite list_lookup_insert_ne by lia).
  rewrite (set_prev_spec _ _ _ _ Hm1). eexists. split; [done|].
  unfold nodes1. split; [by rewrite !length_insert|]. intros j. rewrite !length_insert. intros Hj.
  destruct (decide (j = i)) as [->|Hji].
  { rewrite (lookup_same _ _ _ _ Hm1). transitivity (next <$> Some m); [done|]. rewrite <- Hm, (Hc i Hj).
    destruct (Nat.ltb_spec (i + 1) i), (Nat.ltb_spec (i + 1) (S i)); (done || lia). }
  rewrite list_lookup_insert_ne by done. destruct (decide (j = i - 1)) as [->|Hj1].
  - rewrite (lookup_same _ _ _ _ Hn). transitivity (Some (Some i)); [done|].
    destruct (Nat.ltb_spec (i - 1 + 1) (S i)); [do 2 f_equal; lia|lia].
  - rewrite list_lookup_insert_ne, Hc by done. destruct (Nat.ltb_spec (j + 1) i), (Nat.ltb_spec (j + 1) (S i)); (done || lia).
Qed.

Lemma Initialize_loop_spec count i nodes :
  0 < i -> i + count = length nodes -> chained_to i nodes ->
  exists nodes', Lst.Initialize_loop count i nodes = Some nodes' /\ length nodes' = length nodes /\
    chained_to (length nodes) nodes'.
Proof.
  revert i nodes. induction count as [|count IH]; intros i nodes Hi Hc Hch; cbn [Lst.Initialize_loop].
  { exists nodes. replace (length nodes) with i by lia. done. }
  destruct (Link_next nodes i ltac:(lia) Hch) as (n1 & -> & Hl & Hch1). cbn [mbind option_bind].
  rewrite <- Hl. apply IH; [lia|lia|done].
Qed.

Lemma chained_free nodes k :
  k <= length nodes -> chained_to (length nodes) nodes -> free_seg nodes (seq (length nodes - k) k).
Proof.
  intros Hk Hc. induction k as [|k IH]; cbn [seq free_seg]; [done|]. split.
  - pose proof (Hc (length nodes - S k) ltac:(lia)) as H.
    destruct (nodes !! (length nodes - S k)) as [n|]; [|done].
    exists n. split; [done|]. apply (inj Some). etransitivity; [exact H|]. f_equal. destruct (Nat.ltb_spec (length nodes - S k + 1) (length nodes)), k; try lia; [|done].
    cbn. f_equal. lia.
  - replace (S (length nodes - S k)) with (length nodes - k) by lia. apply IH. lia.
Qed.

Lemma init_holds (dflt : T) (n : nat) :
  (Z.of_nat n < 4294967296)%Z -> exists l, Lst.init dflt n = Some l /\ holds l [] /\ Lst.Capacity l = n.
Proof.
  intros Hn. unfold Lst.init. destruct (Nat.eqb_spec n 0) as [->|Hn0].
  { eexists. split; [done|]. split; [|done]. by exists []. }
  set (nodes := replicate n (mkNode dflt None None)).
  assert (Hlen : length nodes = n) by apply length_replicate.
  assert (Hch : chained_to 1 nodes).
  { intros j Hj. unfold nodes. rewrite lookup_replicate_2 by lia.
    destruct (Nat.ltb_spec (j + 1) 1); [lia|done]. }
  destruct (Initialize_loop_spec (n - 1) 1 nodes ltac:(lia) ltac:(lia) Hch) as (n1 & -> & Hl1 & Hc1).
  cbn [mbind option_bind]. eexists. split; [done|]. split; [|unfold Lst.Capacity; cbn; lia].
  exists (seq 0 n). cbn [underlying head tail free size fmap list_fmap app seg first_id last_id length].
  rewrite Hl1, Hlen. split; [done|]. split; [done|]. split.
  - rewrite <- Hl1 in Hc1. pose proof (chained_free n1 n ltac:(lia) Hc1) as H.
    by replace (length n1 - n) with 0 in H by lia.
  - destruct n; [done|]. done.
Qed.

End Construction.

(** ** Loops over a list *)

Section Loops.
Context {T W : Type}.
Implicit Types (l : Lst T) (items todo : list (nat * T)).

(** The items from the first one on that matches. *)
Fixpoint drop_until (matches : T -> bool) items : list (nat * T) :=
  match items with
  | [] => []
  | (i, v) :: rest => if matches v then items else drop_until matches rest
  end.

Lemma Find_loop_spec fuel matches l a b :
  holds l (a ++ b) -> length b <= fuel ->
  Lst.Find_loop fuel matches l (first_id b None) = Some (first_id (drop_until matches b) None).
Proof.
  revert fuel a. induction b as [|[i v] b IH]; intros fuel a Hl Hf; [by destruct fuel|].
  destruct fuel as [|fuel]; cbn in Hf; [lia|]. cbn [first_id Lst.Find_loop drop_until].
  destruct (holds_next _ _ _ _ _ Hl) as (n & Hn & <- & Hx). rewrite Hn. cbn [mbind option_bind].
  destruct (matches (value n)); [done|]. rewrite Hx. apply (IH fuel (a ++ [(i, value n)])); [|lia].
  by rewrite <- app_assoc.
Qed.

Lemma Find_spec matches l a b :
  holds l (a ++ b) -> Lst.Find matches l (first_id b None) = Some (first_id (drop_until matches b) None).
Proof.
  intros Hl. eapply Find_loop_spec; [done|]. pose proof (holds_length _ _ Hl) as H.
  rewrite length_app in H. unfold Lst.fuel_for, Lst.Capacity in *. lia.
Qed.

(** The rule for [ForeachWhile]: [Inv] relates the items seen, those to come and
    the captured state, [Stop] the items and the state in the end. *)
Lemma ForeachWhile_loop_spec (select : T -> SM W (T * bool)) (Inv : list (nat * T) -> list (nat * T) -> W -> Prop)
    (Stop : list (nat * T) -> W -> Prop) fuel l a b w :
  (forall a i v b w, Inv a ((i, v) :: b) w ->
     wp (select v) w (fun r w => if snd r : bool then Inv (a ++ [(i, fst r)]) b w else Stop (a ++ (i, fst r) :: b) w)) ->
  (forall a w, Inv a [] w -> Stop a w) ->
  holds l (a ++ b) -> length b <= fuel -> Inv a b w ->
  wp (Lst.ForeachWhile_loop fuel select (first_id b None) l) w
    (fun l' w' => Lst.Capacity l' = Lst.Capacity l /\ exists items, holds l' items /\ Stop items w').
Proof.
  intros Hstep Hend. revert fuel l a w Hstep. induction b as [|[i v] b IH]; intros fuel l a w Hstep Hl Hf Hi.
  { rewrite app_nil_r in Hl. destruct fuel; cbn; (split; [done|]); exists a; auto. }
  destruct fuel as [|fuel]; cbn in Hf; [lia|]. cbn [first_id Lst.ForeachWhile_loop].
  destruct (holds_next _ _ _ _ _ Hl) as (n & Hn & <- & Hx). rewrite Hn.
  rewrite wp_bind. unfold wp at 1, lift. cbn. rewrite wp_bind.
  eapply wp_mono; [apply Hstep; exact Hi|]. intros [v' r] w' Hr. cbn in Hr.
  destruct (holds_set _ _ _ _ v' _ Hl) as (l' & Hset & Hl' & Hcap).
  rewrite wp_bind, Hset. unfold wp at 1. cbn. destruct r.
  - rewrite Hx. eapply wp_mono; [apply (IH fuel l' (a ++ [(i, v')]))|].
    + exact Hstep.
    + by rewrite <- app_assoc.
    + lia.
    + done.
    + cbn. intros l2 w2 [-> H]. done.
  - apply wp_ret. split; [done|]. eauto.
Qed.

Lemma ForeachWhile_spec (select : T -> SM W (T * bool)) (Inv : list (nat * T) -> list (nat * T) -> W -> Prop)
    (Stop : list (nat * T) -> W -> Prop) l items w :
  (forall a i v b w, Inv a ((i, v) :: b) w ->
     wp (select v) w (fun r w => if snd r : bool then Inv (a ++ [(i, fst r)]) b w else Stop (a ++ (i, fst r) :: b) w)) ->
  (forall a w, Inv a [] w -> Stop a w) ->
  holds l items -> Inv [] items w ->
  wp (Lst.ForeachWhile select l) w
    (fun l' w' => Lst.Capacity l' = Lst.Capacity l /\ exists items, holds l' items /\ Stop items w').
Proof.
  intros Hstep Hend Hl Hi. unfold Lst.ForeachWhile. rewrite (holds_head _ _ Hl).
  apply (ForeachWhile_loop_spec select Inv Stop _ l [] items); auto.
  pose proof (holds_length _ _ Hl) as H. unfold Lst.fuel_for, Lst.Capacity in *. lia.
Qed.

(** The rule for [RemoveAll]: [Inv] relates the items kept, those to come and the
    captured state. *)
Lemma RemoveAll_loop_spec (matches : T -> SM W bool) (Inv : list (nat * T) -> list (nat * T) -> W -> Prop)
    cap fuel l a b w count :
  (forall a i v b w, Inv a ((i, v) :: b) w ->
     wp (matches v) w (fun m w => if m : bool then Inv a b w else Inv (a ++ [(i, v)]) b w)) ->
  holds l (a ++ b) -> Lst.Capacity l = cap -> length b <= fuel -> Inv a b w ->
  (Z.of_nat count + Z.of_nat (length b) < 4294967296)%Z ->
  wp (Lst.RemoveAll_loop fuel matches (first_id b None) (first_id (tl b) None) l (Z.of_nat count)) w
    (fun r w' => Lst.Capacity (fst r) = cap /\
       exists items, holds (fst r) items /\ Inv items [] w' /\
         snd r = Z.of_nat (count + (length (a ++ b) - length items)) /\ length items <= length (a ++ b)).
Proof.
  intros Hstep. revert fuel l a w count. induction b as [|[i v] b IH]; intros fuel l a w count Hl Hcap Hf Hi Hb.
  { rewrite app_nil_r in *. destruct fuel; cbn; (split; [done|]); exists a;
      (split; [done|split; [done|split; [f_equal; lia|done]]]). }
  destruct fuel as [|fuel]; cbn in Hf, Hb; [lia|]. cbn [first_id Lst.RemoveAll_loop tl].
  assert (Hv : Lst.get_value i l = Some v) by (eapply holds_get, elem_of_app; [done|right; left]).
  rewrite Hv, wp_bind. unfold wp at 1, lift. cbn. rewrite wp_bind.
  eapply wp_mono; [apply Hstep, Hi|]. intros m w' Hm.
  assert (Hnext : Lst.Next l (first_id b None) = Some (first_id b None, first_id (tl b) None)).
  { destruct b as [|[j u] b]; [done|]. cbn.
    assert (Hl2 : holds l ((a ++ [(i, v)]) ++ (j, u) :: b)) by (by rewrite <- app_assoc).
    destruct (holds_next _ _ _ _ _ Hl2) as (n & -> & _ & Hx). cbn. by rewrite Hx. }
  destruct m; rewrite wp_bind, Hnext; unfold wp at 1; cbn.
  - destruct (Remove_spec _ _ _ _ _ Hl) as (l' & -> & Hl' & Hcap').
    rewrite wp_bind. unfold wp at 1. cbn.
    replace (u32 (Z.of_nat count + 1)) with (Z.of_nat (S count)) by (rewrite u32_small; unfold is_u32; lia).
    eapply wp_mono; [apply (IH fuel l' a w' (S count)); (done || congruence || lia)|].
    cbn. intros [l2 n] w2 (Hc2 & items & H1 & H2 & H3 & H4). cbn in *. split; [done|]. exists items.
    rewrite !length_app in *. cbn. split; [done|]. split; [done|]. split; [rewrite H3; f_equal; lia|lia].
  - eapply wp_mono; [apply (IH fuel l (a ++ [(i, v)]) w' count); try (done || lia)|].
    { by rewrite <- app_assoc. }
    cbn. intros [l2 n] w2 (Hc2 & items & H1 & H2 & H3 & H4). cbn in *. split; [done|]. exists items.
    rewrite !length_app in *. cbn in *. split; [done|]. split; [done|]. split; [rewrite H3; f_equal; lia|lia].
Qed.

Lemma RemoveAll_spec (matches : T -> SM W bool) (Inv : list (nat * T) -> list (nat * T) -> W -> Prop) l items w :
  (forall a i v b w, Inv a ((i, v) :: b) w ->
     wp (matches v) w (fun m w => if m : bool then Inv a b w else Inv (a ++ [(i, v)]) b w)) ->
  holds l items -> Inv [] items w ->
  wp (Lst.RemoveAll matches l) w
    (fun r w' => Lst.Capacity (fst r) = Lst.Capacity l /\
       exists items', holds (fst r) items' /\ Inv items' [] w' /\
         snd r = Z.of_nat (length items - length items')).
Proof.
  intros Hstep Hl Hi. unfold Lst.RemoveAll. rewrite (holds_head _ _ Hl), wp_bind.
  assert (Hnext : Lst.Next l (first_id items None) = Some (first_id items None, first_id (tl items) None)).
  { destruct items as [|[j u] b]; [done|]. cbn.
    destruct (holds_next _ [] _ _ _ Hl) as (n & -> & _ & Hx). cbn. by rewrite Hx. }
  rewrite Hnext. unfold wp at 1, lift. cbn [mbind option_bind].
  pose proof (holds_length _ _ Hl) as Hlen. pose proof Hl as (_ & _ & _ & _ & _ & _ & _ & _ & Hb).
  eapply wp_mono; [apply (RemoveAll_loop_spec matches Inv (Lst.Capacity l) _ l [] items w 0); try done|].
  - unfold Lst.fuel_for, Lst.Capacity in *. lia.
  - unfold Lst.Capacity in *. lia.
  - cbn. intros [l' n] w' (Hc & items' & H1 & H2 & H3 & _). eauto 10.
Qed.

End Loops.
