(* ===== verification/EventBuffer.v ===== *)
(** * EventBuffer: the event buffer of the outstation
    (opendnp3/outstation/event)

    Events are kept in one list in the order they happened ([events]), the
    type-specific part of each in the list of its type; the two nodes of an event
    point to each other.  [EventUpdate], [EventSelection], [EventWriting],
    [EventCollection], [EventStorage] and [EventBuffer] are modelled on the
    lists of [EventList].  The measurement values are of any type [M]: the buffer
    only stores them and hands them to the writer. *)

From S2P Require Import Prelude Objects AppHeader EventList.

Open Scope Z_scope.

(** ** Enumerations *)

Inductive EventType :=
  | Binary
  | Analog
  | Counter
  | FrozenCounter
  | DoubleBitBinary
  | BinaryOutputStatus
  | AnalogOutputStatus
  | OctetString.

#[export] Instance EventType_eq_dec : EqDecision EventType.
Proof. solve_decision. Defined.

Inductive EventState := unselected | selected_ | written_.

#[export] Instance EventState_eq_dec : EqDecision EventState.
Proof. solve_decision. Defined.

(** The event variations of every type: the enumerators of
    [EventBinaryVariation], [EventAnalogVariation], ... *)
Module EventVariation.

Inductive t :=
  | Group2Var1 | Group2Var2 | Group2Var3
  | Group4Var1 | Group4Var2 | Group4Var3
  | Group11Var1 | Group11Var2
  | Group22Var1 | Group22Var2 | Group22Var5 | Group22Var6
  | Group23Var1 | Group23Var2 | Group23Var5 | Group23Var6
  | Group32Var1 | Group32Var2 | Group32Var3 | Group32Var4 | Group32Var5 | Group32Var6 | Group32Var7 | Group32Var8
  | Group42Var1 | Group42Var2 | Group42Var3 | Group42Var4 | Group42Var5 | Group42Var6 | Group42Var7 | Group42Var8
  | Group111Var0.

(** The enumeration a variation belongs to. *)
Definition type_of (v : t) : EventType :=
  match v with
  | Group2Var1 | Group2Var2 | Group2Var3 => Binary
  | Group4Var1 | Group4Var2 | Group4Var3 => DoubleBitBinary
  | Group11Var1 | Group11Var2 => BinaryOutputStatus
  | Group22Var1 | Group22Var2 | Group22Var5 | Group22Var6 => Counter
  | Group23Var1 | Group23Var2 | Group23Var5 | Group23Var6 => FrozenCounter
  | Group32Var1 | Group32Var2 | Group32Var3 | Group32Var4 | Group32Var5 | Group32Var6 | Group32Var7 | Group32Var8 =>
      Analog
  | Group42Var1 | Group42Var2 | Group42Var3 | Group42Var4 | Group42Var5 | Group42Var6 | Group42Var7 | Group42Var8 =>
      AnalogOutputStatus
  | Group111Var0 => OctetString
  end.

(** [static_cast<event_variation_t>(0)] of each type. *)
Definition zero (ty : EventType) : t :=
  match ty with
  | Binary => Group2Var1
  | Analog => Group32Var1
  | Counter => Group22Var1
  | FrozenCounter => Group23Var1
  | DoubleBitBinary => Group4Var1
  | BinaryOutputStatus => Group11Var1
  | AnalogOutputStatus => Group42Var1
  | OctetString => Group111Var0
  end.

End EventVariation.

#[export] Instance EventVariation_eq_dec : EqDecision EventVariation.t.
Proof. solve_decision. Defined.

(** ** Counters (ClazzCount.h) *)

Record ClazzCount := mkClazzCount { num_class_1 : Z; num_class_2 : Z; num_class_3 : Z }.

Module ClazzCount.

Definition zero : ClazzCount := mkClazzCount 0 0 0.

Definition Reset (c : ClazzCount) : ClazzCount := zero.

Definition Get (c : ClazzCount) (clazz : EventClass) : Z :=
  match clazz with EC1 => num_class_1 c | EC2 => num_class_2 c | EC3 => num_class_3 c end.

Definition Increment (c : ClazzCount) (clazz : EventClass) : ClazzCount :=
  match clazz with
  | EC1 => mkClazzCount (u32 (num_class_1 c + 1)) (num_class_2 c) (num_class_3 c)
  | EC2 => mkClazzCount (num_class_1 c) (u32 (num_class_2 c + 1)) (num_class_3 c)
  | EC3 => mkClazzCount (num_class_1 c) (num_class_2 c) (u32 (num_class_3 c + 1))
  end.

Definition Decrement (c : ClazzCount) (clazz : EventClass) : ClazzCount :=
  match clazz with
  | EC1 => mkClazzCount (u32 (num_class_1 c - 1)) (num_class_2 c) (num_class_3 c)
  | EC2 => mkClazzCount (num_class_1 c) (u32 (num_class_2 c - 1)) (num_class_3 c)
  | EC3 => mkClazzCount (num_class_1 c) (num_class_2 c) (u32 (num_class_3 c - 1))
  end.

Definition Any (c : ClazzCount) : bool :=
  (0 <? num_class_1 c) || (0 <? num_class_2 c) || (0 <? num_class_3 c).

End ClazzCount.

Record EventClassCounters := mkEventClassCounters { total : ClazzCount; written : ClazzCount; selected : Z }.

Module EventClassCounters.

Definition zero : EventClassCounters := mkEventClassCounters ClazzCount.zero ClazzCount.zero 0.

Definition OnAdd (c : EventClassCounters) (clazz : EventClass) : EventClassCounters :=
  mkEventClassCounters (ClazzCount.Increment (total c) clazz) (written c) (selected c).

Definition OnSelect (c : EventClassCounters) : EventClassCounters :=
  mkEventClassCounters (total c) (written c) (u32 (selected c + 1)).

Definition OnWrite (c : EventClassCounters) (clazz : EventClass) : EventClassCounters :=
  mkEventClassCounters (total c) (ClazzCount.Increment (written c) clazz) (u32 (selected c - 1)).

Definition ResetOnFail (c : EventClassCounters) : EventClassCounters :=
  mkEventClassCounters (total c) (ClazzCount.Reset (written c)) 0.

Definition OnRemove (c : EventClassCounters) (clazz : EventClass) (state : EventState) : EventClassCounters :=
  let c := match state with
           | selected_ => mkEventClassCounters (total c) (written c) (u32 (selected c - 1))
           | written_ => mkEventClassCounters (total c) (ClazzCount.Decrement (written c) clazz) (selected c)
           | unselected => c
           end in
  mkEventClassCounters (ClazzCount.Decrement (total c) clazz) (written c) (selected c).

End EventClassCounters.

(** ** Records *)

(** [EventRecord]: [type] is the event type of the [IEventType] pointed to. *)
Record EventRecord := mkEventRecord {
  index : Z;
  clazz : EventClass;
  state : EventState;
  type : option EventType;
  storage_node : option nat
}.

Definition EventRecord_default : EventRecord := mkEventRecord 0 EC1 unselected None None.

Definition set_state (s : EventState) (r : EventRecord) : EventRecord :=
  mkEventRecord (index r) (clazz r) s (type r) (storage_node r).

Definition set_storage (t : EventType) (node : option nat) (r : EventRecord) : EventRecord :=
  mkEventRecord (index r) (clazz r) (state r) (Some t) node.

Record TypedEventRecord (M : Type) := mkTypedEventRecord {
  tvalue : M;
  defaultVariation : EventVariation.t;
  selectedVariation : EventVariation.t;
  record : option nat
}.

Arguments mkTypedEventRecord {M}.

Arguments tvalue {M}.

Arguments defaultVariation {M}.

Arguments selectedVariation {M}.

Arguments record {M}.

Definition set_selectedVariation {M} (v : EventVariation.t) (r : TypedEventRecord M) : TypedEventRecord M :=
  mkTypedEventRecord (tvalue r) (defaultVariation r) v (record r).

(** [Event<Spec>]: the type of the event is the template argument. *)
Record Event (M : Type) := mkEvent { ev_value : M; ev_index : Z; ev_clazz : EventClass; ev_variation : EventVariation.t }.

Arguments mkEvent {M}.

Arguments ev_value {M}.

Arguments ev_index {M}.

Arguments ev_clazz {M}.

Arguments ev_variation {M}.

(** ** Configuration *)

Record EventBufferConfig := mkEventBufferConfig {
  maxBinaryEvents : Z;
  maxDoubleBinaryEvents : Z;
  maxAnalogEvents : Z;
  maxCounterEvents : Z;
  maxFrozenCounterEvents : Z;
  maxBinaryOutputStatusEvents : Z;
  maxAnalogOutputStatusEvents : Z;
  maxOctetStringEvents : Z
}.

Definition AllTypes (sizes : Z) : EventBufferConfig :=
  mkEventBufferConfig sizes sizes sizes sizes sizes sizes sizes sizes.

Definition TotalEvents (c : EventBufferConfig) : Z :=
  u32 (maxBinaryEvents c + maxDoubleBinaryEvents c + maxAnalogEvents c + maxCounterEvents c +
       maxFrozenCounterEvents c + maxBinaryOutputStatusEvents c + maxAnalogOutputStatusEvents c +
       maxOctetStringEvents c).

(** ** The lists *)

Record EventLists (M : Type) := mkEventLists {
  events : Lst EventRecord;
  binary : Lst (TypedEventRecord M);
  doubleBinary : Lst (TypedEventRecord M);
  analog : Lst (TypedEventRecord M);
  counter : Lst (TypedEventRecord M);
  frozenCounter : Lst (TypedEventRecord M);
  binaryOutputStatus : Lst (TypedEventRecord M);
  analogOutputStatus : Lst (TypedEventRecord M);
  octetString : Lst (TypedEventRecord M);
  counters : EventClassCounters
}.

Arguments mkEventLists {M}.

Arguments events {M}.

Arguments binary {M}.

Arguments doubleBinary {M}.

Arguments analog {M}.

Arguments counter {M}.

Arguments frozenCounter {M}.

Arguments binaryOutputStatus {M}.

Arguments analogOutputStatus {M}.

Arguments octetString {M}.

Arguments counters {M}.

Module EventLists.
Section Context.
Context {M : Type}.
Implicit Type l : EventLists M.

(** The constructor: [dflt] is the value-initialised measurement. *)
Definition init (dflt : M) (config : EventBufferConfig) : option (EventLists M) :=
  let typed t max := Lst.init (mkTypedEventRecord dflt (EventVariation.zero t) (EventVariation.zero t) None) (Z.to_nat max) in
  events ← Lst.init EventRecord_default (Z.to_nat (TotalEvents config));
  binary ← typed Binary (maxBinaryEvents config);
  doubleBinary ← typed DoubleBitBinary (maxDoubleBinaryEvents config);
  analog ← typed Analog (maxAnalogEvents config);
  counter ← typed Counter (maxCounterEvents config);
  frozenCounter ← typed FrozenCounter (maxFrozenCounterEvents config);
  binaryOutputStatus ← typed BinaryOutputStatus (maxBinaryOutputStatusEvents config);
  analogOutputStatus ← typed AnalogOutputStatus (maxAnalogOutputStatusEvents config);
  octetString ← typed OctetString (maxOctetStringEvents config);
  Some (mkEventLists events binary doubleBinary analog counter frozenCounter binaryOutputStatus
          analogOutputStatus octetString EventClassCounters.zero).

Definition IsAnyTypeFull l : bool :=
  Lst.IsFull (binary l) || Lst.IsFull (doubleBinary l) || Lst.IsFull (counter l) ||
  Lst.IsFull (frozenCounter l) || Lst.IsFull (analog l) || Lst.IsFull (binaryOutputStatus l) ||
  Lst.IsFull (analogOutputStatus l) || Lst.IsFull (octetString l).

Definition GetList (t : EventType) l : Lst (TypedEventRecord M) :=
  match t with
  | Binary => binary l
  | Analog => analog l
  | Counter => counter l
  | FrozenCounter => frozenCounter l
  | DoubleBitBinary => doubleBinary l
  | BinaryOutputStatus => binaryOutputStatus l
  | AnalogOutputStatus => analogOutputStatus l
  | OctetString => octetString l
  end.

(** Updates through the references the code holds. *)
Definition set_list (t : EventType) (x : Lst (TypedEventRecord M)) l : EventLists M :=
  let put t' y := if decide (t = t') then x else y in
  mkEventLists (events l) (put Binary (binary l)) (put DoubleBitBinary (doubleBinary l)) (put Analog (analog l))
    (put Counter (counter l)) (put FrozenCounter (frozenCounter l)) (put BinaryOutputStatus (binaryOutputStatus l))
    (put AnalogOutputStatus (analogOutputStatus l)) (put OctetString (octetString l)) (counters l).

Definition set_events (x : Lst EventRecord) l : EventLists M :=
  mkEventLists x (binary l) (doubleBinary l) (analog l) (counter l) (frozenCounter l) (binaryOutputStatus l)
    (analogOutputStatus l) (octetString l) (counters l).

Definition set_counters (x : EventClassCounters) l : EventLists M :=
  mkEventLists (events l) (binary l) (doubleBinary l) (analog l) (counter l) (frozenCounter l) (binaryOutputStatus l)
    (analogOutputStatus l) (octetString l) x.

End Context.
End EventLists.

(** ** Adding events (EventUpdate.h) *)

Module EventUpdate.
Section Context.
Context {M : Type}.
Import EventLists.

(** The body of [if (list.IsFull())]: the oldest event of the type goes. *)
Definition make_space (t : EventType) (lists : EventLists M) : option (EventLists M) :=
  first ← head (GetList t lists);
  first_value ← Lst.get_value first (GetList t lists);
  record_node ← record first_value;
  r ← Lst.get_value record_node (events lists);
  let lists := set_counters (EventClassCounters.OnRemove (counters lists) (clazz r) (state r)) lists in
  events ← Lst.Remove record_node (events lists);
  let lists := set_events events lists in
  list ← Lst.Remove first (GetList t lists);
  Some (set_list t list lists).

(** The rest of [Update]: the generic record, then the typed record, then the
    pointers between them. *)
Definition append (t : EventType) (event : Event M) (lists : EventLists M) : option (EventLists M) :=
  '(events, record_node) ← Lst.Add (mkEventRecord (ev_index event) (ev_clazz event) unselected None None) (events lists);
  '(list, typed_node) ← Lst.Add (mkTypedEventRecord (ev_value event) (ev_variation event) (ev_variation event) record_node)
                          (GetList t lists);
  node ← record_node;
  r ← Lst.get_value node events;
  events ← Lst.set_value node (set_storage t typed_node r) events;
  let lists := set_list t list (set_events events lists) in
  Some (set_counters (EventClassCounters.OnAdd (counters lists) (ev_clazz event)) lists).

Definition Update (t : EventType) (event : Event M) (lists : EventLists M) : option (EventLists M * bool) :=
  if (Lst.Capacity (GetList t lists) =? 0)%nat then Some (lists, false)
  else
    let overflow := Lst.IsFull (GetList t lists) in
    lists ← (if overflow then make_space t lists else Some lists);
    lists ← append t event lists;
    Some (lists, overflow).

End Context.
End EventUpdate.

(** ** Selecting events (EventSelection) *)

Module EventSelection.
Section Context.
Context {M : Type}.
Import EventLists.

(** The captured variables of [select]: the lists and [num_selected]. *)
Definition select (useDefaultVariation : bool) (variation : EventVariation.t) (max : Z) (node : TypedEventRecord M)
    : SM (EventLists M * Z) (TypedEventRecord M * bool) := fun '(lists, num_selected) =>
  if num_selected =? max then Some (lists, num_selected, (node, false))
  else
    record_node ← record node;
    r ← Lst.get_value record_node (events lists);
    if decide (state r = unselected) then
      events ← Lst.set_value record_node (set_state selected_ r) (events lists);
      let node := set_selectedVariation (if useDefaultVariation then defaultVariation node else variation) node in
      let lists := set_counters (EventClassCounters.OnSelect (counters lists)) (set_events events lists) in
      Some (lists, u32 (num_selected + 1), (node, true))
    else Some (lists, num_selected, (node, true)).

Definition SelectByTypeGeneric (t : EventType) (useDefaultVariation : bool) (variation : EventVariation.t) (max : Z)
    (lists : EventLists M) : option (EventLists M * Z) :=
  '(lists, num_selected, list) ← Lst.ForeachWhile (select useDefaultVariation variation max) (GetList t lists) (lists, 0);
  Some (set_list t list lists, num_selected).

(** [SelectByType<T>(lists, max)] *)
Definition SelectByType (t : EventType) (max : Z) (lists : EventLists M) : option (EventLists M * Z) :=
  SelectByTypeGeneric t true (EventVariation.zero t) max lists.

(** [SelectByType<T>(lists, variation, max)] *)
Definition SelectByVariation (variation : EventVariation.t) (max : Z) (lists : EventLists M)
    : option (EventLists M * Z) :=
  SelectByTypeGeneric (EventVariation.type_of variation) false variation max lists.

Fixpoint SelectByClass_loop (fuel : nat) (clazz_ : ClassField) (max : Z) (iter : option nat) (num_selected : Z)
    (lists : EventLists M) : option (EventLists M * Z) :=
  match iter with
  | None => Some (lists, num_selected)
  | Some _ =>
      if num_selected <? max then
        match fuel with
        | O => None
        | S fuel =>
            '(node, iter) ← Lst.Next (events lists) iter;
            node ← node;
            r ← Lst.get_value node (events lists);
            if bool_decide (state r = unselected) && ClassField.HasEventType clazz_ (clazz r) then
              events ← Lst.set_value node (set_state selected_ r) (events lists);
              let lists := set_events events lists in
              let lists := set_counters (EventClassCounters.OnSelect (counters lists)) lists in
              SelectByClass_loop fuel clazz_ max iter (u32 (num_selected + 1)) lists
            else SelectByClass_loop fuel clazz_ max iter num_selected lists
        end
      else Some (lists, num_selected)
  end.

Definition SelectByClass (clazz_ : ClassField) (max : Z) (lists : EventLists M) : option (EventLists M * Z) :=
  SelectByClass_loop (Lst.fuel_for (events lists)) clazz_ max (head (events lists)) 0 lists.

End Context.
End EventSelection.

(** ** Writing events (EventWriting, EventCollection, EventTypeImpl)

    An [IEventWriteHandler] opens a writer for a run of events of one type and
    variation, offers the events of the run to it and closes it. *)

Class IEventWriteHandler (H Wr M : Type) := {
  open_writer : EventType -> EventVariation.t -> M -> H -> Wr;
  writer_Write : M -> Z -> Wr -> Wr * bool;
  close_writer : Wr -> H
}.

Module EventWriting.
Section Context.
Context {H Wr M : Type} `{IEventWriteHandler H Wr M}.
Import EventLists.

Fixpoint FindNextSelected_loop (fuel : nat) (l : Lst EventRecord) (t : EventType) (iter : option nat)
    : option (option nat * option nat) :=
  match iter with
  | None => Some (None, None)
  | Some p =>
      match fuel with
      | O => None
      | S fuel =>
          current ← Lst.get_value p l;
          if decide (state current = selected_) then
            ty ← type current;
            Some (iter, if decide (ty = t) then Some p else None)
          else '(_, iter) ← Lst.Next l iter; FindNextSelected_loop fuel l t iter
      end
  end.

(** The iterator after the call, and the record found. *)
Definition FindNextSelected (l : Lst EventRecord) (t : EventType) (iter : option nat)
    : option (option nat * option nat) := FindNextSelected_loop (Lst.fuel_for l) l t iter.

(** [EventCollection<T>::WriteOne]: the lists, the iterator, the writer and the
    result. *)
Definition WriteOne (t : EventType) (variation : EventVariation.t) (lists : EventLists M) (iter : option nat)
    (writer : Wr) : option (EventLists M * option nat * Wr * bool) :=
  if selected (counters lists) =? 0 then Some (lists, iter, writer, false)
  else
    '(iter, rec) ← FindNextSelected (events lists) t iter;
    match rec with
    | None => Some (lists, iter, writer, false)
    | Some p =>
        r ← Lst.get_value p (events lists);
        node ← storage_node r;
        data ← Lst.get_value node (GetList t lists);
        if decide (selectedVariation data <> variation) then Some (lists, iter, writer, false)
        else
          let '(writer, ok) := writer_Write (tvalue data) (index r) writer in
          if negb ok then Some (lists, iter, writer, false)
          else
            let lists := set_counters (EventClassCounters.OnWrite (counters lists) (clazz r)) lists in
            events ← Lst.set_value p (set_state written_ r) (events lists);
            let lists := set_events events lists in
            '(_, iter) ← Lst.Next events iter;
            Some (lists, iter, writer, true)
    end.

(** [EventCollection<T>::WriteSome] *)
Fixpoint WriteSome_loop (fuel : nat) (t : EventType) (variation : EventVariation.t) (lists : EventLists M)
    (iter : option nat) (writer : Wr) (num_written : Z) : option (EventLists M * option nat * Wr * Z) :=
  match fuel with
  | O => None
  | S fuel =>
      '(lists, iter, writer, ok) ← WriteOne t variation lists iter writer;
      if (ok : bool) then WriteSome_loop fuel t variation lists iter writer (u16 (num_written + 1))
      else Some (lists, iter, writer, num_written)
  end.

(** [EventTypeImpl<T>::WriteSome]: the handler opens a writer for the type, the
    variation and the value of the event at the iterator, and passes the events
    of the collection to it. *)
Definition WriteSomeOfType (t : EventType) (lists : EventLists M) (iter : option nat) (handler : H)
    : option (EventLists M * option nat * H * Z) :=
  pos ← iter;
  r ← Lst.get_value pos (events lists);
  node ← storage_node r;
  data ← Lst.get_value node (GetList t lists);
  let writer := open_writer t (selectedVariation data) (tvalue data) handler in
  '(lists, iter, writer, n) ← WriteSome_loop (Lst.fuel_for (events lists)) t (selectedVariation data) lists iter writer 0;
  Some (lists, iter, close_writer writer, n).

(** [EventWriting::WriteSome] *)
Definition WriteSome (lists : EventLists M) (iter : option nat) (handler : H)
    : option (EventLists M * option nat * H * Z) :=
  if selected (counters lists) =? 0 then Some (lists, iter, handler, 0)
  else
    iter ← Lst.Find (fun r => bool_decide (state r = selected_)) (events lists) iter;
    match iter with
    | None => Some (lists, iter, handler, 0)
    | Some p =>
        r ← Lst.get_value p (events lists);
        ty ← type r;
        WriteSomeOfType ty lists iter handler
    end.

Fixpoint Write_loop (fuel : nat) (lists : EventLists M) (iter : option nat) (handler : H) (total_num_written : Z)
    : option (EventLists M * H * Z) :=
  match fuel with
  | O => None
  | S fuel =>
      '(lists, iter, handler, num_written) ← WriteSome lists iter handler;
      if num_written =? 0 then Some (lists, handler, total_num_written)
      else Write_loop fuel lists iter handler (u32 (total_num_written + num_written))
  end.

Definition Write (lists : EventLists M) (handler : H) : option (EventLists M * H * Z) :=
  Write_loop (Lst.fuel_for (events lists)) lists (head (events lists)) handler 0.

End Context.
End EventWriting.

(** ** EventStorage *)

Module EventStorage.
Section Context.
Context {M : Type}.
Import EventLists.

Definition init (dflt : M) (config : EventBufferConfig) : option (EventLists M) := EventLists.init dflt config.

Definition IsAnyTypeFull (s : EventLists M) : bool := EventLists.IsAnyTypeFull s.

Definition NumSelected (s : EventLists M) : Z := selected (counters s).

Definition NumUnwritten (s : EventLists M) (clazz_ : EventClass) : Z :=
  u32 (ClazzCount.Get (total (counters s)) clazz_ - ClazzCount.Get (written (counters s)) clazz_).

Definition Update (t : EventType) (evt : Event M) (s : EventLists M) : option (EventLists M * bool) :=
  EventUpdate.Update t evt s.

(** The overloads for a variation of each type, and the one for a type. *)
Definition SelectByVariation (variation : EventVariation.t) (max : Z) (s : EventLists M) : option (EventLists M * Z) :=
  EventSelection.SelectByVariation variation max s.

Definition SelectByType (t : EventType) (max : Z) (s : EventLists M) : option (EventLists M * Z) :=
  EventSelection.SelectByType t max s.

Definition UINT32_MAX : Z := 4294967295.

Definition SelectByEventClass (clazz_ : EventClass) (max : Z) (s : EventLists M) : option (EventLists M * Z) :=
  EventSelection.SelectByClass (ClassField.of_event_class clazz_) max s.

Definition SelectByClass (clazz_ : ClassField) (max : Z) (s : EventLists M) : option (EventLists M * Z) :=
  EventSelection.SelectByClass clazz_ max s.

Definition Write {H Wr} `{IEventWriteHandler H Wr M} (s : EventLists M) (handler : H) : option (EventLists M * H * Z) :=
  EventWriting.Write s handler.

(** The callback of [ClearWritten]; [record.type->RemoveTypeFromStorage] removes
    the typed node. *)
Definition remove_if_written (r : EventRecord) : SM (EventLists M) bool := fun s =>
  if decide (state r = written_) then
    t ← type r;
    node ← storage_node r;
    list ← Lst.Remove node (GetList t s);
    let s := set_list t list s in
    Some (set_counters (EventClassCounters.OnRemove (counters s) (clazz r) (state r)) s, true)
  else Some (s, false).

Definition ClearWritten (s : EventLists M) : option (EventLists M * Z) :=
  '(s, (events, count)) ← Lst.RemoveAll remove_if_written (events s) s;
  Some (set_events events s, count).

Definition clear_state (r : EventRecord) : SM unit EventRecord := mret (set_state unselected r).

Definition Unselect (s : EventLists M) : option (EventLists M) :=
  '(_, events) ← Lst.Foreach clear_state (events s) tt;
  let s := set_events events s in
  Some (set_counters (EventClassCounters.ResetOnFail (counters s)) s).

End Context.
End EventStorage.

(** ** EventBuffer *)

Record EventBuffer (M : Type) := mkEventBuffer { overflow : bool; storage : EventLists M }.

Arguments mkEventBuffer {M}.

Arguments overflow {M}.

Arguments storage {M}.

Module EventBuffer.
Section Context.
Context {M : Type}.

Definition init (dflt : M) (config : EventBufferConfig) : option (EventBuffer M) :=
  s ← EventStorage.init dflt config; Some (mkEventBuffer false s).

(** [UpdateAny]: every [Update] overload calls it. *)
Definition UpdateAny (t : EventType) (evt : Event M) (b : EventBuffer M) : option (EventBuffer M) :=
  '(s, over) ← EventStorage.Update t evt (storage b);
  Some (mkEventBuffer (if over : bool then true else overflow b) s).

Definition Unselect (b : EventBuffer M) : option (EventBuffer M) :=
  s ← EventStorage.Unselect (storage b); Some (mkEventBuffer (overflow b) s).

(** The requests of the form [SelectByType(max, x)] and [SelectByClass(max, c)]. *)
Inductive Selection :=
  | ByType (t : EventType)
  | ByVariation (v : EventVariation.t)
  | ByClass (c : EventClass).

(** The [switch] of [SelectMaxCount]. *)
Definition selection_of (gv : GroupVariation.t) : option Selection :=
  match gv with
  | GroupVariation.Group2Var0 => Some (ByType Binary)
  | GroupVariation.Group2Var1 => Some (ByVariation EventVariation.Group2Var1)
  | GroupVariation.Group2Var2 => Some (ByVariation EventVariation.Group2Var2)
  | GroupVariation.Group2Var3 => Some (ByVariation EventVariation.Group2Var3)
  | GroupVariation.Group4Var0 => Some (ByType DoubleBitBinary)
  | GroupVariation.Group4Var1 => Some (ByVariation EventVariation.Group4Var1)
  | GroupVariation.Group4Var2 => Some (ByVariation EventVariation.Group4Var2)
  | GroupVariation.Group4Var3 => Some (ByVariation EventVariation.Group4Var3)
  | GroupVariation.Group11Var0 => Some (ByType BinaryOutputStatus)
  | GroupVariation.Group11Var1 => Some (ByVariation EventVariation.Group11Var1)
  | GroupVariation.Group11Var2 => Some (ByVariation EventVariation.Group11Var2)
  | GroupVariation.Group22Var0 => Some (ByType Counter)
  | GroupVariation.Group22Var1 => Some (ByVariation EventVariation.Group22Var1)
  | GroupVariation.Group22Var2 => Some (ByVariation EventVariation.Group22Var2)
  | GroupVariation.Group22Var5 => Some (ByVariation EventVariation.Group22Var5)
  | GroupVariation.Group22Var6 => Some (ByVariation EventVariation.Group22Var6)
  | GroupVariation.Group23Var0 => Some (ByType FrozenCounter)
  | GroupVariation.Group23Var1 => Some (ByVariation EventVariation.Group23Var1)
  | GroupVariation.Group23Var2 => Some (ByVariation EventVariation.Group23Var2)
  | GroupVariation.Group23Var5 => Some (ByVariation EventVariation.Group23Var5)
  | GroupVariation.Group23Var6 => Some (ByVariation EventVariation.Group23Var6)
  | GroupVariation.Group32Var0 => Some (ByType Analog)
  | GroupVariation.Group32Var1 => Some (ByVariation EventVariation.Group32Var1)
  | GroupVariation.Group32Var2 => Some (ByVariation EventVariation.Group32Var2)
  | GroupVariation.Group32Var3 => Some (ByVariation EventVariation.Group32Var3)
  | GroupVariation.Group32Var4 => Some (ByVariation EventVariation.Group32Var4)
  | GroupVariation.Group32Var5 => Some (ByVariation EventVariation.Group32Var5)
  | GroupVariation.Group32Var6 => Some (ByVariation EventVariation.Group32Var6)
  | GroupVariation.Group32Var7 => Some (ByVariation EventVariation.Group32Var7)
  | GroupVariation.Group32Var8 => Some (ByVariation EventVariation.Group32Var8)
  | GroupVariation.Group42Var0 => Some (ByType AnalogOutputStatus)
  | GroupVariation.Group42Var1 => Some (ByVariation EventVariation.Group42Var1)
  | GroupVariation.Group42Var2 => Some (ByVariation EventVariation.Group42Var2)
  | GroupVariation.Group42Var3 => Some (ByVariation EventVariation.Group42Var3)
  | GroupVariation.Group42Var4 => Some (ByVariation EventVariation.Group42Var4)
  | GroupVariation.Group42Var5 => Some (ByVariation EventVariation.Group42Var5)
  | GroupVariation.Group42Var6 => Some (ByVariation EventVariation.Group42Var6)
  | GroupVariation.Group42Var7 => Some (ByVariation EventVariation.Group42Var7)
  | GroupVariation.Group42Var8 => Some (ByVariation EventVariation.Group42Var8)
  | GroupVariation.Group60Var2 => Some (ByClass EC1)
  | GroupVariation.Group60Var3 => Some (ByClass EC2)
  | GroupVariation.Group60Var4 => Some (ByClass EC3)
  | GroupVariation.Group111Var0 => Some (ByVariation EventVariation.Group111Var0)
  | _ => None
  end.

Definition select (x : Selection) (max : Z) (s : EventLists M) : option (EventLists M * Z) :=
  match x with
  | ByType t => EventStorage.SelectByType t max s
  | ByVariation v => EventStorage.SelectByVariation v max s
  | ByClass c => EventStorage.SelectByEventClass c max s
  end.

Definition SelectMaxCount (gv : GroupVariation.t) (maximum : Z) (b : EventBuffer M) : option (EventBuffer M * IINField) :=
  match selection_of gv with
  | Some x =>
      '(s, _) ← select x maximum (storage b);
      Some (mkEventBuffer (overflow b) s, IINField.Empty)
  | None => Some (b, IINField.of_bit FUNC_NOT_SUPPORTED)
  end.

Definition SelectAll (gv : GroupVariation.t) (b : EventBuffer M) : option (EventBuffer M * IINField) :=
  SelectMaxCount gv EventStorage.UINT32_MAX b.

Definition SelectCount (gv : GroupVariation.t) (count : Z) (b : EventBuffer M) : option (EventBuffer M * IINField) :=
  SelectMaxCount gv count b.

Definition HasAnySelection (b : EventBuffer M) : bool := 0 <? EventStorage.NumSelected (storage b).

(** [Load]: [handler] is the [ASDUEventWriteHandler] on the header writer. *)
Definition Load {H Wr} `{IEventWriteHandler H Wr M} (b : EventBuffer M) (handler : H) : option (EventBuffer M * H * bool) :=
  '(s, handler, _) ← EventStorage.Write (storage b) handler;
  Some (mkEventBuffer (overflow b) s, handler, EventStorage.NumSelected s =? 0).

Definition UnwrittenClassField (b : EventBuffer M) : ClassField :=
  ClassField.of_classes false (0 <? EventStorage.NumUnwritten (storage b) EC1)
    (0 <? EventStorage.NumUnwritten (storage b) EC2) (0 <? EventStorage.NumUnwritten (storage b) EC3).

Definition IsOverflown (b : EventBuffer M) : EventBuffer M * bool :=
  let over := if overflow b && negb (EventStorage.IsAnyTypeFull (storage b)) then false else overflow b in
  (mkEventBuffer over (storage b), over).

Definition SelectAllByClass (clazz_ : ClassField) (b : EventBuffer M) : option (EventBuffer M) :=
  '(s, _) ← EventStorage.SelectByClass clazz_ EventStorage.UINT32_MAX (storage b);
  Some (mkEventBuffer (overflow b) s).

Definition ClearWritten (b : EventBuffer M) : option (EventBuffer M) :=
  '(s, _) ← EventStorage.ClearWritten (storage b);
  Some (mkEventBuffer (overflow b) s).

End Context.
End EventBuffer.
