(* ===== verification/EventSpec.v ===== *)
(** * EventSpec: what the event buffer promises, and that it keeps the promise

    The specification is a plain queue: a list of events, oldest first, each with
    its state.  [represents] relates the linked lists of [EventBuffer] to such a
    queue, and every operation is shown to run without undefined behaviour and to
    do on the lists what the specification does on the queue. *)

From S2P Require Import Prelude AppHeader EventList EventBuffer.
From stdpp Require Import list.

Open Scope Z_scope.

(** ** The specification *)

Record Queued (M : Type) := mkQueued {
  q_type : EventType;
  q_index : Z;
  q_clazz : EventClass;
  q_state : EventState;
  q_value : M;
  q_default : EventVariation.t;
  q_selected : EventVariation.t
}.

Arguments mkQueued {M}.

Arguments q_type {M}.

Arguments q_index {M}.

Arguments q_clazz {M}.

Arguments q_state {M}.

Arguments q_value {M}.

Arguments q_default {M}.

Arguments q_selected {M}.

Module Queue.
Section Context.
Context {M : Type}.
Implicit Types (q : Queued M) (qs : list (Queued M)).

Definition with_state (s : EventState) q : Queued M :=
  mkQueued (q_type q) (q_index q) (q_clazz q) s (q_value q) (q_default q) (q_selected q).

Definition with_selected (v : EventVariation.t) q : Queued M :=
  mkQueued (q_type q) (q_index q) (q_clazz q) selected_ (q_value q) (q_default q) v.

Definition in_state (s : EventState) q : bool := bool_decide (q_state q = s).

Definition is_type (t : EventType) q : bool := bool_decide (q_type q = t).

Definition in_class (c : EventClass) q : bool := bool_decide (q_clazz q = c).

Definition count (P : Queued M -> bool) qs : Z := foldr (fun q n => Z.b2z (P q) + n) 0 qs.

(** A new event. *)
Definition of_event (t : EventType) (e : Event M) : Queued M :=
  mkQueued t (ev_index e) (ev_clazz e) unselected (ev_value e) (ev_variation e) (ev_variation e).

Fixpoint remove_first (P : Queued M -> bool) qs : list (Queued M) :=
  match qs with
  | [] => []
  | q :: qs => if P q then qs else q :: remove_first P qs
  end.

(** Adding an event to a queue that holds at most [cap] events of its type. *)
Definition update (cap : Z) (t : EventType) (e : Event M) qs : list (Queued M) * bool :=
  if cap =? 0 then (qs, false)
  else if count (is_type t) qs =? cap then (remove_first (is_type t) qs ++ [of_event t e], true)
  else (qs ++ [of_event t e], false).

(** [f] applied to the first [max] events that satisfy [P], and how many there are. *)
Fixpoint select_first (P : Queued M -> bool) (f : Queued M -> Queued M) (max : Z) qs : list (Queued M) * Z :=
  match qs with
  | [] => ([], 0)
  | q :: qs =>
      if P q && (0 <? max) then let '(r, n) := select_first P f (max - 1) qs in (f q :: r, n + 1)
      else let '(r, n) := select_first P f max qs in (q :: r, n)
  end.

Definition select_type (t : EventType) : Z -> list (Queued M) -> list (Queued M) * Z :=
  select_first (fun q => in_state unselected q && is_type t q) (fun q => with_selected (q_default q) q).

Definition select_variation (v : EventVariation.t) : Z -> list (Queued M) -> list (Queued M) * Z :=
  select_first (fun q => in_state unselected q && is_type (EventVariation.type_of v) q) (with_selected v).

Definition select_class (c : ClassField) : Z -> list (Queued M) -> list (Queued M) * Z :=
  select_first (fun q => in_state unselected q && ClassField.HasEventType c (q_clazz q)) (with_state selected_).

Definition clear_written qs : list (Queued M) := List.filter (fun q => negb (in_state written_ q)) qs.

Definition unselect qs : list (Queued M) := map (with_state unselected) qs.

Section Writing.
Context {H Wr : Type} `{IEventWriteHandler H Wr M}.

(** One run: the selected events, in order, as long as they have the type and
    variation of the run and the writer takes them. *)
Fixpoint write_run (t : EventType) (v : EventVariation.t) (w : Wr) qs : list (Queued M) * Wr * Z :=
  match qs with
  | [] => ([], w, 0)
  | q :: rest =>
      if in_state selected_ q then
        if is_type t q && bool_decide (q_selected q = v) then
          let '(w, ok) := writer_Write (q_value q) (q_index q) w in
          if ok : bool then
            let '(r, w, n) := write_run t v w rest in (with_state written_ q :: r, w, n + 1)
          else (qs, w, 0)
        else (qs, w, 0)
      else let '(r, w, n) := write_run t v w rest in (q :: r, w, n)
  end.

(** Runs, each opened for the first selected event, until one makes no progress. *)
Fixpoint write (fuel : nat) (h : H) qs : list (Queued M) * H * Z :=
  match fuel, List.find (in_state selected_) qs with
  | S fuel, Some q =>
      let '(qs, w, n) := write_run (q_type q) (q_selected q) (open_writer (q_type q) (q_selected q) (q_value q) h) qs in
      if n =? 0 then (qs, close_writer w, 0)
      else let '(qs, h, m) := write fuel (close_writer w) qs in (qs, h, n + m)
  | _, _ => (qs, h, 0)
  end.

End Writing.

End Context.
End Queue.

(** ** Counting *)

Section Counting.
Context {M : Type}.
Import Queue.
Implicit Types (q : Queued M) (qs : list (Queued M)).

Lemma count_cons P q qs : count P (q :: qs) = Z.b2z (P q) + count P qs.
Proof. done. Qed.

Lemma count_app P qs qs' : count P (qs ++ qs') = count P qs + count P qs'.
Proof. induction qs as [|q qs IH]; [done|]. rewrite <- app_comm_cons, !count_cons. lia. Qed.

Lemma count_bounds P qs : 0 <= count P qs <= Z.of_nat (length qs).
Proof.
  induction qs as [|q qs IH]; [done|]. rewrite count_cons, length_cons. destruct (P q); cbn [Z.b2z]; lia.
Qed.

Lemma count_le P Q qs : (forall q, P q = true -> Q q = true) -> count P qs <= count Q qs.
Proof.
  intros HPQ. induction qs as [|q qs IH]; [done|]. rewrite !count_cons. specialize (HPQ q).
  destruct (P q), (Q q); cbn [Z.b2z]; (lia || by specialize (HPQ eq_refl)).
Qed.

Lemma count_zero P qs : count P qs = 0 -> Forall (fun q => P q = false) qs.
Proof.
  induction qs as [|q qs IH]; rewrite ?count_cons; [done|]. pose proof (count_bounds P qs).
  destruct (P q) eqn:HP; cbn [Z.b2z]; [lia|]. constructor; [done|]. apply IH. lia.
Qed.

(** The counters of a queue. *)
Definition class_counts (P : Queued M -> bool) qs : ClazzCount :=
  mkClazzCount (count (fun q => P q && in_class EC1 q) qs) (count (fun q => P q && in_class EC2 q) qs)
    (count (fun q => P q && in_class EC3 q) qs).

Definition counters_of qs : EventClassCounters :=
  mkEventClassCounters (class_counts (fun _ => true) qs) (class_counts (in_state written_) qs) (count (in_state selected_) qs).

Definition few qs : Prop := Z.of_nat (length qs) < 4294967296.

Lemma class_counts_app P qs qs' :
  class_counts P (qs ++ qs') = mkClazzCount (num_class_1 (class_counts P qs) + num_class_1 (class_counts P qs'))
    (num_class_2 (class_counts P qs) + num_class_2 (class_counts P qs'))
    (num_class_3 (class_counts P qs) + num_class_3 (class_counts P qs')).
Proof. unfold class_counts. by rewrite !count_app. Qed.

End Counting.

(** Bounds of the counts in the goal. *)
Ltac count_facts :=
  repeat match goal with
  | |- context [ Queue.count ?P ?l ] =>
      lazymatch goal with
      | H : 0 <= Queue.count P l <= _ |- _ => fail
      | _ => pose proof (count_bounds P l)
      end
  end.

Ltac decide_constants :=
  repeat match goal with
  | |- context [ bool_decide (?a = ?a) ] => rewrite (bool_decide_true (a = a)) by done
  | |- context [ bool_decide (?a = ?b) ] => rewrite (bool_decide_false (a = b)) by done
  end.

(** Splits an equation between counters into equations between counts. *)
Ltac counters_eq :=
  unfold counters_of, class_counts; cbn [EventBuffer.total written selected num_class_1 num_class_2 num_class_3];
  rewrite ?count_app, ?count_cons;
  unfold Queue.in_class, Queue.in_state;
  repeat match goal with H : q_clazz _ = _ |- _ => rewrite !H
                       | H : q_state _ = _ |- _ => rewrite !H end;
  repeat (match goal with
  | |- mkEventClassCounters _ _ _ = _ => f_equal
  | |- mkClazzCount _ _ _ = _ => f_equal
  end);
  decide_constants; cbn [Z.b2z andb orb];
  count_facts; cbn [length] in *; rewrite ?u32_small by (unfold is_u32; lia); lia.

Section CounterSteps.
Context {M : Type}.
Import Queue.
Implicit Types (q : Queued M) (qs a b : list (Queued M)).

Lemma few_split a q b : few (a ++ q :: b) -> Z.of_nat (length a) + Z.of_nat (length b) + 1 < 4294967296.
Proof. unfold few. rewrite length_app, length_cons. lia. Qed.

Lemma OnAdd_counters qs q :
  few (qs ++ [q]) -> q_state q = unselected ->
  EventClassCounters.OnAdd (counters_of qs) (q_clazz q) = counters_of (qs ++ [q]).
Proof.
  intros Hf%few_split Hs. unfold EventClassCounters.OnAdd, ClazzCount.Increment.
  destruct (q_clazz q) eqn:Hc; counters_eq.
Qed.

(** An event that changes its state in place. *)
Lemma OnSelect_counters a q q' b :
  few (a ++ q :: b) -> q_state q = unselected -> q_state q' = selected_ -> q_clazz q' = q_clazz q ->
  EventClassCounters.OnSelect (counters_of (a ++ q :: b)) = counters_of (a ++ q' :: b).
Proof.
  intros Hf%few_split Hs Hs' Hc'. unfold EventClassCounters.OnSelect.
  destruct (q_clazz q) eqn:Hc; counters_eq.
Qed.

Lemma OnWrite_counters a q b :
  few (a ++ q :: b) -> q_state q = selected_ ->
  EventClassCounters.OnWrite (counters_of (a ++ q :: b)) (q_clazz q) = counters_of (a ++ with_state written_ q :: b).
Proof.
  intros Hf%few_split Hs. assert (Hc' : q_clazz (with_state written_ q) = q_clazz q) by done.
  assert (Hs' : q_state (with_state written_ q) = written_) by done.
  unfold EventClassCounters.OnWrite, ClazzCount.Increment.
  destruct (q_clazz q) eqn:Hc; counters_eq.
Qed.

Lemma OnRemove_counters a q b :
  few (a ++ q :: b) ->
  EventClassCounters.OnRemove (counters_of (a ++ q :: b)) (q_clazz q) (q_state q) = counters_of (a ++ b).
Proof.
  intros Hf%few_split. unfold EventClassCounters.OnRemove, ClazzCount.Decrement.
  destruct (q_clazz q) eqn:Hc, (q_state q) eqn:Hs; counters_eq.
Qed.

Lemma count_unselect P qs :
  (forall q, P (with_state unselected q) = P q) -> count P (unselect qs) = count P qs.
Proof.
  intros HP. induction qs as [|q qs IH]; [done|]. unfold unselect in *. cbn [map]. by rewrite !count_cons, HP, IH.
Qed.

Lemma count_unselected P qs : (forall q, P (with_state unselected q) = false) -> count P (unselect qs) = 0.
Proof.
  intros HP. induction qs as [|q qs IH]; [done|]. unfold unselect in *. cbn [map]. by rewrite !count_cons, HP, IH.
Qed.

Lemma ResetOnFail_counters qs : EventClassCounters.ResetOnFail (counters_of qs) = counters_of (unselect qs).
Proof.
  unfold EventClassCounters.ResetOnFail, ClazzCount.Reset, ClazzCount.zero, counters_of, class_counts.
  cbn [EventBuffer.total written selected]. by rewrite !count_unselect, !count_unselected by done.
Qed.

End CounterSteps.

(** ** The lists that represent a queue *)

(** An event with the positions of its two nodes. *)
Record Item (M : Type) := mkItem { i_event : nat; i_typed : nat; i_evt : Queued M }.

Arguments mkItem {M}.

Arguments i_event {M}.

Arguments i_typed {M}.

Arguments i_evt {M}.

Section Representation.
Context {M : Type}.
Import Queue EventLists.
Implicit Types (x : Item M) (items a b : list (Item M)) (l : EventLists M).

Definition event_item x : nat * EventRecord :=
  (i_event x, mkEventRecord (q_index (i_evt x)) (q_clazz (i_evt x)) (q_state (i_evt x)) (Some (q_type (i_evt x)))
                (Some (i_typed x))).

Definition typed_item x : nat * TypedEventRecord M :=
  (i_typed x, mkTypedEventRecord (q_value (i_evt x)) (q_default (i_evt x)) (q_selected (i_evt x)) (Some (i_event x))).

Definition of_type (t : EventType) items : list (Item M) := List.filter (fun x => is_type t (i_evt x)) items.

Definition queue items : list (Queued M) := map i_evt items.

(** The room for each type, and for all events together. *)
Definition all_types : list EventType :=
  [Binary; Analog; Counter; FrozenCounter; DoubleBitBinary; BinaryOutputStatus; AnalogOutputStatus; OctetString].

Definition room (caps : EventType -> nat) : nat := list_sum (map caps all_types).

Definition caps_ok (caps : EventType -> nat) : Prop :=
  forall t, Z.of_nat (caps t) < 65536.

Record represents (caps : EventType -> nat) l items : Prop := mkRepresents {
  r_events : holds (events l) (map event_item items);
  r_typed : forall t, holds (GetList t l) (map typed_item (of_type t items));
  r_counters : counters l = counters_of (queue items);
  r_room : Lst.Capacity (events l) = room caps;
  r_caps : forall t, Lst.Capacity (GetList t l) = caps t
}.

Lemma all_types_in t : t ∈ all_types.
Proof. destruct t; unfold all_types; rewrite !elem_of_cons; tauto. Qed.

(** Reading back the references the code updates through. *)
Lemma GetList_set_list t t' y l : GetList t' (set_list t y l) = if decide (t = t') then y else GetList t' l.
Proof. by destruct t'. Qed.

Lemma GetList_set_events t y l : GetList t (set_events y l) = GetList t l.
Proof. by destruct t. Qed.

Lemma GetList_set_counters t y l : GetList t (set_counters y l) = GetList t l.
Proof. by destruct t. Qed.

Lemma of_type_app t a b : of_type t (a ++ b) = of_type t a ++ of_type t b.
Proof. apply List.filter_app. Qed.

Lemma of_type_cons t x items :
  of_type t (x :: items) = if decide (q_type (i_evt x) = t) then x :: of_type t items else of_type t items.
Proof. unfold of_type, is_type. cbn. by case_decide; [rewrite bool_decide_true|rewrite bool_decide_false]. Qed.

Lemma of_type_in t x items : x ∈ of_type t items -> q_type (i_evt x) = t.
Proof.
  unfold of_type. intros H%list_elem_of_In. apply filter_In in H as [_ H]. by apply bool_decide_eq_true in H.
Qed.

Lemma of_type_none t items : Forall (fun x => q_type (i_evt x) <> t) items -> of_type t items = [].
Proof.
  induction 1 as [|x items Hx _ IH]; [done|]. by rewrite of_type_cons, decide_False.
Qed.

(** The first event of a type, and what precedes it. *)
Lemma of_type_split t items x r :
  of_type t items = x :: r ->
  exists a b, items = a ++ x :: b /\ Forall (fun y => q_type (i_evt y) <> t) a /\ r = of_type t b /\ q_type (i_evt x) = t.
Proof.
  induction items as [|y items IH]; [done|]. rewrite of_type_cons. case_decide as Hy.
  - intros [= -> <-]. exists [], items. split; [done|]. split; [constructor|]. done.
  - intros H. destruct (IH H) as (a & b & -> & Ha & -> & Hx). exists (y :: a), b. repeat split; try done. by constructor.
Qed.

Lemma of_type_count t items : Z.of_nat (length (of_type t items)) = count (is_type t) (queue items).
Proof.
  induction items as [|x items IH]; [done|]. unfold queue in *. cbn [map]. rewrite of_type_cons, count_cons, <- IH.
  unfold is_type. case_decide; [rewrite bool_decide_true by done|rewrite bool_decide_false by done]; cbn [Z.b2z length]; lia.
Qed.

(** Every event has exactly one type. *)
Lemma types_sum items : list_sum (map (fun t => length (of_type t items)) all_types) = length items.
Proof.
  induction items as [|x items IH]; [done|]. unfold all_types in *. cbn [map list_sum foldr length] in *.
  rewrite !of_type_cons. destruct (q_type (i_evt x)); repeat (case_decide; try congruence); cbn [length]; lia.
Qed.

Lemma sum_le (f g : EventType -> nat) ts :
  (forall t, (f t <= g t)%nat) -> (list_sum (map f ts) <= list_sum (map g ts))%nat.
Proof. intros H. induction ts as [|t ts IH]; cbn; [done|]. specialize (H t). unfold list_sum in *. lia. Qed.

Lemma sum_lt (f g : EventType -> nat) ts t :
  (forall t, (f t <= g t)%nat) -> t ∈ ts -> (f t < g t)%nat -> (list_sum (map f ts) < list_sum (map g ts))%nat.
Proof.
  intros H Ht Hlt. induction Ht as [t ts|t t' ts Ht IH]; cbn.
  - pose proof (sum_le f g ts H). unfold list_sum in *. lia.
  - specialize (H t'). specialize (IH Hlt). unfold list_sum in *. lia.
Qed.

Lemma represents_types caps l items t : represents caps l items -> (length (of_type t items) <= caps t)%nat.
Proof.
  intros R. pose proof (holds_length _ _ (r_typed _ _ _ R t)) as H. by rewrite length_map, (r_caps _ _ _ R) in H.
Qed.

(** There is room for an event whenever there is room for its type. *)
Lemma represents_room caps l items t :
  represents caps l items -> (length (of_type t items) < caps t)%nat -> (length items < room caps)%nat.
Proof.
  intros R Ht. rewrite <- types_sum. apply (sum_lt _ _ _ t); [|apply all_types_in|done].
  intros t'. by eapply represents_types.
Qed.

Lemma represents_few caps l items : represents caps l items -> few (queue items).
Proof.
  intros R. pose proof (r_events _ _ _ R) as H. pose proof (holds_length _ _ H) as Hl.
  destruct H as (_ & _ & _ & _ & _ & _ & _ & _ & Hb). unfold few, queue, Lst.Capacity in *. rewrite !length_map in *. lia.
Qed.

(** The nodes of an event, read through the pointers. *)
Lemma get_event caps l a x b :
  represents caps l (a ++ x :: b) -> Lst.get_value (i_event x) (events l) = Some (event_item x).2.
Proof.
  intros R. eapply holds_get; [apply (r_events _ _ _ R)|]. rewrite map_app. apply elem_of_app. right. left.
Qed.

Lemma get_typed caps l a x b :
  represents caps l (a ++ x :: b) ->
  Lst.get_value (i_typed x) (GetList (q_type (i_evt x)) l) = Some (typed_item x).2.
Proof.
  intros R. eapply holds_get; [apply (r_typed _ _ _ R)|].
  rewrite of_type_app, of_type_cons, decide_True, map_app by done. apply elem_of_app. right. left.
Qed.

End Representation.

(** ** Adding events *)

Section Updating.
Context {M : Type}.
Import Queue EventLists.
Implicit Types (x : Item M) (items a b : list (Item M)) (l : EventLists M).

Lemma queue_app a b : queue (a ++ b) = queue a ++ queue b.
Proof. apply map_app. Qed.

(** Taking an event out of both lists. *)
Lemma represents_remove caps l a x b ev ty :
  represents caps l (a ++ x :: b) ->
  Lst.Remove (i_event x) (events l) = Some ev ->
  Lst.Remove (i_typed x) (GetList (q_type (i_evt x)) l) = Some ty ->
  represents caps
    (set_list (q_type (i_evt x)) ty (set_events ev (set_counters
       (EventClassCounters.OnRemove (counters l) (q_clazz (i_evt x)) (q_state (i_evt x))) l)))
    (a ++ b).
Proof.
  intros R Hev Hty. pose proof (represents_few _ _ _ R) as Hfew. destruct R as [He Ht Hc Hr Hcaps].
  rewrite map_app in He. cbn [map] in He.
  destruct (Remove_spec _ _ _ _ _ He) as (ev' & Hev' & Hh & Hcap). rewrite Hev in Hev'. injection Hev' as <-.
  pose proof (Ht (q_type (i_evt x))) as Htx. rewrite of_type_app, of_type_cons, decide_True, map_app in Htx by done.
  destruct (Remove_spec _ _ _ _ _ Htx) as (ty' & Hty' & Hht & Hcapt). rewrite Hty in Hty'. injection Hty' as <-.
  split.
  - cbn. by rewrite map_app.
  - intros t. rewrite GetList_set_list. case_decide as Hd.
    + subst t. by rewrite of_type_app, map_app.
    + rewrite GetList_set_events, GetList_set_counters. specialize (Ht t).
      rewrite of_type_app, of_type_cons, decide_False in Ht by congruence. by rewrite of_type_app.
  - cbn. rewrite Hc, !queue_app. cbn. apply OnRemove_counters. by rewrite queue_app in Hfew.
  - change (Lst.Capacity ev = room caps). congruence.
  - intros t. rewrite GetList_set_list. case_decide as Hd.
    + subst t. by rewrite Hcapt.
    + by rewrite GetList_set_events, GetList_set_counters.
Qed.

Lemma remove_first_split t a x b :
  Forall (fun y => q_type (i_evt y) <> t) a -> q_type (i_evt x) = t ->
  remove_first (is_type t) (queue (a ++ x :: b)) = queue (a ++ b).
Proof.
  intros Ha Hx. induction Ha as [|y a Hy Ha IH]; cbn; unfold is_type in *.
  - by rewrite bool_decide_true.
  - rewrite bool_decide_false by done. unfold queue in *. cbn. by rewrite IH.
Qed.

Lemma make_space_spec caps l items t :
  represents caps l items -> (0 < length (of_type t items))%nat ->
  exists l' items', EventUpdate.make_space t l = Some l' /\ represents caps l' items' /\
    queue items' = remove_first (is_type t) (queue items) /\
    S (length (of_type t items')) = length (of_type t items).
Proof.
  intros R Hlen. destruct (of_type t items) as [|x r] eqn:Hof; [cbn in Hlen; lia|].
  destruct (of_type_split _ _ _ _ Hof) as (a & b & -> & Ha & -> & Hx). subst t.
  pose proof (r_typed _ _ _ R (q_type (i_evt x))) as Ht. rewrite Hof in Ht. cbn [map] in Ht.
  unfold EventUpdate.make_space. rewrite (holds_head _ _ Ht). cbn [first_id typed_item mbind option_bind].
  rewrite (get_typed _ _ _ _ _ R). cbn [typed_item snd record mbind option_bind].
  rewrite (get_event _ _ _ _ _ R). cbn [event_item snd clazz state mbind option_bind].
  pose proof (r_events _ _ _ R) as He. rewrite map_app in He. cbn [map] in He.
  destruct (Remove_spec _ _ _ _ _ He) as (ev & Hev & _ & _). cbn [events set_counters]. rewrite Hev.
  cbn [mbind option_bind]. rewrite GetList_set_events, GetList_set_counters.
  destruct (Remove_spec _ [] _ _ _ Ht) as (ty & Hty & _ & _). rewrite Hty. cbn [mbind option_bind].
  eexists _, (a ++ b). split; [done|]. split; [by apply represents_remove|]. split; [by rewrite remove_first_split|].
  by rewrite of_type_app, (of_type_none _ a) by done.
Qed.

(** Adding an event when there is room for it. *)
Lemma add_spec caps l items t (e : Event M) :
  represents caps l items -> (length (of_type t items) < caps t)%nat ->
  exists l' x,
    EventUpdate.append t e l = Some l' /\
    represents caps l' (items ++ [x]) /\ i_evt x = of_event t e.
Proof.
  intros R Hroom. pose proof (represents_room _ _ _ _ R Hroom) as Hall. destruct R as [He Ht Hc Hr Hcaps].
  set (rec := mkEventRecord (ev_index e) (ev_clazz e) unselected None None).
  assert (Hfe : Lst.IsFull (events l) = false).
  { rewrite (holds_full _ _ He), bool_decide_false; [done|]. rewrite length_map. lia. }
  destruct (Add_spec _ _ rec He Hfe) as (ev & i & Hadd & Hev & Hni & Hcap). unfold EventUpdate.append. fold rec. rewrite Hadd.
  cbn [mbind option_bind]. assert (Hft : Lst.IsFull (GetList t l) = false).
  { rewrite (holds_full _ _ (Ht t)), bool_decide_false; [done|]. rewrite length_map, Hcaps. lia. }
  destruct (Add_spec _ _ (mkTypedEventRecord (ev_value e) (ev_variation e) (ev_variation e) (Some i)) (Ht t) Hft)
    as (ty & j & -> & Hty & _ & Hcapt). cbn [mbind option_bind].
  rewrite (holds_get _ _ i rec Hev) by (apply elem_of_app; right; left). cbn [mbind option_bind].
  destruct (holds_set _ _ _ _ (set_storage t (Some j) rec) _ Hev) as (ev' & -> & Hev' & Hcap'). cbn [mbind option_bind].
  set (x := mkItem i j (of_event t e)). eexists _, x. split; [done|]. split; [|done].
  assert (Hqx : q_type (i_evt x) = t) by done.
  assert (Hfew : few (queue (items ++ [x]))).
  { destruct Hev as (_ & _ & _ & _ & _ & _ & _ & _ & Hb). pose proof (holds_length _ _ Hev') as H.
    unfold few, queue, Lst.Capacity in *. repeat (rewrite length_map in * || rewrite length_app in *). cbn [length] in *. lia. }
  split.
  - cbn. by rewrite map_app.
  - intros t'. rewrite GetList_set_counters, GetList_set_list, of_type_app, of_type_cons, map_app, Hqx. case_decide.
    + by subst t'.
    + rewrite GetList_set_events. cbn [of_type List.filter map]. by rewrite app_nil_r.
  - cbn. rewrite Hc, queue_app. apply (OnAdd_counters (queue items) (of_event t e)); [|done]. by rewrite queue_app in Hfew.
  - change (Lst.Capacity ev' = room caps). congruence.
  - intros t'. rewrite GetList_set_counters, GetList_set_list. case_decide; [subst t'|rewrite GetList_set_events]; congruence.
Qed.

(** [Update] implements [Queue.update]. *)
Lemma Update_spec caps l items t (e : Event M) :
  represents caps l items ->
  exists l' items', EventUpdate.Update t e l = Some (l', (update (Z.of_nat (caps t)) t e (queue items)).2) /\
    represents caps l' items' /\ queue items' = (update (Z.of_nat (caps t)) t e (queue items)).1.
Proof.
  intros R. unfold EventUpdate.Update, update. rewrite (r_caps _ _ _ R).
  destruct (Nat.eqb_spec (caps t) 0) as [H0|H0].
  { rewrite H0. by exists l, items. }
  rewrite (proj2 (Z.eqb_neq _ _)) by lia.
  rewrite (holds_full _ _ (r_typed _ _ _ R t)), length_map, (r_caps _ _ _ R), <- of_type_count.
  pose proof (represents_types _ _ _ t R) as Hle.
  destruct (decide (length (of_type t items) = caps t)) as [Hfull|Hnf].
  - rewrite bool_decide_true, (proj2 (Z.eqb_eq _ _)) by (done || lia).
    destruct (make_space_spec _ _ _ t R ltac:(lia)) as (l1 & items1 & -> & R1 & Hq1 & Hlen1). cbn [mbind option_bind].
    destruct (add_spec _ _ _ t e R1 ltac:(lia)) as (l2 & x & Hadd & R2 & Hx).
    exists l2, (items1 ++ [x]). split; [|split; [done|]].
    + by rewrite Hadd.
    + cbn [fst]. by rewrite queue_app, Hq1, <- Hx.
  - rewrite bool_decide_false, (proj2 (Z.eqb_neq _ _)) by (done || lia). cbn [mbind option_bind].
    destruct (add_spec _ _ _ t e R ltac:(lia)) as (l2 & x & Hadd & R2 & Hx).
    exists l2, (items ++ [x]). split; [|split; [done|]].
    + by rewrite Hadd.
    + cbn [fst]. by rewrite queue_app, <- Hx.
Qed.

End Updating.

(** ** Selecting events *)

Section Selecting.
Context {M : Type}.
Import Queue EventLists.
Implicit Types (x : Item M) (items a b : list (Item M)) (l : EventLists M) (qs : list (Queued M)).

Lemma select_first_none P f max qs : max <= 0 -> select_first (M := M) P f max qs = (qs, 0).
Proof.
  intros Hm. induction qs as [|q qs IH]; [done|]. cbn.
  rewrite (proj2 (Z.ltb_ge 0 max)), andb_false_r, IH by done. done.
Qed.

Lemma select_first_count P f max qs :
  0 <= (select_first (M := M) P f max qs).2 <= Z.max 0 max /\
  (select_first P f max qs).2 <= Z.of_nat (length qs).
Proof.
  revert max. induction qs as [|q qs IH]; intros max; cbn [select_first length]; [cbn; lia|].
  destruct (P q && (0 <? max)) eqn:HP.
  - apply andb_prop in HP as [_ HP%Z.ltb_lt]. specialize (IH (max - 1)).
    destruct (select_first P f (max - 1) qs) as [r n]. cbn [snd] in *. lia.
  - specialize (IH max). destruct (select_first P f max qs) as [r n]. cbn [snd] in *. lia.
Qed.

Definition with_evt x (q : Queued M) : Item M := mkItem (i_event x) (i_typed x) q.

(** Writing the state of an event through the generic list. *)
Lemma set_event_state caps l a x b s :
  represents caps l (a ++ x :: b) ->
  exists ev, Lst.set_value (i_event x) (set_state s (event_item x).2) (events l) = Some ev /\
    holds ev (map event_item (a ++ with_evt x (with_state s (i_evt x)) :: b)) /\
    Lst.Capacity ev = Lst.Capacity (events l).
Proof.
  intros R. pose proof (r_events _ _ _ R) as He. rewrite map_app in He. cbn [map] in He.
  destruct (holds_set _ _ _ _ (set_state s (event_item x).2) _ He) as (ev & Hset & Hev & Hcap).
  exists ev. by rewrite map_app.
Qed.

Lemma represents_set_state caps l a x b s ev c :
  represents caps l (a ++ x :: b) ->
  holds ev (map event_item (a ++ with_evt x (with_state s (i_evt x)) :: b)) ->
  Lst.Capacity ev = Lst.Capacity (events l) ->
  c = counters_of (queue (a ++ with_evt x (with_state s (i_evt x)) :: b)) ->
  represents caps (set_counters c (set_events ev l)) (a ++ with_evt x (with_state s (i_evt x)) :: b).
Proof.
  intros R Hev Hcap Hc. split.
  - exact Hev.
  - intros t. rewrite GetList_set_counters, GetList_set_events.
    pose proof (r_typed _ _ _ R t) as Ht. rewrite of_type_app, of_type_cons, map_app in *. cbn [q_type with_evt i_evt with_state].
    by case_decide.
  - exact Hc.
  - cbn [events set_counters set_events]. rewrite Hcap. apply (r_room _ _ _ R).
  - intros t. rewrite GetList_set_counters, GetList_set_events. apply (r_caps _ _ _ R).
Qed.

Lemma next_event caps l a x b :
  represents caps l (a ++ x :: b) ->
  Lst.Next (events l) (Some (i_event x)) = Some (Some (i_event x), first_id (map event_item b) None).
Proof.
  intros R. pose proof (r_events _ _ _ R) as He. rewrite map_app in He.
  destruct (holds_next _ _ _ _ _ He) as (n & Hn & _ & Hx). unfold Lst.Next. rewrite Hn. cbn. by rewrite Hx.
Qed.

Lemma SelectByClass_loop_spec caps c fuel max a b num l :
  represents caps l (a ++ b) -> (length b <= fuel)%nat -> 0 <= num -> num + Z.of_nat (length b) < 4294967296 ->
  exists l' b', EventSelection.SelectByClass_loop fuel c max (first_id (map event_item b) None) num l =
      Some (l', num + (select_class c (max - num) (queue b)).2) /\
    represents caps l' (a ++ b') /\ queue b' = (select_class c (max - num) (queue b)).1.
Proof.
  revert fuel a num l. induction b as [|x b IH]; intros fuel a num l R Hf Hn Hb.
  { exists l, []. destruct fuel; cbn; rewrite Z.add_0_r; done. }
  destruct fuel as [|fuel]; [cbn in Hf; lia|]. cbn [length] in Hf, Hb.
  cbn [map first_id event_item EventSelection.SelectByClass_loop].
  destruct (Z.ltb_spec num max) as [Hlt|Hge].
  2:{ exists l, (x :: b). unfold select_class. rewrite select_first_none by lia. cbn. by rewrite Z.add_0_r. }
  rewrite (next_event _ _ _ _ _ R). cbn [mbind option_bind]. rewrite (get_event _ _ _ _ _ R).
  cbn [mbind option_bind snd event_item state clazz].
  unfold select_class. unfold queue. cbn [map select_first].
  rewrite (proj2 (Z.ltb_lt 0 (max - num))), andb_true_r by lia.
  change (bool_decide (q_state (i_evt x) = unselected)) with (in_state unselected (i_evt x)).
  destruct (in_state unselected (i_evt x)) eqn:Hun;
    [destruct (ClassField.HasEventType c (q_clazz (i_evt x))) eqn:Hcl|]; cbn [andb].
  - apply bool_decide_eq_true in Hun.
    destruct (set_event_state _ _ _ _ _ selected_ R) as (ev & Hset & Hev & Hcap). cbn [snd event_item] in Hset.
    rewrite Hset. cbn [mbind option_bind].
    assert (R' := represents_set_state _ _ _ _ _ _ ev (EventClassCounters.OnSelect (counters l)) R Hev Hcap).
    assert (Hc : EventClassCounters.OnSelect (counters l) =
      counters_of (queue (a ++ with_evt x (with_state selected_ (i_evt x)) :: b))).
    { rewrite (r_counters _ _ _ R), !queue_app. apply OnSelect_counters; try done.
      pose proof (represents_few _ _ _ R) as H. by rewrite queue_app in H. }
    specialize (R' Hc).
    destruct (IH fuel (a ++ [with_evt x (with_state selected_ (i_evt x))]) (u32 (num + 1))
      (set_counters (EventClassCounters.OnSelect (counters (set_events ev l))) (set_events ev l))) as (l' & b' & H1 & H2 & H3).
    { by rewrite <- app_assoc. } { lia. } { rewrite u32_small; unfold is_u32; lia. } { rewrite u32_small; unfold is_u32; lia. }
    rewrite u32_small in * by (unfold is_u32; lia). cbn [snd event_item] in *.
    rewrite H1. replace (max - (num + 1)) with (max - num - 1) in * by lia. unfold select_class, queue in *.
    destruct (select_first _ _ (max - num - 1) _) as [r n]. cbn [fst snd] in *.
    eexists _, (with_evt x (with_state selected_ (i_evt x)) :: b'). split; [do 2 f_equal; lia|].
    rewrite <- app_assoc in H2. split; [exact H2|]. cbn. by rewrite H3.
  - destruct (IH fuel (a ++ [x]) num l) as (l' & b' & H1 & H2 & H3); [by rewrite <- app_assoc|lia|lia|lia|].
    rewrite H1. unfold select_class, queue in *. destruct (select_first _ _ (max - num) _) as [r n]. cbn [fst snd] in *.
    eexists _, (x :: b'). rewrite <- app_assoc in H2. split; [done|]. split; [exact H2|]. cbn. by rewrite H3.
  - destruct (IH fuel (a ++ [x]) num l) as (l' & b' & H1 & H2 & H3); [by rewrite <- app_assoc|lia|lia|lia|].
    rewrite H1. unfold select_class, queue in *. destruct (select_first _ _ (max - num) _) as [r n]. cbn [fst snd] in *.
    eexists _, (x :: b'). rewrite <- app_assoc in H2. split; [done|]. split; [exact H2|]. cbn. by rewrite H3.
Qed.

Lemma represents_length caps l items :
  represents caps l items -> (length items <= length (underlying (events l)))%nat /\ Z.of_nat (length items) < 4294967296.
Proof.
  intros R. split.
  - pose proof (holds_length _ _ (r_events _ _ _ R)) as H. by rewrite length_map in H.
  - pose proof (represents_few _ _ _ R) as H. unfold few, queue in H. by rewrite length_map in H.
Qed.

Lemma SelectByClass_spec caps c max l items :
  represents caps l items ->
  exists l' items', EventSelection.SelectByClass c max l = Some (l', (select_class c max (queue items)).2) /\
    represents caps l' items' /\ queue items' = (select_class c max (queue items)).1.
Proof.
  intros R. pose proof (represents_length _ _ _ R) as [Hl Hb]. unfold EventSelection.SelectByClass.
  rewrite (holds_head _ _ (r_events _ _ _ R)).
  destruct (SelectByClass_loop_spec caps c (Lst.fuel_for (events l)) max [] items 0 l) as (l' & b' & H1 & H2 & H3);
    [done|unfold Lst.fuel_for; lia|lia|lia|].
  rewrite Z.sub_0_r in *. by exists l', b'.
Qed.

End Selecting.

Section SelectingByType.
Context {M : Type}.
Import Queue EventLists.
Implicit Types (x : Item M) (items a b : list (Item M)) (l : EventLists M) (qs : list (Queued M)).

(** The lists while the list of the type [t] is iterated over. *)
Record represents_but (t : EventType) (caps : EventType -> nat) l items : Prop := mkRepresentsBut {
  b_events : holds (events l) (map event_item items);
  b_typed : forall t', t' <> t -> holds (GetList t' l) (map typed_item (of_type t' items));
  b_counters : counters l = counters_of (queue items);
  b_room : Lst.Capacity (events l) = room caps;
  b_caps : forall t', t' <> t -> Lst.Capacity (GetList t' l) = caps t'
}.

Lemma represents_hide t caps l items : represents caps l items -> represents_but t caps l items.
Proof. intros []. by constructor. Qed.

Lemma represents_show t caps l items y :
  represents_but t caps l items -> holds y (map typed_item (of_type t items)) -> Lst.Capacity y = caps t ->
  represents caps (set_list t y l) items.
Proof.
  intros [He Ht Hc Hr Hcaps] Hy Hyc. split.
  - exact He.
  - intros t'. rewrite GetList_set_list. case_decide as H; [by subst|]. by apply Ht.
  - exact Hc.
  - exact Hr.
  - intros t'. rewrite GetList_set_list. case_decide as H; [by subst|]. by apply Hcaps.
Qed.

Lemma but_few t caps l items : represents_but t caps l items -> few (queue items).
Proof.
  intros R. pose proof (b_events _ _ _ _ R) as H. pose proof (holds_length _ _ H) as Hl.
  destruct H as (_ & _ & _ & _ & _ & _ & _ & _ & Hb). unfold few, queue, Lst.Capacity in *. rewrite !length_map in *. lia.
Qed.

(** One event of the type is selected, through the pointer to its record. *)
Lemma but_select t caps l a x b v :
  represents_but t caps l (a ++ x :: b) -> q_type (i_evt x) = t -> q_state (i_evt x) = unselected ->
  let x' := with_evt x (with_selected v (i_evt x)) in
  exists ev,
    Lst.get_value (i_event x) (events l) = Some (event_item x).2 /\
    Lst.set_value (i_event x) (set_state selected_ (event_item x).2) (events l) = Some ev /\
    represents_but t caps (set_counters (EventClassCounters.OnSelect (counters l)) (set_events ev l)) (a ++ x' :: b).
Proof.
  intros R Hx Hs x'. pose proof (b_events _ _ _ _ R) as He. rewrite map_app in He. cbn [map] in He.
  destruct (holds_set _ _ _ _ (set_state selected_ (event_item x).2) _ He) as (ev & Hset & Hev & Hcap).
  exists ev. split; [|split; [done|]].
  { eapply holds_get; [exact He|]. apply elem_of_app. right. left. }
  split.
  - cbn [events set_counters set_events]. by rewrite map_app.
  - intros t' Ht'. rewrite GetList_set_counters, GetList_set_events. pose proof (b_typed _ _ _ _ R t' Ht') as Ht.
    rewrite of_type_app, of_type_cons in *. rewrite decide_False in Ht by congruence. by rewrite decide_False by (cbn; congruence).
  - cbn [counters set_counters]. rewrite (b_counters _ _ _ _ R), !queue_app. apply OnSelect_counters; try done.
    pose proof (but_few _ _ _ _ R) as H. by rewrite queue_app in H.
  - cbn [events set_counters set_events]. rewrite Hcap. apply (b_room _ _ _ _ R).
  - intros t' Ht'. rewrite GetList_set_counters, GetList_set_events. by apply (b_caps _ _ _ _ R).
Qed.

Definition choose (d : bool) (v : EventVariation.t) (q : Queued M) : Queued M :=
  with_selected (if d then q_default q else v) q.

Definition choose_type (t : EventType) (q : Queued M) : bool := in_state unselected q && is_type t q.

(** Events of other types are passed over. *)
Lemma select_first_skip t d v max a qs :
  Forall (fun y => q_type (i_evt y) <> t) a ->
  select_first (choose_type t) (choose d v) max (queue a ++ qs) =
    (queue a ++ (select_first (choose_type t) (choose d v) max qs).1, (select_first (choose_type t) (choose d v) max qs).2).
Proof.
  induction 1 as [|y a Hy Ha IH]; cbn [queue map app]; [by destruct (select_first _ _ _ qs)|].
  cbn [select_first]. unfold choose_type at 1, is_type. rewrite bool_decide_false, andb_false_r by done. cbn [andb].
  fold (queue a). by rewrite IH.
Qed.

(** The loop of [SelectByTypeGeneric]: the events seen are chosen from, those to
    come are not; [r] is the result of the specification. *)
Definition select_inv t caps d v max (r : list (Queued M) * Z) (la lb : list (nat * TypedEventRecord M))
    (w : EventLists M * Z) : Prop :=
  exists a b,
    la = map typed_item (of_type t a) /\ lb = map typed_item (of_type t b) /\ represents_but t caps w.1 (a ++ b) /\
    0 <= w.2 <= max /\ w.2 + Z.of_nat (length b) < 4294967296 /\
    r = (queue a ++ (select_first (choose_type t) (choose d v) (max - w.2) (queue b)).1,
         w.2 + (select_first (choose_type t) (choose d v) (max - w.2) (queue b)).2).

Definition select_stop t caps (r : list (Queued M) * Z) (la : list (nat * TypedEventRecord M))
    (w : EventLists M * Z) : Prop :=
  exists a, la = map typed_item (of_type t a) /\ represents_but t caps w.1 a /\ r = (queue a, w.2).

Lemma select_step t caps d v max r la i rec lb w :
  select_inv t caps d v max r la ((i, rec) :: lb) w ->
  wp (EventSelection.select d v max rec) w (fun y w =>
    if snd y : bool then select_inv t caps d v max r (la ++ [(i, fst y)]) lb w
    else select_stop t caps r (la ++ (i, fst y) :: lb) w).
Proof.
  destruct w as [l1 num].
  intros (a & b & -> & Hlb & Rb & Hnum & Hn2 & Hr). cbn [fst snd] in *.
  destruct (of_type t b) as [|x ob] eqn:Hob; [done|]. injection Hlb as -> -> ->.
  destruct (of_type_split _ _ _ _ Hob) as (c & b' & -> & Hc & -> & Hx).
  rewrite queue_app, select_first_skip in Hr by done. cbn [fst snd queue map] in Hr. fold (queue b') in Hr.
  rewrite length_app, length_cons in Hn2. rewrite app_assoc in Rb.
  assert (Hac : of_type t (a ++ c) = of_type t a) by (by rewrite of_type_app, (of_type_none _ c), app_nil_r).
  unfold wp, EventSelection.select. destruct (Z.eqb_spec num max) as [->|Hnm].
  { cbn [snd fst]. exists ((a ++ c) ++ x :: b'). rewrite of_type_app, Hac, of_type_cons, decide_True by done.
    rewrite map_app. cbn [fst]. split; [done|]. split; [done|].
    rewrite Z.sub_diag, select_first_none in Hr by lia. cbn [fst snd] in Hr.
    rewrite Hr, !queue_app, Z.add_0_r, <- app_assoc. done. }
  cbn [select_first] in Hr. rewrite (proj2 (Z.ltb_lt 0 (max - num))), andb_true_r in Hr by lia.
  assert (Hct : choose_type t (i_evt x) = bool_decide (q_state (i_evt x) = unselected)).
  { unfold choose_type, is_type, in_state. by rewrite (bool_decide_true (q_type _ = t)), andb_true_r. }
  rewrite Hct in Hr.
  cbn [record mbind option_bind typed_item snd].
  destruct (decide (q_state (i_evt x) = unselected)) as [Hun|Hun].
  - set (v' := if d then q_default (i_evt x) else v).
    destruct (but_select _ _ _ _ _ _ v' Rb Hx Hun) as (ev & -> & Hset & R'). cbn [mbind option_bind].
    rewrite decide_True by done. rewrite Hset. cbn [mbind option_bind fst snd].
    rewrite bool_decide_true in Hr by done.
    exists ((a ++ c) ++ [with_evt x (with_selected v' (i_evt x))]), b'.
    rewrite !of_type_app, (of_type_none _ c), app_nil_r, of_type_cons, decide_True, map_app by done.
    split; [by destruct d|]. split; [done|]. cbn [fst snd]. rewrite u32_small by (unfold is_u32; lia).
    split; [by rewrite <- app_assoc|]. split; [lia|]. split; [lia|].
    replace (max - (num + 1)) with (max - num - 1) by lia. rewrite Hr.
    destruct (select_first _ _ (max - num - 1) _) as [r0 n]. cbn [fst snd].
    rewrite !queue_app, <- !app_assoc. cbn. f_equal. lia.
  - assert (Hget : Lst.get_value (i_event x) (events l1) = Some (event_item x).2).
    { eapply holds_get; [apply (b_events _ _ _ _ Rb)|]. rewrite map_app. apply elem_of_app. right. left. }
    rewrite Hget. cbn [mbind option_bind]. rewrite decide_False by done. cbn [fst snd].
    rewrite bool_decide_false in Hr by done.
    exists ((a ++ c) ++ [x]), b'.
    rewrite !of_type_app, (of_type_none _ c), app_nil_r, of_type_cons, decide_True, map_app by done.
    split; [done|]. split; [done|]. cbn [fst snd]. split; [by rewrite <- app_assoc|]. split; [lia|]. split; [lia|].
    rewrite Hr. destruct (select_first _ _ (max - num) _) as [r0 n]. cbn [fst snd].
    rewrite !queue_app, <- !app_assoc. done.
Qed.

Lemma select_end t caps d v max r la w : select_inv t caps d v max r la [] w -> select_stop t caps r la w.
Proof.
  destruct w as [l1 num].
  intros (a & b & -> & Hb & Rb & Hnum & Hn2 & Hr). cbn [fst snd] in *. exists (a ++ b).
  rewrite of_type_app. destruct (of_type t b) as [|] eqn:Hob; [|done]. rewrite app_nil_r. split; [done|]. split; [done|].
  assert (Hnb : Forall (fun y => q_type (i_evt y) <> t) b).
  { apply Forall_forall. intros y Hy Hty. assert (H : y ∈ of_type t b).
    { apply list_elem_of_In, filter_In. split; [by apply list_elem_of_In|]. by apply bool_decide_eq_true. }
    rewrite Hob in H. by apply elem_of_nil in H. }
  pose proof (select_first_skip t d v (max - num) b [] Hnb) as Hsk. rewrite app_nil_r in Hsk.
  rewrite Hr, Hsk. cbn. by rewrite app_nil_r, Z.add_0_r, queue_app.
Qed.

Lemma SelectByTypeGeneric_spec caps t d v max l items :
  represents caps l items -> 0 <= max ->
  let r := select_first (choose_type t) (choose d v) max (queue items) in
  exists l' items', EventSelection.SelectByTypeGeneric t d v max l = Some (l', r.2) /\
    represents caps l' items' /\ queue items' = r.1.
Proof.
  intros R Hmax r. pose proof (represents_length _ _ _ R) as [_ Hlen].
  unfold EventSelection.SelectByTypeGeneric.
  pose proof (ForeachWhile_spec _ _ _ _ _ (l, 0) (select_step t caps d v max r) (select_end t caps d v max r)
    (r_typed _ _ _ R t)) as Hloop.
  assert (Hinit : select_inv t caps d v max r [] (map typed_item (of_type t items)) (l, 0)).
  { exists [], items. split; [done|]. split; [done|]. split; [by apply represents_hide|]. cbn [snd].
    rewrite Z.sub_0_r. split; [lia|]. split; [lia|]. unfold r. by destruct (select_first _ _ _ _). }
  apply wp_run in Hloop as ([l1 num] & y & Hrun & Hcap & its & Hy & a & -> & Rb & Hr); [|exact Hinit].
  rewrite Hrun. cbn [mbind option_bind fst snd] in *.
  exists (set_list t y l1), a. rewrite Hr. split; [done|]. split; [|done].
  apply represents_show; [done|done|]. by rewrite Hcap, (r_caps _ _ _ R).
Qed.

End SelectingByType.

(** ** Clearing and unselecting *)

Section Clearing.
Context {M : Type}.
Import Queue EventLists.
Implicit Types (x : Item M) (items a b : list (Item M)) (l : EventLists M) (qs : list (Queued M)).

Definition unselect_item x : Item M := with_evt x (with_state unselected (i_evt x)).

Lemma queue_unselect items : queue (map unselect_item items) = unselect (queue items).
Proof. unfold queue, unselect. by rewrite !map_map. Qed.

Lemma of_type_unselect t items : map typed_item (of_type t (map unselect_item items)) = map typed_item (of_type t items).
Proof.
  induction items as [|x items IH]; [done|]. cbn [map]. rewrite !of_type_cons. cbn [unselect_item with_evt i_evt with_state q_type].
  case_decide; cbn [map]; by rewrite IH.
Qed.

Lemma Unselect_spec caps l items :
  represents caps l items ->
  exists l' items', EventStorage.Unselect l = Some l' /\ represents caps l' items' /\
    queue items' = unselect (queue items).
Proof.
  intros R. unfold EventStorage.Unselect, Lst.Foreach.
  pose proof (ForeachWhile_loop_spec (fun v => v ← EventStorage.clear_state v; mret (v, true))
    (fun la lb _ => exists a b, la = map event_item (map unselect_item a) /\ lb = map event_item b /\ a ++ b = items)
    (fun la _ => la = map event_item (map unselect_item items)) (Lst.fuel_for (events l)) (events l) [] (map event_item items) tt) as Hloop.
  apply wp_run in Hloop as ([] & ev & Hrun & Hcap & its & Hev & ->).
  - rewrite (holds_head _ _ (r_events _ _ _ R)), Hrun. cbn [mbind option_bind].
    eexists _, (map unselect_item items). split; [done|]. split; [|apply queue_unselect]. split.
    + exact Hev.
    + intros t. rewrite GetList_set_counters, GetList_set_events, of_type_unselect. apply (r_typed _ _ _ R).
    + cbn [counters set_counters set_events]. by rewrite (r_counters _ _ _ R), queue_unselect, ResetOnFail_counters.
    + cbn [events set_counters set_events]. rewrite Hcap. apply (r_room _ _ _ R).
    + intros t. rewrite GetList_set_counters, GetList_set_events. apply (r_caps _ _ _ R).
  - intros la i v lb [] (a & b & -> & Hb & <-). wp_go. cbn [snd fst].
    destruct b as [|x b]; [done|]. injection Hb as -> -> ->. exists (a ++ [x]), b.
    rewrite !map_app, <- app_assoc. done.
  - intros la [] (a & b & -> & Hb & <-). symmetry in Hb. apply map_eq_nil in Hb as ->. by rewrite app_nil_r.
  - apply (r_events _ _ _ R).
  - pose proof (represents_length _ _ _ R) as [H _]. rewrite length_map. unfold Lst.fuel_for. lia.
  - by exists [], items.
Qed.

(** The lists while the generic list is iterated over. *)
Record represents_typed (caps : EventType -> nat) l items : Prop := mkRepresentsTyped {
  t_typed : forall t, holds (GetList t l) (map typed_item (of_type t items));
  t_counters : counters l = counters_of (queue items);
  t_caps : forall t, Lst.Capacity (GetList t l) = caps t
}.

Definition clear_inv caps n (r : list (Queued M)) (la lb : list (nat * EventRecord)) (l : EventLists M) : Prop :=
  exists a b, la = map event_item a /\ lb = map event_item b /\ represents_typed caps l (a ++ b) /\
    Z.of_nat (length (a ++ b)) <= n /\ r = queue a ++ clear_written (queue b).

Lemma clear_step caps n r la i rec lb l :
  n < 4294967296 ->
  clear_inv caps n r la ((i, rec) :: lb) l ->
  wp (EventStorage.remove_if_written rec) l (fun m l =>
    if m : bool then clear_inv caps n r la lb l else clear_inv caps n r (la ++ [(i, rec)]) lb l).
Proof.
  intros Hn (a & b & -> & Hb & [Ht Hc Hcaps] & Hlen & ->). destruct b as [|x b]; [done|]. injection Hb as -> -> ->.
  unfold wp, EventStorage.remove_if_written. cbn [state event_item snd type storage_node clazz].
  assert (Hcw : clear_written (queue (x :: b)) =
    (if decide (q_state (i_evt x) = written_) then [] else [i_evt x]) ++ clear_written (queue b)).
  { unfold clear_written, in_state. cbn [queue map List.filter].
    case_decide; [rewrite bool_decide_true by done|rewrite bool_decide_false by done]; done. }
  rewrite Hcw. destruct (decide (q_state (i_evt x) = written_)) as [Hw|Hw].
  - cbn [mbind option_bind]. pose proof (Ht (q_type (i_evt x))) as Htx.
    rewrite of_type_app, of_type_cons, decide_True, map_app in Htx by done. cbn [map] in Htx.
    destruct (Remove_spec _ _ _ _ _ Htx) as (ty & -> & Hty & Hcap). cbn [mbind option_bind].
    exists a, b. split; [done|]. split; [done|]. split; [split|split; [|done]].
    + intros t. rewrite GetList_set_counters, GetList_set_list. case_decide as Hd.
      * subst t. by rewrite of_type_app, map_app.
      * specialize (Ht t). rewrite of_type_app, of_type_cons, decide_False in Ht by congruence. by rewrite of_type_app.
    + cbn [counters set_counters set_list]. rewrite Hc, !queue_app. apply (OnRemove_counters _ (i_evt x)).
      unfold few. rewrite length_app. unfold queue. cbn [length]. rewrite !length_map.
      rewrite length_app in Hlen. cbn [length] in Hlen. lia.
    + intros t. rewrite GetList_set_counters, GetList_set_list. case_decide; [subst t|]; congruence.
    + rewrite length_app in *. cbn [length] in Hlen. lia.
  - exists (a ++ [x]), b. rewrite map_app, <- app_assoc.
    split; [done|]. split; [done|]. split; [done|]. split; [done|]. rewrite queue_app, <- app_assoc. done.
Qed.

Lemma clear_written_length qs :
  Z.of_nat (length qs - length (clear_written qs)) = count (in_state written_) qs.
Proof.
  assert (H : Z.of_nat (length qs) = Z.of_nat (length (clear_written qs)) + count (in_state written_) qs).
  { unfold clear_written. induction qs as [|q qs IH]; [done|]. cbn [List.filter]. rewrite count_cons.
    destruct (in_state written_ q); cbn [negb length Z.b2z]; lia. }
  pose proof (count_bounds (in_state written_) qs). lia.
Qed.

Lemma ClearWritten_spec caps l items :
  represents caps l items ->
  exists l' items', EventStorage.ClearWritten l = Some (l', count (in_state written_) (queue items)) /\
    represents caps l' items' /\ queue items' = clear_written (queue items).
Proof.
  intros R. pose proof (represents_length _ _ _ R) as [_ Hlen]. unfold EventStorage.ClearWritten.
  pose proof (RemoveAll_spec EventStorage.remove_if_written
    (clear_inv caps (Z.of_nat (length items)) (clear_written (queue items))) (events l) (map event_item items) l) as Hloop.
  apply wp_run in Hloop as (l1 & [ev n] & Hrun & Hcap & its & Hev & (a & b & -> & Hb & [Ht Hc Hcaps] & Hl & Hr) & Hnum).
  - rewrite Hrun. cbn [mbind option_bind fst snd] in *. symmetry in Hb. apply map_eq_nil in Hb as ->.
    cbn [queue map clear_written List.filter] in Hr. rewrite app_nil_r in *.
    eexists _, a. split; [|split; [split|done]].
    + do 2 f_equal. rewrite Hnum, !length_map, <- clear_written_length, Hr. unfold queue. by rewrite !length_map.
    + exact Hev.
    + intros t. rewrite GetList_set_events. apply Ht.
    + exact Hc.
    + cbn [events set_events]. rewrite Hcap. apply (r_room _ _ _ R).
    + intros t. rewrite GetList_set_events. apply Hcaps.
  - intros. by apply clear_step.
  - apply (r_events _ _ _ R).
  - exists [], items. split; [done|]. split; [done|]. split; [|done]. destruct R. by split.
Qed.

End Clearing.

(** ** Writing *)

Section Writing.
Context {H Wr M : Type} `{HW : IEventWriteHandler H Wr M}.
Import Queue EventLists EventWriting.
Implicit Types (x : Item M) (items a b c d : list (Item M)) (l : EventLists M) (qs : list (Queued M)).

Abbreviation not_selected := (fun x => q_state (i_evt x) <> selected_).

(** The events before the next selected one. *)
Lemma selected_split b :
  exists c d, b = c ++ d /\ Forall not_selected c /\ (d = [] \/ exists x d', d = x :: d' /\ q_state (i_evt x) = selected_).
Proof.
  induction b as [|x b (c & d & -> & Hc & Hd)]; [exists [], []; auto|].
  destruct (decide (q_state (i_evt x) = selected_)) as [Hx|Hx].
  - exists [], (x :: c ++ d). split; [done|]. split; [constructor|]. right. eauto.
  - exists (x :: c), d. split; [done|]. split; [by constructor|done].
Qed.

Definition head_of_type (t : EventType) d : option nat :=
  match d with x :: _ => if decide (q_type (i_evt x) = t) then Some (i_event x) else None | [] => None end.

Lemma FindNextSelected_loop_spec caps l t fuel a c d :
  represents caps l (a ++ c ++ d) -> Forall not_selected c ->
  (d = [] \/ exists x d', d = x :: d' /\ q_state (i_evt x) = selected_) -> (length (c ++ d) <= fuel)%nat ->
  FindNextSelected_loop fuel (events l) t (first_id (map event_item (c ++ d)) None) =
    Some (first_id (map event_item d) None, head_of_type t d).
Proof.
  intros R Hc Hd. revert fuel a R. induction Hc as [|x c Hx Hc IH]; intros fuel a R Hf.
  - destruct Hd as [->|(x & d' & -> & Hx)]; [by destruct fuel|]. destruct fuel as [|fuel]; [cbn in Hf; lia|].
    cbn [app map first_id event_item FindNextSelected_loop]. cbn [app] in R. rewrite (get_event _ _ _ _ _ R).
    cbn [mbind option_bind event_item snd state type]. by rewrite decide_True.
  - destruct fuel as [|fuel]; [cbn in Hf; lia|]. cbn [app map first_id event_item FindNextSelected_loop].
    cbn [app] in R. rewrite (get_event _ _ _ _ _ R). cbn [mbind option_bind event_item snd state].
    rewrite decide_False by done. rewrite (next_event _ _ _ _ _ R). cbn [mbind option_bind].
    apply (IH fuel (a ++ [x])); [by rewrite <- app_assoc|cbn in Hf; lia].
Qed.

Lemma FindNextSelected_spec caps l t a c d :
  represents caps l (a ++ c ++ d) -> Forall not_selected c ->
  (d = [] \/ exists x d', d = x :: d' /\ q_state (i_evt x) = selected_) ->
  FindNextSelected (events l) t (first_id (map event_item (c ++ d)) None) =
    Some (first_id (map event_item d) None, head_of_type t d).
Proof.
  intros R Hc Hd. eapply FindNextSelected_loop_spec; [done..|]. pose proof (represents_length _ _ _ R) as [Hl _].
  rewrite length_app in Hl. unfold Lst.fuel_for. lia.
Qed.

Lemma none_selected a : Forall not_selected a -> count (in_state selected_) (queue a) = 0.
Proof.
  induction 1 as [|x a Hx Ha IH]; [done|]. cbn [queue map]. rewrite count_cons. unfold queue in IH. rewrite IH.
  unfold in_state. by rewrite bool_decide_false.
Qed.

Lemma some_selected x d : q_state (i_evt x) = selected_ -> 0 < count (in_state selected_) (queue (x :: d)).
Proof.
  intros Hx. cbn [queue map]. rewrite count_cons. unfold in_state at 1. rewrite bool_decide_true by done.
  pose proof (count_bounds (in_state selected_) (map i_evt d)). cbn [Z.b2z]. lia.
Qed.

Lemma write_run_skip t v w a qs :
  Forall not_selected a ->
  write_run t v w (queue a ++ qs) =
    (queue a ++ (write_run t v w qs).1.1, (write_run t v w qs).1.2, (write_run t v w qs).2).
Proof.
  induction 1 as [|x a Hx Ha IH]; [cbn [queue map app]; by destruct (write_run t v w qs) as [[]]|].
  cbn [queue map app write_run]. unfold in_state at 1. rewrite bool_decide_false by done.
  fold (queue a). by rewrite IH.
Qed.

(** One event is marked as written. *)
Lemma mark_written caps l a x b :
  represents caps l (a ++ x :: b) -> q_state (i_evt x) = selected_ ->
  let x' := with_evt x (with_state written_ (i_evt x)) in
  exists ev,
    Lst.set_value (i_event x) (set_state written_ (event_item x).2) (events l) = Some ev /\
    Lst.Next ev (Some (i_event x)) = Some (Some (i_event x), first_id (map event_item b) None) /\
    represents caps (set_events ev (set_counters (EventClassCounters.OnWrite (counters l) (q_clazz (i_evt x))) l))
      (a ++ x' :: b).
Proof.
  intros R Hx x'. destruct (set_event_state _ _ _ _ _ written_ R) as (ev & Hset & Hev & Hcap). exists ev.
  assert (R' : represents caps (set_counters (EventClassCounters.OnWrite (counters l) (q_clazz (i_evt x)))
    (set_events ev l)) (a ++ x' :: b)).
  { apply represents_set_state; [done..|]. rewrite (r_counters _ _ _ R), !queue_app.
    apply (OnWrite_counters _ (i_evt x)); [|done]. pose proof (represents_few _ _ _ R) as Hf. by rewrite queue_app in Hf. }
  split; [done|]. split; [|exact R']. exact (next_event _ _ _ _ _ R').
Qed.

Lemma WriteSome_loop_spec caps t v fuel a b w num l :
  represents caps l (a ++ b) -> Forall not_selected a -> (length b < fuel)%nat ->
  0 <= num -> num + count (is_type t) (queue b) < 65536 ->
  exists l' a' b', WriteSome_loop fuel t v l (first_id (map event_item b) None) w num =
      Some (l', first_id (map event_item b') None, (write_run t v w (queue b)).1.2, num + (write_run t v w (queue b)).2) /\
    represents caps l' (a' ++ b') /\ Forall not_selected a' /\
    queue (a' ++ b') = queue a ++ (write_run t v w (queue b)).1.1.
Proof.
  revert a b w num l. induction fuel as [|fuel IH]; intros a b w num l R Ha Hf Hn Hb; [lia|].
  cbn [WriteSome_loop]. unfold WriteOne.
  destruct (selected_split b) as (c & d & -> & Hc & Hd).
  assert (Hsel : selected (counters l) = count (in_state selected_) (queue (a ++ c ++ d))) by (by rewrite (r_counters _ _ _ R)).
  rewrite !queue_app, !count_app, (none_selected a), (none_selected c) in Hsel by done.
  rewrite queue_app, write_run_skip by done. cbn [fst snd].
  (* nothing more to write *)
  assert (Hstop : forall w' iter', write_run t v w (queue d) = (queue d, w', 0) ->
    iter' = first_id (map event_item (c ++ d)) None \/ iter' = first_id (map event_item d) None ->
    exists l' a' b', Some (l, iter', w', num) =
        Some (l', first_id (map event_item b') None, (write_run t v w (queue d)).1.2, num + (write_run t v w (queue d)).2) /\
      represents caps l' (a' ++ b') /\ Forall not_selected a' /\
      queue (a' ++ b') = queue a ++ queue c ++ (write_run t v w (queue d)).1.1).
  { intros w' iter' -> [->| ->]; cbn [fst snd]; rewrite Z.add_0_r.
    - exists l, a, (c ++ d). by rewrite !queue_app.
    - exists l, (a ++ c), d. rewrite !queue_app, <- !app_assoc. split; [done|]. split; [done|].
      split; [by apply Forall_app|done]. }
  destruct (Z.eqb_spec (selected (counters l)) 0) as [H0|H0].
  { cbn [mbind option_bind]. apply Hstop; [|by left]. destruct Hd as [->|(x & d' & -> & Hx)]; [done|].
    pose proof (some_selected x d' Hx). lia. }
  rewrite (FindNextSelected_spec caps) with (a := a) by done. cbn [mbind option_bind].
  destruct Hd as [->|(x & d' & -> & Hx)]; [cbn [head_of_type mbind option_bind]; by apply Hstop; [|right]|].
  rewrite app_assoc in R. cbn [head_of_type].
  assert (Hin : in_state selected_ (i_evt x) = true) by (unfold in_state; by rewrite bool_decide_true).
  assert (Hcons : queue (x :: d') = i_evt x :: queue d') by done.
  destruct (decide (q_type (i_evt x) = t)) as [Ht|Ht].
  2:{ cbn [mbind option_bind]. apply Hstop; [|by right]. rewrite Hcons. cbn [write_run]. rewrite Hin.
      unfold is_type. by rewrite bool_decide_false. }
  rewrite (get_event _ _ _ _ _ R). cbn [mbind option_bind event_item snd storage_node].
  assert (Hg : Lst.get_value (i_typed x) (GetList t l) = Some (typed_item x).2) by (rewrite <- Ht; eapply get_typed; exact R).
  rewrite Hg. clear Hg.
  cbn [mbind option_bind typed_item snd selectedVariation tvalue clazz index].
  destruct (decide (q_selected (i_evt x) = v)) as [Hv|Hv]; [rewrite decide_False by tauto|rewrite decide_True by done].
  2:{ cbn [mbind option_bind]. apply Hstop; [|by right]. rewrite Hcons. cbn [write_run]. rewrite Hin.
      by rewrite (bool_decide_false (q_selected _ = v)), andb_false_r. }
  destruct (writer_Write (q_value (i_evt x)) (q_index (i_evt x)) w) as [w1 ok] eqn:Hw.
  assert (Hrun : write_run t v w (queue (x :: d')) =
    if ok then ((with_state written_ (i_evt x) :: (write_run t v w1 (queue d')).1.1), (write_run t v w1 (queue d')).1.2,
                (write_run t v w1 (queue d')).2 + 1)
    else (queue (x :: d'), w1, 0)).
  { rewrite Hcons. cbn [write_run]. rewrite Hin. unfold is_type. rewrite !bool_decide_true by done. cbn [andb]. rewrite Hw.
    destruct ok; [|done]. by destruct (write_run t v w1 (queue d')) as [[]]. }
  destruct ok; cbn [negb]; [|cbn [mbind option_bind]; by apply Hstop; [|right]].
  destruct (mark_written _ _ _ _ _ R Hx) as (ev & Hset & Hnext & R').
  cbn [event_item snd] in Hset. cbn [events set_counters]. rewrite Hset. cbn [mbind option_bind first_id map event_item].
  rewrite Hnext. cbn [mbind option_bind].
  rewrite !queue_app, Hcons, !count_app, count_cons in Hb. unfold is_type at 2 in Hb. rewrite bool_decide_true in Hb by done.
  pose proof (count_bounds (is_type t) (queue c)). pose proof (count_bounds (is_type t) (queue d')).
  cbn [Z.b2z] in Hb. rewrite !length_app in Hf. cbn [length] in Hf.
  assert (Hu : u16 (num + 1) = num + 1) by (apply u16_small; unfold is_u16; lia). rewrite Hu.
  edestruct (IH ((a ++ c) ++ [with_evt x (with_state written_ (i_evt x))]) d' w1 (num + 1)) as (l' & a' & b' & G1 & G2 & G3 & G4).
  { rewrite <- (app_assoc (a ++ c)). exact R'. }
  { apply Forall_app. split; [by apply Forall_app|]. by repeat constructor. }
  { lia. } { lia. } { lia. }
  exists l', a', b'. rewrite G1, Hrun. cbn [fst snd]. split; [do 2 f_equal; lia|]. split; [done|]. split; [done|].
  rewrite G4, !queue_app, <- !app_assoc. done.
Qed.

Lemma write_run_count t v w qs :
  0 <= (write_run t v w qs).2 /\
  count (in_state selected_) (write_run t v w qs).1.1 + (write_run t v w qs).2 = count (in_state selected_) qs.
Proof.
  revert w. induction qs as [|q qs IH]; intros w; cbn [write_run]; [done|].
  destruct (in_state selected_ q) eqn:Hq.
  - destruct (is_type t q && _); [|cbn [fst snd]; lia]. destruct (writer_Write _ _ _) as [w1 []]; [|cbn [fst snd]; lia].
    specialize (IH w1). destruct (write_run t v w1 qs) as [[r w2] n]. cbn [fst snd] in *. rewrite !count_cons, Hq.
    unfold in_state at 1. cbn [with_state q_state]. rewrite bool_decide_false by done. cbn [Z.b2z]. lia.
  - specialize (IH w). destruct (write_run t v w qs) as [[r w2] n]. cbn [fst snd] in *. rewrite !count_cons. lia.
Qed.

Lemma find_skip a qs :
  Forall not_selected a -> List.find (in_state selected_) (queue a ++ qs) = List.find (in_state selected_) qs.
Proof.
  induction 1 as [|x a Hx Ha IH]; [done|]. cbn [queue map app List.find]. unfold in_state at 1.
  by rewrite bool_decide_false.
Qed.

Lemma drop_until_selected a d :
  Forall not_selected a -> (d = [] \/ exists x d', d = x :: d' /\ q_state (i_evt x) = selected_) ->
  drop_until (fun r => bool_decide (state r = selected_)) (map event_item (a ++ d)) = map event_item d.
Proof.
  intros Ha Hd. induction Ha as [|x a Hx Ha IH]; cbn [app map drop_until event_item state].
  - destruct Hd as [->|(x & d' & -> & Hx)]; [done|]. cbn [map drop_until event_item state]. by rewrite bool_decide_true.
  - by rewrite bool_decide_false.
Qed.

(** One round of [Write] is one run of the specification. *)
Lemma WriteSome_spec caps l a b (h : H) :
  caps_ok caps -> represents caps l (a ++ b) -> Forall not_selected a ->
  exists l' a' b' h' n, WriteSome l (first_id (map event_item b) None) h =
      Some (l', first_id (map event_item b') None, h', n) /\
    represents caps l' (a' ++ b') /\ Forall not_selected a' /\
    (queue (a' ++ b'), h', n) =
      match List.find (in_state selected_) (queue (a ++ b)) with
      | None => (queue (a ++ b), h, 0)
      | Some q => let '(qs, w, n) := write_run (q_type q) (q_selected q)
                                       (open_writer (q_type q) (q_selected q) (q_value q) h) (queue (a ++ b)) in
                  (qs, close_writer w, n)
      end.
Proof.
  intros Hcaps R Ha. unfold WriteSome. destruct (selected_split b) as (c & d & -> & Hc & Hd).
  assert (Hsel : selected (counters l) = count (in_state selected_) (queue d)).
  { rewrite (r_counters _ _ _ R). cbn [counters_of selected]. by rewrite !queue_app, !count_app, (none_selected a), (none_selected c). }
  rewrite Hsel, !queue_app, !find_skip by done. destruct Hd as [->|(x & d' & -> & Hx)].
  { exists l, a, (c ++ []), h, 0. by rewrite !queue_app. }
  rewrite (proj2 (Z.eqb_neq _ _)) by (pose proof (some_selected x d' Hx); lia).
  pose proof (r_events _ _ _ R) as He. rewrite map_app in He. rewrite (Find_spec _ _ _ _ He). cbn [mbind option_bind].
  rewrite drop_until_selected by eauto. cbn [map first_id event_item mbind option_bind].
  rewrite app_assoc in R. rewrite (get_event _ _ _ _ _ R). cbn [mbind option_bind event_item snd type].
  unfold WriteSomeOfType. cbn [mbind option_bind]. rewrite (get_event _ _ _ _ _ R).
  cbn [mbind option_bind event_item snd storage_node]. rewrite (get_typed _ _ _ _ _ R).
  cbn [mbind option_bind typed_item snd selectedVariation tvalue].
  assert (Hfind : List.find (in_state selected_) (queue (x :: d')) = Some (i_evt x)).
  { cbn [queue map List.find]. unfold in_state. by rewrite bool_decide_true. }
  rewrite Hfind. set (w := open_writer _ _ _ h).
  destruct (WriteSome_loop_spec caps (q_type (i_evt x)) (q_selected (i_evt x)) (Lst.fuel_for (events l)) (a ++ c) (x :: d') w 0 l)
    as (l' & a' & b' & H1 & H2 & H3 & H4); [done|by apply Forall_app| |lia| |].
  - pose proof (represents_length _ _ _ R) as [Hl _]. rewrite length_app in Hl. unfold Lst.fuel_for. lia.
  - pose proof (represents_types _ _ _ (q_type (i_evt x)) R) as Ht. specialize (Hcaps (q_type (i_evt x))).
    pose proof (of_type_count (q_type (i_evt x)) ((a ++ c) ++ x :: d')) as Hcount.
    rewrite queue_app, count_app in Hcount. pose proof (count_bounds (is_type (q_type (i_evt x))) (queue (a ++ c))). lia.
  - cbn [map first_id event_item] in H1. rewrite H1. cbn [mbind option_bind]. eexists l', a', b', _, _.
    split; [done|]. split; [done|]. split; [done|]. rewrite H4, queue_app, !write_run_skip by done. cbn [fst snd].
    by rewrite <- app_assoc.
Qed.

Lemma Write_loop_spec caps fuel fuel' l a b (h : H) tot :
  caps_ok caps -> represents caps l (a ++ b) -> Forall not_selected a ->
  count (in_state selected_) (queue (a ++ b)) < Z.of_nat fuel ->
  count (in_state selected_) (queue (a ++ b)) < Z.of_nat fuel' ->
  0 <= tot -> tot + count (in_state selected_) (queue (a ++ b)) < 4294967296 ->
  exists l' items' h' n, Write_loop fuel l (first_id (map event_item b) None) h tot = Some (l', h', tot + n) /\
    represents caps l' items' /\ Queue.write fuel' h (queue (a ++ b)) = (queue items', h', n).
Proof.
  intros Hcaps. revert fuel' l a b h tot.
  induction fuel as [|fuel IH]; intros fuel' l a b h tot R Ha Hf Hf' Ht Hb.
  { pose proof (count_bounds (in_state selected_) (queue (a ++ b))). lia. }
  destruct fuel' as [|fuel']; [pose proof (count_bounds (in_state selected_) (queue (a ++ b))); lia|].
  cbn [Write_loop write]. destruct (WriteSome_spec caps l a b h Hcaps R Ha) as (l1 & a1 & b1 & h1 & n & -> & R1 & Ha1 & Heq).
  cbn [mbind option_bind]. destruct (List.find _ _) as [q|] eqn:Hq.
  2:{ injection Heq as Hq1 -> ->. exists l1, (a1 ++ b1), h, 0. rewrite Z.add_0_r. cbn. split; [done|]. split; [done|]. by rewrite Hq1. }
  pose proof (write_run_count (q_type q) (q_selected q) (open_writer (q_type q) (q_selected q) (q_value q) h) (queue (a ++ b))) as Hcount.
  destruct (write_run _ _ _ _) as [[qs w] n1]. injection Heq as <- -> ->. cbn [fst snd] in Hcount.
  pose proof (count_bounds (in_state selected_) (queue (a1 ++ b1))).
  destruct (Z.eqb_spec n1 0) as [->|Hn].
  { exists l1, (a1 ++ b1), (close_writer w), 0. by rewrite Z.add_0_r. }
  rewrite u32_small by (unfold is_u32; lia).
  destruct (IH fuel' l1 a1 b1 (close_writer w) (tot + n1)) as (l2 & items2 & h2 & n2 & -> & R2 & ->); try (done || lia).
  exists l2, items2, h2, (n1 + n2). split; [do 2 f_equal; lia|]. split; [done|done].
Qed.

Lemma Write_spec caps l items (h : H) :
  caps_ok caps -> represents caps l items ->
  exists l' items' h' n, EventStorage.Write l h = Some (l', h', n) /\
    represents caps l' items' /\ Queue.write (S (length items)) h (queue items) = (queue items', h', n).
Proof.
  intros Hcaps R. pose proof (represents_length _ _ _ R) as [Hl Hb].
  unfold EventStorage.Write, Write. rewrite (holds_head _ _ (r_events _ _ _ R)).
  pose proof (count_bounds (in_state selected_) (queue items)) as Hc. unfold queue in Hc. rewrite length_map in Hc.
  apply (Write_loop_spec caps (Lst.fuel_for (events l)) (S (length items)) l [] items h 0); try done; unfold Lst.fuel_for, queue; cbn [app]; lia.
Qed.

End Writing.
