(* ===== verification/EventProps.v ===== *)
(** * EventProps: the event buffer seen through its whole interface

    The calls of [IEventReceiver], [IEventSelector], [IResponseLoader] and of the
    outstation are the steps [Op]; [run] performs a sequence of them on the
    buffer of [EventBuffer], [Spec.run] on the queue of [EventSpec].  The
    properties relate the two for every sequence that starts with the
    construction of the buffer. *)

From S2P Require Import Prelude Objects AppHeader EventList EventBuffer EventSpec.
From stdpp Require Import list.

Open Scope Z_scope.

(** ** Calls *)

Inductive Op (M : Type) :=
  | OpUpdate (t : EventType) (e : Event M)
  | OpUnselect
  | OpSelectAll (gv : GroupVariation.t)
  | OpSelectCount (gv : GroupVariation.t) (count : Z)
  | OpSelectAllByClass (c : ClassField)
  | OpLoad
  | OpClearWritten
  | OpHasAnySelection
  | OpUnwrittenClassField
  | OpIsOverflown.

Arguments OpUpdate {M}.

Arguments OpUnselect {M}.

Arguments OpSelectAll {M}.

Arguments OpSelectCount {M}.

Arguments OpSelectAllByClass {M}.

Arguments OpLoad {M}.

Arguments OpClearWritten {M}.

Arguments OpHasAnySelection {M}.

Arguments OpUnwrittenClassField {M}.

Arguments OpIsOverflown {M}.

(** What a call returns. *)
Inductive Out := ONone | OIIN (f : IINField) | OBool (b : bool) | OClass (c : ClassField).

(** The counts are 32-bit integers. *)
Definition op_ok {M} (op : Op M) : Prop := match op with OpSelectCount _ n => is_u32 n | _ => True end.

Section Calls.
Context {H Wr M : Type} `{HW : IEventWriteHandler H Wr M}.

Definition step (op : Op M) (b : EventBuffer M) (h : H) : option (EventBuffer M * H * Out) :=
  match op with
  | OpUpdate t e => b ← EventBuffer.UpdateAny t e b; Some (b, h, ONone)
  | OpUnselect => b ← EventBuffer.Unselect b; Some (b, h, ONone)
  | OpSelectAll gv => '(b, f) ← EventBuffer.SelectAll gv b; Some (b, h, OIIN f)
  | OpSelectCount gv n => '(b, f) ← EventBuffer.SelectCount gv n b; Some (b, h, OIIN f)
  | OpSelectAllByClass c => b ← EventBuffer.SelectAllByClass c b; Some (b, h, ONone)
  | OpLoad => '(b, h, ok) ← EventBuffer.Load b h; Some (b, h, OBool ok)
  | OpClearWritten => b ← EventBuffer.ClearWritten b; Some (b, h, ONone)
  | OpHasAnySelection => Some (b, h, OBool (EventBuffer.HasAnySelection b))
  | OpUnwrittenClassField => Some (b, h, OClass (EventBuffer.UnwrittenClassField b))
  | OpIsOverflown => let '(b, o) := EventBuffer.IsOverflown b in Some (b, h, OBool o)
  end.

Fixpoint run (ops : list (Op M)) (b : EventBuffer M) (h : H) : option (EventBuffer M * H * list Out) :=
  match ops with
  | [] => Some (b, h, [])
  | op :: ops =>
      '(b, h, o) ← step op b h;
      '(b, h, os) ← run ops b h;
      Some (b, h, o :: os)
  end.

End Calls.

(** ** The same calls on the queue *)

Record QueueBuffer (M : Type) := mkQueueBuffer { qb_overflow : bool; qb_events : list (Queued M) }.

Arguments mkQueueBuffer {M}.

Arguments qb_overflow {M}.

Arguments qb_events {M}.

Module Spec.
Section Calls.
Context {H Wr M : Type} `{HW : IEventWriteHandler H Wr M}.
Import Queue.

Definition select (x : EventBuffer.Selection) (max : Z) (qs : list (Queued M)) : list (Queued M) * Z :=
  match x with
  | EventBuffer.ByType t => select_type t max qs
  | EventBuffer.ByVariation v => select_variation v max qs
  | EventBuffer.ByClass c => select_class (ClassField.of_event_class c) max qs
  end.

Definition select_group (gv : GroupVariation.t) (max : Z) (s : QueueBuffer M) : QueueBuffer M * Out :=
  match EventBuffer.selection_of gv with
  | Some x => (mkQueueBuffer (qb_overflow s) (select x max (qb_events s)).1, OIIN IINField.Empty)
  | None => (s, OIIN (IINField.of_bit FUNC_NOT_SUPPORTED))
  end.

(** Some type has no room left. *)
Definition any_full (caps : EventType -> nat) (qs : list (Queued M)) : bool :=
  existsb (fun t => count (is_type t) qs =? Z.of_nat (caps t)) all_types.

(** An event of the class has not been written. *)
Definition has_unwritten (c : EventClass) (qs : list (Queued M)) : bool :=
  existsb (fun q => in_class c q && negb (in_state written_ q)) qs.

Definition step (caps : EventType -> nat) (op : Op M) (s : QueueBuffer M) (h : H) : QueueBuffer M * H * Out :=
  let qs := qb_events s in
  match op with
  | OpUpdate t e =>
      let '(qs, over) := update (Z.of_nat (caps t)) t e qs in (mkQueueBuffer (over || qb_overflow s) qs, h, ONone)
  | OpUnselect => (mkQueueBuffer (qb_overflow s) (unselect qs), h, ONone)
  | OpSelectAll gv => let '(s, o) := select_group gv EventStorage.UINT32_MAX s in (s, h, o)
  | OpSelectCount gv n => let '(s, o) := select_group gv n s in (s, h, o)
  | OpSelectAllByClass c => (mkQueueBuffer (qb_overflow s) (select_class c EventStorage.UINT32_MAX qs).1, h, ONone)
  | OpLoad =>
      let '(qs, h, _) := write (S (length qs)) h qs in
      (mkQueueBuffer (qb_overflow s) qs, h, OBool (negb (existsb (in_state selected_) qs)))
  | OpClearWritten => (mkQueueBuffer (qb_overflow s) (clear_written qs), h, ONone)
  | OpHasAnySelection => (s, h, OBool (existsb (in_state selected_) qs))
  | OpUnwrittenClassField =>
      (s, h, OClass (ClassField.of_classes false (has_unwritten EC1 qs) (has_unwritten EC2 qs) (has_unwritten EC3 qs)))
  | OpIsOverflown => let o := qb_overflow s && any_full caps qs in (mkQueueBuffer o qs, h, OBool o)
  end.

Fixpoint run (caps : EventType -> nat) (ops : list (Op M)) (s : QueueBuffer M) (h : H) : QueueBuffer M * H * list Out :=
  match ops with
  | [] => (s, h, [])
  | op :: ops =>
      let '(s, h, o) := step caps op s h in
      let '(s, h, os) := run caps ops s h in
      (s, h, o :: os)
  end.

End Calls.
End Spec.

(** ** Configuration and contents *)

(** The events of each type there is room for. *)
Definition caps_of (c : EventBufferConfig) (t : EventType) : nat :=
  Z.to_nat match t with
  | Binary => maxBinaryEvents c
  | Analog => maxAnalogEvents c
  | Counter => maxCounterEvents c
  | FrozenCounter => maxFrozenCounterEvents c
  | DoubleBitBinary => maxDoubleBinaryEvents c
  | BinaryOutputStatus => maxBinaryOutputStatusEvents c
  | AnalogOutputStatus => maxAnalogOutputStatusEvents c
  | OctetString => maxOctetStringEvents c
  end.

(** The limits are 16-bit integers. *)
Definition config_ok (c : EventBufferConfig) : Prop :=
  Forall is_u16 [maxBinaryEvents c; maxDoubleBinaryEvents c; maxAnalogEvents c; maxCounterEvents c;
                 maxFrozenCounterEvents c; maxBinaryOutputStatusEvents c; maxAnalogOutputStatusEvents c;
                 maxOctetStringEvents c].

#[export] Instance config_ok_dec c : Decision (config_ok c).
Proof. unfold config_ok. apply _. Defined.

(** The queue in the lists, read along the pointers. *)
Section Contents.
Context {M : Type}.

Definition event_at (p : nat) (s : EventLists M) : option (Queued M) :=
  r ← Lst.get_value p (events s);
  t ← type r;
  node ← storage_node r;
  d ← Lst.get_value node (EventLists.GetList t s);
  Some (mkQueued t (index r) (clazz r) (state r) (tvalue d) (defaultVariation d) (selectedVariation d)).

Fixpoint contents_loop (fuel : nat) (s : EventLists M) (iter : option nat) : option (list (Queued M)) :=
  match iter, fuel with
  | None, _ => Some []
  | Some _, O => None
  | Some p, S fuel =>
      q ← event_at p s;
      '(_, iter) ← Lst.Next (events s) iter;
      qs ← contents_loop fuel s iter;
      Some (q :: qs)
  end.

Definition contents (b : EventBuffer M) : option (list (Queued M)) :=
  contents_loop (Lst.fuel_for (events (storage b))) (storage b) (EventList.head (events (storage b))).

Lemma contents_loop_spec caps l a b fuel :
  represents caps l (a ++ b) -> (length b <= fuel)%nat ->
  contents_loop fuel l (first_id (map event_item b) None) = Some (queue b).
Proof.
  revert fuel a. induction b as [|x b IH]; intros fuel a R Hf; [by destruct fuel|].
  destruct fuel as [|fuel]; cbn [length] in Hf; [lia|]. cbn [map first_id event_item contents_loop].
  unfold event_at. rewrite (get_event _ _ _ _ _ R). cbn [mbind option_bind event_item snd type storage_node].
  rewrite (get_typed _ _ _ _ _ R), (next_event _ _ _ _ _ R). cbn [mbind option_bind typed_item snd].
  rewrite (IH fuel (a ++ [x])) by (done || by rewrite <- app_assoc || lia). cbn [mbind option_bind].
  cbn [queue map]. do 2 f_equal. by destruct (i_evt x).
Qed.

Lemma contents_spec caps b items : represents caps (storage b) items -> contents b = Some (queue items).
Proof.
  intros R. unfold contents. rewrite (holds_head _ _ (r_events _ _ _ R)). eapply (contents_loop_spec _ _ []); [done|].
  pose proof (represents_length _ _ _ R) as [H _]. unfold Lst.fuel_for. lia.
Qed.

End Contents.

(** ** The refinement *)

Section Refinement.
Context {H Wr M : Type} `{HW : IEventWriteHandler H Wr M}.
Import Queue.
Implicit Types (b : EventBuffer M) (s : QueueBuffer M) (h : H) (l : EventLists M) (items : list (Item M)).

Definition models (caps : EventType -> nat) b s : Prop :=
  overflow b = qb_overflow s /\ exists items, represents caps (storage b) items /\ queue items = qb_events s.

Lemma models_make caps o l items : represents caps l items -> models caps (mkEventBuffer o l) (mkQueueBuffer o (queue items)).
Proof. intros R. split; [done|]. by exists items. Qed.

Lemma models_contents caps b s : models caps b s -> contents b = Some (qb_events s).
Proof. intros (_ & items & R & <-). by eapply contents_spec. Qed.

Lemma count_existsb P (qs : list (Queued M)) : (0 <? count P qs) = existsb P qs.
Proof.
  induction qs as [|q qs IH]; [done|]. rewrite count_cons. cbn [existsb]. pose proof (count_bounds P qs).
  destruct (P q); cbn [Z.b2z orb]; [apply Z.ltb_lt; lia|]. by rewrite Z.add_0_l.
Qed.

Lemma count_minus P Q (qs : list (Queued M)) :
  count P qs - count (fun q => Q q && P q) qs = count (fun q => P q && negb (Q q)) qs.
Proof.
  induction qs as [|q qs IH]; [done|]. rewrite !count_cons. destruct (P q), (Q q); cbn [Z.b2z andb negb]; lia.
Qed.

Lemma class_counts_get P c (qs : list (Queued M)) :
  ClazzCount.Get (class_counts P qs) c = count (fun q => P q && in_class c q) qs.
Proof. by destruct c. Qed.

(** The counters are exact. *)
Lemma NumUnwritten_spec caps l items c :
  represents caps l items ->
  EventStorage.NumUnwritten l c = count (fun q : Queued M => in_class c q && negb (in_state written_ q)) (queue items).
Proof.
  intros R. pose proof (represents_few _ _ _ R) as Hf. unfold EventStorage.NumUnwritten, few in *.
  rewrite (r_counters _ _ _ R). cbn [counters_of EventBuffer.total written]. rewrite !class_counts_get.
  rewrite <- count_minus. apply u32_small. unfold is_u32. cbn [andb].
  pose proof (count_le (fun q : Queued M => in_state written_ q && in_class c q) (in_class c) (queue items)
    ltac:(intros q [_ Hq]%andb_prop; exact Hq)).
  pose proof (count_bounds (in_class c) (queue items)).
  pose proof (count_bounds (fun q : Queued M => in_state written_ q && in_class c q) (queue items)). lia.
Qed.

Lemma NumSelected_spec caps l items :
  represents caps l items -> EventStorage.NumSelected l = count (in_state selected_) (queue items).
Proof. intros R. unfold EventStorage.NumSelected. by rewrite (r_counters _ _ _ R). Qed.

Lemma IsFull_spec caps l items t :
  represents caps l items ->
  Lst.IsFull (EventLists.GetList t l) = (count (is_type t) (queue items) =? Z.of_nat (caps t)).
Proof.
  intros R. rewrite (holds_full _ _ (r_typed _ _ _ R t)), length_map, (r_caps _ _ _ R), <- of_type_count.
  destruct (Z.eqb_spec (Z.of_nat (length (of_type t items))) (Z.of_nat (caps t))).
  - rewrite bool_decide_true; [done|lia].
  - rewrite bool_decide_false; [done|lia].
Qed.

Lemma IsAnyTypeFull_spec caps l items :
  represents caps l items -> EventStorage.IsAnyTypeFull l = Spec.any_full caps (queue items).
Proof.
  intros R. unfold EventStorage.IsAnyTypeFull, EventLists.IsAnyTypeFull, Spec.any_full, all_types. cbn [existsb].
  rewrite <- !(IsFull_spec caps l items) by done. cbn [EventLists.GetList]. rewrite orb_false_r.
  destruct (Lst.IsFull (binary l)), (Lst.IsFull (analog l)), (Lst.IsFull (counter l)), (Lst.IsFull (frozenCounter l)),
    (Lst.IsFull (doubleBinary l)), (Lst.IsFull (binaryOutputStatus l)), (Lst.IsFull (analogOutputStatus l)); done.
Qed.

Lemma select_spec caps l items x max :
  represents caps l items -> 0 <= max ->
  exists l' items' n, EventBuffer.select x max l = Some (l', n) /\
    represents caps l' items' /\ queue items' = (Spec.select x max (queue items)).1.
Proof.
  intros R Hm. destruct x as [t|v|c]; cbn [EventBuffer.select Spec.select].
  - destruct (SelectByTypeGeneric_spec caps t true (EventVariation.zero t) max l items R Hm) as (l' & items' & H1 & H2 & H3).
    eauto 10.
  - destruct (SelectByTypeGeneric_spec caps (EventVariation.type_of v) false v max l items R Hm) as (l' & items' & H1 & H2 & H3).
    eauto 10.
  - destruct (SelectByClass_spec caps (ClassField.of_event_class c) max l items R) as (l' & items' & H1 & H2 & H3).
    eauto 10.
Qed.

Lemma SelectMaxCount_spec caps b s gv max :
  models caps b s -> 0 <= max ->
  exists b' f, EventBuffer.SelectMaxCount gv max b = Some (b', f) /\
    models caps b' (Spec.select_group gv max s).1 /\ OIIN f = (Spec.select_group gv max s).2.
Proof.
  intros (Ho & items & R & Hq) Hm. unfold EventBuffer.SelectMaxCount, Spec.select_group.
  destruct (EventBuffer.selection_of gv) as [x|].
  - destruct (select_spec caps _ _ x max R Hm) as (l' & items' & n & -> & R' & Hq'). cbn [mbind option_bind fst snd].
    eexists _, _. split; [done|]. split; [|done]. rewrite Ho, <- Hq, <- Hq'. by apply models_make.
  - exists b, (IINField.of_bit FUNC_NOT_SUPPORTED). split; [done|]. split; [|done]. split; [done|]. by exists items.
Qed.

Lemma step_refines caps op b s h :
  caps_ok caps -> op_ok op -> models caps b s ->
  exists b', step op b h = Some (b', (Spec.step caps op s h).1.2, (Spec.step caps op s h).2) /\
    models caps b' (Spec.step caps op s h).1.1.
Proof.
  intros Hcaps Hop HM. pose proof HM as (Ho & items & R & Hq). destruct s as [o qs]. cbn [qb_overflow qb_events] in *. subst o qs.
  destruct op as [t e| |gv|gv n|c| | | | |]; cbn [step Spec.step qb_overflow qb_events].
  - destruct (Update_spec caps _ _ t e R) as (l' & items' & Hu & R' & Hq'). unfold EventBuffer.UpdateAny, EventStorage.Update.
    rewrite Hu. destruct (update _ t e (queue items)) as [qs over]. cbn [fst snd] in *. subst qs.
    cbn [mbind option_bind]. eexists. split; [done|]. by apply models_make.
  - destruct (Unselect_spec caps _ _ R) as (l' & items' & Hu & R' & Hq'). unfold EventBuffer.Unselect. rewrite Hu.
    cbn [mbind option_bind fst snd]. eexists. split; [done|]. rewrite <- Hq'. by apply models_make.
  - destruct (SelectMaxCount_spec caps _ _ gv EventStorage.UINT32_MAX HM ltac:(done)) as (b' & f & Hs & HM' & Hf).
    unfold EventBuffer.SelectAll. rewrite Hs. destruct (Spec.select_group _ _ _) as [s' o]. cbn [fst snd mbind option_bind] in *.
    subst o. by exists b'.
  - destruct (SelectMaxCount_spec caps _ _ gv n HM) as (b' & f & Hs & HM' & Hf); [cbn in Hop; unfold is_u32 in Hop; lia|].
    unfold EventBuffer.SelectCount. rewrite Hs. destruct (Spec.select_group _ _ _) as [s' o]. cbn [fst snd mbind option_bind] in *.
    subst o. by exists b'.
  - destruct (SelectByClass_spec caps c EventStorage.UINT32_MAX _ _ R) as (l' & items' & Hs & R' & Hq').
    unfold EventBuffer.SelectAllByClass, EventStorage.SelectByClass. rewrite Hs. cbn [mbind option_bind fst snd].
    eexists. split; [done|]. rewrite <- Hq'. by apply models_make.
  - destruct (Write_spec caps _ _ h Hcaps R) as (l' & items' & h' & n & Hw & R' & Hq').
    unfold EventBuffer.Load. rewrite Hw. assert (Hlen : length (queue items) = length items) by apply length_map.
    rewrite Hlen, Hq'.
    cbn [mbind option_bind fst snd]. eexists. split; [|by apply models_make].
    rewrite (NumSelected_spec _ _ _ R'), <- count_existsb. pose proof (count_bounds (in_state selected_) (queue items')).
    do 3 f_equal. destruct (Z.eqb_spec (count (in_state selected_) (queue items')) 0), (Z.ltb_spec 0 (count (in_state selected_) (queue items'))); (done || lia).
  - destruct (ClearWritten_spec caps _ _ R) as (l' & items' & Hu & R' & Hq'). unfold EventBuffer.ClearWritten. rewrite Hu.
    cbn [mbind option_bind fst snd]. eexists. split; [done|]. rewrite <- Hq'. by apply models_make.
  - cbn [fst snd]. exists b. split; [|done]. unfold EventBuffer.HasAnySelection.
    by rewrite (NumSelected_spec _ _ _ R), count_existsb.
  - cbn [fst snd]. exists b. split; [|done]. unfold EventBuffer.UnwrittenClassField, Spec.has_unwritten.
    by rewrite !(NumUnwritten_spec _ _ _ _ R), !count_existsb.
  - unfold EventBuffer.IsOverflown. rewrite (IsAnyTypeFull_spec _ _ _ R). cbn [fst snd].
    destruct (overflow b), (Spec.any_full caps (queue items)); cbn [andb negb]; (eexists; split; [done|]; by apply models_make).
Qed.

Lemma run_refines caps ops b s h :
  caps_ok caps -> Forall op_ok ops -> models caps b s ->
  exists b', run ops b h = Some (b', (Spec.run caps ops s h).1.2, (Spec.run caps ops s h).2) /\
    models caps b' (Spec.run caps ops s h).1.1.
Proof.
  intros Hcaps Hops. revert b s h. induction Hops as [|op ops Hop _ IH]; intros b s h HM.
  { exists b. done. }
  destruct (step_refines caps op b s h Hcaps Hop HM) as (b1 & Hs & HM1). cbn [run Spec.run]. rewrite Hs.
  destruct (Spec.step caps op s h) as [[s1 h1] o]. cbn [fst snd mbind option_bind] in *.
  destruct (IH b1 s1 h1 HM1) as (b2 & -> & HM2). exists b2.
  destruct (Spec.run caps ops s1 h1) as [[s2 h2] os]. cbn [fst snd mbind option_bind] in *. done.
Qed.

(** *** Construction *)

Lemma caps_of_ok config : config_ok config -> caps_ok (caps_of config).
Proof.
  unfold config_ok. rewrite !Forall_cons. unfold is_u16. intros (? & ? & ? & ? & ? & ? & ? & ? & _) t. unfold caps_of.
  destruct t; lia.
Qed.

Lemma init_spec (dflt : M) config :
  config_ok config -> exists b, EventBuffer.init dflt config = Some b /\ models (caps_of config) b (mkQueueBuffer false []).
Proof.
  intros Hc. pose proof (caps_of_ok _ Hc) as Hcaps. unfold config_ok in Hc. rewrite !Forall_cons in Hc. unfold is_u16 in Hc.
  unfold EventBuffer.init, EventStorage.init, EventLists.init.
  assert (Htot : Z.to_nat (TotalEvents config) = room (caps_of config)).
  { unfold TotalEvents, room, all_types, caps_of. cbn [map list_sum foldr]. rewrite u32_small by (unfold is_u32; lia). lia. }
  rewrite Htot. destruct (init_holds EventRecord_default (room (caps_of config))) as (ev & -> & Hev & Hevc).
  { rewrite <- Htot. unfold TotalEvents. rewrite u32_small; unfold is_u32; lia. }
  cbn [mbind option_bind].
  assert (Hty : forall t, exists ty : Lst (TypedEventRecord M),
    Lst.init (mkTypedEventRecord dflt (EventVariation.zero t) (EventVariation.zero t) None) (caps_of config t) = Some ty /\
    holds ty [] /\ Lst.Capacity ty = caps_of config t).
  { intros t. apply init_holds. specialize (Hcaps t). lia. }
  destruct (Hty Binary) as (l1 & H1 & Hl1 & Hc1), (Hty DoubleBitBinary) as (l2 & H2 & Hl2 & Hc2),
    (Hty Analog) as (l3 & H3 & Hl3 & Hc3), (Hty Counter) as (l4 & H4 & Hl4 & Hc4),
    (Hty FrozenCounter) as (l5 & H5 & Hl5 & Hc5), (Hty BinaryOutputStatus) as (l6 & H6 & Hl6 & Hc6),
    (Hty AnalogOutputStatus) as (l7 & H7 & Hl7 & Hc7), (Hty OctetString) as (l8 & H8 & Hl8 & Hc8).
  unfold caps_of in H1, H2, H3, H4, H5, H6, H7, H8. rewrite H1, H2, H3, H4, H5, H6, H7, H8. cbn [mbind option_bind].
  eexists. split; [done|]. apply (models_make _ _ _ []). split; try done; by intros [].
Qed.

End Refinement.

(** ** Reachable buffers *)

(** The buffers a sequence of calls makes from a new one. *)
Definition reachable {H Wr M} `{IEventWriteHandler H Wr M} (config : EventBufferConfig) (b : EventBuffer M) (h : H) : Prop :=
  exists dflt ops h0 os, Forall op_ok ops /\ (b0 ← EventBuffer.init dflt config; run ops b0 h0) = Some (b, h, os).

Lemma reachable_models {H Wr M} `{IEventWriteHandler H Wr M} config (b : EventBuffer M) (h : H) :
  config_ok config -> reachable config b h -> exists s, models (caps_of config) b s.
Proof.
  intros Hc (dflt & ops & h0 & os & Hops & Hrun). destruct (init_spec dflt config Hc) as (b0 & Hi & HM). rewrite Hi in Hrun.
  cbn [mbind option_bind] in Hrun. destruct (run_refines _ ops b0 _ h0 (caps_of_ok _ Hc) Hops HM) as (b' & Hr & HM').
  rewrite Hr in Hrun. injection Hrun as <- _ _. eauto.
Qed.

(** ** Event logs *)

(** What an [IEventWriteHandler] has taken: type, variation, index and value of
    every event.  Opening and closing a run writes no event; [Write] adds the
    event exactly when it returns true. *)
Class EventLog (H Wr M : Type) `{IEventWriteHandler H Wr M} := {
  log : H -> list (EventType * EventVariation.t * Z * M);
  wlog : Wr -> list (EventType * EventVariation.t * Z * M);
  wkind : Wr -> EventType * EventVariation.t;
  log_open t v m h : wlog (open_writer t v m h) = log h;
  kind_open t v m h : wkind (open_writer t v m h) = (t, v);
  log_write m i w : wlog (writer_Write m i w).1 = wlog w ++ (if (writer_Write m i w).2 then [(wkind w, i, m)] else []);
  kind_write m i w : wkind (writer_Write m i w).1 = wkind w;
  log_close w : log (close_writer w) = wlog w
}.

(** A handler with room for a number of events. *)
Record Recorder (M : Type) := mkRecorder { rec_room : nat; rec_log : list (EventType * EventVariation.t * Z * M) }.

Arguments mkRecorder {M}.

Arguments rec_room {M}.

Arguments rec_log {M}.

Definition Recorder_Write {M} (m : M) (i : Z) (w : Recorder M * (EventType * EventVariation.t))
    : Recorder M * (EventType * EventVariation.t) * bool :=
  match rec_room w.1 with
  | O => (w, false)
  | S n => (mkRecorder n (rec_log w.1 ++ [(w.2, i, m)]), w.2, true)
  end.

#[export] Instance Recorder_handler {M} : IEventWriteHandler (Recorder M) (Recorder M * (EventType * EventVariation.t)) M := {|
  open_writer t v _ r := (r, (t, v));
  writer_Write := Recorder_Write;
  close_writer w := w.1
|}.

#[export] Instance Recorder_log {M} : EventLog (Recorder M) (Recorder M * (EventType * EventVariation.t)) M.
Proof.
  refine {| log := rec_log; wlog w := rec_log w.1; wkind w := w.2 |}; try done.
  - intros m i [[[|n] l] k]; cbn; [by rewrite app_nil_r|done].
  - by intros m i [[[|n] l] k].
Defined.

(** ** What a response takes from the queue *)

Section Loading.
Context {H Wr M : Type} `{HL : EventLog H Wr M}.
Import Queue.
Implicit Types (q : Queued M) (qs ws : list (Queued M)) (h : H) (w : Wr).

Definition entry q : EventType * EventVariation.t * Z * M := (q_type q, q_selected q, q_index q, q_value q).

(** The queue [qs] after the events [ws] were written, which leaves [qs']. *)
Record written_from qs ws qs' : Prop := mkWrittenFrom {
  wf_same : unselect qs' = unselect qs;
  wf_selected : List.filter (in_state selected_) qs = ws ++ List.filter (in_state selected_) qs';
  wf_unselected : List.filter (in_state unselected) qs' = List.filter (in_state unselected) qs;
  wf_written : List.filter (in_state written_) qs' ≡ₚ List.filter (in_state written_) qs ++ map (with_state written_) ws
}.

Lemma written_from_nil qs : written_from qs [] qs.
Proof. split; [done..|]. cbn [map]. by rewrite app_nil_r. Qed.

Lemma written_from_skip q qs ws qs' :
  in_state selected_ q = false -> written_from qs ws qs' -> written_from (q :: qs) ws (q :: qs').
Proof.
  intros Hq [H1 H2 H3 H4]. split; cbn [unselect map List.filter].
  - unfold unselect in H1. by rewrite H1.
  - by rewrite Hq.
  - destruct (in_state unselected q); by rewrite H3.
  - destruct (in_state written_ q); by rewrite H4.
Qed.

Lemma written_from_take q qs ws qs' :
  in_state selected_ q = true -> written_from qs ws qs' -> written_from (q :: qs) (q :: ws) (with_state written_ q :: qs').
Proof.
  intros Hq [H1 H2 H3 H4]. assert (Hu : in_state unselected q = false /\ in_state written_ q = false).
  { unfold in_state in *. apply bool_decide_eq_true in Hq. by rewrite Hq. }
  destruct Hu as [Hu Hw].
  split; cbn [unselect map List.filter].
  - unfold unselect in H1. by rewrite H1.
  - rewrite Hq, H2. done.
  - by rewrite Hu.
  - rewrite Hw. etransitivity; [apply perm_skip, H4|]. cbn [map]. apply Permutation_middle.
Qed.

Lemma written_from_trans qs ws qs1 ws' qs2 :
  written_from qs ws qs1 -> written_from qs1 ws' qs2 -> written_from qs (ws ++ ws') qs2.
Proof.
  intros [A1 A2 A3 A4] [B1 B2 B3 B4]. split; [congruence| |congruence|].
  - by rewrite A2, B2, app_assoc.
  - by rewrite B4, A4, map_app, app_assoc.
Qed.

Lemma write_run_log t v w qs :
  wkind w = (t, v) ->
  exists ws, written_from qs ws (write_run t v w qs).1.1 /\
    wlog (write_run t v w qs).1.2 = wlog w ++ map entry ws /\ (write_run t v w qs).2 = Z.of_nat (length ws).
Proof.
  revert w. induction qs as [|q qs IH]; intros w Hw; cbn [write_run].
  { exists []. cbn [fst snd map]. rewrite app_nil_r. split; [apply written_from_nil|done]. }
  assert (Hstop : forall w1, wlog w1 = wlog w -> exists ws, written_from (q :: qs) ws (q :: qs, w1, 0).1.1 /\
    wlog (q :: qs, w1, 0).1.2 = wlog w ++ map entry ws /\ (q :: qs, w1, 0).2 = Z.of_nat (length ws)).
  { intros w1 H1. exists []. cbn [fst snd map]. rewrite app_nil_r. split; [apply written_from_nil|done]. }
  destruct (in_state selected_ q) eqn:Hq.
  2:{ destruct (IH w Hw) as (ws & H1 & H2 & H3). exists ws. destruct (write_run t v w qs) as [[r w2] n]. cbn [fst snd] in *.
      split; [by apply written_from_skip|done]. }
  destruct (is_type t q && bool_decide (q_selected q = v)) eqn:Ht; [|by apply (Hstop w)].
  apply andb_prop in Ht as [Ht%bool_decide_eq_true Hv%bool_decide_eq_true].
  pose proof (log_write (q_value q) (q_index q) w) as Hlog. pose proof (kind_write (q_value q) (q_index q) w) as Hk.
  destruct (writer_Write _ _ w) as [w1 ok]. cbn [fst snd] in *. destruct ok; [|apply (Hstop w1); by rewrite Hlog, app_nil_r].
  destruct (IH w1 ltac:(congruence)) as (ws & H1 & H2 & H3). exists (q :: ws).
  destruct (write_run t v w1 qs) as [[r w2] n]. cbn [fst snd map length] in *.
  split; [by apply written_from_take|]. split; [|lia].
  rewrite H2, Hlog, Hw, <- app_assoc. unfold entry at 2. by rewrite Ht, Hv.
Qed.

Lemma write_log fuel h qs :
  exists ws, written_from qs ws (write fuel h qs).1.1 /\ log (write fuel h qs).1.2 = log h ++ map entry ws.
Proof.
  revert h qs. induction fuel as [|fuel IH]; intros h qs; cbn [write].
  { exists []. cbn [fst snd map]. rewrite app_nil_r. split; [apply written_from_nil|done]. }
  destruct (List.find _ qs) as [q|].
  2:{ exists []. cbn [fst snd map]. rewrite app_nil_r. split; [apply written_from_nil|done]. }
  destruct (write_run_log (q_type q) (q_selected q) (open_writer (q_type q) (q_selected q) (q_value q) h) qs (kind_open _ _ _ _))
    as (ws & H1 & H2 & H3).
  destruct (write_run _ _ _ qs) as [[qs1 w] n]. cbn [fst snd] in *. rewrite log_open in H2.
  destruct (Z.eqb_spec n 0).
  { exists ws. cbn [fst snd]. by rewrite log_close. }
  destruct (IH (close_writer w) qs1) as (ws' & G1 & G2). destruct (write fuel _ qs1) as [[qs2 h2] m]. cbn [fst snd] in *.
  exists (ws ++ ws'). split; [by eapply written_from_trans|]. by rewrite G2, log_close, H2, map_app, app_assoc.
Qed.

End Loading.

Section Completing.
Context {H Wr M : Type} `{HW : IEventWriteHandler H Wr M}.
Import Queue.
Implicit Types (q : Queued M) (qs : list (Queued M)) (h : H) (w : Wr).

Lemma write_run_progress t v w qs q :
  List.find (in_state selected_) qs = Some q -> q_type q = t -> q_selected q = v ->
  (writer_Write (q_value q) (q_index q) w).2 = true -> 0 < (write_run t v w qs).2.
Proof.
  intros Hf Ht Hv Hw. induction qs as [|q' qs IH]; [done|]. cbn [List.find write_run] in *.
  destruct (in_state selected_ q') eqn:Hq.
  - injection Hf as ->. unfold is_type. rewrite !bool_decide_true by done. cbn [andb].
    destruct (writer_Write _ _ w) as [w1 ok]. cbn [snd] in Hw. subst ok.
    pose proof (write_run_count t v w1 qs) as [Hc _]. destruct (write_run t v w1 qs) as [[r w2] n]. cbn [snd] in *. lia.
  - specialize (IH Hf). destruct (write_run t v w qs) as [[r w2] n]. cbn [snd] in *. lia.
Qed.

Lemma find_none P qs : List.find P qs = None -> List.filter P qs = [].
Proof. induction qs as [|q qs IH]; [done|]. cbn. by destruct (P q). Qed.

Lemma write_completes fuel h qs :
  (forall t v m i h, (writer_Write m i (open_writer t v m h)).2 = true) ->
  count (in_state selected_) qs < Z.of_nat fuel ->
  List.filter (in_state selected_) (write fuel h qs).1.1 = [].
Proof.
  intros Hw. revert h qs. induction fuel as [|fuel IH]; intros h qs Hf.
  { pose proof (count_bounds (in_state selected_) qs). lia. }
  cbn [write]. destruct (List.find _ qs) as [q|] eqn:Hq; [|by apply find_none].
  set (w := open_writer (q_type q) (q_selected q) (q_value q) h).
  pose proof (write_run_progress (q_type q) (q_selected q) w qs q Hq eq_refl eq_refl (Hw _ _ _ _ _)) as Hp.
  pose proof (write_run_count (q_type q) (q_selected q) w qs) as [_ Hc].
  destruct (write_run _ _ w qs) as [[qs1 w1] n]. cbn [fst snd] in *.
  destruct (Z.eqb_spec n 0); [lia|]. specialize (IH (close_writer w1) qs1 ltac:(lia)).
  by destruct (write fuel _ qs1) as [[qs2 h2] m].
Qed.

Lemma existsb_filter P qs : existsb P qs = false <-> List.filter P qs = [].
Proof. induction qs as [|q qs IH]; [done|]. cbn. by destruct (P q). Qed.

End Completing.

(** ** What is left after a number of events *)

Section Newest.
Context {M : Type}.
Import Queue.
Implicit Types (us : list (EventType * Event M)) (qs : list (Queued M)).

Definition occurrences (t : EventType) us : nat := length (List.filter (fun u => bool_decide (u.1 = t)) us).

(** The events that fewer than [caps] later ones of the same type follow. *)
Fixpoint newest (caps : EventType -> nat) us : list (Queued M) :=
  match us with
  | [] => []
  | (t, e) :: us => if (occurrences t us <? caps t)%nat then of_event t e :: newest caps us else newest caps us
  end.

Lemma occurrences_app t us us' : occurrences t (us ++ us') = (occurrences t us + occurrences t us')%nat.
Proof. unfold occurrences. by rewrite List.filter_app, length_app. Qed.

Lemma occurrences_cons t u us :
  occurrences t (u :: us) = ((if decide (u.1 = t) then 1 else 0) + occurrences t us)%nat.
Proof. unfold occurrences. cbn. by case_decide; [rewrite bool_decide_true|rewrite bool_decide_false]. Qed.

Lemma newest_count caps t us :
  count (is_type t) (newest caps us) = Z.of_nat (Nat.min (caps t) (occurrences t us)).
Proof.
  induction us as [|[t' e] us IH]; [cbn; lia|]. rewrite occurrences_cons. cbn [newest fst].
  case_decide as Ht.
  - subst t'. destruct (Nat.ltb_spec (occurrences t us) (caps t)); [|lia].
    rewrite count_cons, IH. unfold is_type. rewrite bool_decide_true by done. cbn [Z.b2z]. lia.
  - destruct (_ <? _)%nat; [|lia]. rewrite count_cons, IH. unfold is_type. rewrite bool_decide_false by done. cbn [Z.b2z]. lia.
Qed.

Lemma newest_room caps t e us :
  (occurrences t us < caps t)%nat -> newest caps (us ++ [(t, e)]) = newest caps us ++ [of_event t e].
Proof.
  induction us as [|[t' e'] us IH]; intros Ho.
  { cbn [occurrences List.filter length app newest] in *. unfold occurrences. cbn [List.filter length].
    destruct (Nat.ltb_spec 0 (caps t)); [done|lia]. }
  rewrite occurrences_cons in Ho. cbn [app newest fst] in *. rewrite occurrences_app, occurrences_cons. cbn [fst occurrences List.filter length].
  rewrite IH by lia. case_decide as Hd.
  - subst t'. rewrite (decide_True (P := t = t)) by done.
    destruct (Nat.ltb_spec (occurrences t us + (1 + 0)) (caps t)), (Nat.ltb_spec (occurrences t us) (caps t)); (done || lia).
  - rewrite decide_False by done. rewrite !Nat.add_0_r. by destruct (_ <? _)%nat.
Qed.

Lemma newest_full caps t e us :
  (0 < caps t <= occurrences t us)%nat ->
  newest caps (us ++ [(t, e)]) = remove_first (is_type t) (newest caps us) ++ [of_event t e].
Proof.
  induction us as [|[t' e'] us IH]; intros Ho; [cbn in *; lia|].
  rewrite occurrences_cons in Ho. cbn [app newest fst] in *. rewrite occurrences_app, occurrences_cons. cbn [fst occurrences List.filter length].
  case_decide as Hd.
  - subst t'. rewrite (decide_True (P := t = t)) by done.
    destruct (Nat.ltb_spec (occurrences t us + (1 + 0)) (caps t)); [lia|].
    destruct (Nat.ltb_spec (occurrences t us) (caps t)).
    + rewrite newest_room by done. cbn [remove_first is_type of_event q_type]. unfold is_type. by rewrite bool_decide_true.
    + apply IH. lia.
  - rewrite decide_False, !Nat.add_0_r by done. rewrite IH by lia. destruct (_ <? _)%nat; [|done].
    cbn [remove_first is_type of_event q_type]. unfold is_type at 2. by rewrite bool_decide_false.
Qed.

Lemma newest_none caps t e us : caps t = 0%nat -> newest caps (us ++ [(t, e)]) = newest caps us.
Proof.
  intros H0. induction us as [|[t' e'] us IH].
  { cbn. by rewrite H0. }
  cbn [app newest]. rewrite occurrences_app, occurrences_cons, IH. cbn [fst occurrences List.filter length].
  case_decide as Hd; [subst t'|by rewrite !Nat.add_0_r]. rewrite H0.
  destruct (Nat.ltb_spec (occurrences t us + (1 + 0)) 0), (Nat.ltb_spec (occurrences t us) 0); (done || lia).
Qed.

Lemma newest_snoc caps t e us :
  newest caps (us ++ [(t, e)]) = (update (Z.of_nat (caps t)) t e (newest caps us)).1.
Proof.
  unfold update. destruct (Z.eqb_spec (Z.of_nat (caps t)) 0); [apply newest_none; lia|].
  rewrite newest_count. destruct (Z.eqb_spec (Z.of_nat (caps t `min` occurrences t us)) (Z.of_nat (caps t))); cbn [fst].
  - apply newest_full. lia.
  - apply newest_room. lia.
Qed.

(** Some type had more events than fit. *)
Definition has_overflown (caps : EventType -> nat) us : bool :=
  existsb (fun t => (0 <? caps t)%nat && (caps t <? occurrences t us)%nat) all_types.

Lemma has_overflown_spec caps us :
  has_overflown caps us = true <-> exists t, (0 < caps t < occurrences t us)%nat.
Proof.
  unfold has_overflown. rewrite existsb_exists. split.
  - intros (t & _ & [H1%Nat.ltb_lt H2%Nat.ltb_lt]%andb_prop). by exists t.
  - intros (t & H1 & H2). exists t. split; [apply list_elem_of_In, all_types_in|].
    apply andb_true_intro. by rewrite !Nat.ltb_lt.
Qed.

Lemma overflown_snoc caps t e us :
  has_overflown caps (us ++ [(t, e)]) = (update (Z.of_nat (caps t)) t e (newest caps us)).2 || has_overflown caps us.
Proof.
  apply eq_true_iff_eq. rewrite orb_true_iff, !has_overflown_spec. unfold update. rewrite newest_count.
  assert (Ho : forall t', occurrences t' (us ++ [(t, e)]) = (occurrences t' us + if decide (t = t') then 1 else 0)%nat).
  { intros t'. rewrite occurrences_app, occurrences_cons. cbn [fst occurrences List.filter length]. lia. }
  split.
  - intros (t' & Ht'). rewrite Ho in Ht'. case_decide as Hd; [subst t'|right; exists t'; lia].
    destruct (decide (occurrences t us = caps t)) as [He|]; [left|right; exists t; lia].
    rewrite (proj2 (Z.eqb_neq _ _)) by lia. by rewrite (proj2 (Z.eqb_eq _ _)) by lia.
  - intros [H|(t' & Ht')].
    + exists t. rewrite Ho, decide_True by done. destruct (Z.eqb_spec (Z.of_nat (caps t)) 0); [done|].
      destruct (Z.eqb_spec (Z.of_nat (caps t `min` occurrences t us)) (Z.of_nat (caps t))); [lia|done].
    + exists t'. rewrite Ho. lia.
Qed.

Lemma run_updates {H Wr} `{IEventWriteHandler H Wr M} caps us (h : H) :
  Spec.run caps (map (fun u => OpUpdate u.1 u.2) us) (mkQueueBuffer false []) h =
    (mkQueueBuffer (has_overflown caps us) (newest caps us), h, map (fun _ => ONone) us).
Proof.
  assert (Hrun : forall us' us h, Spec.run caps (map (fun u => OpUpdate u.1 u.2) us') (mkQueueBuffer (has_overflown caps us) (newest caps us)) h =
    (mkQueueBuffer (has_overflown caps (us ++ us')) (newest caps (us ++ us')), h, map (fun _ => ONone) us')).
  { induction us' as [|[t e] us' IH]; intros us0 h0; [by rewrite app_nil_r|]. cbn [map fst snd Spec.run Spec.step qb_events qb_overflow].
    pose proof (newest_snoc caps t e us0) as H1. pose proof (overflown_snoc caps t e us0) as H2.
    destruct (update _ _ _ _) as [qs over]. cbn [fst snd] in *. rewrite <- H1, <- H2, IH, <- app_assoc. done. }
  assert (Hno : has_overflown caps [] = false).
  { apply not_true_iff_false. rewrite has_overflown_spec. intros (t & Ht). unfold occurrences in Ht. cbn in Ht. lia. }
  specialize (Hrun us [] h). by rewrite Hno in Hrun.
Qed.

End Newest.

Section PropertyLemmas.
Context {H Wr M : Type} `{HW : IEventWriteHandler H Wr M}.
Import Queue.
Implicit Types (b : EventBuffer M) (h : H) (w : Wr) (qs : list (Queued M)) (l : EventLists M) (items : list (Item M)).

Lemma write_run_unselect t v w qs : unselect (write_run t v w qs).1.1 = unselect qs.
Proof.
  revert w. induction qs as [|q qs IH]; intros w; cbn [write_run]; [done|].
  destruct (in_state selected_ q).
  - destruct (is_type t q && _); [|done]. destruct (writer_Write _ _ w) as [w1 []]; [|done].
    specialize (IH w1). destruct (write_run t v w1 qs) as [[r w2] n]. cbn [fst snd unselect map] in *. f_equal. exact IH.
  - specialize (IH w). destruct (write_run t v w qs) as [[r w2] n]. cbn [fst snd unselect map] in *. f_equal. exact IH.
Qed.

Lemma write_unselect fuel h qs : unselect (write fuel h qs).1.1 = unselect qs.
Proof.
  revert h qs. induction fuel as [|fuel IH]; intros h qs; cbn [write]; [done|].
  destruct (List.find _ qs) as [q|]; [|done].
  pose proof (write_run_unselect (q_type q) (q_selected q) (open_writer (q_type q) (q_selected q) (q_value q) h) qs) as Hr.
  destruct (write_run _ _ _ qs) as [[qs1 w] n]. cbn [fst snd] in Hr. destruct (n =? 0); [done|].
  specialize (IH (close_writer w) qs1). destruct (write fuel _ qs1) as [[qs2 h2] m]. cbn [fst snd] in *. congruence.
Qed.

(** The parts of [Load] for the specification. *)
Lemma Load_refines caps b s h :
  caps_ok caps -> models caps b s ->
  exists b1 n, EventBuffer.Load b h =
      Some (b1, (write (S (length (qb_events s))) h (qb_events s)).1.2,
            negb (existsb (in_state selected_) (write (S (length (qb_events s))) h (qb_events s)).1.1)) /\
    models caps b1 (mkQueueBuffer (qb_overflow s) (write (S (length (qb_events s))) h (qb_events s)).1.1) /\
    n = (write (S (length (qb_events s))) h (qb_events s)).2.
Proof.
  intros Hcaps Hs. destruct (step_refines _ OpLoad b s h Hcaps I Hs) as (b1 & Hl & Hs1). cbn [step Spec.step] in *.
  destruct (write _ h (qb_events s)) as [[qs h1] n]. cbn [fst snd] in *. exists b1, n.
  destruct (EventBuffer.Load b h) as [[[b1' h1'] ok]|]; [|done]. cbn [mbind option_bind] in Hl.
  by injection Hl as -> -> ->.
Qed.

Lemma ClearWritten_refines caps b s :
  models caps b s ->
  exists b', EventBuffer.ClearWritten b = Some b' /\ models caps b' (mkQueueBuffer (qb_overflow s) (clear_written (qb_events s))).
Proof.
  intros (Ho & items & R & Hq). destruct (ClearWritten_spec caps _ _ R) as (l' & items' & Hu & R' & Hq').
  unfold EventBuffer.ClearWritten. rewrite Hu. cbn [mbind option_bind]. eexists. split; [done|].
  rewrite Ho, <- Hq, <- Hq'. by apply models_make.
Qed.

Lemma Unselect_refines caps b s :
  models caps b s ->
  exists b', EventBuffer.Unselect b = Some b' /\ models caps b' (mkQueueBuffer (qb_overflow s) (unselect (qb_events s))).
Proof.
  intros (Ho & items & R & Hq). destruct (Unselect_spec caps _ _ R) as (l' & items' & Hu & R' & Hq').
  unfold EventBuffer.Unselect. rewrite Hu. cbn [mbind option_bind]. eexists. split; [done|].
  rewrite Ho, <- Hq, <- Hq'. by apply models_make.
Qed.

(** A type without room always counts as full. *)
Lemma zero_cap_full caps b s t : models caps b s -> caps t = 0%nat -> Spec.any_full caps (qb_events s) = true.
Proof.
  intros (_ & items & R & <-) Ht. apply existsb_exists. exists t. split; [apply list_elem_of_In, all_types_in|].
  rewrite <- of_type_count. pose proof (represents_types _ _ _ t R). apply Z.eqb_eq. lia.
Qed.

Lemma step_stuck caps t op b s h :
  models caps b s -> caps t = 0%nat -> qb_overflow s = true -> qb_overflow (Spec.step caps op s h).1.1 = true.
Proof.
  intros Hs Ht Ho. pose proof (zero_cap_full _ _ _ _ Hs Ht) as Hf.
  destruct op; cbn [Spec.step fst qb_overflow]; rewrite ?Ho, ?Hf; try done.
  - destruct (update _ _ _ _) as [qs over]. cbn [fst qb_overflow]. apply orb_true_r.
  - unfold Spec.select_group. by destruct (EventBuffer.selection_of gv).
  - unfold Spec.select_group. by destruct (EventBuffer.selection_of gv).
  - by destruct (write _ _ _) as [[qs h1] n].
Qed.

Lemma run_stuck caps t ops b s h :
  caps_ok caps -> Forall op_ok ops -> models caps b s -> caps t = 0%nat -> qb_overflow s = true ->
  qb_overflow (Spec.run caps ops s h).1.1 = true.
Proof.
  intros Hcaps Hops. revert b s h. induction Hops as [|op ops Hop _ IH]; intros b s h Hs Ht Ho; [done|].
  destruct (step_refines caps op b s h Hcaps Hop Hs) as (b1 & _ & Hs1).
  pose proof (step_stuck caps t op b s h Hs Ht Ho) as Ho1. cbn [Spec.run].
  destruct (Spec.step caps op s h) as [[s1 h1] o]. cbn [fst snd] in *.
  specialize (IH b1 s1 h1 Hs1 Ht Ho1). by destruct (Spec.run caps ops s1 h1) as [[s2 h2] os].
Qed.

End PropertyLemmas.

(** ** Properties *)

Section Properties.
Context {H Wr M : Type} `{HW : IEventWriteHandler H Wr M}.
Import Queue.
Implicit Types (b : EventBuffer M) (h : H).

(** C18: The event buffer refines a queue.  After construction with any 16-bit
    limits, every sequence of updates, selections by type, variation and class,
    loads, clears, unselects and queries runs without undefined behaviour (no null
    or foreign node, no loop without end), returns what the queue of the
    specification returns, hands the same events to the writer, and leaves lists
    that hold exactly the events of the queue, in order. *)
Theorem event_buffer_refines_queue (dflt : M) config ops h :
  config_ok config -> Forall op_ok ops ->
  exists b0 b, EventBuffer.init dflt config = Some b0 /\
    let '(s, h', os) := Spec.run (caps_of config) ops (mkQueueBuffer false []) h in
    run ops b0 h = Some (b, h', os) /\ contents b = Some (qb_events s) /\ overflow b = qb_overflow s.
Proof.
  intros Hc Hops. destruct (init_spec dflt config Hc) as (b0 & Hi & HM).
  destruct (run_refines _ ops b0 _ h (caps_of_ok _ Hc) Hops HM) as (b & Hr & HM').
  exists b0, b. split; [done|]. destruct (Spec.run _ _ _ _) as [[s h'] os]. cbn [fst snd] in *.
  split; [done|]. split; [by eapply models_contents|apply HM'].
Qed.

(** The counters are exact.  In every reachable buffer the number of selected
    events and the number of unwritten events of each class, which drive
    [HasAnySelection], the completion of [Load] and the class bits of the IIN, are
    those of the events in the lists, and no type has more events than its limit. *)
Theorem event_counters_exact config b h :
  config_ok config -> reachable config b h ->
  exists qs, contents b = Some qs /\
    EventStorage.NumSelected (storage b) = count (in_state selected_) qs /\
    (forall c, EventStorage.NumUnwritten (storage b) c = count (fun q => in_class c q && negb (in_state written_ q)) qs) /\
    (forall t, count (is_type t) qs <= Z.of_nat (caps_of config t)).
Proof.
  intros Hc (s & Hs)%reachable_models; [|done]. exists (qb_events s). split; [by eapply models_contents|].
  destruct Hs as (_ & items & R & <-). split; [by eapply NumSelected_spec|]. split; [intros c; by eapply NumUnwritten_spec|].
  intros t. rewrite <- of_type_count. pose proof (represents_types _ _ _ t R). lia.
Qed.

(** An unconfirmed response loses nothing.  When a response has been loaded
    from any reachable buffer, by any writer that took any part of it, and the
    buffer is then unselected, it holds all the events it held before, in the same
    order, none of them selected or written. *)
Theorem unconfirmed_events_are_kept config b h :
  config_ok config -> reachable config b h ->
  exists qs b1 h1 ok b2, contents b = Some qs /\
    EventBuffer.Load b h = Some (b1, h1, ok) /\ EventBuffer.Unselect b1 = Some b2 /\
    contents b2 = Some (unselect qs).
Proof.
  intros Hc Hb. destruct (reachable_models _ _ _ Hc Hb) as (s & Hs). pose proof (caps_of_ok _ Hc) as Hcaps.
  destruct (Load_refines _ b s h Hcaps Hs) as (b1 & _ & Hl & Hs1 & _). destruct (Unselect_refines _ _ _ Hs1) as (b2 & Hu & Hs2).
  exists (qb_events s), b1, (write (S (length (qb_events s))) h (qb_events s)).1.2.
  eexists. exists b2. split; [by eapply models_contents|]. split; [done|]. split; [done|].
  rewrite (models_contents _ _ _ Hs2). cbn [qb_events]. by rewrite write_unselect.
Qed.

(** C33: While nothing is read, the buffer keeps the newest events.  After any
    sequence of updates an event is in the buffer exactly when fewer events of its
    type followed than its type has room for; the events are in the order of the
    updates, and the overflow flag says whether one was dropped. *)
Theorem newest_events_are_kept (dflt : M) config (us : list (EventType * Event M)) h :
  config_ok config ->
  exists b0 b os, EventBuffer.init dflt config = Some b0 /\
    run (map (fun u => OpUpdate u.1 u.2) us) b0 h = Some (b, h, os) /\
    contents b = Some (newest (caps_of config) us) /\
    overflow b = has_overflown (caps_of config) us.
Proof.
  intros Hc. destruct (init_spec dflt config Hc) as (b0 & Hi & HM).
  destruct (run_refines _ (map (fun u => OpUpdate u.1 u.2) us) b0 _ h (caps_of_ok _ Hc)
    ltac:(apply Forall_forall; by intros op (u & -> & _)%list_elem_of_fmap) HM) as (b & Hr & HM').
  rewrite run_updates in *. cbn [fst snd] in *. exists b0, b, (map (fun _ => ONone) us). split; [done|]. split; [done|].
  split; [exact (models_contents _ _ _ HM')|apply HM'].
Qed.

(** The overflow indication never clears when a type is disabled.  If one type
    is configured with no events, its list counts as full, so once an overflow of
    another type has been recorded [IsOverflown] stays true whatever is read and
    cleared. *)
Theorem overflow_flag_stuck config b h t ops b' h' os :
  config_ok config -> reachable config b h -> caps_of config t = 0%nat -> overflow b = true ->
  Forall op_ok ops -> run ops b h = Some (b', h', os) ->
  (EventBuffer.IsOverflown b').2 = true.
Proof.
  intros Hc Hb Ht Ho Hops Hrun. destruct (reachable_models _ _ _ Hc Hb) as (s & Hs).
  pose proof (caps_of_ok _ Hc) as Hcaps. destruct (run_refines _ ops b s h Hcaps Hops Hs) as (b2 & Hr & Hs').
  rewrite Hr in Hrun. injection Hrun as -> _ _. pose proof Hs' as (Ho' & items & R & Hq).
  rewrite (proj1 Hs) in Ho. pose proof (run_stuck _ t ops b s h Hcaps Hops Hs Ht Ho) as Hst. rewrite Hst in Ho'.
  pose proof (zero_cap_full _ _ _ t Hs' Ht) as Hf. rewrite <- Hq, <- (IsAnyTypeFull_spec _ _ _ R) in Hf.
  unfold EventBuffer.IsOverflown. by rewrite Ho', Hf.
Qed.

(** C37: A response that has room is complete.  If a writer that was just opened
    always takes the event it was opened for, [Load] writes every selected event,
    however many runs of types and variations they form, reports that the response
    is complete, and leaves nothing selected. *)
Theorem load_completes config b h :
  config_ok config -> reachable config b h ->
  (forall t v m i h, (writer_Write m i (open_writer t v m h)).2 = true) ->
  exists b1 h1, EventBuffer.Load b h = Some (b1, h1, true) /\ EventBuffer.HasAnySelection b1 = false.
Proof.
  intros Hc Hb Hw. destruct (reachable_models _ _ _ Hc Hb) as (s & Hs). pose proof (caps_of_ok _ Hc) as Hcaps.
  destruct (Load_refines _ b s h Hcaps Hs) as (b1 & _ & Hl & Hs1 & _). pose proof (count_bounds (in_state selected_) (qb_events s)).
  pose proof (write_completes (S (length (qb_events s))) h (qb_events s) Hw ltac:(lia)) as Hnone.
  apply existsb_filter in Hnone. rewrite Hnone in Hl. exists b1. eexists. split; [exact Hl|].
  destruct Hs1 as (_ & items & R & Hq). unfold EventBuffer.HasAnySelection. rewrite (NumSelected_spec _ _ _ R), count_existsb, Hq.
  exact Hnone.
Qed.

End Properties.

(** C30: What is confirmed is what was sent.  When a response has been loaded from
    any reachable buffer, the writer has taken, in order, a prefix [ws] of the
    selected events with their types, selected variations, indexes and values; the
    other selected events stay selected, the response is complete exactly when
    there are none, and clearing the written events after the confirmation keeps
    everything else: what was selected but not sent, and what was not selected. *)
Theorem confirmed_events_were_sent {H Wr M} `{EventLog H Wr M} config (b : EventBuffer M) (h : H) :
  config_ok config -> reachable config b h ->
  exists qs qs1 ws b1 h1 ok b2,
    contents b = Some qs /\ EventBuffer.Load b h = Some (b1, h1, ok) /\ contents b1 = Some qs1 /\
    EventBuffer.ClearWritten b1 = Some b2 /\ contents b2 = Some (Queue.clear_written qs1) /\
    log h1 = log h ++ map entry ws /\ written_from qs ws qs1 /\
    (ok = true <-> List.filter (Queue.in_state selected_) qs1 = []).
Proof.
  intros Hc Hb. destruct (reachable_models _ _ _ Hc Hb) as (s & Hs). pose proof (caps_of_ok _ Hc) as Hcaps.
  destruct (Load_refines _ b s h Hcaps Hs) as (b1 & _ & Hl & Hs1 & _). destruct (ClearWritten_refines _ _ _ Hs1) as (b2 & Hu & Hs2).
  destruct (write_log (S (length (qb_events s))) h (qb_events s)) as (ws & Hws & Hlog).
  eexists (qb_events s), _, ws, b1, _, _, b2. split; [by eapply models_contents|]. split; [exact Hl|].
  split; [by eapply models_contents|]. split; [done|]. split; [exact (models_contents _ _ _ Hs2)|]. split; [done|]. split; [done|].
  rewrite negb_true_iff. apply existsb_filter.
Qed.

(** ** Instances *)

(** A handler that takes one event in every run. *)
Record OneByOne := mkOneByOne { taken : nat }.

#[export] Instance OneByOne_handler {M} : IEventWriteHandler OneByOne (nat * bool) M := {|
  open_writer _ _ _ r := (taken r, true);
  writer_Write _ _ w := if w.2 : bool then ((S w.1, false), true) else (w, false);
  close_writer w := mkOneByOne w.1
|}.

Definition demo_config : EventBufferConfig := AllTypes 2.

(** Analog events are disabled. *)
Definition partial_config : EventBufferConfig := mkEventBufferConfig 1 1 0 1 1 1 1 1.

Definition demo_ops : list (Op Z) :=
  [OpUpdate Binary (mkEvent 100 1 EC1 EventVariation.Group2Var1);
   OpUpdate Analog (mkEvent 200 2 EC2 EventVariation.Group32Var1);
   OpUpdate Binary (mkEvent 101 1 EC1 EventVariation.Group2Var1);
   OpUpdate Binary (mkEvent 102 1 EC3 EventVariation.Group2Var2);
   OpIsOverflown;
   OpSelectCount GroupVariation.Group60Var2 1;
   OpSelectAll GroupVariation.Group2Var0;
   OpSelectAllByClass ClassField.AllEventClasses;
   OpHasAnySelection].

Definition after {H Wr} `{IEventWriteHandler H Wr Z} (config : EventBufferConfig) (h : H) : option (EventBuffer Z * H * list Out) :=
  b0 ← EventBuffer.init 0 config; run demo_ops b0 h.

Lemma demo_ops_ok : Forall op_ok demo_ops.
Proof. unfold demo_ops. repeat constructor; cbn; unfold is_u32; lia. Qed.

Lemma after_reachable {H Wr} `{IEventWriteHandler H Wr Z} config (h : H) b h' os :
  after config h = Some (b, h', os) -> reachable config b h'.
Proof. intros Hr. exists 0, demo_ops, h, os. split; [apply demo_ops_ok|exact Hr]. Qed.

(** The oldest binary event made room for the third one; the rest is sent in two
    responses, the first of which is confirmed. *)
Example demo_run :
  (b0 ← EventBuffer.init 0 demo_config;
   run (demo_ops ++ [OpLoad; OpClearWritten; OpUnwrittenClassField; OpLoad]) b0 (mkRecorder 2 [])) ≫=
    (fun '(b, h, os) => qs ← contents b; Some (qs, rec_log h, os)) =
  Some ([mkQueued Binary 1 EC3 selected_ 102 EventVariation.Group2Var2 EventVariation.Group2Var2],
        [(Analog, EventVariation.Group32Var1, 2, 200); (Binary, EventVariation.Group2Var1, 1, 101)],
        [ONone; ONone; ONone; ONone; OBool true; OIIN IINField.Empty; OIIN IINField.Empty; ONone; OBool true;
         OBool false; ONone; OClass (ClassField.of_classes false false false true); OBool false]).
Proof. vm_compute. reflexivity. Qed.

Lemma event_buffer_refines_queue_witness :
  exists b0 b, EventBuffer.init 0 demo_config = Some b0 /\
    let '(s, h', os) := Spec.run (caps_of demo_config) demo_ops (mkQueueBuffer false []) (mkRecorder 2 []) in
    run demo_ops b0 (mkRecorder 2 []) = Some (b, h', os) /\ contents b = Some (qb_events s) /\ overflow b = qb_overflow s.
Proof. apply (event_buffer_refines_queue 0 demo_config demo_ops (mkRecorder 2 [])); [by vm_compute; repeat constructor|exact demo_ops_ok]. Defined.

Lemma demo_config_ok : config_ok demo_config.
Proof. unfold config_ok. repeat constructor; cbn; unfold is_u16; lia. Qed.

Lemma partial_config_ok : config_ok partial_config.
Proof. unfold config_ok. repeat constructor; cbn; unfold is_u16; lia. Qed.

Lemma event_counters_exact_witness :
  match after demo_config (mkRecorder 2 []) with
  | Some (b, h, _) => exists qs, contents b = Some qs /\
      EventStorage.NumSelected (storage b) = Queue.count (Queue.in_state selected_) qs /\
      (forall c, EventStorage.NumUnwritten (storage b) c =
         Queue.count (fun q => Queue.in_class c q && negb (Queue.in_state written_ q)) qs) /\
      (forall t, Queue.count (Queue.is_type t) qs <= Z.of_nat (caps_of demo_config t))
  | None => False
  end.
Proof.
  destruct (after demo_config (mkRecorder 2 [])) as [[[b h] os]|] eqn:Hr; [|vm_compute in Hr; discriminate Hr].
  apply (event_counters_exact demo_config b h demo_config_ok). by eapply after_reachable.
Defined.

Lemma unconfirmed_events_are_kept_witness :
  match after demo_config (mkRecorder 2 []) with
  | Some (b, h, _) => exists qs b1 h1 ok b2, contents b = Some qs /\
      EventBuffer.Load b h = Some (b1, h1, ok) /\ EventBuffer.Unselect b1 = Some b2 /\
      contents b2 = Some (Queue.unselect qs)
  | None => False
  end.
Proof.
  destruct (after demo_config (mkRecorder 2 [])) as [[[b h] os]|] eqn:Hr; [|vm_compute in Hr; discriminate Hr].
  apply (unconfirmed_events_are_kept demo_config b h demo_config_ok). by eapply after_reachable.
Defined.

Lemma newest_events_are_kept_witness :
  let us := [(Binary, mkEvent 1 0 EC1 EventVariation.Group2Var1); (Counter, mkEvent 5 0 EC1 EventVariation.Group22Var1);
             (Binary, mkEvent 2 0 EC1 EventVariation.Group2Var1); (Binary, mkEvent 3 0 EC1 EventVariation.Group2Var1)] in
  exists b0 b os, EventBuffer.init 0 demo_config = Some b0 /\
    run (map (fun u => OpUpdate u.1 u.2) us) b0 (mkRecorder 2 []) = Some (b, mkRecorder 2 [], os) /\
    contents b = Some (newest (caps_of demo_config) us) /\
    overflow b = has_overflown (caps_of demo_config) us.
Proof. intros us. apply (newest_events_are_kept 0 demo_config us (mkRecorder 2 []) demo_config_ok). Defined.

Lemma overflow_flag_stuck_witness :
  match after partial_config (mkRecorder 9 []) with
  | Some (b, h, _) =>
      match run [OpLoad; OpClearWritten] b h with
      | Some (b', _, _) => contents b' = Some [] /\ (EventBuffer.IsOverflown b').2 = true
      | None => False
      end
  | None => False
  end.
Proof.
  destruct (after partial_config (mkRecorder 9 [])) as [[[b h] os]|] eqn:Hr; [|vm_compute in Hr; discriminate Hr].
  destruct (run [OpLoad; OpClearWritten] b h) as [[[b' h'] os']|] eqn:Hr'.
  - assert (Ho : overflow b = true).
    { vm_compute in Hr. by injection Hr as <- _ _. }
    assert (He : contents b' = Some []).
    { vm_compute in Hr. injection Hr as <- <- _. vm_compute in Hr'. by injection Hr' as <- _ _. }
    split; [exact He|]. apply (overflow_flag_stuck partial_config b h Analog [OpLoad; OpClearWritten] b' h' os' partial_config_ok);
      [by eapply after_reachable|reflexivity|exact Ho|by repeat constructor|exact Hr'].
  - vm_compute in Hr. injection Hr as <- <- _. vm_compute in Hr'. discriminate Hr'.
Defined.

Lemma load_completes_witness :
  match after demo_config (mkOneByOne 0) with
  | Some (b, h, _) => exists b1 h1, EventBuffer.Load b h = Some (b1, h1, true) /\ EventBuffer.HasAnySelection b1 = false
  | None => False
  end.
Proof.
  destruct (after demo_config (mkOneByOne 0)) as [[[b h] os]|] eqn:Hr; [|vm_compute in Hr; discriminate Hr].
  apply (load_completes demo_config b h demo_config_ok); [by eapply after_reachable|done].
Defined.

Lemma confirmed_events_were_sent_witness :
  match after demo_config (mkRecorder 2 []) with
  | Some (b, h, _) => exists qs qs1 ws b1 h1 ok b2,
      contents b = Some qs /\ EventBuffer.Load b h = Some (b1, h1, ok) /\ contents b1 = Some qs1 /\
      EventBuffer.ClearWritten b1 = Some b2 /\ contents b2 = Some (Queue.clear_written qs1) /\
      log h1 = log h ++ map entry ws /\ written_from qs ws qs1 /\
      (ok = true <-> List.filter (Queue.in_state selected_) qs1 = [])
  | None => False
  end.
Proof.
  destruct (after demo_config (mkRecorder 2 [])) as [[[b h] os]|] eqn:Hr; [|vm_compute in Hr; discriminate Hr].
  apply (confirmed_events_were_sent demo_config b h demo_config_ok). by eapply after_reachable.
Defined.
