(* ===== verification/OutstationState.v ===== *)
(** * OutstationState: the parts of an outstation's state (opendnp3/outstation)

    [ControlState], [TimeSyncState], [RequestHistory], [DeferredRequest],
    [TxBuffer], [OutstationSolState], [OutstationUnsolState] and the commands and
    results of controls.  A monotonic time is a number of milliseconds. *)

From S2P Require Import Prelude Slices Serialization Crc LinkFrame AppHeader.

Open Scope Z_scope.

(** ** Results of commands *)

Inductive CommandStatus :=
  | SUCCESS
  | TIMEOUT
  | NO_SELECT
  | FORMAT_ERROR
  | NOT_SUPPORTED
  | ALREADY_ACTIVE
  | HARDWARE_ERROR
  | LOCAL
  | TOO_MANY_OPS
  | NOT_AUTHORIZED
  | AUTOMATION_INHIBIT
  | PROCESSING_LIMITED
  | OUT_OF_RANGE
  | DOWNSTREAM_LOCAL
  | ALREADY_COMPLETE
  | BLOCKED
  | CANCELLED
  | BLOCKED_OTHER_MASTER
  | DOWNSTREAM_FAIL
  | NON_PARTICIPATING
  | UNDEFINED_STATUS.

#[export] Instance CommandStatus_eq_dec : EqDecision CommandStatus.
Proof. solve_decision. Defined.

Definition CommandStatusToType (arg : CommandStatus) : Z :=
  match arg with
  | SUCCESS => 0
  | TIMEOUT => 1
  | NO_SELECT => 2
  | FORMAT_ERROR => 3
  | NOT_SUPPORTED => 4
  | ALREADY_ACTIVE => 5
  | HARDWARE_ERROR => 6
  | LOCAL => 7
  | TOO_MANY_OPS => 8
  | NOT_AUTHORIZED => 9
  | AUTOMATION_INHIBIT => 10
  | PROCESSING_LIMITED => 11
  | OUT_OF_RANGE => 12
  | DOWNSTREAM_LOCAL => 13
  | ALREADY_COMPLETE => 14
  | BLOCKED => 15
  | CANCELLED => 16
  | BLOCKED_OTHER_MASTER => 17
  | DOWNSTREAM_FAIL => 18
  | NON_PARTICIPATING => 126
  | UNDEFINED_STATUS => 127
  end.

Inductive OperateType := SelectBeforeOperate | DirectOperate | DirectOperateNoAck.

#[export] Instance OperateType_eq_dec : EqDecision OperateType.
Proof. solve_decision. Defined.

Inductive RestartMode := UNSUPPORTED | SUPPORTED_DELAY_FINE | SUPPORTED_DELAY_COARSE.

#[export] Instance RestartMode_eq_dec : EqDecision RestartMode.
Proof. solve_decision. Defined.

(** ** Select before operate *)

Record ControlState := mkControlState {
  expectedSeq : Z;
  selectTime : Z;
  digest : Z;
  objects_length : Z
}.

Module ControlState.

Definition init : ControlState := mkControlState 0 0 0 0.

Definition ValidateSelection (s : ControlState) (seq now timeout : Z) (objects : RSlice) : CommandStatus :=
  if expectedSeq s =? seq then
    if selectTime s <=? now then
      let elapsed := now - selectTime s in
      if elapsed <? timeout then
        if (objects_length s =? Z.of_nat (RSlice.Size objects)) && (digest s =? CalcCrc objects) then SUCCESS
        else NO_SELECT
      else TIMEOUT
    else TIMEOUT
  else NO_SELECT.

Definition Select (currentSeqN now : Z) (objects : RSlice) : ControlState :=
  mkControlState (AppSeqNum_Next currentSeqN) now (CalcCrc objects) (Z.of_nat (RSlice.Size objects)).

End ControlState.

(** ** Time synchronization *)

Record TimeSyncState := mkTimeSyncState {
  time_valid : bool;
  time_recorded : Z;
  difference : Z;
  expectedSeqNum : Z
}.

Module TimeSyncState.

Definition init : TimeSyncState := mkTimeSyncState false 0 0 0.

Definition RecordCurrentTime (s : TimeSyncState) (seq now : Z) : TimeSyncState :=
  mkTimeSyncState true now (difference s) (AppSeqNum_Next seq).

Definition CalcTimeDifference (s : TimeSyncState) (seq now : Z) : TimeSyncState * bool :=
  if negb (time_valid s) then (s, false)
  else if negb (expectedSeqNum s =? seq) then (s, false)
  else if now <? time_recorded s then (s, false)
  else (mkTimeSyncState false (time_recorded s) (now - time_recorded s) (expectedSeqNum s), true).

Definition GetDifference (s : TimeSyncState) : Z := difference s.

End TimeSyncState.

(** ** Requests *)

Record ParsedRequest := mkParsedRequest {
  req_addresses : Addresses;
  req_header : APDUHeader;
  req_objects : RSlice
}.

(** The last request that was processed. *)
Record RequestHistory := mkRequestHistory {
  hasLast : bool;
  lastHeader : APDUHeader;
  lastDigest : Z;
  lastObjectsLength : Z
}.

(** The default constructor of [APDUHeader]. *)
Definition APDUHeader_default : APDUHeader := mkAPDUHeader AppControlField.DEFAULT UNKNOWN.

Module RequestHistory.

Definition init : RequestHistory := mkRequestHistory false APDUHeader_default 0 0.

Definition HasLastRequest (h : RequestHistory) : bool := hasLast h.

Definition Reset (h : RequestHistory) : RequestHistory :=
  mkRequestHistory false (lastHeader h) (lastDigest h) (lastObjectsLength h).

Definition RecordLastProcessedRequest (header : APDUHeader) (objects : RSlice) : RequestHistory :=
  mkRequestHistory true header (CalcCrc objects) (Z.of_nat (RSlice.Size objects)).

Definition GetLastHeader (h : RequestHistory) : APDUHeader := if hasLast h then lastHeader h else APDUHeader_default.

Definition EqualsLastObjects (h : RequestHistory) (objects : RSlice) : bool :=
  hasLast h && (lastObjectsLength h =? Z.of_nat (RSlice.Size objects)) && (lastDigest h =? CalcCrc objects).

Definition FullyEqualsLastRequest (h : RequestHistory) (header : APDUHeader) (objects : RSlice) : bool :=
  APDUHeader.Equals (lastHeader h) header && EqualsLastObjects h objects.

End RequestHistory.

(** A request that waits; [deferred_objects] is a copy in [deferred_buffer]. *)
Record DeferredRequest := mkDeferredRequest {
  deferred_isSet : bool;
  deferred_addresses : Addresses;
  deferred_header : APDUHeader;
  deferred_objects : RSlice;
  deferred_buffer : bytes
}.

Module DeferredRequest.

Definition init (maxAPDUSize : nat) : DeferredRequest :=
  mkDeferredRequest false (mkAddresses 0 0) APDUHeader_default [] (replicate maxAPDUSize 0).

Definition Reset (d : DeferredRequest) : DeferredRequest :=
  mkDeferredRequest false (deferred_addresses d) (deferred_header d) (deferred_objects d) (deferred_buffer d).

Definition IsSet (d : DeferredRequest) : bool := deferred_isSet d.

Definition GetFunction (d : DeferredRequest) : FunctionCode := function (deferred_header d).

Definition Set_ (d : DeferredRequest) (request : ParsedRequest) : option DeferredRequest :=
  '(dest, objects) ← CopyTo (req_objects request) (mkWSlice (deferred_buffer d) 0 (length (deferred_buffer d)));
  Some (mkDeferredRequest true (req_addresses request) (req_header request) objects (ws_array dest)).

Definition request (d : DeferredRequest) : ParsedRequest :=
  mkParsedRequest (deferred_addresses d) (deferred_header d) (deferred_objects d).

(** [isSet = !processed] *)
Definition processed (p : bool) (d : DeferredRequest) : DeferredRequest :=
  mkDeferredRequest (negb p) (deferred_addresses d) (deferred_header d) (deferred_objects d) (deferred_buffer d).

End DeferredRequest.

(** ** Transmission buffers

    The last response is a window of the buffer, so it changes when the next
    fragment is written. *)
Record TxBuffer := mkTxBuffer {
  lastResponse : View;
  tx_control : AppControlField;
  tx_buffer : bytes
}.

Module TxBuffer.

Definition init (maxTxSize : nat) : TxBuffer :=
  mkTxBuffer (mkView 0 0) AppControlField.DEFAULT (replicate maxTxSize 0).

Definition Start (t : TxBuffer) : option APDUWrapper :=
  APDUResponse.init (mkWSlice (tx_buffer t) 0 (length (tx_buffer t))).

(** The buffer belongs to the fragment while it is written. *)
Definition set_buffer (t : TxBuffer) (b : bytes) : TxBuffer := mkTxBuffer (lastResponse t) (tx_control t) b.

Definition Record_ (t : TxBuffer) (control : AppControlField) (view : View) : TxBuffer :=
  mkTxBuffer view control (tx_buffer t).

Definition GetLastResponse (t : TxBuffer) : View := lastResponse t.

Definition GetLastControl (t : TxBuffer) : AppControlField := tx_control t.

End TxBuffer.

(** Sequence number, expected confirm number and buffer of solicited responses. *)
Record OutstationSolState := mkOutstationSolState {
  sol_num : Z;
  sol_confirmNum : Z;
  sol_tx : TxBuffer
}.

Module OutstationSolState.

Definition init (maxTxSize : nat) : OutstationSolState := mkOutstationSolState 0 0 (TxBuffer.init maxTxSize).

Definition Reset (s : OutstationSolState) : OutstationSolState := s.

End OutstationSolState.

Record OutstationUnsolState := mkOutstationUnsolState {
  completedNull : bool;
  unsol_num : Z;
  unsol_confirmNum : Z;
  unsol_tx : TxBuffer
}.

Module OutstationUnsolState.

Definition init (maxTxSize : nat) : OutstationUnsolState := mkOutstationUnsolState false 0 0 (TxBuffer.init maxTxSize).

Definition Reset (s : OutstationUnsolState) : OutstationUnsolState :=
  mkOutstationUnsolState false (unsol_num s) (unsol_confirmNum s) (unsol_tx s).

End OutstationUnsolState.
