(* ===== verification/RequestHandlers.v ===== *)
(** * RequestHandlers: what an outstation does with the objects of a request

    opendnp3/outstation: ReadHandler, WriteHandler, AssignClassHandler,
    ClassBasedRequestHandler, CommandResponseHandler with the actions
    CommandActionAdapter and ConstantCommandAction, on the base class
    app/parsing/IAPDUHandler.  The application, the command handler, the executor
    and the lower layer are the world outside of the stack ([Environment]): calls
    that have an effect are recorded in the order in which they are made.  A handler
    holds the state it has references to; its user copies it in and out. *)

From S2P Require Import Prelude Slices Serialization LinkFrame AppHeader Objects ObjectParser HeaderWriter EventList EventBuffer OutstationState.

Open Scope Z_scope.

(** ** The world outside *)

Inductive AssignClassType :=
  | BinaryInput
  | DoubleBinaryInput
  | CounterInput
  | FrozenCounterInput
  | AnalogInput
  | BinaryOutputStatusInput
  | AnalogOutputStatusInput.

#[export] Instance AssignClassType_eq_dec : EqDecision AssignClassType.
Proof. solve_decision. Defined.

(** Calls of [ICommandHandler], [IOutstationApplication] and [ILowerLayer] that have an
    effect; those to the command handler with its answer.  [RecordClassAssignment] is
    posted to the executor. *)
Inductive Call :=
  | Start
  | End_
  | Select (gv : GroupVariation.t) (command : Value) (index : Z) (status : CommandStatus)
  | Operate (gv : GroupVariation.t) (command : Value) (index : Z) (opType : OperateType) (status : CommandStatus)
  | WriteAbsoluteTime (timestamp : Z)
  | WriteTimeAndInterval (values : list (Z * Value))
  | RecordClassAssignment (type : AssignClassType) (clazz : PointClass) (start stop : Z)
  | ColdRestart
  | WarmRestart
  | BeginTransmit (addresses : Addresses) (message : bytes).

Record ApplicationIIN := mkApplicationIIN {
  needTime : bool;
  localControl : bool;
  deviceTrouble : bool;
  configCorrupt : bool;
  eventBufferOverflow : bool
}.

(** [ApplicationIIN::ToIIN] *)
Definition ToIIN (a : ApplicationIIN) : IINField :=
  let ret := IINField.Empty in
  let ret := IINField.SetBitToValue ret NEED_TIME (needTime a) in
  let ret := IINField.SetBitToValue ret LOCAL_CONTROL (localControl a) in
  let ret := IINField.SetBitToValue ret CONFIG_CORRUPT (configCorrupt a) in
  let ret := IINField.SetBitToValue ret DEVICE_TROUBLE (deviceTrouble a) in
  let ret := IINField.SetBitToValue ret EVENT_BUFFER_OVERFLOW (eventBufferOverflow a) in
  ret.

(** The answers of the outside; they may depend on everything that happened. *)
Class Environment (W : Type) := {
  GetTime : W -> Z * W;
  select_command : GroupVariation.t -> Value -> Z -> W -> CommandStatus * W;
  operate_command : GroupVariation.t -> Value -> Z -> OperateType -> W -> CommandStatus * W;
  accepts : Call -> W -> bool * W;
  restart_delay : Call -> W -> Z * W;
  notice : Call -> W -> W;
  SupportsWriteAbsoluteTime : W -> bool * W;
  SupportsWriteTimeAndInterval : W -> bool * W;
  SupportsAssignClass : W -> bool * W;
  ColdRestartSupport : W -> RestartMode * W;
  WarmRestartSupport : W -> RestartMode * W;
  GetApplicationIIN : W -> ApplicationIIN * W
}.

(** The outside with the calls that were made. *)
Record Outside (W : Type) := mkOutside { world : W; calls : list Call }.

Arguments mkOutside {W}.

Arguments world {W}.

Arguments calls {W}.

(** Computations on a part of the state. *)
Definition on {W S A} (get_part : W -> S) (set_part : S -> W -> W) (m : SM S A) : SM W A := fun w =>
  '(s, a) ← m (get_part w); Some (set_part s w, a).

Section World.
Context {W : Type} `{Environment W}.

Definition ask {A} (f : W -> A * W) : SM (Outside W) A := fun o =>
  let '(a, w) := f (world o) in Some (mkOutside w (calls o), a).

(** A call and its answer. *)
Definition call_out {A} (c : Call) (f : Call -> W -> A * W) : SM (Outside W) A := fun o =>
  let '(a, w) := f c (world o) in Some (mkOutside w (calls o ++ [c]), a).

(** A call that is logged with its answer. *)
Definition call_answered {A} (c : A -> Call) (f : W -> A * W) : SM (Outside W) A := fun o =>
  let '(a, w) := f (world o) in Some (mkOutside w (calls o ++ [c a]), a).

(** A call without an answer. *)
Definition tell (c : Call) : SM (Outside W) unit := fun o => Some (mkOutside (notice c (world o)) (calls o ++ [c]), tt).

End World.

(** ** IAPDUHandler

    [ProcessHeader] gets the header and the number of headers before it; [None] is
    the overload of the base class, which refuses the header. *)

Record Handling (L : Type) := mkHandling {
  errors : IINField;
  numTotalHeaders : Z;
  numIgnoredHeaders : Z;
  local : L
}.

Arguments mkHandling {L}.

Arguments errors {L}.

Arguments numTotalHeaders {L}.

Arguments numIgnoredHeaders {L}.

Arguments local {L}.

Module APDUHandler.
Section Base.
Context {L : Type}.

Definition init (l : L) : Handling L := mkHandling IINField.Empty 0 0 l.

(** [Record]; [OnHeaderResult] is overridden by handlers of the master only. *)
Definition Record_ (result : IINField) (h : Handling L) : Handling L :=
  mkHandling (IINField.or (errors h) result) (u32 (numTotalHeaders h + 1)) (numIgnoredHeaders h) (local h).

Definition ProcessUnsupportedHeader (h : Handling L) : Handling L * IINField :=
  (mkHandling (errors h) (numTotalHeaders h) (u32 (numIgnoredHeaders h + 1)) (local h), IINField.of_bit FUNC_NOT_SUPPORTED).

Definition OnHeader (ProcessHeader : Header -> Z -> option (SM L IINField)) (header : Header) (h : Handling L)
    : option (Handling L) :=
  match ProcessHeader header (numTotalHeaders h) with
  | Some m =>
      '(l, result) ← m (local h);
      Some (Record_ result (mkHandling (errors h) (numTotalHeaders h) (numIgnoredHeaders h) l))
  | None => let '(h, result) := ProcessUnsupportedHeader h in Some (Record_ result h)
  end.

Definition handler (ProcessHeader : Header -> Z -> option (SM L IINField)) (allowed : Z -> GroupVariation.t -> QualifierCode -> bool)
    : IAPDUHandler (Handling L) := mkIAPDUHandler (OnHeader ProcessHeader) allowed.

(** A new handler on the objects of a request: its state at the end and the result. *)
Definition run (settings : ParserSettings) (h : IAPDUHandler (Handling L)) (objects : RSlice) : SM L (Handling L * ParseResult) :=
  fun l => '(h, result) ← APDUParser.Parse settings h objects (init l); Some (local h, (h, result)).

End Base.
End APDUHandler.

Definition allow_all (headerCount : Z) (gv : GroupVariation.t) (qc : QualifierCode) : bool := true.

Definition IINFromParseResult (result : ParseResult) : IINField :=
  match result with
  | OK => IINField.Empty
  | UNKNOWN_OBJECT => IINField.of_bit OBJECT_UNKNOWN
  | _ => IINField.of_bit PARAM_ERROR
  end.

(** [result == OK ? handler.Errors() : IINFromParseResult(result)] *)
Definition errors_or {L} (r : Handling L * ParseResult) : IINField :=
  if decide (r.2 = OK) then errors r.1 else IINFromParseResult r.2.

(** ** The interfaces of the database

    [IStaticSelector], [IResponseLoader] and [IClassAssigner]. *)

Class IStaticDatabase (D : Type) := {
  SelectAll : GroupVariation.t -> D -> option (D * IINField);
  SelectRange : GroupVariation.t -> Range -> D -> option (D * IINField);
  Unselect : D -> option D;
  HasAnySelection : D -> bool;
  Load : D -> WM (D * bool);
  AssignClassToAll : AssignClassType -> PointClass -> D -> option (D * Range);
  AssignClassToRange : AssignClassType -> PointClass -> Range -> D -> option (D * Range)
}.

(** ** ReadHandler *)

Module ReadHandler.
Section Selectors.
Context {M D : Type} `{IStaticDatabase D}.

Definition on_static {A} (f : D -> option (D * A)) : SM (D * EventBuffer M) A := fun s =>
  '(d, a) ← f s.1; Some ((d, s.2), a).

Definition on_events {A} (f : EventBuffer M -> option (EventBuffer M * A)) : SM (D * EventBuffer M) A := fun s =>
  '(b, a) ← f s.2; Some ((s.1, b), a).

Definition ProcessHeader (header : Header) (current : Z) : option (SM (D * EventBuffer M) IINField) :=
  match header with
  | AllObjectsHeader record =>
      Some match gvtype (gv_record record) with
           | STATIC => on_static (SelectAll (enum_of record))
           | EVENT => on_events (EventBuffer.SelectAll (enum_of record))
           | _ => mret (IINField.of_bit FUNC_NOT_SUPPORTED)
           end
  | RangeHeader record range => Some (on_static (SelectRange (enum_of record) range))
  | CountHeader record count => Some (on_events (EventBuffer.SelectCount (enum_of record) count))
  | _ => None
  end.

Definition handler : IAPDUHandler (Handling (D * EventBuffer M)) := APDUHandler.handler ProcessHeader allow_all.

End Selectors.
End ReadHandler.

(** ** WriteHandler *)

(** [ICollection::ReadOnlyValue] *)
Definition ReadOnlyValue {T} (values : list T) : option T :=
  match values with
  | [value] => Some value
  | _ => None
  end.

(** [seq] and [now] are constants; [application], [timeSyncState] and [writeIIN] are
    references. *)
Record WriteState (W : Type) := mkWriteState {
  ws_outside : Outside W;
  timeSyncState : TimeSyncState;
  writeIIN : IINField;
  wroteTime : bool;
  wroteIIN : bool
}.

Arguments mkWriteState {W}.

Arguments ws_outside {W}.

Arguments timeSyncState {W}.

Arguments writeIIN {W}.

Arguments wroteTime {W}.

Arguments wroteIIN {W}.

Module WriteHandler.
Section Application.
Context {W : Type} `{Environment W}.

Definition refuse (bit : IINBit) : SM (WriteState W) IINField := mret (IINField.of_bit bit).

Definition application {A} (m : SM (Outside W) A) : SM (WriteState W) A :=
  on ws_outside (fun o s => mkWriteState o (timeSyncState s) (writeIIN s) (wroteTime s) (wroteIIN s)) m.

Definition set_timeSyncState (t : TimeSyncState) (s : WriteState W) : WriteState W :=
  mkWriteState (ws_outside s) t (writeIIN s) (wroteTime s) (wroteIIN s).

Definition set_wroteTime (s : WriteState W) : WriteState W :=
  mkWriteState (ws_outside s) (timeSyncState s) (writeIIN s) true (wroteIIN s).

(** [IINBit::DEVICE_RESTART] is 7. *)
Definition ProcessIIN (values : list (Z * Value)) : SM (WriteState W) IINField :=
  match ReadOnlyValue values with
  | None => refuse PARAM_ERROR
  | Some (index, value) =>
      wrote ← get wroteIIN;
      if (wrote : bool) then refuse PARAM_ERROR
      else if negb (index =? 7) then refuse PARAM_ERROR
      else match value with
           | Bit false =>
               _ ← modify (fun s => mkWriteState (ws_outside s) (timeSyncState s) (IINField.ClearBit (writeIIN s) DEVICE_RESTART)
                                      (wroteTime s) true);
               mret IINField.Empty
           | Bit true => refuse PARAM_ERROR
           | _ => undefined
           end
  end.

Definition answer (accepted : bool) : SM (WriteState W) IINField :=
  if accepted then mret IINField.Empty else refuse PARAM_ERROR.

(** [Group50Var1] *)
Definition ProcessAbsoluteTime (values : list Value) : SM (WriteState W) IINField :=
  wrote ← get wroteTime;
  if (wrote : bool) then refuse PARAM_ERROR
  else
    supported ← application (ask SupportsWriteAbsoluteTime);
    if negb supported then refuse FUNC_NOT_SUPPORTED
    else match ReadOnlyValue values with
         | None => refuse PARAM_ERROR
         | Some (Fields [time]) =>
             _ ← modify set_wroteTime;
             ok ← application (call_out (WriteAbsoluteTime time) accepts);
             answer ok
         | Some _ => undefined
         end.

(** [Group50Var3] *)
Definition ProcessRecordedTime (seq now : Z) (values : list Value) : SM (WriteState W) IINField :=
  wrote ← get wroteTime;
  if (wrote : bool) then refuse PARAM_ERROR
  else
    supported ← application (ask SupportsWriteAbsoluteTime);
    if negb supported then refuse FUNC_NOT_SUPPORTED
    else match ReadOnlyValue values with
         | None => refuse PARAM_ERROR
         | Some (Fields [time]) =>
             t ← get timeSyncState;
             let '(t, ok) := TimeSyncState.CalcTimeDifference t seq now in
             _ ← modify (set_timeSyncState t);
             if negb ok then refuse PARAM_ERROR
             else
               let time := time + TimeSyncState.GetDifference t in
               _ ← modify set_wroteTime;
               ok ← application (call_out (WriteAbsoluteTime time) accepts);
               answer ok
         | Some _ => undefined
         end.

(** [Indexed<TimeAndInterval>] *)
Definition ProcessTimeAndInterval (values : list (Z * Value)) : SM (WriteState W) IINField :=
  supported ← application (ask SupportsWriteTimeAndInterval);
  if negb supported then refuse FUNC_NOT_SUPPORTED
  else
    ok ← application (call_out (WriteTimeAndInterval values) accepts);
    answer ok.

Definition ProcessHeader (seq now : Z) (header : Header) (current : Z) : option (SM (WriteState W) IINField) :=
  match header with
  | RangeOf record _ values =>
      match enum_of record with GroupVariation.Group80Var1 => Some (ProcessIIN values) | _ => None end
  | CountOf record _ values =>
      match enum_of record with
      | GroupVariation.Group50Var1 => Some (ProcessAbsoluteTime values)
      | GroupVariation.Group50Var3 => Some (ProcessRecordedTime seq now values)
      | _ => None
      end
  | PrefixOf record _ values =>
      match enum_of record with GroupVariation.Group50Var4 => Some (ProcessTimeAndInterval values) | _ => None end
  | _ => None
  end.

Definition handler (seq now : Z) : IAPDUHandler (Handling (WriteState W)) :=
  APDUHandler.handler (ProcessHeader seq now) allow_all.

End Application.
End WriteHandler.

(** ** ClassBasedRequestHandler *)

Module ClassBasedRequestHandler.

Definition ProcessHeader (header : Header) (current : Z) : option (SM ClassField IINField) :=
  match header with
  | AllObjectsHeader record =>
      let set pc := _ ← modify (fun c => ClassField.Set_class c pc); mret IINField.Empty in
      Some match enum_of record with
           | GroupVariation.Group60Var2 => set Class1
           | GroupVariation.Group60Var3 => set Class2
           | GroupVariation.Group60Var4 => set Class3
           | _ => mret (IINField.of_bit FUNC_NOT_SUPPORTED)
           end
  | _ => None
  end.

Definition handler : IAPDUHandler (Handling ClassField) := APDUHandler.handler ProcessHeader allow_all.

End ClassBasedRequestHandler.

(** ** AssignClassHandler *)

(** [pAssigner] is the database, [pExecutor] and [pApplication] the outside. *)
Record AssignState (W D : Type) := mkAssignState {
  as_outside : Outside W;
  assigner : D;
  classHeader : Z;
  assign_class : PointClass
}.

Arguments mkAssignState {W D}.

Arguments as_outside {W D}.

Arguments assigner {W D}.

Arguments classHeader {W D}.

Arguments assign_class {W D}.

Module AssignClassHandler.
Section Assigner.
Context {W D : Type} `{Environment W} `{IStaticDatabase D}.

Definition init (o : Outside W) (d : D) : AssignState W D := mkAssignState o d (-1) Class0.

Definition set_classHeader (i : Z) (s : AssignState W D) : AssignState W D :=
  mkAssignState (as_outside s) (assigner s) i (assign_class s).

Definition set_class (c : PointClass) (s : AssignState W D) : AssignState W D :=
  mkAssignState (as_outside s) (assigner s) (classHeader s) c.

(** [static_cast<int32_t>] *)
Definition i32 (z : Z) : Z := if z <? 2147483648 then z else z - 4294967296.

Definition IsExpectingAssignment (current : Z) : SM (AssignState W D) bool :=
  let current := i32 current in
  h ← get classHeader;
  if (0 <? current) && (current - 1 =? h) then _ ← modify (set_classHeader (-1)); mret true else mret false.

Definition assign {A} (f : D -> option (D * A)) : SM (AssignState W D) A := fun s =>
  '(d, a) ← f (assigner s); Some (mkAssignState (as_outside s) d (classHeader s) (assign_class s), a).

Definition NotifyApplicationOfAssignment (type : AssignClassType) (clazz : PointClass) (range : Range) : SM (AssignState W D) unit :=
  if Range.IsValid range then
    on as_outside (fun o s => mkAssignState o (assigner s) (classHeader s) (assign_class s))
      (tell (RecordClassAssignment type clazz (start range) (stop range)))
  else mret tt.

Definition ProcessAssignRange (type : AssignClassType) (clazz : PointClass) (range : Range) : SM (AssignState W D) IINField :=
  actual ← assign (AssignClassToRange type clazz range);
  _ ← NotifyApplicationOfAssignment type clazz actual;
  mret (if Range.Equals actual range then IINField.Empty else IINField.of_bit PARAM_ERROR).

Definition ProcessAssignAll (type : AssignClassType) (clazz : PointClass) : SM (AssignState W D) IINField :=
  full ← assign (AssignClassToAll type clazz);
  _ ← NotifyApplicationOfAssignment type clazz full;
  mret (if Range.IsValid full then IINField.Empty else IINField.of_bit PARAM_ERROR).

Definition RecordClass (current : Z) (gv : GroupVariation.t) : SM (AssignState W D) IINField :=
  _ ← modify (set_classHeader (i32 current));
  let record c := _ ← modify (set_class c); mret IINField.Empty in
  match gv with
  | GroupVariation.Group60Var1 => record Class0
  | GroupVariation.Group60Var2 => record Class1
  | GroupVariation.Group60Var3 => record Class2
  | GroupVariation.Group60Var4 => record Class3
  | _ => _ ← modify (set_classHeader (-1)); mret (IINField.of_bit PARAM_ERROR)
  end.

(** The [switch] of both [ProcessHeader]. *)
Definition assignable (gv : GroupVariation.t) : option AssignClassType :=
  match gv with
  | GroupVariation.Group1Var0 => Some BinaryInput
  | GroupVariation.Group3Var0 => Some DoubleBinaryInput
  | GroupVariation.Group10Var0 => Some BinaryOutputStatusInput
  | GroupVariation.Group20Var0 => Some CounterInput
  | GroupVariation.Group21Var0 => Some FrozenCounterInput
  | GroupVariation.Group30Var0 => Some AnalogInput
  | GroupVariation.Group40Var0 => Some AnalogOutputStatusInput
  | _ => None
  end.

Definition ProcessHeader (header : Header) (current : Z) : option (SM (AssignState W D) IINField) :=
  match header with
  | AllObjectsHeader record => Some (
      expecting ← IsExpectingAssignment current;
      if (expecting : bool) then
        match assignable (enum_of record) with
        | Some type => clazz ← get assign_class; ProcessAssignAll type clazz
        | None => mret (IINField.of_bit FUNC_NOT_SUPPORTED)
        end
      else RecordClass current (enum_of record))
  | RangeHeader record range => Some (
      expecting ← IsExpectingAssignment current;
      if (expecting : bool) then
        match assignable (enum_of record) with
        | Some type => clazz ← get assign_class; ProcessAssignRange type clazz range
        | None => mret (IINField.of_bit FUNC_NOT_SUPPORTED)
        end
      else mret (IINField.of_bit PARAM_ERROR))
  | _ => None
  end.

Definition handler : IAPDUHandler (Handling (AssignState W D)) := APDUHandler.handler ProcessHeader allow_all.

End Assigner.
End AssignClassHandler.

(** ** Commands *)

(** [ICommandAction]; the object class says which overload is called. *)
Definition ICommandAction (A : Type) : Type := GroupVariation.t -> Value -> Z -> SM A CommandStatus.

(** The adapter to the command handler of the application. *)
Record CommandActionAdapter (W : Type) := mkCommandActionAdapter { isStarted : bool; ca_outside : Outside W }.

Arguments mkCommandActionAdapter {W}.

Arguments isStarted {W}.

Arguments ca_outside {W}.

Module CommandActionAdapter.
Section Handler.
Context {W : Type} `{Environment W}.

Definition init (o : Outside W) : CommandActionAdapter W := mkCommandActionAdapter false o.

Definition handler {A} (m : SM (Outside W) A) : SM (CommandActionAdapter W) A :=
  on ca_outside (fun o s => mkCommandActionAdapter (isStarted s) o) m.

Definition CheckStart : SM (CommandActionAdapter W) unit :=
  started ← get isStarted;
  if negb started then
    _ ← modify (fun s => mkCommandActionAdapter true (ca_outside s));
    handler (tell Start)
  else mret tt.

Definition Action (isSelect : bool) (opType : OperateType) : ICommandAction (CommandActionAdapter W) := fun gv command index =>
  _ ← CheckStart;
  if isSelect then handler (call_answered (Select gv command index) (select_command gv command index))
  else handler (call_answered (Operate gv command index opType) (operate_command gv command index opType)).

(** The destructor. *)
Definition destroy : SM (CommandActionAdapter W) unit :=
  started ← get isStarted;
  if (started : bool) then handler (tell End_) else mret tt.

End Handler.
End CommandActionAdapter.

Module ConstantCommandAction.

Definition Action (status : CommandStatus) : ICommandAction unit := fun _ _ _ => mret status.

End ConstantCommandAction.

(** [pCommandAction] and [pWriter] are references; [pWriter] may be null. *)
Record CommandState (A : Type) := mkCommandState {
  numRequests : Z;
  numSuccess : Z;
  pWriter : option Writer;
  pCommandAction : A
}.

Arguments mkCommandState {A}.

Arguments numRequests {A}.

Arguments numSuccess {A}.

Arguments pWriter {A}.

Arguments pCommandAction {A}.

Module CommandResponseHandler.
Section Action.
Context {A : Type} (Action : ICommandAction A) (maxCommands : Z).

Definition init (w : option Writer) (a : A) : CommandState A := mkCommandState 0 0 w a.

Definition AllCommandsSuccessful (s : CommandState A) : bool := numRequests s =? numSuccess s.

Definition IsAllowed (headerCount : Z) (gv : GroupVariation.t) (qc : QualifierCode) : bool :=
  match qc with
  | UINT8_CNT_UINT8_INDEX | UINT16_CNT_UINT16_INDEX =>
      match gv with
      | GroupVariation.Group12Var1 | GroupVariation.Group41Var1 | GroupVariation.Group41Var2 | GroupVariation.Group41Var3
      | GroupVariation.Group41Var4 => true
      | _ => false
      end
  | _ => false
  end.

Definition action (gv : GroupVariation.t) (command : Value) (index : Z) : SM (CommandState A) CommandStatus := fun s =>
  '(a, status) ← Action gv command index (pCommandAction s);
  Some (mkCommandState (numRequests s) (numSuccess s) (pWriter s) a, status).

Definition ProcessCommand (gv : GroupVariation.t) (command : Value) (index : Z) : SM (CommandState A) CommandStatus :=
  n ← get numRequests;
  if n <? maxCommands then
    _ ← modify (fun s => mkCommandState (u32 (numRequests s + 1)) (numSuccess s) (pWriter s) (pCommandAction s));
    action gv command index
  else mret TOO_MANY_OPS.

(** [response.status = status]: the status is the last field of every command. *)
Definition set_status (status : CommandStatus) (command : Value) : option Value :=
  match command with
  | Fields vs => if decide (vs = []) then None else Some (Fields (removelast vs ++ [CommandStatusToType status]))
  | _ => None
  end.

(** Through the pointer to the writer. *)
Definition with_pWriter {B} (m : WM B) : SM (CommandState A) B := fun s =>
  w ← pWriter s;
  '(w, b) ← m w;
  Some (mkCommandState (numRequests s) (numSuccess s) (Some w) (pCommandAction s), b).

(** The lambda [process]: [ret], the iterator and the pair. *)
Definition process (IndexType : Serializer) (gv : GroupVariation.t) (ret : IINField) (pIterator : option PrefixedWriteIterator.t)
    (item : Z * Value) : SM (CommandState A) (IINField * option PrefixedWriteIterator.t) :=
  status ← ProcessCommand gv item.2 item.1;
  response ← lift (set_status status item.2);
  ret ← (match status with
         | SUCCESS =>
             _ ← modify (fun s => mkCommandState (numRequests s) (u32 (numSuccess s + 1)) (pWriter s) (pCommandAction s)); mret ret
         | NOT_SUPPORTED => mret (IINField.SetBit ret PARAM_ERROR)
         | _ => mret ret
         end);
  match pIterator with
  | Some it =>
      '(it, _) ← with_pWriter (PrefixedWriteIterator.Write IndexType it response item.1);
      mret (ret, Some it)
  | None => mret (ret, None)
  end.

Fixpoint process_all (IndexType : Serializer) (gv : GroupVariation.t) (ret : IINField) (pIterator : option PrefixedWriteIterator.t)
    (values : list (Z * Value)) : SM (CommandState A) (IINField * option PrefixedWriteIterator.t) :=
  match values with
  | [] => mret (ret, pIterator)
  | item :: values =>
      '(ret, pIterator) ← process IndexType gv ret pIterator item;
      process_all IndexType gv ret pIterator values
  end.

(** [RespondToHeaderWithIterator] *)
Definition RespondToHeaderWithIterator (IndexType : Serializer) (gv : GroupVariation.t) (values : list (Z * Value))
    (pIterator : option PrefixedWriteIterator.t) : SM (CommandState A) (IINField * option PrefixedWriteIterator.t) :=
  process_all IndexType gv IINField.Empty pIterator values.

Definition RespondToHeader (IndexType : Serializer) (qualifier : QualifierCode) (gv : GroupVariation.t) (values : list (Z * Value))
    : SM (CommandState A) IINField :=
  w ← get pWriter;
  match w with
  | Some _ =>
      iter ← with_pWriter (HeaderWriter.IterateOverCountWithPrefix IndexType qualifier (Inst gv));
      '(ret, it) ← RespondToHeaderWithIterator IndexType gv values (Some iter);
      match it with
      | Some iter => _ ← with_pWriter (PrefixedWriteIterator.destroy IndexType iter); mret ret
      | None => mret ret
      end
  | None => '(ret, _) ← RespondToHeaderWithIterator IndexType gv values None; mret ret
  end.

(** [ProcessAny], [ProcessIndexPrefixOneByte] and [ProcessIndexPrefixTwoByte]: the
    object class of the response is that of the command. *)
Definition ProcessAny (record : HeaderRecord) (gv : GroupVariation.t) (values : list (Z * Value)) : SM (CommandState A) IINField :=
  if decide (GetQualifierCode record = UINT8_CNT_UINT8_INDEX) then RespondToHeader UInt8 UINT8_CNT_UINT8_INDEX gv values
  else RespondToHeader UInt16 UINT16_CNT_UINT16_INDEX gv values.

Definition ProcessHeader (header : Header) (current : Z) : option (SM (CommandState A) IINField) :=
  match header with
  | PrefixOf record _ values =>
      match enum_of record with
      | GroupVariation.Group12Var1 => Some (ProcessAny record GroupVariation.Group12Var1 values)
      | GroupVariation.Group41Var1 => Some (ProcessAny record GroupVariation.Group41Var1 values)
      | GroupVariation.Group41Var2 => Some (ProcessAny record GroupVariation.Group41Var2 values)
      | GroupVariation.Group41Var3 => Some (ProcessAny record GroupVariation.Group41Var3 values)
      | GroupVariation.Group41Var4 => Some (ProcessAny record GroupVariation.Group41Var4 values)
      | _ => None
      end
  | _ => None
  end.

Definition handler : IAPDUHandler (Handling (CommandState A)) := APDUHandler.handler ProcessHeader IsAllowed.

End Action.
End CommandResponseHandler.
