(* ===== verification/EventWriters.v ===== *)
(** * EventWriters: events in a response (opendnp3/outstation/event: ASDUEventWriteHandler, EventWriters)

    The implementation of [IEventWriteHandler] that [EventBuffer::Load] uses: for
    every run of events it opens an iterator over objects with a two-byte index on
    the [HeaderWriter] of the response.  A handler that has run into undefined
    behaviour is [None]. *)

From S2P Require Import Prelude Slices Serialization AppHeader Objects ObjectParser HeaderWriter EventList EventBuffer.

Open Scope Z_scope.

(** Measurements: [WriteTarget] of an object class (the conversions of
    WriteConversions.h), the time, a copy with another time, and the size of an octet
    string. *)
Class Measurement (M : Type) := {
  WriteTarget : GroupVariation.t -> M -> Value;
  time : M -> Z;
  set_time : Z -> M -> M;
  Size_ : M -> Z
}.

(** The [switch] statements of [ASDUEventWriteHandler]: the object class of an event
    variation. *)
Definition object_of (v : EventVariation.t) : GroupVariation.t :=
  match v with
  | EventVariation.Group2Var1 => GroupVariation.Group2Var1
  | EventVariation.Group2Var2 => GroupVariation.Group2Var2
  | EventVariation.Group2Var3 => GroupVariation.Group2Var3
  | EventVariation.Group4Var1 => GroupVariation.Group4Var1
  | EventVariation.Group4Var2 => GroupVariation.Group4Var2
  | EventVariation.Group4Var3 => GroupVariation.Group4Var3
  | EventVariation.Group11Var1 => GroupVariation.Group11Var1
  | EventVariation.Group11Var2 => GroupVariation.Group11Var2
  | EventVariation.Group22Var1 => GroupVariation.Group22Var1
  | EventVariation.Group22Var2 => GroupVariation.Group22Var2
  | EventVariation.Group22Var5 => GroupVariation.Group22Var5
  | EventVariation.Group22Var6 => GroupVariation.Group22Var6
  | EventVariation.Group23Var1 => GroupVariation.Group23Var1
  | EventVariation.Group23Var2 => GroupVariation.Group23Var2
  | EventVariation.Group23Var5 => GroupVariation.Group23Var5
  | EventVariation.Group23Var6 => GroupVariation.Group23Var6
  | EventVariation.Group32Var1 => GroupVariation.Group32Var1
  | EventVariation.Group32Var2 => GroupVariation.Group32Var2
  | EventVariation.Group32Var3 => GroupVariation.Group32Var3
  | EventVariation.Group32Var4 => GroupVariation.Group32Var4
  | EventVariation.Group32Var5 => GroupVariation.Group32Var5
  | EventVariation.Group32Var6 => GroupVariation.Group32Var6
  | EventVariation.Group32Var7 => GroupVariation.Group32Var7
  | EventVariation.Group32Var8 => GroupVariation.Group32Var8
  | EventVariation.Group42Var1 => GroupVariation.Group42Var1
  | EventVariation.Group42Var2 => GroupVariation.Group42Var2
  | EventVariation.Group42Var3 => GroupVariation.Group42Var3
  | EventVariation.Group42Var4 => GroupVariation.Group42Var4
  | EventVariation.Group42Var5 => GroupVariation.Group42Var5
  | EventVariation.Group42Var6 => GroupVariation.Group42Var6
  | EventVariation.Group42Var7 => GroupVariation.Group42Var7
  | EventVariation.Group42Var8 => GroupVariation.Group42Var8
  | EventVariation.Group111Var0 => GroupVariation.Group111Var0
  end.

(** The writers of events: with a serializer, with a common time of occurrence before
    them, and of octet strings. *)
Inductive EventWriter :=
  | BasicEventWriter (gv : GroupVariation.t) (iterator : PrefixedWriteIterator.t)
  | CTOEventWriter (gv : GroupVariation.t) (cto : Z) (iterator : PrefixedWriteIterator.t)
  | OctetStringEventWriter (size : Z) (iterator : PrefixedWriteIterator.t).

Section Handler.
Context {M : Type} `{Measurement M}.

Definition Open_Basic (gv : GroupVariation.t) : WM EventWriter :=
  it ← HeaderWriter.IterateOverCountWithPrefix UInt16 UINT16_CNT_UINT16_INDEX (Inst gv);
  mret (BasicEventWriter gv it).

Definition Open_CTO (gv : GroupVariation.t) (cto : Z) : WM EventWriter :=
  it ← HeaderWriter.IterateOverCountWithPrefixAndCTO UInt16 UINT16_CNT_UINT16_INDEX (Inst gv) GroupVariation.Group51Var1 (Fields [cto]);
  mret (CTOEventWriter gv cto it).

Definition Open_OctetString (size : Z) : WM EventWriter :=
  it ← HeaderWriter.IterateOverCountWithPrefix UInt16 UINT16_CNT_UINT16_INDEX (OctetStringSerializer.init true size);
  mret (OctetStringEventWriter size it).

(** [ASDUEventWriteHandler::Write] up to [items.WriteSome]. *)
Definition Open (v : EventVariation.t) (first : M) : WM EventWriter :=
  match v with
  | EventVariation.Group2Var3 | EventVariation.Group4Var3 => Open_CTO (object_of v) (time first)
  | EventVariation.Group111Var0 => Open_OctetString (Size_ first)
  | _ => Open_Basic (object_of v)
  end.

(** [IEventWriter<T>::Write] *)
Definition Write (meas : M) (index : Z) (writer : EventWriter) : WM (EventWriter * bool) :=
  match writer with
  | BasicEventWriter gv it =>
      if PrefixedWriteIterator.isValid it then
        '(it, ok) ← PrefixedWriteIterator.Write UInt16 it (WriteTarget gv meas) index;
        mret (BasicEventWriter gv it, ok)
      else mret (writer, false)
  | CTOEventWriter gv cto it =>
      if negb (PrefixedWriteIterator.isValid it) then mret (writer, false)
      else if time meas <? cto then mret (writer, false)
      else
        let diff := time meas - cto in
        if 65535 <? diff then mret (writer, false)
        else
          '(it, ok) ← PrefixedWriteIterator.Write UInt16 it (WriteTarget gv (set_time diff meas)) index;
          mret (CTOEventWriter gv cto it, ok)
  | OctetStringEventWriter size it =>
      if negb (Size_ meas =? size) then mret (writer, false)
      else
        '(it, ok) ← PrefixedWriteIterator.Write UInt16 it (WriteTarget GroupVariation.Group111Var0 meas) index;
        mret (OctetStringEventWriter size it, ok)
  end.

(** The destructors of the iterators. *)
Definition Close (writer : EventWriter) : WM unit :=
  match writer with
  | BasicEventWriter _ it | CTOEventWriter _ _ it | OctetStringEventWriter _ it => PrefixedWriteIterator.destroy UInt16 it
  end.

#[export] Instance ASDUEventWriteHandler : IEventWriteHandler (option Writer) (option (Writer * EventWriter)) M := {|
  open_writer _ v first h := w ← h; Open v first w;
  writer_Write meas index o :=
    match o with
    | Some (w, writer) =>
        match Write meas index writer w with
        | Some (w, (writer, ok)) => (Some (w, writer), ok)
        | None => (None, false)
        end
    | None => (None, false)
    end;
  close_writer o := '(w, writer) ← o; '(w, _) ← Close writer w; Some w
|}.

(** [EventBuffer::Load]: the handler has a copy of the writer, which shares the
    position but not the mark. *)
Definition EventBuffer_Load (b : EventBuffer M) : WM (EventBuffer M * bool) := fun w =>
  '(b, h, ok) ← EventBuffer.Load b (Some w);
  w' ← h;
  Some (mkWriter (wr_array w') (position w') (mark w), (b, ok)).

End Handler.
