(* ===== verification/EventResponse.v ===== *)
(** * EventResponse: the events of a response, from the buffer to the parser

    What [EventBuffer::Load] writes with the [ASDUEventWriteHandler], as runs of
    events: the bytes, which events they are, and that a parser reads these events
    back.  [put] relates two states of a writer like [wrote], but leaves the bytes
    behind the new position open: a writer that is rolled back has touched them. *)

From S2P Require Import Prelude Slices Serialization LinkFrame AppHeader Objects ObjectParser HeaderWriter HeaderRoundtrip EventList EventBuffer EventSpec EventProps EventWriters.
From Stdlib Require Import ZifyNat.

Open Scope Z_scope.

(** ** Writers that may be rolled back *)

Section Put.
Implicit Types w : Writer.

Definition put w w' (data : bytes) : Prop :=
  (length data <= v_size (position w))%nat /\ length (wr_array w') = length (wr_array w) /\
  take (v_pos (position w) + length data) (wr_array w') = take (v_pos (position w)) (wr_array w) ++ data /\
  position w' = mkView (v_pos (position w) + length data) (v_size (position w) - length data).

Lemma put_wf w w' data : wwf w -> put w w' data -> wwf w'.
Proof. unfold wwf. intros Hw (Hl & Hn & _ & ->). cbn. lia. Qed.

Lemma put_size w w' data : put w w' data -> v_size (position w') = (v_size (position w) - length data)%nat.
Proof. by intros (_ & _ & _ & ->). Qed.

Lemma put_refl w : wwf w -> put w w [].
Proof.
  unfold wwf. intros Hw. split_and!; [cbn; lia|done|by rewrite app_nil_r, Nat.add_0_r|].
  destruct (position w). cbn. f_equal; lia.
Qed.

Lemma wrote_put w w' data : wrote w w' data -> put w w' data.
Proof.
  intros (Hl & Hm & Hp). split_and!; [done|by eapply mem_write_length|by apply mem_write_take|done].
Qed.

Lemma put_trans w w1 w2 d1 d2 : wwf w -> put w w1 d1 -> put w1 w2 d2 -> put w w2 (d1 ++ d2).
Proof.
  intros Hw (Hl1 & Hn1 & Ht1 & Hp1) (Hl2 & Hn2 & Ht2 & Hp2). rewrite Hp1 in *. cbn [v_pos v_size] in *.
  split_and!; [len|congruence| |rewrite Hp2; f_equal; len].
  rewrite length_app, Nat.add_assoc, Ht2, Ht1. by rewrite app_assoc.
Qed.

(** Back to the position before something was written. *)
Lemma put_back w w1 w2 data : wwf w -> wrote w w1 data -> wr_array w2 = wr_array w1 -> position w2 = position w -> put w w2 [].
Proof.
  unfold wwf. intros Hw W Ha Hp. pose proof W as (Hl & Hm & _). pose proof (mem_write_length _ _ _ _ Hm) as Hn.
  split_and!; [cbn; lia|congruence| |].
  - cbn [length]. rewrite app_nil_r, Nat.add_0_r, Ha. by eapply mem_write_take_lt.
  - rewrite Hp. destruct (position w). cbn. f_equal; lia.
Qed.

End Put.

(** *** The mark

    Only [Mark] and [Rollback] change it. *)

Definition keeps_mark {A} (m : WM A) : Prop := forall w, match m w with Some (w', _) => mark w' = mark w | None => True end.

Section Marks.

Lemma keeps_ret {A} (a : A) : keeps_mark (mret a).
Proof. done. Qed.

Lemma keeps_get {A} (f : Writer -> A) : keeps_mark (get f).
Proof. done. Qed.

Lemma keeps_bind {A B} (m : WM A) (f : A -> WM B) : keeps_mark m -> (forall a, keeps_mark (f a)) -> keeps_mark (mbind f m).
Proof.
  intros Hm Hf w. specialize (Hm w). unfold mbind, SM_bind. destruct (m w) as [[w1 a]|]; [|done].
  specialize (Hf a w1). destruct (f a w1) as [[w2 b]|]; [congruence|done].
Qed.

Lemma keeps_store pos data : keeps_mark (store_at pos data).
Proof. intros w. unfold store_at. by destruct (mem_write _ _ _). Qed.

Lemma keeps_Advance n : keeps_mark (Advance n).
Proof. done. Qed.

Lemma keeps_SerializerWrite s v : keeps_mark (SerializerWrite s v).
Proof. intros w. unfold SerializerWrite. by destruct (pWriteFunc _ _ _) as [[]|]. Qed.

#[local] Hint Resolve keeps_ret keeps_get keeps_bind keeps_store keeps_Advance keeps_SerializerWrite : dnp3.

Ltac keeps := repeat (apply keeps_bind; [|intros]); repeat case_match; eauto 6 with dnp3.

Lemma keeps_WriteBuffer s v : keeps_mark (WriteBuffer s v).
Proof. unfold WriteBuffer. keeps. Qed.

#[local] Hint Resolve keeps_WriteBuffer : dnp3.

Lemma keeps_WriteHeaderWithReserve id qc n : keeps_mark (HeaderWriter.WriteHeaderWithReserve id qc n).
Proof. unfold HeaderWriter.WriteHeaderWithReserve, HeaderWriter.WriteHeader. keeps. keeps. Qed.

#[local] Hint Resolve keeps_WriteHeaderWithReserve : dnp3.

Lemma keeps_WriteSingleValue s qc gv v : keeps_mark (HeaderWriter.WriteSingleValue s qc gv v).
Proof. unfold HeaderWriter.WriteSingleValue. keeps. keeps. Qed.

Lemma keeps_IterateOverCountWithPrefix s qc ds : keeps_mark (HeaderWriter.IterateOverCountWithPrefix s qc ds).
Proof.
  unfold HeaderWriter.IterateOverCountWithPrefix, PrefixedWriteIterator.init. keeps. keeps. keeps.
Qed.

Lemma wp_keeps {A} (m : WM A) w Q : keeps_mark m -> wp m w Q -> wp m w (fun a w' => Q a w' /\ mark w' = mark w).
Proof. intros Hk Hq. specialize (Hk w). unfold wp in *. by destruct (m w) as [[w' a]|]. Qed.

End Marks.

(** ** Runs of events *)

(** The variations that are written relative to a common time of occurrence. *)
Definition is_relative (v : EventVariation.t) : bool :=
  match v with EventVariation.Group2Var3 | EventVariation.Group4Var3 => true | _ => false end.

(** What measurements promise: their conversions fit the fields of the object class,
    a time has 48 bits and an octet string at most 255 bytes. *)
Class MeasurementOk (M : Type) `{Measurement M} := {
  measurement_ok : EventType -> M -> Prop;
  target_fits t m v : measurement_ok t m -> EventVariation.type_of v = t -> is_relative v = false -> v <> EventVariation.Group111Var0 ->
    value_fits (Class (object_of v)) (WriteTarget (object_of v) m);
  relative_fits t m v d : measurement_ok t m -> EventVariation.type_of v = t -> is_relative v = true -> 0 <= d <= 65535 ->
    value_fits (Class (object_of v)) (WriteTarget (object_of v) (set_time d m));
  octets_fit m : measurement_ok OctetString m -> value_fits (OctetEvent (Size_ m)) (WriteTarget GroupVariation.Group111Var0 m);
  time_fits t m : measurement_ok t m -> 0 <= time m <= UInt48_MAX
}.

Section Runs.
Context {M : Type} `{MeasurementOk M}.
Import Queue.
Implicit Types (q : Queued M) (qs ws : list (Queued M)) (w : Writer).

(** An event whose type, index, variation and measurement fit together. *)
Record event_ok q : Prop := mkEventOk {
  eo_index : is_u16 (q_index q);
  eo_selected : EventVariation.type_of (q_selected q) = q_type q;
  eo_default : EventVariation.type_of (q_default q) = q_type q;
  eo_value : measurement_ok (q_type q) (q_value q)
}.

(** The objects of a run whose first event has the measurement [first]. *)
Definition kind_of (v : EventVariation.t) (first : M) : Kind :=
  match v with EventVariation.Group111Var0 => OctetEvent (Size_ first) | _ => Class (object_of v) end.

Definition value_of (v : EventVariation.t) (first m : M) : Value :=
  WriteTarget (object_of v) (if is_relative v then set_time (time m - time first) m else m).

(** The events that a run takes when there is room. *)
Definition joins (v : EventVariation.t) (first m : M) : bool :=
  match v with
  | EventVariation.Group2Var3 | EventVariation.Group4Var3 => (time first <=? time m) && (time m - time first <=? 65535)
  | EventVariation.Group111Var0 => Size_ m =? Size_ first
  | _ => true
  end.

Definition writer_at (v : EventVariation.t) (first : M) (it : PrefixedWriteIterator.t) : EventWriter :=
  match v with
  | EventVariation.Group2Var3 | EventVariation.Group4Var3 => CTOEventWriter (object_of v) (time first) it
  | EventVariation.Group111Var0 => OctetStringEventWriter (Size_ first) it
  | _ => BasicEventWriter (object_of v) it
  end.

Lemma value_of_fits t v first m :
  measurement_ok t m -> EventVariation.type_of v = t -> joins v first m = true ->
  value_fits (kind_of v first) (value_of v first m).
Proof.
  intros Hm Hv Hj. destruct (is_relative v) eqn:Hr.
  - assert (Hd : 0 <= time m - time first <= 65535).
    { destruct v; try discriminate Hr; cbn [joins] in Hj; apply andb_prop in Hj as [Hj1 Hj2]; lia. }
    pose proof (relative_fits t m v _ Hm Hv Hr Hd) as Hf. unfold value_of. rewrite Hr. by destruct v.
  - unfold value_of. rewrite Hr. destruct (decide (v = EventVariation.Group111Var0)) as [->|Hne].
    + cbn [joins] in Hj. apply Z.eqb_eq in Hj. cbn [kind_of object_of]. rewrite <- Hj. cbn in Hv. subst t. by apply octets_fit.
    + pose proof (target_fits t m v Hm Hv Hr Hne). by destruct v.
Qed.

Lemma joins_first t v m : measurement_ok t m -> joins v m m = true.
Proof.
  intros Hm. pose proof (time_fits t m Hm).
  destruct v; cbn [joins]; rewrite ?andb_true_iff, ?Z.leb_le, ?Z.eqb_eq; done || lia.
Qed.

Lemma Write_writer_at v first it m i w :
  Write m i (writer_at v first it) w =
    (if joins v first m then '(it, ok) ← PrefixedWriteIterator.Write UInt16 it (value_of v first m) i; mret (writer_at v first it, ok)
     else mret (writer_at v first it, false)) w.
Proof.
  assert (Hnull : PrefixedWriteIterator.isValid it = false ->
    PrefixedWriteIterator.Write UInt16 it (value_of v first m) i w = Some (w, (it, false))).
  { intros Hv. unfold PrefixedWriteIterator.Write. rewrite Hv. done. }
  destruct v; cbn [writer_at joins Write value_of is_relative]; try done;
    try (destruct (PrefixedWriteIterator.isValid it) eqn:Hv; [done|]; unfold mbind, SM_bind; by rewrite Hnull).
  - destruct (PrefixedWriteIterator.isValid it) eqn:Hv; cbn [negb].
    + destruct (Z.ltb_spec (time m) (time first)), (Z.leb_spec (time first) (time m)); try lia; [done|]. cbn [andb].
      destruct (Z.ltb_spec 65535 (time m - time first)), (Z.leb_spec (time m - time first) 65535); try lia; done.
    + destruct (_ && _); [|done]. unfold mbind, SM_bind. by rewrite Hnull.
  - destruct (PrefixedWriteIterator.isValid it) eqn:Hv; cbn [negb].
    + destruct (Z.ltb_spec (time m) (time first)), (Z.leb_spec (time first) (time m)); try lia; [done|]. cbn [andb].
      destruct (Z.ltb_spec 65535 (time m - time first)), (Z.leb_spec (time m - time first) 65535); try lia; done.
    + destruct (_ && _); [|done]. unfold mbind, SM_bind. by rewrite Hnull.
  - destruct (Z.eqb_spec (Size_ m) (Size_ first)); done.
Qed.

(** *** Opening and closing *)

Definition run_header (v : EventVariation.t) (first : M) : bytes :=
  encode_header (id (serializer_of (kind_of v first))) UINT16_CNT_UINT16_INDEX.

(** The common time of occurrence in front of a run. *)
Definition cto_requests (v : EventVariation.t) (first : M) : list Request :=
  if is_relative v then [WSingle GroupVariation.Group51Var1 (Fields [time first])] else [].

Definition encode_all (reqs : list Request) : bytes := encode_requests reqs (map objects reqs).

Definition obj (v : EventVariation.t) (first : M) q : Z * Value := (q_index q, value_of v first (q_value q)).

(** A run in which [ws] were written; [w1] is the writer behind the common time. *)
Definition running (v : EventVariation.t) (first : M) w1 ws (wr : EventWriter) w : Prop := exists cp,
  wr = writer_at v first (prefixed_at W16 (kind_of v first) cp (length ws)) /\
  v_pos cp = (v_pos (position w1) + length (run_header v first))%nat /\
  exists old, length old = 2%nat /\
    wrote w1 w (run_header v first ++ old ++ concat (map (encode_prefixed W16 (kind_of v first)) (map (obj v first) ws))).

Definition room_for_one (v : EventVariation.t) (first : M) w : Prop := (kind_size (kind_of v first) + 2 <= v_size (position w))%nat.

Lemma begin_run v first w :
  wwf w ->
  wp (HeaderWriter.IterateOverCountWithPrefix UInt16 UINT16_CNT_UINT16_INDEX (serializer_of (kind_of v first))) w (fun it w' =>
    (it = PrefixedWriteIterator.Null /\ w' = w) \/
    (PrefixedWriteIterator.isValid it = true /\ room_for_one v first w' /\ running v first w [] (writer_at v first it) w')).
Proof.
  intros Hw. set (k := kind_of v first). destruct (decide (3 + (2 * SIZE UInt16 + kind_size k) <= v_size (position w))%nat) as [Hfit|Hno].
  - eapply wp_mono; [apply (prefixed_begin W16 k w Hw Hfit)|]. intros it w' (cp & -> & Hcp & _ & old & Hold & _ & _ & W). right.
    split; [done|]. cbn [map concat] in W. rewrite app_nil_r in W. split.
    + unfold room_for_one. fold k. rewrite (wrote_size _ _ _ W), length_app, Hold. change (SIZE (index_type W16)) with 2%nat. change (SIZE UInt16) with 2%nat in *. cbn [length encode_header]. lia.
    + exists cp. split; [done|]. split; [done|]. exists old. split; [done|]. cbn [map concat]. by rewrite app_nil_r.
  - unfold HeaderWriter.IterateOverCountWithPrefix. rewrite wp_bind.
    apply WithReserve_wp; [done| |intros; fold (kind_size k) in *; change (SIZE UInt16) with 2%nat in *; lia]. intros _. rewrite wp_ret. by left.
Qed.

Lemma Open_kind v first :
  Open v first = if is_relative v then Open_CTO (object_of v) (time first) else
    it ← HeaderWriter.IterateOverCountWithPrefix UInt16 UINT16_CNT_UINT16_INDEX (serializer_of (kind_of v first)); mret (writer_at v first it).
Proof. by destruct v. Qed.

Lemma CTO_kind v first :
  is_relative v = true -> Inst (object_of v) = serializer_of (kind_of v first) /\
  forall it, CTOEventWriter (object_of v) (time first) it = writer_at v first it.
Proof. by destruct v. Qed.

Lemma Open_spec t v first w :
  wwf w -> measurement_ok t first ->
  wp (Open v first) w (fun wr w' =>
    (wr = writer_at v first PrefixedWriteIterator.Null /\ put w w' []) \/
    (exists w1, wrote w w1 (encode_all (cto_requests v first)) /\ room_for_one v first w' /\ running v first w1 [] wr w')).
Proof.
  intros Hw Hm. rewrite Open_kind. unfold cto_requests. destruct (is_relative v) eqn:Hr.
  - destruct (CTO_kind v first Hr) as [Hs Hc]. unfold Open_CTO, HeaderWriter.IterateOverCountWithPrefixAndCTO. rewrite Hs.
    rewrite !wp_bind. unfold HeaderWriter.Mark. rewrite wp_modify. set (w0 := mkWriter _ _ _). assert (Hw0 : wwf w0) by exact Hw.
    rewrite wp_bind. pose proof (WSingle_performed GroupVariation.Group51Var1 (Fields [time first]) w0 Hw0) as HS.
    lapply HS; [clear HS; intros HS|cbn; constructor; [by eapply time_fits|constructor]]. cbn [perform] in HS. rewrite wp_bind in HS.
    eapply wp_mono; [apply (wp_keeps _ _ _ (keeps_WriteSingleValue _ _ _ _) HS)|]. intros ok w1 [HP Hmark].
    rewrite wp_ret in HP. destruct HP as (_ & _ & W1). destruct ok; cbn [one] in W1.
    + rewrite decide_False in W1 by done. pose proof (wrote_wf _ _ _ Hw0 W1) as Hw1. rewrite wp_bind.
      eapply wp_mono; [apply (wp_keeps _ _ _ (keeps_IterateOverCountWithPrefix _ _ _) (begin_run v first w1 Hw1))|].
      intros it w2 [[[-> ->]|(Hv & Hroom & Hrun)] Hmark2].
      * cbn [PrefixedWriteIterator.isValid PrefixedWriteIterator.Null negb]. rewrite wp_bind. unfold HeaderWriter.Rollback at 1, wp at 1.
        rewrite Hmark. cbn [w0 mark]. rewrite !wp_ret. left. rewrite Hc. split; [done|]. by apply (put_back w w1 _ _ Hw W1).
      * rewrite Hv. cbn [negb]. rewrite wp_bind, !wp_ret. rewrite Hc. right. exists w1. split; [|done]. unfold encode_all. cbn [map objects encode_requests].
        rewrite decide_False, app_nil_r by done. exact W1.
    + rewrite decide_True in W1 by done. rewrite !wp_ret. left. rewrite Hc. split; [done|]. apply (put_back w w1 w1 [] Hw); [exact W1|done|].
      destruct W1 as (_ & _ & ->). cbn. destruct (position w). cbn. f_equal; lia.
  - rewrite wp_bind. eapply wp_mono; [by apply begin_run|]. intros it w' [[-> ->]|(_ & Hroom & Hrun)]; rewrite wp_ret.
    + left. split; [done|]. by apply put_refl.
    + right. exists w. split; [|done]. by apply wrote_nil.
Qed.
Lemma Close_writer_at v first it : Close (writer_at v first it) = PrefixedWriteIterator.destroy UInt16 it.
Proof. by destruct v. Qed.

Lemma Close_spec v first w1 ws wr w :
  wwf w1 -> running v first w1 ws wr w -> Z.of_nat (length ws) <= 65535 ->
  wp (Close wr) w (fun _ w' =>
    wrote w1 w' (encode_request (WPrefixed W16 (kind_of v first) (map (obj v first) ws)) (length ws))).
Proof.
  intros Hw1 (cp & -> & Hcp & old & Hold & W) Hl. rewrite Close_writer_at.
  eapply wp_mono; [apply (prefixed_destroy W16 (kind_of v first) w1 w cp (run_header v first) old _ (length ws) Hw1 Hcp Hold W)|].
  intros [] w' W'. rewrite (wrap_small W16) in W' by (cbn; lia). cbn [encode_request].
  rewrite take_ge by (rewrite length_map; lia). exact W'.
Qed.

(** *** One run *)

Lemma Write_running v first w1 ws wr w q :
  wwf w1 -> running v first w1 ws wr w -> event_ok q -> EventVariation.type_of v = q_type q ->
  wp (Write (q_value q) (q_index q) wr) w (fun r w' =>
    if (r.2 : bool) then joins v first (q_value q) = true /\ running v first w1 (ws ++ [q]) r.1 w'
    else r.1 = wr /\ w' = w /\ ~ (joins v first (q_value q) = true /\ room_for_one v first w)).
Proof.
  intros Hw1 (cp & -> & Hcp & old & Hold & W) Hq Hv. pose proof (eo_index q Hq) as Hi. pose proof (eo_value q Hq) as Hm. pose proof (wrote_wf _ _ _ Hw1 W) as Hw.
  unfold wp at 1. rewrite Write_writer_at. fold (wp (if joins v first (q_value q) then
    '(it, ok) ← PrefixedWriteIterator.Write UInt16 (prefixed_at W16 (kind_of v first) cp (length ws)) (value_of v first (q_value q)) (q_index q);
    mret (writer_at v first it, ok) else mret (writer_at v first (prefixed_at W16 (kind_of v first) cp (length ws)), false)) w (fun r w' =>
    if (r.2 : bool) then joins v first (q_value q) = true /\ running v first w1 (ws ++ [q]) r.1 w'
    else r.1 = writer_at v first (prefixed_at W16 (kind_of v first) cp (length ws)) /\ w' = w /\ ~ (joins v first (q_value q) = true /\ room_for_one v first w))).
  destruct (joins v first (q_value q)) eqn:Hj; [|rewrite wp_ret; cbn [fst snd]; split_and!; [done|done|by intros [? _]]]. rewrite wp_bind.
  assert (Hok : prefixed_ok W16 (kind_of v first) (obj v first q)).
  { split; [unfold is_u16 in Hi; cbn; lia|]. by apply (value_of_fits (q_type q)). }
  eapply wp_mono; [apply (prefixed_step W16 (kind_of v first) cp (length ws) w (obj v first q) Hw Hok)|]. intros [it ok] w'.
  destruct (Nat.leb_spec (kind_size (kind_of v first) + SIZE (index_type W16)) (v_size (position w))) as [Hfit|Hno]; intros [[= -> ->] HW]; rewrite wp_ret; cbn [fst snd].
  - split; [done|]. exists cp. split; [by rewrite length_app, Nat.add_1_r|]. split; [done|]. exists old. split; [done|].
    rewrite map_app. cbn [map]. rewrite concat_map_snoc. pose proof (wrote_trans _ _ _ _ _ W HW) as Ht. by rewrite <- !app_assoc in Ht.
  - split_and!; [done|done|]. unfold room_for_one. cbn in Hno. intros [_ Hr]. lia.
Qed.

#[local] Abbreviation AW := (option (Writer * EventWriter)).

(** The events of a run were selected in this variation and can join the first. *)
Definition run_member t v (first : M) q : Prop :=
  event_ok q /\ q_type q = t /\ q_selected q = v /\ in_state selected_ q = true /\ joins v first (q_value q) = true.

Lemma write_run_spec t v first w1 qs : forall ws wr w,
  wwf w1 -> EventVariation.type_of v = t -> Forall event_ok qs -> running v first w1 ws wr w ->
  exists ws' wr' w', (write_run t v (Some (w, wr) : AW) qs).1.2 = Some (w', wr') /\
    written_from qs ws' (write_run t v (Some (w, wr) : AW) qs).1.1 /\
    (write_run t v (Some (w, wr) : AW) qs).2 = Z.of_nat (length ws') /\
    Forall (run_member t v first) ws' /\ running v first w1 (ws ++ ws') wr' w'.
Proof.
  induction qs as [|q qs IH]; intros ws wr w Hw1 Hv Hok Hrun; cbn [write_run].
  { exists [], wr, w. rewrite app_nil_r. split_and!; [done|apply written_from_nil|done|constructor|done]. }
  assert (Hstop : exists ws' wr' w', (q :: qs, Some (w, wr) : AW, 0).1.2 = Some (w', wr') /\
    written_from (q :: qs) ws' (q :: qs, Some (w, wr) : AW, 0).1.1 /\ (q :: qs, Some (w, wr) : AW, 0).2 = Z.of_nat (length ws') /\
    Forall (run_member t v first) ws' /\ running v first w1 (ws ++ ws') wr' w').
  { exists [], wr, w. rewrite app_nil_r. split_and!; [done|apply written_from_nil|done|constructor|done]. }
  apply Forall_cons_1 in Hok as [Hq Hok]. destruct (in_state selected_ q) eqn:Hs.
  2:{ destruct (IH ws wr w Hw1 Hv Hok Hrun) as (ws' & wr' & w' & H1 & H2 & H3 & H4 & H5).
      destruct (write_run t v (Some (w, wr) : AW) qs) as [[r w2] n]. cbn [fst snd] in *. exists ws', wr', w'.
      split_and!; [done|by apply written_from_skip|done..]. }
  destruct (is_type t q && bool_decide (q_selected q = v)) eqn:Ht; [|exact Hstop].
  apply andb_prop in Ht as [Ht%bool_decide_eq_true Hv'%bool_decide_eq_true].
  cbn [writer_Write ASDUEventWriteHandler]. pose proof (Write_running v first w1 ws wr w q Hw1 Hrun Hq ltac:(congruence)) as HW.
  apply wp_run in HW as (w2 & [wr2 ok] & -> & HW). cbn [fst snd] in HW. destruct ok.
  - destruct HW as [Hj Hrun2]. destruct (IH (ws ++ [q]) wr2 w2 Hw1 Hv Hok Hrun2) as (ws' & wr' & w' & H1 & H2 & H3 & H4 & H5).
    destruct (write_run t v (Some (w2, wr2) : AW) qs) as [[r w3] n]. cbn [fst snd] in *. exists (q :: ws'), wr', w'.
    split_and!; [done|by apply written_from_take|cbn [length]; lia|by constructor|]. by rewrite <- app_assoc in H5.
  - destruct HW as (-> & -> & _). exact Hstop.
Qed.

(** A writer without room takes nothing. *)
Lemma write_run_null t v first w qs :
  write_run t v (Some (w, writer_at v first PrefixedWriteIterator.Null) : AW) qs = (qs, Some (w, writer_at v first PrefixedWriteIterator.Null), 0).
Proof.
  induction qs as [|q qs IH]; [done|]. cbn [write_run]. rewrite IH. destruct (in_state selected_ q); [|done]. destruct (_ && _); [|done].
  cbn [writer_Write ASDUEventWriteHandler]. rewrite Write_writer_at. destruct (joins _ _ _); done.
Qed.

End Runs.

(** ** All runs *)

(** A run in a response: its variation, its first event and the others. *)
Record Run (M : Type) := mkRun { run_variation : EventVariation.t; run_first : Queued M; run_rest : list (Queued M) }.

Arguments mkRun {M}.

Arguments run_variation {M}.

Arguments run_first {M}.

Arguments run_rest {M}.

Section Loading.
Context {M : Type} `{MeasurementOk M}.
Import Queue.
Implicit Types (q : Queued M) (qs ws : list (Queued M)) (w : Writer) (r : Run M) (rs : list (Run M)).

#[local] Abbreviation AW := (option (Writer * EventWriter)).

Definition run_events r : list (Queued M) := run_first r :: run_rest r.

Definition run_requests r : list Request :=
  let first := q_value (run_first r) in
  cto_requests (run_variation r) first ++
  [WPrefixed W16 (kind_of (run_variation r) first) (map (obj (run_variation r) first) (run_events r))].

Definition run_ok r : Prop :=
  let v := run_variation r in
  Forall (run_member (EventVariation.type_of v) v (q_value (run_first r))) (run_events r) /\ Z.of_nat (length (run_events r)) <= 65535.

Lemma encode_all_app reqs reqs' : encode_all (reqs ++ reqs') = encode_all reqs ++ encode_all reqs'.
Proof.
  induction reqs as [|req reqs IH]; [done|]. unfold encode_all in *. cbn [app map encode_requests]. by rewrite IH, app_assoc.
Qed.

Lemma encode_run r w1 w data :
  data = encode_request (WPrefixed W16 (kind_of (run_variation r) (q_value (run_first r)))
    (map (obj (run_variation r) (q_value (run_first r))) (run_events r))) (length (run_events r)) ->
  wrote w w1 (encode_all (cto_requests (run_variation r) (q_value (run_first r)))) ->
  forall w2, wrote w1 w2 data -> wrote w w2 (encode_all (run_requests r)).
Proof.
  intros -> W1 w2 W2. unfold run_requests. rewrite encode_all_app. apply (wrote_trans _ _ _ _ _ W1).
  unfold encode_all. cbn [map objects encode_requests]. rewrite length_map, decide_False by done. by rewrite app_nil_r.
Qed.

(** The events whose first is [q] when a run of its type and variation is opened. *)
Lemma written_from_first qs ws qs' q t v first :
  List.find (in_state selected_) qs = Some q -> written_from qs ws qs' -> Forall (run_member t v first) ws -> ws <> [] ->
  exists ws', ws = q :: ws'.
Proof.
  intros Hf [_ Hw _ _] _ Hne. destruct ws as [|q' ws']; [done|]. exists ws'. f_equal.
  assert (Hh : forall qs, List.find (in_state selected_) qs = hd_error (List.filter (in_state selected_) qs)).
  { clear. induction qs as [|q qs IH]; [done|]. cbn. by destruct (in_state selected_ q). }
  rewrite Hh, Hw in Hf. by injection Hf as ->.
Qed.

Lemma running_length v first w1 ws wr w :
  wwf w1 -> running v first w1 ws wr w -> Forall event_ok ws -> Forall (fun q => EventVariation.type_of v = q_type q /\ joins v first (q_value q) = true) ws ->
  (length ws <= v_size (position w1))%nat.
Proof.
  intros Hw (cp & _ & _ & old & _ & (Hl & _)) Hok Hj. rewrite !length_app in Hl.
  assert (Hb : length (concat (map (encode_prefixed W16 (kind_of v first)) (map (obj v first) ws))) =
    (length ws * (kind_size (kind_of v first) + 2))%nat).
  { rewrite (length_concat_map _ (kind_size (kind_of v first) + 2)); [by rewrite length_map|]. apply Forall_map.
    rewrite !Forall_forall in *. intros q Hin. apply (encode_prefixed_length W16). destruct (Hj q Hin) as [Ht Hjn].
    pose proof (eo_index q (Hok q Hin)) as Hi. pose proof (eo_value q (Hok q Hin)) as Hm. split; [unfold is_u16 in Hi; cbn; lia|].
    by apply (value_of_fits (q_type q)). }
  nia.
Qed.

Lemma write_spec fuel : forall qs w,
  wwf w -> Z.of_nat (v_size (position w)) <= 65535 -> Forall event_ok qs ->
  exists w' rs, (write (Wr := AW) fuel (Some w) qs).1.2 = Some w' /\
    put w w' (encode_all (flat_map run_requests rs)) /\
    written_from qs (flat_map run_events rs) (write (Wr := AW) fuel (Some w) qs).1.1 /\ Forall run_ok rs.
Proof.
  induction fuel as [|fuel IH]; intros qs w Hw Hs Hok.
  { exists w, []. split_and!; [done|by apply put_refl|apply written_from_nil|constructor]. }
  cbn [write]. destruct (List.find _ qs) as [q|] eqn:Hf.
  2:{ exists w, []. split_and!; [done|by apply put_refl|apply written_from_nil|constructor]. }
  assert (Hq : event_ok q). { rewrite Forall_forall in Hok. apply Hok. apply List.find_some in Hf as [Hin _]. exact Hin. }
  set (v := q_selected q) in *. set (t := q_type q) in *. pose proof (eo_selected q Hq) as Hv. pose proof (eo_value q Hq) as Hm.
  cbn [open_writer close_writer ASDUEventWriteHandler mbind option_bind].
  destruct (wp_run _ _ _ (Open_spec t v (q_value q) w Hw Hm)) as (w0 & wr & -> & [[-> HP]|(w1 & W1 & Hroom & Hrun)]).
  - assert (HC : Close (writer_at v (q_value q) PrefixedWriteIterator.Null) w0 = Some (w0, tt)) by by rewrite Close_writer_at.
    rewrite write_run_null. cbn [Z.eqb mbind option_bind fst snd]. rewrite HC. cbn [mbind option_bind fst snd]. exists w0, []. split_and!; [done|done|apply written_from_nil|constructor].
  - pose proof (wrote_wf _ _ _ Hw W1) as Hw1.
    destruct (write_run_spec t v (q_value q) w1 qs [] wr w0 Hw1 Hv Hok Hrun) as (ws & wr2 & w2 & H1 & H2 & H3 & H4 & H5).
    assert (Hp : 0 < (write_run t v (Some (w0, wr) : AW) qs).2).
    { apply (write_run_progress t v _ qs q); [done..|]. cbn [writer_Write ASDUEventWriteHandler].
      destruct (wp_run _ _ _ (Write_running v (q_value q) w1 [] wr w0 q Hw1 Hrun Hq Hv)) as (w3 & [wr3 ok] & -> & HW).
      cbn [snd] in HW. destruct ok; [done|]. destruct HW as (_ & _ & []). split; [|done]. by eapply joins_first. }
    destruct (write_run t v (Some (w0, wr) : AW) qs) as [[qs1 aw] n]. cbn [fst snd app] in *. subst aw n.
    destruct (Z.eqb_spec (Z.of_nat (length ws)) 0); [lia|]. cbn [mbind option_bind].
    destruct (written_from_first qs ws qs1 q t v (q_value q) Hf H2 H4) as [ws' ->]; [by destruct ws|].
    assert (Hlen : (length (q :: ws') <= v_size (position w1))%nat).
    { eapply running_length; [exact Hw1|exact H5| |]; (eapply Forall_impl; [|exact H4]); intros x (? & ? & ? & ? & ?); [done|]. split; [|done]. etransitivity; [exact Hv|by symmetry]. }
    rewrite (wrote_size _ _ _ W1) in Hlen.
    destruct (wp_run _ _ _ (Close_spec v (q_value q) w1 (q :: ws') wr2 w2 Hw1 H5 ltac:(lia))) as (w4 & [] & -> & W4).
    set (r := mkRun v q ws'). pose proof (encode_run r w1 w _ eq_refl W1 w4 W4) as W.
    destruct (IH qs1 w4) as (w' & rs & G1 & G2 & G3 & G4).
    + by eapply wrote_wf.
    + rewrite (wrote_size _ _ _ W). lia.
    + assert (Hu : forall a b, unselect a = unselect b -> Forall event_ok b -> Forall event_ok a).
      { clear. assert (Hst : forall a, Forall event_ok a <-> Forall event_ok (unselect a)).
        { intros a. unfold unselect. rewrite Forall_map. split; apply Forall_impl; intros x []; by split. }
        intros a b Hab. rewrite (Hst a), (Hst b). by rewrite Hab. }
      eapply Hu; [exact (wf_same _ _ _ H2)|done].
    + cbn [mbind option_bind] in *. destruct (write fuel (Some w4) qs1) as [[qs2 h2] m]. cbn [fst snd] in *. exists w', (r :: rs). split_and!; [done| | |].
      * cbn [flat_map]. rewrite encode_all_app. eapply put_trans; [exact Hw|by apply wrote_put|exact G2].
      * cbn [flat_map]. eapply written_from_trans; [exact H2|exact G3].
      * constructor; [|done]. split; [|change (run_events r) with (q :: ws'); lia]. change (run_events r) with (q :: ws').
        change (run_variation r) with v. change (q_value (run_first r)) with (q_value q). by rewrite (Hv : EventVariation.type_of v = t).
Qed.

End Loading.

(** ** What is read back *)

(** The events in the headers of a response: the object class, the common time of
    occurrence in front of the header, the index and the value. *)
Fixpoint read_events (cto : option Z) (hs : list Header) : list (GroupVariation.t * option Z * Z * Value) :=
  match hs with
  | [] => []
  | PrefixOf record _ ivs :: hs => map (fun iv => (enum_of record, cto, iv.1, iv.2)) ivs ++ read_events cto hs
  | CountOf record _ [Fields [t]] :: hs =>
      read_events (if decide (enum_of record = GroupVariation.Group51Var1) then Some t else cto) hs
  | _ :: hs => read_events cto hs
  end.

Section ReadBack.
Context {M : Type} `{MeasurementOk M}.
Import Queue.
Implicit Types (q : Queued M) (qs ws : list (Queued M)) (w : Writer) (r : Run M) (rs : list (Run M)).

(** An entry of the response is an event of the queue: with its index, in the selected
    variation, the time of a relative one completed by the common time. *)
Definition reports q (e : GroupVariation.t * option Z * Z * Value) : Prop :=
  let '(gv, cto, i, value) := e in
  gv = object_of (q_selected q) /\ i = q_index q /\
  if is_relative (q_selected q) then exists base d, cto = Some base /\ time (q_value q) = base + d /\ 0 <= d <= 65535 /\
    value = WriteTarget gv (set_time d (q_value q))
  else value = WriteTarget gv (q_value q).

(** Octet strings without bytes have no variation that the parser takes. *)
Definition event_readable q : Prop := q_type q = OctetString -> 0 < Size_ (q_value q).

Lemma object_of_type v : prefix_object (object_of v) = true \/ v = EventVariation.Group111Var0.
Proof. destruct v; first [by left | by right]. Qed.

Lemma run_requests_ok r : run_ok r -> Forall request_ok (run_requests r).
Proof.
  intros [Hm Hl]. unfold run_requests. pose proof (Forall_inv Hm) as (Hq & Ht & _). apply Forall_app_2.
  - unfold cto_requests. destruct (is_relative _); [|constructor]. constructor; [|constructor]. cbn.
    constructor; [exact (time_fits _ _ (eo_value _ Hq))|constructor].
  - constructor; [|constructor]. split; [done|]. split; [rewrite length_map; exact Hl|]. apply Forall_map. eapply Forall_impl; [|exact Hm].
    intros q (Hok & Hty & _ & _ & Hj). pose proof (eo_index q Hok) as Hi. cbn. split; [unfold is_u16 in Hi; lia|].
    by apply (value_of_fits (q_type q)); [apply eo_value|symmetry|].
Qed.

Lemma run_requests_readable settings r :
  expectContents settings = true -> run_ok r -> Forall event_readable (run_events r) -> Forall (readable settings) (run_requests r).
Proof.
  intros Hs [Hm Hl] Hr. unfold run_requests. pose proof (Forall_inv Hm) as (Hq & Ht & _ & _ & Hj). apply Forall_app_2.
  - unfold cto_requests. destruct (is_relative _); [|constructor]. by constructor; [|constructor].
  - constructor; [|constructor]. cbn [readable]. unfold kind_of. pose proof (object_of_type (run_variation r)) as Ho.
    destruct (run_variation r); (destruct Ho as [Ho|Ho]; [first [exact Ho | discriminate Ho] |try discriminate Ho]).
    pose proof (octets_fit (q_value (run_first r))) as Hf. pose proof (Forall_inv Hr Ht) as Hpos. pose proof (eo_value _ Hq) as Hv.
    cbn in Ht. rewrite Ht in Hv. specialize (Hf Hv). destruct (WriteTarget _ _); cbn in Hf; try done. lia.
Qed.

Lemma kind_of_ok v t m : measurement_ok t m -> EventVariation.type_of v = t -> (v = EventVariation.Group111Var0 -> 0 < Size_ m) -> kind_ok (kind_of v m).
Proof.
  intros Hm Ht Hp. destruct v; try done. cbn in Ht. subst t. pose proof (octets_fit m Hm) as Hf. specialize (Hp eq_refl).
  cbn. destruct (WriteTarget _ _); cbn in Hf; try done. lia.
Qed.

Lemma kind_of_enum v m : kind_enum (kind_of v m) = object_of v.
Proof. by destruct v. Qed.

Lemma run_read r index cto reqs :
  run_ok r -> Forall event_readable (run_events r) -> exists cto' index' es,
    read_events cto (headers_of index (run_requests r ++ reqs) (map objects (run_requests r ++ reqs))) =
      es ++ read_events cto' (headers_of index' reqs (map objects reqs)) /\ Forall2 reports (run_events r) es.
Proof.
  intros [Hm Hl] Hr. set (v := run_variation r) in *. set (first := q_value (run_first r)) in *.
  pose proof (Forall_inv Hm) as (Hq & Ht & _ & _ & Hj).
  assert (Hk : kind_ok (kind_of v first)).
  { apply (kind_of_ok v (q_type (run_first r)) first); [by apply eo_value|by symmetry|]. intros Hv. apply (Forall_inv Hr). by rewrite Ht, Hv. }
  assert (Hw : forall cto index, (if is_relative v then cto = Some (time first) else True) ->
    exists es, read_events cto (headers_of index (WPrefixed W16 (kind_of v first) (map (obj v first) (run_events r)) :: reqs)
      (map objects (WPrefixed W16 (kind_of v first) (map (obj v first) (run_events r)) :: reqs))) =
      es ++ read_events cto (headers_of (u32 (index + 1)) reqs (map objects reqs)) /\ Forall2 reports (run_events r) es).
  { intros cto0 index0 Hc. eexists. cbn [map objects headers_of]. rewrite decide_False by done. cbn [header_of read_events].
    split; [done|]. rewrite take_ge by done. unfold enum_of. cbn [gv_record]. rewrite (kind_record _ Hk), kind_of_enum, map_map.
    clear Hl Hr Hq Ht Hj. clearbody first. induction Hm as [|q qs (Hok & Hty & Hsel & _ & Hjn) _ IH]; cbn [map]; constructor; [|exact IH].
    unfold reports. cbn [obj fst snd]. rewrite Hsel. split_and!; [done|done|]. unfold value_of. destruct (is_relative v) eqn:Hrel; [|done].
    exists (time first), (time (q_value q) - time first). split_and!; [done|lia| | |done];
      destruct v; try discriminate Hrel; cbn [joins] in Hjn; apply andb_prop in Hjn as [H1 H2]; lia. }
  unfold run_requests. fold v. fold first. unfold cto_requests. destruct (is_relative v) eqn:Hrel.
  - cbn [app map headers_of objects]. rewrite decide_False by done. cbn [header_of read_events].
    rewrite decide_True by done. destruct (Hw (Some (time first)) (u32 (index + 1)) eq_refl) as (es & He & Hes).
    exists (Some (time first)), (u32 (u32 (index + 1) + 1)), es. split; [exact He|done].
  - cbn [app]. destruct (Hw cto index I) as (es & He & Hes). exists cto, (u32 (index + 1)), es. split; [exact He|done].
Qed.

Lemma runs_read rs : forall index cto,
  Forall run_ok rs -> Forall event_readable (flat_map run_events rs) ->
  Forall2 reports (flat_map run_events rs)
    (read_events cto (headers_of index (flat_map run_requests rs) (map objects (flat_map run_requests rs)))).
Proof.
  induction rs as [|r rs IH]; intros index cto Hok Hr; [constructor|]. cbn [flat_map] in *.
  apply Forall_cons_1 in Hok as [Hr1 Hok]. apply Forall_app in Hr as [Hrd Hr].
  destruct (run_read r index cto (flat_map run_requests rs) Hr1 Hrd) as (cto' & index' & es & -> & Hes).
  apply Forall2_app; [exact Hes|]. by apply IH.
Qed.

(** [Load] on the writer of a response. *)
Lemma EventBuffer_Load_spec caps b s w :
  caps_ok caps -> models caps b s -> wwf w -> Z.of_nat (v_size (position w)) <= 65535 -> Forall event_ok (qb_events s) ->
  exists w' b' qs' rs, EventBuffer_Load b w = Some (w', (b', negb (existsb (in_state selected_) qs'))) /\
    models caps b' (mkQueueBuffer (qb_overflow s) qs') /\ put w w' (encode_all (flat_map run_requests rs)) /\ mark w' = mark w /\
    written_from (qb_events s) (flat_map run_events rs) qs' /\ Forall run_ok rs.
Proof.
  intros Hcaps Hs Hw Hsz Hok. destruct (Load_refines (Wr := option (Writer * EventWriter)) caps b s (Some w) Hcaps Hs) as (b1 & n & HL & HM & _).
  destruct (write_spec (S (length (qb_events s))) (qb_events s) w Hw Hsz Hok) as (w' & rs & H1 & H2 & H3 & H4).
  unfold EventBuffer_Load. rewrite HL, H1. cbn [mbind option_bind]. eexists _, b1, _, rs. split; [done|].
  split_and!; [exact HM|exact H2|done|exact H3|exact H4].
Qed.

(** [Load] on a reachable buffer: the runs that it writes, and what the parser makes of
    them. *)
Lemma Load_decoded config (b : EventBuffer M) (h : option Writer) (w : Writer) qs settings :
  config_ok config -> reachable config b h -> contents b = Some qs -> Forall event_ok qs -> Forall event_readable qs ->
  wwf w -> Z.of_nat (v_size (position w)) <= 65535 -> expectContents settings = true ->
  exists w' b' fin rs qs', EventBuffer_Load b w = Some (w', (b', fin)) /\ put w w' (encode_all (flat_map run_requests rs)) /\
    decoded settings (encode_all (flat_map run_requests rs)) =
      Some (headers_of 0 (flat_map run_requests rs) (map objects (flat_map run_requests rs)), OK) /\
    contents b' = Some qs' /\ written_from qs (flat_map run_events rs) qs' /\ Forall run_ok rs /\
    Forall event_readable (flat_map run_events rs) /\ (fin = true <-> List.filter (in_state selected_) qs' = []).
Proof.
  intros Hc Hr Hqs Hok Hrd Hw Hsz Hset. destruct (reachable_models config b h Hc Hr) as (s & Hs).
  pose proof (models_contents _ _ _ Hs) as Hcs. rewrite Hqs in Hcs. injection Hcs as ->.
  destruct (EventBuffer_Load_spec _ b s w (caps_of_ok _ Hc) Hs Hw Hsz Hok) as (w' & b' & qs' & rs & HL & HM & HP & _ & HW & HR).
  assert (Hrr : Forall event_readable (flat_map run_events rs)).
  { apply Forall_forall. intros q Hq. rewrite Forall_forall in Hrd. apply Hrd.
    assert (Hin : List.In q (List.filter (in_state selected_) (qb_events s))) by (rewrite (wf_selected _ _ _ HW); apply List.in_or_app; by left).
    by apply List.filter_In in Hin as [Hin _]. }
  exists w', b', (negb (existsb (in_state selected_) qs')), rs, qs'.
  split_and!; [exact HL|exact HP| |exact (models_contents _ _ _ HM)|exact HW|exact HR|exact Hrr|].
  - assert (Hreqs : Forall request_ok (flat_map run_requests rs) /\ Forall (readable settings) (flat_map run_requests rs)).
    { clear -Hset HR Hrr. induction HR as [|r rs Hr HR IH]; [by split|]. cbn [flat_map] in *. apply Forall_app in Hrr as [Hr1 Hr2].
      destruct (IH Hr2). split; apply Forall_app_2; [by apply run_requests_ok|done|by apply run_requests_readable|done]. }
    destruct Hreqs as [Ho Hre]. unfold decoded, APDUParser.ParseSinglePass, encode_all.
    assert (Hns : Forall2 (fun req n => (n <= objects req)%nat) (flat_map run_requests rs) (map objects (flat_map run_requests rs))).
    { clear. induction (flat_map run_requests rs); cbn [map]; by constructor. }
    pose proof (loop_requests settings _ _ _ 0 Ho Hre Hns (le_n _)) as He. by rewrite (He _ (Some recorder)), deliver_recorder.
  - rewrite negb_true_iff. apply existsb_filter.
Qed.

(** C3: The events that a response takes from the buffer are what the other side reads.
    [Load] runs on every reachable buffer and every window of at most 65535 bytes; it
    changes the window only from its start on, and what it wrote is accepted by the
    parser.  Read in their order, completing relative times with the last common time
    of occurrence, the headers report exactly the events that are now marked as
    written: the oldest selected ones, in the order of the queue, each with its
    index, its selected variation and its value.  The result says whether selected
    events are left. *)
Theorem loaded_events_are_read_back config (b : EventBuffer M) (h : option Writer) (w : Writer) qs settings :
  config_ok config -> reachable config b h -> contents b = Some qs -> Forall event_ok qs -> Forall event_readable qs ->
  wwf w -> Z.of_nat (v_size (position w)) <= 65535 -> expectContents settings = true ->
  exists w' b' fin data hs ws qs', EventBuffer_Load b w = Some (w', (b', fin)) /\ put w w' data /\
    decoded settings data = Some (hs, OK) /\ contents b' = Some qs' /\ written_from qs ws qs' /\
    Forall2 reports ws (read_events None hs) /\ (fin = true <-> List.filter (in_state selected_) qs' = []).
Proof.
  intros Hc Hr Hqs Hok Hrd Hw Hsz Hset.
  destruct (Load_decoded config b h w qs settings Hc Hr Hqs Hok Hrd Hw Hsz Hset) as (w' & b' & fin & rs & qs' & HL & HP & HD & HC & HW & HR & Hrr & Hf).
  do 3 eexists. exists (encode_all (flat_map run_requests rs)). eexists _, (flat_map run_events rs), qs'.
  split_and!; [exact HL|exact HP|exact HD|exact HC|exact HW| |exact Hf]. by apply runs_read.
Qed.

End ReadBack.

(** ** An instance *)

(** Measurements with a time, a value that is clipped to its field, and a size. *)
Record Sample := mkSample { s_time : Z; s_value : Z; s_size : Z }.

Definition clip (s : Serializer) (v : Z) : Z := Z.max (Min s) (Z.min (Max s) v).

Lemma clip_fits s v : SerializerOk s -> Min s <= clip s v <= Max s.
Proof.
  intros Hs. pose proof (decode_range (s := s) (encode s 0) (encode_bytes 0) (encode_length 0)). unfold clip. lia.
Qed.

Definition Sample_target (gv : GroupVariation.t) (m : Sample) : Value :=
  match gv with
  | GroupVariation.Group110Var0 | GroupVariation.Group111Var0 => Octets (replicate (Z.to_nat (s_size m)) 0)
  | GroupVariation.Group2Var3 | GroupVariation.Group4Var3 => Fields (map (fun s => clip s (s_time m)) (fields gv))
  | _ => Fields (map (fun s => clip s (s_value m)) (fields gv))
  end.

#[export] Instance Sample_measurement : Measurement Sample := {|
  WriteTarget := Sample_target;
  time := s_time;
  set_time t m := mkSample t (s_value m) (s_size m);
  Size_ := s_size
|}.

Lemma Sample_fits gv m : gv <> GroupVariation.Group110Var0 -> gv <> GroupVariation.Group111Var0 -> value_fits (Class gv) (Sample_target gv m).
Proof.
  intros Hgv Hgv'. assert (Hf : forall v, Forall2 (fun s v => Min s <= v <= Max s) (fields gv) (map (fun s => clip s v) (fields gv))).
  { intros v. pose proof (fields_ok gv) as Hok. induction Hok; cbn [map]; constructor; [by apply clip_fits|done]. }
  destruct gv; try done; apply Hf.
Qed.

#[export] Instance Sample_ok : MeasurementOk Sample.
Proof.
  refine {| measurement_ok (t : EventType) m := 0 <= s_time m <= UInt48_MAX /\ 0 <= s_size m < 256 |}.
  - intros t m v _ _ _ Hne. by apply Sample_fits; destruct v.
  - intros t m v d _ _ Hr _. by apply Sample_fits; destruct v.
  - intros m [_ Hs]. cbn. split_and!; [lia|lia|len|]. apply Forall_replicate. unfold is_u8. lia.
  - by intros t m [Ht _].
Defined.

(** Three relative binary events, of which the last is too late for the first, and an
    octet string; the last event finds no room. *)
Definition sample_ops : list (Op Sample) :=
  [OpUpdate Binary (mkEvent (mkSample 1000 1 0) 3 EC1 EventVariation.Group2Var3);
   OpUpdate Binary (mkEvent (mkSample 1500 1 0) 9 EC1 EventVariation.Group2Var3);
   OpUpdate Binary (mkEvent (mkSample 70000 1 0) 4 EC1 EventVariation.Group2Var3);
   OpUpdate OctetString (mkEvent (mkSample 0 1 2) 5 EC2 EventVariation.Group111Var0);
   OpUpdate Analog (mkEvent (mkSample 0 7 0) 6 EC2 EventVariation.Group32Var1);
   OpSelectAllByClass ClassField.AllEventClasses].

Definition buffer_after {M} `{Measurement M} (dflt : M) (config : EventBufferConfig) (ops : list (Op M))
    : option (EventBuffer M * option Writer * list Out) :=
  b0 ← EventBuffer.init dflt config; run (Wr := option (Writer * EventWriter)) ops b0 None.

Lemma buffer_after_reachable {M} `{Measurement M} (dflt : M) config ops b h os :
  Forall op_ok ops -> buffer_after dflt config ops = Some (b, h, os) -> reachable config b h.
Proof. intros Ho Hb. by exists dflt, ops, None, os. Qed.

#[local] Abbreviation sample_buffer := (buffer_after (mkSample 0 0 0) (AllTypes 5) sample_ops).

(** The entries that a response with [n] bytes reports. *)
Definition sample_response (n : nat) : option (list (GroupVariation.t * option Z * Z * Value)) :=
  '(b, _, _) ← sample_buffer;
  '(w, _) ← EventBuffer_Load b (empty_writer n);
  '(hs, _) ← decoded ParserSettings.Default (drop 4 (take (v_pos (position w)) (wr_array w)));
  Some (read_events None hs).

Example sample_response_read :
  sample_response 65 =
    Some [(GroupVariation.Group2Var3, Some 1000, 3, Fields [0; 0]); (GroupVariation.Group2Var3, Some 1000, 9, Fields [255; 500]);
          (GroupVariation.Group2Var3, Some 70000, 4, Fields [0; 0]);
          (GroupVariation.Group111Var0, Some 70000, 5, Octets [0; 0])].
Proof. vm_compute. reflexivity. Qed.

Lemma sample_ops_ok : Forall op_ok sample_ops.
Proof. unfold sample_ops. repeat apply Forall_cons_2; try exact I. apply Forall_nil_2. Qed.

Lemma sample_config_ok : config_ok (AllTypes 5).
Proof. unfold config_ok. repeat constructor; cbn; unfold is_u16; lia. Qed.

Lemma sample_events_ok b h os qs :
  sample_buffer = Some (b, h, os) -> contents b = Some qs -> Forall event_ok qs /\ Forall event_readable qs.
Proof.
  intros Hb Hc. vm_compute in Hb. injection Hb as <- _ _. vm_compute in Hc. injection Hc as <-. split.
  - repeat constructor; cbn; unfold is_u16, UInt48_MAX; lia.
  - repeat constructor; intros Ht; try discriminate Ht.
Qed.

Lemma loaded_events_are_read_back_witness :
  match sample_buffer with
  | Some (b, _, _) => exists qs w' b' fin data hs ws qs', EventBuffer_Load b (empty_writer 65) = Some (w', (b', fin)) /\
      put (empty_writer 65) w' data /\ decoded ParserSettings.Default data = Some (hs, OK) /\ contents b' = Some qs' /\
      written_from qs ws qs' /\ Forall2 reports ws (read_events None hs) /\
      (fin = true <-> List.filter (Queue.in_state selected_) qs' = [])
  | None => False
  end.
Proof.
  destruct sample_buffer as [[[b h] os]|] eqn:Hb; [|vm_compute in Hb; discriminate Hb].
  destruct (contents b) as [qs|] eqn:Hqs.
  - exists qs. destruct (sample_events_ok b h os qs Hb Hqs) as [Hok Hrd].
    apply (loaded_events_are_read_back (AllTypes 5) b h (empty_writer 65) qs ParserSettings.Default sample_config_ok).
    + exact (buffer_after_reachable _ _ _ b h os sample_ops_ok Hb).
    + exact Hqs.
    + exact Hok.
    + exact Hrd.
    + unfold wwf. cbn. lia.
    + cbn. lia.
    + reflexivity.
  - vm_compute in Hb. injection Hb as <- _ _. vm_compute in Hqs. discriminate Hqs.
Defined.
