(* ===== verification/RequestSpecs.v ===== *)
(** * RequestSpecs: what the handlers of requests do

    Every handler of [RequestHandlers] runs without undefined behaviour on every
    request, and what it may do to the state and to the outside is described:
    which calls are made, and what is written into the response. *)

From S2P Require Import Prelude Slices Serialization LinkFrame AppHeader Objects ObjectParser HeaderWriter HeaderRoundtrip EventList EventBuffer EventSpec EventProps EventWriters EventResponse OutstationState RequestHandlers.
From Stdlib Require Import ZifyNat.

Open Scope Z_scope.

(** ** Computations *)

Section Computations.

Lemma wp_on {W S A} (get_part : W -> S) (set_part : S -> W -> W) (m : SM S A) w Q :
  wp (on get_part set_part m) w Q <-> wp m (get_part w) (fun a s => Q a (set_part s w)).
Proof. unfold wp, on. destruct (m (get_part w)) as [[s a]|]; done. Qed.

Lemma wp_lift {W A} (o : option A) (w : W) Q : wp (lift o) w Q <-> exists a, o = Some a /\ Q a w.
Proof.
  unfold wp, lift. destruct o as [a|]; cbn [mbind option_bind]; [|by split; [|intros (? & ? & ?)]]. split; [eauto|]. by intros (? & [= ->] & ?).
Qed.

Lemma wp_lift_some {W A} (o : option A) a (w : W) Q : o = Some a -> Q a w -> wp (lift o) w Q.
Proof. intros. apply wp_lift. eauto. Qed.

Context {W : Type} `{Environment W}.

Lemma wp_ask {A} (f : W -> A * W) o Q : (forall a w, Q a (mkOutside w (calls o))) -> wp (ask f) o Q.
Proof. intros HQ. unfold wp, ask. destruct (f (world o)). apply HQ. Qed.

Lemma wp_call_out {A} c (f : Call -> W -> A * W) o Q :
  (forall a w, Q a (mkOutside w (calls o ++ [c]))) -> wp (call_out c f) o Q.
Proof. intros HQ. unfold wp, call_out. destruct (f c (world o)). apply HQ. Qed.

Lemma wp_call_answered {A} c (f : W -> A * W) o Q :
  (forall a w, Q a (mkOutside w (calls o ++ [c a]))) -> wp (call_answered c f) o Q.
Proof. intros HQ. unfold wp, call_answered. destruct (f (world o)). apply HQ. Qed.

Lemma wp_tell c o Q : (forall w, Q tt (mkOutside w (calls o ++ [c]))) -> wp (tell c) o Q.
Proof. intros HQ. apply HQ. Qed.

End Computations.

(** ** Running a handler on the objects of a request *)

Section Runs.
Context {L : Type} (ProcessHeader : Header -> Z -> option (SM L IINField)) (allow : Z -> GroupVariation.t -> QualifierCode -> bool).
(** What holds after some headers. *)
Context (Inv : list Header -> L -> Prop).

(** What a header does, after the headers [hs]. *)
Definition step_ok (hs : list Header) (h : Header) (n : Z) (l : L) : Prop :=
  match ProcessHeader h n with
  | Some m => wp m l (fun _ l' => Inv (hs ++ [h]) l')
  | None => Inv (hs ++ [h]) l
  end.

(** All headers of the request, or none. *)
Definition handled (settings : ParserSettings) (objects : RSlice) (hs : list Header) (result : ParseResult) : Prop :=
  (result = OK -> decoded settings objects = Some (hs, OK) /\ Forall header_ok hs /\
     forallb (fun h => allow (headerIndex (record_of h)) (enum_of (record_of h)) (GetQualifierCode (record_of h))) hs = true) /\
  (result <> OK -> hs = []).

Section Numbered.
Context (Hstep : forall hs h n l, Inv hs l -> header_ok h -> headerIndex (record_of h) = u32 (Z.of_nat (length hs)) ->
  allow (headerIndex (record_of h)) (enum_of (record_of h)) (GetQualifierCode (record_of h)) = true -> step_ok hs h n l).

Lemma deliver_wp hs hs0 h0 :
  Forall header_ok hs -> numbered (u32 (Z.of_nat (length hs0))) hs -> forallb (allowed (APDUHandler.handler ProcessHeader allow)) hs = true ->
  Inv hs0 (local h0) -> exists h1, deliver (APDUHandler.handler ProcessHeader allow) hs h0 = Some h1 /\ Inv (hs0 ++ hs) (local h1).
Proof.
  revert hs0 h0. induction hs as [|h hs IH]; intros hs0 h0 Hok Hnum Hall Hi; cbn [deliver].
  { exists h0. by rewrite app_nil_r. }
  apply Forall_cons_1 in Hok as [Hh Hok]. cbn [forallb] in Hall. apply andb_prop in Hall as [Ha Hall]. destruct Hnum as [Hn0 Hnum].
  pose proof (Hstep hs0 h (numTotalHeaders h0) (local h0) Hi Hh Hn0 Ha) as Hs. unfold step_ok in Hs.
  assert (Ho : exists h1, APDUHandler.OnHeader ProcessHeader h h0 = Some h1 /\ Inv (hs0 ++ [h]) (local h1)).
  { unfold APDUHandler.OnHeader. destruct (ProcessHeader h _) as [m|].
    - apply wp_run in Hs as (l' & r & -> & Hi'). cbn [mbind option_bind]. by eexists.
    - cbn. by eexists. }
  destruct Ho as (h1 & Ho & Hi1). cbn [OnHeader APDUHandler.handler]. rewrite Ho. cbn [mbind option_bind].
  destruct (IH (hs0 ++ [h]) h1 Hok) as (h2 & Hd & Hi2); [|done..|exists h2; by rewrite <- app_assoc in Hi2].
  rewrite length_app, Nat2Z.inj_add. unfold u32 in *. by rewrite <- Zplus_mod_idemp_l.
Qed.

Lemma Parse_numbered_wp settings objects h :
  bytes_ok objects -> Inv [] (local h) ->
  exists h1 result hs, APDUParser.Parse settings (APDUHandler.handler ProcessHeader allow) objects h = Some (h1, result) /\
    handled settings objects hs result /\ Inv hs (local h1).
Proof.
  intros Hb Hi. destruct (Parse_spec settings (APDUHandler.handler ProcessHeader allow) objects h Hb) as (hs & result & Hd & Hoks & Hnum & H1 & H2).
  destruct (decide (result = OK)) as [->|Hne].
  - destruct (forallb (allowed (APDUHandler.handler ProcessHeader allow)) hs) eqn:Hall.
    + rewrite H1 by done. destruct (deliver_wp hs [] h Hoks Hnum Hall Hi) as (h1 & -> & Hi1). cbn [mbind option_bind].
      exists h1, OK, hs. split; [done|]. split; [|done]. by split.
    + destruct H2 as (e & He & ->); [by intros [_ ?]|]. exists h, e, []. split; [done|]. split; [|done]. by split.
  - destruct H2 as (e & He & ->); [by intros [? _]|]. exists h, e, []. split; [done|]. split; [|done]. by split.
Qed.

Lemma run_numbered_wp settings objects l (Q : Handling L * ParseResult -> L -> Prop) :
  bytes_ok objects -> Inv [] l ->
  (forall h hs result, handled settings objects hs result -> Inv hs (local h) -> Q (h, result) (local h)) ->
  wp (APDUHandler.run settings (APDUHandler.handler ProcessHeader allow) objects) l Q.
Proof.
  intros Hb Hi HQ. unfold wp, APDUHandler.run.
  destruct (Parse_numbered_wp settings objects (APDUHandler.init l) Hb Hi) as (h1 & result & hs & -> & Hh & Hi1). by eapply HQ.
Qed.

End Numbered.

(** Most handlers do not look at the number of a header. *)
Context (Hstep : forall hs h n l, Inv hs l -> header_ok h ->
  allow (headerIndex (record_of h)) (enum_of (record_of h)) (GetQualifierCode (record_of h)) = true ->
  match ProcessHeader h n with
  | Some m => wp m l (fun _ l' => Inv (hs ++ [h]) l')
  | None => Inv (hs ++ [h]) l
  end).

Lemma Parse_wp settings objects h :
  bytes_ok objects -> Inv [] (local h) ->
  exists h1 result hs, APDUParser.Parse settings (APDUHandler.handler ProcessHeader allow) objects h = Some (h1, result) /\
    handled settings objects hs result /\ Inv hs (local h1).
Proof. apply Parse_numbered_wp. intros hs hd n l Hi Hh _. by apply Hstep. Qed.

Lemma run_wp settings objects l (Q : Handling L * ParseResult -> L -> Prop) :
  bytes_ok objects -> Inv [] l ->
  (forall h hs result, handled settings objects hs result -> Inv hs (local h) -> Q (h, result) (local h)) ->
  wp (APDUHandler.run settings (APDUHandler.handler ProcessHeader allow) objects) l Q.
Proof. apply run_numbered_wp. intros hs hd n l' Hi Hh _. by apply Hstep. Qed.

End Runs.

(** ** The database *)

(** What the session relies on: on a good database every operation is defined and
    leaves a good database; [Load] writes into the response and nowhere else. *)
Class StaticDatabaseOk (D : Type) `{IStaticDatabase D} := {
  database_ok : D -> Prop;
  SelectAll_ok gv d : database_ok d -> exists d' iin, SelectAll gv d = Some (d', iin) /\ database_ok d';
  SelectRange_ok gv range d : database_ok d -> range_ok range -> exists d' iin, SelectRange gv range d = Some (d', iin) /\ database_ok d';
  Unselect_ok d : database_ok d -> exists d', Unselect d = Some d' /\ database_ok d';
  Load_ok d w : database_ok d -> wwf w -> wp (Load d) w (fun r w' => database_ok r.1 /\ exists data, put w w' data);
  AssignClassToAll_ok type clazz d : database_ok d ->
    exists d' range, AssignClassToAll type clazz d = Some (d', range) /\ database_ok d';
  AssignClassToRange_ok type clazz range d : database_ok d -> range_ok range ->
    exists d' range', AssignClassToRange type clazz range d = Some (d', range') /\ database_ok d'
}.

(** ** WriteHandler *)

(** A write that clears the restart bit: one object of g80v1 with index 7, false. *)
Definition clears_restart (h : Header) : bool :=
  match h with
  | RangeOf record _ [(7, Bit false)] => bool_decide (enum_of record = GroupVariation.Group80Var1)
  | _ => false
  end.

Section Writes.
Context {W : Type} `{Environment W}.
Implicit Types (o : Outside W) (s : WriteState W).

Definition time_call (c : Call) : Prop :=
  match c with WriteAbsoluteTime _ | WriteTimeAndInterval _ => True | _ => False end.

Record write_inv o (iin : IINField) (hs : list Header) s : Prop := mkWriteInv {
  wi_calls : exists new, calls (ws_outside s) = calls o ++ new /\ Forall time_call new;
  wi_wrote : wroteIIN s = existsb clears_restart hs;
  wi_iin : writeIIN s = if wroteIIN s then IINField.ClearBit iin DEVICE_RESTART else iin
}.

Lemma write_inv_call o iin hs s c w :
  write_inv o iin hs s -> time_call c ->
  write_inv o iin hs (mkWriteState (mkOutside w (calls (ws_outside s) ++ [c])) (timeSyncState s) (writeIIN s) (wroteTime s) (wroteIIN s)).
Proof.
  intros [(new & Hc & Hn) Hw Hi] Ht. split; [|done|done]. exists (new ++ [c]). cbn. rewrite Hc, app_assoc. split; [done|].
  apply Forall_app_2; [done|]. by constructor.
Qed.

Lemma write_inv_world o iin hs s w t b :
  write_inv o iin hs s -> write_inv o iin hs (mkWriteState (mkOutside w (calls (ws_outside s))) t (writeIIN s) b (wroteIIN s)).
Proof. by intros [Hc Hw Hi]. Qed.

Lemma write_inv_skip o iin hs s h : write_inv o iin hs s -> clears_restart h = false -> write_inv o iin (hs ++ [h]) s.
Proof. intros [Hc Hw Hi] Hh. split; [done| |done]. by rewrite existsb_app, Hw, orb_comm; cbn; rewrite Hh. Qed.

(** The steps of the handler keep the invariant. *)
Lemma write_answer o iin hs b s : write_inv o iin hs s -> wp (WriteHandler.answer b) s (fun _ s' => write_inv o iin hs s').
Proof. intros Hs. by destruct b. Qed.

Lemma ProcessIIN_wp o iin hs record range values s :
  write_inv o iin hs s -> header_ok (RangeOf record range values) -> enum_of record = GroupVariation.Group80Var1 ->
  wp (WriteHandler.ProcessIIN values) s (fun _ s' => write_inv o iin (hs ++ [RangeOf record range values]) s').
Proof.
  intros Hs (Hr & Hl & Hv) He. unfold WriteHandler.ProcessIIN, ReadOnlyValue.
  destruct values as [|[index value] [|]]; [by apply write_inv_skip| |].
  2:{ apply write_inv_skip; [done|]. cbn. repeat (case_match; try done). }
  destruct (Hv 0%nat (index, value) eq_refl) as [_ Hval]. unfold value_ok in Hval. rewrite He in Hval. cbn [shape_of fst snd] in Hval.
  destruct value as [|b| |]; try done. wp_go. destruct (wroteIIN s) eqn:Hwr.
  { destruct Hs as [Hc Hw Hi]. split; [done| |done]. rewrite existsb_app, <- Hw, Hwr. done. }
  destruct (Z.eqb_spec index 7) as [->|Hne]; cbn [negb].
  - destruct b; [by apply write_inv_skip|]. wp_go. destruct Hs as [Hc Hw Hi]. split; cbn [ws_outside writeIIN wroteIIN]; [done| |].
    + rewrite existsb_app. cbn. rewrite bool_decide_true by done. by rewrite orb_true_r.
    + by rewrite Hi, Hwr.
  - apply write_inv_skip; [done|]. cbn. repeat (case_match; try done).
Qed.

Lemma ask_support {A} o iin hs (f : W -> A * W) s Q :
  write_inv o iin hs s ->
  (forall a w, write_inv o iin hs (mkWriteState (mkOutside w (calls (ws_outside s))) (timeSyncState s) (writeIIN s) (wroteTime s) (wroteIIN s)) ->
    Q a (mkWriteState (mkOutside w (calls (ws_outside s))) (timeSyncState s) (writeIIN s) (wroteTime s) (wroteIIN s))) ->
  wp (WriteHandler.application (ask f)) s Q.
Proof.
  intros Hs HQ. unfold WriteHandler.application. rewrite wp_on. apply wp_ask. intros a w. apply HQ. by apply write_inv_world.
Qed.

Lemma tell_time o iin hs c (f : Call -> W -> bool * W) s :
  write_inv o iin hs s -> time_call c ->
  wp (ok ← WriteHandler.application (call_out c f); WriteHandler.answer ok) s (fun _ s' => write_inv o iin hs s').
Proof.
  intros Hs Hc. rewrite wp_bind. unfold WriteHandler.application. rewrite wp_on. apply wp_call_out. intros a w.
  apply write_answer. by apply write_inv_call.
Qed.

Lemma one_time gv values (record : HeaderRecord) count :
  header_ok (CountOf record count values) -> enum_of record = gv -> fields gv = [UInt48] -> shape_of gv = OfFields ->
  match ReadOnlyValue values with Some (Fields [_]) | None => True | _ => False end.
Proof.
  intros (_ & _ & Hv) He Hf Hs. destruct values as [|v [|]]; [done| |done]. cbn [ReadOnlyValue].
  pose proof (Hv 0%nat v eq_refl) as Hok. unfold value_ok in Hok. rewrite He, Hs in Hok. destruct v as [vs| | |]; try done.
  rewrite Hf in Hok. inversion Hok as [|? ? ? ? _ Hn]; subst. by inversion Hn.
Qed.

Lemma ProcessAbsoluteTime_wp o iin hs record count values s :
  write_inv o iin hs s -> header_ok (CountOf record count values) -> enum_of record = GroupVariation.Group50Var1 ->
  wp (WriteHandler.ProcessAbsoluteTime values) s (fun _ s' => write_inv o iin hs s').
Proof.
  intros Hs Hok He. pose proof (one_time _ _ _ _ Hok He eq_refl eq_refl) as Hv. unfold WriteHandler.ProcessAbsoluteTime. wp_go.
  destruct (wroteTime s); [done|]. wp_go. eapply ask_support; [exact Hs|]. intros supported w Hs1. destruct supported; cbn [negb]; [|done].
  destruct (ReadOnlyValue values) as [[[|t [|]]| | |]|]; try done. rewrite wp_bind, wp_modify. apply tell_time; [|done].
  by apply (write_inv_world _ _ _ _ w (timeSyncState s) true) in Hs1.
Qed.

Lemma ProcessRecordedTime_wp o iin hs seq now record count values s :
  write_inv o iin hs s -> header_ok (CountOf record count values) -> enum_of record = GroupVariation.Group50Var3 ->
  wp (WriteHandler.ProcessRecordedTime seq now values) s (fun _ s' => write_inv o iin hs s').
Proof.
  intros Hs Hok He. pose proof (one_time _ _ _ _ Hok He eq_refl eq_refl) as Hv. unfold WriteHandler.ProcessRecordedTime. wp_go.
  destruct (wroteTime s); [done|]. wp_go. eapply ask_support; [exact Hs|]. intros supported w Hs1. destruct supported; cbn [negb]; [|done].
  destruct (ReadOnlyValue values) as [[[|t [|]]| | |]|]; try done. wp_go. cbn [timeSyncState].
  destruct (TimeSyncState.CalcTimeDifference (timeSyncState s) seq now) as [t' ok]. rewrite wp_bind, wp_modify. destruct ok; cbn [negb].
  - rewrite wp_bind, wp_modify. apply tell_time; [|done]. by apply (write_inv_world _ _ _ _ w t' true) in Hs1.
  - by apply (write_inv_world _ _ _ _ w t' (wroteTime s)) in Hs1.
Qed.

Lemma ProcessTimeAndInterval_wp o iin hs values s :
  write_inv o iin hs s -> wp (WriteHandler.ProcessTimeAndInterval values) s (fun _ s' => write_inv o iin hs s').
Proof.
  intros Hs. unfold WriteHandler.ProcessTimeAndInterval. rewrite wp_bind. eapply ask_support; [exact Hs|]. intros supported w Hs1.
  destruct supported; cbn [negb]; [|done]. by apply tell_time.
Qed.

Lemma WriteHandler_step o iin seq now hs h n s :
  write_inv o iin hs s -> header_ok h ->
  match WriteHandler.ProcessHeader seq now h n with
  | Some m => wp m s (fun _ s' => write_inv o iin (hs ++ [h]) s')
  | None => write_inv o iin (hs ++ [h]) s
  end.
Proof.
  intros Hs Hok. unfold WriteHandler.ProcessHeader.
  assert (Hskip : forall m : SM (WriteState W) IINField, clears_restart h = false ->
    wp m s (fun _ s' => write_inv o iin hs s') -> wp m s (fun _ s' => write_inv o iin (hs ++ [h]) s')).
  { intros m Hc Hm. eapply wp_mono; [exact Hm|]. intros r s' Hs'. by apply write_inv_skip. }
  destruct h as [| | |record count values|record range values|record count values|]; try (by apply write_inv_skip).
  - destruct (enum_of record) eqn:He; try (by apply write_inv_skip); (apply Hskip; [done|]).
    + by eapply ProcessAbsoluteTime_wp.
    + by eapply ProcessRecordedTime_wp.
  - destruct (decide (enum_of record = GroupVariation.Group80Var1)) as [He|Hne].
    + rewrite He. by apply ProcessIIN_wp.
    + assert (Hc : clears_restart (RangeOf record range values) = false).
      { cbn. repeat (case_match; try done). by rewrite bool_decide_false. }
      destruct (enum_of record); try (by apply write_inv_skip). done.
  - destruct (enum_of record); try (by apply write_inv_skip). apply Hskip; [done|]. by apply ProcessTimeAndInterval_wp.
Qed.

End Writes.

(** ** AssignClassHandler *)

Section Assignments.
Context {W D : Type} `{Environment W} `{StaticDatabaseOk D}.

Definition assign_call (c : Call) : Prop := match c with RecordClassAssignment _ _ _ _ => True | _ => False end.

Definition assign_inv (o : Outside W) (s : AssignState W D) : Prop :=
  database_ok (assigner s) /\ exists new, calls (as_outside s) = calls o ++ new /\ Forall assign_call new.

Lemma assign_wp {A} o (f : D -> option (D * A)) s (Q : A -> AssignState W D -> Prop) :
  assign_inv o s -> (forall d, database_ok d -> exists d' a, f d = Some (d', a) /\ database_ok d') ->
  (forall a s', assign_inv o s' -> Q a s') ->
  wp (AssignClassHandler.assign f) s Q.
Proof.
  intros [Hd Hc] Hf HQ. unfold wp, AssignClassHandler.assign. destruct (Hf _ Hd) as (d' & a & -> & Hd'). by apply HQ.
Qed.

Lemma Notify_wp o type clazz range s :
  assign_inv o s -> wp (AssignClassHandler.NotifyApplicationOfAssignment type clazz range) s (fun _ s' => assign_inv o s').
Proof.
  intros [Hd (new & Hc & Hn)]. unfold AssignClassHandler.NotifyApplicationOfAssignment. destruct (Range.IsValid range); [|split; eauto].
  rewrite wp_on. apply wp_tell. intros w. split; [done|]. exists (new ++ [RecordClassAssignment type clazz (start range) (stop range)]).
  cbn. rewrite Hc, app_assoc. split; [done|]. apply Forall_app_2; [done|]. by constructor.
Qed.

Lemma IsExpecting_wp o n s :
  assign_inv o s -> wp (AssignClassHandler.IsExpectingAssignment n) s (fun _ s' => assign_inv o s').
Proof. intros Hs. unfold AssignClassHandler.IsExpectingAssignment. wp_go. by destruct (_ && _). Qed.

Lemma AssignClassHandler_step o h n s :
  assign_inv o s -> header_ok h ->
  match AssignClassHandler.ProcessHeader h n with
  | Some m => wp m s (fun _ s' => assign_inv o s')
  | None => assign_inv o s
  end.
Proof.
  intros Hs Hok. unfold AssignClassHandler.ProcessHeader. destruct h as [record| |record range| | | |]; try done.
  - rewrite wp_bind. eapply wp_mono; [by apply IsExpecting_wp|]. intros [] s1 Hs1.
    + destruct (AssignClassHandler.assignable _) as [type|]; [|done]. wp_go. unfold AssignClassHandler.ProcessAssignAll. rewrite wp_bind.
      apply (assign_wp o); [done|intros d Hd; by apply AssignClassToAll_ok|]. intros range s2 Hs2. rewrite wp_bind.
      eapply wp_mono; [by apply Notify_wp|]. by intros [] s3 Hs3.
    + unfold AssignClassHandler.RecordClass. wp_go. by destruct (enum_of record).
  - rewrite wp_bind. eapply wp_mono; [by apply IsExpecting_wp|]. intros [] s1 Hs1; [|done].
    destruct (AssignClassHandler.assignable _) as [type|]; [|done]. wp_go. unfold AssignClassHandler.ProcessAssignRange. rewrite wp_bind.
    apply (assign_wp o); [done|intros d Hd; by apply AssignClassToRange_ok|]. intros range' s2 Hs2. rewrite wp_bind.
    eapply wp_mono; [by apply Notify_wp|]. by intros [] s3 Hs3.
Qed.

End Assignments.

(** ** ReadHandler *)

Section Reads.
Context {M D : Type} `{MeasurementOk M} `{StaticDatabaseOk D}.
Import Queue.
Implicit Types (q : Queued M) (qs : list (Queued M)) (b : EventBuffer M).

(** An event that a response can carry. *)
Definition event_good q : Prop := event_ok q /\ event_readable q.

(** What of an event never changes. *)
Definition payload q : EventType * Z * EventClass * M := (q_type q, q_index q, q_clazz q, q_value q).

(** Some unselected events were selected. *)
Definition selects : relation (list (Queued M)) :=
  Forall2 (fun q q' => payload q' = payload q /\ (event_good q -> event_good q') /\
    (q' = q \/ (q_state q = unselected /\ q_state q' = selected_))).

Lemma selects_refl qs : selects qs qs.
Proof. unfold selects. induction qs; constructor; [|done]. split_and!; [done|done|by left]. Qed.

Lemma selects_trans qs qs1 qs2 : selects qs qs1 -> selects qs1 qs2 -> selects qs qs2.
Proof.
  unfold selects. intros S1. revert qs2. induction S1 as [|q q1 qs qs1 (Hp & Hg & Hs) _ IH]; intros qs2 S2; inversion S2 as [|? q2 ? ? (Hp2 & Hg2 & Hs2) S2']; subst; constructor; [|by apply IH].
  split_and!; [congruence|auto|]. destruct Hs as [->|[Hu Hsel]]; [done|]. right. split; [done|].
  destruct Hs2 as [->|[Hu2 _]]; [done|congruence].
Qed.

Lemma select_first_selects P f max qs :
  (forall q, P q = true -> payload (f q) = payload q /\ (event_good q -> event_good (f q)) /\ q_state q = unselected /\ q_state (f q) = selected_) ->
  selects qs (select_first P f max qs).1.
Proof.
  intros Hf. revert max. induction qs as [|q qs IH]; intros max; cbn [select_first]; [constructor|].
  destruct (P q && _) eqn:HP.
  - apply andb_prop in HP as [HP _]. destruct (Hf q HP) as (E1 & E2 & E3 & E4). specialize (IH (max - 1)).
    destruct (select_first P f (max - 1) qs) as [r n]. constructor; [|done]. split_and!; [done|done|by right].
  - specialize (IH max). destruct (select_first P f max qs) as [r n]. constructor; [|done]. split_and!; [done|done|by left].
Qed.

Lemma select_class_selects c max qs : selects qs (select_class c max qs).1.
Proof.
  apply select_first_selects. intros q [Hq%bool_decide_eq_true _]%andb_prop. split_and!; [done| |done|done]. by intros [[] ?].
Qed.

Lemma select_selects x max qs : selects qs (Spec.select x max qs).1.
Proof.
  destruct x as [t|v|c]; cbn [Spec.select]; [| |apply select_class_selects].
  - apply select_first_selects. intros q [Hq%bool_decide_eq_true Ht]%andb_prop. split_and!; [done| |done|done].
    intros [[] ?]. by split; [split|].
  - apply select_first_selects. intros q [Hq%bool_decide_eq_true Ht%bool_decide_eq_true]%andb_prop. split_and!; [done| |done|done].
    intros [[] ?]. by split; [split|].
Qed.

Lemma selects_good qs qs' : selects qs qs' -> Forall event_good qs -> Forall event_good qs'.
Proof.
  unfold selects. induction 1 as [|q q' qs qs' (_ & Hg & _) _ IH]; intros Hok; [done|]. apply Forall_cons_1 in Hok as [Hq Hok]. constructor; auto.
Qed.

Lemma selects_payload qs qs' : selects qs qs' -> map payload qs' = map payload qs.
Proof. unfold selects. induction 1 as [|q q' qs qs' (Hp & _) _ IH]; [done|]. cbn [map]. by rewrite Hp, IH. Qed.

Lemma selects_written qs qs' : selects qs qs' -> List.filter (in_state written_) qs' = List.filter (in_state written_) qs.
Proof.
  unfold selects. induction 1 as [|q q' qs qs' (_ & _ & Hs) _ IH]; [done|]. cbn [List.filter]. rewrite IH.
  destruct Hs as [->|[Hu Hsel]]; [done|]. unfold in_state. by rewrite Hu, Hsel.
Qed.

Definition read_inv (caps : EventType -> nat) (s0 : QueueBuffer M) (x : D * EventBuffer M) : Prop :=
  database_ok x.1 /\ exists s, models caps x.2 s /\ qb_overflow s = qb_overflow s0 /\ selects (qb_events s0) (qb_events s).

Lemma select_count_wp caps s0 gv n d b :
  read_inv caps s0 (d, b) -> 0 <= n ->
  wp (ReadHandler.on_events (EventBuffer.SelectMaxCount gv n)) (d, b) (fun _ x => read_inv caps s0 x).
Proof.
  intros [Hd (s & Hs & Ho & Hsel)] Hn. unfold wp, ReadHandler.on_events. cbn [fst snd] in *.
  destruct (SelectMaxCount_spec caps b s gv n Hs Hn) as (b' & f & -> & Hs' & _). cbn [mbind option_bind]. split; [done|].
  unfold Spec.select_group in Hs'. destruct (EventBuffer.selection_of gv) as [x|]; cbn [fst snd] in Hs'; [|by exists s].
  eexists. split; [exact Hs'|]. split; [done|]. cbn [qb_events]. eapply selects_trans; [exact Hsel|]. apply select_selects.
Qed.

Lemma ReadHandler_step caps s0 h n x :
  read_inv caps s0 x -> header_ok h ->
  match ReadHandler.ProcessHeader h n with
  | Some m => wp m x (fun _ x' => read_inv caps s0 x')
  | None => read_inv caps s0 x
  end.
Proof.
  destruct x as [d b]. intros Hx Hok. pose proof Hx as [Hd Hb]. unfold ReadHandler.ProcessHeader. destruct h as [record|record count|record range| | | |]; try done.
  - destruct (gvtype (gv_record record)); try done.
    + unfold wp, ReadHandler.on_static. destruct (SelectAll_ok (enum_of record) d Hd) as (d' & iin & Hs & Hd'). cbn [fst snd]. rewrite Hs. by split.
    + by apply select_count_wp.
  - apply select_count_wp; [done|]. cbn in Hok. lia.
  - unfold wp, ReadHandler.on_static. destruct (SelectRange_ok (enum_of record) range d Hd Hok) as (d' & iin & Hs & Hd'). cbn [fst snd]. rewrite Hs. by split.
Qed.

End Reads.

(** ** Commands *)

Abbreviation Command := (GroupVariation.t * Value * Z)%type.

(** The commands in the headers of a request, in order. *)
Definition commands_of (hs : list Header) : list Command :=
  flat_map (fun h => match h with
    | PrefixOf record _ values => map (fun iv => (enum_of record, iv.2, iv.1)) values
    | _ => []
    end) hs.

(** A command with its status replaced. *)
Definition with_status (st : CommandStatus) (v : Value) : Value :=
  match v with Fields vs => Fields (removelast vs ++ [CommandStatusToType st]) | _ => v end.

Definition width_of (record : HeaderRecord) : Width :=
  if decide (GetQualifierCode record = UINT8_CNT_UINT8_INDEX) then W8 else W16.

(** The commands of a header as they are sent back. *)
Definition answers (values : list (Z * Value)) (sts : list CommandStatus) : list (Z * Value) :=
  zip_with (fun iv st => (iv.1, with_status st iv.2)) values sts.

(** The headers of the response: those of the request with the statuses. *)
Fixpoint responses (hs : list Header) (sts : list CommandStatus) : list Request :=
  match hs with
  | [] => []
  | PrefixOf record _ values :: hs =>
      WPrefixed (width_of record) (Class (enum_of record)) (answers values (take (length values) sts)) ::
      responses hs (drop (length values) sts)
  | _ :: hs => responses hs sts
  end.

Definition is_command (gv : GroupVariation.t) : bool :=
  match gv with
  | GroupVariation.Group12Var1 | GroupVariation.Group41Var1 | GroupVariation.Group41Var2 | GroupVariation.Group41Var3
  | GroupVariation.Group41Var4 => true
  | _ => false
  end.

Definition successes (sts : list CommandStatus) : Z := Z.of_nat (length (List.filter (fun st => bool_decide (st = SUCCESS)) sts)).

Section Commands.
Context {A : Type} (Action : ICommandAction A) (maxCommands : Z).
(** The state of the action after some commands with their answers. *)
Context (Acts : list Command -> list CommandStatus -> A -> Prop).
Context (Hmax : 0 <= maxCommands < 256).
Context (HAct : forall cs sts a gv v i, Acts cs sts a -> length sts = length cs ->
  wp (Action gv v i) a (fun st a' => Acts (cs ++ [(gv, v, i)]) (sts ++ [st]) a')).

#[local] Abbreviation mx := (Z.to_nat maxCommands).

(** Commands beyond the limit are refused without asking. *)
Record acted (cs : list Command) (sts : list CommandStatus) (s : CommandState A) : Prop := mkActed {
  ac_length : length sts = length cs;
  ac_acts : Acts (take mx cs) (take mx sts) (pCommandAction s);
  ac_refused : Forall (eq TOO_MANY_OPS) (drop mx sts);
  ac_requests : numRequests s = Z.min maxCommands (Z.of_nat (length cs))
}.

Lemma ProcessCommand_wp cs sts gv v i s :
  acted cs sts s ->
  wp (CommandResponseHandler.ProcessCommand Action maxCommands gv v i) s (fun st s' =>
    acted (cs ++ [(gv, v, i)]) (sts ++ [st]) s' /\ numSuccess s' = numSuccess s /\ pWriter s' = pWriter s).
Proof.
  intros [Hl Ha Hr Hn]. unfold CommandResponseHandler.ProcessCommand. wp_go. destruct (Z.ltb_spec (numRequests s) maxCommands) as [Hlt|Hge].
  - wp_go. unfold CommandResponseHandler.action. unfold wp at 1. cbn [pCommandAction].
    assert (Hlen : (length cs < mx)%nat) by lia. rewrite !take_ge in Ha by lia.
    destruct (wp_run _ _ _ (HAct cs sts (pCommandAction s) gv v i Ha Hl)) as (a' & st & -> & Ha'). cbn [mbind option_bind].
    split; [|done]. split; cbn [pCommandAction numRequests numSuccess pWriter].
    + rewrite !length_app, Hl. done.
    + by rewrite !take_ge by (rewrite length_app; cbn; lia).
    + rewrite drop_ge by (rewrite length_app; cbn; lia). constructor.
    + rewrite length_app. cbn [length]. rewrite u32_small by (unfold is_u32; lia). lia.
  - wp_go. split; [|done]. assert (Hlen : (mx <= length cs)%nat) by lia. split; cbn [pCommandAction numRequests numSuccess pWriter].
    + rewrite !length_app, Hl. done.
    + by rewrite !take_app_le by lia.
    + rewrite drop_app_le by lia. apply Forall_app_2; [done|]. by constructor.
    + rewrite length_app. cbn [length]. lia.
Qed.

Lemma acted_pointer cs sts s n w : acted cs sts s -> acted cs sts (mkCommandState (numRequests s) n w (pCommandAction s)).
Proof. by intros []. Qed.

Lemma acted_successes cs sts s : acted cs sts s -> 0 <= successes sts <= maxCommands.
Proof.
  intros [Hl Ha Hr Hn]. unfold successes. split; [lia|]. rewrite <- (take_drop mx sts), List.filter_app, length_app.
  assert (H0 : length (List.filter (fun st => bool_decide (st = SUCCESS)) (drop mx sts)) = 0%nat).
  { induction Hr as [|st l <- _ IH]; [done|exact IH]. }
  pose proof (List.filter_length_le (fun st => bool_decide (st = SUCCESS)) (take mx sts)) as Hf. rewrite length_take in Hf. lia.
Qed.

Lemma successes_snoc sts st : successes (sts ++ [st]) = successes sts + if decide (st = SUCCESS) then 1 else 0.
Proof.
  unfold successes. rewrite List.filter_app, length_app. cbn [List.filter].
  destruct (decide (st = SUCCESS)) as [->|Hne]; [rewrite (bool_decide_true (SUCCESS = SUCCESS)) by done|rewrite bool_decide_false by done]; cbn [length]; lia.
Qed.

(** *** One header *)

Section Header.
Context (i : Width) (gv : GroupVariation.t) (Hgv : is_command gv = true).

#[local] Abbreviation k := (Class gv).

Definition echo_header : bytes := encode_header (id (serializer_of k)) (prefix_qualifier i).

(** The objects that were written so far: all, or as many as found room. *)
Definition echoing (w1 : Writer) (sent : list (Z * Value)) (it : PrefixedWriteIterator.t) (w : Writer) : Prop := exists n cp,
  (n <= length sent)%nat /\ it = prefixed_at i k cp n /\ v_pos cp = (v_pos (position w1) + length echo_header)%nat /\
  (exists old, length old = SIZE (index_type i) /\ wrote w1 w (echo_header ++ old ++ concat (map (encode_prefixed i k) (take n sent)))) /\
  ((n < length sent)%nat -> (v_size (position w) < kind_size k + SIZE (index_type i))%nat) /\
  ((n = 0)%nat -> (kind_size k + SIZE (index_type i) <= v_size (position w))%nat).

Lemma echo_step w1 sent it w x :
  wwf w1 -> echoing w1 sent it w -> prefixed_ok i k x ->
  wp (PrefixedWriteIterator.Write (index_type i) it x.2 x.1) w (fun r w' => echoing w1 (sent ++ [x]) r.1 w').
Proof.
  intros Hw1 (n & cp & Hn & -> & Hcp & (old & Hold & W) & Hfull & Hroom) Hx. pose proof (wrote_wf _ _ _ Hw1 W) as Hw.
  eapply wp_mono; [by apply (prefixed_step i k cp n w x Hw)|]. intros r w'.
  destruct (Nat.leb_spec (kind_size k + SIZE (index_type i)) (v_size (position w))) as [Hfit|Hno]; intros [-> HW]; cbn [fst].
  - assert (n = length sent) as -> by (destruct (Nat.lt_ge_cases n (length sent)) as [Hlt|]; [specialize (Hfull Hlt)|]; lia).
    rewrite take_ge in W by done. exists (S (length sent)), cp. split_and!; [len|done|done| |rewrite length_app; cbn; lia|lia].
    exists old. split; [done|]. rewrite take_ge by len. rewrite concat_map_snoc.
    pose proof (wrote_trans _ _ _ _ _ W HW) as Ht. by rewrite <- !app_assoc in Ht.
  - subst w'. exists n, cp. split_and!; [len|done|done| |intros _; lia|exact Hroom]. exists old. split; [done|]. rewrite take_app_le by lia. exact W.
Qed.

Lemma set_status_fits st v : value_fits k v -> CommandResponseHandler.set_status st v = Some (with_status st v) /\ value_fits k (with_status st v).
Proof.
  assert (Hst : 0 <= CommandStatusToType st <= 255) by (destruct st; cbn; lia).
  destruct v as [vs| | |]; try done. cbn [value_fits with_status CommandResponseHandler.set_status]. intros Hf.
  assert (Hl : exists ss, fields gv = ss ++ [UInt8]) by (destruct gv; try discriminate Hgv; first [eexists [_]; reflexivity | eexists [_; _; _; _]; reflexivity]).
  destruct Hl as [ss Hss]. rewrite Hss in *. apply Forall2_app_inv_l in Hf as (vs1 & vs2 & H1 & H2 & ->).
  destruct vs2 as [|v2 [|]]; [inversion H2| |inversion H2 as [|? ? ? ? _ Hn]; inversion Hn].
  rewrite decide_False by (by destruct vs1). split; [done|]. rewrite removelast_last. apply Forall2_app; [done|].
  constructor; [cbn; lia|constructor].
Qed.

(** A header that is answered: with the status of every command, in the response too
    when there is one. *)
Lemma process_all_wp (E : list (Z * Value) -> PrefixedWriteIterator.t -> Writer -> Prop) values :
  (forall sent it w x, E sent it w -> prefixed_ok i k x ->
     wp (PrefixedWriteIterator.Write (index_type i) it x.2 x.1) w (fun r w' => E (sent ++ [x]) r.1 w')) ->
  forall cs sts ret it s sent,
  (match it with Some it => exists w, pWriter s = Some w /\ E sent it w | None => pWriter s = None end) ->
  Forall (prefixed_ok i k) values -> acted cs sts s -> numSuccess s = successes sts ->
  wp (CommandResponseHandler.process_all Action maxCommands (index_type i) gv ret it values) s (fun r s' =>
    exists sts', length sts' = length values /\
      acted (cs ++ map (fun iv => (gv, iv.2, iv.1)) values) (sts ++ sts') s' /\ numSuccess s' = successes (sts ++ sts') /\
      match it, r.2 with
      | Some _, Some it' => exists w', pWriter s' = Some w' /\ E (sent ++ answers values sts') it' w'
      | None, None => pWriter s' = None
      | _, _ => False
      end).
Proof.
  intros HE. induction values as [|x values IH]; intros cs sts ret it s sent Hit Hok Ha Hs; cbn [CommandResponseHandler.process_all].
  { wp_go. cbn [snd]. exists []. rewrite !app_nil_r. split_and!; [done|done|done|]. destruct it; [|done]. exact Hit. }
  apply Forall_cons_1 in Hok as [Hx Hok]. rewrite wp_bind. unfold CommandResponseHandler.process. rewrite wp_bind.
  eapply wp_mono; [by eapply ProcessCommand_wp|]. intros st s1 (Ha1 & Hs1 & Hw1). rewrite wp_bind.
  destruct (set_status_fits st x.2) as [Hset Hfit]; [by destruct Hx|]. eapply wp_lift_some; [exact Hset|]. rewrite wp_bind.
  set (ret' := match st with NOT_SUPPORTED => IINField.SetBit ret PARAM_ERROR | _ => ret end).
  set (n := if decide (st = SUCCESS) then u32 (numSuccess s1 + 1) else numSuccess s1).
  set (s2 := mkCommandState (numRequests s1) n (pWriter s1) (pCommandAction s1)).
  assert (Hret : forall Q : IINField -> CommandState A -> Prop, Q ret' s2 -> wp (match st with
         | SUCCESS => _ ← modify (fun s => mkCommandState (numRequests s) (u32 (numSuccess s + 1)) (pWriter s) (pCommandAction s)); mret ret
         | NOT_SUPPORTED => mret (IINField.SetBit ret PARAM_ERROR)
         | _ => mret ret
         end) s1 Q).
  { intros Q HQ. unfold s2, n, ret' in HQ. destruct s1. destruct st; exact HQ. }
  apply Hret. clear Hret. pose proof (acted_pointer _ _ _ n (pWriter s1) Ha1) as Ha2. fold s2 in Ha2.
  assert (Hs2 : numSuccess s2 = successes (sts ++ [st])).
  { pose proof (acted_successes _ _ _ Ha) as Hb. cbn [s2 numSuccess]. unfold n. rewrite successes_snoc, Hs1, Hs.
    destruct (decide (st = SUCCESS)); [|lia]. apply u32_small. unfold is_u32. lia. }
  assert (Hrest : forall it' s3 sent', (match it' with Some it => exists w, pWriter s3 = Some w /\ E sent' it w | None => pWriter s3 = None end) ->
    match it, it' with Some _, Some _ | None, None => True | _, _ => False end -> (it' <> None -> sent' = sent ++ [(x.1, with_status st x.2)]) ->
    numRequests s3 = numRequests s2 -> numSuccess s3 = numSuccess s2 -> pCommandAction s3 = pCommandAction s2 ->
    wp (CommandResponseHandler.process_all Action maxCommands (index_type i) gv ret' it' values) s3 (fun r s' =>
      exists sts', length sts' = length (x :: values) /\
        acted (cs ++ map (fun iv => (gv, iv.2, iv.1)) (x :: values)) (sts ++ sts') s' /\ numSuccess s' = successes (sts ++ sts') /\
        match it, r.2 with
        | Some _, Some it' => exists w', pWriter s' = Some w' /\ E (sent ++ answers (x :: values) sts') it' w'
        | None, None => pWriter s' = None
        | _, _ => False
        end)).
  { intros it' s3 sent' Hit' Hsame Hdone E1 E2 E3.
    assert (Ha3 : acted (cs ++ [(gv, x.2, x.1)]) (sts ++ [st]) s3).
    { destruct Ha2 as [B1 B2 B3 B4]. split; [done|by rewrite E3|done|by rewrite E1]. }
    eapply wp_mono; [apply (IH (cs ++ [(gv, x.2, x.1)]) (sts ++ [st]) ret' it' s3 sent' Hit' Hok Ha3); by rewrite E2, Hs2|].
    intros r s' (sts' & L1 & L2 & L3 & L4). exists (st :: sts'). rewrite <- !app_assoc in *. cbn [app map length] in *.
    split_and!; [by rewrite L1|done|done|]. destruct it, it'; try done; destruct r.2; try done. destruct L4 as (w' & L4 & L5). exists w'. split; [done|].
    rewrite Hdone, <- app_assoc in L5 by done. exact L5. }
  destruct it as [it|].
  - destruct Hit as (w & Hw & He). rewrite wp_bind. unfold CommandResponseHandler.with_pWriter. unfold wp at 1. cbn [s2 pWriter]. rewrite Hw1, Hw.
    cbn [mbind option_bind]. destruct (wp_run _ _ _ (HE sent it w (x.1, with_status st x.2) He ltac:(split; [apply Hx|done])))
      as (w' & [it' ok] & Hrun & He'). cbn [fst snd] in Hrun, He'. rewrite Hrun. cbn [mbind option_bind]. rewrite wp_ret. cbv beta.
    apply (Hrest (Some it') _ (sent ++ [(x.1, with_status st x.2)])); [|done..]. by exists w'.
  - rewrite wp_ret. apply (Hrest None s2 sent); [|done..]. cbn [s2 pWriter]. congruence.
Qed.

Lemma echo_begin w :
  wwf w -> (3 + (2 * SIZE (index_type i) + kind_size k) <= v_size (position w))%nat ->
  wp (HeaderWriter.IterateOverCountWithPrefix (index_type i) (prefix_qualifier i) (Inst gv)) w (fun it w' => echoing w [] it w').
Proof.
  intros Hw Hfit. eapply wp_mono; [by apply (prefixed_begin i k w Hw Hfit)|]. intros it w' (cp & -> & Hcp & _ & old & Hold & _ & _ & W).
  exists 0%nat, cp. cbn [length map concat take] in *. split_and!; [lia|done|done|by exists old|lia|]. intros _.
  rewrite (wrote_size _ _ _ W). rewrite app_nil_r, length_app, Hold. cbn [length encode_header]. lia.
Qed.

Lemma echo_end w1 sent it w :
  wwf w1 -> echoing w1 sent it w -> Forall (prefixed_ok i k) sent -> Z.of_nat (length sent) <= Max (index_type i) -> sent <> [] ->
  wp (PrefixedWriteIterator.destroy (index_type i) it) w (fun _ w' => exists n, (n <= length sent)%nat /\
    wrote w1 w' (encode_request (WPrefixed i k sent) n) /\ (0 < n)%nat /\
    ((n < length sent)%nat -> (v_size (position w1) < length (encode_request (WPrefixed i k sent) (S n)))%nat)).
Proof.
  intros Hw1 (n & cp & Hn & -> & Hcp & (old & Hold & W) & Hfull & Hroom) Hok Hl Hne.
  assert (Hn0 : (0 < n)%nat).
  { destruct n; [|lia]. exfalso. assert (0 < length sent)%nat by (destruct sent; [done|cbn; lia]). specialize (Hfull ltac:(lia)). specialize (Hroom eq_refl). lia. }
  eapply wp_mono; [apply (prefixed_destroy i k w1 w cp echo_header old _ n Hw1 Hcp Hold W)|]. intros [] w' W'. exists n. split; [done|].
  rewrite wrap_small in W' by lia. split; [exact W'|]. split; [done|]. intros Hlt. specialize (Hfull Hlt).
  rewrite (wrote_size _ _ _ W) in Hfull. pose proof W as (Hle & _ & _).
  destruct (lookup_lt_is_Some_2 sent n Hlt) as [x Hx]. cbn [encode_request]. rewrite (take_S_r _ _ _ Hx).
  fold (encode_prefixed i k). rewrite concat_map_snoc. rewrite !length_app in *. rewrite !index_length in *. unfold echo_header in *. cbn [length encode_header] in *.
  rewrite encode_prefixed_length; [lia|]. rewrite Forall_lookup in Hok. by eapply Hok.
Qed.

End Header.
(** *** The headers of a request *)

Lemma commands_of_app hs hs' : commands_of (hs ++ hs') = commands_of hs ++ commands_of hs'.
Proof. apply flat_map_app. Qed.

Lemma responses_app hs hs' sts sts' :
  length sts = length (commands_of hs) -> responses (hs ++ hs') (sts ++ sts') = responses hs sts ++ responses hs' sts'.
Proof.
  revert sts. induction hs as [|h hs IH]; intros sts Hl; [by destruct sts|].
  destruct h as [| | | | |record count values|]; cbn [app responses commands_of flat_map] in *; try (by apply IH).
  rewrite length_app, length_map in Hl. fold (commands_of hs) in Hl.
  rewrite take_app_le, drop_app_le by lia. rewrite IH by len. done.
Qed.

Lemma prefix_max_width record : prefix_max record = Max (index_type (width_of record)).
Proof. unfold prefix_max, width_of. by destruct (GetQualifierCode record). Qed.

Lemma command_values record count values :
  header_ok (PrefixOf record count values) -> is_command (enum_of record) = true ->
  Forall (prefixed_ok (width_of record) (Class (enum_of record))) values /\ values <> [] /\
  Z.of_nat (length values) <= Max (index_type (width_of record)).
Proof.
  intros (Hc & Hl & Hv) He. rewrite prefix_max_width in *. split; [|split; [by destruct values; [cbn in Hl; lia|]|lia]].
  apply Forall_lookup. intros j iv Hj. destruct (Hv j iv Hj) as [Hi Hok]. split; [done|]. unfold value_ok in Hok.
  assert (Hs : shape_of (enum_of record) = OfFields) by (by destruct (enum_of record)). rewrite Hs in Hok. by destruct iv as [? []].
Qed.

Lemma answers_length values sts : length sts = length values -> length (answers values sts) = length values.
Proof. intros Hl. unfold answers. rewrite length_zip_with. lia. Qed.

Lemma answers_ok i gv values sts :
  is_command gv = true -> Forall (prefixed_ok i (Class gv)) values -> Forall (prefixed_ok i (Class gv)) (answers values sts).
Proof.
  intros Hgv Hok. revert sts. induction Hok as [|x values [Hi Hv] _ IH]; intros [|st sts]; cbn [answers zip_with]; constructor; [|apply IH].
  split; [done|]. by apply set_status_fits.
Qed.

(** What was done for the headers [hs]: the commands were acted upon, and the response
    has their answers, unless it ran out of room. *)
Record commanded (w0 : option Writer) (hs : list Header) (sts : list CommandStatus) (s : CommandState A) : Prop := mkCommanded {
  cm_acted : acted (commands_of hs) sts s;
  cm_success : numSuccess s = successes sts;
  cm_writer : match w0 with
    | None => pWriter s = None
    | Some w0 => exists w ns, pWriter s = Some w /\ Forall2 (fun req n => (n <= objects req)%nat) (responses hs sts) ns /\
        wrote w0 w (encode_requests (responses hs sts) ns) /\
        ((length (encode_requests (responses hs sts) (map objects (responses hs sts))) <= v_size (position w0))%nat ->
           ns = map objects (responses hs sts))
    end
}.

Lemma encode_requests_app reqs reqs' ns ns' :
  length ns = length reqs -> encode_requests (reqs ++ reqs') (ns ++ ns') = encode_requests reqs ns ++ encode_requests reqs' ns'.
Proof.
  revert ns. induction reqs as [|req reqs IH]; intros [|n ns] Hl; try done. cbn [app encode_requests]. rewrite IH by (cbn in Hl; lia). by rewrite app_assoc.
Qed.

Lemma null_step i gv w (sent : list (Z * Value)) it w1 x :
  it = PrefixedWriteIterator.Null /\ w1 = w -> prefixed_ok i (Class gv) x ->
  wp (PrefixedWriteIterator.Write (index_type i) it x.2 x.1) w1 (fun r w' => r.1 = PrefixedWriteIterator.Null /\ w' = w).
Proof. by intros [-> ->] _. Qed.

Lemma RespondToHeader_wp w0 hs sts s record count values :
  (match w0 with Some w0 => wwf w0 | None => True end) ->
  commanded w0 hs sts s -> header_ok (PrefixOf record count values) -> is_command (enum_of record) = true ->
  wp (CommandResponseHandler.RespondToHeader Action maxCommands (index_type (width_of record)) (prefix_qualifier (width_of record))
        (enum_of record) values) s
    (fun _ s' => exists sts', commanded w0 (hs ++ [PrefixOf record count values]) (sts ++ sts') s').
Proof.
  intros Hw0 [Ha Hs Hw] Hok He. destruct (command_values record count values Hok He) as (Hv & Hne & Hmx).
  set (i := width_of record) in *. set (gv := enum_of record) in *.
  assert (Hcs : forall sts', length sts' = length values -> commands_of (hs ++ [PrefixOf record count values]) = commands_of hs ++ map (fun iv => (gv, iv.2, iv.1)) values /\
    responses (hs ++ [PrefixOf record count values]) (sts ++ sts') = responses hs sts ++ [WPrefixed i (Class gv) (answers values sts')]).
  { intros sts' Hl. split; [rewrite commands_of_app; cbn [commands_of flat_map]; by rewrite app_nil_r|].
    rewrite responses_app by apply Ha. cbn [responses]. by rewrite take_ge by lia. }
  unfold CommandResponseHandler.RespondToHeader. wp_go. destruct w0 as [w0|].
  - destruct Hw as (w & ns & Hpw & Hns & W & Hall). rewrite Hpw. rewrite wp_bind. unfold CommandResponseHandler.with_pWriter at 1. unfold wp at 1. rewrite Hpw.
    cbn [mbind option_bind]. pose proof (wrote_wf _ _ _ Hw0 W) as Hwf.
    set (Post := fun (_ : IINField) s' => exists sts', commanded (Some w0) (hs ++ [PrefixOf record count values]) (sts ++ sts') s').
    assert (Hdone : forall sts' s' w' n, length sts' = length values -> acted (commands_of hs ++ map (fun iv => (gv, iv.2, iv.1)) values) (sts ++ sts') s' ->
      numSuccess s' = successes (sts ++ sts') -> pWriter s' = Some w' -> performed (WPrefixed i (Class gv) (answers values sts')) w n w' ->
      forall r, Post r s').
    { intros sts' s' w' n L1 L2 L3 L4 (P1 & P2 & P3) r. exists sts'. destruct (Hcs sts' L1) as [E1 E2]. split; [by rewrite E1|done|].
      rewrite E2. exists w', (ns ++ [n]). split; [done|]. split; [by apply Forall2_app; [|constructor]|].
      rewrite map_app. cbn [map]. pose proof (Forall2_length Hns) as Hlns.
      rewrite !encode_requests_app by (by rewrite ?length_map). cbn [encode_requests]. rewrite !app_nil_r. split; [by eapply wrote_trans|].
      rewrite length_app. intros Hroom. rewrite Hall in * by lia. f_equal. f_equal.
      destruct (Nat.lt_ge_cases n (objects (WPrefixed i (Class gv) (answers values sts')))) as [Hlt|]; [|lia]. exfalso. specialize (P2 Hlt).
      rewrite (wrote_size _ _ _ W) in P2. rewrite decide_False in Hroom by lia.
      pose proof (encode_request_mono (WPrefixed i (Class gv) (answers values sts')) (Datatypes.S n) _ Hlt). lia. }
    destruct (decide (3 + (2 * SIZE (index_type i) + kind_size (Class gv)) <= v_size (position w))%nat) as [Hfit|Hno].
    + destruct (wp_run _ _ _ (echo_begin i gv w Hwf Hfit)) as (w1 & it & Hrun & He1). cbn [index_type] in Hrun.
      rewrite Hrun. cbn [mbind option_bind]. rewrite wp_bind.
      eapply wp_mono; [apply (process_all_wp i gv He (echoing i gv w) values (fun _ _ _ _ => echo_step i gv w _ _ _ _ Hwf) (commands_of hs) sts _ (Some it) _ [])|].
      * by exists w1.
      * done.
      * by apply acted_pointer.
      * done.
      * intros [ret it'] s2 (sts' & L1 & L2 & L3 & L4). cbn [snd] in L4. destruct it' as [it'|]; [|done]. destruct L4 as (w2 & Hpw2 & He2).
        rewrite wp_bind. unfold CommandResponseHandler.with_pWriter. unfold wp at 1. rewrite Hpw2. cbn [mbind option_bind app] in *.
        pose proof (answers_length values sts' L1) as Hal.
        destruct (wp_run _ _ _ (echo_end i gv w _ it' w2 Hwf He2 (answers_ok _ _ _ _ He Hv) ltac:(lia) ltac:(by destruct (answers values sts'), values)))
          as (w3 & [] & Hrun3 & n & Hn1 & W3 & Hn2 & Hn3). rewrite Hrun3. cbn [mbind option_bind]. rewrite wp_ret.
        apply (Hdone sts' _ w3 n); [done|by apply acted_pointer|done|done|]. split; [done|]. split; [done|]. by rewrite decide_False by lia.
    + assert (Hnull : HeaderWriter.IterateOverCountWithPrefix (index_type i) (prefix_qualifier i) (Inst gv) w = Some (w, PrefixedWriteIterator.Null)).
      { assert (Hwp : wp (HeaderWriter.IterateOverCountWithPrefix (index_type i) (prefix_qualifier i) (Inst gv)) w (fun it w' => it = PrefixedWriteIterator.Null /\ w' = w)).
        { unfold HeaderWriter.IterateOverCountWithPrefix. rewrite wp_bind. apply WithReserve_wp; [done|done|intros; cbn [ds_size Inst] in *; unfold kind_size in Hno; cbn in Hno; lia]. }
        by destruct (wp_run _ _ _ Hwp) as (? & ? & ? & -> & ->). }
      rewrite Hnull. cbn [mbind option_bind]. rewrite wp_bind.
      eapply wp_mono; [apply (process_all_wp i gv He (fun _ it w' => it = PrefixedWriteIterator.Null /\ w' = w) values
        (null_step i gv w) (commands_of hs) sts _ (Some PrefixedWriteIterator.Null) _ [])|].
      * by exists w.
      * done.
      * by apply acted_pointer.
      * done.
      * intros [ret it'] s2 (sts' & L1 & L2 & L3 & L4). cbn [snd] in L4. destruct it' as [it'|]; [|done]. destruct L4 as (w2 & Hpw2 & -> & ->).
        rewrite wp_bind. unfold CommandResponseHandler.with_pWriter. unfold wp at 1. rewrite Hpw2. cbn. pose proof (answers_length values sts' L1) as Hal.
        apply (Hdone sts' _ w 0%nat); [done|by apply acted_pointer|done|done|]. apply refused; [done|cbn [objects]; destruct values; [done|cbn in Hal |- *; lia]|].
        cbn [encode_request]. rewrite !length_app, index_length.
        assert (Hx : exists x, take 1 (answers values sts') = [x] /\ prefixed_ok i (Class gv) x).
        { pose proof (answers_ok i gv values sts' He Hv) as Hao. destruct (answers values sts') as [|x l]; [by destruct values|].
          exists x. split; [done|]. by apply Forall_cons_1 in Hao as [? _]. }
        destruct Hx as (x & -> & Hx). cbn [map concat]. rewrite app_nil_r. fold (encode_prefixed i (Class gv) x).
        rewrite encode_prefixed_length by done. cbn [length encode_header]. lia.
  - rewrite Hw. rewrite wp_bind. eapply wp_mono; [apply (process_all_wp i gv He (fun _ _ _ => False) values (fun _ _ _ _ H => False_ind _ H) (commands_of hs) sts _ None s [])|]; [done..|].
    intros [ret it'] s2 (sts' & L1 & L2 & L3 & L4). cbn [snd] in L4. destruct it'; [done|]. rewrite wp_ret. exists sts'.
    destruct (Hcs sts' L1) as [E1 E2]. split; [by rewrite E1|done|done].
Qed.

Lemma IsAllowed_command headerCount gv qc : CommandResponseHandler.IsAllowed headerCount gv qc = true -> is_command gv = true.
Proof. unfold CommandResponseHandler.IsAllowed. destruct qc; try done; by destruct gv. Qed.

Lemma commanded_skip w0 hs sts s h :
  commanded w0 hs sts s -> (forall r c vs, h <> PrefixOf r c vs) -> commanded w0 (hs ++ [h]) sts s.
Proof.
  intros [Ha Hs Hw] Hh.
  assert (E1 : commands_of (hs ++ [h]) = commands_of hs) by (rewrite commands_of_app; destruct h; cbn [commands_of flat_map]; rewrite ?app_nil_r; naive_solver).
  assert (E2 : responses (hs ++ [h]) sts = responses hs sts).
  { pose proof (responses_app hs [h] sts [] (ac_length _ _ _ Ha)) as E. rewrite app_nil_r in E. rewrite E.
    destruct h; cbn [responses]; rewrite ?app_nil_r; naive_solver. }
  split; [by rewrite E1|done|]. by rewrite E2.
Qed.

Lemma CommandResponseHandler_step w0 hs h n s :
  (match w0 with Some w0 => wwf w0 | None => True end) ->
  (exists sts, commanded w0 hs sts s) -> header_ok h ->
  CommandResponseHandler.IsAllowed (headerIndex (record_of h)) (enum_of (record_of h)) (GetQualifierCode (record_of h)) = true ->
  match CommandResponseHandler.ProcessHeader Action maxCommands h n with
  | Some m => wp m s (fun _ s' => exists sts, commanded w0 (hs ++ [h]) sts s')
  | None => exists sts, commanded w0 (hs ++ [h]) sts s
  end.
Proof.
  intros Hw0 (sts & Hs) Hok Hall. unfold CommandResponseHandler.ProcessHeader.
  destruct h as [| | | | |record count values|]; try (by exists sts; apply commanded_skip).
  cbn [record_of] in Hall. pose proof (IsAllowed_command _ _ _ Hall) as He.
  pose proof (RespondToHeader_wp w0 hs sts s record count values Hw0 Hs Hok He) as HR.
  assert (HA : wp (CommandResponseHandler.ProcessAny Action maxCommands record (enum_of record) values) s
    (fun _ s' => exists sts', commanded w0 (hs ++ [PrefixOf record count values]) sts' s')).
  { unfold CommandResponseHandler.ProcessAny. unfold width_of in HR. destruct (decide _); (eapply wp_mono; [exact HR|]); intros r s' [sts' Hs']; by exists (sts ++ sts'). }
  destruct (enum_of record); try discriminate He; exact HA.
Qed.

End Commands.

(** *** The actions *)

Section Actions.
Context {W : Type} `{Environment W}.

(** The call of the command handler for a command, with its answer. *)
Definition command_call (isSelect : bool) (opType : OperateType) (c : Command) (st : CommandStatus) : Call :=
  let '(gv, v, i) := c in if isSelect then Select gv v i st else Operate gv v i opType st.

(** The outside after calls of the command handler: it answers them one after the
    other. *)
Definition answer_call (w : W) (x : Call) : W :=
  match x with
  | Select gv v i _ => (select_command gv v i w).2
  | Operate gv v i opType _ => (operate_command gv v i opType w).2
  | _ => notice x w
  end.

Definition told (cs : list Call) (o : Outside W) : Outside W := mkOutside (foldl answer_call (world o) cs) (calls o ++ cs).

Lemma told_nil o : told [] o = o.
Proof. destruct o. unfold told. cbn. by rewrite app_nil_r. Qed.

Lemma told_app cs cs' o : told (cs ++ cs') o = told cs' (told cs o).
Proof. unfold told. cbn [world calls]. by rewrite foldl_app, app_assoc. Qed.

(** The handler was told about the transaction and then asked for every command. *)
Definition adapter_acts (o : Outside W) (isSelect : bool) (opType : OperateType) (cs : list Command) (sts : list CommandStatus)
    (a : CommandActionAdapter W) : Prop :=
  isStarted a = bool_decide (cs <> []) /\
  ca_outside a = told ((if isStarted a then [Start] else []) ++ zip_with (command_call isSelect opType) cs sts) o.

Lemma adapter_action o isSelect opType cs sts a gv v i :
  adapter_acts o isSelect opType cs sts a -> length sts = length cs ->
  wp (CommandActionAdapter.Action isSelect opType gv v i) a
    (fun st a' => adapter_acts o isSelect opType (cs ++ [(gv, v, i)]) (sts ++ [st]) a').
Proof.
  intros [Hst Hc] Hl. unfold CommandActionAdapter.Action, CommandActionAdapter.CheckStart. rewrite wp_bind, wp_bind, wp_get.
  assert (Hgo : forall a1, isStarted a1 = true -> ca_outside a1 = told (Start :: zip_with (command_call isSelect opType) cs sts) o ->
    wp (if isSelect then CommandActionAdapter.handler (call_answered (Select gv v i) (select_command gv v i))
        else CommandActionAdapter.handler (call_answered (Operate gv v i opType) (operate_command gv v i opType))) a1
      (fun st a' => adapter_acts o isSelect opType (cs ++ [(gv, v, i)]) (sts ++ [st]) a')).
  { intros a1 Hs1 Hc1. assert (Hfin : forall st o', o' = told [command_call isSelect opType (gv, v, i) st] (ca_outside a1) ->
      adapter_acts o isSelect opType (cs ++ [(gv, v, i)]) (sts ++ [st]) (mkCommandActionAdapter (isStarted a1) o')).
    { intros st o' ->. split; cbn [isStarted ca_outside]; [rewrite Hs1; symmetry; apply bool_decide_true; by destruct cs|].
      by rewrite Hs1, Hc1, <- told_app, zip_with_app. }
    unfold CommandActionAdapter.handler. destruct isSelect; rewrite wp_on; unfold wp, call_answered.
    - destruct (select_command gv v i (world (ca_outside a1))) as [st w] eqn:Hcmd. apply Hfin. unfold told. cbn [command_call foldl answer_call]. by rewrite Hcmd.
    - destruct (operate_command gv v i opType (world (ca_outside a1))) as [st w] eqn:Hcmd. apply Hfin. unfold told. cbn [command_call foldl answer_call]. by rewrite Hcmd. }
  destruct (isStarted a) eqn:Hstarted; cbn [negb].
  - rewrite wp_ret. by apply Hgo.
  - rewrite wp_bind, wp_modify. unfold CommandActionAdapter.handler at 1. rewrite wp_on. unfold wp at 1, tell. apply Hgo; [done|].
    cbn [ca_outside]. symmetry in Hst. apply bool_decide_eq_false in Hst. assert (cs = []) as -> by (destruct cs; [done|by destruct Hst]).
    rewrite Hc. cbn [app zip_with]. by rewrite told_nil.
Qed.

Lemma constant_action status cs sts gv v i (Acts : list Command -> list CommandStatus -> unit -> Prop) :
  (forall cs sts a, Acts cs sts a <-> sts = replicate (length cs) status) -> Acts cs sts tt -> length sts = length cs ->
  wp (ConstantCommandAction.Action status gv v i) tt (fun st a' => Acts (cs ++ [(gv, v, i)]) (sts ++ [st]) a').
Proof.
  intros HA Hs _. unfold ConstantCommandAction.Action. rewrite wp_ret. apply HA. apply HA in Hs. rewrite Hs, length_app, Nat.add_1_r. by rewrite <- replicate_S_end.
Qed.

End Actions.

