(* ===== verification/Outstation.v ===== *)
(** * Outstation: the session of an outstation (opendnp3/outstation: OutstationContext, OutstationStates, ResponseContext)

    [OContext] has the fields of the class; its methods are functions of this
    file, the methods of the three states live in their Modules.  The event buffer
    is that of [EventBuffer], the responses are written with [HeaderWriter], the
    database is given by its interfaces ([IStaticDatabase]), the application, the
    executor and the lower layer by [Environment].  The confirm timer is the time
    it was started with, or nothing. *)

From S2P Require Import Prelude Slices Serialization LinkFrame AppHeader Objects ObjectParser HeaderWriter EventList EventBuffer OutstationState RequestHandlers EventWriters.

Open Scope Z_scope.

(** ** State *)

Record OutstationParams := mkOutstationParams {
  maxControlsPerRequest : Z;
  selectTimeout : Z;
  solConfirmTimeout : Z;
  unsolConfirmTimeout : Z;
  maxTxFragSize : nat;
  maxRxFragSize : nat;
  allowUnsolicited : bool;
  unsolClassMask : ClassField;
  respondToAnyMaster : bool
}.

Definition set_unsolClassMask (c : ClassField) (p : OutstationParams) : OutstationParams :=
  mkOutstationParams (maxControlsPerRequest p) (selectTimeout p) (solConfirmTimeout p) (unsolConfirmTimeout p) (maxTxFragSize p)
    (maxRxFragSize p) (allowUnsolicited p) c (respondToAnyMaster p).

Inductive OutstationState := Idle | SolicitedConfirmWait | UnsolicitedConfirmWait.

#[export] Instance OutstationState_eq_dec : EqDecision OutstationState.
Proof. solve_decision. Defined.

Record OContext (M D W : Type) := mkOContext {
  addresses : Addresses;
  params : OutstationParams;
  eventBuffer : EventBuffer M;
  database : D;
  fragmentCount : Z;
  isOnline : bool;
  isTransmitting : bool;
  staticIIN : IINField;
  confirmTimer : option Z;
  history : RequestHistory;
  deferred : DeferredRequest;
  control_ : ControlState;
  time_ : TimeSyncState;
  sol : OutstationSolState;
  unsol : OutstationUnsolState;
  state_ : OutstationState;
  outside : Outside W
}.

Arguments mkOContext {M D W}.

Arguments addresses {M D W}.

Arguments params {M D W}.

Arguments eventBuffer {M D W}.

Arguments database {M D W}.

Arguments fragmentCount {M D W}.

Arguments isOnline {M D W}.

Arguments isTransmitting {M D W}.

Arguments staticIIN {M D W}.

Arguments confirmTimer {M D W}.

Arguments history {M D W}.

Arguments deferred {M D W}.

Arguments control_ {M D W}.

Arguments time_ {M D W}.

Arguments sol {M D W}.

Arguments unsol {M D W}.

Arguments state_ {M D W}.

Arguments outside {M D W}.

Section Setters.
Context {M D W : Type}.

Definition set_params (v : OutstationParams) (c : OContext M D W) : OContext M D W :=
  mkOContext (addresses c) v (eventBuffer c) (database c) (fragmentCount c) (isOnline c) (isTransmitting c)
    (staticIIN c) (confirmTimer c) (history c) (deferred c) (control_ c) (time_ c) (sol c) (unsol c) (state_ c)
    (outside c).

Definition set_eventBuffer (v : EventBuffer M) (c : OContext M D W) : OContext M D W :=
  mkOContext (addresses c) (params c) v (database c) (fragmentCount c) (isOnline c) (isTransmitting c)
    (staticIIN c) (confirmTimer c) (history c) (deferred c) (control_ c) (time_ c) (sol c) (unsol c) (state_ c)
    (outside c).

Definition set_database (v : D) (c : OContext M D W) : OContext M D W :=
  mkOContext (addresses c) (params c) (eventBuffer c) v (fragmentCount c) (isOnline c) (isTransmitting c)
    (staticIIN c) (confirmTimer c) (history c) (deferred c) (control_ c) (time_ c) (sol c) (unsol c) (state_ c)
    (outside c).

Definition set_fragmentCount (v : Z) (c : OContext M D W) : OContext M D W :=
  mkOContext (addresses c) (params c) (eventBuffer c) (database c) v (isOnline c) (isTransmitting c)
    (staticIIN c) (confirmTimer c) (history c) (deferred c) (control_ c) (time_ c) (sol c) (unsol c) (state_ c)
    (outside c).

Definition set_isOnline (v : bool) (c : OContext M D W) : OContext M D W :=
  mkOContext (addresses c) (params c) (eventBuffer c) (database c) (fragmentCount c) v (isTransmitting c)
    (staticIIN c) (confirmTimer c) (history c) (deferred c) (control_ c) (time_ c) (sol c) (unsol c) (state_ c)
    (outside c).

Definition set_isTransmitting (v : bool) (c : OContext M D W) : OContext M D W :=
  mkOContext (addresses c) (params c) (eventBuffer c) (database c) (fragmentCount c) (isOnline c) v
    (staticIIN c) (confirmTimer c) (history c) (deferred c) (control_ c) (time_ c) (sol c) (unsol c) (state_ c)
    (outside c).

Definition set_staticIIN (v : IINField) (c : OContext M D W) : OContext M D W :=
  mkOContext (addresses c) (params c) (eventBuffer c) (database c) (fragmentCount c) (isOnline c)
    (isTransmitting c) v (confirmTimer c) (history c) (deferred c) (control_ c) (time_ c) (sol c) (unsol c)
    (state_ c) (outside c).

Definition set_confirmTimer (v : option Z) (c : OContext M D W) : OContext M D W :=
  mkOContext (addresses c) (params c) (eventBuffer c) (database c) (fragmentCount c) (isOnline c)
    (isTransmitting c) (staticIIN c) v (history c) (deferred c) (control_ c) (time_ c) (sol c) (unsol c)
    (state_ c) (outside c).

Definition set_history (v : RequestHistory) (c : OContext M D W) : OContext M D W :=
  mkOContext (addresses c) (params c) (eventBuffer c) (database c) (fragmentCount c) (isOnline c)
    (isTransmitting c) (staticIIN c) (confirmTimer c) v (deferred c) (control_ c) (time_ c) (sol c) (unsol c)
    (state_ c) (outside c).

Definition set_deferred (v : DeferredRequest) (c : OContext M D W) : OContext M D W :=
  mkOContext (addresses c) (params c) (eventBuffer c) (database c) (fragmentCount c) (isOnline c)
    (isTransmitting c) (staticIIN c) (confirmTimer c) (history c) v (control_ c) (time_ c) (sol c) (unsol c)
    (state_ c) (outside c).

Definition set_control (v : ControlState) (c : OContext M D W) : OContext M D W :=
  mkOContext (addresses c) (params c) (eventBuffer c) (database c) (fragmentCount c) (isOnline c)
    (isTransmitting c) (staticIIN c) (confirmTimer c) (history c) (deferred c) v (time_ c) (sol c) (unsol c)
    (state_ c) (outside c).

Definition set_timesync (v : TimeSyncState) (c : OContext M D W) : OContext M D W :=
  mkOContext (addresses c) (params c) (eventBuffer c) (database c) (fragmentCount c) (isOnline c)
    (isTransmitting c) (staticIIN c) (confirmTimer c) (history c) (deferred c) (control_ c) v (sol c) (unsol c)
    (state_ c) (outside c).

Definition set_sol (v : OutstationSolState) (c : OContext M D W) : OContext M D W :=
  mkOContext (addresses c) (params c) (eventBuffer c) (database c) (fragmentCount c) (isOnline c)
    (isTransmitting c) (staticIIN c) (confirmTimer c) (history c) (deferred c) (control_ c) (time_ c) v
    (unsol c) (state_ c) (outside c).

Definition set_unsol (v : OutstationUnsolState) (c : OContext M D W) : OContext M D W :=
  mkOContext (addresses c) (params c) (eventBuffer c) (database c) (fragmentCount c) (isOnline c)
    (isTransmitting c) (staticIIN c) (confirmTimer c) (history c) (deferred c) (control_ c) (time_ c) (sol c) v
    (state_ c) (outside c).

Definition set_state (v : OutstationState) (c : OContext M D W) : OContext M D W :=
  mkOContext (addresses c) (params c) (eventBuffer c) (database c) (fragmentCount c) (isOnline c)
    (isTransmitting c) (staticIIN c) (confirmTimer c) (history c) (deferred c) (control_ c) (time_ c) (sol c)
    (unsol c) v (outside c).

Definition set_outside (v : Outside W) (c : OContext M D W) : OContext M D W :=
  mkOContext (addresses c) (params c) (eventBuffer c) (database c) (fragmentCount c) (isOnline c)
    (isTransmitting c) (staticIIN c) (confirmTimer c) (history c) (deferred c) (control_ c) (time_ c) (sol c)
    (unsol c) (state_ c) v.

End Setters.

Section Session.
Context {M D W : Type} `{Measurement M} `{IStaticDatabase D} `{Environment W}.

#[local] Abbreviation OM := (SM (OContext M D W)).

(** The constructor; [None] when the event buffer cannot be constructed. *)
Definition init (dflt : M) (addresses : Addresses) (config : EventBufferConfig) (params : OutstationParams) (database : D) (world : W)
    : option (OContext M D W) :=
  eventBuffer ← EventBuffer.init dflt config;
  Some (mkOContext addresses params eventBuffer database 0 false false (IINField.of_bit DEVICE_RESTART) None RequestHistory.init
    (DeferredRequest.init (maxRxFragSize params)) ControlState.init TimeSyncState.init
    (OutstationSolState.init (maxTxFragSize params)) (OutstationUnsolState.init (maxTxFragSize params)) Idle (mkOutside world [])).

(** Parts of the state. *)
Definition on_outside {A} (m : SM (Outside W) A) : OM A := on outside set_outside m.

Definition on_events {A} (m : SM (EventBuffer M) A) : OM A := on eventBuffer set_eventBuffer m.

Definition update_events (f : EventBuffer M -> option (EventBuffer M)) : OM unit := on_events (fun b => b ← f b; Some (b, tt)).

Definition set_sol_tx (t : TxBuffer) (c : OContext M D W) : OContext M D W :=
  set_sol (mkOutstationSolState (sol_num (sol c)) (sol_confirmNum (sol c)) t) c.

Definition set_sol_num (n : Z) (c : OContext M D W) : OContext M D W :=
  set_sol (mkOutstationSolState n (sol_confirmNum (sol c)) (sol_tx (sol c))) c.

Definition set_sol_confirmNum (n : Z) (c : OContext M D W) : OContext M D W :=
  set_sol (mkOutstationSolState (sol_num (sol c)) n (sol_tx (sol c))) c.

Definition set_unsol_tx (t : TxBuffer) (c : OContext M D W) : OContext M D W :=
  set_unsol (mkOutstationUnsolState (completedNull (unsol c)) (unsol_num (unsol c)) (unsol_confirmNum (unsol c)) t) c.

Definition set_unsol_nums (n confirm : Z) (c : OContext M D W) : OContext M D W :=
  set_unsol (mkOutstationUnsolState (completedNull (unsol c)) n confirm (unsol_tx (unsol c))) c.

Definition set_completedNull (c : OContext M D W) : OContext M D W :=
  set_unsol (mkOutstationUnsolState true (unsol_num (unsol c)) (unsol_confirmNum (unsol c)) (unsol_tx (unsol c))) c.

End Session.

(** ** ResponseContext *)

Module ResponseContext.
Section Loaders.
Context {M D W : Type} `{Measurement M} `{IStaticDatabase D} `{Environment W}.

#[local] Abbreviation OM := (SM (OContext M D W)).

(** [fragmentCount] has 16 bits. *)
Definition Reset : OM unit := modify (set_fragmentCount 0).

Definition HasSelection : OM bool :=
  get (fun c => HasAnySelection (database c) || EventBuffer.HasAnySelection (eventBuffer c)).

(** The loaders write to the given writer. *)
Definition LoadResponse (writer : Writer) : OM (Writer * AppControlField) :=
  count ← get fragmentCount;
  let fir := count =? 0 in
  _ ← modify (set_fragmentCount (u16 (count + 1)));
  let startingSize := v_size (position writer) in
  '(writer, notFull) ← on_events (fun b => '(w, (b, ok)) ← EventBuffer_Load b writer; Some (b, (w, ok)));
  let someEventsWritten := (v_size (position writer) <? startingSize)%nat in
  if (notFull : bool) then
    '(writer, fin) ← on database set_database (fun d => '(w, (d, ok)) ← Load d writer; Some (d, (w, ok)));
    let con := negb fin || someEventsWritten in
    mret (writer, mkAppControlField fir fin con false 0)
  else mret (writer, mkAppControlField fir false true false 0).

End Loaders.
End ResponseContext.

(** ** Transmission and responses *)

Section Responses.
Context {M D W : Type} `{Measurement M} `{IStaticDatabase D} `{Environment W}.

#[local] Abbreviation OM := (SM (OContext M D W)).

Definition CanTransmit (c : OContext M D W) : bool := isOnline c && negb (isTransmitting c).

Definition BeginTx (destination : Z) (message : bytes) : OM unit :=
  _ ← modify (set_isTransmitting true);
  src ← get (fun c => source (addresses c));
  on_outside (tell (BeginTransmit (mkAddresses src destination) message)).

(** The data is a window of the transmission buffer. *)
Definition BeginResponseTx (destination : Z) (data : View) (control : AppControlField) : OM unit :=
  _ ← modify (fun c => set_sol_tx (TxBuffer.Record_ (sol_tx (sol c)) control data) c);
  buffer ← get (fun c => tx_buffer (sol_tx (sol c)));
  message ← lift (view_bytes buffer data);
  BeginTx destination message.

Definition BeginUnsolTx (control : AppControlField) (response : View) : OM unit :=
  _ ← modify (fun c => set_unsol_tx (TxBuffer.Record_ (unsol_tx (unsol c)) control response) c);
  _ ← modify (fun c => set_unsol_nums (AppSeqNum_Next (unsol_num (unsol c))) (unsol_num (unsol c)) c);
  buffer ← get (fun c => tx_buffer (unsol_tx (unsol c)));
  message ← lift (view_bytes buffer response);
  dest ← get (fun c => destination (addresses c));
  BeginTx dest message.

(** [response.ToRSlice()] as a window *)
Definition response_view (response : APDUWrapper) : View := mkView (v_pos (buffer response)) (APDUWrapper.Size response).

Definition RestartConfirmTimer : OM unit := modify (fun c => set_confirmTimer (Some (unsolConfirmTimeout (params c))) c).

Definition Cancel : OM unit := modify (set_confirmTimer None).

Definition GetDynamicIIN : OM IINField :=
  classField ← get (fun c => EventBuffer.UnwrittenClassField (eventBuffer c));
  overflown ← on_events (fun b => Some (EventBuffer.IsOverflown b));
  let ret := IINField.Empty in
  let ret := IINField.SetBitToValue ret CLASS1_EVENTS (ClassField.HasClass1 classField) in
  let ret := IINField.SetBitToValue ret CLASS2_EVENTS (ClassField.HasClass2 classField) in
  let ret := IINField.SetBitToValue ret CLASS3_EVENTS (ClassField.HasClass3 classField) in
  let ret := IINField.SetBitToValue ret EVENT_BUFFER_OVERFLOW overflown in
  mret ret.

Definition GetResponseIIN : OM IINField :=
  static ← get staticIIN;
  dynamic ← GetDynamicIIN;
  application ← on_outside (ask GetApplicationIIN);
  mret (IINField.or (IINField.or static dynamic) (ToIIN application)).

(** ** Function handlers

    [writer] is the writer of the response. *)

Definition HandleRead (objects : RSlice) (writer : Writer) : OM (Writer * (IINField * AppControlField)) :=
  _ ← ResponseContext.Reset;
  _ ← update_events EventBuffer.Unselect;
  _ ← on database set_database (fun d => d ← Unselect d; Some (d, tt));
  '(handler, result) ← on (fun c => (database c, eventBuffer c)) (fun s c => set_database s.1 (set_eventBuffer s.2 c))
    (APDUHandler.run ParserSettings.NoContents ReadHandler.handler objects);
  if decide (result = OK) then
    '(writer, control) ← ResponseContext.LoadResponse writer;
    mret (writer, (errors handler, control))
  else
    _ ← ResponseContext.Reset;
    mret (writer, (IINFromParseResult result, mkAppControlField true true false false 0)).

Definition HandleWrite (objects : RSlice) : OM IINField :=
  seq ← get (fun c => sol_num (sol c));
  now ← on_outside (ask GetTime);
  r ← on (fun c => mkWriteState (outside c) (time_ c) (staticIIN c) false false)
    (fun s c => set_outside (ws_outside s) (set_timesync (timeSyncState s) (set_staticIIN (writeIIN s) c)))
    (APDUHandler.run ParserSettings.Default (WriteHandler.handler seq now) objects);
  mret (errors_or r).

(** A [CommandResponseHandler] with a [CommandActionAdapter], both destroyed at the
    end. *)
Definition run_commands (isSelect : bool) (opType : OperateType) (objects : RSlice) (writer : option Writer)
    : OM (Handling (CommandState (CommandActionAdapter W)) * ParseResult) :=
  max ← get (fun c => maxControlsPerRequest (params c));
  on_outside (fun o =>
    '(s, r) ← APDUHandler.run ParserSettings.Default
      (CommandResponseHandler.handler (CommandActionAdapter.Action isSelect opType) max) objects
      (CommandResponseHandler.init writer (CommandActionAdapter.init o));
    '(adapter, _) ← CommandActionAdapter.destroy (pCommandAction s);
    Some (ca_outside adapter, r)).

(** The writer behind the pointer afterwards. *)
Definition writer_after {A} (r : Handling (CommandState A) * ParseResult) (writer : Writer) : Writer :=
  match pWriter (local r.1) with Some w => w | None => writer end.

Definition HandleDirectOperate (objects : RSlice) (opType : OperateType) (pWriter : option Writer) : OM (option Writer * IINField) :=
  if match pWriter with Some w => (v_size (position w) <? RSlice.Size objects)%nat | None => false end then
    mret (pWriter, IINField.of_bit PARAM_ERROR)
  else
    r ← run_commands false opType objects pWriter;
    mret (option_map (writer_after r) pWriter, errors_or r).

Definition HandleSelect (objects : RSlice) (writer : Writer) : OM (Writer * IINField) :=
  if (v_size (position writer) <? RSlice.Size objects)%nat then mret (writer, IINField.of_bit PARAM_ERROR)
  else
    '(handler, result) ← run_commands true DirectOperate objects (Some writer);
    let writer := writer_after (handler, result) writer in
    if decide (result = OK) then
      _ ← (if CommandResponseHandler.AllCommandsSuccessful (local handler) then
             seq ← get (fun c => sol_num (sol c));
             now ← on_outside (ask GetTime);
             modify (set_control (ControlState.Select seq now objects))
           else mret tt);
      mret (writer, errors handler)
    else mret (writer, IINFromParseResult result).

Definition HandleCommandWithConstant (objects : RSlice) (writer : Writer) (status : CommandStatus) : OM (Writer * IINField) :=
  max ← get (fun c => maxControlsPerRequest (params c));
  r ← lift (APDUParser.Parse ParserSettings.Default (CommandResponseHandler.handler (ConstantCommandAction.Action status) max) objects
    (APDUHandler.init (CommandResponseHandler.init (Some writer) tt)));
  mret (writer_after r writer, IINFromParseResult r.2).

Definition HandleOperate (objects : RSlice) (writer : Writer) : OM (Writer * IINField) :=
  if (v_size (position writer) <? RSlice.Size objects)%nat then mret (writer, IINField.of_bit PARAM_ERROR)
  else
    now ← on_outside (ask GetTime);
    result ← get (fun c => ControlState.ValidateSelection (control_ c) (sol_num (sol c)) now (selectTimeout (params c)) objects);
    if decide (result = SUCCESS) then
      r ← run_commands false SelectBeforeOperate objects (Some writer);
      mret (writer_after r writer, errors_or r)
    else HandleCommandWithConstant objects writer result.

Definition HandleDelayMeasure (objects : RSlice) (writer : Writer) : OM (Writer * IINField) :=
  if RSlice.IsEmpty objects then
    '(writer, _) ← lift (HeaderWriter.WriteSingleValue UInt8 UINT8_CNT GroupVariation.Group52Var2 (Fields [0]) writer);
    mret (writer, IINField.Empty)
  else mret (writer, IINField.of_bit PARAM_ERROR).

Definition HandleRecordCurrentTime : OM IINField :=
  seq ← get (fun c => sol_num (sol c));
  now ← on_outside (ask GetTime);
  _ ← modify (fun c => set_timesync (TimeSyncState.RecordCurrentTime (time_ c) seq now) c);
  mret IINField.Empty.

(** The delay that the application answers has 16 bits. *)
Definition HandleRestart (objects : RSlice) (isWarmRestart : bool) (writer : Writer) : OM (Writer * IINField) :=
  if RSlice.IsNotEmpty objects then mret (writer, IINField.of_bit PARAM_ERROR)
  else
    mode ← on_outside (ask (if isWarmRestart then WarmRestartSupport else ColdRestartSupport));
    match mode with
    | UNSUPPORTED => mret (writer, IINField.of_bit FUNC_NOT_SUPPORTED)
    | SUPPORTED_DELAY_COARSE =>
        delay ← on_outside (call_out (if isWarmRestart then WarmRestart else ColdRestart) restart_delay);
        '(writer, _) ← lift (HeaderWriter.WriteSingleValue UInt8 UINT8_CNT GroupVariation.Group52Var1 (Fields [u16 delay]) writer);
        mret (writer, IINField.Empty)
    | SUPPORTED_DELAY_FINE =>
        delay ← on_outside (call_out (if isWarmRestart then WarmRestart else ColdRestart) restart_delay);
        '(writer, _) ← lift (HeaderWriter.WriteSingleValue UInt8 UINT8_CNT GroupVariation.Group52Var2 (Fields [u16 delay]) writer);
        mret (writer, IINField.Empty)
    end.

Definition HandleAssignClass (objects : RSlice) : OM IINField :=
  supported ← on_outside (ask SupportsAssignClass);
  if (supported : bool) then
    r ← on (fun c => AssignClassHandler.init (outside c) (database c))
      (fun s c => set_outside (as_outside s) (set_database (assigner s) c))
      (APDUHandler.run ParserSettings.NoContents AssignClassHandler.handler objects);
    mret (errors_or r)
  else mret (IINField.of_bit FUNC_NOT_SUPPORTED).

(** [HandleDisableUnsolicited] and [HandleEnableUnsolicited] *)
Definition HandleUnsolicited (update : ClassField -> ClassField -> ClassField) (objects : RSlice) : OM IINField :=
  '(handler, result) ← lift (APDUParser.Parse ParserSettings.Default ClassBasedRequestHandler.handler objects
    (APDUHandler.init ClassField.default));
  if decide (result = OK) then
    _ ← modify (fun c => set_params (set_unsolClassMask (update (unsolClassMask (params c)) (local handler)) (params c)) c);
    mret (errors handler)
  else mret (IINFromParseResult result).

Definition HandleDisableUnsolicited : RSlice -> OM IINField := HandleUnsolicited ClassField.Clear.

Definition HandleEnableUnsolicited : RSlice -> OM IINField := HandleUnsolicited ClassField.Set_.

Definition HandleNonReadResponse (header : APDUHeader) (objects : RSlice) (writer : Writer) : OM (Writer * IINField) :=
  let with_writer (m : OM IINField) : OM (Writer * IINField) := iin ← m; mret (writer, iin) in
  let unsolicited (m : OM IINField) : OM (Writer * IINField) :=
    allow ← get (fun c => allowUnsolicited (params c));
    if (allow : bool) then with_writer m else mret (writer, IINField.of_bit FUNC_NOT_SUPPORTED) in
  match function header with
  | WRITE => with_writer (HandleWrite objects)
  | SELECT => HandleSelect objects writer
  | OPERATE => HandleOperate objects writer
  | DIRECT_OPERATE =>
      '(w, iin) ← HandleDirectOperate objects DirectOperate (Some writer);
      mret (default writer w, iin)
  | COLD_RESTART => HandleRestart objects false writer
  | WARM_RESTART => HandleRestart objects true writer
  | ASSIGN_CLASS => with_writer (HandleAssignClass objects)
  | DELAY_MEASURE => HandleDelayMeasure objects writer
  | RECORD_CURRENT_TIME =>
      if RSlice.IsEmpty objects then with_writer HandleRecordCurrentTime else mret (writer, IINField.of_bit PARAM_ERROR)
  | DISABLE_UNSOLICITED => unsolicited (HandleDisableUnsolicited objects)
  | ENABLE_UNSOLICITED => unsolicited (HandleEnableUnsolicited objects)
  | _ => mret (writer, IINField.of_bit FUNC_NOT_SUPPORTED)
  end.

(** The writer of a fragment, and the fragment after something was written. *)
Definition GetWriter (response : APDUWrapper) : Writer := mkWriter (apdu_array response) (remaining response) None.

Definition written (response : APDUWrapper) (writer : Writer) : APDUWrapper :=
  mkAPDUWrapper (valid response) (wr_array writer) (buffer response) (position writer).

(** Sends a response from the solicited buffer: [control] is read back from it. *)
Definition transmit_response (destination : Z) (response : APDUWrapper) : OM unit :=
  _ ← modify (fun c => set_sol_tx (TxBuffer.set_buffer (sol_tx (sol c)) (apdu_array response)) c);
  control ← lift (APDUWrapper.GetControl response);
  BeginResponseTx destination (response_view response) control.

Definition RespondToNonReadRequest (request : ParsedRequest) : OM unit :=
  let header := req_header request in
  _ ← modify (set_history (RequestHistory.RecordLastProcessedRequest header (req_objects request)));
  tx ← get (fun c => sol_tx (sol c));
  response ← lift (TxBuffer.Start tx);
  response ← lift (APDUWrapper.SetFunction response RESPONSE);
  response ← lift (APDUWrapper.SetControl response (mkAppControlField true true false false (SEQ (control header))));
  '(writer, iin) ← HandleNonReadResponse header (req_objects request) (GetWriter response);
  let response := written response writer in
  rsp_iin ← GetResponseIIN;
  response ← lift (APDUResponse.SetIIN response (IINField.or iin rsp_iin));
  transmit_response (source (req_addresses request)) response.

(** The end of [RespondToReadRequest] and [ContinueMultiFragResponse]. *)
Definition await_confirm (con : bool) : OM OutstationState :=
  if con then _ ← RestartConfirmTimer; mret SolicitedConfirmWait else mret Idle.

Definition set_SEQ (seq : Z) (c : AppControlField) : AppControlField := mkAppControlField (FIR c) (FIN c) (CON c) (UNS c) seq.

Definition RespondToReadRequest (request : ParsedRequest) : OM OutstationState :=
  let header := req_header request in
  _ ← modify (set_history (RequestHistory.RecordLastProcessedRequest header (req_objects request)));
  tx ← get (fun c => sol_tx (sol c));
  response ← lift (TxBuffer.Start tx);
  response ← lift (APDUWrapper.SetFunction response RESPONSE);
  '(writer, (iin, ctrl)) ← HandleRead (req_objects request) (GetWriter response);
  let response := written response writer in
  let ctrl := set_SEQ (SEQ (control header)) ctrl in
  _ ← modify (set_sol_confirmNum (SEQ (control header)));
  response ← lift (APDUWrapper.SetControl response ctrl);
  rsp_iin ← GetResponseIIN;
  response ← lift (APDUResponse.SetIIN response (IINField.or iin rsp_iin));
  _ ← transmit_response (source (req_addresses request)) response;
  await_confirm (CON ctrl).

Definition ContinueMultiFragResponse (addresses_ : Addresses) (seq : Z) : OM OutstationState :=
  tx ← get (fun c => sol_tx (sol c));
  response ← lift (TxBuffer.Start tx);
  response ← lift (APDUWrapper.SetFunction response RESPONSE);
  '(writer, ctrl) ← ResponseContext.LoadResponse (GetWriter response);
  let response := written response writer in
  let ctrl := set_SEQ seq ctrl in
  _ ← modify (set_sol_confirmNum seq);
  response ← lift (APDUWrapper.SetControl response ctrl);
  rsp_iin ← GetResponseIIN;
  response ← lift (APDUResponse.SetIIN response rsp_iin);
  _ ← transmit_response (source addresses_) response;
  await_confirm (CON ctrl).

(** A repeated request: the last response again. *)
Definition repeat_response (request : ParsedRequest) : OM unit :=
  tx ← get (fun c => sol_tx (sol c));
  BeginResponseTx (source (req_addresses request)) (TxBuffer.GetLastResponse tx) (TxBuffer.GetLastControl tx).

Definition defer (request : ParsedRequest) : OM unit :=
  on deferred set_deferred (fun d => d ← DeferredRequest.Set_ d request; Some (d, tt)).

End Responses.

(** ** The states *)

Module StateIdle.
Section Session.
Context {M D W : Type} `{Measurement M} `{IStaticDatabase D} `{Environment W}.

#[local] Abbreviation OM := (SM (OContext M D W)).

Definition OnConfirm (request : ParsedRequest) : OM OutstationState := mret Idle.

Definition OnConfirmTimeout : OM OutstationState := mret Idle.

Definition OnNewReadRequest (request : ParsedRequest) : OM OutstationState := RespondToReadRequest request.

Definition OnNewNonReadRequest (request : ParsedRequest) : OM OutstationState := _ ← RespondToNonReadRequest request; mret Idle.

Definition OnRepeatNonReadRequest (request : ParsedRequest) : OM OutstationState := _ ← repeat_response request; mret Idle.

Definition OnRepeatReadRequest (request : ParsedRequest) : OM OutstationState := _ ← repeat_response request; mret Idle.

End Session.
End StateIdle.

Module StateSolicitedConfirmWait.
Section Session.
Context {M D W : Type} `{Measurement M} `{IStaticDatabase D} `{Environment W}.

#[local] Abbreviation OM := (SM (OContext M D W)).

Definition OnConfirm (request : ParsedRequest) : OM OutstationState :=
  let ctrl := control (req_header request) in
  if UNS ctrl then mret SolicitedConfirmWait
  else
    confirmNum ← get (fun c => sol_confirmNum (sol c));
    if negb (confirmNum =? SEQ ctrl) then mret SolicitedConfirmWait
    else
      _ ← modify (fun c => set_history (RequestHistory.Reset (history c)) c);
      _ ← Cancel;
      _ ← update_events EventBuffer.ClearWritten;
      more ← ResponseContext.HasSelection;
      if (more : bool) then ContinueMultiFragResponse (req_addresses request) (AppSeqNum_Next (SEQ ctrl))
      else mret Idle.

Definition OnConfirmTimeout : OM OutstationState := mret Idle.

Definition OnNewReadRequest (request : ParsedRequest) : OM OutstationState := _ ← Cancel; RespondToReadRequest request.

Definition OnNewNonReadRequest (request : ParsedRequest) : OM OutstationState :=
  _ ← Cancel; _ ← RespondToNonReadRequest request; mret Idle.

Definition OnRepeatNonReadRequest (request : ParsedRequest) : OM OutstationState :=
  _ ← Cancel; _ ← repeat_response request; mret SolicitedConfirmWait.

Definition OnRepeatReadRequest (request : ParsedRequest) : OM OutstationState :=
  _ ← RestartConfirmTimer; _ ← repeat_response request; mret SolicitedConfirmWait.

End Session.
End StateSolicitedConfirmWait.

Module StateUnsolicitedConfirmWait.
Section Session.
Context {M D W : Type} `{Measurement M} `{IStaticDatabase D} `{Environment W}.

#[local] Abbreviation OM := (SM (OContext M D W)).

Definition OnConfirm (request : ParsedRequest) : OM OutstationState :=
  let ctrl := control (req_header request) in
  if negb (UNS ctrl) then mret UnsolicitedConfirmWait
  else
    confirmNum ← get (fun c => unsol_confirmNum (unsol c));
    if negb (confirmNum =? SEQ ctrl) then mret UnsolicitedConfirmWait
    else
      _ ← modify (fun c => set_history (RequestHistory.Reset (history c)) c);
      _ ← Cancel;
      completed ← get (fun c => completedNull (unsol c));
      _ ← (if (completed : bool) then update_events EventBuffer.ClearWritten else modify set_completedNull);
      mret Idle.

Definition OnConfirmTimeout : OM OutstationState :=
  completed ← get (fun c => completedNull (unsol c));
  _ ← (if (completed : bool) then update_events EventBuffer.Unselect else mret tt);
  mret Idle.

Definition OnNewReadRequest (request : ParsedRequest) : OM OutstationState := _ ← defer request; mret UnsolicitedConfirmWait.

Definition OnNewNonReadRequest (request : ParsedRequest) : OM OutstationState :=
  _ ← modify (fun c => set_deferred (DeferredRequest.Reset (deferred c)) c);
  _ ← RespondToNonReadRequest request;
  mret UnsolicitedConfirmWait.

Definition OnRepeatNonReadRequest (request : ParsedRequest) : OM OutstationState :=
  _ ← repeat_response request; mret UnsolicitedConfirmWait.

Definition OnRepeatReadRequest (request : ParsedRequest) : OM OutstationState := _ ← defer request; mret UnsolicitedConfirmWait.

End Session.
End StateUnsolicitedConfirmWait.

(** ** Dispatch *)

Section Dispatch.
Context {M D W : Type} `{Measurement M} `{IStaticDatabase D} `{Environment W}.

#[local] Abbreviation OM := (SM (OContext M D W)).

(** A virtual call on [state]. *)
Definition dispatch {A} (idle sol unsol : A) (s : OutstationState) : A :=
  match s with Idle => idle | SolicitedConfirmWait => sol | UnsolicitedConfirmWait => unsol end.

Definition OnConfirm (request : ParsedRequest) : OM OutstationState :=
  s ← get state_;
  dispatch (StateIdle.OnConfirm request) (StateSolicitedConfirmWait.OnConfirm request) (StateUnsolicitedConfirmWait.OnConfirm request) s.

Definition OnConfirmTimeout : OM OutstationState :=
  s ← get state_;
  dispatch StateIdle.OnConfirmTimeout StateSolicitedConfirmWait.OnConfirmTimeout StateUnsolicitedConfirmWait.OnConfirmTimeout s.

Definition OnNewReadRequest (request : ParsedRequest) : OM OutstationState :=
  s ← get state_;
  dispatch (StateIdle.OnNewReadRequest request) (StateSolicitedConfirmWait.OnNewReadRequest request)
    (StateUnsolicitedConfirmWait.OnNewReadRequest request) s.

Definition OnNewNonReadRequest (request : ParsedRequest) : OM OutstationState :=
  s ← get state_;
  dispatch (StateIdle.OnNewNonReadRequest request) (StateSolicitedConfirmWait.OnNewNonReadRequest request)
    (StateUnsolicitedConfirmWait.OnNewNonReadRequest request) s.

Definition OnRepeatNonReadRequest (request : ParsedRequest) : OM OutstationState :=
  s ← get state_;
  dispatch (StateIdle.OnRepeatNonReadRequest request) (StateSolicitedConfirmWait.OnRepeatNonReadRequest request)
    (StateUnsolicitedConfirmWait.OnRepeatNonReadRequest request) s.

Definition OnRepeatReadRequest (request : ParsedRequest) : OM OutstationState :=
  s ← get state_;
  dispatch (StateIdle.OnRepeatReadRequest request) (StateSolicitedConfirmWait.OnRepeatReadRequest request)
    (StateUnsolicitedConfirmWait.OnRepeatReadRequest request) s.

Definition ProcessNewRequest (request : ParsedRequest) : OM OutstationState :=
  _ ← modify (set_sol_num (SEQ (control (req_header request))));
  if decide (function (req_header request) = READ) then OnNewReadRequest request else OnNewNonReadRequest request.

Definition OnReceiveSolRequest (request : ParsedRequest) : OM OutstationState :=
  h ← get history;
  num ← get (fun c => sol_num (sol c));
  if RequestHistory.HasLastRequest h then
    if num =? SEQ (control (req_header request)) then
      if RequestHistory.FullyEqualsLastRequest h (req_header request) (req_objects request) then
        if decide (function (req_header request) = READ) then OnRepeatReadRequest request else OnRepeatNonReadRequest request
      else ProcessNewRequest request
    else ProcessNewRequest request
  else ProcessNewRequest request.

Definition ProcessRequest (request : ParsedRequest) : OM bool :=
  if UNS (control (req_header request)) then mret false
  else
    s ← OnReceiveSolRequest request;
    _ ← modify (set_state s);
    mret true.

Definition ProcessConfirm (request : ParsedRequest) : OM bool :=
  s ← OnConfirm request;
  _ ← modify (set_state s);
  mret true.

Definition ProcessRequestNoAck (request : ParsedRequest) : OM bool :=
  match function (req_header request) with
  | DIRECT_OPERATE_NR => _ ← HandleDirectOperate (req_objects request) DirectOperateNoAck None; mret true
  | _ => mret false
  end.

Definition ProcessObjects (request : ParsedRequest) : OM bool :=
  if IsNoAckFuncCode (function (req_header request)) then ProcessRequestNoAck request
  else
    transmitting ← get isTransmitting;
    if (transmitting : bool) then _ ← defer request; mret true
    else if decide (function (req_header request) = CONFIRM) then ProcessConfirm request
    else ProcessRequest request.

Definition ProcessMessage (addresses_ : Addresses) (payload : RSlice) : OM bool :=
  a ← get addresses;
  if negb (destination addresses_ =? source a) then mret false
  else
    any ← get (fun c => respondToAnyMaster (params c));
    if negb any && negb (source addresses_ =? destination a) then mret false
    else
      match ParseRequest payload with
      | None => mret false
      | Some (header, objects) =>
          if negb (AppControlField.IsFirAndFin (control header)) then mret false
          else if CON (control header) then mret false
          else ProcessObjects (mkParsedRequest addresses_ header objects)
      end.

Definition ProcessDeferredRequest (request : ParsedRequest) : OM bool :=
  if decide (function (req_header request) = CONFIRM) then _ ← ProcessConfirm request; mret true
  else if decide (function (req_header request) = READ) then
    s ← get state_;
    if decide (s = Idle) then _ ← ProcessRequest request; mret true else mret false
  else _ ← ProcessRequest request; mret true.

(** With [DeferredRequest::Process]. *)
Definition CheckForDeferredRequest : OM unit :=
  can ← get CanTransmit;
  d ← get deferred;
  if can && DeferredRequest.IsSet d then
    p ← ProcessDeferredRequest (DeferredRequest.request d);
    modify (fun c => set_deferred (DeferredRequest.processed p (deferred c)) c)
  else mret tt.

(** The end of both branches of [CheckForUnsolicited]. *)
Definition send_unsolicited (response : APDUWrapper) : OM unit :=
  num ← get (fun c => unsol_num (unsol c));
  iin ← GetResponseIIN;
  response ← lift (NullUnsolicited response num iin);
  _ ← RestartConfirmTimer;
  _ ← modify (set_state UnsolicitedConfirmWait);
  _ ← modify (fun c => set_unsol_tx (TxBuffer.set_buffer (unsol_tx (unsol c)) (apdu_array response)) c);
  control ← lift (APDUWrapper.GetControl response);
  BeginUnsolTx control (response_view response).

Definition CheckForUnsolicited : OM unit :=
  can ← get CanTransmit;
  s ← get state_;
  allow ← get (fun c => allowUnsolicited (params c));
  if can && bool_decide (s = Idle) && allow then
    completed ← get (fun c => completedNull (unsol c));
    if (completed : bool) then
      mask ← get (fun c => unsolClassMask (params c));
      unwritten ← get (fun c => EventBuffer.UnwrittenClassField (eventBuffer c));
      if ClassField.Intersects mask unwritten then
        tx ← get (fun c => unsol_tx (unsol c));
        response ← lift (TxBuffer.Start tx);
        _ ← update_events EventBuffer.Unselect;
        _ ← update_events (EventBuffer.SelectAllByClass mask);
        writer ← on_events (fun b => '(w, (b, _)) ← EventBuffer_Load b (GetWriter response); Some (b, w));
        send_unsolicited (written response writer)
      else mret tt
    else
      tx ← get (fun c => unsol_tx (unsol c));
      response ← lift (TxBuffer.Start tx);
      send_unsolicited response
  else mret tt.

Definition CheckForTaskStart : OM unit := _ ← CheckForDeferredRequest; CheckForUnsolicited.

(** ** Events from outside *)

Definition OnLowerLayerUp : OM bool :=
  online ← get isOnline;
  if (online : bool) then mret false
  else
    _ ← modify (set_isOnline true);
    _ ← CheckForTaskStart;
    mret true.

Definition OnLowerLayerDown : OM bool :=
  online ← get isOnline;
  if negb online then mret false
  else
    _ ← modify (set_state Idle);
    _ ← modify (set_isOnline false);
    _ ← modify (set_isTransmitting false);
    _ ← modify (fun c => set_sol (OutstationSolState.Reset (sol c)) c);
    _ ← modify (fun c => set_unsol (OutstationUnsolState.Reset (unsol c)) c);
    _ ← modify (fun c => set_history (RequestHistory.Reset (history c)) c);
    _ ← modify (fun c => set_deferred (DeferredRequest.Reset (deferred c)) c);
    _ ← update_events EventBuffer.Unselect;
    _ ← ResponseContext.Reset;
    _ ← Cancel;
    mret true.

Definition OnTxReady : OM bool :=
  online ← get isOnline;
  transmitting ← get isTransmitting;
  if negb online || negb transmitting then mret false
  else
    _ ← modify (set_isTransmitting false);
    _ ← CheckForTaskStart;
    mret true.

Definition OnReceive (addresses_ : Addresses) (payload : RSlice) : OM bool :=
  online ← get isOnline;
  if negb online then mret false
  else
    _ ← ProcessMessage addresses_ payload;
    _ ← CheckForTaskStart;
    mret true.

Definition SetRestartIIN : OM unit := modify (fun c => set_staticIIN (IINField.SetBit (staticIIN c) DEVICE_RESTART) c).

(** The callback of the confirm timer, which is not pending any more. *)
Definition OnTimer : OM unit :=
  _ ← Cancel;
  s ← OnConfirmTimeout;
  _ ← modify (set_state s);
  CheckForTaskStart.

End Dispatch.
