(* ===== verification/OutstationSpecs.v ===== *)
(** * OutstationSpecs: what the methods of the session do

    Every method of [Outstation] runs without undefined behaviour on a session
    whose parts are well formed, and what it changes is described: which fields,
    which calls are made, which bytes are sent. *)

From S2P Require Import Prelude Slices Serialization LinkFrame AppHeader Objects ObjectParser HeaderWriter HeaderRoundtrip EventList EventBuffer EventSpec EventProps EventWriters EventResponse OutstationState RequestHandlers RequestSpecs Outstation.
From Stdlib Require Import ZifyNat.

Open Scope Z_scope.

(** ** Fragments under construction *)

(** A fragment in a buffer of [n] bytes: four bytes of header and what was written. *)
Record fragment (n : nat) (f : APDUWrapper) (hdr data : bytes) : Prop := mkFragment {
  fr_buffer : buffer f = mkView 0 n;
  fr_length : length (apdu_array f) = n;
  fr_remaining : remaining f = mkView (4 + length data) (n - (4 + length data));
  fr_fits : (4 + length data <= n)%nat;
  fr_header : length hdr = 4%nat;
  fr_bytes : take (4 + length data) (apdu_array f) = hdr ++ data
}.

Section Fragments.

Lemma fragment_store n f hdr data i b :
  fragment n f hdr data -> (i < 4)%nat -> exists f', APDUWrapper.store f i b = Some f' /\ fragment n f' (<[i := b]> hdr) data.
Proof.
  intros [Hb Hl Hr Hf Hh Hy] Hi. unfold APDUWrapper.store. rewrite Hb. cbn [v_pos]. rewrite Nat.add_0_l, mem_write_byte by lia.
  cbn [mbind option_bind]. eexists. split; [done|]. split; cbn [buffer apdu_array remaining]; [done|by rewrite length_insert|done|done|by rewrite length_insert|].
  rewrite take_insert_lt by lia. rewrite Hy. by rewrite insert_app_l by lia.
Qed.

Lemma fragment_SetControl n f hdr data c :
  fragment n f hdr data -> exists f', APDUWrapper.SetControl f c = Some f' /\ fragment n f' (<[0%nat := AppControlField.ToByte c]> hdr) data.
Proof. intros Hf. by apply (fragment_store n f hdr data 0); [|lia]. Qed.

Lemma fragment_SetFunction n f hdr data fc :
  fragment n f hdr data -> exists f', APDUWrapper.SetFunction f fc = Some f' /\ fragment n f' (<[1%nat := FunctionCodeToType fc]> hdr) data.
Proof.
  intros Hf. unfold APDUWrapper.SetFunction. pose proof (fr_fits _ _ _ _ Hf). rewrite (fr_buffer _ _ _ _ Hf). cbn [v_size].
  destruct (Nat.ltb_spec 0 n); [|lia]. cbn [c_assert mbind option_bind]. by apply (fragment_store n f hdr data 1); [|lia].
Qed.

Lemma fragment_SetIIN n f hdr data iin :
  fragment n f hdr data -> exists f', APDUResponse.SetIIN f iin = Some f' /\ fragment n f' (<[3%nat := MSB iin]> (<[2%nat := LSB iin]> hdr)) data.
Proof.
  intros Hf. unfold APDUResponse.SetIIN. destruct (fragment_store n f hdr data 2 (LSB iin) Hf ltac:(lia)) as (f1 & -> & Hf1).
  cbn [mbind option_bind]. by apply (fragment_store n f1 _ data 3); [|lia].
Qed.

Lemma fragment_GetControl n f hdr data c :
  fragment n f hdr data -> hdr !! 0%nat = Some (AppControlField.ToByte c) -> 0 <= SEQ c < 16 -> APDUWrapper.GetControl f = Some c.
Proof.
  intros [Hb Hl Hr Hf Hh Hy] Hc Hs. unfold APDUWrapper.GetControl, APDUWrapper.fetch. rewrite Hb. cbn [v_size v_pos].
  destruct (Nat.ltb_spec 0 n); [|lia]. cbn [c_assert mbind option_bind]. rewrite Nat.add_0_l, mem_read_Some by lia. cbn [mbind option_bind]. rewrite drop_0.
  assert (Ht : take 1 (apdu_array f) = [AppControlField.ToByte c]).
  { replace (take 1 (apdu_array f)) with (take 1 (take (4 + length data) (apdu_array f))) by (rewrite take_take; f_equal; lia). rewrite Hy. destruct hdr as [|b hdr]; [done|]. cbn in Hc. injection Hc as ->. cbn [app take]. by rewrite take_0. }
  rewrite Ht. cbn. by rewrite control_roundtrip.
Qed.

Lemma fragment_writer n f hdr data :
  fragment n f hdr data -> Z.of_nat n <= 65535 ->
  wwf (GetWriter f) /\ position (GetWriter f) = mkView (4 + length data) (n - (4 + length data)) /\ wr_array (GetWriter f) = apdu_array f.
Proof.
  intros [Hb Hl Hr Hf Hh Hy] Hn. unfold GetWriter, wwf. cbn [position wr_array]. rewrite Hr. cbn [v_pos v_size]. split_and!; [lia|lia|done|done].
Qed.

Lemma fragment_written n f hdr data w d :
  fragment n f hdr data -> put (GetWriter f) w d -> fragment n (written f w) hdr (data ++ d).
Proof.
  intros [Hb Hl Hr Hf Hh Hy] (P1 & P2 & P3 & P4). unfold GetWriter in *. cbn [position wr_array] in *. rewrite Hr in *. cbn [v_pos v_size] in *.
  split; cbn [written buffer apdu_array remaining]; [done|congruence| |rewrite length_app; lia|done|].
  - rewrite P4, length_app. f_equal; lia.
  - rewrite length_app, Nat.add_assoc, P3, Hy. by rewrite app_assoc.
Qed.

Lemma fragment_bytes n f hdr data :
  fragment n f hdr data -> view_bytes (apdu_array f) (response_view f) = Some (hdr ++ data).
Proof.
  intros [Hb Hl Hr Hf Hh Hy]. unfold response_view, APDUWrapper.Size, view_bytes. rewrite Hb, Hr. cbn [v_pos v_size].
  rewrite mem_read_Some by lia. f_equal. rewrite drop_0, <- Hy. f_equal. lia.
Qed.

Definition tx_ok (n : nat) (t : TxBuffer) : Prop := length (tx_buffer t) = n.

Lemma fragment_start n t :
  tx_ok n t -> (4 <= n)%nat -> exists f, TxBuffer.Start t = Some f /\ fragment n f (take 4 (tx_buffer t)) [].
Proof.
  unfold tx_ok. intros Hl Hn. unfold TxBuffer.Start, APDUResponse.init, APDUWrapper.init. cbn [ws_pos ws_size ws_array v_size].
  destruct (Nat.leb_spec 2 (length (tx_buffer t))); [|lia]. cbn [c_assert mbind option_bind].
  destruct (Nat.leb_spec 4 (length (tx_buffer t))); [|lia]. cbn [c_assert mbind option_bind]. eexists. split; [done|].
  split; cbn [buffer apdu_array remaining valid]; [by rewrite Hl|done| |cbn; lia|len|].
  - rewrite (advance_le (mkView 0 _) 2) by (cbn; lia). rewrite advance_le by (cbn; lia). cbn [v_pos v_size length]. f_equal; lia.
  - cbn [length]. by rewrite Nat.add_0_r, app_nil_r.
Qed.

End Fragments.

(** ** What the function handlers leave alone *)

Definition same_params (p p' : OutstationParams) : Prop := p' = set_unsolClassMask (unsolClassMask p') p.

Lemma same_params_refl p : same_params p p.
Proof. by destruct p. Qed.

Lemma same_params_trans p p1 p2 : same_params p p1 -> same_params p1 p2 -> same_params p p2.
Proof. unfold same_params. destruct p, p1, p2. cbn. intros [=] [=]. by subst. Qed.

Section Frames.
Context {M D W : Type}.

Record frame (c c' : OContext M D W) : Prop := mkFrame {
  fm_addresses : addresses c' = addresses c;
  fm_online : isOnline c' = isOnline c;
  fm_transmitting : isTransmitting c' = isTransmitting c;
  fm_timer : confirmTimer c' = confirmTimer c;
  fm_history : history c' = history c;
  fm_deferred : deferred c' = deferred c;
  fm_unsol : unsol c' = unsol c;
  fm_state : state_ c' = state_ c;
  fm_sol : sol c' = sol c;
  fm_params : same_params (params c) (params c')
}.

Lemma frame_refl c : frame c c.
Proof. split; try done. apply same_params_refl. Qed.

Lemma frame_trans c c1 c2 : frame c c1 -> frame c1 c2 -> frame c c2.
Proof. intros [] []. split; try congruence. by eapply same_params_trans. Qed.

End Frames.

#[export] Hint Resolve frame_refl same_params_refl : dnp3.

(** ** Requests other than reads *)

Definition is_transmission (c : Call) : bool := match c with BeginTransmit _ _ => true | _ => false end.

Definition is_sbo_operate (c : Call) : bool := match c with Operate _ _ _ SelectBeforeOperate _ => true | _ => false end.

(** The calls for the commands of a request. *)
Definition bracket (cs : list Call) : list Call := match cs with [] => [] | _ => Start :: cs ++ [End_] end.

Section NonReads.
Context {M D W : Type} `{MeasurementOk M} `{StaticDatabaseOk D} `{Environment W}.
Implicit Types (c : OContext M D W) (objects : RSlice) (writer w : Writer).

(** The commands of a request that are acted upon, and their statuses. *)
Definition served (isSelect : bool) (opType : OperateType) (max : Z) (cs : list Command) (sts : list CommandStatus) : list Call :=
  bracket (zip_with (command_call isSelect opType) (take (Z.to_nat max) cs) (take (Z.to_nat max) sts)).

(** The statuses of the commands of a request: those beyond the limit were refused
    without a call. *)
Definition statuses_ok (max : Z) (cs : list Command) (sts : list CommandStatus) : Prop :=
  length sts = length cs /\ Forall (eq TOO_MANY_OPS) (drop (Z.to_nat max) sts).

(** A request selected commands: all of those that were acted upon succeeded.  The time
    is that after the answers. *)
Definition selected_by (c : OContext M D W) objects (new : list Call) (s : ControlState) : Prop := exists hs sts,
  decoded ParserSettings.Default objects = Some (hs, OK) /\
  new = served true DirectOperate (maxControlsPerRequest (params c)) (commands_of hs) sts /\
  statuses_ok (maxControlsPerRequest (params c)) (commands_of hs) sts /\
  Forall (eq SUCCESS) (take (Z.to_nat (maxControlsPerRequest (params c))) sts) /\
  s = ControlState.Select (sol_num (sol c)) (GetTime (world (told new (outside c)))).1 objects.

(** The selection that a request operates. *)
Definition operates (c : OContext M D W) objects : Prop :=
  ControlState.ValidateSelection (control_ c) (sol_num (sol c)) (GetTime (world (outside c))).1 (selectTimeout (params c)) objects = SUCCESS.

Record nonread (fc : FunctionCode) objects c c' (new : list Call) : Prop := mkNonread {
  nr_frame : frame c c';
  nr_events : eventBuffer c' = eventBuffer c;
  nr_count : fragmentCount c' = fragmentCount c;
  nr_database : database_ok (database c');
  nr_calls : calls (outside c') = calls (outside c) ++ new;
  nr_silent : Forall (fun x => is_transmission x = false) new;
  nr_static : staticIIN c' = staticIIN c \/
    (fc = WRITE /\ staticIIN c' = IINField.ClearBit (staticIIN c) DEVICE_RESTART /\
     exists hs, decoded ParserSettings.Default objects = Some (hs, OK) /\ existsb clears_restart hs = true);
  nr_control : control_ c' = control_ c \/ (fc = SELECT /\ selected_by c objects new (control_ c'));
  nr_operate : existsb is_sbo_operate new = true -> fc = OPERATE /\ operates c objects /\ exists hs sts,
    decoded ParserSettings.Default objects = Some (hs, OK) /\ length sts = length (commands_of hs) /\
    new = served false SelectBeforeOperate (maxControlsPerRequest (params c)) (commands_of hs) sts
}.

(** Handlers that make no calls and touch none of these. *)
Lemma nonread_quiet fc objects c c' :
  frame c c' -> eventBuffer c' = eventBuffer c -> fragmentCount c' = fragmentCount c -> database_ok (database c') ->
  calls (outside c') = calls (outside c) -> staticIIN c' = staticIIN c -> control_ c' = control_ c ->
  nonread fc objects c c' [].
Proof. intros. split; try done; [by rewrite app_nil_r|by left|by left]. Qed.

Definition outcome (fc : FunctionCode) objects c writer (r : Writer * IINField) c' : Prop :=
  exists new data, nonread fc objects c c' new /\ put writer r.1 data.

(** The parts of a session that the handlers rely on. *)
Record parts_ok c : Prop := mkPartsOk {
  po_database : database_ok (database c);
  po_controls : 0 <= maxControlsPerRequest (params c) < 256
}.

Lemma with_writer_wp fc objects c writer (m : SM (OContext M D W) IINField) :
  wwf writer -> wp m c (fun _ c' => exists new, nonread fc objects c c' new) ->
  wp (iin ← m; mret (writer, iin)) c (outcome fc objects c writer).
Proof.
  intros Hw Hm. rewrite wp_bind. eapply wp_mono; [exact Hm|]. intros iin c' (new & Hn). rewrite wp_ret. exists new, []. split; [done|]. by apply put_refl.
Qed.

Lemma refuse_wp fc objects c writer iin :
  parts_ok c -> wwf writer -> wp (mret (writer, iin)) c (outcome fc objects c writer).
Proof. intros Hc Hw. rewrite wp_ret. exists [], []. split; [|by apply put_refl]. apply nonread_quiet; auto with dnp3. apply Hc. Qed.

Lemma wp_on_outside {A} (m : SM (Outside W) A) c Q :
  wp m (outside c) (fun a o => Q a (set_outside o c)) -> wp (on_outside m) c Q.
Proof. intros Hm. unfold on_outside. by rewrite wp_on. Qed.

Lemma HandleWrite_wp objects c :
  parts_ok c -> bytes_ok objects ->
  wp (HandleWrite objects) c (fun _ c' => exists new, nonread WRITE objects c c' new).
Proof.
  intros Hc Hb. unfold HandleWrite. rewrite wp_bind, wp_get, wp_bind. apply wp_on_outside, wp_ask. intros now w.
  rewrite wp_bind, wp_on. set (c1 := set_outside _ c).
  eapply (run_wp _ _ (write_inv (outside c1) (staticIIN c1))); [intros hs h n l Hi Hh _; by apply WriteHandler_step|done| |].
  { split; [exists []; by rewrite app_nil_r|done|done]. }
  intros h hs result [Hok Hno] [(new & Hn & Ht) Hw Hi]. rewrite wp_ret. exists new.
  assert (Hsil : Forall (fun x => is_transmission x = false) new) by (eapply Forall_impl; [|exact Ht]; by intros []).
  split; cbn [eventBuffer fragmentCount database outside staticIIN control_ set_outside set_timesync set_staticIIN c1]; try done.
  - split; try done. apply same_params_refl.
  - apply Hc.
  - rewrite Hi, Hw. destruct (decide (result = OK)) as [Hr|Hr].
    + destruct (existsb clears_restart hs) eqn:He; [|by left]. right. split_and!; [done|done|]. exists hs. by split; [apply Hok|].
    + rewrite (Hno Hr). by left.
  - by left.
  - intros He. exfalso. apply existsb_exists in He as (x & Hin & Hx). rewrite Forall_forall in Ht. specialize (Ht x Hin). by destruct x.
Qed.

(** *** Commands *)

Lemma run_commands_wp isSelect opType objects pw c :
  parts_ok c -> bytes_ok objects -> (match pw with Some w => wwf w | None => True end) ->
  wp (run_commands isSelect opType objects pw) c (fun r c' => exists hs sts,
    handled CommandResponseHandler.IsAllowed ParserSettings.Default objects hs r.2 /\
    c' = set_outside (told (served isSelect opType (maxControlsPerRequest (params c)) (commands_of hs) sts) (outside c)) c /\
    statuses_ok (maxControlsPerRequest (params c)) (commands_of hs) sts /\
    numSuccess (local r.1) = successes sts /\
    numRequests (local r.1) = Z.min (maxControlsPerRequest (params c)) (Z.of_nat (length (commands_of hs))) /\
    match pw with
    | None => pWriter (local r.1) = None
    | Some w0 => exists w ns, pWriter (local r.1) = Some w /\ Forall2 (fun req n => (n <= HeaderRoundtrip.objects req)%nat) (responses hs sts) ns /\
        wrote w0 w (encode_requests (responses hs sts) ns) /\
        ((length (encode_requests (responses hs sts) (map HeaderRoundtrip.objects (responses hs sts))) <= v_size (position w0))%nat ->
           ns = map HeaderRoundtrip.objects (responses hs sts))
    end).
Proof.
  intros Hc Hb Hw. unfold run_commands. rewrite wp_bind, wp_get. apply wp_on_outside. set (max := maxControlsPerRequest (params c)).
  pose proof (po_controls _ Hc) as Hmax. fold max in Hmax. set (o := outside c).
  set (Acts := adapter_acts o isSelect opType). set (PH := CommandResponseHandler.ProcessHeader (CommandActionAdapter.Action isSelect opType) max).
  set (Inv := fun hs s => exists sts, commanded max Acts pw hs sts s).
  assert (Hrun : wp (APDUHandler.run ParserSettings.Default (APDUHandler.handler PH CommandResponseHandler.IsAllowed) objects)
    (CommandResponseHandler.init pw (CommandActionAdapter.init o)) (fun r s => local r.1 = s /\ exists hs, handled CommandResponseHandler.IsAllowed ParserSettings.Default objects hs r.2 /\ Inv hs s)).
  { eapply (run_wp PH _ Inv); [intros hs h n l Hi Hh Ha; apply (CommandResponseHandler_step _ max Acts Hmax); [|done..]; by intros; apply adapter_action|done| |].
    - exists []. split; cbn [CommandResponseHandler.init numSuccess numRequests pWriter pCommandAction]; [|done|].
      + split; cbn [commands_of flat_map length CommandResponseHandler.init pCommandAction numRequests]; [done| | |lia].
        * rewrite !take_nil. split; cbn [CommandActionAdapter.init isStarted ca_outside zip_with app]; [done|by rewrite told_nil].
        * rewrite drop_nil. constructor.
      + destruct pw as [w|]; [|done]. exists w, []. split_and!; [done|constructor|by apply wrote_nil|done].
    - intros h hs result Hh Hi. split; [done|]. by exists hs. }
  apply wp_run in Hrun as (s & [h result] & Hrun & Hl & hs & Hh & sts & Hcm). cbn [fst snd] in *. unfold wp.
  change (CommandResponseHandler.handler (CommandActionAdapter.Action isSelect opType) max) with (APDUHandler.handler PH CommandResponseHandler.IsAllowed). rewrite Hrun.
  cbn [mbind option_bind]. destruct Hcm as [[A1 [A2 A2'] A3 A4] B C]. subst s.
  assert (Hdest : exists a, CommandActionAdapter.destroy (pCommandAction (local h)) = Some (a, tt) /\
    ca_outside a = told (served isSelect opType max (commands_of hs) sts) o).
  { destruct (pCommandAction (local h)) as [started oa]. cbn [isStarted ca_outside] in A2, A2'. subst started oa.
    unfold CommandActionAdapter.destroy, mbind, SM_bind, get, served, bracket. cbn [isStarted].
    assert (Hsts : length (take (Z.to_nat max) sts) = length (take (Z.to_nat max) (commands_of hs))) by (rewrite !length_take; lia).
    destruct (take (Z.to_nat max) (commands_of hs)) as [|x l], (take (Z.to_nat max) sts) as [|st sts']; try done; cbn [zip_with] in *.
    - rewrite bool_decide_false by (by intros []). by eexists.
    - rewrite bool_decide_true by done. eexists. split; [done|]. cbn [ca_outside app].
      symmetry. apply (told_app (Start :: command_call isSelect opType x st :: zip_with (command_call isSelect opType) l sts') [End_]). }
  destruct Hdest as (a & Hd & Ho). rewrite Hd. cbn [mbind option_bind]. exists hs, sts. cbn [fst snd]. split_and!; [done| | |done|done|exact C].
  - by rewrite Ho.
  - by split.
Qed.



Lemma served_silent isSelect opType max cs sts : Forall (fun x => is_transmission x = false) (served isSelect opType max cs sts).
Proof.
  unfold served, bracket. assert (Hm : forall l l', Forall (fun x => is_transmission x = false) (zip_with (command_call isSelect opType) l l')).
  { induction l as [|[[gv v] i] l IH]; intros [|st l']; cbn [zip_with]; constructor; [by destruct isSelect|done]. }
  specialize (Hm (take (Z.to_nat max) cs) (take (Z.to_nat max) sts)). destruct (zip_with _ _ _); [done|]. constructor; [done|].
  apply Forall_app_2; [done|]. by repeat constructor.
Qed.

Lemma served_sbo isSelect opType max cs sts :
  existsb is_sbo_operate (served isSelect opType max cs sts) = true -> isSelect = false /\ opType = SelectBeforeOperate.
Proof.
  intros He. apply existsb_exists in He as (x & Hin & Hx). unfold served, bracket in Hin.
  assert (Hc : List.In x (zip_with (command_call isSelect opType) (take (Z.to_nat max) cs) (take (Z.to_nat max) sts))).
  { destruct (zip_with _ _ _) as [|y l]; [done|]. destruct Hin as [<-|Hin]; [done|]. apply List.in_app_or in Hin as [Hin|[<-|[]]]; done. }
  apply list_elem_of_In, list_elem_of_lookup in Hc as [k Hk]. apply lookup_zip_with_Some in Hk as ([[gv v] i] & st & -> & _ & _). by destruct isSelect, opType.
Qed.

(** What a response handler of commands leaves. *)
Lemma nonread_commands fc objects c c' isSelect opType hs sts result :
  length sts = length (commands_of hs) ->
  handled CommandResponseHandler.IsAllowed ParserSettings.Default objects hs result ->
  (exists (w : W), c' = set_outside (told (served isSelect opType (maxControlsPerRequest (params c)) (commands_of hs) sts) (mkOutside w (calls (outside c)))) c) ->
  parts_ok c -> (isSelect = false -> opType = SelectBeforeOperate -> fc = OPERATE /\ operates c objects) ->
  nonread fc objects c c' (served isSelect opType (maxControlsPerRequest (params c)) (commands_of hs) sts).
Proof.
  intros Hlen [Hok Hno] (w & ->) Hp Hop. split; cbn [eventBuffer fragmentCount database outside staticIIN control_ set_outside]; try done.
  - split; try done. apply same_params_refl.
  - apply Hp.
  - apply served_silent.
  - by left.
  - by left.
  - intros He. pose proof He as [-> ->]%served_sbo. destruct Hop; [done..|]. split_and!; [done..|]. exists hs, sts. split; [|done].
    apply Hok. destruct (decide (result = OK)) as [|Hne]; [done|exfalso]. rewrite (Hno Hne) in He. unfold served, commands_of in He. cbn [flat_map] in He.
    by rewrite take_nil in He.
Qed.

Lemma writer_after_put {A} (r : Handling (CommandState A) * ParseResult) (w0 : Writer) :
  wwf w0 -> (exists w data, pWriter (local r.1) = Some w /\ wrote w0 w data) -> exists data, put w0 (writer_after r w0) data.
Proof. intros Hw (w & data & Hp & HW). exists data. unfold writer_after. rewrite Hp. by apply wrote_put. Qed.

Lemma put_nothing w : wwf w -> exists data, put w w data.
Proof. intros. exists []. by apply put_refl. Qed.

Lemma HandleDirectOperate_wp fc objects opType pw c :
  parts_ok c -> bytes_ok objects -> (match pw with Some w => wwf w | None => True end) -> opType <> SelectBeforeOperate ->
  wp (HandleDirectOperate objects opType pw) c (fun r c' => exists new, nonread fc objects c c' new /\
    match pw, r.1 with Some w, Some w' => exists data, put w w' data | None, None => True | _, _ => False end).
Proof.
  intros Hc Hb Hw Hop. unfold HandleDirectOperate.
  destruct (match pw with Some w => _ | None => false end).
  { rewrite wp_ret. exists []. split; [by apply nonread_quiet; auto with dnp3; apply Hc|]. destruct pw as [w|]; [|done]. by apply put_nothing. }
  rewrite wp_bind. eapply wp_mono; [by apply run_commands_wp|]. intros r c' (hs & sts & Hh & Ho & Hst & _ & _ & HW). rewrite wp_ret.
  eexists. split; [eapply nonread_commands; [apply Hst|exact Hh|exists (world (outside c)); by destruct (outside c)|done|done]|]. cbn [fst]. destruct pw as [w|]; [|done]. cbn [option_map].
  destruct HW as (w' & ns & Hpw & _ & HW & _). apply writer_after_put; [done|]. eauto.
Qed.

Lemma constant_wp objects c writer status :
  parts_ok c -> bytes_ok objects -> wwf writer ->
  wp (HandleCommandWithConstant objects writer status) c (fun r c' => c' = c /\ exists data, put writer r.1 data).
Proof.
  intros Hc Hb Hw. unfold HandleCommandWithConstant. rewrite wp_bind, wp_get, wp_bind. set (max := maxControlsPerRequest (params c)).
  pose proof (po_controls _ Hc) as Hmax. fold max in Hmax.
  set (Acts := fun (cs : list Command) (sts : list CommandStatus) (a : unit) => sts = replicate (length cs) status).
  set (PH := CommandResponseHandler.ProcessHeader (ConstantCommandAction.Action status) max).
  destruct (Parse_wp PH CommandResponseHandler.IsAllowed (fun hs s => exists sts, commanded max Acts (Some writer) hs sts s)) with
    (settings := ParserSettings.Default) (objects := objects) (h := APDUHandler.init (CommandResponseHandler.init (Some writer) tt))
    as (h & result & hs & Hp & Hh & sts & Hcm); [|done| |].
  - intros hs h k l Hi Hh Ha. apply (CommandResponseHandler_step _ max Acts Hmax); [|done..].
    intros cs sts [] gv v i Hs Hl. by apply (constant_action status cs sts gv v i Acts).
  - exists []. split; cbn [APDUHandler.init local CommandResponseHandler.init numSuccess numRequests pWriter pCommandAction]; [|done|].
    + split; cbn [commands_of flat_map length numRequests pCommandAction CommandResponseHandler.init]; [done| | |lia]; rewrite ?take_nil, ?drop_nil; [done|constructor].
    + exists writer, []. split_and!; [done|constructor|by apply wrote_nil|done].
  - eapply wp_lift_some; [exact Hp|]. rewrite wp_ret. destruct (cm_writer _ _ _ _ _ _ Hcm) as (w' & ns & Hpw & _ & HW & _).
    destruct (writer_after_put (h, result) writer Hw) as (data & Hd); [by exists w', (encode_requests (responses hs sts) ns)|].
    split; [done|]. by exists data.
Qed.

Lemma successes_all mx sts :
  Forall (eq TOO_MANY_OPS) (drop mx sts) -> successes sts = Z.min (Z.of_nat mx) (Z.of_nat (length sts)) -> Forall (eq SUCCESS) (take mx sts).
Proof.
  intros Hr Hs. unfold successes in Hs. rewrite <- (take_drop mx sts), List.filter_app, length_app, take_drop in Hs.
  assert (Hz : length (List.filter (fun st => bool_decide (st = SUCCESS)) (drop mx sts)) = 0%nat).
  { clear Hs. induction Hr as [|st l <- _ IH]; [done|exact IH]. }
  assert (Ht : length (List.filter (fun st => bool_decide (st = SUCCESS)) (take mx sts)) = length (take mx sts)) by (rewrite length_take; lia).
  clear Hs Hr Hz. induction (take mx sts) as [|st l IH]; [done|]. cbn [List.filter] in Ht.
  pose proof (List.filter_length_le (fun st => bool_decide (st = SUCCESS)) l). case_bool_decide; cbn [length] in Ht; [|lia].
  constructor; [done|]. apply IH. lia.
Qed.

Lemma HandleSelect_wp objects c writer :
  parts_ok c -> bytes_ok objects -> wwf writer -> wp (HandleSelect objects writer) c (outcome SELECT objects c writer).
Proof.
  intros Hc Hb Hw. unfold HandleSelect. destruct (_ <? _)%nat; [by apply refuse_wp|]. rewrite wp_bind.
  eapply wp_mono; [by apply run_commands_wp|]. intros [h result] c' (hs & sts & Hh & Ho & (Hl & Href) & Hs & Hn & (w' & ns & Hpw & _ & HW & _)).
  cbn [fst snd] in *. destruct (writer_after_put (h, result) writer Hw) as (data & Hd); [by exists w', (encode_requests (responses hs sts) ns)|].
  pose proof (nonread_commands SELECT objects c c' true DirectOperate hs sts result Hl Hh ltac:(exists (world (outside c)); by destruct (outside c)) Hc ltac:(done)) as HN. destruct Hh as [Hok Hno].
  set (max := maxControlsPerRequest (params c)) in *.
  destruct (decide (result = OK)) as [Hr|Hr].
  2:{ rewrite wp_ret. by eexists _, data. }
  rewrite wp_bind. destruct (CommandResponseHandler.AllCommandsSuccessful (local h)) eqn:Hall.
  2:{ rewrite wp_ret, wp_ret. by eexists _, data. }
  rewrite wp_bind, wp_get, wp_bind. apply wp_on_outside. unfold wp at 1, ask. destruct (GetTime (world (outside c'))) as [now w1] eqn:Ht.
  rewrite wp_modify, wp_ret. exists (served true DirectOperate max (commands_of hs) sts), data. split; [|exact Hd].
  subst c'. cbn [sol set_outside outside] in *. destruct HN as [N1 N2 N3 N4 N5 N6 N7 N8 N9].
  split; cbn [eventBuffer fragmentCount database outside staticIIN control_ set_outside set_control calls]; try done.
  - split; try done. apply same_params_refl.
  - right. split; [done|]. exists hs, sts. rewrite Ht. cbn [fst]. split_and!; [by apply Hok|done|done| |done].
    unfold CommandResponseHandler.AllCommandsSuccessful in Hall. apply Z.eqb_eq in Hall. rewrite Hn, Hs in Hall.
    apply successes_all; [exact Href|]. rewrite Hl. pose proof (po_controls _ Hc) as Hmax. fold max in Hmax. lia.
Qed.

Lemma HandleOperate_wp objects c writer :
  parts_ok c -> bytes_ok objects -> wwf writer -> wp (HandleOperate objects writer) c (outcome OPERATE objects c writer).
Proof.
  intros Hc Hb Hw. unfold HandleOperate. destruct (_ <? _)%nat; [by apply refuse_wp|]. rewrite wp_bind.
  apply wp_on_outside. unfold wp at 1, ask. destruct (GetTime (world (outside c))) as [now w1] eqn:Ht. rewrite wp_bind, wp_get.
  set (c1 := set_outside (mkOutside w1 (calls (outside c))) c). assert (Hc1 : parts_ok c1) by (destruct Hc; by split).
  change (control_ c1) with (control_ c). change (sol c1) with (sol c). change (params c1) with (params c).
  destruct (decide _) as [Hval|Hval].
  - rewrite wp_bind. eapply wp_mono; [by apply run_commands_wp|]. intros r c' (hs & sts & Hh & -> & Hst & _ & _ & (w' & ns & Hpw & _ & HW & _)).
    rewrite wp_ret. destruct (writer_after_put r writer Hw) as (data & Hd); [by exists w', (encode_requests (responses hs sts) ns)|].
    eexists _, data. split; [|exact Hd]. apply (nonread_commands OPERATE objects c _ false SelectBeforeOperate hs sts r.2 (proj1 Hst) Hh); [by exists w1|done|].
    intros _ _. split; [done|]. unfold operates. by rewrite Ht.
  - eapply wp_mono; [by apply constant_wp|]. intros r c' [-> (data & Hd)]. exists [], data. split; [|exact Hd].
    apply nonread_quiet; try done; [by split; try done; apply same_params_refl|apply Hc].
Qed.

Lemma single_value_wp gv v objects fc c c' writer :
  value_fits (Class gv) v -> wwf writer -> nonread fc objects c c' [] ->
  wp ('(writer, _) ← lift (HeaderWriter.WriteSingleValue UInt8 UINT8_CNT gv v writer); mret (writer, IINField.Empty)) c'
    (outcome fc objects c writer).
Proof.
  intros Hv Hw HN. rewrite wp_bind. pose proof (WSingle_performed gv v writer Hw Hv) as HS. cbn [perform] in HS. rewrite wp_bind in HS.
  apply wp_run in HS as (w' & ok & Hrun & HS). rewrite wp_ret in HS. destruct HS as (_ & _ & HS).
  eapply wp_lift_some; [exact Hrun|]. cbv beta iota. rewrite wp_ret. eexists [], _. split; [done|]. cbn [fst]. apply wrote_put. exact HS.
Qed.

Lemma HandleDelayMeasure_wp objects c writer :
  parts_ok c -> wwf writer -> wp (HandleDelayMeasure objects writer) c (outcome DELAY_MEASURE objects c writer).
Proof.
  intros Hc Hw. unfold HandleDelayMeasure. destruct (RSlice.IsEmpty objects); [|by apply refuse_wp].
  apply single_value_wp; [|done|apply nonread_quiet; auto with dnp3; apply Hc]. cbn. repeat constructor; cbn; lia.
Qed.

Lemma HandleRecordCurrentTime_wp objects c :
  parts_ok c -> wp HandleRecordCurrentTime c (fun _ c' => exists new, nonread RECORD_CURRENT_TIME objects c c' new).
Proof.
  intros Hc. unfold HandleRecordCurrentTime. rewrite wp_bind, wp_get, wp_bind. apply wp_on_outside, wp_ask. intros now w.
  rewrite wp_bind, wp_modify, wp_ret. exists []. apply nonread_quiet; try done; [by split; try done; apply same_params_refl|apply Hc].
Qed.

Lemma HandleRestart_wp isWarm objects c writer fc :
  parts_ok c -> wwf writer -> wp (HandleRestart objects isWarm writer) c (outcome fc objects c writer).
Proof.
  intros Hc Hw. unfold HandleRestart. destruct (RSlice.IsNotEmpty objects); [by apply refuse_wp|]. rewrite wp_bind.
  apply wp_on_outside, wp_ask. intros mode w.
  assert (Hgo : forall gv, (gv = GroupVariation.Group52Var1 \/ gv = GroupVariation.Group52Var2) ->
    wp (delay ← on_outside (call_out (if isWarm then WarmRestart else ColdRestart) restart_delay);
        '(writer, _) ← lift (HeaderWriter.WriteSingleValue UInt8 UINT8_CNT gv (Fields [u16 delay]) writer);
        mret (writer, IINField.Empty)) (set_outside (mkOutside w (calls (outside c))) c) (outcome fc objects c writer)).
  { intros gv Hgv. rewrite wp_bind. apply wp_on_outside, wp_call_out. intros delay w2.
    assert (Hv : value_fits (Class gv) (Fields [u16 delay])).
    { pose proof (u16_range delay) as Hu. unfold is_u16 in Hu. destruct Hgv as [-> | ->]; cbn; repeat constructor; cbn; lia. }
    rewrite wp_bind. pose proof (WSingle_performed gv _ writer Hw Hv) as HS. cbn [perform] in HS. rewrite wp_bind in HS.
    apply wp_run in HS as (w' & ok & Hrun & HS). rewrite wp_ret in HS. destruct HS as (_ & _ & HS).
    eapply wp_lift_some; [exact Hrun|]. cbv beta iota. rewrite wp_ret. eexists [_], _. split; [|cbn [fst]; apply wrote_put; exact HS].
    cbn [outside set_outside calls]. split; try done.
    - split; try done. apply same_params_refl.
    - apply Hc.
    - constructor; [by destruct isWarm|constructor].
    - by left.
    - by left.
    - by destruct isWarm. }
  destruct mode.
  - rewrite wp_ret. exists [], []. split; [|by apply put_refl]. apply nonread_quiet; try done; [by split; try done; apply same_params_refl|apply Hc].
  - apply Hgo. by right.
  - apply Hgo. by left.
Qed.

Lemma HandleAssignClass_wp objects c :
  parts_ok c -> bytes_ok objects -> wp (HandleAssignClass objects) c (fun _ c' => exists new, nonread ASSIGN_CLASS objects c c' new).
Proof.
  intros Hc Hb. unfold HandleAssignClass. rewrite wp_bind. apply wp_on_outside, wp_ask. intros supported w. destruct supported.
  - rewrite wp_bind, wp_on. set (c1 := set_outside _ c).
    eapply (run_wp _ _ (fun _ s => assign_inv (outside c1) s)); [intros hs h n l Hi Hh _; by apply AssignClassHandler_step|done| |].
    { split; [apply Hc|]. exists []. by rewrite app_nil_r. }
    intros h hs result _ [Hd (new & Hn & Ha)]. rewrite wp_ret. exists new.
    split; cbn [eventBuffer fragmentCount database outside staticIIN control_ set_outside set_database calls c1]; try done.
    + split; try done. apply same_params_refl.
    + eapply Forall_impl; [|exact Ha]. by intros [].
    + by left.
    + by left.
    + intros He. exfalso. apply existsb_exists in He as (x & Hin & Hx). rewrite Forall_forall in Ha. specialize (Ha x Hin). by destruct x.
  - rewrite wp_ret. exists []. apply nonread_quiet; try done; [by split; try done; apply same_params_refl|apply Hc].
Qed.

Lemma HandleUnsolicited_wp fc update objects c :
  parts_ok c -> bytes_ok objects -> wp (HandleUnsolicited update objects) c (fun _ c' => exists new, nonread fc objects c c' new).
Proof.
  intros Hc Hb. unfold HandleUnsolicited. rewrite wp_bind.
  destruct (Parse_wp ClassBasedRequestHandler.ProcessHeader allow_all (fun _ _ => True)) with (settings := ParserSettings.Default) (objects := objects)
    (h := APDUHandler.init ClassField.default) as (h & result & hs & Hp & _ & _); [|done|done|].
  - intros hs h k l _ _ _. destruct h as [record| | | | | |]; try done. cbn [ClassBasedRequestHandler.ProcessHeader]. by destruct (enum_of record).
  - eapply wp_lift_some; [exact Hp|]. cbv beta iota. destruct (decide (result = OK)).
    + rewrite wp_bind, wp_modify, wp_ret. exists []. apply nonread_quiet; try done. apply Hc.
    + rewrite wp_ret. exists []. apply nonread_quiet; auto with dnp3. apply Hc.
Qed.

Lemma HandleNonReadResponse_wp header objects c writer :
  parts_ok c -> bytes_ok objects -> wwf writer ->
  wp (HandleNonReadResponse header objects writer) c (outcome (function header) objects c writer).
Proof.
  intros Hc Hb Hw. unfold HandleNonReadResponse.
  destruct (function header); try (by apply refuse_wp).
  - apply with_writer_wp; [done|by apply HandleWrite_wp].
  - by apply HandleSelect_wp.
  - by apply HandleOperate_wp.
  - rewrite wp_bind. eapply wp_mono; [by apply (HandleDirectOperate_wp DIRECT_OPERATE objects DirectOperate (Some writer))|].
    intros [[w|] iin] c' (new & HN & Hp); [|done]. rewrite wp_ret. destruct Hp as (data & Hp). exists new, data. done.
  - by apply HandleRestart_wp.
  - by apply HandleRestart_wp.
  - rewrite wp_bind, wp_get. destruct (allowUnsolicited (params c)); [|by apply refuse_wp]. apply with_writer_wp; [done|by apply HandleUnsolicited_wp].
  - rewrite wp_bind, wp_get. destruct (allowUnsolicited (params c)); [|by apply refuse_wp]. apply with_writer_wp; [done|by apply HandleUnsolicited_wp].
  - apply with_writer_wp; [done|by apply HandleAssignClass_wp].
  - by apply HandleDelayMeasure_wp.
  - destruct (RSlice.IsEmpty objects); [|by apply refuse_wp]. apply with_writer_wp; [done|by apply HandleRecordCurrentTime_wp].
Qed.

End NonReads.

(** ** Reads *)

Section Reads.
Context {M D W : Type} `{MeasurementOk M} `{StaticDatabaseOk D} `{Environment W}.
Context (caps : EventType -> nat) (Hcaps : caps_ok caps).
Import Queue.
Implicit Types (c : OContext M D W) (objects : RSlice) (writer w : Writer) (qs : list (Queued M)).

(** The queue in the event buffer. *)
Definition queue_is c qs : Prop := exists o, models caps (eventBuffer c) (mkQueueBuffer o qs).

Lemma queue_is_contents c qs : queue_is c qs -> contents (eventBuffer c) = Some qs.
Proof. intros (o & Hm). exact (models_contents _ _ _ Hm). Qed.

Lemma queue_is_unique c qs qs' : queue_is c qs -> queue_is c qs' -> qs = qs'.
Proof. intros Ha%queue_is_contents Hb%queue_is_contents. congruence. Qed.

Lemma queue_same c c' qs : queue_is c qs -> eventBuffer c' = eventBuffer c -> queue_is c' qs.
Proof. intros (o & Hm) He. exists o. by rewrite He. Qed.

(** *** Indications *)

Definition class_bit (ec : EventClass) : IINBit :=
  match ec with EC1 => CLASS1_EVENTS | EC2 => CLASS2_EVENTS | EC3 => CLASS3_EVENTS end.

Definition indicates qs (static iin : IINField) : Prop :=
  (forall ec, IINField.IsSet iin (class_bit ec) = IINField.IsSet static (class_bit ec) || Spec.has_unwritten ec qs) /\
  IINField.IsSet iin DEVICE_RESTART = IINField.IsSet static DEVICE_RESTART.

Lemma IsSet_or f g b : IINField.IsSet (IINField.or f g) b = IINField.IsSet f b || IINField.IsSet g b.
Proof. rewrite !IsSet_testbit. unfold octet_of, IINField.or. destruct (IINField.mask_of _); cbn [LSB MSB]; apply Z.lor_spec. Qed.

Lemma IsSet_SetBitToValue f b v b' : IINField.IsSet (IINField.SetBitToValue f b v) b' = if decide (b = b') then v else IINField.IsSet f b'.
Proof.
  unfold IINField.SetBitToValue. destruct v; [rewrite IsSet_SetBit|rewrite IsSet_ClearBit]; destruct (decide (b = b')) as [->|Hne];
    rewrite ?bool_decide_true, ?bool_decide_false by done; done.
Qed.

(** Decides the equations between named bits. *)
Ltac decide_bits :=
  cbn [class_bit]; repeat match goal with
  | |- context [decide (?a = ?b)] =>
      let Hd := fresh in destruct (decide (a = b)) as [Hd|Hd]; [first [discriminate Hd | clear Hd]|first [by destruct Hd | clear Hd]]
  end.

Lemma IsSet_Empty b : IINField.IsSet IINField.Empty b = false.
Proof. by destruct b. Qed.

Lemma UnwrittenClassField_spec c qs :
  queue_is c qs -> EventBuffer.UnwrittenClassField (eventBuffer c) =
    ClassField.of_classes false (Spec.has_unwritten EC1 qs) (Spec.has_unwritten EC2 qs) (Spec.has_unwritten EC3 qs).
Proof.
  intros (o & _ & items & R & Hq). cbn [qb_events] in Hq. subst qs. unfold EventBuffer.UnwrittenClassField, Spec.has_unwritten. by rewrite !(NumUnwritten_spec _ _ _ _ R), !count_existsb.
Qed.

Lemma IsOverflown_spec c qs :
  queue_is c qs -> queue_is (set_eventBuffer (EventBuffer.IsOverflown (eventBuffer c)).1 c) qs.
Proof.
  intros (o & Ho & items & R & Hq). unfold EventBuffer.IsOverflown. cbn [fst]. eexists. cbn [eventBuffer set_eventBuffer]. cbn [qb_events] in Hq. rewrite <- Hq. by apply models_make.
Qed.

Lemma GetResponseIIN_wp c qs :
  queue_is c qs ->
  wp GetResponseIIN c (fun iin c' => queue_is c' qs /\ indicates qs (staticIIN c) iin /\
    exists b o, c' = set_outside o (set_eventBuffer b c) /\ calls o = calls (outside c)).
Proof.
  intros Hq. pose proof (UnwrittenClassField_spec c qs Hq) as Hu. pose proof (IsOverflown_spec c qs Hq) as Ho.
  unfold GetResponseIIN. rewrite wp_bind, wp_get, wp_bind. unfold GetDynamicIIN. rewrite wp_bind, wp_get, Hu, wp_bind.
  unfold on_events. rewrite wp_on. unfold wp at 1. destruct (EventBuffer.IsOverflown (eventBuffer c)) as [b over]. cbn [fst] in Ho.
  rewrite wp_ret, wp_bind. unfold on_outside. rewrite wp_on. apply wp_ask. intros app w. rewrite wp_ret. split_and!.
  - exact Ho.
  - split.
    + intros ec. rewrite !IsSet_or. unfold ToIIN. rewrite !IsSet_SetBitToValue, !IsSet_Empty. destruct ec; decide_bits; rewrite ?orb_false_r; f_equal;
        by destruct (Spec.has_unwritten EC1 qs), (Spec.has_unwritten EC2 qs), (Spec.has_unwritten EC3 qs).
    + rewrite !IsSet_or. unfold ToIIN. rewrite !IsSet_SetBitToValue, !IsSet_Empty. decide_bits; by rewrite ?orb_false_r.
  - by eexists b, _.
Qed.

(** *** Loading a response *)

(** The queue from which the written events of [rs] were taken. *)
Record loaded c c' (w w' : Writer) (ctrl : AppControlField) (rs : list (Run M)) (qs qs' : list (Queued M)) : Prop := mkLoaded {
  ld_frame : frame c c';
  ld_outside : outside c' = outside c;
  ld_static : staticIIN c' = staticIIN c;
  ld_control : control_ c' = control_ c;
  ld_database : database_ok (database c');
  ld_queue : queue_is c' qs';
  ld_written : written_from qs (flat_map run_events rs) qs';
  ld_runs : Forall run_ok rs;
  ld_put : exists data, put w w' (encode_all (flat_map run_requests rs) ++ data);
  ld_con : CON ctrl = false -> rs = [];
  ld_uns : UNS ctrl = false;
  ld_fin : CON ctrl = false -> FIN ctrl = true
}.

Lemma event_good_ok qs : Forall event_good qs -> Forall event_ok qs /\ Forall event_readable qs.
Proof. intros Hg. split; (eapply Forall_impl; [|exact Hg]); by intros q []. Qed.

Lemma runs_empty (rs : list (Run M)) : Forall run_ok rs -> encode_all (flat_map run_requests rs) = [] -> rs = [].
Proof.
  intros Hr He. destruct rs as [|r rs]; [done|exfalso]. cbn [flat_map] in He. rewrite encode_all_app in He. apply app_eq_nil in He as [He _].
  unfold run_requests in He. rewrite encode_all_app in He. apply app_eq_nil in He as [_ He]. unfold encode_all in He. cbn [map objects encode_requests] in He.
  rewrite length_map, decide_False in He by done. rewrite app_nil_r in He.
  pose proof (encode_request_length (WPrefixed W16 (kind_of (run_variation r) (q_value (run_first r))) (map (obj (run_variation r) (q_value (run_first r))) (run_events r)))
    (length (run_events r))) as Hl. rewrite He in Hl. cbn in Hl. lia.
Qed.

Lemma LoadResponse_wp c qs w :
  queue_is c qs -> Forall event_good qs -> database_ok (database c) -> wwf w -> Z.of_nat (v_size (position w)) <= 65535 ->
  wp (ResponseContext.LoadResponse w) c (fun r c' => exists rs qs', loaded c c' w r.1 r.2 rs qs qs').
Proof.
  intros (o & Hm) Hg Hd Hw Hsz. unfold ResponseContext.LoadResponse. rewrite wp_bind, wp_get, wp_bind, wp_modify.
  destruct (event_good_ok qs Hg) as [Hok _].
  destruct (EventBuffer_Load_spec caps _ _ w Hcaps Hm Hw Hsz Hok) as (w1 & b' & qs' & rs & HL & HM & HP & _ & HW & HR). cbn [qb_overflow qb_events] in *.
  pose proof (put_wf _ _ _ Hw HP) as Hw1. pose proof (put_size _ _ _ HP) as Hs1. pose proof HP as (Hle & _).
  rewrite wp_bind. unfold on_events. rewrite wp_on. unfold wp at 1. cbn [eventBuffer set_fragmentCount]. rewrite HL. cbn [mbind option_bind].
  set (c1 := set_eventBuffer b' (set_fragmentCount (u16 (fragmentCount c + 1)) c)).
  assert (Hcon : (v_size (position w1) <? v_size (position w))%nat = false -> rs = []).
  { intros Hlt%Nat.ltb_ge. apply runs_empty; [done|]. apply length_zero_iff_nil. lia. }
  assert (Hbase : forall c' w' ctrl d, frame c c' -> outside c' = outside c -> staticIIN c' = staticIIN c -> control_ c' = control_ c ->
    database_ok (database c') -> eventBuffer c' = b' -> put w1 w' d -> (CON ctrl = false -> rs = []) -> UNS ctrl = false ->
    (CON ctrl = false -> FIN ctrl = true) -> exists rs qs', loaded c c' w w' ctrl rs qs qs').
  { intros c' w' ctrl d F1 F2 F3 F4 F5 F6 F7 F8 F9 F10. exists rs, qs'. split; try done.
    - exists o. by rewrite F6.
    - exists d. by eapply put_trans. }
  assert (Hframe : forall d, frame c (set_database d c1)) by (intros d; split; try done; apply same_params_refl).
  destruct (negb _) eqn:Hfull.
  - rewrite wp_bind, wp_on. unfold wp at 1. change (database c1) with (database c).
    destruct (wp_run _ _ _ (Load_ok (database c) w1 Hd Hw1)) as (w2 & [d' fin] & Hrun & Hd' & data & HP2). rewrite Hrun. cbn [mbind option_bind fst snd] in *.
    rewrite wp_ret. cbn [fst snd]. apply (Hbase _ _ _ data); try done.
    + cbn [CON]. intros Hc. apply Hcon. by destruct fin, (_ <? _)%nat.
    + cbn [CON FIN]. intros Hc. by destruct fin.
  - rewrite wp_ret. cbn [fst snd]. apply (Hbase _ _ _ []); try done.
    + split; try done. apply same_params_refl.
    + by apply put_refl.
Qed.

(** *** A read *)

Lemma unselect_good qs : Forall event_good qs -> Forall event_good (unselect qs).
Proof. intros Hg. unfold unselect. apply Forall_map. eapply Forall_impl; [|exact Hg]. by intros q [[] ?]; split; [split|]. Qed.

Lemma unselect_none qs : List.filter (in_state written_) (unselect qs) = [].
Proof. induction qs as [|q qs IH]; [done|]. exact IH. Qed.

Lemma Unselect_wp c qs :
  queue_is c qs ->
  wp (update_events EventBuffer.Unselect) c (fun _ c' => exists b, c' = set_eventBuffer b c /\ queue_is c' (unselect qs)).
Proof.
  intros (o & Hm). unfold update_events, on_events. rewrite wp_on. destruct (Unselect_refines caps _ _ Hm) as (b & Hb & Hm'). unfold wp. rewrite Hb.
  cbn [mbind option_bind]. exists b. split; [done|]. by exists o.
Qed.

(** The events are the same, none is marked as written before the load. *)
Lemma HandleRead_wp objects c qs w :
  queue_is c qs -> Forall event_good qs -> database_ok (database c) -> wwf w -> Z.of_nat (v_size (position w)) <= 65535 -> bytes_ok objects ->
  wp (HandleRead objects w) c (fun r c' => exists rs qs1 qs', loaded c c' w r.1 r.2.2 rs qs1 qs' /\ Forall event_good qs1 /\
    map payload qs1 = map payload qs /\ List.filter (in_state written_) qs1 = []).
Proof.
  intros Hq Hg Hd Hw Hsz Hb. unfold HandleRead. rewrite wp_bind. unfold ResponseContext.Reset at 1. rewrite wp_modify. rewrite wp_bind.
  eapply wp_mono; [apply (Unselect_wp _ qs); by eapply queue_same|]. intros [] c1 (b1 & -> & Hq1).
  rewrite wp_bind, wp_on. destruct (Unselect_ok (database c) Hd) as (d1 & Hu & Hd1). unfold wp at 1. cbn [database set_eventBuffer set_fragmentCount].
  rewrite Hu. cbn [mbind option_bind]. rewrite wp_bind, wp_on. cbn [database eventBuffer set_database set_eventBuffer set_fragmentCount].
  destruct Hq1 as (o & Hm1). cbn [eventBuffer set_eventBuffer] in Hm1.
  eapply (run_wp _ _ (fun _ => read_inv caps (mkQueueBuffer o (unselect qs)))); [intros hs h k l Hi Hh _; by apply ReadHandler_step|done| |].
  { split; [done|]. exists (mkQueueBuffer o (unselect qs)). split_and!; [done|done|apply selects_refl]. }
  intros h hs result _ [Hd2 ([o2 qs2] & Hm2 & Ho2 & Hsel)]. cbn [qb_overflow qb_events] in *. cbv beta iota.
  set (c2 := set_database _ _). assert (Hq2 : queue_is c2 qs2) by by exists o2.
  pose proof (selects_good _ _ Hsel (unselect_good _ Hg)) as Hg2. pose proof (selects_payload _ _ Hsel) as Hp2. pose proof (selects_written _ _ Hsel) as Hw2.
  rewrite unselect_none in Hw2.
  assert (Hpay : map payload (unselect qs) = map payload qs) by (unfold unselect; rewrite map_map; done).
  rewrite Hpay in Hp2. destruct (decide (result = OK)).
  - rewrite wp_bind. eapply wp_mono; [by apply (LoadResponse_wp c2 qs2 w)|]. intros [w' ctrl] c3 (rs & qs' & [L1 L2 L3 L4 L5 L6 L7 L8 L9 L10 L11 L12]).
    rewrite wp_ret. exists rs, qs2, qs'. split; [|done]. split; try done. eapply frame_trans; [|exact L1]. split; try done. apply same_params_refl.
  - rewrite wp_bind. unfold ResponseContext.Reset. rewrite wp_modify, wp_ret. exists [], qs2, qs2. split; [|done]. split; try done.
    + split; try done. apply same_params_refl.
    + apply written_from_nil.
    + exists []. by apply put_refl.
Qed.

End Reads.
