(* ===== verification/OutstationSession.v ===== *)
(** * OutstationSession: the invariant of a session

    What is true of a session between the events that reach it, what one event may
    change, and that every method of [Outstation] keeps to it. *)

From S2P Require Import Prelude Slices Serialization Crc LinkFrame AppHeader Objects ObjectParser HeaderWriter HeaderRoundtrip EventList EventBuffer EventSpec EventProps EventWriters EventResponse OutstationState RequestHandlers RequestSpecs Outstation OutstationSpecs.
From Stdlib Require Import ZifyNat.

Open Scope Z_scope.

(** ** Messages *)

(** A fragment of a function with a header and object data. *)
Record message (n : nat) (fc : FunctionCode) (ctrl : AppControlField) (iin : IINField) (data m : bytes) : Prop := mkMessage {
  ms_bytes : m = AppControlField.ToByte ctrl :: FunctionCodeToType fc :: LSB iin :: MSB iin :: data;
  ms_length : (length m <= n)%nat;
  ms_seq : 0 <= SEQ ctrl < 16
}.

(** The fragment of a function that a call transmits. *)
Definition fragment_of (fc : FunctionCode) (x : Call) : option bytes :=
  match x with
  | BeginTransmit _ (b0 :: b1 :: rest) => if b1 =? FunctionCodeToType fc then Some (b0 :: b1 :: rest) else None
  | _ => None
  end.

Definition last_sent (fc : FunctionCode) (cs : list Call) : option bytes := list.last (omap (fragment_of fc) cs).

Definition seq_of (m : bytes) : Z := SEQ (AppControlField.of_byte (m !!! 0%nat)).

Definition transmissions (cs : list Call) : nat := length (List.filter is_transmission cs).

Abbreviation silent := (Forall (fun x => is_transmission x = false)).

Section Messages.

Lemma last_sent_silent fc cs new : silent new -> last_sent fc (cs ++ new) = last_sent fc cs.
Proof.
  intros Hn. unfold last_sent. rewrite omap_app. replace (omap (fragment_of fc) new) with (@nil bytes); [by rewrite app_nil_r|].
  induction Hn as [|x new Hx _ IH]; [done|]. cbn [omap list_omap]. destruct x; try exact IH. done.
Qed.

Lemma last_sent_snoc fc cs x : last_sent fc (cs ++ [x]) = match fragment_of fc x with Some m => Some m | None => last_sent fc cs end.
Proof.
  unfold last_sent. rewrite omap_app. cbn [omap list_omap]. destruct (fragment_of fc x); [apply last_snoc|by rewrite app_nil_r].
Qed.

Lemma transmissions_app cs cs' : transmissions (cs ++ cs') = (transmissions cs + transmissions cs')%nat.
Proof. unfold transmissions. by rewrite List.filter_app, length_app. Qed.

Lemma transmissions_silent cs : silent cs -> transmissions cs = 0%nat.
Proof. unfold transmissions. induction 1 as [|x cs Hx _ IH]; [done|]. cbn [List.filter]. by rewrite Hx. Qed.

Context (n : nat) (fc : FunctionCode) (ctrl : AppControlField) (iin : IINField) (data m : bytes).

Lemma message_seq : message n fc ctrl iin data m -> seq_of m = SEQ ctrl.
Proof. intros [-> _ Hs]. unfold seq_of. cbn [lookup_total list_lookup_total]. by rewrite control_roundtrip. Qed.

Lemma message_sent fc' a : message n fc ctrl iin data m ->
  fragment_of fc' (BeginTransmit a m) = if FunctionCodeToType fc =? FunctionCodeToType fc' then Some m else None.
Proof. by intros [-> _ _]. Qed.

Lemma message_data : message n fc ctrl iin data m -> drop 4 m = data.
Proof. intros [-> _ _]. done. Qed.

(** The other side reads the header that was written. *)
Lemma message_parsed : message n fc ctrl iin data m ->
  ParseResponse m = Some (mkAPDUResponseHeader (mkAPDUHeader ctrl fc) iin, data).
Proof.
  intros [-> _ Hs]. exact (parse_response_octets (mkAPDUResponseHeader (mkAPDUHeader ctrl fc) iin) data Hs).
Qed.

End Messages.

(** ** The invariant *)

Section Session.
Context {M D W : Type} `{MeasurementOk M} `{StaticDatabaseOk D} `{Environment W}.
Context (caps : EventType -> nat) (Hcaps : caps_ok caps).
Context (n : nat) (Hn : (4 <= n)%nat) (Hmax : Z.of_nat n <= 65535).
Import Queue.
Implicit Types (c : OContext M D W) (qs ws : list (Queued M)) (m : bytes) (st : OutstationState).

#[local] Abbreviation queue_is := (queue_is caps).

(** The objects of the fragment begin with the events [ws], among others. *)
Definition carries m ws : Prop := exists (rs : list (Run M)) data,
  drop 4 m = encode_all (flat_map run_requests rs) ++ data /\ Forall run_ok rs /\
  map payload ws ⊆+ map payload (flat_map run_events rs).

(** The fragment whose confirmation is awaited in a state. *)
Definition awaited st c : option (bytes * Z) :=
  match st with
  | Idle => None
  | SolicitedConfirmWait => m ← last_sent RESPONSE (calls (outside c)); Some (m, sol_confirmNum (sol c))
  | UnsolicitedConfirmWait => m ← last_sent UNSOLICITED_RESPONSE (calls (outside c)); Some (m, unsol_confirmNum (unsol c))
  end.

(** A confirmation clears the written events, except that of the first unsolicited
    fragment, which has none. *)
Definition clears st c : bool := match st with Idle => false | SolicitedConfirmWait => true | UnsolicitedConfirmWait => completedNull (unsol c) end.

(** The events marked as written are in the awaited fragment. *)
Definition accounted st c qs : Prop :=
  st <> Idle -> exists m seq, awaited st c = Some (m, seq) /\ seq_of m = seq /\
    (clears st c = true -> carries m (List.filter (in_state written_) qs)).

Definition sent_ok a (x : Call) : Prop :=
  match x with
  | BeginTransmit d m => source d = source a /\ exists fc ctrl iin data, message n fc ctrl iin data m /\
      (fc = RESPONSE /\ UNS ctrl = false \/ fc = UNSOLICITED_RESPONSE /\ ctrl = mkAppControlField true true true true (SEQ ctrl) /\ destination d = destination a)
  | _ => True
  end.

(** A selection stands for a request for these objects, whose commands the handler has
    all answered with success. *)
Definition selected_in (cs : list Call) (max : Z) (s : ControlState) : Prop := exists pre post objects hs sts seq now,
  cs = pre ++ served true DirectOperate max (commands_of hs) sts ++ post /\ s = ControlState.Select seq now objects /\
  decoded ParserSettings.Default objects = Some (hs, OK) /\ statuses_ok max (commands_of hs) sts /\
  Forall (eq SUCCESS) (take (Z.to_nat max) sts).

(** An operation after a selection: a command of a request that the selection
    validates. *)
Definition operated_after (cs : list Call) (max timeout : Z) (x : Call) : Prop := exists s seq now objects hs command status,
  selected_in cs max s /\ ControlState.ValidateSelection s seq now timeout objects = SUCCESS /\
  decoded ParserSettings.Default objects = Some (hs, OK) /\ command ∈ commands_of hs /\
  x = command_call false SelectBeforeOperate command status.

Definition operations_ok (cs : list Call) (max timeout : Z) : Prop := forall pre x post,
  cs = pre ++ x :: post -> is_sbo_operate x = true -> operated_after pre max timeout x.

Definition static_ok (iin : IINField) : Prop := iin = IINField.Empty \/ iin = IINField.of_bit DEVICE_RESTART.

Definition request_ok (r : ParsedRequest) : Prop := bytes_ok (req_objects r) /\ 0 <= SEQ (control (req_header r)) < 16.

(** The session [c], about to go to the state [st]. *)
Record session_at st c : Prop := mkSession {
  se_queue : exists qs, queue_is c qs /\ Forall event_good qs /\ accounted st c qs;
  se_parts : parts_ok c;
  se_sol : tx_ok n (sol_tx (sol c));
  se_unsol : tx_ok n (unsol_tx (unsol c));
  se_num : 0 <= unsol_num (unsol c) < 16;
  se_deferred : request_ok (DeferredRequest.request (deferred c));
  se_timer : confirmTimer c = None <-> st = Idle;
  se_offline : isOnline c = false -> isTransmitting c = false /\ st = Idle /\ DeferredRequest.IsSet (deferred c) = false;
  se_history : hasLast (history c) = true -> st = SolicitedConfirmWait -> function (lastHeader (history c)) = READ;
  se_last : view_bytes (tx_buffer (sol_tx (sol c))) (lastResponse (sol_tx (sol c))) = Some (default [] (last_sent RESPONSE (calls (outside c))));
  se_answered : hasLast (history c) = true -> exists m, last_sent RESPONSE (calls (outside c)) = Some m /\ seq_of m = SEQ (control (lastHeader (history c)));
  se_sent : Forall (sent_ok (addresses c)) (calls (outside c));
  se_control : control_ c = ControlState.init \/ selected_in (calls (outside c)) (maxControlsPerRequest (params c)) (control_ c);
  se_operations : operations_ok (calls (outside c)) (maxControlsPerRequest (params c)) (selectTimeout (params c));
  se_static : static_ok (staticIIN c)
}.

Definition session c : Prop := session_at (state_ c) c.

(** Between two events a deferred request waits for the end of a transmission, or is a
    read that waits for a confirmation. *)
Definition settled c : Prop :=
  isTransmitting c = false -> DeferredRequest.IsSet (deferred c) = true ->
  function (deferred_header (deferred c)) = READ /\ state_ c <> Idle.

(** What a part of an event may change; [rm] are the events that leave the buffer. *)
Record moved (rm : list (Queued M)) c c' : Prop := mkMoved {
  mv_calls : exists new, calls (outside c') = calls (outside c) ++ new /\
    (transmissions new + Nat.b2n (isTransmitting c) = Nat.b2n (isTransmitting c'))%nat;
  mv_addresses : addresses c' = addresses c;
  mv_online : isOnline c' = isOnline c;
  mv_params : same_params (params c) (params c');
  mv_buffers : isTransmitting c = true -> sol c' = sol c /\ unsol c' = unsol c;
  mv_events : exists qs qs', queue_is c qs /\ queue_is c' qs' /\ map payload qs ≡ₚ map payload qs' ++ map payload rm;
  mv_restart : IINField.IsSet (staticIIN c') DEVICE_RESTART = IINField.IsSet (staticIIN c) DEVICE_RESTART \/
    IINField.IsSet (staticIIN c') DEVICE_RESTART = false /\ exists objects hs,
      decoded ParserSettings.Default objects = Some (hs, OK) /\ existsb clears_restart hs = true
}.

(** The indications of a fragment are those of the session when it was built. *)
Definition announces c (iin : IINField) : Prop :=
  (forall qs ec, queue_is c qs -> Spec.has_unwritten ec qs = true -> IINField.IsSet iin (class_bit ec) = true) /\
  (IINField.IsSet (staticIIN c) DEVICE_RESTART = true -> IINField.IsSet iin DEVICE_RESTART = true).

(** A response to [r] was built and is being transmitted. *)
Definition answered (r : ParsedRequest) c c' : Prop := exists pre m ctrl iin data,
  calls (outside c') = calls (outside c) ++ pre ++ [BeginTransmit (mkAddresses (source (addresses c)) (source (req_addresses r))) m] /\
  silent pre /\ message n RESPONSE ctrl iin data m /\ SEQ ctrl = SEQ (control (req_header r)) /\ UNS ctrl = false /\ announces c' iin.

Lemma session_set_state st c : session_at st c -> session (set_state st c).
Proof. intros [a [b1 b2] d e f g h i j k l o p q r]. exact (mkSession st (set_state st c) a (mkPartsOk (set_state st c) b1 b2) d e f g h i j k l o p q r). Qed.

Lemma moved_refl c qs : queue_is c qs -> moved [] c c.
Proof.
  intros Hq. split; try done.
  - exists []. by rewrite app_nil_r.
  - apply same_params_refl.
  - exists qs, qs. split_and!; [done|done|]. cbn [map]. by rewrite app_nil_r.
  - by left.
Qed.

Lemma moved_trans rm rm' c c1 c2 : moved rm c c1 -> moved rm' c1 c2 -> moved (rm ++ rm') c c2.
Proof.
  intros [(new1 & A1 & A1') A2 A3 A4 A5 (q0 & q1 & Q0 & Q1 & A6) A7] [(new2 & B1 & B1') B2 B3 B4 B5 (q1' & q2 & Q1' & Q2 & B6) B7].
  rewrite <- (queue_is_unique caps _ _ _ Q1 Q1') in B6. split.
  - exists (new1 ++ new2). rewrite B1, A1, app_assoc, transmissions_app. split; [done|]. lia.
  - congruence.
  - congruence.
  - by eapply same_params_trans.
  - intros Ht. destruct (A5 Ht) as [E1 E2]. assert (Ht1 : isTransmitting c1 = true).
    { rewrite Ht in A1'. destruct (isTransmitting c1); [done|cbn in A1'; lia]. }
    destruct (B5 Ht1) as [E3 E4]. split; congruence.
  - exists q0, q2. split_and!; [done|done|]. rewrite A6, B6, map_app, <- app_assoc. apply Permutation_app_head, Permutation_app_comm.
  - destruct B7 as [-> | [-> HB]]; [|by right]. done.
Qed.

(** *** What holds while a request is handled *)

Record working c : Prop := mkWorking {
  wk_parts : parts_ok c;
  wk_unsol : tx_ok n (unsol_tx (unsol c));
  wk_num : 0 <= unsol_num (unsol c) < 16;
  wk_deferred : request_ok (DeferredRequest.request (deferred c));
  wk_sent : Forall (sent_ok (addresses c)) (calls (outside c));
  wk_control : control_ c = ControlState.init \/ selected_in (calls (outside c)) (maxControlsPerRequest (params c)) (control_ c);
  wk_operations : operations_ok (calls (outside c)) (maxControlsPerRequest (params c)) (selectTimeout (params c));
  wk_static : static_ok (staticIIN c)
}.

Lemma session_working st c : session_at st c -> working c.
Proof. by intros []. Qed.

Lemma selected_in_app cs new max s : selected_in cs max s -> selected_in (cs ++ new) max s.
Proof.
  intros (pre & post & objects & hs & sts & seq & now & -> & Hs). exists pre, (post ++ new), objects, hs, sts, seq, now.
  split; [|exact Hs]. by rewrite <- !app_assoc.
Qed.

Lemma operated_after_app cs new max timeout x : operated_after cs max timeout x -> operated_after (cs ++ new) max timeout x.
Proof.
  intros (s & seq & now & objects & hs & command & status & Hs & Hr). exists s, seq, now, objects, hs, command, status.
  split; [by apply selected_in_app|exact Hr].
Qed.

Lemma operations_app cs new max timeout :
  operations_ok cs max timeout -> (forall x, x ∈ new -> is_sbo_operate x = true -> operated_after cs max timeout x) ->
  operations_ok (cs ++ new) max timeout.
Proof.
  intros Hc Hnew pre x post Heq Hx. apply app_eq_inv in Heq as [(k & -> & Hk)|(k & -> & Hk)].
  - destruct k as [|y k].
    + cbn [app] in Hk. rewrite app_nil_r in *. apply Hnew; [|done]. rewrite <- Hk. left.
    + cbn [app] in Hk. injection Hk as <- Hk. by apply (Hc pre x k).
  - apply operated_after_app, Hnew; [|done]. rewrite Hk. apply elem_of_app. right. left.
Qed.

Lemma operations_silent cs new max timeout :
  operations_ok cs max timeout -> existsb is_sbo_operate new = false -> operations_ok (cs ++ new) max timeout.
Proof.
  intros Hc Hn'. apply operations_app; [done|]. intros x Hx Hs. exfalso.
  assert (Ht : existsb is_sbo_operate new = true) by (apply existsb_exists; exists x; split; [by apply list_elem_of_In|done]). congruence.
Qed.

Lemma silent_sent_ok a new : silent new -> Forall (sent_ok a) new.
Proof. intros Hs. eapply Forall_impl; [|exact Hs]. by intros []. Qed.

Lemma same_params_limits p p' : same_params p p' ->
  maxControlsPerRequest p' = maxControlsPerRequest p /\ selectTimeout p' = selectTimeout p /\ allowUnsolicited p' = allowUnsolicited p.
Proof. unfold same_params. intros ->. by destruct p. Qed.

Lemma static_ok_clear iin : static_ok iin -> static_ok (IINField.ClearBit iin DEVICE_RESTART).
Proof. intros [-> | ->]; left; vm_compute; reflexivity. Qed.

(** A selection that a request validates. *)
Lemma validated seq1 t1 objects1 seq now timeout objects :
  ControlState.ValidateSelection (ControlState.Select seq1 t1 objects1) seq now timeout objects = SUCCESS ->
  seq = AppSeqNum_Next seq1 /\ length objects = length objects1 /\ CalcCrc objects = CalcCrc objects1 /\ t1 <= now < t1 + timeout.
Proof.
  clear Hn Hmax. unfold ControlState.ValidateSelection, ControlState.Select. cbn [expectedSeq selectTime digest objects_length]. unfold RSlice.Size. intros Hv.
  destruct (Z.eqb_spec (AppSeqNum_Next seq1) seq) as [E1|]; [|done]. destruct (Z.leb_spec t1 now); [|done].
  destruct (Z.ltb_spec (now - t1) timeout); [|done]. destruct (Z.eqb_spec (Z.of_nat (length objects1)) (Z.of_nat (length objects))); [|done].
  destruct (Z.eqb_spec (CalcCrc objects1) (CalcCrc objects)); [|done]. split_and!; [done|lia|done|lia|lia].
Qed.

(** Without a selection no operation is valid. *)
Lemma nothing_selected seq now timeout objects hs :
  ControlState.ValidateSelection ControlState.init seq now timeout objects = SUCCESS ->
  decoded ParserSettings.Default objects = Some (hs, OK) -> hs = [].
Proof.
  unfold ControlState.ValidateSelection. cbn [expectedSeq selectTime digest objects_length ControlState.init]. intros Hv Hd.
  case_bool; try done. apply andb_prop in Heqb2 as [Hl%Z.eqb_eq _]. unfold RSlice.Size in Hl. destruct objects; [|cbn in Hl; lia].
  vm_compute in Hd. by injection Hd as <-.
Qed.

Lemma served_member isSelect opType max cs sts x :
  x ∈ served isSelect opType max cs sts -> x = Start \/ x = End_ \/ exists command status, command ∈ cs /\ x = command_call isSelect opType command status.
Proof.
  unfold served, bracket. intros Hx. assert (Hz : x = Start \/ x = End_ \/ x ∈ zip_with (command_call isSelect opType) (take (Z.to_nat max) cs) (take (Z.to_nat max) sts)).
  { destruct (zip_with _ _ _); [by apply elem_of_nil in Hx|]. apply elem_of_cons in Hx as [->|Hx]; [by left|].
    apply elem_of_app in Hx as [Hx|Hx]; [by right; right|]. apply list_elem_of_singleton in Hx as ->. by right; left. }
  destruct Hz as [->|[->|Hz]]; [by left|by right; left|]. right; right. apply list_elem_of_lookup in Hz as [k Hk].
  apply lookup_zip_with_Some in Hk as (command & status & -> & Hc & _). exists command, status. split; [|done].
  apply lookup_take_Some in Hc as [Hc _]. by eapply list_elem_of_lookup_2.
Qed.

Lemma nonread_working fc objects c c' new : working c -> nonread fc objects c c' new -> working c'.
Proof.
  intros [[P1 P2] W1 W2 W3 W4 W5 W6 W7] [N1 N2 N3 N4 N5 N6 N7 N8 N9]. destruct N1 as [F1 F2 F3 F4 F5 F6 F7 F8 F9 F10].
  destruct (same_params_limits _ _ F10) as (L1 & L2 & _). split; rewrite ?F7, ?F6, ?F1, ?N5, ?L1, ?L2; try done.
  - split; [done|]. by rewrite L1.
  - apply Forall_app_2; [done|]. by apply silent_sent_ok.
  - destruct N8 as [-> | [_ (hs & sts & S1 & -> & S3 & S4 & S5)]].
    + destruct W5 as [?|?]; [by left|]. right. by apply selected_in_app.
    + right. exists (calls (outside c)), [], objects, hs, sts, (sol_num (sol c)). eexists. rewrite app_nil_r. split; [done|]. split; [exact S5|]. by split_and!.
  - destruct (existsb is_sbo_operate new) eqn:He; [|by apply operations_silent].
    destruct (N9 eq_refl) as (_ & Hop & hs & sts & Hd & Hlen & ->). apply operations_app; [done|]. intros x Hx Hsbo.
    apply served_member in Hx as [->|[->|(command & status & Hc & ->)]]; [done..|]. unfold operates in Hop.
    exists (control_ c), (sol_num (sol c)), (GetTime (world (outside c))).1, objects, hs, command, status. split_and!; try done.
    destruct W5 as [Hi|?]; [exfalso|done]. rewrite Hi in Hop. apply (nothing_selected _ _ _ _ hs) in Hop as ->; [|done]. by apply elem_of_nil in Hc.
  - destruct N7 as [-> | (_ & -> & _)]; [done|]. by apply static_ok_clear.
Qed.

(** *** Sending a response *)

(** The response [m] was sent and recorded. *)
Record responded (dest : Z) (ctrl : AppControlField) (data : bytes) qs c c' m : Prop := mkResponded {
  rp_calls : calls (outside c') = calls (outside c) ++ [BeginTransmit (mkAddresses (source (addresses c)) dest) m];
  rp_transmitting : isTransmitting c' = true;
  rp_sol : sol c' = mkOutstationSolState (sol_num (sol c)) (sol_confirmNum (sol c)) (sol_tx (sol c'));
  rp_tx : tx_ok n (sol_tx (sol c'));
  rp_view : view_bytes (tx_buffer (sol_tx (sol c'))) (lastResponse (sol_tx (sol c'))) = Some m;
  rp_queue : queue_is c' qs;
  rp_message : exists iin, message n RESPONSE ctrl iin data m /\ announces c' iin;
  rp_addresses : addresses c' = addresses c;
  rp_online : isOnline c' = isOnline c;
  rp_timer : confirmTimer c' = confirmTimer c;
  rp_history : history c' = history c;
  rp_deferred : deferred c' = deferred c;
  rp_unsol : unsol c' = unsol c;
  rp_params : params c' = params c;
  rp_static : staticIIN c' = staticIIN c;
  rp_control : control_ c' = control_ c;
  rp_database : database c' = database c
}.

Lemma fragment_message f fc ctrl iin data :
  fragment n f [AppControlField.ToByte ctrl; FunctionCodeToType fc; LSB iin; MSB iin] data -> 0 <= SEQ ctrl < 16 ->
  message n fc ctrl iin data ([AppControlField.ToByte ctrl; FunctionCodeToType fc; LSB iin; MSB iin] ++ data).
Proof. intros Hf Hs. split; [done| |done]. pose proof (fr_fits _ _ _ _ Hf). rewrite length_app. cbn [length]. lia. Qed.

Lemma transmit_response_wp dest f ctrl iin data c :
  fragment n f [AppControlField.ToByte ctrl; FunctionCodeToType RESPONSE; LSB iin; MSB iin] data -> 0 <= SEQ ctrl < 16 ->
  wp (transmit_response dest f) c (fun _ c' => exists t o m, c' = set_outside o (set_isTransmitting true (set_sol_tx t c)) /\
    message n RESPONSE ctrl iin data m /\ calls o = calls (outside c) ++ [BeginTransmit (mkAddresses (source (addresses c)) dest) m] /\
    tx_ok n t /\ view_bytes (tx_buffer t) (lastResponse t) = Some m).
Proof.
  intros Hf Hs. pose proof (fragment_bytes _ _ _ _ Hf) as Hv. pose proof (fragment_message f RESPONSE ctrl iin data Hf Hs) as Hm.
  unfold transmit_response. rewrite wp_bind, wp_modify, wp_bind. apply (wp_lift_some _ ctrl); [by eapply fragment_GetControl|].
  unfold BeginResponseTx. rewrite wp_bind, wp_modify, wp_bind, wp_get, wp_bind.
  cbn [sol set_sol_tx set_sol sol_tx tx_buffer TxBuffer.Record_ TxBuffer.set_buffer].
  eapply wp_lift_some; [exact Hv|]. unfold BeginTx. rewrite wp_bind, wp_modify, wp_bind, wp_get. apply wp_on_outside, wp_tell. intros w.
  eexists (mkTxBuffer (response_view f) ctrl (apdu_array f)), _, _. split; [reflexivity|]. split_and!; [exact Hm|done|exact (fr_length _ _ _ _ Hf)|exact Hv].
Qed.

Lemma announces_indicates c c' qs iin iin' :
  indicates qs (staticIIN c) iin -> queue_is c' qs -> staticIIN c' = staticIIN c ->
  (forall b, IINField.IsSet iin b = true -> IINField.IsSet iin' b = true) -> announces c' iin'.
Proof.
  intros [Hc Hr] Hq Hs Hi. split.
  - intros qs' ec Hq' Hu. apply Hi. rewrite (queue_is_unique _ _ _ _ Hq' Hq) in Hu. rewrite Hc, Hu. apply orb_true_r.
  - intros Hset. apply Hi. by rewrite Hr, <- Hs.
Qed.

(** The end of every response; [g] adds the errors of the handler. *)
Lemma respond_wp (g : IINField -> IINField) dest f ctrl b2 b3 data qs c :
  (forall iin b, IINField.IsSet iin b = true -> IINField.IsSet (g iin) b = true) ->
  queue_is c qs -> fragment n f [AppControlField.ToByte ctrl; FunctionCodeToType RESPONSE; b2; b3] data -> 0 <= SEQ ctrl < 16 ->
  wp (rsp_iin ← GetResponseIIN; response ← lift (APDUResponse.SetIIN f (g rsp_iin)); transmit_response dest response) c
    (fun _ c' => exists m, responded dest ctrl data qs c c' m).
Proof.
  intros Hg Hq Hf Hs. rewrite wp_bind. eapply wp_mono; [by apply GetResponseIIN_wp|].
  intros iin c1 (Hq1 & Hi & b & o & -> & Ho). rewrite wp_bind.
  destruct (fragment_SetIIN _ _ _ _ (g iin) Hf) as (f1 & Hset & Hf1). eapply wp_lift_some; [exact Hset|]. cbn [insert list_insert] in Hf1.
  eapply wp_mono; [by apply (transmit_response_wp dest f1 ctrl (g iin) data)|].
  intros [] c2 (t & o2 & m & -> & Hm & Hc & Ht & Hv). exists m. cbn [outside set_outside addresses set_eventBuffer] in Hc. rewrite Ho in Hc.
  split; try done. exists (g iin). split; [done|]. apply (announces_indicates c _ qs iin); [exact Hi|exact Hq1|done|by apply Hg].
Qed.

(** With what follows. *)
Lemma respond_then_wp {A} (g : IINField -> IINField) dest f ctrl b2 b3 data qs c (k : SM (OContext M D W) A) Q :
  (forall iin b, IINField.IsSet iin b = true -> IINField.IsSet (g iin) b = true) ->
  queue_is c qs -> fragment n f [AppControlField.ToByte ctrl; FunctionCodeToType RESPONSE; b2; b3] data -> 0 <= SEQ ctrl < 16 ->
  (forall c' m, responded dest ctrl data qs c c' m -> wp k c' Q) ->
  wp (rsp_iin ← GetResponseIIN; response ← lift (APDUResponse.SetIIN f (g rsp_iin)); _ ← transmit_response dest response; k) c Q.
Proof.
  intros Hg Hq Hf Hs Hk. pose proof (respond_wp g dest f ctrl b2 b3 data qs c Hg Hq Hf Hs) as HR. apply wp_bind in HR; rewrite wp_bind.
  eapply wp_mono; [exact HR|]. cbv beta. intros iin c1 HR1. apply wp_bind in HR1; rewrite wp_bind. eapply wp_mono; [exact HR1|]. cbv beta. intros f1 c2 HR2.
  rewrite wp_bind. eapply wp_mono; [exact HR2|]. cbv beta. intros [] c3 (m & Hr). by eapply Hk.
Qed.

Lemma IsSet_or_r f g b : IINField.IsSet g b = true -> IINField.IsSet (IINField.or f g) b = true.
Proof. intros Hb. rewrite IsSet_or, Hb. apply orb_true_r. Qed.

Lemma responded_session st timer dest ctrl data qs c c' m :
  working c -> responded dest ctrl data qs c c' m -> isOnline c = true -> UNS ctrl = false -> Forall event_good qs ->
  (timer = None <-> st = Idle) -> (hasLast (history c) = true -> st = SolicitedConfirmWait -> function (lastHeader (history c)) = READ) ->
  (hasLast (history c) = true -> SEQ ctrl = SEQ (control (lastHeader (history c)))) -> accounted st c' qs ->
  session_at st (set_confirmTimer timer c').
Proof.
  intros [[P1 P2] W1 W2 W3 W4 W5 W6 W7] [R1 R2 R3 R4 R5 R6 (iin & R7 & _) R8 R9 R10 R11 R12 R13 R14 R15 R16 R17] Hon Hu Hg Ht Hh Hseq Ha.
  assert (Hl : last_sent RESPONSE (calls (outside c')) = Some m).
  { rewrite R1, last_sent_snoc, (message_sent _ _ _ _ _ _ RESPONSE _ R7). done. }
  split; cbn [set_confirmTimer eventBuffer params database sol unsol deferred confirmTimer isOnline isTransmitting history outside addresses control_ staticIIN];
    rewrite ?Hl, ?R8, ?R9, ?R11, ?R12, ?R13, ?R14, ?R15, ?R16; try done.
  - exists qs. split_and!; [exact R6|done|exact Ha].
  - split; cbn [set_confirmTimer params database]; rewrite ?R17, ?R14; done.
  - by rewrite Hon.
  - intros Hhl. exists m. split; [done|]. rewrite (message_seq _ _ _ _ _ _ R7). by apply Hseq.
  - rewrite R1. apply Forall_app_2; [done|]. constructor; [|done]. split; [done|]. exists RESPONSE, ctrl, iin, data. split; [done|by left].
  - rewrite R1. destruct W5; [by left|]. right. by apply selected_in_app.
  - rewrite R1. by apply operations_silent.
Qed.

(** *** Responses to requests *)

Lemma working_same c c' :
  working c -> database c' = database c -> params c' = params c -> unsol c' = unsol c -> deferred c' = deferred c ->
  addresses c' = addresses c -> calls (outside c') = calls (outside c) -> control_ c' = control_ c -> staticIIN c' = staticIIN c -> working c'.
Proof.
  intros [[P1 P2] W1 W2 W3 W4 W5 W6 W7] E1 E2 E3 E4 E5 E6 E7 E8. split; rewrite ?E2, ?E3, ?E4, ?E5, ?E6, ?E7, ?E8; try done.
  split; rewrite ?E1, ?E2; done.
Qed.

Lemma set_timer_same c : set_confirmTimer (confirmTimer c) c = c.
Proof. by destruct c. Qed.

Lemma header_bytes (hdr : bytes) b1 : length hdr = 4%nat -> exists b0 b2 b3, <[1%nat := b1]> hdr = [b0; b1; b2; b3].
Proof. destruct hdr as [|x0 [|x1 [|x2 [|x3 [|]]]]]; try done. intros _. by exists x0, x2, x3. Qed.

(** A new fragment with its function. *)
Lemma start_wp {A} c (k : APDUWrapper -> SM (OContext M D W) A) Q :
  tx_ok n (sol_tx (sol c)) ->
  (forall f b0 b2 b3, fragment n f [b0; FunctionCodeToType RESPONSE; b2; b3] [] -> wp (k f) c Q) ->
  wp (tx ← get (fun c => sol_tx (sol c)); response ← lift (TxBuffer.Start tx); response ← lift (APDUWrapper.SetFunction response RESPONSE);
      k response) c Q.
Proof.
  intros Ht Hk. rewrite wp_bind, wp_get, wp_bind. destruct (fragment_start n _ Ht Hn) as (f & Hf & Hff).
  eapply wp_lift_some; [exact Hf|]. rewrite wp_bind. destruct (fragment_SetFunction _ _ _ _ RESPONSE Hff) as (f1 & Hf1 & Hff1).
  eapply wp_lift_some; [exact Hf1|]. destruct (header_bytes _ (FunctionCodeToType RESPONSE) (fr_header _ _ _ _ Hff)) as (b0 & b2 & b3 & Hh).
  rewrite Hh in Hff1. by apply (Hk f1 b0 b2 b3).
Qed.

Lemma control_wp {A} f ctrl b0 b1 b2 b3 data c (k : APDUWrapper -> SM (OContext M D W) A) Q :
  fragment n f [b0; b1; b2; b3] data ->
  (forall f', fragment n f' [AppControlField.ToByte ctrl; b1; b2; b3] data -> wp (k f') c Q) ->
  wp (response ← lift (APDUWrapper.SetControl f ctrl); k response) c Q.
Proof.
  intros Hf Hk. rewrite wp_bind. destruct (fragment_SetControl _ _ _ _ ctrl Hf) as (f1 & Hf1 & Hff1). eapply wp_lift_some; [exact Hf1|]. by apply Hk.
Qed.

(** A response after some calls: what changed since the request was taken up. *)
Lemma responded_moved dest ctrl data qs qs' new c c1 c2 m :
  responded dest ctrl data qs' c1 c2 m -> isTransmitting c = false -> queue_is c qs -> map payload qs' = map payload qs ->
  calls (outside c1) = calls (outside c) ++ new -> silent new ->
  addresses c1 = addresses c -> isOnline c1 = isOnline c -> same_params (params c) (params c1) ->
  (IINField.IsSet (staticIIN c1) DEVICE_RESTART = IINField.IsSet (staticIIN c) DEVICE_RESTART \/
    IINField.IsSet (staticIIN c1) DEVICE_RESTART = false /\ exists objects hs,
      decoded ParserSettings.Default objects = Some (hs, OK) /\ existsb clears_restart hs = true) ->
  moved [] c c2.
Proof.
  intros [] Htx Hq Hp Hc Hs E1 E2 E3 E4. split; try congruence.
  - exists (new ++ [BeginTransmit (mkAddresses (source (addresses c1)) dest) m]). rewrite rp_calls0, Hc, <- app_assoc. split; [done|].
    rewrite transmissions_app, transmissions_silent, Htx, rp_transmitting0 by done. done.
  - exists qs, qs'. split_and!; [done|done|]. cbn [map]. by rewrite app_nil_r, Hp.
Qed.

Lemma responded_answered r ctrl data qs new c c1 c2 m :
  responded (source (req_addresses r)) ctrl data qs c1 c2 m -> calls (outside c1) = calls (outside c) ++ new -> silent new ->
  addresses c1 = addresses c -> SEQ ctrl = SEQ (control (req_header r)) -> UNS ctrl = false -> answered r c c2.
Proof.
  intros [] Hc Hs Ha Hq Hu. destruct rp_message0 as (iin & Hm & Hi). exists new, m, ctrl, iin, data.
  rewrite rp_calls0, Hc, <- app_assoc, Ha. done.
Qed.

Lemma nonread_restart fc objects c c' new : nonread fc objects c c' new ->
  IINField.IsSet (staticIIN c') DEVICE_RESTART = IINField.IsSet (staticIIN c) DEVICE_RESTART \/
  IINField.IsSet (staticIIN c') DEVICE_RESTART = false /\ exists objects hs,
    decoded ParserSettings.Default objects = Some (hs, OK) /\ existsb clears_restart hs = true.
Proof.
  intros HN. destruct (nr_static _ _ _ _ _ HN) as [-> | (_ & -> & hs & Hd & He)]; [by left|]. right. split; [|by exists objects, hs].
  rewrite IsSet_ClearBit. by rewrite bool_decide_true.
Qed.

Lemma RespondToNonReadRequest_wp st r c :
  session_at st c -> st <> SolicitedConfirmWait -> isOnline c = true -> isTransmitting c = false -> request_ok r ->
  wp (RespondToNonReadRequest r) c (fun _ c' => session_at st c' /\ moved [] c c' /\ answered r c c' /\ deferred c' = deferred c).
Proof.
  intros HS Hst Hon Htx [Hb Hr]. destruct (se_queue _ _ HS) as (qs & Hq & Hg & Ha). pose proof (session_working _ _ HS) as Hw.
  unfold RespondToNonReadRequest. rewrite wp_bind, wp_modify. set (c0 := set_history _ c).
  set (ctrl := mkAppControlField true true false false (SEQ (control (req_header r)))).
  assert (Hw0 : working c0) by by apply (working_same c). apply (start_wp c0); [apply (se_sol _ _ HS)|]. intros f0 b0 b2 b3 Hf0.
  eapply control_wp; [exact Hf0|]. intros f Hf.
  destruct (fragment_writer _ _ _ _ Hf Hmax) as (Hwf & _ & _). rewrite wp_bind.
  eapply wp_mono; [by apply HandleNonReadResponse_wp; [apply Hw0|done|done]|].
  intros [w iin] c1 (new & data & HN & Hput). cbn [fst] in Hput. cbv beta iota.
  pose proof (fragment_written _ _ _ _ _ _ Hf Hput) as Hf1. cbn [app] in Hf1.
  pose proof (nonread_working _ _ _ _ _ Hw0 HN) as Hw1. pose proof (nr_frame _ _ _ _ _ HN) as [F1 F2 F3 F4 F5 F6 F7 F8 F9 F10].
  assert (Hq1 : queue_is c1 qs) by (apply (queue_same _ c0); [exact Hq|apply HN]).
  eapply wp_mono; [by eapply (respond_wp (IINField.or iin) _ _ ctrl); [intros; by apply IsSet_or_r|exact Hq1|exact Hf1|]|].
  intros [] c2 (m & HR). split_and!.
  - rewrite <- (set_timer_same c2), (rp_timer _ _ _ _ _ _ _ HR), F4.
    eapply responded_session; [exact Hw1|exact HR|by rewrite F2|done|done|exact (se_timer _ _ HS)|by intros _ ->| |].
    + intros _. by rewrite F5.
    + intros Hi. destruct (Ha Hi) as (m0 & seq & H1' & H2'). exists m0, seq. destruct st; [done..|]. cbn [awaited clears] in *.
      rewrite (rp_calls _ _ _ _ _ _ _ HR), (rp_unsol _ _ _ _ _ _ _ HR), F7. split; [|exact H2'].
      destruct (rp_message _ _ _ _ _ _ _ HR) as (iin' & Hm & _). rewrite last_sent_snoc, (message_sent _ _ _ _ _ _ _ _ Hm).
      cbn [FunctionCodeToType Z.eqb Pos.eqb]. rewrite (nr_calls _ _ _ _ _ HN), last_sent_silent by apply HN. exact H1'.
  - eapply (responded_moved _ _ _ qs qs new c c1); [exact HR|done|done|done|apply HN|apply HN|done|done|exact F10|by eapply (nonread_restart _ _ c0 c1 new)].
  - eapply responded_answered; [exact HR|apply HN|apply HN|done|done|done].
  - by rewrite (rp_deferred _ _ _ _ _ _ _ HR), F6.
Qed.

(** The end of a response to a read: [c0] is the session before the load. *)
Lemma finish_read_wp (g : IINField -> IINField) dest seq f b0 b2 b3 w ctrl rs qs1 qs' c0 c1 :
  (forall iin b, IINField.IsSet iin b = true -> IINField.IsSet (g iin) b = true) ->
  working c0 -> isOnline c0 = true -> confirmTimer c0 = None -> 0 <= seq < 16 ->
  (hasLast (history c0) = true -> function (lastHeader (history c0)) = READ /\ SEQ (control (lastHeader (history c0))) = seq) ->
  fragment n f [b0; FunctionCodeToType RESPONSE; b2; b3] [] ->
  loaded caps c0 c1 (GetWriter f) w ctrl rs qs1 qs' -> Forall event_good qs' -> List.filter (in_state written_) qs1 = [] ->
  wp (_ ← modify (set_sol_confirmNum seq);
      response ← lift (APDUWrapper.SetControl (written f w) (set_SEQ seq ctrl));
      rsp_iin ← GetResponseIIN;
      response ← lift (APDUResponse.SetIIN response (g rsp_iin));
      _ ← transmit_response dest response;
      await_confirm (CON (set_SEQ seq ctrl))) c1
    (fun st c' => session_at st c' /\ st <> UnsolicitedConfirmWait /\ exists timer c2 data m,
       c' = set_confirmTimer timer c2 /\ responded dest (set_SEQ seq ctrl) data qs' (set_sol_confirmNum seq c1) c2 m).
Proof.
  intros Hg Hw Hon Ht Hs Hh Hf [L1 L2 L3 L4 L5 L6 L7 L8 (data & Hput) L10 L11 L12] Hgood Hnone.
  destruct L1 as [F1 F2 F3 F4 F5 F6 F7 F8 F9 F10]. rewrite wp_bind, wp_modify. set (c1' := set_sol_confirmNum seq c1).
  pose proof (fragment_written _ _ _ _ _ _ Hf Hput) as Hf1. cbn [app] in Hf1.
  assert (Hw1 : working c1').
  { destruct Hw as [[P1 P2] W1 W2 W3 W4 W5 W6 W7]. destruct (same_params_limits _ _ F10) as (E1 & E2 & _).
    split; cbn [c1' set_sol_confirmNum set_sol unsol deferred addresses outside params control_ staticIIN];
      rewrite ?F7, ?F6, ?F1, ?L2, ?E1, ?E2, ?L3, ?L4; try done. split; [exact L5|]. by cbn [c1' set_sol_confirmNum set_sol params]; rewrite E1. }
  eapply control_wp; [exact Hf1|]. intros f2 Hf2.
  assert (Hq1 : queue_is c1' qs') by exact L6.
  eapply respond_then_wp; [exact Hg|exact Hq1|exact Hf2|exact Hs|]. intros c2 m HR.
  pose proof (rp_message _ _ _ _ _ _ _ HR) as (iin & Hm & _).
  assert (Hses : forall st timer, (timer = None <-> st = Idle) -> st <> UnsolicitedConfirmWait -> session_at st (set_confirmTimer timer c2)).
  { intros st timer Htm Hst. eapply responded_session; [exact Hw1|exact HR|by cbn; rewrite F2|exact L11|exact Hgood|exact Htm| | |].
    - cbn [c1' set_sol_confirmNum set_sol history]. rewrite F5. intros Hl _. by apply Hh.
    - cbn [c1' set_sol_confirmNum set_sol history set_SEQ SEQ]. rewrite F5. intros Hl. symmetry. by apply Hh.
    - intros Hi. destruct st; [done| |done]. exists m, seq. cbn [awaited].
      rewrite (rp_calls _ _ _ _ _ _ _ HR), (rp_sol _ _ _ _ _ _ _ HR), last_sent_snoc, (message_sent _ _ _ _ _ _ RESPONSE _ Hm). split; [done|].
      split; [by rewrite (message_seq _ _ _ _ _ _ Hm)|]. intros _. exists rs, data. rewrite (message_data _ _ _ _ _ _ Hm). split_and!; [done|done|].
      rewrite (wf_written _ _ _ L7), Hnone. cbn [app]. by rewrite map_map. }
  unfold await_confirm. destruct (CON (set_SEQ seq ctrl)).
  - rewrite wp_bind. unfold RestartConfirmTimer. rewrite wp_modify, wp_ret. split_and!; [by apply Hses|done|]. eexists _, c2, _, m. split; [reflexivity|exact HR].
  - rewrite wp_ret. rewrite <- (set_timer_same c2). split_and!; [apply Hses; [|done]|done|].
    + by rewrite (rp_timer _ _ _ _ _ _ _ HR); cbn [c1' set_sol_confirmNum set_sol confirmTimer]; rewrite F4, Ht.
    + eexists _, c2, _, m. split; [reflexivity|exact HR].
Qed.

Lemma written_from_good qs ws qs' : written_from qs ws qs' -> Forall event_good qs -> Forall event_good qs'.
Proof.
  intros HW Hg. pose proof (wf_same _ _ _ HW) as Hu. apply Forall_forall. intros q Hq.
  assert (Hin : List.In (with_state unselected q) (unselect qs)) by (rewrite <- Hu; by apply (List.in_map (with_state unselected))).
  apply List.in_map_iff in Hin as (q0 & Heq & Hq0). rewrite Forall_forall in Hg. specialize (Hg q0 Hq0).
  destruct q, q0. cbn in Heq. injection Heq as -> -> -> -> -> ->. by destruct Hg as [[] Hr].
Qed.

Lemma unselect_payload qs : map payload (unselect qs) = map payload qs.
Proof. unfold unselect. by rewrite map_map. Qed.

Lemma written_from_payload qs ws qs' : written_from qs ws qs' -> map payload qs' = map payload qs.
Proof. intros HW. by rewrite <- (unselect_payload qs'), (wf_same _ _ _ HW), unselect_payload. Qed.

Lemma RespondToReadRequest_wp r c :
  session_at Idle c -> isOnline c = true -> isTransmitting c = false -> request_ok r -> function (req_header r) = READ ->
  wp (RespondToReadRequest r) c (fun st c' => session_at st c' /\ st <> UnsolicitedConfirmWait /\ moved [] c c' /\ answered r c c' /\ deferred c' = deferred c).
Proof.
  intros HS Hon Htx [Hb Hr] Hread. destruct (se_queue _ _ HS) as (qs & Hq & Hg & _). pose proof (session_working _ _ HS) as Hw.
  unfold RespondToReadRequest. rewrite wp_bind, wp_modify. set (c0 := set_history _ c). assert (Hw0 : working c0) by by apply (working_same c).
  apply (start_wp c0); [apply (se_sol _ _ HS)|]. intros f b0 b2 b3 Hf.
  destruct (fragment_writer _ _ _ _ Hf Hmax) as (Hwf & Hpos & _). rewrite wp_bind. pose proof (po_database _ (wk_parts _ Hw0)) as Hdb.
  eapply wp_mono; [apply (HandleRead_wp caps Hcaps _ c0 qs); [exact Hq|exact Hg|exact Hdb|exact Hwf|rewrite Hpos; cbn; lia|exact Hb]|].
  intros [w [iin ctrl]] c1 (rs & qs1 & qs' & HL & Hg1 & Hp1 & Hnone). cbn [fst snd] in HL. cbv beta iota zeta.
  eapply wp_mono; [eapply (finish_read_wp (IINField.or iin) _ _ f _ _ _ w ctrl rs qs1 qs' c0 c1); [intros; by apply IsSet_or_r|exact Hw0|exact Hon| |exact Hr|by intros _|exact Hf|exact HL|eapply written_from_good; [exact (ld_written _ _ _ _ _ _ _ _ _ HL)|done]|exact Hnone]|].
  { by apply (se_timer _ _ HS). }
  intros st c' (HS' & Hst & timer & c2 & data & m & -> & HR). pose proof (ld_frame _ _ _ _ _ _ _ _ _ HL) as [F1 F2 F3 F4 F5 F6 F7 F8 F9 F10].
  split_and!; [exact HS'|done| | |].
  - assert (HM : moved [] c c2); [|by destruct HM].
    eapply (responded_moved _ _ _ qs qs' [] c _ c2); [exact HR|done|done| | |done|exact F1|exact F2|exact F10|].
    + by rewrite (written_from_payload _ _ _ (ld_written _ _ _ _ _ _ _ _ _ HL)), Hp1.
    + cbn [set_sol_confirmNum set_sol outside]. by rewrite (ld_outside _ _ _ _ _ _ _ _ _ HL), app_nil_r.
    + left. cbn [set_sol_confirmNum set_sol staticIIN]. by rewrite (ld_static _ _ _ _ _ _ _ _ _ HL).
  - assert (HA : answered r c c2); [|exact HA]. eapply (responded_answered r _ _ _ []); [exact HR| |done|exact F1|done|exact (ld_uns _ _ _ _ _ _ _ _ _ HL)].
    cbn [set_sol_confirmNum set_sol outside]. by rewrite (ld_outside _ _ _ _ _ _ _ _ _ HL), app_nil_r.
  - cbn [set_confirmTimer deferred]. rewrite (rp_deferred _ _ _ _ _ _ _ HR). exact F6.
Qed.

(** A further fragment of a response, after the confirmation of the one before. *)
Lemma ContinueMultiFragResponse_wp a seq c :
  session_at Idle c -> isOnline c = true -> isTransmitting c = false -> hasLast (history c) = false -> 0 <= seq < 16 ->
  (forall qs, queue_is c qs -> List.filter (in_state written_) qs = []) ->
  wp (ContinueMultiFragResponse a seq) c (fun st c' => session_at st c' /\ st <> UnsolicitedConfirmWait /\ moved [] c c' /\ deferred c' = deferred c).
Proof.
  intros HS Hon Htx Hh Hr Hnone. destruct (se_queue _ _ HS) as (qs & Hq & Hg & _). pose proof (session_working _ _ HS) as Hw.
  unfold ContinueMultiFragResponse. apply (start_wp c); [apply (se_sol _ _ HS)|]. intros f b0 b2 b3 Hf.
  destruct (fragment_writer _ _ _ _ Hf Hmax) as (Hwf & Hpos & _). rewrite wp_bind. pose proof (po_database _ (wk_parts _ Hw)) as Hdb.
  eapply wp_mono; [apply (LoadResponse_wp caps Hcaps c qs); [exact Hq|exact Hg|exact Hdb|exact Hwf|rewrite Hpos; cbn; lia]|].
  intros [w ctrl] c1 (rs & qs' & HL). cbn [fst snd] in HL. cbv beta iota zeta.
  eapply wp_mono; [eapply (finish_read_wp (fun iin => iin) _ _ f _ _ _ w ctrl rs qs qs' c c1); [done|exact Hw|exact Hon| |exact Hr|by rewrite Hh|exact Hf|exact HL|eapply written_from_good; [exact (ld_written _ _ _ _ _ _ _ _ _ HL)|done]|by apply Hnone]|].
  { by apply (se_timer _ _ HS). }
  intros st c' (HS' & Hst & timer & c2 & data & m & -> & HR). pose proof (ld_frame _ _ _ _ _ _ _ _ _ HL) as [F1 F2 F3 F4 F5 F6 F7 F8 F9 F10].
  split_and!; [exact HS'|done| |].
  - assert (HM : moved [] c c2); [|by destruct HM].
    eapply (responded_moved _ _ _ qs qs' [] c _ c2); [exact HR|done|done| | |done|exact F1|exact F2|exact F10|].
    + by rewrite (written_from_payload _ _ _ (ld_written _ _ _ _ _ _ _ _ _ HL)).
    + cbn [set_sol_confirmNum set_sol outside]. by rewrite (ld_outside _ _ _ _ _ _ _ _ _ HL), app_nil_r.
    + left. cbn [set_sol_confirmNum set_sol staticIIN]. by rewrite (ld_static _ _ _ _ _ _ _ _ _ HL).
  - cbn [set_confirmTimer deferred]. rewrite (rp_deferred _ _ _ _ _ _ _ HR). exact F6.
Qed.

(** *** Confirmations and repeats *)

(** A confirmation that may remove events: the fragment that is awaited carries them. *)
Definition confirmed c (r : ParsedRequest) (rm : list (Queued M)) : Prop :=
  rm = [] \/ exists m, awaited (state_ c) c = Some (m, SEQ (control (req_header r))) /\ seq_of m = SEQ (control (req_header r)) /\
    UNS (control (req_header r)) = bool_decide (state_ c = UnsolicitedConfirmWait) /\ carries m rm.

Lemma session_cancel st c : session_at st c -> session_at Idle (set_confirmTimer None c).
Proof.
  intros HS. destruct HS as [(qs & Hq & Hg & _) [b1 b2] d e f g h i j k l o p q r]. split; try done.
  - exists qs. split_and!; [exact Hq|done|by intros []].
  - intros Ho. by destruct (i Ho) as (? & _ & ?).
Qed.

Lemma session_forget st c : session_at st c -> session_at st (set_history (RequestHistory.Reset (history c)) c).
Proof.
  intros HS. destruct HS as [a [b1 b2] d e f g h i j k l o p q r]. by split.
Qed.

(** What changes without calls. *)
Lemma quiet_moved rm qs qs' c c' :
  queue_is c qs -> queue_is c' qs' -> map payload qs ≡ₚ map payload qs' ++ map payload rm -> calls (outside c') = calls (outside c) ->
  isTransmitting c' = isTransmitting c -> addresses c' = addresses c -> isOnline c' = isOnline c -> params c' = params c ->
  (isTransmitting c = true -> sol c' = sol c /\ unsol c' = unsol c) -> staticIIN c' = staticIIN c -> moved rm c c'.
Proof.
  intros Hq Hq' Hp Hc Ht Ha Ho Hpa Hs Hi. split; try done.
  - exists []. rewrite Hc, Ht, app_nil_r. done.
  - rewrite Hpa. apply same_params_refl.
  - by exists qs, qs'.
  - rewrite Hi. by left.
Qed.

Lemma clear_written_split qs : qs ≡ₚ clear_written qs ++ List.filter (in_state written_) qs.
Proof.
  unfold clear_written. induction qs as [|q qs IH]; [done|]. cbn [List.filter]. destruct (in_state written_ q); cbn [negb].
  - rewrite IH at 1. apply Permutation_middle.
  - by rewrite IH at 1.
Qed.

Lemma clear_written_none qs : List.filter (in_state written_) (clear_written qs) = [].
Proof.
  unfold clear_written. induction qs as [|q qs IH]; [done|]. cbn [List.filter]. destruct (in_state written_ q) eqn:Hq; cbn [negb List.filter]; [done|].
  by rewrite Hq.
Qed.

Lemma ClearWritten_wp c qs :
  queue_is c qs ->
  wp (update_events EventBuffer.ClearWritten) c (fun _ c' => exists b, c' = set_eventBuffer b c /\ queue_is c' (clear_written qs)).
Proof.
  intros (o & Hm). unfold update_events, on_events. rewrite wp_on. destruct (ClearWritten_refines caps _ _ Hm) as (b & Hb & Hm'). unfold wp. rewrite Hb.
  cbn [mbind option_bind]. exists b. split; [done|]. by exists o.
Qed.

Lemma session_events st c b qs :
  session_at st c -> queue_is (set_eventBuffer b c) qs -> Forall event_good qs -> accounted st c qs -> session_at st (set_eventBuffer b c).
Proof.
  intros [_ [b1 b2] d e f g h i j k l o p q r] Hq Hg Ha. split; try done. by exists qs.
Qed.

(** A confirmation of the fragment that is awaited: its events leave the buffer. *)
Lemma session_confirm st c b qs :
  session_at st c -> queue_is c qs -> Forall event_good qs -> st <> Idle ->
  let c' := set_eventBuffer b (set_confirmTimer None (set_history (RequestHistory.Reset (history c)) c)) in
  queue_is c' (clear_written qs) -> session_at Idle c' /\ moved (List.filter (in_state written_) qs) c c'.
Proof.
  intros HS Hq Hg Hst c' Hq'. split.
  - apply (session_events _ _ b (clear_written qs)); [by eapply session_cancel, session_forget|exact Hq'| |by intros []].
    unfold clear_written. eapply List.incl_Forall; [apply List.incl_filter|exact Hg].
  - apply (quiet_moved _ qs (clear_written qs)); try done. rewrite (clear_written_split qs) at 1. by rewrite map_app.
Qed.

Lemma last_sent_ok c st m : session_at st c -> last_sent RESPONSE (calls (outside c)) = Some m ->
  exists ctrl iin data, message n RESPONSE ctrl iin data m /\ UNS ctrl = false.
Proof.
  intros HS. pose proof (se_sent _ _ HS) as Hs. generalize (calls (outside c)) Hs. clear. intros l Hl. induction l as [|x l IH] using rev_ind; [done|].
  apply Forall_app in Hl as [Hl Hx]. rewrite last_sent_snoc. destruct (fragment_of RESPONSE x) as [m0|] eqn:Hf; [|by apply IH].
  intros [= ->]. apply Forall_cons_1 in Hx as [Hx _]. destruct x as [| | | | | | | | |d m1]; try discriminate Hf. destruct Hx as (_ & fc & ctrl & iin & data & Hm & Hfc).
  pose proof (message_sent _ _ _ _ _ _ RESPONSE d Hm) as Hms. rewrite Hf in Hms. destruct Hfc as [[-> Hu]|(-> & _ & _)]; [|done].
  injection Hms as <-. eauto 10.
Qed.

(** The last response again. *)
Lemma repeat_response_wp st r c :
  session_at st c -> isOnline c = true -> isTransmitting c = false -> hasLast (history c) = true ->
  wp (repeat_response r) c (fun _ c' => exists o m, c' = set_outside o (set_isTransmitting true c) /\ last_sent RESPONSE (calls (outside c)) = Some m /\
    calls o = calls (outside c) ++ [BeginTransmit (mkAddresses (source (addresses c)) (source (req_addresses r))) m] /\
    session_at st c' /\ moved [] c c').
Proof.
  intros HS Hon Htx Hh. destruct (se_answered _ _ HS Hh) as (m & Hm & Hseq). destruct (last_sent_ok _ _ _ HS Hm) as (ctrl & iin & data & Hms & Hu).
  pose proof (se_last _ _ HS) as Hl. rewrite Hm in Hl. cbn [default] in Hl.
  unfold repeat_response, BeginResponseTx. rewrite wp_bind, wp_get, wp_bind, wp_modify, wp_bind, wp_get, wp_bind.
  unfold TxBuffer.GetLastResponse, TxBuffer.GetLastControl.
  replace (set_sol_tx (TxBuffer.Record_ (sol_tx (sol c)) (tx_control (sol_tx (sol c))) (lastResponse (sol_tx (sol c)))) c) with c by (destruct c as [????????????? s0]; by destruct s0 as [?? []]).
  eapply wp_lift_some; [exact Hl|]. unfold BeginTx. rewrite wp_bind, wp_modify, wp_bind, wp_get. apply wp_on_outside, wp_tell. intros w.
  eexists _, m. split; [reflexivity|]. split_and!; [exact Hm|done| |].
  - set (o := mkOutside _ _). assert (Hls : last_sent RESPONSE (calls o) = Some m).
    { cbn [o calls]. rewrite last_sent_snoc, (message_sent _ _ _ _ _ _ RESPONSE _ Hms). done. }
    destruct HS as [(qs & Hq & Hg & Ha) [b1 b2] d e f g h i j k l o' p q r']. split; cbn [set_outside outside]; rewrite ?Hls; try done.
    + exists qs. split_and!; [exact Hq|done|]. intros Hi. destruct (Ha Hi) as (m0 & seq & A1 & A2). exists m0, seq. split; [|exact A2].
      destruct st; cbn [awaited set_outside outside sol unsol set_isTransmitting] in *; [done| |]; [by rewrite Hls, <- Hm|].
      cbn [o calls]. by rewrite last_sent_snoc, (message_sent _ _ _ _ _ _ UNSOLICITED_RESPONSE _ Hms).
    + intros Ho. change (isOnline c = false) in Ho. congruence.
    + intros _. exists m. split; [done|exact Hseq].
    + cbn [o calls]. apply Forall_app_2; [done|]. constructor; [|done]. split; [done|]. exists RESPONSE, ctrl, iin, data. split; [done|by left].
    + cbn [o calls control_ set_outside set_isTransmitting params]. destruct p; [by left|]. right. by apply selected_in_app.
    + cbn [o calls]. by apply operations_silent.
  - destruct (se_queue _ _ HS) as (qs & Hq & _). split; try done.
    + eexists. split; [reflexivity|]. by rewrite Htx.
    + apply same_params_refl.
    + exists qs, qs. split_and!; [exact Hq|exact Hq|]. cbn [map]. by rewrite app_nil_r.
    + by left.
Qed.

Lemma AppSeqNum_range seq : 0 <= AppSeqNum_Next seq < 16.
Proof. unfold AppSeqNum_Next, SequenceNum_Next. pose proof (Z.mod_pos_bound (seq + 1) 16). rewrite u8_small; unfold is_u8; lia. Qed.

Lemma moved_nil_r rm c c1 c2 : moved rm c c1 -> moved [] c1 c2 -> moved rm c c2.
Proof. intros Ha Hb. rewrite <- (app_nil_r rm). by eapply moved_trans. Qed.

Lemma session_moved_refl st c : session_at st c -> moved [] c c.
Proof. intros HS. destruct (se_queue _ _ HS) as (qs & Hq & _). by eapply moved_refl. Qed.

Lemma session_null c : session_at Idle c -> session_at Idle (set_completedNull c).
Proof.
  intros [(qs & Hq & Hg & _) [b1 b2] d e f g h i j k l o p q r]. split; try done. exists qs. split_and!; [exact Hq|done|by intros []].
Qed.

Lemma ContinueOrStop_wp a seq c :
  session_at Idle c -> isOnline c = true -> isTransmitting c = false -> hasLast (history c) = false -> 0 <= seq < 16 ->
  (forall qs, queue_is c qs -> List.filter (in_state written_) qs = []) ->
  wp (more ← ResponseContext.HasSelection; if (more : bool) then ContinueMultiFragResponse a seq else mret Idle) c
    (fun st c' => session_at st c' /\ moved [] c c' /\ deferred c' = deferred c).
Proof.
  intros HS Hon Htx Hh Hr Hnone. rewrite wp_bind. unfold ResponseContext.HasSelection. rewrite wp_get. destruct (_ || _).
  - eapply wp_mono; [by apply ContinueMultiFragResponse_wp|]. by intros st c' (H1' & _ & H2' & H3').
  - rewrite wp_ret. split_and!; [done|by eapply session_moved_refl|done].
Qed.

Lemma OnConfirm_wp r c :
  session c -> isOnline c = true -> isTransmitting c = false -> request_ok r ->
  wp (OnConfirm r) c (fun st c' => session_at st c' /\ deferred c' = deferred c /\ exists rm, moved rm c c' /\ confirmed c r rm).
Proof.
  intros HS Hon Htx [_ Hr]. unfold OnConfirm. rewrite wp_bind, wp_get.
  assert (Hstay : forall s, state_ c = s -> wp (mret s) c (fun st c' => session_at st c' /\ deferred c' = deferred c /\ exists rm, moved rm c c' /\ confirmed c r rm)).
  { intros s <-. rewrite wp_ret. split_and!; [done|done|]. exists []. split; [by eapply session_moved_refl|by left]. }
  destruct (se_queue _ _ HS) as (qs & Hq & Hg & Ha). unfold session in HS. destruct (state_ c) eqn:Hst; cbn [dispatch].
  - by apply Hstay.
  - unfold StateSolicitedConfirmWait.OnConfirm. destruct (UNS (control (req_header r))) eqn:Hu; [by apply Hstay|].
    rewrite wp_bind, wp_get. destruct (Z.eqb_spec (sol_confirmNum (sol c)) (SEQ (control (req_header r)))) as [Hseq|]; cbn [negb]; [|by apply Hstay].
    rewrite wp_bind, wp_modify, wp_bind. unfold Cancel. rewrite wp_modify, wp_bind.
    eapply wp_mono; [by apply (ClearWritten_wp _ qs)|]. intros [] c1 (b & -> & Hq1). cbn [history set_confirmTimer set_history] in *.
    destruct (session_confirm _ c b qs HS Hq Hg ltac:(done) Hq1) as [HS1 HM1].
    eapply wp_mono; [apply (ContinueOrStop_wp _ _ _ HS1); [done|done|done| |]|].
    + by apply AppSeqNum_range.
    + intros qs1 Hq1'. rewrite (queue_is_unique _ _ _ _ Hq1' Hq1). apply clear_written_none.
    + intros st c' (HS' & HM' & Hd). split_and!; [done|done|]. exists (List.filter (in_state written_) qs). split; [by eapply moved_nil_r|].
      right. destruct (Ha ltac:(done)) as (m & seq & Haw & Hsm & Hca). exists m. rewrite Hst, Haw. cbn [awaited] in Haw.
      destruct (last_sent RESPONSE _); [|done]. injection Haw as -> <-. rewrite Hseq in *. rewrite bool_decide_false by done. split_and!; [done|done|done|by apply Hca].
  - unfold StateUnsolicitedConfirmWait.OnConfirm. destruct (UNS (control (req_header r))) eqn:Hu; cbn [negb]; [|by apply Hstay].
    rewrite wp_bind, wp_get. destruct (Z.eqb_spec (unsol_confirmNum (unsol c)) (SEQ (control (req_header r)))) as [Hseq|]; cbn [negb]; [|by apply Hstay].
    rewrite wp_bind, wp_modify, wp_bind. unfold Cancel. rewrite wp_modify, wp_bind, wp_get. rewrite wp_bind.
    change (completedNull (unsol (set_confirmTimer None (set_history (RequestHistory.Reset (history c)) c)))) with (completedNull (unsol c)).
    destruct (completedNull (unsol c)) eqn:Hn'.
    + eapply wp_mono; [by apply (ClearWritten_wp _ qs)|]. intros [] c1 (b & -> & Hq1). cbn [history set_confirmTimer set_history] in *.
      destruct (session_confirm _ c b qs HS Hq Hg ltac:(done) Hq1) as [HS1 HM1]. rewrite wp_ret. split_and!; [done|done|].
      exists (List.filter (in_state written_) qs). split; [done|].
      right. destruct (Ha ltac:(done)) as (m & seq & Haw & Hsm & Hca). exists m. rewrite Hst, Haw. cbn [awaited] in Haw.
      destruct (last_sent UNSOLICITED_RESPONSE _); [|done]. injection Haw as -> <-. rewrite Hseq in *. rewrite bool_decide_true by done. split_and!; [done|done|done|by apply Hca].
    + rewrite wp_modify, wp_ret. split_and!; [by eapply session_null, session_cancel, session_forget|done|]. exists []. split; [|by left].
      apply (quiet_moved [] qs qs); try done; [cbn [map]; by rewrite app_nil_r|]. intros Ht. congruence.
Qed.

Lemma OnConfirmTimeout_wp c :
  session_at Idle c -> wp OnConfirmTimeout c (fun st c' => session_at st c' /\ moved [] c c' /\ deferred c' = deferred c /\ isTransmitting c' = isTransmitting c /\ st = Idle).
Proof.
  intros HS. unfold OnConfirmTimeout. rewrite wp_bind, wp_get. destruct (se_queue _ _ HS) as (qs & Hq & Hg & Ha).
  assert (Hstay : wp (mret Idle) c (fun st c' => session_at st c' /\ moved [] c c' /\ deferred c' = deferred c /\ isTransmitting c' = isTransmitting c /\ st = Idle)).
  { rewrite wp_ret. split_and!; [done|by eapply session_moved_refl|done|done|done]. }
  destruct (state_ c); cbn [dispatch]; [done..|]. unfold StateUnsolicitedConfirmWait.OnConfirmTimeout. rewrite wp_bind, wp_get, wp_bind.
  destruct (completedNull (unsol c)); [|by rewrite wp_ret]. eapply wp_mono; [by apply (Unselect_wp caps c qs)|]. intros [] c1 (b & -> & Hq1).
  rewrite wp_ret. split_and!; [|apply (quiet_moved [] qs (unselect qs)); try done|done|done|done].
  - apply (session_events _ _ b (unselect qs)); [done|exact Hq1|by apply unselect_good|by intros []].
  - cbn [map]. by rewrite app_nil_r, unselect_payload.
Qed.

(** *** Requests *)

(** What may happen to the deferred request: nothing, it is dropped, or a read is set
    aside for the time after a confirmation. *)
Definition deferred_after c c' : Prop :=
  deferred c' = deferred c \/ DeferredRequest.IsSet (deferred c') = false \/ function (deferred_header (deferred c')) = READ.

Lemma session_timer st c v : session_at st c -> st <> Idle -> session_at st (set_confirmTimer (Some v) c).
Proof.
  intros [a [b1 b2] d e f g h i j k l o p q r] Hst. by split.
Qed.

Lemma session_sol_num st c v : session_at st c -> session_at st (set_sol_num v c).
Proof. intros [a [b1 b2] d e f g h i j k l o p q r]. by split. Qed.

Lemma session_deferred st c d : session_at st c -> request_ok (DeferredRequest.request d) ->
  (isOnline c = false -> DeferredRequest.IsSet d = false) -> session_at st (set_deferred d c).
Proof.
  intros [a [b1 b2] d' e f g h i j k l o p q r] Hd Ho. split; try done. intros Hoff. destruct (i Hoff) as (? & ? & _). split_and!; [done|done|by apply Ho].
Qed.

Lemma deferred_moved st c d : session_at st c -> moved [] c (set_deferred d c).
Proof.
  intros HS. destruct (se_queue _ _ HS) as (qs & Hq & _). apply (quiet_moved [] qs qs); try done. cbn [map]. by rewrite app_nil_r.
Qed.

Lemma defer_wp st r c :
  session_at st c -> isOnline c = true -> request_ok r ->
  wp (defer r) c (fun _ c' => session_at st c' /\ moved [] c c' /\ exists d, c' = set_deferred d c /\
    DeferredRequest.IsSet d = true /\ deferred_header d = req_header r /\ deferred_addresses d = req_addresses r).
Proof.
  intros HS Hon [Hb Hr]. unfold defer. rewrite wp_on. unfold wp, DeferredRequest.Set_.
  assert (Hc : exists dest objects, CopyTo (req_objects r) (mkWSlice (deferred_buffer (deferred c)) 0 (length (deferred_buffer (deferred c)))) = Some (dest, objects) /\ bytes_ok objects).
  { destruct (le_lt_dec (length (req_objects r)) (length (deferred_buffer (deferred c)))) as [Hle|Hlt].
    - destruct (CopyTo_spec (req_objects r) (mkWSlice (deferred_buffer (deferred c)) 0 (length (deferred_buffer (deferred c)))) ltac:(unfold WSlice.wf; cbn; lia) Hle) as (a & _ & ->).
      by eexists _, _.
    - rewrite CopyTo_too_small by done. eexists _, _. split; [done|]. constructor. }
  destruct Hc as (dest & objects & -> & Hob). cbn [mbind option_bind]. split_and!.
  - apply session_deferred; [done|by split|by rewrite Hon].
  - by eapply deferred_moved.
  - eexists. split; [reflexivity|]. done.
Qed.

(** A new request is answered, unless it is a read during an unsolicited confirmation. *)
Definition handled_new (r : ParsedRequest) c c' : Prop :=
  if decide (function (req_header r) = READ /\ state_ c = UnsolicitedConfirmWait) then
    outside c' = outside c /\ isTransmitting c' = isTransmitting c /\ DeferredRequest.IsSet (deferred c') = true /\
      deferred_header (deferred c') = req_header r /\ deferred_addresses (deferred c') = req_addresses r
  else answered r c c' /\ (deferred c' = deferred c \/ DeferredRequest.IsSet (deferred c') = false).

Lemma handled_new_deferred r c c' : handled_new r c c' -> deferred_after c c'.
Proof.
  unfold handled_new, deferred_after. destruct (decide _) as [[Hr _]|_].
  - intros (_ & _ & _ & -> & _). by right; right.
  - intros [_ [?|?]]; [by left|by right; left].
Qed.

Lemma handled_new_answered r c c0 c' :
  state_ c0 = state_ c -> (function (req_header r) <> READ \/ state_ c <> UnsolicitedConfirmWait) ->
  calls (outside c0) = calls (outside c) -> addresses c0 = addresses c -> answered r c0 c' ->
  (deferred c' = deferred c \/ DeferredRequest.IsSet (deferred c') = false) -> handled_new r c c'.
Proof.
  intros Hs Hno Hc Ha Han Hd. unfold handled_new. rewrite decide_False by (intros [??]; destruct Hno; done). split; [|done].
  destruct Han as (pre & m & ctrl & iin & data & A1 & A2). exists pre, m, ctrl, iin, data. by rewrite <- Hc, <- Ha.
Qed.

Lemma NewRequest_wp r c :
  session c -> isOnline c = true -> isTransmitting c = false -> request_ok r ->
  wp (ProcessNewRequest r) c (fun st c' => session_at st c' /\ moved [] c c' /\ handled_new r c c').
Proof.
  intros HS0 Hon Htx Hr. unfold ProcessNewRequest. rewrite wp_bind, wp_modify. set (c0 := set_sol_num _ c).
  assert (HS : session_at (state_ c) c0) by by apply session_sol_num.
  assert (HM0 : moved [] c c0).
  { destruct (se_queue _ _ HS0) as (qs & Hq & _). apply (quiet_moved [] qs qs); try done; [cbn [map]; by rewrite app_nil_r|]. intros Ht. congruence. }
  assert (Hcancel : session_at Idle (set_confirmTimer None c0)) by exact (session_cancel _ _ HS).
  assert (HMc : moved [] c (set_confirmTimer None c0)) by (destruct HM0; by split).
  destruct (decide (function (req_header r) = READ)) as [Hread|Hread].
  - unfold OnNewReadRequest. rewrite wp_bind, wp_get. change (state_ c0) with (state_ c). destruct (state_ c) eqn:Hst; cbn [dispatch].
    + unfold StateIdle.OnNewReadRequest. eapply wp_mono; [by apply RespondToReadRequest_wp|]. intros st c' (H1' & _ & H2' & H3' & H4').
      split_and!; [done|eapply moved_nil_r; [exact HM0|done]|]. apply (handled_new_answered r c c0); try done; [right; by rewrite Hst|by left].
    + unfold StateSolicitedConfirmWait.OnNewReadRequest. rewrite wp_bind. unfold Cancel. rewrite wp_modify.
      eapply wp_mono; [by apply RespondToReadRequest_wp|]. intros st c' (H1' & _ & H2' & H3' & H4').
      split_and!; [done|eapply moved_nil_r; [exact HMc|done]|]. apply (handled_new_answered r c (set_confirmTimer None c0)); try done; [right; by rewrite Hst|by left].
    + unfold StateUnsolicitedConfirmWait.OnNewReadRequest. rewrite wp_bind. eapply wp_mono; [by apply (defer_wp UnsolicitedConfirmWait r c0)|].
      intros [] c' (H1' & H2' & d & -> & D1 & D2 & D3). rewrite wp_ret. split_and!; [done|eapply moved_nil_r; [exact HM0|done]|].
      unfold handled_new. by rewrite decide_True.
  - unfold OnNewNonReadRequest. rewrite wp_bind, wp_get. change (state_ c0) with (state_ c). destruct (state_ c) eqn:Hst; cbn [dispatch].
    + unfold StateIdle.OnNewNonReadRequest. rewrite wp_bind. eapply wp_mono; [by apply (RespondToNonReadRequest_wp Idle)|].
      intros [] c' (H1' & H2' & H3' & H4'). rewrite wp_ret. split_and!; [done|eapply moved_nil_r; [exact HM0|done]|]. apply (handled_new_answered r c c0); try done; [by left|by left].
    + unfold StateSolicitedConfirmWait.OnNewNonReadRequest. rewrite wp_bind. unfold Cancel. rewrite wp_modify, wp_bind.
      eapply wp_mono; [by apply (RespondToNonReadRequest_wp Idle)|]. intros [] c' (H1' & H2' & H3' & H4'). rewrite wp_ret.
      split_and!; [done|eapply moved_nil_r; [exact HMc|done]|]. apply (handled_new_answered r c (set_confirmTimer None c0)); try done; [by left|by left].
    + unfold StateUnsolicitedConfirmWait.OnNewNonReadRequest. rewrite wp_bind, wp_modify, wp_bind. set (c1 := set_deferred _ c0).
      assert (HS1 : session_at UnsolicitedConfirmWait c1) by (apply session_deferred; [done|apply (se_deferred _ _ HS)|done]).
      eapply wp_mono; [by apply (RespondToNonReadRequest_wp UnsolicitedConfirmWait)|]. intros [] c' (H1' & H2' & H3' & H4'). rewrite wp_ret.
      split_and!; [done| |].
      * eapply moved_nil_r; [|exact H2']. eapply moved_nil_r; [exact HM0|]. by eapply deferred_moved.
      * apply (handled_new_answered r c c1); try done; [by left|]. right. by rewrite H4'.
Qed.

Definition is_repeat (r : ParsedRequest) c : bool :=
  hasLast (history c) && (sol_num (sol c) =? SEQ (control (req_header r))) &&
  RequestHistory.FullyEqualsLastRequest (history c) (req_header r) (req_objects r).

(** The last response was sent again, and nothing else happened. *)
Definition resent (r : ParsedRequest) c c' : Prop := exists o timer m,
  c' = set_outside o (set_isTransmitting true (set_confirmTimer timer c)) /\ last_sent RESPONSE (calls (outside c)) = Some m /\
  calls o = calls (outside c) ++ [BeginTransmit (mkAddresses (source (addresses c)) (source (req_addresses r))) m].

Definition reaction (r : ParsedRequest) c c' : Prop :=
  if decide (is_repeat r c = true /\ ~ (function (req_header r) = READ /\ state_ c = UnsolicitedConfirmWait)) then resent r c c'
  else handled_new r c c'.

Lemma reaction_deferred r c c' : reaction r c c' -> deferred_after c c'.
Proof.
  unfold reaction. destruct (decide _); [|apply handled_new_deferred]. intros (o & timer & m & -> & _). by left.
Qed.

Lemma resent_moved timer c c' o : c' = set_outside o (set_isTransmitting true (set_confirmTimer timer c)) ->
  moved [] (set_confirmTimer timer c) c' -> moved [] c c'.
Proof. intros -> []. by split. Qed.

Lemma repeat_function r c : is_repeat r c = true -> function (lastHeader (history c)) = function (req_header r).
Proof.
  unfold is_repeat, RequestHistory.FullyEqualsLastRequest, APDUHeader.Equals. intros Hr. apply andb_prop in Hr as [_ Hr].
  apply andb_prop in Hr as [Hr _]. apply andb_prop in Hr as [Hr _]. apply bool_decide_eq_true in Hr. congruence.
Qed.

Lemma repeat_wp st r c : session_at st c -> isOnline c = true -> isTransmitting c = false -> hasLast (history c) = true ->
  forall timer c0, c = set_confirmTimer timer c0 ->
  wp (_ ← repeat_response r; mret st) c (fun st' c' => st' = st /\ session_at st c' /\ moved [] c0 c' /\ (state_ c0 = st -> resent r c0 (set_state st c'))).
Proof.
  intros HS Hon Htx Hh timer c0 ->. rewrite wp_bind. eapply wp_mono; [by apply (repeat_response_wp st)|].
  intros [] c' (o & m & -> & Hm & Hc & HS' & HM). rewrite wp_ret. split_and!; [done|exact HS'|by eapply resent_moved|]. intros <-. exists o, timer, m. split_and!; [by destruct c0|done|done].
Qed.

Lemma OnReceiveSolRequest_wp r c :
  session c -> isOnline c = true -> isTransmitting c = false -> request_ok r ->
  wp (OnReceiveSolRequest r) c (fun st c' => session_at st c' /\ moved [] c c' /\ reaction r c (set_state st c')).
Proof.
  intros HS Hon Htx Hr. unfold OnReceiveSolRequest. rewrite wp_bind, wp_get, wp_bind, wp_get.
  assert (Hnew : is_repeat r c = false -> wp (ProcessNewRequest r) c (fun st c' => session_at st c' /\ moved [] c c' /\ reaction r c (set_state st c'))).
  { intros Hrep. eapply wp_mono; [by apply NewRequest_wp|]. intros st c' (H1' & H2' & H3'). split_and!; [done|done|].
    unfold reaction. rewrite Hrep, decide_False by (by intros [? _]). exact H3'. }
  pose proof (repeat_function r c) as Hfun. unfold is_repeat, RequestHistory.HasLastRequest in *.
  destruct (hasLast (history c)) eqn:Hh; [|by apply Hnew]. destruct (_ =? _) eqn:Hnum; [|by apply Hnew].
  destruct (RequestHistory.FullyEqualsLastRequest _ _ _) eqn:Hfe; [|by apply Hnew]. clear Hnew. specialize (Hfun eq_refl).
  assert (Hrep : is_repeat r c = true) by (unfold is_repeat; by rewrite Hh, Hnum, Hfe).
  assert (Hre : forall c', ~ (function (req_header r) = READ /\ state_ c = UnsolicitedConfirmWait) -> resent r c c' -> reaction r c c').
  { intros c' Hn' Hs. unfold reaction. by rewrite decide_True. }
  unfold session in HS. destruct (decide (function (req_header r) = READ)) as [Hread|Hread].
  - unfold OnRepeatReadRequest. rewrite wp_bind, wp_get. destruct (state_ c) eqn:Hst; cbn [dispatch].
    + eapply wp_mono; [apply (repeat_wp Idle r c HS Hon Htx Hh (confirmTimer c) c); by rewrite set_timer_same|].
      intros st c' (-> & ? & ? & Hx). split_and!; [done|done|]. apply Hre; [|by apply Hx]. by intros [_ ?].
    + unfold StateSolicitedConfirmWait.OnRepeatReadRequest. rewrite wp_bind. unfold RestartConfirmTimer. rewrite wp_modify.
      eapply wp_mono; [eapply (repeat_wp SolicitedConfirmWait r); [by apply (session_timer SolicitedConfirmWait)|done..]|].
      intros st c' (-> & ? & ? & Hx). split_and!; [done|done|]. apply Hre; [|by apply Hx]. by intros [_ ?].
    + unfold StateUnsolicitedConfirmWait.OnRepeatReadRequest. rewrite wp_bind. eapply wp_mono; [by apply (defer_wp UnsolicitedConfirmWait r c)|].
      intros [] c' (H1' & H2' & d & -> & D1 & D2 & D3). rewrite wp_ret. split_and!; [done|done|].
      unfold reaction, handled_new. rewrite decide_False by (intros [_ Hx]; by apply Hx). by rewrite decide_True.
  - unfold OnRepeatNonReadRequest. rewrite wp_bind, wp_get. destruct (state_ c) eqn:Hst; cbn [dispatch].
    + eapply wp_mono; [apply (repeat_wp Idle r c HS Hon Htx Hh (confirmTimer c) c); by rewrite set_timer_same|].
      intros st c' (-> & ? & ? & Hx). split_and!; [done|done|]. apply Hre; [|by apply Hx]. by intros [? _].
    + exfalso. apply Hread. rewrite <- Hfun. by apply (se_history _ _ HS).
    + eapply wp_mono; [apply (repeat_wp UnsolicitedConfirmWait r c HS Hon Htx Hh (confirmTimer c) c); by rewrite set_timer_same|].
      intros st c' (-> & ? & ? & Hx). split_and!; [done|done|]. apply Hre; [|by apply Hx]. by intros [? _].
Qed.

Lemma moved_set_state rm st c c' : moved rm c c' -> moved rm c (set_state st c').
Proof. intros []. by split. Qed.

Lemma ProcessRequest_wp r c :
  session c -> isOnline c = true -> isTransmitting c = false -> request_ok r ->
  wp (ProcessRequest r) c (fun _ c' => session c' /\ moved [] c c' /\ deferred_after c c' /\
    if UNS (control (req_header r)) then c' = c else reaction r c c').
Proof.
  intros HS Hon Htx Hr. unfold ProcessRequest. destruct (UNS _).
  - rewrite wp_ret. split_and!; [done|by eapply session_moved_refl|by left|done].
  - rewrite wp_bind. eapply wp_mono; [by apply OnReceiveSolRequest_wp|]. intros st c1 (H1' & H2' & H3'). rewrite wp_bind, wp_modify, wp_ret.
    split_and!; [by apply session_set_state|by apply moved_set_state|exact (reaction_deferred r c _ H3')|exact H3'].
Qed.

Lemma ProcessConfirm_wp r c :
  session c -> isOnline c = true -> isTransmitting c = false -> request_ok r ->
  wp (ProcessConfirm r) c (fun _ c' => session c' /\ deferred c' = deferred c /\ exists rm, moved rm c c' /\ confirmed c r rm).
Proof.
  intros HS Hon Htx Hr. unfold ProcessConfirm. rewrite wp_bind. eapply wp_mono; [by apply OnConfirm_wp|].
  intros st c1 (H1' & H2' & rm & H3' & H4'). rewrite wp_bind, wp_modify, wp_ret. split_and!; [by apply session_set_state|done|].
  exists rm. split; [by apply moved_set_state|done].
Qed.

(** *** Between two events *)

Lemma session_unset c p : session c -> (p = true \/ isOnline c = true) -> session (set_deferred (DeferredRequest.processed p (deferred c)) c).
Proof.
  intros HS Hp. apply session_deferred; [exact HS|apply (se_deferred _ _ HS)|]. intros Hoff. by destruct Hp as [->|Hon]; [|congruence].
Qed.

(** After the deferred request was looked at: a confirmation may have removed events,
    another request that could be processed got its reaction. *)
Record checked c c' : Prop := mkChecked {
  ck_session : session c';
  ck_settled : settled c';
  ck_moved : exists rm, moved rm c c' /\
    (rm = [] \/ CanTransmit c = true /\ DeferredRequest.IsSet (deferred c) = true /\ function (deferred_header (deferred c)) = CONFIRM /\
      confirmed c (DeferredRequest.request (deferred c)) rm);
  ck_reaction : CanTransmit c = true -> DeferredRequest.IsSet (deferred c) = true -> UNS (control (deferred_header (deferred c))) = false ->
    function (deferred_header (deferred c)) <> CONFIRM -> (function (deferred_header (deferred c)) = READ -> state_ c = Idle) ->
    exists d c1, c' = set_deferred d c1 /\ DeferredRequest.IsSet d = false /\ reaction (DeferredRequest.request (deferred c)) c c1;
  ck_waits : DeferredRequest.IsSet (deferred c) = true -> function (deferred_header (deferred c)) = READ -> state_ c <> Idle -> c' = c
}.

Lemma CanTransmit_true c : CanTransmit c = true -> isOnline c = true /\ isTransmitting c = false.
Proof. unfold CanTransmit. intros [? ?%negb_true_iff]%andb_prop. done. Qed.

Lemma checked_nothing c : session c -> CanTransmit c && DeferredRequest.IsSet (deferred c) = false -> checked c c.
Proof.
  intros HS Hno. split; [done| |exists []; split; [by eapply session_moved_refl|by left]| |].
  - intros Htx Hset. rewrite Hset, andb_true_r in Hno. unfold CanTransmit in Hno. rewrite Htx in Hno.
    destruct (isOnline c) eqn:Hon; [done|]. destruct (se_offline _ _ HS Hon) as (_ & _ & ?). congruence.
  - intros Hc Hset. by rewrite Hc, Hset in Hno.
  - done.
Qed.

(** A request that was processed is not deferred any more. *)
Lemma checked_done c c' :
  session c' -> (function (deferred_header (deferred c)) = READ -> state_ c = Idle) -> (exists rm, moved rm c c' /\
    (rm = [] \/ CanTransmit c = true /\ DeferredRequest.IsSet (deferred c) = true /\ function (deferred_header (deferred c)) = CONFIRM /\
      confirmed c (DeferredRequest.request (deferred c)) rm)) ->
  (UNS (control (deferred_header (deferred c))) = false -> function (deferred_header (deferred c)) <> CONFIRM ->
    reaction (DeferredRequest.request (deferred c)) c c') ->
  wp (modify (fun c => set_deferred (DeferredRequest.processed true (deferred c)) c)) c' (fun _ c' => checked c c').
Proof.
  intros HS Hidle (rm & HM & Hrm) Hre. rewrite wp_modify. split; [apply session_unset; [done|by left]|by intros _ ?| | |by intros _ Hr Hst; destruct Hst; apply Hidle].
  - exists rm. split; [|done]. eapply moved_nil_r; [exact HM|]. by eapply deferred_moved.
  - intros _ _ Hu Hf _. by eexists _, c'; split; [reflexivity|split; [done|apply Hre]].
Qed.

Lemma unprocessed c : DeferredRequest.IsSet (deferred c) = true -> set_deferred (DeferredRequest.processed false (deferred c)) c = c.
Proof. destruct c as [? ? ? ? ? ? ? ? ? ? df ? ? ? ? ? ?]. cbn. destruct df. cbn. by intros ->. Qed.

Lemma CheckForDeferredRequest_wp c : session c -> wp CheckForDeferredRequest c (fun _ c' => checked c c').
Proof.
  intros HS. unfold CheckForDeferredRequest. rewrite wp_bind, wp_get, wp_bind, wp_get.
  destruct (CanTransmit c && _) eqn:Hdo; [|by rewrite wp_ret; apply checked_nothing].
  apply andb_prop in Hdo as [Hcan Hset]. destruct (CanTransmit_true _ Hcan) as [Hon Htx].
  pose proof (se_deferred _ _ HS) as Hr. rewrite wp_bind. unfold ProcessDeferredRequest.
  change (req_header (DeferredRequest.request (deferred c))) with (deferred_header (deferred c)).
  assert (Hprocess : (function (deferred_header (deferred c)) = READ -> state_ c = Idle) -> wp (_ ← ProcessRequest (DeferredRequest.request (deferred c)); mret true) c (fun p c' =>
    wp (modify (fun c => set_deferred (DeferredRequest.processed p (deferred c)) c)) c' (fun _ c' => checked c c'))).
  { intros Hidle. rewrite wp_bind. eapply wp_mono; [by apply ProcessRequest_wp|]. intros b c1 (H1' & H2' & _ & H4'). rewrite wp_ret.
    apply checked_done; [done|done|exists []; split; [done|by left]|]. intros Hu _.
    change (req_header _) with (deferred_header (deferred c)) in H4'. by rewrite Hu in H4'. }
  destruct (decide (function (deferred_header (deferred c)) = CONFIRM)) as [Hconf|Hconf].
  - rewrite wp_bind. eapply wp_mono; [by apply ProcessConfirm_wp|]. intros b c1 (H1' & H2' & rm & H3' & H4'). rewrite wp_ret.
    apply checked_done; [done|congruence|exists rm; split; [done|by right]|done].
  - destruct (decide (function (deferred_header (deferred c)) = READ)) as [Hread|Hread]; [|by apply Hprocess].
    rewrite wp_bind, wp_get. destruct (decide (state_ c = Idle)) as [Hst|Hst]; [by apply Hprocess|]. rewrite wp_ret, wp_modify.
    split; [apply session_unset; [done|by right]|by intros _ _| |intros _ _ _ _ Hx; by destruct Hst; apply Hx|intros _ _ _; by apply unprocessed].
    exists []. split; [by eapply deferred_moved|by left].
Qed.

(** *** Unsolicited responses *)

(** An unsolicited response was sent, with the next sequence number. *)
Definition unsolicited_sent (data : bytes) c c' : Prop := exists m iin,
  message n UNSOLICITED_RESPONSE (mkAppControlField true true true true (unsol_num (unsol c))) iin data m /\ announces c' iin /\
  calls (outside c') = calls (outside c) ++ [BeginTransmit (addresses c) m] /\
  isTransmitting c' = true /\ state_ c' = UnsolicitedConfirmWait.

Lemma NullUnsolicited_fragment f hdr data seq iin :
  fragment n f hdr data -> exists f', NullUnsolicited f seq iin = Some f' /\
    fragment n f' [AppControlField.ToByte (mkAppControlField true true true true seq); FunctionCodeToType UNSOLICITED_RESPONSE; LSB iin; MSB iin] data.
Proof.
  intros Hf. unfold NullUnsolicited. destruct (fragment_SetControl _ _ _ _ (mkAppControlField true true true true seq) Hf) as (f1 & -> & Hf1).
  cbn [mbind option_bind]. destruct (fragment_SetFunction _ _ _ _ UNSOLICITED_RESPONSE Hf1) as (f2 & -> & Hf2). cbn [mbind option_bind].
  destruct (fragment_SetIIN _ _ _ _ iin Hf2) as (f3 & -> & Hf3). exists f3. split; [done|].
  destruct (header_bytes (<[0%nat:=AppControlField.ToByte (mkAppControlField true true true true seq)]> hdr) (FunctionCodeToType UNSOLICITED_RESPONSE)) as (b0 & b2 & b3 & Hh);
    [rewrite length_insert; exact (fr_header _ _ _ _ Hf)|].
  pose proof (fr_header _ _ _ _ Hf) as Hl. destruct hdr as [|x0 [|x1 [|x2 [|x3 [|]]]]]; try done.
Qed.

Lemma unsolicited_session c b o t v m iin data qs :
  session_at Idle c -> isOnline c = true -> isTransmitting c = false -> queue_is (set_eventBuffer b c) qs -> queue_is c qs -> Forall event_good qs ->
  message n UNSOLICITED_RESPONSE (mkAppControlField true true true true (unsol_num (unsol c))) iin data m ->
  calls o = calls (outside c) ++ [BeginTransmit (addresses c) m] -> tx_ok n t ->
  (completedNull (unsol c) = true -> exists (rs : list (Run M)), data = encode_all (flat_map run_requests rs) /\ Forall run_ok rs /\
    map payload (List.filter (in_state written_) qs) ⊆+ map payload (flat_map run_events rs)) ->
  let c' := set_outside o (set_isTransmitting true (set_unsol (mkOutstationUnsolState (completedNull (unsol c)) (AppSeqNum_Next (unsol_num (unsol c))) (unsol_num (unsol c)) t)
    (set_state UnsolicitedConfirmWait (set_confirmTimer (Some v) (set_eventBuffer b c))))) in
  session c' /\ moved [] c c'.
Proof.
  intros HS Hon Htx Hq Hq0 Hg Hm Hc Ht Hca c'. pose proof HS as [_ [b1 b2] d e f g h i j k l o' p q r'].
  assert (Hs : forall fc, last_sent fc (calls o) = if FunctionCodeToType UNSOLICITED_RESPONSE =? FunctionCodeToType fc then Some m else last_sent fc (calls (outside c))).
  { intros fc. rewrite Hc, last_sent_snoc, (message_sent _ _ _ _ _ _ fc _ Hm). by destruct (_ =? _). }
  pose proof (Hs RESPONSE) as Hr. cbn [FunctionCodeToType Z.eqb Pos.eqb] in Hr. split.
  - split; cbn [c' set_outside outside]; rewrite ?Hr; try done.
    + exists qs. split_and!; [exact Hq|done|]. intros _. exists m, (unsol_num (unsol c)). change (state_ c') with UnsolicitedConfirmWait. cbn [awaited clears]. change (outside c') with o. rewrite Hs. split; [done|].
      split; [by rewrite (message_seq _ _ _ _ _ _ Hm)|]. intros Hcl. destruct (Hca Hcl) as (rs & -> & Hrs & Hsub). exists rs, [].
      by rewrite (message_data _ _ _ _ _ _ Hm), app_nil_r.
    + apply AppSeqNum_range.
    + intros Ho. change (isOnline c = false) in Ho. congruence.
    + rewrite Hc. apply Forall_app_2; [done|]. constructor; [|done]. split; [done|]. eexists _, _, iin, data. split; [exact Hm|]. by right.
    + rewrite Hc. destruct p; [by left|]. right. by apply selected_in_app.
    + rewrite Hc. by apply operations_silent.
  - split; try done.
    + eexists. split; [exact Hc|]. by rewrite Htx.
    + apply same_params_refl.
    + intros Htt. congruence.
    + exists qs, qs. split_and!; [exact Hq0|exact Hq|]. cbn [map]. by rewrite app_nil_r.
    + by left.
Qed.

Lemma send_unsolicited_wp c qs f hdr data :
  session_at Idle c -> CanTransmit c = true -> queue_is c qs -> Forall event_good qs -> fragment n f hdr data ->
  (completedNull (unsol c) = true -> exists (rs : list (Run M)), data = encode_all (flat_map run_requests rs) /\ Forall run_ok rs /\
    map payload (List.filter (in_state written_) qs) ⊆+ map payload (flat_map run_events rs)) ->
  wp (send_unsolicited f) c (fun _ c' => session c' /\ moved [] c c' /\ deferred c' = deferred c /\ unsolicited_sent data c c').
Proof.
  intros HS Hcan Hq Hg Hf Hca. destruct (CanTransmit_true _ Hcan) as [Hon Htx]. unfold send_unsolicited. rewrite wp_bind, wp_get, wp_bind.
  eapply wp_mono; [by apply GetResponseIIN_wp|]. intros iin c1 (Hq1 & Hi & b & o & -> & Ho). rewrite wp_bind.
  set (num := unsol_num (unsol c)). destruct (NullUnsolicited_fragment f hdr data num iin Hf) as (f1 & Hnull & Hf1).
  eapply wp_lift_some; [exact Hnull|]. rewrite wp_bind. unfold RestartConfirmTimer. rewrite wp_modify, wp_bind, wp_modify, wp_bind, wp_modify, wp_bind.
  eapply (wp_lift_some _ (mkAppControlField true true true true num)); [eapply fragment_GetControl; [exact Hf1|done|exact (se_num _ _ HS)]|].
  unfold BeginUnsolTx. rewrite wp_bind, wp_modify, wp_bind, wp_modify, wp_bind, wp_get, wp_bind.
  pose proof (fragment_bytes _ _ _ _ Hf1) as Hv. eapply wp_lift_some; [exact Hv|]. rewrite wp_bind, wp_get. unfold BeginTx.
  rewrite wp_bind, wp_modify, wp_bind, wp_get. apply wp_on_outside, wp_tell. intros w.
  pose proof (fragment_message f1 UNSOLICITED_RESPONSE _ iin data Hf1 (se_num _ _ HS)) as Hm. set (m := _ ++ data) in *.
  cbn [set_outside set_isTransmitting set_unsol_nums set_unsol set_unsol_tx set_state set_confirmTimer set_eventBuffer outside addresses calls].
  replace (mkAddresses (source (addresses c)) (destination (addresses c))) with (addresses c) by by destruct (addresses c).
  cbn [outside set_outside] in Ho. change (unsol (set_outside o (set_eventBuffer b c))) with (unsol c).
  destruct (unsolicited_session c b (mkOutside w (calls o ++ [BeginTransmit (addresses c) m]))
    (mkTxBuffer (response_view f1) (mkAppControlField true true true true num) (apdu_array f1)) (unsolConfirmTimeout (params c)) m iin data qs HS Hon Htx Hq1 Hq Hg Hm) as [HS' HM'];
    [by cbn [calls]; rewrite Ho|exact (fr_length _ _ _ _ Hf1)|exact Hca|].
  split_and!; [exact HS'|exact HM'|done|]. exists m, iin. split_and!; [exact Hm| |cbn [set_outside outside calls]; by rewrite Ho|done|done].
  apply (announces_indicates c _ qs iin); [exact Hi|exact Hq1|done|done].
Qed.

(** What the check for unsolicited responses does: nothing, or a response is sent, the
    first one without events. *)
Definition unsolicited_checked c c' : Prop :=
  c' = c \/ CanTransmit c = true /\ state_ c = Idle /\ allowUnsolicited (params c) = true /\
    exists data, unsolicited_sent data c c' /\ (completedNull (unsol c) = false -> data = []).

Lemma SelectAllByClass_wp c qs mask :
  queue_is c qs ->
  wp (update_events (EventBuffer.SelectAllByClass mask)) c (fun _ c' => exists b qs', c' = set_eventBuffer b c /\ queue_is c' qs' /\ selects qs qs').
Proof.
  intros (o & Hm). unfold update_events, on_events. rewrite wp_on.
  destruct (step_refines (Wr := option (Writer * EventWriter)) caps (OpSelectAllByClass mask) _ _ None Hcaps I Hm) as (b & Hb & Hm'). cbn [step Spec.step fst snd] in *.
  unfold wp. destruct (EventBuffer.SelectAllByClass mask (eventBuffer c)) as [b'|]; [|done]. cbn [mbind option_bind] in *. injection Hb as ->.
  eexists b, _. split; [done|]. split; [by eexists|]. apply select_class_selects.
Qed.

Lemma CheckForUnsolicited_wp c :
  session c -> wp CheckForUnsolicited c (fun _ c' => session c' /\ moved [] c c' /\ deferred c' = deferred c /\ unsolicited_checked c c').
Proof.
  intros HS. unfold CheckForUnsolicited. rewrite wp_bind, wp_get, wp_bind, wp_get, wp_bind, wp_get.
  assert (Hnone : wp (mret tt) c (fun _ c' => session c' /\ moved [] c c' /\ deferred c' = deferred c /\ unsolicited_checked c c')).
  { rewrite wp_ret. split_and!; [done|by eapply session_moved_refl|done|by left]. }
  destruct (CanTransmit c) eqn:Hcan; [|done]. cbn [andb]. destruct (bool_decide (state_ c = Idle)) eqn:Hst; [|done].
  apply bool_decide_eq_true in Hst. destruct (allowUnsolicited (params c)) eqn:Hallow; [|done]. cbn [andb]. rewrite wp_bind, wp_get.
  unfold session in HS. rewrite Hst in HS. destruct (se_queue _ _ HS) as (qs & Hq & Hg & _).
  destruct (fragment_start n _ (se_unsol _ _ HS) Hn) as (f & Hstart & Hf).
  destruct (completedNull (unsol c)) eqn:Hnull.
  2:{ rewrite wp_bind, wp_get, wp_bind. eapply wp_lift_some; [exact Hstart|].
      eapply wp_mono; [eapply (send_unsolicited_wp c qs f _ [] HS Hcan Hq Hg Hf); by rewrite Hnull|].
      intros [] c' (H1' & H2' & H3' & H4'). split_and!; [done|done|done|]. right. split_and!; [done|done|done|]. by exists []. }
  rewrite wp_bind, wp_get, wp_bind, wp_get. destruct (ClassField.Intersects _ _); [|done].
  rewrite wp_bind, wp_get, wp_bind. eapply wp_lift_some; [exact Hstart|]. rewrite wp_bind.
  eapply wp_mono; [by apply (Unselect_wp caps c qs)|]. intros [] c1 (b1 & -> & Hq1). rewrite wp_bind.
  eapply wp_mono; [by apply (SelectAllByClass_wp _ (unselect qs))|]. intros [] c2 (b2 & qs2 & -> & Hq2 & Hsel).
  pose proof (selects_good _ _ Hsel (unselect_good _ Hg)) as Hg2. destruct Hq2 as (o & Hm2).
  destruct (fragment_writer _ _ _ _ Hf Hmax) as (Hwf & Hpos & _). rewrite wp_bind. unfold on_events. rewrite wp_on.
  destruct (event_good_ok _ Hg2) as [Hok _].
  destruct (EventBuffer_Load_spec caps _ _ (GetWriter f) Hcaps Hm2 Hwf ltac:(rewrite Hpos; cbn; lia) Hok) as (w1 & b' & qs' & rs & HL & HM & HP & _ & HW & HR).
  cbn [qb_events qb_overflow] in *. unfold wp at 1. rewrite HL. cbn [mbind option_bind].
  pose proof (fragment_written _ _ _ _ _ _ Hf HP) as Hf1. cbn [app] in Hf1.
  set (c3 := set_eventBuffer b' _). assert (Hq3 : queue_is c3 qs') by by exists o.
  pose proof (written_from_good _ _ _ HW Hg2) as Hg3.
  assert (Hpay : map payload qs' = map payload qs) by by rewrite (written_from_payload _ _ _ HW), (selects_payload _ _ Hsel), unselect_payload.
  change c3 with (set_eventBuffer b' c) in *. clear c3. set (c3 := set_eventBuffer b' c) in *.
  assert (HS3 : session_at Idle c3) by (apply (session_events _ _ _ qs'); [done|exact Hq3|done|by intros []]).
  eapply wp_mono; [eapply (send_unsolicited_wp c3 qs' _ _ _ HS3 Hcan Hq3 Hg3 Hf1)|].
  { intros _. exists rs. split_and!; [done|done|]. rewrite (wf_written _ _ _ HW), (selects_written _ _ Hsel), unselect_none. cbn [app]. by rewrite map_map. }
  intros [] c' (H1' & H2' & H3' & H4'). split_and!; [done| |done|].
  - eapply moved_nil_r; [|exact H2']. apply (quiet_moved [] qs qs'); try done. cbn [map]. by rewrite app_nil_r, Hpay.
  - right. split_and!; [done|done|done|]. eexists. split; [exact H4'|]. congruence.
Qed.

End Session.
