(* ===== verification/OutstationEvents.v ===== *)
(** * OutstationEvents: the events that reach an outstation's session

    What each event from outside does to a session that is in order. *)

From S2P Require Import Prelude Slices Serialization Crc LinkFrame AppHeader Objects ObjectParser HeaderWriter HeaderRoundtrip EventList EventBuffer EventSpec EventProps EventWriters EventResponse OutstationState RequestHandlers RequestSpecs Outstation OutstationSpecs OutstationSession.
From Stdlib Require Import ZifyNat.

Open Scope Z_scope.

(** ** Events *)

(** What reaches a session: the lower layer, the confirm timer, and changes of its data
    by the application, which then calls [CheckForTaskStart]. *)
Inductive SessionEvent (M D : Type) :=
  | EvLowerLayerUp
  | EvLowerLayerDown
  | EvTxReady
  | EvReceive (addresses : Addresses) (payload : RSlice)
  | EvTimer
  | EvTaskStart
  | EvUpdate (t : EventType) (e : Event M)
  | EvDatabase (d : D)
  | EvSetRestartIIN.

Arguments EvLowerLayerUp {M D}.

Arguments EvLowerLayerDown {M D}.

Arguments EvTxReady {M D}.

Arguments EvReceive {M D}.

Arguments EvTimer {M D}.

Arguments EvTaskStart {M D}.

Arguments EvUpdate {M D}.

Arguments EvDatabase {M D}.

Arguments EvSetRestartIIN {M D}.

Section Events.
Context {M D W : Type} `{MeasurementOk M} `{StaticDatabaseOk D} `{Environment W}.

#[local] Abbreviation OM := (SM (OContext M D W)).

(** The timer calls back only while it is pending. *)
Definition handle (e : SessionEvent M D) : OM unit :=
  match e with
  | EvLowerLayerUp => _ ← OnLowerLayerUp; mret tt
  | EvLowerLayerDown => _ ← OnLowerLayerDown; mret tt
  | EvTxReady => _ ← OnTxReady; mret tt
  | EvReceive addresses_ payload => _ ← OnReceive addresses_ payload; mret tt
  | EvTimer => timer ← get confirmTimer; match timer with Some _ => OnTimer | None => mret tt end
  | EvTaskStart => CheckForTaskStart
  | EvUpdate t e => update_events (EventBuffer.UpdateAny t e)
  | EvDatabase d => modify (set_database d)
  | EvSetRestartIIN => SetRestartIIN
  end.

Fixpoint run_session (es : list (SessionEvent M D)) (c : OContext M D W) : option (OContext M D W) :=
  match es with
  | [] => Some c
  | e :: es => '(c, _) ← handle e c; run_session es c
  end.

(** Bytes are bytes; the application reports measurements that fit their types and keeps
    its database in order. *)
Definition session_event_ok (e : SessionEvent M D) : Prop :=
  match e with
  | EvReceive _ payload => bytes_ok payload
  | EvUpdate t e => event_good (Queue.of_event t e)
  | EvDatabase d => database_ok d
  | _ => True
  end.

(** A configuration within the limits of the fields. *)
Record setup_ok (config : EventBufferConfig) (params : OutstationParams) (d : D) : Prop := mkSetupOk {
  su_config : config_ok config;
  su_controls : 0 <= maxControlsPerRequest params < 256;
  su_fragment : (4 <= maxTxFragSize params)%nat /\ Z.of_nat (maxTxFragSize params) <= 65535;
  su_database : database_ok d
}.

End Events.

(** ** One event *)

Section Steps.
Context {M D W : Type} `{MeasurementOk M} `{StaticDatabaseOk D} `{Environment W}.
Context (caps : EventType -> nat) (Hcaps : caps_ok caps).
Context (n : nat) (Hn : (4 <= n)%nat) (Hmax : Z.of_nat n <= 65535).
Import Queue.
Implicit Types (c : OContext M D W) (qs : list (Queued M)).

#[local] Abbreviation queue_is := (queue_is caps).

#[local] Abbreviation session := (session caps n).

#[local] Abbreviation session_at := (session_at caps n).

#[local] Abbreviation moved := (moved caps).

#[local] Abbreviation checked := (checked caps n).

#[local] Abbreviation reaction := (reaction caps n).

#[local] Abbreviation unsolicited_checked := (unsolicited_checked caps n).

(** A confirmation that was deferred during a transmission and removes events. *)
Definition confirmed_late c (rm : list (Queued M)) : Prop :=
  CanTransmit c = true /\ DeferredRequest.IsSet (deferred c) = true /\ function (deferred_header (deferred c)) = CONFIRM /\
  confirmed c (DeferredRequest.request (deferred c)) rm.

(** The check for work: the deferred request, then unsolicited responses. *)
Definition task_started c c' : Prop := exists c1, checked c c1 /\ unsolicited_checked c1 c' /\ deferred c' = deferred c1 /\
  session c' /\ settled c' /\ exists rm, moved rm c c' /\ (rm = [] \/ confirmed_late c rm).

Lemma CheckForTaskStart_wp c : session c -> wp CheckForTaskStart c (fun _ c' => task_started c c').
Proof.
  intros HS. unfold CheckForTaskStart. rewrite wp_bind. eapply wp_mono; [by apply (CheckForDeferredRequest_wp caps Hcaps n Hn Hmax)|].
  intros [] c1 HC. eapply wp_mono; [apply (CheckForUnsolicited_wp caps Hcaps n Hn Hmax); apply HC|]. intros [] c' (H1' & H2' & H3' & H4').
  exists c1. split_and!; [done|done|done|done| |].
  - destruct H4' as [->|(_ & _ & _ & data & (m & iin & _ & _ & _ & Htx & _) & _)]; [apply HC|]. intros Hx. congruence.
  - destruct HC as [_ _ (rm & HM & Hrm) _]. exists rm. split; [by eapply moved_nil_r|exact Hrm].
Qed.

(** A session whose deferred request is settled has no confirmation to process. *)
Lemma settled_nothing_late c rm : settled c -> confirmed_late c rm -> False.
Proof.
  intros Hs (Hcan & Hset & Hf & _). destruct (CanTransmit_true _ Hcan) as [_ Htx]. destruct (Hs Htx Hset) as [Hr _]. congruence.
Qed.

(** *** A message *)

Lemma session_nonread fc objects st c c' new :
  session_at st c -> nonread fc objects c c' new -> session_at st c' /\ moved [] c c' /\ deferred c' = deferred c.
Proof.
  intros HS HN. pose proof (nonread_working n Hn _ _ _ _ _ (session_working _ _ _ _ HS) HN) as [W0 W1 W2 W3 W4 W5 W6 W7].
  pose proof (nr_frame _ _ _ _ _ HN) as [F1 F2 F3 F4 F5 F6 F7 F8 F9 F10].
  assert (Hl : forall fc', last_sent fc' (calls (outside c')) = last_sent fc' (calls (outside c))).
  { intros fc'. rewrite (nr_calls _ _ _ _ _ HN). apply last_sent_silent, HN. }
  destruct (se_queue _ _ _ _ HS) as (qs & Hq & Hg & Ha). assert (Hq' : queue_is c' qs) by (apply (queue_same _ c); [exact Hq|apply HN]).
  destruct HS as [_ _ S1 S2 S3 S4 S5 S6 S7 S8 S9 S10 S11 S12 S13]. split_and!; [|split|exact F6].
  - split; rewrite ?F9, ?F4, ?F5, ?Hl; try done.
    + exists qs. split_and!; [done|done|]. intros Hi. destruct (Ha Hi) as (m & seq & A1 & A2). exists m, seq.
      unfold awaited, clears in *. rewrite !Hl, F9, F7. done.
    + by rewrite F2, F3, F6.
  - exists new. rewrite (nr_calls _ _ _ _ _ HN), transmissions_silent, F3 by apply HN. done.
  - done.
  - done.
  - done.
  - done.
  - exists qs, qs. split_and!; [done|done|]. cbn [map]. by rewrite app_nil_r.
  - by eapply nonread_restart.
Qed.

(** What a request does when it is taken up. *)
Record taken (r : ParsedRequest) c c' : Prop := mkTaken {
  tk_session : session c';
  tk_moved : exists rm, moved rm c c' /\ (rm = [] \/ isTransmitting c = false /\ function (req_header r) = CONFIRM /\ confirmed c r rm);
  tk_deferred : isTransmitting c = false -> deferred_after c c';
  tk_reaction : isTransmitting c = false -> IsNoAckFuncCode (function (req_header r)) = false -> function (req_header r) <> CONFIRM ->
    UNS (control (req_header r)) = false -> reaction r c c'
}.

Lemma ProcessObjects_wp r c :
  session c -> isOnline c = true -> request_ok r -> wp (ProcessObjects r) c (fun _ c' => taken r c c').
Proof.
  intros HS Hon Hr. unfold ProcessObjects. destruct (IsNoAckFuncCode (function (req_header r))) eqn:Hna.
  { unfold ProcessRequestNoAck. assert (Hskip : wp (mret false) c (fun _ c' => taken r c c')).
    { rewrite wp_ret. split; [done|exists []; split; [by eapply session_moved_refl|by left]|by left|congruence]. }
    destruct (function (req_header r)) eqn:Hf; try done. rewrite wp_bind. destruct Hr as [Hb Hseq].
    eapply wp_mono; [by apply (HandleDirectOperate_wp DIRECT_OPERATE_NR (req_objects r) DirectOperateNoAck None); [apply (se_parts _ _ _ _ HS)|..]|].
    intros [w iin] c' (new & HN & _). rewrite wp_ret. destruct (session_nonread _ _ _ _ _ _ HS HN) as (H1' & H2' & H3').
    pose proof (fm_state _ _ (nr_frame _ _ _ _ _ HN)) as Hst. split; [by unfold OutstationSession.session; rewrite Hst|exists []; split; [done|by left]|by left|congruence]. }
  rewrite wp_bind, wp_get. destruct (isTransmitting c) eqn:Htx.
  { rewrite wp_bind. eapply wp_mono; [by apply (defer_wp caps n Hn (state_ c) r c)|]. intros [] c' (H1' & H2' & d & -> & _). rewrite wp_ret.
    split; [done|exists []; split; [done|by left]|congruence..]. }
  destruct (decide (function (req_header r) = CONFIRM)) as [Hf|Hf].
  - eapply wp_mono; [by apply (ProcessConfirm_wp caps Hcaps n Hn Hmax)|]. intros b c' (H1' & H2' & rm & H3' & H4').
    split; [done|exists rm; split; [done|by right]|by left|done].
  - eapply wp_mono; [by apply (ProcessRequest_wp caps Hcaps n Hn Hmax)|]. intros b c' (H1' & H2' & H3' & H4').
    split; [done|exists []; split; [done|by left]|done|]. intros _ _ _ Hu. by rewrite Hu in H4'.
Qed.

(** A message that gets past the checks of [ProcessMessage]. *)
Record accepted c (a : Addresses) (payload : RSlice) (r : ParsedRequest) : Prop := mkAccepted {
  ac_addresses : req_addresses r = a;
  ac_destination : destination a = source (addresses c);
  ac_source : respondToAnyMaster (params c) = true \/ source a = destination (addresses c);
  ac_parsed : ParseRequest payload = Some (req_header r, req_objects r);
  ac_single : AppControlField.IsFirAndFin (control (req_header r)) = true;
  ac_unconfirmed : CON (control (req_header r)) = false
}.

Lemma SEQ_of_byte b : 0 <= SEQ (AppControlField.of_byte b) < 16.
Proof. clear Hn Hmax. unfold AppControlField.of_byte. cbn [SEQ]. change AppControlField.SEQ_MASK with (Z.ones 4). rewrite Z.land_ones by lia. apply Z.mod_pos_bound. lia. Qed.

Lemma accepted_request_ok c a payload r : accepted c a payload r -> bytes_ok payload -> request_ok r.
Proof.
  intros [_ _ _ Hp _ _] Hb. unfold ParseRequest in Hp. destruct (_ <? _)%nat; [done|]. injection Hp as Hh Ho. split.
  - rewrite <- Ho, Skip_drop. by apply Forall_drop.
  - rewrite <- Hh. cbn [control]. apply SEQ_of_byte.
Qed.

Lemma ProcessMessage_wp a payload c :
  session c -> isOnline c = true -> bytes_ok payload ->
  wp (ProcessMessage a payload) c (fun _ c' => (exists r, accepted c a payload r /\ taken r c c') \/ c' = c /\ forall r, ~ accepted c a payload r).
Proof.
  intros HS Hon Hb. unfold ProcessMessage. rewrite wp_bind, wp_get.
  assert (Hno : (forall r, ~ accepted c a payload r) ->
    wp (mret false) c (fun _ c' => (exists r, accepted c a payload r /\ taken r c c') \/ c' = c /\ forall r, ~ accepted c a payload r)).
  { intros Hx. rewrite wp_ret. by right. }
  destruct (Z.eqb_spec (destination a) (source (addresses c))) as [Hd|Hd]; cbn [negb].
  2:{ apply Hno. by intros r [_ Hx _ _ _ _]. }
  rewrite wp_bind, wp_get.
  destruct (negb (respondToAnyMaster (params c)) && negb (source a =? destination (addresses c))) eqn:Hs.
  { apply andb_prop in Hs as [Hs1%negb_true_iff Hs2%negb_true_iff%Z.eqb_neq]. apply Hno. intros r [_ _ [Hx|Hx] _ _ _]; congruence. }
  assert (Hsrc : respondToAnyMaster (params c) = true \/ source a = destination (addresses c)).
  { destruct (respondToAnyMaster (params c)); [by left|]. right. by apply negb_false_iff, Z.eqb_eq in Hs. }
  destruct (ParseRequest payload) as [[header objects]|] eqn:Hp; [|apply Hno; intros r [_ _ _ Hx _ _]; congruence].
  destruct (AppControlField.IsFirAndFin (control header)) eqn:Hff; cbn [negb].
  2:{ apply Hno. intros r [_ _ _ Hx Hy _]. rewrite Hp in Hx. injection Hx as -> _. congruence. }
  destruct (CON (control header)) eqn:Hcon.
  { apply Hno. intros r [_ _ _ Hx _ Hy]. rewrite Hp in Hx. injection Hx as -> _. congruence. }
  assert (Hacc : accepted c a payload (mkParsedRequest a header objects)) by done.
  eapply wp_mono; [apply ProcessObjects_wp; [done|done|by apply (accepted_request_ok c a payload)]|].
  intros b c' Ht. left. by eexists.
Qed.

(** *** The other events *)

(** A message was taken up and then the session looked for work. *)
Definition received a payload c c' : Prop :=
  exists c1, ((exists r, accepted c a payload r /\ taken r c c1) \/ c1 = c /\ forall r, ~ accepted c a payload r) /\ task_started c1 c'.

Lemma OnReceive_wp a payload c :
  session c -> bytes_ok payload ->
  wp (OnReceive a payload) c (fun _ c' => if isOnline c then received a payload c c' else c' = c).
Proof.
  intros HS Hb. unfold OnReceive. rewrite wp_bind, wp_get. destruct (isOnline c) eqn:Hon; cbn [negb]; [|by rewrite wp_ret].
  rewrite wp_bind. eapply wp_mono; [by apply ProcessMessage_wp|]. intros b c1 Hm. rewrite wp_bind.
  eapply wp_mono; [apply CheckForTaskStart_wp|].
  - destruct Hm as [(r & _ & [? _ _ _])|[-> _]]; done.
  - intros [] c' Ht. rewrite wp_ret. by exists c1.
Qed.

Lemma session_up c : session c -> isOnline c = false -> session (set_isOnline true c) /\ settled (set_isOnline true c).
Proof.
  intros [a [b1 b2] d e f g h i j k l o p q r] Hoff. destruct (i Hoff) as (Htx & Hst & Hset). split.
  - by split.
  - intros _ Hx. change (DeferredRequest.IsSet (deferred c) = true) in Hx. congruence.
Qed.

Lemma OnLowerLayerUp_wp c :
  session c -> wp OnLowerLayerUp c (fun _ c' => if isOnline c then c' = c else task_started (set_isOnline true c) c').
Proof.
  intros HS. unfold OnLowerLayerUp. rewrite wp_bind, wp_get. destruct (isOnline c) eqn:Hon; [by rewrite wp_ret|].
  rewrite wp_bind, wp_modify, wp_bind. destruct (session_up c HS Hon) as [HS' _].
  eapply wp_mono; [by apply CheckForTaskStart_wp|]. intros [] c' Ht. by rewrite wp_ret.
Qed.

Lemma session_ready c : session c -> session (set_isTransmitting false c).
Proof. intros [a [b1 b2] d e f g h i j k l o p q r]. split; try done. intros Ho. destruct (i Ho) as (_ & ? & ?). done. Qed.

Lemma OnTxReady_wp c :
  session c -> wp OnTxReady c (fun _ c' => if isOnline c && isTransmitting c then task_started (set_isTransmitting false c) c' else c' = c).
Proof.
  intros HS. unfold OnTxReady. rewrite wp_bind, wp_get, wp_bind, wp_get. destruct (isOnline c), (isTransmitting c); cbn [negb orb andb]; try by rewrite wp_ret.
  rewrite wp_bind, wp_modify, wp_bind. eapply wp_mono; [by apply CheckForTaskStart_wp, session_ready|]. intros [] c' Ht. by rewrite wp_ret.
Qed.

(** The session starts again; the events stay, selected by nobody. *)
Record went_down c c' : Prop := mkWentDown {
  wd_session : session c';
  wd_offline : isOnline c' = false;
  wd_outside : outside c' = outside c;
  wd_events : exists qs, queue_is c qs /\ queue_is c' (unselect qs)
}.

(** The session when the lower layer is down, with the events of [b]. *)
Definition downed (b : EventBuffer M) c : OContext M D W :=
  mkOContext (addresses c) (params c) b (database c) 0 false false (staticIIN c) None (RequestHistory.Reset (history c))
    (DeferredRequest.Reset (deferred c)) (control_ c) (time_ c) (OutstationSolState.Reset (sol c)) (OutstationUnsolState.Reset (unsol c)) Idle (outside c).

Lemma session_downed b c qs : session c -> queue_is (set_eventBuffer b c) qs -> Forall event_good qs -> session (downed b c).
Proof.
  intros [_ [b1 b2] d e f g h i j k l o p q r] Hq Hg. split; try done. exists qs. split_and!; [exact Hq|exact Hg|by intros []].
Qed.

Lemma OnLowerLayerDown_wp c :
  session c -> wp OnLowerLayerDown c (fun _ c' => if isOnline c then went_down c c' else c' = c).
Proof.
  intros HS. unfold OnLowerLayerDown. rewrite wp_bind, wp_get. destruct (isOnline c) eqn:Hon; cbn [negb]; [|by rewrite wp_ret].
  destruct (se_queue _ _ _ _ HS) as (qs & Hq & Hg & _).
  assert (Hdown : forall b, queue_is (set_eventBuffer b c) (unselect qs) -> went_down c (downed b c)).
  { intros b Hb. split; [|done|done|by exists qs]. eapply session_downed; [exact HS|exact Hb|by apply unselect_good]. }
  do 7 rewrite wp_bind, wp_modify. rewrite wp_bind. eapply wp_mono; [apply (Unselect_wp caps _ qs); exact Hq|]. intros [] c1 (b & -> & Hq1).
  rewrite wp_bind. unfold ResponseContext.Reset, Cancel. rewrite wp_modify, wp_bind, wp_modify, wp_ret. specialize (Hdown b).
  destruct c. by apply Hdown.
Qed.

(** The confirmation did not come: the session is idle and looks for work. *)
Definition timed_out c c' : Prop := exists c1, session c1 /\ state_ c1 = Idle /\ moved [] c c1 /\ deferred c1 = deferred c /\ isTransmitting c1 = isTransmitting c /\ task_started c1 c'.

Lemma OnTimer_wp c : session c -> wp OnTimer c (fun _ c' => timed_out c c').
Proof.
  intros HS. unfold OnTimer. rewrite wp_bind. unfold Cancel. rewrite wp_modify, wp_bind. pose proof (session_cancel _ _ _ _ HS) as HS0.
  eapply wp_mono; [by apply (OnConfirmTimeout_wp caps n)|]. intros st c1 (H1' & H2' & H3' & H4' & ->). rewrite wp_bind, wp_modify.
  pose proof (session_set_state _ _ _ _ H1') as HS1. eapply wp_mono; [by apply CheckForTaskStart_wp|]. intros [] c' Ht. exists (set_state Idle c1).
  split_and!; [done|done| |done|done|done]. destruct H2'. by split.
Qed.

Lemma update_good cap t (e : Event M) qs : event_good (of_event t e) -> Forall event_good qs -> Forall event_good (update cap t e qs).1.
Proof.
  intros He Hg. unfold update. destruct (_ =? _); [done|]. assert (Hr : Forall event_good (remove_first (is_type t) qs)).
  { induction Hg as [|q qs Hq Hg IH]; [constructor|]. cbn [remove_first]. destruct (is_type t q); [done|by constructor]. }
  destruct (_ =? _); cbn [fst]; (apply Forall_app_2; [done|by constructor]).
Qed.

Lemma remove_first_sub P qs : List.filter (in_state written_) (remove_first P qs) ⊆+ List.filter (in_state written_) qs.
Proof.
  induction qs as [|q qs IH]; [done|]. cbn [remove_first]. destruct (P q); cbn [List.filter]; destruct (in_state written_ q); try done.
  - by apply submseteq_cons.
  - by apply submseteq_skip.
Qed.

(** A new event is not written, and only events leave. *)
Lemma update_written cap t (e : Event M) qs :
  List.filter (in_state written_) (update cap t e qs).1 ⊆+ List.filter (in_state written_) qs.
Proof.
  unfold update. destruct (_ =? _); [done|]. destruct (_ =? _); cbn [fst]; rewrite List.filter_app; cbn [List.filter of_event in_state q_state];
    rewrite app_nil_r; [apply remove_first_sub|done].
Qed.

Lemma carries_sub m (ws ws' : list (Queued M)) : ws' ⊆+ ws -> carries m ws -> carries m ws'.
Proof.
  intros Hs (rs & data & H1' & H2' & H3'). exists rs, data. split_and!; [done|done|]. etransitivity; [|exact H3']. by apply (fmap_submseteq payload).
Qed.

(** A new event: the queue is that of the event buffer's contract. *)
Definition updated t (e : Event M) c c' : Prop := exists b qs, c' = set_eventBuffer b c /\ queue_is c qs /\
  queue_is c' (update (Z.of_nat (caps t)) t e qs).1 /\ session c'.

Lemma UpdateAny_wp t (e : Event M) c :
  session c -> event_good (of_event t e) -> wp (update_events (EventBuffer.UpdateAny t e)) c (fun _ c' => updated t e c c').
Proof.
  intros HS He. destruct (se_queue _ _ _ _ HS) as (qs & Hq & Hg & Ha). pose proof Hq as (o & Hm).
  unfold update_events, on_events. rewrite wp_on.
  destruct (step_refines (Wr := option (Writer * EventWriter)) caps (OpUpdate t e) _ _ None Hcaps I Hm) as (b & Hb & Hm'). cbn [step Spec.step fst snd qb_events] in *.
  unfold wp. destruct (EventBuffer.UpdateAny t e (eventBuffer c)) as [b'|]; [|done]. cbn [mbind option_bind] in *. injection Hb as -> _.
  pose proof (update_good (Z.of_nat (caps t)) t e qs He Hg) as Hg'. pose proof (update_written (Z.of_nat (caps t)) t e qs) as Hw'.
  destruct (update (Z.of_nat (caps t)) t e qs) as [qs' over] eqn:Hu. cbn [fst] in *.
  assert (Hq' : queue_is (set_eventBuffer b c) qs') by (eexists; exact Hm').
  exists b, qs. rewrite Hu. split_and!; [done|done|exact Hq'|]. apply (session_events _ _ _ _ _ qs'); [done|exact Hq'|done|].
  intros Hi. destruct (Ha Hi) as (m & seq & A1 & A2 & A3). exists m, seq. split_and!; [done|done|]. intros Hcl. by apply (carries_sub _ _ _ Hw'), A3.
Qed.

Lemma session_database c d : session c -> database_ok d -> session (set_database d c).
Proof. intros [a [b1 b2] d' e f g h i j k l o p q r] Hd. by split. Qed.

Lemma SetRestartIIN_static iin : static_ok iin -> static_ok (IINField.SetBit iin DEVICE_RESTART).
Proof. intros [-> | ->]; right; vm_compute; reflexivity. Qed.

Lemma session_restart c : session c -> session (set_staticIIN (IINField.SetBit (staticIIN c) DEVICE_RESTART) c).
Proof. intros [a [b1 b2] d' e f g h i j k l o p q r]. split; try done. by apply SetRestartIIN_static. Qed.

(** *** What an event does *)

Definition happened (e : SessionEvent M D) c c' : Prop :=
  match e with
  | EvLowerLayerUp => if isOnline c then c' = c else task_started (set_isOnline true c) c'
  | EvLowerLayerDown => if isOnline c then went_down c c' else c' = c
  | EvTxReady => if isOnline c && isTransmitting c then task_started (set_isTransmitting false c) c' else c' = c
  | EvReceive a payload => if isOnline c then received a payload c c' else c' = c
  | EvTimer => match confirmTimer c with Some _ => timed_out c c' | None => c' = c end
  | EvTaskStart => task_started c c'
  | EvUpdate t e => updated t e c c'
  | EvDatabase d => c' = set_database d c
  | EvSetRestartIIN => c' = set_staticIIN (IINField.SetBit (staticIIN c) DEVICE_RESTART) c
  end.

Lemma handle_wp e c : session c -> session_event_ok e -> wp (handle e) c (fun _ c' => happened e c c').
Proof.
  intros HS He. destruct e; cbn [handle happened session_event_ok] in *.
  - rewrite wp_bind. eapply wp_mono; [by apply OnLowerLayerUp_wp|]. intros b c' Hc. by rewrite wp_ret.
  - rewrite wp_bind. eapply wp_mono; [by apply OnLowerLayerDown_wp|]. intros b c' Hc. by rewrite wp_ret.
  - rewrite wp_bind. eapply wp_mono; [by apply OnTxReady_wp|]. intros b c' Hc. by rewrite wp_ret.
  - rewrite wp_bind. eapply wp_mono; [by apply OnReceive_wp|]. intros b c' Hc. by rewrite wp_ret.
  - rewrite wp_bind, wp_get. destruct (confirmTimer c); [by apply OnTimer_wp|by rewrite wp_ret].
  - by apply CheckForTaskStart_wp.
  - by apply UpdateAny_wp.
  - by rewrite wp_modify.
  - unfold SetRestartIIN. by rewrite wp_modify.
Qed.

Lemma task_session c c' : task_started c c' -> session c' /\ settled c'.
Proof. by intros (c1 & _ & _ & _ & ? & ? & _). Qed.

Lemma happened_session e c c' : session c -> settled c -> session_event_ok e -> happened e c c' -> session c' /\ settled c'.
Proof.
  intros HS Hs He Hh. destruct e; cbn [happened session_event_ok] in *.
  - destruct (isOnline c); [by subst|by eapply task_session].
  - destruct (isOnline c); [|by subst]. destruct Hh as [HS' Hoff _ _]. split; [done|]. intros _ Hset. destruct (se_offline _ _ _ _ HS' Hoff) as (_ & _ & ?). congruence.
  - destruct (_ && _); [by eapply task_session|by subst].
  - destruct (isOnline c); [|by subst]. destruct Hh as (c1 & _ & Ht). by eapply task_session.
  - destruct (confirmTimer c); [|by subst]. destruct Hh as (c1 & _ & _ & _ & _ & _ & Ht). by eapply task_session.
  - by eapply task_session.
  - by destruct Hh as (b & qs & -> & _ & _ & HS').
  - subst c'. split; [by apply session_database|exact Hs].
  - subst c'. split; [by apply session_restart|exact Hs].
Qed.

End Steps.
