(* ===== verification/OutstationSelect.v ===== *)
(** * OutstationSelect: what becomes of a SELECT and of the OPERATE after it

    A second pass over the outstation's session.  Everything in an event but the
    handling of one request leaves the stored selection alone and operates nothing;
    the request that an event takes up stores a selection only as a SELECT and operates
    only as an OPERATE that the stored selection validates. *)

From S2P Require Import Prelude Slices Serialization Crc LinkFrame AppHeader Objects ObjectParser HeaderWriter HeaderRoundtrip EventList EventBuffer EventSpec EventProps EventWriters EventResponse OutstationState RequestHandlers RequestSpecs Outstation OutstationSpecs OutstationSession OutstationEvents.

Open Scope Z_scope.

(** ** Partial correctness

    What holds after a computation, if it has a result. *)

Section After.
Context {S : Type}.
Implicit Types (s : S).

Definition after {A} (m : SM S A) s (Q : A -> S -> Prop) : Prop := forall s' a, m s = Some (s', a) -> Q a s'.

Lemma after_ret {A} (a : A) s (Q : A -> S -> Prop) : Q a s -> after (mret a) s Q.
Proof. by intros HQ s' b [= <- <-]. Qed.

Lemma after_get {A} (f : S -> A) s (Q : A -> S -> Prop) : Q (f s) s -> after (get f) s Q.
Proof. by intros HQ s' b [= <- <-]. Qed.

Lemma after_modify (f : S -> S) s (Q : unit -> S -> Prop) : Q tt (f s) -> after (modify f) s Q.
Proof. by intros HQ s' b [= <- <-]. Qed.

Lemma after_lift {A} (o : option A) s (Q : A -> S -> Prop) : (forall a, o = Some a -> Q a s) -> after (lift o) s Q.
Proof. intros HQ s' b. unfold lift. destruct o as [a|]; [|done]. intros [= <- <-]. by apply HQ. Qed.

Lemma after_bind {A B} (m : SM S A) (k : A -> SM S B) s Q : after m s (fun a s' => after (k a) s' Q) -> after (mbind k m) s Q.
Proof.
  intros Hm s' b. unfold mbind, SM_bind. destruct (m s) as [[s1 a]|] eqn:H; [|done]. cbn [mbind option_bind]. apply (Hm s1 a H).
Qed.

Lemma after_mono {A} (m : SM S A) s (P Q : A -> S -> Prop) : after m s P -> (forall a s', P a s' -> Q a s') -> after m s Q.
Proof. intros Hm HPQ s' a H. apply HPQ, Hm, H. Qed.

Lemma after_and {A} (m : SM S A) s (P Q : A -> S -> Prop) : after m s P -> after m s Q -> after m s (fun a s' => P a s' /\ Q a s').
Proof. intros HP HQ s' a H. split; [by apply HP|by apply HQ]. Qed.

Lemma after_wp {A} (m : SM S A) s (Q : A -> S -> Prop) : wp m s Q -> after m s Q.
Proof. intros Hm s' a H. apply wp_run in Hm as (s1 & b & Hr & HQ). rewrite H in Hr. by injection Hr as <- <-. Qed.

End After.

(** ** What neither selects nor operates *)

Section Quiet.
Context {M D W : Type} `{MeasurementOk M} `{StaticDatabaseOk D} `{Environment W}.
Implicit Types (c : OContext M D W).

#[local] Abbreviation OM := (SM (OContext M D W)).

Record quiet c c' : Prop := mkQuiet {
  qt_control : control_ c' = control_ c;
  qt_controls : maxControlsPerRequest (params c') = maxControlsPerRequest (params c);
  qt_timeout : selectTimeout (params c') = selectTimeout (params c);
  qt_calls : exists new, calls (outside c') = calls (outside c) ++ new /\ Forall (fun x => is_sbo_operate x = false) new
}.

Lemma quiet_same c c' : control_ c' = control_ c -> params c' = params c -> calls (outside c') = calls (outside c) -> quiet c c'.
Proof. intros Hc Hp Ho. split; [done|by rewrite Hp..|]. exists []. by rewrite Ho, app_nil_r. Qed.

Lemma quiet_refl c : quiet c c.
Proof. by apply quiet_same. Qed.

Lemma quiet_trans c c1 c' : quiet c c1 -> quiet c1 c' -> quiet c c'.
Proof.
  intros [A1 A2 A3 (new1 & A4 & A5)] [B1 B2 B3 (new2 & B4 & B5)]. split; [congruence..|].
  exists (new1 ++ new2). rewrite B4, A4, app_assoc. split; [done|]. by apply Forall_app_2.
Qed.

Definition calm {A} (m : OM A) : Prop := forall c, after m c (fun _ c' => quiet c c').

Lemma calm_after {A} (m : OM A) c (Q : A -> OContext M D W -> Prop) : calm m -> (forall a c', quiet c c' -> Q a c') -> after m c Q.
Proof. intros Hm HQ. eapply after_mono; [apply Hm|]. exact HQ. Qed.

Lemma calm_bind {A B} (m : OM A) (k : A -> OM B) : calm m -> (forall a, calm (k a)) -> calm (mbind k m).
Proof.
  intros Hm Hk c. apply after_bind, (calm_after m); [done|]. intros a c1 H1'. eapply after_mono; [apply Hk|]. intros b c' H2'. by eapply quiet_trans.
Qed.

Lemma calm_ret {A} (a : A) : calm (mret a).
Proof. intros c. apply after_ret, quiet_refl. Qed.

Lemma calm_get {A} (f : OContext M D W -> A) : calm (get f).
Proof. intros c. apply after_get, quiet_refl. Qed.

Lemma calm_lift {A} (o : option A) : calm (lift o).
Proof. intros c. apply after_lift. intros a _. apply quiet_refl. Qed.

Lemma calm_modify f : (forall c, quiet c (f c)) -> calm (modify f).
Proof. intros Hf c. by apply after_modify. Qed.

Lemma calm_on {S A} (get_part : OContext M D W -> S) set_part (m : SM S A) : (forall s c, quiet c (set_part s c)) -> calm (on get_part set_part m).
Proof. intros Hs c c' a. unfold on. destruct (m (get_part c)) as [[s b]|]; [|done]. intros [= <- <-]. apply Hs. Qed.

Lemma calm_ask {A} (f : W -> A * W) : calm (on_outside (ask f)).
Proof.
  intros c c' a. unfold on_outside, on, ask. destruct (f (world (outside c))) as [b w]. intros [= <- <-]. by apply quiet_same.
Qed.

Lemma calm_tell x : is_sbo_operate x = false -> calm (on_outside (tell x)).
Proof.
  intros Hx c c' a. unfold on_outside, on, tell. intros [= <- <-]. split; [done..|]. exists [x]. split; [done|]. by constructor.
Qed.

End Quiet.

Create HintDb calm.

(** The parts of the session other than the selection, the limits and the outside. *)
Ltac calm_step :=
  intros;
  first
    [ solve [auto 2 with calm nocore]
    | apply calm_ret | apply calm_get | apply calm_lift | apply calm_ask
    | apply calm_tell; reflexivity
    | apply calm_bind
    | apply calm_modify; intros; apply quiet_same; reflexivity
    | apply calm_on; intros; apply quiet_same; reflexivity
    | match goal with
      | |- calm (match ?x with _ => _ end) => destruct x
      | |- calm ((let '(_, _) := ?x in _) _) => destruct x
      end ].

Ltac calm := repeat calm_step.

Section Calm.
Context {M D W : Type} `{MeasurementOk M} `{StaticDatabaseOk D} `{Environment W}.

#[local] Abbreviation OM := (SM (OContext M D W)).

#[local] Abbreviation calm_ m := (calm (M := M) (D := D) (W := W) m).

Lemma GetResponseIIN_calm : calm_ GetResponseIIN.
Proof. unfold GetResponseIIN, GetDynamicIIN, on_events. calm. Qed.

Lemma transmit_response_calm dest f : calm_ (transmit_response dest f).
Proof. unfold transmit_response, BeginResponseTx, BeginTx. calm. Qed.

Lemma repeat_response_calm r : calm_ (repeat_response r).
Proof. unfold repeat_response, BeginResponseTx, BeginTx. calm. Qed.

Lemma defer_calm r : calm_ (defer r).
Proof. unfold defer. calm. Qed.

Lemma update_events_calm f : calm_ (update_events f).
Proof. unfold update_events, on_events. calm. Qed.

Lemma LoadResponse_calm w : calm_ (ResponseContext.LoadResponse w).
Proof. unfold ResponseContext.LoadResponse, on_events. calm. Qed.

#[local] Hint Resolve GetResponseIIN_calm transmit_response_calm repeat_response_calm defer_calm update_events_calm LoadResponse_calm : calm.

Lemma HandleRead_calm objects w : calm_ (HandleRead objects w).
Proof.
  unfold HandleRead, ResponseContext.Reset. calm.
Qed.

#[local] Hint Resolve HandleRead_calm : calm.

Lemma RespondToReadRequest_calm r : calm_ (RespondToReadRequest r).
Proof. unfold RespondToReadRequest, await_confirm, RestartConfirmTimer. calm. Qed.

Lemma ContinueMultiFragResponse_calm a seq : calm_ (ContinueMultiFragResponse a seq).
Proof. unfold ContinueMultiFragResponse, await_confirm, RestartConfirmTimer. calm. Qed.

#[local] Hint Resolve RespondToReadRequest_calm ContinueMultiFragResponse_calm : calm.

Lemma OnConfirm_calm r : calm_ (OnConfirm r).
Proof.
  unfold OnConfirm, dispatch, StateIdle.OnConfirm, StateSolicitedConfirmWait.OnConfirm, StateUnsolicitedConfirmWait.OnConfirm, Cancel, ResponseContext.HasSelection.
  calm.
Qed.

Lemma OnConfirmTimeout_calm : calm_ OnConfirmTimeout.
Proof.
  unfold OnConfirmTimeout, dispatch, StateIdle.OnConfirmTimeout, StateSolicitedConfirmWait.OnConfirmTimeout, StateUnsolicitedConfirmWait.OnConfirmTimeout.
  calm.
Qed.

Lemma OnNewReadRequest_calm r : calm_ (OnNewReadRequest r).
Proof.
  unfold OnNewReadRequest, dispatch, StateIdle.OnNewReadRequest, StateSolicitedConfirmWait.OnNewReadRequest, StateUnsolicitedConfirmWait.OnNewReadRequest, Cancel.
  calm.
Qed.

Lemma OnRepeat_calm r : calm_ (OnRepeatReadRequest r) /\ calm_ (OnRepeatNonReadRequest r).
Proof.
  unfold OnRepeatReadRequest, OnRepeatNonReadRequest, dispatch, StateIdle.OnRepeatReadRequest, StateSolicitedConfirmWait.OnRepeatReadRequest,
    StateUnsolicitedConfirmWait.OnRepeatReadRequest, StateIdle.OnRepeatNonReadRequest, StateSolicitedConfirmWait.OnRepeatNonReadRequest,
    StateUnsolicitedConfirmWait.OnRepeatNonReadRequest, Cancel, RestartConfirmTimer. split; calm.
Qed.

Lemma CheckForUnsolicited_calm : calm_ CheckForUnsolicited.
Proof. unfold CheckForUnsolicited, send_unsolicited, BeginUnsolTx, BeginTx, RestartConfirmTimer, on_events. calm. Qed.

Lemma OnLowerLayerDown_calm : calm_ OnLowerLayerDown.
Proof. unfold OnLowerLayerDown, ResponseContext.Reset, Cancel. calm. Qed.

Lemma ProcessConfirm_calm r : calm_ (ProcessConfirm r).
Proof. pose proof OnConfirm_calm. unfold ProcessConfirm. calm. Qed.

Lemma ProcessRequest_read_calm r : function (req_header r) = READ -> calm_ (ProcessRequest r).
Proof.
  intros Hr. destruct (OnRepeat_calm r) as [H1' H2']. pose proof (OnNewReadRequest_calm r). unfold ProcessRequest, OnReceiveSolRequest, ProcessNewRequest.
  rewrite !(decide_True_pi Hr). calm.
Qed.

End Calm.

#[export] Hint Resolve update_events_calm defer_calm OnConfirmTimeout_calm CheckForUnsolicited_calm OnLowerLayerDown_calm ProcessConfirm_calm
  ProcessRequest_read_calm : calm.

(** ** What a request selects and operates *)

Section Requests.
Context {M D W : Type} `{MeasurementOk M} `{StaticDatabaseOk D} `{Environment W}.
Context (n : nat) (Hn : (4 <= n)%nat) (Hmax : Z.of_nat n <= 65535).
Implicit Types (c : OContext M D W) (r : ParsedRequest).

(** The request selects: the command handler was asked for all its commands, up to the
    limit, and all the answers were successes; the selection has the sequence number of
    the request and the time after the last answer. *)
Definition select_made r c (new : list Call) (s : ControlState) : Prop := exists hs sts rest,
  let cs := served true DirectOperate (maxControlsPerRequest (params c)) (commands_of hs) sts in
  decoded ParserSettings.Default (req_objects r) = Some (hs, OK) /\ new = cs ++ rest /\
  statuses_ok (maxControlsPerRequest (params c)) (commands_of hs) sts /\
  Forall (eq SUCCESS) (take (Z.to_nat (maxControlsPerRequest (params c))) sts) /\
  s = ControlState.Select (SEQ (control (req_header r))) (GetTime (world (told cs (outside c)))).1 (req_objects r).

(** The request operates with [x]: a command of its objects, which the selection
    validates for its sequence number and the time of its arrival. *)
Definition operate_made r c (x : Call) : Prop := exists hs command status,
  decoded ParserSettings.Default (req_objects r) = Some (hs, OK) /\ command ∈ commands_of hs /\
  x = command_call false SelectBeforeOperate command status /\
  ControlState.ValidateSelection (control_ c) (SEQ (control (req_header r))) (GetTime (world (outside c))).1
    (selectTimeout (params c)) (req_objects r) = SUCCESS.

Record acts r c c' : Prop := mkActs {
  at_controls : maxControlsPerRequest (params c') = maxControlsPerRequest (params c);
  at_timeout : selectTimeout (params c') = selectTimeout (params c);
  at_calls : exists new, calls (outside c') = calls (outside c) ++ new /\
    (control_ c' = control_ c \/ function (req_header r) = SELECT /\ select_made r c new (control_ c')) /\
    Forall (fun x => is_sbo_operate x = true -> function (req_header r) = OPERATE /\ operate_made r c x) new
}.

Lemma not_operated (P : Call -> Prop) new : Forall (fun x => is_sbo_operate x = false) new -> Forall (fun x => is_sbo_operate x = true -> P x) new.
Proof. apply Forall_impl. intros x Hx Ht. congruence. Qed.

Lemma quiet_acts r c c' : quiet c c' -> acts r c c'.
Proof. intros [A1 A2 A3 (new & A4 & A5)]. split; [done..|]. exists new. split_and!; [done|by left|by apply not_operated]. Qed.

Lemma acts_then_quiet r c c1 c' : acts r c c1 -> quiet c1 c' -> acts r c c'.
Proof.
  intros [A1 A2 (new1 & A3 & A4 & A5)] [B1 B2 B3 (new2 & B4 & B5)]. split; [congruence..|]. exists (new1 ++ new2).
  rewrite B4, A3, app_assoc. split; [done|]. split; [|apply Forall_app_2; [done|by apply not_operated]]. rewrite B1.
  destruct A4 as [A4|(A4 & hs & sts & rest & E1 & -> & E3)]; [by left|]. right. split; [done|]. exists hs, sts, (rest ++ new2).
  cbv zeta in *. by rewrite <- app_assoc.
Qed.

Lemma acts_from_same r c0 c c' : params c0 = params c -> control_ c0 = control_ c -> outside c0 = outside c -> acts r c0 c' -> acts r c c'.
Proof. intros Hp Hc Ho [A1 A2 A3]. unfold select_made, operate_made in *. rewrite Hp, Hc, Ho in *. by split. Qed.

Lemma nonread_acts r c c' new :
  sol_num (sol c) = SEQ (control (req_header r)) -> nonread (function (req_header r)) (req_objects r) c c' new -> acts r c c'.
Proof.
  intros Hs [F _ _ _ Hc _ _ Hctl Hop]. destruct (same_params_limits _ _ (fm_params _ _ F)) as (L1 & L2 & _). split; [done..|].
  exists new. split_and!; [done| |].
  - destruct Hctl as [Hctl|[Hf (hs & sts & E1 & E2 & E3 & E4 & E5)]]; [by left|]. right. split; [done|]. exists hs, sts, [].
    cbv zeta. rewrite app_nil_r, <- E2, <- Hs. done.
  - apply List.Forall_forall. intros x Hx Hsbo. destruct Hop as (Hf & Hv & hs & sts & Hd & _ & E); [apply List.existsb_exists; by exists x|].
    split; [done|]. apply list_elem_of_In in Hx. rewrite E in Hx. apply served_member in Hx as [->|[->|(command & status & Hcm & ->)]]; [done..|].
    exists hs, command, status. unfold operates in Hv. rewrite Hs in Hv. done.
Qed.

Lemma nonread_quiet_acts fc objects c c' new : fc <> SELECT -> fc <> OPERATE -> nonread fc objects c c' new -> quiet c c'.
Proof.
  intros Hse Hop [F _ _ _ Hc _ _ Hctl Hsbo]. destruct (same_params_limits _ _ (fm_params _ _ F)) as (L1 & L2 & _). split; [|done..|].
  - destruct Hctl as [?|[? _]]; done.
  - exists new. split; [done|]. apply List.Forall_forall. intros x Hx. destruct (is_sbo_operate x) eqn:Ht; [|done].
    destruct Hsbo as [? _]; [apply List.existsb_exists; by exists x|done].
Qed.

(** A session that can respond. *)
Definition ready c : Prop := parts_ok c /\ tx_ok n (sol_tx (sol c)).

Lemma ready_same c c0 : ready c -> database c0 = database c -> params c0 = params c -> sol_tx (sol c0) = sol_tx (sol c) -> ready c0.
Proof. intros [[P1 P2] Ht] E1 E2 E3. unfold ready. rewrite E3. split; [|done]. by split; rewrite ?E1, ?E2. Qed.

Lemma RespondToNonReadRequest_acts r c :
  ready c -> request_ok r -> sol_num (sol c) = SEQ (control (req_header r)) -> after (RespondToNonReadRequest r) c (fun _ c' => acts r c c').
Proof.
  intros [[Hp1 Hp2] Ht] [Hb _] Hs. unfold RespondToNonReadRequest. apply after_bind, after_modify. set (c0 := set_history _ c).
  apply after_bind, after_get, after_bind, after_lift. intros f0 Hf0. destruct (fragment_start n _ Ht Hn) as (f & Hf & Hff).
  change (TxBuffer.Start (sol_tx (sol c)) = Some f0) in Hf0. rewrite Hf in Hf0. injection Hf0 as <-. apply after_bind, after_lift. intros f1 Hf1. destruct (fragment_SetFunction _ _ _ _ RESPONSE Hff) as (f1' & Hf1' & Hff1).
  rewrite Hf1' in Hf1. injection Hf1 as <-. apply after_bind, after_lift. intros f2 Hf2.
  destruct (fragment_SetControl _ _ _ _ (mkAppControlField true true false false (SEQ (control (req_header r)))) Hff1) as (f2' & Hf2' & Hff2).
  rewrite Hf2' in Hf2. injection Hf2 as <-. destruct (fragment_writer _ _ _ _ Hff2 Hmax) as (Hwf & _ & _).
  apply after_bind. eapply after_mono; [apply after_wp, HandleNonReadResponse_wp; [by split|done|exact Hwf]|].
  intros [w iin] c1 (new & data & HN & _). apply (nonread_acts r c0) in HN; [|exact Hs].
  eapply calm_after with (Q := fun _ c' => acts r c c').
  - apply calm_bind; [apply GetResponseIIN_calm|]. intros a. apply calm_bind; [apply calm_lift|]. intros x. apply transmit_response_calm.
  - intros _ c' Hq. apply (acts_from_same r c0); [done..|]. by eapply acts_then_quiet.
Qed.

Lemma OnNewNonReadRequest_acts r c :
  ready c -> request_ok r -> sol_num (sol c) = SEQ (control (req_header r)) -> after (OnNewNonReadRequest r) c (fun _ c' => acts r c c').
Proof.
  intros Hr Hq Hs. unfold OnNewNonReadRequest, dispatch. apply after_bind, after_get. unfold StateIdle.OnNewNonReadRequest, StateSolicitedConfirmWait.OnNewNonReadRequest,
    StateUnsolicitedConfirmWait.OnNewNonReadRequest, Cancel. destruct (state_ c).
  - apply after_bind. eapply after_mono; [by apply RespondToNonReadRequest_acts|]. intros a c' Ha. by apply after_ret.
  - apply after_bind, after_modify, after_bind. eapply after_mono; [by apply RespondToNonReadRequest_acts; [by eapply ready_same|..]|]. intros a c' Ha. apply after_ret. by eapply acts_from_same, Ha.
  - apply after_bind, after_modify, after_bind. eapply after_mono; [by apply RespondToNonReadRequest_acts; [by eapply ready_same|..]|]. intros a c' Ha. apply after_ret. by eapply acts_from_same, Ha.
Qed.

Lemma ProcessRequest_acts r c : ready c -> request_ok r -> after (ProcessRequest r) c (fun _ c' => acts r c c').
Proof.
  intros Hr Hq. destruct (decide (function (req_header r) = READ)) as [Hread|Hread].
  { eapply calm_after; [by apply ProcessRequest_read_calm|]. intros b c'. apply quiet_acts. }
  unfold ProcessRequest. destruct (UNS _); [apply after_ret, quiet_acts, quiet_refl|]. apply after_bind.
  assert (Hnew : after (ProcessNewRequest r) c (fun _ c' => acts r c c')).
  { unfold ProcessNewRequest. rewrite decide_False by done. apply after_bind, after_modify.
    eapply after_mono; [by apply OnNewNonReadRequest_acts; [by eapply ready_same|..]|]. intros b c' Ha. by eapply acts_from_same, Ha. }
  apply after_mono with (P := fun _ c' => acts r c c').
  - unfold OnReceiveSolRequest. apply after_bind, after_get, after_bind, after_get. destruct (RequestHistory.HasLastRequest _); [|done].
    destruct (_ =? _); [|done]. destruct (RequestHistory.FullyEqualsLastRequest _ _ _); [|done]. rewrite decide_False by done.
    eapply calm_after; [apply OnRepeat_calm|]. intros b c'. apply quiet_acts.
  - intros st c' Ha. apply after_bind, after_modify, after_ret. eapply acts_then_quiet; [exact Ha|]. by apply quiet_same.
Qed.

Lemma ProcessObjects_acts r c :
  ready c -> request_ok r -> after (ProcessObjects r) c (fun _ c' => if isTransmitting c then quiet c c' else acts r c c').
Proof.
  intros Hr Hq. assert (Hquiet : forall c', quiet c c' -> if isTransmitting c then quiet c c' else acts r c c').
  { intros c' Hc. destruct (isTransmitting c); [done|]. by apply quiet_acts. }
  unfold ProcessObjects. destruct (IsNoAckFuncCode _).
  { unfold ProcessRequestNoAck. assert (Hskip : after (mret false) c (fun _ c' => if isTransmitting c then quiet c c' else acts r c c')) by (apply after_ret, Hquiet, quiet_refl).
    destruct (function (req_header r)); try done. apply after_bind. destruct Hr as [Hp _], Hq as [Hb _].
    eapply after_mono; [by apply after_wp, (HandleDirectOperate_wp DIRECT_OPERATE_NR)|]. intros [w iin] c' (new & HN & _). apply after_ret, Hquiet.
    by eapply nonread_quiet_acts, HN. }
  apply after_bind, after_get. destruct (isTransmitting c).
  - eapply calm_after with (Q := fun _ c' => quiet c c'); [|done]. apply calm_bind; [apply defer_calm|]. intros _. apply calm_ret.
  - destruct (decide _); [|by apply ProcessRequest_acts]. eapply calm_after; [apply ProcessConfirm_calm|]. intros b c'. apply quiet_acts.
Qed.

End Requests.

(** ** One event *)

Section Events.
Context {M D W : Type} `{MeasurementOk M} `{StaticDatabaseOk D} `{Environment W}.
Context (caps : EventType -> nat) (Hcaps : caps_ok caps).
Context (n : nat) (Hn : (4 <= n)%nat) (Hmax : Z.of_nat n <= 65535).
Implicit Types (c : OContext M D W) (r : ParsedRequest) (e : SessionEvent M D).

#[local] Abbreviation session := (session caps n).

(** The request that a session takes up in an event: the one that a message brings when
    nothing is being transmitted, or the one that waited for the end of a transmission. *)
Definition taken_up e c r : Prop :=
  match e with
  | EvReceive a payload => isOnline c = true /\ isTransmitting c = false /\ accepted c a payload r
  | EvTxReady => isOnline c = true /\ isTransmitting c = true /\ DeferredRequest.IsSet (deferred c) = true /\ r = DeferredRequest.request (deferred c)
  | _ => False
  end.

Lemma session_ready_state c : session c -> ready n c.
Proof. intros HS. split; apply HS. Qed.

(** No deferred command is about to be processed. *)
Definition no_command c : Prop :=
  CanTransmit c = true -> DeferredRequest.IsSet (deferred c) = true -> function (deferred_header (deferred c)) = READ.

Lemma settled_no_command c : settled c -> no_command c.
Proof. intros Hs [_ Htx]%CanTransmit_true Hset. by destruct (Hs Htx Hset). Qed.

Lemma processed_quiet (p : bool) c : quiet c (set_deferred (DeferredRequest.processed p (deferred c)) c).
Proof. by apply quiet_same. Qed.

Lemma CheckForDeferredRequest_acts c : ready n c -> request_ok (DeferredRequest.request (deferred c)) ->
  after CheckForDeferredRequest c (fun _ c' => if CanTransmit c && DeferredRequest.IsSet (deferred c) then acts (DeferredRequest.request (deferred c)) c c' else quiet c c').
Proof.
  intros Hr Hq. unfold CheckForDeferredRequest. apply after_bind, after_get, after_bind, after_get.
  destruct (CanTransmit c && _); [|apply after_ret, quiet_refl]. set (r := DeferredRequest.request (deferred c)) in *. apply after_bind.
  apply after_mono with (P := fun _ c' => acts r c c').
  - unfold ProcessDeferredRequest. destruct (decide _) as [Hc|Hc].
    { apply after_bind. eapply calm_after; [apply ProcessConfirm_calm|]. intros b c' Hc'. apply after_ret. by apply quiet_acts. }
    assert (Hgo : after (_ ← ProcessRequest r; mret true) c (fun _ c' => acts r c c')).
    { apply after_bind. eapply after_mono; [by apply (ProcessRequest_acts n)|]. intros b c' Ha. by apply after_ret. }
    destruct (decide _); [|exact Hgo]. apply after_bind, after_get. destruct (decide _); [exact Hgo|]. apply after_ret, quiet_acts, quiet_refl.
  - intros p c' Ha. apply after_modify. eapply acts_then_quiet; [exact Ha|apply processed_quiet].
Qed.

Lemma CheckForDeferredRequest_quiet c : no_command c -> after CheckForDeferredRequest c (fun _ c' => quiet c c').
Proof.
  intros Hno. unfold CheckForDeferredRequest. apply after_bind, after_get, after_bind, after_get.
  destruct (CanTransmit c && _) eqn:Hgo; [|apply after_ret, quiet_refl]. apply andb_prop in Hgo as [Hcan Hset]. specialize (Hno Hcan Hset).
  apply after_bind. eapply calm_after with (Q := fun p c' => after (modify (fun c => set_deferred (DeferredRequest.processed p (deferred c)) c)) c' (fun _ c'' => quiet c c'')).
  - unfold ProcessDeferredRequest. pose proof (ProcessRequest_read_calm (M := M) (D := D) (W := W) (DeferredRequest.request (deferred c)) Hno).
    pose proof (ProcessConfirm_calm (M := M) (D := D) (W := W)). rewrite (decide_True_pi (P := _ = READ) Hno). calm; auto.
  - intros p c' Hq. apply after_modify. eapply quiet_trans; [exact Hq|apply processed_quiet].
Qed.

Lemma CheckForTaskStart_quiet c : no_command c -> after CheckForTaskStart c (fun _ c' => quiet c c').
Proof.
  intros Hno. unfold CheckForTaskStart. apply after_bind. eapply after_mono; [by apply CheckForDeferredRequest_quiet|]. intros a c1 H1'.
  eapply calm_after; [apply CheckForUnsolicited_calm|]. intros b c' H2'. exact (quiet_trans _ _ _ H1' H2').
Qed.

(** After a message no deferred command is left to the check for work. *)
Lemma taken_no_command r c c1 : settled c -> taken caps n r c c1 -> no_command c1.
Proof.
  intros Hs [_ (rm & Hm & _) Hd _] Hcan Hset. apply CanTransmit_true in Hcan as [_ Htx1]. destruct (isTransmitting c) eqn:Htx.
  - destruct (mv_calls _ _ _ _ Hm) as (new & _ & Hnum). rewrite Htx, Htx1 in Hnum. cbn in Hnum. lia.
  - destruct (Hd eq_refl) as [Heq|[Hno|Hr]]; [|congruence|done]. rewrite Heq in *. by destruct (Hs Htx Hset).
Qed.

Definition reacts e c c' : Prop := quiet c c' \/ exists r, taken_up e c r /\ acts r c c'.

Lemma OnReceive_acts a payload c :
  session c -> settled c -> bytes_ok payload -> after (OnReceive a payload) c (fun _ c' => reacts (EvReceive a payload) c c').
Proof.
  intros HS Hs Hb. unfold OnReceive. apply after_bind, after_get. destruct (isOnline c) eqn:Hon; cbn [negb]; [|apply after_ret; left; apply quiet_refl].
  apply after_bind. pose proof (after_wp _ _ _ (ProcessMessage_wp caps Hcaps n Hn Hmax a payload c HS Hon Hb)) as Hwp.
  assert (HA : after (ProcessMessage a payload) c (fun _ c1 => quiet c c1 \/ exists r, accepted c a payload r /\ isTransmitting c = false /\ acts r c c1)).
  { unfold ProcessMessage. apply after_bind, after_get. destruct (Z.eqb_spec (destination a) (source (addresses c))) as [Hd|Hd]; cbn [negb]; [|apply after_ret; left; apply quiet_refl].
    apply after_bind, after_get. destruct (negb (respondToAnyMaster (params c)) && negb (source a =? destination (addresses c))) eqn:Hsrc; [apply after_ret; left; apply quiet_refl|].
    destruct (ParseRequest payload) as [[header objects]|] eqn:Hp; [|apply after_ret; left; apply quiet_refl].
    destruct (AppControlField.IsFirAndFin (control header)) eqn:Hff; cbn [negb]; [|apply after_ret; left; apply quiet_refl].
    destruct (CON (control header)) eqn:Hcon; [apply after_ret; left; apply quiet_refl|].
    assert (Hacc : accepted c a payload (mkParsedRequest a header objects)).
    { split; try done. destruct (respondToAnyMaster (params c)); [by left|]. right. by apply negb_false_iff, Z.eqb_eq in Hsrc. }
    eapply after_mono; [apply (ProcessObjects_acts n Hn Hmax); [by apply session_ready_state|by eapply accepted_request_ok]|].
    intros b c1. destruct (isTransmitting c); [by left|]. intros Ha. right. by eexists. }
  eapply after_mono; [apply (after_and _ _ _ _ Hwp HA)|]. intros b c1 [Hm Ha]. apply after_bind.
  assert (Hno : no_command c1).
  { destruct Hm as [(r & _ & Ht)|[-> _]]; [by eapply taken_no_command|by apply settled_no_command]. }
  eapply after_mono; [by apply CheckForTaskStart_quiet|]. intros u c' Hq. apply after_ret. destruct Ha as [Hc|(r & Hacc & Htx & Ha)].
  - left. by eapply quiet_trans.
  - right. exists r. split; [done|]. by eapply acts_then_quiet.
Qed.

Lemma OnTxReady_acts c : session c -> after OnTxReady c (fun _ c' => reacts EvTxReady c c').
Proof.
  intros HS. unfold OnTxReady. apply after_bind, after_get, after_bind, after_get.
  destruct (isOnline c) eqn:Hon, (isTransmitting c) eqn:Htx; cbn [negb orb]; try (apply after_ret; left; apply quiet_refl).
  apply after_bind, after_modify. set (c0 := set_isTransmitting false c). unfold CheckForTaskStart. apply after_bind, after_bind.
  eapply after_mono; [apply CheckForDeferredRequest_acts; [by apply (ready_same n c); [apply session_ready_state|..]|apply HS]|].
  intros a c1 Ha. eapply calm_after; [apply CheckForUnsolicited_calm|]. intros b c' Hq. apply after_ret.
  assert (Hcan : CanTransmit c0 = true) by (unfold CanTransmit; cbn; by rewrite Hon). rewrite Hcan in Ha. cbn [andb] in Ha.
  change (deferred c0) with (deferred c) in Ha. destruct (DeferredRequest.IsSet (deferred c)) eqn:Hset.
  - right. eexists. split; [done|]. apply (acts_from_same _ c0); [done..|]. by eapply acts_then_quiet.
  - left. assert (quiet c0 c') as [] by by eapply quiet_trans. by split.
Qed.

Lemma OnTimer_quiet c : session c -> settled c -> after OnTimer c (fun _ c' => quiet c c').
Proof.
  intros HS Hs. unfold OnTimer, Cancel. apply after_bind, after_modify, after_bind. pose proof (session_cancel caps n _ _ HS) as HS0.
  eapply after_mono; [apply after_and; [by apply after_wp, (OnConfirmTimeout_wp caps n)|apply OnConfirmTimeout_calm]|].
  intros st c1 [(_ & _ & Hd & Htx & ->) Hq]. apply after_bind, after_modify.
  eapply after_mono; [apply CheckForTaskStart_quiet|].
  - intros Hcan Hset. apply CanTransmit_true in Hcan as [_ Ht]. change (isTransmitting c1 = false) in Ht.
    change (DeferredRequest.IsSet (deferred c1) = true) in Hset. change (function (deferred_header (deferred c1)) = READ).
    rewrite Hd in *. rewrite Htx in Ht. by destruct (Hs Ht Hset).
  - intros u c' Hq'. eapply quiet_trans; [|exact Hq']. destruct Hq. by split.
Qed.

Lemma handle_reacts e c : session c -> settled c -> session_event_ok e -> after (handle e) c (fun _ c' => reacts e c c').
Proof.
  intros HS Hs He. assert (Hdone : forall {A} (m : SM (OContext M D W) A), after m c (fun _ c' => reacts e c c') -> after (_ ← m; mret tt) c (fun _ c' => reacts e c c')).
  { intros A m Hm. apply after_bind. eapply after_mono; [exact Hm|]. intros a c' Hr. by apply after_ret. }
  assert (Hcalm : forall {A} (m : SM (OContext M D W) A), after m c (fun _ c' => quiet c c') -> after m c (fun _ c' => reacts e c c')).
  { intros A m Hm. eapply after_mono; [exact Hm|]. intros a c' Hq. by left. }
  destruct e; cbn [handle session_event_ok] in *.
  - apply Hdone, Hcalm. unfold OnLowerLayerUp. apply after_bind, after_get. destruct (isOnline c) eqn:Hon; [apply after_ret, quiet_refl|].
    apply after_bind, after_modify, after_bind. eapply after_mono; [apply CheckForTaskStart_quiet|].
    + intros _ Hset. change (DeferredRequest.IsSet (deferred c) = true) in Hset. destruct (se_offline _ _ _ _ HS Hon) as (_ & _ & ?). congruence.
    + intros a c' []. apply after_ret. by split.
  - apply Hdone, Hcalm, OnLowerLayerDown_calm.
  - by apply Hdone, OnTxReady_acts.
  - by apply Hdone, OnReceive_acts.
  - apply Hcalm, after_bind, after_get. destruct (confirmTimer c); [by apply OnTimer_quiet|apply after_ret, quiet_refl].
  - by apply Hcalm, CheckForTaskStart_quiet, settled_no_command.
  - apply Hcalm, update_events_calm.
  - apply Hcalm, after_modify. by apply quiet_same.
  - apply Hcalm, after_modify. by apply quiet_same.
Qed.

(** A run in which a SELECT has stored the selection [s]. *)
Definition stored_by (es : list (SessionEvent M D)) c0 (s : ControlState) : Prop := exists es1 e1 es2 c1 c1' r1 new,
  es = es1 ++ e1 :: es2 /\ run_session es1 c0 = Some c1 /\ handle e1 c1 = Some (c1', tt) /\ taken_up e1 c1 r1 /\
  function (req_header r1) = SELECT /\ calls (outside c1') = calls (outside c1) ++ new /\
  maxControlsPerRequest (params c1) = maxControlsPerRequest (params c0) /\ select_made r1 c1 new s.

Lemma run_session_app (es es' : list (SessionEvent M D)) c0 : run_session (es ++ es') c0 = c ← run_session es c0; run_session es' c.
Proof.
  revert c0. induction es as [|e es IH]; intros c0; cbn [run_session app]; [done|]. destruct (handle e c0) as [[c1 []]|]; [|done]. apply IH.
Qed.

Lemma run_session_snoc (es : list (SessionEvent M D)) e c0 c : run_session (es ++ [e]) c0 = Some c -> exists c1, run_session es c0 = Some c1 /\ handle e c1 = Some (c, tt).
Proof.
  rewrite run_session_app. destruct (run_session es c0) as [c1|]; [|done]. cbn [mbind option_bind run_session].
  destruct (handle e c1) as [[c2 []]|] eqn:Hh; [|done]. intros [= <-]. by exists c1.
Qed.

Lemma run_session_defined (es : list (SessionEvent M D)) c0 c :
  session c0 -> settled c0 -> Forall session_event_ok es -> run_session es c0 = Some c -> session c /\ settled c.
Proof.
  intros HS Hs He. revert c0 HS Hs. induction He as [|e es He _ IH]; intros c0 HS Hs; cbn [run_session]; [by intros [= <-]|].
  destruct (wp_run _ _ _ (handle_wp caps Hcaps n Hn Hmax e c0 HS He)) as (c1 & [] & -> & Hh). cbn [mbind option_bind].
  destruct (happened_session caps n e c0 c1 HS Hs He Hh). by apply IH.
Qed.

Lemma reacts_limits e c c' : reacts e c c' ->
  maxControlsPerRequest (params c') = maxControlsPerRequest (params c) /\ selectTimeout (params c') = selectTimeout (params c).
Proof. intros [[]|(r & _ & [])]; done. Qed.

(** The selection of a session is that of a SELECT of its past. *)
Lemma selection_stored (es : list (SessionEvent M D)) c0 : session c0 -> settled c0 -> Forall session_event_ok es ->
  forall c, run_session es c0 = Some c ->
  maxControlsPerRequest (params c) = maxControlsPerRequest (params c0) /\ selectTimeout (params c) = selectTimeout (params c0) /\
  (control_ c = control_ c0 \/ stored_by es c0 (control_ c)).
Proof.
  intros HS Hs. induction es as [|e es IH] using rev_ind; intros He c Hr.
  { injection Hr as <-. by split_and!; [..|left]. }
  apply Forall_app in He as [Hes He]. apply Forall_cons_1 in He as [He _]. apply run_session_snoc in Hr as (c1 & Hr & Hh).
  destruct (IH Hes c1 Hr) as (L1 & L2 & Hctl). destruct (run_session_defined es c0 c1 HS Hs Hes Hr) as [HS1 Hs1].
  pose proof (handle_reacts e c1 HS1 Hs1 He c tt Hh) as Hre. destruct (reacts_limits _ _ _ Hre) as [E1 E2]. rewrite E1, E2. split_and!; [done..|].
  assert (Hkeep : control_ c = control_ c1 -> control_ c = control_ c0 \/ stored_by (es ++ [e]) c0 (control_ c)).
  { intros ->. destruct Hctl as [?|(es1 & e1 & es2 & c2 & c2' & r1 & new & -> & Hst)]; [by left|]. right.
    exists es1, e1, (es2 ++ [e]), c2, c2', r1, new. by rewrite <- app_assoc. }
  destruct Hre as [[Hq _ _ _]|(r & Ht & [_ _ (new & Hc & [Hq|[Hf Hm]] & _)])]; [by apply Hkeep..|].
  right. exists es, e, [], c1, c, r, new. by split_and!.
Qed.

End Events.
