(* ===== verification/OutstationProps.v ===== *)
(** * OutstationProps: the properties of an outstation's session

    The session from its constructor on, under every sequence of the events that
    reach it. *)

From S2P Require Import Prelude Slices Serialization Crc LinkFrame AppHeader Objects ObjectParser HeaderWriter HeaderRoundtrip EventList EventBuffer EventSpec EventProps EventWriters EventResponse OutstationState RequestHandlers RequestSpecs Outstation OutstationSpecs OutstationSession OutstationEvents OutstationSelect.

Open Scope Z_scope.

(** ** Runs of a session *)

Section Runs.
Context {M D W : Type} `{MeasurementOk M} `{StaticDatabaseOk D} `{Environment W}.
Context (config : EventBufferConfig) (setup : OutstationParams) (d : D).
Context (Hsetup : setup_ok config setup d).
Import Queue.
Implicit Types (c : OContext M D W) (e : SessionEvent M D) (qs rm : list (Queued M)).

#[local] Abbreviation caps := (caps_of config).

#[local] Abbreviation n := (maxTxFragSize setup).

#[local] Abbreviation session := (session caps n).

Lemma setup_limits : caps_ok caps /\ (4 <= n)%nat /\ Z.of_nat n <= 65535.
Proof. destruct Hsetup as [? ? [? ?] ?]. split_and!; [by apply caps_of_ok|done..]. Qed.

Lemma init_session (dflt : M) (a : Addresses) (world : W) :
  exists c, Outstation.init dflt a config setup d world = Some c /\ session c /\ settled c.
Proof.
  destruct Hsetup as [Hc Hm [Hn Hn'] Hd]. destruct (init_spec dflt config Hc) as (b & Hb & HM). unfold Outstation.init. rewrite Hb. cbn [mbind option_bind].
  eexists. split; [done|]. split; [|by intros _]. split; cbn; try done.
  - exists []. split_and!; [by exists false|constructor|by intros []].
  - unfold tx_ok. cbn. len.
  - unfold tx_ok. cbn. len.
  - by left.
  - intros pre x post Heq. by destruct pre.
  - by right.
Qed.

(** Every run is defined. *)
Lemma run_session_spec es c :
  session c -> settled c -> Forall session_event_ok es -> exists c', run_session es c = Some c' /\ session c' /\ settled c'.
Proof.
  intros HS Hs He. revert c HS Hs. induction He as [|e es He _ IH]; intros c HS Hs; cbn [run_session]; [by exists c|].
  destruct setup_limits as (Hcaps & Hn & Hmax).
  destruct (wp_run _ _ _ (handle_wp caps Hcaps n Hn Hmax e c HS He)) as (c1 & [] & -> & Hh). cbn [mbind option_bind].
  destruct (happened_session caps n e c c1 HS Hs He Hh) as [HS1 Hs1]. by apply IH.
Qed.

(** A session some time after its construction. *)
Definition reachable_session c : Prop := exists dflt a world es c0,
  Outstation.init dflt a config setup d world = Some c0 /\ Forall session_event_ok es /\ run_session es c0 = Some c.

Lemma reachable_ok c : reachable_session c -> session c /\ settled c.
Proof.
  intros (dflt & a & world & es & c0 & Hi & He & Hr). destruct (init_session dflt a world) as (c1 & Hi1 & HS & Hs). rewrite Hi in Hi1.
  injection Hi1 as <-. destruct (run_session_spec es c0 HS Hs He) as (c' & Hr' & H1' & H2'). rewrite Hr in Hr'. injection Hr' as <-. done.
Qed.

Lemma handle_spec e c : session c -> session_event_ok e -> exists c', handle e c = Some (c', tt) /\ happened caps n e c c'.
Proof.
  intros HS He. destruct setup_limits as (Hcaps & Hn & Hmax). destruct (wp_run _ _ _ (handle_wp caps Hcaps n Hn Hmax e c HS He)) as (c1 & [] & -> & Hh).
  by exists c1.
Qed.

(** *** While a fragment is being transmitted *)

Lemma busy_start c : CanTransmit c = false -> CheckForTaskStart c = Some (c, tt).
Proof.
  intros Hc. unfold CheckForTaskStart, CheckForDeferredRequest, CheckForUnsolicited, mbind, SM_bind, get. rewrite Hc. cbn [andb mret SM_ret]. by rewrite Hc.
Qed.

Lemma busy_session c : isTransmitting c = true -> CanTransmit c = false.
Proof. intros Ht. unfold CanTransmit. by rewrite Ht, andb_false_r. Qed.

Lemma moved_transmitting rm c c' : moved caps rm c c' -> isTransmitting c = true -> isTransmitting c' = true.
Proof. intros [(new & _ & Hn) _ _ _ _ _ _] Ht. rewrite Ht in Hn. destruct (isTransmitting c'); [done|]. cbn in Hn. lia. Qed.

(** *** One event and the events of the buffer *)

(** The request with which [e] confirms a fragment: it arrives, or it was deferred until
    the end of a transmission. *)
Definition confirmation c e (r : ParsedRequest) : Prop :=
  function (req_header r) = CONFIRM /\
  match e with
  | EvReceive a payload => isTransmitting c = false /\ accepted c a payload r
  | EvTxReady => isTransmitting c = true /\ DeferredRequest.IsSet (deferred c) = true /\ r = DeferredRequest.request (deferred c)
  | _ => False
  end.

(** The events [rm] leave, and [r] confirms the fragment that is awaited, which carries
    them. *)
Definition removed c e rm : Prop := rm = [] \/ exists r, confirmation c e r /\ confirmed c r rm.

(** Where an event starts from: the flags of the lower layer are set at once. *)
Definition entered e c : OContext M D W :=
  match e with
  | EvLowerLayerUp => set_isOnline true c
  | EvTxReady => set_isTransmitting false c
  | _ => c
  end.

Definition internal e : bool := match e with EvLowerLayerDown | EvUpdate _ _ | EvDatabase _ | EvSetRestartIIN => false | _ => true end.

Lemma task_moved c c' : task_started caps n c c' -> exists rm, moved caps rm c c' /\ (rm = [] \/ confirmed_late c rm).
Proof. by intros (c1 & _ & _ & _ & _ & _ & Hrm). Qed.

(** After a request was taken up no confirmation is left to process. *)
Lemma taken_nothing_late r c c1 rm : settled c -> taken caps n r c c1 -> confirmed_late c1 rm -> False.
Proof.
  intros Hs [_ (rm0 & HM & _) Hd _] (Hcan & Hset & Hf & _). destruct (isTransmitting c) eqn:Ht.
  - pose proof (moved_transmitting _ _ _ HM Ht) as Ht1. by rewrite (busy_session _ Ht1) in Hcan.
  - destruct (Hd eq_refl) as [He|[He|He]]; [|congruence|congruence]. rewrite He in Hset, Hf. destruct (Hs Ht Hset) as [Hr _]. congruence.
Qed.

Lemma received_moved a payload c c' :
  session c -> settled c -> received caps n a payload c c' -> exists rm, moved caps rm c c' /\ removed c (EvReceive a payload) rm.
Proof.
  intros HS Hs (c1 & Hm & (rm' & HM' & Hrm')%task_moved). destruct Hm as [(r & Hacc & Ht)|[-> _]].
  - pose proof Ht as [_ (rm & HM & Hrm) _ _]. assert (rm' = []) as -> by (destruct Hrm'; [done|exfalso; by eapply taken_nothing_late]).
    exists rm. split; [by eapply moved_nil_r|]. destruct Hrm as [->|(Htx & Hf & Hc)]; [by left|]. right. by exists r.
  - exists rm'. split; [done|]. left. destruct Hrm'; [done|exfalso; by eapply settled_nothing_late].
Qed.

(** Every event of a session that is not a change of its data. *)
Lemma happened_moved e c c' :
  session c -> settled c -> session_event_ok e -> internal e = true -> happened caps n e c c' ->
  c' = c \/ exists rm, moved caps rm (entered e c) c' /\ removed c e rm.
Proof.
  intros HS Hs He Hi Hh. destruct e; cbn [happened entered session_event_ok internal] in *; try done.
  - destruct (isOnline c) eqn:Hon; [by left|right]. destruct (task_moved _ _ Hh) as (rm & HM & Hrm). exists rm. split; [done|left].
    destruct Hrm as [|(_ & Hset & _)]; [done|]. destruct (se_offline _ _ _ _ HS Hon) as (_ & _ & Hno). cbn in Hset. congruence.
  - destruct (isOnline c) eqn:Hon, (isTransmitting c) eqn:Htx; cbn [andb] in Hh; try by left. right.
    destruct (task_moved _ _ Hh) as (rm & HM & Hrm). exists rm. split; [done|]. destruct Hrm as [|(_ & Hset & Hf & Hc)]; [by left|right].
    by exists (DeferredRequest.request (deferred c)).
  - destruct (isOnline c); [right|by left]. by apply received_moved.
  - destruct (confirmTimer c) eqn:Ht; [right|by left]. destruct Hh as (c1 & _ & Hst & HM & Hd & _ & (rm & HM' & Hrm)%task_moved).
    exists rm. split; [change rm with ([] ++ rm); by eapply moved_trans|left]. destruct Hrm as [|(_ & _ & _ & [|(m & Haw & _)])]; [done|done|].
    by rewrite Hst in Haw.
  - right. destruct (task_moved _ _ Hh) as (rm & HM & Hrm). exists rm. split; [done|left].
    destruct Hrm; [done|exfalso; by eapply settled_nothing_late].
Qed.

(** *** Answers *)

(** A response to [r] is transmitted after calls to others. *)
Definition replied (r : ParsedRequest) c c' : Prop := exists pre m ctrl iin data,
  calls (outside c') = calls (outside c) ++ pre ++ [BeginTransmit (mkAddresses (source (addresses c)) (source (req_addresses r))) m] /\
  silent pre /\ message n RESPONSE ctrl iin data m /\ SEQ ctrl = SEQ (control (req_header r)) /\ UNS ctrl = false.

Lemma repeat_seq r c m ctrl iin data : session c -> is_repeat r c = true -> request_ok r ->
  last_sent RESPONSE (calls (outside c)) = Some m -> message n RESPONSE ctrl iin data m -> SEQ ctrl = SEQ (control (req_header r)).
Proof.
  intros HS Hrep [_ Hr] Hl Hm. unfold is_repeat in Hrep. apply andb_prop in Hrep as [[Hh _]%andb_prop Heq].
  destruct (se_answered _ _ _ _ HS Hh) as (m' & Hl' & Hs). rewrite Hl in Hl'. injection Hl' as <-.
  pose proof (ms_seq _ _ _ _ _ _ Hm) as Hrange. rewrite (message_seq _ _ _ _ _ _ Hm) in Hs. rewrite Hs in *.
  unfold RequestHistory.FullyEqualsLastRequest, APDUHeader.Equals in Heq. apply andb_prop in Heq as [[_ Hb%Z.eqb_eq]%andb_prop _].
  apply (f_equal AppControlField.of_byte) in Hb. rewrite !control_roundtrip in Hb by done. by rewrite Hb.
Qed.

Lemma reaction_replied r c c' : session c -> request_ok r -> ~ (function (req_header r) = READ /\ state_ c = UnsolicitedConfirmWait) ->
  reaction caps n r c c' -> replied r c c'.
Proof.
  intros HS Hr Hno. unfold reaction. destruct (decide _) as [[Hrep _]|_].
  - intros (o & timer & m & -> & Hl & Hc). destruct (last_sent_ok caps n _ _ _ HS Hl) as (ctrl & iin & data & Hm & Hu).
    exists [], m, ctrl, iin, data. split_and!; [done|done|done|by eapply repeat_seq|done].
  - unfold handled_new. rewrite decide_False by done. intros [(pre & m & ctrl & iin & data & ? & ? & ? & ? & ? & _) _]. by exists pre, m, ctrl, iin, data.
Qed.

Lemma replied_busy rm r c c' : moved caps rm c c' -> replied r c c' -> isTransmitting c' = true.
Proof.
  intros [(new & Hn & Ht) _ _ _ _ _ _] (pre & m & ctrl & iin & data & Hc & _). rewrite Hn in Hc. apply app_inv_head in Hc as ->.
  rewrite transmissions_app in Ht. destruct (isTransmitting c'); [done|]. change (transmissions [BeginTransmit _ m]) with 1%nat in Ht. cbn in Ht. lia.
Qed.

Lemma accepted_unique c a payload r r' : accepted c a payload r -> accepted c a payload r' -> r = r'.
Proof. intros [H1' _ _ H2' _ _] [H3' _ _ H4' _ _]. rewrite H2' in H4'. injection H4' as ? ?. destruct r, r'; cbn in *; congruence. Qed.

(** A request that the session reacts to: it is not a confirmation, needs an answer, and
    is no read that has to wait for an unsolicited confirmation. *)
Record answerable c a payload (r : ParsedRequest) : Prop := mkAnswerable {
  an_online : isOnline c = true;
  an_ready : isTransmitting c = false;
  an_bytes : bytes_ok payload;
  an_accepted : accepted c a payload r;
  an_ack : IsNoAckFuncCode (function (req_header r)) = false;
  an_request : function (req_header r) <> CONFIRM;
  an_uns : UNS (control (req_header r)) = false;
  an_now : ~ (function (req_header r) = READ /\ state_ c = UnsolicitedConfirmWait)
}.

(** Taking up such a request is all that [OnReceive] does. *)
Lemma request_reaction a payload r c : session c -> answerable c a payload r ->
  exists c', OnReceive a payload c = Some (c', true) /\ isTransmitting c' = true /\ reaction caps n r c c'.
Proof.
  intros HS [Hon Htx Hb Hacc Hna Hnc Hu Hnow]. destruct setup_limits as (Hcaps & Hn & Hmax).
  destruct (wp_run _ _ _ (ProcessMessage_wp caps Hcaps n Hn Hmax a payload c HS Hon Hb)) as (c1 & b & Hrun & Hm).
  destruct Hm as [(r' & Hacc' & Ht)|[_ Hno]]; [|by destruct (Hno r)]. rewrite <- (accepted_unique _ _ _ _ _ Hacc Hacc') in Ht.
  destruct Ht as [_ (rm & HM & _) _ Hre]. specialize (Hre Htx Hna Hnc Hu).
  assert (Hbusy : isTransmitting c1 = true).
  { eapply replied_busy; [exact HM|]. apply (reaction_replied r); [done|exact (accepted_request_ok _ _ _ _ Hacc Hb)|done|done]. }
  assert (HR : wp (OnReceive a payload) c (fun ok c' => ok = true /\ c' = c1)).
  { unfold OnReceive. rewrite wp_bind, wp_get, Hon. cbn [negb]. rewrite wp_bind. unfold wp at 1. rewrite Hrun, wp_bind. unfold wp at 1.
    by rewrite (busy_start _ (busy_session _ Hbusy)), wp_ret. }
  apply wp_run in HR as (c2 & ok & Hrec & -> & ->). by exists c1.
Qed.

(** *** Deferred requests *)

Lemma moved_grows rm c c' : moved caps rm c c' -> exists post, calls (outside c') = calls (outside c) ++ post.
Proof. intros [(new & -> & _) _ _ _ _ _ _]. by exists new. Qed.

(** The check for work answers a deferred request that can be processed. *)
Lemma task_replied c c' : let r := DeferredRequest.request (deferred c) in
  session c -> CanTransmit c = true -> DeferredRequest.IsSet (deferred c) = true -> UNS (control (req_header r)) = false ->
  function (req_header r) <> CONFIRM -> (function (req_header r) = READ -> state_ c = Idle) -> task_started caps n c c' ->
  exists c1 post, replied r c c1 /\ calls (outside c') = calls (outside c1) ++ post.
Proof.
  intros r HS Hcan Hset Hu Hf Hidle (c1 & HC & HU & _). destruct (ck_reaction _ _ _ _ HC Hcan Hset Hu Hf Hidle) as (df & c2 & -> & _ & Hre).
  exists c2. assert (Hrep : replied r c c2).
  { eapply reaction_replied; [done|apply (se_deferred _ _ _ _ HS)|intros [Hr Hst]|done]. by rewrite (Hidle Hr) in Hst. }
  destruct HU as [->|(_ & _ & _ & data & (m & iin & _ & _ & Hc & _) & _)]; [by exists []; rewrite app_nil_r|by eexists].
Qed.

(** A read that waits is not touched. *)
Lemma task_waits c c' : DeferredRequest.IsSet (deferred c) = true -> function (deferred_header (deferred c)) = READ -> state_ c <> Idle ->
  task_started caps n c c' -> c' = c.
Proof.
  intros Hset Hr Hst (c1 & HC & HU & _). rewrite (ck_waits _ _ _ _ HC Hset Hr Hst) in HU. destruct HU as [->|(_ & Hx & _)]; [done|by destruct Hst].
Qed.

Lemma timer_replied c c' : let r := DeferredRequest.request (deferred c) in
  session c -> CanTransmit c = true -> DeferredRequest.IsSet (deferred c) = true -> UNS (control (req_header r)) = false ->
  function (req_header r) <> CONFIRM -> timed_out caps n c c' ->
  exists c1 post, replied r c c1 /\ calls (outside c') = calls (outside c1) ++ post.
Proof.
  intros r HS Hcan Hset Hu Hf (c1 & HS1 & Hst & HM & Hd & Ht & HT). destruct (CanTransmit_true _ Hcan) as [Hon Htx].
  assert (Hc1 : CanTransmit c1 = true) by (unfold CanTransmit; by rewrite (mv_online _ _ _ _ HM), Ht, Hon, Htx).
  destruct (mv_calls _ _ _ _ HM) as (new & Hn & Hcount). rewrite Ht in Hcount.
  assert (Hnew : silent new).
  { clear Hn. induction new as [|x new IH]; [done|]. unfold transmissions in Hcount. cbn [List.filter] in Hcount.
    destruct (is_transmission x) eqn:Hx; [cbn [length] in Hcount; lia|]. constructor; [done|]. by apply IH. }
  pose proof (task_replied c1 c' HS1 Hc1) as Hrep. rewrite Hd in Hrep.
  destruct (Hrep Hset Hu Hf ltac:(done) HT) as (c2 & post & (pre & m & ctrl & iin & data & R1 & R2 & R3) & Hp).
  exists c2, post. split; [|done]. exists (new ++ pre), m, ctrl, iin, data. split_and!; [|by apply Forall_app_2|exact (proj1 R3)|apply R3|apply R3].
  by rewrite R1, Hn, (mv_addresses _ _ _ _ HM), <- !app_assoc.
Qed.

End Runs.

(** ** The properties of every session *)

Section Properties.
Context {M D W : Type} `{MeasurementOk M} `{StaticDatabaseOk D} `{Environment W}.
Context (config : EventBufferConfig) (setup : OutstationParams) (d : D).
Import Queue.
Implicit Types (c : OContext M D W) (e : SessionEvent M D) (qs rm : list (Queued M)).

#[local] Abbreviation caps := (caps_of config).

#[local] Abbreviation n := (maxTxFragSize setup).

#[local] Abbreviation reachable := (reachable_session config setup d).

(** C10: A session never fails.  From the constructor on, whatever reaches it from the
    lower layer, the timer and the application, every event is processed and leaves a
    session in order: the timer runs exactly while a confirmation is awaited, the
    buffers keep their size, the last response is the one that was sent, every
    fragment that was sent is well formed. *)
Theorem outstation_session_invariant (dflt : M) (a : Addresses) (world : W) (es : list (SessionEvent M D)) :
  setup_ok config setup d -> Forall session_event_ok es ->
  exists c0 c, Outstation.init dflt a config setup d world = Some c0 /\ run_session es c0 = Some c /\
    session caps n c /\ settled c.
Proof.
  intros Hs He. destruct (init_session (W := W) config setup d Hs dflt a world) as (c0 & Hi & HS & Hc).
  destruct (run_session_spec config setup d Hs es c0 HS Hc He) as (c & Hr & H1' & H2'). by exists c0, c.
Qed.

(** C14: One fragment at a time.  No event starts more than one transmission; and while
    one is going on, until the lower layer reports that it is ready or down, no other is
    started and the buffers that hold the fragment are not written. *)
Theorem one_transmission_at_a_time e c c' :
  setup_ok config setup d -> reachable c -> session_event_ok e -> handle e c = Some (c', tt) ->
  (transmissions (calls (outside c')) <= Datatypes.S (transmissions (calls (outside c))))%nat /\
  (isTransmitting c = true -> e <> EvTxReady -> e <> EvLowerLayerDown ->
     isTransmitting c' = true /\ transmissions (calls (outside c')) = transmissions (calls (outside c)) /\
     tx_buffer (sol_tx (sol c')) = tx_buffer (sol_tx (sol c)) /\ tx_buffer (unsol_tx (unsol c')) = tx_buffer (unsol_tx (unsol c))).
Proof.
  intros Hsetup [HS Hs]%(reachable_ok _ _ _ Hsetup) He Hrun. destruct (handle_spec _ _ _ Hsetup e c HS He) as (c1 & Hrun' & Hh).
  rewrite Hrun in Hrun'. injection Hrun' as <-. destruct (internal e) eqn:Hi.
  - destruct (happened_moved _ _ e c c' HS Hs He Hi Hh) as [-> | (rm & HM & _)]; [split; [lia|done]|].
    pose proof (moved_transmitting _ _ _ _ HM) as Hkeep. destruct HM as [(new & Hn & Ht) _ _ _ Hb _ _].
    assert (Ho : outside (entered e c) = outside c) by by destruct e. rewrite Hn, Ho, transmissions_app.
    split; [destruct (isTransmitting c'), (isTransmitting (entered e c)); cbn in Ht; lia|]. intros Htx Hne _.
    assert (Htx' : isTransmitting (entered e c) = true) by (by destruct e). rewrite (Hkeep Htx'), Htx' in Ht.
    destruct (Hb Htx') as [-> ->]. split_and!; [by apply Hkeep|cbn in Ht; lia|by destruct e..].
  - assert (Ho : outside c' = outside c).
    { destruct e; try done; cbn [happened] in Hh; [destruct (isOnline c); [apply Hh|by subst]|by destruct Hh as (b & qs & -> & _)|by subst..]. }
    rewrite Ho. split; [lia|]. intros Htx _ Hne. destruct e; try done; cbn [happened] in Hh; [by destruct Hh as (b & qs & -> & _)|by subst..].
Qed.

(** C1: No event is lost or confirmed by mistake.  Apart from the overflow of a type's
    buffer when a new event comes, an event leaves the buffer only with a confirmation:
    one with the sequence number and kind of the fragment that is awaited, the last of
    its kind that was sent, and that fragment carries the event. *)
Theorem events_leave_when_confirmed e c c' :
  setup_ok config setup d -> reachable c -> session_event_ok e -> handle e c = Some (c', tt) ->
  exists qs qs', contents (eventBuffer c) = Some qs /\ contents (eventBuffer c') = Some qs' /\
    match e with
    | EvUpdate t x => qs' = (update (Z.of_nat (caps t)) t x qs).1
    | _ => exists rm, map payload qs ≡ₚ map payload qs' ++ map payload rm /\ removed c e rm
    end.
Proof.
  intros Hsetup [HS Hs]%(reachable_ok _ _ _ Hsetup) He Hrun. destruct (handle_spec _ _ _ Hsetup e c HS He) as (c1 & Hrun' & Hh).
  rewrite Hrun in Hrun'. injection Hrun' as <-. destruct (se_queue _ _ _ _ HS) as (qs & Hq & _).
  assert (Hsame : contents (eventBuffer c') = contents (eventBuffer c) -> exists qs qs', contents (eventBuffer c) = Some qs /\
    contents (eventBuffer c') = Some qs' /\ exists rm, map payload qs ≡ₚ map payload qs' ++ map payload rm /\ removed c e rm).
  { intros ->. pose proof (queue_is_contents _ _ _ Hq) as Hc. exists qs, qs. split_and!; [done|done|]. exists []. cbn [map]. rewrite app_nil_r.
    split; [done|by left]. }
  destruct (internal e) eqn:Hi.
  - destruct (happened_moved _ _ e c c' HS Hs He Hi Hh) as [-> | (rm & HM & Hrm)]; [destruct e; by try apply Hsame|].
    destruct (mv_events _ _ _ _ HM) as (q & q' & Hq1 & Hq2 & Hp). assert (Hq1' : queue_is caps c q) by by destruct e.
    exists q, q'. split_and!; [by eapply queue_is_contents..|]. destruct e; try done; by exists rm.
  - destruct e; try done; cbn [happened] in Hh; [|destruct Hh as (b & q & -> & Hq1 & Hq2 & _)|subst; by apply Hsame..].
    + destruct (isOnline c); [|subst; by apply Hsame]. destruct (wd_events _ _ _ _ Hh) as (q & Hq1 & Hq2). exists q, (unselect q).
      split_and!; [by eapply queue_is_contents..|]. exists []. cbn [map]. rewrite app_nil_r, unselect_payload. split; [done|by left].
    + eexists q, _. by split_and!; [eapply queue_is_contents..|].
Qed.

(** C2: Select before operate.  Take any run of a session from its construction and any
    event after it.  Every command that the event executes as an operation of a selection
    is a command of an OPERATE that the event takes up, and the run contains an event
    that took up a SELECT for it: the log shows that the handler was asked for the
    commands of that SELECT, up to the limit of controls, and answered all of them with
    success; the sequence number of the OPERATE is the one after that of the SELECT; the
    objects of the two requests have the same length and check sum; and the clock
    advanced by less than the select timeout from the last answer to the SELECT to the
    arrival of the OPERATE. *)
Theorem operate_follows_select dflt a w0 es c0 e c c' pre x post :
  setup_ok config setup d -> Outstation.init dflt a config setup d w0 = Some c0 -> Forall session_event_ok es -> session_event_ok e ->
  run_session es c0 = Some c -> handle e c = Some (c', tt) -> calls (outside c') = calls (outside c) ++ pre ++ x :: post -> is_sbo_operate x = true ->
  (exists r hs command status, taken_up e c r /\ function (req_header r) = OPERATE /\
    decoded ParserSettings.Default (req_objects r) = Some (hs, OK) /\ command ∈ commands_of hs /\
    x = command_call false SelectBeforeOperate command status /\
   exists es1 e1 es2 c1 c1' r1 hs1 sts1 rest,
    es = es1 ++ e1 :: es2 /\ run_session es1 c0 = Some c1 /\ handle e1 c1 = Some (c1', tt) /\ taken_up e1 c1 r1 /\
    function (req_header r1) = SELECT /\ decoded ParserSettings.Default (req_objects r1) = Some (hs1, OK) /\
    (let answers := served true DirectOperate (maxControlsPerRequest setup) (commands_of hs1) sts1 in
     let selected_at := (GetTime (world (told answers (outside c1)))).1 in
     calls (outside c1') = calls (outside c1) ++ answers ++ rest /\
     statuses_ok (maxControlsPerRequest setup) (commands_of hs1) sts1 /\
     Forall (eq SUCCESS) (take (Z.to_nat (maxControlsPerRequest setup)) sts1) /\
     SEQ (control (req_header r)) = AppSeqNum_Next (SEQ (control (req_header r1))) /\
     length (req_objects r) = length (req_objects r1) /\ CalcCrc (req_objects r) = CalcCrc (req_objects r1) /\
     selected_at <= (GetTime (world (outside c))).1 < selected_at + selectTimeout setup)).
Proof.
  intros Hsetup Hi Hes He Hr Hh Hx Hsbo. destruct (init_session config setup d Hsetup dflt a w0) as (c0' & Hi' & HS0 & Hs0).
  rewrite Hi in Hi'. injection Hi' as <-. destruct (setup_limits _ _ _ Hsetup) as (Hcaps & Hn & Hmax).
  assert (Hinit : control_ c0 = ControlState.init /\ params c0 = setup).
  { unfold Outstation.init in Hi. destruct (EventBuffer.init dflt config); [|done]. by injection Hi as <-. }
  destruct Hinit as [Hc0 Hp0]. destruct (run_session_defined caps Hcaps n Hn Hmax es c0 c HS0 Hs0 Hes Hr) as [HS Hs].
  destruct (selection_stored caps Hcaps n Hn Hmax es c0 HS0 Hs0 Hes c Hr) as (L1 & L2 & Hctl). rewrite Hp0 in *.
  destruct (handle_reacts caps Hcaps n Hn Hmax e c HS Hs He c' tt Hh) as [[_ _ _ (new & Hnew & Hq)]|(r & Ht & [_ _ (new & Hnew & _ & Hops)])];
    rewrite Hx in Hnew; apply app_inv_head in Hnew; subst new.
  { apply Forall_app in Hq as [_ Hq]. apply Forall_cons_1 in Hq as [Hq _]. congruence. }
  apply Forall_app in Hops as [_ Hops]. apply Forall_cons_1 in Hops as [Hop _].
  destruct (Hop Hsbo) as (Hf & hs & command & status & Hd & Hcm & -> & Hval). exists r, hs, command, status. split_and!; [done..|].
  destruct Hctl as [Hctl|(es1 & e1 & es2 & c1 & c1' & r1 & new & -> & Hr1 & Hh1 & Ht1 & Hf1 & Hnew & Hmx & hs1 & sts1 & rest & Hd1 & -> & Hst & Hsuc & Hsel)].
  { exfalso. rewrite Hctl, Hc0 in Hval. eapply nothing_selected in Hval; [|exact Hn|exact Hd]. subst hs. by apply elem_of_nil in Hcm. }
  exists es1, e1, es2, c1, c1', r1, hs1, sts1, rest. rewrite Hmx, Hp0 in *. split_and!; [done..|]. rewrite Hsel, L2 in Hval.
  apply validated in Hval as (V1 & V2 & V3 & V4 & V5). by split_and!.
Qed.

(** C9: A request is answered at once: one fragment goes to the sender, with the sequence
    number of the request and not longer than the largest fragment; it parses as the
    response that it is, and its indications report the classes of events that wait
    and the restart. *)
Theorem requests_are_answered a payload r c :
  setup_ok config setup d -> reachable c -> answerable c a payload r -> is_repeat r c = false ->
  exists c' pre m ctrl iin data, OnReceive a payload c = Some (c', true) /\
    calls (outside c') = calls (outside c) ++ pre ++ [BeginTransmit (mkAddresses (source (addresses c)) (source a)) m] /\ silent pre /\
    (length m <= n)%nat /\ ParseResponse m = Some (mkAPDUResponseHeader (mkAPDUHeader ctrl RESPONSE) iin, data) /\
    SEQ ctrl = SEQ (control (req_header r)) /\ UNS ctrl = false /\ announces caps c' iin.
Proof.
  intros Hsetup [HS _]%(reachable_ok _ _ _ Hsetup) Ha Hrep. destruct (request_reaction _ _ _ Hsetup a payload r c HS Ha) as (c' & Hrun & _ & Hre).
  unfold reaction in Hre. rewrite decide_False in Hre by (rewrite Hrep; by intros [? _]). unfold handled_new in Hre.
  rewrite decide_False in Hre by apply Ha. destruct Hre as [(pre & m & ctrl & iin & data & Hc & Hp & Hm & Hseq & Hu & Hi) _].
  exists c', pre, m, ctrl, iin, data. rewrite (ac_addresses _ _ _ _ (an_accepted _ _ _ _ Ha)) in *.
  split_and!; [done|done|done|exact (ms_length _ _ _ _ _ _ Hm)|exact (message_parsed _ _ _ _ _ _ Hm)|done|done|done].
Qed.

(** C26: A request that is repeated is not executed again: the fragment that was sent last
    as a response is sent once more, and nothing else changes but the timer. *)
Theorem repeated_requests_are_not_executed a payload r c :
  setup_ok config setup d -> reachable c -> answerable c a payload r -> is_repeat r c = true ->
  exists o timer m, OnReceive a payload c = Some (set_outside o (set_isTransmitting true (set_confirmTimer timer c)), true) /\
    last_sent RESPONSE (calls (outside c)) = Some m /\
    calls o = calls (outside c) ++ [BeginTransmit (mkAddresses (source (addresses c)) (source a)) m].
Proof.
  intros Hsetup [HS _]%(reachable_ok _ _ _ Hsetup) Ha Hrep. destruct (request_reaction _ _ _ Hsetup a payload r c HS Ha) as (c' & Hrun & _ & Hre).
  unfold reaction in Hre. rewrite decide_True in Hre by (split; [done|apply Ha]). destruct Hre as (o & timer & m & -> & Hl & Hc).
  exists o, timer, m. by rewrite (ac_addresses _ _ _ _ (an_accepted _ _ _ _ Ha)) in Hc.
Qed.

(** C8: A request that was deferred is answered: once the lower layer is ready and the
    awaited confirmation has timed out, a response to it has been sent. *)
Theorem deferred_requests_are_answered c : let r := DeferredRequest.request (deferred c) in
  setup_ok config setup d -> reachable c -> isOnline c = true -> DeferredRequest.IsSet (deferred c) = true ->
  UNS (control (req_header r)) = false -> function (req_header r) <> CONFIRM ->
  exists c' pre m ctrl iin data post, run_session [EvTxReady; EvTimer] c = Some c' /\
    calls (outside c') = calls (outside c) ++ pre ++ BeginTransmit (mkAddresses (source (addresses c)) (source (req_addresses r))) m :: post /\
    ParseResponse m = Some (mkAPDUResponseHeader (mkAPDUHeader ctrl RESPONSE) iin, data) /\ SEQ ctrl = SEQ (control (req_header r)).
Proof.
  intros r Hsetup [HS Hs]%(reachable_ok _ _ _ Hsetup) Hon Hset Hu Hf. cbn [run_session].
  destruct (handle_spec _ _ _ Hsetup EvTxReady c HS I) as (c1 & -> & Hh1). cbn [mbind option_bind].
  destruct (happened_session _ n EvTxReady c c1 HS Hs I Hh1) as [HS1 Hs1].
  destruct (handle_spec _ _ _ Hsetup EvTimer c1 HS1 I) as (c2 & -> & Hh2). cbn [mbind option_bind happened] in *. rewrite Hon in Hh1.
  assert (Hdone : (exists c3 post, replied setup r c c3 /\ calls (outside c2) = calls (outside c3) ++ post) -> exists c' pre m ctrl iin data post,
    Some c2 = Some c' /\
    calls (outside c') = calls (outside c) ++ pre ++ BeginTransmit (mkAddresses (source (addresses c)) (source (req_addresses r))) m :: post /\
    ParseResponse m = Some (mkAPDUResponseHeader (mkAPDUHeader ctrl RESPONSE) iin, data) /\ SEQ ctrl = SEQ (control (req_header r))).
  { intros (c3 & post & (pre & m & ctrl & iin & data & R1 & R2 & R3 & R4 & R5) & Hp). exists c2, pre, m, ctrl, iin, data, post.
    split_and!; [done| |exact (message_parsed _ _ _ _ _ _ R3)|done]. by rewrite Hp, R1, <- !app_assoc. }
  assert (Htimer : c1 = set_isTransmitting false c -> state_ c <> Idle -> exists c3 post, replied setup r c c3 /\ calls (outside c2) = calls (outside c3) ++ post).
  { intros -> Hst. destruct (confirmTimer _) eqn:Ht; [|by apply (se_timer _ _ _ _ HS) in Ht].
    apply (timer_replied _ _ (set_isTransmitting false c) c2 HS1); try done. unfold CanTransmit. cbn. by rewrite Hon. }
  apply Hdone. destruct (isTransmitting c) eqn:Htx; cbn [andb] in Hh1.
  - destruct (decide (function (req_header r) = READ /\ state_ c <> Idle)) as [[Hr Hst]|Hno].
    + apply Htimer; [|done]. by eapply task_waits.
    + destruct (task_replied config setup (set_isTransmitting false c) c1) as (c3 & post & Hrep & Hp); try done.
      * by apply session_ready.
      * unfold CanTransmit. cbn. by rewrite Hon.
      * intros Hr. destruct (decide (state_ c = Idle)); [done|]. by destruct Hno.
      * destruct (happened_moved _ _ EvTimer c1 c2 HS1 Hs1 I eq_refl) as [->|(rm & HM & _)]; [done|by exists c3, post|].
        destruct (moved_grows _ _ _ _ HM) as (post' & Hp'). exists c3, (post ++ post'). split; [done|]. by rewrite Hp', app_assoc, <- Hp.
  - destruct (Hs Htx Hset) as [Hr Hst]. apply Htimer; [|done]. subst c1. destruct c; cbn in *; by subst.
Qed.

End Properties.

(** ** Malformed requests *)

Section Malformed.
Context {M D W : Type} `{Measurement M} `{IStaticDatabase D} `{Environment W}.
Implicit Types (c : OContext M D W).

(** The functions whose handlers parse the objects, and how. *)
Definition settings_of (fc : FunctionCode) : option ParserSettings :=
  match fc with
  | WRITE | SELECT | OPERATE | DIRECT_OPERATE | DISABLE_UNSOLICITED | ENABLE_UNSOLICITED => Some ParserSettings.Default
  | ASSIGN_CLASS => Some ParserSettings.NoContents
  | _ => None
  end.

Definition refusal (iin : IINField) : Prop :=
  iin = IINField.of_bit PARAM_ERROR \/ iin = IINField.of_bit OBJECT_UNKNOWN \/ iin = IINField.of_bit FUNC_NOT_SUPPORTED.

Lemma refusal_result e : e <> OK -> refusal (IINFromParseResult e).
Proof. unfold refusal. destruct e; cbn; auto. by intros []. Qed.

Context (objects : RSlice) (settings : ParserSettings).
Context (Hb : bytes_ok objects) (Hbad : forall hs, decoded settings objects <> Some (hs, OK)).

Lemma Parse_malformed {S} (handler : IAPDUHandler S) s : exists e, e <> OK /\ APDUParser.Parse settings handler objects s = Some (s, e).
Proof.
  destruct (Parse_spec settings handler objects s Hb) as (hs & result & Hd & _ & _ & _ & He). apply He. intros [-> _]. by apply (Hbad hs).
Qed.

Lemma run_malformed {L} (handler : IAPDUHandler (Handling L)) l (Q : Handling L * ParseResult -> L -> Prop) :
  (forall e, e <> OK -> Q (APDUHandler.init l, e) l) -> wp (APDUHandler.run settings handler objects) l Q.
Proof. intros HQ. destruct (Parse_malformed handler (APDUHandler.init l)) as (e & He & Hp). unfold wp, APDUHandler.run. rewrite Hp. by apply HQ. Qed.

(** Nothing was done; the outside was asked at most. *)
Definition untouched c c' : Prop := exists w, c' = set_outside (mkOutside w (calls (outside c))) c.

Lemma untouched_refl c : untouched c c.
Proof. exists (world (outside c)). destruct c as [? ? ? ? ? ? ? ? ? ? ? ? ? ? ? ? o]. by destruct o. Qed.

Lemma errors_or_malformed {L} (h : Handling L) e : e <> OK -> errors_or (h, e) = IINFromParseResult e.
Proof. intros He. unfold errors_or. cbn [snd]. by rewrite decide_False. Qed.

Lemma run_commands_malformed isSelect opType writer c : settings = ParserSettings.Default ->
  wp (run_commands isSelect opType objects (Some writer)) c (fun r c' => untouched c c' /\ r.2 <> OK /\ pWriter (local r.1) = Some writer).
Proof.
  intros Hs. unfold run_commands. rewrite <- Hs, wp_bind, wp_get. apply wp_on_outside. unfold wp.
  assert (Hrun := run_malformed (CommandResponseHandler.handler (CommandActionAdapter.Action isSelect opType) (maxControlsPerRequest (params c)))
    (CommandResponseHandler.init (Some writer) (CommandActionAdapter.init (outside c)))
    (fun r s => r.2 <> OK /\ r.1 = APDUHandler.init s /\ s = CommandResponseHandler.init (Some writer) (CommandActionAdapter.init (outside c)))).
  lapply Hrun; [clear Hrun; intros Hrun|by intros e He]. apply wp_run in Hrun as (s & [h e] & -> & He & Hh & ->). cbn [fst snd] in *. subst h.
  cbn [mbind option_bind CommandResponseHandler.init pCommandAction CommandActionAdapter.init CommandActionAdapter.destroy local APDUHandler.init].
  unfold CommandActionAdapter.destroy, mbind, SM_bind, get. cbn. split_and!; [|done|done].
  replace (set_outside (outside c) c) with c by by destruct c. apply untouched_refl.
Qed.

Definition refused c (iin : IINField) c' : Prop := untouched c c' /\ refusal iin.

Lemma HandleWrite_malformed c : settings = ParserSettings.Default -> wp (HandleWrite objects) c (refused c).
Proof.
  intros Hs. unfold HandleWrite. rewrite wp_bind, wp_get, wp_bind. apply wp_on_outside, wp_ask. intros now w. rewrite wp_bind, wp_on, <- Hs.
  apply run_malformed. intros e He. rewrite wp_ret, errors_or_malformed by done. split; [exists w; by destruct c|by apply refusal_result].
Qed.

Lemma refuses_param c (writer : Writer) : wp (mret (writer, IINField.of_bit PARAM_ERROR)) c (fun (r : Writer * IINField) c' => r.1 = writer /\ untouched c c' /\ refusal r.2).
Proof. rewrite wp_ret. split_and!; [done|apply untouched_refl|by left]. Qed.

Lemma HandleSelect_malformed c writer : settings = ParserSettings.Default ->
  wp (HandleSelect objects writer) c (fun r c' => r.1 = writer /\ untouched c c' /\ refusal r.2).
Proof.
  intros Hs. unfold HandleSelect. destruct (_ <? _)%nat; [apply refuses_param|]. rewrite wp_bind.
  eapply wp_mono; [by apply run_commands_malformed|]. intros [h e] c' (Hu & He & Hp). cbn [fst snd] in *. rewrite decide_False by done.
  rewrite wp_ret. unfold writer_after. cbn [fst snd]. rewrite Hp. split_and!; [done|done|by apply refusal_result].
Qed.

Lemma constant_malformed c writer status : settings = ParserSettings.Default ->
  wp (HandleCommandWithConstant objects writer status) c (fun r c' => r.1 = writer /\ c' = c /\ refusal r.2).
Proof.
  intros Hs. unfold HandleCommandWithConstant. rewrite wp_bind, wp_get, wp_bind, <- Hs. set (H' := CommandResponseHandler.handler _ _).
  destruct (Parse_malformed H' (APDUHandler.init (CommandResponseHandler.init (Some writer) tt))) as (e & He & Hp).
  eapply wp_lift_some; [exact Hp|]. rewrite wp_ret. split_and!; [done|done|by apply refusal_result].
Qed.

Lemma untouched_asked c c' w : untouched (set_outside (mkOutside w (calls (outside c))) c) c' -> untouched c c'.
Proof. intros [w' ->]. by exists w'. Qed.

Lemma HandleOperate_malformed c writer : settings = ParserSettings.Default ->
  wp (HandleOperate objects writer) c (fun r c' => r.1 = writer /\ untouched c c' /\ refusal r.2).
Proof.
  intros Hs. unfold HandleOperate. destruct (_ <? _)%nat; [apply refuses_param|]. rewrite wp_bind. apply wp_on_outside, wp_ask. intros now w.
  rewrite wp_bind, wp_get. destruct (decide _).
  - rewrite wp_bind. eapply wp_mono; [by apply run_commands_malformed|]. intros [h e'] c' (Hu & He & Hp). cbn [fst snd] in *.
    rewrite wp_ret, errors_or_malformed by done. unfold writer_after. cbn [fst snd]. rewrite Hp.
    split_and!; [done|by eapply untouched_asked|by apply refusal_result].
  - eapply wp_mono; [by apply constant_malformed|]. intros r c' (? & -> & ?). split_and!; [done|by exists w|done].
Qed.

Lemma HandleDirectOperate_malformed c writer opType : settings = ParserSettings.Default ->
  wp (HandleDirectOperate objects opType (Some writer)) c (fun r c' => untouched c c' /\ refusal r.2 /\ r.1 = Some writer).
Proof.
  intros Hs. unfold HandleDirectOperate. destruct (_ <? _)%nat; [rewrite wp_ret; split_and!; [apply untouched_refl|by left|done]|].
  rewrite wp_bind. eapply wp_mono; [by apply run_commands_malformed|]. intros [h e] c' (Hu & He & Hp). cbn [fst snd] in *.
  rewrite wp_ret, errors_or_malformed by done. cbn [option_map]. unfold writer_after. cbn [fst snd]. rewrite Hp.
  split_and!; [done|by apply refusal_result|done].
Qed.

Lemma HandleUnsolicited_malformed c f : settings = ParserSettings.Default -> wp (HandleUnsolicited f objects) c (refused c).
Proof.
  intros Hs. unfold HandleUnsolicited. rewrite wp_bind, <- Hs.
  destruct (Parse_malformed ClassBasedRequestHandler.handler (APDUHandler.init ClassField.default)) as (e & He & Hp).
  eapply wp_lift_some; [exact Hp|]. cbv beta iota. rewrite decide_False, wp_ret by done. split; [apply untouched_refl|by apply refusal_result].
Qed.

Lemma HandleAssignClass_malformed c : settings = ParserSettings.NoContents -> wp (HandleAssignClass objects) c (refused c).
Proof.
  intros Hs. unfold HandleAssignClass. rewrite wp_bind. apply wp_on_outside, wp_ask. intros supported w. destruct supported.
  - rewrite wp_bind, wp_on, <- Hs. apply run_malformed. intros e He. rewrite wp_ret, errors_or_malformed by done.
    split; [exists w; by destruct c|by apply refusal_result].
  - rewrite wp_ret. split; [by exists w|by right; right].
Qed.

(** C25: A request with malformed objects does nothing.  For every function whose handler
    parses the objects, when they do not parse as a whole no handler is called, nothing
    is written to the response, no selection, time, class, mask or indication changes,
    and the response reports the error. *)
Theorem malformed_requests_do_nothing header writer c :
  settings_of (function header) = Some settings ->
  exists c' iin, HandleNonReadResponse header objects writer c = Some (c', (writer, iin)) /\ untouched c c' /\ refusal iin.
Proof.
  intros Hset. enough (HW : wp (HandleNonReadResponse header objects writer) c (fun r c' => r.1 = writer /\ untouched c c' /\ refusal r.2)).
  { apply wp_run in HW as (c' & [w iin] & Hrun & Hw & Hu & Hr). cbn [fst snd] in *. subst w. by exists c', iin. }
  pose proof (untouched_refl c) as Hrefl. unfold HandleNonReadResponse. destruct (function header) eqn:Hf; try done; injection Hset as Hset.
  - rewrite wp_bind. eapply wp_mono; [by apply HandleWrite_malformed|]. intros iin c' [? ?]. by rewrite wp_ret.
  - by apply HandleSelect_malformed.
  - by apply HandleOperate_malformed.
  - rewrite wp_bind. eapply wp_mono; [by apply HandleDirectOperate_malformed|]. intros [w iin] c' (? & ? & Hw). cbn [fst snd] in *. subst w. by rewrite wp_ret.
  - rewrite wp_bind, wp_get. destruct (allowUnsolicited _); [|rewrite wp_ret; split_and!; [done|done|by right; right]].
    rewrite wp_bind. eapply wp_mono; [by apply HandleUnsolicited_malformed|]. intros iin c' [? ?]. by rewrite wp_ret.
  - rewrite wp_bind, wp_get. destruct (allowUnsolicited _); [|rewrite wp_ret; split_and!; [done|done|by right; right]].
    rewrite wp_bind. eapply wp_mono; [by apply HandleUnsolicited_malformed|]. intros iin c' [? ?]. by rewrite wp_ret.
  - rewrite wp_bind. eapply wp_mono; [by apply HandleAssignClass_malformed|]. intros iin c' [? ?]. by rewrite wp_ret.
Qed.

End Malformed.

(** ** A small outstation

    No points, a clock that advances with every question, an application that accepts
    everything. *)

Inductive NoPoints := no_points.

#[export] Instance NoPoints_database : IStaticDatabase NoPoints := {|
  SelectAll _ d := Some (d, IINField.Empty);
  SelectRange _ _ d := Some (d, IINField.of_bit PARAM_ERROR);
  Unselect d := Some d;
  HasAnySelection _ := false;
  Load d := mret (d, true);
  AssignClassToAll _ _ d := Some (d, Range.Invalid);
  AssignClassToRange _ _ _ d := Some (d, Range.Invalid)
|}.

#[export] Instance NoPoints_ok : StaticDatabaseOk NoPoints.
Proof.
  refine {| database_ok (_ : NoPoints) := True |}; try (intros; by eexists _, _).
  - intros d _. by exists d.
  - intros d w _ Hw. split; [done|]. by apply put_nothing.
Defined.

#[export] Instance clock_environment : Environment Z := {|
  GetTime t := (t, t + 1);
  select_command _ _ _ t := (SUCCESS, t);
  operate_command _ _ _ _ t := (SUCCESS, t);
  accepts _ t := (true, t);
  restart_delay _ t := (0, t);
  notice _ t := t;
  SupportsWriteAbsoluteTime t := (true, t);
  SupportsWriteTimeAndInterval t := (true, t);
  SupportsAssignClass t := (true, t);
  ColdRestartSupport t := (UNSUPPORTED, t);
  WarmRestartSupport t := (UNSUPPORTED, t);
  GetApplicationIIN t := (mkApplicationIIN false false false false false, t)
|}.

Definition demo_setup (unsolicited : bool) : OutstationParams :=
  mkOutstationParams 4 5000 5000 5000 64 64 unsolicited ClassField.AllEventClasses false.

Definition master : Addresses := mkAddresses 1 10.

Definition DemoEvent : Type := SessionEvent Sample NoPoints.

Definition demo (unsolicited : bool) (es : list DemoEvent) : option (OContext Sample NoPoints Z) :=
  c ← Outstation.init (mkSample 0 0 0) (mkAddresses 10 1) (AllTypes 5) (demo_setup unsolicited) no_points 0;
  run_session es c.

Lemma demo_setup_ok unsolicited : setup_ok (AllTypes 5) (demo_setup unsolicited) no_points.
Proof. split; [exact sample_config_ok|cbn; lia|cbn; lia|done]. Qed.

Lemma demo_defined unsolicited es :
  Forall session_event_ok es ->
  exists c, demo unsolicited es = Some c /\ reachable_session (AllTypes 5) (demo_setup unsolicited) no_points c.
Proof.
  intros He. pose proof (demo_setup_ok unsolicited) as Hs. set (dflt := mkSample 0 0 0). set (a := mkAddresses 10 1).
  destruct (init_session (W := Z) _ _ _ Hs dflt a 0) as (c0 & Hi & HS & Hc).
  destruct (run_session_spec _ _ _ Hs es c0 HS Hc He) as (c & Hr & _). exists c. unfold demo. fold dflt a. rewrite Hi.
  split; [exact Hr|]. exists dflt, a, 0, es, c0. split; [exact Hi|]. split; [exact He|exact Hr].
Qed.

Lemma demo_fact {A} (f : OContext Sample NoPoints Z -> A) unsolicited es c v :
  demo unsolicited es = Some c -> option_map f (demo unsolicited es) = Some v -> f c = v.
Proof. intros -> [= Hf]. exact Hf. Qed.

(** An event, a read of class 1 and its confirmation. *)
Definition demo_event : DemoEvent := EvUpdate Binary (mkEvent (mkSample 1000 1 0) 3 EC1 EventVariation.Group2Var1).

Definition demo_read : bytes := [192; 1; 60; 2; 6].

Definition demo_confirm : bytes := [192; 0].

Definition demo_reported : list DemoEvent := [EvLowerLayerUp; demo_event; EvReceive master demo_read; EvTxReady].

(** A select and the operate after it, of one control relay output block. *)
Definition demo_control (seq fc : Z) : bytes := [192 + seq; fc; 12; 1; 40; 1; 0; 5; 0; 3; 1; 100; 0; 0; 0; 100; 0; 0; 0; 0].

Definition demo_selected : list DemoEvent := [EvLowerLayerUp; EvReceive master (demo_control 1 3); EvTxReady].

Definition demo_operate : DemoEvent := EvReceive master (demo_control 2 4).

Definition demo_operated : list DemoEvent := demo_selected ++ [demo_operate].

(** A read that waits for the confirmation of the first unsolicited response. *)
Definition demo_waiting : list DemoEvent := [EvLowerLayerUp; EvTxReady; EvReceive master demo_read].

Lemma demo_bytes (l : bytes) : forallb (fun b => (0 <=? b) && (b <? 256)) l = true -> bytes_ok l.
Proof.
  intros Hl. apply List.Forall_forall. intros b Hb. rewrite List.forallb_forall in Hl. specialize (Hl b Hb).
  apply andb_prop in Hl as [?%Z.leb_le ?%Z.ltb_lt]. done.
Qed.

Lemma demo_events_ok : Forall session_event_ok demo_reported /\ Forall session_event_ok demo_operated /\ Forall session_event_ok demo_waiting.
Proof.
  assert (He : session_event_ok demo_event) by (split; [repeat constructor; cbn; unfold is_u16, UInt48_MAX; lia|by intros Ht]).
  unfold demo_reported, demo_operated, demo_selected, demo_operate, demo_waiting. cbn [app]. repeat split; repeat first [apply Forall_nil_2 | apply Forall_cons_2]; try exact I; try exact He; unfold is_u8; lia.
Qed.

Example demo_commands :
  option_map (fun c => List.filter (fun x => negb (is_transmission x)) (calls (outside c))) (demo false demo_operated) =
    Some [Start; Select GroupVariation.Group12Var1 (Fields [3; 1; 100; 100; 0]) 5 SUCCESS; End_;
          Start; Operate GroupVariation.Group12Var1 (Fields [3; 1; 100; 100; 0]) 5 SelectBeforeOperate SUCCESS; End_].
Proof. vm_compute. reflexivity. Qed.

Example demo_responses :
  option_map (fun c => omap (fragment_of RESPONSE) (calls (outside c))) (demo false demo_reported) =
    Some [[224; 129; 128; 0; 2; 1; 40; 1; 0; 3; 0; 1]].
Proof. vm_compute. reflexivity. Qed.

(** *** The properties of this outstation *)

#[local] Abbreviation demo_n := (maxTxFragSize (demo_setup false)).

Lemma outstation_session_invariant_witness : exists c0 c,
  Outstation.init (mkSample 0 0 0) (mkAddresses 10 1) (AllTypes 5) (demo_setup true) no_points 0 = Some c0 /\
  run_session demo_waiting c0 = Some c /\ session (caps_of (AllTypes 5)) 64 c /\ settled c.
Proof.
  apply (outstation_session_invariant (AllTypes 5) (demo_setup true) no_points (mkSample 0 0 0) (mkAddresses 10 1) 0 demo_waiting).
  - apply demo_setup_ok.
  - apply demo_events_ok.
Defined.

Lemma one_transmission_at_a_time_witness : exists c c',
  demo false demo_operated = Some c /\ handle (EvReceive master demo_read) c = Some (c', tt) /\
  isTransmitting c' = true /\ transmissions (calls (outside c')) = transmissions (calls (outside c)).
Proof.
  destruct (demo_defined false demo_operated) as (c & Hc & Hreach); [apply demo_events_ok|].
  pose proof (demo_setup_ok false) as Hs. destruct (reachable_ok _ _ _ Hs c Hreach) as [HS _].
  assert (He : session_event_ok (EvReceive master demo_read : DemoEvent)) by by apply demo_bytes.
  destruct (handle_spec _ _ _ Hs (EvReceive master demo_read) c HS He) as (c' & Hrun & _). exists c, c'. split; [done|]. split; [done|].
  destruct (one_transmission_at_a_time _ _ _ (EvReceive master demo_read) c c' Hs Hreach He Hrun) as [_ Hbusy].
  assert (Htx : isTransmitting c = true) by (apply (demo_fact isTransmitting _ _ _ true Hc); vm_compute; reflexivity).
  destruct (Hbusy Htx ltac:(discriminate) ltac:(discriminate)) as (Ht & Hn & _). split; [exact Ht|exact Hn].
Defined.

Lemma events_leave_when_confirmed_witness : exists c c',
  demo false demo_reported = Some c /\ handle (EvReceive master demo_confirm) c = Some (c', tt) /\
  exists qs qs', contents (eventBuffer c) = Some qs /\ contents (eventBuffer c') = Some qs' /\
    exists rm, map payload qs ≡ₚ map payload qs' ++ map payload rm /\ removed c (EvReceive master demo_confirm) rm.
Proof.
  destruct (demo_defined false demo_reported) as (c & Hc & Hreach); [apply demo_events_ok|].
  pose proof (demo_setup_ok false) as Hs. destruct (reachable_ok _ _ _ Hs c Hreach) as [HS _].
  assert (He : session_event_ok (EvReceive master demo_confirm : DemoEvent)) by by apply demo_bytes.
  destruct (handle_spec _ _ _ Hs (EvReceive master demo_confirm) c HS He) as (c' & Hrun & _). exists c, c'. split; [done|]. split; [done|].
  exact (events_leave_when_confirmed _ _ _ (EvReceive master demo_confirm) c c' Hs Hreach He Hrun).
Defined.

(** The event has left. *)
Example demo_confirmed :
  option_map (fun c => contents (eventBuffer c)) (demo false (demo_reported ++ [EvReceive master demo_confirm])) = Some (Some []).
Proof. vm_compute. reflexivity. Qed.

Definition demo_log (es : list DemoEvent) : list Call := match demo false es with Some c => calls (outside c) | None => [] end.

#[local] Abbreviation demo_start :=
  (Outstation.init (W := Z) (mkSample 0 0 0) (mkAddresses 10 1) (AllTypes 5) (demo_setup false) no_points 0).

Lemma demo_selected_allowed : Forall session_event_ok demo_selected.
Proof. pose proof (proj1 (proj2 demo_events_ok)) as Ho. unfold demo_operated in Ho. by apply Forall_app in Ho as [? _]. Qed.

Lemma demo_start_run es c : demo false es = Some c -> exists c0, demo_start = Some c0 /\ run_session es c0 = Some c.
Proof. unfold demo. destruct demo_start as [c0|]; [|done]. cbn [mbind option_bind]. by exists c0. Qed.

Lemma demo_log_run es c0 c : demo_start = Some c0 -> run_session es c0 = Some c -> demo_log es = calls (outside c).
Proof. intros H1 H2. unfold demo_log, demo. rewrite H1. cbn [mbind option_bind]. by rewrite H2. Qed.

Lemma run_session_then (es : list DemoEvent) e (c0 c c' : OContext Sample NoPoints Z) :
  run_session es c0 = Some c -> handle e c = Some (c', tt) -> run_session (es ++ [e]) c0 = Some c'.
Proof. intros H1 H2. rewrite (run_session_app es [e] c0), H1. cbn [mbind option_bind run_session]. by rewrite H2. Qed.

Lemma demo_operate_runs : exists c0 c c', demo_start = Some c0 /\ run_session demo_selected c0 = Some c /\ handle demo_operate c = Some (c', tt) /\
  demo_log demo_selected = calls (outside c) /\ demo_log (demo_selected ++ [demo_operate]) = calls (outside c').
Proof.
  destruct (demo_defined false demo_selected demo_selected_allowed) as (c & Hc & Hreach).
  pose proof (demo_setup_ok false) as Hs. destruct (reachable_ok _ _ _ Hs c Hreach) as [HS _].
  destruct (handle_spec _ _ _ Hs demo_operate c HS (demo_bytes (demo_control 2 4) eq_refl)) as (c' & Hrun & _).
  destruct (demo_start_run _ _ Hc) as (c0 & Hc0 & Hr). exists c0, c, c'. split; [exact Hc0|]. split; [exact Hr|]. split; [exact Hrun|].
  split; [exact (demo_log_run _ _ _ Hc0 Hr)|exact (demo_log_run _ _ _ Hc0 (run_session_then _ _ _ _ _ Hr Hrun))].
Qed.

(** The OPERATE of the relay, two events after its SELECT and within
    its timeout. *)
Lemma operate_follows_select_witness :
  exists c0 c c' pre x post, demo_start = Some c0 /\ run_session demo_selected c0 = Some c /\ handle demo_operate c = Some (c', tt) /\
    calls (outside c') = calls (outside c) ++ pre ++ x :: post /\ is_sbo_operate x = true /\
    exists r hs command status, taken_up demo_operate c r /\ function (req_header r) = OPERATE /\
      decoded ParserSettings.Default (req_objects r) = Some (hs, OK) /\ command ∈ commands_of hs /\
      x = command_call false SelectBeforeOperate command status /\
     exists es1 e1 es2 c1 c1' r1 hs1 sts1 rest,
      demo_selected = es1 ++ e1 :: es2 /\ run_session es1 c0 = Some c1 /\ handle e1 c1 = Some (c1', tt) /\ taken_up e1 c1 r1 /\
      function (req_header r1) = SELECT /\ decoded ParserSettings.Default (req_objects r1) = Some (hs1, OK) /\
      (let answers := served true DirectOperate (maxControlsPerRequest (demo_setup false)) (commands_of hs1) sts1 in
       let selected_at := (GetTime (world (told answers (outside c1)))).1 in
       calls (outside c1') = calls (outside c1) ++ answers ++ rest /\ statuses_ok (maxControlsPerRequest (demo_setup false)) (commands_of hs1) sts1 /\
       Forall (eq SUCCESS) (take (Z.to_nat (maxControlsPerRequest (demo_setup false))) sts1) /\ SEQ (control (req_header r)) = AppSeqNum_Next (SEQ (control (req_header r1))) /\
       length (req_objects r) = length (req_objects r1) /\ CalcCrc (req_objects r) = CalcCrc (req_objects r1) /\
       selected_at <= (GetTime (world (outside c))).1 < selected_at + selectTimeout (demo_setup false)).
Proof.
  destruct demo_operate_runs as (c0 & c & c' & Hc0 & Hc & Hc' & E1 & E2).
  set (x := Operate GroupVariation.Group12Var1 (Fields [3; 1; 100; 100; 0]) 5 SelectBeforeOperate SUCCESS).
  assert (Hcalls : calls (outside c') = calls (outside c) ++ [Start] ++ x :: drop (length (demo_log demo_selected) + 2) (demo_log (demo_selected ++ [demo_operate]))).
  { rewrite <- E1, <- E2. vm_compute. reflexivity. }
  exists c0, c, c', [Start], x, (drop (length (demo_log demo_selected) + 2) (demo_log (demo_selected ++ [demo_operate]))).
  split; [exact Hc0|]. split; [exact Hc|]. split; [exact Hc'|]. split; [exact Hcalls|]. split; [reflexivity|].
  exact (operate_follows_select _ _ _ (mkSample 0 0 0) (mkAddresses 10 1) 0 demo_selected c0 demo_operate c c' _ x _ (demo_setup_ok false) Hc0
    demo_selected_allowed (demo_bytes (demo_control 2 4) eq_refl) Hc Hc' Hcalls eq_refl).
Defined.

(** A new request, and the same one again. *)
Definition demo_request (payload : bytes) : ParsedRequest :=
  match ParseRequest payload with Some (h, objects) => mkParsedRequest master h objects | None => mkParsedRequest master APDUHeader_default [] end.

Lemma demo_answerable es payload c :
  demo false es = Some c ->
  option_map (fun c => isOnline c && negb (isTransmitting c) && bool_decide (state_ c <> UnsolicitedConfirmWait) &&
    (source (addresses c) =? 10) && (destination (addresses c) =? 1)) (demo false es) = Some true ->
  bytes_ok payload -> ParseRequest payload <> None -> let r := demo_request payload in
  AppControlField.IsFirAndFin (control (req_header r)) && negb (CON (control (req_header r))) && negb (UNS (control (req_header r))) &&
    negb (IsNoAckFuncCode (function (req_header r))) && bool_decide (function (req_header r) <> CONFIRM) = true ->
  answerable c master payload r.
Proof.
  intros Hc Hf Hb Hp r Hr. pose proof (demo_fact _ _ _ _ _ Hc Hf) as Hg. cbv beta in Hg.
  apply andb_prop in Hg as [[[[Hon Htx%negb_true_iff]%andb_prop Hst%bool_decide_eq_true]%andb_prop Hs%Z.eqb_eq]%andb_prop Hd%Z.eqb_eq].
  apply andb_prop in Hr as [[[[Hff Hcon%negb_true_iff]%andb_prop Hu%negb_true_iff]%andb_prop Hna%negb_true_iff]%andb_prop Hnc%bool_decide_eq_true].
  clear Hc Hf. refine (mkAnswerable c master payload r Hon Htx Hb _ Hna Hnc Hu _); [|by intros [_ Hx]].
  subst r. unfold demo_request in *. destruct (ParseRequest payload) as [[h objects]|] eqn:Hpr; [|by destruct Hp].
  exact (mkAccepted c master payload (mkParsedRequest master h objects) eq_refl (eq_sym Hs) (or_intror (eq_sym Hd)) Hpr Hff Hcon).
Qed.

Lemma requests_are_answered_witness : exists c c' pre m ctrl iin data,
  demo false [EvLowerLayerUp; demo_event] = Some c /\ OnReceive master demo_read c = Some (c', true) /\
  calls (outside c') = calls (outside c) ++ pre ++ [BeginTransmit (mkAddresses (source (addresses c)) 1) m] /\ silent pre /\
  (length m <= 64)%nat /\ ParseResponse m = Some (mkAPDUResponseHeader (mkAPDUHeader ctrl RESPONSE) iin, data) /\
  SEQ ctrl = 0 /\ UNS ctrl = false /\ announces (caps_of (AllTypes 5)) c' iin.
Proof.
  assert (Hes : Forall session_event_ok [EvLowerLayerUp; demo_event]) by exact (Forall_take _ 2 _ (proj1 demo_events_ok)).
  destruct (demo_defined false [EvLowerLayerUp; demo_event] Hes) as (c & Hc & Hreach). exists c.
  assert (Ha : answerable c master demo_read (demo_request demo_read)).
  { apply (demo_answerable _ _ _ Hc); [vm_compute; reflexivity|by apply demo_bytes|done|vm_compute; reflexivity]. }
  assert (Hrep : is_repeat (demo_request demo_read) c = false) by (apply (demo_fact (is_repeat (demo_request demo_read)) _ _ _ false Hc); vm_compute; reflexivity).
  destruct (requests_are_answered _ _ _ master demo_read _ c (demo_setup_ok false) Hreach Ha Hrep) as (c' & pre & m & ctrl & iin & data & Hall).
  exists c', pre, m, ctrl, iin, data. split; [exact Hc|exact Hall].
Defined.

Lemma repeated_requests_are_not_executed_witness : exists c o timer m,
  demo false (demo_operated ++ [EvTxReady]) = Some c /\
  OnReceive master (demo_control 2 4) c = Some (set_outside o (set_isTransmitting true (set_confirmTimer timer c)), true) /\
  last_sent RESPONSE (calls (outside c)) = Some m /\
  calls o = calls (outside c) ++ [BeginTransmit (mkAddresses (source (addresses c)) 1) m].
Proof.
  assert (Hes : Forall session_event_ok (demo_operated ++ [EvTxReady])).
  { apply Forall_app_2; [apply demo_events_ok|by repeat constructor]. }
  destruct (demo_defined false _ Hes) as (c & Hc & Hreach). exists c.
  assert (Ha : answerable c master (demo_control 2 4) (demo_request (demo_control 2 4))).
  { apply (demo_answerable _ _ _ Hc); [vm_compute; reflexivity|by apply demo_bytes|done|vm_compute; reflexivity]. }
  assert (Hrep : is_repeat (demo_request (demo_control 2 4)) c = true) by (apply (demo_fact (is_repeat (demo_request (demo_control 2 4))) _ _ _ true Hc); vm_compute; reflexivity).
  destruct (repeated_requests_are_not_executed _ _ _ master (demo_control 2 4) _ c (demo_setup_ok false) Hreach Ha Hrep) as (o & timer & m & Hall).
  exists o, timer, m. split; [exact Hc|exact Hall].
Defined.

Lemma deferred_requests_are_answered_witness : exists c c' pre m ctrl iin data post,
  demo true demo_waiting = Some c /\ state_ c = UnsolicitedConfirmWait /\ run_session [EvTxReady; EvTimer] c = Some c' /\
  calls (outside c') = calls (outside c) ++
    pre ++ BeginTransmit (mkAddresses (source (addresses c)) (source (req_addresses (DeferredRequest.request (deferred c))))) m :: post /\
  ParseResponse m = Some (mkAPDUResponseHeader (mkAPDUHeader ctrl RESPONSE) iin, data) /\
  SEQ ctrl = SEQ (control (req_header (DeferredRequest.request (deferred c)))).
Proof.
  destruct (demo_defined true demo_waiting) as (c & Hc & Hreach); [apply demo_events_ok|]. exists c.
  assert (Hf : isOnline c && DeferredRequest.IsSet (deferred c) && negb (UNS (control (deferred_header (deferred c)))) &&
    bool_decide (function (deferred_header (deferred c)) <> CONFIRM) && bool_decide (state_ c = UnsolicitedConfirmWait) = true).
  { apply (demo_fact (fun c => isOnline c && DeferredRequest.IsSet (deferred c) && negb (UNS (control (deferred_header (deferred c)))) &&
      bool_decide (function (deferred_header (deferred c)) <> CONFIRM) && bool_decide (state_ c = UnsolicitedConfirmWait)) _ _ _ true Hc). vm_compute. reflexivity. }
  apply andb_prop in Hf as [[[[Hon Hset]%andb_prop Hu%negb_true_iff]%andb_prop Hnc%bool_decide_eq_true]%andb_prop Hst%bool_decide_eq_true].
  destruct (deferred_requests_are_answered _ _ _ c (demo_setup_ok true) Hreach Hon Hset Hu Hnc) as (c' & pre & m & ctrl & iin & data & post & Hall).
  exists c', pre, m, ctrl, iin, data, post. split; [exact Hc|]. split; [exact Hst|exact Hall].
Defined.

(** A select whose only object is cut short. *)
Lemma malformed_requests_do_nothing_witness :
  let objects := [12; 1; 40; 1; 0; 5; 0; 3] in
  exists c c' iin, demo false [EvLowerLayerUp] = Some c /\
    HandleNonReadResponse (mkAPDUHeader AppControlField.DEFAULT SELECT) objects (empty_writer 60) c = Some (c', (empty_writer 60, iin)) /\
    untouched c c' /\ refusal iin.
Proof.
  intros objects. destruct (demo_defined false [EvLowerLayerUp]) as (c & Hc & _); [by repeat constructor|]. exists c.
  assert (Hb : bytes_ok objects) by by apply demo_bytes.
  assert (Hbad : forall hs, decoded ParserSettings.Default objects <> Some (hs, OK)) by (intros hs Hd; vm_compute in Hd; discriminate Hd).
  destruct (malformed_requests_do_nothing (M := Sample) (D := NoPoints) (W := Z) objects ParserSettings.Default Hb Hbad
    (mkAPDUHeader AppControlField.DEFAULT SELECT) (empty_writer 60) c eq_refl) as (c' & iin & Hall).
  exists c', iin. split; [exact Hc|exact Hall].
Defined.
