(* ===== verification/Database.v ===== *)
(** * Database: the static data of an outstation (opendnp3/outstation: DatabaseBuffers, Database, IndexSearch, StaticWriters, StaticBuffers, SelectedRanges, Cell)

    An array of cells and a selected range for each kind of point.  A read selects
    cells, which copies their values; [Load] writes the selected cells of a kind from
    the start of its range and stops when the response is full.  [Database] updates
    values and reports events to the event buffer.  Measurements are a parameter. *)

From S2P Require Import Prelude Slices Serialization AppHeader Objects ObjectParser HeaderWriter EventList EventBuffer EventWriters RequestHandlers.
From stdpp Require Import functions.

Open Scope Z_scope.

(** ** Kinds of points *)

(** The classes [BinarySpec], ... *)
Inductive Spec :=
  | BinarySpec
  | DoubleBitBinarySpec
  | CounterSpec
  | FrozenCounterSpec
  | AnalogSpec
  | BinaryOutputStatusSpec
  | AnalogOutputStatusSpec
  | TimeAndIntervalSpec
  | OctetStringSpec.

#[export] Instance Spec_eq_dec : EqDecision Spec.
Proof. solve_decision. Defined.

(** The enumerations [StaticBinaryVariation], ..., with their values in one type. *)
Module StaticVariation.

Inductive t :=
  | Group1Var1 | Group1Var2
  | Group3Var2
  | Group10Var2
  | Group20Var1 | Group20Var2 | Group20Var5 | Group20Var6
  | Group21Var1 | Group21Var2 | Group21Var5 | Group21Var6 | Group21Var9 | Group21Var10
  | Group30Var1 | Group30Var2 | Group30Var3 | Group30Var4 | Group30Var5 | Group30Var6
  | Group40Var1 | Group40Var2 | Group40Var3 | Group40Var4
  | Group50Var4
  | Group110Var0.

End StaticVariation.

#[export] Instance StaticVariation_eq_dec : EqDecision StaticVariation.t.
Proof. solve_decision. Defined.

(** [StaticTypeEnum] *)
Definition StaticTypeEnum (T : Spec) : Z :=
  match T with
  | BinarySpec => 0x1
  | DoubleBitBinarySpec => 0x2
  | CounterSpec => 0x4
  | FrozenCounterSpec => 0x8
  | AnalogSpec => 0x10
  | BinaryOutputStatusSpec => 0x20
  | AnalogOutputStatusSpec => 0x40
  | TimeAndIntervalSpec => 0x80
  | OctetStringSpec => 0x100
  end.

Definition DefaultStaticVariation (T : Spec) : StaticVariation.t :=
  match T with
  | BinarySpec => StaticVariation.Group1Var2
  | DoubleBitBinarySpec => StaticVariation.Group3Var2
  | CounterSpec => StaticVariation.Group20Var1
  | FrozenCounterSpec => StaticVariation.Group21Var1
  | AnalogSpec => StaticVariation.Group30Var1
  | BinaryOutputStatusSpec => StaticVariation.Group10Var2
  | AnalogOutputStatusSpec => StaticVariation.Group40Var1
  | TimeAndIntervalSpec => StaticVariation.Group50Var4
  | OctetStringSpec => StaticVariation.Group110Var0
  end.

(** Times and intervals have no events. *)
Definition EventTypeEnum (T : Spec) : EventType :=
  match T with
  | BinarySpec | TimeAndIntervalSpec => Binary
  | DoubleBitBinarySpec => DoubleBitBinary
  | CounterSpec => Counter
  | FrozenCounterSpec => FrozenCounter
  | AnalogSpec => Analog
  | BinaryOutputStatusSpec => BinaryOutputStatus
  | AnalogOutputStatusSpec => AnalogOutputStatus
  | OctetStringSpec => OctetString
  end.

(** The default of every kind is the first of its enumeration. *)
Definition DefaultEventVariation (T : Spec) : EventVariation.t := EventVariation.zero (EventTypeEnum T).

(** ** Measurements

    What the database does with a value: [value.value] of a binary,
    [BinarySpec::IsQualityOnlineOnly], the [IsEvent] functions with the last event, the
    new value and a deadband, and the assignment of flags. *)
Class StaticMeasurement (M : Type) `{Measurement M} := {
  Deadband : Type;
  no_deadband : Deadband;
  default_value : Spec -> M;
  binary_value : M -> bool;
  IsQualityOnlineOnly : M -> bool;
  IsEvent : Spec -> M -> M -> Deadband -> bool;
  set_flags : Z -> M -> M
}.

(** ** Cells *)

Section Cells.
Context {M : Type} `{StaticMeasurement M}.

(** [Cell] with its [config], [event] and [selection]; a kind without deadbands or
    events does not use those fields. *)
Record Cell := mkCell {
  value : M;
  vIndex : Z;
  svariation : StaticVariation.t;
  clazz : PointClass;
  evariation : EventVariation.t;
  deadband : Deadband;
  lastEvent : M;
  selected : bool;
  sel_value : M;
  sel_variation : StaticVariation.t
}.

Definition Cell_init (T : Spec) : Cell :=
  mkCell (default_value T) 0 (DefaultStaticVariation T) Class1 (DefaultEventVariation T) no_deadband (default_value T) false
    (default_value T) (DefaultStaticVariation T).

Definition set_value (v : M) (c : Cell) : Cell :=
  mkCell v (vIndex c) (svariation c) (clazz c) (evariation c) (deadband c) (lastEvent c) (selected c) (sel_value c) (sel_variation c).

Definition set_vIndex (i : Z) (c : Cell) : Cell :=
  mkCell (value c) i (svariation c) (clazz c) (evariation c) (deadband c) (lastEvent c) (selected c) (sel_value c) (sel_variation c).

Definition set_clazz (p : PointClass) (c : Cell) : Cell :=
  mkCell (value c) (vIndex c) (svariation c) p (evariation c) (deadband c) (lastEvent c) (selected c) (sel_value c) (sel_variation c).

Definition set_lastEvent (v : M) (c : Cell) : Cell :=
  mkCell (value c) (vIndex c) (svariation c) (clazz c) (evariation c) (deadband c) v (selected c) (sel_value c) (sel_variation c).

Definition set_selected (b : bool) (c : Cell) : Cell :=
  mkCell (value c) (vIndex c) (svariation c) (clazz c) (evariation c) (deadband c) (lastEvent c) b (sel_value c) (sel_variation c).

Definition select_as (v : StaticVariation.t) (c : Cell) : Cell :=
  mkCell (value c) (vIndex c) (svariation c) (clazz c) (evariation c) (deadband c) (lastEvent c) true (value c) v.

(** [ArrayView]: an access outside of the array fails its assertion. *)
Definition View_at (view : list Cell) (i : Z) : option Cell := view !! Z.to_nat i.

Definition View_set (view : list Cell) (i : Z) (c : Cell) : list Cell := <[Z.to_nat i := c]> view.

Definition View_Contains (view : list Cell) (i : Z) : bool := i <? Z.of_nat (length view).

(** [view[i]] changed in place. *)
Definition View_update (f : Cell -> Cell) (i : Z) (view : list Cell) : option (list Cell) :=
  c ← View_at view i; Some (View_set view i (f c)).

(** [for (uint16_t i = start; i <= stop; ++i)]; the fuel runs out when [i] wraps. *)
Fixpoint for_loop {S : Type} (fuel : nat) (i stop_ : Z) (body : Z -> S -> option S) (s : S) : option S :=
  if i <=? stop_ then
    match fuel with
    | O => None
    | Datatypes.S fuel => s ← body i s; for_loop fuel (u16 (i + 1)) stop_ body s
    end
  else Some s.

Definition for_range {S : Type} (r : Range) (body : Z -> S -> option S) (s : S) : option S :=
  for_loop (Z.to_nat (stop r - start r + 1)) (start r) (stop r) body s.

End Cells.

Arguments Cell M {_ _}.

(** ** IndexSearch *)

Module IndexSearch.
Section Search.
Context {M : Type} `{StaticMeasurement M}.

(** The result: whether there was a match, and the index. *)
Definition GetMidpoint (lower upper : Z) : Z := u16 ((upper - lower) / 2 + lower).

Fixpoint Find_loop (fuel : nat) (view : list (Cell M)) (v lower upper midpoint : Z) : option (bool * Z) :=
  if lower <=? upper then
    match fuel with
    | O => None
    | Datatypes.S fuel =>
        let midpoint := GetMidpoint lower upper in
        c ← View_at view midpoint;
        if vIndex c =? v then Some (true, midpoint)
        else if vIndex c <? v then
          if lower <? 65535 then Find_loop fuel view v (u16 (midpoint + 1)) upper midpoint else Some (false, midpoint)
        else if (0 <? upper) && (0 <? midpoint) then Find_loop fuel view v lower (u16 (midpoint - 1)) midpoint
        else Some (false, midpoint)
    end
  else Some (false, midpoint).

Definition FindClosestRawIndex (view : list (Cell M)) (v : Z) : option (bool * Z) :=
  match view with
  | [] => Some (false, 0)
  | _ => Find_loop (length view) view v 0 (Z.of_nat (length view) - 1) 0
  end.

Definition FindRawRange (view : list (Cell M)) (range : Range) : option Range :=
  if Range.IsValid range && (0 <? Z.of_nat (length view)) then
    '(_, first) ← FindClosestRawIndex view (start range);
    '(_, last) ← FindClosestRawIndex view (stop range);
    c ← View_at view first;
    if (vIndex c <? start range) && negb (first <? 65535) then Some Range.Invalid
    else
      let first := if vIndex c <? start range then u16 (first + 1) else first in
      c ← View_at view last;
      if (stop range <? vIndex c) && negb (0 <? last) then Some Range.Invalid
      else
        let last := if stop range <? vIndex c then u16 (last - 1) else last in
        Some (if View_Contains view first && View_Contains view last then Range.From first last else Range.Invalid)
  else Some Range.Invalid.

End Search.
End IndexSearch.

(** ** StaticWriters *)

Module StaticWriters.
Section Writers.
Context {M : Type} `{StaticMeasurement M}.

(** What a write function returns: the view and the range, which are references, and
    whether there is space left. *)
Abbreviation func_t := (list (Cell M) -> Range -> WM (list (Cell M) * Range * bool)).

(** The condition of the loops: the cell at the start of the range continues the run. *)
Definition continues (view : list (Cell M)) (range : Range) (variation : StaticVariation.t) (nextIndex : Z) : option bool :=
  if Range.IsValid range then
    c ← View_at view (start range);
    Some (selected c && bool_decide (sel_variation c = variation) && (vIndex c =? nextIndex))
  else Some false.

(** The loops of [LoadWithRangeIterator] and [LoadWithBitfieldIterator], which differ
    in how they write a value. *)
Fixpoint load_loop {It : Type} (write : It -> M -> WM (It * bool)) (fuel : nat) (variation : StaticVariation.t)
    (view : list (Cell M)) (iterator : It) (range : Range) (nextIndex : Z) : WM (list (Cell M) * It * Range * bool) :=
  go ← lift (continues view range variation nextIndex);
  if (go : bool) then
    match fuel with
    | O => lift None
    | Datatypes.S fuel =>
        c ← lift (View_at view (start range));
        '(iterator, ok) ← write iterator (sel_value c);
        if (ok : bool) then
          view ← lift (View_update (set_selected false) (start range) view);
          load_loop write fuel variation view iterator (Range.Advance range).1 (u16 (nextIndex + 1))
        else mret (view, iterator, range, false)
    end
  else mret (view, iterator, range, true).

(** The first cell is selected by a reference; only its [selected] changes. *)
Definition load_with {It : Type} (write : It -> M -> WM (It * bool)) (view : list (Cell M)) (iterator : It) (range : Range)
    : WM (list (Cell M) * It * Range * bool) :=
  c ← lift (View_at view (start range));
  load_loop write (Z.to_nat (Range.Count range)) (sel_variation c) view iterator range (vIndex c).

Definition LoadWithRangeIterator (IndexType : Serializer) (gv : GroupVariation.t) :=
  load_with (fun it m => RangeWriteIterator.Write IndexType it (WriteTarget gv m)).

Definition LoadWithBitfieldIterator (IndexType : Serializer) :=
  load_with (fun it m => BitfieldRangeWriteIterator.Write IndexType it (binary_value m)).

(** The range with the indices of the points in place of those of the array. *)
Definition mapped_range (view : list (Cell M)) (range : Range) : option Range :=
  c1 ← View_at view (start range);
  c2 ← View_at view (stop range);
  Some (Range.From (vIndex c1) (vIndex c2)).

Definition WriteSingleBitfield (gv : GroupVariation.t) : func_t := fun view range =>
  mapped ← lift (mapped_range view range);
  if Range.IsOneByte mapped then
    iter ← HeaderWriter.IterateOverSingleBitfield UInt8 (ID gv) UINT8_START_STOP (u8 (start mapped));
    '(view, iter, range, ok) ← LoadWithBitfieldIterator UInt8 view iter range;
    _ ← BitfieldRangeWriteIterator.destroy UInt8 iter;
    mret (view, range, ok)
  else
    iter ← HeaderWriter.IterateOverSingleBitfield UInt16 (ID gv) UINT16_START_STOP (start mapped);
    '(view, iter, range, ok) ← LoadWithBitfieldIterator UInt16 view iter range;
    _ ← BitfieldRangeWriteIterator.destroy UInt16 iter;
    mret (view, range, ok).

Definition WriteWithSerializer (gv : GroupVariation.t) : func_t := fun view range =>
  mapped ← lift (mapped_range view range);
  if Range.IsOneByte mapped then
    iter ← HeaderWriter.IterateOverRange UInt8 UINT8_START_STOP (Inst gv) (u8 (start mapped));
    '(view, iter, range, ok) ← LoadWithRangeIterator UInt8 gv view iter range;
    _ ← RangeWriteIterator.destroy UInt8 iter;
    mret (view, range, ok)
  else
    iter ← HeaderWriter.IterateOverRange UInt16 UINT16_START_STOP (Inst gv) (start mapped);
    '(view, iter, range, ok) ← LoadWithRangeIterator UInt16 gv view iter range;
    _ ← RangeWriteIterator.destroy UInt16 iter;
    mret (view, range, ok).

(** The count of the strings that were written is a [uint16_t]. *)
Fixpoint octets_loop (fuel : nat) (IndexType : Serializer) (view : list (Cell M)) (iterator : RangeWriteIterator.t) (range : Range)
    (size : Z) (num_written : Z) : WM (RangeWriteIterator.t * Range * Z) :=
  if Range.IsValid range then
    match fuel with
    | O => lift None
    | Datatypes.S fuel =>
        c ← lift (View_at view (start range));
        if negb (Size_ (sel_value c) =? size) then mret (iterator, range, num_written)
        else
          '(iterator, ok) ← RangeWriteIterator.Write IndexType iterator (WriteTarget GroupVariation.Group110Var0 (sel_value c));
          if (ok : bool) then octets_loop fuel IndexType view iterator (Range.Advance range).1 size (u16 (num_written + 1))
          else mret (iterator, range, num_written)
    end
  else mret (iterator, range, num_written).

Definition WriteSomeOctetString (IndexType : Serializer) (view : list (Cell M)) (iterator : RangeWriteIterator.t) (range : Range)
    (size : Z) : WM (RangeWriteIterator.t * Range * Z) :=
  octets_loop (Z.to_nat (Range.Count range)) IndexType view iterator range size 0.

Fixpoint Write_loop (fuel : nat) (view : list (Cell M)) (range : Range) : WM (Range * bool) :=
  if Range.IsValid range then
    match fuel with
    | O => lift None
    | Datatypes.S fuel =>
        c ← lift (View_at view (start range));
        let sizeStartingSize := Size_ (sel_value c) in
        let serializer := OctetStringSerializer.init false sizeStartingSize in
        if Range.IsOneByte range then
          iter ← HeaderWriter.IterateOverRange UInt8 UINT8_START_STOP serializer (u8 (start range));
          '(iter, range, num_written) ← WriteSomeOctetString UInt8 view iter range sizeStartingSize;
          _ ← RangeWriteIterator.destroy UInt8 iter;
          if num_written =? 0 then mret (range, false) else Write_loop fuel view range
        else
          iter ← HeaderWriter.IterateOverRange UInt16 UINT16_START_STOP serializer (start range);
          '(iter, range, num_written) ← WriteSomeOctetString UInt16 view iter range sizeStartingSize;
          _ ← RangeWriteIterator.destroy UInt16 iter;
          if num_written =? 0 then mret (range, false) else Write_loop fuel view range
    end
  else mret (range, true).

(** Octet strings. *)
Definition Write : func_t := fun view range =>
  '(range, ok) ← Write_loop (Z.to_nat (Range.Count range)) view range;
  mret (view, range, ok).

(** The overloads of [Get]. *)
Definition Get (T : Spec) (variation : StaticVariation.t) : func_t :=
  match T with
  | BinarySpec =>
      match variation with
      | StaticVariation.Group1Var1 => WriteSingleBitfield GroupVariation.Group1Var1
      | _ => WriteWithSerializer GroupVariation.Group1Var2
      end
  | DoubleBitBinarySpec => WriteWithSerializer GroupVariation.Group3Var2
  | AnalogSpec =>
      match variation with
      | StaticVariation.Group30Var1 => WriteWithSerializer GroupVariation.Group30Var1
      | StaticVariation.Group30Var2 => WriteWithSerializer GroupVariation.Group30Var2
      | StaticVariation.Group30Var3 => WriteWithSerializer GroupVariation.Group30Var3
      | StaticVariation.Group30Var4 => WriteWithSerializer GroupVariation.Group30Var4
      | StaticVariation.Group30Var5 => WriteWithSerializer GroupVariation.Group30Var5
      | StaticVariation.Group30Var6 => WriteWithSerializer GroupVariation.Group30Var6
      | _ => WriteWithSerializer GroupVariation.Group30Var1
      end
  | CounterSpec =>
      match variation with
      | StaticVariation.Group20Var1 => WriteWithSerializer GroupVariation.Group20Var1
      | StaticVariation.Group20Var2 => WriteWithSerializer GroupVariation.Group20Var2
      | StaticVariation.Group20Var5 => WriteWithSerializer GroupVariation.Group20Var5
      | StaticVariation.Group20Var6 => WriteWithSerializer GroupVariation.Group20Var6
      | _ => WriteWithSerializer GroupVariation.Group20Var1
      end
  | FrozenCounterSpec => WriteWithSerializer GroupVariation.Group21Var1
  | BinaryOutputStatusSpec => WriteWithSerializer GroupVariation.Group10Var2
  | AnalogOutputStatusSpec =>
      match variation with
      | StaticVariation.Group40Var1 => WriteWithSerializer GroupVariation.Group40Var1
      | StaticVariation.Group40Var2 => WriteWithSerializer GroupVariation.Group40Var2
      | StaticVariation.Group40Var3 => WriteWithSerializer GroupVariation.Group40Var3
      | StaticVariation.Group40Var4 => WriteWithSerializer GroupVariation.Group40Var4
      | _ => WriteWithSerializer GroupVariation.Group40Var1
      end
  | OctetStringSpec => Write
  | TimeAndIntervalSpec => WriteWithSerializer GroupVariation.Group50Var4
  end.

End Writers.
End StaticWriters.

(** ** DatabaseBuffers *)

Inductive IndexMode := Contiguous | Discontiguous.

#[export] Instance IndexMode_eq_dec : EqDecision IndexMode.
Proof. solve_decision. Defined.

(** [SelectedRanges]: the ranges of the kinds, and that of the security statistics,
    which nothing selects. *)
Record SelectedRanges := mkSelectedRanges { range_of_kind : Spec -> Range; securityStats : Range }.

Module SelectedRanges.

Definition init : SelectedRanges := mkSelectedRanges (fun _ => Range.Invalid) Range.Invalid.

Definition Get (T : Spec) (r : SelectedRanges) : Range := range_of_kind r T.

Definition Set_ (T : Spec) (range : Range) (r : SelectedRanges) : SelectedRanges :=
  mkSelectedRanges (<[T := range]> (range_of_kind r)) (securityStats r).

Definition Merge (T : Spec) (range : Range) (r : SelectedRanges) : SelectedRanges := Set_ T (Range.Union (Get T r) range) r.

Definition Clear (T : Spec) (r : SelectedRanges) : SelectedRanges := Set_ T Range.Invalid r.

Definition HasAnySelection (r : SelectedRanges) : bool :=
  Range.IsValid (Get BinarySpec r) ||
  Range.IsValid (Get DoubleBitBinarySpec r) ||
  Range.IsValid (Get AnalogSpec r) ||
  Range.IsValid (Get CounterSpec r) ||
  Range.IsValid (Get FrozenCounterSpec r) ||
  Range.IsValid (Get BinaryOutputStatusSpec r) ||
  Range.IsValid (Get AnalogOutputStatusSpec r) ||
  Range.IsValid (Get TimeAndIntervalSpec r) ||
  Range.IsValid (Get OctetStringSpec r) ||
  Range.IsValid (securityStats r).

End SelectedRanges.

(** [StaticBuffers] is a view for each kind; [class0] is the mask of a [StaticTypeBitField]. *)
Record DatabaseBuffers (M : Type) `{StaticMeasurement M} := mkDatabaseBuffers {
  buffers : Spec -> list (Cell M);
  class0 : Z;
  indexMode : IndexMode;
  ranges : SelectedRanges
}.

Arguments mkDatabaseBuffers {M _ _}.

Arguments buffers {M _ _}.

Arguments class0 {M _ _}.

Arguments indexMode {M _ _}.

Arguments ranges {M _ _}.

Module DatabaseBuffers.
Section Buffers.
Context {M : Type} `{StaticMeasurement M}.

#[local] Abbreviation DB := (DatabaseBuffers M).

(** [StaticBuffers::SetDefaultIndices]; the index has 16 bits. *)
Definition SetDefaultIndices (view : list (Cell M)) : list (Cell M) := imap (fun i c => set_vIndex (u16 (Z.of_nat i)) c) view.

(** [DatabaseSizes] are 16-bit numbers. *)
Definition init (dbSizes : Spec -> nat) (class0 : Z) (indexMode : IndexMode) : DB :=
  mkDatabaseBuffers (fun T => SetDefaultIndices (replicate (dbSizes T) (Cell_init T))) class0 indexMode SelectedRanges.init.

Definition set_view (T : Spec) (view : list (Cell M)) (d : DB) : DB :=
  mkDatabaseBuffers (<[T := view]> (buffers d)) (class0 d) (indexMode d) (ranges d).

Definition set_ranges (r : SelectedRanges) (d : DB) : DB := mkDatabaseBuffers (buffers d) (class0 d) (indexMode d) r.

Definition Size_of (T : Spec) (d : DB) : Z := Z.of_nat (length (buffers d T)).

(** [StaticTypeBitField::IsSet] *)
Definition IsSet (mask type : Z) : bool := negb (Z.land mask type =? 0).

Definition Deselect (T : Spec) (d : DB) : option DB :=
  let range := SelectedRanges.Get T (ranges d) in
  if Range.IsValid range then
    view ← for_range range (View_update (set_selected false)) (buffers d T);
    Some (set_ranges (SelectedRanges.Clear T (ranges d)) (set_view T view d))
  else Some d.

Definition Unselect (d : DB) : option DB :=
  d ← Deselect BinarySpec d;
  d ← Deselect DoubleBitBinarySpec d;
  d ← Deselect CounterSpec d;
  d ← Deselect FrozenCounterSpec d;
  d ← Deselect AnalogSpec d;
  d ← Deselect BinaryOutputStatusSpec d;
  d ← Deselect AnalogOutputStatusSpec d;
  d ← Deselect TimeAndIntervalSpec d;
  Some d.

Definition RangeOf (size : Z) : Range := if 0 <? size then Range.From 0 (u16 (size - 1)) else Range.Invalid.

Definition CheckForPromotion (T : Spec) (value : M) (variation : StaticVariation.t) : StaticVariation.t :=
  match T with
  | BinarySpec =>
      if bool_decide (variation = StaticVariation.Group1Var1)
      then if IsQualityOnlineOnly value then variation else StaticVariation.Group1Var2
      else variation
  | _ => variation
  end.

(** The body of the loop of [GenericSelect]; [None] for the variation uses the default. *)
Definition select_one (T : Spec) (variation : option StaticVariation.t) (i : Z) (s : list (Cell M) * IINField)
    : option (list (Cell M) * IINField) :=
  let '(view, ret) := s in
  c ← View_at view i;
  if selected c then Some (view, IINField.or ret (IINField.of_bit PARAM_ERROR))
  else Some (View_set view i (select_as (CheckForPromotion T (value c) (default (svariation c) variation)) c), ret).

Definition GenericSelect (T : Spec) (range : Range) (variation : option StaticVariation.t) (d : DB) : option (DB * IINField) :=
  if Range.IsValid range then
    let allowed := Range.Intersection range (RangeOf (Size_of T d)) in
    if Range.IsValid allowed then
      let ret := if Range.Equals allowed range then IINField.Empty else IINField.of_bit PARAM_ERROR in
      '(view, ret) ← for_range allowed (select_one T variation) (buffers d T, ret);
      Some (set_ranges (SelectedRanges.Merge T allowed (ranges d)) (set_view T view d), ret)
    else Some (d, IINField.of_bit PARAM_ERROR)
  else Some (d, IINField.Empty).

Definition SelectAll_of (T : Spec) (d : DB) : option (DB * IINField) := GenericSelect T (RangeOf (Size_of T d)) None d.

Definition SelectAllUsing (T : Spec) (variation : StaticVariation.t) (d : DB) : option (DB * IINField) :=
  GenericSelect T (RangeOf (Size_of T d)) (Some variation) d.

Definition SelectAllClass0 (T : Spec) (d : DB) : option DB :=
  if IsSet (class0 d) (StaticTypeEnum T) then '(d, _) ← SelectAll_of T d; Some d else Some d.

Definition SelectVirtualRange (T : Spec) (range : Range) (variation : option StaticVariation.t) (d : DB) : option (DB * IINField) :=
  match indexMode d with
  | Discontiguous =>
      mapped ← IndexSearch.FindRawRange (buffers d T) range;
      if Range.IsValid mapped then
        let clipped := if Range.Count range =? Range.Count mapped then IINField.Empty else IINField.of_bit PARAM_ERROR in
        '(d, iin) ← GenericSelect T mapped variation d;
        Some (d, IINField.or clipped iin)
      else Some (d, IINField.of_bit PARAM_ERROR)
  | Contiguous => GenericSelect T range variation d
  end.

Definition SelectRange_of (T : Spec) (range : Range) (d : DB) : option (DB * IINField) := SelectVirtualRange T range None d.

Definition SelectRangeUsing (T : Spec) (range : Range) (variation : StaticVariation.t) (d : DB) : option (DB * IINField) :=
  SelectVirtualRange T range (Some variation) d.

Definition SelectAll (gv : GroupVariation.t) (d : DB) : option (DB * IINField) :=
  match gv with
  | GroupVariation.Group60Var1 =>
      d ← SelectAllClass0 BinarySpec d;
      d ← SelectAllClass0 DoubleBitBinarySpec d;
      d ← SelectAllClass0 CounterSpec d;
      d ← SelectAllClass0 FrozenCounterSpec d;
      d ← SelectAllClass0 AnalogSpec d;
      d ← SelectAllClass0 BinaryOutputStatusSpec d;
      d ← SelectAllClass0 AnalogOutputStatusSpec d;
      d ← SelectAllClass0 OctetStringSpec d;
      d ← SelectAllClass0 TimeAndIntervalSpec d;
      Some (d, IINField.Empty)
  | GroupVariation.Group1Var0 => SelectAll_of BinarySpec d
  | GroupVariation.Group1Var1 => SelectAllUsing BinarySpec StaticVariation.Group1Var1 d
  | GroupVariation.Group1Var2 => SelectAllUsing BinarySpec StaticVariation.Group1Var2 d
  | GroupVariation.Group3Var0 => SelectAll_of DoubleBitBinarySpec d
  | GroupVariation.Group3Var2 => SelectAllUsing DoubleBitBinarySpec StaticVariation.Group3Var2 d
  | GroupVariation.Group10Var0 => SelectAll_of BinaryOutputStatusSpec d
  | GroupVariation.Group10Var2 => SelectAllUsing BinaryOutputStatusSpec StaticVariation.Group10Var2 d
  | GroupVariation.Group20Var0 => SelectAll_of CounterSpec d
  | GroupVariation.Group20Var1 => SelectAllUsing CounterSpec StaticVariation.Group20Var1 d
  | GroupVariation.Group20Var2 => SelectAllUsing CounterSpec StaticVariation.Group20Var2 d
  | GroupVariation.Group20Var5 => SelectAllUsing CounterSpec StaticVariation.Group20Var5 d
  | GroupVariation.Group20Var6 => SelectAllUsing CounterSpec StaticVariation.Group20Var6 d
  | GroupVariation.Group21Var0 => SelectAll_of FrozenCounterSpec d
  | GroupVariation.Group21Var1 => SelectAllUsing FrozenCounterSpec StaticVariation.Group21Var1 d
  | GroupVariation.Group21Var2 => SelectAllUsing FrozenCounterSpec StaticVariation.Group21Var2 d
  | GroupVariation.Group21Var5 => SelectAllUsing FrozenCounterSpec StaticVariation.Group21Var5 d
  | GroupVariation.Group21Var6 => SelectAllUsing FrozenCounterSpec StaticVariation.Group21Var6 d
  | GroupVariation.Group21Var9 => SelectAllUsing FrozenCounterSpec StaticVariation.Group21Var9 d
  | GroupVariation.Group21Var10 => SelectAllUsing FrozenCounterSpec StaticVariation.Group21Var10 d
  | GroupVariation.Group30Var0 => SelectAll_of AnalogSpec d
  | GroupVariation.Group30Var1 => SelectAllUsing AnalogSpec StaticVariation.Group30Var1 d
  | GroupVariation.Group30Var2 => SelectAllUsing AnalogSpec StaticVariation.Group30Var2 d
  | GroupVariation.Group30Var3 => SelectAllUsing AnalogSpec StaticVariation.Group30Var3 d
  | GroupVariation.Group30Var4 => SelectAllUsing AnalogSpec StaticVariation.Group30Var4 d
  | GroupVariation.Group30Var5 => SelectAllUsing AnalogSpec StaticVariation.Group30Var5 d
  | GroupVariation.Group30Var6 => SelectAllUsing AnalogSpec StaticVariation.Group30Var6 d
  | GroupVariation.Group40Var0 => SelectAll_of AnalogOutputStatusSpec d
  | GroupVariation.Group40Var1 => SelectAllUsing AnalogOutputStatusSpec StaticVariation.Group40Var1 d
  | GroupVariation.Group40Var2 => SelectAllUsing AnalogOutputStatusSpec StaticVariation.Group40Var2 d
  | GroupVariation.Group40Var3 => SelectAllUsing AnalogOutputStatusSpec StaticVariation.Group40Var3 d
  | GroupVariation.Group40Var4 => SelectAllUsing AnalogOutputStatusSpec StaticVariation.Group40Var4 d
  | GroupVariation.Group50Var4 => SelectAllUsing TimeAndIntervalSpec StaticVariation.Group50Var4 d
  | GroupVariation.Group110Var0 => SelectAll_of OctetStringSpec d
  | _ => Some (d, IINField.of_bit FUNC_NOT_SUPPORTED)
  end.

Definition SelectRange (gv : GroupVariation.t) (range : Range) (d : DB) : option (DB * IINField) :=
  match gv with
  | GroupVariation.Group1Var0 => SelectRange_of BinarySpec range d
  | GroupVariation.Group1Var1 => SelectRangeUsing BinarySpec range StaticVariation.Group1Var1 d
  | GroupVariation.Group1Var2 => SelectRangeUsing BinarySpec range StaticVariation.Group1Var2 d
  | GroupVariation.Group3Var0 => SelectRange_of DoubleBitBinarySpec range d
  | GroupVariation.Group3Var2 => SelectRangeUsing DoubleBitBinarySpec range StaticVariation.Group3Var2 d
  | GroupVariation.Group10Var0 => SelectRange_of BinaryOutputStatusSpec range d
  | GroupVariation.Group10Var2 => SelectRangeUsing BinaryOutputStatusSpec range StaticVariation.Group10Var2 d
  | GroupVariation.Group20Var0 => SelectRange_of CounterSpec range d
  | GroupVariation.Group20Var1 => SelectRangeUsing CounterSpec range StaticVariation.Group20Var1 d
  | GroupVariation.Group20Var2 => SelectRangeUsing CounterSpec range StaticVariation.Group20Var2 d
  | GroupVariation.Group20Var5 => SelectRangeUsing CounterSpec range StaticVariation.Group20Var5 d
  | GroupVariation.Group20Var6 => SelectRangeUsing CounterSpec range StaticVariation.Group20Var6 d
  | GroupVariation.Group21Var0 => SelectRange_of FrozenCounterSpec range d
  | GroupVariation.Group21Var1 => SelectRangeUsing FrozenCounterSpec range StaticVariation.Group21Var1 d
  | GroupVariation.Group21Var2 => SelectRangeUsing FrozenCounterSpec range StaticVariation.Group21Var2 d
  | GroupVariation.Group21Var5 => SelectRangeUsing FrozenCounterSpec range StaticVariation.Group21Var5 d
  | GroupVariation.Group21Var6 => SelectRangeUsing FrozenCounterSpec range StaticVariation.Group21Var6 d
  | GroupVariation.Group21Var9 => SelectRangeUsing FrozenCounterSpec range StaticVariation.Group21Var9 d
  | GroupVariation.Group21Var10 => SelectRangeUsing FrozenCounterSpec range StaticVariation.Group21Var10 d
  | GroupVariation.Group30Var0 => SelectRange_of AnalogSpec range d
  | GroupVariation.Group30Var1 => SelectRangeUsing AnalogSpec range StaticVariation.Group30Var1 d
  | GroupVariation.Group30Var2 => SelectRangeUsing AnalogSpec range StaticVariation.Group30Var2 d
  | GroupVariation.Group30Var3 => SelectRangeUsing AnalogSpec range StaticVariation.Group30Var3 d
  | GroupVariation.Group30Var4 => SelectRangeUsing AnalogSpec range StaticVariation.Group30Var4 d
  | GroupVariation.Group30Var5 => SelectRangeUsing AnalogSpec range StaticVariation.Group30Var5 d
  | GroupVariation.Group30Var6 => SelectRangeUsing AnalogSpec range StaticVariation.Group30Var6 d
  | GroupVariation.Group40Var0 => SelectRange_of AnalogOutputStatusSpec range d
  | GroupVariation.Group40Var1 => SelectRangeUsing AnalogOutputStatusSpec range StaticVariation.Group40Var1 d
  | GroupVariation.Group40Var2 => SelectRangeUsing AnalogOutputStatusSpec range StaticVariation.Group40Var2 d
  | GroupVariation.Group40Var3 => SelectRangeUsing AnalogOutputStatusSpec range StaticVariation.Group40Var3 d
  | GroupVariation.Group40Var4 => SelectRangeUsing AnalogOutputStatusSpec range StaticVariation.Group40Var4 d
  | GroupVariation.Group50Var4 => SelectRangeUsing TimeAndIntervalSpec range StaticVariation.Group50Var4 d
  | GroupVariation.Group110Var0 => SelectRangeUsing OctetStringSpec range StaticVariation.Group110Var0 d
  | _ => Some (d, IINField.of_bit FUNC_NOT_SUPPORTED)
  end.

(** The loop of [LoadType]. *)
Fixpoint load_type (T : Spec) (fuel : nat) (view : list (Cell M)) (range : Range) : WM (list (Cell M) * Range * bool) :=
  if Range.IsValid range then
    match fuel with
    | O => lift None
    | Datatypes.S fuel =>
        c ← lift (View_at view (start range));
        if selected c then
          '(view, range, spaceRemaining) ← StaticWriters.Get T (sel_variation c) view range;
          if (spaceRemaining : bool) then load_type T fuel view range else mret (view, range, false)
        else load_type T fuel view (Range.Advance range).1
    end
  else mret (view, range, true).

Definition LoadType (T : Spec) (d : DB) : WM (DB * bool) :=
  let range := SelectedRanges.Get T (ranges d) in
  if Range.IsValid range then
    '(view, range, spaceRemaining) ← load_type T (Z.to_nat (Range.Count range)) (buffers d T) range;
    mret (set_ranges (SelectedRanges.Set_ T range (ranges d)) (set_view T view d), spaceRemaining)
  else mret (d, true).

(** The order of the table of functions. *)
Definition load_order : list Spec :=
  [BinarySpec; DoubleBitBinarySpec; CounterSpec; FrozenCounterSpec; AnalogSpec; BinaryOutputStatusSpec; AnalogOutputStatusSpec;
   TimeAndIntervalSpec; OctetStringSpec].

Fixpoint load_all (Ts : list Spec) (d : DB) : WM (DB * bool) :=
  match Ts with
  | [] => mret (d, true)
  | T :: Ts =>
      '(d, ok) ← LoadType T d;
      if negb ok then mret (d, false) else load_all Ts d
  end.

Definition Load (d : DB) : WM (DB * bool) := load_all load_order d.

Definition HasAnySelection (d : DB) : bool := SelectedRanges.HasAnySelection (ranges d).

Definition AssignClassTo (T : Spec) (clazz_ : PointClass) (range : Range) (d : DB) : option (DB * Range) :=
  let clipped := Range.Intersection range (RangeOf (Size_of T d)) in
  view ← for_range clipped (View_update (set_clazz clazz_)) (buffers d T);
  Some (set_view T view d, clipped).

(** The kinds of points whose class can be assigned. *)
Definition assigned (type : AssignClassType) : Spec :=
  match type with
  | BinaryInput => BinarySpec
  | DoubleBinaryInput => DoubleBitBinarySpec
  | CounterInput => CounterSpec
  | FrozenCounterInput => FrozenCounterSpec
  | AnalogInput => AnalogSpec
  | BinaryOutputStatusInput => BinaryOutputStatusSpec
  | AnalogOutputStatusInput => AnalogOutputStatusSpec
  end.

Definition AssignClassToRange (type : AssignClassType) (clazz_ : PointClass) (range : Range) (d : DB) : option (DB * Range) :=
  AssignClassTo (assigned type) clazz_ range d.

Definition AssignClassToAll (type : AssignClassType) (clazz_ : PointClass) (d : DB) : option (DB * Range) :=
  AssignClassToRange type clazz_ (RangeOf (Size_of (assigned type) d)) d.

End Buffers.
End DatabaseBuffers.

(** ** Database *)

Inductive EventMode := Detect | Force | Suppress | EventOnly.

(** The kinds of points with flags. *)
Module FlagsType.

Inductive t := DoubleBinaryInput | Counter | FrozenCounter | AnalogInput | BinaryOutputStatus | AnalogOutputStatus | BinaryInput.

End FlagsType.

#[export] Instance EventMode_eq_dec : EqDecision EventMode.
Proof. solve_decision. Defined.

(** [IndexMode] is kept twice. *)
Record Database (M : Type) `{StaticMeasurement M} := mkDatabase { db_indexMode : IndexMode; db_buffers : DatabaseBuffers M }.

Arguments mkDatabase {M _ _}.

Arguments db_indexMode {M _ _}.

Arguments db_buffers {M _ _}.

Module Database.
Section Points.
Context {M : Type} `{StaticMeasurement M}.

(** The database and the event buffer it reports to. *)
#[local] Abbreviation DM := (SM (Database M * EventBuffer M)).

Definition init (dbSizes : Spec -> nat) (indexMode : IndexMode) (allowedClass0Types : Z) : Database M :=
  mkDatabase indexMode (DatabaseBuffers.init dbSizes allowedClass0Types indexMode).

Definition set_view (T : Spec) (view : list (Cell M)) (d : Database M) : Database M :=
  mkDatabase (db_indexMode d) (DatabaseBuffers.set_view T view (db_buffers d)).

Definition GetArrayView (T : Spec) : DM (list (Cell M)) := get (fun s => buffers (db_buffers s.1) T).

Definition ConvertToEventClass (pc : PointClass) : option EventClass :=
  match pc with
  | Class1 => Some EC1
  | Class2 => Some EC2
  | Class3 => Some EC3
  | Class0 => None
  end.

Definition GetRawIndex (T : Spec) (index : Z) : DM Z :=
  s ← get (fun s => s.1);
  match db_indexMode s with
  | Contiguous => mret index
  | Discontiguous =>
      '(found, i) ← lift (IndexSearch.FindClosestRawIndex (buffers (db_buffers s) T) index);
      mret (if (found : bool) then i else 65535)
  end.

(** [eventReceiver->Update] *)
Definition report (T : Spec) (e : Event M) : DM unit := fun s =>
  b ← EventBuffer.UpdateAny (EventTypeEnum T) e s.2; Some ((s.1, b), tt).

(** A cell of the array, changed in place. *)
Definition update_cell (T : Spec) (i : Z) (f : Cell M -> Cell M) : DM unit :=
  view ← GetArrayView T;
  view ← lift (View_update f i view);
  modify (fun s => (set_view T view s.1, s.2)).

Definition TryCreateEvent (T : Spec) (i : Z) (v : M) : DM unit :=
  view ← GetArrayView T;
  c ← lift (View_at view i);
  match ConvertToEventClass (clazz c) with
  | Some ec =>
      _ ← update_cell T i (set_lastEvent v);
      report T (mkEvent v (vIndex c) ec (evariation c))
  | None => mret tt
  end.

Definition UpdateAny (T : Spec) (i : Z) (v : M) (mode : EventMode) : DM unit :=
  view ← GetArrayView T;
  c ← lift (View_at view i);
  _ ← match mode with
      | Force | EventOnly => TryCreateEvent T i v
      | Detect => if IsEvent T (lastEvent c) v (deadband c) then TryCreateEvent T i v else mret tt
      | Suppress => mret tt
      end;
  if bool_decide (mode = EventOnly) then mret tt else update_cell T i (set_value v).

Definition UpdateEvent (T : Spec) (v : M) (index : Z) (mode : EventMode) : DM bool :=
  rawIndex ← GetRawIndex T index;
  view ← GetArrayView T;
  if View_Contains view rawIndex then
    _ ← UpdateAny T rawIndex v mode;
    mret true
  else mret false.

(** The overload for times and intervals. *)
Definition UpdateTimeAndInterval (v : M) (index : Z) : DM bool :=
  rawIndex ← GetRawIndex TimeAndIntervalSpec index;
  view ← GetArrayView TimeAndIntervalSpec;
  if View_Contains view rawIndex then
    _ ← update_cell TimeAndIntervalSpec rawIndex (set_value v);
    mret true
  else mret false.

(** The overloads of [Update]. *)
Definition Update (T : Spec) (v : M) (index : Z) (mode : EventMode) : DM bool :=
  match T with
  | TimeAndIntervalSpec => UpdateTimeAndInterval v index
  | _ => UpdateEvent T v index mode
  end.

(** The loop of [Modify]; the index has 16 bits. *)
Fixpoint modify_loop (fuel : nat) (T : Spec) (i rawStop : Z) (flags : Z) : DM unit :=
  if i <=? rawStop then
    match fuel with
    | O => lift None
    | Datatypes.S fuel =>
        view ← GetArrayView T;
        c ← lift (View_at view i);
        _ ← UpdateAny T i (set_flags flags (value c)) Detect;
        modify_loop fuel T (u16 (i + 1)) rawStop flags
    end
  else mret tt.

Definition Modify_of (T : Spec) (start stop flags : Z) : DM bool :=
  rawStart ← GetRawIndex T start;
  rawStop ← GetRawIndex T stop;
  view ← GetArrayView T;
  if View_Contains view rawStart && View_Contains view rawStop && (rawStart <=? rawStop) then
    _ ← modify_loop (Z.to_nat (rawStop - rawStart + 1)) T rawStart rawStop flags;
    mret true
  else mret false.

Definition Modify (type : FlagsType.t) (start stop flags : Z) : DM bool :=
  match type with
  | FlagsType.BinaryInput => Modify_of BinarySpec start stop flags
  | FlagsType.DoubleBinaryInput => Modify_of DoubleBitBinarySpec start stop flags
  | FlagsType.AnalogInput => Modify_of AnalogSpec start stop flags
  | FlagsType.Counter => Modify_of CounterSpec start stop flags
  | FlagsType.FrozenCounter => Modify_of FrozenCounterSpec start stop flags
  | FlagsType.BinaryOutputStatus => Modify_of BinaryOutputStatusSpec start stop flags
  | FlagsType.AnalogOutputStatus => Modify_of AnalogOutputStatusSpec start stop flags
  end.

(** What the selector, the loader and the assigner do is done to the buffers. *)
Definition on_buffers {A} (f : DatabaseBuffers M -> option (DatabaseBuffers M * A)) (d : Database M) : option (Database M * A) :=
  '(b, a) ← f (db_buffers d); Some (mkDatabase (db_indexMode d) b, a).

Definition Load (d : Database M) : WM (Database M * bool) :=
  '(b, ok) ← DatabaseBuffers.Load (db_buffers d); mret (mkDatabase (db_indexMode d) b, ok).

Definition Unselect (d : Database M) : option (Database M) :=
  b ← DatabaseBuffers.Unselect (db_buffers d); Some (mkDatabase (db_indexMode d) b).

End Points.
End Database.

#[export] Instance Database_interfaces {M : Type} `{StaticMeasurement M} : IStaticDatabase (Database M) := {|
  SelectAll gv := Database.on_buffers (DatabaseBuffers.SelectAll gv);
  SelectRange gv range := Database.on_buffers (DatabaseBuffers.SelectRange gv range);
  Unselect := Database.Unselect;
  HasAnySelection d := DatabaseBuffers.HasAnySelection (db_buffers d);
  Load := Database.Load;
  AssignClassToAll type c := Database.on_buffers (DatabaseBuffers.AssignClassToAll type c);
  AssignClassToRange type c range := Database.on_buffers (DatabaseBuffers.AssignClassToRange type c range)
|}.
