(* ===== verification/DatabaseSpecs.v ===== *)
(** * DatabaseSpecs: what the database does

    The range of a kind of point and its array are described by a split of the array:
    the cells before the range, those in it and those after it.  The loops of
    [DatabaseBuffers] and [StaticWriters] are given by what they do to these lists.
    [Database_ok] is the promise of [RequestSpecs.StaticDatabaseOk], on which the
    session relies. *)

From S2P Require Import Prelude Slices Serialization LinkFrame AppHeader Objects ObjectParser HeaderWriter HeaderRoundtrip EventList EventBuffer EventWriters EventResponse OutstationState RequestHandlers RequestSpecs Database.
From stdpp Require Import functions.
From Stdlib Require Import ZifyNat.

Open Scope Z_scope.

(** ** Arrays and ranges *)

(** The range of [n] cells from [i] on, as [Range::Advance] leaves it. *)
Definition span (i n : nat) : Range := match n with O => Range.Invalid | _ => mkRange (Z.of_nat i) (Z.of_nat (i + n) - 1) end.

Section Spans.
Context {M : Type} `{StaticMeasurement M}.
Implicit Types (c : Cell M) (pre cells post view : list (Cell M)).

Lemma span_valid i n : Range.IsValid (span i n) = negb (n =? 0)%nat.
Proof. unfold Range.IsValid, span. destruct n; cbn [start stop Range.Invalid Nat.eqb negb]; [done|]. apply Z.leb_le. lia. Qed.

Lemma span_count i n : Z.of_nat n <= 65535 -> Z.to_nat (Range.Count (span i n)) = n.
Proof.
  intros Hn. unfold Range.Count. rewrite span_valid. destruct n as [|n]; [done|]. cbn [Nat.eqb negb span start stop].
  replace (Z.of_nat (i + S n) - 1 - Z.of_nat i + 1) with (Z.of_nat (S n)) by lia. unfold u32. rewrite Z.mod_small by lia. lia.
Qed.

Lemma span_start i n : start (span i (S n)) = Z.of_nat i.
Proof. done. Qed.

Lemma span_advance i n : Z.of_nat (i + n) < 65535 -> (Range.Advance (span i (S n))).1 = span (S i) n.
Proof.
  intros Hn. unfold Range.Advance. rewrite span_valid. cbn [Nat.eqb negb]. cbn [span start stop].
  destruct (Z.ltb_spec (Z.of_nat i) (Z.of_nat (i + S n) - 1)); cbn [fst].
  - destruct n as [|n]; [lia|]. unfold u16. rewrite Z.mod_small by lia. cbn [span]. f_equal; lia.
  - by destruct n as [|n]; [|lia].
Qed.

Lemma View_at_app pre c post : View_at (pre ++ c :: post) (Z.of_nat (length pre)) = Some c.
Proof. unfold View_at. rewrite Nat2Z.id. by apply list_lookup_middle. Qed.

Lemma View_set_app pre c c' post : View_set (pre ++ c :: post) (Z.of_nat (length pre)) c' = pre ++ c' :: post.
Proof. unfold View_set. rewrite Nat2Z.id. by rewrite insert_app_r_alt, Nat.sub_diag by done. Qed.

Lemma View_update_app f pre c post : View_update f (Z.of_nat (length pre)) (pre ++ c :: post) = Some (pre ++ f c :: post).
Proof. unfold View_update. rewrite View_at_app. cbn [mbind option_bind]. by rewrite View_set_app. Qed.

(** A loop over a range whose body changes the cell and a state. *)
Lemma for_range_map {St T} (body : Z -> St -> option St) (inj : list (Cell M) -> T -> St) (f : Cell M -> Cell M) (g : T -> Cell M -> T) :
  (forall pre c post t, body (Z.of_nat (length pre)) (inj (pre ++ c :: post) t) = Some (inj (pre ++ f c :: post) (g t c))) ->
  forall pre cells post t, Z.of_nat (length (pre ++ cells ++ post)) <= 65535 ->
  for_range (span (length pre) (length cells)) body (inj (pre ++ cells ++ post) t) = Some (inj (pre ++ map f cells ++ post) (foldl g t cells)).
Proof.
  intros Hb pre cells post t Hl. unfold for_range. destruct cells as [|c cells]; [done|]. cbn [length]. rewrite span_start. cbn [span stop].
  replace (Z.to_nat _) with (length (c :: cells)) by (cbn [length]; lia).
  replace (Z.of_nat (length pre + S (length cells)) - 1) with (Z.of_nat (length pre + length (c :: cells)) - 1) by (cbn [length]; lia).
  revert Hl. generalize (c :: cells). clear c cells. intros cells. revert pre t. induction cells as [|c cells IH]; intros pre t Hl; cbn [for_loop length].
  { destruct (Z.leb_spec (Z.of_nat (length pre)) (Z.of_nat (length pre + 0) - 1)); [lia|done]. }
  destruct (Z.leb_spec (Z.of_nat (length pre)) (Z.of_nat (length pre + S (length cells)) - 1)); [|lia].
  cbn [app]. rewrite Hb. cbn [mbind option_bind map foldl]. specialize (IH (pre ++ [f c]) (g t c)). rewrite !length_app in *. cbn [length] in *.
  rewrite <- !app_assoc in IH. cbn [app] in IH. unfold u16. rewrite Z.mod_small by lia.
  replace (Z.of_nat (length pre) + 1) with (Z.of_nat (length pre + 1)) by lia.
  replace (length pre + S (length cells))%nat with (length pre + 1 + length cells)%nat by lia. apply IH. lia.
Qed.

Lemma for_range_update f pre cells post :
  Z.of_nat (length (pre ++ cells ++ post)) <= 65535 ->
  for_range (span (length pre) (length cells)) (View_update f) (pre ++ cells ++ post) = Some (pre ++ map f cells ++ post).
Proof.
  intros Hl. apply (for_range_map (View_update f) (fun view (_ : unit) => view) f (fun t _ => t)) with (t := tt); [|done].
  intros. apply View_update_app.
Qed.

Lemma for_range_invalid {St} r (body : Z -> St -> option St) s : Range.IsValid r = false -> for_range r body s = Some s.
Proof.
  unfold for_range, Range.IsValid. intros Hr. destruct (Z.to_nat _); cbn [for_loop]; by rewrite Hr.
Qed.

(** Every part of an array is a split of it. *)
Lemma split_view view i n :
  (i + n <= length view)%nat -> exists pre cells post, view = pre ++ cells ++ post /\ length pre = i /\ length cells = n.
Proof.
  intros Hl. exists (take i view), (take n (drop i view)), (drop n (drop i view)). rewrite !take_drop. split; [done|]. len.
Qed.

(** A range clipped to the array. *)
Lemma clipped_span r (size : nat) :
  range_ok r -> Z.of_nat size <= 65535 -> let allowed := Range.Intersection r (DatabaseBuffers.RangeOf (Z.of_nat size)) in
  Range.IsValid allowed = true -> exists i n, allowed = span i (S n) /\ (i + S n <= size)%nat.
Proof.
  unfold range_ok, Range.Intersection, DatabaseBuffers.RangeOf, Range.IsValid, is_u16. intros Hr Hs.
  destruct (Z.ltb_spec 0 (Z.of_nat size)); cbn [Range.From Range.Invalid start stop].
  - unfold u16. rewrite Z.mod_small by lia. intros Hv. apply Z.leb_le in Hv.
    exists (Z.to_nat (Z.max (start r) 0)), (Z.to_nat (Z.min (stop r) (Z.of_nat size - 1) - Z.max (start r) 0)).
    split; [cbn [span]; f_equal; lia|lia].
  - intros Hv. apply Z.leb_le in Hv. lia.
Qed.

End Spans.

(** ** Values of points *)

(** The object in which a selected point is reported: that of the writer which
    [StaticWriters::Get] returns for the variation.  The variation itself where it has a
    writer; the default of the switch otherwise, which for the kinds with one writer
    (double-bit binaries, frozen counters, output statuses, times, octet strings) is all
    there is: frozen counters selected as Group21Var2, 5, 6, 9 or 10 are reported as
    Group21Var1. *)
Definition static_object (T : Spec) (variation : StaticVariation.t) : GroupVariation.t :=
  match T with
  | BinarySpec =>
      match variation with StaticVariation.Group1Var1 => GroupVariation.Group1Var1 | _ => GroupVariation.Group1Var2 end
  | DoubleBitBinarySpec => GroupVariation.Group3Var2
  | CounterSpec =>
      match variation with
      | StaticVariation.Group20Var2 => GroupVariation.Group20Var2
      | StaticVariation.Group20Var5 => GroupVariation.Group20Var5
      | StaticVariation.Group20Var6 => GroupVariation.Group20Var6
      | _ => GroupVariation.Group20Var1
      end
  | FrozenCounterSpec => GroupVariation.Group21Var1
  | AnalogSpec =>
      match variation with
      | StaticVariation.Group30Var2 => GroupVariation.Group30Var2
      | StaticVariation.Group30Var3 => GroupVariation.Group30Var3
      | StaticVariation.Group30Var4 => GroupVariation.Group30Var4
      | StaticVariation.Group30Var5 => GroupVariation.Group30Var5
      | StaticVariation.Group30Var6 => GroupVariation.Group30Var6
      | _ => GroupVariation.Group30Var1
      end
  | BinaryOutputStatusSpec => GroupVariation.Group10Var2
  | AnalogOutputStatusSpec =>
      match variation with
      | StaticVariation.Group40Var2 => GroupVariation.Group40Var2
      | StaticVariation.Group40Var3 => GroupVariation.Group40Var3
      | StaticVariation.Group40Var4 => GroupVariation.Group40Var4
      | _ => GroupVariation.Group40Var1
      end
  | TimeAndIntervalSpec => GroupVariation.Group50Var4
  | OctetStringSpec => GroupVariation.Group110Var0
  end.

(** Binaries in g1v1 are packed bits. *)
Definition is_packed (gv : GroupVariation.t) : bool := bool_decide (gv = GroupVariation.Group1Var1).

(** What static measurements promise: the conversion to an object class that reports
    their kind fits its fields, an octet string has at most 255 bytes. *)
Class StaticMeasurementOk (M : Type) `{StaticMeasurement M} := {
  static_ok : Spec -> M -> Prop;
  default_ok T : static_ok T (default_value T);
  flags_ok T m flags : static_ok T m -> is_u8 flags -> static_ok T (set_flags flags m);
  static_fits T m v : static_ok T m -> T <> OctetStringSpec -> is_packed (static_object T v) = false ->
    value_fits (Class (static_object T v)) (WriteTarget (static_object T v) m);
  static_octets m : static_ok OctetStringSpec m ->
    value_fits (OctetStatic (Size_ m)) (WriteTarget GroupVariation.Group110Var0 m)
}.

(** ** Writing a run of cells *)

Section Runs.
Context {M : Type} `{StaticMeasurementOk M}.
Implicit Types (c : Cell M) (pre cells post view : list (Cell M)) (w : Writer).

(** The cells that one header reports: selected for one variation, with consecutive
    indices. *)
Fixpoint run_cells (variation : StaticVariation.t) (next : Z) cells : list (Cell M) :=
  match cells with
  | c :: cells =>
      if selected c && bool_decide (sel_variation c = variation) && (vIndex c =? next)
      then c :: run_cells variation (u16 (next + 1)) cells else []
  | [] => []
  end.

Lemma continues_app pre cells post variation next :
  StaticWriters.continues (pre ++ cells ++ post) (span (length pre) (length cells)) variation next =
  Some match cells with
       | c :: _ => selected c && bool_decide (sel_variation c = variation) && (vIndex c =? next)
       | [] => false
       end.
Proof.
  unfold StaticWriters.continues. rewrite span_valid. destruct cells as [|c cells]; [done|].
  cbn [length Nat.eqb negb app]. by rewrite span_start, View_at_app.
Qed.

(** The loop writes the run, as far as there is room, and deselects what it wrote. *)
Lemma load_loop_wp {It} (write : It -> M -> WM (It * bool)) variation cells : forall pre post it next w Q,
  Z.of_nat (length (pre ++ cells ++ post)) <= 65535 ->
  wp (put_all (fun it c => write it (sel_value c)) it (run_cells variation next cells)) w (fun r w' =>
    Q (pre ++ map (set_selected false) (take r.2 cells) ++ drop r.2 cells ++ post, r.1, span (length pre + r.2) (length cells - r.2),
       (r.2 =? length (run_cells variation next cells))%nat) w') ->
  wp (StaticWriters.load_loop write (length cells) variation (pre ++ cells ++ post) it (span (length pre) (length cells)) next) w Q.
Proof.
  induction cells as [|c cells IH]; intros pre post it next w Q Hl; cbn [StaticWriters.load_loop length run_cells].
  { rewrite wp_bind, wp_lift. intros HQ. eexists. rewrite (continues_app pre [] post). split; [done|]. cbv iota. rewrite wp_ret.
    cbn [put_all] in HQ. rewrite wp_ret in HQ. by rewrite Nat.add_0_r in HQ. }
  intros HQ. rewrite wp_bind, wp_lift. eexists. rewrite (continues_app pre (c :: cells) post). split; [done|].
  destruct (selected c && _ && _) eqn:Hc.
  2:{ rewrite wp_ret. cbn [put_all] in HQ. rewrite wp_ret in HQ. by rewrite Nat.add_0_r in HQ. }
  rewrite wp_bind, wp_lift. exists c. split; [apply View_at_app|]. cbn [put_all] in HQ. rewrite wp_bind in HQ. rewrite wp_bind.
  eapply wp_mono; [exact HQ|]. cbv beta. clear HQ. intros [it1 ok] w1 HQ. destruct ok.
  2:{ rewrite wp_ret in HQ. rewrite wp_ret. cbn [fst snd take map drop app length] in HQ. by rewrite Nat.add_0_r in HQ. }
  rewrite wp_bind, wp_lift. eexists. split; [apply View_update_app|]. rewrite !length_app in Hl. cbn [length] in Hl.
  rewrite span_advance by lia. specialize (IH (pre ++ [set_selected false c]) post it1 (u16 (next + 1)) w1 Q).
  rewrite <- !app_assoc, !length_app in IH. cbn [app length] in IH. rewrite Nat.add_1_r in IH. apply IH; [lia|]. clear IH.
  rewrite wp_bind in HQ. eapply wp_mono; [exact HQ|]. cbv beta. intros [it2 n] w2. rewrite wp_ret. cbn [fst snd take map drop app length Nat.sub Nat.eqb].
  by rewrite <- Nat.add_succ_comm, <- (app_assoc pre).
Qed.

Lemma put_all_map {It X Y} (step : It -> Y -> WM (It * bool)) (f : X -> Y) xs : forall it w,
  put_all (fun it x => step it (f x)) it xs w = put_all step it (map f xs) w.
Proof.
  induction xs as [|x xs IH]; intros it w; [done|]. cbn [put_all map]. unfold mbind, SM_bind.
  destruct (step it (f x) w) as [[w1 [it1 ok]]|]; [|done]. destruct ok; [|done]. by rewrite IH.
Qed.

(** The width of the indices of a header. *)
Definition width_of (r : Range) : Width := if Range.IsOneByte r then W8 else W16.

(** After [n] of the cells of the range were written. *)
Definition written_view pre cells post (n : nat) : list (Cell M) :=
  pre ++ map (set_selected false) (take n cells) ++ drop n cells ++ post.

Lemma mapped_range_app pre c cells post :
  exists c', (exists cs, c :: cells = cs ++ [c']) /\
  StaticWriters.mapped_range (pre ++ (c :: cells) ++ post) (span (length pre) (length (c :: cells))) = Some (mkRange (vIndex c) (vIndex c')).
Proof.
  destruct (exists_last (l := c :: cells) ltac:(done)) as (cs & c' & Heq). exists c'.
  split; [by exists cs|]. unfold StaticWriters.mapped_range. cbn [length]. rewrite span_start. cbn [app].
  rewrite View_at_app. cbn [mbind option_bind span stop].
  replace (Z.of_nat (length pre + S (length cells)) - 1) with (Z.of_nat (length (pre ++ cs))).
  2:{ assert (Hl : length (c :: cells) = length (cs ++ [c'])) by by rewrite Heq. rewrite length_app in *. cbn [length] in Hl. lia. }
  change (pre ++ c :: cells ++ post) with (pre ++ (c :: cells) ++ post). rewrite Heq, <- !app_assoc. cbn [app].
  rewrite (app_assoc pre cs), View_at_app. done.
Qed.

(** Between the iterator that is opened and its destructor. *)
Lemma load_with_wp {It X} (step : It -> X -> WM (It * bool)) (f : M -> X) (destroy : It -> WM unit) pre c cells post it w Q :
  Z.of_nat (length (pre ++ (c :: cells) ++ post)) <= 65535 ->
  let run := run_cells (sel_variation c) (vIndex c) (c :: cells) in
  wp ('(it, n) ← put_all step it (map (fun c => f (sel_value c)) run); _ ← destroy it; mret n) w
    (fun n w' => Q (written_view pre (c :: cells) post n, span (length pre + n) (length (c :: cells) - n), (n =? length run)%nat) w') ->
  wp ('(view, it, range, ok) ← StaticWriters.load_with (fun it m => step it (f m)) (pre ++ (c :: cells) ++ post) it (span (length pre) (length (c :: cells)));
      _ ← destroy it; mret (view, range, ok)) w Q.
Proof.
  intros Hl run HQ. rewrite wp_bind. unfold StaticWriters.load_with. rewrite wp_bind, wp_lift. exists c.
  split; [exact (View_at_app pre c (cells ++ post))|]. rewrite span_count by (rewrite !length_app in Hl; lia). apply load_loop_wp; [exact Hl|].
  unfold wp at 1. rewrite (put_all_map step (fun c => f (sel_value c))). rewrite wp_bind in HQ. eapply wp_mono; [exact HQ|]. cbv beta.
  intros [it1 n] w1. rewrite !wp_bind. intros HD. eapply wp_mono; [exact HD|]. cbv beta. intros _ w2. by rewrite !wp_ret.
Qed.

Lemma WriteWithSerializer_wp gv pre c cells post w Q :
  Z.of_nat (length (pre ++ (c :: cells) ++ post)) <= 65535 -> is_u16 (vIndex c) ->
  (forall c', (exists cs, c :: cells = cs ++ [c']) -> let run := run_cells (sel_variation c) (vIndex c) (c :: cells) in
   wp (perform (WValues (width_of (mkRange (vIndex c) (vIndex c'))) (Class gv) (vIndex c) (map (fun c => WriteTarget gv (sel_value c)) run))) w
     (fun n w' => Q (written_view pre (c :: cells) post n, span (length pre + n) (length (c :: cells) - n), (n =? length run)%nat) w')) ->
  wp (StaticWriters.WriteWithSerializer gv (pre ++ (c :: cells) ++ post) (span (length pre) (length (c :: cells)))) w Q.
Proof.
  intros Hl Hi HQ. destruct (mapped_range_app pre c cells post) as (c' & Hin & Hm). specialize (HQ c' Hin). cbv zeta in HQ.
  unfold StaticWriters.WriteWithSerializer. rewrite wp_bind, wp_lift. eexists. split; [exact Hm|]. unfold width_of in HQ. cbn [start].
  destruct (Range.IsOneByte _) eqn:Ho; cbn [perform index_type range_qualifier serializer_of] in HQ; rewrite wp_bind in HQ; rewrite wp_bind.
  - unfold Range.IsOneByte in Ho. cbn [start stop] in Ho. unfold is_u16 in Hi. unfold u8. rewrite Z.mod_small by lia.
    eapply wp_mono; [exact HQ|]. cbv beta. intros it w1 HQ1. by apply load_with_wp.
  - eapply wp_mono; [exact HQ|]. cbv beta. intros it w1 HQ1. by apply load_with_wp.
Qed.

Lemma WriteSingleBitfield_wp gv pre c cells post w Q :
  Z.of_nat (length (pre ++ (c :: cells) ++ post)) <= 65535 -> is_u16 (vIndex c) ->
  (forall c', (exists cs, c :: cells = cs ++ [c']) -> let run := run_cells (sel_variation c) (vIndex c) (c :: cells) in
   wp (perform (WBits (width_of (mkRange (vIndex c) (vIndex c'))) gv (vIndex c) (map (fun c => binary_value (sel_value c)) run))) w
     (fun n w' => Q (written_view pre (c :: cells) post n, span (length pre + n) (length (c :: cells) - n), (n =? length run)%nat) w')) ->
  wp (StaticWriters.WriteSingleBitfield gv (pre ++ (c :: cells) ++ post) (span (length pre) (length (c :: cells)))) w Q.
Proof.
  intros Hl Hi HQ. destruct (mapped_range_app pre c cells post) as (c' & Hin & Hm). specialize (HQ c' Hin). cbv zeta in HQ.
  unfold StaticWriters.WriteSingleBitfield. rewrite wp_bind, wp_lift. eexists. split; [exact Hm|]. unfold width_of in HQ. cbn [start].
  destruct (Range.IsOneByte _) eqn:Ho; cbn [perform index_type range_qualifier serializer_of] in HQ; rewrite wp_bind in HQ; rewrite wp_bind.
  - unfold Range.IsOneByte in Ho. cbn [start stop] in Ho. unfold is_u16 in Hi. unfold u8. rewrite Z.mod_small by lia.
    eapply wp_mono; [exact HQ|]. cbv beta. intros it w1 HQ1. by apply load_with_wp.
  - eapply wp_mono; [exact HQ|]. cbv beta. intros it w1 HQ1. by apply load_with_wp.
Qed.

End Runs.

(** ** What is reported *)

(** The points that a use of the writer reports. *)
Definition reported_by (req : Request) : list (GroupVariation.t * Z * Value) :=
  match req with
  | WValues _ k start vs => imap (fun j v => (kind_enum k, start + Z.of_nat j, v)) vs
  | WBits _ gv start bits => imap (fun j b => (gv, start + Z.of_nat j, Bit b)) bits
  | _ => []
  end.

(** The first [n] objects of a request. *)
Definition truncate (req : Request) (n : nat) : Request :=
  match req with
  | WValues i k start vs => WValues i k start (take n vs)
  | WBits i gv start bits => WBits i gv start (take n bits)
  | _ => req
  end.

Definition is_static (req : Request) : Prop :=
  match req with
  | WValues _ (Class gv) _ _ => range_object gv = true
  | WValues _ (OctetStatic n) _ _ => 0 <= n < 256
  | WBits _ gv _ _ => bit_object gv = true
  | _ => False
  end.

Section Reports.

(** The values of a request fit. *)
Definition values_ok (req : Request) : Prop := match req with WValues _ k _ vs => Forall (value_fits k) vs | _ => True end.

Lemma values_of_ok req : request_ok req -> values_ok req.
Proof. destruct req; try done. by intros (_ & _ & _ & Hf). Qed.

Lemma truncate_ok req n : is_static req -> request_ok req -> (0 < n <= objects req)%nat -> request_ok (truncate req n).
Proof.
  destruct req as [| | | | | |i k start vs|i gv start bits|]; try done; cbn [truncate request_ok objects]; intros _.
  - intros (Hne & Ha & Hb & Hf) Hn. split_and!; [|lia|len|by apply Forall_take]. intros He. apply (f_equal length) in He. rewrite length_take in He. cbn in He. lia.
  - intros (Hne & Ha & Hb & Hf) Hn. split_and!; [|lia|len|len]. intros He. apply (f_equal length) in He. rewrite length_take in He. cbn in He. lia.
Qed.

Lemma truncate_objects req n : is_static req -> (n <= objects req)%nat -> objects (truncate req n) = n.
Proof. destruct req; try done; cbn; len. Qed.

Lemma truncate_static req n : is_static req -> is_static (truncate req n).
Proof. by destruct req. Qed.

Lemma truncate_encode req n : is_static req -> encode_request (truncate req n) n = encode_request req n.
Proof. destruct req; try done; intros _; cbn [truncate encode_request]; by rewrite take_take, Nat.min_id. Qed.

(** The bytes of one more object. *)
Lemma encode_one_more req n :
  is_static req -> values_ok req -> (n < objects req)%nat ->
  (length (encode_request req (S n)) <= length (if decide (n = 0) then [] else encode_request req n) + 262)%nat.
Proof.
  intros Hs Hok Hn. destruct req as [| | | | | |i k start vs|i gv start bits|]; try done; cbn [encode_request objects] in *.
  - rename Hok into Hf. cbn [values_ok] in Hf. destruct (lookup_lt_is_Some_2 vs n Hn) as [v Hv]. rewrite (take_S_r _ _ _ Hv), concat_map_snoc.
    assert (Hk : (kind_size k <= 255)%nat).
    { destruct k as [gv|m|m]; cbn [is_static] in Hs; [|cbn; lia|done]. destruct gv; try discriminate Hs; cbn; lia. }
    rewrite !length_app, !index_length, (encode_value_length k v) by (by rewrite Forall_lookup in Hf; apply (Hf n)). pose proof (index_size i). destruct (decide _) as [->|]; cbn [length encode_header take map concat];
      rewrite ?take_0, ?length_app, ?index_length; cbn [length encode_header map concat]; lia.
  - rewrite !length_app, !index_length, pack_length. pose proof (index_size i). destruct (decide _) as [->|]; cbn [length encode_header].
    + rewrite length_take. lia.
    + rewrite !length_app, !index_length, pack_length, !length_take. cbn [length encode_header]. lia.
Qed.

End Reports.

(** *** Between two states of a writer, points were reported *)

Definition reported (w w' : Writer) (pts : list (GroupVariation.t * Z * Value)) : Prop :=
  exists reqs, Forall request_ok reqs /\ Forall is_static reqs /\ concat (map reported_by reqs) = pts /\ wrote w w' (encode_all reqs).

Section Reported.

Lemma reported_refl w : wwf w -> reported w w [].
Proof. intros Hw. exists []. split_and!; [done..|]. by apply wrote_nil. Qed.

Lemma reported_trans w w1 w2 p1 p2 : reported w w1 p1 -> reported w1 w2 p2 -> reported w w2 (p1 ++ p2).
Proof.
  intros (r1 & O1 & S1 & <- & W1) (r2 & O2 & S2 & <- & W2). exists (r1 ++ r2). rewrite encode_all_app, map_app, concat_app.
  split_and!; [by apply Forall_app_2..|done|]. by eapply wrote_trans.
Qed.

Lemma reported_wf w w' pts : wwf w -> reported w w' pts -> wwf w'.
Proof. intros Hw (reqs & _ & _ & _ & W). by eapply wrote_wf. Qed.

(** A request of which [n] objects found room. *)
Lemma performed_reported req w n w' :
  wwf w -> is_static req -> values_ok req -> ((0 < n <= objects req)%nat -> request_ok (truncate req n)) -> performed req w n w' ->
  (n <= objects req)%nat /\ reported w w' (reported_by (truncate req n)) /\
  ((n < objects req)%nat -> (v_size (position w') < 262)%nat).
Proof.
  intros Hw Hs Hv Hok (Hn & Hfull & W). split; [done|]. split.
  - destruct (decide (n = 0%nat)) as [->|Hn0].
    + replace (reported_by (truncate req 0)) with (@nil (GroupVariation.t * Z * Value)) by by destruct req. exists []. by split_and!.
    + exists [truncate req n]. split_and!.
      * constructor; [|done]. apply Hok. lia.
      * constructor; [|done]. by apply truncate_static.
      * cbn. apply app_nil_r.
      * unfold encode_all. cbn [map encode_requests]. rewrite truncate_objects, decide_False, truncate_encode, app_nil_r by done. done.
  - intros Hlt. specialize (Hfull Hlt). pose proof (encode_one_more req n Hs Hv Hlt) as Hl. rewrite (wrote_size _ _ _ W).
    destruct W as (Hl' & _). lia.
Qed.

End Reported.

(** ** One write function *)

Section Writes.
Context {M : Type} `{StaticMeasurementOk M}.
Implicit Types (c : Cell M) (pre cells post view : list (Cell M)) (w : Writer).

(** The configuration gives the points of a kind increasing indices. *)
Definition increasing view : Prop := forall i j ci cj,
  (i < j)%nat -> view !! i = Some ci -> view !! j = Some cj -> vIndex ci < vIndex cj.

Record cell_ok (T : Spec) c : Prop := mkCellOk {
  ce_vIndex : is_u16 (vIndex c);
  ce_value : static_ok T (value c);
  ce_selected : static_ok T (sel_value c)
}.

Definition static_value (gv : GroupVariation.t) (m : M) : Value :=
  if is_packed gv then Bit (binary_value m) else WriteTarget gv m.

(** A selected cell is reported with its index and the value it had when it was
    selected; octet strings with their place in the array, and from the first that is
    selected on all of them. *)
Definition point (T : Spec) c : GroupVariation.t * Z * Value :=
  let gv := static_object T (sel_variation c) in (gv, vIndex c, static_value gv (sel_value c)).

Definition all_octets (i : nat) cells : list (GroupVariation.t * Z * Value) :=
  imap (fun j c => (GroupVariation.Group110Var0, Z.of_nat i + Z.of_nat j, WriteTarget GroupVariation.Group110Var0 (sel_value c))) cells.

Fixpoint octet_points (i : nat) cells : list (GroupVariation.t * Z * Value) :=
  match cells with
  | c :: cells' => if selected c then all_octets i cells else octet_points (S i) cells'
  | [] => []
  end.

Definition points (T : Spec) (i : nat) cells : list (GroupVariation.t * Z * Value) :=
  match T with
  | OctetStringSpec => octet_points i cells
  | _ => map (point T) (List.filter selected cells)
  end.

(** The cells of one kind after [n] of the range were written. *)
Definition after_write (T : Spec) pre cells post (n : nat) : list (Cell M) :=
  match T with OctetStringSpec => pre ++ cells ++ post | _ => written_view pre cells post n end.

Lemma lookup_map {A B} (f : A -> B) l j : map f l !! j = f <$> l !! j.
Proof. apply list_lookup_fmap. Qed.

Lemma increasing_app pre view : increasing (pre ++ view) -> increasing view.
Proof.
  intros Hi i j ci cj Hij Hci Hcj. apply (Hi (length pre + i)%nat (length pre + j)%nat ci cj); [lia|..];
    rewrite lookup_app_r by lia; [rewrite <- Hci|rewrite <- Hcj]; f_equal; lia.
Qed.

Lemma increasing_app_l view post : increasing (view ++ post) -> increasing view.
Proof. intros Hi i j ci cj Hij Hci Hcj. apply (Hi i j ci cj); [done|by apply lookup_app_l_Some..]. Qed.

Lemma increasing_cons c cells : increasing (c :: cells) -> increasing cells.
Proof. apply (increasing_app [c]). Qed.

Lemma increasing_head c cells : increasing (c :: cells) -> Forall (fun c' => vIndex c < vIndex c') cells.
Proof. intros Hi. apply Forall_lookup. intros j c' Hj. by apply (Hi 0%nat (S j)); [lia|..]. Qed.

Lemma increasing_last cells c' : increasing (cells ++ [c']) -> Forall (fun c => vIndex c <= vIndex c') (cells ++ [c']).
Proof.
  intros Hi. apply Forall_app_2; [|by constructor]. apply Forall_lookup. intros j c Hj.
  assert (vIndex c < vIndex c'); [|lia]. apply (Hi j (length cells)); [by eapply lookup_lt_Some| |].
  - by apply lookup_app_l_Some.
  - by apply list_lookup_middle.
Qed.

Lemma increasing_map (f : Cell M -> Cell M) view : (forall c, vIndex (f c) = vIndex c) -> increasing view -> increasing (map f view).
Proof.
  intros Hf Hi i j ci cj Hij. rewrite !lookup_map. destruct (view !! i) as [c1|] eqn:E1; [|done]. destruct (view !! j) as [c2|] eqn:E2; [|done].
  intros [= <-] [= <-]. rewrite !Hf. by apply (Hi i j).
Qed.

(** A run is the first cells, all selected, with consecutive indices. *)
Lemma run_cells_prefix v cells : forall next,
  run_cells v next cells = take (length (run_cells v next cells)) cells /\ (length (run_cells v next cells) <= length cells)%nat /\
  Forall (fun c => selected c = true /\ sel_variation c = v) (run_cells v next cells).
Proof.
  induction cells as [|c cells IH]; intros next; cbn [run_cells]; [done|].
  destruct (selected c && _ && _) eqn:Hc; [|split_and!; [done|cbn; lia|constructor]]. apply andb_prop in Hc as [Hc _]. apply andb_prop in Hc as [Hs Hv].
  apply bool_decide_eq_true_1 in Hv. destruct (IH (u16 (next + 1))) as (P1 & P2 & P3). cbn [length take].
  split_and!; [by f_equal|lia|by constructor].
Qed.

Lemma run_cells_index v cells : forall next j c,
  increasing cells -> Forall (fun c => is_u16 (vIndex c)) cells -> is_u16 next -> run_cells v next cells !! j = Some c -> vIndex c = next + Z.of_nat j.
Proof.
  induction cells as [|c cells IH]; intros next j c' Hi Hu Hn; cbn [run_cells]; [done|].
  destruct (selected c && _ && _) eqn:Hc; [|done]. apply andb_prop in Hc as [_ Hc]. apply Z.eqb_eq in Hc.
  apply Forall_cons_1 in Hu as [_ Hu]. pose proof (increasing_head c cells Hi) as Hh. pose proof (increasing_cons c cells Hi) as Hi'.
  unfold is_u16 in *. rewrite lookup_cons. destruct j as [|j]; [intros [= <-]; lia|]. intros Hj.
  destruct (Z.eq_dec next 65535) as [->|Hne].
  - exfalso. destruct (run_cells_prefix v cells (u16 (65535 + 1))) as (Hp & _ & _).
    assert (Hin : cells !! j = Some c').
    { rewrite Hp in Hj. by apply lookup_take_Some in Hj as [Hj _]. }
    rewrite Forall_lookup in Hh, Hu. specialize (Hh _ _ Hin). specialize (Hu _ _ Hin). lia.
  - assert (Hv : u16 (next + 1) = next + 1) by (unfold u16; rewrite Z.mod_small; lia). rewrite Hv in Hj.
    rewrite (IH (next + 1) j c' Hi' Hu ltac:(lia) Hj). lia.
Qed.

Lemma run_cells_cons c cells : selected c = true -> run_cells (sel_variation c) (vIndex c) (c :: cells) <> [].
Proof. intros Hs. cbn [run_cells]. by rewrite Hs, bool_decide_eq_true_2, Z.eqb_refl by done. Qed.

(** The run of the first cell. *)
Record run_of c cells (run : list (Cell M)) : Prop := mkRunOf {
  ro_prefix : run = take (length run) (c :: cells);
  ro_length : (0 < length run <= length (c :: cells))%nat;
  ro_selected : Forall (fun c' => selected c' = true /\ sel_variation c' = sel_variation c) run;
  ro_index : forall j c', run !! j = Some c' -> vIndex c' = vIndex c + Z.of_nat j
}.

Lemma run_cells_of c cells :
  selected c = true -> increasing (c :: cells) -> Forall (fun c => is_u16 (vIndex c)) (c :: cells) ->
  run_of c cells (run_cells (sel_variation c) (vIndex c) (c :: cells)).
Proof.
  intros Hs Hi Hu. destruct (run_cells_prefix (sel_variation c) (c :: cells) (vIndex c)) as (P1 & P2 & P3). split; [done| |done|].
  - pose proof (run_cells_cons c cells Hs). destruct (run_cells _ _ _); [done|cbn in *; lia].
  - intros j c' Hj. apply (run_cells_index (sel_variation c) (c :: cells)); [done|done| |done]. by apply Forall_cons_1 in Hu as [Hu _].
Qed.

(** The indices of a run fit the width of its header. *)
Lemma run_of_width c cells run c' cs :
  run_of c cells run -> increasing (c :: cells) -> Forall (fun c => is_u16 (vIndex c)) (c :: cells) -> c :: cells = cs ++ [c'] ->
  vIndex c + Z.of_nat (length run) - 1 <= Max (index_type (width_of (mkRange (vIndex c) (vIndex c')))).
Proof.
  intros [Hp Hl _ Hx] Hi Hu Heq. destruct (lookup_lt_is_Some_2 run (length run - 1)) as [z Hz]; [lia|]. pose proof (Hx _ _ Hz) as Hv.
  assert (Hin : (c :: cells) !! (length run - 1)%nat = Some z).
  { revert Hz. generalize (length run - 1)%nat. intros j Hz. rewrite Hp in Hz. by apply lookup_take_Some in Hz as [Hz _]. }
  pose proof (increasing_last cs c') as Hm. rewrite <- Heq in Hm. specialize (Hm Hi). rewrite Forall_lookup in Hm, Hu.
  specialize (Hm _ _ Hin). specialize (Hu _ _ Hin). unfold is_u16 in Hu. unfold width_of, Range.IsOneByte, Range.IsValid. cbn [start stop].
  destruct (_ && _) eqn:Ho; cbn [index_type Max UInt8 UInt16]; lia.
Qed.

(** What is reported for the first [n] cells of a run. *)
Lemma points_run T i c cells run n (f : Cell M -> Value) :
  T <> OctetStringSpec -> run_of c cells run -> (n <= length run)%nat ->
  let gv := static_object T (sel_variation c) in (forall c', static_value gv (sel_value c') = f c') ->
  imap (fun j v => (gv, vIndex c + Z.of_nat j, v)) (take n (map f run)) = points T i (take n (c :: cells)).
Proof.
  intros HT [Hp Hl Hs Hx] Hn gv Hf. assert (Ht : take n (c :: cells) = take n run) by (rewrite Hp, take_take; f_equal; lia). rewrite Ht.
  assert (HP : points T i (take n run) = map (point T) (take n run)).
  { assert (HF : List.filter selected (take n run) = take n run).
    { apply (Forall_take _ n) in Hs. revert Hs. generalize (take n run). induction 1 as [|z zs [Hz _] _ IH]; [done|]. cbn [List.filter].
      by rewrite Hz, IH. }
    unfold points. rewrite HF. by destruct T. }
  rewrite HP, !firstn_map. apply list_eq. intros j. rewrite list_lookup_imap, !lookup_map, lookup_take.
  destruct (decide (j < n)%nat); [|done]. destruct (run !! j) as [z|] eqn:Hz; [|done]. cbn.
  rewrite Forall_lookup in Hs. destruct (Hs _ _ Hz) as [_ Hsv]. unfold point. rewrite Hsv, (Hx _ _ Hz). fold gv. by rewrite Hf.
Qed.

(** *** Kinds with a serializer *)

Lemma Get_static T v :
  T <> OctetStringSpec -> StaticWriters.Get (M := M) T v =
  if is_packed (static_object T v) then StaticWriters.WriteSingleBitfield (static_object T v) else StaticWriters.WriteWithSerializer (static_object T v).
Proof. by destruct T, v. Qed.

Lemma static_object_range T v : T <> OctetStringSpec -> if is_packed (static_object T v) then T = BinarySpec else range_object (static_object T v) = true.
Proof. by destruct T, v. Qed.

(** Exactly the binaries 0 to 255 are selected: 256 bits in a header with one-byte indices. *)
Definition wraps (T : Spec) pre cells : Prop := T = BinarySpec /\ pre = [] /\ length cells = 256%nat.

(** What a write function does to the rest of a range: it writes [n] cells, at least
    one unless it refuses, and it refuses only when few bytes are left. *)
Record step_done (T : Spec) pre cells post w (r : list (Cell M) * Range * bool) w' (n : nat) : Prop := mkStepDone {
  sd_length : (n <= length cells)%nat;
  sd_view : r.1.1 = after_write T pre cells post n;
  sd_range : r.1.2 = span (length pre + n) (length cells - n);
  sd_put : exists data, put w w' data;
  sd_reported : ~ wraps T pre cells -> reported w w' (points T (length pre) (take n cells));
  sd_more : r.2 = true -> (0 < n)%nat /\ (T = OctetStringSpec -> n = length cells);
  sd_stop : r.2 = false -> (n < length cells)%nat /\ (v_size (position w') < 262)%nat
}.

Lemma increasing_at view j c : increasing view -> Forall (fun c => is_u16 (vIndex c)) view -> view !! j = Some c -> Z.of_nat j <= vIndex c.
Proof.
  intros Hi Hu. revert c. induction j as [|j IH]; intros c Hj.
  - rewrite Forall_lookup in Hu. specialize (Hu _ _ Hj). unfold is_u16 in Hu. lia.
  - destruct (lookup_lt_is_Some_2 view j) as [z Hz]; [apply lookup_lt_Some in Hj; lia|]. specialize (IH z Hz).
    specialize (Hi j (S j) z c ltac:(lia) Hz Hj). lia.
Qed.

Lemma lost_wraps pre c cells c' cs run w w' h bits :
  Z.of_nat (length (pre ++ c :: cells)) <= 65535 -> increasing (pre ++ c :: cells) -> Forall (fun c => is_u16 (vIndex c)) (pre ++ c :: cells) -> c :: cells = cs ++ [c'] -> run_of c cells run ->
  length bits = length run -> bits_lost (width_of (mkRange (vIndex c) (vIndex c'))) w h bits w' -> pre = [] /\ length (c :: cells) = 256%nat.
Proof.
  intros Hlen Hi Hu Heq Hrun Hb (Hl & _). rewrite length_app in Hlen. pose proof (increasing_at _ (length pre) c Hi Hu ltac:(by apply list_lookup_middle)) as Hc.
  pose proof (increasing_app _ _ Hi) as Hi'. apply Forall_app in Hu as [_ Hu']. pose proof (run_of_width c cells run c' cs Hrun Hi' Hu' Heq) as Hw.
  pose proof (ro_length _ _ _ Hrun) as Hrl. assert (Hc' : (c :: cells) !! (length cells) = Some c').
  { rewrite Heq. apply list_lookup_middle. apply (f_equal length) in Heq. rewrite length_app in Heq. cbn in Heq. lia. }
  pose proof (increasing_at _ (length cells) c' Hi' Hu' Hc') as Hcl. rewrite Forall_lookup in Hu'. specialize (Hu' _ _ Hc'). unfold is_u16 in Hu'.
  unfold width_of in *. destruct (Range.IsOneByte _) eqn:Ho; cbn [index_type Max UInt8 UInt16] in *; [|cbn [length] in *; lia].
  unfold Range.IsOneByte, Range.IsValid in Ho. cbn [start stop] in Ho. cbn [length] in *. split; [|lia]. destruct pre; [done|cbn [length] in *; lia].
Qed.

Lemma lost_put i w gv bits w' :
  wwf w -> bits_lost i w (encode_header (ID gv) (range_qualifier i)) bits w' -> exists data, put w w' data.
Proof.
  unfold wwf. intros Hw (_ & Hp & Hfit & old & Hold & Hm). set (h := encode_header (ID gv) (range_qualifier i)) in *. exists (h ++ old).
  assert (Hl : length (h ++ old) = (3 + 2 * SIZE (index_type i))%nat) by (rewrite length_app; cbn [length h encode_header]; lia).
  change (length h) with 3%nat in *. pose proof (mem_write_length _ _ _ _ Hm) as Hn. pose proof (mem_write_take _ _ _ _ Hm) as Ht.
  rewrite app_assoc in Ht. split_and!; [lia|done| |].
  - rewrite (app_assoc (take _ _)) in Ht. rewrite length_app in Ht. apply (f_equal (take (v_pos (position w) + length (h ++ old)))) in Ht.
    rewrite take_take, Nat.min_l in Ht by lia. rewrite Ht. apply take_app_length'. rewrite !length_app, length_take. lia.
  - rewrite Hp, Hl. unfold bits_window. change (length h) with 3%nat. f_equal; lia.
Qed.

Lemma Get_wp T pre c cells post w :
  T <> OctetStringSpec -> wwf w -> Z.of_nat (length (pre ++ (c :: cells) ++ post)) <= 65535 -> increasing (pre ++ (c :: cells) ++ post) ->
  Forall (cell_ok T) (pre ++ (c :: cells) ++ post) -> selected c = true ->
  wp (StaticWriters.Get T (sel_variation c) (pre ++ (c :: cells) ++ post) (span (length pre) (length (c :: cells)))) w
    (fun r w' => exists n, step_done T pre (c :: cells) post w r w' n).
Proof.
  intros HT Hw Hl Hi Hok Hs. pose proof (increasing_app _ _ Hi) as Hi1. apply increasing_app_l in Hi1.
  assert (Hu : Forall (fun c => is_u16 (vIndex c)) (pre ++ c :: cells)).
  { rewrite app_assoc, Forall_app in Hok. eapply Forall_impl; [|apply Hok]. by intros x []. }
  pose proof Hu as Hu1. apply Forall_app in Hu1 as [_ Hu1]. pose proof (run_cells_of c cells Hs Hi1 Hu1) as Hrun.
  set (run := run_cells (sel_variation c) (vIndex c) (c :: cells)) in *. pose proof (ro_length _ _ _ Hrun) as Hrl.
  pose proof Hu1 as Hc. apply Forall_cons_1 in Hc as [Hc _].
  assert (Hi2 : increasing (pre ++ c :: cells)) by (by apply (increasing_app_l _ post); rewrite <- app_assoc).
  assert (Hl2 : Z.of_nat (length (pre ++ c :: cells)) <= 65535) by (rewrite !length_app in *; lia).
  set (gv := static_object T (sel_variation c)).
  assert (Hsd : forall req n w', is_static req -> values_ok req -> ((0 < n <= objects req)%nat -> request_ok (truncate req n)) ->
    performed req w n w' -> objects req = length run -> reported_by (truncate req n) = points T (length pre) (take n (c :: cells)) ->
    step_done T pre (c :: cells) post w (written_view pre (c :: cells) post n, span (length pre + n) (length (c :: cells) - n), (n =? length run)%nat) w' n).
  { intros req n w' Hst Hv Hro HP Ho Hpts. destruct (performed_reported req w n w' Hw Hst Hv Hro HP) as (Hn & HR & Hfull). rewrite Ho in *. split.
    - lia.
    - by destruct T.
    - done.
    - destruct HP as (_ & _ & W). eexists. by apply wrote_put.
    - intros _. by rewrite <- Hpts.
    - intros He. apply Nat.eqb_eq in He. split; [lia|done].
    - intros He. apply Nat.eqb_neq in He. split; [lia|]. apply Hfull. lia. }
  rewrite Get_static by done. pose proof (static_object_range T (sel_variation c) HT) as Hro. fold gv in Hro |- *. destruct (is_packed gv) eqn:Hpk.
  - apply WriteSingleBitfield_wp; [done|done|]. intros c' (cs & Heq). cbv zeta. fold run.
    pose proof (run_of_width c cells run c' cs Hrun Hi1 Hu1 Heq) as Hwd. set (i := width_of _) in *. unfold is_u16 in Hc.
    eapply wp_mono; [apply WBits_wide; [done| |lia|by rewrite length_map]|].
    { intros Hn. apply (f_equal length) in Hn. rewrite length_map in Hn. cbn [length] in Hn. lia. }
    cbv beta. intros n w' [[Hn HP]|(-> & Hlost)]; rewrite ?length_map in *; [exists n|exists (length run)].
    + assert (Hno : (n <= length run)%nat) by (destruct HP as (Hno & _); cbn [objects] in Hno; by rewrite length_map in Hno).
      assert (Hgv : bit_object gv = true) by (apply bool_decide_eq_true_1 in Hpk; by rewrite Hpk).
      apply (Hsd (WBits i gv (vIndex c) (map (fun c => binary_value (sel_value c)) run)) _ _ Hgv I); [|exact HP|by apply length_map|].
      * cbn [objects truncate request_ok]. rewrite length_map. intros Hn0. rewrite length_take, length_map. split_and!; [|lia..].
        intros He. apply (f_equal length) in He. rewrite length_take, length_map in He. cbn [length] in He. lia.
      * cbn [truncate reported_by]. rewrite <- (points_run T (length pre) c cells run n (fun c => Bit (binary_value (sel_value c)))); [|done..|].
        -- fold gv. rewrite !firstn_map, !imap_fmap. done.
        -- intros x. unfold static_value. fold gv. by rewrite Hpk.
    + split; cbn [fst snd].
      * lia.
      * by destruct T.
      * done.
      * by eapply lost_put.
      * intros Hnw. exfalso. apply Hnw. split; [done|].
        eapply (lost_wraps pre c cells c' cs run w w'); [done..| |exact Hlost]. apply length_map.
      * split; [lia|done].
      * by rewrite Nat.eqb_refl.
  - apply WriteWithSerializer_wp; [done|done|]. intros c' (cs & Heq). cbv zeta. fold run.
    pose proof (run_of_width c cells run c' cs Hrun Hi1 Hu1 Heq) as Hwd. set (i := width_of _) in *. unfold is_u16 in Hc.
    set (req := WValues _ _ _ _). assert (Hr : request_ok req).
    { split_and!; [|lia|by rewrite length_map|].
      - intros Hn. apply (f_equal length) in Hn. rewrite length_map in Hn. cbn [length] in Hn. lia.
      - apply Forall_map. rewrite (ro_prefix _ _ _ Hrun). apply Forall_take. rewrite app_assoc, Forall_app, Forall_app in Hok.
        eapply Forall_impl; [|apply Hok]. intros x Hx. by apply static_fits; [apply ce_selected|..]. }
    eapply wp_mono; [by apply perform_performed|]. cbv beta. intros n w' HP. exists n.
    assert (Hno : (n <= length run)%nat) by (destruct HP as (Hno & _); cbn [objects req] in Hno; by rewrite length_map in Hno).
    apply (Hsd req n w' Hro (values_of_ok _ Hr) (truncate_ok req n Hro Hr) HP); [apply length_map|].
    cbn [req truncate reported_by kind_enum]. apply (points_run T (length pre) c cells run n (fun c => WriteTarget gv (sel_value c))); [done..|].
    intros x. unfold static_value. fold gv. by rewrite Hpk.
Qed.

End Writes.

(** ** Octet strings *)

Section Octets.
Context {M : Type} `{StaticMeasurementOk M}.
Implicit Types (c : Cell M) (pre cells post view : list (Cell M)) (w : Writer).

Definition octets c : Value := WriteTarget GroupVariation.Group110Var0 (sel_value c).

(** The cells of one header: those that have the size of the first. *)
Fixpoint same_size (size : Z) cells : list (Cell M) :=
  match cells with
  | c :: cells => if Size_ (sel_value c) =? size then c :: same_size size cells else []
  | [] => []
  end.

Lemma same_size_prefix size cells :
  same_size size cells = take (length (same_size size cells)) cells /\ (length (same_size size cells) <= length cells)%nat /\
  Forall (fun c => Size_ (sel_value c) = size) (same_size size cells).
Proof.
  induction cells as [|c cells (P1 & P2 & P3)]; cbn [same_size]; [done|]. destruct (Z.eqb_spec (Size_ (sel_value c)) size) as [Hs|].
  - cbn [length take]. split_and!; [by f_equal|lia|by constructor].
  - split_and!; [done|cbn; lia|constructor].
Qed.

Lemma octets_loop_wp IndexType size cells : forall pre post it num w Q,
  Z.of_nat (length (pre ++ cells ++ post)) <= 65535 -> 0 <= num -> num + Z.of_nat (length cells) <= 65535 ->
  wp (put_all (fun it c => RangeWriteIterator.Write IndexType it (octets c)) it (same_size size cells)) w (fun r w' =>
    Q (r.1, span (length pre + r.2) (length cells - r.2), num + Z.of_nat r.2) w') ->
  wp (StaticWriters.octets_loop (length cells) IndexType (pre ++ cells ++ post) it (span (length pre) (length cells)) size num) w Q.
Proof.
  induction cells as [|c cells IH]; intros pre post it num w Q Hl Hn0 Hn HQ; cbn [StaticWriters.octets_loop length same_size] in *; rewrite span_valid; cbn [Nat.eqb negb].
  { cbn [put_all] in HQ. rewrite wp_ret in HQ. rewrite wp_ret. cbn [fst snd] in HQ. by rewrite Nat.add_0_r, Z.add_0_r in HQ. }
  rewrite wp_bind, wp_lift. exists c. split; [exact (View_at_app pre c (cells ++ post))|].
  destruct (Z.eqb_spec (Size_ (sel_value c)) size) as [Hs|]; cbn [negb put_all] in *.
  2:{ rewrite wp_ret in HQ. rewrite wp_ret. cbn [fst snd] in HQ. by rewrite Nat.add_0_r, Z.add_0_r in HQ. }
  rewrite wp_bind in HQ. rewrite wp_bind. eapply wp_mono; [exact HQ|]. cbv beta. clear HQ. intros [it1 ok] w1 HQ. destruct ok.
  2:{ rewrite wp_ret in HQ. rewrite wp_ret. cbn [fst snd] in HQ. by rewrite Nat.add_0_r, Z.add_0_r in HQ. }
  rewrite !length_app in Hl. cbn [length] in Hl. rewrite span_advance by lia.
  specialize (IH (pre ++ [c]) post it1 (u16 (num + 1)) w1 Q). rewrite <- !app_assoc, !length_app in IH. cbn [app length] in IH.
  rewrite Nat.add_1_r in IH. assert (Hu : u16 (num + 1) = num + 1) by (unfold u16; rewrite Z.mod_small; lia). rewrite Hu in IH |- *.
  apply IH; [lia..|]. clear IH. rewrite wp_bind in HQ. eapply wp_mono; [exact HQ|]. cbv beta. intros [it2 n] w2. rewrite wp_ret. cbn [fst snd Nat.sub].
  rewrite <- Nat.add_succ_comm. by replace (num + Z.of_nat (S n)) with (num + 1 + Z.of_nat n) by lia.
Qed.

(** One header. *)
Lemma octets_header_wp {A} (K : Range -> Z -> WM A) pre c cells post w Q :
  Z.of_nat (length (pre ++ (c :: cells) ++ post)) <= 65535 ->
  let range := span (length pre) (length (c :: cells)) in let i := width_of range in let size := Size_ (sel_value c) in
  let run := same_size size (c :: cells) in
  wp (perform (WValues i (OctetStatic size) (Z.of_nat (length pre)) (map octets run))) w
    (fun n w' => wp (K (span (length pre + n) (length (c :: cells) - n)) (Z.of_nat n)) w' Q) ->
  wp (iter ← HeaderWriter.IterateOverRange (index_type i) (range_qualifier i) (OctetStringSerializer.init false size) (Z.of_nat (length pre));
      '(iter, range, num_written) ← StaticWriters.WriteSomeOctetString (index_type i) (pre ++ (c :: cells) ++ post) iter range size;
      _ ← RangeWriteIterator.destroy (index_type i) iter;
      K range num_written) w Q.
Proof.
  intros Hl range i size run HQ. cbn [perform serializer_of] in HQ. rewrite wp_bind in HQ. rewrite wp_bind.
  eapply wp_mono; [exact HQ|]. cbv beta. clear HQ. intros it w1 HQ. rewrite wp_bind. unfold StaticWriters.WriteSomeOctetString, range.
  rewrite span_count by (rewrite !length_app in Hl; lia). apply octets_loop_wp; [done|lia|rewrite !length_app in Hl; lia|].
  unfold wp at 1. fold size run. rewrite (put_all_map (RangeWriteIterator.Write (index_type i)) octets). rewrite wp_bind in HQ. eapply wp_mono; [exact HQ|]. cbv beta.
  intros [it1 n] w2 HD. rewrite wp_bind in HD. rewrite wp_bind. eapply wp_mono; [exact HD|]. cbv beta. intros _ w3. by rewrite wp_ret.
Qed.

Lemma all_octets_app i n m cells :
  all_octets i (take (n + m) cells) = all_octets i (take n cells) ++ all_octets (i + length (take n cells)) (take m (drop n cells)).
Proof.
  unfold all_octets. rewrite <- take_take_drop, imap_app. f_equal. apply imap_ext. intros j c _. cbn. f_equal. f_equal. lia.
Qed.

(** The strings of the range are written in turn. *)
Definition octets_done pre cells w (r : Range * bool) w' : Prop := exists n,
  (n <= length cells)%nat /\ r.1 = span (length pre + n) (length cells - n) /\
  reported w w' (all_octets (length pre) (take n cells)) /\
  (r.2 = true -> n = length cells) /\ (r.2 = false -> (n < length cells)%nat /\ (v_size (position w') < 262)%nat).

Lemma octets_done_more pre cells w w1 r w' n :
  (n <= length cells)%nat -> reported w w1 (all_octets (length pre) (take n cells)) ->
  octets_done (pre ++ take n cells) (drop n cells) w1 r w' -> octets_done pre cells w r w'.
Proof.
  intros Hn HR (m & Hm & Hr & HR2 & Ht & Hf). rewrite length_drop, !length_app, !length_take in *. rewrite Nat.min_l in * by done.
  exists (n + m)%nat. split; [lia|]. split; [rewrite Hr; f_equal; lia|]. split.
  - rewrite all_octets_app, length_take, Nat.min_l by done. by eapply reported_trans.
  - split; [intros Hb; specialize (Ht Hb); lia|]. intros Hb. destruct (Hf Hb). split; [lia|done].
Qed.

Lemma Write_loop_wp fuel : forall cells pre post w,
  (length cells <= fuel)%nat -> wwf w -> Z.of_nat (length (pre ++ cells ++ post)) <= 65535 -> Forall (cell_ok OctetStringSpec) cells ->
  wp (StaticWriters.Write_loop fuel (pre ++ cells ++ post) (span (length pre) (length cells))) w (octets_done pre cells w).
Proof.
  induction fuel as [|fuel IH]; intros cells pre post w Hf Hw Hl Hok; (destruct cells as [|c cells]; [|cbn [length] in Hf; try lia]);
    cbn [StaticWriters.Write_loop]; rewrite span_valid; cbn [Nat.eqb negb length].
  1,2: rewrite wp_ret; exists 0%nat; split_and!; [done|by rewrite Nat.add_0_r|by apply reported_refl|done|done].
  rewrite wp_bind, wp_lift. exists c. split; [exact (View_at_app pre c (cells ++ post))|].
  set (Q := octets_done pre (c :: cells) w).
  set (size := Size_ (sel_value c)). set (run := same_size size (c :: cells)). set (range := span (length pre) (S (length cells))).
  destruct (same_size_prefix size (c :: cells)) as (P1 & P2 & P3). fold run in P1, P2, P3.
  assert (Hrl : (0 < length run)%nat) by (unfold run; cbn [same_size]; fold size; rewrite Z.eqb_refl; cbn [length]; lia).
  set (req := WValues (width_of range) (OctetStatic size) (Z.of_nat (length pre)) (map octets run)).
  assert (Hfit : Forall (value_fits (OctetStatic size)) (map octets run)).
  { apply Forall_map. rewrite P1. rewrite P1 in P3. apply (Forall_take _ (length run)) in Hok. revert Hok P3. generalize (take (length run) (c :: cells)).
    intros l Hok Hsz. rewrite Forall_forall in Hok, Hsz. apply Forall_forall. intros x Hx. rewrite <- (Hsz x Hx). apply static_octets. by apply (Hok x Hx). }
  assert (Hst : is_static req).
  { cbn. pose proof Hok as Hc. apply Forall_cons_1 in Hc as [Hc _]. pose proof (static_octets _ (ce_selected _ _ Hc)) as Hv. fold size in Hv.
    destruct (WriteTarget _ _); cbn in Hv; try done. apply Hv. }
  assert (Hreq : request_ok req).
  { split_and!; [|lia| |done].
    - intros Hn. apply (f_equal length) in Hn. rewrite length_map in Hn. cbn [length] in Hn. lia.
    - rewrite length_map. unfold width_of. rewrite !length_app in Hl. change (length (c :: cells)) with (S (length cells)) in Hl, P2.
      destruct (Range.IsOneByte range) eqn:Ho; cbn [index_type Max UInt8 UInt16]; [|lia].
      unfold Range.IsOneByte, Range.IsValid, range in Ho. cbn [span start stop] in Ho. apply andb_prop in Ho as [_ Ho]. apply Z.leb_le in Ho. lia. }
  assert (HK : wp (perform req) w (fun n w' => wp (if Z.of_nat n =? 0 then mret (span (length pre + n) (length (c :: cells) - n), false)
    else StaticWriters.Write_loop fuel (pre ++ (c :: cells) ++ post) (span (length pre + n) (length (c :: cells) - n))) w' Q)).
  { eapply wp_mono; [by apply perform_performed|]. cbv beta. intros n w1 HP.
    destruct (performed_reported req w n w1 Hw Hst (values_of_ok _ Hreq) (fun Hn => truncate_ok req n Hst Hreq ltac:(exact Hn)) HP) as (Hn & HR & Hfull).
    cbn [objects req] in Hn, Hfull. rewrite length_map in Hn, Hfull.
    assert (Hpts : reported_by (truncate req n) = all_octets (length pre) (take n (c :: cells))).
    { cbn [req truncate reported_by kind_enum]. unfold all_octets. rewrite firstn_map, imap_fmap. f_equal. rewrite P1, take_take. f_equal. lia. }
    rewrite Hpts in HR. destruct (Z.eqb_spec (Z.of_nat n) 0) as [Hz|Hz].
    - assert (n = 0)%nat as -> by lia. rewrite wp_ret. exists 0%nat. split_and!; [lia|done|exact HR|done|]. intros _. split; [lia|]. apply Hfull. lia.
    - specialize (IH (drop n (c :: cells)) (pre ++ take n (c :: cells)) post w1). rewrite <- app_assoc, (app_assoc (take n _)), take_drop in IH.
      rewrite length_drop, (length_app pre (take _ _)), length_take, Nat.min_l in IH by lia. eapply wp_mono; [apply IH|].
      + cbn [length]. lia.
      + by eapply reported_wf.
      + done.
      + by apply Forall_drop.
      + intros r w2 HD. apply (octets_done_more pre (c :: cells) w w1 r w2 n); [lia|done|done]. }
  destruct (Range.IsOneByte range) eqn:Ho.
  - assert (Hu : u8 (start range) = Z.of_nat (length pre)).
    { unfold Range.IsOneByte, range in *. cbn [span start stop] in *. apply andb_prop in Ho as [Ho _]. apply andb_prop in Ho as [_ Ho]. apply Z.leb_le in Ho.
      unfold u8. rewrite Z.mod_small; lia. }
    rewrite Hu. pose proof (octets_header_wp (fun range num => if num =? 0 then mret (range, false) else StaticWriters.Write_loop fuel (pre ++ (c :: cells) ++ post) range)
      pre c cells post w Q Hl) as HH. cbv zeta in HH. cbn [length] in HH. fold range size run in HH. unfold req, width_of in HK. unfold width_of in HH. rewrite Ho in HH, HK. exact (HH HK).
  - pose proof (octets_header_wp (fun range num => if num =? 0 then mret (range, false) else StaticWriters.Write_loop fuel (pre ++ (c :: cells) ++ post) range)
      pre c cells post w Q Hl) as HH. cbv zeta in HH. cbn [length] in HH. fold range size run in HH. unfold req, width_of in HK. unfold width_of in HH. rewrite Ho in HH, HK. exact (HH HK).
Qed.

Lemma Write_wp v pre c cells post w :
  wwf w -> Z.of_nat (length (pre ++ (c :: cells) ++ post)) <= 65535 -> Forall (cell_ok OctetStringSpec) (pre ++ (c :: cells) ++ post) -> selected c = true ->
  wp (StaticWriters.Get OctetStringSpec v (pre ++ (c :: cells) ++ post) (span (length pre) (length (c :: cells)))) w
    (fun r w' => exists n, step_done OctetStringSpec pre (c :: cells) post w r w' n).
Proof.
  intros Hw Hl Hok Hs. cbn [StaticWriters.Get]. unfold StaticWriters.Write. rewrite span_count by (rewrite !length_app in Hl; lia). rewrite wp_bind.
  rewrite !Forall_app in Hok. eapply wp_mono; [apply Write_loop_wp; [done|done|done|apply Hok]|]. cbv beta. intros [range ok] w1 (n & Hn & Hr & HR & Ht & Hf).
  rewrite wp_ret. exists n. cbn [fst snd] in *. split; cbn [fst snd]; [done..| | | |].
  - destruct HR as (reqs & _ & _ & _ & W). eexists. by apply wrote_put.
  - intros _. destruct n as [|n]; [done|]. cbn [take points octet_points]. by rewrite Hs.
  - intros Hb. rewrite (Ht Hb). cbn [length]. split; [lia|done].
  - done.
Qed.

End Octets.

(** ** Loading one kind *)

Section Loads.
Context {M : Type} `{StaticMeasurementOk M}.
Implicit Types (c : Cell M) (pre cells post view : list (Cell M)) (w : Writer).

(** What [LoadType] does to a range: [n] cells are written or passed over. *)
Record load_done (T : Spec) pre cells post w (r : list (Cell M) * Range * bool) w' (n : nat) : Prop := mkLoadDone {
  lo_length : (n <= length cells)%nat;
  lo_view : r.1.1 = after_write T pre cells post n;
  lo_range : r.1.2 = span (length pre + n) (length cells - n);
  lo_put : exists data, put w w' data;
  lo_reported : ~ wraps T pre cells -> reported w w' (points T (length pre) (take n cells));
  lo_all : r.2 = true -> n = length cells;
  lo_stop : r.2 = false -> (n < length cells)%nat /\ (v_size (position w') < 262)%nat
}.

Lemma step_of_octets T v pre c cells post w :
  wwf w -> Z.of_nat (length (pre ++ (c :: cells) ++ post)) <= 65535 -> increasing (pre ++ (c :: cells) ++ post) ->
  Forall (cell_ok T) (pre ++ (c :: cells) ++ post) -> selected c = true -> v = sel_variation c ->
  wp (StaticWriters.Get T v (pre ++ (c :: cells) ++ post) (span (length pre) (length (c :: cells)))) w
    (fun r w' => exists n, step_done T pre (c :: cells) post w r w' n).
Proof.
  intros Hw Hl Hi Hok Hs ->. destruct (decide (T = OctetStringSpec)) as [->|HT]; [by apply Write_wp|by apply Get_wp].
Qed.

Lemma after_write_skip T pre c cells post n :
  selected c = false -> after_write T (pre ++ [c]) cells post n = after_write T pre (c :: cells) post (S n).
Proof.
  intros Hs. assert (Hc : set_selected false c = c) by (destruct c; cbn in *; by subst).
  destruct T; cbn [after_write]; unfold written_view; cbn [take drop map]; rewrite ?Hc, <- !app_assoc; done.
Qed.

Lemma points_skip T i c cells n : selected c = false -> points T i (take (S n) (c :: cells)) = points T (S i) (take n cells).
Proof. intros Hs. destruct T; cbn [take points List.filter octet_points]; by rewrite Hs. Qed.

Lemma points_app T i n m cells :
  T <> OctetStringSpec -> points T i (take (n + m) cells) = points T i (take n cells) ++ points T (i + n) (take m (drop n cells)).
Proof.
  intros HT. rewrite <- take_take_drop. assert (Hf : forall l l' : list (Cell M), List.filter selected (l ++ l') = List.filter selected l ++ List.filter selected l') by apply List.filter_app.
  destruct T; try done; cbn [points]; by rewrite Hf, map_app.
Qed.

(** The cells of a range after [n] of them were written are again a split of the array. *)
Definition passed (T : Spec) cells (n : nat) : list (Cell M) :=
  match T with OctetStringSpec => take n cells | _ => map (set_selected false) (take n cells) end.

Lemma after_write_split T pre cells post n : after_write T pre cells post n = (pre ++ passed T cells n) ++ drop n cells ++ post.
Proof. rewrite <- app_assoc. destruct T; cbn [after_write passed]; unfold written_view; try done. by rewrite (app_assoc (take n cells)), take_drop. Qed.

Lemma passed_length T cells n : (n <= length cells)%nat -> length (passed T cells n) = n.
Proof. intros Hn. destruct T; cbn [passed]; rewrite ?length_map, length_take; lia. Qed.

Lemma passed_more T cells n m : passed T cells n ++ passed T (drop n cells) m = passed T cells (n + m).
Proof. destruct T; cbn [passed]; by rewrite <- ?map_app, take_take_drop. Qed.

(** Whatever holds of the cells holds after their selection was cleared. *)
Lemma after_write_Forall (P : Cell M -> Prop) T pre cells post n :
  (forall c, P c -> P (set_selected false c)) -> Forall P (pre ++ cells ++ post) -> Forall P (after_write T pre cells post n).
Proof.
  intros HP HF. rewrite after_write_split, !Forall_app in *. destruct HF as (H3 & H4 & H5). split_and!; [done| |by apply Forall_drop|done].
  pose proof (Forall_take _ n _ H4) as Ht. destruct T; cbn [passed]; try done; apply Forall_map; (eapply Forall_impl; [|exact Ht]); done.
Qed.

Lemma after_write_vIndex T pre cells post n : map vIndex (after_write T pre cells post n) = map vIndex (pre ++ cells ++ post).
Proof.
  rewrite after_write_split, !map_app, <- app_assoc. f_equal. rewrite <- (take_drop n cells) at 3. rewrite map_app, <- app_assoc. f_equal.
  destruct T; cbn [passed]; try done; rewrite map_map; by apply map_ext.
Qed.

Lemma increasing_indices view view' : map vIndex view = map vIndex view' -> increasing view -> increasing view'.
Proof.
  intros Hm Hi i j ci cj Hij E1 E2. assert (Hl : forall k c, view' !! k = Some c -> exists c0, view !! k = Some c0 /\ vIndex c0 = vIndex c).
  { intros k c Hk. pose proof (lookup_map vIndex view k) as Hv. rewrite Hm, lookup_map, Hk in Hv. cbn in Hv.
    destruct (view !! k) as [c0|] eqn:Hk0; [|done]. exists c0. cbn in Hv. by injection Hv as ->. }
  destruct (Hl i ci E1) as (c1 & F1 & <-), (Hl j cj E2) as (c2 & F2 & <-). by apply (Hi i j).
Qed.

Lemma cell_ok_deselect T c : cell_ok T c -> cell_ok T (set_selected false c).
Proof. by intros []. Qed.

Lemma load_done_more T pre cells post w w1 data r w2 n m :
  wwf w -> (n <= length cells)%nat -> put w w1 data -> (~ wraps T pre cells -> reported w w1 (points T (length pre) (take n cells))) -> (0 < n)%nat ->
  (T = OctetStringSpec -> n = length cells) -> load_done T (pre ++ passed T cells n) (drop n cells) post w1 r w2 m -> load_done T pre cells post w r w2 (n + m).
Proof.
  intros Hw Hn Hp HR Hn0 Hoct [Ll Lv Lr (data' & Lp) Lrep La Ls]. rewrite length_drop in *. rewrite length_app, passed_length in * by done. split.
  - lia.
  - rewrite Lv, !after_write_split, <- !app_assoc, (app_assoc (passed _ _ _) (passed _ _ _)), passed_more, drop_drop. done.
  - rewrite Lr. f_equal; lia.
  - eexists. by eapply put_trans.
  - intros Hnw. assert (Hnw' : ~ wraps T (pre ++ passed T cells n) (drop n cells)).
    { intros (_ & He & _). apply (f_equal length) in He. rewrite length_app, passed_length in He by done. cbn in He. lia. }
    specialize (HR Hnw). specialize (Lrep Hnw'). destruct (decide (T = OctetStringSpec)) as [HT|HT].
    + rewrite (Hoct HT) in *. assert (m = 0)%nat as -> by lia. rewrite Nat.add_0_r. rewrite drop_all in Lrep. rewrite <- (app_nil_r (points _ _ _)).
      eapply reported_trans; [exact HR|]. by rewrite HT in Lrep.
    + rewrite points_app by done. by eapply reported_trans.
  - intros Hb. specialize (La Hb). lia.
  - intros Hb. destruct (Ls Hb). split; [lia|done].
Qed.

Lemma load_type_wp T fuel : forall cells pre post w,
  (length cells <= fuel)%nat -> wwf w -> Z.of_nat (length (pre ++ cells ++ post)) <= 65535 -> increasing (pre ++ cells ++ post) ->
  Forall (cell_ok T) (pre ++ cells ++ post) ->
  wp (DatabaseBuffers.load_type T fuel (pre ++ cells ++ post) (span (length pre) (length cells))) w
    (fun r w' => exists n, load_done T pre cells post w r w' n).
Proof.
  induction fuel as [|fuel IH]; intros cells pre post w Hf Hw Hl Hi Hok; (destruct cells as [|c cells]; [|cbn [length] in Hf; try lia]);
    cbn [DatabaseBuffers.load_type]; rewrite span_valid; cbn [Nat.eqb negb length].
  1,2: rewrite wp_ret; exists 0%nat; split; cbn [fst snd]; [done|by destruct T|by rewrite Nat.add_0_r|exists []; by apply put_refl| |done|done];
    intros _; destruct T; by apply reported_refl.
  rewrite wp_bind, wp_lift. exists c. split; [exact (View_at_app pre c (cells ++ post))|]. destruct (selected c) eqn:Hs.
  - rewrite wp_bind. eapply wp_mono; [by apply step_of_octets|]. cbv beta. intros [[view range] ok] w1 (n & [Sl Sv Sr (data & Sp) Srep Sm Ss]).
    cbn [fst snd] in *. destruct ok.
    + destruct (Sm eq_refl) as [Hn0 Hoct]. subst view range. rewrite after_write_split.
      pose proof (IH (drop n (c :: cells)) (pre ++ passed T (c :: cells) n) post w1) as HI. rewrite length_drop, (length_app pre (passed _ _ _)), passed_length in HI by done.
      rewrite <- after_write_split in *. cbn [length] in *. eapply wp_mono; [apply HI|].
      * lia.
      * by eapply put_wf.
      * pose proof (f_equal length (after_write_vIndex T pre (c :: cells) post n)) as He. rewrite !length_map in He. by rewrite He.
      * eapply increasing_indices; [|exact Hi]. by rewrite after_write_vIndex.
      * apply after_write_Forall; [apply cell_ok_deselect|done].
      * cbv beta. intros r w2 (m & HD). exists (n + m)%nat. eapply load_done_more; [done|done|exact Sp|exact Srep|exact Hn0|exact Hoct|exact HD].
    + rewrite wp_ret. exists n. split; cbn [fst snd]; [done|done|done|by exists data|done|done|done].
  - specialize (IH cells (pre ++ [c]) post w). rewrite <- app_assoc in IH. cbn [app] in IH. rewrite !length_app in Hl. cbn [length] in Hl.
    rewrite span_advance by lia. rewrite (length_app pre [c]) in IH. cbn [length] in IH. rewrite Nat.add_1_r in IH.
    eapply wp_mono; [apply IH; [lia|done|rewrite length_app; cbn [length]; rewrite length_app; lia|done|done]|]. cbv beta. intros r w1 (n & [Ll Lv Lr Lp Lrep La Ls]).
    exists (S n). rewrite length_app, Nat.add_1_r in *. split; cbn [length].
    + lia.
    + by rewrite Lv, after_write_skip.
    + rewrite Lr. f_equal; lia.
    + done.
    + intros Hnw. rewrite points_skip by done. apply Lrep. intros (_ & He & _). by destruct pre.
    + intros Hb. by rewrite (La Hb).
    + intros Hb. destruct (Ls Hb). split; [lia|done].
Qed.

End Loads.

