(* ===== verification/DatabaseProps.v ===== *)
(** * DatabaseProps: the database of an outstation

    The invariant of the database, its operations, the instance of
    [StaticDatabaseOk] and the theorems about reads, updates and the search for
    indices. *)

From S2P Require Import Prelude Slices Serialization LinkFrame AppHeader Objects ObjectParser HeaderWriter HeaderRoundtrip EventList EventBuffer EventSpec EventProps EventWriters EventResponse OutstationState RequestHandlers RequestSpecs Database DatabaseSpecs.
From stdpp Require Import functions.
From Stdlib Require Import ZifyNat.

Open Scope Z_scope.

(** ** The invariant *)

Section Invariant.
Context {M : Type} `{StaticMeasurementOk M}.
Implicit Types (c : Cell M) (pre cells post view : list (Cell M)) (w : Writer) (d : DatabaseBuffers M).

(** The range lies in the array and is the one of a split, and apart from octet
    strings only its cells are selected. *)
Record kind_inv (T : Spec) view (range : Range) (i n : nat) : Prop := mkKindInv {
  ki_range : range = span i n;
  ki_inside : (i + n <= length view)%nat;
  ki_size : Z.of_nat (length view) <= 65535;
  ki_increasing : increasing view;
  ki_cells : Forall (cell_ok T) view;
  ki_selected : T <> OctetStringSpec -> forall k c, view !! k = Some c -> selected c = true -> (i <= k < i + n)%nat
}.

Record buffers_ok d : Prop := mkBuffersOk {
  bo_kinds : forall T, exists i n, kind_inv T (buffers d T) (SelectedRanges.Get T (ranges d)) i n;
  bo_security : securityStats (ranges d) = Range.Invalid
}.

(** *** Ranges *)

Lemma union_span i n j m : exists a b,
  Range.Union (span i n) (span j (S m)) = span a (S b) /\ (a <= j)%nat /\ (j + S m <= a + S b)%nat /\
  (a + S b <= Nat.max (i + n) (j + S m))%nat /\ ((0 < n)%nat -> (a <= i)%nat /\ (i + n <= a + S b)%nat).
Proof.
  destruct n as [|n]; cbn [span]; unfold Range.Union; cbn [start stop Range.Invalid].
  - exists (Nat.min 1 j), (j + m - Nat.min 1 j)%nat. split; [cbn [span]; f_equal; lia|]. lia.
  - exists (Nat.min i j), (Nat.max (i + n) (j + m) - Nat.min i j)%nat. split; [cbn [span]; f_equal; lia|]. lia.
Qed.

(** A part of the array that changes leaves the other cells. *)
Lemma lookup_outside pre cells cells' post k :
  length cells = length cells' -> ~ (length pre <= k < length pre + length cells)%nat -> (pre ++ cells ++ post) !! k = (pre ++ cells' ++ post) !! k.
Proof.
  intros Hl Hk. destruct (decide (k < length pre)%nat); [by rewrite !lookup_app_l by done|].
  rewrite !(lookup_app_r pre) by lia. rewrite !lookup_app_r by lia. by rewrite Hl.
Qed.

(** The cells of a kind are changed and selected from [j] on. *)
Lemma kind_inv_select T view view' range i n j m :
  kind_inv T view range i n -> (j + S m <= length view)%nat -> map vIndex view' = map vIndex view -> Forall (cell_ok T) view' ->
  (forall k c', view' !! k = Some c' -> selected c' = true -> (j <= k < j + S m)%nat \/ exists c, view !! k = Some c /\ selected c = true) ->
  exists i' n', kind_inv T view' (Range.Union range (span j (S m))) i' n'.
Proof.
  intros [-> Hin Hsz Hinc Hok Hsel] Hj Hm Hok' Hs'. destruct (union_span i n j m) as (a & b & -> & Ha & Hb & Hc & Hd). exists a, (S b).
  pose proof (f_equal length Hm) as Hl. rewrite !length_map in Hl. split; [done|lia|lia|by eapply increasing_indices|done|].
  intros HT k c' Hk Hc'. destruct (Hs' k c' Hk Hc') as [?|(c & Hkc & Hcs)]; [lia|]. specialize (Hsel HT k c Hkc Hcs). lia.
Qed.

(** *** The parts of a database *)

Lemma set_view_same T view d : buffers (DatabaseBuffers.set_view T view d) T = view.
Proof. apply fn_lookup_insert. Qed.

Lemma set_view_other T T' view d : T <> T' -> buffers (DatabaseBuffers.set_view T view d) T' = buffers d T'.
Proof. apply fn_lookup_insert_ne. Qed.

Lemma Get_Set_same T range r : SelectedRanges.Get T (SelectedRanges.Set_ T range r) = range.
Proof. apply fn_lookup_insert. Qed.

Lemma Get_Set_other T T' range r : T <> T' -> SelectedRanges.Get T' (SelectedRanges.Set_ T range r) = SelectedRanges.Get T' r.
Proof. unfold SelectedRanges.Get, SelectedRanges.Set_. cbn [range_of_kind]. apply fn_lookup_insert_ne. Qed.

(** One kind is replaced. *)
Lemma buffers_ok_set T view range d :
  buffers_ok d -> (exists i n, kind_inv T view range i n) ->
  buffers_ok (DatabaseBuffers.set_ranges (SelectedRanges.Set_ T range (ranges d)) (DatabaseBuffers.set_view T view d)).
Proof.
  intros Hd Hk. split; [|exact (bo_security _ Hd)]. intros T'. cbn [buffers ranges DatabaseBuffers.set_ranges]. destruct (decide (T = T')) as [<-|Hne].
  - by rewrite set_view_same, Get_Set_same.
  - rewrite set_view_other, Get_Set_other by done. apply (bo_kinds _ Hd).
Qed.

(** *** Deselecting *)

Lemma split_inv T view range i n :
  kind_inv T view range i n -> exists pre cells post, view = pre ++ cells ++ post /\ length pre = i /\ length cells = n /\
    range = span (length pre) (length cells).
Proof.
  intros Hk. destruct (split_view view i n (ki_inside _ _ _ _ _ Hk)) as (pre & cells & post & -> & <- & <-). exists pre, cells, post.
  split_and!; [done..|]. apply (ki_range _ _ _ _ _ Hk).
Qed.

Lemma kind_inv_after T pre cells post n :
  kind_inv T (pre ++ cells ++ post) (span (length pre) (length cells)) (length pre) (length cells) -> (n <= length cells)%nat ->
  kind_inv T (after_write T pre cells post n) (span (length pre + n) (length cells - n)) (length pre + n) (length cells - n).
Proof.
  intros [_ Hin Hsz Hinc Hok Hsel] Hn. pose proof (after_write_vIndex T pre cells post n) as Hm.
  pose proof (f_equal length Hm) as Hl. rewrite !length_map in Hl. split.
  - done.
  - lia.
  - lia.
  - by eapply increasing_indices.
  - by apply after_write_Forall; [apply cell_ok_deselect|].
  - intros HT k c Hk Hc. assert (Hw : after_write T pre cells post n = written_view pre cells post n) by by destruct T. rewrite Hw in Hk. unfold written_view in Hk.
    assert (Ht : length (map (set_selected false) (take n cells)) = n) by (rewrite length_map, length_take; lia).
    destruct (decide (length pre <= k < length pre + n)%nat) as [Hkn|Hkn].
    + rewrite lookup_app_r, lookup_app_l, lookup_map in Hk by lia. destruct (_ !! _) as [c0|]; cbn in Hk; [|done]. injection Hk as <-. done.
    + rewrite <- (lookup_outside pre (take n cells)) in Hk by (rewrite ?Ht, length_take; lia).
      rewrite (app_assoc (take n cells)), take_drop in Hk. specialize (Hsel HT k c Hk Hc). lia.
Qed.

Lemma Deselect_spec T d :
  T <> OctetStringSpec -> buffers_ok d -> exists d', DatabaseBuffers.Deselect T d = Some d' /\ buffers_ok d' /\
    SelectedRanges.Get T (ranges d') = Range.Invalid /\
    (forall T', T' <> T -> buffers d' T' = buffers d T' /\ SelectedRanges.Get T' (ranges d') = SelectedRanges.Get T' (ranges d)).
Proof.
  intros HT Hd. destruct (bo_kinds _ Hd T) as (i & n & Hk). unfold DatabaseBuffers.Deselect. rewrite (ki_range _ _ _ _ _ Hk), span_valid.
  destruct n as [|n]; cbn [Nat.eqb negb].
  { exists d. split_and!; [done|done|exact (ki_range _ _ _ _ _ Hk)|done]. }
  destruct (split_inv _ _ _ _ _ Hk) as (pre & cells & post & Hv & Hp & Hc & _). rewrite Hv, <- Hp, <- Hc. rewrite Hv, (ki_range _ _ _ _ _ Hk), <- Hp, <- Hc in Hk.
  rewrite for_range_update by exact (ki_size _ _ _ _ _ Hk). cbn [mbind option_bind]. unfold SelectedRanges.Clear. eexists. split; [done|]. split; [|split].
  - apply buffers_ok_set; [done|]. pose proof (kind_inv_after T pre cells post (length cells) Hk (le_n _)) as Ha.
    rewrite Nat.sub_diag in Ha. exists (length pre + length cells)%nat, 0%nat. replace (after_write T pre cells post (length cells)) with (pre ++ map (set_selected false) cells ++ post) in Ha; [exact Ha|].
    assert (Hw : after_write T pre cells post (length cells) = written_view pre cells post (length cells)) by by destruct T.
    rewrite Hw. unfold written_view. by rewrite take_ge, drop_ge by done.
  - apply Get_Set_same.
  - intros T' Hne. cbn [buffers ranges DatabaseBuffers.set_ranges]. rewrite set_view_other, Get_Set_other by done. done.
Qed.

Lemma UnselectAll_spec d :
  buffers_ok d -> exists d', DatabaseBuffers.Unselect d = Some d' /\ buffers_ok d' /\
    (forall T, T <> OctetStringSpec -> SelectedRanges.Get T (ranges d') = Range.Invalid) /\
    buffers d' OctetStringSpec = buffers d OctetStringSpec /\ SelectedRanges.Get OctetStringSpec (ranges d') = SelectedRanges.Get OctetStringSpec (ranges d).
Proof.
  intros Hd. unfold DatabaseBuffers.Unselect.
  assert (Hstep : forall T Ts d0, T <> OctetStringSpec -> buffers_ok d0 ->
    (forall T', T' ∈ Ts -> SelectedRanges.Get T' (ranges d0) = Range.Invalid) -> buffers d0 OctetStringSpec = buffers d OctetStringSpec ->
    SelectedRanges.Get OctetStringSpec (ranges d0) = SelectedRanges.Get OctetStringSpec (ranges d) ->
    exists d1, DatabaseBuffers.Deselect T d0 = Some d1 /\ buffers_ok d1 /\ (forall T', T' ∈ T :: Ts -> SelectedRanges.Get T' (ranges d1) = Range.Invalid) /\
      buffers d1 OctetStringSpec = buffers d OctetStringSpec /\ SelectedRanges.Get OctetStringSpec (ranges d1) = SelectedRanges.Get OctetStringSpec (ranges d)).
  { intros T Ts d0 HT Hd0 Hts Hb Hr. destruct (Deselect_spec T d0 HT Hd0) as (d1 & -> & Hd1 & HT1 & Ho). exists d1. split; [done|]. split; [done|].
    destruct (Ho OctetStringSpec ltac:(congruence)) as [-> ->]. split; [|done]. intros T' HT'. destruct (decide (T' = T)) as [->|Hne]; [done|].
    rewrite (proj2 (Ho T' Hne)). apply Hts. apply elem_of_cons in HT' as [|]; done. }
  destruct (Hstep BinarySpec [] d) as (d1 & -> & D1 & T1 & B1 & R1); [done|done|by intros ? ?%elem_of_nil|done|done|]. cbn [mbind option_bind].
  destruct (Hstep DoubleBitBinarySpec _ d1 ltac:(done) D1 T1 B1 R1) as (d2 & -> & D2 & T2 & B2 & R2). cbn [mbind option_bind].
  destruct (Hstep CounterSpec _ d2 ltac:(done) D2 T2 B2 R2) as (d3 & -> & D3 & T3 & B3 & R3). cbn [mbind option_bind].
  destruct (Hstep FrozenCounterSpec _ d3 ltac:(done) D3 T3 B3 R3) as (d4 & -> & D4 & T4 & B4 & R4). cbn [mbind option_bind].
  destruct (Hstep AnalogSpec _ d4 ltac:(done) D4 T4 B4 R4) as (d5 & -> & D5 & T5 & B5 & R5). cbn [mbind option_bind].
  destruct (Hstep BinaryOutputStatusSpec _ d5 ltac:(done) D5 T5 B5 R5) as (d6 & -> & D6 & T6 & B6 & R6). cbn [mbind option_bind].
  destruct (Hstep AnalogOutputStatusSpec _ d6 ltac:(done) D6 T6 B6 R6) as (d7 & -> & D7 & T7 & B7 & R7). cbn [mbind option_bind].
  destruct (Hstep TimeAndIntervalSpec _ d7 ltac:(done) D7 T7 B7 R7) as (d8 & -> & D8 & T8 & B8 & R8). cbn [mbind option_bind].
  exists d8. split_and!; [done..| |done|done]. intros T HT. apply T8. rewrite !elem_of_cons. destruct T; tauto.
Qed.

(** *** Selecting *)

(** A cell that was not selected takes a copy of its value. *)
Definition select_cell (T : Spec) (variation : option StaticVariation.t) c : Cell M :=
  if selected c then c else select_as (DatabaseBuffers.CheckForPromotion T (value c) (default (svariation c) variation)) c.

Definition select_result (cells : list (Cell M)) (ret : IINField) : IINField :=
  foldl (fun ret c => if selected c then IINField.or ret (IINField.of_bit PARAM_ERROR) else ret) ret cells.

Lemma select_range T variation pre cells post ret :
  Z.of_nat (length (pre ++ cells ++ post)) <= 65535 ->
  for_range (span (length pre) (length cells)) (DatabaseBuffers.select_one T variation) (pre ++ cells ++ post, ret) =
  Some (pre ++ map (select_cell T variation) cells ++ post, select_result cells ret).
Proof.
  apply (for_range_map (DatabaseBuffers.select_one T variation) (fun view ret => (view, ret)) (select_cell T variation)
    (fun ret c => if selected c then IINField.or ret (IINField.of_bit PARAM_ERROR) else ret)).
  clear. intros pre c post ret. unfold DatabaseBuffers.select_one, select_cell. rewrite View_at_app. cbn [mbind option_bind].
  destruct (selected c); [done|]. by rewrite View_set_app.
Qed.

Lemma select_cell_vIndex T variation c : vIndex (select_cell T variation c) = vIndex c.
Proof. unfold select_cell. by destruct (selected c). Qed.

Lemma select_cell_ok T variation c : cell_ok T c -> cell_ok T (select_cell T variation c).
Proof. intros [Hi Hv Hs]. unfold select_cell. destruct (selected c); by split. Qed.

(** The cells [j] to [j + m] are selected. *)
Lemma kind_inv_selected T variation pre cells post range i n :
  kind_inv T (pre ++ cells ++ post) range i n -> cells <> [] ->
  exists i' n', kind_inv T (pre ++ map (select_cell T variation) cells ++ post) (Range.Union range (span (length pre) (length cells))) i' n'.
Proof.
  intros Hk Hne. assert (Hlc : length cells = S (length cells - 1)) by (destruct cells; [done|cbn; lia]). rewrite Hlc.
  pose proof (ki_cells _ _ _ _ _ Hk) as Hok. rewrite !Forall_app in Hok. destruct Hok as (O1 & O2 & O3).
  eapply kind_inv_select; [exact Hk| | | |].
  - rewrite !length_app. lia.
  - rewrite !map_app. do 2 f_equal. rewrite map_map. apply map_ext. intros c. apply select_cell_vIndex.
  - apply Forall_app_2; [done|]. apply Forall_app_2; [|done]. apply Forall_map. eapply Forall_impl; [|exact O2]. intros c. apply select_cell_ok.
  - intros k c' Hkc Hs. destruct (decide (length pre <= k < length pre + length cells)%nat); [left; lia|right]. exists c'. split; [|done].
    rewrite <- Hkc. symmetry. apply lookup_outside; [apply length_map|]. rewrite length_map. lia.
Qed.

(** The range and what is there of it. *)
Lemma GenericSelect_spec T range variation d :
  buffers_ok d -> (Range.IsValid range = true -> range_ok range) -> exists d' iin, DatabaseBuffers.GenericSelect T range variation d = Some (d', iin) /\ buffers_ok d' /\
    (forall T', T' <> T -> buffers d' T' = buffers d T' /\ SelectedRanges.Get T' (ranges d') = SelectedRanges.Get T' (ranges d)) /\
    (class0 d' = class0 d /\ indexMode d' = indexMode d) /\
    (Range.IsValid range = true ->
     (Range.IsValid (Range.Intersection range (DatabaseBuffers.RangeOf (DatabaseBuffers.Size_of T d))) = false /\ d' = d /\ iin = IINField.of_bit PARAM_ERROR) \/
     exists pre cells post, buffers d T = pre ++ cells ++ post /\ cells <> [] /\ buffers d' T = pre ++ map (select_cell T variation) cells ++ post /\
       SelectedRanges.Get T (ranges d') = Range.Union (SelectedRanges.Get T (ranges d)) (span (length pre) (length cells)) /\
       Range.Intersection range (DatabaseBuffers.RangeOf (DatabaseBuffers.Size_of T d)) = span (length pre) (length cells) /\
       iin = select_result cells (if Range.Equals (span (length pre) (length cells)) range then IINField.Empty else IINField.of_bit PARAM_ERROR)).
Proof.
  intros Hd Hr. unfold DatabaseBuffers.GenericSelect. destruct (Range.IsValid range) eqn:Hv; [|by exists d, IINField.Empty].
  specialize (Hr eq_refl). destruct (bo_kinds _ Hd T) as (i & n & Hk). set (allowed := Range.Intersection _ _).
  destruct (Range.IsValid allowed) eqn:Ha.
  2:{ exists d, (IINField.of_bit PARAM_ERROR). split_and!; [done..|]. intros _. by left. }
  destruct (clipped_span range (length (buffers d T)) Hr (ki_size _ _ _ _ _ Hk) Ha) as (j & m & Haeq & Hj). change (Range.Intersection _ _) with allowed in Haeq.
  destruct (split_view (buffers d T) j (S m) Hj) as (pre & cells & post & Hview & Hp & Hc). rewrite Haeq, <- Hp, <- Hc, Hview.
  rewrite Hview in Hk. rewrite select_range by exact (ki_size _ _ _ _ _ Hk). cbn [mbind option_bind]. eexists _, _. split; [done|]. split_and!; [|..|done|done|].
  - apply buffers_ok_set; [done|]. apply (kind_inv_selected T variation pre cells post _ i n); [exact Hk|by destruct cells].
  - intros T' Hne. cbn [buffers ranges DatabaseBuffers.set_ranges]. unfold SelectedRanges.Merge. rewrite set_view_other, Get_Set_other by done. done.
  - intros _. right. exists pre, cells, post. cbn [buffers ranges DatabaseBuffers.set_ranges]. unfold SelectedRanges.Merge. rewrite set_view_same, Get_Set_same.
    split_and!; [done|by destruct cells|done..].
Qed.

End Invariant.

(** ** The search for an index *)

Section Search.
Context {M : Type} `{StaticMeasurementOk M}.
Implicit Types (c : Cell M) (view : list (Cell M)).

(** The array has no index [v], and the cell at [m] is next to where it would be. *)
Definition next_to view (v : Z) (m : nat) : Prop := exists c, view !! m = Some c /\
  (vIndex c < v /\ (forall k c', (m < k)%nat -> view !! k = Some c' -> v < vIndex c') \/
   v < vIndex c /\ (forall k c', (k < m)%nat -> view !! k = Some c' -> vIndex c' < v)).

Definition found view (v : Z) (r : bool * Z) : Prop :=
  exists m, r.2 = Z.of_nat m /\ if r.1 then exists c, view !! m = Some c /\ vIndex c = v else next_to view v m.

Lemma midpoint_between lower upper : 0 <= lower <= upper -> upper < 65536 -> lower <= IndexSearch.GetMidpoint lower upper <= upper.
Proof.
  intros Hl Hu. unfold IndexSearch.GetMidpoint. pose proof (Z.div_le_upper_bound (upper - lower) 2 (upper - lower) ltac:(lia) ltac:(lia)).
  pose proof (Z.div_pos (upper - lower) 2 ltac:(lia) ltac:(lia)). unfold u16. rewrite Z.mod_small; lia.
Qed.

(** Everything before [lower] is less than [v], everything after [upper] is greater;
    when nothing is left between them, the last midpoint is next to [v]. *)
Lemma search_loop_spec view v fuel : forall lower upper mid,
  increasing view -> Z.of_nat (length view) <= 65535 -> 0 <= lower -> upper < Z.of_nat (length view) -> 0 <= upper + 1 -> upper - lower < Z.of_nat fuel ->
  (forall k c, Z.of_nat k < lower -> view !! k = Some c -> vIndex c < v) -> (forall k c, upper < Z.of_nat k -> view !! k = Some c -> v < vIndex c) ->
  (upper < lower -> exists m, mid = Z.of_nat m /\ next_to view v m) ->
  exists r, IndexSearch.Find_loop fuel view v lower upper mid = Some r /\ found view v r.
Proof.
  induction fuel as [|fuel IH]; intros lower upper mid Hi Hlen Hl Hu Hu1 Hf Hlo Hhi Hmid; cbn [IndexSearch.Find_loop].
  { destruct (Z.leb_spec lower upper); [lia|]. destruct Hmid as (m & -> & Hm); [lia|]. eexists. split; [done|]. by exists m. }
  destruct (Z.leb_spec lower upper) as [Hle|Hgt].
  2:{ destruct Hmid as (m & -> & Hm); [lia|]. eexists. split; [done|]. by exists m. }
  pose proof (midpoint_between lower upper ltac:(lia) ltac:(lia)) as Hb. set (m := IndexSearch.GetMidpoint lower upper) in *. clearbody m.
  destruct (lookup_lt_is_Some_2 view (Z.to_nat m)) as [c Hc]; [lia|]. unfold View_at. rewrite Hc. cbn [mbind option_bind].
  destruct (Z.eqb_spec (vIndex c) v) as [He|Hne].
  { eexists. split; [done|]. exists (Z.to_nat m). cbn [fst snd]. split; [lia|]. by exists c. }
  assert (Hm : m = Z.of_nat (Z.to_nat m)) by lia. destruct (Z.ltb_spec (vIndex c) v) as [Hlt|Hge].
  - destruct (Z.ltb_spec lower 65535); [|lia]. assert (Hu16 : u16 (m + 1) = m + 1) by (unfold u16; rewrite Z.mod_small; lia). rewrite Hu16.
    apply IH; [done|done|lia|done|done|lia| |done|].
    + intros k c' Hk Hc'. destruct (Z.eq_dec (Z.of_nat k) m) as [Hkm|]; [|].
      * rewrite <- Hkm, Nat2Z.id in Hc. rewrite Hc in Hc'. by injection Hc' as <-.
      * specialize (Hi k (Z.to_nat m) c' c ltac:(lia) Hc' Hc). lia.
    + intros Hul. exists (Z.to_nat m). split; [done|]. exists c. split; [done|]. left. split; [done|]. intros k c' Hk Hc'. apply (Hhi k); [lia|done].
  - assert (Hnext : (forall k c', (k < Z.to_nat m)%nat -> view !! k = Some c' -> vIndex c' < v) -> next_to view v (Z.to_nat m)).
    { intros Hk. exists c. split; [done|]. right. split; [lia|done]. }
    destruct (Z.ltb_spec 0 upper) as [Hup|Hup], (Z.ltb_spec 0 m) as [Hm0|Hm0]; cbn [andb];
      [|eexists; (split; [done|]); exists (Z.to_nat m); (split; [done|]); apply Hnext; intros k c' Hk; lia..].
    assert (Hu16 : u16 (m - 1) = m - 1) by (unfold u16; rewrite Z.mod_small; lia). rewrite Hu16.
    apply IH; [done|done|lia|lia|lia|lia|done| |].
    + intros k c' Hk Hc'. destruct (Z.eq_dec (Z.of_nat k) m) as [Hkm|].
      * rewrite <- Hkm, Nat2Z.id in Hc. rewrite Hc in Hc'. injection Hc' as <-. lia.
      * specialize (Hi (Z.to_nat m) k c c' ltac:(lia) Hc Hc'). lia.
    + intros Hul. exists (Z.to_nat m). split; [done|]. apply Hnext. intros k c' Hk Hc'. apply (Hlo k); [lia|done].
Qed.

Lemma FindClosest_spec view v :
  increasing view -> Z.of_nat (length view) <= 65535 -> view <> [] ->
  exists r, IndexSearch.FindClosestRawIndex view v = Some r /\ found view v r.
Proof.
  intros Hi Hl Hne. assert (Hpos : (0 < length view)%nat) by (destruct view; [done|cbn; lia]).
  assert (HF : IndexSearch.FindClosestRawIndex view v = IndexSearch.Find_loop (length view) view v 0 (Z.of_nat (length view) - 1) 0) by by destruct view.
  rewrite HF. apply search_loop_spec; [done|done|lia|lia|lia|lia| | |].
  - intros k c Hk. lia.
  - intros k c Hk Hc. apply lookup_lt_Some in Hc. lia.
  - lia.
Qed.

Definition in_range (r : Range) c : Prop := start r <= vIndex c <= stop r.

(** The cells of the array whose index is in a range are those of a range of the array. *)
Definition raw_range view (r r' : Range) : Prop :=
  if Range.IsValid r' then exists i n, r' = span i (S n) /\ (i + S n <= length view)%nat /\ forall k c, view !! k = Some c -> ((i <= k < i + S n)%nat <-> in_range r c)
  else forall k c, view !! k = Some c -> ~ in_range r c.

Lemma increasing_cases view k m c' c : increasing view -> view !! k = Some c' -> view !! m = Some c ->
  (k < m)%nat /\ vIndex c' < vIndex c \/ (k = m /\ c' = c) \/ (m < k)%nat /\ vIndex c < vIndex c'.
Proof.
  intros Hi Hk Hm. destruct (Nat.lt_trichotomy k m) as [?|[->|?]].
  - left. split; [done|by apply (Hi k m)].
  - right. left. split; [done|congruence].
  - right. right. split; [done|by apply (Hi m k)].
Qed.

(** The first cell that is not before [v], and the last that is not after it. *)
Lemma found_first view v r (b : bool) : increasing view -> found view v (b, r) -> exists c, View_at view r = Some c /\ 0 <= r < Z.of_nat (length view) /\
  let i := if vIndex c <? v then r + 1 else r in forall k c', view !! k = Some c' -> (i <= Z.of_nat k <-> v <= vIndex c').
Proof.
  intros Hi (m & Hr & Hm). cbn [fst snd] in *. subst r. assert (Hc : exists c, view !! m = Some c) by (destruct b; destruct Hm as (c & Hc & _); by exists c).
  destruct Hc as [c Hc]. exists c. unfold View_at. rewrite Nat2Z.id. split; [done|]. pose proof (lookup_lt_Some _ _ _ Hc). split; [lia|]. cbv zeta.
  intros k c' Hk. pose proof (increasing_cases view k m c' c Hi Hk Hc) as Hcmp.
  destruct b.
  - destruct Hm as (c0 & Hc0 & Hv). rewrite Hc in Hc0. injection Hc0 as <-. destruct (Z.ltb_spec (vIndex c) v); [lia|].
    destruct Hcmp as [[? ?]|[[-> ->]|[? ?]]]; lia.
  - destruct Hm as (c0 & Hc0 & [[Hlt Hr]|[Hgt Hl]]); rewrite Hc in Hc0; injection Hc0 as <-.
    + destruct (Z.ltb_spec (vIndex c) v); [|lia]. destruct Hcmp as [[? ?]|[[-> ->]|[? ?]]]; [lia|lia|]. specialize (Hr k c' ltac:(done) Hk). lia.
    + destruct (Z.ltb_spec (vIndex c) v); [lia|]. destruct Hcmp as [[? ?]|[[-> ->]|[? ?]]]; [|lia|lia]. specialize (Hl k c' ltac:(done) Hk). lia.
Qed.

Lemma found_last view v r (b : bool) : increasing view -> found view v (b, r) -> exists c, View_at view r = Some c /\ 0 <= r < Z.of_nat (length view) /\
  let i := if v <? vIndex c then r - 1 else r in forall k c', view !! k = Some c' -> (Z.of_nat k <= i <-> vIndex c' <= v).
Proof.
  intros Hi (m & Hr & Hm). cbn [fst snd] in *. subst r. assert (Hc : exists c, view !! m = Some c) by (destruct b; destruct Hm as (c & Hc & _); by exists c).
  destruct Hc as [c Hc]. exists c. unfold View_at. rewrite Nat2Z.id. split; [done|]. pose proof (lookup_lt_Some _ _ _ Hc). split; [lia|]. cbv zeta.
  intros k c' Hk. pose proof (increasing_cases view k m c' c Hi Hk Hc) as Hcmp.
  destruct b.
  - destruct Hm as (c0 & Hc0 & Hv). rewrite Hc in Hc0. injection Hc0 as <-. destruct (Z.ltb_spec v (vIndex c)); [lia|].
    destruct Hcmp as [[? ?]|[[-> ->]|[? ?]]]; lia.
  - destruct Hm as (c0 & Hc0 & [[Hlt Hr]|[Hgt Hl]]); rewrite Hc in Hc0; injection Hc0 as <-.
    + destruct (Z.ltb_spec v (vIndex c)); [lia|]. destruct Hcmp as [[? ?]|[[-> ->]|[? ?]]]; [lia|lia|]. specialize (Hr k c' ltac:(done) Hk). lia.
    + destruct (Z.ltb_spec v (vIndex c)); [|lia]. destruct Hcmp as [[? ?]|[[-> ->]|[? ?]]]; [|lia|lia]. specialize (Hl k c' ltac:(done) Hk). lia.
Qed.

Lemma FindRawRange_spec view r :
  increasing view -> Z.of_nat (length view) <= 65535 -> range_ok r ->
  exists r', IndexSearch.FindRawRange view r = Some r' /\ raw_range view r r'.
Proof.
  intros Hi Hl Hr. unfold IndexSearch.FindRawRange. assert (Hv : Range.IsValid r = true) by (apply Z.leb_le; apply Hr). rewrite Hv.
  destruct (Z.ltb_spec 0 (Z.of_nat (length view))) as [Hpos|Hpos]; cbn [andb].
  2:{ exists Range.Invalid. split; [done|]. intros k c Hk. apply lookup_lt_Some in Hk. lia. }
  assert (Hne : view <> []) by (intros ->; cbn in Hpos; lia). clear Hv.
  destruct (FindClosest_spec view (start r) Hi Hl Hne) as ([b1 first] & -> & F1). destruct (FindClosest_spec view (stop r) Hi Hl Hne) as ([b2 last] & -> & F2).
  cbn [mbind option_bind]. destruct (found_first view (start r) first b1 Hi F1) as (c1 & -> & Hf & Hfirst).
  destruct (found_last view (stop r) last b2 Hi F2) as (c2 & -> & Hla & Hlast). cbn [mbind option_bind] in *. clear F1 F2. cbv zeta in *.
  destruct (Z.ltb_spec first 65535); [|lia]. rewrite andb_false_r.
  assert (E1 : (if vIndex c1 <? start r then u16 (first + 1) else first) = if vIndex c1 <? start r then first + 1 else first).
  { destruct (vIndex c1 <? start r); [|done]. unfold u16. rewrite Z.mod_small; lia. }
  rewrite E1. clear E1. set (i := if vIndex c1 <? start r then first + 1 else first) in *. assert (Hir : 0 <= i <= Z.of_nat (length view)) by (unfold i; destruct (vIndex c1 <? start r); lia).
  clearbody i. destruct ((stop r <? vIndex c2) && negb (0 <? last)) eqn:Hg.
  { apply andb_prop in Hg as [Hg1 Hg2]. rewrite Hg1 in Hlast. apply negb_true_iff, Z.ltb_ge in Hg2. exists Range.Invalid. split; [done|].
    intros k c Hk [? ?]. pose proof (proj2 (Hlast k c Hk)). lia. }
  assert (E2 : (if stop r <? vIndex c2 then u16 (last - 1) else last) = if stop r <? vIndex c2 then last - 1 else last).
  { destruct (stop r <? vIndex c2); [|done]. cbn [andb] in Hg. apply negb_false_iff, Z.ltb_lt in Hg. unfold u16. rewrite Z.mod_small; lia. }
  rewrite E2. clear E2. set (j := if stop r <? vIndex c2 then last - 1 else last) in *. assert (Hjr : 0 <= j < Z.of_nat (length view)).
  { unfold j. destruct (stop r <? vIndex c2); [|lia]. cbn [andb] in Hg. apply negb_false_iff, Z.ltb_lt in Hg. lia. }
  clearbody j. unfold View_Contains. destruct (Z.ltb_spec j (Z.of_nat (length view))); [|lia]. rewrite andb_true_r. eexists. split; [done|].
  assert (Hin : forall k c, view !! k = Some c -> (i <= Z.of_nat k <= j <-> in_range r c)).
  { intros k c Hk. unfold in_range. rewrite <- (Hfirst k c Hk), <- (Hlast k c Hk). done. }
  destruct (Z.ltb_spec i (Z.of_nat (length view))) as [Hil|Hil]; unfold raw_range, Range.IsValid, Range.From; cbn [start stop Range.Invalid].
  - destruct (Z.leb_spec i j) as [Hij|Hij].
    + exists (Z.to_nat i), (Z.to_nat (j - i)). split; [cbn [span]; f_equal; lia|]. split; [lia|]. intros k c Hk. rewrite <- (Hin k c Hk). lia.
    + intros k c Hk Hr'. apply (Hin k c Hk) in Hr'. lia.
  - intros k c Hk Hr'. apply (Hin k c Hk) in Hr'. apply lookup_lt_Some in Hk. lia.
Qed.

End Search.

(** ** The operations keep the invariant *)

Section Operations.
Context {M : Type} `{StaticMeasurementOk M}.
Implicit Types (c : Cell M) (pre cells post view : list (Cell M)) (w : Writer) (d : DatabaseBuffers M).

(** An operation that is defined and keeps the invariant. *)
Definition keeps_ok {A} (f : DatabaseBuffers M -> option (DatabaseBuffers M * A)) : Prop :=
  forall d, buffers_ok d -> exists d' a, f d = Some (d', a) /\ buffers_ok d'.

Lemma span_range_ok i n : Z.of_nat (i + S n) <= 65535 -> range_ok (span i (S n)).
Proof. intros Hl. unfold range_ok. cbn [span start stop]. lia. Qed.

Lemma RangeOf_span n : DatabaseBuffers.RangeOf (Z.of_nat n) = if decide (n = 0%nat) then Range.Invalid else mkRange 0 (u16 (Z.of_nat n - 1)).
Proof. unfold DatabaseBuffers.RangeOf. destruct (Z.ltb_spec 0 (Z.of_nat n)), (decide (n = 0%nat)); (done || lia). Qed.

Lemma RangeOf_ok size : 0 <= size <= 65535 -> Range.IsValid (DatabaseBuffers.RangeOf size) = true -> range_ok (DatabaseBuffers.RangeOf size).
Proof.
  unfold DatabaseBuffers.RangeOf, range_ok, Range.IsValid. intros Hs. destruct (Z.ltb_spec 0 size); [|done]. cbn [Range.From start stop].
  unfold u16. rewrite Z.mod_small by lia. intros Hv. apply Z.leb_le in Hv. lia.
Qed.

Lemma GenericSelect_ok T range variation : (Range.IsValid range = true -> range_ok range) -> keeps_ok (DatabaseBuffers.GenericSelect T range variation).
Proof. intros Hr d Hd. destruct (GenericSelect_spec T range variation d Hd Hr) as (d' & iin & -> & Hd' & _). by exists d', iin. Qed.

Lemma size_range T d : buffers_ok d -> Range.IsValid (DatabaseBuffers.RangeOf (DatabaseBuffers.Size_of T d)) = true ->
  range_ok (DatabaseBuffers.RangeOf (DatabaseBuffers.Size_of T d)).
Proof. intros Hd. destruct (bo_kinds _ Hd T) as (i & n & Hk). apply RangeOf_ok. pose proof (ki_size _ _ _ _ _ Hk). unfold DatabaseBuffers.Size_of. lia. Qed.

Lemma SelectAll_of_ok T : keeps_ok (DatabaseBuffers.SelectAll_of T).
Proof. intros d Hd. apply GenericSelect_ok; [|done]. by apply size_range. Qed.

Lemma SelectAllUsing_ok T v : keeps_ok (DatabaseBuffers.SelectAllUsing T v).
Proof. intros d Hd. apply GenericSelect_ok; [|done]. by apply size_range. Qed.

Lemma SelectVirtualRange_ok T range variation : range_ok range -> keeps_ok (DatabaseBuffers.SelectVirtualRange T range variation).
Proof.
  intros Hr d Hd. unfold DatabaseBuffers.SelectVirtualRange. destruct (indexMode d); [by apply GenericSelect_ok|].
  destruct (bo_kinds _ Hd T) as (i & n & Hk). destruct (FindRawRange_spec (buffers d T) range (ki_increasing _ _ _ _ _ Hk) (ki_size _ _ _ _ _ Hk) Hr) as (r' & -> & Hraw).
  cbn [mbind option_bind]. unfold raw_range in Hraw. destruct (Range.IsValid r') eqn:Hv; [|by eexists _, _].
  destruct Hraw as (j & m & -> & Hj & _). pose proof (ki_size _ _ _ _ _ Hk) as Hsz.
  destruct (GenericSelect_ok T (span j (S m)) variation (fun _ => span_range_ok j m ltac:(lia)) d Hd) as (d' & iin & -> & Hd'). cbn. by eexists _, _.
Qed.

Lemma SelectAllClass0_ok T d : buffers_ok d -> exists d', DatabaseBuffers.SelectAllClass0 T d = Some d' /\ buffers_ok d'.
Proof.
  intros Hd. unfold DatabaseBuffers.SelectAllClass0. destruct (DatabaseBuffers.IsSet _ _); [|by exists d].
  destruct (SelectAll_of_ok T d Hd) as (d' & iin & -> & Hd'). by exists d'.
Qed.

Ltac class0_step := match goal with
  | |- context [DatabaseBuffers.SelectAllClass0 ?T ?d] =>
      let d' := fresh "d" in let Hd := fresh "Hd" in
      destruct (SelectAllClass0_ok T d) as (d' & -> & Hd); [assumption|]; cbn [mbind option_bind]
  end.

Lemma SelectAll_gv_ok gv : keeps_ok (DatabaseBuffers.SelectAll gv).
Proof.
  intros d Hd. destruct gv; cbn [DatabaseBuffers.SelectAll];
    first [by apply SelectAll_of_ok | by apply SelectAllUsing_ok | by eexists _, _ | idtac].
  repeat class0_step. by eexists _, _.
Qed.

Lemma SelectRange_gv_ok gv range : range_ok range -> keeps_ok (DatabaseBuffers.SelectRange gv range).
Proof.
  intros Hr d Hd. destruct gv; cbn [DatabaseBuffers.SelectRange]; first [by apply SelectVirtualRange_ok | by eexists _, _].
Qed.

(** Classes are assigned to the points that are there. *)
Lemma AssignClassTo_spec T p range d :
  buffers_ok d -> (Range.IsValid range = true -> range_ok range) -> exists d' clipped, DatabaseBuffers.AssignClassTo T p range d = Some (d', clipped) /\ buffers_ok d' /\
    clipped = Range.Intersection range (DatabaseBuffers.RangeOf (DatabaseBuffers.Size_of T d)).
Proof.
  intros Hd Hr. destruct (bo_kinds _ Hd T) as (i & n & Hk). pose proof (ki_size _ _ _ _ _ Hk) as Hsz. unfold DatabaseBuffers.AssignClassTo. set (clipped := Range.Intersection _ _).
  assert (Hset : forall view, (exists i n, kind_inv T view (SelectedRanges.Get T (ranges d)) i n) -> buffers_ok (DatabaseBuffers.set_view T view d)).
  { intros view Hv. split; [|exact (bo_security _ Hd)]. intros T'. change (ranges (DatabaseBuffers.set_view T view d)) with (ranges d). destruct (decide (T = T')) as [<-|Hne]; [by rewrite set_view_same|].
    rewrite set_view_other by done. apply (bo_kinds _ Hd). }
  destruct (Range.IsValid clipped) eqn:Hv.
  2:{ rewrite for_range_invalid by done. cbn [mbind option_bind]. eexists _, _. split; [done|]. split; [|done]. apply Hset. by exists i, n. }
  assert (Hrv : Range.IsValid range = true).
  { unfold clipped, Range.Intersection, Range.IsValid in *. cbn [start stop] in Hv. unfold DatabaseBuffers.RangeOf in Hv. apply Z.leb_le in Hv. apply Z.leb_le. lia. }
  destruct (clipped_span range (length (buffers d T)) (Hr Hrv) Hsz Hv) as (j & m & Heq & Hj). change (Range.Intersection _ _) with clipped in Heq.
  destruct (split_view (buffers d T) j (S m) Hj) as (pre & cells & post & Hview & Hp & Hc). rewrite Heq, <- Hp, <- Hc, Hview. rewrite Hview in Hk, Hsz.
  rewrite for_range_update by exact Hsz. cbn [mbind option_bind]. eexists _, _. split; [done|]. split; [|done]. apply Hset. exists i, n.
  destruct Hk as [Kr Ki Ks Kinc Kc Ksel].
  assert (Hm : map vIndex (pre ++ map (set_clazz p) cells ++ post) = map vIndex (pre ++ cells ++ post)).
  { rewrite !map_app. do 2 f_equal. rewrite map_map. by apply map_ext. }
  pose proof (f_equal length Hm) as Hl. rewrite !length_map in Hl. split; [done|lia|lia|by eapply increasing_indices| |].
  - rewrite !Forall_app in *. destruct Kc as (K1 & K2 & K3). split_and!; [done| |done]. apply Forall_map. eapply Forall_impl; [|exact K2]. by intros c [].
  - intros HT k c Hkc Hs. destruct (decide (length pre <= k < length pre + length cells)%nat) as [Hin|Hin].
    + rewrite lookup_app_r, lookup_app_l, lookup_map in Hkc by (rewrite ?length_map; lia). destruct (cells !! _) as [c0|] eqn:Hc0; [|done]. cbn in Hkc. injection Hkc as <-.
      apply (Ksel HT k c0); [|done]. rewrite lookup_app_r, lookup_app_l by lia. exact Hc0.
    + apply (Ksel HT k c); [|done]. rewrite <- Hkc. symmetry. apply lookup_outside; [apply length_map|]. rewrite length_map. lia.
Qed.

End Operations.

(** ** Loading a response *)

Section Loading.
Context {M : Type} `{StaticMeasurementOk M}.
Implicit Types (c : Cell M) (pre cells post view : list (Cell M)) (w : Writer) (d : DatabaseBuffers M).

(** The cells of a range. *)
Definition cells_of view (range : Range) : list (Cell M) :=
  take (Z.to_nat (stop range - start range + 1)) (drop (Z.to_nat (start range)) view).

(** What is still to be reported of a kind, and of the kinds in a list. *)
Definition pending (T : Spec) d : list (GroupVariation.t * Z * Value) :=
  let range := SelectedRanges.Get T (ranges d) in points T (Z.to_nat (start range)) (cells_of (buffers d T) range).

Definition pending_all (Ts : list Spec) d : list (GroupVariation.t * Z * Value) := concat (map (fun T => pending T d) Ts).

(** In a range of octet strings the selected ones come last: a gap between two ranges is
    reported only when it is in the same response. *)
Fixpoint selected_last cells : bool :=
  match cells with
  | c :: cells => if selected c then forallb selected cells else selected_last cells
  | [] => true
  end.

(** The response is not cut by the count of a bit field that wraps, nor in a gap of
    octet strings. *)
Definition loads_whole (T : Spec) d : Prop :=
  match T with
  | BinarySpec => SelectedRanges.Get T (ranges d) <> mkRange 0 255
  | OctetStringSpec => selected_last (cells_of (buffers d T) (SelectedRanges.Get T (ranges d))) = true
  | _ => True
  end.

Lemma cells_of_span pre cells post : cells_of (pre ++ cells ++ post) (span (length pre) (length cells)) = cells.
Proof.
  unfold cells_of. destruct cells as [|c cells]; [by cbn|]. cbn [length span start stop]. rewrite Nat2Z.id, drop_app_length.
  apply take_app_length'. cbn [length]. lia.
Qed.

Lemma pending_span T d pre cells post :
  buffers d T = pre ++ cells ++ post -> SelectedRanges.Get T (ranges d) = span (length pre) (length cells) -> pending T d = points T (length pre) cells.
Proof.
  intros Hb Hr. unfold pending. rewrite Hb, Hr, cells_of_span. destruct cells as [|c cells]; [by destruct T|]. cbn [length span start]. by rewrite Nat2Z.id.
Qed.

Lemma pending_invalid T d : SelectedRanges.Get T (ranges d) = Range.Invalid -> pending T d = [].
Proof. intros Hr. unfold pending. rewrite Hr. by destruct T. Qed.

Lemma octet_points_app i n m cells :
  selected_last cells = true -> octet_points i (take (n + m) cells) = octet_points i (take n cells) ++ octet_points (i + n) (take m (drop n cells)).
Proof.
  revert i n. induction cells as [|c cells IH]; intros i n Hs; [by rewrite drop_nil, !take_nil|].
  destruct n as [|n]; [by rewrite Nat.add_0_r|]. cbn [Nat.add take drop octet_points selected_last] in *. destruct (selected c) eqn:Hc.
  - assert (Hall : forall l, forallb selected l = true -> forall k, octet_points k l = all_octets k l).
    { intros [|z l] Hl k; [done|]. cbn [forallb octet_points] in *. apply andb_prop in Hl as [-> _]. done. }
    change (c :: take (n + m) cells) with (take (S n + m) (c :: cells)). change (c :: take n cells) with (take (S n) (c :: cells)).
    rewrite all_octets_app. f_equal. cbn [drop]. rewrite Hall.
    + destruct (decide (n < length cells)%nat).
      * rewrite length_take, Nat.min_l by (cbn [length]; lia). done.
      * rewrite drop_ge by lia. by rewrite take_nil.
    + apply forallb_forall. intros x Hx. rewrite forallb_forall in Hs. apply Hs. rewrite <- (take_drop n cells), <- (take_drop m (drop n cells)).
      apply List.in_or_app. right. apply List.in_or_app. by left.
  - rewrite IH by done. by rewrite Nat.add_succ_comm.
Qed.

Lemma LoadType_spec T d w :
  buffers_ok d -> wwf w ->
  wp (DatabaseBuffers.LoadType T d) w (fun r w' => buffers_ok r.1 /\ (exists data, put w w' data) /\
    (forall T', T' <> T -> buffers r.1 T' = buffers d T' /\ SelectedRanges.Get T' (ranges r.1) = SelectedRanges.Get T' (ranges d)) /\
    (loads_whole T d -> exists pts, reported w w' pts /\ pending T d = pts ++ pending T r.1) /\
    (r.2 = true -> SelectedRanges.Get T (ranges r.1) = Range.Invalid) /\
    (r.2 = false -> Range.IsValid (SelectedRanges.Get T (ranges r.1)) = true /\ (v_size (position w') < 262)%nat) /\
    buffers r.1 OctetStringSpec = buffers d OctetStringSpec).
Proof.
  intros Hd Hw. destruct (bo_kinds _ Hd T) as (i & n & Hk). unfold DatabaseBuffers.LoadType. pose proof (ki_range _ _ _ _ _ Hk) as Hr.
  destruct (Range.IsValid (SelectedRanges.Get T (ranges d))) eqn:Hv; cbv iota.
  2:{ assert (Hinv : SelectedRanges.Get T (ranges d) = Range.Invalid) by (rewrite Hr in Hv |- *; rewrite span_valid in Hv; by destruct n).
    rewrite wp_ret. cbn [fst snd]. split_and!; [done|exists []; by apply put_refl|done| |done|done|done].
    intros _. exists []. split; [by apply reported_refl|done]. }
  destruct (split_inv _ _ _ _ _ Hk) as (pre & cells & post & Hview & Hp & Hc & Hrange). rewrite Hrange, Hview.
  assert (Hk' : kind_inv T (pre ++ cells ++ post) (span (length pre) (length cells)) (length pre) (length cells)) by (by rewrite <- Hview, <- Hrange, Hp, Hc).
  pose proof (ki_size _ _ _ _ _ Hk') as Hsz. rewrite wp_bind, span_count by (rewrite !length_app in Hsz; lia).
  eapply wp_mono; [apply load_type_wp; [done|done|done|apply (ki_increasing _ _ _ _ _ Hk')|apply (ki_cells _ _ _ _ _ Hk')]|]. cbv beta.
  intros [[view range] ok] w1 (m & [Ll Lv Lr Lp Lrep La Ls]). cbn [fst snd] in *. rewrite wp_ret. cbn [fst snd]. subst view range.
  split_and!.
  - apply buffers_ok_set; [done|]. eexists _, _. by apply kind_inv_after.
  - done.
  - intros T' Hne. cbn [buffers ranges DatabaseBuffers.set_ranges]. rewrite set_view_other, Get_Set_other by done. done.
  - intros Hwh. exists (points T (length pre) (take m cells)). split.
    + apply Lrep. intros (-> & -> & Hcl). cbn [loads_whole] in Hwh. apply Hwh. rewrite Hrange, Hcl. done.
    + rewrite (pending_span T d pre cells post Hview Hrange).
      rewrite (pending_span T _ (pre ++ passed T cells m) (drop m cells) post).
      * rewrite length_app, passed_length by done. rewrite <- (take_ge cells (length cells)) at 1 by done.
        replace (length cells) with (m + (length cells - m))%nat at 1 by lia. destruct (decide (T = OctetStringSpec)) as [->|HT].
        -- cbn [points]. rewrite octet_points_app; [|cbn [loads_whole] in Hwh; by rewrite Hview, Hrange, cells_of_span in Hwh].
           do 2 f_equal. apply take_ge. by rewrite length_drop.
        -- rewrite points_app by done. do 2 f_equal. apply take_ge. by rewrite length_drop.
      * cbn [buffers DatabaseBuffers.set_ranges]. rewrite set_view_same. apply after_write_split.
      * cbn [ranges DatabaseBuffers.set_ranges]. rewrite Get_Set_same. rewrite length_app, passed_length, length_drop by done. done.
  - intros Hok. cbn [ranges DatabaseBuffers.set_ranges]. rewrite Get_Set_same, (La Hok), Nat.sub_diag. done.
  - intros Hok. destruct (Ls Hok) as [Hm Hfull]. cbn [ranges DatabaseBuffers.set_ranges]. rewrite Get_Set_same, span_valid. split; [|done].
    apply negb_true_iff, Nat.eqb_neq. lia.
  - cbn [buffers DatabaseBuffers.set_ranges]. destruct (decide (T = OctetStringSpec)) as [->|HT]; [by rewrite set_view_same|by rewrite set_view_other].
Qed.

Lemma loads_whole_same T d d' :
  buffers d' T = buffers d T -> SelectedRanges.Get T (ranges d') = SelectedRanges.Get T (ranges d) -> loads_whole T d -> loads_whole T d'.
Proof. intros Hb Hr. unfold loads_whole. by rewrite Hb, Hr. Qed.

Lemma pending_same T d d' :
  buffers d' T = buffers d T -> SelectedRanges.Get T (ranges d') = SelectedRanges.Get T (ranges d) -> pending T d' = pending T d.
Proof. intros Hb Hr. unfold pending. by rewrite Hb, Hr. Qed.

Lemma load_all_spec Ts : forall d w,
  NoDup Ts -> buffers_ok d -> wwf w ->
  wp (DatabaseBuffers.load_all Ts d) w (fun r w' => buffers_ok r.1 /\ (exists data, put w w' data) /\
    (forall T, T ∉ Ts -> buffers r.1 T = buffers d T /\ SelectedRanges.Get T (ranges r.1) = SelectedRanges.Get T (ranges d)) /\
    ((forall T, T ∈ Ts -> loads_whole T d) -> exists pts, reported w w' pts /\ pending_all Ts d = pts ++ pending_all Ts r.1) /\
    (r.2 = true -> forall T, T ∈ Ts -> SelectedRanges.Get T (ranges r.1) = Range.Invalid) /\
    (r.2 = false -> (exists T, T ∈ Ts /\ Range.IsValid (SelectedRanges.Get T (ranges r.1)) = true) /\ (v_size (position w') < 262)%nat) /\
    buffers r.1 OctetStringSpec = buffers d OctetStringSpec).
Proof.
  induction Ts as [|T Ts IH]; intros d w Hnd Hd Hw; cbn [DatabaseBuffers.load_all].
  { rewrite wp_ret. cbn [fst snd]. split_and!; [done|exists []; by apply put_refl|done| |by intros _ T ?%elem_of_nil|done|done].
    intros _. exists []. split; [by apply reported_refl|done]. }
  pose proof (NoDup_cons_1_1 _ _ Hnd) as HnT. apply NoDup_cons_1_2 in Hnd. rewrite wp_bind. eapply wp_mono; [by apply LoadType_spec|]. cbv beta.
  intros [d1 ok] w1 (D1 & (data1 & P1) & O1 & R1 & T1 & F1 & U1). cbn [fst snd] in *.
  assert (Hsame : forall T', T' ∈ Ts -> buffers d1 T' = buffers d T' /\ SelectedRanges.Get T' (ranges d1) = SelectedRanges.Get T' (ranges d)).
  { intros T' HT'. apply O1. by intros ->. }
  assert (Hpend : pending_all Ts d1 = pending_all Ts d).
  { unfold pending_all. f_equal. apply map_ext_in. intros T' HT'. apply list_elem_of_In in HT'. apply pending_same; by apply Hsame. }
  destruct ok; cbn [negb].
  - eapply wp_mono; [apply IH; [done|done|by eapply put_wf]|]. cbv beta. intros [d2 ok] w2 (D2 & (data2 & P2) & O2 & R2 & T2 & F2 & U2). cbn [fst snd] in *.
    specialize (T1 eq_refl). split_and!.
    + done.
    + eexists. by eapply put_trans.
    + intros T' HT'. apply not_elem_of_cons in HT' as [Hne HT']. destruct (O2 T' HT') as [-> ->]. by apply O1.
    + intros Hwh. destruct R1 as (p1 & R1 & E1); [apply Hwh; by left|].
      destruct R2 as (p2 & R2 & E2). { intros T' HT'. destruct (Hsame T' HT'). eapply loads_whole_same; [done|done|]. apply Hwh. by right. }
      exists (p1 ++ p2). split; [by eapply reported_trans|]. cbn [pending_all map concat]. fold (pending_all Ts d). fold (pending_all Ts d2).
      rewrite E1, (pending_invalid T d1 T1), app_nil_r, <- Hpend, E2.
      destruct (O2 T HnT) as [Hb Hr]. rewrite (pending_invalid T d2) by (by rewrite Hr). by rewrite app_assoc.
    + intros Hok T' HT'. apply elem_of_cons in HT' as [->|HT']; [|by apply T2]. destruct (O2 T HnT) as [_ ->]. done.
    + intros Hok. destruct (F2 Hok) as [(T' & HT' & Hv) Hfull]. split; [|done]. exists T'. split; [by right|done].
    + congruence.
  - rewrite wp_ret. cbn [fst snd]. destruct (F1 eq_refl) as [Hv Hfull]. split_and!; [done|by exists data1| | |done| |done].
    + intros T' HT'. apply not_elem_of_cons in HT' as [Hne HT']. by apply O1.
    + intros Hwh. destruct R1 as (p1 & R1 & E1); [apply Hwh; by left|]. exists p1. split; [done|]. cbn [pending_all map concat].
      fold (pending_all Ts d). fold (pending_all Ts d1). by rewrite E1, Hpend, app_assoc.
    + intros _. split; [|done]. exists T. split; [by left|done].
Qed.

End Loading.

(** ** The database discharges the interface of the session *)

Section Interface.
Context {M : Type} `{StaticMeasurementOk M}.
Implicit Types (d : Database M) (w : Writer).

Lemma load_order_NoDup : NoDup DatabaseBuffers.load_order.
Proof. by apply (bool_decide_unpack _). Qed.

Lemma load_order_all T : T ∈ DatabaseBuffers.load_order.
Proof. destruct T; by apply (bool_decide_unpack _). Qed.

Lemma on_buffers_ok {A} (f : DatabaseBuffers M -> option (DatabaseBuffers M * A)) d :
  keeps_ok f -> buffers_ok (db_buffers d) -> exists d' a, Database.on_buffers f d = Some (d', a) /\ buffers_ok (db_buffers d').
Proof. intros Hf Hd. destruct (Hf _ Hd) as (b & a & Hb & Hok). unfold Database.on_buffers. rewrite Hb. cbn. by eexists _, _. Qed.

#[export] Instance Database_ok : StaticDatabaseOk (Database M).
Proof.
  refine {| database_ok d := buffers_ok (db_buffers d) |}.
  - intros gv d Hd. apply on_buffers_ok; [apply SelectAll_gv_ok|done].
  - intros gv range d Hd Hr. apply on_buffers_ok; [by apply SelectRange_gv_ok|done].
  - intros d Hd. cbn [Unselect Database_interfaces]. unfold Database.Unselect. destruct (UnselectAll_spec (db_buffers d) Hd) as (b & -> & Hb & _). cbn. by eexists.
  - intros d w Hd Hw. cbn [Load Database_interfaces]. unfold Database.Load, DatabaseBuffers.Load. rewrite wp_bind.
    eapply wp_mono; [by apply load_all_spec; [apply load_order_NoDup|..]|]. cbv beta. intros [b ok] w1 (Hb & Hp & _). by rewrite wp_ret.
  - intros type p d Hd. cbn [AssignClassToAll Database_interfaces]. apply on_buffers_ok; [|done]. intros b Hb.
    unfold DatabaseBuffers.AssignClassToAll, DatabaseBuffers.AssignClassToRange.
    destruct (AssignClassTo_spec (DatabaseBuffers.assigned type) p _ b Hb (size_range (DatabaseBuffers.assigned type) b Hb)) as (b' & c & -> & Hb' & _). by exists b', c.
  - intros type p range d Hd Hr. cbn [AssignClassToRange Database_interfaces]. apply on_buffers_ok; [|done]. intros b Hb.
    unfold DatabaseBuffers.AssignClassToRange.
    destruct (AssignClassTo_spec (DatabaseBuffers.assigned type) p range b Hb (fun _ => Hr)) as (b' & c & -> & Hb' & _). by exists b', c.
Defined.

End Interface.

(** ** What is read back *)

(** The points that the headers of a response report. *)
Definition static_points (hs : list Header) : list (GroupVariation.t * Z * Value) :=
  flat_map (fun h => match h with RangeOf record _ ivs => map (fun iv => (enum_of record, iv.1, iv.2)) ivs | _ => [] end) hs.

(** Octet strings without bytes have no variation that the parser takes. *)
Definition point_readable (p : GroupVariation.t * Z * Value) : Prop := p.1.1 = GroupVariation.Group110Var0 -> p.2 <> Octets [].

Section ReadBack.

Lemma static_readable settings req :
  expectContents settings = true -> is_static req -> request_ok req -> Forall point_readable (reported_by req) -> readable settings req.
Proof.
  intros Hs Hst Hok Hr. destruct req as [| | | | | |i k start vs|i gv start bits|]; try done. cbn [readable]. split; [|done].
  destruct k as [gv|n|n]; [done| |done]. cbn in Hst. destruct (decide (n = 0)) as [->|]; [|lia]. exfalso.
  destruct Hok as (Hne & _ & _ & Hf). destruct vs as [|v vs]; [done|]. apply Forall_cons_1 in Hf as [Hv _]. cbn [reported_by] in Hr.
  rewrite imap_cons in Hr. apply Forall_cons_1 in Hr as [Hr _]. destruct v as [| | |data]; try done. cbn in Hv. destruct Hv as (_ & Hl & _).
  destruct data; [|cbn in Hl; lia]. by apply Hr.
Qed.

Lemma map_indexed {X} (gv : GroupVariation.t) (start : Z) (f : X -> Value) xs :
  map (fun iv : Z * Value => (gv, iv.1, iv.2)) (imap (fun j x => (start + Z.of_nat j, f x)) xs) = imap (fun j x => (gv, start + Z.of_nat j, f x)) xs.
Proof. apply fmap_imap. Qed.

Lemma header_points settings index req :
  readable settings req -> is_static req -> static_points [header_of index req (objects req)] = reported_by req.
Proof.
  intros Hr Hst. destruct req as [| | | | | |i k start vs|i gv start bits|]; try done; cbn [header_of objects]; unfold static_points; cbn [flat_map reported_by];
    rewrite app_nil_r, take_ge by done.
  - rewrite map_indexed. assert (Hk : kind_ok k).
    { destruct Hr as [Hr _]. destruct k as [gv|n|n]; [|done..]. intros ->. discriminate Hr. }
    unfold enum_of. cbn [gv_record]. by rewrite (kind_record k Hk).
  - rewrite map_indexed. unfold enum_of. cbn [gv_record]. by destruct gv.
Qed.

Lemma headers_points settings reqs : forall index,
  Forall (readable settings) reqs -> Forall is_static reqs -> Forall request_ok reqs ->
  static_points (headers_of index reqs (map objects reqs)) = concat (map reported_by reqs).
Proof.
  induction reqs as [|req reqs IH]; intros index Hr Hs Ho; [done|]. apply Forall_cons_1 in Hr as [Hr1 Hr]. apply Forall_cons_1 in Hs as [Hs1 Hs].
  apply Forall_cons_1 in Ho as [Ho1 Ho]. cbn [map headers_of concat]. assert (Hn : objects req <> 0%nat).
  { destruct req as [| | | | | |i k start vs|i gv start bits|]; try done; destruct Ho1 as (Hne & _); cbn [objects]; intros Hl; by apply nil_length_inv in Hl. }
  rewrite decide_False by done. rewrite <- (header_points settings index req Hr1 Hs1), <- (IH (u32 (index + 1)) Hr Hs Ho).
  unfold static_points. cbn [flat_map]. by rewrite app_nil_r.
Qed.

(** What was reported is read by the other side. *)
Lemma reported_read settings w w' pts :
  expectContents settings = true -> reported w w' pts -> Forall point_readable pts ->
  exists data hs, wrote w w' data /\ decoded settings data = Some (hs, OK) /\ static_points hs = pts.
Proof.
  intros Hset (reqs & Ho & Hs & <- & W) Hr. assert (Hre : Forall (readable settings) reqs).
  { apply Forall_concat, Forall_map in Hr. clear W. induction Ho as [|req reqs Ho1 Ho IH]; [constructor|]. apply Forall_cons_1 in Hs as [Hs1 Hs].
    apply Forall_cons_1 in Hr as [Hr1 Hr]. constructor; [by apply static_readable|by apply IH]. }
  assert (Hns : Forall2 (fun req n => (n <= objects req)%nat) reqs (map objects reqs)) by (clear; induction reqs; cbn [map]; by constructor).
  eexists _, _. split; [exact W|]. split; [|by apply (headers_points settings)].
  pose proof (loop_requests settings _ _ _ 0 Ho Hre Hns (le_n _)) as He. unfold decoded, APDUParser.ParseSinglePass, encode_all.
  by rewrite (He _ (Some recorder)), deliver_recorder.
Qed.

End ReadBack.

Section Theorems.
Context {M : Type} `{StaticMeasurementOk M}.

(** C16: A response takes the selected points from the database and the other side reads
    exactly those. Take a database in order and any window. Left out are binaries
    selected at exactly the places 0 to 255, whose one-byte count wraps (C38), octet
    strings selected with a gap between them ([loads_whole]), and empty octet strings
    ([point_readable]). Then [Load] runs, the parser accepts what it wrote, and the
    points that it reports, followed by those still pending, are the points that were
    pending before. A pending point has its index, the value copied when it was
    selected, and the object of the writer for its selected variation ([static_object]):
    that variation if it has a writer, always Group21Var1 for frozen counters, and the
    one object of their kind for double-bit binaries, output status and time with
    interval. Pending octet strings are all from the first selected to the end of the
    range, indexed by place. If [Load] says that a selection is left, fewer than 262
    bytes are free. *)
Theorem static_values_are_read_back (d : Database M) (w : Writer) settings :
  database_ok d -> wwf w -> (forall T, loads_whole T (db_buffers d)) ->
  Forall point_readable (pending_all DatabaseBuffers.load_order (db_buffers d)) -> expectContents settings = true ->
  exists w' d' fin data hs, Database.Load d w = Some (w', (d', fin)) /\ database_ok d' /\ put w w' data /\ decoded settings data = Some (hs, OK) /\
    pending_all DatabaseBuffers.load_order (db_buffers d) = static_points hs ++ pending_all DatabaseBuffers.load_order (db_buffers d') /\
    fin = negb (DatabaseBuffers.HasAnySelection (db_buffers d')) /\ (fin = false -> (v_size (position w') < 262)%nat).
Proof.
  intros Hd Hw Hwh Hread Hset. unfold Database.Load, DatabaseBuffers.Load.
  pose proof (load_all_spec _ (db_buffers d) w load_order_NoDup Hd Hw) as HL. apply wp_run in HL as (w' & [b ok] & HL & Hb & Hp & _ & HR & HT & HF & _).
  cbn [fst snd] in *. destruct HR as (pts & HR & Heq); [intros T _; apply Hwh|].
  destruct (reported_read settings w w' pts Hset HR) as (data & hs & W & Hdec & Hpts).
  { rewrite Heq in Hread. by apply Forall_app in Hread as [Hread _]. }
  unfold mbind at 1, SM_bind. rewrite HL. cbn [mret SM_ret]. exists w', (mkDatabase (db_indexMode d) b), ok, data, hs. cbn [db_buffers].
  split_and!; [done|done|by apply wrote_put|done|by rewrite Hpts| |by intros Hok; apply HF].
  destruct ok; symmetry; [apply negb_true_iff|apply negb_false_iff]; unfold DatabaseBuffers.HasAnySelection, SelectedRanges.HasAnySelection.
  - rewrite !HT by (done || apply load_order_all). by rewrite (bo_security _ Hb).
  - destruct (HF eq_refl) as [(T & _ & Hv) _]. destruct T; rewrite Hv, ?orb_true_r; done.
Qed.

End Theorems.

(** ** Updates *)

Section Updates.
Context {M : Type} `{StaticMeasurementOk M}.
Implicit Types (c : Cell M) (view : list (Cell M)) (d : Database M) (b : EventBuffer M) (s : QueueBuffer M).

(** The class of the event that an update of a cell reports. *)
Definition event_of (T : Spec) (mode : EventMode) (v : M) c : option EventClass :=
  match mode with
  | Suppress => None
  | Detect => if IsEvent T (lastEvent c) v (deadband c) then Database.ConvertToEventClass (clazz c) else None
  | Force | EventOnly => Database.ConvertToEventClass (clazz c)
  end.

(** The cell after an update, and the event buffer in its contract. *)
Definition updated_cell (T : Spec) (mode : EventMode) (v : M) c : Cell M :=
  let c := match event_of T mode v c with Some _ => set_lastEvent v c | None => c end in
  match mode with EventOnly => c | _ => set_value v c end.

Definition after_event (caps : EventType -> nat) (T : Spec) (mode : EventMode) (v : M) c s : QueueBuffer M :=
  match event_of T mode v c with
  | Some ec =>
      let '(qs, over) := Queue.update (Z.of_nat (caps (EventTypeEnum T))) (EventTypeEnum T) (mkEvent v (vIndex c) ec (evariation c)) (qb_events s) in
      mkQueueBuffer (if over then true else qb_overflow s) qs
  | None => s
  end.

(** One array is replaced. *)
Record replaced (T : Spec) view d d' : Prop := mkReplaced {
  re_view : buffers (db_buffers d') T = view;
  re_others : forall T', T' <> T -> buffers (db_buffers d') T' = buffers (db_buffers d) T';
  re_ranges : ranges (db_buffers d') = ranges (db_buffers d);
  re_modes : db_indexMode d' = db_indexMode d
}.

Lemma replaced_trans T view1 view2 d d1 d2 : replaced T view1 d d1 -> replaced T view2 d1 d2 -> replaced T view2 d d2.
Proof.
  intros [V1 O1 R1 M1] [V2 O2 R2 M2]. split; [done| |congruence|congruence]. intros T' Hne. rewrite O2 by done. by apply O1.
Qed.

Lemma replaced_refl T d : replaced T (buffers (db_buffers d) T) d d.
Proof. by split. Qed.

Lemma update_cell_wp T k c (f : Cell M -> Cell M) d b (Q : unit -> Database M * EventBuffer M -> Prop) :
  buffers (db_buffers d) T !! k = Some c ->
  (forall d', replaced T (<[k := f c]> (buffers (db_buffers d) T)) d d' -> Q tt (d', b)) -> wp (Database.update_cell T (Z.of_nat k) f) (d, b) Q.
Proof.
  intros Hc HQ. unfold Database.update_cell, Database.GetArrayView. rewrite wp_bind, wp_get, wp_bind, wp_lift. cbn [fst].
  unfold View_update, View_at. rewrite Nat2Z.id, Hc. cbn [mbind option_bind]. eexists. split; [done|]. rewrite wp_modify. cbn [fst snd]. apply HQ.
  unfold View_set. rewrite Nat2Z.id. split; [apply set_view_same| |done|done]. intros T' Hne. by apply set_view_other.
Qed.

Lemma report_wp caps T e d b s :
  caps_ok caps -> models caps b s ->
  wp (Database.report T e) (d, b) (fun _ st => st.1 = d /\
    models caps st.2 (let '(qs, over) := Queue.update (Z.of_nat (caps (EventTypeEnum T))) (EventTypeEnum T) e (qb_events s) in
                      mkQueueBuffer (if over then true else qb_overflow s) qs)).
Proof.
  intros Hcaps Hs. unfold Database.report, wp. cbn [fst snd].
  destruct (step_refines (Wr := option (Writer * EventWriter)) caps (OpUpdate (EventTypeEnum T) e) _ _ None Hcaps I Hs) as (b' & Hb & Hm). cbn [step Spec.step] in *.
  destruct (EventBuffer.UpdateAny _ e b) as [b1|]; [|done]. cbn [mbind option_bind] in *. injection Hb as ->.
  destruct (Queue.update _ _ _ _). done.
Qed.

Lemma TryCreateEvent_wp caps T k c v d b s :
  caps_ok caps -> models caps b s -> buffers (db_buffers d) T !! k = Some c ->
  wp (Database.TryCreateEvent T (Z.of_nat k) v) (d, b) (fun _ st =>
    replaced T (<[k := match Database.ConvertToEventClass (clazz c) with Some _ => set_lastEvent v c | None => c end]> (buffers (db_buffers d) T)) d st.1 /\
    models caps st.2 (after_event caps T Force v c s)).
Proof.
  intros Hcaps Hs Hc. unfold Database.TryCreateEvent, Database.GetArrayView. rewrite wp_bind, wp_get, wp_bind, wp_lift. cbn [fst].
  exists c. unfold View_at. rewrite Nat2Z.id. split; [done|]. unfold after_event. cbn [event_of].
  destruct (Database.ConvertToEventClass (clazz c)) as [ec|].
  - rewrite wp_bind. apply (update_cell_wp T k c); [done|]. intros d1 R1. eapply wp_mono; [by apply (report_wp caps)|]. cbv beta.
    intros _ [d2 b2]. cbn [fst snd]. by intros [-> Hm].
  - rewrite wp_ret. split; [|done]. cbn [fst]. rewrite list_insert_id by done. apply replaced_refl.
Qed.

Lemma update_point_wp caps T k c v mode d b s :
  caps_ok caps -> models caps b s -> buffers (db_buffers d) T !! k = Some c ->
  wp (Database.UpdateAny T (Z.of_nat k) v mode) (d, b) (fun _ st =>
    replaced T (<[k := updated_cell T mode v c]> (buffers (db_buffers d) T)) d st.1 /\ models caps st.2 (after_event caps T mode v c s)).
Proof.
  intros Hcaps Hs Hc. unfold Database.UpdateAny, Database.GetArrayView. rewrite wp_bind, wp_get, wp_bind, wp_lift. cbn [fst].
  exists c. unfold View_at. rewrite Nat2Z.id. split; [done|]. rewrite wp_bind.
  set (c1 := match event_of T mode v c with Some _ => set_lastEvent v c | None => c end).
  assert (Hev : wp (match mode with
      | Force | EventOnly => Database.TryCreateEvent T (Z.of_nat k) v
      | Detect => if IsEvent T (lastEvent c) v (deadband c) then Database.TryCreateEvent T (Z.of_nat k) v else mret tt
      | Suppress => mret tt
      end) (d, b) (fun _ st => replaced T (<[k := c1]> (buffers (db_buffers d) T)) d st.1 /\ models caps st.2 (after_event caps T mode v c s))).
  { assert (Hnone : event_of T mode v c = None -> replaced T (<[k := c1]> (buffers (db_buffers d) T)) d d /\ models caps b (after_event caps T mode v c s)).
    { intros He. unfold c1, after_event. rewrite He, list_insert_id by done. split; [apply replaced_refl|done]. }
    unfold c1, after_event in *. destruct mode; cbn [event_of] in *; try (rewrite wp_ret; by apply Hnone);
      [destruct (IsEvent _ _ _ _); [|rewrite wp_ret; by apply Hnone]|..]; by apply (TryCreateEvent_wp caps). }
  eapply wp_mono; [exact Hev|]. cbv beta. intros _ [d1 b1] [R1 Hm]. cbn [fst snd] in *. pose proof (lookup_lt_Some _ _ _ Hc) as Hk.
  assert (Hc1 : buffers (db_buffers d1) T !! k = Some c1) by (rewrite (re_view _ _ _ _ R1); apply list_lookup_insert_eq; done).
  unfold updated_cell. fold c1. destruct (bool_decide_reflect (mode = EventOnly)) as [->|Hne].
  - by rewrite wp_ret.
  - apply (update_cell_wp T k c1); [done|]. intros d2 R2. cbn [fst snd]. split; [|done]. rewrite (re_view _ _ _ _ R1), list_insert_insert_eq in R2.
    replace (match mode with EventOnly => c1 | _ => set_value v c1 end) with (set_value v c1) by by destruct mode.
    by eapply replaced_trans.
Qed.

(** The cell of a point: its place, or its index in discontiguous mode. *)
Definition addressed d (T : Spec) (index : Z) (k : nat) c : Prop :=
  buffers (db_buffers d) T !! k = Some c /\
  match db_indexMode d with Contiguous => Z.of_nat k = index | Discontiguous => vIndex c = index end.

(** The raw index is that of the cell, or outside of the array. *)
Lemma GetRawIndex_wp T index d b :
  database_ok d -> is_u16 index ->
  wp (Database.GetRawIndex T index) (d, b) (fun i st => st = (d, b) /\ 0 <= i <= 65535 /\
    (forall k c, addressed d T index k c <-> buffers (db_buffers d) T !! k = Some c /\ i = Z.of_nat k)).
Proof.
  intros Hd Hi. destruct (bo_kinds _ Hd T) as (i0 & n0 & Hk). pose proof (ki_increasing _ _ _ _ _ Hk) as Hinc. pose proof (ki_size _ _ _ _ _ Hk) as Hsz.
  unfold is_u16 in Hi. unfold Database.GetRawIndex, addressed. rewrite wp_bind, wp_get. cbn [fst].
  destruct (db_indexMode d).
  - rewrite wp_ret. split_and!; [done|lia|lia|]. intros k c. split; intros [? ?]; (split; [done|lia]).
  - rewrite wp_bind, wp_lift. destruct (decide (buffers (db_buffers d) T = [])) as [He|Hne].
    { rewrite He. eexists. split; [done|]. cbv iota. rewrite wp_ret. split_and!; [done|lia|lia|]. intros k c. rewrite lookup_nil. split; by intros [? _]. }
    destruct (FindClosest_spec (buffers (db_buffers d) T) index Hinc Hsz Hne) as ([found_ i] & -> & m & Hm & Hf). cbn [fst snd] in *. subst i.
    eexists. split; [done|]. rewrite wp_ret. destruct found_.
    + destruct Hf as (c0 & Hc0 & <-). pose proof (lookup_lt_Some _ _ _ Hc0). split_and!; [done|lia|lia|]. intros k c. split.
      * intros [Hk1 Hv]. split; [done|]. destruct (increasing_cases _ k m c c0 Hinc Hk1 Hc0) as [[? ?]|[[-> ->]|[? ?]]]; lia.
      * intros [Hk1 Hkm]. assert (k = m) as -> by lia. rewrite Hc0 in Hk1. by injection Hk1 as ->.
    + split_and!; [done|lia|lia|]. intros k c. split.
      * intros [Hk1 Hv]. exfalso. destruct Hf as (c0 & Hc0 & Hn). destruct (increasing_cases _ k m c c0 Hinc Hk1 Hc0) as [[? ?]|[[-> ->]|[? ?]]];
          (destruct Hn as [[? Hn]|[? Hn]]; [try lia; specialize (Hn k c ltac:(lia) Hk1); lia|try lia; specialize (Hn k c ltac:(lia) Hk1); lia]).
      * intros [Hk1 Hkm]. apply lookup_lt_Some in Hk1. lia.
Qed.

End Updates.

(** ** What a read selects *)

Section Reads.
Context {M : Type} `{StaticMeasurementOk M}.
Implicit Types (c : Cell M) (pre cells post view : list (Cell M)) (d : DatabaseBuffers M).

(** A part of an array in which a test has one result. *)
Lemma filter_const (P : Cell M -> bool) (b : bool) l : (forall k c, l !! k = Some c -> P c = b) -> List.filter P l = if b then l else [].
Proof.
  induction l as [|c l IH]; intros Hl; [by destruct b|]. cbn [List.filter]. rewrite (Hl 0%nat c eq_refl), IH by (intros k; apply (Hl (S k))). by destruct b.
Qed.

(** The parts of a split. *)
Lemma lookup_pre pre cells post k c : pre !! k = Some c -> (pre ++ cells ++ post) !! k = Some c /\ (k < length pre)%nat.
Proof. intros Hk. pose proof (lookup_lt_Some _ _ _ Hk). split; [by rewrite lookup_app_l|done]. Qed.

Lemma lookup_cells pre cells post k c : cells !! k = Some c -> (pre ++ cells ++ post) !! (length pre + k)%nat = Some c /\ (k < length cells)%nat.
Proof.
  intros Hk. pose proof (lookup_lt_Some _ _ _ Hk). split; [|done]. rewrite lookup_app_r, lookup_app_l by lia. rewrite <- Hk. f_equal. lia.
Qed.

Lemma lookup_post pre cells post k c : post !! k = Some c -> (pre ++ cells ++ post) !! (length pre + length cells + k)%nat = Some c.
Proof.
  intros Hk. rewrite app_assoc, lookup_app_r by (rewrite length_app; lia). rewrite length_app, <- Hk. f_equal. lia.
Qed.

(** Without octet strings everything that is selected is pending. *)
Lemma pending_selected T d : T <> OctetStringSpec -> buffers_ok d -> pending T d = map (point T) (List.filter selected (buffers d T)).
Proof.
  intros HT Hd. destruct (bo_kinds _ Hd T) as (i & n & Hk). destruct (split_inv _ _ _ _ _ Hk) as (pre & cells & post & Hv & Hp & Hc & Hr).
  rewrite (pending_span T d pre cells post Hv Hr), Hv.
  assert (Hout : forall k c, (pre ++ cells ++ post) !! k = Some c -> ~ (i <= k < i + n)%nat -> selected c = false).
  { intros k c Hkc Hout. destruct (selected c) eqn:Hs; [|done]. exfalso. apply Hout. rewrite <- Hv in Hkc. by apply (ki_selected _ _ _ _ _ Hk HT k c). }
  rewrite !List.filter_app, (filter_const selected false pre), (filter_const selected false post).
  - cbn [app]. rewrite app_nil_r. by destruct T.
  - intros k c Hkc. apply (lookup_post pre cells) in Hkc. apply (Hout _ _ Hkc). lia.
  - intros k c Hkc. apply (lookup_pre pre cells post) in Hkc as [Hkc Hl]. apply (Hout _ _ Hkc). lia.
Qed.

(** The index of a cell of a contiguous array is its place. *)
Definition plain_indices (T : Spec) d : Prop :=
  indexMode d = Contiguous -> forall k c, buffers d T !! k = Some c -> vIndex c = Z.of_nat k.

Definition in_rangeb (r : Range) c : bool := (start r <=? vIndex c) && (vIndex c <=? stop r).

Lemma in_rangeb_spec r c : in_rangeb r c = true <-> in_range r c.
Proof. unfold in_rangeb, in_range. rewrite andb_true_iff, !Z.leb_le. done. Qed.

(** The points of a range. *)
Definition points_in (T : Spec) (r : Range) d : list (Cell M) := List.filter (in_rangeb r) (buffers d T).

Lemma points_in_split T r d pre cells post :
  buffers d T = pre ++ cells ++ post ->
  (forall k c, buffers d T !! k = Some c -> ((length pre <= k < length pre + length cells)%nat <-> in_range r c)) -> points_in T r d = cells.
Proof.
  intros Hv Hin. unfold points_in. rewrite Hv in *.
  assert (Hb : forall k c, (pre ++ cells ++ post) !! k = Some c -> in_rangeb r c = bool_decide (length pre <= k < length pre + length cells)%nat).
  { intros k c Hkc. apply eq_true_iff_eq. by rewrite in_rangeb_spec, bool_decide_eq_true, <- (Hin _ _ Hkc). }
  rewrite !List.filter_app, (filter_const _ false pre), (filter_const _ true cells), (filter_const _ false post); [cbn [app]; apply app_nil_r|..]; intros k c Hkc.
  - apply (lookup_post pre cells) in Hkc. rewrite (Hb _ _ Hkc). apply bool_decide_eq_false. lia.
  - apply (lookup_cells pre cells post) in Hkc as [Hkc Hl]. rewrite (Hb _ _ Hkc). apply bool_decide_eq_true. lia.
  - apply (lookup_pre pre cells post) in Hkc as [Hkc Hl]. rewrite (Hb _ _ Hkc). apply bool_decide_eq_false. lia.
Qed.

Lemma points_in_none T r d : (forall k c, buffers d T !! k = Some c -> ~ in_range r c) -> points_in T r d = [].
Proof.
  intros Hn. apply (filter_const (in_rangeb r) false). intros k c Hk. specialize (Hn k c Hk). rewrite <- in_rangeb_spec in Hn. by destruct (in_rangeb r c).
Qed.

(** Nothing of a kind is selected. *)
Definition unselected (T : Spec) d : Prop := SelectedRanges.Get T (ranges d) = Range.Invalid.

Lemma unselected_cells T d k c : T <> OctetStringSpec -> buffers_ok d -> unselected T d -> buffers d T !! k = Some c -> selected c = false.
Proof.
  intros HT Hd Hu Hk. destruct (bo_kinds _ Hd T) as (i & n & Hki). destruct (selected c) eqn:Hs; [|done]. exfalso.
  pose proof (ki_selected _ _ _ _ _ Hki HT k c Hk Hs) as Hin. pose proof (ki_range _ _ _ _ _ Hki) as Hr. rewrite Hu in Hr.
  apply (f_equal Range.IsValid) in Hr. rewrite span_valid in Hr. destruct n; [lia|discriminate Hr].
Qed.

(** What the cell of a point reports when it is read now. *)
Definition snapshot (T : Spec) (variation : option StaticVariation.t) c : GroupVariation.t * Z * Value :=
  let gv := static_object T (DatabaseBuffers.CheckForPromotion T (value c) (default (svariation c) variation)) in (gv, vIndex c, static_value gv (value c)).

Lemma select_result_none cells ret : (forall k c, cells !! k = Some c -> selected c = false) -> select_result cells ret = ret.
Proof.
  unfold select_result. induction cells as [|c cells IH] in ret |- *; intros Hn; [done|]. cbn [foldl]. rewrite (Hn 0%nat c eq_refl). apply IH. intros k. apply (Hn (S k)).
Qed.

(** Reading a part of the array of which nothing was selected. *)
Lemma GenericSelect_reads T range variation d r pre cells post :
  T <> OctetStringSpec -> buffers_ok d -> unselected T d -> (Range.IsValid range = true -> range_ok range) ->
  Range.IsValid range = true -> buffers d T = pre ++ cells ++ post -> cells <> [] ->
  Range.Intersection range (DatabaseBuffers.RangeOf (DatabaseBuffers.Size_of T d)) = span (length pre) (length cells) -> points_in T r d = cells ->
  exists d', DatabaseBuffers.GenericSelect T range variation d = Some (d', if Range.Equals (span (length pre) (length cells)) range then IINField.Empty else IINField.of_bit PARAM_ERROR) /\
    buffers_ok d' /\ pending T d' = map (snapshot T variation) (points_in T r d) /\
    SelectedRanges.Get T (ranges d') = Range.Union Range.Invalid (span (length pre) (length cells)) /\
    (forall T', T' <> T -> buffers d' T' = buffers d T' /\ SelectedRanges.Get T' (ranges d') = SelectedRanges.Get T' (ranges d)).
Proof.
  intros HT Hd Hu Hr Hv Hview Hne Hall Hpts. destruct (GenericSelect_spec T range variation d Hd Hr) as (d' & iin & -> & Hd' & Ho & _ & Hcase).
  destruct (Hcase Hv) as [(Hi & _ & _)|(pre' & cells' & post' & V1 & V0 & V2 & V3 & V4 & ->)].
  { rewrite Hall, span_valid in Hi. by destruct cells. }
  pose proof (unselected_cells T d) as Hsel. assert (Hspan : length pre' = length pre /\ length cells' = length cells).
  { rewrite Hall in V4. destruct cells as [|c cells]; [done|]. destruct cells' as [|c' cells']; [done|]. cbn [length span] in V4. injection V4 as E1 E2. cbn [length]. lia. }
  destruct Hspan as [L1 L2]. rewrite Hview in V1. apply app_inj_1 in V1 as [<- V1]; [|done]. apply app_inj_1 in V1 as [<- <-]; [|done].
  exists d'. split_and!; [|done| |by rewrite V3, Hu|done].
  - do 2 f_equal. apply select_result_none. intros k c Hk. apply (lookup_cells pre cells post) in Hk as [Hk _]. apply (Hsel (length pre + k)%nat c HT Hd Hu). by rewrite Hview.
  - rewrite pending_selected by done. rewrite V2, !List.filter_app, (filter_const selected false pre), (filter_const selected true (map _ cells)), (filter_const selected false post).
    + cbn [app]. rewrite app_nil_r, Hpts, map_map. apply map_ext_in. intros c Hc. apply list_elem_of_In, list_elem_of_lookup in Hc as [k Hk].
      apply (lookup_cells pre cells post) in Hk as [Hk _]. rewrite <- Hview in Hk. pose proof (Hsel _ c HT Hd Hu Hk) as Hs. unfold point, snapshot, select_cell. by rewrite Hs.
    + intros k c Hk. apply (lookup_post pre cells) in Hk. rewrite <- Hview in Hk. exact (Hsel _ c HT Hd Hu Hk).
    + intros k c Hk. rewrite lookup_map in Hk. destruct (cells !! k) as [c0|] eqn:Hk0; [|done]. cbn in Hk. injection Hk as <-.
      apply (lookup_cells pre cells post) in Hk0 as [Hk0 _]. rewrite <- Hview in Hk0. unfold select_cell. by rewrite (Hsel _ c0 HT Hd Hu Hk0).
    + intros k c Hk. apply (lookup_pre pre cells post) in Hk as [Hk _]. rewrite <- Hview in Hk. exact (Hsel _ c HT Hd Hu Hk).
Qed.

Lemma span_inside i n size : (i + S n <= size)%nat -> Z.of_nat size <= 65535 ->
  Range.Intersection (span i (S n)) (DatabaseBuffers.RangeOf (Z.of_nat size)) = span i (S n).
Proof.
  intros Hi Hs. unfold DatabaseBuffers.RangeOf, Range.Intersection. destruct (Z.ltb_spec 0 (Z.of_nat size)); [|lia].
  cbn [Range.From span start stop]. unfold u16. rewrite Z.mod_small by lia. f_equal; lia.
Qed.

Lemma Equals_refl r : Range.Equals r r = true.
Proof. unfold Range.Equals. by rewrite !Z.eqb_refl. Qed.

Lemma count_range r : range_ok r -> stop r - start r < 65535 -> Range.Count r = stop r - start r + 1.
Proof. unfold range_ok, Range.Count, Range.IsValid. intros Hr Hl. destruct (Z.leb_spec (start r) (stop r)); [|lia]. unfold u32. rewrite Z.mod_small; lia. Qed.

(** The answer to a read: [PARAM_ERROR] unless there is a point for every index. *)
Definition read_iin (T : Spec) range d : IINField :=
  if Z.of_nat (length (points_in T range d)) =? stop range - start range + 1 then IINField.Empty else IINField.of_bit PARAM_ERROR.

(** A read of points of which none is selected. *)
Definition read_done (T : Spec) range variation d d' : Prop :=
  buffers_ok d' /\ pending T d' = map (snapshot T variation) (points_in T range d) /\
  (SelectedRanges.Get T (ranges d') = mkRange 0 255 -> length (points_in T range d) = 256%nat) /\
  (forall T', T' <> T -> buffers d' T' = buffers d T' /\ SelectedRanges.Get T' (ranges d') = SelectedRanges.Get T' (ranges d)).

Lemma read_nothing T range variation d :
  buffers_ok d -> unselected T d -> range_ok range -> points_in T range d = [] ->
  read_iin T range d = IINField.of_bit PARAM_ERROR /\ read_done T range variation d d.
Proof.
  intros Hd Hu Hr Hn. unfold read_iin, read_done. rewrite Hn, (pending_invalid T d Hu), Hu. split; [|done].
  unfold range_ok in Hr. cbn [length]. destruct (Z.eqb_spec (Z.of_nat 0) (stop range - start range + 1)); [lia|done].
Qed.

Lemma union_invalid j m : Range.Union Range.Invalid (span j (S m)) = mkRange 0 255 -> m = 255%nat.
Proof. unfold Range.Union. cbn [span start stop Range.Invalid]. intros [= H3 H4]. lia. Qed.

Lemma SelectVirtualRange_reads T range variation d :
  T <> OctetStringSpec -> buffers_ok d -> unselected T d -> plain_indices T d -> range_ok range ->
  exists d', DatabaseBuffers.SelectVirtualRange T range variation d = Some (d', read_iin T range d) /\ read_done T range variation d d'.
Proof.
  intros HT Hd Hu Hpl Hr. destruct (bo_kinds _ Hd T) as (i0 & n0 & Hk). pose proof (ki_size _ _ _ _ _ Hk) as Hsz.
  assert (Hvalid : Range.IsValid range = true) by (apply Z.leb_le; apply Hr). unfold DatabaseBuffers.SelectVirtualRange. destruct (indexMode d) eqn:Hmode.
  - specialize (Hpl Hmode). set (allowed := Range.Intersection range (DatabaseBuffers.RangeOf (DatabaseBuffers.Size_of T d))).
    assert (Hal : forall k c, buffers d T !! k = Some c -> (start allowed <= Z.of_nat k <= stop allowed <-> in_range range c)).
    { intros k c Hkc. unfold in_range, allowed, Range.Intersection, DatabaseBuffers.RangeOf, DatabaseBuffers.Size_of. rewrite (Hpl k c Hkc).
      pose proof (lookup_lt_Some _ _ _ Hkc). destruct (Z.ltb_spec 0 (Z.of_nat (length (buffers d T)))); [|lia]. cbn [Range.From start stop].
      unfold u16. rewrite Z.mod_small by lia. unfold range_ok in Hr. lia. }
    destruct (Range.IsValid allowed) eqn:Ha.
    + destruct (clipped_span range (length (buffers d T)) Hr Hsz Ha) as (j & m & Heq & Hj). change (Range.Intersection range _) with allowed in Heq.
      destruct (split_view (buffers d T) j (S m) Hj) as (pre & cells & post & Hview & Hp & Hc).
      assert (Hpts : points_in T range d = cells).
      { apply (points_in_split T range d pre cells post Hview). intros k c Hkc. rewrite <- (Hal k c Hkc), Heq. cbn [span start stop]. lia. }
      destruct (GenericSelect_reads T range variation d range pre cells post HT Hd Hu (fun _ => Hr) Hvalid Hview ltac:(by destruct cells)) as (d' & Hg & D1 & D2 & D3 & D4).
      { rewrite Hp, Hc. exact Heq. }
      { exact Hpts. }
      exists d'. rewrite Hg. split; [|split_and!; [done|done| |done]].
      * do 2 f_equal. unfold read_iin. rewrite Hpts, Hp, Hc. unfold Range.Equals. assert (Hst : start range = Z.of_nat j /\ Z.of_nat j + Z.of_nat m <= stop range).
        { pose proof (f_equal start Heq) as E1. pose proof (f_equal stop Heq) as E2. unfold allowed, Range.Intersection, DatabaseBuffers.RangeOf in E1, E2.
          cbn [span start stop] in E1, E2. unfold range_ok in Hr. destruct (Z.ltb_spec 0 (DatabaseBuffers.Size_of T d)); cbn [Range.From Range.Invalid start stop] in *; lia. }
        cbn [span start stop]. destruct Hst as [-> Hle]. rewrite Z.eqb_refl. cbn [andb].
        destruct (Z.eqb_spec (stop range) (Z.of_nat (j + S m) - 1)), (Z.eqb_spec (Z.of_nat (S m)) (stop range - Z.of_nat j + 1)); (done || lia).
      * rewrite D3, Hp, Hc, Hpts, Hc. intros Hun. apply union_invalid in Hun. lia.
    + exists d. unfold DatabaseBuffers.GenericSelect. rewrite Hvalid. fold allowed. rewrite Ha.
      destruct (read_nothing T range variation d Hd Hu Hr) as [-> Hrd]; [|done].
      apply points_in_none. intros k c Hkc Hin. apply (Hal k c Hkc) in Hin. unfold Range.IsValid in Ha. apply Z.leb_gt in Ha. lia.
  - destruct (FindRawRange_spec (buffers d T) range (ki_increasing _ _ _ _ _ Hk) Hsz Hr) as (mapped & -> & Hraw). cbn [mbind option_bind].
    unfold raw_range in Hraw. destruct (Range.IsValid mapped) eqn:Hm.
    + destruct Hraw as (j & m & -> & Hj & Hin). destruct (split_view (buffers d T) j (S m) Hj) as (pre & cells & post & Hview & Hp & Hc).
      assert (Hpts : points_in T range d = cells).
      { apply (points_in_split T range d pre cells post Hview). intros k c Hkc. rewrite Hp, Hc. by apply Hin. }
      destruct (GenericSelect_reads T (span j (S m)) variation d range pre cells post HT Hd Hu (fun _ => span_range_ok j m ltac:(lia)) Hm Hview ltac:(by destruct cells)) as (d' & Hg & D1 & D2 & D3 & D4).
      { rewrite Hp, Hc. by apply span_inside. }
      { exact Hpts. }
      exists d'. rewrite Hg, Hp, Hc, Equals_refl. cbn [mbind option_bind]. split; [|split_and!; [done|done| |done]].
      * do 2 f_equal. unfold read_iin. rewrite Hpts, Hc, (count_range (span j (S m))) by (try apply span_range_ok; cbn [span start stop]; lia).
        unfold Range.Count. rewrite Hvalid. cbn [span start stop]. unfold u32, range_ok in *. rewrite Z.mod_small by lia.
        destruct (Z.eqb_spec (stop range - start range + 1) (Z.of_nat (j + S m) - 1 - Z.of_nat j + 1)), (Z.eqb_spec (Z.of_nat (S m)) (stop range - start range + 1)); (done || lia).
      * rewrite D3, Hp, Hc, Hpts, Hc. intros Hun. apply union_invalid in Hun. lia.
    + exists d. destruct (read_nothing T range variation d Hd Hu Hr) as [-> Hrd]; [|done]. by apply points_in_none.
Qed.

End Reads.

(** ** Updates and reads *)

Section Snapshots.
Context {M : Type} `{StaticMeasurementOk M}.
Implicit Types (c : Cell M) (view : list (Cell M)) (d : Database M) (b : EventBuffer M) (s : QueueBuffer M).

(** What a response depends on. *)
Definition selection c : Z * bool * M * StaticVariation.t := (vIndex c, selected c, sel_value c, sel_variation c).

Lemma points_selection T cells : forall i cells', map selection cells = map selection cells' -> points T i cells = points T i cells'.
Proof.
  assert (Ho : forall i cells cells', map selection cells = map selection cells' -> all_octets i cells = all_octets i cells').
  { unfold all_octets. intros i cs cs' Hm. pose proof (f_equal (imap (fun j (x : Z * bool * M * StaticVariation.t) =>
      (GroupVariation.Group110Var0, Z.of_nat i + Z.of_nat j, WriteTarget GroupVariation.Group110Var0 x.1.2))) Hm) as He.
    by rewrite !imap_fmap in He. }
  destruct (decide (T = OctetStringSpec)) as [->|HT].
  - induction cells as [|c cells IH]; intros i [|c' cells'] Hm; try discriminate Hm; [done|]. cbn [points octet_points]. pose proof Hm as Hm0.
    cbn [map] in Hm. injection Hm as Hc1 Hc2 Hc3 Hc4 Hm. rewrite Hc2. destruct (selected c'); [by apply Ho|by apply IH].
  - intros i cells' Hm. assert (Hp : map (point T) (List.filter selected cells) = map (point T) (List.filter selected cells')).
    { revert cells' Hm. induction cells as [|c cells IH]; intros [|c' cells'] Hm; try discriminate Hm; [done|]. cbn [map List.filter] in *.
      injection Hm as Hc1 Hc2 Hc3 Hc4 Hm. rewrite Hc2.
      destruct (selected c'); cbn [map]; [|by apply IH]. f_equal; [|by apply IH]. unfold point. by rewrite Hc1, Hc3, Hc4. }
    destruct T; done.
Qed.

Lemma pending_selection T (d d' : DatabaseBuffers M) :
  SelectedRanges.Get T (ranges d') = SelectedRanges.Get T (ranges d) -> map selection (buffers d' T) = map selection (buffers d T) -> pending T d' = pending T d.
Proof.
  intros Hr Hm. unfold pending. rewrite Hr. apply points_selection. unfold cells_of. by rewrite <- !firstn_map, <- !skipn_map, Hm.
Qed.

Lemma selected_last_selection cells : forall cells', map selection cells = map selection cells' -> selected_last cells = selected_last cells'.
Proof.
  assert (Hf : forall cells cells', map selection cells = map selection cells' -> forallb selected cells = forallb selected cells').
  { induction cells0 as [|c cs IH]; intros [|c' cs'] Hm; try discriminate Hm; [done|]. cbn [map forallb] in *. injection Hm as _ Hs _ _ Hm. by rewrite Hs, (IH cs'). }
  induction cells as [|c cells IH]; intros [|c' cells'] Hm; try discriminate Hm; [done|]. cbn [map selected_last] in *. injection Hm as _ Hs _ _ Hm.
  rewrite Hs. destruct (selected c'); [by apply Hf|by apply IH].
Qed.

Lemma updated_selection T mode v c : selection (updated_cell T mode v c) = selection c.
Proof. unfold updated_cell. destruct (event_of T mode v c), mode; done. Qed.

Lemma updated_ok T mode v c : static_ok T v -> cell_ok T c -> cell_ok T (updated_cell T mode v c).
Proof. intros Hv [Hi Hc Hs]. unfold updated_cell. destruct (event_of T mode v c), mode; by split. Qed.

(** The selection of every kind is what it was. *)
Definition same_selection (d d' : DatabaseBuffers M) : Prop :=
  ranges d' = ranges d /\ forall T, map selection (buffers d' T) = map selection (buffers d T).

Lemma replaced_selection T k c mode v d d' :
  static_ok T v -> database_ok d -> buffers (db_buffers d) T !! k = Some c ->
  replaced T (<[k := updated_cell T mode v c]> (buffers (db_buffers d) T)) d d' -> database_ok d' /\ same_selection (db_buffers d) (db_buffers d').
Proof.
  intros Hv Hd Hc [V O R Md].
  assert (Hsel : map selection (buffers (db_buffers d') T) = map selection (buffers (db_buffers d) T)).
  { rewrite V. rewrite <- (list_insert_id (map selection (buffers (db_buffers d) T)) k (selection c)) at 1 by (by rewrite lookup_map, Hc).
    rewrite <- (updated_selection T mode v c). apply list_fmap_insert. }
  assert (Hs : same_selection (db_buffers d) (db_buffers d')).
  { split; [done|]. intros T'. destruct (decide (T' = T)) as [->|Hne]; [done|]. by rewrite O. }
  split; [|done]. split; [|rewrite R; exact (bo_security _ Hd)]. intros T'. rewrite R. destruct (decide (T' = T)) as [->|Hne]; [|rewrite O by done; apply (bo_kinds _ Hd)].
  destruct (bo_kinds _ Hd T) as (i & n & [Kr Ki Ks Kinc Kc Ksel]). exists i, n. pose proof (f_equal length Hsel) as Hl. rewrite !length_map in Hl.
  split; [done|lia|lia| | |].
  - eapply increasing_indices; [|exact Kinc]. pose proof (f_equal (map (fun x => x.1.1.1)) Hsel) as Hm. rewrite !map_map in Hm. by symmetry.
  - rewrite V. apply Forall_insert; [done|]. apply updated_ok; [done|]. by rewrite Forall_lookup in Kc; apply (Kc k).
  - intros HT k' c' Hk' Hs'. pose proof (f_equal (fun l => l !! k') Hsel) as Hm. cbv beta in Hm. rewrite !lookup_map, Hk' in Hm. cbn in Hm.
    destruct (buffers (db_buffers d) T !! k') as [c0|] eqn:Hc0; [|done]. cbn in Hm. injection Hm as _ Hm _ _. apply (Ksel HT k' c0 Hc0). by rewrite <- Hm.
Qed.

Lemma UpdateEvent_wp caps T v index mode d b s :
  caps_ok caps -> models caps b s -> database_ok d -> is_u16 index ->
  wp (Database.UpdateEvent T v index mode) (d, b) (fun r st =>
    if (r : bool) then exists k c, addressed d T index k c /\
      replaced T (<[k := updated_cell T mode v c]> (buffers (db_buffers d) T)) d st.1 /\ models caps st.2 (after_event caps T mode v c s)
    else (forall k c, ~ addressed d T index k c) /\ st = (d, b)).
Proof.
  intros Hcaps Hs Hd Hi. unfold Database.UpdateEvent, Database.GetArrayView. rewrite wp_bind. eapply wp_mono; [by apply GetRawIndex_wp|]. cbv beta.
  intros i st (-> & Hir & Ha). rewrite wp_bind, wp_get. cbn [fst]. unfold View_Contains.
  destruct (Z.ltb_spec i (Z.of_nat (length (buffers (db_buffers d) T)))) as [Hl|Hl].
  - destruct (lookup_lt_is_Some_2 (buffers (db_buffers d) T) (Z.to_nat i)) as [c Hc]; [lia|]. rewrite wp_bind.
    replace i with (Z.of_nat (Z.to_nat i)) by lia. eapply wp_mono; [by apply (update_point_wp caps T (Z.to_nat i) c v mode d b s)|]. cbv beta.
    intros _ st [HR Hm]. rewrite wp_ret. exists (Z.to_nat i), c. split_and!; [|done|done]. apply Ha. split; [done|lia].
  - rewrite wp_ret. split; [|done]. intros k c Hk. apply Ha in Hk as [Hk ->]. apply lookup_lt_Some in Hk. lia.
Qed.

(** Times and intervals have no events. *)
Lemma UpdateTimeAndInterval_wp v index d b :
  database_ok d -> is_u16 index ->
  wp (Database.UpdateTimeAndInterval v index) (d, b) (fun r st => st.2 = b /\
    if (r : bool) then exists k c, addressed d TimeAndIntervalSpec index k c /\
      replaced TimeAndIntervalSpec (<[k := updated_cell TimeAndIntervalSpec Suppress v c]> (buffers (db_buffers d) TimeAndIntervalSpec)) d st.1
    else st.1 = d).
Proof.
  intros Hd Hi. unfold Database.UpdateTimeAndInterval, Database.GetArrayView. rewrite wp_bind. eapply wp_mono; [by apply GetRawIndex_wp|]. cbv beta.
  intros i st (-> & Hir & Ha). rewrite wp_bind, wp_get. cbn [fst]. unfold View_Contains.
  destruct (Z.ltb_spec i (Z.of_nat (length (buffers (db_buffers d) TimeAndIntervalSpec)))) as [Hl|Hl].
  - destruct (lookup_lt_is_Some_2 (buffers (db_buffers d) TimeAndIntervalSpec) (Z.to_nat i)) as [c Hc]; [lia|]. rewrite wp_bind.
    replace i with (Z.of_nat (Z.to_nat i)) by lia. apply (update_cell_wp TimeAndIntervalSpec (Z.to_nat i) c); [done|]. intros d' HR. rewrite wp_ret. split; [done|].
    exists (Z.to_nat i), c. split; [apply Ha; split; [done|lia]|]. exact HR.
  - rewrite wp_ret. done.
Qed.

(** Any update is defined and leaves the selection alone. *)
Lemma Update_wp caps T v index mode d b s :
  caps_ok caps -> models caps b s -> database_ok d -> is_u16 index -> static_ok T v ->
  wp (Database.Update T v index mode) (d, b) (fun _ st => database_ok st.1 /\ same_selection (db_buffers d) (db_buffers st.1) /\ exists s', models caps st.2 s').
Proof.
  intros Hcaps Hs Hd Hi Hv. assert (Hsame : same_selection (db_buffers d) (db_buffers d)) by done.
  assert (HE : wp (Database.UpdateEvent T v index mode) (d, b) (fun _ st => database_ok st.1 /\ same_selection (db_buffers d) (db_buffers st.1) /\ exists s', models caps st.2 s')).
  { eapply wp_mono; [by apply (UpdateEvent_wp caps T v index mode d b s)|]. cbv beta. intros [|] [d' b']; cbn [fst snd].
    - intros (k & c & [Hc _] & HR & Hm). destruct (replaced_selection T k c mode v d d' Hv Hd Hc HR). split_and!; [done|done|by eexists].
    - intros [_ [= -> ->]]. split_and!; [done|done|by exists s]. }
  destruct T; try exact HE. eapply wp_mono; [by apply UpdateTimeAndInterval_wp|]. cbv beta. intros [|] [d' b']; cbn [fst snd]; intros [-> HR].
  - destruct HR as (k & c & [Hc _] & HR). destruct (replaced_selection TimeAndIntervalSpec k c Suppress v d d' Hv Hd Hc HR). split_and!; [done|done|by exists s].
  - subst d'. split_and!; [done|done|by exists s].
Qed.

(** C28: An update changes the point it names and reports its event.  With the index of
    no point it changes nothing and returns false.  Otherwise the value of that one
    cell changes, unless only an event was asked for; an event is created when it is
    forced, or when it is looked for and the value differs from that of the last event
    by the rule of its kind, and when the point has an event class; the event buffer
    gets it with the index, the class and the event variation of the point, and it
    becomes the last event. *)
Theorem updates_report_their_events caps (T : Spec) (v : M) (index : Z) (mode : EventMode) d b s :
  caps_ok caps -> models caps b s -> database_ok d -> is_u16 index -> T <> TimeAndIntervalSpec ->
  exists d' b' r, Database.Update T v index mode (d, b) = Some ((d', b'), r) /\
    if (r : bool) then exists k c, addressed d T index k c /\
      replaced T (<[k := updated_cell T mode v c]> (buffers (db_buffers d) T)) d d' /\ models caps b' (after_event caps T mode v c s)
    else (forall k c, ~ addressed d T index k c) /\ d' = d /\ b' = b.
Proof.
  intros Hcaps Hs Hd Hi HT. assert (HU : Database.Update T v index mode = Database.UpdateEvent T v index mode) by by destruct T.
  rewrite HU. clear HU. pose proof (UpdateEvent_wp caps T v index mode d b s Hcaps Hs Hd Hi) as HW.
  apply wp_run in HW as ([d' b'] & r & -> & HQ). exists d', b', r. split; [done|]. destruct r; [done|]. by destruct HQ as [? [= -> ->]].
Qed.

(** Updates by the application, in turn. *)
Fixpoint run_updates (us : list (Spec * M * Z * EventMode)) : SM (Database M * EventBuffer M) unit :=
  match us with
  | [] => mret tt
  | (T, v, index, mode) :: us => _ ← Database.Update T v index mode; run_updates us
  end.

Definition update_ok (u : Spec * M * Z * EventMode) : Prop := static_ok u.1.1.1 u.1.1.2 /\ is_u16 u.1.2.

Lemma same_selection_trans (d1 d2 d3 : DatabaseBuffers M) : same_selection d1 d2 -> same_selection d2 d3 -> same_selection d1 d3.
Proof. intros [R1 S1] [R2 S2]. split; [congruence|]. intros T. by rewrite S2. Qed.

Lemma run_updates_wp caps us : forall d b s,
  caps_ok caps -> models caps b s -> database_ok d -> Forall update_ok us ->
  wp (run_updates us) (d, b) (fun _ st => database_ok st.1 /\ same_selection (db_buffers d) (db_buffers st.1)).
Proof.
  induction us as [|[[[T v] index] mode] us IH]; intros d b s Hcaps Hs Hd Hus; cbn [run_updates]; [by rewrite wp_ret|].
  apply Forall_cons_1 in Hus as [[Hv Hi] Hus]. cbn [fst snd] in *. rewrite wp_bind. eapply wp_mono; [by apply (Update_wp caps T v index mode d b s)|]. cbv beta.
  intros _ [d1 b1] (D1 & S1 & s1 & M1). cbn [fst snd] in *. eapply wp_mono; [by apply (IH d1 b1 s1)|]. cbv beta. intros _ [d2 b2] [D2 S2]. cbn [fst snd] in *.
  split; [done|]. by eapply same_selection_trans.
Qed.

Lemma loads_whole_selection T (d d' : DatabaseBuffers M) : same_selection d d' -> loads_whole T d -> loads_whole T d'.
Proof.
  intros [Hr Hs]. destruct T; cbn [loads_whole]; rewrite ?Hr; try done. intros Hl. rewrite <- Hl. apply selected_last_selection.
  unfold cells_of. by rewrite <- !firstn_map, <- !skipn_map, Hs.
Qed.

(** C17: The answer to a read is a snapshot.  A read of a range of points of any kind but
    octet strings, when nothing is selected, takes the points with an index in the range,
    for contiguous indices (the index of a point is its place, [plain_indices]) and
    discontiguous ones alike, and sets [PARAM_ERROR] exactly when some index has no point.
    Whatever updates the application makes before the response is loaded, the headers of
    the response and what is left for the next fragments are these points in order, with
    the value they had when they were read and in the object that the writer of the
    variation of the read has (the variation itself where it has a writer, as in C16:
    frozen counters always in Group21Var1).  Reads that take exactly 256 binaries are
    left out: at the indices 0 to 255 the one-byte count of their bit field wraps
    (C38). *)
Theorem reads_are_snapshots caps (T : Spec) range variation us d b s w settings :
  caps_ok caps -> models caps b s -> database_ok d -> (forall T', unselected T' (db_buffers d)) -> T <> OctetStringSpec ->
  plain_indices T (db_buffers d) -> range_ok range ->
  (T = BinarySpec -> length (points_in T range (db_buffers d)) <> 256%nat) -> Forall update_ok us -> wwf w ->
  expectContents settings = true ->
  exists d1 d2 b2 w' d3 fin data hs,
    Database.on_buffers (DatabaseBuffers.SelectVirtualRange T range variation) d = Some (d1, read_iin T range (db_buffers d)) /\
    run_updates us (d1, b) = Some ((d2, b2), tt) /\ Database.Load d2 w = Some (w', (d3, fin)) /\ put w w' data /\ decoded settings data = Some (hs, OK) /\
    map (snapshot T variation) (points_in T range (db_buffers d)) = static_points hs ++ pending_all DatabaseBuffers.load_order (db_buffers d3).
Proof.
  intros Hcaps Hs Hd Hu HT Hpl Hr Hne Hus Hw Hset.
  destruct (SelectVirtualRange_reads T range variation (db_buffers d) HT Hd (Hu T) Hpl Hr) as (e1 & Hsel & D1 & P1 & W1 & O1).
  set (d1 := mkDatabase (db_indexMode d) e1).
  pose proof (run_updates_wp caps us d1 b s Hcaps Hs D1 Hus) as HU. apply wp_run in HU as ([d2 b2] & [] & HU & D2 & S2). cbn [fst] in *.
  assert (Hwhole : forall T', loads_whole T' (db_buffers d2)).
  { intros T'. apply (loads_whole_selection T' e1); [exact S2|]. destruct (decide (T' = T)) as [->|HT'].
    - destruct T; try done. cbn [loads_whole]. intros Hw255. by apply (Hne eq_refl), W1.
    - destruct (O1 T' HT') as [_ Hrng]. rewrite (Hu T') in Hrng. destruct T'; cbn [loads_whole]; rewrite ?Hrng; done. }
  assert (Hpend : pending_all DatabaseBuffers.load_order (db_buffers d2) = map (snapshot T variation) (points_in T range (db_buffers d))).
  { assert (Hp : forall T', pending T' (db_buffers d2) = if decide (T' = T) then map (snapshot T variation) (points_in T range (db_buffers d)) else []).
    { intros T'. rewrite (pending_selection T' e1) by (destruct S2 as [Hrs Hss]; first [by rewrite Hrs | apply Hss]). destruct (decide (T' = T)) as [->|HT']; [done|].
      apply pending_invalid. destruct (O1 T' HT') as [_ ->]. apply Hu. }
    unfold pending_all, DatabaseBuffers.load_order. cbn [map concat]. rewrite !Hp. destruct T; try done;
      repeat first [rewrite decide_True by done | rewrite decide_False by done]; cbn [app]; by rewrite ?app_nil_r. }
  pose proof (load_all_spec _ (db_buffers d2) w load_order_NoDup D2 Hw) as HL. apply wp_run in HL as (w' & [e3 fin] & HL & _ & _ & _ & HR & _).
  cbn [fst snd] in *. destruct HR as (pts & HR & Heq); [intros T' _; apply Hwhole|]. rewrite Hpend in Heq.
  assert (Hread : Forall point_readable pts).
  { assert (Hall : Forall point_readable (map (snapshot T variation) (points_in T range (db_buffers d)))).
    { apply Forall_map, Forall_forall. intros c _ Hgv. exfalso. cbn in Hgv.
      generalize dependent (DatabaseBuffers.CheckForPromotion T (value c) (default (svariation c) variation)). intros v Hgv. by destruct T, v. }
    rewrite Heq in Hall. by apply Forall_app in Hall as [Hall _]. }
  destruct (reported_read settings w w' pts Hset HR Hread) as (data & hs & W & Hdec & Hpts).
  exists d1, d2, b2, w', (mkDatabase (db_indexMode d2) e3), fin, data, hs. split_and!; [|done| |by apply wrote_put|done|by rewrite Hpts].
  - unfold Database.on_buffers. by rewrite Hsel.
  - unfold Database.Load, DatabaseBuffers.Load, mbind, SM_bind. by rewrite HL.
Qed.

End Snapshots.

(** ** Octet strings *)

Section OctetStrings.
Context {M : Type} `{StaticMeasurementOk M}.
Implicit Types (c : Cell M) (d : Database M) (w : Writer).

Lemma or_set a b : IINField.IsSet b PARAM_ERROR = true -> IINField.IsSet (IINField.or a b) PARAM_ERROR = true /\ IINField.IsSet (IINField.or b a) PARAM_ERROR = true.
Proof.
  rewrite !IsSet_testbit. destruct a as [la ma], b as [lb mb]. unfold octet_of, IINField.or. cbn -[Z.testbit Z.lor]. rewrite !Z.lor_spec. intros ->. by rewrite orb_true_r.
Qed.

Lemma select_result_set cells ret :
  IINField.IsSet ret PARAM_ERROR = true \/ (exists k c, cells !! k = Some c /\ selected c = true) -> IINField.IsSet (select_result cells ret) PARAM_ERROR = true.
Proof.
  unfold select_result. revert ret. induction cells as [|c cells IH]; intros ret Hs; cbn [foldl].
  - by destruct Hs as [?|(k & c & Hk & _)].
  - apply IH. destruct Hs as [Hs|([|k] & c' & Hk & Hs)].
    + left. destruct (selected c); [apply or_set, Hs|done].
    + cbn in Hk. injection Hk as <-. rewrite Hs. left. rewrite (proj1 (or_set ret (IINField.of_bit PARAM_ERROR) eq_refl)). done.
    + right. by exists k, c'.
Qed.

(** An octet string stays selected for ever once it was read.  Neither writing it
    into a response nor [Unselect] clears its selection; a later read of it leaves the
    old copy in place and answers with [PARAM_ERROR], so the value it had at the first
    read is reported from then on. *)
Theorem octet_strings_stay_selected d (k : nat) c range variation :
  database_ok d -> buffers (db_buffers d) OctetStringSpec !! k = Some c -> selected c = true -> indexMode (db_buffers d) = Contiguous ->
  range_ok range -> start range <= Z.of_nat k <= stop range ->
  (forall w, wwf w -> exists w' d' fin, Database.Load d w = Some (w', (d', fin)) /\ buffers (db_buffers d') OctetStringSpec !! k = Some c) /\
  (exists d', Database.Unselect d = Some d' /\ buffers (db_buffers d') OctetStringSpec !! k = Some c) /\
  (exists d' iin, Database.on_buffers (DatabaseBuffers.SelectVirtualRange OctetStringSpec range variation) d = Some (d', iin) /\
     IINField.IsSet iin PARAM_ERROR = true /\ buffers (db_buffers d') OctetStringSpec !! k = Some c).
Proof.
  intros Hd Hk Hs Hm Hr Hin. split_and!.
  - intros w Hw. pose proof (load_all_spec _ (db_buffers d) w load_order_NoDup Hd Hw) as HL. apply wp_run in HL as (w' & [b ok] & HL & _ & _ & _ & _ & _ & _ & Hu).
    exists w', (mkDatabase (db_indexMode d) b), ok. unfold Database.Load, DatabaseBuffers.Load, mbind, SM_bind. rewrite HL. split; [done|].
    cbn [db_buffers fst] in *. by rewrite Hu.
  - destruct (UnselectAll_spec (db_buffers d) Hd) as (b & Hb & _ & _ & Hu & _). exists (mkDatabase (db_indexMode d) b). unfold Database.Unselect. rewrite Hb.
    split; [done|]. cbn [db_buffers]. by rewrite Hu.
  - unfold Database.on_buffers, DatabaseBuffers.SelectVirtualRange. rewrite Hm. pose proof (lookup_lt_Some _ _ _ Hk) as Hlt.
    destruct (GenericSelect_spec OctetStringSpec range variation (db_buffers d) Hd (fun _ => Hr)) as (b & iin & -> & _ & _ & _ & Hcase).
    destruct Hcase as [(Hi & _ & _)|(pre & cells & post & V1 & _ & V2 & _ & V4 & ->)]; [apply Z.leb_le, Hr| |].
    + exfalso. unfold Range.Intersection, DatabaseBuffers.RangeOf, DatabaseBuffers.Size_of, Range.IsValid in Hi. destruct (bo_kinds _ Hd OctetStringSpec) as (i & n & Hki).
      pose proof (ki_size _ _ _ _ _ Hki). destruct (Z.ltb_spec 0 (Z.of_nat (length (buffers (db_buffers d) OctetStringSpec)))); [|lia]. cbn [Range.From start stop] in Hi.
      unfold u16 in Hi. rewrite Z.mod_small in Hi by lia. apply Z.leb_gt in Hi. unfold range_ok in Hr. lia.
    + assert (Hcell : exists j, cells !! j = Some c /\ k = (length pre + j)%nat).
      { exists (k - length pre)%nat. destruct (bo_kinds _ Hd OctetStringSpec) as (i & n & Hki). pose proof (ki_size _ _ _ _ _ Hki) as Hsz.
        unfold Range.Intersection, DatabaseBuffers.RangeOf, DatabaseBuffers.Size_of in V4. destruct (Z.ltb_spec 0 (Z.of_nat (length (buffers (db_buffers d) OctetStringSpec)))); [|lia].
        cbn [Range.From start stop] in V4. unfold u16 in V4. rewrite Z.mod_small in V4 by lia. unfold range_ok in Hr.
        destruct cells as [|c0 cells]; [cbn [length span] in V4; injection V4 as E1 E2; lia|]. cbn [length span] in V4. injection V4 as E1 E2.
        split; [|lia]. rewrite V1 in Hk. rewrite lookup_app_r, lookup_app_l in Hk by (cbn [length]; lia). exact Hk. }
      destruct Hcell as (j & Hj & ->). cbn [mbind option_bind]. eexists _, _. split; [done|]. split.
      * apply select_result_set. right. by exists j, c.
      * cbn [db_buffers]. rewrite V2. apply (lookup_cells pre (map (select_cell OctetStringSpec variation) cells) post j). rewrite lookup_map, Hj. cbn.
        unfold select_cell. by rewrite Hs.
Qed.

End OctetStrings.

(** ** The initial database, and an instance *)

Section Initial.
Context {M : Type} `{StaticMeasurementOk M}.

(** The indices are the places. *)
Lemma init_lookup (sizes : Spec -> nat) class0 mode T k c :
  Z.of_nat (sizes T) <= 65535 -> buffers (DatabaseBuffers.init (M := M) sizes class0 mode) T !! k = Some c -> c = set_vIndex (Z.of_nat k) (Cell_init T) /\ (k < sizes T)%nat.
Proof.
  intros Hl. cbn [DatabaseBuffers.init buffers]. unfold DatabaseBuffers.SetDefaultIndices. rewrite list_lookup_imap.
  destruct (replicate (sizes T) (Cell_init T) !! k) as [c0|] eqn:Hk; [|done]. apply lookup_replicate in Hk as [-> Hk]. cbn. intros [= <-].
  split; [|done]. unfold u16. rewrite Z.mod_small by lia. done.
Qed.

Lemma init_ok (sizes : Spec -> nat) class0 mode : (forall T, Z.of_nat (sizes T) <= 65535) -> buffers_ok (DatabaseBuffers.init (M := M) sizes class0 mode).
Proof.
  intros Hl. split; [|done]. intros T. exists 0%nat, 0%nat. split.
  - done.
  - lia.
  - cbn [DatabaseBuffers.init buffers]. unfold DatabaseBuffers.SetDefaultIndices. rewrite length_imap, length_replicate. apply Hl.
  - intros i j ci cj Hij E1 E2. apply init_lookup in E1 as [-> _]; [|done]. apply init_lookup in E2 as [-> _]; [|done]. cbn. lia.
  - apply Forall_lookup. intros k c Hk. apply init_lookup in Hk as [-> Hk]; [|done]. specialize (Hl T). split; cbn; [unfold is_u16; lia|apply default_ok..].
  - intros _ k c Hk Hs. apply init_lookup in Hk as [-> _]; [|done]. done.
Qed.

Lemma init_unselected (sizes : Spec -> nat) class0 mode T : unselected T (DatabaseBuffers.init (M := M) sizes class0 mode).
Proof. done. Qed.

Lemma init_plain (sizes : Spec -> nat) class0 mode T : Z.of_nat (sizes T) <= 65535 -> plain_indices T (DatabaseBuffers.init (M := M) sizes class0 mode).
Proof. intros Hl _ k c Hk. apply init_lookup in Hk as [-> _]; done. Qed.

End Initial.

(** Samples: the value of a binary is whether it is not zero, quality and flags are the
    size field. *)
#[export] Instance Sample_static : StaticMeasurement Sample := {|
  Deadband := Z;
  no_deadband := 0;
  default_value _ := mkSample 0 0 0;
  binary_value m := negb (s_value m =? 0);
  IsQualityOnlineOnly m := s_size m =? 1;
  IsEvent T last new deadband := deadband <? Z.abs (s_value new - s_value last);
  set_flags flags m := mkSample (s_time m) (s_value m) flags
|}.

#[export] Instance Sample_static_ok : StaticMeasurementOk Sample.
Proof.
  refine {| static_ok (_ : Spec) m := 0 <= s_time m <= UInt48_MAX /\ 0 <= s_size m < 256 |}.
  - intros T. cbn. unfold UInt48_MAX. lia.
  - intros T m flags [Ht _] Hf. unfold is_u8 in Hf. cbn. lia.
  - intros T m v _ HT Hp. apply Sample_fits; by destruct T, v.
  - intros m [_ Hs]. cbn. split_and!; [lia|lia|len|]. apply Forall_replicate. unfold is_u8. lia.
Defined.

(** Three binaries, two counters and an octet string. *)
Definition demo_sizes (T : Spec) : nat :=
  match T with BinarySpec => 3 | CounterSpec => 2 | OctetStringSpec => 1 | _ => 0 end.

Definition demo_database : Database Sample := Database.init demo_sizes Contiguous 0x1FF.

Lemma demo_sizes_ok T : Z.of_nat (demo_sizes T) <= 65535.
Proof. destruct T; cbn; lia. Qed.

Lemma demo_database_ok : database_ok demo_database.
Proof. apply init_ok, demo_sizes_ok. Qed.

(** After a read of the first two binaries and of the counters. *)
Definition demo_selected : option (Database Sample) :=
  '(d, _) ← Database.on_buffers (DatabaseBuffers.SelectRange GroupVariation.Group1Var1 (mkRange 0 1)) demo_database;
  '(d, _) ← Database.on_buffers (DatabaseBuffers.SelectAll GroupVariation.Group20Var2) d;
  Some d.

Lemma demo_selected_ok d : demo_selected = Some d -> database_ok d.
Proof.
  unfold demo_selected. destruct (on_buffers_ok _ _ (SelectRange_gv_ok GroupVariation.Group1Var1 (mkRange 0 1) ltac:(unfold range_ok; cbn; lia)) demo_database_ok) as (d1 & a1 & -> & D1).
  cbn [mbind option_bind]. destruct (on_buffers_ok _ _ (SelectAll_gv_ok GroupVariation.Group20Var2) D1) as (d2 & a2 & -> & D2). cbn [mbind option_bind]. by intros [= <-].
Qed.

(** What is selected. *)
Lemma demo_selection :
  option_map (fun d : Database Sample => (SelectedRanges.Get BinarySpec (ranges (db_buffers d)), SelectedRanges.Get OctetStringSpec (ranges (db_buffers d)),
    pending_all DatabaseBuffers.load_order (db_buffers d))) demo_selected =
  Some (mkRange 0 1, Range.Invalid,
    [(GroupVariation.Group1Var2, 0, Fields [0]); (GroupVariation.Group1Var2, 1, Fields [0]);
     (GroupVariation.Group20Var2, 0, Fields [0; 0]); (GroupVariation.Group20Var2, 1, Fields [0; 0])]).
Proof. vm_compute. reflexivity. Qed.

Lemma static_values_are_read_back_witness :
  match demo_selected with
  | Some d => exists w' d' fin data hs, Database.Load d (empty_writer 20) = Some (w', (d', fin)) /\ database_ok d' /\ put (empty_writer 20) w' data /\
      decoded ParserSettings.Default data = Some (hs, OK) /\
      pending_all DatabaseBuffers.load_order (db_buffers d) = static_points hs ++ pending_all DatabaseBuffers.load_order (db_buffers d') /\
      fin = negb (DatabaseBuffers.HasAnySelection (db_buffers d')) /\ (fin = false -> (v_size (position w') < 262)%nat)
  | None => False
  end.
Proof.
  destruct demo_selected as [d|] eqn:Hd; [|pose proof demo_selection as Hs; rewrite Hd in Hs; discriminate Hs]. apply (static_values_are_read_back d (empty_writer 20) ParserSettings.Default).
  - exact (demo_selected_ok d Hd).
  - unfold wwf. cbn. lia.
  - pose proof demo_selection as Hs. rewrite Hd in Hs. cbn [option_map] in Hs. injection Hs as H1 H2 _. intros T.
    destruct T; cbn [loads_whole]; rewrite ?H1, ?H2; (exact I || discriminate || reflexivity).
  - pose proof demo_selection as Hs. rewrite Hd in Hs. cbn [option_map] in Hs. injection Hs as _ _ Hp. rewrite Hp.
    repeat constructor; intros Hg; discriminate Hg.
  - reflexivity.
Defined.

(** An event buffer with room for five events of each type. *)
#[local] Abbreviation demo_buffer := (buffer_after (mkSample 0 0 0) (AllTypes 5) []).

Lemma demo_buffer_models b h os : demo_buffer = Some (b, h, os) -> exists s, models (caps_of (AllTypes 5)) b s.
Proof. intros Hb. apply (reachable_models (AllTypes 5) b h sample_config_ok). by apply (buffer_after_reachable _ _ _ b h os (Forall_nil_2 _) Hb). Qed.

Lemma demo_buffer_some : is_Some demo_buffer.
Proof. vm_compute. by eexists. Qed.

(** A forced event of the second binary, in the default class. *)
Lemma updates_report_their_events_witness :
  match demo_buffer with
  | Some (b, _, _) => exists s d' b' r, Database.Update BinarySpec (mkSample 7 1 1) 1 Force (demo_database, b) = Some ((d', b'), r) /\
      if (r : bool) then exists k c, addressed demo_database BinarySpec 1 k c /\
        replaced BinarySpec (<[k := updated_cell BinarySpec Force (mkSample 7 1 1) c]> (buffers (db_buffers demo_database) BinarySpec)) demo_database d' /\
        models (caps_of (AllTypes 5)) b' (after_event (caps_of (AllTypes 5)) BinarySpec Force (mkSample 7 1 1) c s)
      else (forall k c, ~ addressed demo_database BinarySpec 1 k c) /\ d' = demo_database /\ b' = b
  | None => False
  end.
Proof.
  destruct demo_buffer as [[[b h] os]|] eqn:Hb; [|by destruct demo_buffer_some as [x Hx]; rewrite Hb in Hx].
  destruct (demo_buffer_models b h os Hb) as [s Hs]. exists s.
  apply (updates_report_their_events (caps_of (AllTypes 5)) BinarySpec (mkSample 7 1 1) 1 Force demo_database b s).
  - exact (caps_of_ok _ sample_config_ok).
  - exact Hs.
  - exact demo_database_ok.
  - unfold is_u16. lia.
  - discriminate.
Defined.

(** The binaries 0 to 4 are read, of which there are three, and one changes before the
    response. *)
Lemma reads_are_snapshots_witness :
  match demo_buffer with
  | Some (b, _, _) => exists d1 d2 b2 w' d3 fin data hs,
      Database.on_buffers (DatabaseBuffers.SelectVirtualRange BinarySpec (mkRange 0 4) None) demo_database =
        Some (d1, read_iin BinarySpec (mkRange 0 4) (db_buffers demo_database)) /\
      run_updates [(BinarySpec, mkSample 7 1 1, 1, Detect)] (d1, b) = Some ((d2, b2), tt) /\
      Database.Load d2 (empty_writer 20) = Some (w', (d3, fin)) /\ put (empty_writer 20) w' data /\
      decoded ParserSettings.Default data = Some (hs, OK) /\
      map (snapshot BinarySpec None) (points_in BinarySpec (mkRange 0 4) (db_buffers demo_database)) =
        static_points hs ++ pending_all DatabaseBuffers.load_order (db_buffers d3)
  | None => False
  end.
Proof.
  destruct demo_buffer as [[[b h] os]|] eqn:Hb; [|by destruct demo_buffer_some as [x Hx]; rewrite Hb in Hx].
  destruct (demo_buffer_models b h os Hb) as [s Hs].
  apply (reads_are_snapshots (caps_of (AllTypes 5)) BinarySpec (mkRange 0 4) None [(BinarySpec, mkSample 7 1 1, 1, Detect)] demo_database b s
    (empty_writer 20) ParserSettings.Default).
  - exact (caps_of_ok _ sample_config_ok).
  - exact Hs.
  - exact demo_database_ok.
  - intros T'. exact (init_unselected demo_sizes 0x1FF Contiguous T').
  - discriminate.
  - apply init_plain, demo_sizes_ok.
  - unfold range_ok. cbn. lia.
  - intros _. vm_compute. discriminate.
  - repeat constructor; cbn; unfold UInt48_MAX; lia.
  - unfold wwf. cbn. lia.
  - reflexivity.
Defined.

(** After a read of the octet string. *)
Definition demo_octets : option (Database Sample) :=
  '(d, _) ← Database.on_buffers (DatabaseBuffers.SelectRange GroupVariation.Group110Var0 (mkRange 0 0)) demo_database;
  Some d.

Lemma demo_octets_ok d : demo_octets = Some d -> database_ok d.
Proof.
  unfold demo_octets. destruct (on_buffers_ok _ _ (SelectRange_gv_ok GroupVariation.Group110Var0 (mkRange 0 0) ltac:(unfold range_ok; cbn; lia)) demo_database_ok) as (d1 & a1 & -> & D1).
  cbn [mbind option_bind]. by intros [= <-].
Qed.

Lemma demo_octets_selection :
  option_map (fun d : Database Sample => (map selected (buffers (db_buffers d) OctetStringSpec), indexMode (db_buffers d))) demo_octets = Some ([true], Contiguous).
Proof. vm_compute. reflexivity. Qed.

Lemma octet_strings_stay_selected_witness :
  match demo_octets with
  | Some d => exists c, buffers (db_buffers d) OctetStringSpec !! 0%nat = Some c /\
      (forall w, wwf w -> exists w' d' fin, Database.Load d w = Some (w', (d', fin)) /\ buffers (db_buffers d') OctetStringSpec !! 0%nat = Some c) /\
      (exists d', Database.Unselect d = Some d' /\ buffers (db_buffers d') OctetStringSpec !! 0%nat = Some c) /\
      (exists d' iin, Database.on_buffers (DatabaseBuffers.SelectVirtualRange OctetStringSpec (mkRange 0 0) None) d = Some (d', iin) /\
         IINField.IsSet iin PARAM_ERROR = true /\ buffers (db_buffers d') OctetStringSpec !! 0%nat = Some c)
  | None => False
  end.
Proof.
  destruct demo_octets as [d|] eqn:Hd; [|pose proof demo_octets_selection as Hs; rewrite Hd in Hs; discriminate Hs].
  pose proof demo_octets_selection as Hs. rewrite Hd in Hs. cbn [option_map] in Hs. injection Hs as Hsel Hm.
  destruct (buffers (db_buffers d) OctetStringSpec) as [|c l] eqn:Hb; [discriminate Hsel|]. injection Hsel as Hc _. exists c. split; [reflexivity|].
  apply (octet_strings_stay_selected d 0 c (mkRange 0 0) None).
  - exact (demo_octets_ok d Hd).
  - rewrite Hb. reflexivity.
  - exact Hc.
  - exact Hm.
  - unfold range_ok. cbn. lia.
  - cbn. lia.
Defined.
