(* ===== verification/TaskBehavior.v ===== *)
(** * TaskBehavior: when the tasks of a master run (openpal/executor/MonotonicTimestamp, TimeDuration; opendnp3/master/TaskBehavior)

    Times and durations are signed 64-bit milliseconds; signed arithmetic that leaves
    the range is undefined. *)

From S2P Require Import Prelude.

Open Scope Z_scope.

(** ** Times *)

Definition INT64_MAX : Z := 9223372036854775807.

Definition INT64_MIN : Z := -9223372036854775808.

Definition is_i64 (z : Z) : Prop := INT64_MIN <= z <= INT64_MAX.

(** The result of a signed operation. *)
Definition i64 (z : Z) : option Z := if (INT64_MIN <=? z) && (z <=? INT64_MAX) then Some z else None.

Module MonotonicTimestamp.

Definition Max : Z := INT64_MAX.

Definition Min : Z := INT64_MIN.

Definition IsMax (t : Z) : bool := t =? INT64_MAX.

(** The overflow of the sum is capped; the difference comes first. *)
Definition Add (t duration : Z) : option Z :=
  maximum ← i64 (INT64_MAX - t);
  if maximum <=? duration then Some Max else i64 (t + duration).

End MonotonicTimestamp.

Module TimeDuration.

Definition Min : Z := INT64_MIN.

Definition Max : Z := INT64_MAX.

Definition IsNegative (d : Z) : bool := d <? 0.

Definition Seconds (seconds : Z) : option Z := i64 (1000 * seconds).

End TimeDuration.

(** ** TaskBehavior *)

Record TaskBehavior := mkTaskBehavior {
  period : Z;
  minRetryDelay : Z;
  maxRetryDelay : Z;
  startExpiration : Z;
  disabled : bool;
  expiration : Z;
  currentRetryDelay : Z
}.

Module TaskBehavior.

(** The constructor. *)
Definition make (period_ expiration_ minRetryDelay_ maxRetryDelay_ startExpiration_ : Z) : TaskBehavior :=
  mkTaskBehavior period_ minRetryDelay_ maxRetryDelay_ startExpiration_ false expiration_ minRetryDelay_.

Definition SingleExecutionNoRetry (startExpiration_ : Z) : TaskBehavior :=
  make TimeDuration.Min MonotonicTimestamp.Min TimeDuration.Max TimeDuration.Max startExpiration_.

Definition ImmediatePeriodic (period_ minRetryDelay_ maxRetryDelay_ : Z) : TaskBehavior :=
  make period_ MonotonicTimestamp.Min minRetryDelay_ maxRetryDelay_ MonotonicTimestamp.Max.

Definition SingleImmediateExecutionWithRetry (minRetryDelay_ maxRetryDelay_ : Z) : TaskBehavior :=
  make TimeDuration.Min MonotonicTimestamp.Min minRetryDelay_ maxRetryDelay_ MonotonicTimestamp.Max.

Definition ReactsToIINOnly : TaskBehavior :=
  make TimeDuration.Min MonotonicTimestamp.Max TimeDuration.Max TimeDuration.Max MonotonicTimestamp.Max.

Definition update (d : bool) (e r : Z) (b : TaskBehavior) : TaskBehavior :=
  mkTaskBehavior (period b) (minRetryDelay b) (maxRetryDelay b) (startExpiration b) d e r.

Definition OnSuccess (now : Z) (b : TaskBehavior) : option TaskBehavior :=
  e ← (if TimeDuration.IsNegative (period b) then Some MonotonicTimestamp.Max else MonotonicTimestamp.Add now (period b));
  Some (update (disabled b) e (minRetryDelay b) b).

Definition CalcNextRetryTimeout (b : TaskBehavior) : option Z :=
  let doubling_would_cause_mult_overflow := INT64_MAX / 2 <=? currentRetryDelay b in
  doubled ← (if doubling_would_cause_mult_overflow then Some (maxRetryDelay b) else i64 (2 * currentRetryDelay b));
  Some (if maxRetryDelay b <? doubled then maxRetryDelay b else doubled).

Definition OnResponseTimeout (now : Z) (b : TaskBehavior) : option TaskBehavior :=
  e ← MonotonicTimestamp.Add now (currentRetryDelay b);
  r ← CalcNextRetryTimeout b;
  Some (update (disabled b) e r b).

Definition GetExpiration (b : TaskBehavior) : Z := expiration b.

Definition GetStartExpiration (b : TaskBehavior) : Z := startExpiration b.

Definition Reset (b : TaskBehavior) : TaskBehavior := update false MonotonicTimestamp.Min (minRetryDelay b) b.

Definition Disable (b : TaskBehavior) : TaskBehavior := update true MonotonicTimestamp.Max (currentRetryDelay b) b.

End TaskBehavior.

(** ** Lemmas *)

Lemma i64_some z : is_i64 z -> i64 z = Some z.
Proof.
  unfold is_i64, i64. intros [Hlo Hhi]. apply Z.leb_le in Hlo. apply Z.leb_le in Hhi. by rewrite Hlo, Hhi.
Qed.

(** Times of an executor. *)
Definition is_time (t : Z) : Prop := 0 <= t <= INT64_MAX.

Lemma Timestamp_Add_spec t d : is_time t -> is_i64 d -> MonotonicTimestamp.Add t d = Some (Z.min (t + d) INT64_MAX).
Proof.
  unfold is_time, is_i64, MonotonicTimestamp.Add, INT64_MIN, INT64_MAX. intros Ht Hd. rewrite (i64_some (9223372036854775807 - t)) by (unfold is_i64, INT64_MIN, INT64_MAX; lia).
  cbn [mbind option_bind]. destruct (Z.leb_spec (9223372036854775807 - t) d).
  - f_equal. unfold MonotonicTimestamp.Max, INT64_MAX. lia.
  - rewrite i64_some by (unfold is_i64, INT64_MIN, INT64_MAX; lia). f_equal. lia.
Qed.

(** A behavior whose delays can be added and doubled: none is below [INT64_MIN / 2]. *)
Record behavior_ok (b : TaskBehavior) : Prop := mkBehaviorOk {
  bh_period : is_i64 (period b);
  bh_min : is_time (minRetryDelay b);
  bh_max : is_time (maxRetryDelay b);
  bh_start : is_i64 (startExpiration b);
  bh_expiration : is_i64 (expiration b);
  bh_current : is_time (currentRetryDelay b)
}.

Lemma make_ok p e mn mx s :
  is_i64 p -> is_i64 e -> is_time mn -> is_time mx -> is_i64 s -> behavior_ok (TaskBehavior.make p e mn mx s).
Proof. intros. by split. Qed.

Lemma half_max : INT64_MAX / 2 = 4611686018427387903.
Proof. reflexivity. Qed.

(** The next delay is the double, up to the maximum; the check against the overflow is
    one short of exact. *)
Definition next_delay (b : TaskBehavior) : Z :=
  if INT64_MAX / 2 <=? currentRetryDelay b then maxRetryDelay b else Z.min (2 * currentRetryDelay b) (maxRetryDelay b).

Lemma CalcNextRetryTimeout_spec b : behavior_ok b -> TaskBehavior.CalcNextRetryTimeout b = Some (next_delay b).
Proof.
  intros [_ Hmn Hmx _ _ Hc]. unfold TaskBehavior.CalcNextRetryTimeout, next_delay. rewrite half_max. unfold is_time, INT64_MAX in *.
  destruct (Z.leb_spec 4611686018427387903 (currentRetryDelay b)); cbn [mbind option_bind].
  - by rewrite Z.ltb_irrefl.
  - rewrite i64_some by (unfold is_i64, INT64_MIN, INT64_MAX; lia). cbn [mbind option_bind].
    destruct (Z.ltb_spec (maxRetryDelay b) (2 * currentRetryDelay b)); f_equal; lia.
Qed.

Lemma next_delay_min b : maxRetryDelay b < INT64_MAX -> next_delay b = Z.min (2 * currentRetryDelay b) (maxRetryDelay b).
Proof. unfold next_delay. rewrite half_max. unfold INT64_MAX. destruct (Z.leb_spec 4611686018427387903 (currentRetryDelay b)); lia. Qed.

Lemma next_delay_time b : behavior_ok b -> is_time (next_delay b).
Proof.
  intros [_ Hmn Hmx _ _ Hc]. unfold next_delay, is_time in *. rewrite half_max. destruct (4611686018427387903 <=? currentRetryDelay b); lia.
Qed.

(** *** Each operation *)

Lemma OnSuccess_spec now b :
  is_time now -> behavior_ok b -> TaskBehavior.OnSuccess now b =
    Some (TaskBehavior.update (disabled b) (if period b <? 0 then INT64_MAX else Z.min (now + period b) INT64_MAX) (minRetryDelay b) b).
Proof.
  intros Hn Hb. unfold TaskBehavior.OnSuccess, TimeDuration.IsNegative. destruct (period b <? 0); [done|].
  by rewrite Timestamp_Add_spec by (done || apply Hb).
Qed.

Lemma time_i64 t : is_time t -> is_i64 t.
Proof. unfold is_time, is_i64, INT64_MIN. lia. Qed.

Lemma OnResponseTimeout_spec now b :
  is_time now -> behavior_ok b ->
  TaskBehavior.OnResponseTimeout now b = Some (TaskBehavior.update (disabled b) (Z.min (now + currentRetryDelay b) INT64_MAX) (next_delay b) b).
Proof.
  intros Hn Hb. unfold TaskBehavior.OnResponseTimeout. rewrite Timestamp_Add_spec by (done || apply time_i64, Hb). cbn [mbind option_bind].
  by rewrite CalcNextRetryTimeout_spec.
Qed.

Lemma update_ok d e r b : behavior_ok b -> is_i64 e -> is_time r -> behavior_ok (TaskBehavior.update d e r b).
Proof. by intros []. Qed.

Lemma max_i64 : is_i64 INT64_MAX.
Proof. unfold is_i64, INT64_MIN, INT64_MAX. lia. Qed.

Lemma min_i64 : is_i64 INT64_MIN.
Proof. unfold is_i64, INT64_MIN, INT64_MAX. lia. Qed.

#[export] Hint Resolve max_i64 min_i64 time_i64 : core.

Lemma OnSuccess_ok now b : is_time now -> behavior_ok b -> exists b', TaskBehavior.OnSuccess now b = Some b' /\ behavior_ok b'.
Proof.
  intros Hn Hb. rewrite OnSuccess_spec by done. eexists. split; [done|]. destruct Hb as [Hp Hmn Hmx Hs He Hc]. apply update_ok; [done| |done].
  unfold is_time, is_i64, INT64_MIN, INT64_MAX in *. destruct (Z.ltb_spec (period b) 0); lia.
Qed.

Lemma behavior_OnResponseTimeout_ok now b : is_time now -> behavior_ok b -> exists b', TaskBehavior.OnResponseTimeout now b = Some b' /\ behavior_ok b'.
Proof.
  intros Hn Hb. rewrite OnResponseTimeout_spec by done. eexists. split; [done|]. apply update_ok; [done| |by apply next_delay_time].
  destruct Hb as [Hp Hmn Hmx Hs He Hc]. unfold is_time, is_i64, INT64_MIN, INT64_MAX in *. lia.
Qed.

Lemma Reset_ok b : behavior_ok b -> behavior_ok (TaskBehavior.Reset b).
Proof. intros Hb. apply update_ok; [done|apply min_i64|apply Hb]. Qed.

Lemma Disable_ok b : behavior_ok b -> behavior_ok (TaskBehavior.Disable b).
Proof. intros Hb. apply update_ok; [done|apply max_i64|apply Hb]. Qed.

(** *** Timeouts in a row *)

(** The times at which a task may run again after timeouts at the given times. *)
Fixpoint timeouts (times : list Z) (b : TaskBehavior) : option (list Z * TaskBehavior) :=
  match times with
  | [] => Some ([], b)
  | now :: times =>
      b ← TaskBehavior.OnResponseTimeout now b;
      '(es, b') ← timeouts times b;
      Some (TaskBehavior.GetExpiration b :: es, b')
  end.

(** The delay after [n] doublings. *)
Definition backoff (mn mx : Z) (n : nat) : Z := if decide (n = 0%nat) then mn else Z.min (mn * 2 ^ Z.of_nat n) mx.

Lemma backoff_next mn mx n : 0 <= mn -> 0 <= mx -> Z.min (2 * backoff mn mx n) mx = backoff mn mx (S n).
Proof.
  intros Hmn Hmx. unfold backoff. rewrite (decide_False (P := S n = 0%nat)) by done. rewrite Nat2Z.inj_succ, Z.pow_succ_r by lia.
  pose proof (Z.pow_nonneg 2 (Z.of_nat n) ltac:(lia)). destruct (decide (n = 0%nat)) as [->|]; [cbn; lia|]. nia.
Qed.

(** A task that is not answered is tried again later and later.  After timeouts at
    any times the calculation stays within 64 bits, and the [i]-th time at which the
    task may run again is the time of the timeout plus the shortest delay doubled [i]
    times but at most the longest delay, capped at the largest time; a success or a
    reset starts again with the shortest delay. *)
Theorem retries_back_off (b : TaskBehavior) (times : list Z) :
  behavior_ok b -> currentRetryDelay b = minRetryDelay b -> maxRetryDelay b < INT64_MAX -> Forall is_time times ->
  exists es b', timeouts times b = Some (es, b') /\
    es = imap (fun i now => Z.min (now + backoff (minRetryDelay b) (maxRetryDelay b) i) INT64_MAX) times /\
    currentRetryDelay b' = backoff (minRetryDelay b) (maxRetryDelay b) (length times) /\
    (forall now, is_time now -> exists b'', TaskBehavior.OnSuccess now b' = Some b'' /\ currentRetryDelay b'' = minRetryDelay b) /\
    currentRetryDelay (TaskBehavior.Reset b') = minRetryDelay b.
Proof.
  intros Hb Hc Hmx Ht.
  assert (Hl : forall n b0, behavior_ok b0 -> minRetryDelay b0 = minRetryDelay b -> maxRetryDelay b0 = maxRetryDelay b ->
    currentRetryDelay b0 = backoff (minRetryDelay b) (maxRetryDelay b) n ->
    exists es b', timeouts times b0 = Some (es, b') /\ behavior_ok b' /\ minRetryDelay b' = minRetryDelay b /\
      es = imap (fun i now => Z.min (now + backoff (minRetryDelay b) (maxRetryDelay b) (n + i)) INT64_MAX) times /\
      currentRetryDelay b' = backoff (minRetryDelay b) (maxRetryDelay b) (n + length times)).
  { clear Hc. induction Ht as [|now times Hn _ IH]; intros n b0 Hb0 Hmn0 Hmx0 Hc0; cbn [timeouts imap length].
    - exists [], b0. by rewrite Nat.add_0_r.
    - rewrite OnResponseTimeout_spec by done. cbn [mbind option_bind]. rewrite next_delay_min by (rewrite Hmx0; done).
      destruct Hb as [Hp Hmnb Hmxb _ _ _]. rewrite Hmx0, Hc0, backoff_next by (apply Hmnb || apply Hmxb).
      destruct (IH (S n) (TaskBehavior.update (disabled b0) (Z.min (now + backoff (minRetryDelay b) (maxRetryDelay b) n) INT64_MAX)
        (backoff (minRetryDelay b) (maxRetryDelay b) (S n)) b0)) as (es & b' & -> & Hb' & Hmn' & -> & Hc'); [|done..|].
      + pose proof (behavior_OnResponseTimeout_ok now b0 Hn Hb0) as (b1 & Hb1 & Hok). rewrite OnResponseTimeout_spec in Hb1 by done.
        injection Hb1 as <-. rewrite next_delay_min, Hmx0, Hc0, backoff_next in Hok by (rewrite ?Hmx0; done || apply Hmnb || apply Hmxb). done.
      + cbn [mbind option_bind]. eexists _, b'. split; [done|]. split_and!; [done|done| |by rewrite Nat.add_succ_r].
        rewrite Nat.add_0_r. f_equal. apply imap_ext. intros i x _. cbn. by rewrite Nat.add_succ_r. }
  destruct (Hl 0%nat b Hb eq_refl eq_refl Hc) as (es & b' & -> & Hb' & Hmn' & -> & Hc'). exists (imap (fun i now =>
    Z.min (now + backoff (minRetryDelay b) (maxRetryDelay b) i) INT64_MAX) times), b'. split_and!; [done|done|done| |done].
  intros now Hn. rewrite OnSuccess_spec by done. eexists. split; [done|done].
Qed.

(** A request without answers at 1000, 7000, 20000 and 50000 milliseconds. *)
Lemma retries_back_off_witness :
  let b := TaskBehavior.SingleImmediateExecutionWithRetry 5000 30000 in
  exists es b', timeouts [1000; 7000; 20000; 50000] b = Some (es, b') /\
    es = [6000; 17000; 40000; 80000] /\
    currentRetryDelay b' = 30000 /\
    (forall now, is_time now -> exists b'', TaskBehavior.OnSuccess now b' = Some b'' /\ currentRetryDelay b'' = 5000) /\
    currentRetryDelay (TaskBehavior.Reset b') = 5000.
Proof.
  apply (retries_back_off (TaskBehavior.SingleImmediateExecutionWithRetry 5000 30000) [1000; 7000; 20000; 50000]).
  - apply make_ok; unfold is_i64, is_time, TimeDuration.Min, MonotonicTimestamp.Min, MonotonicTimestamp.Max, INT64_MIN, INT64_MAX; lia.
  - reflexivity.
  - unfold INT64_MAX. cbn. lia.
  - repeat constructor; unfold INT64_MAX; lia.
Defined.
