(* ===== verification/CommandSet.v ===== *)
(** * CommandSet: the commands of a master and the responses to them (opendnp3/master: CommandSet, TypedCommandHeader, ICommandHeader, CommandSetOps, CommandTaskResult)

    A command set is a list of headers; a header has commands of one object class, each
    with what is known of it.  A command is the list of the fields of its object. *)

From S2P Require Import Prelude Slices Serialization AppHeader Objects ObjectParser HeaderWriter OutstationState RequestHandlers.

Open Scope Z_scope.

(** ** Commands *)

Inductive ControlCode :=
  | NUL
  | NUL_CANCEL
  | PULSE_ON
  | PULSE_ON_CANCEL
  | PULSE_OFF
  | PULSE_OFF_CANCEL
  | LATCH_ON
  | LATCH_ON_CANCEL
  | LATCH_OFF
  | LATCH_OFF_CANCEL
  | CLOSE_PULSE_ON
  | CLOSE_PULSE_ON_CANCEL
  | TRIP_PULSE_ON
  | TRIP_PULSE_ON_CANCEL
  | UNDEFINED_CODE.

#[export] Instance ControlCode_eq_dec : EqDecision ControlCode.
Proof. solve_decision. Defined.

Definition ControlCodeFromType (arg : Z) : ControlCode :=
  match arg with
  | 0x0 => NUL
  | 0x20 => NUL_CANCEL
  | 0x1 => PULSE_ON
  | 0x21 => PULSE_ON_CANCEL
  | 0x2 => PULSE_OFF
  | 0x22 => PULSE_OFF_CANCEL
  | 0x3 => LATCH_ON
  | 0x23 => LATCH_ON_CANCEL
  | 0x4 => LATCH_OFF
  | 0x24 => LATCH_OFF_CANCEL
  | 0x41 => CLOSE_PULSE_ON
  | 0x61 => CLOSE_PULSE_ON_CANCEL
  | 0x81 => TRIP_PULSE_ON
  | 0xA1 => TRIP_PULSE_ON_CANCEL
  | _ => UNDEFINED_CODE
  end.

Definition CommandStatusFromType (arg : Z) : CommandStatus :=
  match arg with
  | 0 => SUCCESS
  | 1 => TIMEOUT
  | 2 => NO_SELECT
  | 3 => FORMAT_ERROR
  | 4 => NOT_SUPPORTED
  | 5 => ALREADY_ACTIVE
  | 6 => HARDWARE_ERROR
  | 7 => LOCAL
  | 8 => TOO_MANY_OPS
  | 9 => NOT_AUTHORIZED
  | 10 => AUTOMATION_INHIBIT
  | 11 => PROCESSING_LIMITED
  | 12 => OUT_OF_RANGE
  | 13 => DOWNSTREAM_LOCAL
  | 14 => ALREADY_COMPLETE
  | 15 => BLOCKED
  | 16 => CANCELLED
  | 17 => BLOCKED_OTHER_MASTER
  | 18 => DOWNSTREAM_FAIL
  | 126 => NON_PARTICIPATING
  | _ => UNDEFINED_STATUS
  end.

(** [==] of two floating-point numbers of [mantissa] and [exponent] bits, given by
    their representations: no NaN is equal to anything, and the zeros are equal. *)
Definition is_nan (mantissa exponent v : Z) : bool :=
  (Z.land (Z.shiftr v mantissa) (Z.ones exponent) =? Z.ones exponent) && negb (Z.land v (Z.ones mantissa) =? 0).

Definition is_zero (mantissa exponent v : Z) : bool := Z.land v (Z.ones (mantissa + exponent)) =? 0.

Definition float_eq (mantissa exponent v w : Z) : bool :=
  negb (is_nan mantissa exponent v) && negb (is_nan mantissa exponent w) &&
  ((v =? w) || is_zero mantissa exponent v && is_zero mantissa exponent w).

(** [ControlRelayOutputBlock::ValuesEqual] and [AnalogOutput::ValuesEqual] *)
Definition ValuesEqual (gv : GroupVariation.t) (lhs rhs : Value) : bool :=
  match gv, lhs, rhs with
  | GroupVariation.Group12Var1, Fields [code; count; onTime; offTime; _], Fields [code'; count'; onTime'; offTime'; _] =>
      bool_decide (ControlCodeFromType code = ControlCodeFromType code') && (count =? count') && (onTime =? onTime') && (offTime =? offTime')
  | GroupVariation.Group41Var3, Fields [value; _], Fields [value'; _] => float_eq 23 8 value value'
  | GroupVariation.Group41Var4, Fields [value; _], Fields [value'; _] => float_eq 52 11 value value'
  | _, Fields [value; _], Fields [value'; _] => value =? value'
  | _, _, _ => false
  end.

(** [status] is the last field of every command. *)
Definition status_of (command : Value) : CommandStatus :=
  match command with
  | Fields vs => CommandStatusFromType (List.last vs 127)
  | _ => UNDEFINED_STATUS
  end.

(** ** Headers *)

Inductive CommandPointState := INIT | SELECT_SUCCESS | SELECT_MISMATCH | SELECT_FAIL | OPERATE_FAIL | POINT_SUCCESS.

#[export] Instance CommandPointState_eq_dec : EqDecision CommandPointState.
Proof. solve_decision. Defined.

(** [TypedCommandHeader::Record] with [CommandState] *)
Record CommandRecord := mkCommandRecord {
  cr_state : CommandPointState;
  cr_status : CommandStatus;
  cr_index : Z;
  command : Value
}.

Inductive IndexQualifierMode := allow_one_byte | always_two_bytes.

#[export] Instance IndexQualifierMode_eq_dec : EqDecision IndexQualifierMode.
Proof. solve_decision. Defined.

(** The serializer is the object class. *)
Record CommandHeader := mkCommandHeader {
  serializer : GroupVariation.t;
  use_single_byte_index : bool;
  records : list CommandRecord
}.

Module TypedCommandHeader.

Definition init (gv : GroupVariation.t) : CommandHeader := mkCommandHeader gv true [].

Definition set_records (rs : list CommandRecord) (h : CommandHeader) : CommandHeader :=
  mkCommandHeader (serializer h) (use_single_byte_index h) rs.

Definition ExpectedQualfier (h : CommandHeader) : QualifierCode :=
  if use_single_byte_index h then UINT8_CNT_UINT8_INDEX else UINT16_CNT_UINT16_INDEX.

Definition Add (h : CommandHeader) (command : Value) (index : Z) : CommandHeader :=
  mkCommandHeader (serializer h) (if 255 <? index then false else use_single_byte_index h)
    (records h ++ [mkCommandRecord INIT UNDEFINED_STATUS index command]).

Definition AreAllSelected (h : CommandHeader) : bool := forallb (fun rec => bool_decide (cr_state rec = SELECT_SUCCESS)) (records h).

(** The loop of [Write]; the iterator is destroyed at every exit. *)
Fixpoint write_all (PrefixType : Serializer) (it : PrefixedWriteIterator.t) (rs : list CommandRecord) : WM (PrefixedWriteIterator.t * bool) :=
  match rs with
  | [] => mret (it, PrefixedWriteIterator.isValid it)
  | rec :: rs =>
      '(it, ok) ← PrefixedWriteIterator.Write PrefixType it (command rec) (wrap PrefixType (cr_index rec));
      if (ok : bool) then write_all PrefixType it rs else mret (it, false)
  end.

Definition write_with (PrefixType : Serializer) (qc : QualifierCode) (h : CommandHeader) : WM bool :=
  iter ← HeaderWriter.IterateOverCountWithPrefix PrefixType qc (Inst (serializer h));
  '(iter, ok) ← write_all PrefixType iter (records h);
  _ ← PrefixedWriteIterator.destroy PrefixType iter;
  mret ok.

Definition Write (h : CommandHeader) (mode : IndexQualifierMode) : WM (CommandHeader * bool) :=
  if decide (records h = []) then mret (h, false)
  else
    let h := mkCommandHeader (serializer h) (use_single_byte_index h && bool_decide (mode = allow_one_byte)) (records h) in
    ok ← (if use_single_byte_index h then write_with UInt8 UINT8_CNT_UINT8_INDEX h else write_with UInt16 UINT16_CNT_UINT16_INDEX h);
    mret (h, ok).

(** The lambdas [visit] on a record and an item of the response. *)
Definition visit_select (gv : GroupVariation.t) (item : Z * Value) (rec : CommandRecord) : CommandRecord :=
  if negb (item.1 =? cr_index rec) then rec
  else if negb (ValuesEqual gv item.2 (command rec)) then mkCommandRecord SELECT_MISMATCH (cr_status rec) (cr_index rec) (command rec)
  else if negb (bool_decide (status_of item.2 = SUCCESS)) then
    mkCommandRecord SELECT_FAIL (status_of item.2) (cr_index rec) (command rec)
  else if decide (cr_state rec = INIT) then mkCommandRecord SELECT_SUCCESS (cr_status rec) (cr_index rec) (command rec)
  else rec.

Definition visit_operate (gv : GroupVariation.t) (item : Z * Value) (rec : CommandRecord) : CommandRecord :=
  if negb (item.1 =? cr_index rec) then rec
  else if negb (ValuesEqual gv item.2 (command rec)) then mkCommandRecord OPERATE_FAIL (cr_status rec) (cr_index rec) (command rec)
  else mkCommandRecord POINT_SUCCESS (status_of item.2) (cr_index rec) (command rec).

(** [commands.ForeachItem(visit)]: [index] goes up with every item; [records[index]] is
    undefined outside. *)
Fixpoint visit_all (visit : Z * Value -> CommandRecord -> CommandRecord) (items : list (Z * Value)) (rs : list CommandRecord)
    : option (list CommandRecord) :=
  match items, rs with
  | [], rs => Some rs
  | item :: items, rec :: rs => rs' ← visit_all visit items rs; Some (visit item rec :: rs')
  | _ :: _, [] => None
  end.

(** [ApplySelectResponse] and [ApplyOperateResponse]; the overloads for other object
    classes do nothing. *)
Definition apply_response (visit : GroupVariation.t -> Z * Value -> CommandRecord -> CommandRecord) (gv : GroupVariation.t)
    (code : QualifierCode) (commands : list (Z * Value)) (h : CommandHeader) : option CommandHeader :=
  if negb (bool_decide (gv = serializer h)) then Some h
  else if negb (bool_decide (code = ExpectedQualfier h)) then Some h
  else if (length (records h) <? length commands)%nat then Some h
  else rs ← visit_all (visit gv) commands (records h); Some (set_records rs h).

Definition ApplySelectResponse := apply_response visit_select.

Definition ApplyOperateResponse := apply_response visit_operate.

End TypedCommandHeader.

(** ** CommandSet *)

Abbreviation CommandSet := (list CommandHeader).

Module CommandSet.

(** [Add] of a list of commands of one class: the constructors and [StartHeader]. *)
Definition Add (gv : GroupVariation.t) (items : list (Value * Z)) (set : CommandSet) : CommandSet :=
  if decide (items = []) then set
  else set ++ [foldl (fun h item => TypedCommandHeader.Add h item.1 item.2) (TypedCommandHeader.init gv) items].

End CommandSet.

Inductive SelectResult := SELECT_OK | SELECT_FAIL_PARSE | SELECT_FAIL_SELECT.

#[export] Instance SelectResult_eq_dec : EqDecision SelectResult.
Proof. solve_decision. Defined.

Inductive OperateResult := OPERATE_OK | OPERATE_FAIL_PARSE.

#[export] Instance OperateResult_eq_dec : EqDecision OperateResult.
Proof. solve_decision. Defined.

(** [CommandPointResult] *)
Record CommandPointResult := mkCommandPointResult {
  cp_headerIndex : Z;
  cp_index : Z;
  cp_state : CommandPointState;
  cp_status : CommandStatus
}.

Module CommandSetOps.

Fixpoint Write (set : CommandSet) (mode : IndexQualifierMode) : WM (CommandSet * bool) :=
  match set with
  | [] => mret ([], true)
  | header :: set =>
      '(header, ok) ← TypedCommandHeader.Write header mode;
      if (ok : bool) then '(set, ok) ← Write set mode; mret (header :: set, ok) else mret (header :: set, false)
  end.

Definition IsAllowed (headerCount : Z) (gv : GroupVariation.t) (qc : QualifierCode) : bool :=
  match qc with
  | UINT8_CNT_UINT8_INDEX | UINT16_CNT_UINT16_INDEX =>
      match gv with
      | GroupVariation.Group12Var1 | GroupVariation.Group41Var1 | GroupVariation.Group41Var2 | GroupVariation.Group41Var3
      | GroupVariation.Group41Var4 => true
      | _ => false
      end
  | _ => false
  end.

(** [mode] is the method of the headers that is called. *)
Definition ProcessAny (apply : GroupVariation.t -> QualifierCode -> list (Z * Value) -> CommandHeader -> option CommandHeader)
    (record : HeaderRecord) (gv : GroupVariation.t) (values : list (Z * Value)) : SM CommandSet IINField := fun commands =>
  match commands !! Z.to_nat (headerIndex record) with
  | None => Some (commands, IINField.of_bit PARAM_ERROR)
  | Some header =>
      header ← apply gv (GetQualifierCode record) values header;
      Some (<[Z.to_nat (headerIndex record) := header]> commands, IINField.Empty)
  end.

Definition ProcessHeader (apply : GroupVariation.t -> QualifierCode -> list (Z * Value) -> CommandHeader -> option CommandHeader)
    (header : Header) (current : Z) : option (SM CommandSet IINField) :=
  match header with
  | PrefixOf record _ values =>
      match enum_of record with
      | GroupVariation.Group12Var1 => Some (ProcessAny apply record GroupVariation.Group12Var1 values)
      | GroupVariation.Group41Var1 => Some (ProcessAny apply record GroupVariation.Group41Var1 values)
      | GroupVariation.Group41Var2 => Some (ProcessAny apply record GroupVariation.Group41Var2 values)
      | GroupVariation.Group41Var3 => Some (ProcessAny apply record GroupVariation.Group41Var3 values)
      | GroupVariation.Group41Var4 => Some (ProcessAny apply record GroupVariation.Group41Var4 values)
      | _ => None
      end
  | _ => None
  end.

Definition handler (apply : GroupVariation.t -> QualifierCode -> list (Z * Value) -> CommandHeader -> option CommandHeader)
    : IAPDUHandler (Handling CommandSet) := APDUHandler.handler (ProcessHeader apply) IsAllowed.

Definition ProcessSelectResponse (set : CommandSet) (headers : RSlice) : option (CommandSet * SelectResult) :=
  '(set, (_, result)) ← APDUHandler.run ParserSettings.Default (handler TypedCommandHeader.ApplySelectResponse) headers set;
  Some (set, if negb (bool_decide (result = OK)) then SELECT_FAIL_PARSE
             else if forallb TypedCommandHeader.AreAllSelected set then SELECT_OK else SELECT_FAIL_SELECT).

Definition ProcessOperateResponse (set : CommandSet) (headers : RSlice) : option (CommandSet * OperateResult) :=
  '(set, (_, result)) ← APDUHandler.run ParserSettings.Default (handler TypedCommandHeader.ApplyOperateResponse) headers set;
  Some (set, if bool_decide (result = OK) then OPERATE_OK else OPERATE_FAIL_PARSE).

(** The results that the callback of the user gets. *)
Definition results (set : CommandSet) : list CommandPointResult :=
  concat (imap (fun i header => map (fun rec => mkCommandPointResult (Z.of_nat i) (cr_index rec) (cr_state rec) (cr_status rec))
    (records header)) set).

End CommandSetOps.
