(* ===== verification/CommandProps.v ===== *)
(** * CommandProps: what a master learns from the response to a command

    [respond] is what the header of a response at some position does to the header of
    the command set at the same position. *)

From S2P Require Import Prelude Slices Serialization AppHeader Objects ObjectParser HeaderWriter HeaderRoundtrip OutstationState RequestHandlers RequestSpecs CommandSet.

Open Scope Z_scope.

Section Responses.
Context (visit : GroupVariation.t -> Z * Value -> CommandRecord -> CommandRecord).
Implicit Types (set : CommandSet) (h : CommandHeader) (hs : list Header).

Abbreviation apply := (TypedCommandHeader.apply_response visit).

(** A header of a response applies to a header of commands. *)
Definition matches (hd : Header) h : bool :=
  match hd with
  | PrefixOf record _ values =>
      bool_decide (enum_of record = serializer h) && bool_decide (GetQualifierCode record = TypedCommandHeader.ExpectedQualfier h) &&
      (length values <=? length (records h))%nat
  | _ => false
  end.

Definition values_of (hd : Header) : list (Z * Value) := match hd with PrefixOf _ _ values => values | _ => [] end.

Definition visited (gv : GroupVariation.t) (items : list (Z * Value)) (rs : list CommandRecord) : list CommandRecord :=
  zip_with (visit gv) items rs ++ drop (length items) rs.

Definition respond (hd : option Header) h : CommandHeader :=
  match hd with
  | Some hd => if matches hd h then TypedCommandHeader.set_records (visited (serializer h) (values_of hd) (records h)) h else h
  | None => h
  end.

Lemma visit_all_spec gv items : forall rs,
  (length items <= length rs)%nat -> TypedCommandHeader.visit_all (visit gv) items rs = Some (visited gv items rs).
Proof.
  induction items as [|item items IH]; intros rs Hl; [done|]. destruct rs as [|rec rs]; [cbn in Hl; lia|].
  cbn [TypedCommandHeader.visit_all]. by rewrite IH by (cbn in Hl; lia).
Qed.

Lemma apply_spec record count values h :
  apply (enum_of record) (GetQualifierCode record) values h = Some (respond (Some (PrefixOf record count values)) h).
Proof.
  unfold TypedCommandHeader.apply_response, respond, matches. cbn [values_of].
  case_bool_decide as Hgv; cbn [negb andb]; [|done]. case_bool_decide; cbn [negb andb]; [|done].
  destruct (Nat.ltb_spec (length (records h)) (length values)), (Nat.leb_spec (length values) (length (records h))); try lia; [done|].
  rewrite visit_all_spec by done. cbn [mbind option_bind]. by rewrite Hgv.
Qed.

(** The set after the headers [hs] of a response. *)
Definition responded hs set set' : Prop :=
  length set' = length set /\ forall i h, set !! i = Some h -> set' !! i = Some (respond (hs !! i) h).

Lemma responded_start set : responded [] set set.
Proof. split; [done|]. by intros i h ->. Qed.

Lemma respond_skip hs hd set set' :
  responded hs set set' -> (forall h, set !! length hs = Some h -> matches hd h = false) -> responded (hs ++ [hd]) set set'.
Proof.
  intros [Hl Hr] Hm. split; [done|]. intros i h Hi. rewrite (Hr i h Hi). f_equal. destruct (decide (i < length hs)%nat).
  - by rewrite lookup_app_l.
  - rewrite (lookup_ge_None_2 hs) by lia. destruct (decide (i = length hs)) as [->|].
    + rewrite list_lookup_middle by done. cbn [respond]. by rewrite (Hm h Hi).
    + by rewrite lookup_ge_None_2 by (rewrite length_app; cbn; lia).
Qed.

Lemma ProcessAny_step hs record count values set set' :
  responded hs set set' -> headerIndex record = Z.of_nat (length hs) ->
  wp (CommandSetOps.ProcessAny apply record (enum_of record) values) set' (fun _ set'' => responded (hs ++ [PrefixOf record count values]) set set'').
Proof.
  intros [Hl Hr] Hidx. unfold CommandSetOps.ProcessAny, wp. rewrite Hidx, Nat2Z.id. destruct (set' !! length hs) as [h'|] eqn:Hh.
  2:{ apply respond_skip; [by split|]. intros h Hi. by rewrite (Hr _ _ Hi) in Hh. }
  destruct (lookup_lt_is_Some_2 set (length hs)) as [h Hi]; [rewrite <- Hl; by eapply lookup_lt_Some|].
  pose proof (Hr _ _ Hi) as Hh'. rewrite Hh in Hh'. injection Hh' as ->. rewrite (lookup_ge_None_2 hs) by lia. cbn [respond].
  rewrite (apply_spec record count values). cbn [mbind option_bind]. split; [by rewrite length_insert|].
  intros i h1 Hi1. destruct (decide (i = length hs)) as [->|Hne].
  - rewrite list_lookup_insert_eq by (rewrite Hl; by eapply lookup_lt_Some). rewrite Hi in Hi1. injection Hi1 as <-. by rewrite list_lookup_middle.
  - rewrite list_lookup_insert_ne by done. rewrite (Hr _ _ Hi1). do 2 f_equal. destruct (decide (i < length hs)%nat).
    + by rewrite lookup_app_l.
    + rewrite !lookup_ge_None_2; [done|rewrite length_app; cbn; lia|lia].
Qed.

Lemma ProcessHeader_step hs hd n set set' :
  responded hs set set' -> headerIndex (record_of hd) = Z.of_nat (length hs) ->
  CommandSetOps.IsAllowed (headerIndex (record_of hd)) (enum_of (record_of hd)) (GetQualifierCode (record_of hd)) = true ->
  match CommandSetOps.ProcessHeader apply hd n with
  | Some m => wp m set' (fun _ set'' => responded (hs ++ [hd]) set set'')
  | None => responded (hs ++ [hd]) set set'
  end.
Proof.
  intros Hr Hi Ha. assert (Hc : is_command (enum_of (record_of hd)) = true).
  { unfold CommandSetOps.IsAllowed in Ha. destruct (GetQualifierCode _); try discriminate Ha; by destruct (enum_of _). }
  destruct hd as [| | | | |record count values|]; cbn [CommandSetOps.ProcessHeader record_of] in *; try by apply respond_skip.
  destruct (enum_of record) eqn:Hgv; try discriminate Hc; rewrite <- Hgv; by apply ProcessAny_step.
Qed.

(** The objects are applied to the set header by header, or not at all. *)
Lemma run_responses set objects (Q : Handling CommandSet * ParseResult -> CommandSet -> Prop) :
  bytes_ok objects -> Z.of_nat (length objects) < 4294967296 ->
  (forall r hs, handled CommandSetOps.IsAllowed ParserSettings.Default objects hs r.2 -> responded hs set (local r.1) -> Q r (local r.1)) ->
  wp (APDUHandler.run ParserSettings.Default (CommandSetOps.handler apply) objects) set Q.
Proof.
  intros Hb Hl HQ.
  eapply (run_numbered_wp (CommandSetOps.ProcessHeader apply) CommandSetOps.IsAllowed
    (fun hs set' => (length hs <= length objects)%nat -> responded hs set set')); [|done|intros _; apply responded_start|].
  - intros hs hd n set' Hinv _ Hnum Hall. unfold step_ok.
    assert (Hgo : (length hs < length objects)%nat -> headerIndex (record_of hd) = Z.of_nat (length hs)).
    { intros Hlt. rewrite Hnum. apply u32_small. unfold is_u32. lia. }
    destruct (decide (length hs < length objects)%nat) as [Hlt|Hge].
    + pose proof (ProcessHeader_step hs hd n set set' (Hinv ltac:(lia)) (Hgo Hlt) Hall) as Hs.
      destruct (CommandSetOps.ProcessHeader apply hd n); [|by intros _].
      eapply wp_mono; [exact Hs|]. cbv beta. by intros _ set'' ? _.
    + destruct (CommandSetOps.ProcessHeader apply hd n) as [m|] eqn:Hp; [|rewrite length_app; cbn; intros; lia].
      assert (Hd : exists iin set'', m set' = Some (set'', iin)).
      { destruct hd as [| | | | |record count values|]; cbn [CommandSetOps.ProcessHeader] in Hp; try discriminate Hp.
        assert (m = CommandSetOps.ProcessAny apply record (enum_of record) values) as -> by (destruct (enum_of record); congruence).
        unfold CommandSetOps.ProcessAny. destruct (set' !! Z.to_nat (headerIndex record)) as [h|]; [|by eexists _, _].
        rewrite (apply_spec record count values). by eexists _, _. }
      destruct Hd as (iin & set'' & Hm). unfold wp. rewrite Hm. rewrite length_app. cbn. intros. lia.
  - intros h hs result Hh Hinv. apply (HQ (h, result) hs); [done|]. apply Hinv. destruct Hh as [H1 H2].
    destruct (decide (result = OK)) as [->|Hne]; [|by rewrite H2; [cbn; lia|]].
    destruct (H1 eq_refl) as (Hd & _). by eapply decoded_count.
Qed.

End Responses.

(** ** Selecting *)

(** A command that was not answered yet. *)
Definition fresh (h : CommandHeader) : Prop := Forall (fun rec => cr_state rec = INIT) (records h).

(** An item of a response repeats a command, with success. *)
Definition echoes (gv : GroupVariation.t) (rec : CommandRecord) (item : Z * Value) : Prop :=
  item.1 = cr_index rec /\ ValuesEqual gv item.2 (command rec) = true /\ status_of item.2 = SUCCESS.

(** The header at a position of a response repeats all commands of a header. *)
Definition echoed (hd : option Header) (h : CommandHeader) : Prop :=
  exists record count values, hd = Some (PrefixOf record count values) /\ enum_of record = serializer h /\
    GetQualifierCode record = TypedCommandHeader.ExpectedQualfier h /\ Forall2 (echoes (serializer h)) (records h) values.

Lemma visit_select_success gv item rec :
  cr_state rec = INIT -> cr_state (TypedCommandHeader.visit_select gv item rec) = SELECT_SUCCESS <-> echoes gv rec item.
Proof.
  intros Hi. unfold TypedCommandHeader.visit_select, echoes. destruct (Z.eqb_spec item.1 (cr_index rec)); cbn [negb].
  2:{ rewrite Hi. split; [done|by intros []]. }
  destruct (ValuesEqual gv item.2 (command rec)); cbn [negb]; [|by split; [|intros (_ & ? & _)]].
  case_bool_decide; cbn [negb]; [|by split; [|intros (_ & _ & ?)]]. by rewrite decide_True.
Qed.

Lemma visited_selected gv items rs :
  (length items <= length rs)%nat -> Forall (fun rec => cr_state rec = INIT) rs ->
  forallb (fun rec => bool_decide (cr_state rec = SELECT_SUCCESS)) (visited TypedCommandHeader.visit_select gv items rs) = true <->
  Forall2 (echoes gv) rs items.
Proof.
  revert items. induction rs as [|rec rs IH]; intros items Hl Hf.
  - destruct items; [|cbn in Hl; lia]. cbn. split; [constructor|done].
  - apply Forall_cons_1 in Hf as [Hi Hf]. destruct items as [|item items].
    + cbn. rewrite Hi. cbn. split; [done|]. intros HF. inversion HF.
    + unfold visited in *. cbn [zip_with app length drop forallb]. rewrite andb_true_iff, bool_decide_eq_true, visit_select_success by done.
      rewrite IH by (cbn in Hl; lia || done). split; [intros []; by constructor|]. intros HF. by inversion HF.
Qed.

(** A header is selected when it was, or when it is repeated. *)
Lemma respond_selected hd h :
  fresh h -> TypedCommandHeader.AreAllSelected (respond TypedCommandHeader.visit_select hd h) = true <-> records h = [] \/ echoed hd h.
Proof.
  intros Hf. assert (Hno : TypedCommandHeader.AreAllSelected h = true <-> records h = []).
  { unfold TypedCommandHeader.AreAllSelected, fresh in *. destruct (records h) as [|rec rs]; [done|]. cbn [forallb].
    apply Forall_cons_1 in Hf as [Hi _]. rewrite Hi. by cbn. }
  destruct hd as [hd|]; cbn [respond]; [|rewrite Hno; split; [by left|]; by intros [?|(?&?&?&?&_)]].
  destruct (matches hd h) eqn:Hm.
  - destruct hd as [| | | | |record count values|]; try discriminate Hm. cbn [matches values_of] in *.
    apply andb_prop in Hm as [Hm Hl]. apply andb_prop in Hm as [Hg Hq]. apply bool_decide_eq_true in Hg, Hq. apply Nat.leb_le in Hl.
    unfold TypedCommandHeader.AreAllSelected. cbn [records TypedCommandHeader.set_records]. rewrite visited_selected by done. split.
    + intros HF. right. by exists record, count, values.
    + intros [Hr|(r & c & vs & [= <- <- <-] & _ & _ & HF)]; [|done]. rewrite Hr in *. by destruct values; [|cbn in Hl; lia].
  - rewrite Hno. split; [by left|]. intros [?|(record & count & values & [= ->] & Hg & Hq & HF)]; [done|]. exfalso.
    cbn [matches] in Hm. rewrite Hg, Hq, !bool_decide_true in Hm by done. apply Forall2_length in HF. rewrite HF, Nat.leb_refl in Hm. done.
Qed.

Lemma ProcessSelectResponse_spec set objects :
  bytes_ok objects -> Z.of_nat (length objects) < 4294967296 -> exists set' result hs r,
    CommandSetOps.ProcessSelectResponse set objects = Some (set', result) /\
    handled CommandSetOps.IsAllowed ParserSettings.Default objects hs r /\ responded TypedCommandHeader.visit_select hs set set' /\
    result = (if negb (bool_decide (r = OK)) then SELECT_FAIL_PARSE else if forallb TypedCommandHeader.AreAllSelected set' then SELECT_OK else SELECT_FAIL_SELECT).
Proof.
  intros Hb Hl. pose proof (run_responses TypedCommandHeader.visit_select set objects (fun r set' => exists hs,
    handled CommandSetOps.IsAllowed ParserSettings.Default objects hs r.2 /\ responded TypedCommandHeader.visit_select hs set set') Hb Hl) as HW.
  destruct (wp_run _ _ _ (HW ltac:(intros r hs H1 H2; by exists hs))) as (set' & [h r] & Hr & hs & Hh & Hs).
  unfold CommandSetOps.ProcessSelectResponse, TypedCommandHeader.ApplySelectResponse. rewrite Hr. cbn [mbind option_bind]. by eexists _, _, hs, r.
Qed.

(** C12: The response to a SELECT is taken for a success exactly when it repeats every
    command.  Whatever its objects are, processing them is defined; the result is
    [SELECT_OK] if and only if they decode without an error, all headers are commands
    with an index prefix, and for every header of the set with commands the header of
    the response at the same position has its object class and qualifier and repeats
    all its commands in order: the same index, equal values and the status [SUCCESS]. *)
Theorem select_succeeds_when_repeated set objects :
  bytes_ok objects -> Z.of_nat (length objects) < 4294967296 -> Forall fresh set ->
  exists set' result, CommandSetOps.ProcessSelectResponse set objects = Some (set', result) /\
    (result = SELECT_OK <-> exists hs, decoded ParserSettings.Default objects = Some (hs, OK) /\
       forallb (allowed (CommandSetOps.handler TypedCommandHeader.ApplySelectResponse)) hs = true /\
       forall i h, set !! i = Some h -> records h = [] \/ echoed (hs !! i) h).
Proof.
  intros Hb Hl Hf. destruct (ProcessSelectResponse_spec set objects Hb Hl) as (set' & result & hs & r & Hp & [H1 H2] & [Hlen Hr] & ->).
  exists set', (if negb (bool_decide (r = OK)) then SELECT_FAIL_PARSE else if forallb TypedCommandHeader.AreAllSelected set' then SELECT_OK else SELECT_FAIL_SELECT).
  split; [done|]. rewrite Forall_lookup in Hf.
  assert (Hiff : forallb TypedCommandHeader.AreAllSelected set' = true <-> forall i h, set !! i = Some h -> records h = [] \/ echoed (hs !! i) h).
  { rewrite forallb_forall. split.
    - intros Hall i h Hi. apply respond_selected; [by eapply Hf|]. apply Hall, list_elem_of_In. eapply list_elem_of_lookup_2, Hr, Hi.
    - intros Hall h' Hin. apply list_elem_of_In, list_elem_of_lookup in Hin as [i Hi].
      destruct (lookup_lt_is_Some_2 set i) as [h Hh]; [rewrite <- Hlen; by eapply lookup_lt_Some|]. rewrite (Hr i h Hh) in Hi. injection Hi as <-.
      apply respond_selected; [by eapply Hf|]. by apply Hall. }
  case_bool_decide as Hok; cbn [negb].
  - subst r. destruct (H1 eq_refl) as (Hd & _ & Ha). split.
    + intros HR. exists hs. split; [done|]. split; [exact Ha|]. apply Hiff. by destruct (forallb _ _).
    + intros (hs' & Hd' & _ & Hall). rewrite Hd in Hd'. injection Hd' as <-. apply Hiff in Hall. by rewrite Hall.
  - split; [done|]. intros (hs' & Hd' & Ha & _). exfalso.
    (* the run says why it failed *)
    destruct (Parse_spec ParserSettings.Default (CommandSetOps.handler TypedCommandHeader.ApplySelectResponse) objects (APDUHandler.init set) Hb)
      as (hs2 & r2 & Hd2 & _ & _ & Hgood & _).
    rewrite Hd2 in Hd'. injection Hd' as -> ->. specialize (Hgood (conj eq_refl Ha)).
    unfold CommandSetOps.ProcessSelectResponse, APDUHandler.run in Hp. rewrite Hgood in Hp.
    destruct (deliver _ hs' _) as [h'|]; cbn [mbind option_bind] in Hp; [|done]. injection Hp as _ Hp.
    by destruct (forallb _ _).
Qed.

(** LATCH_ON of the point 3, and the answer of an outstation that accepts it. *)
Definition demo_command : Value := Fields [3; 1; 100; 100; 0].

Definition demo_set : CommandSet := CommandSet.Add GroupVariation.Group12Var1 [(demo_command, 3)] [].

Definition demo_echo : bytes := [12; 1; 0x17; 1; 3; 3; 1; 100; 0; 0; 0; 100; 0; 0; 0; 0].

Example demo_echo_selected :
  option_map snd (CommandSetOps.ProcessSelectResponse demo_set demo_echo) = Some SELECT_OK /\
  option_map snd (CommandSetOps.ProcessSelectResponse demo_set (take 15 demo_echo ++ [4])) = Some SELECT_FAIL_SELECT /\
  option_map snd (CommandSetOps.ProcessSelectResponse demo_set (take 15 demo_echo)) = Some SELECT_FAIL_PARSE.
Proof. vm_compute. done. Qed.

Lemma select_succeeds_when_repeated_witness :
  exists set' result, CommandSetOps.ProcessSelectResponse demo_set demo_echo = Some (set', result) /\
    (result = SELECT_OK <-> exists hs, decoded ParserSettings.Default demo_echo = Some (hs, OK) /\
       forallb (allowed (CommandSetOps.handler TypedCommandHeader.ApplySelectResponse)) hs = true /\
       forall i h, demo_set !! i = Some h -> records h = [] \/ echoed (hs !! i) h).
Proof.
  apply (select_succeeds_when_repeated demo_set demo_echo).
  - repeat constructor; unfold is_u8; lia.
  - cbn. lia.
  - repeat constructor.
Defined.
