(* ===== verification/MeasurementHandler.v ===== *)
(** * MeasurementHandler: the measurements of a response (opendnp3/master: MeasurementHandler, HeaderInfo; opendnp3/gen: Attributes)

    The objects of a response are reported to the application's handler of sequences of
    events, between a start and an end.  A measurement is the list of the fields of its
    object. *)

From S2P Require Import Prelude Slices Serialization AppHeader Objects ObjectParser RequestHandlers RequestSpecs.

Open Scope Z_scope.

(** ** Attributes of the object classes *)

Module Attributes.

Definition HasAbsoluteTime (gv : GroupVariation.t) : bool :=
  match gv with
  | GroupVariation.Group2Var2 | GroupVariation.Group4Var2 | GroupVariation.Group11Var2 | GroupVariation.Group13Var2
  | GroupVariation.Group21Var5 | GroupVariation.Group21Var6 | GroupVariation.Group22Var5 | GroupVariation.Group22Var6
  | GroupVariation.Group23Var5 | GroupVariation.Group23Var6 | GroupVariation.Group32Var3 | GroupVariation.Group32Var4
  | GroupVariation.Group32Var7 | GroupVariation.Group32Var8 | GroupVariation.Group42Var3 | GroupVariation.Group42Var4
  | GroupVariation.Group42Var7 | GroupVariation.Group42Var8 | GroupVariation.Group43Var3 | GroupVariation.Group43Var4
  | GroupVariation.Group43Var7 | GroupVariation.Group43Var8 | GroupVariation.Group50Var1 | GroupVariation.Group50Var3
  | GroupVariation.Group50Var4 | GroupVariation.Group51Var1 | GroupVariation.Group51Var2 | GroupVariation.Group122Var2 => true
  | _ => false
  end.

Definition HasRelativeTime (gv : GroupVariation.t) : bool :=
  match gv with
  | GroupVariation.Group2Var3 | GroupVariation.Group4Var3 | GroupVariation.Group52Var1 | GroupVariation.Group52Var2 => true
  | _ => false
  end.

Definition HasFlags (gv : GroupVariation.t) : bool :=
  match gv with
  | GroupVariation.Group1Var2 | GroupVariation.Group2Var1 | GroupVariation.Group2Var2 | GroupVariation.Group2Var3
  | GroupVariation.Group3Var2 | GroupVariation.Group4Var1 | GroupVariation.Group4Var2 | GroupVariation.Group4Var3
  | GroupVariation.Group10Var2 | GroupVariation.Group11Var1 | GroupVariation.Group11Var2 | GroupVariation.Group13Var1
  | GroupVariation.Group13Var2 | GroupVariation.Group20Var1 | GroupVariation.Group20Var2 | GroupVariation.Group21Var1
  | GroupVariation.Group21Var2 | GroupVariation.Group21Var5 | GroupVariation.Group21Var6 | GroupVariation.Group22Var1
  | GroupVariation.Group22Var2 | GroupVariation.Group22Var5 | GroupVariation.Group22Var6 | GroupVariation.Group23Var1
  | GroupVariation.Group23Var2 | GroupVariation.Group23Var5 | GroupVariation.Group23Var6 | GroupVariation.Group30Var1
  | GroupVariation.Group30Var2 | GroupVariation.Group30Var5 | GroupVariation.Group30Var6 | GroupVariation.Group32Var1
  | GroupVariation.Group32Var2 | GroupVariation.Group32Var3 | GroupVariation.Group32Var4 | GroupVariation.Group32Var5
  | GroupVariation.Group32Var6 | GroupVariation.Group32Var7 | GroupVariation.Group32Var8 | GroupVariation.Group40Var1
  | GroupVariation.Group40Var2 | GroupVariation.Group40Var3 | GroupVariation.Group40Var4 | GroupVariation.Group42Var1
  | GroupVariation.Group42Var2 | GroupVariation.Group42Var3 | GroupVariation.Group42Var4 | GroupVariation.Group42Var5
  | GroupVariation.Group42Var6 | GroupVariation.Group42Var7 | GroupVariation.Group42Var8 | GroupVariation.Group121Var1
  | GroupVariation.Group122Var1 | GroupVariation.Group122Var2 => true
  | _ => false
  end.

Definition IsEvent (gv : GroupVariation.t) : bool :=
  match gv with
  | GroupVariation.Group2Var1 | GroupVariation.Group2Var2 | GroupVariation.Group2Var3 | GroupVariation.Group4Var1
  | GroupVariation.Group4Var2 | GroupVariation.Group4Var3 | GroupVariation.Group11Var1 | GroupVariation.Group11Var2
  | GroupVariation.Group13Var1 | GroupVariation.Group13Var2 | GroupVariation.Group22Var1 | GroupVariation.Group22Var2
  | GroupVariation.Group22Var5 | GroupVariation.Group22Var6 | GroupVariation.Group23Var1 | GroupVariation.Group23Var2
  | GroupVariation.Group23Var5 | GroupVariation.Group23Var6 | GroupVariation.Group32Var1 | GroupVariation.Group32Var2
  | GroupVariation.Group32Var3 | GroupVariation.Group32Var4 | GroupVariation.Group32Var5 | GroupVariation.Group32Var6
  | GroupVariation.Group32Var7 | GroupVariation.Group32Var8 | GroupVariation.Group42Var1 | GroupVariation.Group42Var2
  | GroupVariation.Group42Var3 | GroupVariation.Group42Var4 | GroupVariation.Group42Var5 | GroupVariation.Group42Var6
  | GroupVariation.Group42Var7 | GroupVariation.Group42Var8 | GroupVariation.Group43Var1 | GroupVariation.Group43Var2
  | GroupVariation.Group43Var3 | GroupVariation.Group43Var4 | GroupVariation.Group43Var5 | GroupVariation.Group43Var6
  | GroupVariation.Group43Var7 | GroupVariation.Group43Var8 | GroupVariation.Group122Var1 | GroupVariation.Group122Var2 => true
  | _ => false
  end.

End Attributes.

(** ** The application's handler *)

Inductive TimestampMode := TS_INVALID | TS_UNSYNCHRONIZED | TS_SYNCHRONIZED.

#[export] Instance TimestampMode_eq_dec : EqDecision TimestampMode.
Proof. solve_decision. Defined.

Record HeaderInfo := mkHeaderInfo {
  hi_gv : GroupVariation.t;
  hi_qualifier : QualifierCode;
  tsmode : TimestampMode;
  isEventVariation : bool;
  flagsValid : bool;
  hi_headerIndex : Z
}.

Module HeaderInfo.

Definition make (gv : GroupVariation.t) (qualifier : QualifierCode) (tsmode : TimestampMode) (headerIndex : Z) : HeaderInfo :=
  mkHeaderInfo gv qualifier tsmode (Attributes.IsEvent gv) (Attributes.HasFlags gv) headerIndex.

End HeaderInfo.

(** Calls of [ISOEHandler]: a transaction, indexed measurements and times. *)
Inductive SOECall :=
  | SOE_Start
  | SOE_Process (info : HeaderInfo) (values : list (Z * Value))
  | SOE_ProcessTimes (info : HeaderInfo) (values : list Value)
  | SOE_End.

(** ** MeasurementHandler *)

Record MeasurementHandler := mkMeasurementHandler {
  txInitiated : bool;
  ctoMode : TimestampMode;
  commonTimeOccurence : Z;
  soe : list SOECall
}.

(** [copy.value.time = DNPTime(input.value.time + cto)]: the time is the last field of
    the classes that this is done for. *)
Definition add_time (cto : Z) (v : Value) : Value :=
  match v with
  | Fields vs => Fields (removelast vs ++ [List.last vs 0 + cto])
  | _ => v
  end.

Module MeasurementHandler.

Definition init : MeasurementHandler := mkMeasurementHandler false TS_INVALID 0 [].

Definition ModeFromType (gv : GroupVariation.t) : TimestampMode :=
  if Attributes.HasAbsoluteTime gv then TS_SYNCHRONIZED else TS_INVALID.

Definition tell_soe (c : SOECall) : SM MeasurementHandler unit := fun h =>
  Some (mkMeasurementHandler (txInitiated h) (ctoMode h) (commonTimeOccurence h) (soe h ++ [c]), tt).

Definition CheckForTxStart : SM MeasurementHandler unit := fun h =>
  if txInitiated h then Some (h, tt)
  else tell_soe SOE_Start (mkMeasurementHandler true (ctoMode h) (commonTimeOccurence h) (soe h)).

Definition LoadValues (record : HeaderRecord) (mode : TimestampMode) (values : list (Z * Value)) : SM MeasurementHandler IINField :=
  _ ← CheckForTxStart;
  _ ← tell_soe (SOE_Process (HeaderInfo.make (enum_of record) (GetQualifierCode record) mode (headerIndex record)) values);
  mret IINField.Empty.

Definition ProcessWithCTO (record : HeaderRecord) (values : list (Z * Value)) : SM MeasurementHandler IINField :=
  mode ← get ctoMode;
  if decide (mode = TS_INVALID) then mret (IINField.of_bit PARAM_ERROR)
  else
    cto ← get commonTimeOccurence;
    LoadValues record mode (map (fun input => (input.1, add_time cto input.2)) values).

Definition ProcessTimes (record : HeaderRecord) (values : list Value) : SM MeasurementHandler IINField :=
  _ ← CheckForTxStart;
  _ ← tell_soe (SOE_ProcessTimes (HeaderInfo.make (enum_of record) (GetQualifierCode record) TS_INVALID (headerIndex record)) values);
  mret IINField.Empty.

(** The overloads for Group51Var1 and Group51Var2. *)
Definition ProcessCTO (mode : TimestampMode) (values : list Value) : SM MeasurementHandler IINField := fun h =>
  match ReadOnlyValue values with
  | Some (Fields [time]) => Some (mkMeasurementHandler (txInitiated h) mode time (soe h), IINField.Empty)
  | _ => Some (h, IINField.Empty)
  end.

(** The objects that have a measurement type. *)
Definition static_measurement (gv : GroupVariation.t) : bool :=
  match gv with
  | GroupVariation.Group1Var1 | GroupVariation.Group1Var2 | GroupVariation.Group3Var1 | GroupVariation.Group3Var2
  | GroupVariation.Group10Var1 | GroupVariation.Group10Var2 | GroupVariation.Group20Var1 | GroupVariation.Group20Var2
  | GroupVariation.Group20Var5 | GroupVariation.Group20Var6 | GroupVariation.Group21Var1 | GroupVariation.Group21Var2
  | GroupVariation.Group21Var5 | GroupVariation.Group21Var6 | GroupVariation.Group21Var9 | GroupVariation.Group21Var10
  | GroupVariation.Group30Var1 | GroupVariation.Group30Var2 | GroupVariation.Group30Var3 | GroupVariation.Group30Var4
  | GroupVariation.Group30Var5 | GroupVariation.Group30Var6 | GroupVariation.Group40Var1 | GroupVariation.Group40Var2
  | GroupVariation.Group40Var3 | GroupVariation.Group40Var4 | GroupVariation.Group50Var4 | GroupVariation.Group110Var0
  | GroupVariation.Group121Var1 => true
  | _ => false
  end.

(** Commands have no overload, nor have time and interval objects with an index. *)
Definition event_measurement (gv : GroupVariation.t) : bool :=
  match gv with
  | GroupVariation.Group2Var1 | GroupVariation.Group2Var2 | GroupVariation.Group4Var1 | GroupVariation.Group4Var2
  | GroupVariation.Group11Var1 | GroupVariation.Group11Var2 | GroupVariation.Group13Var1 | GroupVariation.Group13Var2
  | GroupVariation.Group22Var1 | GroupVariation.Group22Var2 | GroupVariation.Group22Var5 | GroupVariation.Group22Var6
  | GroupVariation.Group23Var1 | GroupVariation.Group23Var2 | GroupVariation.Group23Var5 | GroupVariation.Group23Var6
  | GroupVariation.Group32Var1 | GroupVariation.Group32Var2 | GroupVariation.Group32Var3 | GroupVariation.Group32Var4
  | GroupVariation.Group32Var5 | GroupVariation.Group32Var6 | GroupVariation.Group32Var7 | GroupVariation.Group32Var8
  | GroupVariation.Group42Var1 | GroupVariation.Group42Var2 | GroupVariation.Group42Var3 | GroupVariation.Group42Var4
  | GroupVariation.Group42Var5 | GroupVariation.Group42Var6 | GroupVariation.Group42Var7 | GroupVariation.Group42Var8
  | GroupVariation.Group43Var1 | GroupVariation.Group43Var2 | GroupVariation.Group43Var3 | GroupVariation.Group43Var4
  | GroupVariation.Group43Var5 | GroupVariation.Group43Var6 | GroupVariation.Group43Var7 | GroupVariation.Group43Var8
  | GroupVariation.Group111Var0 | GroupVariation.Group122Var1 | GroupVariation.Group122Var2 => true
  | _ => false
  end.

Definition ProcessHeader (header : Header) (current : Z) : option (SM MeasurementHandler IINField) :=
  match header with
  | CountOf record _ values =>
      match enum_of record with
      | GroupVariation.Group50Var1 => Some (ProcessTimes record values)
      | GroupVariation.Group51Var1 => Some (ProcessCTO TS_SYNCHRONIZED values)
      | GroupVariation.Group51Var2 => Some (ProcessCTO TS_UNSYNCHRONIZED values)
      | _ => None
      end
  | RangeOf record _ values =>
      if static_measurement (enum_of record) then Some (LoadValues record (ModeFromType (enum_of record)) values) else None
  | PrefixOf record _ values =>
      match enum_of record with
      | GroupVariation.Group2Var3 | GroupVariation.Group4Var3 => Some (ProcessWithCTO record values)
      | gv => if event_measurement gv then Some (LoadValues record (ModeFromType gv) values) else None
      end
  | _ => None
  end.

Definition handler : IAPDUHandler (Handling MeasurementHandler) := APDUHandler.handler ProcessHeader allow_all.

(** The destructor. *)
Definition destroy (h : MeasurementHandler) : list SOECall := soe h ++ (if txInitiated h then [SOE_End] else []).

(** The calls that are made, and the result. *)
Definition ProcessMeasurements (objects : RSlice) : option (list SOECall * ParseResult) :=
  '(h, (_, result)) ← APDUHandler.run ParserSettings.Default handler objects init;
  Some (destroy h, result).

End MeasurementHandler.
