(* ===== verification/MeasurementProps.v ===== *)
(** * MeasurementProps: what reaches the application of the master

    The calls that [MeasurementHandler] makes are a transcription of the headers of the
    response; with the response of an outstation they report its events. *)

From S2P Require Import Prelude Slices Serialization LinkFrame Transport AppHeader Objects ObjectParser HeaderWriter HeaderRoundtrip EventList EventBuffer EventSpec EventProps RequestHandlers EventWriters EventResponse RequestSpecs MeasurementHandler.

Open Scope Z_scope.

(** ** The transcription of the headers *)

Section Transcript.

#[local] Abbreviation State := ((TimestampMode * Z) * list SOECall)%type.

Definition info_of (record : HeaderRecord) (mode : TimestampMode) : HeaderInfo :=
  HeaderInfo.make (enum_of record) (GetQualifierCode record) mode (headerIndex record).

(** What a header adds, given the last common time of occurrence. *)
Definition report (st : State) (h : Header) : State :=
  match h with
  | CountOf record _ values =>
      match enum_of record with
      | GroupVariation.Group50Var1 => (st.1, st.2 ++ [SOE_ProcessTimes (info_of record TS_INVALID) values])
      | GroupVariation.Group51Var1 => (match values with [Fields [t]] => (TS_SYNCHRONIZED, t) | _ => st.1 end, st.2)
      | GroupVariation.Group51Var2 => (match values with [Fields [t]] => (TS_UNSYNCHRONIZED, t) | _ => st.1 end, st.2)
      | _ => st
      end
  | RangeOf record _ values =>
      if MeasurementHandler.static_measurement (enum_of record)
      then (st.1, st.2 ++ [SOE_Process (info_of record (MeasurementHandler.ModeFromType (enum_of record))) values]) else st
  | PrefixOf record _ values =>
      match enum_of record with
      | GroupVariation.Group2Var3 | GroupVariation.Group4Var3 =>
          if decide (st.1.1 = TS_INVALID) then st
          else (st.1, st.2 ++ [SOE_Process (info_of record st.1.1) (map (fun iv => (iv.1, add_time st.1.2 iv.2)) values)])
      | gv =>
          if MeasurementHandler.event_measurement gv
          then (st.1, st.2 ++ [SOE_Process (info_of record (MeasurementHandler.ModeFromType gv)) values]) else st
      end
  | _ => st
  end.

Definition transcript (hs : list Header) : State := foldl report ((TS_INVALID, 0), []) hs.

(** A transaction around calls, if there are any. *)
Definition bracket (cs : list SOECall) : list SOECall := if decide (cs = []) then [] else SOE_Start :: cs ++ [SOE_End].

Definition transcribed (hs : list Header) (h : MeasurementHandler) : Prop :=
  (ctoMode h, commonTimeOccurence h) = (transcript hs).1 /\ txInitiated h = negb (bool_decide ((transcript hs).2 = [])) /\
  soe h = if decide ((transcript hs).2 = []) then [] else SOE_Start :: (transcript hs).2.

Lemma transcript_snoc hs h : transcript (hs ++ [h]) = report (transcript hs) h.
Proof. unfold transcript. by rewrite foldl_app. Qed.

Lemma transcribed_same hs h l : transcribed hs l -> report (transcript hs) h = transcript hs -> transcribed (hs ++ [h]) l.
Proof. unfold transcribed. rewrite transcript_snoc. by intros Ht ->. Qed.

(** One more call. *)
Lemma tell_wp hs h l c (Q : IINField -> MeasurementHandler -> Prop) :
  transcribed hs l -> report (transcript hs) h = ((transcript hs).1, (transcript hs).2 ++ [c]) ->
  (forall iin l', transcribed (hs ++ [h]) l' -> Q iin l') ->
  wp (_ ← MeasurementHandler.CheckForTxStart; _ ← MeasurementHandler.tell_soe c; mret IINField.Empty) l Q.
Proof.
  intros (H1 & H2 & H3) Hr HQ. unfold wp, mbind, SM_bind, MeasurementHandler.CheckForTxStart, MeasurementHandler.tell_soe.
  destruct l as [tx mode cto calls]. cbn [ctoMode commonTimeOccurence txInitiated soe] in *. subst tx calls.
  assert (Hn : (transcript hs).2 ++ [c] <> []) by (by destruct (transcript hs).2).
  destruct (decide ((transcript hs).2 = [])) as [He|He]; [rewrite bool_decide_true by done|rewrite bool_decide_false by done]; cbn;
    apply HQ; unfold transcribed; rewrite transcript_snoc, Hr; cbn [fst snd ctoMode commonTimeOccurence txInitiated soe];
    rewrite bool_decide_false, decide_False by done; (split_and!; [done|done|]); [by rewrite He|done].
Qed.

Lemma MeasurementHandler_step hs h n l : transcribed hs l -> header_ok h ->
  match MeasurementHandler.ProcessHeader h n with
  | Some m => wp m l (fun _ l' => transcribed (hs ++ [h]) l')
  | None => transcribed (hs ++ [h]) l
  end.
Proof.
  intros Ht Hh. unfold MeasurementHandler.ProcessHeader.
  assert (Hsame : report (transcript hs) h = transcript hs -> transcribed (hs ++ [h]) l) by (by apply transcribed_same).
  destruct h as [record|record count|record range|record count values|record range values|record count values|record count value object];
    try (by apply Hsame).
  - assert (Hcto : forall mode, (forall st, report st (CountOf record count values) =
      (match values with [Fields [t]] => (mode, t) | _ => st.1 end, st.2)) ->
      wp (MeasurementHandler.ProcessCTO mode values) l (fun _ l' => transcribed (hs ++ [CountOf record count values]) l')).
    { intros mode Hr. unfold wp, MeasurementHandler.ProcessCTO, ReadOnlyValue. destruct Ht as (H1 & H2 & H3).
      assert (Hst : transcribed (hs ++ [CountOf record count values]) l \/ exists t, values = [Fields [t]]).
      { destruct values as [|[[|t [|]]| | |] [|]]; try (by right; eexists); left; unfold transcribed; by rewrite transcript_snoc, Hr. }
      destruct Hst as [Hst|[t ->]].
      - destruct values as [|[[|t [|]]| | |] [|]]; try exact Hst. cbn. unfold transcribed. by rewrite transcript_snoc, Hr.
      - cbn. unfold transcribed. by rewrite transcript_snoc, Hr. }
    destruct (enum_of record) eqn:He; try (apply Hsame; cbn [report]; by rewrite He); try (apply Hcto; intros st; cbn [report]; by rewrite He).
    eapply (tell_wp hs (CountOf record count values)); [exact Ht|cbn [report]; unfold info_of; by rewrite He|done].
  - destruct (MeasurementHandler.static_measurement _) eqn:He; [|apply Hsame; cbn [report]; by rewrite He].
    eapply (tell_wp hs (RangeOf record range values)); [exact Ht|cbn [report]; by rewrite He|done].
  - assert (Hplain : forall gv, enum_of record = gv -> gv <> GroupVariation.Group2Var3 -> gv <> GroupVariation.Group4Var3 ->
      match (if MeasurementHandler.event_measurement gv
             then Some (MeasurementHandler.LoadValues record (MeasurementHandler.ModeFromType gv) values) else None) with
      | Some m => wp m l (fun _ l' => transcribed (hs ++ [PrefixOf record count values]) l')
      | None => transcribed (hs ++ [PrefixOf record count values]) l
      end).
    { intros gv He H2 H4. assert (Hr : forall st, report st (PrefixOf record count values) =
        if MeasurementHandler.event_measurement gv
        then (st.1, st.2 ++ [SOE_Process (info_of record (MeasurementHandler.ModeFromType gv)) values]) else st).
      { intros st. cbn [report]. rewrite He. by destruct gv. }
      destruct (MeasurementHandler.event_measurement gv); [|by apply Hsame]. eapply (tell_wp hs (PrefixOf record count values)); [exact Ht|apply Hr|done]. }
    assert (Hcto : (forall st, report st (PrefixOf record count values) = if decide (st.1.1 = TS_INVALID) then st
          else (st.1, st.2 ++ [SOE_Process (info_of record st.1.1) (map (fun iv => (iv.1, add_time st.1.2 iv.2)) values)])) ->
      wp (MeasurementHandler.ProcessWithCTO record values) l (fun _ l' => transcribed (hs ++ [PrefixOf record count values]) l')).
    { intros Hr. pose proof Ht as (H1 & _). unfold MeasurementHandler.ProcessWithCTO. rewrite wp_bind, wp_get. specialize (Hr (transcript hs)).
      rewrite <- H1 in Hr. cbn [fst snd] in Hr. destruct (decide (ctoMode l = TS_INVALID)); [rewrite wp_ret; by apply Hsame|].
      rewrite wp_bind, wp_get. eapply (tell_wp hs (PrefixOf record count values)); [exact Ht|by rewrite <- H1|done]. }
    destruct (enum_of record) eqn:He; try (by apply Hplain); apply Hcto; intros st; cbn [report]; by rewrite He.
Qed.

(** All the measurements of a response, or none. *)
Lemma ProcessMeasurements_spec objects :
  bytes_ok objects -> exists hs result, handled allow_all ParserSettings.Default objects hs result /\
    MeasurementHandler.ProcessMeasurements objects = Some (bracket (transcript hs).2, result).
Proof.
  intros Hb. unfold MeasurementHandler.ProcessMeasurements.
  pose proof (run_wp MeasurementHandler.ProcessHeader allow_all transcribed (fun hs h n l Hi Hh _ => MeasurementHandler_step hs h n l Hi Hh)
    ParserSettings.Default objects MeasurementHandler.init
    (fun r l => exists hs, handled allow_all ParserSettings.Default objects hs r.2 /\ transcribed hs l) Hb) as Hw.
  destruct (wp_run _ _ _ (Hw ltac:(done) ltac:(naive_solver))) as (l & [h r] & Hrun & hs & Hh & H1 & H2 & H3).
  fold MeasurementHandler.handler in Hrun. rewrite Hrun. cbn [mbind option_bind]. exists hs, r. split; [done|]. f_equal. f_equal.
  unfold MeasurementHandler.destroy, bracket. rewrite H2, H3. by destruct (decide _); [rewrite bool_decide_true by done|rewrite bool_decide_false by done].
Qed.

(** Calls without a start and an end. *)
Definition plain (cs : list SOECall) : Prop := ~ In SOE_Start cs /\ ~ In SOE_End cs.

Lemma plain_snoc cs c : plain cs -> c <> SOE_Start -> c <> SOE_End -> plain (cs ++ [c]).
Proof. intros [Hs He] H1 H2. split; rewrite in_app_iff; intros [|[|[]]]; congruence. Qed.

Lemma report_plain st h : plain st.2 -> plain (report st h).2.
Proof.
  intros Hp. destruct h as [record|record count|record range|record count values|record range values|record count values|record count value object]; try done.
  all: cbn [report]; try (destruct (enum_of record)); try done; try (destruct (decide _)); try done; try (destruct (MeasurementHandler.static_measurement _));
    try done; cbn [MeasurementHandler.event_measurement]; try done; by apply plain_snoc.
Qed.

Lemma transcript_plain hs : plain (transcript hs).2.
Proof.
  induction hs as [|h hs IH] using rev_ind; [by split; intros []|]. rewrite transcript_snoc. by apply report_plain.
Qed.

Lemma Parse_accepts {S} settings (handler : IAPDUHandler S) buffer (s s' : S) hs e :
  bytes_ok buffer -> decoded settings buffer = Some (hs, OK) -> forallb (allowed handler) hs = true ->
  APDUParser.Parse settings handler buffer s = Some (s', e) -> e = OK.
Proof.
  intros Hb Hd Ha. destruct (Parse_spec settings handler buffer s Hb) as (hs' & r & Hd' & _ & _ & H1 & _). rewrite Hd in Hd'. injection Hd' as <- <-.
  rewrite H1 by done. destruct (deliver handler hs s); cbn [mbind option_bind]; [|done]. by intros [= _ <-].
Qed.

(** Objects that decode are accepted. *)
Lemma ProcessMeasurements_decoded objects hs :
  bytes_ok objects -> decoded ParserSettings.Default objects = Some (hs, OK) ->
  MeasurementHandler.ProcessMeasurements objects = Some (bracket (transcript hs).2, OK).
Proof.
  intros Hb Hd. destruct (ProcessMeasurements_spec objects Hb) as (hs' & result & [Hok _] & HM). rewrite HM.
  assert (result = OK) as ->.
  { unfold MeasurementHandler.ProcessMeasurements, APDUHandler.run in HM.
    destruct (APDUParser.Parse _ _ _ _) as [[h1 r1]|] eqn:Hp; [|done]. cbn in HM. injection HM as _ <-.
    apply (Parse_accepts _ _ _ _ _ _ _ Hb Hd) in Hp; [done|]. clear. by induction hs. }
  destruct (Hok eq_refl) as [Hd' _]. rewrite Hd in Hd'. by injection Hd' as <-.
Qed.

End Transcript.

(** ** The events of an outstation *)

(** What the application is told of each measurement: the object class, how its time
    is known, the index and the value. *)
Definition soe_entries (cs : list SOECall) : list (GroupVariation.t * TimestampMode * Z * Value) :=
  flat_map (fun c => match c with SOE_Process info values => map (fun iv => (hi_gv info, tsmode info, iv.1, iv.2)) values | _ => [] end) cs.

Lemma soe_entries_app cs cs' : soe_entries (cs ++ cs') = soe_entries cs ++ soe_entries cs'.
Proof. apply flat_map_app. Qed.

Lemma soe_entries_bracket cs : soe_entries (bracket cs) = soe_entries cs.
Proof. unfold bracket. destruct (decide (cs = [])) as [->|]; [done|]. cbn. rewrite soe_entries_app. by rewrite app_nil_r. Qed.

(** What measurements promise besides: the time is the last field of a relative object. *)
Class RelativeTimes (M : Type) `{MeasurementOk M} :=
  relative_last t m v d : measurement_ok t m -> EventVariation.type_of v = t -> is_relative v = true -> 0 <= d <= 65535 ->
    exists pre, WriteTarget (object_of v) (set_time d m) = Fields (pre ++ [d]).

Section Delivery.
Context {M : Type} `{RelativeTimes M}.
Import Queue.
Implicit Types (q : Queued M) (r : Run M) (rs : list (Run M)).

(** An entry is the event: of its variation, with its index, its value and its time. *)
Definition received q (e : GroupVariation.t * TimestampMode * Z * Value) : Prop :=
  let '(gv, mode, i, value) := e in
  gv = object_of (q_selected q) /\ i = q_index q /\
  if is_relative (q_selected q) then mode = TS_SYNCHRONIZED /\ exists d pre, 0 <= d <= 65535 /\
    WriteTarget gv (set_time d (q_value q)) = Fields (pre ++ [d]) /\ value = Fields (pre ++ [time (q_value q)])
  else mode = MeasurementHandler.ModeFromType gv /\ value = WriteTarget gv (q_value q).

Lemma add_time_last base pre d : add_time base (Fields (pre ++ [d])) = Fields (pre ++ [d + base]).
Proof. cbn [add_time]. rewrite removelast_last. do 3 f_equal. rewrite List.last_last. done. Qed.

Lemma event_object v : is_relative v = false -> MeasurementHandler.event_measurement (object_of v) = true.
Proof. by destruct v. Qed.

Lemma relative_object v : is_relative v = true -> object_of v = GroupVariation.Group2Var3 \/ object_of v = GroupVariation.Group4Var3.
Proof. by destruct v; intros; auto. Qed.

(** The header of a run. *)
Lemma report_prefix st record count ivs v :
  enum_of record = object_of v -> (is_relative v = true -> st.1.1 = TS_SYNCHRONIZED) ->
  report st (PrefixOf record count ivs) = (st.1, st.2 ++ [if is_relative v
    then SOE_Process (info_of record TS_SYNCHRONIZED) (map (fun iv => (iv.1, add_time st.1.2 iv.2)) ivs)
    else SOE_Process (info_of record (MeasurementHandler.ModeFromType (object_of v))) ivs]).
Proof.
  intros He Hc. cbn [report]. rewrite He. destruct (is_relative v) eqn:Hr.
  - rewrite (Hc eq_refl). destruct (relative_object v Hr) as [-> | ->]; done.
  - pose proof (event_object v Hr) as Hev. destruct v; try discriminate Hr; cbn [object_of] in *; by rewrite ?Hev.
Qed.

Lemma run_report r index reqs st :
  run_ok r -> Forall event_readable (run_events r) -> exists index' st' es,
    foldl report st (headers_of index (run_requests r ++ reqs) (map objects (run_requests r ++ reqs))) =
      foldl report st' (headers_of index' reqs (map objects reqs)) /\
    soe_entries st'.2 = soe_entries st.2 ++ es /\ Forall2 received (run_events r) es.
Proof.
  intros [Hm Hl] Hr. set (v := run_variation r) in *. set (first := q_value (run_first r)) in *.
  pose proof (Forall_inv Hm) as (Hq & Ht & _ & _ & Hj).
  assert (Hk : kind_ok (kind_of v first)).
  { apply (kind_of_ok v (q_type (run_first r)) first); [by apply eo_value|by symmetry|]. intros Hv. apply (Forall_inv Hr). by rewrite Ht, Hv. }
  assert (Hw : forall st index, (is_relative v = true -> st.1 = (TS_SYNCHRONIZED, time first)) ->
    exists st' es, foldl report st (headers_of index (WPrefixed W16 (kind_of v first) (map (obj v first) (run_events r)) :: reqs)
      (map objects (WPrefixed W16 (kind_of v first) (map (obj v first) (run_events r)) :: reqs))) =
      foldl report st' (headers_of (u32 (index + 1)) reqs (map objects reqs)) /\
      soe_entries st'.2 = soe_entries st.2 ++ es /\ Forall2 received (run_events r) es).
  { intros st0 index0 Hc. eexists _, _. cbn [map objects headers_of]. rewrite decide_False by done. cbn [header_of foldl].
    rewrite take_ge by done. rewrite (report_prefix st0 _ _ _ v); [|unfold enum_of; cbn [gv_record]; by rewrite (kind_record _ Hk), kind_of_enum|by intros Hv; rewrite (Hc Hv)].
    split; [reflexivity|]. cbn [snd]. rewrite soe_entries_app. split; [reflexivity|].
    assert (Hgv : forall mode i, hi_gv (info_of (mkHeaderRecord (GetRecord (id_group (id (serializer_of (kind_of v first))))
      (id_variation (id (serializer_of (kind_of v first))))) (QualifierCodeToType (prefix_qualifier W16)) i) mode) = object_of v).
    { intros mode i. unfold info_of, HeaderInfo.make, enum_of. cbn [hi_gv gv_record]. by rewrite (kind_record _ Hk), kind_of_enum. }
    destruct (is_relative v) eqn:Hrel; cbn [soe_entries flat_map]; rewrite app_nil_r, Hgv, ?map_map; cbn [tsmode info_of HeaderInfo.make].
    - rewrite (Hc eq_refl). cbn [snd].
      clear Hl Hr Hq Ht Hj Hc. clearbody first. induction Hm as [|q qs (Hok & Hty & Hsel & _ & Hjn) _ IH]; cbn [map]; constructor; [|exact IH].
      unfold received. cbn [obj fst snd]. rewrite Hsel, Hrel. split_and!; [done|done|done|]. exists (time (q_value q) - time first).
      assert (Hd : 0 <= time (q_value q) - time first <= 65535)
        by (destruct v; try discriminate Hrel; cbn [joins] in Hjn; apply andb_prop in Hjn as [H3 H4]; lia).
      destruct (relative_last (q_type q) (q_value q) v _ (eo_value _ Hok) (eq_sym Hty) Hrel Hd) as [pre Hpre].
      exists pre. split; [exact Hd|]. split; [exact Hpre|]. unfold value_of. rewrite Hrel, Hpre, add_time_last. do 3 f_equal. lia.
    - clear Hl Hr Hq Ht Hj Hc. clearbody first. induction Hm as [|q qs (Hok & Hty & Hsel & _ & Hjn) _ IH]; cbn [map]; constructor; [|exact IH].
      unfold received. cbn [obj fst snd]. rewrite Hsel, Hrel. split_and!; [done|done|done|]. unfold value_of. by rewrite Hrel. }
  unfold run_requests. fold v. fold first. unfold cto_requests. destruct (is_relative v) eqn:Hrel.
  - cbn [app map headers_of objects]. rewrite decide_False by done. cbn [header_of foldl].
    destruct (Hw ((TS_SYNCHRONIZED, time first), st.2) (u32 (index + 1)) ltac:(done)) as (st' & es & He & Hes).
    exists (u32 (u32 (index + 1) + 1)), st', es. split; [exact He|done].
  - cbn [app]. destruct (Hw st index ltac:(done)) as (st' & es & He & Hes). exists (u32 (index + 1)), st', es. split; [exact He|done].
Qed.

Lemma runs_report rs : forall index st,
  Forall run_ok rs -> Forall event_readable (flat_map run_events rs) -> exists es,
  soe_entries (foldl report st (headers_of index (flat_map run_requests rs) (map objects (flat_map run_requests rs)))).2 =
    soe_entries st.2 ++ es /\ Forall2 received (flat_map run_events rs) es.
Proof.
  induction rs as [|r rs IH]; intros index st Hok Hr; [exists []; by rewrite app_nil_r|]. cbn [flat_map] in *.
  apply Forall_cons_1 in Hok as [Hr1 Hok]. apply Forall_app in Hr as [Hrd Hr].
  destruct (run_report r index (flat_map run_requests rs) st Hr1 Hrd) as (index' & st' & es & -> & He & Hes).
  destruct (IH index' st' Hok Hr) as (es' & -> & Hes'). exists (es ++ es'). rewrite He, app_assoc. split; [done|]. by apply Forall2_app.
Qed.

End Delivery.

Section Octets.
Context {M : Type} `{RelativeTimes M}.

Lemma encode_header_bytes id qc : bytes_ok (encode_header id qc).
Proof. unfold encode_header. repeat constructor; apply u8_range. Qed.

Lemma encode_run_bytes (r : Run M) : run_ok r -> bytes_ok (encode_all (run_requests r)).
Proof.
  intros Hr. pose proof (run_requests_ok r Hr) as Hok. unfold run_requests in *. rewrite encode_all_app.
  apply Forall_app in Hok as [Hc Hp]. apply Forall_app_2; unfold encode_all.
  - unfold cto_requests in *. destruct (is_relative _); [|constructor]. apply Forall_cons_1 in Hc as [Hc _].
    cbn [map encode_requests objects]. rewrite decide_False by done. rewrite app_nil_r. cbn [encode_request].
    apply Forall_app_2; [apply encode_header_bytes|]. apply Forall_app_2; [apply (encode_bytes (s := UInt8))|by apply encode_value_bytes].
  - apply Forall_cons_1 in Hp as [(_ & _ & Hp) _]. cbn [map encode_requests objects]. rewrite decide_False by (by rewrite length_map).
    rewrite app_nil_r. cbn [encode_request]. rewrite take_ge by done. apply Forall_app_2; [apply encode_header_bytes|].
    apply Forall_app_2; [apply (encode_bytes (s := UInt16))|]. apply Forall_concat, Forall_map. eapply Forall_impl; [|exact Hp]. intros iv [_ Hv]. unfold encode_prefixed.
    apply Forall_app_2; [apply (encode_bytes (s := UInt16))|by apply encode_value_bytes].
Qed.

Lemma encode_runs_bytes (rs : list (Run M)) : Forall run_ok rs -> bytes_ok (encode_all (flat_map run_requests rs)).
Proof.
  induction 1 as [|r rs Hr _ IH]; [constructor|]. cbn [flat_map]. rewrite encode_all_app. apply Forall_app_2; [by apply encode_run_bytes|done].
Qed.

End Octets.

Section Theorems.
Context {M : Type} `{RelativeTimes M}.
Import Queue.

(** C6: The events of an outstation reach the application of the master.  [Load] puts
    the oldest selected events of a reachable event buffer into the window of a
    response; given the bytes it wrote, [ProcessMeasurements] of the master accepts
    them and calls the application's handler, in one transaction, with exactly the
    events that are now marked as written: in the order of the queue, each with its
    object class, its index, its value and its time, the times relative to a common
    time of occurrence completed to absolute ones. *)
Theorem events_reach_the_master config (b : EventBuffer M) (h : option Writer) (w : Writer) (qs : list (Queued M)) :
  config_ok config -> reachable config b h -> contents b = Some qs -> Forall event_ok qs -> Forall event_readable qs ->
  wwf w -> Z.of_nat (v_size (position w)) <= 65535 ->
  exists w' b' fin data calls ws qs', EventBuffer_Load b w = Some (w', (b', fin)) /\ put w w' data /\
    MeasurementHandler.ProcessMeasurements data = Some (calls, OK) /\ contents b' = Some qs' /\ written_from qs ws qs' /\
    Forall2 received ws (soe_entries calls) /\ (exists cs, calls = bracket cs /\ plain cs).
Proof.
  intros Hc Hr Hqs Hok Hrd Hw Hsz.
  destruct (Load_decoded config b h w qs ParserSettings.Default Hc Hr Hqs Hok Hrd Hw Hsz eq_refl)
    as (w' & b' & fin & rs & qs' & HL & HP & HD & HC & HW & HR & Hrr & _).
  pose proof (ProcessMeasurements_decoded _ _ (encode_runs_bytes rs HR) HD) as HM. unfold transcript in HM.
  destruct (runs_report rs 0 ((TS_INVALID, 0), []) HR Hrr) as (es & He & Hes).
  do 3 eexists. exists (encode_all (flat_map run_requests rs)). eexists _, (flat_map run_events rs), qs'.
  split_and!; [exact HL|exact HP|exact HM|exact HC|exact HW|by rewrite soe_entries_bracket, He|].
  eexists. split; [reflexivity|]. apply transcript_plain.
Qed.


End Theorems.

#[export] Instance Sample_times : RelativeTimes Sample.
Proof. intros t m v d Hm Ht Hr Hd. destruct v; try discriminate Hr; exists [clip UInt8 d]; cbn; do 3 f_equal; unfold clip; cbn [Min Max UInt16]; lia. Qed.

(** What the application is told of the response with 65 bytes. *)
Definition sample_delivery : option (list SOECall * ParseResult) :=
  '(b, _, _) ← buffer_after (mkSample 0 0 0) (AllTypes 5) sample_ops;
  '(w, _) ← EventBuffer_Load b (empty_writer 65);
  MeasurementHandler.ProcessMeasurements (drop 4 (take (v_pos (position w)) (wr_array w))).

Example sample_delivered :
  option_map (fun r => (soe_entries r.1, r.2)) sample_delivery =
    Some ([(GroupVariation.Group2Var3, TS_SYNCHRONIZED, 3, Fields [0; 1000]); (GroupVariation.Group2Var3, TS_SYNCHRONIZED, 9, Fields [255; 1500]);
           (GroupVariation.Group2Var3, TS_SYNCHRONIZED, 4, Fields [0; 70000]); (GroupVariation.Group111Var0, TS_INVALID, 5, Octets [0; 0])], OK).
Proof. vm_compute. reflexivity. Qed.

Lemma events_reach_the_master_witness :
  match buffer_after (mkSample 0 0 0) (AllTypes 5) sample_ops with
  | Some (b, _, _) => exists qs w' b' fin data calls ws qs', EventBuffer_Load b (empty_writer 65) = Some (w', (b', fin)) /\
      put (empty_writer 65) w' data /\ MeasurementHandler.ProcessMeasurements data = Some (calls, OK) /\ contents b' = Some qs' /\
      written_from qs ws qs' /\ Forall2 received ws (soe_entries calls) /\ (exists cs, calls = bracket cs /\ plain cs)
  | None => False
  end.
Proof.
  destruct (buffer_after (mkSample 0 0 0) (AllTypes 5) sample_ops) as [[[b h] os]|] eqn:Hb; [|vm_compute in Hb; discriminate Hb].
  destruct (contents b) as [qs|] eqn:Hqs.
  - exists qs. destruct (sample_events_ok b h os qs Hb Hqs) as [Hok Hrd].
    apply (events_reach_the_master (AllTypes 5) b h (empty_writer 65) qs sample_config_ok).
    + exact (buffer_after_reachable _ _ _ b h os sample_ops_ok Hb).
    + exact Hqs.
    + exact Hok.
    + exact Hrd.
    + unfold wwf. cbn. lia.
    + cbn. lia.
  - vm_compute in Hb. injection Hb as <- _ _. vm_compute in Hqs. discriminate Hqs.
Defined.
