(* ===== verification/MasterState.v ===== *)
(** * MasterState: the state of the masters of a channel (opendnp3/master: TaskConfig, MasterParams, MasterContext, MasterTasks, MasterSchedulerBackend)

    A channel has several sessions of masters and one scheduler for them.  The tasks
    are shared objects: they live in a store, and a pointer to a task is its position
    there.  A pointer to a session, as the runner of its tasks, is its position in the
    list of sessions. *)

From S2P Require Import Prelude Slices Serialization LinkFrame Transport AppHeader Objects ObjectParser HeaderWriter OutstationState RequestHandlers TaskBehavior CommandSet MeasurementHandler.

From stdpp Require Import gmap.

Open Scope Z_scope.

(** ** Results and configurations of tasks *)

Module TaskCompletion.

Inductive t :=
  | SUCCESS
  | FAILURE_BAD_RESPONSE
  | FAILURE_RESPONSE_TIMEOUT
  | FAILURE_START_TIMEOUT
  | FAILURE_MESSAGE_FORMAT_ERROR
  | FAILURE_NO_COMMS.

#[export] Instance eq_dec : EqDecision t.
Proof. solve_decision. Defined.

End TaskCompletion.

Module MasterTaskType.

Inductive t :=
  | CLEAR_RESTART
  | DISABLE_UNSOLICITED
  | ASSIGN_CLASS
  | STARTUP_INTEGRITY_POLL
  | NON_LAN_TIME_SYNC
  | LAN_TIME_SYNC
  | ENABLE_UNSOLICITED
  | AUTO_EVENT_SCAN
  | USER_TASK.

#[export] Instance eq_dec : EqDecision t.
Proof. solve_decision. Defined.

End MasterTaskType.

(** A task may have an identifier and a callback. *)
Record TaskConfig := mkTaskConfig { taskId : option Z; pCallback : option Z }.

Module TaskConfig.

Definition Default : TaskConfig := mkTaskConfig None None.

End TaskConfig.

Inductive TimeSyncMode := TimeSyncMode_NonLAN | TimeSyncMode_LAN | TimeSyncMode_None.

#[export] Instance TimeSyncMode_eq_dec : EqDecision TimeSyncMode.
Proof. solve_decision. Defined.

Record MasterParams := mkMasterParams {
  responseTimeout : Z;
  timeSyncMode : TimeSyncMode;
  disableUnsolOnStartup : bool;
  ignoreRestartIIN : bool;
  unsolClassMask : ClassField;
  startupIntegrityClassMask : ClassField;
  integrityOnEventOverflowIIN : bool;
  eventScanOnEventsAvailableClassMask : ClassField;
  taskRetryPeriod : Z;
  maxTaskRetryPeriod : Z;
  taskStartTimeout : Z;
  maxTxFragSize : Z;
  maxRxFragSize : Z;
  controlQualifierMode : IndexQualifierMode
}.

Module MasterParams.

Definition default : MasterParams :=
  mkMasterParams 5000 TimeSyncMode_None true false ClassField.AllEventClasses ClassField.AllClasses true ClassField.None 5000 60000 10000
    2048 2048 always_two_bytes.

End MasterParams.

(** ** Headers of requests *)

(** [Header] of HeaderTypes.h, a union with its tag. *)
Inductive RequestHeader :=
  | AllObjects (group variation : Z)
  | Ranged8 (group variation start stop : Z)
  | Ranged16 (group variation start stop : Z)
  | LimitedCount8 (group variation count : Z)
  | LimitedCount16 (group variation count : Z).

Module RequestHeader.

Definition From (pc : PointClass) : RequestHeader :=
  match pc with
  | Class0 => AllObjects 60 1
  | Class1 => AllObjects 60 2
  | Class2 => AllObjects 60 3
  | Class3 => AllObjects 60 4
  end.

Definition WriteTo (h : RequestHeader) : WM bool :=
  match h with
  | AllObjects g v => HeaderWriter.WriteHeader (mkGroupVariationID g v) ALL_OBJECTS
  | Ranged8 g v start stop => HeaderWriter.WriteRangeHeader UInt8 UINT8_START_STOP (mkGroupVariationID g v) start stop
  | Ranged16 g v start stop => HeaderWriter.WriteRangeHeader UInt16 UINT16_START_STOP (mkGroupVariationID g v) start stop
  | LimitedCount8 g v count => HeaderWriter.WriteCountHeader UInt8 UINT8_CNT (mkGroupVariationID g v) count
  | LimitedCount16 g v count => HeaderWriter.WriteCountHeader UInt16 UINT16_CNT (mkGroupVariationID g v) count
  end.

End RequestHeader.

(** What a function given by the application writes into a request. *)
Definition HeaderBuilderT : Type := WM bool.

(** ** Tasks *)

Inductive LANState := RECORD_CURRENT_TIME_ | WRITE_TIME_.

#[export] Instance LANState_eq_dec : EqDecision LANState.
Proof. solve_decision. Defined.

(** The classes derived from [IMasterTask] with their fields; [rxCount] is inherited
    from [PollTaskBase], [handling] from [IAPDUHandler] (with the duration). *)
Inductive TaskKind :=
  | UserPollTask (builder : HeaderBuilderT) (recurring : bool) (rxCount : Z)
  | EventScanTask (classes : ClassField) (rxCount : Z)
  | StartupIntegrityPoll (classes : ClassField) (rxCount : Z)
  | ClearRestartTask
  | AssignClassTask
  | EnableUnsolicitedTask (enabledClasses : ClassField)
  | DisableUnsolicitedTask
  | EmptyResponseTask (func : FunctionCode) (format : HeaderBuilderT)
  | SerialTimeSyncTask (delay start : Z)
  | LANTimeSyncTask (state : LANState) (start : Z)
  | RestartOperationTask (func : FunctionCode) (callback : Z) (handling : Handling Z)
  | CommandTask (functionCodes : list FunctionCode) (commandCallback : Z) (commands : CommandSet) (mode : IndexQualifierMode).

(** A task, with the session in whose context it is. *)
Record Task := mkTask { kind : TaskKind; context : nat; config : TaskConfig; behavior : TaskBehavior }.

(** [IMasterTask::ResponseResult] *)
Inductive ResponseResult := ERROR_BAD_RESPONSE | OK_FINAL | OK_REPEAT | OK_CONTINUE.

#[export] Instance ResponseResult_eq_dec : EqDecision ResponseResult.
Proof. solve_decision. Defined.

(** ** Sessions *)

(** The tasks of a session, and [blocking_tasks] of their context. *)
Record MasterTasks := mkMasterTasks {
  blocking_tasks : gset nat;
  clearRestart : nat;
  assignClass : nat;
  startupIntegrity : nat;
  eventScan : nat;
  disableUnsol : option nat;
  enableUnsol : option nat;
  timeSynchronization : option nat;
  boundTasks : list nat
}.

Inductive TaskState := IDLE | TASK_READY | WAIT_FOR_RESPONSE.

#[export] Instance TaskState_eq_dec : EqDecision TaskState.
Proof. solve_decision. Defined.

(** The response timer is active or not. *)
Record MContext := mkMContext {
  addresses : Addresses;
  params : MasterParams;
  isOnline : bool;
  isSending : bool;
  solSeq : Z;
  unsolSeq : Z;
  activeTask : option nat;
  responseTimer : bool;
  mtasks : MasterTasks;
  confirmQueue : list APDUHeader;
  txBuffer : bytes;
  tstate : TaskState
}.

(** ** The scheduler *)

(** [Record]: a task and its runner. *)
Abbreviation SchedulerRecord := (nat * nat)%type.

(** A timer is set with the time when it expires. *)
Record MasterSchedulerBackend := mkMasterSchedulerBackend {
  taskCheckPending : bool;
  current : option SchedulerRecord;
  tasks : list SchedulerRecord;
  taskTimer : option Z;
  taskStartTimeout_ : option Z
}.

(** What is posted to the executor: a check for tasks, and the demand of a task. *)
Inductive Posted := PostedCheck | PostedDemand (task : nat).

(** ** The outside *)

(** Calls of the application, the callbacks and the lower layer of a session. *)
Inductive MasterCall :=
  | OnTaskStart (type : MasterTaskType.t) (id : option Z)
  | OnTaskComplete_ (type : MasterTaskType.t) (result : TaskCompletion.t) (id : option Z)
  | CallbackOnStart (callback : Z)
  | CallbackOnComplete (callback : Z) (result : TaskCompletion.t)
  | SOE (call : SOECall)
  | OnReceiveIIN (iin : IINField)
  | OnOpen
  | OnClose
  | MasterTransmit (addresses : Addresses) (message : bytes)
  | CommandResult (callback : Z) (result : TaskCompletion.t) (points : list CommandPointResult)
  | RestartResult (callback : Z) (result : TaskCompletion.t) (duration : Z).

(** The answers of the outside.  [AssignClassDuringStartup] is only asked. *)
Class MasterEnvironment (W : Type) := {
  executor_time : W -> Z * W;
  application_Now : nat -> W -> Z * W;
  AssignClassDuringStartup : nat -> W -> bool;
  ConfigureAssignClassRequest : nat -> W -> list RequestHeader * W;
  master_notice : nat -> MasterCall -> W -> W
}.

(** The outside with the calls that were made, each with its session. *)
Record MOutside (W : Type) := mkMOutside { mworld : W; mcalls : list (nat * MasterCall) }.

Arguments mkMOutside {W}.

Arguments mworld {W}.

Arguments mcalls {W}.

(** ** The channel *)

Record Master (W : Type) := mkMaster {
  outside : MOutside W;
  store : list Task;
  sessions : list MContext;
  scheduler : MasterSchedulerBackend;
  posted : list Posted
}.

Arguments mkMaster {W}.

Arguments outside {W}.

Arguments store {W}.

Arguments sessions {W}.

Arguments scheduler {W}.

Arguments posted {W}.

(** *** Updates of the fields *)

Definition set_blocking_tasks (b : gset nat) (x : MasterTasks) : MasterTasks :=
  mkMasterTasks b (clearRestart x) (assignClass x) (startupIntegrity x) (eventScan x) (disableUnsol x) (enableUnsol x)
    (timeSynchronization x) (boundTasks x).

Definition set_boundTasks (b : list nat) (x : MasterTasks) : MasterTasks :=
  mkMasterTasks (blocking_tasks x) (clearRestart x) (assignClass x) (startupIntegrity x) (eventScan x) (disableUnsol x)
    (enableUnsol x) (timeSynchronization x) b.

Definition set_isOnline (b : bool) (s : MContext) : MContext :=
  mkMContext (addresses s) (params s) b (isSending s) (solSeq s) (unsolSeq s) (activeTask s) (responseTimer s) (mtasks s)
    (confirmQueue s) (txBuffer s) (tstate s).

Definition set_isSending (b : bool) (s : MContext) : MContext :=
  mkMContext (addresses s) (params s) (isOnline s) b (solSeq s) (unsolSeq s) (activeTask s) (responseTimer s) (mtasks s)
    (confirmQueue s) (txBuffer s) (tstate s).

Definition set_solSeq (n : Z) (s : MContext) : MContext :=
  mkMContext (addresses s) (params s) (isOnline s) (isSending s) n (unsolSeq s) (activeTask s) (responseTimer s) (mtasks s)
    (confirmQueue s) (txBuffer s) (tstate s).

Definition set_activeTask (t : option nat) (s : MContext) : MContext :=
  mkMContext (addresses s) (params s) (isOnline s) (isSending s) (solSeq s) (unsolSeq s) t (responseTimer s) (mtasks s)
    (confirmQueue s) (txBuffer s) (tstate s).

Definition set_responseTimer (b : bool) (s : MContext) : MContext :=
  mkMContext (addresses s) (params s) (isOnline s) (isSending s) (solSeq s) (unsolSeq s) (activeTask s) b (mtasks s)
    (confirmQueue s) (txBuffer s) (tstate s).

Definition set_mtasks (x : MasterTasks) (s : MContext) : MContext :=
  mkMContext (addresses s) (params s) (isOnline s) (isSending s) (solSeq s) (unsolSeq s) (activeTask s) (responseTimer s) x
    (confirmQueue s) (txBuffer s) (tstate s).

Definition set_confirmQueue (q : list APDUHeader) (s : MContext) : MContext :=
  mkMContext (addresses s) (params s) (isOnline s) (isSending s) (solSeq s) (unsolSeq s) (activeTask s) (responseTimer s) (mtasks s)
    q (txBuffer s) (tstate s).

Definition set_txBuffer (b : bytes) (s : MContext) : MContext :=
  mkMContext (addresses s) (params s) (isOnline s) (isSending s) (solSeq s) (unsolSeq s) (activeTask s) (responseTimer s) (mtasks s)
    (confirmQueue s) b (tstate s).

Definition set_tstate (t : TaskState) (s : MContext) : MContext :=
  mkMContext (addresses s) (params s) (isOnline s) (isSending s) (solSeq s) (unsolSeq s) (activeTask s) (responseTimer s) (mtasks s)
    (confirmQueue s) (txBuffer s) t.

Definition set_taskCheckPending (b : bool) (x : MasterSchedulerBackend) : MasterSchedulerBackend :=
  mkMasterSchedulerBackend b (current x) (tasks x) (taskTimer x) (taskStartTimeout_ x).

Definition set_current (c : option SchedulerRecord) (x : MasterSchedulerBackend) : MasterSchedulerBackend :=
  mkMasterSchedulerBackend (taskCheckPending x) c (tasks x) (taskTimer x) (taskStartTimeout_ x).

Definition set_records (rs : list SchedulerRecord) (x : MasterSchedulerBackend) : MasterSchedulerBackend :=
  mkMasterSchedulerBackend (taskCheckPending x) (current x) rs (taskTimer x) (taskStartTimeout_ x).

Definition set_taskTimer (t : option Z) (x : MasterSchedulerBackend) : MasterSchedulerBackend :=
  mkMasterSchedulerBackend (taskCheckPending x) (current x) (tasks x) t (taskStartTimeout_ x).

Definition set_taskStartTimeout (t : option Z) (x : MasterSchedulerBackend) : MasterSchedulerBackend :=
  mkMasterSchedulerBackend (taskCheckPending x) (current x) (tasks x) (taskTimer x) t.

Section Updates.
Context {W : Type}.
Implicit Types (m : Master W).

Definition set_outside (o : MOutside W) m : Master W := mkMaster o (store m) (sessions m) (scheduler m) (posted m).

Definition set_store (l : list Task) m : Master W := mkMaster (outside m) l (sessions m) (scheduler m) (posted m).

Definition set_sessions (l : list MContext) m : Master W := mkMaster (outside m) (store m) l (scheduler m) (posted m).

Definition set_scheduler (x : MasterSchedulerBackend) m : Master W := mkMaster (outside m) (store m) (sessions m) x (posted m).

Definition set_posted (q : list Posted) m : Master W := mkMaster (outside m) (store m) (sessions m) (scheduler m) q.

End Updates.

(** *** Access to the objects behind pointers *)

Section Access.
Context {W : Type} `{MasterEnvironment W}.

#[local] Abbreviation MM := (SM (Master W)).

(** An answer of the outside. *)
Definition ask_outside {A} (f : W -> A * W) : MM A := fun m =>
  let '(a, w) := f (mworld (outside m)) in Some (set_outside (mkMOutside w (mcalls (outside m))) m, a).

Definition ExecutorGetTime : MM Z := ask_outside executor_time.

(** A call for a session. *)
Definition tell_outside (s : nat) (c : MasterCall) : MM unit := fun m =>
  Some (set_outside (mkMOutside (master_notice s c (mworld (outside m))) (mcalls (outside m) ++ [(s, c)])) m, tt).

Fixpoint tell_all (s : nat) (cs : list MasterCall) : MM unit :=
  match cs with
  | [] => mret tt
  | c :: cs => _ ← tell_outside s c; tell_all s cs
  end.

Definition the_task (i : nat) : MM Task := fun m => t ← store m !! i; Some (m, t).

Definition update_task (i : nat) (f : Task -> Task) : MM unit := fun m =>
  t ← store m !! i; Some (set_store (<[i := f t]> (store m)) m, tt).

Definition set_kind (k : TaskKind) (t : Task) : Task := mkTask k (context t) (config t) (behavior t).

Definition set_behavior (b : TaskBehavior) (t : Task) : Task := mkTask (kind t) (context t) (config t) b.

Definition the_session (s : nat) : MM MContext := fun m => c ← sessions m !! s; Some (m, c).

Definition update_session (s : nat) (f : MContext -> MContext) : MM unit := fun m =>
  c ← sessions m !! s; Some (set_sessions (<[s := f c]> (sessions m)) m, tt).

Definition update_scheduler (f : MasterSchedulerBackend -> MasterSchedulerBackend) : MM unit :=
  modify (fun m => set_scheduler (f (scheduler m)) m).

(** [executor->Post] *)
Definition Post (p : Posted) : MM unit := modify (fun m => set_posted (posted m ++ [p]) m).

(** [make_shared] *)
Definition new_task (t : Task) : MM nat := fun m => Some (set_store (store m ++ [t]) m, length (store m)).

End Access.
