(* ===== verification/MasterTask.v ===== *)
(** * MasterTask: the tasks of a master (opendnp3/master: IMasterTask, TaskContext, the classes of tasks, TimeSyncHandler)

    One definition for each method of [IMasterTask]; a virtual method is a match on the
    class of the task.  [i] is the pointer to the task. *)

From S2P Require Import Prelude Slices Serialization LinkFrame Transport AppHeader Objects ObjectParser HeaderWriter OutstationState RequestHandlers TaskBehavior CommandSet MeasurementHandler MasterState.

From stdpp Require Import gmap.

Open Scope Z_scope.

Module priority.

Definition COMMAND : Z := 100.

Definition USER_REQUEST : Z := 110.

Definition CLEAR_RESTART : Z := 120.

Definition DISABLE_UNSOLICITED : Z := 130.

Definition ASSIGN_CLASS : Z := 140.

Definition INTEGRITY_POLL : Z := 150.

Definition TIME_SYNC : Z := 160.

Definition ENABLE_UNSOLICITED : Z := 170.

Definition EVENT_SCAN : Z := 180.

Definition USER_POLL : Z := 190.

End priority.

(** ** Unsigned and signed 64-bit times *)

Definition u64 (z : Z) : Z := z mod 18446744073709551616.

(** The conversion of an unsigned number to a signed one. *)
Definition to_i64 (z : Z) : Z := if u64 z <? 9223372036854775808 then u64 z else u64 z - 18446744073709551616.

(** ** TimeSyncHandler *)

Module TimeSyncHandler.

(** The state is the time, when it is valid. *)
Definition ProcessHeader (header : Header) (current : Z) : option (SM (option Z) IINField) :=
  match header with
  | CountOf record _ times =>
      if decide (enum_of record = GroupVariation.Group52Var2) then
        Some (fun m_time => Some match ReadOnlyValue times with
                                 | Some (Fields [time]) => (Some time, IINField.Empty)
                                 | _ => (m_time, IINField.of_bit PARAM_ERROR)
                                 end)
      else None
  | _ => None
  end.

Definition IsAllowed (headerCount : Z) (gv : GroupVariation.t) (qc : QualifierCode) : bool :=
  (headerCount =? 0) && bool_decide (gv = GroupVariation.Group52Var2).

Definition handler : IAPDUHandler (Handling (option Z)) := APDUHandler.handler ProcessHeader IsAllowed.

Definition GetTimeDelay (h : Handling (option Z)) : option Z := if IINField.Any (errors h) then None else local h.

End TimeSyncHandler.

(** ** RestartOperationTask as a handler *)

Module RestartOperation.

(** The state is the duration. *)
Definition ProcessHeader (header : Header) (current : Z) : option (SM Z IINField) :=
  let store_duration (values : list Value) (make : Z -> option Z) : SM Z IINField := fun duration =>
    match ReadOnlyValue values with
    | Some (Fields [time]) => d ← make time; Some (d, IINField.Empty)
    | _ => Some (duration, IINField.of_bit PARAM_ERROR)
    end in
  match header with
  | CountOf record _ values =>
      match enum_of record with
      | GroupVariation.Group52Var1 => Some (store_duration values TimeDuration.Seconds)
      | GroupVariation.Group52Var2 => Some (store_duration values Some)
      | _ => None
      end
  | _ => None
  end.

Definition IsAllowed (headerCount : Z) (gv : GroupVariation.t) (qc : QualifierCode) : bool :=
  if negb (headerCount =? 0) then false
  else match gv with GroupVariation.Group52Var1 | GroupVariation.Group52Var2 => true | _ => false end.

Definition handler : IAPDUHandler (Handling Z) := APDUHandler.handler ProcessHeader IsAllowed.

End RestartOperation.

(** ** The constant properties of the classes *)

Module TaskKind.

Definition Priority (k : TaskKind) : Z :=
  match k with
  | UserPollTask _ _ _ => priority.USER_POLL
  | EventScanTask _ _ => priority.EVENT_SCAN
  | StartupIntegrityPoll _ _ => priority.INTEGRITY_POLL
  | ClearRestartTask => priority.CLEAR_RESTART
  | AssignClassTask => priority.ASSIGN_CLASS
  | EnableUnsolicitedTask _ => priority.ENABLE_UNSOLICITED
  | DisableUnsolicitedTask => priority.DISABLE_UNSOLICITED
  | EmptyResponseTask _ _ => priority.USER_REQUEST
  | SerialTimeSyncTask _ _ | LANTimeSyncTask _ _ => priority.TIME_SYNC
  | RestartOperationTask _ _ _ => priority.USER_REQUEST
  | CommandTask _ _ _ _ => priority.COMMAND
  end.

Definition IsRecurring (k : TaskKind) : bool :=
  match k with
  | UserPollTask _ recurring _ => recurring
  | EmptyResponseTask _ _ | RestartOperationTask _ _ _ | CommandTask _ _ _ _ => false
  | _ => true
  end.

Definition BlocksLowerPriority (k : TaskKind) : bool :=
  match k with
  | UserPollTask _ _ _ | EmptyResponseTask _ _ | RestartOperationTask _ _ _ | CommandTask _ _ _ _ => false
  | _ => true
  end.

Definition GetTaskType (k : TaskKind) : MasterTaskType.t :=
  match k with
  | EventScanTask _ _ => MasterTaskType.AUTO_EVENT_SCAN
  | StartupIntegrityPoll _ _ => MasterTaskType.STARTUP_INTEGRITY_POLL
  | ClearRestartTask => MasterTaskType.CLEAR_RESTART
  | AssignClassTask => MasterTaskType.ASSIGN_CLASS
  | EnableUnsolicitedTask _ => MasterTaskType.ENABLE_UNSOLICITED
  | DisableUnsolicitedTask => MasterTaskType.DISABLE_UNSOLICITED
  | SerialTimeSyncTask _ _ => MasterTaskType.NON_LAN_TIME_SYNC
  | LANTimeSyncTask _ _ => MasterTaskType.LAN_TIME_SYNC
  | UserPollTask _ _ _ | EmptyResponseTask _ _ | RestartOperationTask _ _ _ | CommandTask _ _ _ _ => MasterTaskType.USER_TASK
  end.

(** [Initialize], called when the task starts. *)
Definition Initialize (k : TaskKind) : TaskKind :=
  match k with
  | UserPollTask builder recurring _ => UserPollTask builder recurring 0
  | EventScanTask classes _ => EventScanTask classes 0
  | StartupIntegrityPoll classes _ => StartupIntegrityPoll classes 0
  | SerialTimeSyncTask _ start => SerialTimeSyncTask (-1) start
  | LANTimeSyncTask _ start => LANTimeSyncTask RECORD_CURRENT_TIME_ start
  | _ => k
  end.

(** The counter of [PollTaskBase]. *)
Definition rxCount (k : TaskKind) : Z :=
  match k with UserPollTask _ _ n | EventScanTask _ n | StartupIntegrityPoll _ n => n | _ => 0 end.

Definition set_rxCount (n : Z) (k : TaskKind) : TaskKind :=
  match k with
  | UserPollTask builder recurring _ => UserPollTask builder recurring n
  | EventScanTask classes _ => EventScanTask classes n
  | StartupIntegrityPoll classes _ => StartupIntegrityPoll classes n
  | _ => k
  end.

End TaskKind.

(** ** IMasterTask *)

Module IMasterTask.
Section Methods.
Context {W : Type} `{MasterEnvironment W}.

#[local] Abbreviation MM := (SM (Master W)).

(** *** Queries

    The scheduler only asks tasks of the store. *)

Definition IsEnabled (m : Master W) (t : Task) : bool :=
  match kind t with
  | EventScanTask classes _ => ClassField.HasEventClass classes
  | StartupIntegrityPoll classes _ => ClassField.HasAnyClass classes
  | AssignClassTask => AssignClassDuringStartup (context t) (mworld (outside m))
  | EnableUnsolicitedTask enabledClasses => ClassField.HasEventClass enabledClasses
  | _ => true
  end.

Definition ExpirationTime (m : Master W) (i : nat) : Z :=
  match store m !! i with
  | Some t => if IsEnabled m t then TaskBehavior.GetExpiration (behavior t) else MonotonicTimestamp.Max
  | None => MonotonicTimestamp.Max
  end.

Definition IsExpired (m : Master W) (i : nat) (now : Z) : bool := ExpirationTime m i <=? now.

Definition StartExpirationTime (m : Master W) (i : nat) : Z :=
  match store m !! i with Some t => TaskBehavior.GetStartExpiration (behavior t) | None => MonotonicTimestamp.Max end.

Definition IsRecurring (m : Master W) (i : nat) : bool :=
  match store m !! i with Some t => TaskKind.IsRecurring (kind t) | None => false end.

Definition Priority (m : Master W) (i : nat) : Z :=
  match store m !! i with Some t => TaskKind.Priority (kind t) | None => 0 end.

(** [TaskContext::IsBlocked] for the context of the task. *)
Definition IsBlocked (m : Master W) (i : nat) : bool :=
  match store m !! i with
  | Some t =>
      match sessions m !! context t with
      | Some s => existsb (fun blocking => (Priority m blocking <? Priority m i) && negb (blocking =? i)%nat)
                    (elements (blocking_tasks (mtasks s)))
      | None => false
      end
  | None => false
  end.

(** *** TaskContext *)

Definition AddBlock (i : nat) : MM unit :=
  t ← the_task i;
  update_session (context t) (fun s => set_mtasks (set_blocking_tasks ({[i]} ∪ blocking_tasks (mtasks s)) (mtasks s)) s).

Definition RemoveBlock (i : nat) : MM unit :=
  t ← the_task i;
  update_session (context t) (fun s => set_mtasks (set_blocking_tasks (blocking_tasks (mtasks s) ∖ {[i]}) (mtasks s)) s).

(** *** Validation of responses *)

Definition ValidateSingleResponse (h : APDUResponseHeader) : bool :=
  FIR (control (response_header h)) && FIN (control (response_header h)).

Definition ValidateNoObjects (objects : RSlice) : bool := RSlice.IsEmpty objects.

Definition ValidateInternalIndications (h : APDUResponseHeader) : bool := negb (IINField.HasRequestError (IIN h)).

Definition ValidateNullResponse (h : APDUResponseHeader) (objects : RSlice) : bool :=
  ValidateSingleResponse h && ValidateNoObjects objects && ValidateInternalIndications h.

Definition final_or_bad (ok : bool) : ResponseResult := if ok then OK_FINAL else ERROR_BAD_RESPONSE.

(** *** BuildRequest

    [request] is the fragment in the buffer of the session. *)

Definition set_header (control_ : AppControlField) (fc : FunctionCode) (request : APDUWrapper) : option APDUWrapper :=
  request ← APDUWrapper.SetControl request control_;
  APDUWrapper.SetFunction request fc.

Definition set_header' (fc : FunctionCode) (control_ : AppControlField) (request : APDUWrapper) : option APDUWrapper :=
  request ← APDUWrapper.SetFunction request fc;
  APDUWrapper.SetControl request control_.

Fixpoint write_headers (success : bool) (headers : list RequestHeader) : WM bool :=
  match headers with
  | [] => mret success
  | header :: headers => ok ← RequestHeader.WriteTo header; write_headers (success && ok) headers
  end.

Definition SerialTimeSync_BuildRequest (i : nat) (t : Task) (delay start : Z) (request : APDUWrapper) (seq : Z) : MM (APDUWrapper * bool) :=
  if delay <? 0 then
    now ← ask_outside (application_Now (context t));
    _ ← update_task i (set_kind (SerialTimeSyncTask delay now));
    request ← lift (MeasureDelay request seq);
    mret (request, true)
  else
    now ← ask_outside (application_Now (context t));
    request ← lift (set_header' WRITE (AppControlField.Request seq) request);
    '(request, _) ← lift (with_writer request
      (HeaderWriter.WriteSingleValue UInt8 UINT8_CNT GroupVariation.Group50Var1 (Fields [to_i64 (now + delay)])));
    mret (request, true).

Definition LANTimeSync_BuildRequest (i : nat) (t : Task) (state : LANState) (start : Z) (request : APDUWrapper) (seq : Z)
    : MM (APDUWrapper * bool) :=
  if decide (state = RECORD_CURRENT_TIME_) then
    now ← ask_outside (application_Now (context t));
    _ ← update_task i (set_kind (LANTimeSyncTask state now));
    request ← lift (RecordCurrentTime request seq);
    mret (request, true)
  else
    request ← lift (set_header' WRITE (AppControlField.Request seq) request);
    lift (with_writer request (HeaderWriter.WriteSingleValue UInt8 UINT8_CNT GroupVariation.Group50Var3 (Fields [to_i64 start]))).

Definition Command_BuildRequest (i : nat) (functionCodes : list FunctionCode) (callback : Z) (commands : CommandSet)
    (mode : IndexQualifierMode) (request : APDUWrapper) (seq : Z) : MM (APDUWrapper * bool) :=
  match functionCodes with
  | fc :: functionCodes =>
      request ← lift (set_header' fc (AppControlField.Request seq) request);
      '(request, (commands, ok)) ← lift (with_writer request (CommandSetOps.Write commands mode));
      _ ← update_task i (set_kind (CommandTask functionCodes callback commands mode));
      mret (request, ok)
  | [] => mret (request, false)
  end.

Definition BuildRequest (i : nat) (request : APDUWrapper) (seq : Z) : MM (APDUWrapper * bool) :=
  let FIR_FIN := mkAppControlField true true false false seq in
  t ← the_task i;
  match kind t with
  | UserPollTask builder recurring _ =>
      _ ← update_task i (set_kind (UserPollTask builder recurring 0));
      request ← lift (set_header' READ (AppControlField.Request seq) request);
      lift (with_writer request builder)
  | EventScanTask classes _ => request ← lift (build.ClassRequest request READ classes seq); mret (request, true)
  | StartupIntegrityPoll classes _ =>
      request ← lift (build.ReadIntegrity request classes seq);
      request ← lift (set_header' READ (AppControlField.Request seq) request);
      mret (request, true)
  | ClearRestartTask => request ← lift (build.ClearRestartIIN request seq); mret (request, true)
  | AssignClassTask =>
      request ← lift (set_header FIR_FIN ASSIGN_CLASS request);
      headers ← ask_outside (ConfigureAssignClassRequest (context t));
      lift (with_writer request (write_headers true headers))
  | EnableUnsolicitedTask enabledClasses =>
      request ← lift (build.EnableUnsolicited request (ClassField.OnlyEventClasses enabledClasses) seq); mret (request, true)
  | DisableUnsolicitedTask => request ← lift (build.DisableUnsolicited request seq); mret (request, true)
  | EmptyResponseTask func format =>
      request ← lift (set_header FIR_FIN func request);
      lift (with_writer request format)
  | SerialTimeSyncTask delay start => SerialTimeSync_BuildRequest i t delay start request seq
  | LANTimeSyncTask state start => LANTimeSync_BuildRequest i t state start request seq
  | RestartOperationTask func _ _ => request ← lift (set_header FIR_FIN func request); mret (request, true)
  | CommandTask functionCodes callback commands mode => Command_BuildRequest i functionCodes callback commands mode request seq
  end.

(** *** ProcessResponse *)

(** [PollTaskBase::ProcessMeasurements] *)
Definition ProcessMeasurements (i : nat) (h : APDUResponseHeader) (objects : RSlice) : MM ResponseResult :=
  t ← the_task i;
  _ ← update_task i (set_kind (TaskKind.set_rxCount (u32 (TaskKind.rxCount (kind t) + 1)) (kind t)));
  '(calls, result) ← lift (MeasurementHandler.ProcessMeasurements objects);
  _ ← tell_all (context t) (map SOE calls);
  mret (if decide (result = OK) then (if FIN (control (response_header h)) then OK_FINAL else OK_CONTINUE) else ERROR_BAD_RESPONSE).

(** [PollTaskBase::ProcessResponse] *)
Definition Poll_ProcessResponse (i : nat) (h : APDUResponseHeader) (objects : RSlice) : MM ResponseResult :=
  t ← the_task i;
  if FIR (control (response_header h)) then
    if 0 <? TaskKind.rxCount (kind t) then mret ERROR_BAD_RESPONSE else ProcessMeasurements i h objects
  else
    if 0 <? TaskKind.rxCount (kind t) then ProcessMeasurements i h objects else mret ERROR_BAD_RESPONSE.

Definition OnResponseDelayMeas (i : nat) (start : Z) (h : APDUResponseHeader) (objects : RSlice) : MM ResponseResult :=
  if ValidateSingleResponse h then
    '(handler, result) ← lift (APDUParser.Parse ParserSettings.Default TimeSyncHandler.handler objects (APDUHandler.init None));
    if decide (result = OK) then
      match TimeSyncHandler.GetTimeDelay handler with
      | Some rtuTurnAroundTime =>
          t ← the_task i;
          now ← ask_outside (application_Now (context t));
          let sendReceieveTime := u64 (now - start) in
          let delay := if rtuTurnAroundTime <=? sendReceieveTime then u64 (sendReceieveTime - rtuTurnAroundTime) / 2 else 0 in
          _ ← update_task i (set_kind (SerialTimeSyncTask delay start));
          mret OK_REPEAT
      | None => mret ERROR_BAD_RESPONSE
      end
    else mret ERROR_BAD_RESPONSE
  else mret ERROR_BAD_RESPONSE.

Definition OnResponseRecordCurrentTime (i : nat) (start : Z) (h : APDUResponseHeader) (objects : RSlice) : MM ResponseResult :=
  if negb (ValidateNullResponse h objects) then mret ERROR_BAD_RESPONSE
  else
    _ ← update_task i (set_kind (LANTimeSyncTask WRITE_TIME_ start));
    mret OK_REPEAT.

Definition Command_ProcessResponse (i : nat) (functionCodes : list FunctionCode) (callback : Z) (commands : CommandSet)
    (mode : IndexQualifierMode) (objects : RSlice) : MM ResponseResult :=
  match functionCodes with
  | [] =>
      '(commands, result) ← lift (CommandSetOps.ProcessOperateResponse commands objects);
      _ ← update_task i (set_kind (CommandTask functionCodes callback commands mode));
      mret (if decide (result = OPERATE_FAIL_PARSE) then ERROR_BAD_RESPONSE else OK_FINAL)
  | _ :: _ =>
      '(commands, result) ← lift (CommandSetOps.ProcessSelectResponse commands objects);
      _ ← update_task i (set_kind (CommandTask functionCodes callback commands mode));
      mret match result with
           | SELECT_OK => OK_REPEAT
           | SELECT_FAIL_SELECT => OK_FINAL
           | SELECT_FAIL_PARSE => ERROR_BAD_RESPONSE
           end
  end.

Definition Restart_ProcessResponse (i : nat) (func : FunctionCode) (callback : Z) (handling : Handling Z) (h : APDUResponseHeader)
    (objects : RSlice) : MM ResponseResult :=
  if negb (ValidateSingleResponse h && ValidateInternalIndications h) then mret ERROR_BAD_RESPONSE
  else
    '(handling, result) ← lift (APDUParser.Parse ParserSettings.Default RestartOperation.handler objects handling);
    _ ← update_task i (set_kind (RestartOperationTask func callback handling));
    mret (final_or_bad (bool_decide (result = OK))).

Definition ProcessResponse (i : nat) (h : APDUResponseHeader) (objects : RSlice) : MM ResponseResult :=
  t ← the_task i;
  match kind t with
  | UserPollTask _ _ _ | EventScanTask _ _ | StartupIntegrityPoll _ _ => Poll_ProcessResponse i h objects
  | ClearRestartTask =>
      mret (if ValidateSingleResponse h then final_or_bad (negb (IINField.IsSet (IIN h) DEVICE_RESTART)) else ERROR_BAD_RESPONSE)
  | AssignClassTask | EnableUnsolicitedTask _ | DisableUnsolicitedTask | EmptyResponseTask _ _ =>
      mret (final_or_bad (ValidateNullResponse h objects))
  | SerialTimeSyncTask delay start =>
      if delay <? 0 then OnResponseDelayMeas i start h objects else mret (final_or_bad (ValidateNullResponse h objects))
  | LANTimeSyncTask state start =>
      if decide (state = RECORD_CURRENT_TIME_) then OnResponseRecordCurrentTime i start h objects
      else mret (final_or_bad (ValidateNullResponse h objects))
  | RestartOperationTask func callback handling => Restart_ProcessResponse i func callback handling h objects
  | CommandTask functionCodes callback commands mode =>
      if ValidateSingleResponse h then Command_ProcessResponse i functionCodes callback commands mode objects
      else mret ERROR_BAD_RESPONSE
  end.

(** *** Completion *)

Definition OnTaskComplete (i : nat) (result : TaskCompletion.t) : MM unit :=
  t ← the_task i;
  match kind t with
  | CommandTask _ callback commands _ => tell_outside (context t) (CommandResult callback result (CommandSetOps.results commands))
  | RestartOperationTask _ callback handling =>
      tell_outside (context t) (RestartResult callback
        (if IINField.Any (errors handling) then TaskCompletion.FAILURE_BAD_RESPONSE else result) (local handling))
  | _ => mret tt
  end.

Definition update_behavior (i : nat) (f : TaskBehavior -> option TaskBehavior) : MM unit :=
  t ← the_task i;
  b ← lift (f (behavior t));
  update_task i (set_behavior b).

Definition CompleteTask (i : nat) (result : TaskCompletion.t) (now : Z) : MM unit :=
  t ← the_task i;
  _ ← match result with
      | TaskCompletion.FAILURE_NO_COMMS => update_behavior i (fun b => Some (TaskBehavior.Reset b))
      | TaskCompletion.FAILURE_RESPONSE_TIMEOUT =>
          _ ← update_behavior i (TaskBehavior.OnResponseTimeout now);
          if TaskKind.BlocksLowerPriority (kind t) then AddBlock i else mret tt
      | TaskCompletion.SUCCESS =>
          _ ← update_behavior i (TaskBehavior.OnSuccess now);
          RemoveBlock i
      | _ =>
          _ ← update_behavior i (fun b => Some (TaskBehavior.Disable b));
          if TaskKind.BlocksLowerPriority (kind t) then AddBlock i else mret tt
      end;
  _ ← match pCallback (config t) with
      | Some callback => tell_outside (context t) (CallbackOnComplete callback result)
      | None => mret tt
      end;
  _ ← tell_outside (context t) (OnTaskComplete_ (TaskKind.GetTaskType (kind t)) result (taskId (config t)));
  OnTaskComplete i result.

Definition OnResponse (i : nat) (response : APDUResponseHeader) (objects : RSlice) (now : Z) : MM ResponseResult :=
  result ← ProcessResponse i response objects;
  _ ← match result with
      | ERROR_BAD_RESPONSE => CompleteTask i TaskCompletion.FAILURE_BAD_RESPONSE now
      | OK_FINAL => CompleteTask i TaskCompletion.SUCCESS now
      | _ => mret tt
      end;
  mret result.

Definition OnResponseTimeout (i : nat) (now : Z) : MM unit := CompleteTask i TaskCompletion.FAILURE_RESPONSE_TIMEOUT now.

Definition OnLowerLayerClose (i : nat) (now : Z) : MM unit := CompleteTask i TaskCompletion.FAILURE_NO_COMMS now.

Definition OnStartTimeout (i : nat) (now : Z) : MM unit := CompleteTask i TaskCompletion.FAILURE_START_TIMEOUT now.

Definition OnMessageFormatError (i : nat) (now : Z) : MM unit := CompleteTask i TaskCompletion.FAILURE_MESSAGE_FORMAT_ERROR now.

Definition OnStart (i : nat) : MM unit :=
  t ← the_task i;
  _ ← match pCallback (config t) with
      | Some callback => tell_outside (context t) (CallbackOnStart callback)
      | None => mret tt
      end;
  _ ← tell_outside (context t) (OnTaskStart (TaskKind.GetTaskType (kind t)) (taskId (config t)));
  update_task i (set_kind (TaskKind.Initialize (kind t))).

Definition SetMinExpiration (i : nat) : MM unit := update_behavior i (fun b => Some (TaskBehavior.Reset b)).

End Methods.
End IMasterTask.
