(* ===== verification/MasterScheduler.v ===== *)
(** * MasterScheduler: which task runs next (opendnp3/master: MasterSchedulerBackend, IMasterScheduler, IMasterTaskRunner)

    The scheduler runs one task at a time on the sessions of a channel.  [Run] is the
    method of the runner of a task. *)

From S2P Require Import Prelude Slices Serialization LinkFrame Transport AppHeader Objects ObjectParser HeaderWriter OutstationState RequestHandlers TaskBehavior CommandSet MeasurementHandler MasterState MasterTask.

From stdpp Require Import gmap.

Open Scope Z_scope.

Inductive Comparison := LEFT | RIGHT | SAME.

#[export] Instance Comparison_eq_dec : EqDecision Comparison.
Proof. solve_decision. Defined.

Module MasterSchedulerBackend.

Definition init : MasterSchedulerBackend := mkMasterSchedulerBackend false None [] None None.

Section Methods.
Context {W : Type} `{MasterEnvironment W}.

#[local] Abbreviation MM := (SM (Master W)).

Implicit Types (m : Master W) (left right : SchedulerRecord).

(** *** Comparisons of tasks *)

Definition CompareTime m (now : Z) left right : Comparison :=
  let leftTime := if IMasterTask.IsExpired m left.1 now then now else IMasterTask.ExpirationTime m left.1 in
  let rightTime := if IMasterTask.IsExpired m right.1 now then now else IMasterTask.ExpirationTime m right.1 in
  if leftTime <? rightTime then LEFT else if rightTime <? leftTime then RIGHT else SAME.

Definition CompareEnabledStatus m left right : Comparison :=
  if MonotonicTimestamp.IsMax (IMasterTask.ExpirationTime m left.1) then
    if MonotonicTimestamp.IsMax (IMasterTask.ExpirationTime m right.1) then SAME else RIGHT
  else if MonotonicTimestamp.IsMax (IMasterTask.ExpirationTime m right.1) then LEFT
  else SAME.

Definition CompareBlockedStatus m left right : Comparison :=
  if IMasterTask.IsBlocked m left.1 then if IMasterTask.IsBlocked m right.1 then SAME else RIGHT
  else if IMasterTask.IsBlocked m right.1 then LEFT else SAME.

Definition ComparePriority m left right : Comparison :=
  if IMasterTask.Priority m left.1 <? IMasterTask.Priority m right.1 then LEFT
  else if IMasterTask.Priority m right.1 <? IMasterTask.Priority m left.1 then RIGHT
  else SAME.

Definition GetBestTaskToRun m (now : Z) left right : Comparison :=
  let BEST_ENABLED_STATUS := CompareEnabledStatus m left right in
  if negb (bool_decide (BEST_ENABLED_STATUS = SAME)) then BEST_ENABLED_STATUS
  else
    let BEST_BLOCKED_STATUS := CompareBlockedStatus m left right in
    if negb (bool_decide (BEST_BLOCKED_STATUS = SAME)) then BEST_BLOCKED_STATUS
    else
      let EARLIEST_EXPIRATION := CompareTime m now left right in
      let BEST_PRIORITY := ComparePriority m left right in
      if bool_decide (EARLIEST_EXPIRATION = SAME) then BEST_PRIORITY else EARLIEST_EXPIRATION.

(** The loop of [CheckForTaskRun]: the position of the best task so far, and it. *)
Fixpoint find_best m (now : Z) (best : nat * SchedulerRecord) (pos : nat) (rest : list SchedulerRecord) : nat * SchedulerRecord :=
  match rest with
  | [] => best
  | r :: rest => find_best m now (if bool_decide (GetBestTaskToRun m now best.2 r = RIGHT) then (pos, r) else best) (S pos) rest
  end.

(** *** Timers *)

(** The loop of [RestartTimeoutTimer]. *)
Fixpoint min_start m (min : Z) (rs : list SchedulerRecord) : Z :=
  match rs with
  | [] => min
  | r :: rs =>
      min_start m (if negb (IMasterTask.IsRecurring m r.1) && (IMasterTask.StartExpirationTime m r.1 <? min)
                   then IMasterTask.StartExpirationTime m r.1 else min) rs
  end.

Definition RestartTimeoutTimer : MM unit :=
  min ← get (fun m => min_start m MonotonicTimestamp.Max (tasks (scheduler m)));
  update_scheduler (set_taskStartTimeout (Some min)).

(** [std::remove_if] with [erase]; the predicate has effects. *)
Fixpoint remove_if (P : SchedulerRecord -> MM bool) (rs : list SchedulerRecord) : MM (list SchedulerRecord) :=
  match rs with
  | [] => mret []
  | r :: rs => b ← P r; rs ← remove_if P rs; mret (if (b : bool) then rs else r :: rs)
  end.

Definition erase_if (P : SchedulerRecord -> MM bool) : MM unit :=
  rs ← get (fun m => tasks (scheduler m));
  rs ← remove_if P rs;
  update_scheduler (set_records rs).

(** *** IMasterScheduler *)

Definition PostCheckForTaskRun : MM unit :=
  pending ← get (fun m => taskCheckPending (scheduler m));
  if (pending : bool) then mret tt
  else
    _ ← update_scheduler (set_taskCheckPending true);
    Post PostedCheck.

Definition Shutdown : MM unit :=
  update_scheduler (fun x => set_taskStartTimeout None (set_taskTimer None (set_current None (set_records [] x)))).

Definition Add (task runner : nat) : MM unit :=
  _ ← update_scheduler (fun x => set_records (tasks x ++ [(task, runner)]) x);
  PostCheckForTaskRun.

Definition checkForOwnership (now : Z) (runner : nat) (r : SchedulerRecord) : MM bool :=
  if (r.2 =? runner)%nat then
    recurring ← get (fun m => IMasterTask.IsRecurring m r.1);
    _ ← (if (recurring : bool) then mret tt else IMasterTask.OnLowerLayerClose r.1 now);
    mret true
  else mret false.

Definition SetRunnerOffline (runner : nat) : MM unit :=
  now ← ExecutorGetTime;
  cur ← get (fun m => current (scheduler m));
  _ ← match cur with
      | Some r => owned ← checkForOwnership now runner r; if (owned : bool) then update_scheduler (set_current None) else mret tt
      | None => mret tt
      end;
  _ ← erase_if (checkForOwnership now runner);
  PostCheckForTaskRun.

Definition CompleteCurrentFor (runner : nat) : MM bool :=
  cur ← get (fun m => current (scheduler m));
  match cur with
  | None => mret false
  | Some r =>
      if negb (r.2 =? runner)%nat then mret false
      else
        recurring ← get (fun m => IMasterTask.IsRecurring m r.1);
        _ ← (if (recurring : bool) then Add r.1 r.2 else mret tt);
        _ ← update_scheduler (set_current None);
        _ ← PostCheckForTaskRun;
        mret true
  end.

Definition Demand (task : nat) : MM unit := Post (PostedDemand task).

Definition Evaluate : MM unit := PostCheckForTaskRun.

(** The predicate of [TimeoutTasks]. *)
Definition isTimedOut (now : Z) (r : SchedulerRecord) : MM bool :=
  late ← get (fun m => negb (IMasterTask.IsRecurring m r.1 || (now <? IMasterTask.StartExpirationTime m r.1)));
  if (late : bool) then _ ← IMasterTask.OnStartTimeout r.1 now; mret true else mret false.

Definition TimeoutTasks : MM unit :=
  now ← ExecutorGetTime;
  _ ← erase_if (isTimedOut now);
  RestartTimeoutTimer.

(** [Run] is [runner->Run(task)]. *)
Definition CheckForTaskRun (Run : nat -> nat -> MM bool) : MM bool :=
  _ ← update_scheduler (set_taskCheckPending false);
  _ ← RestartTimeoutTimer;
  cur ← get (fun m => current (scheduler m));
  match cur with
  | Some _ => mret false
  | None =>
      now ← ExecutorGetTime;
      rs ← get (fun m => tasks (scheduler m));
      match rs with
      | [] => mret false
      | first :: rest =>
          '(pos, best_task) ← get (fun m => find_best m now (0%nat, first) 1 rest);
          expiration ← get (fun m => IMasterTask.ExpirationTime m best_task.1);
          if expiration <=? now then
            _ ← update_scheduler (set_current (Some best_task));
            _ ← update_scheduler (set_records (delete pos rs));
            _ ← Run best_task.2 best_task.1;
            mret true
          else
            _ ← update_scheduler (set_taskTimer (Some expiration));
            mret false
      end
  end.

End Methods.
End MasterSchedulerBackend.
