(* ===== verification/Master.v ===== *)
(** * Master: the sessions of a master (opendnp3/master: MasterContext, MasterTasks; openpal: IExecutor)

    The methods of [MContext], with the pointer [s] to the session; what reaches a
    channel from outside is a [MasterEvent]. *)

From S2P Require Import Prelude Slices Serialization LinkFrame Transport AppHeader Objects ObjectParser HeaderWriter OutstationState RequestHandlers TaskBehavior CommandSet MeasurementHandler MasterState MasterTask MasterScheduler.

From stdpp Require Import gmap.

Open Scope Z_scope.

(** ** MasterTasks *)

Module MasterTasks.
Section Methods.
Context {W : Type} `{MasterEnvironment W}.

#[local] Abbreviation MM := (SM (Master W)).

Definition RetryBehavior (params : MasterParams) : TaskBehavior :=
  TaskBehavior.SingleImmediateExecutionWithRetry (taskRetryPeriod params) (maxTaskRetryPeriod params).

Definition make_task (s : nat) (k : TaskKind) (b : TaskBehavior) : MM nat := new_task (mkTask k s TaskConfig.Default b).

Definition GetTimeSyncTask (s : nat) (mode : TimeSyncMode) : MM (option nat) :=
  match mode with
  | TimeSyncMode_NonLAN => i ← make_task s (SerialTimeSyncTask (-1) 0) TaskBehavior.ReactsToIINOnly; mret (Some i)
  | TimeSyncMode_LAN => i ← make_task s (LANTimeSyncTask RECORD_CURRENT_TIME_ 0) TaskBehavior.ReactsToIINOnly; mret (Some i)
  | TimeSyncMode_None => mret None
  end.

Definition GetEnableUnsolTask (s : nat) (params : MasterParams) : MM (option nat) :=
  if ClassField.HasEventClass (unsolClassMask params)
  then i ← make_task s (EnableUnsolicitedTask (unsolClassMask params)) (RetryBehavior params); mret (Some i) else mret None.

Definition GetDisableUnsolTask (s : nat) (params : MasterParams) : MM (option nat) :=
  if disableUnsolOnStartup params
  then i ← make_task s DisableUnsolicitedTask
         (TaskBehavior.SingleImmediateExecutionWithRetry (taskRetryPeriod params) (maxTaskRetryPeriod params)); mret (Some i)
  else mret None.

(** The constructor. *)
Definition make (s : nat) (params : MasterParams) : MM MasterTasks :=
  clearRestart ← make_task s ClearRestartTask TaskBehavior.ReactsToIINOnly;
  assignClass ← make_task s AssignClassTask (RetryBehavior params);
  startupIntegrity ← make_task s (StartupIntegrityPoll (startupIntegrityClassMask params) 0) (RetryBehavior params);
  eventScan ← make_task s (EventScanTask (ClassField.OnlyEventClasses (eventScanOnEventsAvailableClassMask params)) 0)
    TaskBehavior.ReactsToIINOnly;
  disableUnsol ← GetDisableUnsolTask s params;
  enableUnsol ← GetEnableUnsolTask s params;
  timeSynchronization ← GetTimeSyncTask s (timeSyncMode params);
  mret (mkMasterTasks ∅ clearRestart assignClass startupIntegrity eventScan disableUnsol enableUnsol timeSynchronization []).

Fixpoint add_all (ts : list nat) (s : nat) : MM unit :=
  match ts with
  | [] => mret tt
  | t :: ts => _ ← MasterSchedulerBackend.Add t s; add_all ts s
  end.

(** The tasks in the order in which they are added. *)
Definition all_tasks (x : MasterTasks) : list nat :=
  [clearRestart x; assignClass x; startupIntegrity x; eventScan x] ++ option_list (enableUnsol x) ++ option_list (disableUnsol x) ++
  option_list (timeSynchronization x) ++ boundTasks x.

Definition Initialize (s : nat) : MM unit :=
  c ← the_session s;
  add_all (all_tasks (mtasks c)) s.

Definition BindTask (s : nat) (task : nat) : MM unit :=
  update_session s (fun c => set_mtasks (set_boundTasks (boundTasks (mtasks c) ++ [task]) (mtasks c)) c).

Definition Demand (task : option nat) : MM bool :=
  match task with
  | Some i => _ ← IMasterTask.SetMinExpiration i; mret true
  | None => mret false
  end.

Definition DemandTimeSync (s : nat) : MM bool := c ← the_session s; Demand (timeSynchronization (mtasks c)).

Definition DemandEventScan (s : nat) : MM bool := c ← the_session s; Demand (Some (eventScan (mtasks c))).

Definition DemandIntegrity (s : nat) : MM bool := c ← the_session s; Demand (Some (startupIntegrity (mtasks c))).

Definition OnRestartDetected (s : nat) : MM unit :=
  c ← the_session s;
  _ ← Demand (Some (clearRestart (mtasks c)));
  _ ← Demand (Some (assignClass (mtasks c)));
  _ ← Demand (Some (startupIntegrity (mtasks c)));
  _ ← Demand (enableUnsol (mtasks c));
  mret tt.

End Methods.
End MasterTasks.

(** ** MContext *)

Module MContext.
Section Methods.
Context {W : Type} `{MasterEnvironment W}.

#[local] Abbreviation MM := (SM (Master W)).

(** The constructor: a new session. *)
Definition make (a : Addresses) (p : MasterParams) : MM nat :=
  s ← get (fun m => length (sessions m));
  ts ← MasterTasks.make s p;
  _ ← modify (fun m => set_sessions (sessions m ++
    [mkMContext a p false false 0 0 None false ts [] (replicate (Z.to_nat (maxTxFragSize p)) 0) IDLE]) m);
  mret s.

(** *** Transmission *)

Definition Transmit (s : nat) (data : bytes) : MM unit :=
  c ← the_session s;
  _ ← lift (c_assert (negb (isSending c)));
  _ ← update_session s (set_isSending true);
  tell_outside s (MasterTransmit (addresses c) data).

Definition CheckConfirmTransmit (s : nat) : MM bool :=
  c ← the_session s;
  match confirmQueue c with
  | confirm :: queue =>
      if isSending c then mret false
      else
        wrapper ← lift (APDUWrapper.init (mkWSlice (txBuffer c) 0 (length (txBuffer c))));
        wrapper ← lift (APDUWrapper.SetFunction wrapper (function confirm));
        wrapper ← lift (APDUWrapper.SetControl wrapper (control confirm));
        _ ← update_session s (set_txBuffer (apdu_array wrapper));
        data ← lift (APDUWrapper.ToRSlice wrapper);
        _ ← Transmit s data;
        _ ← update_session s (set_confirmQueue queue);
        mret true
  | [] => mret false
  end.

Definition QueueConfirm (s : nat) (header : APDUHeader) : MM unit :=
  _ ← update_session s (fun c => set_confirmQueue (confirmQueue c ++ [header]) c);
  _ ← CheckConfirmTransmit s;
  mret tt.

Definition StartResponseTimer (s : nat) : MM unit := update_session s (set_responseTimer true).

(** *** Running tasks *)

Definition CompleteActiveTask (s : nat) : MM unit :=
  c ← the_session s;
  match activeTask c with
  | Some _ =>
      _ ← update_session s (set_activeTask None);
      _ ← MasterSchedulerBackend.CompleteCurrentFor s;
      mret tt
  | None => mret tt
  end.

Definition ResumeActiveTask (s : nat) : MM TaskState :=
  c ← the_session s;
  request ← lift (APDURequest.init (mkWSlice (txBuffer c) 0 (length (txBuffer c))));
  match activeTask c with
  | Some i =>
      '(request, ok) ← IMasterTask.BuildRequest i request (solSeq c);
      _ ← update_session s (set_txBuffer (apdu_array request));
      if negb ok then
        now ← ExecutorGetTime;
        _ ← IMasterTask.OnMessageFormatError i now;
        _ ← CompleteActiveTask s;
        mret IDLE
      else
        _ ← StartResponseTimer s;
        apdu ← lift (APDUWrapper.ToRSlice request);
        _ ← Transmit s apdu;
        mret WAIT_FOR_RESPONSE
  | None => undefined
  end.

(** [tstate = m] *)
Definition assign_tstate (s : nat) (m : MM TaskState) : MM unit := t ← m; update_session s (set_tstate t).

Definition Run (s : nat) (task : nat) : MM bool :=
  c ← the_session s;
  if bool_decide (activeTask c <> None) || negb (bool_decide (tstate c = IDLE)) then mret false
  else
    _ ← update_session s (fun c => set_activeTask (Some task) (set_tstate TASK_READY c));
    _ ← IMasterTask.OnStart task;
    c ← the_session s;
    _ ← (if negb (isSending c) then assign_tstate s (ResumeActiveTask s) else mret tt);
    mret true.

Definition StartTask_TaskReady (s : nat) : MM TaskState :=
  c ← the_session s;
  if isSending c then mret TASK_READY else ResumeActiveTask s.

(** *** Responses *)

Definition ProcessIIN (s : nat) (iin : IINField) : MM unit :=
  c ← the_session s;
  let p := params c in
  let mask := eventScanOnEventsAvailableClassMask p in
  _ ← (if IINField.IsSet iin DEVICE_RESTART && negb (ignoreRestartIIN p) then
         _ ← MasterTasks.OnRestartDetected s; MasterSchedulerBackend.Evaluate
       else mret tt);
  _ ← (if IINField.IsSet iin EVENT_BUFFER_OVERFLOW && integrityOnEventOverflowIIN p then
         demanded ← MasterTasks.DemandIntegrity s; if (demanded : bool) then MasterSchedulerBackend.Evaluate else mret tt
       else mret tt);
  _ ← (if IINField.IsSet iin NEED_TIME then
         demanded ← MasterTasks.DemandTimeSync s; if (demanded : bool) then MasterSchedulerBackend.Evaluate else mret tt
       else mret tt);
  _ ← (if (IINField.IsSet iin CLASS1_EVENTS && ClassField.HasClass1 mask) || (IINField.IsSet iin CLASS2_EVENTS && ClassField.HasClass2 mask) ||
          (IINField.IsSet iin CLASS3_EVENTS && ClassField.HasClass3 mask) then
         demanded ← MasterTasks.DemandEventScan s; if (demanded : bool) then MasterSchedulerBackend.Evaluate else mret tt
       else mret tt);
  tell_outside s (OnReceiveIIN iin).

Definition ProcessUnsolicitedResponse (s : nat) (header : APDUResponseHeader) (objects : RSlice) : MM unit :=
  let control_ := control (response_header header) in
  if negb (UNS control_) then mret tt
  else
    '(calls, result) ← lift (MeasurementHandler.ProcessMeasurements objects);
    _ ← tell_all s (map SOE calls);
    _ ← (if bool_decide (result = OK) && CON control_ then QueueConfirm s (APDUHeader.UnsolicitedConfirm (SEQ control_)) else mret tt);
    ProcessIIN s (IIN header).

Definition OnResponse_WaitForResponse (s : nat) (header : APDUResponseHeader) (objects : RSlice) : MM TaskState :=
  let control_ := control (response_header header) in
  c ← the_session s;
  if negb (SEQ control_ =? solSeq c) then mret WAIT_FOR_RESPONSE
  else
    _ ← update_session s (set_responseTimer false);
    _ ← update_session s (fun c => set_solSeq (AppSeqNum_Next (solSeq c)) c);
    now ← ExecutorGetTime;
    match activeTask c with
    | Some i =>
        result ← IMasterTask.OnResponse i header objects now;
        _ ← (if CON control_ then QueueConfirm s (APDUHeader.SolicitedConfirm (SEQ control_)) else mret tt);
        match result with
        | OK_CONTINUE => _ ← StartResponseTimer s; mret WAIT_FOR_RESPONSE
        | OK_REPEAT => StartTask_TaskReady s
        | _ => _ ← CompleteActiveTask s; mret IDLE
        end
    | None => undefined
    end.

Definition OnResponseTimeout_WaitForResponse (s : nat) : MM TaskState :=
  now ← ExecutorGetTime;
  c ← the_session s;
  match activeTask c with
  | Some i =>
      _ ← IMasterTask.OnResponseTimeout i now;
      _ ← update_session s (fun c => set_solSeq (AppSeqNum_Next (solSeq c)) c);
      _ ← CompleteActiveTask s;
      mret IDLE
  | None => undefined
  end.

(** *** State tables *)

Definition OnTransmitComplete (s : nat) : MM TaskState :=
  c ← the_session s;
  match tstate c with
  | TASK_READY => ResumeActiveTask s
  | _ => mret (tstate c)
  end.

Definition OnResponseEvent (s : nat) (header : APDUResponseHeader) (objects : RSlice) : MM TaskState :=
  c ← the_session s;
  match tstate c with
  | WAIT_FOR_RESPONSE => OnResponse_WaitForResponse s header objects
  | _ => mret (tstate c)
  end.

Definition OnResponseTimeoutEvent (s : nat) : MM TaskState :=
  c ← the_session s;
  match tstate c with
  | WAIT_FOR_RESPONSE => OnResponseTimeout_WaitForResponse s
  | _ => mret (tstate c)
  end.

Definition ProcessResponse (s : nat) (header : APDUResponseHeader) (objects : RSlice) : MM unit :=
  _ ← assign_tstate s (OnResponseEvent s header objects);
  ProcessIIN s (IIN header).

Definition ProcessAPDU (s : nat) (header : APDUResponseHeader) (objects : RSlice) : MM unit :=
  match function (response_header header) with
  | UNSOLICITED_RESPONSE => ProcessUnsolicitedResponse s header objects
  | RESPONSE => ProcessResponse s header objects
  | _ => mret tt
  end.

(** *** IUpperLayer and the timer *)

Definition OnLowerLayerUp (s : nat) : MM bool :=
  c ← the_session s;
  if isOnline c then mret false
  else
    _ ← update_session s (set_isOnline true);
    _ ← MasterTasks.Initialize s;
    _ ← tell_outside s OnOpen;
    mret true.

Definition OnLowerLayerDown (s : nat) : MM bool :=
  c ← the_session s;
  if negb (isOnline c) then mret false
  else
    _ ← update_session s (fun c => mkMContext (addresses c) (params c) false false 0 0 None false (mtasks c) (confirmQueue c) (txBuffer c) IDLE);
    _ ← MasterSchedulerBackend.SetRunnerOffline s;
    _ ← tell_outside s OnClose;
    mret true.

(** [address] and [payload] are the message. *)
Definition OnReceive (s : nat) (address : Addresses) (payload : RSlice) : MM bool :=
  c ← the_session s;
  if negb (isOnline c) then mret false
  else if negb (destination address =? source (addresses c)) then mret false
  else if negb (source address =? destination (addresses c)) then mret false
  else
    match ParseResponse payload with
    | Some (header, objects) => _ ← ProcessAPDU s header objects; mret true
    | None => mret true
    end.

Definition OnTxReady (s : nat) : MM bool :=
  c ← the_session s;
  if negb (isOnline c) || negb (isSending c) then mret false
  else
    _ ← update_session s (set_isSending false);
    _ ← assign_tstate s (OnTransmitComplete s);
    _ ← CheckConfirmTransmit s;
    mret true.

Definition OnResponseTimeout (s : nat) : MM unit :=
  c ← the_session s;
  if isOnline c then assign_tstate s (OnResponseTimeoutEvent s) else mret tt.

(** *** New tasks *)

Definition ScheduleRecurringPollTask (s : nat) (task : nat) : MM unit :=
  _ ← MasterTasks.BindTask s task;
  c ← the_session s;
  if isOnline c then MasterSchedulerBackend.Add task s else mret tt.

Definition ScheduleAdhocTask (s : nat) (task : nat) : MM unit :=
  c ← the_session s;
  if isOnline c then MasterSchedulerBackend.Add task s
  else
    now ← ExecutorGetTime;
    IMasterTask.OnLowerLayerClose task now.

(** [executor->GetTime().Add(params.taskStartTimeout)] *)
Definition start_timeout (s : nat) : MM Z :=
  c ← the_session s;
  now ← ExecutorGetTime;
  lift (MonotonicTimestamp.Add now (taskStartTimeout (params c))).

(** A task for a single execution. *)
Definition schedule_single (s : nat) (k : TaskKind) (config : TaskConfig) : MM unit :=
  timeout ← start_timeout s;
  task ← new_task (mkTask k s config (TaskBehavior.SingleExecutionNoRetry timeout));
  ScheduleAdhocTask s task.

Definition DirectOperate (s : nat) (commands : CommandSet) (callback : Z) (config : TaskConfig) : MM unit :=
  c ← the_session s;
  schedule_single s (CommandTask [DIRECT_OPERATE] callback commands (controlQualifierMode (params c))) config.

Definition SelectAndOperate (s : nat) (commands : CommandSet) (callback : Z) (config : TaskConfig) : MM unit :=
  c ← the_session s;
  schedule_single s (CommandTask [SELECT; OPERATE] callback commands (controlQualifierMode (params c))) config.

Definition AddScan (s : nat) (period : Z) (builder : HeaderBuilderT) (config : TaskConfig) : MM nat :=
  c ← the_session s;
  task ← new_task (mkTask (UserPollTask builder true 0) s config
    (TaskBehavior.ImmediatePeriodic period (taskRetryPeriod (params c)) (maxTaskRetryPeriod (params c))));
  _ ← ScheduleRecurringPollTask s task;
  mret task.

Definition AddClassScan (s : nat) (field : ClassField) (period : Z) (config : TaskConfig) : MM nat :=
  AddScan s period (build.WriteClassHeaders field) config.

Definition AddAllObjectsScan (s : nat) (gvId : GroupVariationID) (period : Z) (config : TaskConfig) : MM nat :=
  AddScan s period (HeaderWriter.WriteHeader gvId ALL_OBJECTS) config.

Definition AddRangeScan (s : nat) (gvId : GroupVariationID) (start stop : Z) (period : Z) (config : TaskConfig) : MM nat :=
  AddScan s period (HeaderWriter.WriteRangeHeader UInt16 UINT16_START_STOP gvId start stop) config.

Definition Scan (s : nat) (builder : HeaderBuilderT) (config : TaskConfig) : MM unit :=
  schedule_single s (UserPollTask builder false 0) config.

Definition ScanClasses (s : nat) (field : ClassField) (config : TaskConfig) : MM unit := Scan s (build.WriteClassHeaders field) config.

Definition ScanAllObjects (s : nat) (gvId : GroupVariationID) (config : TaskConfig) : MM unit :=
  Scan s (HeaderWriter.WriteHeader gvId ALL_OBJECTS) config.

Definition ScanRange (s : nat) (gvId : GroupVariationID) (start stop : Z) (config : TaskConfig) : MM unit :=
  Scan s (HeaderWriter.WriteRangeHeader UInt16 UINT16_START_STOP gvId start stop) config.

(** A time and interval is the list of the fields of Group50Var4. *)
Definition Write (s : nat) (value : Value) (index : Z) (config : TaskConfig) : MM unit :=
  schedule_single s (EmptyResponseTask WRITE
    (HeaderWriter.WriteSingleIndexedValue UInt16 UINT16_CNT_UINT16_INDEX (Inst GroupVariation.Group50Var4) value index)) config.

(** [cold] is [op == RestartType::COLD]. *)
Definition Restart (s : nat) (cold : bool) (callback : Z) (config : TaskConfig) : MM unit :=
  schedule_single s (RestartOperationTask (if cold then COLD_RESTART else WARM_RESTART) callback (APDUHandler.init TimeDuration.Min)) config.

Definition PerformFunction (s : nat) (func : FunctionCode) (builder : HeaderBuilderT) (config : TaskConfig) : MM unit :=
  schedule_single s (EmptyResponseTask func builder) config.

End Methods.
End MContext.

(** ** The executor *)

(** What a channel gets: a new session, the events of the lower layer, the expiration
    of a timer, the next function in the queue of the executor, and the requests of
    the application. *)
Inductive MasterEvent :=
  | NewSession (a : Addresses) (p : MasterParams)
  | LowerLayerUp (s : nat)
  | LowerLayerDown (s : nat)
  | Receive (s : nat) (address : Addresses) (payload : bytes)
  | TxReady (s : nat)
  | ResponseTimer (s : nat)
  | TaskTimer
  | StartTimer
  | RunPosted
  | DemandScan (task : nat)
  | RequestDirectOperate (s : nat) (commands : CommandSet) (callback : Z) (config : TaskConfig)
  | RequestSelectAndOperate (s : nat) (commands : CommandSet) (callback : Z) (config : TaskConfig)
  | RequestAddScan (s : nat) (period : Z) (builder : HeaderBuilderT) (config : TaskConfig)
  | RequestScan (s : nat) (builder : HeaderBuilderT) (config : TaskConfig)
  | RequestWrite (s : nat) (value : Value) (index : Z) (config : TaskConfig)
  | RequestRestart (s : nat) (cold : bool) (callback : Z) (config : TaskConfig)
  | RequestFunction (s : nat) (func : FunctionCode) (builder : HeaderBuilderT) (config : TaskConfig).

Module MasterChannel.
Section Executor.
Context {W : Type} `{MasterEnvironment W}.

#[local] Abbreviation MM := (SM (Master W)).

Definition init (w : W) : Master W := mkMaster (mkMOutside w []) [] [] MasterSchedulerBackend.init [].

Definition CheckForTaskRun : MM unit := _ ← MasterSchedulerBackend.CheckForTaskRun MContext.Run; mret tt.

Definition run_posted (p : Posted) : MM unit :=
  match p with
  | PostedCheck => CheckForTaskRun
  | PostedDemand task => _ ← IMasterTask.SetMinExpiration task; CheckForTaskRun
  end.

(** A timer that is not active does not expire, and an empty queue has nothing to run. *)
Definition handle (e : MasterEvent) : MM unit :=
  match e with
  | NewSession a p => _ ← MContext.make a p; mret tt
  | LowerLayerUp s => _ ← MContext.OnLowerLayerUp s; mret tt
  | LowerLayerDown s => _ ← MContext.OnLowerLayerDown s; mret tt
  | Receive s address payload => _ ← MContext.OnReceive s address payload; mret tt
  | TxReady s => _ ← MContext.OnTxReady s; mret tt
  | ResponseTimer s =>
      c ← the_session s;
      if responseTimer c then _ ← update_session s (set_responseTimer false); MContext.OnResponseTimeout s else mret tt
  | TaskTimer =>
      timer ← get (fun m => taskTimer (scheduler m));
      match timer with Some _ => _ ← update_scheduler (set_taskTimer None); CheckForTaskRun | None => mret tt end
  | StartTimer =>
      timer ← get (fun m => taskStartTimeout_ (scheduler m));
      match timer with
      | Some _ => _ ← update_scheduler (set_taskStartTimeout None); MasterSchedulerBackend.TimeoutTasks
      | None => mret tt
      end
  | RunPosted =>
      queue ← get posted;
      match queue with p :: queue => _ ← modify (set_posted queue); run_posted p | [] => mret tt end
  | DemandScan task => MasterSchedulerBackend.Demand task
  | RequestDirectOperate s commands callback config => MContext.DirectOperate s commands callback config
  | RequestSelectAndOperate s commands callback config => MContext.SelectAndOperate s commands callback config
  | RequestAddScan s period builder config => _ ← MContext.AddScan s period builder config; mret tt
  | RequestScan s builder config => MContext.Scan s builder config
  | RequestWrite s value index config => MContext.Write s value index config
  | RequestRestart s cold callback config => MContext.Restart s cold callback config
  | RequestFunction s func builder config => MContext.PerformFunction s func builder config
  end.

Fixpoint run (es : list MasterEvent) : MM unit :=
  match es with
  | [] => mret tt
  | e :: es => _ ← handle e; run es
  end.

End Executor.
End MasterChannel.
