(* ===== verification/RequestBuilding.v ===== *)
(** * RequestBuilding: what the tasks of a master write into a request

    [builds] is the contract of a function that writes object headers; a request is two
    bytes of header and what was written. *)

From S2P Require Import Prelude Slices Serialization LinkFrame Transport AppHeader Objects ObjectParser HeaderWriter HeaderRoundtrip OutstationState RequestHandlers EventWriters EventResponse CommandSet MeasurementHandler MasterState MasterTask.

Open Scope Z_scope.

(** ** Functions that write headers *)

(** The function runs on every window, and changes only the bytes that the position
    moves over. *)
Definition builds {A} (m : WM A) : Prop := forall w, wwf w -> wp m w (fun _ w' => exists data, put w w' data).

(** Values with as many fields as their class; the serializers take numbers of any size. *)
Definition shaped (gv : GroupVariation.t) (v : Value) : Prop :=
  match v with Fields vs => length vs = length (fields gv) | _ => False end.

Section Builds.

Lemma builds_ret {A} (a : A) : builds (mret a).
Proof. intros w Hw. rewrite wp_ret. exists []. by apply put_refl. Qed.

Lemma builds_bind {A B} (m : WM A) (f : A -> WM B) : builds m -> (forall a, builds (f a)) -> builds (mbind f m).
Proof.
  intros Hm Hf w Hw. rewrite wp_bind. eapply wp_mono; [by apply Hm|]. cbv beta. intros a w1 [d1 H1].
  eapply wp_mono; [apply (Hf a w1); by eapply put_wf|]. cbv beta. intros b w2 [d2 H2]. exists (d1 ++ d2). by eapply put_trans.
Qed.

Lemma builds_if {A} (b : bool) (m m' : WM A) : builds m -> builds m' -> builds (if b then m else m').
Proof. by destruct b. Qed.

Lemma builds_WriteHeader id qc : builds (HeaderWriter.WriteHeader id qc).
Proof.
  intros w Hw. destruct (decide (3 <= v_size (position w))%nat) as [Hs|Hs].
  - eapply wp_mono; [by apply WriteHeader_wp|]. intros ok w' [_ H]. eexists. by apply wrote_put.
  - unfold HeaderWriter.WriteHeader. wp_go. destruct (Nat.ltb_spec (v_size (position w)) 3); [|lia]. rewrite wp_ret.
    exists []. by apply put_refl.
Qed.

(** A header with [reserve] bytes behind it, and functions that use them. *)
Lemma builds_reserve {A} id qc reserve (m1 m2 : WM A) :
  (forall w, wwf w -> (reserve <= v_size (position w))%nat -> wp m1 w (fun _ w' => exists data, put w w' data)) -> builds m2 ->
  builds (ok ← HeaderWriter.WriteHeaderWithReserve id qc reserve; if (ok : bool) then m1 else m2).
Proof.
  intros H1 H2 w Hw. rewrite wp_bind. apply WithReserve_wp; [done|intros _; by apply H2|].
  intros Hl w1 W1 Hw1 Hs. eapply wp_mono; [by apply H1|]. cbv beta. intros a w2 [d Hd].
  eexists. eapply put_trans; [done|by apply wrote_put|done].
Qed.

Lemma WriteBuffer_put s v w n (Q : unit -> Writer -> Prop) :
  SerializerOk s -> wwf w -> (SIZE s + n <= v_size (position w))%nat ->
  (forall w', put w w' (encode s v) -> wwf w' -> (n <= v_size (position w'))%nat -> Q tt w') -> wp (WriteBuffer s v) w Q.
Proof.
  intros Hs Hw Hn HQ. eapply wp_mono; [apply WriteBuffer_wp; [done|done|lia]|]. intros [] w' H. apply wrote_put in H as Hp.
  apply HQ; [done|by eapply put_wf|]. rewrite (put_size _ _ _ Hp). rewrite encode_length. lia.
Qed.

Lemma SerializerWrite_put gv v w :
  shaped gv v -> wwf w -> (Size gv <= v_size (position w))%nat ->
  wp (SerializerWrite (Inst gv) v) w (fun _ w' => exists data, put w w' data).
Proof.
  intros Hv [Hw Hw'] Hl. destruct v as [vs| | |]; try done. cbn in Hv.
  assert (Hf : map fst (combine (fields gv) vs) = fields gv) by (revert Hv; generalize (fields gv); intros l; revert vs; induction l; intros [|]; cbn; intros; f_equal; auto; lia).
  assert (Hok : Forall (fun sv => SerializerOk sv.1) (combine (fields gv) vs)).
  { pose proof (fields_ok gv) as Ho. revert vs Hv Hf. induction Ho; intros [|v vs] Hv Hf; cbn in *; try constructor; try done. apply IHHo; congruence. }
  destruct (format_many_spec (combine (fields gv) vs) (mkWSlice (wr_array w) (v_pos (position w)) (v_size (position w))) Hok Hw)
    as (a & Ha & He); [cbn; rewrite Hf, <- Size_fields; lia|].
  unfold wp, SerializerWrite, Inst. cbn [pWriteFunc]. rewrite He. cbn [mbind option_bind]. cbn [ws_array ws_pos ws_size] in *.
  eexists. apply wrote_put. split; [|split; [exact Ha|]]; cbn [position]; rewrite encodings_length, Hf, <- Size_fields by done; [lia|done].
Qed.

Lemma builds_WriteRangeHeader s qc id start stop : SerializerOk s -> builds (HeaderWriter.WriteRangeHeader s qc id start stop).
Proof.
  intros Hs. apply builds_reserve; [|apply builds_ret]. intros w Hw Hl. rewrite wp_bind. eapply (WriteBuffer_put s start w (SIZE s)); [done|done|lia|].
  intros w1 P1 Hw1 Hl1. rewrite wp_bind. eapply (WriteBuffer_put s stop w1 0); [done|done|lia|]. intros w2 P2 _ _. rewrite wp_ret.
  eexists. by eapply put_trans.
Qed.

Lemma builds_WriteCountHeader s qc id count : SerializerOk s -> builds (HeaderWriter.WriteCountHeader s qc id count).
Proof.
  intros Hs. apply builds_reserve; [|apply builds_ret]. intros w Hw Hl. rewrite wp_bind. eapply (WriteBuffer_put s count w 0); [done|done|lia|].
  intros w1 P1 _ _. rewrite wp_ret. by eexists.
Qed.

Lemma builds_WriteSingleValue s qc gv v : SerializerOk s -> shaped gv v -> builds (HeaderWriter.WriteSingleValue s qc gv v).
Proof.
  intros Hs Hv. apply builds_reserve; [|apply builds_ret]. intros w Hw Hl. rewrite wp_bind. eapply (WriteBuffer_put s 1 w (Size gv)); [done|done|lia|].
  intros w1 P1 Hw1 Hl1. rewrite wp_bind. eapply wp_mono; [by apply SerializerWrite_put|]. cbv beta. intros ok w2 [d P2]. rewrite wp_ret.
  eexists. by eapply put_trans.
Qed.

Lemma builds_WriteSingleIndexedValue s qc gv v i : SerializerOk s -> shaped gv v -> builds (HeaderWriter.WriteSingleIndexedValue s qc (Inst gv) v i).
Proof.
  intros Hs Hv. apply builds_reserve; [|apply builds_ret]. cbn [ds_size Inst]. intros w Hw Hl. rewrite wp_bind.
  eapply (WriteBuffer_put s 1 w (SIZE s + Size gv)); [done|done|lia|]. intros w1 P1 Hw1 Hl1. rewrite wp_bind.
  eapply (WriteBuffer_put s i w1 (Size gv)); [done|done|lia|]. intros w2 P2 Hw2 Hl2. rewrite wp_bind.
  eapply wp_mono; [by apply SerializerWrite_put|]. cbv beta. intros ok w3 [d P3]. rewrite wp_ret.
  eexists. eapply put_trans; [done|done|]. by eapply put_trans.
Qed.

Lemma builds_WriteClassHeaders classes : builds (build.WriteClassHeaders classes).
Proof.
  unfold build.WriteClassHeaders.
  assert (Hone : forall (b : bool) id (k : WM bool), builds k ->
    builds (ok ← (if b then HeaderWriter.WriteHeader id ALL_OBJECTS else mret true); if negb ok then mret false else k)).
  { intros b id k Hk. apply builds_bind; [apply builds_if; [apply builds_WriteHeader|apply builds_ret]|].
    intros ok. apply builds_if; [apply builds_ret|done]. }
  repeat apply Hone. apply builds_ret.
Qed.

Lemma builds_WriteTo h : builds (RequestHeader.WriteTo h).
Proof.
  destruct h; cbn [RequestHeader.WriteTo];
    [apply builds_WriteHeader|apply builds_WriteRangeHeader; apply _|apply builds_WriteRangeHeader; apply _|apply builds_WriteCountHeader; apply _..].
Qed.

Lemma builds_write_headers headers : forall success, builds (IMasterTask.write_headers success headers).
Proof.
  induction headers as [|h headers IH]; intros success; [apply builds_ret|]. cbn [IMasterTask.write_headers].
  apply builds_bind; [apply builds_WriteTo|]. intros ok. apply IH.
Qed.

(** The bit that is cleared by a write of the restart indication. *)
Definition clear_restart_bit : WM unit :=
  iter ← HeaderWriter.IterateOverSingleBitfield UInt8 (mkGroupVariationID 80 1) UINT8_START_STOP 7;
  '(iter, _) ← BitfieldRangeWriteIterator.Write UInt8 iter false;
  BitfieldRangeWriteIterator.destroy UInt8 iter.

Lemma builds_clear_restart_bit : builds clear_restart_bit.
Proof.
  intros w Hw. pose proof (WBits_performed W8 GroupVariation.Group80Var1 7 [false] w Hw) as HP.
  assert (Hok : request_ok (WBits W8 GroupVariation.Group80Var1 7 [false])) by (cbn; split_and!; [done|lia..]).
  specialize (HP Hok). unfold perform in HP. cbn [put_all] in HP. unfold clear_restart_bit.
  unfold wp, mbind, SM_bind in *. cbn [index_type range_qualifier] in HP. change (ID GroupVariation.Group80Var1) with (mkGroupVariationID 80 1) in HP.
  destruct (HeaderWriter.IterateOverSingleBitfield UInt8 (mkGroupVariationID 80 1) UINT8_START_STOP 7 w) as [[w1 it]|]; [|done].
  destruct (BitfieldRangeWriteIterator.Write UInt8 it false w1) as [[w2 [it2 ok]]|]; [|done].
  assert (Hd : match BitfieldRangeWriteIterator.destroy UInt8 it2 w2 with Some (w3, tt) => exists data, put w w3 data | None => False end).
  { destruct ok; cbn in HP; destruct (BitfieldRangeWriteIterator.destroy UInt8 it2 w2) as [[w3 []]|]; try done;
      destruct HP as (_ & _ & HW); eexists; by apply wrote_put. }
  by destruct (BitfieldRangeWriteIterator.destroy UInt8 it2 w2) as [[w3 []]|].
Qed.

End Builds.

(** ** Commands *)

Section Commands.

(** Commands of the class of their header. *)
Definition header_fits (h : CommandHeader) : Prop := Forall (fun rec => shaped (CommandSet.serializer h) (command rec)) (records h).

Context (PrefixType : Serializer) `{SerializerOk PrefixType} (gv : GroupVariation.t).

(** An iterator whose count lies between the start of the header and the position. *)
Definition iterates w (it : PrefixedWriteIterator.t) w' : Prop :=
  (exists data, put w w' data) /\ PrefixedWriteIterator.serializer it = Inst gv /\
  PrefixedWriteIterator.sizeOfTypePlusIndex it = (Size gv + SIZE PrefixType)%nat /\
  (v_pos (position w) <= v_pos (PrefixedWriteIterator.countPosition it))%nat /\
  (v_pos (PrefixedWriteIterator.countPosition it) + SIZE PrefixType <= v_pos (position w'))%nat.

(** What a loop leaves: an iterator that is valid with its place, or not valid. *)
Definition iterating w (it : PrefixedWriteIterator.t) w' : Prop :=
  if PrefixedWriteIterator.isValid it then iterates w it w' else exists data, put w w' data.

Lemma put_patch w w1 w2 data pos b :
  wwf w -> put w w1 data -> (v_pos (position w) <= pos)%nat -> (pos + length b <= v_pos (position w1))%nat ->
  mem_write (wr_array w1) pos b = Some (wr_array w2) -> position w2 = position w1 -> exists data', put w w2 data'.
Proof.
  intros [Hw _] (Hl & Hn & Ht & Hp) H1 H2 Hm Hp2. rewrite Hp in *. cbn [v_pos v_size] in *.
  pose proof (mem_write_length _ _ _ _ Hm) as Hlen.
  exists (take (length data) (drop (v_pos (position w)) (wr_array w2))).
  assert (Hd : length (take (length data) (drop (v_pos (position w)) (wr_array w2))) = length data) by len.
  split_and!; [lia|congruence| |by rewrite Hp2, Hd]. rewrite Hd.
  rewrite <- (take_drop (v_pos (position w)) (wr_array w2)) at 1. rewrite take_app_ge by len. f_equal.
  - rewrite (mem_write_take_lt _ _ _ _ _ Hm) by lia.
    assert (Hb : take (v_pos (position w)) (wr_array w1) = take (v_pos (position w)) (take (v_pos (position w) + length data) (wr_array w1)))
      by (rewrite take_take; f_equal; lia).
    rewrite Hb, Ht. rewrite take_app_le by len. by rewrite take_take, Nat.min_id.
  - f_equal. len.
Qed.

Lemma iterating_begin qc w :
  wwf w -> wp (HeaderWriter.IterateOverCountWithPrefix PrefixType qc (Inst gv)) w (fun it w' => iterating w it w').
Proof.
  intros Hw. unfold HeaderWriter.IterateOverCountWithPrefix. rewrite wp_bind. apply WithReserve_wp; [done| |].
  - intros _. rewrite wp_ret. exists []. by apply put_refl.
  - intros Hl w1 W1 Hw1 Hs. cbn [ds_size Inst] in *. unfold PrefixedWriteIterator.init. wp_go.
    destruct (Nat.leb_spec (SIZE PrefixType) (v_size (position w1))); [|lia].
    eapply wp_mono; [apply Advance_wp; [done|lia]|]. intros [] w2 (old & Hold & W2). rewrite wp_ret.
    unfold iterating. cbn [PrefixedWriteIterator.isValid]. pose proof W1 as (_ & _ & Hp1). pose proof W2 as (_ & _ & Hp2).
    split; [eexists; apply wrote_put; by eapply wrote_trans|]. cbn [PrefixedWriteIterator.serializer PrefixedWriteIterator.sizeOfTypePlusIndex PrefixedWriteIterator.countPosition ds_size Inst].
    split_and!; [done|done|rewrite Hp1; cbn; lia|rewrite Hp2; cbn; lia].
Qed.

Lemma iterating_Write w it w1 v i :
  wwf w -> iterating w it w1 -> shaped gv v -> wp (PrefixedWriteIterator.Write PrefixType it v i) w1 (fun r w2 => iterating w r.1 w2).
Proof.
  intros Hw Hi Hv. unfold PrefixedWriteIterator.Write. wp_go. unfold iterating in Hi.
  destruct (PrefixedWriteIterator.isValid it) eqn:Hval; cbn [andb]; [|wp_go; unfold iterating; cbn [fst]; by rewrite Hval].
  pose proof Hi as ([data P] & Hser & Hsz & Hc1 & Hc2).
  destruct (Nat.leb_spec (PrefixedWriteIterator.sizeOfTypePlusIndex it) (v_size (position w1))) as [Hle|Hgt];
    [|wp_go; unfold iterating; cbn [fst]; by rewrite Hval].
  rewrite wp_bind. eapply (WriteBuffer_put PrefixType i w1 (Size gv)); [done|by eapply put_wf|lia|]. intros w2 P2 Hw2 Hl2.
  rewrite Hser. rewrite wp_bind. eapply wp_mono; [by apply SerializerWrite_put|]. cbv beta. intros ok w3 [d P3]. rewrite wp_ret.
  unfold iterating. cbn [fst PrefixedWriteIterator.isValid]. pose proof P2 as (_ & _ & _ & Hp2). pose proof P3 as (_ & _ & _ & Hp3).
  split; [eexists; eapply put_trans; [done| |]; [exact P|]; eapply put_trans; [exact (put_wf _ _ _ Hw P)|exact P2|exact P3]|].
  cbn [PrefixedWriteIterator.serializer PrefixedWriteIterator.sizeOfTypePlusIndex PrefixedWriteIterator.countPosition].
  split_and!; [done|done|done|]. rewrite Hp3, Hp2. cbn. lia.
Qed.

Lemma iterating_destroy w it w1 :
  wwf w -> iterating w it w1 -> wp (PrefixedWriteIterator.destroy PrefixType it) w1 (fun _ w2 => exists data, put w w2 data).
Proof.
  intros Hw Hi. unfold PrefixedWriteIterator.destroy, iterating in *. destruct (PrefixedWriteIterator.isValid it); [|by rewrite wp_ret].
  destruct Hi as ([data P] & _ & _ & Hc1 & Hc2). pose proof (put_wf _ _ _ Hw P) as [Hw1 _].
  eapply wp_mono; [apply store_at_wp; rewrite encode_length; lia|]. cbv beta. intros [] w2 [Hm Hp].
  eapply (put_patch w w1 w2); [done|exact P|exact Hc1|by rewrite encode_length|exact Hm|exact Hp].
Qed.

Lemma write_all_iterating w rs : forall it w1,
  wwf w -> iterating w it w1 -> Forall (fun rec => shaped gv (command rec)) rs ->
  wp (TypedCommandHeader.write_all PrefixType it rs) w1 (fun r w2 => iterating w r.1 w2).
Proof.
  induction rs as [|rec rs IH]; intros it w1 Hw Hi Hf; cbn [TypedCommandHeader.write_all]; [by rewrite wp_ret|].
  apply Forall_cons_1 in Hf as [Hr Hf]. rewrite wp_bind. eapply wp_mono; [by apply (iterating_Write w)|]. cbv beta.
  intros [it2 ok] w2 H2. destruct ok; [by apply IH|by rewrite wp_ret].
Qed.

End Commands.

Lemma builds_write_with PrefixType qc h :
  SerializerOk PrefixType -> header_fits h -> builds (TypedCommandHeader.write_with PrefixType qc h).
Proof.
  intros Hs Hf w Hw. unfold TypedCommandHeader.write_with. rewrite wp_bind. eapply wp_mono; [by apply iterating_begin|]. cbv beta. intros it w1 H1.
  rewrite wp_bind. eapply wp_mono; [apply (write_all_iterating PrefixType (CommandSet.serializer h) w); [done|exact H1|exact Hf]|]. cbv beta. intros [it2 ok] w2 H2. rewrite wp_bind.
  eapply wp_mono; [apply (iterating_destroy PrefixType (CommandSet.serializer h) w); [done|exact H2]|]. cbv beta. intros [] w3 H3. by rewrite wp_ret.
Qed.

(** Only the choice of the qualifier changes. *)
Definition same_commands (h h' : CommandHeader) : Prop := CommandSet.serializer h' = CommandSet.serializer h /\ records h' = records h.

Lemma builds_header h mode : header_fits h -> builds (TypedCommandHeader.Write h mode).
Proof.
  intros Hf. unfold TypedCommandHeader.Write. destruct (decide (records h = [])); [apply builds_ret|].
  apply builds_bind; [|intros; apply builds_ret]. apply builds_if; apply builds_write_with; (apply _ || exact Hf).
Qed.

Lemma Write_same h mode w : header_fits h -> wwf w -> wp (TypedCommandHeader.Write h mode) w (fun r _ => same_commands h r.1).
Proof.
  intros Hf Hw. pose proof (builds_header h mode Hf w Hw) as Hb. unfold TypedCommandHeader.Write in *.
  destruct (decide (records h = [])); [by rewrite wp_ret|]. rewrite wp_bind in *. eapply wp_mono; [exact Hb|]. cbv beta. intros ok w1 _. by rewrite wp_ret.
Qed.

(** [CommandSetOps::Write] *)
Lemma commands_written set mode : forall w, Forall header_fits set -> wwf w ->
  wp (CommandSetOps.Write set mode) w (fun r w' => (exists data, put w w' data) /\ Forall2 same_commands set r.1).
Proof.
  induction set as [|h set IH]; intros w Hf Hw; cbn [CommandSetOps.Write]; [rewrite wp_ret; split; [exists []; by apply put_refl|constructor]|].
  apply Forall_cons_1 in Hf as [Hh Hf]. rewrite wp_bind. eapply wp_mono; [apply wp_and; [by apply (builds_header h mode)|by apply Write_same]|]. cbv beta.
  assert (Hrefl : Forall2 same_commands set set) by (clear; induction set; by constructor).
  intros [h' ok] w1 [[d1 P1] Hs]. destruct ok; [|rewrite wp_ret; split; [by eexists|by constructor]].
  rewrite wp_bind. eapply wp_mono; [apply IH; [done|by eapply put_wf]|]. cbv beta. intros [set' ok] w2 [[d2 P2] Hs2]. rewrite wp_ret.
  split; [eexists; by eapply put_trans|by constructor].
Qed.

(** ** Requests *)

(** A request in a buffer of [n] bytes: two bytes of header and what was written. *)
Record request_frame (n : nat) (f : APDUWrapper) (hdr data : bytes) : Prop := mkRequestFrame {
  rf_buffer : buffer f = mkView 0 n;
  rf_length : length (apdu_array f) = n;
  rf_remaining : remaining f = mkView (2 + length data) (n - (2 + length data));
  rf_fits : (2 + length data <= n)%nat;
  rf_header : length hdr = 2%nat;
  rf_bytes : take (2 + length data) (apdu_array f) = hdr ++ data
}.

(** The header of a request. *)
Definition request_header (c : AppControlField) (fc : FunctionCode) : bytes := [AppControlField.ToByte c; FunctionCodeToType fc].

Section Frames.

Lemma frame_init (array : bytes) :
  (2 <= length array)%nat -> exists f, APDUWrapper.init (mkWSlice array 0 (length array)) = Some f /\
    apdu_array f = array /\ request_frame (length array) f (take 2 array) [].
Proof.
  intros Hn. unfold APDUWrapper.init. cbn [ws_pos ws_size ws_array v_size]. destruct (Nat.leb_spec 2 (length array)); [|lia].
  cbn [c_assert mbind option_bind]. eexists. split; [done|]. split; [done|]. split; cbn [buffer apdu_array remaining]; [done|done| |cbn; lia|len|].
  - by rewrite advance_le by (cbn; lia).
  - by rewrite app_nil_r.
Qed.

Lemma frame_store n f hdr data i b :
  request_frame n f hdr data -> (i < 2)%nat -> exists f', APDUWrapper.store f i b = Some f' /\ request_frame n f' (<[i := b]> hdr) data.
Proof.
  intros [Hb Hl Hr Hf Hh Hy] Hi. unfold APDUWrapper.store. rewrite Hb. cbn [v_pos]. rewrite Nat.add_0_l, mem_write_byte by lia.
  cbn [mbind option_bind].
  eexists. split; [done|]. split; cbn [buffer apdu_array remaining]; [done|by rewrite length_insert|done|done|by rewrite length_insert|].
  rewrite take_insert_lt by lia. rewrite Hy. by rewrite insert_app_l by lia.
Qed.

Lemma frame_SetControl n f hdr data c :
  request_frame n f hdr data -> exists f', APDUWrapper.SetControl f c = Some f' /\ request_frame n f' (<[0%nat := AppControlField.ToByte c]> hdr) data.
Proof. intros Hf. by apply (frame_store n f hdr data 0); [|lia]. Qed.

Lemma frame_SetFunction n f hdr data fc :
  request_frame n f hdr data -> exists f', APDUWrapper.SetFunction f fc = Some f' /\ request_frame n f' (<[1%nat := FunctionCodeToType fc]> hdr) data.
Proof.
  intros Hf. unfold APDUWrapper.SetFunction. pose proof (rf_fits _ _ _ _ Hf). rewrite (rf_buffer _ _ _ _ Hf). cbn [v_size].
  destruct (Nat.ltb_spec 0 n); [|lia]. cbn [c_assert mbind option_bind]. by apply (frame_store n f hdr data 1); [|lia].
Qed.

Lemma two_bytes (hdr : bytes) a b : length hdr = 2%nat -> <[1%nat := b]> (<[0%nat := a]> hdr) = [a; b].
Proof. by destruct hdr as [|x [|y [|]]]. Qed.

Lemma two_bytes' (hdr : bytes) a b : length hdr = 2%nat -> <[0%nat := a]> (<[1%nat := b]> hdr) = [a; b].
Proof. by destruct hdr as [|x [|y [|]]]. Qed.

Lemma frame_set_header n f hdr data c fc :
  request_frame n f hdr data -> exists f', IMasterTask.set_header c fc f = Some f' /\ request_frame n f' (request_header c fc) data.
Proof.
  intros Hf. pose proof (rf_header _ _ _ _ Hf) as Hh. unfold IMasterTask.set_header. destruct (frame_SetControl n f hdr data c Hf) as (f1 & -> & H1). cbn [mbind option_bind].
  destruct (frame_SetFunction n f1 _ data fc H1) as (f2 & -> & H2). exists f2. split; [done|]. by rewrite (two_bytes hdr _ _ Hh) in H2.
Qed.

Lemma frame_set_header' n f hdr data c fc :
  request_frame n f hdr data -> exists f', IMasterTask.set_header' fc c f = Some f' /\ request_frame n f' (request_header c fc) data.
Proof.
  intros Hf. pose proof (rf_header _ _ _ _ Hf) as Hh. unfold IMasterTask.set_header'. destruct (frame_SetFunction n f hdr data fc Hf) as (f1 & -> & H1). cbn [mbind option_bind].
  destruct (frame_SetControl n f1 _ data c H1) as (f2 & -> & H2). exists f2. split; [done|]. by rewrite (two_bytes' hdr _ _ Hh) in H2.
Qed.

(** What a function wrote, when it was run on some window. *)
Definition writes {A} (m : WM A) (a : A) (data : bytes) : Prop := exists w w', wwf w /\ m w = Some (w', a) /\ put w w' data.

Lemma frame_with_writer {A} n f hdr (m : WM A) :
  request_frame n f hdr [] -> Z.of_nat n < 536870912 -> builds m ->
  exists f' a body, with_writer f m = Some (f', a) /\ request_frame n f' hdr body /\ writes m a body.
Proof.
  intros [Hb Hl Hr Hf Hh Hy] Hn Hm. set (w := mkWriter (apdu_array f) (remaining f) None).
  assert (Hw : wwf w) by (unfold wwf, w; cbn [position wr_array]; rewrite Hr; cbn [v_pos v_size length]; lia).
  destruct (wp_run _ _ _ (Hm w Hw)) as (w' & a & Hrun & data & Hp). unfold with_writer. fold w. rewrite Hrun. cbn [mbind option_bind].
  eexists _, a, data. split; [done|]. split; [|by exists w, w'].
  destruct Hp as (P1 & P2 & P3 & P4).
  unfold w in P1, P2, P3, P4. cbn [position wr_array] in *. rewrite Hr in *. cbn [v_pos v_size length] in *. rewrite Nat.add_0_r in *.
  split; cbn [buffer apdu_array remaining]; [done|congruence|rewrite P4; f_equal; lia|lia|done|].
  by rewrite P3, Hy, app_nil_r.
Qed.

(** What is transmitted. *)
Lemma frame_ToRSlice n f hdr data : request_frame n f hdr data -> APDUWrapper.ToRSlice f = Some (hdr ++ data).
Proof.
  intros [Hb Hl Hr Hf Hh Hy]. unfold APDUWrapper.ToRSlice, APDUWrapper.Size. rewrite Hb, Hr. cbn [v_pos v_size].
  rewrite mem_read_Some by lia. cbn [mbind option_bind]. f_equal. rewrite <- Hy. unfold RSlice.Take. rewrite drop_0. rewrite take_take. f_equal. unfold RSlice.Size. rewrite length_take. lia.
Qed.

End Frames.
