(* ===== verification/MasterSpecs.v ===== *)
(** * MasterSpecs: what the methods of a task change

    [quiet] is all that a method of a task may do: change the fields of tasks, the blocks
    of its session and what the application is told; it transmits nothing and leaves the
    scheduler and the rest of the sessions alone.  Only the task that the relation names
    changes the fields of its class. *)

From S2P Require Import Prelude Slices Serialization LinkFrame Transport AppHeader Objects ObjectParser HeaderWriter HeaderRoundtrip OutstationState RequestHandlers EventWriters EventResponse RequestSpecs TaskBehavior CommandSet CommandProps MeasurementHandler MeasurementProps MasterState MasterTask MasterScheduler Master RequestBuilding.

From stdpp Require Import gmap.

Open Scope Z_scope.

(** ** Tasks *)

(** The same commands, whatever is known of them. *)
Definition same_points (h h' : CommandHeader) : Prop :=
  CommandSet.serializer h' = CommandSet.serializer h /\
  map (fun rec => (cr_index rec, command rec)) (records h') = map (fun rec => (cr_index rec, command rec)) (records h).

Lemma same_commands_points h h' : same_commands h h' -> same_points h h'.
Proof. intros [Hs Hr]. split; [done|by rewrite Hr]. Qed.

Lemma same_points_fits h h' : same_points h h' -> header_fits h -> header_fits h'.
Proof.
  unfold header_fits, same_points. destruct h as [gv b rs], h' as [gv' b' rs']. cbn. intros [-> Hr]. revert rs Hr.
  induction rs' as [|rec' rs' IH]; intros [|rec rs] Hr Hf; try done. cbn in Hr. injection Hr as _ Hc Hr. apply Forall_cons_1 in Hf as [H1 Hf].
  constructor; [by rewrite Hc|by apply (IH rs)].
Qed.

(** A task of the same class with other dynamic fields; the codes of a command are
    used up in order. *)
Definition same_class (k k' : TaskKind) : Prop :=
  match k, k' with
  | UserPollTask b r _, UserPollTask b' r' _ => b' = b /\ r' = r
  | EventScanTask c _, EventScanTask c' _ | StartupIntegrityPoll c _, StartupIntegrityPoll c' _
  | EnableUnsolicitedTask c, EnableUnsolicitedTask c' => c' = c
  | ClearRestartTask, ClearRestartTask | AssignClassTask, AssignClassTask | DisableUnsolicitedTask, DisableUnsolicitedTask
  | SerialTimeSyncTask _ _, SerialTimeSyncTask _ _ | LANTimeSyncTask _ _, LANTimeSyncTask _ _ => True
  | EmptyResponseTask f b, EmptyResponseTask f' b' => f' = f /\ b' = b
  | RestartOperationTask f c _, RestartOperationTask f' c' _ => f' = f /\ c' = c
  | CommandTask fs c set m, CommandTask fs' c' set' m' => fs' `suffix_of` fs /\ c' = c /\ m' = m /\ Forall2 same_points set set'
  | _, _ => False
  end.

Definition kind_fits (k : TaskKind) : Prop :=
  match k with
  | UserPollTask b _ _ => builds b
  | EmptyResponseTask func b => builds b /\ func <> OPERATE /\ func <> CONFIRM
  | RestartOperationTask func _ _ => func = COLD_RESTART \/ func = WARM_RESTART
  | CommandTask _ _ set _ => Forall header_fits set
  | _ => True
  end.

Record task_ok (t : Task) : Prop := mkTaskOk { tk_behavior : behavior_ok (behavior t); tk_kind : kind_fits (kind t) }.

Record task_moved (t t' : Task) : Prop := mkTaskMoved {
  tm_context : context t' = context t;
  tm_config : config t' = config t;
  tm_class : same_class (kind t) (kind t');
  tm_start : startExpiration (behavior t') = startExpiration (behavior t);
  tm_behavior : behavior_ok (behavior t) -> behavior_ok (behavior t')
}.

Section TaskFacts.

Lemma same_points_refl h : same_points h h.
Proof. done. Qed.

Lemma same_points_all set : Forall2 same_points set set.
Proof. induction set; by constructor. Qed.

Lemma same_points_trans set1 set2 set3 : Forall2 same_points set1 set2 -> Forall2 same_points set2 set3 -> Forall2 same_points set1 set3.
Proof.
  intros H1. revert set3. induction H1 as [|h1 h2 set1 set2 [Hs Hr] _ IH]; intros set3 H2; inversion H2 as [|? h3 ? set3' [Hs' Hr'] H2']; subst; constructor; [|by apply IH].
  split; congruence.
Qed.

Lemma same_class_refl k : same_class k k.
Proof. destruct k; cbn; try done. split_and!; [done|done|done|apply same_points_all]. Qed.

Lemma same_class_trans k1 k2 k3 : same_class k1 k2 -> same_class k2 k3 -> same_class k1 k3.
Proof.
  destruct k1, k2, k3; cbn; try done; try (intros -> ->; done); try (intros [-> ->] [-> ->]; done).
  intros (S1 & -> & -> & P1) (S2 & -> & -> & P2). split_and!; [by etrans|done|done|by eapply same_points_trans].
Qed.

Lemma same_class_recurring k k' : same_class k k' -> TaskKind.IsRecurring k' = TaskKind.IsRecurring k.
Proof. destruct k, k'; cbn; try done. by intros [_ ->]. Qed.

Lemma same_class_priority k k' : same_class k k' -> TaskKind.Priority k' = TaskKind.Priority k.
Proof. by destruct k, k'. Qed.

Lemma same_class_fits k k' : same_class k k' -> kind_fits k -> kind_fits k'.
Proof.
  destruct k, k'; cbn; try done; [by intros [-> _]|by intros [-> ->]|by intros [-> _]|]. intros (_ & _ & _ & HP) Hf.
  induction HP as [|h h' set set' Hp _ IH]; [constructor|]. apply Forall_cons_1 in Hf as [Hh Hf]. constructor; [by eapply same_points_fits|by apply IH].
Qed.

Lemma task_moved_refl t : task_moved t t.
Proof. split; try done. apply same_class_refl. Qed.

Lemma task_moved_trans t1 t2 t3 : task_moved t1 t2 -> task_moved t2 t3 -> task_moved t1 t3.
Proof. intros [] []. split; [congruence|congruence|by eapply same_class_trans|congruence|auto]. Qed.

Lemma task_moved_ok t t' : task_moved t t' -> task_ok t -> task_ok t'.
Proof. intros [] []. split; [auto|by eapply same_class_fits]. Qed.

Lemma set_kind_moved k t : same_class (kind t) k -> task_moved t (set_kind k t).
Proof. by split. Qed.

Lemma set_behavior_moved b t : startExpiration b = startExpiration (behavior t) -> (behavior_ok (behavior t) -> behavior_ok b) -> task_moved t (set_behavior b t).
Proof. split; try done. apply same_class_refl. Qed.

End TaskFacts.

(** ** Quiet changes *)

(** A session of which only the blocks differ. *)
Definition other_blocks (c c' : MContext) : Prop := exists b, c' = set_mtasks (set_blocking_tasks b (mtasks c)) c.

(** What is transmitted by a call. *)
Definition transmitted (c : MasterCall) : option bytes := match c with MasterTransmit _ data => Some data | _ => None end.

Definition silent (sc : nat * MasterCall) : Prop := transmitted sc.2 = None.

Record quiet {W} (o : option nat) (m m' : Master W) : Prop := mkQuiet {
  qu_calls : exists cs, mcalls (outside m') = mcalls (outside m) ++ cs /\ Forall silent cs;
  qu_store : Forall2 task_moved (store m) (store m');
  qu_kinds : forall j, o <> Some j -> kind <$> store m' !! j = kind <$> store m !! j;
  qu_sessions : Forall2 other_blocks (sessions m) (sessions m');
  qu_scheduler : scheduler m' = scheduler m;
  qu_posted : posted m' = posted m
}.

Section Quiet.
Context {W : Type}.
Implicit Types (m : Master W) (o : option nat).

Lemma other_blocks_refl c : other_blocks c c.
Proof. exists (blocking_tasks (mtasks c)). destruct c as [? ? ? ? ? ? ? ? [] ? ? ?]. done. Qed.

Lemma other_blocks_trans c1 c2 c3 : other_blocks c1 c2 -> other_blocks c2 c3 -> other_blocks c1 c3.
Proof. intros [b1 ->] [b2 ->]. by exists b2. Qed.

#[export] Instance task_moved_preorder : PreOrder task_moved.
Proof. split; [exact task_moved_refl|exact task_moved_trans]. Qed.

#[export] Instance other_blocks_preorder : PreOrder other_blocks.
Proof. split; [exact other_blocks_refl|exact other_blocks_trans]. Qed.

#[export] Instance quiet_preorder o : PreOrder (@quiet W o).
Proof.
  split.
  - intros m. split; [exists []; by rewrite app_nil_r|reflexivity|done|reflexivity|done|done].
  - intros m1 m2 m3 [(c1 & Hc1 & Hs1) S1 K1 E1 D1 P1] [(c2 & Hc2 & Hs2) S2 K2 E2 D2 P2]. split; [|by etrans| |by etrans|congruence|congruence].
    + exists (c1 ++ c2). rewrite Hc2, Hc1, app_assoc. split; [done|by apply Forall_app_2].
    + intros j Hj. by rewrite K2, K1.
Qed.

Lemma quiet_weaken o m m' : quiet None m m' -> quiet o m m'.
Proof. intros [C S K E D P]. split; [done|done| |done|done|done]. intros j _. by apply K. Qed.

Lemma quiet_task o m m' i t : quiet o m m' -> store m !! i = Some t -> exists t', store m' !! i = Some t' /\ task_moved t t'.
Proof. intros [_ Hs _ _ _ _] Hi. by apply (Forall2_lookup_l _ _ _ _ _ Hs). Qed.

Lemma quiet_session o m m' s c : quiet o m m' -> sessions m !! s = Some c -> exists c', sessions m' !! s = Some c' /\ other_blocks c c'.
Proof. intros [_ _ _ Hs _ _] Hi. by apply (Forall2_lookup_l _ _ _ _ _ Hs). Qed.

(** *** Elementary steps *)

Lemma quiet_outside o m x : (exists cs, mcalls x = mcalls (outside m) ++ cs /\ Forall silent cs) -> quiet o m (set_outside x m).
Proof. intros Hc. split; [exact Hc|reflexivity|done|reflexivity|done|done]. Qed.

Lemma quiet_store o m i t t' :
  store m !! i = Some t -> task_moved t t' -> o = Some i \/ kind t' = kind t -> quiet o m (set_store (<[i := t']> (store m)) m).
Proof.
  intros Hi Ht Hk. split; [exists []; by rewrite app_nil_r| | |reflexivity|done|done]; cbn [store set_store].
  - rewrite <- (list_insert_id (store m) i t Hi) at 1. by apply Forall2_insert.
  - intros j Hj. destruct (decide (j = i)) as [->|Hne]; [|by rewrite list_lookup_insert_ne].
    rewrite list_lookup_insert_eq by (by eapply lookup_lt_Some). rewrite Hi. cbn. destruct Hk as [-> | ->]; done.
Qed.

Lemma quiet_blocks o m s c c' : sessions m !! s = Some c -> other_blocks c c' -> quiet o m (set_sessions (<[s := c']> (sessions m)) m).
Proof.
  intros Hi Ht. split; [exists []; by rewrite app_nil_r|reflexivity|done| |done|done]. cbn [sessions set_sessions].
  rewrite <- (list_insert_id (sessions m) s c Hi) at 1. by apply Forall2_insert.
Qed.

End Quiet.

(** The time of the executor is a time. *)
Class MasterEnvironmentOk (W : Type) `{MasterEnvironment W} := executor_time_ok : forall w, is_time (executor_time w).1.

(** All tasks are good, and their contexts exist. *)
Definition store_ok {W} (m : Master W) : Prop :=
  forall i t, store m !! i = Some t -> task_ok t /\ (context t < length (sessions m))%nat.

Lemma quiet_store_ok {W} o (m m' : Master W) : quiet o m m' -> store_ok m -> store_ok m'.
Proof.
  intros Hq Hs i t' Hi. destruct (Forall2_lookup_r _ _ _ _ _ (qu_store _ _ _ Hq) Hi) as (t & Ht & Hm). destruct (Hs i t Ht) as [Ho Hc].
  split; [by eapply task_moved_ok|]. rewrite (tm_context _ _ Hm), <- (Forall2_length _ _ _ (qu_sessions _ _ _ Hq)). done.
Qed.

(** ** The steps of a method *)

Section Steps.
Context {W : Type} `{MasterEnvironmentOk W}.
Implicit Types m : Master W.

Lemma wp_ask_outside {A} (f : W -> A * W) m (Q : A -> Master W -> Prop) :
  (forall m', (forall o, quiet o m m') -> mcalls (outside m') = mcalls (outside m) -> store m' = store m -> sessions m' = sessions m -> Q (f (mworld (outside m))).1 m') ->
  wp (ask_outside f) m Q.
Proof.
  intros HQ. unfold wp, ask_outside. destruct (f (mworld (outside m))) as [a w] eqn:Hf. cbn [fst] in HQ. apply HQ; [|done..].
  intros o. apply quiet_outside. exists []. by rewrite app_nil_r.
Qed.

Lemma wp_time m (Q : Z -> Master W -> Prop) :
  (forall now m', is_time now -> (forall o, quiet o m m') -> mcalls (outside m') = mcalls (outside m) -> store m' = store m -> sessions m' = sessions m -> Q now m') ->
  wp ExecutorGetTime m Q.
Proof. intros HQ. apply wp_ask_outside. intros m' Hq. apply HQ; [apply executor_time_ok|done]. Qed.

Lemma wp_told s c m (Q : unit -> Master W -> Prop) :
  transmitted c = None -> (forall m', (forall o, quiet o m m') -> store m' = store m -> Q tt m') -> wp (tell_outside s c) m Q.
Proof.
  intros Hc HQ. unfold wp, tell_outside. apply HQ; [|done]. intros o. apply quiet_outside. exists [(s, c)]. split; [done|by constructor].
Qed.

Lemma wp_told_all s cs : forall m (Q : unit -> Master W -> Prop),
  Forall (fun c => transmitted c = None) cs -> (forall m', (forall o, quiet o m m') -> store m' = store m -> Q tt m') -> wp (tell_all s cs) m Q.
Proof.
  induction cs as [|c cs IH]; intros m Q Hc HQ; cbn [tell_all]; [rewrite wp_ret; apply HQ; [reflexivity|done]|].
  apply Forall_cons_1 in Hc as [H1 Hc]. rewrite wp_bind. apply wp_told; [done|]. intros m1 Q1 E1. apply IH; [done|]. intros m2 Q2 E2.
  apply HQ; [intros o; by transitivity m1|congruence].
Qed.

Lemma wp_task i t m (Q : Task -> Master W -> Prop) : store m !! i = Some t -> Q t m -> wp (the_task i) m Q.
Proof. intros Hi HQ. unfold wp, the_task. by rewrite Hi. Qed.

Lemma wp_update_task i t f m (Q : unit -> Master W -> Prop) :
  store m !! i = Some t -> task_moved t (f t) ->
  (forall m', (forall o, o = Some i \/ kind (f t) = kind t -> quiet o m m') -> mcalls (outside m') = mcalls (outside m) -> sessions m' = sessions m ->
    store m' = <[i := f t]> (store m) -> store m' !! i = Some (f t) -> Q tt m') -> wp (update_task i f) m Q.
Proof.
  intros Hi Hm HQ. unfold wp, update_task. rewrite Hi. cbn [mbind option_bind]. apply HQ; [intros o Ho; by eapply quiet_store|done|done|done|].
  cbn. apply list_lookup_insert_eq. by eapply lookup_lt_Some.
Qed.

Lemma wp_session s c m (Q : MContext -> Master W -> Prop) : sessions m !! s = Some c -> Q c m -> wp (the_session s) m Q.
Proof. intros Hi HQ. unfold wp, the_session. by rewrite Hi. Qed.

Lemma wp_update_blocks s c f m (Q : unit -> Master W -> Prop) :
  sessions m !! s = Some c -> other_blocks c (f c) ->
  (forall m', (forall o, quiet o m m') -> mcalls (outside m') = mcalls (outside m) -> store m' = store m -> Q tt m') -> wp (update_session s f) m Q.
Proof.
  intros Hi Hm HQ. unfold wp, update_session. rewrite Hi. cbn [mbind option_bind]. apply HQ; [intros o; by eapply quiet_blocks|done|done].
Qed.

End Steps.

(** A chain of quiet steps that leads to the last state. *)
Ltac quietly :=
  lazymatch goal with
  | |- quiet _ ?m ?m => reflexivity
  | Q : forall o, quiet o ?x ?m' |- quiet ?o ?m ?m' => transitivity x; [quietly|exact (Q o)]
  | Q : forall o, _ -> quiet o ?x ?m' |- quiet ?o ?m ?m' => transitivity x; [quietly|apply Q; first [by left|by right]]
  | Q : quiet ?o ?x ?m' |- quiet ?o ?m ?m' => transitivity x; [quietly|exact Q]
  | Q : quiet None ?x ?m' |- quiet ?o ?m ?m' => transitivity x; [quietly|exact (quiet_weaken o x m' Q)]
  end.

(** ** BuildRequest *)

(** The function code of the next request of a task. *)
Definition next_function (k : TaskKind) : FunctionCode :=
  match k with
  | UserPollTask _ _ _ | EventScanTask _ _ | StartupIntegrityPoll _ _ => READ
  | ClearRestartTask => WRITE
  | AssignClassTask => ASSIGN_CLASS
  | EnableUnsolicitedTask _ => ENABLE_UNSOLICITED
  | DisableUnsolicitedTask => DISABLE_UNSOLICITED
  | EmptyResponseTask func _ => func
  | SerialTimeSyncTask delay _ => if delay <? 0 then DELAY_MEASURE else WRITE
  | LANTimeSyncTask state _ => if decide (state = RECORD_CURRENT_TIME_) then RECORD_CURRENT_TIME else WRITE
  | RestartOperationTask func _ _ => func
  | CommandTask codes _ _ _ => hd CONFIRM codes
  end.

(** What becomes of the commands when their request is built. *)
Definition commands_sent (k k' : TaskKind) : Prop :=
  match k, k' with
  | CommandTask (_ :: codes) _ set _, CommandTask codes' _ set' _ => codes' = codes /\ Forall2 same_commands set set'
  | CommandTask [] _ set _, CommandTask codes' _ set' _ => codes' = [] /\ set' = set
  | _, _ => True
  end.

Section Building.
Context {W : Type} `{MasterEnvironmentOk W}.
Implicit Types m : Master W.

(** A request with the function code of the task; the buffer is used in any case. *)
Definition built (n : nat) (seq : Z) (i : nat) (t : Task) m (r : APDUWrapper * bool) m' : Prop :=
  quiet (Some i) m m' /\ mcalls (outside m') = mcalls (outside m) /\
  (exists t', store m' !! i = Some t' /\ commands_sent (kind t) (kind t')) /\
  exists hdr body, request_frame n r.1 hdr body /\
    (r.2 = true -> hdr = request_header (AppControlField.Request seq) (next_function (kind t)) /\
      match kind t with CommandTask codes _ set mode => codes <> [] /\ (exists set', writes (CommandSetOps.Write set mode) (set', true) body) | _ => True end).

Definition no_command (k : TaskKind) : Prop := match k with CommandTask _ _ _ _ => False | _ => True end.

Lemma no_command_sent k k' : no_command k -> commands_sent k k'.
Proof. by destruct k. Qed.

(** A request whose header is set and whose headers are written by a function. *)
Lemma wp_lift_frame {A} n (f : APDUWrapper) hdr (w : WM A) (o : option (APDUWrapper * A)) m (Q : APDUWrapper * A -> Master W -> Prop) :
  (exists f' a body, o = Some (f', a) /\ request_frame n f' hdr body /\ writes w a body) ->
  (forall f' a body, request_frame n f' hdr body -> Q (f', a) m) -> wp (lift o) m Q.
Proof. intros (f' & a & body & -> & Hf & _) HQ. unfold wp, lift. cbn [mbind option_bind]. by eapply HQ. Qed.

Lemma wp_lift_header n hdr data (o : option APDUWrapper) m (Q : APDUWrapper -> Master W -> Prop) :
  (exists f', o = Some f' /\ request_frame n f' hdr data) -> (forall f', request_frame n f' hdr data -> Q f' m) -> wp (lift o) m Q.
Proof. intros (f' & -> & Hf) HQ. unfold wp, lift. cbn [mbind option_bind]. by apply HQ. Qed.

Lemma frame_ClassRequest n f hdr fc classes seq :
  request_frame n f hdr [] -> Z.of_nat n < 536870912 ->
  exists f' body, build.ClassRequest f fc classes seq = Some f' /\ request_frame n f' (request_header (AppControlField.Request seq) fc) body.
Proof.
  intros Hf Hn. pose proof (frame_set_header n f hdr [] (AppControlField.Request seq) fc Hf) as (f2 & Hs & H2).
  unfold IMasterTask.set_header in Hs. unfold build.ClassRequest. change (mkAppControlField true true false false seq) with (AppControlField.Request seq).
  destruct (APDUWrapper.SetControl f (AppControlField.Request seq)) as [f1|]; [|done]. cbn [mbind option_bind] in *. rewrite Hs. cbn [mbind option_bind].
  destruct (frame_with_writer n f2 _ (build.WriteClassHeaders classes) H2 Hn (builds_WriteClassHeaders classes)) as (f3 & a & body & -> & H3 & _).
  cbn [mbind option_bind]. by exists f3, body.
Qed.

Lemma frame_ClearRestartIIN n f hdr seq :
  request_frame n f hdr [] -> Z.of_nat n < 536870912 ->
  exists f' body, build.ClearRestartIIN f seq = Some f' /\ request_frame n f' (request_header (AppControlField.Request seq) WRITE) body.
Proof.
  intros Hf Hn. pose proof (frame_set_header' n f hdr [] (AppControlField.Request seq) WRITE Hf) as (f2 & Hs & H2).
  unfold IMasterTask.set_header' in Hs. unfold build.ClearRestartIIN. change (mkAppControlField true true false false seq) with (AppControlField.Request seq).
  destruct (APDUWrapper.SetFunction f WRITE) as [f1|]; [|done]. cbn [mbind option_bind] in *. rewrite Hs. cbn [mbind option_bind].
  destruct (frame_with_writer n f2 _ clear_restart_bit H2 Hn builds_clear_restart_bit) as (f3 & a & body & Hw & H3 & _).
  unfold clear_restart_bit in Hw. rewrite Hw. cbn [mbind option_bind]. by exists f3, body.
Qed.

Lemma shaped_time gv v : length (fields gv) = 1%nat -> shaped gv (Fields [v]).
Proof. by cbn. Qed.

Context (n : nat) (seq : Z) (i : nat) (t : Task) (request : APDUWrapper) (hdr0 : bytes).
Context (Hframe : request_frame n request hdr0 []) (Hn : Z.of_nat n < 536870912).

Lemma built_here m r : store m !! i = Some t -> no_command (kind t) ->
  (exists body, request_frame n r.1 (request_header (AppControlField.Request seq) (next_function (kind t))) body) -> built n seq i t m r m.
Proof.
  intros Hi Hk [body Hb]. split; [reflexivity|]. split; [done|]. split; [exists t; split; [done|by apply no_command_sent]|].
  eexists _, body. split; [exact Hb|]. intros _. split; [done|]. destruct (kind t); done.
Qed.

Lemma built_moved m m' r t' : quiet (Some i) m m' -> mcalls (outside m') = mcalls (outside m) -> store m' !! i = Some t' -> no_command (kind t) ->
  (exists body, request_frame n r.1 (request_header (AppControlField.Request seq) (next_function (kind t))) body) -> built n seq i t m r m'.
Proof.
  intros Hq Hc Hi Hk [body Hb]. split; [done|]. split; [done|]. split; [exists t'; split; [done|by apply no_command_sent]|].
  eexists _, body. split; [exact Hb|]. intros _. split; [done|]. destruct (kind t); done.
Qed.

Lemma SerialTimeSync_built m delay start :
  store m !! i = Some t -> kind t = SerialTimeSyncTask delay start ->
  wp (IMasterTask.SerialTimeSync_BuildRequest i t delay start request seq) m (built n seq i t m).
Proof.
  intros Hi Hk. unfold IMasterTask.SerialTimeSync_BuildRequest. assert (Hf : next_function (kind t) = if delay <? 0 then DELAY_MEASURE else WRITE) by (by rewrite Hk).
  assert (Hnc : no_command (kind t)) by (by rewrite Hk).
  destruct (delay <? 0); rewrite wp_bind; apply wp_ask_outside; intros m1 Q1 C1 S1 E1.
  - rewrite wp_bind. apply (wp_update_task i t); [by rewrite S1|apply set_kind_moved; by rewrite Hk|]. intros m2 Q2 C2 E2 S2 T2. rewrite wp_bind.
    apply (wp_lift_header n (request_header (AppControlField.Request seq) DELAY_MEASURE) []); [exact (frame_set_header' n request hdr0 [] _ _ Hframe)|].
    intros f' Hf'. rewrite wp_ret. eapply built_moved; [quietly|congruence|exact T2|exact Hnc|]. rewrite Hf. by exists [].
  - rewrite wp_bind. apply (wp_lift_header n (request_header (AppControlField.Request seq) WRITE) []); [by apply (frame_set_header' n request hdr0)|].
    intros f' Hf'. rewrite wp_bind. eapply wp_lift_frame; [exact f'|eapply frame_with_writer; [exact Hf'|exact Hn|apply builds_WriteSingleValue; [apply _|by apply shaped_time]]|].
    intros f2 a body H2. rewrite wp_ret. eapply built_moved; [quietly|done|by rewrite S1|exact Hnc|]. rewrite Hf. by exists body.
Qed.

Lemma LANTimeSync_built m state start :
  store m !! i = Some t -> kind t = LANTimeSyncTask state start ->
  wp (IMasterTask.LANTimeSync_BuildRequest i t state start request seq) m (built n seq i t m).
Proof.
  intros Hi Hk. unfold IMasterTask.LANTimeSync_BuildRequest.
  assert (Hf : next_function (kind t) = if decide (state = RECORD_CURRENT_TIME_) then RECORD_CURRENT_TIME else WRITE) by (by rewrite Hk).
  assert (Hnc : no_command (kind t)) by (by rewrite Hk).
  destruct (decide (state = RECORD_CURRENT_TIME_)) as [Hst|Hst].
  - rewrite wp_bind. apply wp_ask_outside. intros m1 Q1 C1 S1 E1.
    rewrite wp_bind. apply (wp_update_task i t); [by rewrite S1|apply set_kind_moved; by rewrite Hk|]. intros m2 Q2 C2 E2 S2 T2. rewrite wp_bind.
    apply (wp_lift_header n (request_header (AppControlField.Request seq) RECORD_CURRENT_TIME) []); [exact (frame_set_header' n request hdr0 [] _ _ Hframe)|].
    intros f' Hf'. rewrite wp_ret. eapply built_moved; [quietly|congruence|exact T2|exact Hnc|]. rewrite Hf. by exists [].
  - rewrite wp_bind. apply (wp_lift_header n (request_header (AppControlField.Request seq) WRITE) []); [by apply (frame_set_header' n request hdr0)|].
    intros f' Hf'. eapply wp_lift_frame; [exact f'|eapply frame_with_writer; [exact Hf'|exact Hn|apply builds_WriteSingleValue; [apply _|by apply shaped_time]]|].
    intros f2 a body H2. apply built_here; [done|done|]. rewrite Hf. by exists body.
Qed.

Lemma Command_built m codes callback set mode :
  store m !! i = Some t -> kind t = CommandTask codes callback set mode -> Forall header_fits set ->
  wp (IMasterTask.Command_BuildRequest i codes callback set mode request seq) m (built n seq i t m).
Proof.
  intros Hi Hk Hfit. unfold IMasterTask.Command_BuildRequest. destruct codes as [|fc codes].
  - rewrite wp_ret. split; [reflexivity|]. split; [done|]. split; [exists t; split; [done|by rewrite Hk]|]. by exists hdr0, [].
  - rewrite wp_bind. apply (wp_lift_header n (request_header (AppControlField.Request seq) fc) []); [by apply (frame_set_header' n request hdr0)|].
    intros f' Hf'. rewrite wp_bind. set (w := mkWriter (apdu_array f') (remaining f') None).
    destruct (frame_with_writer n f' _ (CommandSetOps.Write set mode) Hf' Hn) as (f2 & [set' ok] & body & Hw & H2 & Hwr).
    { intros w0 Hw0. eapply wp_mono; [by apply commands_written|]. by intros ? ? []. }
    assert (Hs : Forall2 same_commands set set').
    { unfold with_writer in Hw. fold w in Hw. destruct Hf' as [Hb Hl Hr Hfi Hh Hy].
      assert (Hwf : wwf w) by (unfold wwf, w; cbn [position wr_array]; rewrite Hr; cbn [v_pos v_size length]; lia).
      pose proof (commands_written set mode w Hfit Hwf) as Hc. unfold wp in Hc. destruct (CommandSetOps.Write set mode w) as [[w' a]|]; [|done].
      cbn [mbind option_bind] in Hw. injection Hw as _ ->. by destruct Hc. }
    unfold wp at 1, lift. rewrite Hw. cbn [mbind option_bind]. fold (wp (W := Master W) (A := APDUWrapper * bool)).
    eapply (wp_bind (W := Master W)). apply (wp_update_task i t); [done|apply set_kind_moved; rewrite Hk; cbn; split_and!|].
    + by exists [fc].
    + done.
    + done.
    + clear -Hs. induction Hs; constructor; [by apply same_commands_points|done].
    + intros m2 Q2 C2 E2 S2 T2. rewrite wp_ret. split; [quietly|]. split; [done|]. split; [eexists; split; [exact T2|]; by rewrite Hk|].
      eexists _, body. split; [exact H2|]. cbn [snd]. intros ->. rewrite Hk. split; [done|]. split; [done|by exists set'].
Qed.

Lemma BuildRequest_wp m : store m !! i = Some t -> task_ok t -> wp (IMasterTask.BuildRequest i request seq) m (built n seq i t m).
Proof.
  intros Hi [Hb Hkf]. unfold IMasterTask.BuildRequest. rewrite wp_bind. eapply wp_task; [exact Hi|].
  change (mkAppControlField true true false false seq) with (AppControlField.Request seq).
  destruct (kind t) as [builder recurring rx|classes rx|classes rx| | |classes| |func format|delay start|state start|func cb hand|codes cb set mode] eqn:Hk; cbn [kind_fits] in Hkf.
  - rewrite wp_bind. apply (wp_update_task i t); [done|apply set_kind_moved; by rewrite Hk|]. intros m1 Q1 C1 E1 S1 T1. rewrite wp_bind.
    apply (wp_lift_header n (request_header (AppControlField.Request seq) READ) []); [by apply (frame_set_header' n request hdr0)|]. intros f' Hf'.
    eapply wp_lift_frame; [exact f'|eapply frame_with_writer; [exact Hf'|exact Hn|exact Hkf]|]. intros f2 a body H2.
    eapply built_moved; [quietly|done|exact T1|by rewrite Hk|]. rewrite Hk. by exists body.
  - rewrite wp_bind. destruct (frame_ClassRequest n request hdr0 READ classes seq Hframe Hn) as (f' & body & He & Hf').
    apply (wp_lift_header n (request_header (AppControlField.Request seq) READ) body); [by exists f'|]. intros f2 H2. rewrite wp_ret.
    apply built_here; [done|by rewrite Hk|]. rewrite Hk. by exists body.
  - rewrite wp_bind. destruct (frame_ClassRequest n request hdr0 READ classes seq Hframe Hn) as (f' & body & He & Hf').
    apply (wp_lift_header n (request_header (AppControlField.Request seq) READ) body); [by exists f'|]. intros f2 H2. rewrite wp_bind.
    apply (wp_lift_header n (request_header (AppControlField.Request seq) READ) body); [by eapply (frame_set_header' n f2)|]. intros f3 H3. rewrite wp_ret.
    apply built_here; [done|by rewrite Hk|]. rewrite Hk. by exists body.
  - rewrite wp_bind. destruct (frame_ClearRestartIIN n request hdr0 seq Hframe Hn) as (f' & body & He & Hf').
    apply (wp_lift_header n (request_header (AppControlField.Request seq) WRITE) body); [by exists f'|]. intros f2 H2. rewrite wp_ret.
    apply built_here; [done|by rewrite Hk|]. rewrite Hk. by exists body.
  - rewrite wp_bind. apply (wp_lift_header n (request_header (AppControlField.Request seq) ASSIGN_CLASS) []); [by apply (frame_set_header n request hdr0)|].
    intros f' Hf'. rewrite wp_bind. apply wp_ask_outside. intros m1 Q1 C1 S1 E1.
    eapply wp_lift_frame; [exact f'|eapply frame_with_writer; [exact Hf'|exact Hn|apply builds_write_headers]|]. intros f2 a body H2.
    eapply built_moved; [quietly|done|by rewrite S1|by rewrite Hk|]. rewrite Hk. by exists body.
  - rewrite wp_bind. destruct (frame_ClassRequest n request hdr0 ENABLE_UNSOLICITED (ClassField.OnlyEventClasses classes) seq Hframe Hn) as (f' & body & He & Hf').
    apply (wp_lift_header n (request_header (AppControlField.Request seq) ENABLE_UNSOLICITED) body); [by exists f'|]. intros f2 H2. rewrite wp_ret.
    apply built_here; [done|by rewrite Hk|]. rewrite Hk. by exists body.
  - rewrite wp_bind. destruct (frame_ClassRequest n request hdr0 DISABLE_UNSOLICITED ClassField.AllEventClasses seq Hframe Hn) as (f' & body & He & Hf').
    apply (wp_lift_header n (request_header (AppControlField.Request seq) DISABLE_UNSOLICITED) body); [by exists f'|]. intros f2 H2. rewrite wp_ret.
    apply built_here; [done|by rewrite Hk|]. rewrite Hk. by exists body.
  - rewrite wp_bind. apply (wp_lift_header n (request_header (AppControlField.Request seq) func) []); [by apply (frame_set_header n request hdr0)|].
    intros f' Hf'. eapply wp_lift_frame; [exact f'|eapply frame_with_writer; [exact Hf'|exact Hn|apply Hkf]|]. intros f2 a body H2.
    apply built_here; [done|by rewrite Hk|]. rewrite Hk. by exists body.
  - by apply SerialTimeSync_built.
  - by apply LANTimeSync_built.
  - rewrite wp_bind. apply (wp_lift_header n (request_header (AppControlField.Request seq) func) []); [by apply (frame_set_header n request hdr0)|].
    intros f' Hf'. rewrite wp_ret. apply built_here; [done|by rewrite Hk|]. rewrite Hk. by exists [].
  - by apply Command_built.
Qed.

End Building.
