(* ===== verification/MasterMethods.v ===== *)
(** * MasterMethods: responses to tasks and their completion

    Every method of a task is defined and quiet, for any response; the only answer that
    lets a task of commands go on is a response to the SELECT that succeeded. *)

From S2P Require Import Prelude Slices Serialization LinkFrame Transport AppHeader Objects ObjectParser HeaderWriter HeaderRoundtrip OutstationState RequestHandlers EventWriters EventResponse RequestSpecs TaskBehavior CommandSet CommandProps MeasurementHandler MeasurementProps MasterState MasterTask MasterScheduler Master RequestBuilding MasterSpecs.

From stdpp Require Import gmap.

Open Scope Z_scope.

(** ** Handlers of responses *)

(** A handler whose methods are defined for every header runs on every fragment. *)
Lemma parsed {L} (PH : Header -> Z -> option (SM L IINField)) allow objects (h : Handling L) :
  bytes_ok objects ->
  (forall hd n l, header_ok hd -> match PH hd n with Some m => is_Some (m l) | None => True end) ->
  exists r, APDUParser.Parse ParserSettings.Default (APDUHandler.handler PH allow) objects h = Some r.
Proof.
  intros Hb Hd. assert (Hstep : forall (hs : list Header) hd n l, True -> header_ok hd ->
    allow (headerIndex (record_of hd)) (enum_of (record_of hd)) (GetQualifierCode (record_of hd)) = true ->
    match PH hd n with Some m => wp m l (fun _ _ => True) | None => True end).
  { intros hs hd n l _ Hh _. specialize (Hd hd n l Hh). destruct (PH hd n); [|done]. destruct Hd as [[l' r] Hl]. unfold wp. by rewrite Hl. }
  destruct (Parse_wp PH allow (fun _ _ => True) Hstep ParserSettings.Default objects h Hb I) as (h' & r & hs & He & _). by exists (h', r).
Qed.

Lemma TimeSync_parsed objects :
  bytes_ok objects -> exists r, APDUParser.Parse ParserSettings.Default TimeSyncHandler.handler objects (APDUHandler.init None) = Some r.
Proof.
  intros Hb. apply parsed; [done|]. intros hd n l _. unfold TimeSyncHandler.ProcessHeader. destruct hd; try done. destruct (decide _); [|done]. by eexists.
Qed.

Lemma Restart_parsed objects handling :
  bytes_ok objects -> exists r, APDUParser.Parse ParserSettings.Default RestartOperation.handler objects handling = Some r.
Proof.
  intros Hb. apply parsed; [done|]. intros hd n l Hh. unfold RestartOperation.ProcessHeader. destruct hd as [| | |record count values| | |]; try done.
  destruct (enum_of record) eqn:Hgv; try done.
  - destruct values as [|v [|]]; try by eexists. cbn [ReadOnlyValue]. destruct Hh as (_ & _ & Hv). specialize (Hv 0%nat v eq_refl).
    unfold value_ok in Hv. rewrite Hgv in Hv. cbn in Hv. destruct v as [[|t [|]]| | |]; try by eexists.
    apply Forall2_cons_1 in Hv as [Ht _]. cbn in Ht. unfold TimeDuration.Seconds.
    rewrite i64_some by (unfold is_i64, INT64_MIN, INT64_MAX; lia). by eexists.
  - destruct values as [|v [|]]; try by eexists. cbn [ReadOnlyValue]. destruct v as [[|t [|]]| | |]; by eexists.
Qed.

Lemma Operate_processed set objects :
  bytes_ok objects -> Z.of_nat (length objects) < 4294967296 ->
  exists set' result hs, CommandSetOps.ProcessOperateResponse set objects = Some (set', result) /\ responded TypedCommandHeader.visit_operate hs set set'.
Proof.
  intros Hb Hl. pose proof (run_responses TypedCommandHeader.visit_operate set objects (fun r set' => exists hs, responded TypedCommandHeader.visit_operate hs set set') Hb Hl) as HW.
  destruct (wp_run _ _ _ (HW ltac:(intros r hs _ H; by exists hs))) as (set' & [h r] & Hr & hs & Hs).
  unfold CommandSetOps.ProcessOperateResponse, TypedCommandHeader.ApplyOperateResponse. rewrite Hr. cbn [mbind option_bind]. by eexists _, _, hs.
Qed.

(** A response tells something of the commands, and leaves them as they are. *)
Section Points.
Context (visit : GroupVariation.t -> Z * Value -> CommandRecord -> CommandRecord).
Context (Hvisit : forall gv item rec, cr_index (visit gv item rec) = cr_index rec /\ command (visit gv item rec) = command rec).

Lemma visited_points gv items : forall rs,
  map (fun rec => (cr_index rec, command rec)) (visited visit gv items rs) = map (fun rec => (cr_index rec, command rec)) rs.
Proof.
  unfold visited. induction items as [|item items IH]; intros [|rec rs]; try done. cbn. f_equal; [|apply IH]. by destruct (Hvisit gv item rec) as [-> ->].
Qed.

Lemma respond_points hd h : same_points h (respond visit hd h).
Proof.
  unfold respond, same_points. destruct hd as [hd|]; [|done]. destruct (matches hd h); [|done]. split; [done|]. apply visited_points.
Qed.

Lemma responded_points hs set set' : responded visit hs set set' -> Forall2 same_points set set'.
Proof.
  intros [Hl Hr]. apply Forall2_same_length_lookup. split; [done|]. intros i h h' Hi Hi'. rewrite (Hr i h Hi) in Hi'. injection Hi' as <-. apply respond_points.
Qed.

End Points.

Lemma visit_select_same gv item rec : cr_index (TypedCommandHeader.visit_select gv item rec) = cr_index rec /\ command (TypedCommandHeader.visit_select gv item rec) = command rec.
Proof. unfold TypedCommandHeader.visit_select. by repeat case_match. Qed.

Lemma visit_operate_same gv item rec : cr_index (TypedCommandHeader.visit_operate gv item rec) = cr_index rec /\ command (TypedCommandHeader.visit_operate gv item rec) = command rec.
Proof. unfold TypedCommandHeader.visit_operate. by repeat case_match. Qed.

(** ** Completion *)

Section Methods.
Context {W : Type} `{MasterEnvironmentOk W}.
Implicit Types (m : Master W).

Lemma session_of m t : (context t < length (sessions m))%nat -> exists c, sessions m !! context t = Some c.
Proof. intros Hc. by apply lookup_lt_is_Some. Qed.

Lemma AddBlock_wp i t m (Q : unit -> Master W -> Prop) :
  store m !! i = Some t -> (context t < length (sessions m))%nat -> (forall m', quiet None m m' -> Q tt m') -> wp (IMasterTask.AddBlock i) m Q.
Proof.
  intros Hi Hc HQ. unfold IMasterTask.AddBlock. rewrite wp_bind. eapply wp_task; [exact Hi|]. destruct (session_of m t Hc) as [c Hs].
  eapply wp_update_blocks; [exact Hs|by eexists|]. intros m' Hq _ _. by apply HQ.
Qed.

Lemma RemoveBlock_wp i t m (Q : unit -> Master W -> Prop) :
  store m !! i = Some t -> (context t < length (sessions m))%nat -> (forall m', quiet None m m' -> Q tt m') -> wp (IMasterTask.RemoveBlock i) m Q.
Proof.
  intros Hi Hc HQ. unfold IMasterTask.RemoveBlock. rewrite wp_bind. eapply wp_task; [exact Hi|]. destruct (session_of m t Hc) as [c Hs].
  eapply wp_update_blocks; [exact Hs|by eexists|]. intros m' Hq _ _. by apply HQ.
Qed.

Lemma update_behavior_wp i t f m (Q : unit -> Master W -> Prop) :
  store m !! i = Some t -> (exists b, f (behavior t) = Some b /\ startExpiration b = startExpiration (behavior t) /\ behavior_ok b) ->
  (forall m' t', quiet None m m' -> store m' !! i = Some t' -> context t' = context t -> sessions m' = sessions m -> Q tt m') ->
  wp (IMasterTask.update_behavior i f) m Q.
Proof.
  intros Hi (b & Hf & Hst & Hb) HQ. unfold IMasterTask.update_behavior. rewrite wp_bind. eapply wp_task; [exact Hi|]. rewrite wp_bind, wp_lift.
  exists b. split; [done|]. apply (wp_update_task i t); [done|by apply set_behavior_moved|]. intros m1 Q1 C1 E1 S1 T1. by eapply HQ; [apply Q1; right| | |].
Qed.

Lemma SetMinExpiration_wp i m (Q : unit -> Master W -> Prop) :
  store_ok m -> (i < length (store m))%nat -> (forall m', quiet None m m' -> Q tt m') -> wp (IMasterTask.SetMinExpiration i) m Q.
Proof.
  intros Hok Hi HQ. apply lookup_lt_is_Some in Hi as [t Hi]. destruct (Hok i t Hi) as [[Hb _] _].
  eapply update_behavior_wp; [exact Hi| |intros m' t' Hq _ _ _; by apply HQ]. eexists. split; [done|]. split; [done|by apply Reset_ok].
Qed.

Lemma OnTaskComplete_wp i t result m (Q : unit -> Master W -> Prop) :
  store m !! i = Some t -> (forall m', quiet None m m' -> Q tt m') -> wp (IMasterTask.OnTaskComplete i result) m Q.
Proof.
  intros Hi HQ. unfold IMasterTask.OnTaskComplete. rewrite wp_bind. eapply wp_task; [exact Hi|].
  assert (Hret : wp (mret tt) m Q) by (rewrite wp_ret; by apply HQ).
  destruct (kind t); try exact Hret; apply wp_told; try done; intros m' Hq _; by apply HQ.
Qed.

(** The calls at the end of [CompleteTask]. *)
Lemma completed_calls i t t0 result m (Q : unit -> Master W -> Prop) :
  store m !! i = Some t -> (forall m', quiet None m m' -> Q tt m') ->
  wp (_ ← match pCallback (config t0) with
          | Some callback => tell_outside (context t0) (CallbackOnComplete callback result)
          | None => mret tt
          end;
      _ ← tell_outside (context t0) (OnTaskComplete_ (TaskKind.GetTaskType (kind t0)) result (taskId (config t0)));
      IMasterTask.OnTaskComplete i result) m Q.
Proof.
  intros Hi HQ. rewrite wp_bind.
  assert (Hrest : forall m1, (forall o, quiet o m m1) -> store m1 = store m ->
    wp (_ ← tell_outside (context t0) (OnTaskComplete_ (TaskKind.GetTaskType (kind t0)) result (taskId (config t0))); IMasterTask.OnTaskComplete i result) m1 Q).
  { intros m1 Q1 E1. rewrite wp_bind. apply wp_told; [done|]. intros m2 Q2 E2. eapply (OnTaskComplete_wp i t); [congruence|]. intros m3 Q3. apply HQ. quietly. }
  destruct (pCallback (config t0)); [|rewrite wp_ret; apply Hrest; [intros o; reflexivity|done]]. apply wp_told; [done|]. exact Hrest.
Qed.

Lemma CompleteTask_wp i result now m (Q : unit -> Master W -> Prop) :
  store_ok m -> (i < length (store m))%nat -> is_time now -> (forall m', quiet None m m' -> Q tt m') -> wp (IMasterTask.CompleteTask i result now) m Q.
Proof.
  intros Hok Hi Hn HQ. apply lookup_lt_is_Some in Hi as [t Hi]. destruct (Hok i t Hi) as [[Hb _] Hc]. unfold IMasterTask.CompleteTask.
  rewrite wp_bind. eapply wp_task; [exact Hi|]. rewrite wp_bind.
  assert (Hend : forall m1, quiet None m m1 -> wp (_ ← match pCallback (config t) with
          | Some callback => tell_outside (context t) (CallbackOnComplete callback result)
          | None => mret tt
          end;
      _ ← tell_outside (context t) (OnTaskComplete_ (TaskKind.GetTaskType (kind t)) result (taskId (config t)));
      IMasterTask.OnTaskComplete i result) m1 Q).
  { intros m1 Q1. destruct (quiet_task _ _ _ _ _ Q1 Hi) as (t1 & Hi1 & _). eapply (completed_calls i t1); [exact Hi1|]. intros m2 Q2. apply HQ. quietly. }
  assert (Hblock : forall f, (exists b, f (behavior t) = Some b /\ startExpiration b = startExpiration (behavior t) /\ behavior_ok b) ->
    wp (_ ← IMasterTask.update_behavior i f; if TaskKind.BlocksLowerPriority (kind t) then IMasterTask.AddBlock i else mret tt) m
      (fun _ m1 => quiet None m m1)).
  { intros f Hf. rewrite wp_bind. eapply update_behavior_wp; [exact Hi|exact Hf|]. intros m1 t1 Q1 T1 C1 S1.
    destruct (TaskKind.BlocksLowerPriority (kind t)); [|by rewrite wp_ret]. eapply (AddBlock_wp i t1); [exact T1|by rewrite C1, S1|]. intros m2 Q2. quietly. }
  assert (Hdis : exists b, Some (TaskBehavior.Disable (behavior t)) = Some b /\ startExpiration b = startExpiration (behavior t) /\ behavior_ok b).
  { eexists. split; [done|]. split; [done|by apply Disable_ok]. }
  destruct result; try (eapply wp_mono; [apply (Hblock (fun b => Some (TaskBehavior.Disable b)) Hdis)|]; intros [] m1 Q1; by apply Hend).
  - rewrite wp_bind. destruct (OnSuccess_ok now (behavior t) Hn Hb) as (b & Hs & Hb'). eapply update_behavior_wp; [exact Hi| |].
    + exists b. split; [done|]. split; [|done]. rewrite OnSuccess_spec in Hs by done. by injection Hs as <-.
    + intros m1 t1 Q1 T1 C1 S1. eapply (RemoveBlock_wp i t1); [exact T1|by rewrite C1, S1|]. intros m2 Q2. apply Hend. quietly.
  - eapply wp_mono; [apply Hblock|]; [|intros [] m1 Q1; by apply Hend].
    destruct (behavior_OnResponseTimeout_ok now (behavior t) Hn Hb) as (b & Hs & Hb'). exists b. split; [done|]. split; [|done].
    rewrite OnResponseTimeout_spec in Hs by done. by injection Hs as <-.
  - eapply update_behavior_wp; [exact Hi| |intros m1 t1 Q1 _ _ _; by apply Hend]. eexists. split; [done|]. split; [done|by apply Reset_ok].
Qed.

(** ** Responses *)

(** What a task of commands takes from a response with [objects]. *)
Definition heard (k k' : TaskKind) (objects : RSlice) (result : ResponseResult) : Prop :=
  match k, k' with
  | CommandTask codes _ set _, CommandTask codes' _ set' _ =>
      codes' = codes /\ result <> OK_CONTINUE /\ (result = OK_REPEAT -> codes <> [] /\ CommandSetOps.ProcessSelectResponse set objects = Some (set', SELECT_OK))
  | CommandTask _ _ _ _, _ | _, CommandTask _ _ _ _ => False
  | _, _ => True
  end.

Definition answered (i : nat) (t : Task) (objects : RSlice) m (result : ResponseResult) m' : Prop :=
  quiet (Some i) m m' /\ exists t', store m' !! i = Some t' /\ heard (kind t) (kind t') objects result.

Context (i : nat) (t : Task) (objects : RSlice) (Hb : bytes_ok objects) (Hl : Z.of_nat (length objects) < 4294967296).

Lemma answered_quiet m m' result : store m !! i = Some t -> quiet (Some i) m m' -> no_command (kind t) -> answered i t objects m result m'.
Proof.
  intros Hi Hq Hk. split; [done|]. destruct (quiet_task _ _ _ _ _ Hq Hi) as (t' & Hi' & Hm). exists t'. split; [done|].
  pose proof (tm_class _ _ Hm) as Hc. unfold heard. by destruct (kind t), (kind t').
Qed.

Lemma answered_ret m result : store m !! i = Some t -> no_command (kind t) -> wp (mret result) m (answered i t objects m).
Proof. intros Hi Hk. rewrite wp_ret. apply answered_quiet; [done|reflexivity|done]. Qed.

Lemma ProcessMeasurements_wp m h :
  store m !! i = Some t -> no_command (kind t) -> wp (IMasterTask.ProcessMeasurements i h objects) m (answered i t objects m).
Proof.
  intros Hi Hk. unfold IMasterTask.ProcessMeasurements. rewrite wp_bind. eapply wp_task; [exact Hi|]. rewrite wp_bind.
  apply (wp_update_task i t); [done|apply set_kind_moved; by destruct (kind t)|]. intros m1 Q1 C1 E1 S1 T1. rewrite wp_bind, wp_lift.
  destruct (ProcessMeasurements_spec objects Hb) as (hs & result & _ & ->). eexists. split; [done|]. rewrite wp_bind.
  apply wp_told_all; [apply Forall_map, Forall_forall; done|]. intros m2 Q2 E2. rewrite wp_ret. apply answered_quiet; [done|quietly|done].
Qed.

Lemma Poll_ProcessResponse_wp m h :
  store m !! i = Some t -> no_command (kind t) -> wp (IMasterTask.Poll_ProcessResponse i h objects) m (answered i t objects m).
Proof.
  intros Hi Hk. unfold IMasterTask.Poll_ProcessResponse. rewrite wp_bind. eapply wp_task; [exact Hi|].
  destruct (FIR _), (_ <? _); first [by apply answered_ret|by apply ProcessMeasurements_wp].
Qed.

Lemma OnResponseDelayMeas_wp m start delay h :
  store m !! i = Some t -> kind t = SerialTimeSyncTask delay start -> wp (IMasterTask.OnResponseDelayMeas i start h objects) m (answered i t objects m).
Proof.
  intros Hi Hk. assert (Hn : no_command (kind t)) by (by rewrite Hk). unfold IMasterTask.OnResponseDelayMeas.
  destruct (IMasterTask.ValidateSingleResponse h); [|by apply answered_ret]. rewrite wp_bind, wp_lift.
  destruct (TimeSync_parsed objects Hb) as [[handler result] ->]. eexists. split; [done|]. cbv beta iota. destruct (decide (result = OK)); [|by apply answered_ret].
  destruct (TimeSyncHandler.GetTimeDelay handler) as [turnaround|]; [|by apply answered_ret]. rewrite wp_bind. eapply wp_task; [exact Hi|].
  rewrite wp_bind. apply wp_ask_outside. intros m1 Q1 C1 S1 E1. rewrite wp_bind.
  apply (wp_update_task i t); [by rewrite S1|apply set_kind_moved; by rewrite Hk|]. intros m2 Q2 C2 E2 S2 T2. rewrite wp_ret.
  apply answered_quiet; [done|quietly|done].
Qed.

Lemma OnResponseRecordCurrentTime_wp m start state h :
  store m !! i = Some t -> kind t = LANTimeSyncTask state start -> wp (IMasterTask.OnResponseRecordCurrentTime i start h objects) m (answered i t objects m).
Proof.
  intros Hi Hk. assert (Hn : no_command (kind t)) by (by rewrite Hk). unfold IMasterTask.OnResponseRecordCurrentTime.
  destruct (negb _); [by apply answered_ret|]. rewrite wp_bind.
  apply (wp_update_task i t); [done|apply set_kind_moved; by rewrite Hk|]. intros m2 Q2 C2 E2 S2 T2. rewrite wp_ret.
  apply answered_quiet; [done|quietly|done].
Qed.

Lemma Restart_ProcessResponse_wp m func cb handling h :
  store m !! i = Some t -> kind t = RestartOperationTask func cb handling ->
  wp (IMasterTask.Restart_ProcessResponse i func cb handling h objects) m (answered i t objects m).
Proof.
  intros Hi Hk. assert (Hn : no_command (kind t)) by (by rewrite Hk). unfold IMasterTask.Restart_ProcessResponse.
  destruct (negb _); [by apply answered_ret|]. rewrite wp_bind, wp_lift. destruct (Restart_parsed objects handling Hb) as [[handling' result] ->].
  eexists. split; [done|]. rewrite wp_bind. apply (wp_update_task i t); [done|apply set_kind_moved; by rewrite Hk|]. intros m2 Q2 C2 E2 S2 T2. rewrite wp_ret.
  apply answered_quiet; [done|quietly|done].
Qed.

Lemma Command_ProcessResponse_wp m codes cb set mode :
  store m !! i = Some t -> kind t = CommandTask codes cb set mode ->
  wp (IMasterTask.Command_ProcessResponse i codes cb set mode objects) m (answered i t objects m).
Proof.
  intros Hi Hk. unfold IMasterTask.Command_ProcessResponse.
  assert (Hgo : forall set' r, Forall2 same_points set set' -> r <> OK_CONTINUE ->
    (r = OK_REPEAT -> codes <> [] /\ CommandSetOps.ProcessSelectResponse set objects = Some (set', SELECT_OK)) ->
    wp (_ ← update_task i (set_kind (CommandTask codes cb set' mode)); mret r) m (answered i t objects m)).
  { intros set' r Hs Hc Hr. rewrite wp_bind. apply (wp_update_task i t); [done|apply set_kind_moved; by rewrite Hk|]. intros m2 Q2 C2 E2 S2 T2. rewrite wp_ret.
    split; [quietly|]. eexists. split; [exact T2|]. by rewrite Hk. }
  destruct codes as [|fc codes]; rewrite wp_bind, wp_lift.
  - destruct (Operate_processed set objects Hb Hl) as (set' & r & hs & -> & Hr). eexists. split; [done|]. apply Hgo.
    + eapply responded_points; [exact visit_operate_same|exact Hr].
    + by destruct (decide _).
    + by destruct (decide _).
  - destruct (ProcessSelectResponse_spec set objects Hb Hl) as (set' & r & hs & r0 & He & _ & Hr & _). rewrite He. eexists. split; [done|]. apply Hgo.
    + eapply responded_points; [exact visit_select_same|exact Hr].
    + by destruct r.
    + intros Hres. split; [done|]. by destruct r.
Qed.

Lemma ProcessResponse_wp m h : store m !! i = Some t -> wp (IMasterTask.ProcessResponse i h objects) m (answered i t objects m).
Proof.
  intros Hi. unfold IMasterTask.ProcessResponse. rewrite wp_bind. eapply wp_task; [exact Hi|].
  destruct (kind t) as [builder recurring rx|classes rx|classes rx| | |classes| |func format|delay start|state start|func cb hand|codes cb set mode] eqn:Hk;
    try (apply Poll_ProcessResponse_wp; [done|by rewrite Hk]); try (apply answered_ret; [done|by rewrite Hk]).
  - destruct (delay <? 0); [by eapply OnResponseDelayMeas_wp|apply answered_ret; [done|by rewrite Hk]].
  - destruct (decide _); [by eapply OnResponseRecordCurrentTime_wp|apply answered_ret; [done|by rewrite Hk]].
  - by apply Restart_ProcessResponse_wp.
  - destruct (IMasterTask.ValidateSingleResponse h); [by apply Command_ProcessResponse_wp|]. rewrite wp_ret. split; [reflexivity|].
    exists t. split; [done|]. by rewrite Hk.
Qed.

(** *** OnResponse *)

Lemma heard_same k k' k'' r : heard k k' objects r -> k'' = k' -> heard k k'' objects r.
Proof. by intros ? ->. Qed.

Lemma OnResponse_wp m h now :
  store_ok m -> store m !! i = Some t -> is_time now -> wp (IMasterTask.OnResponse i h objects now) m (answered i t objects m).
Proof.
  intros Hok Hi Hn. unfold IMasterTask.OnResponse. rewrite wp_bind. eapply wp_mono; [by apply ProcessResponse_wp|]. cbv beta.
  intros r m1 (Q1 & t1 & Hi1 & Hh). rewrite wp_bind.
  assert (Hdone : forall result, wp (IMasterTask.CompleteTask i result now) m1 (fun _ m2 => wp (mret r) m2 (answered i t objects m))).
  { intros result. apply CompleteTask_wp; [by eapply quiet_store_ok|by eapply lookup_lt_Some|done|]. intros m2 Q2. rewrite wp_ret.
    split; [quietly|]. destruct (quiet_task _ _ _ _ _ Q2 Hi1) as (t2 & Hi2 & _). exists t2. split; [done|].
    pose proof (qu_kinds _ _ _ Q2 i ltac:(done)) as Hk. rewrite Hi1, Hi2 in Hk. injection Hk as Hk. by rewrite Hk. }
  assert (Hret : wp (mret tt) m1 (fun _ m2 => wp (mret r) m2 (answered i t objects m))) by (rewrite !wp_ret; split; [done|by exists t1]).
  destruct r; first [apply Hdone|exact Hret].
Qed.

(** *** OnStart *)

Lemma Initialize_class k : same_class k (TaskKind.Initialize k).
Proof. destruct k; cbn; try done. split_and!; [done|done|done|apply same_points_all]. Qed.

Lemma OnStart_wp m (Q : unit -> Master W -> Prop) :
  store m !! i = Some t ->
  (forall m' t', quiet (Some i) m m' -> store m' !! i = Some t' -> kind t' = TaskKind.Initialize (kind t) -> Q tt m') -> wp (IMasterTask.OnStart i) m Q.
Proof.
  intros Hi HQ. unfold IMasterTask.OnStart. rewrite wp_bind. eapply wp_task; [exact Hi|]. rewrite wp_bind.
  assert (Hrest : forall m1, (forall o, quiet o m m1) -> store m1 = store m ->
    wp (_ ← tell_outside (context t) (OnTaskStart (TaskKind.GetTaskType (kind t)) (taskId (config t))); update_task i (set_kind (TaskKind.Initialize (kind t)))) m1 Q).
  { intros m1 Q1 S1. rewrite wp_bind. apply wp_told; [done|]. intros m2 Q2 S2. apply (wp_update_task i t); [congruence|apply set_kind_moved, Initialize_class|].
    intros m3 Q3 C3 E3 S3 T3. eapply HQ; [quietly|exact T3|done]. }
  destruct (pCallback (config t)); [|rewrite wp_ret; apply Hrest; [intros o; reflexivity|done]]. apply wp_told; [done|]. exact Hrest.
Qed.

End Methods.
