(* ===== verification/MasterSession.v ===== *)
(** * MasterSession: the invariant of a channel of masters

    [channel_ok] holds between the events of a channel.  While a method of a session
    runs, what is said of the machine of that session is put aside ([channel_ok (Some s)])
    and restored at the end; [acts] is what a method transmits and queues. *)

From S2P Require Import Prelude Slices Serialization LinkFrame Transport AppHeader Objects ObjectParser HeaderWriter HeaderRoundtrip OutstationState RequestHandlers EventWriters EventResponse RequestSpecs TaskBehavior CommandSet CommandProps MeasurementHandler MeasurementProps MasterState MasterTask MasterScheduler Master RequestBuilding MasterSpecs MasterMethods.

From stdpp Require Import gmap.

Open Scope Z_scope.

(** ** Sessions *)

Record params_ok (p : MasterParams) : Prop := mkParamsOk {
  pa_start : is_i64 (taskStartTimeout p);
  pa_retry : is_time (taskRetryPeriod p);
  pa_max : is_time (maxTaskRetryPeriod p);
  pa_size : 2 <= maxTxFragSize p < 536870912
}.

(** What does not depend on where the session is. *)
Record session_ok (st : list Task) (s : nat) (c : MContext) : Prop := mkSessionOk {
  so_params : params_ok (params c);
  so_buffer : (2 <= length (txBuffer c))%nat /\ Z.of_nat (length (txBuffer c)) < 536870912;
  so_queue : Forall (fun h => function h = CONFIRM) (confirmQueue c);
  so_tasks : forall i, i ∈ MasterTasks.all_tasks (mtasks c) -> exists t, st !! i = Some t /\ context t = s /\ TaskKind.IsRecurring (kind t) = true;
  so_once : NoDup (MasterTasks.all_tasks (mtasks c))
}.

(** A task that has not started. *)
Definition not_started (k : TaskKind) : Prop :=
  match k with
  | CommandTask codes _ set _ => (codes = [SELECT; OPERATE] \/ codes = [DIRECT_OPERATE]) /\ Forall CommandProps.fresh set
  | _ => True
  end.

(** A task whose request was sent. *)
Definition asked (k : TaskKind) : Prop :=
  match k with
  | CommandTask codes _ set _ => codes = [] \/ codes = [OPERATE] /\ Forall CommandProps.fresh set
  | _ => True
  end.

Section Invariant.
Context {W : Type} `{MasterEnvironmentOk W}.
(** What is known of a session and a set of commands, when they have been selected. *)
Context (R : nat -> CommandSet -> Prop).
Implicit Types (m : Master W) (s : nat) (c : MContext).

(** A task whose request may be sent. *)
Definition prepared s (k : TaskKind) : Prop :=
  not_started k \/ match k with CommandTask codes _ set _ => codes = [OPERATE] /\ R s set | _ => False end.

Definition scheduled m : list SchedulerRecord := option_list (current (scheduler m)) ++ tasks (scheduler m).

(** The tasks of an online session run or wait. *)
Definition keeps m s c : Prop := isOnline c = true -> forall i, i ∈ MasterTasks.all_tasks (mtasks c) -> (i, s) ∈ scheduled m.

(** The machine of a session. *)
Record machine_ok m s c : Prop := mkMachineOk {
  mk_linked : forall i, activeTask c = Some i <-> current (scheduler m) = Some (i, s);
  mk_offline : isOnline c = false -> tstate c = IDLE /\ isSending c = false /\ forall i, (i, s) ∉ tasks (scheduler m);
  mk_timer : responseTimer c = bool_decide (tstate c = WAIT_FOR_RESPONSE);
  mk_state : match tstate c, activeTask c with
             | IDLE, None => True
             | TASK_READY, Some i => isSending c = true /\ exists t, store m !! i = Some t /\ prepared s (kind t)
             | WAIT_FOR_RESPONSE, Some i => exists t, store m !! i = Some t /\ asked (kind t)
             | _, _ => False
             end;
  mk_tasks : keeps m s c
}.

(** Everything but the machine of the session [x]. *)
Record channel_ok (x : option nat) m : Prop := mkChannelOk {
  ck_store : store_ok m;
  ck_sessions : forall s c, sessions m !! s = Some c -> session_ok (store m) s c;
  ck_machines : forall s c, x <> Some s -> sessions m !! s = Some c -> machine_ok m s c;
  ck_records : forall i s, (i, s) ∈ scheduled m -> exists t, store m !! i = Some t /\ context t = s;
  ck_once : NoDup (scheduled m).*1;
  ck_fresh : forall i s t, (i, s) ∈ tasks (scheduler m) -> store m !! i = Some t -> not_started (kind t);
  ck_check : taskCheckPending (scheduler m) = true -> PostedCheck ∈ posted m;
  ck_posted : forall i, PostedDemand i ∈ posted m -> (i < length (store m))%nat
}.

(** When tasks wait and none runs, a check for tasks is due, at once or at some time. *)
Definition awake m : Prop :=
  current (scheduler m) = None -> tasks (scheduler m) <> [] -> PostedCheck ∈ posted m \/ is_Some (taskTimer (scheduler m)).

(** *** The machine of one session *)

Lemma channel_weaken s m : channel_ok None m -> channel_ok (Some s) m.
Proof. intros [? ? Hm]. split; try done. intros s' c _. by apply Hm. Qed.

Lemma channel_settle s c m : channel_ok (Some s) m -> sessions m !! s = Some c -> machine_ok m s c -> channel_ok None m.
Proof.
  intros [? ? Hm] Hs Hc. split; try done. intros s' c' _ Hs'. destruct (decide (s' = s)) as [->|Hne]; [|apply Hm; congruence].
  by simplify_eq.
Qed.

Lemma idle_machines m s c : channel_ok None m -> current (scheduler m) = None -> sessions m !! s = Some c ->
  tstate c = IDLE /\ activeTask c = None /\ responseTimer c = false.
Proof.
  intros Hok Hcur Hs. destruct (ck_machines _ _ Hok s c ltac:(done) Hs) as [Hl _ Ht Hst _]. destruct (activeTask c) as [i|] eqn:Ha.
  - exfalso. destruct (Hl i) as [Hi _]. rewrite Hcur in Hi. by specialize (Hi eq_refl).
  - destruct (tstate c); try done.
Qed.

(** *** Quiet changes *)

Lemma other_blocks_fields c c' : other_blocks c c' ->
  params c' = params c /\ addresses c' = addresses c /\ isOnline c' = isOnline c /\ isSending c' = isSending c /\ solSeq c' = solSeq c /\
  activeTask c' = activeTask c /\ responseTimer c' = responseTimer c /\ MasterTasks.all_tasks (mtasks c') = MasterTasks.all_tasks (mtasks c) /\
  confirmQueue c' = confirmQueue c /\ txBuffer c' = txBuffer c /\ tstate c' = tstate c.
Proof. intros [b ->]. by destruct c as [? ? ? ? ? ? ? ? [] ? ? ?]. Qed.

Lemma task_still o m m' i t : quiet o m m' -> store m !! i = Some t -> o <> Some i -> exists t', store m' !! i = Some t' /\ task_moved t t' /\ kind t' = kind t.
Proof.
  intros Hq Hi Ho. destruct (quiet_task _ _ _ _ _ Hq Hi) as (t' & Hi' & Ht). exists t'. split; [done|]. split; [done|].
  pose proof (qu_kinds _ _ _ Hq i Ho) as Hk. rewrite Hi, Hi' in Hk. by injection Hk.
Qed.

Lemma session_ok_quiet o m m' s c c' : quiet o m m' -> other_blocks c c' -> session_ok (store m) s c -> session_ok (store m') s c'.
Proof.
  intros Hq Hb [Hp Hbuf Hqu Ht Hn]. destruct (other_blocks_fields c c' Hb) as (E1 & _ & _ & _ & _ & _ & _ & E2 & E3 & E4 & _).
  split; [by rewrite E1|by rewrite E4|by rewrite E3| |by rewrite E2]. intros i Hi. rewrite E2 in Hi. destruct (Ht i Hi) as (t & Hit & Hc & Hr).
  destruct (quiet_task _ _ _ _ _ Hq Hit) as (t' & Hit' & Hm). exists t'. split; [done|]. rewrite (tm_context _ _ Hm). split; [done|].
  by rewrite (same_class_recurring _ _ (tm_class _ _ Hm)).
Qed.

Lemma machine_quiet o m m' s c c' :
  quiet o m m' -> other_blocks c c' -> (forall i, o = Some i -> activeTask c <> Some i) -> machine_ok m s c -> machine_ok m' s c'.
Proof.
  intros Hq Hb Ho [Hl Hoff Ht Hst Hk]. destruct (other_blocks_fields c c' Hb) as (_ & _ & E1 & E2 & _ & E3 & E4 & E6 & _ & _ & E5).
  split; unfold keeps, scheduled in *; rewrite ?E1, ?E2, ?E3, ?E4, ?E5, ?E6, ?(qu_scheduler _ _ _ Hq); [done|done|done| |done]. clear Hk.
  destruct (tstate c), (activeTask c) as [i|]; try done.
  - destruct Hst as (Hsend & t & Hi & Hp). split; [done|]. destruct (task_still o m m' i t Hq Hi) as (t' & Hi' & _ & Hk); [intros ->; by apply (Ho i)|].
    exists t'. by rewrite Hk.
  - destruct Hst as (t & Hi & Hp). destruct (task_still o m m' i t Hq Hi) as (t' & Hi' & _ & Hk); [intros ->; by apply (Ho i)|].
    exists t'. by rewrite Hk.
Qed.

(** The task that changes is the one of the session put aside. *)
Definition own (x o : option nat) m : Prop := forall i, o = Some i -> exists s, x = Some s /\ current (scheduler m) = Some (i, s).

Lemma own_none x m : own x None m.
Proof. by intros i. Qed.

Lemma current_not_waiting x m i s s' : channel_ok x m -> current (scheduler m) = Some (i, s) -> (i, s') ∉ tasks (scheduler m).
Proof.
  intros Hok Hcur Hin. pose proof (ck_once _ _ Hok) as Hn. unfold scheduled in Hn. rewrite Hcur in Hn. cbn in Hn. apply NoDup_cons in Hn as [Hn _].
  apply Hn. apply list_elem_of_fmap. by exists (i, s').
Qed.

Lemma channel_quiet x o m m' : channel_ok x m -> quiet o m m' -> own x o m -> channel_ok x m'.
Proof.
  intros Hok Hq Ho. pose proof (qu_scheduler _ _ _ Hq) as Es. split.
  - by eapply quiet_store_ok, ck_store.
  - intros s c' Hs'. destruct (Forall2_lookup_r _ _ _ _ _ (qu_sessions _ _ _ Hq) Hs') as (c & Hs & Hb). eapply session_ok_quiet; [done..|by eapply ck_sessions].
  - intros s c' Hx Hs'. destruct (Forall2_lookup_r _ _ _ _ _ (qu_sessions _ _ _ Hq) Hs') as (c & Hs & Hb).
    pose proof (ck_machines _ _ Hok s c Hx Hs) as Hm. eapply machine_quiet; [done..| |done]. intros i Hi Ha.
    destruct (Ho i Hi) as (s0 & -> & Hcur). apply (mk_linked _ _ _ Hm) in Ha. congruence.
  - unfold scheduled. rewrite Es. intros i s Hr. destruct (ck_records _ _ Hok i s Hr) as (t & Hi & Hc).
    destruct (quiet_task _ _ _ _ _ Hq Hi) as (t' & Hi' & Hm). exists t'. split; [done|]. by rewrite (tm_context _ _ Hm).
  - unfold scheduled. rewrite Es. by apply ck_once with x.
  - rewrite Es. intros i s t' Hr Hi'. destruct (Forall2_lookup_r _ _ _ _ _ (qu_store _ _ _ Hq) Hi') as (t & Hi & _).
    destruct (task_still o m m' i t Hq Hi) as (t2 & Hi2 & _ & Hk).
    { intros Hoi. destruct (Ho i Hoi) as (s0 & _ & Hcur). by eapply current_not_waiting. }
    simplify_eq. rewrite Hk. by eapply (ck_fresh _ _ Hok).
  - rewrite Es, (qu_posted _ _ _ Hq). by apply (ck_check _ _ Hok).
  - intros i. rewrite (qu_posted _ _ _ Hq). rewrite <- (Forall2_length _ _ _ (qu_store _ _ _ Hq)). by apply (ck_posted _ _ Hok).
Qed.

Lemma awake_quiet o m m' : awake m -> quiet o m m' -> awake m'.
Proof. intros Ha Hq. unfold awake. by rewrite (qu_scheduler _ _ _ Hq), (qu_posted _ _ _ Hq). Qed.

(** *** Other changes *)

(** The machine of a session when the scheduler changes for other sessions. *)
Lemma machine_scheduler m m' s c :
  machine_ok m s c -> (forall i t, store m !! i = Some t -> store m' !! i = Some t) ->
  (forall i, current (scheduler m') = Some (i, s) <-> current (scheduler m) = Some (i, s)) ->
  (forall i, (i, s) ∈ tasks (scheduler m') -> (i, s) ∈ tasks (scheduler m) \/ isOnline c = true) ->
  (forall i, i ∈ MasterTasks.all_tasks (mtasks c) -> (i, s) ∈ scheduled m -> (i, s) ∈ scheduled m') -> machine_ok m' s c.
Proof.
  intros [Hl Hoff Ht Hst Hk] Hs Hc Hr Hall. split; [intros i; by rewrite Hl, Hc| |done| |intros Hon i Hi; by apply Hall, Hk].
  - intros Ho. destruct (Hoff Ho) as (H1 & H2 & H3). split; [done|]. split; [done|]. intros i Hi. destruct (Hr i Hi) as [Hi'|]; [|congruence]. by apply (H3 i).
  - destruct (tstate c), (activeTask c) as [i|]; try done.
    + destruct Hst as (Hsend & t & Hi & Hp). split; [done|]. exists t. split; [by apply Hs|done].
    + destruct Hst as (t & Hi & Hp). exists t. split; [by apply Hs|done].
Qed.

(** Recurring tasks go on to run or wait. *)
Definition retains m m' : Prop :=
  forall i s t, (i, s) ∈ scheduled m -> store m !! i = Some t -> TaskKind.IsRecurring (kind t) = true -> (i, s) ∈ scheduled m'.

Lemma keeps_same m m' s c c' :
  isOnline c' = isOnline c -> MasterTasks.all_tasks (mtasks c') = MasterTasks.all_tasks (mtasks c) -> scheduler m' = scheduler m -> keeps m s c -> keeps m' s c'.
Proof. unfold keeps, scheduled. by intros -> -> ->. Qed.

Lemma retained m m' s c i : session_ok (store m) s c -> retains m m' -> i ∈ MasterTasks.all_tasks (mtasks c) -> (i, s) ∈ scheduled m -> (i, s) ∈ scheduled m'.
Proof. intros Hs Hr Hi Hin. destruct (so_tasks _ _ _ Hs i Hi) as (t & Ht & _ & Hrec). by eapply Hr. Qed.

Lemma keeps_retained m m' s c c' : session_ok (store m) s c -> retains m m' -> isOnline c' = isOnline c ->
  MasterTasks.all_tasks (mtasks c') = MasterTasks.all_tasks (mtasks c) -> keeps m s c -> keeps m' s c'.
Proof. unfold keeps. intros Hs Hr -> -> Hk Hon i Hi. eapply retained; [done..|by apply Hk]. Qed.

(** A check for tasks that is due after the step. *)
Definition posted_check m : Master W :=
  if taskCheckPending (scheduler m) then m
  else set_posted (posted m ++ [PostedCheck]) (set_scheduler (set_taskCheckPending true (scheduler m)) m).

Lemma PostCheck_run m : MasterSchedulerBackend.PostCheckForTaskRun m = Some (posted_check m, tt).
Proof.
  unfold MasterSchedulerBackend.PostCheckForTaskRun, posted_check, get, update_scheduler, Post, modify, mbind, SM_bind, mret, SM_ret.
  by destruct (taskCheckPending (scheduler m)).
Qed.

Lemma posted_check_fields m :
  outside (posted_check m) = outside m /\ store (posted_check m) = store m /\ sessions (posted_check m) = sessions m /\
  current (scheduler (posted_check m)) = current (scheduler m) /\ tasks (scheduler (posted_check m)) = tasks (scheduler m) /\
  taskTimer (scheduler (posted_check m)) = taskTimer (scheduler m).
Proof. unfold posted_check. by destruct (taskCheckPending (scheduler m)). Qed.

Lemma posted_check_due x m : channel_ok x m -> PostedCheck ∈ posted (posted_check m).
Proof.
  intros Hok. unfold posted_check. destruct (taskCheckPending (scheduler m)) eqn:Hp; [by apply (ck_check _ _ Hok)|]. cbn [posted set_posted].
  apply elem_of_app. right. by apply list_elem_of_singleton.
Qed.

Lemma channel_posted_check x m : channel_ok x m -> channel_ok x (posted_check m).
Proof.
  intros Hok. pose proof (posted_check_due x m Hok) as Hdue. destruct (posted_check_fields m) as (E1 & E2 & E3 & E4 & E5 & E6).
  assert (Hpost : forall i, PostedDemand i ∈ posted (posted_check m) -> PostedDemand i ∈ posted m).
  { intros i. unfold posted_check. destruct (taskCheckPending (scheduler m)); [done|]. cbn [posted set_posted].
    intros Hi. apply elem_of_app in Hi as [Hi|Hi]; [done|]. by apply list_elem_of_singleton in Hi. }
  destruct Hok as [Hst Hse Hma Hre Hon Hfr Hch Hpo]. split; unfold scheduled in *; rewrite ?E2, ?E3, ?E4, ?E5.
  - intros i t. rewrite E2, E3. apply Hst.
  - done.
  - intros s c Hx Hs. eapply machine_scheduler; [by apply Hma|by rewrite E2|by rewrite E4|rewrite E5; by left|unfold scheduled; by rewrite E4, E5].
  - done.
  - done.
  - done.
  - done.
  - intros i Hi. by apply Hpo, Hpost.
Qed.

Lemma awake_posted_check x m : channel_ok x m -> awake (posted_check m).
Proof. intros Hok _ _. left. by eapply posted_check_due. Qed.

(** *** What a session transmits *)

Inductive Fragment := Confirmation (h : APDUHeader) | Request (data : bytes).

Definition bytes_of (f : Fragment) : bytes :=
  match f with
  | Confirmation h => [AppControlField.ToByte (control h); FunctionCodeToType (function h)]
  | Request data => data
  end.

Definition confirmation (f : Fragment) : option APDUHeader := match f with Confirmation h => Some h | Request _ => None end.

(** A request is that of a prepared task. *)
Definition fragment_ok s (f : Fragment) : Prop :=
  match f with
  | Confirmation h => function h = CONFIRM
  | Request data => exists k seq body, prepared s k /\ data = request_header (AppControlField.Request seq) (next_function k) ++ body /\
      next_function k <> CONFIRM /\
      match k with
      | CommandTask codes _ set mode => codes <> [] /\ exists set', writes (CommandSetOps.Write set mode) (set', true) body
      | _ => next_function k <> OPERATE
      end
  end.

(** The messages among some calls. *)
Definition messages (cs : list (nat * MasterCall)) : list (nat * bytes) := omap (fun sc => pair sc.1 <$> transmitted sc.2) cs.

Definition told m m' (l : list (nat * Fragment)) : Prop :=
  exists cs, mcalls (outside m') = mcalls (outside m) ++ cs /\ messages cs = map (fun sf => (sf.1, bytes_of sf.2)) l.

Lemma told_refl m m' : outside m' = outside m -> told m m' [].
Proof. intros He. exists []. by rewrite He, app_nil_r. Qed.

Lemma told_trans m1 m2 m3 l1 l2 : told m1 m2 l1 -> told m2 m3 l2 -> told m1 m3 (l1 ++ l2).
Proof.
  intros (c1 & H1 & L1) (c2 & H2 & L2). exists (c1 ++ c2). split; [by rewrite H2, H1, app_assoc|]. unfold messages in *. by rewrite omap_app, L1, L2, map_app.
Qed.

Lemma silent_messages cs : Forall silent cs -> messages cs = [].
Proof. intros Hs. induction Hs as [|sc cs Hsc _ IH]; [done|]. unfold messages in *. cbn. unfold silent in Hsc. rewrite Hsc. exact IH. Qed.

Lemma told_quiet o m m' : quiet o m m' -> told m m' [].
Proof. intros Hq. destruct (qu_calls _ _ _ Hq) as (cs & Hc & Hs). exists cs. split; [done|by apply silent_messages]. Qed.

(** The new state of a session: what was transmitted, and that every confirmation is
    transmitted or stays in the queue. *)
Record acts s c c' m m' (new : list APDUHeader) : Prop := mkActs {
  ac_told : exists l, told m m' (map (pair s) l) /\ omap confirmation l ++ confirmQueue c' = confirmQueue c ++ new /\ Forall (fragment_ok s) l /\
    (Nat.b2n (isSending c) + length l = Nat.b2n (isSending c'))%nat;
  ac_others : forall j, j <> s -> confirmQueue <$> sessions m' !! j = confirmQueue <$> sessions m !! j
}.

Lemma acts_trans s c1 c2 c3 m1 m2 m3 new1 new2 : acts s c1 c2 m1 m2 new1 -> acts s c2 c3 m2 m3 new2 -> acts s c1 c3 m1 m3 (new1 ++ new2).
Proof.
  intros [(l1 & T1 & Q1 & F1 & N1) O1] [(l2 & T2 & Q2 & F2 & N2) O2]. split; [|intros j Hj; by rewrite O2, O1].
  exists (l1 ++ l2). rewrite map_app, omap_app, length_app. split; [by eapply told_trans|]. split; [|split; [by apply Forall_app_2|lia]].
  by rewrite <- app_assoc, Q2, app_assoc, Q1, app_assoc.
Qed.

Lemma acts_trans_nil s c1 c2 c3 m1 m2 m3 new : acts s c1 c2 m1 m2 [] -> acts s c2 c3 m2 m3 new -> acts s c1 c3 m1 m3 new.
Proof. apply acts_trans. Qed.

Lemma acts_nil_trans s c1 c2 c3 m1 m2 m3 new : acts s c1 c2 m1 m2 new -> acts s c2 c3 m2 m3 [] -> acts s c1 c3 m1 m3 new.
Proof. intros A1 A2. rewrite <- (app_nil_r new). by eapply acts_trans. Qed.

Lemma acts_same s c c' m m' :
  outside m' = outside m -> confirmQueue c' = confirmQueue c -> isSending c' = isSending c ->
  (forall j, j <> s -> confirmQueue <$> sessions m' !! j = confirmQueue <$> sessions m !! j) -> acts s c c' m m' [].
Proof.
  intros Ho Hq Hi Hs. split; [|done]. exists []. rewrite Hq, Hi, app_nil_r. split; [by apply told_refl|]. split; [done|]. split; [constructor|cbn; lia].
Qed.

Lemma quiet_queues o m m' j : quiet o m m' -> confirmQueue <$> sessions m' !! j = confirmQueue <$> sessions m !! j.
Proof.
  intros Hq. pose proof (qu_sessions _ _ _ Hq) as Hs. destruct (sessions m !! j) as [c|] eqn:Hj.
  - destruct (Forall2_lookup_l _ _ _ _ _ Hs Hj) as (c' & -> & Hb). cbn. destruct (other_blocks_fields c c' Hb) as (_ & _ & _ & _ & _ & _ & _ & _ & E & _). by rewrite E.
  - apply lookup_ge_None in Hj. rewrite (Forall2_length _ _ _ Hs) in Hj. by rewrite (proj2 (lookup_ge_None _ _) Hj).
Qed.

Lemma acts_quiet s c c' o m m' : quiet o m m' -> other_blocks c c' -> acts s c c' m m' [].
Proof.
  intros Hq Hb. destruct (other_blocks_fields c c' Hb) as (_ & _ & _ & E1 & _ & _ & _ & _ & E2 & _). split; [|intros j _; by eapply quiet_queues].
  exists []. rewrite E1, E2, app_nil_r. split; [by eapply told_quiet|]. split; [done|]. split; [constructor|cbn; lia].
Qed.

(** What never changes in a session. *)
Definition kept c c' : Prop :=
  addresses c' = addresses c /\ params c' = params c /\ isOnline c' = isOnline c /\
  MasterTasks.all_tasks (mtasks c') = MasterTasks.all_tasks (mtasks c) /\ length (txBuffer c') = length (txBuffer c).

Lemma kept_refl c : kept c c.
Proof. done. Qed.

Lemma kept_trans c1 c2 c3 : kept c1 c2 -> kept c2 c3 -> kept c1 c3.
Proof. intros (?&?&?&?&?) (?&?&?&?&?). split_and!; congruence. Qed.

Lemma kept_blocks c c' : other_blocks c c' -> kept c c'.
Proof. intros Hb. destruct (other_blocks_fields c c' Hb) as (?&?&?&_&_&_&_&?&_&E&_). split_and!; try done. by rewrite E. Qed.

End Invariant.
