(* ===== verification/SchedulerProps.v ===== *)
(** * SchedulerProps: the choice of the next task

    The four comparisons of the scheduler are one strict order on the tasks, and the loop
    of [CheckForTaskRun] finds the first of the minimal ones. *)

From S2P Require Import Prelude Slices Serialization LinkFrame Transport AppHeader Objects ObjectParser HeaderWriter OutstationState RequestHandlers TaskBehavior CommandSet MeasurementHandler MasterState MasterTask MasterScheduler.

From stdpp Require Import gmap.

Open Scope Z_scope.

(** ** Order *)

(** What the scheduler looks at, the more important before the less important. *)
Record Rank := mkRank { rk_disabled : bool; rk_blocked : bool; rk_time : Z; rk_priority : Z }.

Definition bit (b : bool) : Z := if b then 1 else 0.

(** The lexicographic order. *)
Definition before (a b : Rank) : Prop :=
  bit (rk_disabled a) < bit (rk_disabled b) \/ rk_disabled a = rk_disabled b /\
  (bit (rk_blocked a) < bit (rk_blocked b) \/ rk_blocked a = rk_blocked b /\
  (rk_time a < rk_time b \/ rk_time a = rk_time b /\ rk_priority a < rk_priority b)).

Lemma bit_inj a b : bit a = bit b -> a = b.
Proof. by destruct a, b. Qed.

Lemma before_trans a b c : before a b -> before b c -> before a c.
Proof. unfold before. destruct a as [[] [] ta pa], b as [[] [] tb pb], c as [[] [] tc pc]; cbn; intuition (try discriminate; lia). Qed.

Lemma before_irrefl a : ~ before a a.
Proof. unfold before. intuition lia. Qed.

Lemma before_total a b : before a b \/ a = b \/ before b a.
Proof.
  unfold before. destruct a as [[] [] ta pa], b as [[] [] tb pb]; cbn; try (left; lia); try (right; right; lia);
    destruct (Z.lt_trichotomy ta tb) as [?|[->|?]]; destruct (Z.lt_trichotomy pa pb) as [?|[->|?]]; intuition lia.
Qed.

(** Not after [b] and before [c]. *)
Lemma before_mixed a b c : ~ before b a -> before b c -> before a c.
Proof. intros Hba Hbc. destruct (before_total a b) as [H|[->|H]]; [by eapply before_trans|done|done]. Qed.

Section Choice.
Context {W : Type} `{MasterEnvironment W}.
Implicit Types (m : Master W) (r : SchedulerRecord).

(** The time of a task that could run already is now. *)
Definition rank m (now : Z) r : Rank :=
  mkRank (MonotonicTimestamp.IsMax (IMasterTask.ExpirationTime m r.1)) (IMasterTask.IsBlocked m r.1)
    (Z.max now (IMasterTask.ExpirationTime m r.1)) (IMasterTask.Priority m r.1).

Lemma time_rank m now r :
  (if IMasterTask.IsExpired m r.1 now then now else IMasterTask.ExpirationTime m r.1) = Z.max now (IMasterTask.ExpirationTime m r.1).
Proof. unfold IMasterTask.IsExpired. destruct (Z.leb_spec (IMasterTask.ExpirationTime m r.1) now); lia. Qed.

Lemma RIGHT_before m now left right : MasterSchedulerBackend.GetBestTaskToRun m now left right = RIGHT <-> before (rank m now right) (rank m now left).
Proof.
  unfold MasterSchedulerBackend.GetBestTaskToRun, MasterSchedulerBackend.CompareEnabledStatus, MasterSchedulerBackend.CompareBlockedStatus,
    MasterSchedulerBackend.CompareTime, MasterSchedulerBackend.ComparePriority, before, rank. rewrite !time_rank. cbn [rk_disabled rk_blocked rk_time rk_priority].
  set (tl := Z.max now _). set (tr := Z.max now _). clearbody tl tr.
  destruct (MonotonicTimestamp.IsMax (IMasterTask.ExpirationTime m left.1)), (MonotonicTimestamp.IsMax (IMasterTask.ExpirationTime m right.1)); cbn;
    try (split; [done|intuition (try discriminate; lia)]); try (split; [intros _; left; lia|done]);
    destruct (IMasterTask.IsBlocked m left.1), (IMasterTask.IsBlocked m right.1); cbn;
    try (split; [done|intuition (try discriminate; lia)]); try (split; [intros _; right; split; [done|left; lia]|done]);
    destruct (Z.ltb_spec tl tr), (Z.ltb_spec tr tl); cbn; try lia; try (split; [done|intuition lia]); try (split; [intros _; intuition lia|done]);
    destruct (Z.ltb_spec (IMasterTask.Priority m left.1) (IMasterTask.Priority m right.1)), (Z.ltb_spec (IMasterTask.Priority m right.1) (IMasterTask.Priority m left.1));
    cbn; try lia; (split; [try done; intros _; intuition lia|try done; intuition lia]).
Qed.

(** The first of the best records of a list. *)
Record best_at m (now : Z) (rs : list SchedulerRecord) (i : nat) r : Prop := mkBestAt {
  ba_lookup : rs !! i = Some r;
  ba_best : forall j r', rs !! j = Some r' -> ~ before (rank m now r') (rank m now r);
  ba_first : forall j r', (j < i)%nat -> rs !! j = Some r' -> before (rank m now r) (rank m now r')
}.

Lemma best_extend m now rs i r r' : best_at m now rs i r ->
  let '(i', b) := if bool_decide (MasterSchedulerBackend.GetBestTaskToRun m now r r' = RIGHT) then (length rs, r') else (i, r) in
  best_at m now (rs ++ [r']) i' b.
Proof.
  intros [Hi Hb Hf]. destruct (bool_decide_reflect (MasterSchedulerBackend.GetBestTaskToRun m now r r' = RIGHT)) as [Hr|Hr]; rewrite RIGHT_before in Hr.
  - split.
    + by rewrite lookup_app_r, Nat.sub_diag by lia.
    + intros j q Hj Hq. apply lookup_app_Some in Hj as [Hj|[_ Hj]]; [by eapply (Hb j q), before_trans|].
      apply list_lookup_singleton_Some in Hj as [_ <-]. by apply before_irrefl in Hq.
    + intros j q Hlt Hj. rewrite lookup_app_l in Hj by lia. destruct (before_total (rank m now r') (rank m now q)) as [?|[E|Hq]]; [done| |].
      * exfalso. apply (Hb j q Hj). by rewrite <- E.
      * exfalso. by eapply (Hb j q Hj), before_trans.
  - assert (Hlen : (i < length rs)%nat) by (by eapply lookup_lt_Some). split.
    + by rewrite lookup_app_l by done.
    + intros j q Hj. apply lookup_app_Some in Hj as [Hj|[_ Hj]]; [by eapply Hb|]. by apply list_lookup_singleton_Some in Hj as [_ <-].
    + intros j q Hlt Hj. rewrite lookup_app_l in Hj by lia. by eapply Hf.
Qed.

Lemma find_best_spec m now rest : forall rs i r, best_at m now rs i r ->
  let '(i', b) := MasterSchedulerBackend.find_best m now (i, r) (length rs) rest in best_at m now (rs ++ rest) i' b.
Proof.
  induction rest as [|r' rest IH]; intros rs i r Hb; cbn [MasterSchedulerBackend.find_best]; [by rewrite app_nil_r|].
  pose proof (best_extend m now rs i r r' Hb) as He. cbn [snd].
  destruct (if bool_decide (MasterSchedulerBackend.GetBestTaskToRun m now r r' = RIGHT) then (length rs, r') else (i, r)) as [i' b].
  specialize (IH (rs ++ [r']) i' b He). rewrite length_app, Nat.add_1_r in IH. by rewrite <- app_assoc in IH.
Qed.

Lemma find_best_first m now first rest i r :
  MasterSchedulerBackend.find_best m now (0%nat, first) 1 rest = (i, r) -> best_at m now (first :: rest) i r.
Proof.
  intros He. pose proof (find_best_spec m now rest [first] 0 first) as Hs. cbn [length app] in Hs. rewrite He in Hs. apply Hs. split; [done| |lia].
  intros j q Hj. apply list_lookup_singleton_Some in Hj as [_ <-]. apply before_irrefl.
Qed.

(** The channel when a task is chosen: the check is over, the start timer runs until
    the earliest deadline, and the executor has told the time. *)
Definition checking m : Master W :=
  let x := scheduler m in
  set_outside (mkMOutside (executor_time (mworld (outside m))).2 (mcalls (outside m)))
    (set_scheduler (mkMasterSchedulerBackend false (current x) (tasks x) (taskTimer x)
       (Some (MasterSchedulerBackend.min_start m MonotonicTimestamp.Max (tasks x)))) m).

Lemma min_start_scheduler m x : forall rs min, MasterSchedulerBackend.min_start (set_scheduler x m) min rs = MasterSchedulerBackend.min_start m min rs.
Proof. induction rs as [|r rs IH]; intros min; cbn [MasterSchedulerBackend.min_start]; [done|]. apply IH. Qed.

Context (Run : nat -> nat -> SM (Master W) bool).

(** C11: When the scheduler looks for a task and none is running, the task it takes is
    the first among those that come first in the lexicographic order of being enabled,
    not being blocked, the earlier time and the higher priority, where all tasks whose
    time has come have the same time.  If its time has come it is taken out of the
    list and runs, and nothing else does; otherwise the timer is set to its time and
    the list stays as it is. *)
Theorem best_task_runs m first rest (now := (executor_time (mworld (outside m))).1) :
  current (scheduler m) = None -> tasks (scheduler m) = first :: rest ->
  exists i r, best_at (checking m) now (first :: rest) i r /\
    let expiration := IMasterTask.ExpirationTime (checking m) r.1 in
    MasterSchedulerBackend.CheckForTaskRun Run m =
      if expiration <=? now then
        '(m', _) ← Run r.2 r.1 (set_scheduler (set_records (delete i (first :: rest)) (set_current (Some r) (scheduler (checking m)))) (checking m));
        Some (m', true)
      else Some (set_scheduler (set_taskTimer (Some expiration) (scheduler (checking m))) (checking m), false).
Proof.
  intros Hcur Htasks. destruct (MasterSchedulerBackend.find_best (checking m) now (0%nat, first) 1 rest) as [i r] eqn:Hbest.
  exists i, r. split; [by apply find_best_first|]. revert Hbest. subst now. unfold checking.
  destruct m as [o st ss [pend cur ts timer start] po]. cbn in Hcur, Htasks. subst cur ts.
  unfold MasterSchedulerBackend.CheckForTaskRun, MasterSchedulerBackend.RestartTimeoutTimer, ExecutorGetTime, ask_outside, update_scheduler, get, modify,
    mbind, SM_bind, mret, SM_ret.
  cbn [scheduler set_scheduler set_taskCheckPending set_taskStartTimeout current tasks outside taskTimer set_outside].
  rewrite min_start_scheduler. destruct (executor_time (mworld o)) as [now' w] eqn:Ht. cbn [fst snd scheduler set_scheduler set_outside tasks set_taskStartTimeout set_taskCheckPending current].
  unfold set_scheduler, set_taskStartTimeout, set_taskCheckPending, set_outside. cbn [scheduler outside store sessions posted taskCheckPending current tasks taskTimer taskStartTimeout_].
  intros ->.
  destruct (_ <=? now'); [|done]. unfold set_current, set_records. cbn [scheduler outside store sessions posted taskCheckPending current tasks taskTimer taskStartTimeout_].
  by destruct (Run _ _ _) as [[? ?]|].
Qed.

End Choice.

(** ** A small channel *)

Module Clock.

(** The world is the time; the application wants nothing. *)
#[export] Instance environment : MasterEnvironment Z := {|
  executor_time := fun now => (now, now);
  application_Now := fun _ now => (now, now);
  AssignClassDuringStartup := fun _ _ => false;
  ConfigureAssignClassRequest := fun _ now => ([], now);
  master_notice := fun _ _ now => now
|}.

(** An event scan, whose time comes at 30, and a command; at 10 the command runs. *)
Definition channel : Master Z :=
  mkMaster (mkMOutside 10 [])
    [mkTask (EventScanTask (ClassField.AllEventClasses) 0) 0 TaskConfig.Default (TaskBehavior.make 100 30 5 60 MonotonicTimestamp.Max);
     mkTask (CommandTask [DIRECT_OPERATE] 0 [] always_two_bytes) 0 TaskConfig.Default (TaskBehavior.SingleExecutionNoRetry 1000)]
    [] (mkMasterSchedulerBackend true None [(0, 0); (1, 0)]%nat None None) [].

End Clock.

Import Clock.

Lemma best_task_runs_witness :
  exists i r, best_at (checking channel) 10 [(0, 0); (1, 0)]%nat i r /\
    let expiration := IMasterTask.ExpirationTime (checking channel) r.1 in
    is_Some (MasterSchedulerBackend.CheckForTaskRun (fun s t m => Some (m, true)) channel) /\ (expiration <=? 10) = true.
Proof.
  destruct (best_task_runs (fun s t m => Some (m, true)) channel (0, 0)%nat [(1, 0)%nat] eq_refl eq_refl) as (i & r & Hb & _).
  exists i, r. split; [exact Hb|]. split; [vm_compute; by eexists|]. destruct Hb as [Hi Hbest _].
  destruct i as [|[|i]]; [injection Hi as <-; exfalso; apply (Hbest 1%nat (1, 0)%nat eq_refl); vm_compute; intuition lia|injection Hi as <-; reflexivity|done].
Defined.

(** The command is the one that runs. *)
Example the_command_runs :
  match MasterSchedulerBackend.CheckForTaskRun (fun s t m => Some (m, true)) channel with
  | Some (m, ran) => ran = true /\ current (scheduler m) = Some (1, 0)%nat /\ tasks (scheduler m) = [(0, 0)%nat]
  | None => False
  end.
Proof. vm_compute. done. Qed.
