(* ===== verification/MasterMachine.v ===== *)
(** * MasterMachine: the methods of a session keep the invariant

    Transmission, the running of the active task and its responses, for a session whose
    machine is put aside, and the choice of the next task. *)

From S2P Require Import Prelude Slices Serialization LinkFrame Transport AppHeader Objects ObjectParser HeaderWriter HeaderRoundtrip OutstationState RequestHandlers EventWriters EventResponse RequestSpecs TaskBehavior CommandSet CommandProps MeasurementHandler MeasurementProps MasterState MasterTask MasterScheduler Master RequestBuilding MasterSpecs MasterMethods MasterSession SchedulerProps.

From stdpp Require Import gmap.

Open Scope Z_scope.

Section Machine.
Context {W : Type} `{MasterEnvironmentOk W}.
Context (R : nat -> CommandSet -> Prop).
Implicit Types (m : Master W) (s : nat) (c : MContext).

#[local] Abbreviation channel_ok := (channel_ok R).

#[local] Abbreviation machine_ok := (machine_ok R).

#[local] Abbreviation acts := (acts R).

#[local] Abbreviation prepared := (prepared R).

(** *** Changes of the session itself *)

(** What the static invariant looks at. *)
Definition fits c c' : Prop :=
  params c' = params c /\ MasterTasks.all_tasks (mtasks c') = MasterTasks.all_tasks (mtasks c) /\ length (txBuffer c') = length (txBuffer c).

Lemma kept_fits c c' : kept c c' -> fits c c'.
Proof. by intros (? & ? & ? & ? & ?). Qed.

Lemma session_ok_fits st s c c' : fits c c' -> Forall (fun h => function h = CONFIRM) (confirmQueue c') -> session_ok st s c -> session_ok st s c'.
Proof. intros (E2 & E4 & E5) Hq [Hp Hb _ Ht Hn]. split; [by rewrite E2|by rewrite E5|done|by rewrite E4|by rewrite E4]. Qed.

Lemma channel_own s c c' m : channel_ok (Some s) m -> sessions m !! s = Some c -> fits c c' ->
  Forall (fun h => function h = CONFIRM) (confirmQueue c') -> channel_ok (Some s) (set_sessions (<[s := c']> (sessions m)) m).
Proof.
  intros Hok Hs Hk Hq. destruct Hok as [Hst Hse Hma Hre Hon Hfr Hch Hpo]. split; try done; cbn [sessions store scheduler posted set_sessions].
  - intros i t Hi. destruct (Hst i t Hi) as [? ?]. split; [done|]. cbn. by rewrite length_insert.
  - intros j d Hj. apply list_lookup_insert_Some in Hj as [(-> & <- & _)|[_ Hj]]; [by eapply session_ok_fits, Hse|by apply Hse].
  - intros j d Hx Hj. rewrite list_lookup_insert_ne in Hj by congruence. eapply machine_scheduler; [by apply Hma|done|done|by left|done].
Qed.

Lemma wp_update_own s c f m (Q : unit -> Master W -> Prop) :
  channel_ok (Some s) m -> sessions m !! s = Some c -> fits c (f c) -> Forall (fun h => function h = CONFIRM) (confirmQueue (f c)) ->
  (forall m', channel_ok (Some s) m' -> sessions m' !! s = Some (f c) -> m' = set_sessions (<[s := f c]> (sessions m)) m -> Q tt m') ->
  wp (update_session s f) m Q.
Proof.
  intros Hok Hs Hk Hq HQ. unfold wp, update_session. rewrite Hs. cbn [mbind option_bind]. apply HQ; [by eapply channel_own| |done].
  cbn. apply list_lookup_insert_eq. by eapply lookup_lt_Some.
Qed.

Lemma acts_own s c c' m : confirmQueue c' = confirmQueue c -> isSending c' = isSending c ->
  acts s c c' m (set_sessions (<[s := c']> (sessions m)) m) [].
Proof. intros Hq Hi. apply acts_same; [done..|]. intros j Hj. cbn. by rewrite list_lookup_insert_ne by congruence. Qed.

(** *** Transmission *)

(** Only the transmission of the session goes on. *)
Record wired s c c' m m' (new : list APDUHeader) : Prop := mkWired {
  wi_session : sessions m' !! s = Some c';
  wi_store : store m' = store m;
  wi_scheduler : scheduler m' = scheduler m;
  wi_posted : posted m' = posted m;
  wi_acts : acts s c c' m m' new;
  wi_kept : kept c c';
  wi_fields : tstate c' = tstate c /\ activeTask c' = activeTask c /\ responseTimer c' = responseTimer c /\ solSeq c' = solSeq c
}.

Lemma wired_refl s c m : sessions m !! s = Some c -> wired s c c m m [].
Proof. intros Hs. split; try done. by apply acts_same. Qed.

Lemma Transmit_wp s c data f m (Q : unit -> Master W -> Prop) :
  channel_ok (Some s) m -> sessions m !! s = Some c -> isSending c = false -> bytes_of f = data -> fragment_ok R s f ->
  (forall m', channel_ok (Some s) m' -> sessions m' !! s = Some (set_isSending true c) -> told m m' [(s, f)] ->
    store m' = store m -> scheduler m' = scheduler m -> posted m' = posted m ->
    (forall j, j <> s -> sessions m' !! j = sessions m !! j) -> Q tt m') ->
  wp (MContext.Transmit s data) m Q.
Proof.
  intros Hok Hs Hsend Hf Hfo HQ. unfold MContext.Transmit. rewrite wp_bind. eapply wp_session; [exact Hs|]. rewrite Hsend. rewrite wp_bind, wp_lift. exists tt.
  split; [done|]. rewrite wp_bind. eapply wp_update_own; [done|exact Hs|done|by apply (so_queue _ _ _ (ck_sessions _ _ _ Hok s c Hs))|].
  intros m1 Hok1 Hs1 ->. unfold wp, tell_outside. cbn [outside set_sessions].
  apply HQ; [|done| |done|done|done|].
  - destruct Hok1 as [Hst Hse Hma Hre Hon Hfr Hch Hpo]. split; try done. intros j d Hx Hj. eapply machine_scheduler; [by apply Hma|done|done|by left|done].
  - exists [(s, MasterTransmit (addresses c) data)]. split; [done|]. cbn. by rewrite Hf.
  - intros j Hj. cbn. by rewrite list_lookup_insert_ne by congruence.
Qed.

Lemma CheckConfirmTransmit_wp s c m (Q : bool -> Master W -> Prop) :
  channel_ok (Some s) m -> sessions m !! s = Some c ->
  (forall b m' c', channel_ok (Some s) m' -> wired s c c' m m' [] -> (isSending c = true -> c' = c) -> Q b m') ->
  wp (MContext.CheckConfirmTransmit s) m Q.
Proof.
  intros Hok Hs HQ. unfold MContext.CheckConfirmTransmit. rewrite wp_bind. eapply wp_session; [exact Hs|].
  destruct (confirmQueue c) as [|confirm queue] eqn:Hq; [rewrite wp_ret; eapply HQ; [done|by apply wired_refl|done]|].
  destruct (isSending c) eqn:Hsend; [rewrite wp_ret; eapply HQ; [done|by apply wired_refl|done]|].
  destruct (ck_sessions _ _ _ Hok s c Hs) as [Hpa [Hb1 Hb2] Hqu Hta Hno]. rewrite Hq in Hqu. apply Forall_cons_1 in Hqu as [Hcf Hqu].
  destruct (frame_init (txBuffer c) Hb1) as (f0 & He0 & _ & Hf0). rewrite wp_bind, wp_lift. exists f0. split; [done|].
  destruct (frame_set_header' (length (txBuffer c)) f0 _ [] (control confirm) (function confirm) Hf0) as (f2 & He & Hf2). unfold IMasterTask.set_header' in He.
  rewrite wp_bind, wp_lift. destruct (APDUWrapper.SetFunction f0 (function confirm)) as [f1|]; [|done]. exists f1. split; [done|]. cbn [mbind option_bind] in He.
  rewrite wp_bind, wp_lift. exists f2. split; [done|]. rewrite wp_bind.
  eapply wp_update_own; [done|exact Hs|split_and!; try done; by apply (rf_length _ _ _ _ Hf2)|cbn; rewrite Hq; by constructor|].
  intros m1 Hok1 Hs1 E1. rewrite wp_bind, wp_lift. eexists. split; [by eapply frame_ToRSlice|]. rewrite app_nil_r, wp_bind.
  eapply (Transmit_wp s _ _ (Confirmation confirm)); [done|exact Hs1|done|done|done|]. intros m2 Hok2 Hs2 Ht2 S2 D2 P2 O2. rewrite wp_bind.
  eapply wp_update_own; [done|exact Hs2|done|exact Hqu|]. intros m3 Hok3 Hs3 E3. rewrite wp_ret.
  assert (Hoth : forall j, j <> s -> sessions m3 !! j = sessions m !! j).
  { intros j Hj. rewrite E3. cbn [sessions set_sessions]. rewrite list_lookup_insert_ne by congruence. rewrite O2, E1 by done. cbn [sessions set_sessions].
    by rewrite list_lookup_insert_ne by congruence. }
  eapply HQ; [done| |congruence]. split; [exact Hs3|by rewrite E3; cbn; rewrite S2, E1|by rewrite E3; cbn; rewrite D2, E1|by rewrite E3; cbn; rewrite P2, E1| | |done].
  - split; [|intros j Hj; by rewrite Hoth]. exists [Confirmation confirm]. split_and!; [|cbn; by rewrite Hq, app_nil_r|by constructor|cbn; by rewrite Hsend].
    destruct Ht2 as (cs & Hcs & Hms). exists cs. split; [rewrite E3; cbn; rewrite Hcs, E1; done|done].
  - split_and!; try done. cbn. by apply (rf_length _ _ _ _ Hf2).
Qed.

Lemma QueueConfirm_wp s c h m (Q : unit -> Master W -> Prop) :
  channel_ok (Some s) m -> sessions m !! s = Some c -> function h = CONFIRM ->
  (forall m' c', channel_ok (Some s) m' -> wired s c c' m m' [h] -> Q tt m') -> wp (MContext.QueueConfirm s h) m Q.
Proof.
  intros Hok Hs Hh HQ. unfold MContext.QueueConfirm. rewrite wp_bind.
  eapply wp_update_own; [done|exact Hs|done|cbn; apply Forall_app_2; [by apply (so_queue _ _ _ (ck_sessions _ _ _ Hok s c Hs))|by constructor]|].
  intros m1 Hok1 Hs1 E1. rewrite wp_bind. eapply CheckConfirmTransmit_wp; [done|exact Hs1|]. intros b m2 c2 Hok2 [Hse Hst Hsc Hpo Hac Hke (F1 & F2 & F3 & F4)] _.
  rewrite wp_ret. eapply HQ; [done|]. split; [done|by rewrite Hst, E1|by rewrite Hsc, E1|by rewrite Hpo, E1| |by eapply kept_trans|done].
  eapply acts_nil_trans; [|exact Hac]. subst m1. split.
  - exists []. split_and!; [by apply told_refl|done|constructor|cbn; lia].
  - intros j Hj. cbn. by rewrite list_lookup_insert_ne by congruence.
Qed.

(** *** The end of a task *)

(** The active task [i] is done, and waits again when it recurs. *)
Definition completed s c (i : nat) (t : Task) m : Master W :=
  let x := scheduler m in
  posted_check (set_scheduler (set_current None (set_records (tasks x ++ if TaskKind.IsRecurring (kind t) then [(i, s)] else []) x))
    (set_sessions (<[s := set_activeTask None c]> (sessions m)) m)).

Lemma Complete_run s c i t m :
  sessions m !! s = Some c -> activeTask c = Some i -> current (scheduler m) = Some (i, s) -> store m !! i = Some t ->
  MContext.CompleteActiveTask s m = Some (completed s c i t m, tt).
Proof.
  intros Hs Ha Hcur Hi. unfold MContext.CompleteActiveTask, the_session, update_session, MasterSchedulerBackend.CompleteCurrentFor, get, mbind, SM_bind, mret, SM_ret.
  cbn [mbind option_bind]. rewrite Hs. cbn [option_bind]. rewrite Ha. cbn [option_bind]. rewrite Hs. cbn [option_bind scheduler set_sessions]. rewrite Hcur. cbn [snd fst].
  rewrite Nat.eqb_refl. cbn [negb]. unfold IMasterTask.IsRecurring. cbn [store set_sessions]. rewrite Hi.
  unfold completed, MasterSchedulerBackend.Add, update_scheduler, modify, mbind, SM_bind.
  destruct m as [o st ss [pend cur ts timer start] po]; cbn in Hs, Hcur, Hi |- *. subst cur.
  destruct (TaskKind.IsRecurring (kind t)).
  - rewrite PostCheck_run. unfold posted_check. cbn. destruct pend; cbn; rewrite PostCheck_run; unfold posted_check; cbn; done.
  - rewrite PostCheck_run. unfold posted_check. cbn. rewrite app_nil_r. by destruct pend.
Qed.

Lemma CompleteActiveTask_wp s c i m (Q : unit -> Master W -> Prop) :
  channel_ok (Some s) m -> sessions m !! s = Some c -> isOnline c = true -> activeTask c = Some i -> current (scheduler m) = Some (i, s) ->
  (forall m', channel_ok (Some s) m' -> awake m' -> sessions m' = <[s := set_activeTask None c]> (sessions m) -> outside m' = outside m ->
    store m' = store m -> current (scheduler m') = None -> retains m m' -> Q tt m') ->
  wp (MContext.CompleteActiveTask s) m Q.
Proof.
  intros Hok Hs Hon Ha Hcur HQ. destruct (ck_records _ _ _ Hok i s) as (t & Hi & Hctx); [unfold scheduled; rewrite Hcur; left|].
  unfold wp. rewrite (Complete_run s c i t m Hs Ha Hcur Hi). unfold completed. set (m1 := set_scheduler _ _).
  destruct (posted_check_fields m1) as (E1 & E2 & E3 & E4 & E5 & E6).
  assert (Hkeep : retains m m1).
  { unfold retains, scheduled, m1. cbn. rewrite Hcur. intros k j u Hk Hu Hr. apply elem_of_app. apply elem_of_cons in Hk as [[= -> ->]|Hk]; [right|by left].
    assert (u = t) as -> by congruence. rewrite Hr. by apply list_elem_of_singleton. }
  assert (Hok1 : channel_ok (Some s) m1); [|apply HQ; [by apply channel_posted_check|by eapply awake_posted_check|by rewrite E3|by rewrite E1|by rewrite E2|by rewrite E4|]].
  2:{ intros k j u Hk Hu Hr. unfold scheduled. rewrite E4, E5. by eapply Hkeep. }
  pose proof (channel_own s c (set_activeTask None c) m Hok Hs ltac:(done) (so_queue _ _ _ (ck_sessions _ _ _ Hok s c Hs))) as [Hst Hse Hma Hre Hno Hfr Hch Hpo].
  pose proof (ck_once _ _ _ Hok) as Honce. unfold scheduled in Honce, Hre, Hno. rewrite Hcur in Honce. cbn in Honce. apply NoDup_cons in Honce as [Hnew Honce].
  split; unfold scheduled; cbn [m1 store sessions scheduler posted current tasks taskTimer taskCheckPending set_scheduler set_sessions set_current set_records].
  all: try change (option_list None ++ ?l) with l.
  - done.
  - done.
  - intros j d Hx Hj. assert (Hj' : sessions m !! j = Some d) by (cbn in Hj; by rewrite list_lookup_insert_ne in Hj by congruence). eapply machine_scheduler; [by apply Hma|done| | |intros k Hk Hin; eapply (retained m); [by eapply (ck_sessions _ _ _ Hok), Hj'|exact Hkeep|done|exact Hin]]; cbn.
    + intros k. rewrite Hcur. split; [done|]. intros [= _ ->]. done.
    + intros k Hk. apply elem_of_app in Hk as [Hk|Hk]; [by left|]. destruct (TaskKind.IsRecurring (kind t)); [|by apply not_elem_of_nil in Hk].
      apply list_elem_of_singleton in Hk as [= _ ->]. done.
  - intros k j Hk. apply elem_of_app in Hk as [Hk|Hk]; [apply Hre; apply elem_of_app; right; exact Hk|].
    destruct (TaskKind.IsRecurring (kind t)); [|by apply not_elem_of_nil in Hk]. apply list_elem_of_singleton in Hk as [= -> ->]. by exists t.
  - rewrite fmap_app. apply NoDup_app. split; [exact Honce|]. destruct (TaskKind.IsRecurring (kind t)); [|split; [intros ? ? []%not_elem_of_nil|constructor]].
    split; [|apply NoDup_singleton]. intros k Hk1 Hk2. apply list_elem_of_singleton in Hk2 as ->. done.
  - intros k j t' Hk Hk'. apply elem_of_app in Hk as [Hk|Hk]; [by eapply Hfr|].
    destruct (TaskKind.IsRecurring (kind t)) eqn:Hrec; [|by apply not_elem_of_nil in Hk]. apply list_elem_of_singleton in Hk as [= -> ->].
    cbn in Hk'. assert (t' = t) as -> by congruence. by destruct (kind t).
  - done.
  - done.
Qed.

(** *** Requests *)

(** The machine of the session in a state. *)
Definition goes s c m (r : TaskState) m' (new : list APDUHeader) : Prop :=
  exists c', channel_ok (Some s) m' /\ awake m' /\ sessions m' !! s = Some c' /\ acts s c c' m m' new /\ kept c c' /\ machine_ok m' s (set_tstate r c').

Lemma current_awake m r : current (scheduler m) = Some r -> awake m.
Proof. intros Hc ?. congruence. Qed.

Lemma machine_idle m s c : isOnline c = true -> current (scheduler m) = None -> activeTask c = None -> responseTimer c = false -> keeps m s c -> machine_ok m s (set_tstate IDLE c).
Proof. intros Hon Hcur Ha Ht Hk. split; cbn; [intros i; rewrite Ha, Hcur; done|by rewrite Hon|done|by rewrite Ha|exact Hk]. Qed.

Lemma prepared_function s k : prepared s k -> kind_fits k -> (match k with CommandTask codes _ _ _ => codes <> [] | _ => True end) ->
  next_function k <> CONFIRM /\ match k with CommandTask _ _ _ _ => True | _ => next_function k <> OPERATE end.
Proof.
  intros Hp Hf Hc. destruct k; cbn in *; try done; try (by destruct (_ <? _)); try (by destruct (decide _)).
  - by destruct Hf as (_ & ? & ?).
  - by destruct Hf as [-> | ->].
  - split; [|done]. destruct Hp as [([-> | ->] & _)|[-> _]]; done.
Qed.

(** The request of a prepared task was sent. *)
Lemma asked_after s k k' : prepared s k -> same_class k k' -> commands_sent k k' -> (match k with CommandTask codes _ _ _ => codes <> [] | _ => True end) -> asked k'.
Proof.
  intros Hp Hc Hs Hn. destruct k as [| | | | | | | | | | |codes cb set mode], k' as [| | | | | | | | | | |codes' cb' set' mode']; cbn in *; try done.
  destruct codes as [|fc codes]; [done|]. destruct Hs as [-> Hs].
  assert (Hfresh : Forall CommandProps.fresh set -> Forall CommandProps.fresh set').
  { clear -Hs. induction Hs as [|h h' set set' [_ Hr] _ IH]; [done|]. intros Hf. apply Forall_cons_1 in Hf as [Hh Hf]. constructor; [|by apply IH].
    unfold CommandProps.fresh in *. by rewrite Hr. }
  destruct Hp as [([[= -> ->]|[= -> ->]] & Hf)|[[= -> ->] _]]; [right; split; [done|by apply Hfresh]|by left..].
Qed.

Lemma ResumeActiveTask_wp s c i t m :
  channel_ok (Some s) m -> sessions m !! s = Some c -> isOnline c = true -> isSending c = false -> responseTimer c = false ->
  activeTask c = Some i -> current (scheduler m) = Some (i, s) -> store m !! i = Some t -> prepared s (kind t) -> keeps m s c ->
  wp (MContext.ResumeActiveTask s) m (fun r m' => goes s c m r m' []).
Proof.
  intros Hok Hs Hon Hsend Htm Ha Hcur Hi Hp Hkp. unfold MContext.ResumeActiveTask. rewrite wp_bind. eapply wp_session; [exact Hs|].
  destruct (ck_sessions _ _ _ Hok s c Hs) as [Hpa [Hb1 Hb2] Hqu Hta Hno]. destruct (ck_store _ _ _ Hok i t Hi) as [Htok _].
  destruct (frame_init (txBuffer c) Hb1) as (f0 & He0 & _ & Hf0). rewrite wp_bind, wp_lift. exists f0. split; [exact He0|]. rewrite Ha, wp_bind.
  eapply wp_mono; [apply (BuildRequest_wp (length (txBuffer c)) (solSeq c) i t f0 _ Hf0 Hb2 m Hi Htok)|]. cbv beta.
  intros [f ok] m1 (Q1 & C1 & (t1 & Hi1 & Hsent) & hdr & body & Hfr & Hgood). cbn [fst snd] in *.
  assert (Hown : own (Some s) (Some i) m) by (intros ? [= <-]; by exists s).
  pose proof (channel_quiet _ _ _ _ _ Hok Q1 Hown) as Hok1. destruct (quiet_session _ _ _ _ _ Q1 Hs) as (c1 & Hs1 & Hb).
  destruct (other_blocks_fields c c1 Hb) as (F1 & F2 & F3 & F4 & F5 & F6 & F7 & F8 & F9 & F10 & F11).
  destruct (quiet_task _ _ _ _ _ Q1 Hi) as (t1' & Hi1' & Hmv). assert (t1' = t1) as -> by congruence. clear Hi1'.
  rewrite wp_bind. eapply wp_update_own; [done|exact Hs1| |cbn; by rewrite F9|].
  { split_and!; try done. cbn. by rewrite (rf_length _ _ _ _ Hfr), F10. }
  intros m2 Hok2 Hs2 E2. set (c2 := set_txBuffer (apdu_array f) c1) in *.
  assert (A2 : acts s c c2 m m2 []) by (eapply acts_trans_nil; [by eapply acts_quiet|rewrite E2; by apply acts_own]).
  assert (K2 : kept c c2) by (eapply kept_trans; [by apply kept_blocks|split_and!; try done; cbn; by rewrite (rf_length _ _ _ _ Hfr), F10]).
  assert (Hcur2 : current (scheduler m2) = Some (i, s)) by (rewrite E2; cbn; by rewrite (qu_scheduler _ _ _ Q1)).
  destruct ok; cbn [negb].
  - destruct (Hgood eq_refl) as (-> & Hcmd). rewrite wp_bind.
    eapply wp_update_own; [done|exact Hs2|done|cbn; by rewrite F9|]. intros m3 Hok3 Hs3 E3. rewrite wp_bind, wp_lift. eexists.
    split; [by eapply frame_ToRSlice|]. rewrite wp_bind.
    assert (Hne : match kind t with CommandTask codes _ _ _ => codes <> [] | _ => True end) by (destruct (kind t); try done; by destruct Hcmd).
    destruct (prepared_function s (kind t) Hp (tk_kind _ Htok) Hne) as [Hf1 Hf2].
    eapply (Transmit_wp s _ _ (Request _)); [done|exact Hs3|cbn; by rewrite F4|done| |].
    { exists (kind t), (solSeq c), body. split_and!; try done. by destruct (kind t). }
    intros m4 Hok4 Hs4 Ht4 S4 D4 P4 O4. rewrite wp_ret.
    assert (Hcur4 : current (scheduler m4) = Some (i, s)) by (rewrite D4, E3; exact Hcur2).
    eexists. split; [done|]. split; [by eapply current_awake|]. split; [exact Hs4|]. split; [|split].
    + eapply acts_trans_nil; [exact A2|]. split.
      * exists [Request (request_header (AppControlField.Request (solSeq c)) (next_function (kind t)) ++ body)].
        split; [|split; [cbn; by rewrite app_nil_r|split; [constructor; [|constructor]|cbn; by rewrite F4, Hsend]]].
        -- destruct Ht4 as (cs & Hcs & Hms). exists cs. split; [rewrite Hcs, E3; done|done].
        -- exists (kind t), (solSeq c), body. split_and!; try done. by destruct (kind t).
      * intros j Hj. rewrite O4, E3 by done. cbn. by rewrite list_lookup_insert_ne by congruence.
    + eapply kept_trans; [exact K2|done].
    + split; cbn; [intros k; rewrite F6, Ha, Hcur4; split; by intros [= ->]|by rewrite F3, Hon|done| |].
      * rewrite F6, Ha. exists t1. split; [by rewrite S4, E3, E2|]. eapply asked_after; [exact Hp|apply (tm_class _ _ Hmv)|exact Hsent|exact Hne].
      * eapply keeps_same; [| | |exact Hkp]; [done|done|]. rewrite D4, E3, E2. cbn. by rewrite (qu_scheduler _ _ _ Q1).
  - rewrite wp_bind. apply wp_time. intros now m3 Hnow Q3 C3 S3 E3. rewrite wp_bind.
    pose proof (channel_quiet _ _ None _ _ Hok2 (Q3 None) (own_none _ _)) as Hok3.
    apply CompleteTask_wp; [apply (ck_store _ _ _ Hok3)|rewrite S3, E2; by eapply lookup_lt_Some|done|]. intros m4 Q4.
    pose proof (channel_quiet _ _ None _ _ Hok3 Q4 (own_none _ _)) as Hok4. assert (Q24 : quiet None m2 m4) by quietly.
    destruct (quiet_session _ _ _ _ _ Q24 Hs2) as (c4 & Hs4 & Hb4). destruct (other_blocks_fields c2 c4 Hb4) as (G1 & G2 & G3 & G4 & G5 & G6 & G7 & G8 & G9 & G10 & G11).
    rewrite wp_bind. eapply (CompleteActiveTask_wp s c4 i); [done|done|by rewrite G3; cbn; rewrite F3|by rewrite G6; cbn; rewrite F6|by rewrite (qu_scheduler _ _ _ Q24)|].
    intros m5 Hok5 Aw5 S5 O5 T5 Hcur5 Hre5. rewrite wp_ret. exists (set_activeTask None c4).
    split; [done|]. split; [done|]. split; [rewrite S5; apply list_lookup_insert_eq; by eapply lookup_lt_Some|]. split; [|split].
    + eapply acts_trans_nil; [exact A2|]. eapply acts_trans_nil; [by eapply acts_quiet|]. apply acts_same; [done..|].
      intros j Hj. rewrite S5. by rewrite list_lookup_insert_ne by congruence.
    + eapply kept_trans; [exact K2|]. eapply kept_trans; [by apply kept_blocks|done].
    + apply machine_idle; [cbn; rewrite G3; cbn; by rewrite F3|done|done|cbn; rewrite G7; cbn; by rewrite F7|].
      eapply (keeps_retained m4 _ s c4); [by eapply (ck_sessions _ _ _ Hok4)|exact Hre5|done|done|].
      eapply (keeps_same m); [by rewrite G3|by rewrite G8|rewrite (qu_scheduler _ _ _ Q24), E2; cbn; by rewrite (qu_scheduler _ _ _ Q1)|exact Hkp].
Qed.

Lemma goes_after s c0 c1 m0 m1 r m2 new1 new2 :
  acts s c0 c1 m0 m1 new1 -> kept c0 c1 -> goes s c1 m1 r m2 new2 -> goes s c0 m0 r m2 (new1 ++ new2).
Proof.
  intros A1 K1 (c' & Hok & Ha & Hs & A2 & K2 & Hm). exists c'. split; [done|]. split; [done|]. split; [done|]. split; [by eapply acts_trans|]. split; [by eapply kept_trans|done].
Qed.

Lemma goes_nil s c0 c1 m0 m1 r m2 new : acts s c0 c1 m0 m1 new -> kept c0 c1 -> goes s c1 m1 r m2 [] -> goes s c0 m0 r m2 new.
Proof. intros. rewrite <- (app_nil_r new). by eapply goes_after. Qed.

(** Nothing happens. *)
Lemma goes_stay s c m r : channel_ok (Some s) m -> awake m -> sessions m !! s = Some c -> machine_ok m s (set_tstate r c) -> goes s c m r m [].
Proof. intros Hok Ha Hs Hm. exists c. split; [done|]. split; [done|]. split; [done|]. split; [by apply acts_same|]. split; [apply kept_refl|done]. Qed.

Lemma set_tstate_same c : set_tstate (tstate c) c = c.
Proof. by destruct c. Qed.

Lemma StartTask_wp s c i t m :
  channel_ok (Some s) m -> sessions m !! s = Some c -> isOnline c = true -> responseTimer c = false ->
  activeTask c = Some i -> current (scheduler m) = Some (i, s) -> store m !! i = Some t -> prepared s (kind t) -> keeps m s c ->
  wp (MContext.StartTask_TaskReady s) m (fun r m' => goes s c m r m' []).
Proof.
  intros Hok Hs Hon Htm Ha Hcur Hi Hp Hkp. unfold MContext.StartTask_TaskReady. rewrite wp_bind. eapply wp_session; [exact Hs|].
  destruct (isSending c) eqn:Hsend; [|by eapply ResumeActiveTask_wp]. rewrite wp_ret. apply goes_stay; [done|by eapply current_awake|done|].
  split; cbn; [intros k; rewrite Ha, Hcur; split; by intros [= ->]|by rewrite Hon|done| |exact Hkp]. rewrite Ha. split; [done|]. by exists t.
Qed.

(** *** Responses *)

(** A confirmation, when one is wanted. *)
Lemma confirm_wp s c (b : bool) h m (Q : unit -> Master W -> Prop) :
  channel_ok (Some s) m -> sessions m !! s = Some c -> function h = CONFIRM ->
  (forall m' c', channel_ok (Some s) m' -> wired s c c' m m' (if b then [h] else []) -> Q tt m') ->
  wp (if b then MContext.QueueConfirm s h else mret tt) m Q.
Proof.
  intros Hok Hs Hh HQ. destruct b; [by eapply QueueConfirm_wp|]. rewrite wp_ret. eapply HQ; [done|by apply wired_refl].
Qed.

(** The evidence that a response gives. *)
Definition selects s (objects : RSlice) : Prop :=
  forall set set', Forall CommandProps.fresh set -> CommandSetOps.ProcessSelectResponse set objects = Some (set', SELECT_OK) -> R s set'.

Lemma prepared_again s k k' objects : asked k -> heard k k' objects OK_REPEAT -> selects s objects -> prepared s k'.
Proof.
  intros Ha Hh Hsel. destruct k as [| | | | | | | | | | |codes cb set mode], k' as [| | | | | | | | | | |codes' cb' set' mode']; cbn in Hh; try done; try (by left).
  destruct Hh as (-> & _ & Hr). destruct (Hr eq_refl) as [Hne Hs]. destruct Ha as [->|[-> Hf]]; [done|]. right. split; [done|]. by eapply Hsel.
Qed.

Lemma asked_still k k' objects : asked k -> heard k k' objects OK_CONTINUE -> asked k'.
Proof. intros Ha Hh. destruct k, k'; cbn in *; try done. by destruct Hh as (_ & ? & _). Qed.

Lemma OnResponse_wait_wp s c header objects m :
  channel_ok (Some s) m -> awake m -> sessions m !! s = Some c -> machine_ok m s c -> isOnline c = true -> tstate c = WAIT_FOR_RESPONSE ->
  bytes_ok objects -> Z.of_nat (length objects) < 4294967296 -> (SEQ (control (response_header header)) = solSeq c -> selects s objects) ->
  let ctrl := control (response_header header) in
  wp (MContext.OnResponse_WaitForResponse s header objects) m (fun r m' =>
    goes s c m r m' (if (SEQ ctrl =? solSeq c) && CON ctrl then [APDUHeader.SolicitedConfirm (SEQ ctrl)] else [])).
Proof.
  intros Hok Haw Hs Hm Hon Hst Hb Hl Hsel ctrl. unfold MContext.OnResponse_WaitForResponse. fold ctrl. rewrite wp_bind. eapply wp_session; [exact Hs|].
  fold ctrl in Hsel. destruct (Z.eqb_spec (SEQ ctrl) (solSeq c)) as [Hseq|_]; cbn [negb andb].
  2:{ rewrite wp_ret. apply goes_stay; [done..|]. by rewrite <- Hst, set_tstate_same. }
  destruct (activeTask c) as [i|] eqn:Ha; [|exfalso; pose proof (mk_state _ _ _ _ Hm) as Hx; by rewrite Hst, Ha in Hx].
  pose proof (mk_state _ _ _ _ Hm) as Hx. rewrite Hst, Ha in Hx. destruct Hx as (t & Hi & Hask).
  pose proof (proj1 (mk_linked _ _ _ _ Hm i) Ha) as Hcur.
  pose proof (so_queue _ _ _ (ck_sessions _ _ _ Hok s c Hs)) as Hq.
  rewrite wp_bind. eapply wp_update_own; [done|exact Hs|done|done|]. intros m1 Hok1 Hs1 E1.
  rewrite wp_bind. eapply wp_update_own; [done|exact Hs1|done|done|]. intros m2 Hok2 Hs2 E2.
  set (c2 := set_solSeq _ _) in *.
  assert (A2 : acts s c c2 m m2 []) by (apply (acts_trans_nil R s c (set_responseTimer false c) c2 m m1); [rewrite E1; by apply acts_own|rewrite E2; by apply acts_own]).
  rewrite wp_bind. apply wp_time. intros now m3 Hnow Q3 C3 S3 F3.
  pose proof (channel_quiet _ _ None _ _ Hok2 (Q3 None) (own_none _ _)) as Hok3.
  rewrite wp_bind. eapply wp_mono; [apply (OnResponse_wp i t objects Hb Hl); [apply (ck_store _ _ _ Hok3)|by rewrite S3, E2, E1|done]|]. cbv beta.
  intros r m4 (Q4 & t4 & Hi4 & Hh). assert (Q24 : quiet (Some i) m2 m4) by quietly.
  assert (Hown : own (Some s) (Some i) m2) by (intros ? [= <-]; exists s; split; [done|rewrite E2, E1; exact Hcur]).
  pose proof (channel_quiet _ _ _ _ _ Hok2 Q24 Hown) as Hok4. destruct (quiet_session _ _ _ _ _ Q24 Hs2) as (c4 & Hs4 & Hb4).
  destruct (other_blocks_fields c2 c4 Hb4) as (G1 & G2 & G3 & G4 & G5 & G6 & G7 & G8 & G9 & G10 & G11).
  rewrite wp_bind. eapply confirm_wp; [done|exact Hs4|done|]. intros m5 c5 Hok5 [Hs5 T5 D5 P5 A5 K5 (I1 & I2 & I3 & I4)].
  assert (A05 : acts s c c5 m m5 (if CON ctrl then [APDUHeader.SolicitedConfirm (SEQ ctrl)] else [])).
  { eapply acts_trans_nil; [exact A2|]. eapply acts_trans_nil; [by eapply acts_quiet|exact A5]. }
  assert (K05 : kept c c5) by (eapply (kept_trans c c2); [done|]; eapply kept_trans; [by apply kept_blocks|done]).
  assert (Hon5 : isOnline c5 = true) by (destruct K05 as (_ & _ & -> & _); done).
  assert (Ha5 : activeTask c5 = Some i) by (rewrite I2, G6; done).
  assert (Ht5 : responseTimer c5 = false) by (rewrite I3, G7; done).
  assert (Hcur5 : current (scheduler m5) = Some (i, s)) by (rewrite D5, (qu_scheduler _ _ _ Q24), E2, E1; done).
  assert (Hi5 : store m5 !! i = Some t4) by (by rewrite T5).
  assert (Hkp5 : keeps m5 s c5).
  { destruct K05 as (_ & _ & Ko & Kt & _). eapply (keeps_same m); [exact Ko|exact Kt| |apply (mk_tasks _ _ _ _ Hm)]. by rewrite D5, (qu_scheduler _ _ _ Q24), E2, E1. }
  assert (Hdone : wp (_ ← MContext.CompleteActiveTask s; mret IDLE) m5
    (fun r0 m' => goes s c m r0 m' (if CON ctrl then [APDUHeader.SolicitedConfirm (SEQ ctrl)] else []))).
  { rewrite wp_bind. eapply (CompleteActiveTask_wp s c5 i); [done..|]. intros m6 Hok6 Aw6 S6 O6 T6 Hcur6 Hre6. rewrite wp_ret.
    eapply goes_nil; [exact A05|exact K05|]. exists (set_activeTask None c5). split; [done|]. split; [done|].
    split; [rewrite S6; apply list_lookup_insert_eq; by eapply lookup_lt_Some|]. split; [|split; [done|apply machine_idle; [done..|]; eapply (keeps_retained m5 _ s c5); [by eapply (ck_sessions _ _ _ Hok5)|exact Hre6|done..]]].
    apply acts_same; [done..|]. intros j Hj. rewrite S6. by rewrite list_lookup_insert_ne by congruence. }
  destruct r; try exact Hdone.
  - eapply wp_mono; [eapply (StartTask_wp s c5 i t4); [done..|by eapply prepared_again; [..|apply Hsel]|exact Hkp5]|]. cbv beta. intros r m6 Hg. by eapply goes_nil.
  - rewrite wp_bind. eapply wp_update_own; [done|exact Hs5|done|by apply (so_queue _ _ _ (ck_sessions _ _ _ Hok5 s c5 Hs5))|]. intros m6 Hok6 Hs6 E6. rewrite wp_ret.
    eapply goes_nil; [exact A05|exact K05|]. exists (set_responseTimer true c5). split; [done|].
    assert (Hcur6 : current (scheduler m6) = Some (i, s)) by (by rewrite E6).
    split; [by eapply current_awake|]. split; [done|]. split; [rewrite E6; by apply acts_own|]. split; [done|].
    split; cbn; [intros k; rewrite Ha5, Hcur6; split; by intros [= ->]|by rewrite Hon5|done| |eapply (keeps_same m5); [done|done|by rewrite E6|exact Hkp5]]. rewrite Ha5. exists t4. split; [by rewrite E6|]. by eapply asked_still.
Qed.

(** The response timer has expired. *)
Lemma OnResponseTimeout_wait_wp s c i m :
  channel_ok (Some s) m -> sessions m !! s = Some c -> isOnline c = true -> responseTimer c = false ->
  activeTask c = Some i -> current (scheduler m) = Some (i, s) -> keeps m s c ->
  wp (MContext.OnResponseTimeout_WaitForResponse s) m (fun r m' => goes s c m r m' []).
Proof.
  intros Hok Hs Hon Htm Ha Hcur Hkp. destruct (ck_records _ _ _ Hok i s) as (t & Hi & Hctx); [unfold scheduled; rewrite Hcur; left|].
  unfold MContext.OnResponseTimeout_WaitForResponse. rewrite wp_bind. apply wp_time. intros now m1 Hnow Q1 C1 S1 E1.
  pose proof (channel_quiet _ _ None _ _ Hok (Q1 None) (own_none _ _)) as Hok1. rewrite wp_bind. eapply wp_session; [by rewrite E1|]. rewrite Ha, wp_bind.
  apply CompleteTask_wp; [apply (ck_store _ _ _ Hok1)|rewrite S1; by eapply lookup_lt_Some|done|]. intros m2 Q2. assert (Q02 : quiet None m m2) by quietly.
  pose proof (channel_quiet _ _ None _ _ Hok Q02 (own_none _ _)) as Hok2. destruct (quiet_session _ _ _ _ _ Q02 Hs) as (c2 & Hs2 & Hb2).
  destruct (other_blocks_fields c c2 Hb2) as (G1 & G2 & G3 & G4 & G5 & G6 & G7 & G8 & G9 & G10 & G11).
  rewrite wp_bind. eapply wp_update_own; [done|exact Hs2|done|cbn; apply (so_queue _ _ _ (ck_sessions _ _ _ Hok2 s c2 Hs2))|]. intros m3 Hok3 Hs3 E3. set (c3 := set_solSeq _ c2) in *.
  rewrite wp_bind. eapply (CompleteActiveTask_wp s c3 i); [done|done|by rewrite <- Hon, <- G3|by rewrite <- Ha, <- G6|rewrite E3; cbn; by rewrite (qu_scheduler _ _ _ Q02)|].
  intros m4 Hok4 Aw4 S4 O4 T4 Hcur4 Hre4. rewrite wp_ret. eapply (goes_nil s c c3 m m3); [eapply acts_trans_nil; [by eapply acts_quiet|rewrite E3; by apply acts_own]|by eapply kept_trans; [apply kept_blocks|]|].
  exists (set_activeTask None c3). split; [done|]. split; [done|]. split; [rewrite S4; apply list_lookup_insert_eq; by eapply lookup_lt_Some|].
  split; [|split; [done|apply machine_idle; [by rewrite <- Hon, <- G3|done|done|by rewrite <- Htm, <- G7|]]].
  2:{ eapply (keeps_retained m3 _ s c3); [by eapply (ck_sessions _ _ _ Hok3)|exact Hre4|done|done|].
    eapply (keeps_same m); [exact G3|exact G8|rewrite E3; cbn; by rewrite (qu_scheduler _ _ _ Q02)|exact Hkp]. }
  apply acts_same; [done..|]. intros j Hj. rewrite S4. by rewrite list_lookup_insert_ne by congruence.
Qed.

(** *** The end of a method *)

Lemma assign_tstate_wp s c p m new (Q : unit -> Master W -> Prop) :
  wp p m (fun r m' => goes s c m r m' new) ->
  (forall m' c', channel_ok None m' -> awake m' -> sessions m' !! s = Some c' -> acts s c c' m m' new -> kept c c' -> Q tt m') ->
  wp (MContext.assign_tstate s p) m Q.
Proof.
  intros Hp HQ. unfold MContext.assign_tstate. rewrite wp_bind. eapply wp_mono; [exact Hp|]. cbv beta.
  intros r m1 (c1 & Hok1 & Aw1 & Hs1 & A1 & K1 & Hm1). eapply wp_update_own; [done|exact Hs1|done|cbn; apply (so_queue _ _ _ (ck_sessions _ _ _ Hok1 s c1 Hs1))|].
  intros m2 Hok2 Hs2 E2. eapply HQ; [|by rewrite E2|exact Hs2| |by eapply kept_trans].
  - eapply channel_settle; [exact Hok2|exact Hs2|]. eapply machine_scheduler; [exact Hm1|by rewrite E2|by rewrite E2|rewrite E2; by left|by rewrite E2].
  - eapply acts_nil_trans; [exact A1|rewrite E2; by apply acts_own].
Qed.

(** ** The scheduler *)

(** Other timers. *)
Lemma channel_scheduler x y m : channel_ok x m -> current y = current (scheduler m) -> tasks y = tasks (scheduler m) ->
  (taskCheckPending y = true -> PostedCheck ∈ posted m) -> channel_ok x (set_scheduler y m).
Proof.
  intros [Hst Hse Hma Hre Hon Hfr Hch Hpo] Hc Ht Hp. split; unfold scheduled in *; cbn [scheduler set_scheduler]; rewrite ?Hc, ?Ht; try done.
  intros s c Hx Hs. eapply machine_scheduler; [by apply Hma|done|cbn; by rewrite Hc|cbn; rewrite Ht; by left|unfold scheduled; cbn; by rewrite Hc, Ht].
Qed.

(** Fewer records. *)
Lemma channel_fewer x rs m : channel_ok x m -> sublist rs (tasks (scheduler m)) ->
  (forall i s c, x <> Some s -> sessions m !! s = Some c -> i ∈ MasterTasks.all_tasks (mtasks c) -> (i, s) ∈ tasks (scheduler m) -> (i, s) ∈ rs) ->
  channel_ok x (set_scheduler (set_records rs (scheduler m)) m).
Proof.
  intros [Hst Hse Hma Hre Hon Hfr Hch Hpo] Hs Hall.
  assert (Hin : forall r, r ∈ rs -> r ∈ tasks (scheduler m)) by (intros r Hr; by eapply elem_of_sublist).
  split; unfold scheduled in *; cbn [scheduler set_scheduler set_records current tasks taskCheckPending posted]; try done.
  - intros s c Hx Hc. eapply machine_scheduler; [by apply Hma|done|done|intros i Hi; left; by apply Hin|].
    intros i Hi Hk. unfold scheduled in *. apply elem_of_app in Hk as [Hk|Hk]; apply elem_of_app; [by left|right; by eapply Hall].
  - intros i s Hi. apply Hre. apply elem_of_app in Hi as [Hi|Hi]; apply elem_of_app; [by left|right; by apply Hin].
  - eapply sublist_NoDup; [exact Hon|]. by apply fmap_sublist, sublist_app.
  - intros i s t Hi. eapply Hfr, Hin, Hi.
Qed.

(** The task that runs is taken out of the list. *)
Lemma channel_take pos i s m : channel_ok None m -> current (scheduler m) = None -> tasks (scheduler m) !! pos = Some (i, s) ->
  channel_ok (Some s) (set_scheduler (set_records (delete pos (tasks (scheduler m))) (set_current (Some (i, s)) (scheduler m))) m).
Proof.
  intros [Hst Hse Hma Hre Hon Hfr Hch Hpo] Hcur Hpos. pose proof (delete_Permutation _ _ _ Hpos) as Hperm.
  assert (Hin : forall r, r ∈ delete pos (tasks (scheduler m)) -> r ∈ tasks (scheduler m)) by (intros r Hr; rewrite Hperm; by right).
  unfold scheduled in *. rewrite Hcur in *.
  split; unfold scheduled; cbn [scheduler set_scheduler set_records set_current current tasks taskCheckPending posted]; try done.
  - intros j c Hx Hc. eapply machine_scheduler; [by apply Hma|done| | |].
    + intros k. cbn. rewrite Hcur. split; [|done]. intros [= _ <-]. done.
    + intros k Hk. left. by apply Hin.
    + intros k _. unfold scheduled. cbn. rewrite Hcur. cbn. intros Hk. by rewrite Hperm in Hk.
  - intros k j Hk. apply Hre. cbn in *. by rewrite Hperm.
  - change (option_list (Some (i, s)) ++ ?l) with ((i, s) :: l). by rewrite <- Hperm.
  - intros k j t Hk. eapply Hfr, Hin, Hk.
Qed.

(** *** Run *)

Lemma Run_wp s c i t m :
  channel_ok (Some s) m -> sessions m !! s = Some c -> isOnline c = true -> tstate c = IDLE -> activeTask c = None -> responseTimer c = false ->
  current (scheduler m) = Some (i, s) -> store m !! i = Some t -> not_started (kind t) -> keeps m s c ->
  wp (MContext.Run s i) m (fun _ m' => exists c', channel_ok None m' /\ awake m' /\ sessions m' !! s = Some c' /\ acts s c c' m m' [] /\ kept c c').
Proof.
  intros Hok Hs Hon Hst Ha Htm Hcur Hi Hns Hkp. unfold MContext.Run. rewrite wp_bind. eapply wp_session; [exact Hs|].
  assert (Hfree : bool_decide (activeTask c <> None) || negb (bool_decide (tstate c = IDLE)) = false) by (rewrite Ha, Hst; reflexivity). rewrite Hfree.
  rewrite wp_bind. eapply wp_update_own; [done|exact Hs|done|apply (so_queue _ _ _ (ck_sessions _ _ _ Hok s c Hs))|]. intros m1 Hok1 Hs1 E1. set (c1 := set_activeTask _ _) in *.
  assert (Hcur1 : current (scheduler m1) = Some (i, s)) by (by rewrite E1).
  rewrite wp_bind. eapply (OnStart_wp i t); [by rewrite E1|]. intros m2 t2 Q2 Hi2 Hk2.
  assert (Hown : own (Some s) (Some i) m1) by (intros ? [= <-]; by exists s).
  pose proof (channel_quiet _ _ _ _ _ Hok1 Q2 Hown) as Hok2. destruct (quiet_session _ _ _ _ _ Q2 Hs1) as (c2 & Hs2 & Hb2).
  destruct (other_blocks_fields c1 c2 Hb2) as (G1 & G2 & G3 & G4 & G5 & G6 & G7 & G8 & G9 & G10 & G11).
  assert (A2 : acts s c c2 m m2 []) by (eapply (acts_trans_nil R s c c1 c2 m m1); [rewrite E1; by apply acts_own|by eapply acts_quiet]).
  assert (K2 : kept c c2) by (eapply (kept_trans c c1); [done|by apply kept_blocks]).
  assert (Hp : prepared s (kind t2)) by (left; rewrite Hk2; by destruct (kind t)).
  assert (Hcur2 : current (scheduler m2) = Some (i, s)) by (by rewrite (qu_scheduler _ _ _ Q2)).
  assert (Hkp2 : keeps m2 s c2) by (eapply (keeps_same m); [exact G3|exact G8|rewrite (qu_scheduler _ _ _ Q2), E1; done|exact Hkp]).
  rewrite wp_bind. eapply wp_session; [exact Hs2|]. rewrite wp_bind. destruct (isSending c2) eqn:Hsend; cbn [negb].
  - rewrite !wp_ret. exists c2. split; [|split; [by eapply current_awake|done]]. eapply channel_settle; [exact Hok2|exact Hs2|].
    split; rewrite ?G11, ?G6; cbn; [intros k; rewrite Hcur2; split; by intros [= ->]|by rewrite G3; cbn; rewrite Hon|by rewrite G7| |exact Hkp2]. split; [done|]. by exists t2.
  - eapply (assign_tstate_wp s c2); [eapply (ResumeActiveTask_wp s c2 i t2); [done|done|by rewrite G3|done|by rewrite G7|by rewrite G6|done|done|done|done]|].
    intros m3 c3 Hok3 Aw3 Hs3 A3 K3. rewrite wp_ret. exists c3. split; [done|]. split; [done|]. split; [done|]. split; [by eapply acts_trans_nil|by eapply kept_trans].
Qed.

End Machine.
