(* ===== verification/MasterEvents.v ===== *)
(** * MasterEvents: what an event does to a channel of masters

    Every event of a channel in order leaves it in order, transmits at most one message
    for each session that it concerns, and keeps account of the confirmations. *)

From S2P Require Import Prelude Slices Serialization LinkFrame Transport AppHeader Objects ObjectParser HeaderWriter HeaderRoundtrip OutstationState RequestHandlers EventWriters EventResponse RequestSpecs TaskBehavior CommandSet CommandProps MeasurementHandler MeasurementProps MasterState MasterTask MasterScheduler Master RequestBuilding MasterSpecs MasterMethods MasterSession SchedulerProps MasterMachine.

From stdpp Require Import gmap.

Open Scope Z_scope.

(** The confirmations that wait in a session. *)
Definition queue {W} (m : Master W) (j : nat) : list APDUHeader := match sessions m !! j with Some c => confirmQueue c | None => [] end.

(** The confirmations of a session among some messages. *)
Definition confirms (j : nat) (l : list (nat * Fragment)) : list APDUHeader :=
  omap (fun sf => if decide (sf.1 = j) then confirmation sf.2 else None) l.

(** What a received message has to be confirmed with: a solicited response that the
    session waits for, and an unsolicited one whose objects are understood. *)
Definition due_confirm (c : MContext) (address : Addresses) (payload : RSlice) : list APDUHeader :=
  if isOnline c && (destination address =? source (addresses c)) && (source address =? destination (addresses c)) then
    match ParseResponse payload with
    | Some (header, objects) =>
        let ctrl := control (response_header header) in
        match function (response_header header) with
        | RESPONSE =>
            if bool_decide (tstate c = WAIT_FOR_RESPONSE) && ((SEQ ctrl =? solSeq c) && CON ctrl) then [APDUHeader.SolicitedConfirm (SEQ ctrl)] else []
        | UNSOLICITED_RESPONSE =>
            match MeasurementHandler.ProcessMeasurements objects with
            | Some (_, result) => if UNS ctrl && (bool_decide (result = OK) && CON ctrl) then [APDUHeader.UnsolicitedConfirm (SEQ ctrl)] else []
            | None => []
            end
        | _ => []
        end
    | None => []
    end
  else [].

(** The objects of a received message that the task of a session gets: those of the
    response that it waits for, from its outstation. *)
Definition accepted (c : MContext) (address : Addresses) (payload : RSlice) : option RSlice :=
  if isOnline c && (destination address =? source (addresses c)) && (source address =? destination (addresses c)) then
    match ParseResponse payload with
    | Some (header, objects) =>
        if bool_decide (function (response_header header) = RESPONSE) && bool_decide (tstate c = WAIT_FOR_RESPONSE) && (SEQ (control (response_header header)) =? solSeq c)
        then Some objects else None
    | None => None
    end
  else None.

Section Events.
Context {W : Type} `{MasterEnvironmentOk W}.
Context (R : nat -> CommandSet -> Prop).
Implicit Types (m : Master W) (s : nat) (c : MContext).

#[local] Abbreviation channel_ok := (channel_ok R).

#[local] Abbreviation machine_ok := (machine_ok R).

#[local] Abbreviation acts := (acts R).

(** A channel in order that will look for a task. *)
Definition in_order m : Prop := channel_ok None m /\ awake m.

(** ** Confirmations *)

(** Messages are good, and confirmations are transmitted in order or wait; [due] are
    the new ones of each session. *)
Inductive conserves (due : nat -> list APDUHeader) m m' : Prop :=
  | mkConserves (l : list (nat * Fragment)) :
      told m m' l -> (length l <= 1)%nat -> Forall (fun sf => fragment_ok R sf.1 sf.2) l ->
      (forall j, confirms j l ++ queue m' j = queue m j ++ due j) -> conserves due m m'.

Definition nothing_due : nat -> list APDUHeader := fun _ => [].

Definition due_of s (new : list APDUHeader) : nat -> list APDUHeader := fun j => if decide (j = s) then new else [].

(** Nothing is transmitted, and no confirmation moves. *)
Definition calm m m' : Prop := told m m' [] /\ forall j, queue m' j = queue m j.

Lemma calm_refl m : calm m m.
Proof. split; [by apply told_refl|done]. Qed.

Lemma calm_trans m1 m2 m3 : calm m1 m2 -> calm m2 m3 -> calm m1 m3.
Proof. intros [T1 Q1] [T2 Q2]. split; [by apply (told_trans m1 m2 m3 [] [])|]. intros j. by rewrite Q2, Q1. Qed.

Lemma queue_fmap m m' j : confirmQueue <$> sessions m' !! j = confirmQueue <$> sessions m !! j -> queue m' j = queue m j.
Proof. unfold queue. destruct (sessions m' !! j), (sessions m !! j); cbn; congruence. Qed.

Lemma calm_quiet o m m' : quiet o m m' -> calm m m'.
Proof. intros Hq. split; [by eapply told_quiet|]. intros j. by eapply queue_fmap, quiet_queues. Qed.

Lemma calm_same m m' : outside m' = outside m -> sessions m' = sessions m -> calm m m'.
Proof. intros Ho Hs. split; [by apply told_refl|]. intros j. unfold queue. by rewrite Hs. Qed.

Lemma calm_conserves m m' : calm m m' -> conserves nothing_due m m'.
Proof. intros [Ht Hq]. apply (mkConserves _ _ _ []); [done|cbn; lia|constructor|]. intros j. cbn. by rewrite Hq, app_nil_r. Qed.

Lemma conserves_calm due m m1 m2 : conserves due m m1 -> calm m1 m2 -> conserves due m m2.
Proof.
  intros [l Ht Ho Hg Hc] [T Q]. apply (mkConserves _ _ _ l); [|done|done|].
  - rewrite <- (app_nil_r l). by eapply told_trans.
  - intros j. by rewrite Q.
Qed.

Lemma calm_then due m m1 m2 : calm m m1 -> conserves due m1 m2 -> conserves due m m2.
Proof.
  intros [T Q] [l Ht Ho Hg Hc]. apply (mkConserves _ _ _ l); [|done|done|].
  - by apply (told_trans m m1 m2 [] l).
  - intros j. by rewrite <- Q.
Qed.

Lemma confirms_pair s l : confirms s (map (pair s) l) = omap confirmation l.
Proof. unfold confirms. induction l as [|f l IH]; [done|]. cbn. rewrite decide_True by done. destruct (confirmation f); cbn; by rewrite IH. Qed.

Lemma confirms_other s j l : j <> s -> confirms j (map (pair s) l) = [].
Proof. intros Hj. unfold confirms. induction l as [|f l IH]; [done|]. cbn. rewrite decide_False by congruence. exact IH. Qed.

Lemma acts_conserves s c c' m m' new :
  sessions m !! s = Some c -> sessions m' !! s = Some c' -> acts s c c' m m' new -> conserves (due_of s new) m m'.
Proof.
  intros Hs Hs' [(l & Ht & Hq & Hf & Hn) Ho]. apply (mkConserves _ _ _ (map (pair s) l)); [done| |by apply Forall_map|].
  - rewrite length_map. destruct (isSending c), (isSending c'); cbn in Hn; lia.
  - intros j. unfold due_of. destruct (decide (j = s)) as [->|Hj].
    + rewrite confirms_pair. unfold queue. by rewrite Hs, Hs'.
    + rewrite confirms_other by done. rewrite app_nil_r. by apply queue_fmap, Ho.
Qed.

Lemma acts_conserves_nil s c c' m m' :
  sessions m !! s = Some c -> sessions m' !! s = Some c' -> acts s c c' m m' [] -> conserves nothing_due m m'.
Proof.
  intros Hs Hs' Ha. destruct (acts_conserves s c c' m m' [] Hs Hs' Ha) as [l Ht Ho Hg Hc]. apply (mkConserves _ _ _ l); [done..|].
  intros j. rewrite Hc. unfold due_of. by destruct (decide _).
Qed.

(** ** The next task *)

Lemma wp_scheduler (f : MasterSchedulerBackend -> MasterSchedulerBackend) m (Q : unit -> Master W -> Prop) :
  Q tt (set_scheduler (f (scheduler m)) m) -> wp (update_scheduler f) m Q.
Proof. done. Qed.

Lemma CheckForTaskRun_wp m :
  channel_ok None (set_scheduler (set_taskCheckPending false (scheduler m)) m) ->
  wp MasterChannel.CheckForTaskRun m (fun _ m' => in_order m' /\ conserves nothing_due m m').
Proof.
  intros Hok0. unfold MasterChannel.CheckForTaskRun, MasterSchedulerBackend.CheckForTaskRun, MasterSchedulerBackend.RestartTimeoutTimer.
  rewrite wp_bind, wp_bind. apply wp_scheduler. rewrite wp_bind, wp_bind, wp_get. apply wp_scheduler. rewrite wp_bind, wp_get.
  set (m0 := set_scheduler (set_taskStartTimeout _ _) _).
  assert (Hok : channel_ok None m0) by (by apply channel_scheduler).
  assert (C0 : calm m m0) by (by apply calm_same). clearbody m0.
  destruct (current (scheduler m0)) as [r|] eqn:Hcur.
  { rewrite !wp_ret. split; [split; [done|by eapply current_awake]|by apply calm_conserves]. }
  rewrite wp_bind. apply wp_time. intros now m1 Hnow Q1 _ _ _. pose proof (channel_quiet _ _ None _ _ Hok (Q1 None) (own_none _ _)) as Hok1.
  assert (C1 : calm m m1) by (eapply calm_trans; [exact C0|by eapply (calm_quiet None)]).
  assert (Hcur1 : current (scheduler m1) = None) by (by rewrite (qu_scheduler _ _ _ (Q1 None))).
  rewrite wp_bind, wp_get. destruct (tasks (scheduler m1)) as [|first rest] eqn:Hts.
  { rewrite !wp_ret. split; [split; [done|by intros _ ?]|by apply calm_conserves]. }
  rewrite wp_bind, wp_get. destruct (MasterSchedulerBackend.find_best m1 now (0%nat, first) 1 rest) as [pos [i s]] eqn:Hbest.
  apply find_best_first in Hbest as [Hpos _ _]. rewrite wp_bind, wp_get. destruct (_ <=? now).
  - rewrite wp_bind. apply wp_scheduler. rewrite wp_bind. apply wp_scheduler. rewrite wp_bind. cbn [fst snd].
    rewrite <- Hts in Hpos |- *. set (m2 := set_scheduler (set_records _ _) _).
    assert (Hok2 : channel_ok (Some s) m2) by exact (channel_take R pos i s m1 Hok1 Hcur1 Hpos).
    assert (Hin : (i, s) ∈ tasks (scheduler m1)) by (by eapply list_elem_of_lookup_2).
    destruct (ck_records _ _ _ Hok1 i s) as (t & Hi & Hctx); [unfold scheduled; apply elem_of_app; by right|].
    destruct (ck_store _ _ _ Hok1 i t Hi) as [_ Hlt]. rewrite Hctx in Hlt. apply lookup_lt_is_Some in Hlt as [c Hs].
    destruct (idle_machines _ _ s c Hok1 Hcur1 Hs) as (Hst & Ha & Htm).
    assert (Hon : isOnline c = true).
    { destruct (isOnline c) eqn:Hon; [done|]. destruct (mk_offline _ _ _ _ (ck_machines _ _ _ Hok1 s c ltac:(done) Hs) Hon) as (_ & _ & Hno). by destruct (Hno i). }
    eapply wp_mono; [eapply (Run_wp R s c i t); [done|done|done|done|done|done|done|done|by eapply (ck_fresh _ _ _ Hok1)|]|cbv beta].
    { intros Hon' k Hk. apply (mk_tasks _ _ _ _ (ck_machines _ _ _ Hok1 s c ltac:(done) Hs)) in Hk; [|done]. unfold scheduled in *. cbn. rewrite Hcur1 in Hk. cbn in Hk.
      by rewrite (delete_Permutation _ _ _ Hpos) in Hk. }
    intros b m3 (c3 & Hok3 & Aw3 & Hs3 & A3 & _). rewrite !wp_ret. split; [done|]. eapply calm_then; [exact C1|].
    eapply (calm_then _ m1 m2); [by apply calm_same|]. by eapply (acts_conserves_nil s c c3).
  - rewrite wp_bind. apply wp_scheduler. rewrite !wp_ret. split; [split|].
    + apply channel_scheduler; [done|done|done|apply (ck_check _ _ _ Hok1)].
    + intros _ _. right. by eexists.
    + apply calm_conserves. eapply calm_trans; [exact C1|by apply calm_same].
Qed.

(** ** Removing tasks *)

(** The predicate looks at what does not change. *)
Lemma remove_if_wp P (p : SchedulerRecord -> bool) m0 rs : forall m,
  quiet None m0 m ->
  (forall r m1, r ∈ rs -> quiet None m0 m1 -> wp (P r) m1 (fun b m2 => b = p r /\ quiet None m1 m2)) ->
  wp (MasterSchedulerBackend.remove_if P rs) m (fun rs' m' => rs' = List.filter (fun r => negb (p r)) rs /\ quiet None m0 m').
Proof.
  induction rs as [|r rs IH]; intros m Hq HP; cbn [MasterSchedulerBackend.remove_if]; [by rewrite wp_ret|].
  rewrite wp_bind. eapply wp_mono; [apply HP; [left|done]|]. cbv beta. intros b m1 [-> Q1]. rewrite wp_bind.
  eapply wp_mono; [apply IH; [quietly|]|]; [intros r' m2 Hr; apply HP; by right|]. cbv beta. intros rs' m2 [-> Q2]. rewrite wp_ret. split; [|done].
  cbn [List.filter]. by destruct (p r).
Qed.

Lemma filter_sublist {A} (p : A -> bool) l : sublist (List.filter p l) l.
Proof. induction l as [|x l IH]; [constructor|]. cbn. destruct (p x); by constructor. Qed.

Lemma erase_if_wp P p m (Q : unit -> Master W -> Prop) :
  (forall r m1, r ∈ tasks (scheduler m) -> quiet None m m1 -> wp (P r) m1 (fun b m2 => b = p r /\ quiet None m1 m2)) ->
  (forall m1, quiet None m m1 -> Q tt (set_scheduler (set_records (List.filter (fun r => negb (p r)) (tasks (scheduler m))) (scheduler m1)) m1)) ->
  wp (MasterSchedulerBackend.erase_if P) m Q.
Proof.
  intros HP HQ. unfold MasterSchedulerBackend.erase_if. rewrite wp_bind, wp_get, wp_bind.
  eapply wp_mono; [by apply (remove_if_wp P p m); [reflexivity|]|]. cbv beta. intros rs m1 [-> Q1]. apply wp_scheduler. by apply HQ.
Qed.

Lemma channel_filter x (p : SchedulerRecord -> bool) m m1 : channel_ok x m -> quiet None m m1 ->
  (forall i s c, x <> Some s -> sessions m1 !! s = Some c -> i ∈ MasterTasks.all_tasks (mtasks c) -> p (i, s) = true) ->
  channel_ok x (set_scheduler (set_records (List.filter p (tasks (scheduler m))) (scheduler m1)) m1).
Proof.
  intros Hok Q1 Hp. rewrite <- (qu_scheduler _ _ _ Q1). apply channel_fewer; [by eapply channel_quiet, own_none|apply filter_sublist|].
  intros i s c Hx Hs Hi Hin. apply list_elem_of_In, filter_In. split; [by apply list_elem_of_In|by eapply Hp].
Qed.

Lemma quiet_recurring m m' i : quiet None m m' -> IMasterTask.IsRecurring m' i = IMasterTask.IsRecurring m i.
Proof.
  intros Hq. unfold IMasterTask.IsRecurring. pose proof (qu_kinds _ _ _ Hq i ltac:(done)) as Hk.
  destruct (store m' !! i), (store m !! i); cbn in Hk; congruence.
Qed.

Lemma quiet_start m m' i : quiet None m m' -> IMasterTask.StartExpirationTime m' i = IMasterTask.StartExpirationTime m i.
Proof.
  intros Hq. unfold IMasterTask.StartExpirationTime. destruct (store m !! i) as [t|] eqn:Hi.
  - destruct (quiet_task _ _ _ _ _ Hq Hi) as (t' & -> & Hm). unfold TaskBehavior.GetStartExpiration. apply Hm.
  - apply lookup_ge_None in Hi. rewrite (Forall2_length _ _ _ (qu_store _ _ _ Hq)) in Hi. by rewrite (proj2 (lookup_ge_None _ _) Hi).
Qed.

(** A waiting task exists. *)
Lemma waiting_lt x m r : channel_ok x m -> r ∈ scheduled m -> (r.1 < length (store m))%nat.
Proof. intros Hok Hr. destruct r as [i s]. destruct (ck_records _ _ _ Hok i s Hr) as (t & Hi & _). by eapply lookup_lt_Some. Qed.

Lemma waiting_scheduled m r : r ∈ tasks (scheduler m) -> r ∈ scheduled m.
Proof. intros Hr. apply elem_of_app. by right. Qed.

(** The single tasks that did not start in time. *)
Definition late m (now : Z) (r : SchedulerRecord) : bool :=
  negb (IMasterTask.IsRecurring m r.1 || (now <? IMasterTask.StartExpirationTime m r.1)).

Lemma TimeoutTasks_wp m :
  in_order m -> wp MasterSchedulerBackend.TimeoutTasks m (fun _ m' => in_order m' /\ conserves nothing_due m m').
Proof.
  intros [Hok Haw]. unfold MasterSchedulerBackend.TimeoutTasks. rewrite wp_bind. apply wp_time. intros now m1 Hnow Q1 _ _ _.
  pose proof (channel_quiet _ _ None _ _ Hok (Q1 None) (own_none _ _)) as Hok1. pose proof (awake_quiet None _ _ Haw (Q1 None)) as Aw1.
  rewrite wp_bind. apply (erase_if_wp _ (late m1 now)).
  - intros r m2 Hr Q2. unfold MasterSchedulerBackend.isTimedOut. rewrite wp_bind, wp_get. unfold late.
    rewrite (quiet_recurring _ _ _ Q2), (quiet_start _ _ _ Q2). destruct (negb _); [|by rewrite wp_ret].
    pose proof (channel_quiet _ _ None _ _ Hok1 Q2 (own_none _ _)) as Hok2.
    rewrite wp_bind. apply CompleteTask_wp; [apply (ck_store _ _ _ Hok2)| |done|].
    + eapply (waiting_lt None); [exact Hok2|]. apply waiting_scheduled. by rewrite (qu_scheduler _ _ _ Q2).
    + intros m3 Q3. by rewrite wp_ret.
  - intros m2 Q2. unfold MasterSchedulerBackend.RestartTimeoutTimer. rewrite wp_bind, wp_get. apply wp_scheduler.
    pose proof (channel_quiet _ _ None _ _ Hok1 Q2 (own_none _ _)) as Hok2.
    assert (Hok3 : channel_ok None (set_scheduler (set_records (List.filter (fun r => negb (late m1 now r)) (tasks (scheduler m1))) (scheduler m2)) m2)).
    { apply channel_filter; [done|done|]. intros i s c _ Hs Hi. destruct (so_tasks _ _ _ (ck_sessions _ _ _ Hok2 s c Hs) i Hi) as (t & Ht & _ & Hr).
      unfold late. cbn [fst]. rewrite <- (quiet_recurring _ _ i Q2). unfold IMasterTask.IsRecurring. by rewrite Ht, Hr. }
    split; [split|].
    + apply (channel_scheduler R None _ _ Hok3); [done|done|]. cbn. rewrite (qu_scheduler _ _ _ Q2), (qu_posted _ _ _ Q2). apply (ck_check _ _ _ Hok1).
    + intros Hcur Hne. cbn in *. rewrite (qu_scheduler _ _ _ Q2) in Hcur. rewrite (qu_posted _ _ _ Q2), (qu_scheduler _ _ _ Q2). apply Aw1; [done|].
      intros Hnil. by rewrite Hnil in Hne.
    + apply calm_conserves. apply (calm_trans m m1); [exact (calm_quiet None _ _ (Q1 None))|]. apply (calm_trans m1 m2); [exact (calm_quiet None _ _ Q2)|]. by apply calm_same.
Qed.

(** ** The lower layer *)

Lemma channel_clear s i m : channel_ok (Some s) m -> current (scheduler m) = Some (i, s) ->
  channel_ok (Some s) (set_scheduler (set_current None (scheduler m)) m).
Proof.
  intros [Hst Hse Hma Hre Hon Hfr Hch Hpo] Hcur. unfold scheduled in *. rewrite Hcur in *. split; unfold scheduled; cbn [scheduler set_scheduler set_current current tasks]; try done.
  - intros j c Hx Hc. eapply machine_scheduler; [by apply Hma|done| |by left|].
    + intros k. cbn. rewrite Hcur. split; [done|]. intros [= _ ->]. done.
    + intros k _ Hk. unfold scheduled in Hk. rewrite Hcur in Hk. apply elem_of_cons in Hk as [[= -> ->]|Hk]; [done|exact Hk].
  - intros k j Hk. apply Hre. by right.
  - change (option_list (Some (i, s)) ++ ?l) with ((i, s) :: l) in Hon. by apply NoDup_cons in Hon as [_ Hon].
Qed.

Lemma checkForOwnership_wp x now s r m :
  channel_ok x m -> (r.1 < length (store m))%nat -> is_time now ->
  wp (MasterSchedulerBackend.checkForOwnership now s r) m (fun b m' => b = (r.2 =? s)%nat /\ quiet None m m').
Proof.
  intros Hok Hr Hn. unfold MasterSchedulerBackend.checkForOwnership. destruct (r.2 =? s)%nat; [|by rewrite wp_ret].
  rewrite wp_bind, wp_get, wp_bind. destruct (IMasterTask.IsRecurring m r.1); [by rewrite !wp_ret|].
  apply CompleteTask_wp; [apply (ck_store _ _ _ Hok)|done|done|]. intros m' Hq. by rewrite wp_ret.
Qed.

Lemma SetRunnerOffline_wp s c m (Q : unit -> Master W -> Prop) :
  channel_ok (Some s) m -> sessions m !! s = Some c ->
  (forall m' c', channel_ok (Some s) m' -> awake m' -> calm m m' -> sessions m' !! s = Some c' -> other_blocks c c' ->
    (forall i, (i, s) ∉ scheduled m') -> Q tt m') ->
  wp (MasterSchedulerBackend.SetRunnerOffline s) m Q.
Proof.
  intros Hok Hs HQ. unfold MasterSchedulerBackend.SetRunnerOffline. rewrite wp_bind. apply wp_time. intros now m1 Hnow Q1 _ _ _.
  pose proof (channel_quiet _ _ None _ _ Hok (Q1 None) (own_none _ _)) as Hok1. rewrite wp_bind, wp_get, wp_bind.
  assert (Hrest : forall m2 m3, quiet None m1 m2 -> channel_ok (Some s) m3 -> outside m3 = outside m2 -> sessions m3 = sessions m2 ->
    (forall i, current (scheduler m3) <> Some (i, s)) ->
    wp (_ ← MasterSchedulerBackend.erase_if (MasterSchedulerBackend.checkForOwnership now s); MasterSchedulerBackend.PostCheckForTaskRun) m3 Q).
  { intros m2 m3 Q2 Hok3 O3 S3 Hcur3. rewrite wp_bind. apply (erase_if_wp _ (fun r => (r.2 =? s)%nat)).
    - intros r m4 Hr Q4. pose proof (channel_quiet _ _ None _ _ Hok3 Q4 (own_none _ _)) as Hok4.
      eapply checkForOwnership_wp; [exact Hok4| |done]. eapply (waiting_lt (Some s)); [exact Hok4|]. apply waiting_scheduled. by rewrite (qu_scheduler _ _ _ Q4).
    - intros m4 Q4. unfold wp. rewrite PostCheck_run. set (m5 := set_scheduler _ m4).
      assert (Hok5 : channel_ok (Some s) m5).
      { apply channel_filter; [done|done|]. intros i j d Hj _ _. cbn. destruct (Nat.eqb_spec j s) as [->|]; [done|done]. }
      destruct (posted_check_fields m5) as (E1 & E2 & E3 & E4 & E5 & E6).
      assert (Qc : quiet None m m2) by (transitivity m1; [exact (Q1 None)|exact Q2]).
      destruct (quiet_session _ _ _ _ _ Qc Hs) as (c2 & Hs2 & Hb2). rewrite <- S3 in Hs2. destruct (quiet_session _ _ _ _ _ Q4 Hs2) as (c4 & Hs4 & Hb4).
      apply (HQ (posted_check m5) c4); [by apply channel_posted_check|by eapply awake_posted_check| |by rewrite E3|by etrans|].
      + apply (calm_trans m m2); [by eapply calm_quiet|]. apply (calm_trans m2 m3); [by apply calm_same|]. apply (calm_trans m3 m4); [by eapply calm_quiet|].
        by apply calm_same; [rewrite E1|rewrite E3].
      + intros i Hi. unfold scheduled in Hi. rewrite E4, E5 in Hi. subst m5. cbn in Hi. rewrite (qu_scheduler _ _ _ Q4) in Hi.
        apply elem_of_app in Hi as [Hi|Hi].
        * destruct (current (scheduler m3)) as [r|] eqn:Hc; [|by apply not_elem_of_nil in Hi]. apply list_elem_of_singleton in Hi as <-. by apply (Hcur3 i).
        * clear -Hi. induction (tasks (scheduler m3)) as [|r rs IH]; [by apply not_elem_of_nil in Hi|]. cbn in Hi.
          destruct (Nat.eqb_spec r.2 s) as [He|Hne]; cbn in Hi; [by apply IH|]. apply elem_of_cons in Hi as [<-|Hi]; [done|by apply IH]. }
  destruct (current (scheduler m1)) as [r|] eqn:Hcur.
  - rewrite wp_bind. eapply wp_mono; [eapply checkForOwnership_wp; [exact Hok1| |done]|].
    { eapply (waiting_lt (Some s)); [exact Hok1|]. unfold scheduled. rewrite Hcur. left. }
    cbv beta. intros b m2 [-> Q2]. pose proof (channel_quiet _ _ None _ _ Hok1 Q2 (own_none _ _)) as Hok2. destruct r as [i j]. cbn [snd].
    destruct (Nat.eqb_spec j s) as [->|Hne].
    + apply wp_scheduler. apply (Hrest m2); [done| |done|done|done]. eapply (channel_clear s i); [done|]. by rewrite (qu_scheduler _ _ _ Q2).
    + rewrite wp_ret. apply (Hrest m2); [done|done|done|done|]. intros k. rewrite (qu_scheduler _ _ _ Q2), Hcur. congruence.
  - rewrite wp_ret. apply (Hrest m1); [reflexivity|done|done|done|]. intros k. by rewrite Hcur.
Qed.

(** What the event may assume. *)
Lemma wp_told_quiet s call m (Q : unit -> Master W -> Prop) :
  transmitted call = None -> (forall m', quiet None m m' -> Q tt m') -> wp (tell_outside s call) m Q.
Proof. intros Hc HQ. apply wp_told; [done|]. intros m' Hq _. by apply HQ. Qed.

Lemma order_quiet m m' : in_order m -> quiet None m m' -> in_order m'.
Proof. intros [Hok Haw] Hq. split; [by eapply channel_quiet, own_none|by eapply awake_quiet]. Qed.

Lemma session_OnLowerLayerDown_wp s c m :
  in_order m -> sessions m !! s = Some c ->
  wp (MContext.OnLowerLayerDown s) m (fun _ m' => in_order m' /\ conserves nothing_due m m').
Proof.
  intros [Hok Haw] Hs. unfold MContext.OnLowerLayerDown. rewrite wp_bind. eapply wp_session; [exact Hs|].
  destruct (isOnline c); cbn [negb]; [|rewrite wp_ret; split; [done|by apply calm_conserves, calm_refl]].
  rewrite wp_bind. eapply (wp_update_own R); [by apply channel_weaken|exact Hs|done|cbn; apply (so_queue _ _ _ (ck_sessions _ _ _ Hok s c Hs))|].
  intros m1 Hok1 Hs1 E1. rewrite wp_bind. eapply SetRunnerOffline_wp; [done|exact Hs1|]. intros m2 c2 Hok2 Aw2 C2 Hs2 Hb Hno.
  destruct (other_blocks_fields _ c2 Hb) as (G1 & G2 & G3 & G4 & G5 & G6 & G7 & G8 & G9 & G10 & G11).
  rewrite wp_bind. apply wp_told_quiet; [done|]. intros m3 Q3. rewrite wp_ret. split.
  - eapply order_quiet; [|exact Q3]. split; [|done]. eapply channel_settle; [exact Hok2|exact Hs2|].
    split; unfold keeps; rewrite ?G3, ?G4, ?G6, ?G7, ?G11; cbn; [| |done|done|done].
    + intros i. split; [done|]. intros Hcur. exfalso. apply (Hno i). unfold scheduled. rewrite Hcur. left.
    + intros _. split; [done|]. split; [done|]. intros i Hi. by apply (Hno i), waiting_scheduled.
  - apply calm_conserves. eapply calm_trans; [|eapply calm_trans; [exact C2|by eapply calm_quiet]]. split; [apply told_refl; by rewrite E1|].
    intros j. unfold queue. rewrite E1. cbn. destruct (decide (j = s)) as [->|Hj]; [|by rewrite list_lookup_insert_ne].
    rewrite list_lookup_insert_eq by (by eapply lookup_lt_Some). by rewrite Hs.
Qed.

(** A task that joins. *)
Lemma Add_wp x i s t c m (Q : unit -> Master W -> Prop) :
  channel_ok x m -> store m !! i = Some t -> context t = s -> not_started (kind t) -> sessions m !! s = Some c -> isOnline c = true ->
  i ∉ (scheduled m).*1 ->
  (forall m', channel_ok x m' -> awake m' -> calm m m' -> store m' = store m -> sessions m' = sessions m ->
    current (scheduler m') = current (scheduler m) -> scheduled m' ≡ₚ (i, s) :: scheduled m -> Q tt m') ->
  wp (MasterSchedulerBackend.Add i s) m Q.
Proof.
  intros Hok Hi Hctx Hns Hs Hon Hnew HQ. unfold MasterSchedulerBackend.Add. rewrite wp_bind. apply wp_scheduler. unfold wp. rewrite PostCheck_run.
  set (m1 := set_scheduler _ m).
  assert (Hperm : scheduled m1 ≡ₚ (i, s) :: scheduled m).
  { unfold scheduled. subst m1. cbn. rewrite app_assoc. symmetry. apply Permutation_cons_append. }
  assert (Hok1 : channel_ok x m1).
  { destruct Hok as [Hst Hse Hma Hre Hno Hfr Hch Hpo]. split; try done.
    - intros j d Hx Hj. eapply machine_scheduler; [by apply Hma|done|done| |intros k _ Hk; rewrite Hperm; by right].
      cbn. intros k Hk. apply elem_of_app in Hk as [Hk|Hk]; [by left|right].
      apply list_elem_of_singleton in Hk as [= _ ->]. cbn in Hj. congruence.
    - intros k j Hk. rewrite Hperm in Hk. apply elem_of_cons in Hk as [[= -> ->]|Hk]; [by exists t|by apply Hre].
    - rewrite Hperm. cbn. by apply NoDup_cons.
    - intros k j t' Hk Hk'. apply elem_of_app in Hk as [Hk|Hk]; [by eapply Hfr|]. apply list_elem_of_singleton in Hk as [= -> ->].
      cbn in Hk'. assert (t' = t) as -> by congruence. done. }
  destruct (posted_check_fields m1) as (E1 & E2 & E3 & E4 & E5 & E6).
  apply HQ; [by apply channel_posted_check|by eapply awake_posted_check|by apply calm_same; [rewrite E1|rewrite E3]|by rewrite E2|by rewrite E3|by rewrite E4|].
  unfold scheduled at 1. rewrite E4, E5. exact Hperm.
Qed.

Lemma add_all_wp x s c ts : forall m (Q : unit -> Master W -> Prop),
  channel_ok x m -> awake m -> sessions m !! s = Some c -> isOnline c = true -> NoDup ts ->
  (forall i, i ∈ ts -> (exists t, store m !! i = Some t /\ context t = s /\ not_started (kind t)) /\ i ∉ (scheduled m).*1) ->
  (forall m', channel_ok x m' -> awake m' -> calm m m' -> sessions m' = sessions m -> current (scheduler m') = current (scheduler m) ->
    (forall i, i ∈ ts -> (i, s) ∈ scheduled m') -> (forall r, r ∈ scheduled m -> r ∈ scheduled m') -> Q tt m') -> wp (MasterTasks.add_all ts s) m Q.
Proof.
  induction ts as [|i ts IH]; intros m Q Hok Haw Hs Hon Hn Hts HQ; cbn [MasterTasks.add_all].
  { rewrite wp_ret. apply HQ; [done|done|apply calm_refl|done|done|by intros i Hi%not_elem_of_nil|done]. }
  apply NoDup_cons in Hn as [Hi Hn]. destruct (Hts i ltac:(left)) as [(t & Hit & Hctx & Hns) Hnew]. rewrite wp_bind.
  eapply (Add_wp x i s t c); [done..|]. intros m1 Hok1 Aw1 C1 S1 E1 D1 Hp1. apply IH; [done|done|by rewrite E1|done|done| |].
  - intros j Hj. destruct (Hts j ltac:(by right)) as [Hjt Hjn]. rewrite S1. split; [done|]. rewrite Hp1. cbn. intros [->|Hin]%elem_of_cons; [done|done].
  - intros m2 Hok2 Aw2 C2 E2 D2 Hall Hold. apply HQ; [done|done|by eapply calm_trans|by rewrite E2|by rewrite D2| |].
    + intros j [->|Hj]%elem_of_cons; [|by apply Hall]. apply Hold. rewrite Hp1. left.
    + intros r Hr. apply Hold. rewrite Hp1. by right.
Qed.

(** The tasks of a session that does not run are not scheduled. *)
Lemma not_scheduled i s t c m : channel_ok None m -> store m !! i = Some t -> context t = s -> sessions m !! s = Some c -> isOnline c = false -> i ∉ (scheduled m).*1.
Proof.
  intros Hok Hi Hctx Hs Hoff Hin. apply list_elem_of_fmap in Hin as ([k j] & -> & Hin). cbn in *.
  destruct (ck_records _ _ _ Hok k j Hin) as (t' & Hk & Hj). assert (t' = t) as -> by congruence. assert (j = s) as -> by congruence.
  destruct (ck_machines _ _ _ Hok s c ltac:(done) Hs) as [Hl Ho _ Hst _]. destruct (Ho Hoff) as (Hidle & _ & Hno). unfold scheduled in Hin.
  apply elem_of_app in Hin as [Hin|Hin]; [|by apply (Hno k)]. destruct (current (scheduler m)) as [r|] eqn:Hc; [|by apply not_elem_of_nil in Hin].
  apply list_elem_of_singleton in Hin as <-. rewrite Hidle in Hst. destruct (activeTask c) eqn:Ha; [done|]. destruct (Hl k) as [_ Hx]. by specialize (Hx eq_refl).
Qed.

Lemma recurring_not_started k : TaskKind.IsRecurring k = true -> not_started k.
Proof. by destruct k. Qed.

Lemma session_OnLowerLayerUp_wp s c m :
  in_order m -> sessions m !! s = Some c ->
  wp (MContext.OnLowerLayerUp s) m (fun _ m' => in_order m' /\ conserves nothing_due m m').
Proof.
  intros [Hok Haw] Hs. unfold MContext.OnLowerLayerUp. rewrite wp_bind. eapply wp_session; [exact Hs|].
  destruct (isOnline c) eqn:Hoff; [rewrite wp_ret; split; [done|by apply calm_conserves, calm_refl]|].
  pose proof (ck_machines _ _ _ Hok s c ltac:(done) Hs) as Hm. destruct (mk_offline _ _ _ _ Hm Hoff) as (Hidle & Hsend & Hno).
  pose proof (ck_sessions _ _ _ Hok s c Hs) as Hsok.
  rewrite wp_bind. eapply (wp_update_own R); [by apply channel_weaken|exact Hs|done|cbn; apply (so_queue _ _ _ Hsok)|].
  intros m1 Hok1 Hs1 E1.
  rewrite wp_bind. unfold MasterTasks.Initialize. rewrite wp_bind. eapply wp_session; [exact Hs1|].
  eapply (add_all_wp (Some s) s); [done|by rewrite E1|exact Hs1|done|apply (so_once _ _ _ Hsok)| |].
  - intros i Hi. destruct (so_tasks _ _ _ Hsok i Hi) as (t & Hit & Hctx & Hrec). split.
    + exists t. rewrite E1. split; [done|]. split; [done|by apply recurring_not_started].
    + rewrite E1. by eapply (not_scheduled i s t c m).
  - intros m2 Hok2 Aw2 C2 S2 D2 Hall _. assert (Ho2 : in_order m2).
    { split; [|done]. eapply channel_settle; [exact Hok2|by rewrite S2|]. destruct Hm as [Hl _ Ht Hst _]. rewrite Hidle in *.
      split; cbn; rewrite ?D2, ?E1; [exact Hl|done|by rewrite Hidle|rewrite Hidle; by destruct (activeTask c)|]. intros _ i Hi. by apply Hall. }
    rewrite wp_bind. apply wp_told_quiet; [done|]. intros m3 Q3. rewrite wp_ret. split; [by eapply order_quiet|].
    apply calm_conserves. eapply calm_trans; [|eapply calm_trans; [exact C2|by eapply calm_quiet]]. split; [apply told_refl; by rewrite E1|].
    intros j. unfold queue. rewrite E1. cbn. destruct (decide (j = s)) as [->|Hj]; [|by rewrite list_lookup_insert_ne].
    rewrite list_lookup_insert_eq by (by eapply lookup_lt_Some). by rewrite Hs.
Qed.

(** ** Indications *)

(** A part of an event that transmits nothing. *)
Definition peaceful {A} s (p : SM (Master W) A) : Prop :=
  forall m, in_order m -> is_Some (sessions m !! s) -> wp p m (fun _ m' => in_order m' /\ calm m m' /\ is_Some (sessions m' !! s)).

Lemma peaceful_ret {A} s (a : A) : peaceful s (mret a).
Proof. intros m Ho Hs. rewrite wp_ret. split; [done|]. split; [apply calm_refl|done]. Qed.

Lemma peaceful_bind {A B} s (p : SM (Master W) A) (f : A -> SM (Master W) B) : peaceful s p -> (forall a, peaceful s (f a)) -> peaceful s (a ← p; f a).
Proof.
  intros Hp Hf m Ho Hs. rewrite wp_bind. eapply wp_mono; [by apply Hp|]. cbv beta. intros a m1 (Ho1 & C1 & Hs1).
  eapply wp_mono; [by apply Hf|]. cbv beta. intros b m2 (Ho2 & C2 & Hs2). split; [done|]. split; [by eapply calm_trans|done].
Qed.

Lemma peaceful_if {A} s (b : bool) (p q : SM (Master W) A) : peaceful s p -> peaceful s q -> peaceful s (if b then p else q).
Proof. by destruct b. Qed.

Lemma quiet_peace s m m' : in_order m -> is_Some (sessions m !! s) -> quiet None m m' -> in_order m' /\ calm m m' /\ is_Some (sessions m' !! s).
Proof.
  intros Ho [c Hs] Hq. split; [by eapply order_quiet|]. split; [by eapply calm_quiet|]. destruct (quiet_session _ _ _ _ _ Hq Hs) as (c' & Hs' & _). by exists c'.
Qed.

Lemma peaceful_tell s call : transmitted call = None -> peaceful s (tell_outside s call).
Proof. intros Hc m Ho Hs. apply wp_told_quiet; [done|]. intros m' Hq. by apply quiet_peace. Qed.

Lemma peaceful_evaluate s : peaceful s MasterSchedulerBackend.Evaluate.
Proof.
  intros m [Hok Haw] Hs. unfold wp, MasterSchedulerBackend.Evaluate. rewrite PostCheck_run. destruct (posted_check_fields m) as (E1 & _ & E3 & _).
  split; [split; [by apply channel_posted_check|by eapply awake_posted_check]|]. split; [by apply calm_same|by rewrite E3].
Qed.

Lemma Demand_wp o m (Q : bool -> Master W -> Prop) :
  in_order m -> (forall i, o = Some i -> (i < length (store m))%nat) -> (forall b m', quiet None m m' -> Q b m') -> wp (MasterTasks.Demand o) m Q.
Proof.
  intros [Hok _] Hi HQ. unfold MasterTasks.Demand. destruct o as [i|]; [|rewrite wp_ret; by apply HQ]. rewrite wp_bind.
  apply SetMinExpiration_wp; [apply (ck_store _ _ _ Hok)|by apply Hi|]. intros m' Hq. rewrite wp_ret. by apply HQ.
Qed.

Lemma own_task m s c i : in_order m -> sessions m !! s = Some c -> i ∈ MasterTasks.all_tasks (mtasks c) -> (i < length (store m))%nat.
Proof. intros [Hok _] Hs Hi. destruct (so_tasks _ _ _ (ck_sessions _ _ _ Hok s c Hs) i Hi) as (t & Hit & _). by eapply lookup_lt_Some. Qed.

Lemma peaceful_demand s (f : MasterTasks -> option nat) : (forall x i, f x = Some i -> i ∈ MasterTasks.all_tasks x) ->
  peaceful s (c ← the_session s; MasterTasks.Demand (f (mtasks c))).
Proof.
  intros Hf m Ho [c Hs]. rewrite wp_bind. eapply wp_session; [exact Hs|]. apply Demand_wp; [done|intros i Hi; by eapply own_task, Hf|].
  intros b m' Hq. by apply quiet_peace.
Qed.

Lemma in_all_tasks x i :
  i = clearRestart x \/ i = assignClass x \/ i = startupIntegrity x \/ i = eventScan x \/ enableUnsol x = Some i \/ timeSynchronization x = Some i ->
  i ∈ MasterTasks.all_tasks x.
Proof.
  unfold MasterTasks.all_tasks. rewrite !elem_of_app, !elem_of_cons. intros [-> | [-> | [-> | [-> | [E|E]]]]]; try tauto; rewrite E.
  - right. left. left.
  - right. right. right. left. left.
Qed.

Lemma peaceful_restart s : peaceful s (MasterTasks.OnRestartDetected s).
Proof.
  intros m Ho [c Hs]. unfold MasterTasks.OnRestartDetected. rewrite wp_bind. eapply wp_session; [exact Hs|].
  assert (Hin : forall i, i ∈ MasterTasks.all_tasks (mtasks c) -> (i < length (store m))%nat) by (intros i; by eapply own_task).
  assert (Hlen : forall m', quiet None m m' -> length (store m') = length (store m)) by (intros m' Hq; symmetry; by eapply Forall2_length, qu_store).
  rewrite wp_bind. apply Demand_wp; [done|intros i [= <-]; apply Hin, in_all_tasks; tauto|]. intros _ m1 Q1.
  rewrite wp_bind. apply Demand_wp; [by eapply order_quiet|intros i [= <-]; rewrite Hlen by done; apply Hin, in_all_tasks; tauto|]. intros _ m2 Q2. assert (Q02 : quiet None m m2) by quietly.
  rewrite wp_bind. apply Demand_wp; [by eapply order_quiet|intros i [= <-]; rewrite Hlen by done; apply Hin, in_all_tasks; tauto|]. intros _ m3 Q3. assert (Q03 : quiet None m m3) by (by etrans).
  rewrite wp_bind. apply Demand_wp; [by eapply order_quiet|intros i Hi; rewrite Hlen by done; apply Hin, in_all_tasks; tauto|]. intros _ m4 Q4.
  rewrite wp_ret. apply quiet_peace; [done|by eexists|by etrans].
Qed.

Lemma peaceful_ProcessIIN s iin : peaceful s (MContext.ProcessIIN s iin).
Proof.
  assert (Hdemand : forall (p : SM (Master W) bool), peaceful s p -> peaceful s (demanded ← p; if (demanded : bool) then MasterSchedulerBackend.Evaluate else mret tt)).
  { intros p Hp. apply peaceful_bind; [done|]. intros b. apply peaceful_if; [apply peaceful_evaluate|apply peaceful_ret]. }
  unfold MContext.ProcessIIN. intros m Ho [c Hs]. rewrite wp_bind. eapply wp_session; [exact Hs|].
  assert (Hs' : is_Some (sessions m !! s)) by (by eexists). revert m Ho Hs Hs'.
  match goal with |- forall m, _ -> _ -> _ -> wp ?p m _ => assert (Hp : peaceful s p); [|intros m Ho _ Hs; by apply Hp] end.
  apply peaceful_bind; [apply peaceful_if; [|apply peaceful_ret]|intros _].
  { apply peaceful_bind; [apply peaceful_restart|]. intros _. apply peaceful_evaluate. }
  apply peaceful_bind; [apply peaceful_if; [|apply peaceful_ret]|intros _].
  { apply Hdemand. apply (peaceful_demand s (fun x => Some (startupIntegrity x))). intros x i [= <-]. apply in_all_tasks. tauto. }
  apply peaceful_bind; [apply peaceful_if; [|apply peaceful_ret]|intros _].
  { apply Hdemand. apply (peaceful_demand s timeSynchronization). intros x i Hi. apply in_all_tasks. tauto. }
  apply peaceful_bind; [apply peaceful_if; [|apply peaceful_ret]|intros _].
  { apply Hdemand. apply (peaceful_demand s (fun x => Some (eventScan x))). intros x i [= <-]. apply in_all_tasks. tauto. }
  by apply peaceful_tell.
Qed.

(** ** Receptions *)

Lemma machine_wired s c c' m m' new : machine_ok m s c -> isOnline c = true -> wired R s c c' m m' new -> machine_ok m' s c'.
Proof.
  intros [Hl _ Ht Hst Hk] Hon [_ S D _ A (_ & _ & K & KT & _) (F1 & F2 & F3 & _)].
  split; rewrite ?D, ?F1, ?F2, ?F3; [done|by rewrite K, Hon|done| |by eapply (keeps_same m)].
  destruct (tstate c), (activeTask c) as [i|]; try done; rewrite S; [|done]. destruct Hst as [Hsend Hst]. split; [|done].
  destruct A as [(l & _ & _ & _ & Hn) _]. rewrite Hsend in Hn. destruct (isSending c'); [done|]. cbn in Hn. lia.
Qed.

(** A method that only transmits, between two events. *)
Lemma order_wired s c c' m m' new : in_order m -> sessions m !! s = Some c -> isOnline c = true -> channel_ok (Some s) m' -> wired R s c c' m m' new -> in_order m'.
Proof.
  intros [Hok Haw] Hs Hon Hok' Hw. split.
  - eapply channel_settle; [exact Hok'|apply (wi_session _ _ _ _ _ _ _ Hw)|]. eapply (machine_wired s c); [exact (ck_machines _ _ _ Hok s c ltac:(done) Hs)|done|exact Hw].
  - unfold awake. by rewrite (wi_scheduler _ _ _ _ _ _ _ Hw), (wi_posted _ _ _ _ _ _ _ Hw).
Qed.

(** What follows a response. *)
Lemma then_IIN s c c' m m' new iin : sessions m !! s = Some c -> sessions m' !! s = Some c' -> in_order m' -> acts s c c' m m' new ->
  wp (MContext.ProcessIIN s iin) m' (fun _ m'' => in_order m'' /\ conserves (due_of s new) m m'').
Proof.
  intros Hs Hs' Ho A. eapply wp_mono; [apply peaceful_ProcessIIN; [done|by eexists]|]. cbv beta. intros _ m2 (Ho2 & C2 & _). split; [done|].
  eapply conserves_calm; [by eapply acts_conserves|exact C2].
Qed.

Lemma ProcessUnsolicitedResponse_wp s c header objects m :
  in_order m -> sessions m !! s = Some c -> isOnline c = true -> bytes_ok objects ->
  let ctrl := control (response_header header) in
  wp (MContext.ProcessUnsolicitedResponse s header objects) m (fun _ m' => in_order m' /\
    conserves (due_of s match MeasurementHandler.ProcessMeasurements objects with
      | Some (_, result) => if UNS ctrl && (bool_decide (result = OK) && CON ctrl) then [APDUHeader.UnsolicitedConfirm (SEQ ctrl)] else []
      | None => [] end) m m').
Proof.
  intros Ho Hs Hon Hb ctrl. unfold MContext.ProcessUnsolicitedResponse. fold ctrl. destruct (ProcessMeasurements_spec objects Hb) as (hs & result & _ & He).
  rewrite He. destruct (UNS ctrl); cbn [negb andb].
  2:{ rewrite wp_ret. split; [done|]. eapply (acts_conserves s c c); [done..|]. by apply acts_same. }
  rewrite wp_bind, wp_lift. eexists. split; [done|]. rewrite wp_bind. apply wp_told_all; [apply Forall_map, Forall_forall; done|]. intros m1 Q1 _.
  pose proof (order_quiet _ _ Ho (Q1 None)) as Ho1. destruct (quiet_session _ _ _ _ _ (Q1 None) Hs) as (c1 & Hs1 & Hb1).
  assert (Hon1 : isOnline c1 = true) by (destruct (kept_blocks c c1 Hb1) as (_ & _ & -> & _); done).
  rewrite wp_bind. eapply (confirm_wp R); [by apply channel_weaken, Ho1|exact Hs1|done|]. intros m2 c2 Hok2 Hw2.
  eapply (then_IIN s c c2); [done|apply (wi_session _ _ _ _ _ _ _ Hw2)|by eapply order_wired|].
  eapply acts_trans_nil; [exact (acts_quiet R s c c1 None m m1 (Q1 None) Hb1)|apply (wi_acts _ _ _ _ _ _ _ Hw2)].
Qed.

Lemma OnResponseEvent_wp s c header objects m :
  in_order m -> sessions m !! s = Some c -> isOnline c = true -> bytes_ok objects -> Z.of_nat (length objects) < 4294967296 ->
  (tstate c = WAIT_FOR_RESPONSE -> SEQ (control (response_header header)) = solSeq c -> selects R s objects) ->
  let ctrl := control (response_header header) in
  wp (MContext.OnResponseEvent s header objects) m (fun r m' => goes R s c m r m'
    (if bool_decide (tstate c = WAIT_FOR_RESPONSE) && ((SEQ ctrl =? solSeq c) && CON ctrl) then [APDUHeader.SolicitedConfirm (SEQ ctrl)] else [])).
Proof.
  intros [Hok Haw] Hs Hon Hb Hl Hsel ctrl. unfold MContext.OnResponseEvent. rewrite wp_bind. eapply wp_session; [exact Hs|].
  pose proof (ck_machines _ _ _ Hok s c ltac:(done) Hs) as Hm. pose proof (channel_weaken R s m Hok) as Hok'.
  assert (Hstay : goes R s c m (tstate c) m []) by (apply goes_stay; [done..|by rewrite set_tstate_same]).
  destruct (tstate c) eqn:Hst; try (rewrite wp_ret; exact Hstay). apply OnResponse_wait_wp; try done. by apply Hsel.
Qed.

Lemma session_OnReceive_wp s c address payload m :
  in_order m -> sessions m !! s = Some c -> bytes_ok payload -> Z.of_nat (length payload) < 4294967296 ->
  (forall objects, accepted c address payload = Some objects -> selects R s objects) ->
  wp (MContext.OnReceive s address payload) m (fun _ m' => in_order m' /\ conserves (due_of s (due_confirm c address payload)) m m').
Proof.
  intros Ho Hs Hb Hl Hsel. unfold accepted in Hsel. unfold MContext.OnReceive, due_confirm. rewrite wp_bind. eapply wp_session; [exact Hs|].
  assert (Hnone : conserves (due_of s []) m m) by (eapply (acts_conserves s c c); [done..|]; by apply acts_same).
  destruct (isOnline c) eqn:Hon; cbn [negb andb]; [|by rewrite wp_ret].
  destruct (destination address =? source (addresses c)); cbn [negb andb]; [|by rewrite wp_ret].
  destruct (source address =? destination (addresses c)); cbn [negb andb]; [|by rewrite wp_ret].
  destruct (ParseResponse payload) as [[header objects]|] eqn:Hp; [|by rewrite wp_ret].
  assert (Hobj : bytes_ok objects /\ Z.of_nat (length objects) < 4294967296).
  { unfold ParseResponse in Hp. destruct (_ <? _)%nat; [done|]. injection Hp as _ <-. rewrite Skip_drop. split; [by apply Forall_drop|rewrite length_drop; lia]. }
  destruct Hobj as [Hob Hol]. rewrite wp_bind. unfold MContext.ProcessAPDU.
  destruct (function (response_header header)) eqn:Hfn; try (rewrite !wp_ret; by split).
  - unfold MContext.ProcessResponse. rewrite wp_bind. eapply (assign_tstate_wp R s c); [apply OnResponseEvent_wp; [done..|]|].
    { intros Hst Hseq. apply Hsel. by rewrite Hst, Hseq, Z.eqb_refl. }
    intros m1 c1 Hok1 Aw1 Hs1 A1 K1. eapply wp_mono; [eapply (then_IIN s c c1); [done|done|done|exact A1]|]. cbv beta. intros _ m2 H2. by rewrite wp_ret.
  - eapply wp_mono; [by apply (ProcessUnsolicitedResponse_wp s c)|]. cbv beta. intros _ m2 H2. by rewrite wp_ret.
Qed.

(** ** Timers and the end of transmissions *)

Lemma session_OnTxReady_wp s c m :
  in_order m -> sessions m !! s = Some c -> wp (MContext.OnTxReady s) m (fun _ m' => in_order m' /\ conserves nothing_due m m').
Proof.
  intros [Hok Haw] Hs. unfold MContext.OnTxReady. rewrite wp_bind. eapply wp_session; [exact Hs|].
  destruct (isOnline c) eqn:Hon; cbn [negb orb]; [|rewrite wp_ret; split; [done|by apply calm_conserves, calm_refl]].
  destruct (isSending c) eqn:Hsend; cbn [negb orb]; [|rewrite wp_ret; split; [done|by apply calm_conserves, calm_refl]].
  pose proof (ck_machines _ _ _ Hok s c ltac:(done) Hs) as Hm. destruct (ck_sessions _ _ _ Hok s c Hs) as [_ _ Hq _ _].
  rewrite wp_bind. eapply (wp_update_own R); [by apply channel_weaken|exact Hs|done|done|]. intros m1 Hok1 Hs1 E1. set (c1 := set_isSending false c) in *.
  assert (Haw1 : awake m1) by (by rewrite E1).
  assert (C1 : calm m m1).
  { split; [apply told_refl; by rewrite E1|]. intros j. unfold queue. rewrite E1. cbn. destruct (decide (j = s)) as [->|Hj]; [|by rewrite list_lookup_insert_ne].
    rewrite list_lookup_insert_eq by (by eapply lookup_lt_Some). by rewrite Hs. }
  rewrite wp_bind. eapply (assign_tstate_wp R s c1 _ _ []).
  - unfold MContext.OnTransmitComplete. rewrite wp_bind. eapply wp_session; [exact Hs1|]. destruct Hm as [Hl Hoff Ht Hst Hkp].
    assert (Hkp1 : keeps m1 s c1) by (eapply (keeps_same m); [done|done|by rewrite E1|exact Hkp]).
    assert (Hstay : (tstate c <> TASK_READY) -> goes R s c1 m1 (tstate c1) m1 []).
    { intros Hne. apply goes_stay; [done..|]. rewrite set_tstate_same. subst m1 c1. split; cbn; [done|by rewrite Hon|done| |exact Hkp1]. by destruct (tstate c), (activeTask c). }
    unfold c1 at 1. cbn [tstate set_isSending]. destruct (tstate c) eqn:Hts; try (rewrite wp_ret; by apply Hstay).
    destruct (activeTask c) as [i|] eqn:Ha; [|done]. destruct Hst as (_ & t & Hi & Hp).
    eapply (ResumeActiveTask_wp R s c1 i t); [done|done|done|done|cbn; by rewrite Ht|done|rewrite E1; by apply Hl|by rewrite E1|done|exact Hkp1].
  - intros m2 c2 Hok2 Aw2 Hs2 A2 K2. assert (Hon2 : isOnline c2 = true) by (by destruct K2 as (_ & _ & -> & _)).
    rewrite wp_bind. eapply (CheckConfirmTransmit_wp R); [by apply channel_weaken|exact Hs2|]. intros b m3 c3 Hok3 Hw3 _. rewrite wp_ret.
    split; [eapply (order_wired s c2); [by split|done|done|exact Hok3|exact Hw3]|]. eapply calm_then; [exact C1|].
    eapply (acts_conserves_nil s c1 c3); [done|apply (wi_session _ _ _ _ _ _ _ Hw3)|]. eapply acts_trans_nil; [exact A2|apply (wi_acts _ _ _ _ _ _ _ Hw3)].
Qed.

End Events.
