(* ===== verification/MasterRequests.v ===== *)
(** * MasterRequests: timers, the queue of the executor, new tasks and new sessions

    The events that do not come from the lower layer leave a channel in order too;
    a store that grows keeps what is known of the tasks and sessions in it. *)

From S2P Require Import Prelude Slices Serialization LinkFrame Transport AppHeader Objects ObjectParser HeaderWriter HeaderRoundtrip OutstationState RequestHandlers EventWriters EventResponse RequestSpecs TaskBehavior CommandSet CommandProps MeasurementHandler MeasurementProps MasterState MasterTask MasterScheduler Master RequestBuilding MasterSpecs MasterMethods MasterSession SchedulerProps MasterMachine MasterEvents.

From stdpp Require Import gmap.

Open Scope Z_scope.

Section Requests.
Context {W : Type} `{MasterEnvironmentOk W}.
Context (R : nat -> CommandSet -> Prop).
Implicit Types (m : Master W) (s : nat) (c : MContext).

#[local] Abbreviation channel_ok := (channel_ok R).

#[local] Abbreviation machine_ok := (machine_ok R).

#[local] Abbreviation in_order := (in_order R).

#[local] Abbreviation conserves := (conserves R).

(** The end of an event that concerns no confirmation. *)
Definition settled m : unit -> Master W -> Prop := fun _ m' => in_order m' /\ conserves nothing_due m m'.

Lemma settled_ret m : in_order m -> wp (mret tt) m (settled m).
Proof. intros Ho. rewrite wp_ret. split; [done|]. by apply calm_conserves, calm_refl. Qed.

Lemma settled_after m m1 (p : SM (Master W) unit) : calm m m1 -> wp p m1 (settled m1) -> wp p m1 (settled m).
Proof. intros Hc Hp. eapply wp_mono; [exact Hp|]. cbv beta. intros a m2 [Ho C]. split; [done|]. by eapply calm_then. Qed.

(** ** Timers *)

Lemma ResponseTimer_wp s c m : in_order m -> sessions m !! s = Some c -> wp (MasterChannel.handle (ResponseTimer s)) m (settled m).
Proof.
  intros [Hok Haw] Hs. cbn [MasterChannel.handle]. rewrite wp_bind. eapply wp_session; [exact Hs|].
  destruct (responseTimer c) eqn:Htm; [|by apply settled_ret].
  pose proof (ck_machines _ _ _ Hok s c ltac:(done) Hs) as [Hl Hoff Ht Hst Hkp]. rewrite Htm in Ht. symmetry in Ht. apply bool_decide_eq_true in Ht.
  destruct (isOnline c) eqn:Hon; [|by destruct (Hoff eq_refl) as [Hidle _]; rewrite Hidle in Ht].
  destruct (ck_sessions _ _ _ Hok s c Hs) as [_ _ Hq _ _].
  rewrite wp_bind. eapply (wp_update_own R); [by apply channel_weaken|exact Hs|done|done|]. intros m1 Hok1 Hs1 E1. set (c1 := set_responseTimer false c) in *.
  unfold MContext.OnResponseTimeout. rewrite wp_bind. eapply wp_session; [exact Hs1|].
  change (isOnline c1) with (isOnline c). rewrite Hon. eapply (assign_tstate_wp R s c1 _ _ []).
  - unfold MContext.OnResponseTimeoutEvent. rewrite wp_bind. eapply wp_session; [exact Hs1|].
    change (tstate c1) with (tstate c). rewrite Ht in *. destruct (activeTask c) as [i|] eqn:Ha; [|done].
    eapply (OnResponseTimeout_wait_wp R s c1 i); [done|done|done|done|done| |]; [rewrite E1; by apply Hl|]. eapply (keeps_same m); [done|done|by rewrite E1|exact Hkp].
  - intros m2 c2 Hok2 Aw2 Hs2 A2 _. split; [by split|]. eapply (acts_conserves_nil R s c c2); [done|done|].
    eapply acts_trans_nil; [|exact A2]. rewrite E1. by apply acts_own.
Qed.

(** The functions of the queue run one after the other. *)
Lemma channel_pop (x : option nat) q m : channel_ok x m -> (forall p, p ∈ q -> p ∈ posted m) ->
  channel_ok x (set_scheduler (set_taskCheckPending false (scheduler m)) (set_posted q m)).
Proof.
  intros [Hst Hse Hma Hre Hon Hfr Hch Hpo] Hq. split; unfold scheduled in *; cbn [scheduler set_scheduler set_taskCheckPending set_posted store sessions posted current tasks taskCheckPending]; try done.
  - intros s c Hx Hs. eapply machine_scheduler; [by apply Hma|done|done|by left|done].
  - intros i Hi. by apply Hpo, Hq.
Qed.

Lemma TaskTimer_wp m : in_order m -> wp (MasterChannel.handle TaskTimer) m (settled m).
Proof.
  intros Ho. cbn [MasterChannel.handle]. rewrite wp_bind, wp_get. destruct (taskTimer (scheduler m)); [|by apply settled_ret].
  rewrite wp_bind. apply wp_scheduler. apply settled_after; [by apply calm_same|]. apply CheckForTaskRun_wp.
  destruct Ho as [Hok _]. apply (channel_scheduler R None _ m Hok); done.
Qed.

Lemma StartTimer_wp m : in_order m -> wp (MasterChannel.handle StartTimer) m (settled m).
Proof.
  intros [Hok Haw]. cbn [MasterChannel.handle]. rewrite wp_bind, wp_get. destruct (taskStartTimeout_ (scheduler m)); [|by apply settled_ret].
  rewrite wp_bind. apply wp_scheduler. apply settled_after; [by apply calm_same|]. apply TimeoutTasks_wp. split; [|done].
  apply (channel_scheduler R None _ m Hok); [done|done|]. apply (ck_check _ _ _ Hok).
Qed.

Lemma quiet_scheduler o y m m' : quiet o m m' -> quiet o (set_scheduler y m) (set_scheduler y m').
Proof. intros [C S K E D P]. by split. Qed.

Lemma RunPosted_wp m : in_order m -> wp (MasterChannel.handle RunPosted) m (settled m).
Proof.
  intros [Hok Haw]. cbn [MasterChannel.handle]. rewrite wp_bind, wp_get. destruct (posted m) as [|p q] eqn:Hp; [by apply settled_ret|].
  rewrite wp_bind. unfold modify at 1. cbn [wp].
  assert (Hpop : channel_ok None (set_scheduler (set_taskCheckPending false (scheduler m)) (set_posted q m))).
  { apply channel_pop; [done|]. intros p' Hp'. rewrite Hp. by right. }
  apply (settled_after m (set_posted q m)); [by apply calm_same|]. destruct p as [|i]; cbn [MasterChannel.run_posted].
  - by apply CheckForTaskRun_wp.
  - rewrite wp_bind. apply SetMinExpiration_wp; [apply (ck_store _ _ _ Hok)|apply (ck_posted _ _ _ Hok); rewrite Hp; left|]. intros m1 Q1.
    apply settled_after; [by eapply calm_quiet|]. apply CheckForTaskRun_wp.
    rewrite (qu_scheduler _ _ _ Q1). eapply channel_quiet; [exact Hpop|by apply quiet_scheduler|apply own_none].
Qed.

Lemma DemandScan_wp i m : in_order m -> (i < length (store m))%nat -> wp (MasterChannel.handle (DemandScan i)) m (settled m).
Proof.
  intros [Hok Haw] Hi. cbn [MasterChannel.handle]. unfold MasterSchedulerBackend.Demand, Post, modify. cbn [wp]. split; [split|].
  - destruct Hok as [Hst Hse Hma Hre Hon Hfr Hch Hpo]. split; cbn [scheduler set_posted store sessions posted]; try done.
    + intros s c Hx Hs. eapply machine_scheduler; [by apply Hma|done|done|by left|done].
    + intros Hp. apply elem_of_app. left. by apply Hch.
    + intros k Hk. apply elem_of_app in Hk as [Hk|Hk]; [by apply Hpo|]. apply list_elem_of_singleton in Hk. by injection Hk as ->.
  - intros Hc Ht. cbn in *. destruct (Haw Hc Ht) as [Hp|Hp]; [left; apply elem_of_app; by left|by right].
  - by apply calm_conserves, calm_same.
Qed.

(** ** New tasks and sessions *)

(** A session that has just been made. *)
Definition new_session c : Prop := tstate c = IDLE /\ activeTask c = None /\ isOnline c = false /\ isSending c = false /\ responseTimer c = false.

(** The channel with more tasks and sessions. *)
Definition grown ts cs m : Master W := set_store (store m ++ ts) (set_sessions (sessions m ++ cs) m).

Lemma channel_grown ts cs m : channel_ok None m ->
  Forall (fun t => task_ok t /\ (context t < length (sessions m ++ cs))%nat) ts ->
  (forall k c, cs !! k = Some c -> new_session c /\ session_ok (store m ++ ts) (length (sessions m) + k) c) ->
  channel_ok None (grown ts cs m).
Proof.
  intros [Hst Hse Hma Hre Hon Hfr Hch Hpo] Hts Hcs.
  assert (Hold : forall i t, store m !! i = Some t -> store (grown ts cs m) !! i = Some t) by (intros i t Hi; cbn; by rewrite lookup_app_l by (by eapply lookup_lt_Some)).
  assert (Hno : forall i s, (i, s) ∈ scheduled m -> (s < length (sessions m))%nat).
  { intros i s Hi. destruct (Hre i s Hi) as (t & Ht & <-). by destruct (Hst i t Ht). }
  assert (Hback : forall i t, (i < length (store m))%nat -> store (grown ts cs m) !! i = Some t -> store m !! i = Some t) by (intros i t Hi; cbn; by rewrite lookup_app_l).
  split; unfold scheduled in *; cbn [scheduler grown set_store set_sessions sessions posted]; try done.
  - intros i t Hi. cbn in *. apply lookup_app_Some in Hi as [Hi|[_ Hi]]; [destruct (Hst i t Hi); split; [done|rewrite length_app; lia]|].
    by apply (Forall_lookup_1 _ _ _ _ Hts Hi).
  - intros s c Hs. apply lookup_app_Some in Hs as [Hs|[Hl Hs]].
    + destruct (Hse s c Hs) as [Hp Hb Hq Ht Hn]. split; [done..| |done]. intros i Hi. destruct (Ht i Hi) as (t & Hit & Htc). exists t. split; [by apply Hold|done].
    + destruct (Hcs _ _ Hs) as [_ Hc]. by replace (length (sessions m) + (s - length (sessions m)))%nat with s in Hc by lia.
  - intros s c _ Hs. apply lookup_app_Some in Hs as [Hs|[Hl Hs]].
    + eapply machine_scheduler; [by apply Hma|done|done|by left|done].
    + destruct (Hcs _ _ Hs) as [(E1 & E2 & E3 & E4 & E5) _].
      assert (Hnot : forall i, (i, s) ∉ option_list (current (scheduler m)) ++ tasks (scheduler m)) by (intros i Hi; apply Hno in Hi; lia).
      split; unfold keeps; rewrite ?E1, ?E2, ?E3, ?E4, ?E5; [|intros _; split; [done|split; [done|]]; intros i Hi; apply (Hnot i), elem_of_app; by right|done|done|done].
      intros i. split; [done|]. intros Hc. exfalso. apply (Hnot i). cbn in Hc. rewrite Hc. left.
  - intros i s Hi. destruct (Hre i s Hi) as (t & Ht & Hc). exists t. split; [by apply Hold|done].
  - intros i s t Hi Ht. eapply Hfr; [exact Hi|]. destruct (Hre i s) as (t' & Ht' & _); [apply elem_of_app; by right|].
    apply Hback; [by eapply lookup_lt_Some|done].
  - intros i Hi. cbn. rewrite length_app. apply Hpo in Hi. lia.
Qed.

Lemma in_order_grown ts cs m : in_order m ->
  Forall (fun t => task_ok t /\ (context t < length (sessions m ++ cs))%nat) ts ->
  (forall k c, cs !! k = Some c -> new_session c /\ session_ok (store m ++ ts) (length (sessions m) + k) c) ->
  in_order (grown ts cs m).
Proof. intros [Hok Haw] Hts Hcs. split; [by apply channel_grown|exact Haw]. Qed.

Lemma calm_grown ts cs m : Forall (fun c => confirmQueue c = []) cs -> calm m (grown ts cs m).
Proof.
  intros Hq. split; [by apply told_refl|]. intros j. unfold queue. cbn. destruct (sessions m !! j) as [c|] eqn:Hj.
  - by rewrite (lookup_app_l_Some _ _ _ _ Hj).
  - apply lookup_ge_None in Hj. rewrite lookup_app_r by done. destruct (cs !! _) as [c|] eqn:Hc; [|done]. by apply (Forall_lookup_1 _ _ _ _ Hq Hc).
Qed.

Lemma grown_task t m : set_store (store m ++ [t]) m = grown [t] [] m.
Proof. unfold grown. rewrite app_nil_r. by destruct m. Qed.

Lemma wp_new_task t s c m (Q : nat -> Master W -> Prop) :
  in_order m -> sessions m !! s = Some c -> task_ok t -> context t = s ->
  (forall m', in_order m' -> calm m m' -> sessions m' !! s = Some c -> store m' !! length (store m) = Some t ->
    scheduler m' = scheduler m -> length (store m) ∉ (scheduled m').*1 -> (forall c', sessions m !! s = Some c' -> length (store m) ∉ MasterTasks.all_tasks (mtasks c')) ->
    Q (length (store m)) m') -> wp (new_task t) m Q.
Proof.
  intros Ho Hs Ht Hc HQ. unfold wp, new_task. rewrite grown_task. pose proof Ho as [Hok _].
  apply HQ; [|by apply calm_grown|cbn; by rewrite app_nil_r|cbn; by rewrite lookup_app_r, Nat.sub_diag|done| |].
  - apply in_order_grown; [done| |done]. constructor; [|constructor]. split; [done|]. rewrite Hc, app_nil_r. by eapply lookup_lt_Some.
  - intros Hi. apply list_elem_of_fmap in Hi as ([k j] & E & Hi). cbn in E. pose proof (waiting_lt R None m (k, j) Hok Hi) as Hlt. cbn in Hlt. lia.
  - intros c' Hc' Hi. destruct (so_tasks _ _ _ (ck_sessions _ _ _ Hok s c' Hc') _ Hi) as (t' & Hi' & _). apply lookup_lt_Some in Hi'. lia.
Qed.

Lemma start_timeout_wp s c m (Q : Z -> Master W -> Prop) :
  in_order m -> sessions m !! s = Some c ->
  (forall timeout m' c', is_i64 timeout -> in_order m' -> calm m m' -> sessions m' !! s = Some c' -> Q timeout m') -> wp (MContext.start_timeout s) m Q.
Proof.
  intros Ho Hs HQ. unfold MContext.start_timeout. rewrite wp_bind. eapply wp_session; [exact Hs|]. rewrite wp_bind. apply wp_time. intros now m1 Hnow Q1 _ _ E.
  pose proof (so_params _ _ _ (ck_sessions _ _ _ (proj1 Ho) s c Hs)) as Hp. rewrite wp_lift. eexists. split; [by apply Timestamp_Add_spec, Hp|].
  eapply HQ; [|exact (order_quiet R _ _ Ho (Q1 None))|exact (calm_quiet None _ _ (Q1 None))|by rewrite E]. destruct Hp as [[Hlo Hhi] _ _ _]. unfold is_time, is_i64, INT64_MIN, INT64_MAX in *. lia.
Qed.

Lemma ScheduleAdhocTask_wp i s c t m :
  in_order m -> sessions m !! s = Some c -> store m !! i = Some t -> context t = s -> not_started (kind t) -> i ∉ (scheduled m).*1 ->
  wp (MContext.ScheduleAdhocTask s i) m (settled m).
Proof.
  intros Ho Hs Hi Hc Hn Hnew. unfold MContext.ScheduleAdhocTask. rewrite wp_bind. eapply wp_session; [exact Hs|]. destruct (isOnline c) eqn:Hon.
  - eapply (Add_wp R None); [apply Ho|done..|]. intros m' Hok' Aw' C' _ _ _ _. split; [by split|by apply calm_conserves].
  - rewrite wp_bind. apply wp_time. intros now m1 Hnow Q1 _ E _. pose proof (order_quiet R _ _ Ho (Q1 None)) as Ho1.
    apply CompleteTask_wp; [apply (ck_store _ _ _ (proj1 Ho1))|rewrite E; by eapply lookup_lt_Some|done|]. intros m2 Q2.
    split; [by eapply order_quiet|]. apply calm_conserves. eapply calm_trans; [exact (calm_quiet None _ _ (Q1 None))|exact (calm_quiet None _ _ Q2)].
Qed.

Lemma single_ok k s config timeout : is_i64 timeout -> kind_fits k -> task_ok (mkTask k s config (TaskBehavior.SingleExecutionNoRetry timeout)).
Proof.
  intros Ht Hk. split; [|done]. cbn [behavior]. apply make_ok; unfold is_time, is_i64, TimeDuration.Min, MonotonicTimestamp.Min, TimeDuration.Max, INT64_MIN, INT64_MAX in *; lia.
Qed.

Lemma schedule_single_wp s c k config m :
  in_order m -> sessions m !! s = Some c -> kind_fits k -> not_started k -> wp (MContext.schedule_single s k config) m (settled m).
Proof.
  intros Ho Hs Hk Hn. unfold MContext.schedule_single. rewrite wp_bind. eapply start_timeout_wp; [done|exact Hs|].
  intros timeout m1 c1 Ht Ho1 C1 Hs1. apply settled_after; [done|]. rewrite wp_bind. eapply wp_new_task; [done|exact Hs1|by apply single_ok|done|].
  intros m2 Ho2 C2 Hs2 Hi2 _ Hnew _. apply settled_after; [done|]. by eapply ScheduleAdhocTask_wp.
Qed.

(** *** Polls *)

Lemma channel_bind s c i t m :
  channel_ok None m -> sessions m !! s = Some c -> store m !! i = Some t -> context t = s -> TaskKind.IsRecurring (kind t) = true ->
  i ∉ MasterTasks.all_tasks (mtasks c) ->
  let c' := set_mtasks (set_boundTasks (boundTasks (mtasks c) ++ [i]) (mtasks c)) c in channel_ok (Some s) (set_sessions (<[s := c']> (sessions m)) m).
Proof.
  intros Hok Hs Hi Hc Hr Hnew c'.
  assert (Hall : MasterTasks.all_tasks (mtasks c') = MasterTasks.all_tasks (mtasks c) ++ [i]) by (unfold MasterTasks.all_tasks; cbn; by rewrite <- !app_assoc).
  assert (Hlt : (s < length (sessions m))%nat) by (by eapply lookup_lt_Some).
  destruct Hok as [Hst Hse Hma Hre Hon Hfr Hch Hpo]. split; unfold scheduled in *; cbn [scheduler set_sessions sessions posted store]; try done.
  - intros k u Hk. destruct (Hst k u Hk) as [Hu Hl]. split; [done|]. cbn. by rewrite length_insert.
  - intros j d Hj. apply list_lookup_insert_Some in Hj as [(-> & <- & _)|[_ Hj]]; [|by apply Hse].
    destruct (Hse _ c Hs) as [Hp Hb Hq Ht Hn]. split; [done..| |].
    + rewrite Hall. intros k Hk. apply elem_of_app in Hk as [Hk|Hk]; [by apply Ht|]. apply list_elem_of_singleton in Hk as ->. by exists t.
    + rewrite Hall. apply NoDup_app. split; [done|]. split; [|apply NoDup_singleton]. intros k Hk Hk'. apply list_elem_of_singleton in Hk' as ->. done.
  - intros j d Hx Hj. rewrite list_lookup_insert_ne in Hj by congruence. eapply machine_scheduler; [by apply Hma|done|done|by left|done].
Qed.

Lemma periodic_ok s c period builder config :
  params_ok (params c) -> is_i64 period -> builds builder ->
  task_ok (mkTask (UserPollTask builder true 0) s config (TaskBehavior.ImmediatePeriodic period (taskRetryPeriod (params c)) (maxTaskRetryPeriod (params c)))).
Proof. intros [Hst Hre Hmx Hsz] Hp Hb. split; [|done]. apply make_ok; done. Qed.

Lemma AddScan_wp s c period builder config m :
  in_order m -> sessions m !! s = Some c -> is_i64 period -> builds builder ->
  wp (MasterChannel.handle (RequestAddScan s period builder config)) m (settled m).
Proof.
  intros Ho Hs Hp Hb. cbn [MasterChannel.handle]. unfold MContext.AddScan. rewrite !wp_bind. eapply wp_session; [exact Hs|].
  rewrite wp_bind. eapply wp_new_task; [done|exact Hs|apply periodic_ok; [apply (so_params _ _ _ (ck_sessions _ _ _ (proj1 Ho) s c Hs))|done|done]|done|].
  intros m1 Ho1 C1 Hs1 Hi1 _ Hnew Hnot. unfold MContext.ScheduleRecurringPollTask, MasterTasks.BindTask. rewrite !wp_bind.
  unfold wp at 1, update_session at 1. rewrite Hs1. cbn [mbind option_bind].
  pose proof (channel_bind s c _ _ m1 (proj1 Ho1) Hs1 Hi1 eq_refl eq_refl (Hnot c Hs)) as Hok2. cbv zeta in Hok2.
  set (c2 := set_mtasks _ c) in *. set (m2 := set_sessions _ m1) in *.
  assert (Hs2 : sessions m2 !! s = Some c2) by (cbn; by rewrite list_lookup_insert_eq by (by eapply lookup_lt_Some)).
  assert (C2 : calm m m2).
  { eapply calm_trans; [exact C1|]. split; [by apply told_refl|]. intros j. unfold queue. destruct (decide (j = s)) as [->|Hj]; [by rewrite Hs1, Hs2|].
    cbn. by rewrite list_lookup_insert_ne. }
  destruct (ck_machines _ _ _ (proj1 Ho1) s c ltac:(done) Hs1) as [Hl Hoff Ht Hst Hkp].
  assert (Hall : MasterTasks.all_tasks (mtasks c2) = MasterTasks.all_tasks (mtasks c) ++ [length (store m)]) by (unfold MasterTasks.all_tasks; cbn; by rewrite <- !app_assoc).
  rewrite wp_bind. eapply wp_session; [exact Hs2|]. change (isOnline c2) with (isOnline c). destruct (isOnline c) eqn:Hon.
  - eapply (Add_wp R (Some s)); [exact Hok2|exact Hi1|done|done|exact Hs2|done|done|]. intros m3 Hok3 Aw3 C3 S3 E3 D3 Hp3. rewrite !wp_ret.
    split; [split; [|done]|apply calm_conserves; by eapply calm_trans]. eapply channel_settle; [exact Hok3|rewrite E3; exact Hs2|].
    split; [by rewrite D3|by cbn; rewrite Hon|done|by rewrite S3|]. intros _ k Hk. rewrite Hp3. rewrite Hall in Hk. apply elem_of_app in Hk as [Hk|Hk].
    + right. by apply Hkp.
    + apply list_elem_of_singleton in Hk as ->. left.
  - rewrite !wp_ret. split; [split|by apply calm_conserves].
    + eapply channel_settle; [exact Hok2|exact Hs2|]. split; [exact Hl|exact (fun _ => Hoff eq_refl)|exact Ht|exact Hst|]. unfold keeps. cbn. by rewrite Hon.
    + exact (proj2 Ho1).
Qed.

(** *** Sessions *)

(** The tasks of a constructor get new identities, in order. *)
Definition adds s m m' (ids : list nat) : Prop := exists ts,
  m' = set_store (store m ++ ts) m /\ ids = seq (length (store m)) (length ts) /\
  Forall (fun t => task_ok t /\ context t = s /\ TaskKind.IsRecurring (kind t) = true) ts.

Lemma adds_refl s m : adds s m m [].
Proof. exists []. rewrite app_nil_r. by destruct m. Qed.

Lemma adds_trans s m1 m2 m3 l1 l2 : adds s m1 m2 l1 -> adds s m2 m3 l2 -> adds s m1 m3 (l1 ++ l2).
Proof.
  intros (t1 & -> & -> & F1) (t2 & -> & -> & F2). exists (t1 ++ t2). split; [cbn; by rewrite <- app_assoc|]. split; [|by apply Forall_app_2].
  cbn. by rewrite !length_app, seq_app.
Qed.

Lemma make_task_wp s k b m : behavior_ok b -> kind_fits k -> TaskKind.IsRecurring k = true ->
  wp (MasterTasks.make_task s k b) m (fun i m' => adds s m m' [i]).
Proof. intros Hb Hk Hr. exists [mkTask k s TaskConfig.Default b]. split; [done|]. split; [done|]. constructor; [by split|constructor]. Qed.

Lemma IIN_only_ok : behavior_ok TaskBehavior.ReactsToIINOnly.
Proof. by apply make_ok. Qed.

Lemma RetryBehavior_ok p : params_ok p -> behavior_ok (MasterTasks.RetryBehavior p).
Proof. intros [Hst Hre Hmx Hsz]. by apply make_ok. Qed.

(** A task that some sessions do not have. *)
Lemma optional_task_wp (b : bool) s k h m : behavior_ok h -> kind_fits k -> TaskKind.IsRecurring k = true ->
  wp (if b then i ← MasterTasks.make_task s k h; mret (Some i) else mret None) m (fun o m' => adds s m m' (option_list o)).
Proof.
  intros Hb Hk Hr. destruct b; [|rewrite wp_ret; apply adds_refl]. rewrite wp_bind. eapply wp_mono; [by apply make_task_wp|]. cbv beta. intros i m' Ha. by rewrite wp_ret.
Qed.

Lemma GetTimeSyncTask_wp s mode m : wp (MasterTasks.GetTimeSyncTask s mode) m (fun o m' => adds s m m' (option_list o)).
Proof.
  destruct mode; cbn [MasterTasks.GetTimeSyncTask]; [by apply (optional_task_wp true s)|by apply (optional_task_wp true s)|].
  rewrite wp_ret. apply adds_refl.
Qed.

Lemma make_tasks_wp s p m : params_ok p ->
  wp (MasterTasks.make s p) m (fun x m' => exists ids, adds s m m' ids /\ ids ≡ₚ MasterTasks.all_tasks x).
Proof.
  intros Hp. pose proof (RetryBehavior_ok p Hp) as Hb. unfold MasterTasks.make.
  rewrite wp_bind. eapply wp_mono; [by apply make_task_wp; [apply IIN_only_ok|..]|]. cbv beta. intros i1 m1 A1.
  rewrite wp_bind. eapply wp_mono; [by apply make_task_wp|]. cbv beta. intros i2 m2 A2.
  rewrite wp_bind. eapply wp_mono; [by apply make_task_wp|]. cbv beta. intros i3 m3 A3.
  rewrite wp_bind. eapply wp_mono; [by apply make_task_wp; [apply IIN_only_ok|..]|]. cbv beta. intros i4 m4 A4.
  rewrite wp_bind. eapply wp_mono; [by apply optional_task_wp|]. cbv beta. intros o5 m5 A5.
  rewrite wp_bind. eapply wp_mono; [by apply optional_task_wp|]. cbv beta. intros o6 m6 A6.
  rewrite wp_bind. eapply wp_mono; [by apply GetTimeSyncTask_wp|]. cbv beta. intros o7 m7 A7. rewrite wp_ret.
  exists ([i1] ++ [i2] ++ [i3] ++ [i4] ++ option_list o5 ++ option_list o6 ++ option_list o7).
  split; [repeat (eapply adds_trans; [eassumption|]); exact A7|]. unfold MasterTasks.all_tasks.
  cbn [clearRestart assignClass startupIntegrity eventScan enableUnsol disableUnsol timeSynchronization boundTasks app]. rewrite app_nil_r.
  do 4 f_equiv. rewrite !app_assoc. f_equiv. apply Permutation_app_comm.
Qed.

Lemma NewSession_wp a p m : in_order m -> params_ok p -> wp (MasterChannel.handle (NewSession a p)) m (settled m).
Proof.
  intros Ho Hp. cbn [MasterChannel.handle]. unfold MContext.make. rewrite !wp_bind, wp_get, wp_bind.
  eapply wp_mono; [by apply make_tasks_wp|]. cbv beta. intros x m1 (ids & (ts & -> & Hids & Hts) & Hperm). rewrite wp_bind. unfold modify at 1. cbn [wp].
  set (c := mkMContext _ _ _ _ _ _ _ _ _ _ _ _). change (wp (mret tt) (grown ts [c] m) (settled m)). rewrite wp_ret.
  assert (Hin : forall i, i ∈ MasterTasks.all_tasks x -> exists k t, i = (length (store m) + k)%nat /\ ts !! k = Some t).
  { intros i Hi. rewrite <- Hperm, Hids in Hi. apply elem_of_seq in Hi. exists (i - length (store m))%nat.
    destruct (lookup_lt_is_Some_2 ts (i - length (store m))) as [t Ht]; [lia|]. exists t. split; [lia|done]. }
  split; [|apply calm_conserves, calm_grown; by constructor]. apply in_order_grown; [done| |].
  - eapply Forall_impl; [exact Hts|]. cbv beta. intros t (Ht & -> & _). split; [done|]. rewrite length_app. cbn. lia.
  - intros [|k] d Hk; [|done]. injection Hk as <-. split; [done|]. rewrite Nat.add_0_r. split.
    + done.
    + cbn. rewrite length_replicate. destruct Hp as [_ _ _ Hsz]. lia.
    + constructor.
    + cbn. intros i Hi. destruct (Hin i Hi) as (k & t & -> & Hk'). exists t. rewrite lookup_app_r by lia. replace (_ - _)%nat with k by lia. split; [done|].
      by apply (Forall_lookup_1 _ _ _ _ Hts Hk').
    + cbn. rewrite <- Hperm, Hids. apply NoDup_seq.
Qed.

(** ** Every event *)

(** What the executor and the application may do: sessions and tasks exist, arguments
    are of their types, and writers of requests write objects.  The function codes of
    commands and confirmations are not left to the application. *)
Definition event_ok m (e : MasterEvent) : Prop :=
  match e with
  | NewSession _ p => params_ok p
  | LowerLayerUp s | LowerLayerDown s | TxReady s | ResponseTimer s | RequestRestart s _ _ _ => is_Some (sessions m !! s)
  | Receive s _ payload => is_Some (sessions m !! s) /\ bytes_ok payload /\ Z.of_nat (length payload) < 4294967296
  | TaskTimer | StartTimer | RunPosted => True
  | DemandScan i => (i < length (store m))%nat
  | RequestDirectOperate s commands _ _ | RequestSelectAndOperate s commands _ _ =>
      is_Some (sessions m !! s) /\ Forall header_fits commands /\ Forall CommandProps.fresh commands
  | RequestAddScan s period builder _ => is_Some (sessions m !! s) /\ is_i64 period /\ builds builder
  | RequestScan s builder _ => is_Some (sessions m !! s) /\ builds builder
  | RequestWrite s value _ _ => is_Some (sessions m !! s) /\ shaped GroupVariation.Group50Var4 value
  | RequestFunction s func builder _ => is_Some (sessions m !! s) /\ builds builder /\ func <> OPERATE /\ func <> CONFIRM
  end.

(** The confirmations that an event makes due. *)
Definition due m (e : MasterEvent) : nat -> list APDUHeader :=
  match e with
  | Receive s address payload => due_of s match sessions m !! s with Some c => due_confirm c address payload | None => [] end
  | _ => nothing_due
  end.

(** What the sessions learn from an event. *)
Definition learns m (e : MasterEvent) : Prop :=
  match e with
  | Receive s address payload => forall c objects, sessions m !! s = Some c -> accepted c address payload = Some objects -> selects R s objects
  | _ => True
  end.

Lemma request_wp s c k config m (p : SM (Master W) unit) :
  p = MContext.schedule_single s k config -> in_order m -> sessions m !! s = Some c -> kind_fits k -> not_started k -> wp p m (settled m).
Proof. intros ->. apply schedule_single_wp. Qed.

Lemma command_request_wp s c codes commands callback config m :
  in_order m -> sessions m !! s = Some c -> Forall header_fits commands -> Forall CommandProps.fresh commands ->
  codes = [SELECT; OPERATE] \/ codes = [DIRECT_OPERATE] ->
  wp (d ← the_session s; MContext.schedule_single s (CommandTask codes callback commands (controlQualifierMode (params d))) config) m (settled m).
Proof. intros Ho Hs Hf Hfr Hc. rewrite wp_bind. eapply wp_session; [exact Hs|]. by eapply schedule_single_wp. Qed.

(** What an event does when nothing is due. *)
Lemma settled_unit {A} (p : SM (Master W) A) m :
  wp p m (fun _ m' => in_order m' /\ conserves nothing_due m m') -> wp (_ ← p; mret tt) m (settled m).
Proof. intros Hp. rewrite wp_bind. eapply wp_mono; [exact Hp|]. cbv beta. intros a m' H'. by rewrite wp_ret. Qed.

Lemma channel_handle_wp e m : in_order m -> event_ok m e -> learns m e ->
  wp (MasterChannel.handle e) m (fun _ m' => in_order m' /\ conserves (due m e) m m').
Proof.
  intros Ho He Hl. destruct e; cbn [event_ok learns due] in *; try match type of He with is_Some _ /\ _ => destruct He as [[c Hs] He] | is_Some _ => destruct He as [c Hs] end.
  - by apply NewSession_wp.
  - cbn [MasterChannel.handle]. by eapply settled_unit, session_OnLowerLayerUp_wp.
  - cbn [MasterChannel.handle]. by eapply settled_unit, session_OnLowerLayerDown_wp.
  - cbn [MasterChannel.handle]. rewrite wp_bind, Hs. destruct He as [Hb Hlen]. eapply wp_mono; [apply (session_OnReceive_wp R s c); [done..|]; intros objects; by apply Hl|].
    cbv beta. intros a m' H'. by rewrite wp_ret.
  - cbn [MasterChannel.handle]. by eapply settled_unit, session_OnTxReady_wp.
  - by eapply ResponseTimer_wp.
  - by apply TaskTimer_wp.
  - by apply StartTimer_wp.
  - by apply RunPosted_wp.
  - by apply DemandScan_wp.
  - destruct He as [Hf Hfr]. eapply command_request_wp; [done..|by right].
  - destruct He as [Hf Hfr]. eapply command_request_wp; [done..|by left].
  - destruct He as [Hp Hb]. by eapply AddScan_wp.
  - by eapply request_wp.
  - eapply request_wp; [done..| |done]. split; [|done]. by apply builds_WriteSingleIndexedValue; [apply _|].
  - eapply request_wp; [done..| |done]. cbn. destruct cold; [by left|by right].
  - destruct He as (Hb & Hne). by eapply request_wp.
Qed.

End Requests.
