(* ===== verification/MasterProps.v ===== *)
(** * MasterProps: what a channel of masters guarantees

    [reachable] collects the runs of a channel: the answers that its sessions accepted,
    the confirmations that became due, and the state. *)

From S2P Require Import Prelude Slices Serialization LinkFrame Transport AppHeader Objects ObjectParser HeaderWriter HeaderRoundtrip OutstationState RequestHandlers EventWriters EventResponse RequestSpecs TaskBehavior CommandSet CommandProps MeasurementHandler MeasurementProps MasterState MasterTask MasterScheduler Master RequestBuilding MasterSpecs MasterMethods MasterSession MasterMachine MasterEvents MasterRequests.

From stdpp Require Import gmap.

Open Scope Z_scope.

(** ** Runs *)

Section Runs.
Context {W : Type} `{MasterEnvironmentOk W}.
Implicit Types (m : Master W) (s : nat) (c : MContext).

(** The answer that a session accepts in an event. *)
Definition answer m (e : MasterEvent) : list (nat * RSlice) :=
  match e with
  | Receive s address payload =>
      match sessions m !! s with
      | Some c => match accepted c address payload with Some objects => [(s, objects)] | None => [] end
      | None => []
      end
  | _ => []
  end.

(** The commands that an accepted answer has selected: it repeats all of them, with success. *)
Definition selected (answers : list (nat * RSlice)) s (set : CommandSet) : Prop :=
  exists objects asked, (s, objects) ∈ answers /\ Forall CommandProps.fresh asked /\
    CommandSetOps.ProcessSelectResponse asked objects = Some (set, SELECT_OK).

Inductive reachable (w : W) : list (nat * RSlice) -> (nat -> list APDUHeader) -> Master W -> Prop :=
  | reach_init : reachable w [] nothing_due (MasterChannel.init w)
  | reach_step answers dues m e m' :
      reachable w answers dues m -> event_ok m e -> MasterChannel.handle e m = Some (m', tt) ->
      reachable w (answers ++ answer m e) (fun j => dues j ++ due m e j) m'.

Lemma prepared_mono R R' s k : (forall set, R s set -> R' s set) -> prepared R s k -> prepared R' s k.
Proof. intros HR [Hp|Hp]; [by left|right]. destruct k; try done. destruct Hp as [-> Hp]. split; [done|by apply HR]. Qed.

Lemma machine_mono (R R' : nat -> CommandSet -> Prop) m s c : (forall set, R s set -> R' s set) -> machine_ok R m s c -> machine_ok R' m s c.
Proof.
  intros HR [Hl Hoff Ht Hst Hk]. split; [done..| |done]. destruct (tstate c), (activeTask c) as [i|]; try done.
  destruct Hst as (Hsend & t & Hi & Hp). split; [done|]. exists t. split; [done|by eapply prepared_mono].
Qed.

Lemma order_mono (R R' : nat -> CommandSet -> Prop) m : (forall s set, R s set -> R' s set) -> in_order R m -> in_order R' m.
Proof.
  intros HR [[Hst Hse Hma Hre Hon Hfr Hch Hpo] Haw]. split; [|done]. split; try done.
  intros s c Hx Hs. eapply machine_mono; [by apply HR|by apply Hma].
Qed.

Lemma order_init (R : nat -> CommandSet -> Prop) (w : W) : in_order R (MasterChannel.init w).
Proof.
  split; [|by intros _ ?]. split; try done; [|constructor|..]; cbn.
  - by intros i s Hi%not_elem_of_nil.
  - by intros i Hi%not_elem_of_nil.
Qed.

Lemma selected_mono answers more s set : selected answers s set -> selected (answers ++ more) s set.
Proof. intros (objects & asked & Hin & Ha). exists objects, asked. split; [apply elem_of_app; by left|done]. Qed.

Lemma learns_answer answers m e : learns (selected (answers ++ answer m e)) m e.
Proof.
  destruct e; try done. intros c objects Hs Hacc set set' Hf Hp. exists objects, set. split; [|done].
  apply elem_of_app. right. cbn. rewrite Hs, Hacc. left.
Qed.

(** An event of a channel in order, with what the channel has learnt. *)
Lemma handle_in_order answers m e : in_order (selected answers) m -> event_ok m e ->
  wp (MasterChannel.handle e) m (fun _ m' => in_order (selected (answers ++ answer m e)) m' /\ conserves (selected (answers ++ answer m e)) (due m e) m m').
Proof.
  intros Ho He. apply channel_handle_wp; [|done|apply learns_answer]. eapply order_mono; [|exact Ho]. intros s set. apply selected_mono.
Qed.

Lemma reachable_in_order w answers dues m : reachable w answers dues m -> in_order (selected answers) m.
Proof.
  induction 1 as [|answers dues m e m' _ IH He Hm]; [apply order_init|].
  pose proof (handle_in_order answers m e IH He) as Hw. unfold wp in Hw. rewrite Hm in Hw. apply Hw.
Qed.

(** ** Progress *)

(** At most one task runs on the channel, and its session waits for the end of a
    transmission or, with a timer, for an answer; a channel without a running task will
    look for one; the recurring tasks of a session that is online run or wait. *)
Definition goes_on m : Prop :=
  (forall s c i, sessions m !! s = Some c -> activeTask c = Some i -> current (scheduler m) = Some (i, s)) /\
  match current (scheduler m) with
  | Some (i, s) => exists c, sessions m !! s = Some c /\ isOnline c = true /\ activeTask c = Some i /\
      (tstate c = TASK_READY /\ isSending c = true \/ tstate c = WAIT_FOR_RESPONSE /\ responseTimer c = true)
  | None => tasks (scheduler m) = [] \/ PostedCheck ∈ posted m \/ is_Some (taskTimer (scheduler m))
  end /\
  (forall s c i, sessions m !! s = Some c -> isOnline c = true -> i ∈ MasterTasks.all_tasks (mtasks c) -> (i, s) ∈ scheduled m).

Lemma order_goes_on R m : in_order R m -> goes_on m.
Proof.
  intros [Hok Haw]. assert (Hma : forall s c, sessions m !! s = Some c -> machine_ok R m s c) by (intros s c; by apply (ck_machines _ _ _ Hok)).
  split; [intros s c i Hs; by apply (mk_linked _ _ _ _ (Hma s c Hs))|]. split; [|intros s c i Hs Hon; by apply (mk_tasks _ _ _ _ (Hma s c Hs))].
  destruct (current (scheduler m)) as [[i s]|] eqn:Hcur.
  - destruct (ck_records _ _ _ Hok i s) as (t & Hi & Hctx); [unfold scheduled; rewrite Hcur; left|].
    destruct (ck_store _ _ _ Hok i t Hi) as [_ Hlt]. rewrite Hctx in Hlt. apply lookup_lt_is_Some in Hlt as [c Hs]. exists c.
    destruct (Hma s c Hs) as [Hl Hoff Ht Hst _]. pose proof (proj2 (Hl i) Hcur) as Ha. rewrite Ha in Hst.
    split; [done|]. split; [|split; [done|]].
    + destruct (isOnline c); [done|]. destruct (Hoff eq_refl) as [Hidle _]. by rewrite Hidle in Hst.
    + destruct (tstate c); [done|left; by destruct Hst|right; by rewrite Ht].
  - destruct (decide (tasks (scheduler m) = [])); [by left|right]. by apply Haw.
Qed.

(** C5: The master always goes on: no event that can happen to a channel makes it fail
    (no assertion, no overflow, no use of a missing object), and after it at most one
    task runs, which waits for the end of a transmission or for an answer with a timer;
    otherwise a check for tasks is due; and no recurring task of an online session is lost. *)
Theorem master_goes_on w answers dues m e :
  reachable w answers dues m -> event_ok m e -> exists m', MasterChannel.handle e m = Some (m', tt) /\ goes_on m'.
Proof.
  intros Hr He. pose proof (handle_in_order answers m e (reachable_in_order _ _ _ _ Hr) He) as Hw. unfold wp in Hw.
  destruct (MasterChannel.handle e m) as [[m' []]|]; [|done]. exists m'. split; [done|]. eapply order_goes_on, Hw.
Qed.

(** ** Confirmations *)

(** The second byte of a message is its function code. *)
Definition has_function (fc : FunctionCode) (data : bytes) : bool := bool_decide (data !! 1%nat = Some (FunctionCodeToType fc)).

(** The confirmations among the messages of a session, in order. *)
Definition confirmations_of (j : nat) (cs : list (nat * MasterCall)) : list bytes :=
  List.filter (has_function CONFIRM) (map snd (List.filter (fun sm => (sm.1 =? j)%nat) (messages cs))).

Definition sent_confirmations m (j : nat) : list bytes := confirmations_of j (mcalls (outside m)).

Lemma confirmations_app j cs1 cs2 : confirmations_of j (cs1 ++ cs2) = confirmations_of j cs1 ++ confirmations_of j cs2.
Proof. unfold confirmations_of, messages. by rewrite omap_app, List.filter_app, map_app, List.filter_app. Qed.

Lemma fragment_confirmation R s f : fragment_ok R s f -> has_function CONFIRM (bytes_of f) = bool_decide (is_Some (confirmation f)).
Proof.
  destruct f as [h|data]; cbn.
  - intros Hh. unfold has_function. rewrite Hh. done.
  - intros (k & seq & body & _ & -> & Hne & _). unfold has_function. apply bool_decide_eq_false. cbn.
    intros [= Hf]. by destruct (next_function k).
Qed.

Lemma confirms_sent R j l : Forall (fun sf => fragment_ok R sf.1 sf.2) l ->
  List.filter (has_function CONFIRM) (map snd (List.filter (fun sm => (sm.1 =? j)%nat) (map (fun sf => (sf.1, bytes_of sf.2)) l))) =
  map (fun h => bytes_of (Confirmation h)) (confirms j l).
Proof.
  induction 1 as [|[s f] l Hf _ IH]; [done|]. unfold confirms in *. cbn [map List.filter omap list_omap fst snd] in *.
  destruct (Nat.eqb_spec s j) as [->|Hne]; cbn [map List.filter snd].
  - rewrite decide_True by done. rewrite (fragment_confirmation R j f Hf). destruct f as [h|data]; cbn; by rewrite IH.
  - rewrite decide_False by done. exact IH.
Qed.

(** C13: Confirmations are sent once, in the order in which they become due: those that
    a session has transmitted, followed by those that wait in its queue, are exactly those
    that its accepted messages asked for. *)
Theorem confirmations_in_order w answers dues m j :
  reachable w answers dues m ->
  sent_confirmations m j ++ map (fun h => bytes_of (Confirmation h)) (queue m j) = map (fun h => bytes_of (Confirmation h)) (dues j).
Proof.
  induction 1 as [|answers dues m e m' Hr IH He Hm]; [done|].
  pose proof (handle_in_order answers m e (reachable_in_order _ _ _ _ Hr) He) as Hw. unfold wp in Hw. rewrite Hm in Hw.
  destruct Hw as [_ [l (cs & Hcs & Hms) _ Hf Hc]]. unfold sent_confirmations in *. rewrite Hcs, confirmations_app.
  unfold confirmations_of at 2. rewrite Hms, (confirms_sent _ j l Hf), <- app_assoc, <- map_app, Hc, map_app, app_assoc, IH. by rewrite <- map_app.
Qed.

(** ** Commands *)

Lemma fragment_operate R s f : fragment_ok R s f -> has_function OPERATE (bytes_of f) = true -> exists seq set set' mode body,
  R s set /\ writes (CommandSetOps.Write set mode) (set', true) body /\ bytes_of f = request_header (AppControlField.Request seq) OPERATE ++ body.
Proof.
  unfold has_function. destruct f as [h|data]; cbn.
  - intros Hh. by rewrite Hh.
  - intros (k & seq & body & Hp & -> & _ & Hk) Hop. apply bool_decide_eq_true in Hop. cbn in Hop.
    assert (Hn : next_function k = OPERATE) by (destruct (next_function k); done). clear Hop.
    destruct k as [| | | | | | | | | | |codes cb set mode]; try (by rewrite Hn in Hk).
    destruct Hk as [Hne (set' & Hw)]. destruct Hp as [Hp|[-> HR]].
    + exfalso. destruct Hp as [[-> | ->] _]; done.
    + by exists seq, set, set', mode, body.
Qed.

(** C4: A master operates only what has been selected: every OPERATE that an event makes
    a session transmit has exactly the commands that an answer which this session accepted
    before repeated, all with success. *)
Theorem operate_after_selection w answers dues m e m' cs s data :
  reachable w answers dues m -> event_ok m e -> MasterChannel.handle e m = Some (m', tt) ->
  mcalls (outside m') = mcalls (outside m) ++ cs -> (s, data) ∈ messages cs -> has_function OPERATE data = true ->
  exists seq set set' mode body, selected (answers ++ answer m e) s set /\ writes (CommandSetOps.Write set mode) (set', true) body /\
    data = request_header (AppControlField.Request seq) OPERATE ++ body.
Proof.
  intros Hr He Hm Hcs Hin Hop. pose proof (handle_in_order answers m e (reachable_in_order _ _ _ _ Hr) He) as Hw. unfold wp in Hw. rewrite Hm in Hw.
  destruct Hw as [_ [l (cs' & Hcs' & Hms) _ Hf _]]. rewrite Hcs in Hcs'. apply app_inv_head in Hcs' as <-. rewrite Hms in Hin.
  apply list_elem_of_fmap in Hin as ([s0 f] & E & Hin). cbn in E. injection E as -> ->.
  rewrite Forall_forall in Hf. specialize (Hf _ Hin). by eapply fragment_operate.
Qed.

(** ** Examples of runs *)

(** The state after some events. *)
Definition state_after (w : W) (es : list MasterEvent) : Master W :=
  match MasterChannel.run es (MasterChannel.init w) with Some (m, _) => m | None => MasterChannel.init w end.

Definition allowed_run (w : W) (es : list MasterEvent) : Prop :=
  exists answers dues, MasterChannel.run es (MasterChannel.init w) = Some (state_after w es, tt) /\ reachable w answers dues (state_after w es).

Lemma allowed_nil w : allowed_run w [].
Proof. exists [], nothing_due. split; [done|apply reach_init]. Qed.

Lemma run_app es es' m : MasterChannel.run (es ++ es') m = (_ ← MasterChannel.run es; MasterChannel.run es') m.
Proof.
  revert m. induction es as [|e es IH]; intros m; [done|]. cbn [app MasterChannel.run]. unfold mbind, SM_bind in *.
  destruct (MasterChannel.handle e m) as [[m' []]|]; cbn [mbind option_bind]; [apply IH|done].
Qed.

Lemma allowed_snoc w es e : allowed_run w es -> event_ok (state_after w es) e -> allowed_run w (es ++ [e]).
Proof.
  intros (answers & dues & Hrun & Hr) He. pose proof (handle_in_order answers _ e (reachable_in_order _ _ _ _ Hr) He) as Hw. unfold wp in Hw.
  destruct (MasterChannel.handle e (state_after w es)) as [[m' []]|] eqn:Hm; [|done].
  assert (Hrun' : MasterChannel.run (es ++ [e]) (MasterChannel.init w) = Some (m', tt)).
  { rewrite run_app. unfold mbind, SM_bind. rewrite Hrun. cbn [mbind option_bind MasterChannel.run]. unfold mbind, SM_bind. by rewrite Hm. }
  assert (Hst : state_after w (es ++ [e]) = m') by (unfold state_after; by rewrite Hrun').
  do 2 eexists. rewrite Hst. split; [exact Hrun'|]. by eapply reach_step.
Qed.

Lemma allowed_all w es : (forall k e, es !! k = Some e -> event_ok (state_after w (take k es)) e) -> allowed_run w es.
Proof.
  induction es as [|e es IH] using rev_ind; [intros _; apply allowed_nil|]. intros Hes. apply allowed_snoc.
  - apply IH. intros k e' Hk. pose proof (lookup_lt_Some _ _ _ Hk). rewrite <- (take_app_le es [e]) by lia. apply Hes. by apply lookup_app_l_Some.
  - rewrite <- (take_app_length es [e]). apply Hes. apply list_lookup_middle. done.
Qed.

End Runs.

(** A session without polls selects and operates a relay; the answer to the SELECT and an
    unsolicited message want confirmations. *)
Module Demo.

(** The world is a clock that goes on and stops at the last time; the application wants
    nothing. *)
#[export] Instance ticking : MasterEnvironment Z := {|
  executor_time := fun now => (Z.max 0 (Z.min now INT64_MAX), now + 1);
  application_Now := fun _ now => (now, now);
  AssignClassDuringStartup := fun _ _ => false;
  ConfigureAssignClassRequest := fun _ now => ([], now);
  master_notice := fun _ _ now => now
|}.

#[export] Instance ticking_ok : MasterEnvironmentOk Z.
Proof. intros now. cbn. unfold is_time, INT64_MAX. lia. Qed.

Definition parameters : MasterParams :=
  mkMasterParams 5000 TimeSyncMode_None false false ClassField.None ClassField.None true ClassField.None 5000 60000 10000 64 64 always_two_bytes.

Definition link : Addresses := mkAddresses 1 10.

Definition from_outstation : Addresses := mkAddresses 10 1.

Definition answer_to_select : bytes := [0xE0; 0x81; 0; 0; 12; 1; 40; 1; 0; 3; 0; 3; 1; 100; 0; 0; 0; 100; 0; 0; 0; 0].

Definition unsolicited : bytes := [0xF2; 0x82; 0; 0].

Definition events : list MasterEvent :=
  [NewSession link parameters; LowerLayerUp 0; RequestSelectAndOperate 0 demo_set 7 TaskConfig.Default; RunPosted; TxReady 0;
   Receive 0 from_outstation answer_to_select; Receive 0 from_outstation unsolicited].

Definition channel : Master Z := state_after 10 events.

Lemma parameters_ok : params_ok parameters.
Proof. split; unfold is_i64, is_time, INT64_MIN, INT64_MAX; cbn; lia. Qed.

Ltac session_exists := eexists; vm_compute; reflexivity.

Lemma channel_allowed : allowed_run 10 events.
Proof.
  apply allowed_all. intros k e Hk. destruct k as [|[|[|[|[|[|[|k]]]]]]]; cbn in Hk; try done; injection Hk as <-; cbn [event_ok].
  - apply parameters_ok.
  - session_exists.
  - split; [session_exists|]. split; repeat constructor.
  - done.
  - session_exists.
  - split; [session_exists|]. split; [repeat constructor; unfold is_u8; lia|cbn; lia].
  - split; [session_exists|]. split; [repeat constructor; unfold is_u8; lia|cbn; lia].
Qed.

Lemma channel_reachable : exists answers dues, reachable 10 answers dues channel.
Proof. destruct channel_allowed as (answers & dues & _ & Hr). by exists answers, dues. Qed.

End Demo.

Import Demo.

Lemma master_goes_on_witness : exists m', MasterChannel.handle (TxReady 0) Demo.channel = Some (m', tt) /\ goes_on m'.
Proof.
  destruct channel_reachable as (answers & dues & Hr). apply (master_goes_on 10 answers dues Demo.channel (TxReady 0) Hr).
  cbn [event_ok]. session_exists.
Defined.

(** One confirmation has been sent, the other waits. *)
Lemma confirmations_in_order_witness : exists dues : nat -> list APDUHeader,
  sent_confirmations Demo.channel 0 = [[0xC0; 0]] /\ length (queue Demo.channel 0) = 1%nat /\
  sent_confirmations Demo.channel 0 ++ map (fun h => bytes_of (Confirmation h)) (queue Demo.channel 0) = map (fun h => bytes_of (Confirmation h)) (dues 0%nat).
Proof.
  destruct channel_reachable as (answers & dues & Hr). exists dues. split; [vm_compute; reflexivity|]. split; [vm_compute; reflexivity|].
  exact (confirmations_in_order 10 answers dues Demo.channel 0%nat Hr).
Defined.

Definition demo_operate : bytes := [0xC1; 4; 12; 1; 40; 1; 0; 3; 0; 3; 1; 100; 0; 0; 0; 100; 0; 0; 0; 0].

Lemma operate_after_selection_witness : exists answers seq set set' mode body, selected answers 0%nat set /\
  writes (CommandSetOps.Write set mode) (set', true) body /\ demo_operate = request_header (AppControlField.Request seq) OPERATE ++ body.
Proof.
  destruct channel_reachable as (answers & dues & Hr). exists (answers ++ answer Demo.channel (TxReady 0)).
  destruct (MasterChannel.handle (TxReady 0) Demo.channel) as [[m' []]|] eqn:Hm; [|vm_compute in Hm; discriminate].
  apply (operate_after_selection 10 answers dues Demo.channel (TxReady 0) m' [(0%nat, MasterTransmit link demo_operate)] 0%nat demo_operate Hr).
  - cbn [event_ok]. session_exists.
  - exact Hm.
  - vm_compute in Hm. injection Hm as <-. vm_compute. reflexivity.
  - left.
  - vm_compute. reflexivity.
Defined.
